(* ===== verification/_CoqProject ===== *)
-Q . S2P
Prelude.v
Bits.v
Errors.v
Memory.v
HashPad.v
Sha256.v
Sha256Proofs.v
Sha256Alg.v
Lms.v
LmsGen.v
LmsSpec.v
LmsProofs.v
LmsGenProofs.v
Sha256Fips.v
LmsTheorems.v
Cfi.v
CfiTheorems.v
ImageTypes.v
ImageLayout.v
LmsImage.v
ImageVerify.v
Decides.v
ImageVerifySpec.v
ImageVerifyProofs.v
ImageVerifyExample.v
ImageVerifyTheorems.v
SocIfc.v
Engines.v
FirmwareEnv.v
FirmwareTheorems.v
AuthTypes.v
AuthLists.v
AuthManifest.v
AuthLayout.v
AuthSpec.v
AuthProofs.v
AuthRuns.v
AuthInv.v
AuthTheorems.v
KeyVault.v
KeyVaultProofs.v
Sha512.v
Sha512Proofs.v
Sha512Digest.v
Sha512Fips.v
Pcr.v
MeasuredBoot.v
MeasuredBootProofs.v
MeasuredBootTheorems.v
ImageGen.v
ImageGenProofs.v
ImageGenTheorems.v
Mailbox.v
MailboxDriver.v
MailboxApi.v
MailboxProofs.v
MailboxRuns.v
MailboxServe.v
MailboxTheorems.v
RvTypes.v
RvDecompress.v
RvAlu.v
Clock.v
Pic.v
PicProofs.v
RvCsr.v
RvCpu.v
Buses.v
RvIsa.v
RvAluProofs.v
RvIsaProofs.v
RvCompressed.v
RvInvariants.v
RvMachine.v
RvSystem.v
RvPmp.v
RvLocks.v
RvProtection.v
RvTraps.v
RvTheorems.v
