(* ===== verification/Prelude.v ===== *)
(** * Caliptra: a verification of its firmware, its image tools and its emulator

    Caliptra is a root of trust for systems on chip. Its microcontroller boots
    from ROM, accepts a signed firmware bundle through a mailbox, verifies it
    against keys in fuses and runs it; the running firmware serves commands from
    the SoC through the same mailbox, among them the commands that authorize the
    images of other cores. Host tools generate the bundles, and a software
    emulator stands for the hardware. This development models the parts that
    decide something, executably and function by function, and proves what they
    decide. Paths below are relative to src/.

    ** Parts and files

    Foundations.
    - [Prelude]: outcomes ([result]: value, error, or a stop by panic, failed
      control-flow check or divergence), the state and error monads, machine
      integers as [Z] with explicit wrapping, bytes and words, tactics and hints.
    - [Bits]: bit fields of registers. [Errors]: the table of error codes
      (error/src/lib.rs). [Decides]: what a check decides about a device.

    Hashing and LMS signatures.
    - [Sha256]: the SHA-256 peripheral of the emulator ([Emu],
      sw-emulator/lib/periph/src/hash_sha256.rs) and the driver ([Driver],
      drivers/src/sha256.rs), against the hash of FIPS 180-4 over any compression
      function; [Sha256Proofs] relates them, [Sha256Alg] is the interface to LMS.
    - [Lms] (drivers/src/lms.rs) and [LmsGen] (image/crypto/src/lib.rs): the
      verifier, and key generation and signing; [LmsSpec] is RFC 8554;
      [LmsProofs], [LmsGenProofs], [LmsImage] and [LmsTheorems] relate them.
      [Sha256Fips] instantiates the parameters for the examples.

    Firmware images.
    - [ImageTypes], [ImageLayout]: the manifest and its bytes
      (image/types/src/lib.rs).
    - [ImageVerify]: the verifier (image/verify/src/verifier.rs) over its
      environment, a type class; [ImageVerifySpec] is the contract,
      [ImageVerifyProofs] and [ImageVerifyTheorems] its refinement and
      consequences, [ImageVerifyExample] a bundle that verifies.
    - [ImageGen] (image/gen/src/generator.rs), [ImageGenProofs],
      [ImageGenTheorems]: the generator, and the round trip to the verifier.
    - [SocIfc] (drivers/src/fuse_bank.rs, soc_ifc.rs), [Engines] (the interface
      of the other cryptographic drivers, with their documented results),
      [FirmwareEnv] (common/src/verifier.rs), [FirmwareTheorems]: the environment
      that the drivers provide, and the verifier on it.
    - [Cfi], [CfiTheorems]: control-flow integrity (cfi/lib/src): assertions, the
      assembly of the word comparisons, the masked call counter and the wrapper
      of protected functions.

    Authorization of other images.
    - [AuthTypes], [AuthLists], [AuthLayout]: manifests and lists of image
      metadata (auth-manifest/types/src/lib.rs, runtime/src/manifest.rs).
    - [AuthManifest]: the commands (runtime/src/set_auth_manifest.rs,
      set_owner_auth_manifest.rs, authorize_and_stash.rs, stash_measurement.rs,
      get_image_info.rs); [AuthSpec], [AuthProofs], [AuthRuns], [AuthInv],
      [AuthTheorems]: what they decide, alone and in sequence.

    Keys, hashes of keys and measurements.
    - [KeyVault] (sw-emulator/lib/periph/src/key_vault.rs and the drivers
      drivers/src/key_vault.rs, pcr_bank.rs) and [KeyVaultProofs].
    - [Sha512]: the SHA-384/512 peripheral of the emulator ([Emu512],
      sw-emulator/lib/periph/src/hash_sha512.rs, lib/crypto/src/sha512.rs) with its
      accesses to the vault, and the driver ([Sha2], drivers/src/sha2_512_384.rs);
      [HashPad] (the padding shared with SHA-256), [Sha512Proofs],
      [Sha512Digest], [Sha512Fips] relate them to FIPS 180-4; [Pcr] proves the
      extension of a PCR and the hash of all PCRs.
    - [MeasuredBoot]: what ROM, FMC and runtime measure into PCRs, log and report
      (rom/dev/src/pcr.rs and the measurement command of its mailbox loop,
      fmc/src/flow/pcr.rs, rt_alias.rs, runtime/src/pcr.rs, drivers/src/pcr_log.rs,
      pcr_reset.rs); [MeasuredBootProofs], [MeasuredBootTheorems].

    The mailbox.
    - [Memory]: memories of the emulator (sw-emulator/lib/bus/src/mem.rs, ram.rs).
    - [Mailbox]: the peripheral (sw-emulator/lib/periph/src/mailbox.rs);
      [MailboxDriver]: the firmware's driver (drivers/src/mailbox.rs);
      [MailboxApi]: the host library (api/src/soc_mgr.rs, mailbox.rs, checksum.rs)
      and the command loop of the runtime (runtime/src/mailbox.rs, packet.rs,
      lib.rs); [MailboxProofs], [MailboxRuns], [MailboxServe], [MailboxTheorems].

    The emulated processor (sw-emulator/lib).
    - [RvTypes] (types/src, cpu/src/types.rs, cpu/src/xreg_file.rs),
      [RvDecompress] (cpu/src/instr/compression.rs), [RvAlu]
      (cpu/src/instr/op.rs, op_imm.rs, bit.rs), [RvCsr] (cpu/src/csr_file.rs,
      internal_timers.rs), [RvCpu] (cpu/src/cpu.rs and the other files of
      cpu/src/instr): the processor, from the instruction formats to a step.
    - [Clock] (bus/src/clock.rs), [Pic] and [PicProofs] (cpu/src/pic.rs,
      bus/src/register_array.rs), [Buses] (bus/src/mrac_bus.rs,
      dynamic_bus.rs, rom.rs): what the processor is connected to. Clock,
      interrupt controller and region control are shared between the processor
      and the devices in the code; they are the record [Shared], which every
      operation of the bus receives and returns.
    - [RvIsa], [RvCompressed]: the instruction set as a reference, by the tables of
      the RISC-V manuals, and the list of the words and states on which the
      emulator deviates from it; [RvAluProofs], [RvIsaProofs]: agreement with it.
    - [RvInvariants] (a program logic of triples), [RvMachine], [RvSystem]: the
      invariant of processor and devices; [RvPmp], [RvLocks], [RvProtection],
      [RvTraps]: memory protection, locks, instructions on status registers and
      user mode, traps; [RvTheorems].

    ** What the theorems show

    - Images: what the generator produces is accepted by the verifier; the verifier
      accepts exactly the images of its contract, never panics, and thereby
      guarantees the chain of signatures down to the fuses, load addresses inside
      the memory and without overlap, no rollback, and what an update may not
      change. On the drivers' environment these hold of registers and memory.
    - LMS and SHA-256: signing and verifying round-trip, verification computes
      RFC 8554, the driver on the engine computes SHA-256 however its input is cut.
    - Authorization: after any sequence of commands since boot, an image is
      authorized only on a signed manifest; what each command decides; the lists
      stay sorted and endorsed.
    - Measured boot: the SHA-384/512 driver computes FIPS 180-4 in every way it can
      be used, saved and resumed operations included; extending a PCR is one hash
      of its value and the data; what a cold boot leaves in PCRs and logs; and
      after any sequence of resets and commands the PCR log replays to the current
      PCRs and the history of the log to the journey PCRs.
    - Mailbox: exclusive lock, typed registers, messages and whole commands
      delivered, corruption and failures reported, waiting bounded.
    - Key vault, fuses, control-flow integrity: locks hold until reset under every
      write to the vault, keys round-trip, counters in fuses are monotone, the
      assembly compares, and whatever runs in place of the call of a protected
      function is detected unless it leaves the counter exactly one higher.
    - Processor: every state reached on well-typed devices is well typed, and every
      word is executed as the instruction set says, up to an exact list of
      deviations; compressed words likewise; accesses obey the protection entries
      of the registers that the emulator consults, which are all of them while no
      entry is locked; locked entries stay, user code is confined, traps
      round-trip, the clock with its wrapping counter implements a timer of
      unbounded time, the interrupt controller reports the most urgent interrupt.

    Some theorems state a defect exactly: the mailbox that stays locked after an
    oversized request ([mbox_oversized_send_wedges]), the usage bit of keys that is
    lost ([kv_usage_readback]), the protection entry that no longer protects
    although it is locked ([cpu_pmp_lock_sidestepped]), the quote whose digest is
    not over the nonce as it was sent ([quote_digest]), the external interrupt
    after which a user program continues in machine mode ([cpu_trap_roundtrip]),
    the instructions that are not executed as the manuals say
    ([cpu_executes_isa]).

    ** Bounds and fuel

    Loops that are not structural take fuel, and the theorems are about enough of
    it: the walk up a Merkle tree 32 levels for 32-bit node numbers, merging as
    many rounds as the tree is high, binary search and overlap test the length of
    their lists, the assembly machine 80 steps for blocks without loops, waiting
    for the mailbox one round per cycle of the time-out that the code counts down,
    firing of actions one more than there are, waiting for the SHA-384/512 engine
    five of its scheduled events, of which it never has more than four. Delays and polls that depend on a
    device are bounded by a hypothesis on the device where the code relies on one.
    Compressed instructions are compared on all 65536 words by evaluation.

    ** Assumptions

    Code outside the sources is a parameter: the compression function of the
    [sha2] crate ([Sha2Compress], [Sha512Compress]), the host's hasher and cryptographic library
    ([Sha256Hasher], [ImageGeneratorCrypto]), the DICE protection environment
    ([RuntimeDpe]), the device behind the host library ([SocManager]). The drivers
    of the ECC, ML-DSA, SHA-384 and SHA-3 engines are an interface with their
    documented results ([Engines], [EnginesOk]), as are the signatures of a quote
    ([PcrSigner]). Each has an instance on which the
    theorems are exercised. The iteration order of hash sets is an argument.

    ** Not modelled

    - The boot flows of ROM and FMC (rom/dev, fmc) other than verification and
      measurement, and the key derivation, DPE, OCP LOCK and
      cryptographic-mailbox commands of the runtime: sequences of operations on the ECC, ML-DSA, HMAC, AES and DOE engines, whose drivers
      (drivers/src) and emulations (sw-emulator/lib/periph/src) are register
      shells around hardware or third-party crates, and on the DPE library, a
      submodule that the sources do not contain.
    - Certificates and attestation tokens (x509, common/eat): templates that the
      build generates, and encoders that no modelled component calls.
    - The SoC registers, DMA, MCI and UART of the emulator and its root bus:
      register files without a protocol of their own. The code that the derive
      macro generates is modelled where a device's behaviour depends on it.
    - Command-line tools, file formats read by third-party parsers, hw-model, test
      harnesses and continuous integration: input and output.
    - Generated register definitions, other than the fields that the modelled
      drivers use, and their generator (ureg, systemrdl).
    - The C host library (libcaliptra) and the assembly start-up code. *)

From Stdlib Require Export ZArith Lia.
From stdpp Require Export base list option numbers sets.

#[export] Set Default Goal Selector "!".

Declare Scope caliptra_scope.
Delimit Scope caliptra_scope with cal.

#[global] Open Scope Z_scope.

(** * Outcomes of a computation *)

(** [CaliptraError] is a newtype over a non-zero 32-bit code. *)
Definition CaliptraError := Z.

(** The reasons for which firmware code stops without returning: a failed
    control-flow-integrity assertion, a Rust panic (slice index out of range,
    [unwrap] of [None]) and a wait loop whose condition never becomes true. *)
Inductive CfiPanicInfo :=
  | CounterCorrupt | CounterOverflow | CounterUnderflow | CounterMismatch
  | AssertEqFail | AssertNeFail | AssertGtFail | AssertLtFail | AssertGeFail
  | AssertLeFail | TrngError | UnexpectedMatchBranch | UnknownError.

Inductive abort :=
  | CfiPanic (info : CfiPanicInfo)
  | Panic
  | Diverge.

(** The value of a fallible computation: [Ok] and [Err] are Rust's [Result],
    [Abort] is a computation that never returns to its caller. *)
Inductive result (E A : Type) :=
  | Ok (a : A)
  | Err (e : E)
  | Abort (why : abort).
Arguments Ok {E A} a.
Arguments Err {E A} e.
Arguments Abort {E A} why.

(** [CaliptraResult]. *)
Abbreviation res := (result CaliptraError).

#[export] Instance CfiPanicInfo_eq_dec : EqDecision CfiPanicInfo.
Proof. solve_decision. Defined.
#[export] Instance abort_eq_dec : EqDecision abort.
Proof. solve_decision. Defined.
#[export] Instance result_eq_dec {E A} `{EqDecision E, EqDecision A} : EqDecision (result E A).
Proof. solve_decision. Defined.

#[export] Instance res_ret {E} : MRet (result E) := @Ok E.
#[export] Instance res_bind {E} : MBind (result E) := λ A B f r,
  match r with Ok a => f a | Err e => Err e | Abort w => Abort w end.
#[export] Instance res_fmap {E} : FMap (result E) := λ A B f r,
  match r with Ok a => Ok (f a) | Err e => Err e | Abort w => Abort w end.

(** [Option::ok_or]. *)
Definition ok_or {E A} (o : option A) (e : E) : result E A :=
  match o with Some a => Ok a | None => Err e end.

(** [Option::unwrap], and indexing: [None] panics. *)
Definition unwrap {E A} (o : option A) : result E A :=
  match o with Some a => Ok a | None => Abort Panic end.

(** Stateful fallible code: the state survives an error. *)
Definition MM (E S A : Type) : Type := S → result E A * S.
Abbreviation M := (MM CaliptraError).

#[export] Instance M_ret {E S} : MRet (MM E S) := λ A a s, (Ok a, s).
#[export] Instance M_bind {E S} : MBind (MM E S) := λ A B f m s,
  match m s with
  | (Ok a, s') => f a s'
  | (Err e, s') => (Err e, s')
  | (Abort w, s') => (Abort w, s')
  end.

Definition fail {E S A} (e : E) : MM E S A := λ s, (Err e, s).
Definition stop {E S A} (w : abort) : MM E S A := λ s, (Abort w, s).
Definition lift {E S A} (r : result E A) : MM E S A := λ s, (r, s).
Definition get {E S A} (f : S → A) : MM E S A := λ s, (Ok (f s), s).
Definition modify {E S} (f : S → S) : MM E S unit := λ s, (Ok tt, f s).

(** [if b { return Err(e) }]. *)
Definition fail_if {E S} (b : bool) (e : E) : MM E S unit :=
  if b then fail e else mret tt.
Definition err_if {E} (b : bool) (e : E) : result E unit :=
  if b then Err e else Ok tt.

(** An operation that panics under a condition (indexing, underflow). *)
Definition err_if_panic {E} (b : bool) : result E unit :=
  if b then Abort Panic else Ok tt.

(** [Result::map_err] where the closure also changes the state. *)
Definition map_err {E S A} (m : MM E S A) (f : E → S → E * S) : MM E S A :=
  λ s, match m s with
       | (Err e, s') => let '(e', s'') := f e s' in (Err e', s'')
       | r => r
       end.

(** [.map_err(|_| e)]. *)
Definition to_err {E S A} (m : MM E S A) (e : E) : MM E S A := map_err m (λ _ s, (e, s)).

(** [let _ = m]: an error is dropped. *)
Definition ignore_err {E S} (m : MM E S unit) : MM E S unit :=
  λ s, match m s with
       | (Err _, s') => (Ok tt, s')
       | r => r
       end.

(** [let r = m] without [?]: the outcome is a value. *)
Definition catch {E S A} (m : MM E S A) : MM E S (result E A) :=
  λ s, match m s with
       | (Abort w, s') => (Abort w, s')
       | (r, s') => (Ok r, s')
       end.

(** ** Reasoning about the two monads *)

Section MonadFacts.
Context {E S A B : Type}.

Lemma bind_ok_inv (m : MM E S A) (f : A → MM E S B) s b s' :
  (m ≫= f) s = (Ok b, s') → ∃ a s1, m s = (Ok a, s1) ∧ f a s1 = (Ok b, s').
Proof.
  unfold mbind, M_bind. destruct (m s) as [[a|e|w] s1] eqn:Em; try discriminate.
  eauto.
Qed.

Lemma bind_ok (m : MM E S A) (f : A → MM E S B) s a s1 :
  m s = (Ok a, s1) → (m ≫= f) s = f a s1.
Proof. unfold mbind, M_bind. by intros ->. Qed.

Lemma bind_err (m : MM E S A) (f : A → MM E S B) s e s1 :
  m s = (Err e, s1) → (m ≫= f) s = (Err e, s1).
Proof. unfold mbind, M_bind. by intros ->. Qed.

Lemma bind_mret (a : A) (f : A → MM E S B) s : ((mret a : MM E S A) ≫= f) s = f a s.
Proof. reflexivity. Qed.

Lemma bind_ext (m : MM E S A) (f g : A → MM E S B) s :
  (∀ a s', f a s' = g a s') → (m ≫= f) s = (m ≫= g) s.
Proof. intros H. unfold mbind, M_bind. by destruct (m s) as [[]]. Qed.

Lemma bind_assoc {C} (m : MM E S A) (f : A → MM E S B) (g : B → MM E S C) s :
  ((m ≫= f) ≫= g) s = (m ≫= λ a, f a ≫= g) s.
Proof. unfold mbind, M_bind. by destruct (m s) as [[]]. Qed.

Lemma bind_unit_ret (m : MM E S unit) s : (m;; mret tt) s = m s.
Proof. unfold mbind, M_bind. by destruct (m s) as [[[]| |]]. Qed.

Lemma bind_modify (g : S → S) (f : unit → MM E S B) s : ((modify g : MM E S unit) ≫= f) s = f tt (g s).
Proof. reflexivity. Qed.

Lemma bind_get (g : S → A) (f : A → MM E S B) s : ((get g : MM E S A) ≫= f) s = f (g s) s.
Proof. reflexivity. Qed.

Lemma bind_lift_ok (r : result E A) (a : A) (f : A → MM E S B) s :
  r = Ok a → (lift r ≫= f) s = f a s.
Proof. by intros ->. Qed.

Lemma bind_fail_if (b : bool) (e : E) (f : unit → MM E S B) s :
  b = false → (fail_if b e ≫= f) s = f tt s.
Proof. by intros ->. Qed.

Lemma res_bind_ok_inv (m : result E A) (f : A → result E B) b :
  (m ≫= f) = Ok b → ∃ a, m = Ok a ∧ f a = Ok b.
Proof. destruct m; simpl; try discriminate. eauto. Qed.

Lemma fail_if_ok_inv (b : bool) (e : E) (s s' : S) u :
  fail_if b e s = (Ok u, s') → b = false ∧ s' = s.
Proof. unfold fail_if, fail, mret, M_ret. destruct b; intros H; by inversion H. Qed.

Lemma err_if_ok_inv (b : bool) (e : E) u : err_if b e = Ok u → b = false.
Proof. unfold err_if. by destruct b. Qed.

Lemma fail_if_false (b : bool) (e : E) (s : S) : b = false → fail_if b e s = (Ok tt, s).
Proof. by intros ->. Qed.

Lemma lift_ok_inv (r : result E A) (s s' : S) a :
  lift r s = (Ok a, s') → r = Ok a ∧ s' = s.
Proof. unfold lift. intros H. by simplify_eq. Qed.

Lemma get_ok_inv (f : S → A) (s s' : S) a :
  (get f : MM E S A) s = (Ok a, s') → a = f s ∧ s' = s.
Proof. unfold get. intros H. by simplify_eq. Qed.

Lemma mret_ok_inv (a a' : A) (s s' : S) :
  (mret a : MM E S A) s = (Ok a', s') → a' = a ∧ s' = s.
Proof. unfold mret, M_ret. intros H. by simplify_eq. Qed.

Lemma ok_or_ok_inv (o : option A) (e : E) a : ok_or o e = Ok a → o = Some a.
Proof. destruct o; simpl; intros H; by simplify_eq. Qed.

Lemma catch_ok (m : MM E S A) s a s' : m s = (Ok a, s') → catch m s = (Ok (Ok a), s').
Proof. unfold catch. by intros ->. Qed.

Lemma catch_err (m : MM E S A) s e s' : m s = (Err e, s') → catch m s = (Ok (Err e), s').
Proof. unfold catch. by intros ->. Qed.

Lemma map_err_ok_inv (m : MM E S A) f s a s' :
  map_err m f s = (Ok a, s') → m s = (Ok a, s').
Proof.
  unfold map_err. destruct (m s) as [[|e|] s1] eqn:Em; try by intros.
  by destruct (f e s1).
Qed.
End MonadFacts.

(** [ok_inv H] decomposes a hypothesis that a monadic computation returned
    [Ok] into the hypotheses that each of its steps did. *)
Ltac ok_inv_step H :=
  lazymatch type of H with
  | (_ ≫= _) _ = (Ok _, _) =>
      let a := fresh "a" in let s1 := fresh "s" in let H1 := fresh "Hok" in
      apply bind_ok_inv in H as (a & s1 & H1 & H); ok_inv_step H1
  | fail_if _ _ _ = (Ok _, _) => apply fail_if_ok_inv in H as [H ?]; subst
  | lift _ _ = (Ok _, _) => apply lift_ok_inv in H as [H ?]; subst
  | get _ _ = (Ok _, _) => apply get_ok_inv in H as [? ?]; subst
  | mret _ _ = (Ok _, _) => apply mret_ok_inv in H as [? ?]; subst
  | fail _ _ = (Ok _, _) => discriminate H
  | stop _ _ = (Ok _, _) => discriminate H
  | _ => idtac
  end.
Ltac ok_inv H := repeat (progress ok_inv_step H).

(** The same for code without state. *)
Lemma unwrap_ok_inv {E A} (o : option A) (a : A) : (unwrap o : result E A) = Ok a → o = Some a.
Proof. destruct o; simpl; congruence. Qed.

Ltac res_inv H :=
  repeat match type of H with
  | (_ ≫= _) = Ok _ => let a := fresh "a" in let H1 := fresh "Hs" in apply res_bind_ok_inv in H as (a & H1 & H)
  end; simplify_eq.

(** * Machine integers *)

(** Reduction of a mathematical integer to a [w]-bit unsigned one: the
    firmware profile compiles without overflow checks, so [+], [-] and [*] on
    [u8], [u16], [u32] and [u64] wrap. *)
Definition wrap (w : Z) (z : Z) : Z := z mod 2 ^ w.
Abbreviation u8w := (wrap 8).
Abbreviation u16w := (wrap 16).
Abbreviation u32w := (wrap 32).
Abbreviation u64w := (wrap 64).

Definition in_u (w : Z) (z : Z) : Prop := 0 ≤ z < 2 ^ w.
Abbreviation is_u8 := (in_u 8).
Abbreviation is_u16 := (in_u 16).
Abbreviation is_u32 := (in_u 32).

#[export] Instance in_u_dec w z : Decision (in_u w z).
Proof. unfold in_u. apply _. Defined.

(** Shifts by an amount that is not below the width use the amount modulo the
    width when overflow checks are off. *)
Definition shl_u32 (x n : Z) : Z := u32w (Z.shiftl x (n mod 32)).

(** [u32::checked_add] and [u32::overflowing_add]. *)
Definition checked_add_u32 (a b : Z) : option Z :=
  if a + b <? 2 ^ 32 then Some (a + b) else None.
Definition overflowing_add_u32 (a b : Z) : Z * bool :=
  (u32w (a + b), 2 ^ 32 <=? a + b).

Lemma wrap_small w z : in_u w z → wrap w z = z.
Proof. apply Z.mod_small. Qed.

Lemma wrap_in_u w z : 0 ≤ w → in_u w (wrap w z).
Proof. intros. apply Z.mod_pos_bound. apply Z.pow_pos_nonneg; lia. Qed.

Lemma wrap_idem w z : 0 ≤ w → wrap w (wrap w z) = wrap w z.
Proof. intros. by apply wrap_small, wrap_in_u. Qed.

(** [lia] after the width constants are evaluated. *)
Ltac ulia :=
  unfold in_u, wrap in *;
  change (2 ^ 8) with 256 in *; change (2 ^ 16) with 65536 in *;
  change (2 ^ 32) with 4294967296 in *; change (2 ^ 64) with 18446744073709551616 in *;
  lia.

(** [lia] for goals with quotients and remainders by constants. *)
Ltac dlia := Z.div_mod_to_equations; lia.

(** * Bytes and words *)

Abbreviation is_bytes := (Forall is_u8).
Abbreviation is_words := (Forall is_u32).

(** [to_be_bytes], [from_be_bytes], [to_le_bytes] and [from_le_bytes] of an
    [8 n]-bit integer. *)
Fixpoint to_be (n : nat) (z : Z) : list Z :=
  match n with
  | O => []
  | S n' => (z / 256 ^ Z.of_nat n') mod 256 :: to_be n' z
  end.

Fixpoint from_be_acc (acc : Z) (l : list Z) : Z :=
  match l with [] => acc | b :: l' => from_be_acc (acc * 256 + b) l' end.
Definition from_be (l : list Z) : Z := from_be_acc 0 l.

Fixpoint to_le (n : nat) (z : Z) : list Z :=
  match n with O => [] | S n' => z mod 256 :: to_le n' (z / 256) end.

Fixpoint from_le (l : list Z) : Z :=
  match l with [] => 0 | b :: l' => b + 256 * from_le l' end.

(** [u32::swap_bytes]. *)
Definition swap_bytes_u32 (z : Z) : Z := from_be (to_le 4 z).

Lemma length_to_be n z : length (to_be n z) = n.
Proof. induction n; simpl; auto. Qed.

Lemma length_to_le n z : length (to_le n z) = n.
Proof. revert z. induction n; simpl; auto. Qed.

Lemma to_be_bytes n z : is_bytes (to_be n z).
Proof.
  induction n; simpl; constructor; auto.
  unfold in_u. apply Z.mod_pos_bound. lia.
Qed.

Lemma to_le_bytes n z : is_bytes (to_le n z).
Proof.
  revert z. induction n; intros; simpl; constructor; auto.
  unfold in_u. apply Z.mod_pos_bound. lia.
Qed.

Lemma from_be_acc_eq acc l :
  from_be_acc acc l = acc * 256 ^ Z.of_nat (length l) + from_be l.
Proof.
  unfold from_be. revert acc. induction l as [|b l IH]; intros; cbn [from_be_acc length].
  - simpl. lia.
  - rewrite IH, (IH (0 * 256 + b)).
    rewrite Nat2Z.inj_succ, Z.pow_succ_r by lia. ring.
Qed.

Lemma from_be_cons b l : from_be (b :: l) = b * 256 ^ Z.of_nat (length l) + from_be l.
Proof. unfold from_be at 1. simpl. by rewrite from_be_acc_eq. Qed.

Lemma from_be_app l1 l2 :
  from_be (l1 ++ l2) = from_be l1 * 256 ^ Z.of_nat (length l2) + from_be l2.
Proof.
  induction l1 as [|b l1 IH]; simpl; [done|].
  rewrite !from_be_cons, IH, length_app, Nat2Z.inj_add, Z.pow_add_r by lia. ring.
Qed.

Lemma from_be_bound l : is_bytes l → 0 ≤ from_be l < 256 ^ Z.of_nat (length l).
Proof.
  induction 1 as [|b l Hb Hl IH].
  - unfold from_be; simpl; lia.
  - rewrite from_be_cons. cbn [length]. rewrite Nat2Z.inj_succ, Z.pow_succ_r by lia.
    unfold in_u in Hb. nia.
Qed.

Lemma from_be_to_be n z : from_be (to_be n z) = z mod 256 ^ Z.of_nat n.
Proof.
  induction n as [|n IH]; [by rewrite Z.mod_1_r|].
  cbn [to_be]. rewrite from_be_cons, length_to_be, IH.
  rewrite Nat2Z.inj_succ, Z.pow_succ_r, (Z.mul_comm 256) by lia.
  rewrite Z.rem_mul_r by (try lia; apply Z.pow_nonzero; lia). ring.
Qed.

Lemma to_be_mod n z k : (n ≤ k)%nat → to_be n (z mod 256 ^ Z.of_nat k) = to_be n z.
Proof.
  induction n as [|n IH]; [done|]. intros Hk. cbn [to_be]. rewrite IH by lia. f_equal.
  replace (Z.of_nat k) with (Z.of_nat n + Z.succ (Z.of_nat (k - S n))) by lia.
  rewrite Z.pow_add_r, Z.pow_succ_r by lia.
  rewrite Z.rem_mul_r by (try apply Z.pow_nonzero; try lia; apply Z.mul_pos_pos; try lia;
    apply Z.pow_pos_nonneg; lia).
  rewrite Z.mul_comm, Z.div_add by (apply Z.pow_nonzero; lia).
  rewrite Z.div_small by (apply Z.mod_pos_bound, Z.pow_pos_nonneg; lia).
  rewrite Z.add_0_l.
  rewrite Z.rem_mul_r by (try lia; apply Z.pow_pos_nonneg; lia).
  rewrite Z.mul_comm, Z.mod_add by lia. by rewrite Z.mod_mod.
Qed.

Lemma to_be_from_be l : is_bytes l → to_be (length l) (from_be l) = l.
Proof.
  induction 1 as [|b l Hb Hl IH]; [done|]. cbn [length to_be].
  assert (0 < 256 ^ Z.of_nat (length l)) by (apply Z.pow_pos_nonneg; lia).
  pose proof (from_be_bound l Hl).
  rewrite from_be_cons. f_equal.
  - rewrite Z.div_add_l, Z.div_small by lia. rewrite Z.add_0_r. by apply Z.mod_small.
  - rewrite <- (to_be_mod (length l) _ (length l)) by lia.
    rewrite Z.add_comm, Z.mod_add, Z.mod_small by lia. done.
Qed.

Lemma to_be_from_be' n l : is_bytes l → length l = n → to_be n (from_be l) = l.
Proof. intros ? <-. by apply to_be_from_be. Qed.

Lemma to_be_inj n z z' :
  0 ≤ z < 256 ^ Z.of_nat n → 0 ≤ z' < 256 ^ Z.of_nat n → to_be n z = to_be n z' → z = z'.
Proof.
  intros Hz Hz' E. apply (f_equal from_be) in E. rewrite !from_be_to_be in E.
  by rewrite !Z.mod_small in E.
Qed.

Lemma from_be_snoc l b : from_be (l ++ [b]) = from_be l * 256 + b.
Proof. rewrite from_be_app. unfold from_be; simpl. lia. Qed.

Lemma to_be_snoc n z : to_be (S n) z = to_be n (z / 256) ++ [z mod 256].
Proof.
  induction n as [|n IH].
  - cbn [to_be]. simpl. by rewrite Z.div_1_r.
  - cbn [to_be] in *. rewrite IH. simpl. f_equal.
    rewrite Z.div_div by (try lia; apply Z.pow_pos_nonneg; lia).
    rewrite <- Z.pow_succ_r by lia. repeat f_equal. lia.
Qed.

Lemma to_le_rev n z : to_le n z = reverse (to_be n z).
Proof.
  revert z. induction n as [|n IH]; intros z; [done|].
  rewrite to_be_snoc, reverse_app. simpl. by rewrite IH.
Qed.

Lemma from_le_rev l : from_le l = from_be (reverse l).
Proof.
  induction l as [|b l IH]; [done|].
  rewrite reverse_cons, from_be_snoc, <- IH. simpl. lia.
Qed.

Lemma from_le_bound l : is_bytes l → 0 ≤ from_le l < 256 ^ Z.of_nat (length l).
Proof. intros. rewrite from_le_rev, <- length_reverse. by apply from_be_bound, Forall_reverse. Qed.

Lemma from_le_to_le n z : from_le (to_le n z) = z mod 256 ^ Z.of_nat n.
Proof. by rewrite from_le_rev, to_le_rev, reverse_involutive, from_be_to_be. Qed.

Lemma to_le_from_le l : is_bytes l → to_le (length l) (from_le l) = l.
Proof.
  intros. rewrite to_le_rev, from_le_rev, <- (length_reverse l).
  rewrite to_be_from_be by (by apply Forall_reverse).
  apply reverse_involutive.
Qed.

Lemma u32_pow : 256 ^ Z.of_nat 4 = 2 ^ 32.
Proof. reflexivity. Qed.

Lemma from_be_to_be_u32 z : is_u32 z → from_be (to_be 4 z) = z.
Proof. intros. rewrite from_be_to_be. by apply Z.mod_small. Qed.

Lemma from_le_to_le_u32 z : is_u32 z → from_le (to_le 4 z) = z.
Proof. intros. rewrite from_le_to_le. by apply Z.mod_small. Qed.

(** Arrays of 32-bit words seen as bytes: [u32::from_be_bytes] and
    [u32::to_be_bytes] applied to every word. *)
Fixpoint words_be (l : list Z) : list Z :=
  match l with
  | a :: b :: c :: d :: l' => from_be [a; b; c; d] :: words_be l'
  | _ => []
  end.
Fixpoint words_le (l : list Z) : list Z :=
  match l with
  | a :: b :: c :: d :: l' => from_le [a; b; c; d] :: words_le l'
  | _ => []
  end.
Definition bytes_be (ws : list Z) : list Z := flat_map (to_be 4) ws.
Definition bytes_le (ws : list Z) : list Z := flat_map (to_le 4) ws.

(** Induction on a list in groups of four elements. *)
Lemma list_ind4 {A} (P : list A → Prop) :
  (∀ l, (length l < 4)%nat → P l) →
  (∀ a b c d l, P l → P (a :: b :: c :: d :: l)) →
  ∀ l, P l.
Proof.
  intros H0 H4. fix IH 1. intros [|a [|b [|c [|d l]]]]; try (apply H0; simpl; lia).
  apply H4, IH.
Qed.

Lemma words_be_bytes_be ws : is_words ws → words_be (bytes_be ws) = ws.
Proof.
  induction 1 as [|w ws Hw Hws IH]; [done|].
  change (bytes_be (w :: ws)) with (to_be 4 w ++ bytes_be ws).
  cbn [to_be app words_be]. rewrite IH. f_equal.
  change (from_be (to_be 4 w) = w). by apply from_be_to_be_u32.
Qed.

Lemma words_le_bytes_le ws : is_words ws → words_le (bytes_le ws) = ws.
Proof.
  induction 1 as [|w ws Hw Hws IH]; [done|].
  change (bytes_le (w :: ws)) with (to_le 4 w ++ bytes_le ws).
  cbn [to_le app words_le]. rewrite IH. f_equal.
  change (from_le (to_le 4 w) = w). by apply from_le_to_le_u32.
Qed.

Lemma bytes_be_inj v v' : is_words v → is_words v' → bytes_be v = bytes_be v' → v = v'.
Proof. intros Hv Hv' E. by rewrite <- (words_be_bytes_be v), E, words_be_bytes_be. Qed.

Lemma bytes_be_words_be l :
  is_bytes l → (4 | Z.of_nat (length l)) → bytes_be (words_be l) = l.
Proof.
  induction l as [l Hl|a b c d l IH] using list_ind4; intros Hb Hd.
  - destruct Hd as [k Hk], l; [done|simpl in *; lia].
  - cbn [words_be]. unfold bytes_be. cbn [flat_map].
    apply (Forall_app _ [a;b;c;d] l) in Hb as [Hb Hl].
    fold (bytes_be (words_be l)). rewrite IH; [|done|].
    + rewrite to_be_from_be' by done. done.
    + destruct Hd as [k Hk]. exists (k - 1). simpl in Hk. lia.
Qed.

Lemma bytes_le_words_le l :
  is_bytes l → (4 | Z.of_nat (length l)) → bytes_le (words_le l) = l.
Proof.
  induction l as [l Hl|a b c d l IH] using list_ind4; intros Hb Hd.
  - destruct Hd as [k Hk], l; [done|simpl in *; lia].
  - cbn [words_le]. unfold bytes_le. cbn [flat_map].
    apply (Forall_app _ [a;b;c;d] l) in Hb as [Hb Hl].
    fold (bytes_le (words_le l)). rewrite IH; [|done|].
    + change 4%nat with (length [a;b;c;d]). rewrite to_le_from_le by done. done.
    + destruct Hd as [k Hk]. exists (k - 1). simpl in Hk. lia.
Qed.

Lemma bytes_be_app l1 l2 : bytes_be (l1 ++ l2) = bytes_be l1 ++ bytes_be l2.
Proof. apply flat_map_app. Qed.

Lemma length_bytes_be ws : length (bytes_be ws) = (4 * length ws)%nat.
Proof.
  induction ws as [|w ws IH]; [done|].
  change (bytes_be (w :: ws)) with (to_be 4 w ++ bytes_be ws).
  rewrite length_app, length_to_be, IH. simpl. lia.
Qed.

Lemma length_bytes_le ws : length (bytes_le ws) = (4 * length ws)%nat.
Proof.
  induction ws as [|w ws IH]; [done|].
  change (bytes_le (w :: ws)) with (to_le 4 w ++ bytes_le ws).
  rewrite length_app, length_to_le, IH. simpl. lia.
Qed.

Lemma bytes_be_bytes ws : is_bytes (bytes_be ws).
Proof. induction ws; [constructor|]. apply Forall_app; split; [apply to_be_bytes|done]. Qed.

Lemma bytes_le_bytes ws : is_bytes (bytes_le ws).
Proof. induction ws; [constructor|]. apply Forall_app; split; [apply to_le_bytes|done]. Qed.

Lemma length_words_be l : length (words_be l) = (length l / 4)%nat.
Proof.
  induction l as [l Hl|a b c d l IH] using list_ind4.
  - destruct l as [|? [|? [|? [|? ?]]]]; simpl in *; (done || lia).
  - cbn [words_be length]. rewrite IH.
    change (S (S (S (S (length l))))) with (1 * 4 + length l)%nat.
    by rewrite Nat.div_add_l.
Qed.

Lemma words_be_words l : is_bytes l → is_words (words_be l).
Proof.
  induction l as [l Hl|a b c d l IH] using list_ind4; intros Hb.
  - destruct l as [|? [|? [|? [|? ?]]]]; simpl in *; first [lia | constructor].
  - apply (Forall_app _ [a;b;c;d] l) in Hb as [Hb Hl].
    constructor; [|auto]. apply (from_be_bound _ Hb).
Qed.

Lemma length_words_le l : length (words_le l) = (length l / 4)%nat.
Proof.
  induction l as [l Hl|a b c d l IH] using list_ind4.
  - destruct l as [|? [|? [|? [|? ?]]]]; simpl in *; (done || lia).
  - cbn [words_le length]. rewrite IH. change (S (S (S (S (length l))))) with (1 * 4 + length l)%nat.
    by rewrite Nat.div_add_l.
Qed.

Lemma words_le_words l : is_bytes l → is_words (words_le l).
Proof.
  induction l as [l Hl|a b c d l IH] using list_ind4; intros Hb.
  - destruct l as [|? [|? [|? [|? ?]]]]; simpl in *; first [lia | constructor].
  - apply (Forall_app _ [a;b;c;d] l) in Hb as [Hb Hl].
    constructor; [|auto]. rewrite from_le_rev. apply (from_be_bound (reverse [a; b; c; d])). by apply Forall_reverse.
Qed.

(** [EndianessTransform for [u8]]: reverses every group of four bytes. *)
Fixpoint change_endianess (l : list Z) : list Z :=
  match l with
  | a :: b :: c :: d :: l' => d :: c :: b :: a :: change_endianess l'
  | _ => l
  end.

Lemma change_endianess_involutive l : change_endianess (change_endianess l) = l.
Proof.
  induction l as [l Hl|a b c d l IH] using list_ind4.
  - destruct l as [|? [|? [|? [|? ?]]]]; simpl in *; (done || lia).
  - simpl. by rewrite IH.
Qed.

Lemma length_change_endianess l : length (change_endianess l) = length l.
Proof.
  induction l as [l Hl|a b c d l IH] using list_ind4.
  - destruct l as [|? [|? [|? [|? ?]]]]; simpl in *; (done || lia).
  - simpl. by rewrite IH.
Qed.

Lemma change_endianess_bytes_le ws : change_endianess (bytes_le ws) = bytes_be ws.
Proof.
  induction ws as [|w ws IH]; [done|].
  change (bytes_le (w :: ws)) with (to_le 4 w ++ bytes_le ws).
  change (bytes_be (w :: ws)) with (to_be 4 w ++ bytes_be ws).
  rewrite to_le_rev. cbn [to_be reverse rev_append app change_endianess].
  unfold reverse. cbn [rev_append app change_endianess]. by rewrite IH.
Qed.

(** * Slices *)

(** [l[a..b]] when it is in range. *)
Definition slice {A} (l : list A) (a b : nat) : list A := take (b - a) (drop a l).

(** [l.get(a..b)]. *)
Definition get_range {A} (l : list A) (a b : Z) : option (list A) :=
  if (a <=? b) && (b <=? Z.of_nat (length l)) then Some (slice l (Z.to_nat a) (Z.to_nat b)) else None.

Lemma get_range_Some {A} (l : list A) a b d :
  get_range l a b = Some d → a ≤ b ≤ Z.of_nat (length l) ∧ d = slice l (Z.to_nat a) (Z.to_nat b).
Proof.
  unfold get_range. case_match eqn:E; [|done]. intros [= <-].
  apply andb_true_iff in E as [?%Z.leb_le ?%Z.leb_le]. done.
Qed.

Lemma slice_app_l {A} (l1 l2 : list A) a b : (b ≤ length l1)%nat → slice (l1 ++ l2) a b = slice l1 a b.
Proof.
  intros Hb. unfold slice. destruct (decide (a ≤ length l1)%nat) as [Ha|Ha].
  - rewrite drop_app_le by done. rewrite take_app_le; [done|]. rewrite length_drop. lia.
  - replace (b - a)%nat with 0%nat by lia. done.
Qed.

Lemma slice_app_r {A} (l1 l2 : list A) a b :
  (length l1 ≤ a)%nat → slice (l1 ++ l2) a b = slice l2 (a - length l1) (b - length l1).
Proof. intros Ha. unfold slice. rewrite drop_app_ge by done. f_equal. lia. Qed.

Lemma slice_split {A} (l : list A) a b c :
  (a ≤ b ≤ c)%nat → slice l a c = slice l a b ++ slice l b c.
Proof.
  intros H. unfold slice. replace (drop b l) with (drop (b - a) (drop a l)) by (rewrite drop_drop; f_equal; lia).
  rewrite take_take_drop. f_equal. lia.
Qed.

Lemma slice_full {A} (l : list A) n : (length l ≤ n)%nat → slice l 0 n = l.
Proof. intros. unfold slice. rewrite drop_0, Nat.sub_0_r. by rewrite take_ge. Qed.

Lemma length_slice {A} (l : list A) a b : (b ≤ length l)%nat → length (slice l a b) = (b - a)%nat.
Proof. intros. unfold slice. rewrite length_take, length_drop. lia. Qed.

Lemma slice_bytes l a b : is_bytes l → is_bytes (slice l a b).
Proof. intros. by apply Forall_take, Forall_drop. Qed.

Lemma slice_slice {A} (l : list A) a b c d :
  (b ≤ d)%nat → (c + d ≤ length l)%nat → slice (slice l c (c + d)) a b = slice l (c + a) (c + b).
Proof.
  intros Hd Hl. unfold slice. rewrite skipn_firstn_comm, take_take, drop_drop. f_equal; lia.
Qed.

(** [l.get(a..)?.get(..n)]. *)
Definition get_slice {A} (l : list A) (a n : nat) : option (list A) :=
  if decide (a + n ≤ length l)%nat then Some (take n (drop a l)) else None.

(** [l[off..off + src.len()].copy_from_slice(src)] when it is in range. *)
Definition splice {A} (l : list A) (off : nat) (src : list A) : list A :=
  take off l ++ src ++ drop (off + length src) l.

Lemma length_splice {A} (l : list A) off src :
  (off + length src ≤ length l)%nat → length (splice l off src) = length l.
Proof.
  intros. unfold splice. rewrite !length_app, length_take, length_drop. lia.
Qed.

Lemma splice_app_mid {A} (l1 m l2 src : list A) :
  length src = length m → splice (l1 ++ m ++ l2) (length l1) src = l1 ++ src ++ l2.
Proof.
  intros Hl. unfold splice. rewrite take_app_length. f_equal. f_equal.
  rewrite app_assoc, drop_app_ge by (rewrite length_app; lia).
  rewrite length_app, Hl. by replace (_ - _)%nat with 0%nat by lia.
Qed.

Lemma splice_bytes l off src : is_bytes l → is_bytes src → is_bytes (splice l off src).
Proof.
  intros. unfold splice. rewrite !Forall_app.
  auto using Forall_take, Forall_drop.
Qed.

(** Consecutive groups of [n] elements, [k] of them ([chunks_exact]). *)
Fixpoint chunks {A} (n k : nat) (l : list A) : list (list A) :=
  match k with
  | O => []
  | S k' => take n l :: chunks n k' (drop n l)
  end.

Lemma length_chunks {A} n k (l : list A) : length (chunks n k l) = k.
Proof. revert l. induction k; intros; simpl; auto. Qed.

Lemma chunks_app_r {A} n k (l l' : list A) :
  (n * k ≤ length l)%nat → chunks n k (l ++ l') = chunks n k l.
Proof.
  revert l. induction k as [|k IH]; intros l Hl; [done|]. cbn [chunks].
  rewrite take_app_le, drop_app_le by lia. rewrite IH; [done|]. rewrite length_drop. lia.
Qed.

Lemma chunks_add {A} n k1 k2 (l : list A) :
  chunks n (k1 + k2) l = chunks n k1 l ++ chunks n k2 (drop (n * k1) l).
Proof.
  revert l. induction k1 as [|k1 IH]; intros l; simpl.
  - by rewrite Nat.mul_0_r, drop_0.
  - rewrite IH, drop_drop. do 3 f_equal. f_equal. lia.
Qed.

(** * Loops *)

(** A [for] loop over [l] that threads a local value. *)
Fixpoint foldM {E S A B} (f : B → A → MM E S B) (b : B) (l : list A) : MM E S B :=
  match l with
  | [] => mret b
  | a :: l' => b' ← f b a; foldM f b' l'
  end.

Fixpoint foldR {E A B} (f : B → A → result E B) (b : B) (l : list A) : result E B :=
  match l with
  | [] => Ok b
  | a :: l' => b' ← f b a; foldR f b' l'
  end.

(** A total loop returns the value of the pure fold. *)
Lemma foldR_pure {E A B} (f : B → A → result E B) (g : B → A → B) b l :
  (∀ b a, a ∈ l → f b a = Ok (g b a)) → foldR f b l = Ok (foldl g b l).
Proof.
  revert b. induction l as [|a l IH]; intros b Hf; [done|]. cbn [foldR foldl].
  rewrite Hf by set_solver. apply IH. intros. apply Hf. set_solver.
Qed.

(** What every step keeps holds of the value of a loop that succeeds. *)
Lemma foldR_inv {E A B} (f : B → A → result E B) (I : list A → B → Prop) b l b' :
  I [] b → (∀ don a x y, I don x → f x a = Ok y → I (don ++ [a]) y) → foldR f b l = Ok b' → I l b'.
Proof.
  intros H0 Hstep. enough (Hgen : ∀ l2 don x, I don x → foldR f x l2 = Ok b' → I (don ++ l2) b') by exact (Hgen l [] b H0).
  induction l2 as [|a l2 IH]; intros don x Hx Hf.
  - injection Hf as <-. by rewrite app_nil_r.
  - cbn [foldR] in Hf. apply res_bind_ok_inv in Hf as (y & Hy & Hf).
    rewrite cons_middle, app_assoc. by apply (IH _ y); [eapply Hstep|].
Qed.

Lemma foldM_app {E S A B} (f : B → A → MM E S B) b l1 l2 s :
  foldM f b (l1 ++ l2) s = (b' ← foldM f b l1; foldM f b' l2) s.
Proof.
  revert b s. induction l1 as [|a l1 IH]; intros b s; [done|].
  simpl. unfold mbind, M_bind. destruct (f b a s) as [[] s1]; [|done..]. apply IH.
Qed.

(** Rule of consequence for loops: an invariant indexed by the elements
    already processed. *)
Lemma foldM_ok {E S A B} (f : B → A → MM E S B) (I : list A → B → S → Prop) l :
  (∀ don a b s, (∃ rest, l = don ++ a :: rest) → I don b s →
     ∃ b' s', f b a s = (Ok b', s') ∧ I (don ++ [a]) b' s') →
  ∀ b s, I [] b s → ∃ b' s', foldM f b l s = (Ok b', s') ∧ I l b' s'.
Proof.
  intros Hstep.
  enough (Hgen : ∀ l2 don b s, l = don ++ l2 → I don b s →
    ∃ b' s', foldM f b l2 s = (Ok b', s') ∧ I l b' s') by (intros b s; by apply (Hgen l [])).
  induction l2 as [|a l2 IH]; intros don b s El HI.
  - rewrite app_nil_r in El. subst. eauto.
  - destruct (Hstep don a b s) as (b1 & s1 & E1 & HI1); [eauto|done|].
    destruct (IH (don ++ [a]) b1 s1) as (b2 & s2 & E2 & HI2); [by rewrite <- app_assoc|done|].
    exists b2, s2. simpl. by rewrite (bind_ok _ _ _ _ _ E1).
Qed.
