(* ===== verification/Bits.v ===== *)
(** Bit fields of 32-bit registers: reading a field, replacing a field, and
    the bit-level laws that the register models share. *)

From S2P Require Import Prelude.

(** [register.read(FIELD)] and [register.modify(FIELD.val(v))] for a field of
    [n] bits at offset [o]. *)
Definition fget (o n r : Z) : Z := Z.land (Z.shiftr r o) (Z.ones n).
Definition fset (o n v r : Z) : Z :=
  Z.lor (Z.ldiff r (Z.shiftl (Z.ones n) o)) (Z.shiftl (Z.land v (Z.ones n)) o).

Lemma ones_bit n i : 0 ≤ n → 0 ≤ i → Z.testbit (Z.ones n) i = (i <? n).
Proof.
  intros Hn Hi. destruct (Z.ltb_spec i n).
  - apply Z.ones_spec_low. lia.
  - apply Z.ones_spec_high. lia.
Qed.

Lemma fget_bit o n r i : 0 ≤ o → 0 ≤ n → 0 ≤ i →
  Z.testbit (fget o n r) i = (i <? n) && Z.testbit r (i + o).
Proof.
  intros. unfold fget. rewrite Z.land_spec, Z.shiftr_spec, ones_bit by lia. by rewrite andb_comm.
Qed.

Lemma fset_bit o n v r i : 0 ≤ o → 0 ≤ n → 0 ≤ i →
  Z.testbit (fset o n v r) i = if (o <=? i) && (i <? o + n) then Z.testbit v (i - o) else Z.testbit r i.
Proof.
  intros. unfold fset. rewrite Z.lor_spec, Z.ldiff_spec, !Z.shiftl_spec by lia.
  destruct (Z.leb_spec o i); simpl.
  - rewrite Z.land_spec, !ones_bit by lia.
    destruct (Z.ltb_spec i (o + n)), (Z.ltb_spec (i - o) n); try lia;
      by rewrite ?andb_false_r, ?andb_true_r, ?orb_false_r, ?orb_false_l.
  - rewrite !(Z.testbit_neg_r _ (i - o)) by lia. by rewrite andb_true_r, orb_false_r.
Qed.

Lemma fget_fset_same o n v r : 0 ≤ o → 0 ≤ n → fget o n (fset o n v r) = Z.land v (Z.ones n).
Proof.
  intros. apply Z.bits_inj'. intros i Hi. rewrite fget_bit, fset_bit, Z.land_spec, ones_bit by lia.
  destruct (Z.ltb_spec i n); simpl; [|by rewrite andb_false_r].
  destruct (Z.leb_spec o (i + o)), (Z.ltb_spec (i + o) (o + n)); try lia. simpl.
  rewrite andb_true_r. f_equal. lia.
Qed.

Lemma fget_fset_other o n o' n' v r :
  0 ≤ o → 0 ≤ n → 0 ≤ o' → 0 ≤ n' → o + n ≤ o' ∨ o' + n' ≤ o →
  fget o n (fset o' n' v r) = fget o n r.
Proof.
  intros. apply Z.bits_inj'. intros i Hi. rewrite !fget_bit, fset_bit by lia.
  destruct (Z.ltb_spec i n); simpl; [|done].
  destruct (Z.leb_spec o' (i + o)), (Z.ltb_spec (i + o) (o' + n')); simpl; (done || lia).
Qed.

(** One-bit fields. *)
Lemma fget1 o r : 0 ≤ o → fget o 1 r = Z.b2z (Z.testbit r o).
Proof.
  intros. apply Z.bits_inj'. intros i Hi. rewrite fget_bit by lia. destruct (Z.ltb_spec i 1).
  - replace i with 0 by lia. rewrite Z.add_0_l. by destruct (Z.testbit r o).
  - destruct (Z.testbit r o); symmetry; [|apply Z.bits_0].
    change (Z.b2z true) with (2 ^ 0). apply Z.pow2_bits_false. lia.
Qed.
