(* ===== verification/Errors.v ===== *)
(** The error codes of the firmware (src/error/src/lib.rs).

    Every constant of [define_error_constants!], in the order of the source,
    the table that the macro builds of them, and the functions on it. *)

From stdpp Require Import strings.
From S2P Require Import Prelude.

Definition DRIVER_BAD_DATASTORE_VAULT_TYPE : CaliptraError := 0x00010001.
Definition DRIVER_BAD_DATASTORE_REG_TYPE : CaliptraError := 0x00010002.
Definition CALIPTRA_INTERNAL : CaliptraError := 0x00010003.
Definition DRIVER_SHA256_INVALID_STATE : CaliptraError := 0x00020001.
Definition DRIVER_SHA256_MAX_DATA : CaliptraError := 0x00020002.
Definition DRIVER_SHA256_INVALID_SLICE : CaliptraError := 0x00020003.
Definition DRIVER_SHA256_INDEX_OUT_OF_BOUNDS : CaliptraError := 0x00020004.
Definition DRIVER_SHA2_512_384_READ_DATA_KV_READ : CaliptraError := 0x00030001.
Definition DRIVER_SHA2_512_384_READ_DATA_KV_WRITE : CaliptraError := 0x00030002.
Definition DRIVER_SHA2_512_384_READ_DATA_KV_UNKNOWN : CaliptraError := 0x00030003.
Definition DRIVER_SHA2_512_384_INVALID_STATE_ERR : CaliptraError := 0x00030007.
Definition DRIVER_SHA2_512_384_MAX_DATA_ERR : CaliptraError := 0x00030008.
Definition DRIVER_SHA2_512_384_INVALID_KEY_SIZE : CaliptraError := 0x00030009.
Definition DRIVER_SHA2_512_384_INVALID_SLICE : CaliptraError := 0x0003000a.
Definition DRIVER_SHA2_512_384_INDEX_OUT_OF_BOUNDS : CaliptraError := 0x0003000b.
Definition DRIVER_SHA2_512_384_ACC_DIGEST_START_OP_FAILURE : CaliptraError := 0x0003000c.
Definition DRIVER_SHA2_512_384ACC_UNEXPECTED_ACQUIRED_LOCK_STATE : CaliptraError := 0x00038000.
Definition DRIVER_HMAC_READ_KEY_KV_READ : CaliptraError := 0x00040001.
Definition DRIVER_HMAC_READ_KEY_KV_WRITE : CaliptraError := 0x00040002.
Definition DRIVER_HMAC_READ_KEY_KV_UNKNOWN : CaliptraError := 0x00040003.
Definition DRIVER_HMAC_READ_DATA_KV_READ : CaliptraError := 0x00040004.
Definition DRIVER_HMAC_READ_DATA_KV_WRITE : CaliptraError := 0x00040005.
Definition DRIVER_HMAC_READ_DATA_KV_UNKNOWN : CaliptraError := 0x00040006.
Definition DRIVER_HMAC_WRITE_TAG_KV_READ : CaliptraError := 0x00040007.
Definition DRIVER_HMAC_WRITE_TAG_KV_WRITE : CaliptraError := 0x00040008.
Definition DRIVER_HMAC_WRITE_TAG_KV_UNKNOWN : CaliptraError := 0x00040009.
Definition DRIVER_HMAC_INVALID_STATE : CaliptraError := 0x0004000b.
Definition DRIVER_HMAC_MAX_DATA : CaliptraError := 0x0004000c.
Definition DRIVER_HMAC_INVALID_SLICE : CaliptraError := 0x0004000d.
Definition DRIVER_HMAC_INDEX_OUT_OF_BOUNDS : CaliptraError := 0x0004000e.
Definition DRIVER_HKDF_SALT_TOO_LONG : CaliptraError := 0x0004000f.
Definition DRIVER_AES_READ_KEY_KV_READ : CaliptraError := 0x00040010.
Definition DRIVER_CMAC_KDF_INVALID_SLICE : CaliptraError := 0x00040011.
Definition DRIVER_CMAC_KDF_INVALID_ROUNDS : CaliptraError := 0x00040012.
Definition DRIVER_ECC384_READ_SEED_KV_READ : CaliptraError := 0x00050001.
Definition DRIVER_ECC384_READ_SEED_KV_WRITE : CaliptraError := 0x00050002.
Definition DRIVER_ECC384_READ_SEED_KV_UNKNOWN : CaliptraError := 0x00050003.
Definition DRIVER_ECC384_WRITE_PRIV_KEY_KV_READ : CaliptraError := 0x00050004.
Definition DRIVER_ECC384_WRITE_PRIV_KEY_KV_WRITE : CaliptraError := 0x00050005.
Definition DRIVER_ECC384_WRITE_PRIV_KEY_KV_UNKNOWN : CaliptraError := 0x00050006.
Definition DRIVER_ECC384_READ_PRIV_KEY_KV_READ : CaliptraError := 0x00050007.
Definition DRIVER_ECC384_READ_PRIV_KEY_KV_WRITE : CaliptraError := 0x00050008.
Definition DRIVER_ECC384_READ_PRIV_KEY_KV_UNKNOWN : CaliptraError := 0x00050009.
Definition DRIVER_ECC384_READ_DATA_KV_READ : CaliptraError := 0x0005000a.
Definition DRIVER_ECC384_READ_DATA_KV_WRITE : CaliptraError := 0x0005000b.
Definition DRIVER_ECC384_READ_DATA_KV_UNKNOWN : CaliptraError := 0x0005000c.
Definition DRIVER_ECC384_KEYGEN_PAIRWISE_CONSISTENCY_FAILURE : CaliptraError := 0x0005000d.
Definition DRIVER_ECC384_SIGN_VALIDATION_FAILED : CaliptraError := 0x0005000e.
Definition DRIVER_ECC384_SCALAR_RANGE_CHECK_FAILED : CaliptraError := 0x0005000f.
Definition DRIVER_ECC384_KEYGEN_BAD_USAGE : CaliptraError := 0x00050010.
Definition DRIVER_ECC384_HW_ERROR : CaliptraError := 0x00050011.
Definition DRIVER_ECC384_ECDH_PAIRWISE_CONSISTENCY_FAILURE : CaliptraError := 0x00050012.
Definition DRIVER_MLDSA87_READ_SEED_KV_READ : CaliptraError := 0x00058000.
Definition DRIVER_MLDSA87_READ_SEED_KV_WRITE : CaliptraError := 0x00058001.
Definition DRIVER_MLDSA87_READ_SEED_KV_UNKNOWN : CaliptraError := 0x00058002.
Definition DRIVER_MLDSA87_HW_ERROR : CaliptraError := 0x00058003.
Definition DRIVER_MLDSA87_SIGN_VALIDATION_FAILED : CaliptraError := 0x00058004.
Definition DRIVER_MLDSA87_KEY_GEN_SEED_BAD_USAGE : CaliptraError := 0x00058005.
Definition DRIVER_MLDSA87_UNSUPPORTED_SIGNATURE : CaliptraError := 0x00058006.
Definition DRIVER_MLDSA87_KEYGEN_PAIRWISE_CONSISTENCY_FAILURE : CaliptraError := 0x00058007.
Definition DRIVER_MLKEM_READ_SEED_KV_READ : CaliptraError := 0x00059000.
Definition DRIVER_MLKEM_READ_SEED_KV_WRITE : CaliptraError := 0x00059001.
Definition DRIVER_MLKEM_READ_SEED_KV_UNKNOWN : CaliptraError := 0x00059002.
Definition DRIVER_MLKEM_HW_ERROR : CaliptraError := 0x00059003.
Definition DRIVER_MLKEM_READ_MSG_KV_READ : CaliptraError := 0x00059004.
Definition DRIVER_MLKEM_READ_MSG_KV_WRITE : CaliptraError := 0x00059005.
Definition DRIVER_MLKEM_READ_MSG_KV_UNKNOWN : CaliptraError := 0x00059006.
Definition DRIVER_MLKEM_KEYGEN_PAIRWISE_CONSISTENCY_FAILURE : CaliptraError := 0x00059007.
Definition DRIVER_KV_ERASE_USE_LOCK_SET_FAILURE : CaliptraError := 0x00060001.
Definition DRIVER_KV_ERASE_WRITE_LOCK_SET_FAILURE : CaliptraError := 0x00060002.
Definition DRIVER_PCR_BANK_ERASE_WRITE_LOCK_SET_FAILURE : CaliptraError := 0x00070001.
Definition DRIVER_RECOVERY_INVALID_CMS_TYPE : CaliptraError := 0x00052000.
Definition DRIVER_RECOVERY_INVALID_CMS : CaliptraError := 0x00052001.
Definition DRIVER_MAILBOX_INVALID_STATE : CaliptraError := 0x00080001.
Definition DRIVER_MAILBOX_INVALID_DATA_LEN : CaliptraError := 0x00080002.
Definition DRIVER_MAILBOX_ENQUEUE_ERR : CaliptraError := 0x00080004.
Definition DRIVER_MAILBOX_UNCORRECTABLE_ECC : CaliptraError := 0x00080005.
Definition DRIVER_MAILBOX_FSM_ERROR : CaliptraError := 0x00080006.
Definition DRIVER_SHA2_512_384ACC_INDEX_OUT_OF_BOUNDS : CaliptraError := 0x00090003.
Definition DRIVER_SHA1_INVALID_STATE : CaliptraError := 0x000a0001.
Definition DRIVER_SHA1_MAX_DATA : CaliptraError := 0x000a0002.
Definition DRIVER_SHA1_INVALID_SLICE : CaliptraError := 0x000a0003.
Definition DRIVER_SHA1_INDEX_OUT_OF_BOUNDS : CaliptraError := 0x000a0004.
Definition DRIVER_OCP_LOCK_COLD_RESET_INVALID_HEK_SEED : CaliptraError := 0x000b0000.
Definition IMAGE_VERIFIER_ERR_MANIFEST_MARKER_MISMATCH : CaliptraError := 0x000b0001.
Definition IMAGE_VERIFIER_ERR_MANIFEST_SIZE_MISMATCH : CaliptraError := 0x000b0002.
Definition IMAGE_VERIFIER_ERR_VENDOR_PUB_KEY_DIGEST_INVALID : CaliptraError := 0x000b0003.
Definition IMAGE_VERIFIER_ERR_VENDOR_PUB_KEY_DIGEST_FAILURE : CaliptraError := 0x000b0004.
Definition IMAGE_VERIFIER_ERR_VENDOR_PUB_KEY_DIGEST_MISMATCH : CaliptraError := 0x000b0005.
Definition IMAGE_VERIFIER_ERR_OWNER_PUB_KEY_DIGEST_FAILURE : CaliptraError := 0x000b0006.
Definition IMAGE_VERIFIER_ERR_OWNER_PUB_KEY_DIGEST_MISMATCH : CaliptraError := 0x000b0007.
Definition IMAGE_VERIFIER_ERR_VENDOR_ECC_PUB_KEY_INDEX_OUT_OF_BOUNDS : CaliptraError := 0x000b0008.
Definition IMAGE_VERIFIER_ERR_VENDOR_ECC_PUB_KEY_REVOKED : CaliptraError := 0x000b0009.
Definition IMAGE_VERIFIER_ERR_HEADER_DIGEST_FAILURE : CaliptraError := 0x000b000a.
Definition IMAGE_VERIFIER_ERR_VENDOR_ECC_VERIFY_FAILURE : CaliptraError := 0x000b000b.
Definition IMAGE_VERIFIER_ERR_VENDOR_ECC_SIGNATURE_INVALID : CaliptraError := 0x000b000c.
Definition IMAGE_VERIFIER_ERR_VENDOR_ECC_PUB_KEY_INDEX_MISMATCH : CaliptraError := 0x000b000d.
Definition IMAGE_VERIFIER_ERR_OWNER_ECC_VERIFY_FAILURE : CaliptraError := 0x000b000e.
Definition IMAGE_VERIFIER_ERR_OWNER_ECC_SIGNATURE_INVALID : CaliptraError := 0x000b000f.
Definition IMAGE_VERIFIER_ERR_TOC_ENTRY_COUNT_INVALID : CaliptraError := 0x000b0010.
Definition IMAGE_VERIFIER_ERR_TOC_DIGEST_FAILURE : CaliptraError := 0x000b0011.
Definition IMAGE_VERIFIER_ERR_TOC_DIGEST_MISMATCH : CaliptraError := 0x000b0012.
Definition IMAGE_VERIFIER_ERR_FMC_DIGEST_FAILURE : CaliptraError := 0x000b0013.
Definition IMAGE_VERIFIER_ERR_FMC_DIGEST_MISMATCH : CaliptraError := 0x000b0014.
Definition IMAGE_VERIFIER_ERR_RUNTIME_DIGEST_FAILURE : CaliptraError := 0x000b0015.
Definition IMAGE_VERIFIER_ERR_RUNTIME_DIGEST_MISMATCH : CaliptraError := 0x000b0016.
Definition IMAGE_VERIFIER_ERR_FMC_RUNTIME_OVERLAP : CaliptraError := 0x000b0017.
Definition IMAGE_VERIFIER_ERR_FMC_RUNTIME_INCORRECT_ORDER : CaliptraError := 0x000b0018.
Definition IMAGE_VERIFIER_ERR_OWNER_ECC_PUB_KEY_INVALID_ARG : CaliptraError := 0x000b0019.
Definition IMAGE_VERIFIER_ERR_OWNER_ECC_SIGNATURE_INVALID_ARG : CaliptraError := 0x000b001a.
Definition IMAGE_VERIFIER_ERR_VENDOR_ECC_PUB_KEY_INVALID_ARG : CaliptraError := 0x000b001b.
Definition IMAGE_VERIFIER_ERR_VENDOR_ECC_SIGNATURE_INVALID_ARG : CaliptraError := 0x000b001c.
Definition IMAGE_VERIFIER_ERR_UPDATE_RESET_OWNER_DIGEST_FAILURE : CaliptraError := 0x000b001d.
Definition IMAGE_VERIFIER_ERR_UPDATE_RESET_VENDOR_ECC_PUB_KEY_IDX_MISMATCH : CaliptraError := 0x000b001e.
Definition IMAGE_VERIFIER_ERR_UPDATE_RESET_FMC_DIGEST_MISMATCH : CaliptraError := 0x000b001f.
Definition IMAGE_VERIFIER_ERR_FMC_LOAD_ADDR_INVALID : CaliptraError := 0x000b0021.
Definition IMAGE_VERIFIER_ERR_FMC_LOAD_ADDR_UNALIGNED : CaliptraError := 0x000b0022.
Definition IMAGE_VERIFIER_ERR_FMC_ENTRY_POINT_INVALID : CaliptraError := 0x000b0023.
Definition IMAGE_VERIFIER_ERR_FMC_ENTRY_POINT_UNALIGNED : CaliptraError := 0x000b0024.
Definition IMAGE_VERIFIER_ERR_RUNTIME_LOAD_ADDR_INVALID : CaliptraError := 0x000b0028.
Definition IMAGE_VERIFIER_ERR_RUNTIME_LOAD_ADDR_UNALIGNED : CaliptraError := 0x000b0029.
Definition IMAGE_VERIFIER_ERR_RUNTIME_ENTRY_POINT_INVALID : CaliptraError := 0x000b002a.
Definition IMAGE_VERIFIER_ERR_RUNTIME_ENTRY_POINT_UNALIGNED : CaliptraError := 0x000b002b.
Definition IMAGE_VERIFIER_ERR_FIRMWARE_SVN_GREATER_THAN_MAX_SUPPORTED : CaliptraError := 0x000b002c.
Definition IMAGE_VERIFIER_ERR_FIRMWARE_SVN_LESS_THAN_FUSE : CaliptraError := 0x000b002e.
Definition IMAGE_VERIFIER_ERR_IMAGE_LEN_MORE_THAN_BUNDLE_SIZE : CaliptraError := 0x000b002f.
Definition IMAGE_VERIFIER_ERR_VENDOR_PQC_PUB_KEY_INDEX_MISMATCH : CaliptraError := 0x000b0030.
Definition IMAGE_VERIFIER_ERR_VENDOR_LMS_VERIFY_FAILURE : CaliptraError := 0x000b0031.
Definition IMAGE_VERIFIER_ERR_VENDOR_PQC_PUB_KEY_INDEX_OUT_OF_BOUNDS : CaliptraError := 0x000b0032.
Definition IMAGE_VERIFIER_ERR_VENDOR_LMS_SIGNATURE_INVALID : CaliptraError := 0x000b0033.
Definition IMAGE_VERIFIER_ERR_FMC_RUNTIME_LOAD_ADDR_OVERLAP : CaliptraError := 0x000b0034.
Definition IMAGE_VERIFIER_ERR_OWNER_LMS_VERIFY_FAILURE : CaliptraError := 0x000b0036.
Definition IMAGE_VERIFIER_ERR_OWNER_LMS_SIGNATURE_INVALID : CaliptraError := 0x000b0038.
Definition IMAGE_VERIFIER_ERR_VENDOR_PQC_PUB_KEY_REVOKED : CaliptraError := 0x000b003a.
Definition IMAGE_VERIFIER_ERR_FMC_SIZE_ZERO : CaliptraError := 0x000b003b.
Definition IMAGE_VERIFIER_ERR_RUNTIME_SIZE_ZERO : CaliptraError := 0x000b003c.
Definition IMAGE_VERIFIER_ERR_UPDATE_RESET_VENDOR_PQC_PUB_KEY_IDX_MISMATCH : CaliptraError := 0x000b003d.
Definition IMAGE_VERIFIER_ERR_FMC_LOAD_ADDRESS_IMAGE_SIZE_ARITHMETIC_OVERFLOW : CaliptraError := 0x000b003e.
Definition IMAGE_VERIFIER_ERR_RUNTIME_LOAD_ADDRESS_IMAGE_SIZE_ARITHMETIC_OVERFLOW : CaliptraError := 0x000b003f.
Definition IMAGE_VERIFIER_ERR_TOC_ENTRY_RANGE_ARITHMETIC_OVERFLOW : CaliptraError := 0x000b0040.
Definition IMAGE_VERIFIER_ERR_DIGEST_OUT_OF_BOUNDS : CaliptraError := 0x000b0041.
Definition IMAGE_VERIFIER_ERR_ECC_KEY_DESCRIPTOR_VERSION_MISMATCH : CaliptraError := 0x000b0042.
Definition IMAGE_VERIFIER_ERR_ECC_KEY_DESCRIPTOR_HASH_COUNT_GT_MAX : CaliptraError := 0x000b0043.
Definition IMAGE_VERIFIER_ERR_PQC_KEY_DESCRIPTOR_VERSION_MISMATCH : CaliptraError := 0x000b0044.
Definition IMAGE_VERIFIER_ERR_PQC_KEY_DESCRIPTOR_TYPE_MISMATCH : CaliptraError := 0x000b0045.
Definition IMAGE_VERIFIER_ERR_PQC_KEY_DESCRIPTOR_HASH_COUNT_GT_MAX : CaliptraError := 0x000b0046.
Definition IMAGE_VERIFIER_ERR_ECC_KEY_DESCRIPTOR_INVALID_HASH_COUNT : CaliptraError := 0x000b0047.
Definition IMAGE_VERIFIER_ERR_PQC_KEY_DESCRIPTOR_INVALID_HASH_COUNT : CaliptraError := 0x000b0048.
Definition IMAGE_VERIFIER_ERR_PQC_KEY_TYPE_INVALID : CaliptraError := 0x000b0049.
Definition IMAGE_VERIFIER_ERR_LMS_VENDOR_PUB_KEY_INVALID : CaliptraError := 0x000b004a.
Definition IMAGE_VERIFIER_ERR_LMS_VENDOR_SIG_INVALID : CaliptraError := 0x000b004b.
Definition IMAGE_VERIFIER_ERR_LMS_OWNER_PUB_KEY_INVALID : CaliptraError := 0x000b004c.
Definition IMAGE_VERIFIER_ERR_LMS_OWNER_SIG_INVALID : CaliptraError := 0x000b004d.
Definition IMAGE_VERIFIER_ERR_MLDSA_VENDOR_PUB_KEY_READ_FAILED : CaliptraError := 0x000b004e.
Definition IMAGE_VERIFIER_ERR_MLDSA_VENDOR_SIG_READ_FAILED : CaliptraError := 0x000b004f.
Definition IMAGE_VERIFIER_ERR_MLDSA_OWNER_PUB_KEY_READ_FAILED : CaliptraError := 0x000b0050.
Definition IMAGE_VERIFIER_ERR_MLDSA_OWNER_SIG_READ_FAILED : CaliptraError := 0x000b0051.
Definition IMAGE_VERIFIER_ERR_VENDOR_MLDSA_MSG_MISSING : CaliptraError := 0x000b0052.
Definition IMAGE_VERIFIER_ERR_OWNER_MLDSA_MSG_MISSING : CaliptraError := 0x000b0053.
Definition IMAGE_VERIFIER_ERR_VENDOR_MLDSA_VERIFY_FAILURE : CaliptraError := 0x000b0054.
Definition IMAGE_VERIFIER_ERR_VENDOR_MLDSA_SIGNATURE_INVALID : CaliptraError := 0x000b0055.
Definition IMAGE_VERIFIER_ERR_OWNER_MLDSA_VERIFY_FAILURE : CaliptraError := 0x000b0056.
Definition IMAGE_VERIFIER_ERR_OWNER_MLDSA_SIGNATURE_INVALID : CaliptraError := 0x000b0057.
Definition IMAGE_VERIFIER_ERR_MLDSA_TYPE_CONVERSION_FAILED : CaliptraError := 0x000b0058.
Definition IMAGE_VERIFIER_ERR_VENDOR_ECC_PUB_KEY_DIGEST_MISMATCH : CaliptraError := 0x000b0059.
Definition IMAGE_VERIFIER_ERR_VENDOR_PQC_PUB_KEY_DIGEST_MISMATCH : CaliptraError := 0x000b005a.
Definition IMAGE_VERIFIER_ERR_INVALID_PQC_KEY_TYPE_IN_FUSE : CaliptraError := 0x000b005b.
Definition IMAGE_VERIFIER_ERR_PQC_KEY_TYPE_MISMATCH : CaliptraError := 0x000b005c.
Definition IMAGE_VERIFIER_ACTIVATION_FAILED : CaliptraError := 0x000b005d.
Definition IMAGE_VERIFIER_ERR_DOT_OWNER_PUB_KEY_DIGEST_MISMATCH : CaliptraError := 0x000b005e.
Definition OCP_LOCK_ENGINE_TIMEOUT : CaliptraError := 0x000b005f.
Definition OCP_LOCK_ENGINE_ERR : CaliptraError := 0x000b0060.
Definition OCP_LOCK_ENGINE_NOT_READY : CaliptraError := 0x000b0061.
Definition OCP_LOCK_ENGINE_INVALID_MEK_SIZE : CaliptraError := 0x000b0062.
Definition IMAGE_VERIFIER_ERR_DEBUG_IMAGE_NOT_ALLOWED : CaliptraError := 0x000b0063.
Definition IMAGE_VERIFIER_ERR_FMC_OFFSET_INVALID : CaliptraError := 0x000b0064.
Definition IMAGE_VERIFIER_ERR_UPDATE_RESET_FMC_LOAD_ADDR_MISMATCH : CaliptraError := 0x000b0065.
Definition IMAGE_VERIFIER_ERR_RUNTIME_OFFSET_INVALID : CaliptraError := 0x000b0066.
Definition IMAGE_VERIFIER_ERR_FMC_ENTRY_POINT_NOT_AT_LOAD_ADDR : CaliptraError := 0x000b0067.
Definition IMAGE_VERIFIER_ERR_RUNTIME_ENTRY_POINT_NOT_AT_LOAD_ADDR : CaliptraError := 0x000b0068.
Definition DRIVER_LMS_INVALID_LMS_ALGO_TYPE : CaliptraError := 0x000c0001.
Definition DRIVER_LMS_INVALID_LMOTS_ALGO_TYPE : CaliptraError := 0x000c0002.
Definition DRIVER_LMS_INVALID_WINTERNITS_PARAM : CaliptraError := 0x000c0003.
Definition DRIVER_LMS_INVALID_PVALUE : CaliptraError := 0x000c0004.
Definition DRIVER_LMS_INVALID_HASH_WIDTH : CaliptraError := 0x000c0005.
Definition DRIVER_LMS_INVALID_TREE_HEIGHT : CaliptraError := 0x000c0006.
Definition DRIVER_LMS_INVALID_Q_VALUE : CaliptraError := 0x000c0007.
Definition DRIVER_LMS_INVALID_INDEX : CaliptraError := 0x000c0008.
Definition DRIVER_LMS_PATH_OUT_OF_BOUNDS : CaliptraError := 0x000c0009.
Definition DRIVER_LMS_INVALID_SIGNATURE_LENGTH : CaliptraError := 0x000c000a.
Definition DRIVER_LMS_INVALID_PUBLIC_KEY_LENGTH : CaliptraError := 0x000c000b.
Definition DRIVER_LMS_INVALID_SIGNATURE_DEPTH : CaliptraError := 0x000c000c.
Definition DRIVER_LMS_SIGNATURE_LMOTS_DOESNT_MATCH_PUBKEY_LMOTS : CaliptraError := 0x000c000d.
Definition DRIVER_CSRNG_INSTANTIATE : CaliptraError := 0x000d0001.
Definition DRIVER_CSRNG_UNINSTANTIATE : CaliptraError := 0x000d0002.
Definition DRIVER_CSRNG_RESEED : CaliptraError := 0x000d0003.
Definition DRIVER_CSRNG_GENERATE : CaliptraError := 0x000d0004.
Definition DRIVER_CSRNG_UPDATE : CaliptraError := 0x000d0005.
Definition DRIVER_CSRNG_OTHER_HEALTH_CHECK_FAILED : CaliptraError := 0x000d0006.
Definition DRIVER_CSRNG_REPCNT_HEALTH_CHECK_FAILED : CaliptraError := 0x000d0007.
Definition DRIVER_CSRNG_ADAPTP_HEALTH_CHECK_FAILED : CaliptraError := 0x000d0008.
Definition DRIVER_CSRNG_MODULE_ALREADY_ENABLED : CaliptraError := 0x000d0009.
Definition DRIVER_HANDOFF_INVALID_VAULT : CaliptraError := 0x000d100.
Definition DRIVER_HANDOFF_INVALID_KEY_ID : CaliptraError := 0x000d101.
Definition DRIVER_HANDOFF_INVALID_COLD_RESET_ENTRY4 : CaliptraError := 0x000d102.
Definition DRIVER_HANDOFF_INVALID_COLD_RESET_ENTRY48 : CaliptraError := 0x000d103.
Definition DRIVER_HANDOFF_INVALID_WARM_RESET_ENTRY4 : CaliptraError := 0x000d104.
Definition DRIVER_HANDOFF_INVALID_WARM_RESET_ENTRY48 : CaliptraError := 0x000d105.
Definition DRIVER_DMA_TRANSACTION_ALREADY_BUSY : CaliptraError := 0x0000f000.
Definition DRIVER_DMA_TRANSACTION_ERROR : CaliptraError := 0x0000f001.
Definition DRIVER_DMA_FIFO_UNDERRUN : CaliptraError := 0x0000f002.
Definition DRIVER_DMA_FIFO_OVERRUN : CaliptraError := 0x0000f003.
Definition DRIVER_DMA_FIFO_INVALID_SIZE : CaliptraError := 0x0000f004.
Definition DRIVER_DMA_SHA_ACCELERATOR_NOT_LOCKED : CaliptraError := 0x0000f005.
Definition DRIVER_DMA_INVALID_DMA_TARGET : CaliptraError := 0x0000f006.
Definition DRIVER_DMA_AES_CHUNKING_UNSUPPORTED : CaliptraError := 0x0000f007.
Definition DRIVER_DMA_AXI_ADDRESS_OVERFLOW : CaliptraError := 0x0000f008.
Definition DRIVER_SHA3_INVALID_STATE_ERR : CaliptraError := 0x0001f000.
Definition DRIVER_SHA3_DIGEST_EXCEEDS_RATE : CaliptraError := 0x0001f001.
Definition RUNTIME_INTERNAL : CaliptraError := 0x000e0001.
Definition RUNTIME_UNIMPLEMENTED_COMMAND : CaliptraError := 0x000e0002.
Definition RUNTIME_INSUFFICIENT_MEMORY : CaliptraError := 0x000e0003.
Definition RUNTIME_ECDSA_VERIFY_FAILED : CaliptraError := 0x000e0004.
Definition RUNTIME_INVALID_CHECKSUM : CaliptraError := 0x000e0005.
Definition RUNTIME_HANDOFF_FHT_NOT_LOADED : CaliptraError := 0x000e0006.
Definition RUNTIME_UNEXPECTED_UPDATE_RETURN : CaliptraError := 0x000e0007.
Definition RUNTIME_SHUTDOWN : CaliptraError := 0x000e0008.
Definition RUNTIME_MAILBOX_INVALID_PARAMS : CaliptraError := 0x000e0009.
Definition RUNTIME_GLOBAL_NMI : CaliptraError := 0x000e000a.
Definition RUNTIME_GLOBAL_EXCEPTION : CaliptraError := 0x000e000b.
Definition RUNTIME_GLOBAL_PANIC : CaliptraError := 0x000e000c.
Definition RUNTIME_HMAC_VERIFY_FAILED : CaliptraError := 0x000e000d.
Definition RUNTIME_INITIALIZE_DPE_FAILED : CaliptraError := 0x000e000e.
Definition RUNTIME_GET_IDEVID_CERT_FAILED : CaliptraError := 0x000e000f.
Definition RUNTIME_CERT_CHAIN_CREATION_FAILED : CaliptraError := 0x000e0010.
Definition RUNTIME_SELF_TEST_IN_PROGRESS : CaliptraError := 0x000e0011.
Definition RUNTIME_SELF_TEST_NOT_STARTED : CaliptraError := 0x000e0012.
Definition RUNTIME_INVALID_FMC_SIZE : CaliptraError := 0x000e0013.
Definition RUNTIME_INVALID_RUNTIME_SIZE : CaliptraError := 0x000e0014.
Definition RUNTIME_FMC_CERT_HANDOFF_FAILED : CaliptraError := 0x000e0015.
Definition RUNTIME_INCORRECT_PAUSER_PRIVILEGE_LEVEL : CaliptraError := 0x000e0016.
Definition RUNTIME_DPE_VALIDATION_FAILED : CaliptraError := 0x000e0017.
Definition RUNTIME_UNKNOWN_RESET_FLOW : CaliptraError := 0x000e0018.
Definition RUNTIME_PL0_USED_DPE_CONTEXT_THRESHOLD_EXCEEDED : CaliptraError := 0x000e0019.
Definition RUNTIME_PL1_USED_DPE_CONTEXT_THRESHOLD_EXCEEDED : CaliptraError := 0x000e001a.
Definition RUNTIME_GLOBAL_WDT_EXPIRED : CaliptraError := 0x000e001b.
Definition RUNTIME_IDEV_CERT_POPULATION_FAILED : CaliptraError := 0x000e001c.
Definition RUNTIME_ADD_ROM_MEASUREMENTS_TO_DPE_FAILED : CaliptraError := 0x000e001d.
Definition RUNTIME_TAGGING_FAILURE : CaliptraError := 0x000e001e.
Definition RUNTIME_DUPLICATE_TAG : CaliptraError := 0x000e001f.
Definition RUNTIME_CONTEXT_ALREADY_TAGGED : CaliptraError := 0x000e0020.
Definition RUNTIME_ADD_CCIV_MEASUREMENT_TO_DPE_FAILED : CaliptraError := 0x000e0021.
Definition RUNTIME_MAILBOX_API_RESPONSE_DATA_LEN_TOO_LARGE : CaliptraError := 0x000e0022.
Definition RUNTIME_MAILBOX_API_REQUEST_DATA_LEN_TOO_LARGE : CaliptraError := 0x000e0023.
Definition RUNTIME_LDEVID_CERT_HANDOFF_FAILED : CaliptraError := 0x000e0024.
Definition RUNTIME_CONTEXT_TAGS_VALIDATION_FAILED : CaliptraError := 0x000e0025.
Definition RUNTIME_COULD_NOT_GET_DPE_PROFILE : CaliptraError := 0x000e0026.
Definition RUNTIME_DPE_COMMAND_DESERIALIZATION_FAILED : CaliptraError := 0x000e0027.
Definition GET_LDEVID_CERT_FAILED : CaliptraError := 0x000e0028.
Definition RUNTIME_GET_FMC_ALIAS_CERT_FAILED : CaliptraError := 0x000e0029.
Definition RUNTIME_GET_RT_ALIAS_CERT_FAILED : CaliptraError := 0x000e002a.
Definition RUNTIME_CMD_BUSY_DURING_WARM_RESET : CaliptraError := 0x000e002b.
Definition RUNTIME_FW_SVN_HANDOFF_FAILED : CaliptraError := 0x000e002c.
Definition RUNTIME_FW_MIN_SVN_HANDOFF_FAILED : CaliptraError := 0x000e002d.
Definition RUNTIME_COLD_BOOT_FW_SVN_HANDOFF_FAILED : CaliptraError := 0x000e002e.
Definition RUNTIME_CONTEXT_HAS_TAG_VALIDATION_FAILED : CaliptraError := 0x000e002f.
Definition RUNTIME_LDEV_ID_CERT_TOO_BIG : CaliptraError := 0x000e0030.
Definition RUNTIME_FMC_ALIAS_CERT_TOO_BIG : CaliptraError := 0x000e0031.
Definition RUNTIME_RT_ALIAS_CERT_TOO_BIG : CaliptraError := 0x000e0032.
Definition RUNTIME_COMPUTE_RT_ALIAS_SN_FAILED : CaliptraError := 0x000e0033.
Definition RUNTIME_RT_JOURNEY_PCR_VALIDATION_FAILED : CaliptraError := 0x000e0034.
Definition RUNTIME_UNABLE_TO_FIND_DPE_ROOT_CONTEXT : CaliptraError := 0x000e0035.
Definition RUNTIME_INCREMENT_PCR_RESET_MAX_REACHED : CaliptraError := 0x000e0036.
Definition RUNTIME_PL0_USED_DPE_CONTEXT_THRESHOLD_REACHED : CaliptraError := 0x000e0037.
Definition RUNTIME_PL1_USED_DPE_CONTEXT_THRESHOLD_REACHED : CaliptraError := 0x000e0038.
Definition RUNTIME_CDI_KV_HDL_HANDOFF_FAILED : CaliptraError := 0x000e0039.
Definition RUNTIME_PRIV_KEY_KV_HDL_HANDOFF_FAILED : CaliptraError := 0x000e003a.
Definition RUNTIME_KEY_LADDER_HANDOFF_FAILED : CaliptraError := 0x000e003b.
Definition RUNTIME_PCR_RESERVED : CaliptraError := 0x000e003c.
Definition RUNTIME_PCR_INVALID_INDEX : CaliptraError := 0x000e003d.
Definition RUNTIME_DMTF_DEVICE_INFO_VALIDATION_FAILED : CaliptraError := 0x000e003e.
Definition RUNTIME_STORE_DMTF_DEVICE_INFO_FAILED : CaliptraError := 0x000e003f.
Definition RUNTIME_CERTIFY_KEY_EXTENDED_FAILED : CaliptraError := 0x000e0040.
Definition RUNTIME_DPE_RESPONSE_SERIALIZATION_FAILED : CaliptraError := 0x000e0041.
Definition RUNTIME_LMS_VERIFY_FAILED : CaliptraError := 0x000e0042.
Definition RUNTIME_LMS_VERIFY_INVALID_LMS_ALGORITHM : CaliptraError := 0x000e0043.
Definition RUNTIME_LMS_VERIFY_INVALID_LMOTS_ALGORITHM : CaliptraError := 0x000e0044.
Definition RUNTIME_INVALID_AUTH_MANIFEST_MARKER : CaliptraError := 0x000e0045.
Definition RUNTIME_AUTH_MANIFEST_PREAMBLE_SIZE_MISMATCH : CaliptraError := 0x000e0046.
Definition RUNTIME_AUTH_MANIFEST_VENDOR_ECC_SIGNATURE_INVALID : CaliptraError := 0x000e0047.
Definition RUNTIME_AUTH_MANIFEST_VENDOR_LMS_SIGNATURE_INVALID : CaliptraError := 0x000e0048.
Definition RUNTIME_AUTH_MANIFEST_OWNER_ECC_SIGNATURE_INVALID : CaliptraError := 0x000e0049.
Definition RUNTIME_AUTH_MANIFEST_OWNER_LMS_SIGNATURE_INVALID : CaliptraError := 0x000e004a.
Definition RUNTIME_AUTH_MANIFEST_PREAMBLE_SIZE_LT_MIN : CaliptraError := 0x000e004b.
Definition RUNTIME_AUTH_MANIFEST_IMAGE_METADATA_LIST_INVALID_SIZE : CaliptraError := 0x000e004c.
Definition RUNTIME_AUTH_MANIFEST_IMAGE_METADATA_LIST_INVALID_ENTRY_COUNT : CaliptraError := 0x000e004d.
Definition RUNTIME_AUTH_AND_STASH_UNSUPPORTED_IMAGE_SOURCE : CaliptraError := 0x000e004e.
Definition RUNTIME_CMD_RESERVED_PAUSER : CaliptraError := 0x000e004f.
Definition RUNTIME_AUTH_AND_STASH_MEASUREMENT_DPE_ERROR : CaliptraError := 0x000e0050.
Definition RUNTIME_GET_IDEV_ID_UNPROVISIONED : CaliptraError := 0x000e0051.
Definition RUNTIME_GET_IDEV_ID_UNSUPPORTED_ROM : CaliptraError := 0x000e0052.
Definition RUNTIME_AUTH_MANIFEST_IMAGE_METADATA_LIST_DUPLICATE_FIRMWARE_ID : CaliptraError := 0x000e0053.
Definition RUNTIME_AUTH_MANIFEST_LMS_VENDOR_PUB_KEY_INVALID : CaliptraError := 0x000e0054.
Definition RUNTIME_AUTH_MANIFEST_LMS_OWNER_PUB_KEY_INVALID : CaliptraError := 0x000e0055.
Definition RUNTIME_KEY_LADDER_TARGET_SVN_TOO_LARGE : CaliptraError := 0x000e0056.
Definition RUNTIME_SIGN_WITH_EXPORTED_ECDSA_KEY_DERIVIATION_FAILED : CaliptraError := 0x000e0057.
Definition RUNTIME_SIGN_WITH_EXPORTED_ECDSA_SIGNATURE_FAILED : CaliptraError := 0x000e0058.
Definition RUNTIME_SIGN_WITH_EXPORTED_ECDSA_INVALID_DIGEST : CaliptraError := 0x000e0059.
Definition RUNTIME_SIGN_WITH_EXPORTED_ECDSA_INVALID_SIGNATURE : CaliptraError := 0x000e005a.
Definition RUNTIME_GET_FMC_CSR_UNPROVISIONED : CaliptraError := 0x000e005b.
Definition RUNTIME_GET_FMC_CSR_UNSUPPORTED_FMC : CaliptraError := 0x000e005c.
Definition RUNTIME_CMB_INVALID_KEY_USAGE_AND_SIZE : CaliptraError := 0x000e005d.
Definition RUNTIME_CMB_KEY_USAGE_STORAGE_FULL : CaliptraError := 0x000e005e.
Definition RUNTIME_CMB_NOT_INITIALIZED : CaliptraError := 0x000e005f.
Definition RUNTIME_REVOKE_EXPORTED_CDI_HANDLE_NOT_FOUND : CaliptraError := 0x000e0060.
Definition RUNTIME_IMAGE_METADATA_NOT_FOUND : CaliptraError := 0x000e0061.
Definition RUNTIME_SIGN_WITH_EXPORTED_MLDSA_NOT_SUPPORTED : CaliptraError := 0x000e0062.
Definition RUNTIME_AUTH_MANIFEST_MLDSA_VENDOR_PUB_KEY_READ_FAILED : CaliptraError := 0x000e0063.
Definition RUNTIME_AUTH_MANIFEST_MLDSA_VENDOR_SIG_READ_FAILED : CaliptraError := 0x000e0064.
Definition RUNTIME_AUTH_MANIFEST_MLDSA_VENDOR_SIG_INVALID : CaliptraError := 0x000e0065.
Definition RUNTIME_AUTH_MANIFEST_MLDSA_OWNER_PUB_KEY_READ_FAILED : CaliptraError := 0x000e0066.
Definition RUNTIME_AUTH_MANIFEST_MLDSA_OWNER_SIG_READ_FAILED : CaliptraError := 0x000e0067.
Definition RUNTIME_AUTH_MANIFEST_MLDSA_OWNER_SIG_INVALID : CaliptraError := 0x000e0068.
Definition RUNTIME_DEBUG_UNLOCK_INVALID_LIFECYCLE : CaliptraError := 0x000e0069.
Definition RUNTIME_DEBUG_UNLOCK_NO_CHALLENGE : CaliptraError := 0x000e006a.
Definition RUNTIME_DEBUG_UNLOCK_NO_REQUEST : CaliptraError := 0x000e006b.
Definition RUNTIME_MLDSA_VERIFY_FAILED : CaliptraError := 0x000e006c.
Definition RUNTIME_GCM_KEY_USAGE_LIMIT_REACHED : CaliptraError := 0x000e006d.
Definition RUNTIME_FE_PROG_ILLEGAL_LIFECYCLE_STATE : CaliptraError := 0x000e006e.
Definition RUNTIME_FE_PROG_INVALID_PARTITION : CaliptraError := 0x000e006f.
Definition RUNTIME_REALLOCATE_DPE_CONTEXTS_PL0_LESS_THAN_MIN : CaliptraError := 0x000e0070.
Definition RUNTIME_REALLOCATE_DPE_CONTEXTS_PL0_GREATER_THAN_MAX : CaliptraError := 0x000e0071.
Definition RUNTIME_REALLOCATE_DPE_CONTEXTS_PL0_LESS_THAN_USED : CaliptraError := 0x000e0072.
Definition RUNTIME_REALLOCATE_DPE_CONTEXTS_PL1_LESS_THAN_USED : CaliptraError := 0x000e0073.
Definition RUNTIME_OCP_LOCK_UNSUPPORTED_COMMAND : CaliptraError := 0x000e0074.
Definition RUNTIME_OCP_LOCK_HEK_UNAVAILABLE : CaliptraError := 0x000e0075.
Definition RUNTIME_OCP_LOCK_MEK_NOT_INITIALIZED : CaliptraError := 0x000e0076.
Definition RUNTIME_OCP_LOCK_INVALID_MEK_SECRET_SEED_SIZE : CaliptraError := 0x000e0077.
Definition RUNTIME_OCP_LOCK_INVALID_MEK_SEED_SIZE : CaliptraError := 0x000e0078.
Definition RUNTIME_OCP_LOCK_MEK_CHKSUM_FAIL : CaliptraError := 0x000e0079.
Definition RUNTIME_OCP_LOCK_UNKNOWN_HPKE_HANDLE : CaliptraError := 0x000e007f.
Definition RUNTIME_OCP_LOCK_FAILED_TO_CONVERT_WRAPPED_KEY : CaliptraError := 0x000e0080.
Definition RUNTIME_OCP_LOCK_FAILED_TO_GENERATE_MEK : CaliptraError := 0x000e0081.
Definition RUNTIME_OCP_LOCK_UNKNOWN_ENDORSEMENT_ALGORITHM : CaliptraError := 0x000e0082.
Definition RUNTIME_OCP_LOCK_UNKNOWN_KEM_ALGORITHM : CaliptraError := 0x000e0083.
Definition RUNTIME_OCP_LOCK_ENDORSEMENT_CERT_ENCODING_ERROR : CaliptraError := 0x000e0084.
Definition RUNTIME_OCP_LOCK_DESERIALIZE_ENC_FAILURE : CaliptraError := 0x000e0085.
Definition RUNTIME_OCP_LOCK_DESERIALIZE_METADATA_FAILURE : CaliptraError := 0x000e0086.
Definition RUNTIME_OCP_LOCK_SERIALIZE_METADATA_FAILURE : CaliptraError := 0x000e0087.
Definition RUNTIME_OCP_LOCK_INVALID_WRAPPED_KEY_TYPE : CaliptraError := 0x000e0088.
Definition RUNTIME_OCP_LOCK_VEK_UNAVAILABLE : CaliptraError := 0x000e0089.
Definition RUNTIME_OCP_LOCK_SEK_INVALID : CaliptraError := 0x000e0095.
Definition RUNTIME_OCP_LOCK_DPK_INVALID : CaliptraError := 0x000e0096.
Definition RUNTIME_OCP_LOCK_LOCKED_MPK_INVALID : CaliptraError := 0x000e00af.
Definition RUNTIME_OCP_LOCK_MEK_INVALID_XTS_KEY : CaliptraError := 0x000e00b1.
Definition RUNTIME_INVALID_ROM_PERSISTENT_DATA_MARKER : CaliptraError := 0x000e007a.
Definition RUNTIME_INVALID_ROM_PERSISTENT_DATA_VERSION : CaliptraError := 0x000e007b.
Definition RUNTIME_INVALID_FW_PERSISTENT_DATA_MARKER : CaliptraError := 0x000e007c.
Definition RUNTIME_INVALID_FW_PERSISTENT_DATA_VERSION : CaliptraError := 0x000e007d.
Definition RUNTIME_RT_CURRENT_PCR_VALIDATION_FAILED : CaliptraError := 0x000e007e.
Definition RUNTIME_ATTESTED_CSR_EAT_ENCODING_ERROR : CaliptraError := 0x000e0090.
Definition RUNTIME_ATTESTED_CSR_COSE_SIGN1_ENCODING_ERROR : CaliptraError := 0x000e0091.
Definition RUNTIME_AUTH_MANIFEST_INVALID_PQC_KEY_TYPE_IN_FUSE : CaliptraError := 0x000e008a.
Definition RUNTIME_AUTH_MANIFEST_INVALID_PQC_KEY_TYPE : CaliptraError := 0x000e008b.
Definition RUNTIME_AUTH_MANIFEST_PQC_KEY_TYPE_MISMATCH : CaliptraError := 0x000e008c.
Definition RUNTIME_INVOKE_DPE_RESPONSE_TOO_LARGE : CaliptraError := 0x000e008d.
Definition RUNTIME_CM_SHAKE256_CONTEXT_MISMATCH : CaliptraError := 0x000e008e.
Definition RUNTIME_CMB_DMA_SHA384_MISMATCH : CaliptraError := 0x000e008f.
Definition RUNTIME_CMB_DMA_NOT_SUBSYSTEM_MODE : CaliptraError := 0x000e0092.
Definition RUNTIME_DPE_CONTEXT_NOT_FOUND : CaliptraError := 0x000e0093.
Definition RUNTIME_MULTIPLE_DPE_CONTEXTS_FOUND : CaliptraError := 0x000e0094.
Definition RUNTIME_DISABLE_ATTESTATION_FAILED_WARM_RESET : CaliptraError := 0x000e0097.
Definition RUNTIME_DISABLE_ATTESTATION_FAILED_RESET_FLOW : CaliptraError := 0x000e0098.
Definition RUNTIME_DISABLE_ATTESTATION_FAILED_DPE_VALIDATION : CaliptraError := 0x000e0099.
Definition RUNTIME_DISABLE_ATTESTATION_FAILED_DPE_LIMITS : CaliptraError := 0x000e009a.
Definition RUNTIME_DISABLE_ATTESTATION_FAILED_PCR_VALIDATION : CaliptraError := 0x000e009b.
Definition RUNTIME_SIGN_WITH_EXPORTED_MLDSA_KEY_DERIVIATION_FAILED : CaliptraError := 0x000e009c.
Definition RUNTIME_SIGN_WITH_EXPORTED_MLDSA_SIGNATURE_FAILED : CaliptraError := 0x000e009d.
Definition RUNTIME_SIGN_WITH_EXPORTED_MLDSA_INVALID_SIGNATURE : CaliptraError := 0x000e009e.
Definition RUNTIME_OWNER_AUTH_MANIFEST_INVALID_MARKER : CaliptraError := 0x000e009f.
Definition RUNTIME_OWNER_AUTH_MANIFEST_PREAMBLE_SIZE_LT_MIN : CaliptraError := 0x000e00a0.
Definition RUNTIME_OWNER_AUTH_MANIFEST_PREAMBLE_SIZE_MISMATCH : CaliptraError := 0x000e00a1.
Definition RUNTIME_OWNER_AUTH_MANIFEST_SVN_LESS_THAN_MIN : CaliptraError := 0x000e00a2.
Definition RUNTIME_OWNER_AUTH_MANIFEST_SVN_GREATER_THAN_MAX : CaliptraError := 0x000e00a3.
Definition RUNTIME_OWNER_AUTH_MANIFEST_OWNER_ECC_SIGNATURE_INVALID : CaliptraError := 0x000e00a4.
Definition RUNTIME_OWNER_AUTH_MANIFEST_OWNER_LMS_SIGNATURE_INVALID : CaliptraError := 0x000e00a5.
Definition RUNTIME_OWNER_AUTH_MANIFEST_OWNER_MLDSA_SIGNATURE_INVALID : CaliptraError := 0x000e00a6.
Definition RUNTIME_OWNER_AUTH_MANIFEST_IMC_OWNER_ECC_SIGNATURE_INVALID : CaliptraError := 0x000e00a7.
Definition RUNTIME_OWNER_AUTH_MANIFEST_IMC_OWNER_LMS_SIGNATURE_INVALID : CaliptraError := 0x000e00a8.
Definition RUNTIME_OWNER_AUTH_MANIFEST_IMC_OWNER_MLDSA_SIGNATURE_INVALID : CaliptraError := 0x000e00a9.
Definition RUNTIME_OWNER_AUTH_MANIFEST_IMC_INVALID_SIZE : CaliptraError := 0x000e00aa.
Definition RUNTIME_OWNER_AUTH_MANIFEST_IMC_INVALID_ENTRY_COUNT : CaliptraError := 0x000e00ab.
Definition RUNTIME_OWNER_AUTH_MANIFEST_IMC_DUPLICATE_FW_ID : CaliptraError := 0x000e00ac.
Definition RUNTIME_OWNER_AUTH_MANIFEST_INVALID_FLAGS : CaliptraError := 0x000e00ad.
Definition RUNTIME_OWNER_AUTH_MANIFEST_OWNER_PUB_KEY_MISMATCH : CaliptraError := 0x000e00ae.
Definition RUNTIME_STASH_MEASUREMENT_RESERVED_FW_ID : CaliptraError := 0x000e00b0.
Definition RUNTIME_AUTH_MANIFEST_DEBUG_IMAGE_NOT_ALLOWED : CaliptraError := 0x000e00b2.
Definition RUNTIME_AUTH_MANIFEST_INVALID_FLAGS : CaliptraError := 0x000e00b3.
Definition RUNTIME_AUTH_MANIFEST_UEID_MISMATCH : CaliptraError := 0x000e00b4.
Definition RUNTIME_ZEROIZE_UDS_FE_NOT_SUBSYSTEM_MODE : CaliptraError := 0x000e00b5.
Definition RUNTIME_INVALID_SELF_TEST_CONFIG : CaliptraError := 0x000e00b6.
Definition FMC_GLOBAL_NMI : CaliptraError := 0x000f0001.
Definition FMC_GLOBAL_EXCEPTION : CaliptraError := 0x000f0002.
Definition FMC_GLOBAL_PANIC : CaliptraError := 0x000f0003.
Definition FMC_HANDOFF_INVALID_PARAM : CaliptraError := 0x000f0004.
Definition FMC_RT_ALIAS_DERIVE_FAILURE : CaliptraError := 0x000f0005.
Definition FMC_RT_ALIAS_CERT_VERIFY : CaliptraError := 0x000f0006.
Definition FMC_RT_ALIAS_ECC_TBS_SIZE_EXCEEDED : CaliptraError := 0x000f0007.
Definition FMC_CDI_KV_COLLISION : CaliptraError := 0x000f0008.
Definition FMC_ALIAS_KV_COLLISION : CaliptraError := 0x000f0009.
Definition FMC_GLOBAL_PCR_LOG_EXHAUSTED : CaliptraError := 0x000f000a.
Definition ADDRESS_NOT_IN_ICCM : CaliptraError := 0x000f000b.
Definition FMC_HANDOFF_NOT_READY_FOR_RT : CaliptraError := 0x000f000c.
Definition FMC_GLOBAL_WDT_EXPIRED : CaliptraError := 0x000f000d.
Definition FMC_UNKNOWN_RESET : CaliptraError := 0x000f000e.
Definition FMC_ALIAS_CSR_BUILDER_INIT_FAILURE : CaliptraError := 0x000f000f.
Definition FMC_ALIAS_CSR_BUILDER_BUILD_FAILURE : CaliptraError := 0x000f0010.
Definition FMC_ALIAS_INVALID_CSR : CaliptraError := 0x000f0011.
Definition FMC_ALIAS_CSR_VERIFICATION_FAILURE : CaliptraError := 0x000f0012.
Definition FMC_ALIAS_CSR_OVERFLOW : CaliptraError := 0x000f0013.
Definition FMC_RT_ALIAS_MLDSA_TBS_SIZE_EXCEEDED : CaliptraError := 0x000f00014.
Definition FMC_INVALID_ROM_PERSISTENT_DATA_MARKER : CaliptraError := 0x000f00015.
Definition FMC_INVALID_ROM_PERSISTENT_DATA_VERSION : CaliptraError := 0x000f00016.
Definition FMC_INVALID_FW_PERSISTENT_DATA_MARKER : CaliptraError := 0x000f00017.
Definition FMC_INVALID_FW_PERSISTENT_DATA_VERSION : CaliptraError := 0x000f00018.
Definition FMC_REGENERATE_FMC_ECC_KEY_PAIR_FAILED : CaliptraError := 0x000f00019.
Definition FMC_REGENERATE_FMC_MLDSA_KEY_PAIR_FAILED : CaliptraError := 0x000f0001a.
Definition FMC_HANDOFF_INVALID_FHT : CaliptraError := 0x000f0001b.
Definition DRIVER_TRNG_EXT_TIMEOUT : CaliptraError := 0x00100001.
Definition DRIVER_SOC_IFC_INVALID_TIMER_CONFIG : CaliptraError := 0x00100002.
Definition DRIVER_TRNG_UPDATE_NOT_SUPPORTED : CaliptraError := 0x00100003.
Definition ADDRESS_MISALIGNED : CaliptraError := 0x00110000.
Definition ADDRESS_NOT_IN_ROM : CaliptraError := 0x00110001.
Definition ROM_IDEVID_CSR_BUILDER_INIT_FAILURE : CaliptraError := 0x01000001.
Definition ROM_IDEVID_CSR_BUILDER_BUILD_FAILURE : CaliptraError := 0x01000002.
Definition ROM_IDEVID_INVALID_CSR : CaliptraError := 0x01000003.
Definition ROM_IDEVID_CSR_VERIFICATION_FAILURE : CaliptraError := 0x01000004.
Definition ROM_IDEVID_CSR_OVERFLOW : CaliptraError := 0x01000005.
Definition ROM_LDEVID_CSR_VERIFICATION_FAILURE : CaliptraError := 0x01010001.
Definition FW_PROC_MANIFEST_READ_FAILURE : CaliptraError := 0x01020001.
Definition FW_PROC_INVALID_IMAGE_SIZE : CaliptraError := 0x01020002.
Definition FW_PROC_MAILBOX_STATE_INCONSISTENT : CaliptraError := 0x01020003.
Definition FW_PROC_MAILBOX_INVALID_COMMAND : CaliptraError := 0x01020004.
Definition FW_PROC_MAILBOX_INVALID_CHECKSUM : CaliptraError := 0x01020005.
Definition FW_PROC_MAILBOX_INVALID_REQUEST_LENGTH : CaliptraError := 0x01020006.
Definition FW_PROC_MAILBOX_PROCESS_FAILURE : CaliptraError := 0x01020007.
Definition FW_PROC_MAILBOX_STASH_MEASUREMENT_MAX_LIMIT : CaliptraError := 0x01020008.
Definition FW_PROC_MAILBOX_RESERVED_PAUSER : CaliptraError := 0x01020009.
Definition FW_PROC_MAILBOX_GET_IDEV_CSR_UNPROVISIONED_CSR : CaliptraError := 0x0102000a.
Definition FW_PROC_MAILBOX_FW_LOAD_CMD_IN_SUBSYSTEM_MODE : CaliptraError := 0x0102000b.
Definition FW_PROC_SVN_TOO_LARGE : CaliptraError := 0x0102000c.
Definition FW_PROC_OCP_LOCK_UNSUPPORTED : CaliptraError := 0x0102000d.
Definition FW_PROC_MAILBOX_INVALID_PARAMS : CaliptraError := 0x0102000e.
Definition FMC_ALIAS_CERT_VERIFY_FAILURE : CaliptraError := 0x01030001.
Definition ROM_ECDSA_VERIFY_FAILED : CaliptraError := 0x01030002.
Definition ROM_MLDSA_VERIFY_FAILED : CaliptraError := 0x01030003.
Definition ROM_UPDATE_RESET_FLOW_MANIFEST_READ_FAILURE : CaliptraError := 0x01040002.
Definition ROM_UPDATE_RESET_FLOW_INVALID_FIRMWARE_COMMAND : CaliptraError := 0x01040003.
Definition ROM_UPDATE_RESET_FLOW_MAILBOX_ACCESS_FAILURE : CaliptraError := 0x01040004.
Definition ROM_UPDATE_RESET_READ_FHT_FAILURE : CaliptraError := 0x01040005.
Definition ROM_UPDATE_RESET_FLOW_IMAGE_NOT_IN_MCU_SRAM : CaliptraError := 0x01040006.
Definition ROM_WARM_RESET_UNSUCCESSFUL_PREVIOUS_COLD_RESET : CaliptraError := 0x01040010.
Definition ROM_WARM_RESET_UNSUCCESSFUL_PREVIOUS_UPDATE_RESET : CaliptraError := 0x01040011.
Definition ROM_UNKNOWN_RESET_FLOW : CaliptraError := 0x01040020.
Definition ROM_CFI_PANIC_UNKNOWN : CaliptraError := 0x01040050.
Definition ROM_CFI_PANIC_COUNTER_CORRUPT : CaliptraError := 0x01040051.
Definition ROM_CFI_PANIC_COUNTER_OVERFLOW : CaliptraError := 0x01040052.
Definition ROM_CFI_PANIC_COUNTER_UNDERFLOW : CaliptraError := 0x01040053.
Definition ROM_CFI_PANIC_COUNTER_MISMATCH : CaliptraError := 0x01040054.
Definition ROM_CFI_PANIC_ASSERT_EQ_FAILURE : CaliptraError := 0x01040055.
Definition ROM_CFI_PANIC_ASSERT_NE_FAILURE : CaliptraError := 0x01040056.
Definition ROM_CFI_PANIC_ASSERT_GT_FAILURE : CaliptraError := 0x01040057.
Definition ROM_CFI_PANIC_ASSERT_LT_FAILURE : CaliptraError := 0x01040058.
Definition ROM_CFI_PANIC_ASSERT_GE_FAILURE : CaliptraError := 0x01040059.
Definition ROM_CFI_PANIC_ASSERT_LE_FAILURE : CaliptraError := 0x0104005a.
Definition ROM_CFI_PANIC_TRNG_FAILURE : CaliptraError := 0x0104005b.
Definition ROM_CFI_PANIC_UNEXPECTED_MATCH_BRANCH : CaliptraError := 0x0104005c.
Definition ROM_CFI_PANIC_FAKE_TRNG_USED_WITH_DEBUG_LOCK : CaliptraError := 0x0104005d.
Definition ROM_UDS_PROG_ILLEGAL_LIFECYCLE_STATE : CaliptraError := 0x01045000.
Definition ROM_UDS_PROG_IN_PASSIVE_MODE : CaliptraError := 0x01045001.
Definition ROM_UDS_PROG_DEBUG_INTENT_SET : CaliptraError := 0x01045002.
Definition ROM_GLOBAL_NMI : CaliptraError := 0x01050001.
Definition ROM_GLOBAL_EXCEPTION : CaliptraError := 0x01050002.
Definition ROM_GLOBAL_PANIC : CaliptraError := 0x01050003.
Definition ROM_GLOBAL_PCR_LOG_INVALID_ENTRY_ID : CaliptraError := 0x01050004.
Definition ROM_GLOBAL_PCR_LOG_UNSUPPORTED_DATA_LENGTH : CaliptraError := 0x01050005.
Definition ROM_GLOBAL_PCR_LOG_EXHAUSTED : CaliptraError := 0x01050006.
Definition ROM_GLOBAL_FUSE_LOG_INVALID_ENTRY_ID : CaliptraError := 0x01050007.
Definition ROM_GLOBAL_FUSE_LOG_UNSUPPORTED_DATA_LENGTH : CaliptraError := 0x01050008.
Definition ROM_GLOBAL_UNSUPPORTED_LDEVID_TBS_SIZE : CaliptraError := 0x01050009.
Definition ROM_GLOBAL_UNSUPPORTED_FMCALIAS_TBS_SIZE : CaliptraError := 0x0105000a.
Definition ROM_GLOBAL_FAKE_ROM_IN_PRODUCTION : CaliptraError := 0x0105000b.
Definition ROM_GLOBAL_WDT_EXPIRED : CaliptraError := 0x0105000c.
Definition ROM_GLOBAL_MEASUREMENT_LOG_EXHAUSTED : CaliptraError := 0x0105000d.
Definition ROM_GLOBAL_FIPS_HOOKS_ROM_EXIT : CaliptraError := 0x0105000f.
Definition ROM_GLOBAL_UNSUPPORTED_HW_VERSION : CaliptraError := 0x01050010.
Definition ROM_INVALID_ROM_PERSISTENT_DATA_MARKER : CaliptraError := 0x01050011.
Definition ROM_INVALID_ROM_PERSISTENT_DATA_VERSION : CaliptraError := 0x01050012.
Definition KAT_SHA256_DIGEST_FAILURE : CaliptraError := 0x90010001.
Definition KAT_SHA256_DIGEST_MISMATCH : CaliptraError := 0x90010002.
Definition KAT_SHA384_DIGEST_FAILURE : CaliptraError := 0x90020001.
Definition KAT_SHA384_DIGEST_MISMATCH : CaliptraError := 0x90020002.
Definition KAT_HMAC384_FAILURE : CaliptraError := 0x90030001.
Definition KAT_HMAC384_TAG_MISMATCH : CaliptraError := 0x90030002.
Definition KAT_ECC384_SIGNATURE_MISMATCH : CaliptraError := 0x90040003.
Definition KAT_ECC384_KEY_PAIR_GENERATE_FAILURE : CaliptraError := 0x90040004.
Definition KAT_ECC384_KEY_PAIR_VERIFY_FAILURE : CaliptraError := 0x90040005.
Definition KAT_MLDSA87_SIGNATURE_MISMATCH : CaliptraError := 0x90040006.
Definition KAT_MLDSA87_SIGNATURE_FAILURE : CaliptraError := 0x90040007.
Definition KAT_MLDSA87_KEY_PAIR_GENERATE_FAILURE : CaliptraError := 0x90040008.
Definition KAT_MLDSA87_KEY_PAIR_VERIFY_FAILURE : CaliptraError := 0x90040009.
Definition KAT_MLDSA87_VERIFY_FAILURE : CaliptraError := 0x9004000a.
Definition KAT_ECDH_VERIFY_FAILURE : CaliptraError := 0x90040010.
Definition KAT_MLKEM1024_KEY_PAIR_GENERATE_FAILURE : CaliptraError := 0x900b0001.
Definition KAT_MLKEM1024_KEY_PAIR_VERIFY_FAILURE : CaliptraError := 0x900b0002.
Definition KAT_MLKEM1024_ENCAPSULATE_FAILURE : CaliptraError := 0x900b0003.
Definition KAT_MLKEM1024_DECAPSULATE_FAILURE : CaliptraError := 0x900b0004.
Definition KAT_MLKEM1024_SHARED_KEY_MISMATCH : CaliptraError := 0x900b0005.
Definition KAT_MLKEM1024_CIPHERTEXT_MISMATCH : CaliptraError := 0x900b0006.
Definition KAT_SHA2_512_384_ACC_DIGEST_START_OP_FAILURE : CaliptraError := 0x90050001.
Definition KAT_SHA2_512_384_ACC_DIGEST_FAILURE : CaliptraError := 0x90050002.
Definition KAT_SHA2_512_384_ACC_DIGEST_MISMATCH : CaliptraError := 0x90050003.
Definition KAT_SHA1_DIGEST_FAILURE : CaliptraError := 0x90060001.
Definition KAT_SHA1_DIGEST_MISMATCH : CaliptraError := 0x90060002.
Definition KAT_LMS_DIGEST_FAILURE : CaliptraError := 0x90070001.
Definition KAT_LMS_DIGEST_MISMATCH : CaliptraError := 0x90070002.
Definition KAT_AES_TAG_MISMATCH : CaliptraError := 0x90090001.
Definition KAT_AES_CIPHERTEXT_MISMATCH : CaliptraError := 0x90090002.
Definition KAT_AES_PLAINTEXT_MISMATCH : CaliptraError := 0x90090003.
Definition KAT_CMAC_KDF_OUTPUT_MISMATCH : CaliptraError := 0x90090004.
Definition KAT_SHA512_DIGEST_FAILURE : CaliptraError := 0x90020003.
Definition KAT_SHA512_DIGEST_MISMATCH : CaliptraError := 0x90020004.
Definition KAT_SHA3_SHAKE256_DIGEST_FAILURE : CaliptraError := 0x900a0000.
Definition KAT_SHA3_SHAKE256_DIGEST_MISMATCH : CaliptraError := 0x900a0001.
Definition KAT_CSRNG_INSTANTIATE_FAILURE : CaliptraError := 0x900c0001.
Definition KAT_CSRNG_GENERATE_FAILURE : CaliptraError := 0x900c0002.
Definition KAT_CSRNG_DIGEST_MISMATCH : CaliptraError := 0x900c0003.
Definition KAT_CSRNG_RESTORE_FAILURE : CaliptraError := 0x900c0004.
Definition KAT_CSRNG_RESEED_FAILURE : CaliptraError := 0x900c0005.
Definition ROM_INTEGRITY_FAILURE : CaliptraError := 0x90080001.
Definition FIPS_HOOKS_INJECTED_ERROR : CaliptraError := 0x90100000.
Definition SS_DBG_UNLOCK_INVALID_REQ_REG_VALUE : CaliptraError := 0xa0000000.
Definition SS_DBG_UNLOCK_MANUF_INVALID_MBOX_CMD : CaliptraError := 0xa0000001.
Definition SS_DBG_UNLOCK_MANUF_INVALID_TOKEN : CaliptraError := 0xa0000002.
Definition SS_DBG_UNLOCK_PROD_INVALID_REQ_MBOX_CMD : CaliptraError := 0xa0000003.
Definition SS_DBG_UNLOCK_PROD_INVALID_REQ : CaliptraError := 0xa0000004.
Definition SS_DBG_UNLOCK_PROD_INVALID_LEVEL : CaliptraError := 0xa0000005.
Definition SS_DBG_UNLOCK_PROD_INVALID_TOKEN_CHALLENGE : CaliptraError := 0xa0000006.
Definition SS_DBG_UNLOCK_PROD_INVALID_TOKEN_MBOX_CMD : CaliptraError := 0xa0000007.
Definition SS_DBG_UNLOCK_PROD_INVALID_TOKEN_WRONG_PUBLIC_KEYS : CaliptraError := 0xa0000008.
Definition SS_DBG_UNLOCK_PROD_INVALID_TOKEN_INVALID_SIGNATURE : CaliptraError := 0xa0000009.
Definition SS_DBG_UNLOCK_REQ_IN_PASSIVE_MODE : CaliptraError := 0xa000000a.
Definition SS_DBG_UNLOCK_REQ_BIT_NOT_SET : CaliptraError := 0xa000000b.
Definition SS_DBG_UNLOCK_PROD_DISABLED : CaliptraError := 0xa000000c.
Definition RUNTIME_DRIVER_AES_READ_KEY_KV_READ : CaliptraError := 0xa0040001.
Definition RUNTIME_DRIVER_AES_READ_KEY_KV_WRITE : CaliptraError := 0xa0040002.
Definition RUNTIME_DRIVER_AES_READ_KEY_KV_UNKNOWN : CaliptraError := 0xa0040003.
Definition RUNTIME_DRIVER_AES_READ_DATA_KV_READ : CaliptraError := 0xa0040004.
Definition RUNTIME_DRIVER_AES_READ_DATA_KV_UNKNOWN : CaliptraError := 0xa0040006.
Definition RUNTIME_DRIVER_AES_INVALID_STATE : CaliptraError := 0xa004000b.
Definition RUNTIME_DRIVER_AES_MAX_DATA : CaliptraError := 0xa004000c.
Definition RUNTIME_DRIVER_AES_INVALID_SLICE : CaliptraError := 0xa004000d.
Definition RUNTIME_DRIVER_AES_INDEX_OUT_OF_BOUNDS : CaliptraError := 0xa004000e.
Definition RUNTIME_DRIVER_AES_INVALID_TAG_SIZE : CaliptraError := 0xa004000f.
Definition RUNTIME_DRIVER_AES_ENGINE_BUSY : CaliptraError := 0xa0040010.
Definition RUNTIME_DRIVER_AES_INVALID_TAG : CaliptraError := 0xa0040011.
Definition RUNTIME_DRIVER_PRECONDITIONED_AES_ENCRYPT_ERROR : CaliptraError := 0xa0040021.
Definition RUNTIME_DRIVER_PRECONDITIONED_AES_ENCRYPT_INVALID_PARAM : CaliptraError := 0xa0040022.
Definition RUNTIME_DRIVER_PRECONDITIONED_AES_DECRYPT_ERROR : CaliptraError := 0xa0040023.
Definition RUNTIME_DRIVER_PRECONDITIONED_AES_DECRYPT_INVALID_PARAM : CaliptraError := 0xa0040024.
Definition RUNTIME_DRIVER_AES_WRITE_KV : CaliptraError := 0xa0040012.
Definition RUNTIME_DRIVER_HPKE_SEQ_EXHAUSTED : CaliptraError := 0xa0041000.
Definition RUNTIME_DRIVER_HPKE_SHAKE_INVALID_LABEL_LEN : CaliptraError := 0xa0041001.
Definition RUNTIME_DRIVER_HPKE_ENCAP_TRNG_FAIL : CaliptraError := 0xa0041002.
Definition RUNTIME_DRIVER_HPKE_CONVERT_INVALID_CIPHER_SUITE : CaliptraError := 0xa0041003.
Definition RUNTIME_DRIVER_HPKE_INVALID_PUB_KEY_BUFFER_SIZE : CaliptraError := 0xa0041004.
Definition RUNTIME_DRIVER_HPKE_OPEN_FAILED : CaliptraError := 0xa0041005.
Definition RUNTIME_DRIVER_HPKE_ML_KEM_TRNG_KEYGEN_FAIL : CaliptraError := 0xa0041010.
Definition RUNTIME_DRIVER_HPKE_ML_KEM_PKR_DESERIALIZATION_FAIL : CaliptraError := 0xa0041011.
Definition RUNTIME_DRIVER_HPKE_ML_KEM_ENCAP_SECRET_DESERIALIZATION_FAIL : CaliptraError := 0xa0041012.
Definition RUNTIME_DRIVER_HPKE_ML_KEM_ENCAP_KEY_SERIALIZATION_FAIL : CaliptraError := 0xa0041013.
Definition RUNTIME_DRIVER_HPKE_P384_ENCAP_KEY_DESERIALIZATION_FAIL : CaliptraError := 0xa0041020.
Definition RUNTIME_DRIVER_HPKE_HYBRID_ENCAP_KEY_DESERIALIZATION_FAIL : CaliptraError := 0xa0041030.
Definition RUNTIME_DRIVER_HPKE_HYBRID_ENCAP_KEY_SERIALIZATION_FAIL : CaliptraError := 0xa0041031.
Definition RUNTIME_DRIVER_HPKE_HYBRID_ENC_SERIALIZATION_FAIL : CaliptraError := 0xa0041032.
Definition RUNTIME_DRIVER_HPKE_HYBRID_ENC_DESERIALIZATION_FAIL : CaliptraError := 0xa0041033.
Definition RUNTIME_MAILBOX_SIGNATURE_MISMATCH : CaliptraError := 0xa0050000.
Definition DOT_INVALID_KEY_TYPE : CaliptraError := 0xa0055000.
Definition CMB_STABLE_OWNER_KEY_NOT_AVAILABLE : CaliptraError := 0xa0055001.
Definition CMB_HMAC_INVALID_ENC_CMK : CaliptraError := 0xa0055020.
Definition CMB_HMAC_INVALID_DEC_CMK : CaliptraError := 0xa0055021.
Definition CMB_HMAC_INVALID_KEY_USAGE : CaliptraError := 0xa0055022.
Definition CMB_HMAC_INVALID_REQ_SIZE : CaliptraError := 0xa0055023.
Definition CMB_HMAC_INVALID_KEY_USAGE_AND_SIZE : CaliptraError := 0xa0055024.
Definition CMB_HMAC_UNSUPPORTED_HASH_ALGORITHM : CaliptraError := 0xa0055025.
Definition UDS_FE_ZEROIZATION_MARKER_NOT_CLEARED : CaliptraError := 0xa0060000.
Definition UDS_FE_ZEROIZATION_SEED_NOT_CLEARED : CaliptraError := 0xa0060001.
Definition UDS_FE_ZEROIZATION_DIGEST_NOT_CLEARED : CaliptraError := 0xa0060002.
Definition UDS_FE_PROGRAMMING_SEED_LENGTH_ZERO : CaliptraError := 0xa0060003.
Definition UDS_FE_PROGRAMMING_ZEROIZATION_SUCCESS : CaliptraError := 0xa0060004.
Definition UDS_FE_PROGRAMMING_ZEROIZATION_FAILED : CaliptraError := 0xa0060005.

(** [all_constants]: the names and values, in order. *)
Definition all_constants : list (string * CaliptraError) :=
  [("DRIVER_BAD_DATASTORE_VAULT_TYPE"%string, DRIVER_BAD_DATASTORE_VAULT_TYPE);
   ("DRIVER_BAD_DATASTORE_REG_TYPE"%string, DRIVER_BAD_DATASTORE_REG_TYPE);
   ("CALIPTRA_INTERNAL"%string, CALIPTRA_INTERNAL);
   ("DRIVER_SHA256_INVALID_STATE"%string, DRIVER_SHA256_INVALID_STATE);
   ("DRIVER_SHA256_MAX_DATA"%string, DRIVER_SHA256_MAX_DATA);
   ("DRIVER_SHA256_INVALID_SLICE"%string, DRIVER_SHA256_INVALID_SLICE);
   ("DRIVER_SHA256_INDEX_OUT_OF_BOUNDS"%string, DRIVER_SHA256_INDEX_OUT_OF_BOUNDS);
   ("DRIVER_SHA2_512_384_READ_DATA_KV_READ"%string, DRIVER_SHA2_512_384_READ_DATA_KV_READ);
   ("DRIVER_SHA2_512_384_READ_DATA_KV_WRITE"%string, DRIVER_SHA2_512_384_READ_DATA_KV_WRITE);
   ("DRIVER_SHA2_512_384_READ_DATA_KV_UNKNOWN"%string, DRIVER_SHA2_512_384_READ_DATA_KV_UNKNOWN);
   ("DRIVER_SHA2_512_384_INVALID_STATE_ERR"%string, DRIVER_SHA2_512_384_INVALID_STATE_ERR);
   ("DRIVER_SHA2_512_384_MAX_DATA_ERR"%string, DRIVER_SHA2_512_384_MAX_DATA_ERR);
   ("DRIVER_SHA2_512_384_INVALID_KEY_SIZE"%string, DRIVER_SHA2_512_384_INVALID_KEY_SIZE);
   ("DRIVER_SHA2_512_384_INVALID_SLICE"%string, DRIVER_SHA2_512_384_INVALID_SLICE);
   ("DRIVER_SHA2_512_384_INDEX_OUT_OF_BOUNDS"%string, DRIVER_SHA2_512_384_INDEX_OUT_OF_BOUNDS);
   ("DRIVER_SHA2_512_384_ACC_DIGEST_START_OP_FAILURE"%string, DRIVER_SHA2_512_384_ACC_DIGEST_START_OP_FAILURE);
   ("DRIVER_SHA2_512_384ACC_UNEXPECTED_ACQUIRED_LOCK_STATE"%string, DRIVER_SHA2_512_384ACC_UNEXPECTED_ACQUIRED_LOCK_STATE);
   ("DRIVER_HMAC_READ_KEY_KV_READ"%string, DRIVER_HMAC_READ_KEY_KV_READ);
   ("DRIVER_HMAC_READ_KEY_KV_WRITE"%string, DRIVER_HMAC_READ_KEY_KV_WRITE);
   ("DRIVER_HMAC_READ_KEY_KV_UNKNOWN"%string, DRIVER_HMAC_READ_KEY_KV_UNKNOWN);
   ("DRIVER_HMAC_READ_DATA_KV_READ"%string, DRIVER_HMAC_READ_DATA_KV_READ);
   ("DRIVER_HMAC_READ_DATA_KV_WRITE"%string, DRIVER_HMAC_READ_DATA_KV_WRITE);
   ("DRIVER_HMAC_READ_DATA_KV_UNKNOWN"%string, DRIVER_HMAC_READ_DATA_KV_UNKNOWN);
   ("DRIVER_HMAC_WRITE_TAG_KV_READ"%string, DRIVER_HMAC_WRITE_TAG_KV_READ);
   ("DRIVER_HMAC_WRITE_TAG_KV_WRITE"%string, DRIVER_HMAC_WRITE_TAG_KV_WRITE);
   ("DRIVER_HMAC_WRITE_TAG_KV_UNKNOWN"%string, DRIVER_HMAC_WRITE_TAG_KV_UNKNOWN);
   ("DRIVER_HMAC_INVALID_STATE"%string, DRIVER_HMAC_INVALID_STATE);
   ("DRIVER_HMAC_MAX_DATA"%string, DRIVER_HMAC_MAX_DATA);
   ("DRIVER_HMAC_INVALID_SLICE"%string, DRIVER_HMAC_INVALID_SLICE);
   ("DRIVER_HMAC_INDEX_OUT_OF_BOUNDS"%string, DRIVER_HMAC_INDEX_OUT_OF_BOUNDS);
   ("DRIVER_HKDF_SALT_TOO_LONG"%string, DRIVER_HKDF_SALT_TOO_LONG);
   ("DRIVER_AES_READ_KEY_KV_READ"%string, DRIVER_AES_READ_KEY_KV_READ);
   ("DRIVER_CMAC_KDF_INVALID_SLICE"%string, DRIVER_CMAC_KDF_INVALID_SLICE);
   ("DRIVER_CMAC_KDF_INVALID_ROUNDS"%string, DRIVER_CMAC_KDF_INVALID_ROUNDS);
   ("DRIVER_ECC384_READ_SEED_KV_READ"%string, DRIVER_ECC384_READ_SEED_KV_READ);
   ("DRIVER_ECC384_READ_SEED_KV_WRITE"%string, DRIVER_ECC384_READ_SEED_KV_WRITE);
   ("DRIVER_ECC384_READ_SEED_KV_UNKNOWN"%string, DRIVER_ECC384_READ_SEED_KV_UNKNOWN);
   ("DRIVER_ECC384_WRITE_PRIV_KEY_KV_READ"%string, DRIVER_ECC384_WRITE_PRIV_KEY_KV_READ);
   ("DRIVER_ECC384_WRITE_PRIV_KEY_KV_WRITE"%string, DRIVER_ECC384_WRITE_PRIV_KEY_KV_WRITE);
   ("DRIVER_ECC384_WRITE_PRIV_KEY_KV_UNKNOWN"%string, DRIVER_ECC384_WRITE_PRIV_KEY_KV_UNKNOWN);
   ("DRIVER_ECC384_READ_PRIV_KEY_KV_READ"%string, DRIVER_ECC384_READ_PRIV_KEY_KV_READ);
   ("DRIVER_ECC384_READ_PRIV_KEY_KV_WRITE"%string, DRIVER_ECC384_READ_PRIV_KEY_KV_WRITE);
   ("DRIVER_ECC384_READ_PRIV_KEY_KV_UNKNOWN"%string, DRIVER_ECC384_READ_PRIV_KEY_KV_UNKNOWN);
   ("DRIVER_ECC384_READ_DATA_KV_READ"%string, DRIVER_ECC384_READ_DATA_KV_READ);
   ("DRIVER_ECC384_READ_DATA_KV_WRITE"%string, DRIVER_ECC384_READ_DATA_KV_WRITE);
   ("DRIVER_ECC384_READ_DATA_KV_UNKNOWN"%string, DRIVER_ECC384_READ_DATA_KV_UNKNOWN);
   ("DRIVER_ECC384_KEYGEN_PAIRWISE_CONSISTENCY_FAILURE"%string, DRIVER_ECC384_KEYGEN_PAIRWISE_CONSISTENCY_FAILURE);
   ("DRIVER_ECC384_SIGN_VALIDATION_FAILED"%string, DRIVER_ECC384_SIGN_VALIDATION_FAILED);
   ("DRIVER_ECC384_SCALAR_RANGE_CHECK_FAILED"%string, DRIVER_ECC384_SCALAR_RANGE_CHECK_FAILED);
   ("DRIVER_ECC384_KEYGEN_BAD_USAGE"%string, DRIVER_ECC384_KEYGEN_BAD_USAGE);
   ("DRIVER_ECC384_HW_ERROR"%string, DRIVER_ECC384_HW_ERROR);
   ("DRIVER_ECC384_ECDH_PAIRWISE_CONSISTENCY_FAILURE"%string, DRIVER_ECC384_ECDH_PAIRWISE_CONSISTENCY_FAILURE);
   ("DRIVER_MLDSA87_READ_SEED_KV_READ"%string, DRIVER_MLDSA87_READ_SEED_KV_READ);
   ("DRIVER_MLDSA87_READ_SEED_KV_WRITE"%string, DRIVER_MLDSA87_READ_SEED_KV_WRITE);
   ("DRIVER_MLDSA87_READ_SEED_KV_UNKNOWN"%string, DRIVER_MLDSA87_READ_SEED_KV_UNKNOWN);
   ("DRIVER_MLDSA87_HW_ERROR"%string, DRIVER_MLDSA87_HW_ERROR);
   ("DRIVER_MLDSA87_SIGN_VALIDATION_FAILED"%string, DRIVER_MLDSA87_SIGN_VALIDATION_FAILED);
   ("DRIVER_MLDSA87_KEY_GEN_SEED_BAD_USAGE"%string, DRIVER_MLDSA87_KEY_GEN_SEED_BAD_USAGE);
   ("DRIVER_MLDSA87_UNSUPPORTED_SIGNATURE"%string, DRIVER_MLDSA87_UNSUPPORTED_SIGNATURE);
   ("DRIVER_MLDSA87_KEYGEN_PAIRWISE_CONSISTENCY_FAILURE"%string, DRIVER_MLDSA87_KEYGEN_PAIRWISE_CONSISTENCY_FAILURE);
   ("DRIVER_MLKEM_READ_SEED_KV_READ"%string, DRIVER_MLKEM_READ_SEED_KV_READ);
   ("DRIVER_MLKEM_READ_SEED_KV_WRITE"%string, DRIVER_MLKEM_READ_SEED_KV_WRITE);
   ("DRIVER_MLKEM_READ_SEED_KV_UNKNOWN"%string, DRIVER_MLKEM_READ_SEED_KV_UNKNOWN);
   ("DRIVER_MLKEM_HW_ERROR"%string, DRIVER_MLKEM_HW_ERROR);
   ("DRIVER_MLKEM_READ_MSG_KV_READ"%string, DRIVER_MLKEM_READ_MSG_KV_READ);
   ("DRIVER_MLKEM_READ_MSG_KV_WRITE"%string, DRIVER_MLKEM_READ_MSG_KV_WRITE);
   ("DRIVER_MLKEM_READ_MSG_KV_UNKNOWN"%string, DRIVER_MLKEM_READ_MSG_KV_UNKNOWN);
   ("DRIVER_MLKEM_KEYGEN_PAIRWISE_CONSISTENCY_FAILURE"%string, DRIVER_MLKEM_KEYGEN_PAIRWISE_CONSISTENCY_FAILURE);
   ("DRIVER_KV_ERASE_USE_LOCK_SET_FAILURE"%string, DRIVER_KV_ERASE_USE_LOCK_SET_FAILURE);
   ("DRIVER_KV_ERASE_WRITE_LOCK_SET_FAILURE"%string, DRIVER_KV_ERASE_WRITE_LOCK_SET_FAILURE);
   ("DRIVER_PCR_BANK_ERASE_WRITE_LOCK_SET_FAILURE"%string, DRIVER_PCR_BANK_ERASE_WRITE_LOCK_SET_FAILURE);
   ("DRIVER_RECOVERY_INVALID_CMS_TYPE"%string, DRIVER_RECOVERY_INVALID_CMS_TYPE);
   ("DRIVER_RECOVERY_INVALID_CMS"%string, DRIVER_RECOVERY_INVALID_CMS);
   ("DRIVER_MAILBOX_INVALID_STATE"%string, DRIVER_MAILBOX_INVALID_STATE);
   ("DRIVER_MAILBOX_INVALID_DATA_LEN"%string, DRIVER_MAILBOX_INVALID_DATA_LEN);
   ("DRIVER_MAILBOX_ENQUEUE_ERR"%string, DRIVER_MAILBOX_ENQUEUE_ERR);
   ("DRIVER_MAILBOX_UNCORRECTABLE_ECC"%string, DRIVER_MAILBOX_UNCORRECTABLE_ECC);
   ("DRIVER_MAILBOX_FSM_ERROR"%string, DRIVER_MAILBOX_FSM_ERROR);
   ("DRIVER_SHA2_512_384ACC_INDEX_OUT_OF_BOUNDS"%string, DRIVER_SHA2_512_384ACC_INDEX_OUT_OF_BOUNDS);
   ("DRIVER_SHA1_INVALID_STATE"%string, DRIVER_SHA1_INVALID_STATE);
   ("DRIVER_SHA1_MAX_DATA"%string, DRIVER_SHA1_MAX_DATA);
   ("DRIVER_SHA1_INVALID_SLICE"%string, DRIVER_SHA1_INVALID_SLICE);
   ("DRIVER_SHA1_INDEX_OUT_OF_BOUNDS"%string, DRIVER_SHA1_INDEX_OUT_OF_BOUNDS);
   ("DRIVER_OCP_LOCK_COLD_RESET_INVALID_HEK_SEED"%string, DRIVER_OCP_LOCK_COLD_RESET_INVALID_HEK_SEED);
   ("IMAGE_VERIFIER_ERR_MANIFEST_MARKER_MISMATCH"%string, IMAGE_VERIFIER_ERR_MANIFEST_MARKER_MISMATCH);
   ("IMAGE_VERIFIER_ERR_MANIFEST_SIZE_MISMATCH"%string, IMAGE_VERIFIER_ERR_MANIFEST_SIZE_MISMATCH);
   ("IMAGE_VERIFIER_ERR_VENDOR_PUB_KEY_DIGEST_INVALID"%string, IMAGE_VERIFIER_ERR_VENDOR_PUB_KEY_DIGEST_INVALID);
   ("IMAGE_VERIFIER_ERR_VENDOR_PUB_KEY_DIGEST_FAILURE"%string, IMAGE_VERIFIER_ERR_VENDOR_PUB_KEY_DIGEST_FAILURE);
   ("IMAGE_VERIFIER_ERR_VENDOR_PUB_KEY_DIGEST_MISMATCH"%string, IMAGE_VERIFIER_ERR_VENDOR_PUB_KEY_DIGEST_MISMATCH);
   ("IMAGE_VERIFIER_ERR_OWNER_PUB_KEY_DIGEST_FAILURE"%string, IMAGE_VERIFIER_ERR_OWNER_PUB_KEY_DIGEST_FAILURE);
   ("IMAGE_VERIFIER_ERR_OWNER_PUB_KEY_DIGEST_MISMATCH"%string, IMAGE_VERIFIER_ERR_OWNER_PUB_KEY_DIGEST_MISMATCH);
   ("IMAGE_VERIFIER_ERR_VENDOR_ECC_PUB_KEY_INDEX_OUT_OF_BOUNDS"%string, IMAGE_VERIFIER_ERR_VENDOR_ECC_PUB_KEY_INDEX_OUT_OF_BOUNDS);
   ("IMAGE_VERIFIER_ERR_VENDOR_ECC_PUB_KEY_REVOKED"%string, IMAGE_VERIFIER_ERR_VENDOR_ECC_PUB_KEY_REVOKED);
   ("IMAGE_VERIFIER_ERR_HEADER_DIGEST_FAILURE"%string, IMAGE_VERIFIER_ERR_HEADER_DIGEST_FAILURE);
   ("IMAGE_VERIFIER_ERR_VENDOR_ECC_VERIFY_FAILURE"%string, IMAGE_VERIFIER_ERR_VENDOR_ECC_VERIFY_FAILURE);
   ("IMAGE_VERIFIER_ERR_VENDOR_ECC_SIGNATURE_INVALID"%string, IMAGE_VERIFIER_ERR_VENDOR_ECC_SIGNATURE_INVALID);
   ("IMAGE_VERIFIER_ERR_VENDOR_ECC_PUB_KEY_INDEX_MISMATCH"%string, IMAGE_VERIFIER_ERR_VENDOR_ECC_PUB_KEY_INDEX_MISMATCH);
   ("IMAGE_VERIFIER_ERR_OWNER_ECC_VERIFY_FAILURE"%string, IMAGE_VERIFIER_ERR_OWNER_ECC_VERIFY_FAILURE);
   ("IMAGE_VERIFIER_ERR_OWNER_ECC_SIGNATURE_INVALID"%string, IMAGE_VERIFIER_ERR_OWNER_ECC_SIGNATURE_INVALID);
   ("IMAGE_VERIFIER_ERR_TOC_ENTRY_COUNT_INVALID"%string, IMAGE_VERIFIER_ERR_TOC_ENTRY_COUNT_INVALID);
   ("IMAGE_VERIFIER_ERR_TOC_DIGEST_FAILURE"%string, IMAGE_VERIFIER_ERR_TOC_DIGEST_FAILURE);
   ("IMAGE_VERIFIER_ERR_TOC_DIGEST_MISMATCH"%string, IMAGE_VERIFIER_ERR_TOC_DIGEST_MISMATCH);
   ("IMAGE_VERIFIER_ERR_FMC_DIGEST_FAILURE"%string, IMAGE_VERIFIER_ERR_FMC_DIGEST_FAILURE);
   ("IMAGE_VERIFIER_ERR_FMC_DIGEST_MISMATCH"%string, IMAGE_VERIFIER_ERR_FMC_DIGEST_MISMATCH);
   ("IMAGE_VERIFIER_ERR_RUNTIME_DIGEST_FAILURE"%string, IMAGE_VERIFIER_ERR_RUNTIME_DIGEST_FAILURE);
   ("IMAGE_VERIFIER_ERR_RUNTIME_DIGEST_MISMATCH"%string, IMAGE_VERIFIER_ERR_RUNTIME_DIGEST_MISMATCH);
   ("IMAGE_VERIFIER_ERR_FMC_RUNTIME_OVERLAP"%string, IMAGE_VERIFIER_ERR_FMC_RUNTIME_OVERLAP);
   ("IMAGE_VERIFIER_ERR_FMC_RUNTIME_INCORRECT_ORDER"%string, IMAGE_VERIFIER_ERR_FMC_RUNTIME_INCORRECT_ORDER);
   ("IMAGE_VERIFIER_ERR_OWNER_ECC_PUB_KEY_INVALID_ARG"%string, IMAGE_VERIFIER_ERR_OWNER_ECC_PUB_KEY_INVALID_ARG);
   ("IMAGE_VERIFIER_ERR_OWNER_ECC_SIGNATURE_INVALID_ARG"%string, IMAGE_VERIFIER_ERR_OWNER_ECC_SIGNATURE_INVALID_ARG);
   ("IMAGE_VERIFIER_ERR_VENDOR_ECC_PUB_KEY_INVALID_ARG"%string, IMAGE_VERIFIER_ERR_VENDOR_ECC_PUB_KEY_INVALID_ARG);
   ("IMAGE_VERIFIER_ERR_VENDOR_ECC_SIGNATURE_INVALID_ARG"%string, IMAGE_VERIFIER_ERR_VENDOR_ECC_SIGNATURE_INVALID_ARG);
   ("IMAGE_VERIFIER_ERR_UPDATE_RESET_OWNER_DIGEST_FAILURE"%string, IMAGE_VERIFIER_ERR_UPDATE_RESET_OWNER_DIGEST_FAILURE);
   ("IMAGE_VERIFIER_ERR_UPDATE_RESET_VENDOR_ECC_PUB_KEY_IDX_MISMATCH"%string, IMAGE_VERIFIER_ERR_UPDATE_RESET_VENDOR_ECC_PUB_KEY_IDX_MISMATCH);
   ("IMAGE_VERIFIER_ERR_UPDATE_RESET_FMC_DIGEST_MISMATCH"%string, IMAGE_VERIFIER_ERR_UPDATE_RESET_FMC_DIGEST_MISMATCH);
   ("IMAGE_VERIFIER_ERR_FMC_LOAD_ADDR_INVALID"%string, IMAGE_VERIFIER_ERR_FMC_LOAD_ADDR_INVALID);
   ("IMAGE_VERIFIER_ERR_FMC_LOAD_ADDR_UNALIGNED"%string, IMAGE_VERIFIER_ERR_FMC_LOAD_ADDR_UNALIGNED);
   ("IMAGE_VERIFIER_ERR_FMC_ENTRY_POINT_INVALID"%string, IMAGE_VERIFIER_ERR_FMC_ENTRY_POINT_INVALID);
   ("IMAGE_VERIFIER_ERR_FMC_ENTRY_POINT_UNALIGNED"%string, IMAGE_VERIFIER_ERR_FMC_ENTRY_POINT_UNALIGNED);
   ("IMAGE_VERIFIER_ERR_RUNTIME_LOAD_ADDR_INVALID"%string, IMAGE_VERIFIER_ERR_RUNTIME_LOAD_ADDR_INVALID);
   ("IMAGE_VERIFIER_ERR_RUNTIME_LOAD_ADDR_UNALIGNED"%string, IMAGE_VERIFIER_ERR_RUNTIME_LOAD_ADDR_UNALIGNED);
   ("IMAGE_VERIFIER_ERR_RUNTIME_ENTRY_POINT_INVALID"%string, IMAGE_VERIFIER_ERR_RUNTIME_ENTRY_POINT_INVALID);
   ("IMAGE_VERIFIER_ERR_RUNTIME_ENTRY_POINT_UNALIGNED"%string, IMAGE_VERIFIER_ERR_RUNTIME_ENTRY_POINT_UNALIGNED);
   ("IMAGE_VERIFIER_ERR_FIRMWARE_SVN_GREATER_THAN_MAX_SUPPORTED"%string, IMAGE_VERIFIER_ERR_FIRMWARE_SVN_GREATER_THAN_MAX_SUPPORTED);
   ("IMAGE_VERIFIER_ERR_FIRMWARE_SVN_LESS_THAN_FUSE"%string, IMAGE_VERIFIER_ERR_FIRMWARE_SVN_LESS_THAN_FUSE);
   ("IMAGE_VERIFIER_ERR_IMAGE_LEN_MORE_THAN_BUNDLE_SIZE"%string, IMAGE_VERIFIER_ERR_IMAGE_LEN_MORE_THAN_BUNDLE_SIZE);
   ("IMAGE_VERIFIER_ERR_VENDOR_PQC_PUB_KEY_INDEX_MISMATCH"%string, IMAGE_VERIFIER_ERR_VENDOR_PQC_PUB_KEY_INDEX_MISMATCH);
   ("IMAGE_VERIFIER_ERR_VENDOR_LMS_VERIFY_FAILURE"%string, IMAGE_VERIFIER_ERR_VENDOR_LMS_VERIFY_FAILURE);
   ("IMAGE_VERIFIER_ERR_VENDOR_PQC_PUB_KEY_INDEX_OUT_OF_BOUNDS"%string, IMAGE_VERIFIER_ERR_VENDOR_PQC_PUB_KEY_INDEX_OUT_OF_BOUNDS);
   ("IMAGE_VERIFIER_ERR_VENDOR_LMS_SIGNATURE_INVALID"%string, IMAGE_VERIFIER_ERR_VENDOR_LMS_SIGNATURE_INVALID);
   ("IMAGE_VERIFIER_ERR_FMC_RUNTIME_LOAD_ADDR_OVERLAP"%string, IMAGE_VERIFIER_ERR_FMC_RUNTIME_LOAD_ADDR_OVERLAP);
   ("IMAGE_VERIFIER_ERR_OWNER_LMS_VERIFY_FAILURE"%string, IMAGE_VERIFIER_ERR_OWNER_LMS_VERIFY_FAILURE);
   ("IMAGE_VERIFIER_ERR_OWNER_LMS_SIGNATURE_INVALID"%string, IMAGE_VERIFIER_ERR_OWNER_LMS_SIGNATURE_INVALID);
   ("IMAGE_VERIFIER_ERR_VENDOR_PQC_PUB_KEY_REVOKED"%string, IMAGE_VERIFIER_ERR_VENDOR_PQC_PUB_KEY_REVOKED);
   ("IMAGE_VERIFIER_ERR_FMC_SIZE_ZERO"%string, IMAGE_VERIFIER_ERR_FMC_SIZE_ZERO);
   ("IMAGE_VERIFIER_ERR_RUNTIME_SIZE_ZERO"%string, IMAGE_VERIFIER_ERR_RUNTIME_SIZE_ZERO);
   ("IMAGE_VERIFIER_ERR_UPDATE_RESET_VENDOR_PQC_PUB_KEY_IDX_MISMATCH"%string, IMAGE_VERIFIER_ERR_UPDATE_RESET_VENDOR_PQC_PUB_KEY_IDX_MISMATCH);
   ("IMAGE_VERIFIER_ERR_FMC_LOAD_ADDRESS_IMAGE_SIZE_ARITHMETIC_OVERFLOW"%string, IMAGE_VERIFIER_ERR_FMC_LOAD_ADDRESS_IMAGE_SIZE_ARITHMETIC_OVERFLOW);
   ("IMAGE_VERIFIER_ERR_RUNTIME_LOAD_ADDRESS_IMAGE_SIZE_ARITHMETIC_OVERFLOW"%string, IMAGE_VERIFIER_ERR_RUNTIME_LOAD_ADDRESS_IMAGE_SIZE_ARITHMETIC_OVERFLOW);
   ("IMAGE_VERIFIER_ERR_TOC_ENTRY_RANGE_ARITHMETIC_OVERFLOW"%string, IMAGE_VERIFIER_ERR_TOC_ENTRY_RANGE_ARITHMETIC_OVERFLOW);
   ("IMAGE_VERIFIER_ERR_DIGEST_OUT_OF_BOUNDS"%string, IMAGE_VERIFIER_ERR_DIGEST_OUT_OF_BOUNDS);
   ("IMAGE_VERIFIER_ERR_ECC_KEY_DESCRIPTOR_VERSION_MISMATCH"%string, IMAGE_VERIFIER_ERR_ECC_KEY_DESCRIPTOR_VERSION_MISMATCH);
   ("IMAGE_VERIFIER_ERR_ECC_KEY_DESCRIPTOR_HASH_COUNT_GT_MAX"%string, IMAGE_VERIFIER_ERR_ECC_KEY_DESCRIPTOR_HASH_COUNT_GT_MAX);
   ("IMAGE_VERIFIER_ERR_PQC_KEY_DESCRIPTOR_VERSION_MISMATCH"%string, IMAGE_VERIFIER_ERR_PQC_KEY_DESCRIPTOR_VERSION_MISMATCH);
   ("IMAGE_VERIFIER_ERR_PQC_KEY_DESCRIPTOR_TYPE_MISMATCH"%string, IMAGE_VERIFIER_ERR_PQC_KEY_DESCRIPTOR_TYPE_MISMATCH);
   ("IMAGE_VERIFIER_ERR_PQC_KEY_DESCRIPTOR_HASH_COUNT_GT_MAX"%string, IMAGE_VERIFIER_ERR_PQC_KEY_DESCRIPTOR_HASH_COUNT_GT_MAX);
   ("IMAGE_VERIFIER_ERR_ECC_KEY_DESCRIPTOR_INVALID_HASH_COUNT"%string, IMAGE_VERIFIER_ERR_ECC_KEY_DESCRIPTOR_INVALID_HASH_COUNT);
   ("IMAGE_VERIFIER_ERR_PQC_KEY_DESCRIPTOR_INVALID_HASH_COUNT"%string, IMAGE_VERIFIER_ERR_PQC_KEY_DESCRIPTOR_INVALID_HASH_COUNT);
   ("IMAGE_VERIFIER_ERR_PQC_KEY_TYPE_INVALID"%string, IMAGE_VERIFIER_ERR_PQC_KEY_TYPE_INVALID);
   ("IMAGE_VERIFIER_ERR_LMS_VENDOR_PUB_KEY_INVALID"%string, IMAGE_VERIFIER_ERR_LMS_VENDOR_PUB_KEY_INVALID);
   ("IMAGE_VERIFIER_ERR_LMS_VENDOR_SIG_INVALID"%string, IMAGE_VERIFIER_ERR_LMS_VENDOR_SIG_INVALID);
   ("IMAGE_VERIFIER_ERR_LMS_OWNER_PUB_KEY_INVALID"%string, IMAGE_VERIFIER_ERR_LMS_OWNER_PUB_KEY_INVALID);
   ("IMAGE_VERIFIER_ERR_LMS_OWNER_SIG_INVALID"%string, IMAGE_VERIFIER_ERR_LMS_OWNER_SIG_INVALID);
   ("IMAGE_VERIFIER_ERR_MLDSA_VENDOR_PUB_KEY_READ_FAILED"%string, IMAGE_VERIFIER_ERR_MLDSA_VENDOR_PUB_KEY_READ_FAILED);
   ("IMAGE_VERIFIER_ERR_MLDSA_VENDOR_SIG_READ_FAILED"%string, IMAGE_VERIFIER_ERR_MLDSA_VENDOR_SIG_READ_FAILED);
   ("IMAGE_VERIFIER_ERR_MLDSA_OWNER_PUB_KEY_READ_FAILED"%string, IMAGE_VERIFIER_ERR_MLDSA_OWNER_PUB_KEY_READ_FAILED);
   ("IMAGE_VERIFIER_ERR_MLDSA_OWNER_SIG_READ_FAILED"%string, IMAGE_VERIFIER_ERR_MLDSA_OWNER_SIG_READ_FAILED);
   ("IMAGE_VERIFIER_ERR_VENDOR_MLDSA_MSG_MISSING"%string, IMAGE_VERIFIER_ERR_VENDOR_MLDSA_MSG_MISSING);
   ("IMAGE_VERIFIER_ERR_OWNER_MLDSA_MSG_MISSING"%string, IMAGE_VERIFIER_ERR_OWNER_MLDSA_MSG_MISSING);
   ("IMAGE_VERIFIER_ERR_VENDOR_MLDSA_VERIFY_FAILURE"%string, IMAGE_VERIFIER_ERR_VENDOR_MLDSA_VERIFY_FAILURE);
   ("IMAGE_VERIFIER_ERR_VENDOR_MLDSA_SIGNATURE_INVALID"%string, IMAGE_VERIFIER_ERR_VENDOR_MLDSA_SIGNATURE_INVALID);
   ("IMAGE_VERIFIER_ERR_OWNER_MLDSA_VERIFY_FAILURE"%string, IMAGE_VERIFIER_ERR_OWNER_MLDSA_VERIFY_FAILURE);
   ("IMAGE_VERIFIER_ERR_OWNER_MLDSA_SIGNATURE_INVALID"%string, IMAGE_VERIFIER_ERR_OWNER_MLDSA_SIGNATURE_INVALID);
   ("IMAGE_VERIFIER_ERR_MLDSA_TYPE_CONVERSION_FAILED"%string, IMAGE_VERIFIER_ERR_MLDSA_TYPE_CONVERSION_FAILED);
   ("IMAGE_VERIFIER_ERR_VENDOR_ECC_PUB_KEY_DIGEST_MISMATCH"%string, IMAGE_VERIFIER_ERR_VENDOR_ECC_PUB_KEY_DIGEST_MISMATCH);
   ("IMAGE_VERIFIER_ERR_VENDOR_PQC_PUB_KEY_DIGEST_MISMATCH"%string, IMAGE_VERIFIER_ERR_VENDOR_PQC_PUB_KEY_DIGEST_MISMATCH);
   ("IMAGE_VERIFIER_ERR_INVALID_PQC_KEY_TYPE_IN_FUSE"%string, IMAGE_VERIFIER_ERR_INVALID_PQC_KEY_TYPE_IN_FUSE);
   ("IMAGE_VERIFIER_ERR_PQC_KEY_TYPE_MISMATCH"%string, IMAGE_VERIFIER_ERR_PQC_KEY_TYPE_MISMATCH);
   ("IMAGE_VERIFIER_ACTIVATION_FAILED"%string, IMAGE_VERIFIER_ACTIVATION_FAILED);
   ("IMAGE_VERIFIER_ERR_DOT_OWNER_PUB_KEY_DIGEST_MISMATCH"%string, IMAGE_VERIFIER_ERR_DOT_OWNER_PUB_KEY_DIGEST_MISMATCH);
   ("OCP_LOCK_ENGINE_TIMEOUT"%string, OCP_LOCK_ENGINE_TIMEOUT);
   ("OCP_LOCK_ENGINE_ERR"%string, OCP_LOCK_ENGINE_ERR);
   ("OCP_LOCK_ENGINE_NOT_READY"%string, OCP_LOCK_ENGINE_NOT_READY);
   ("OCP_LOCK_ENGINE_INVALID_MEK_SIZE"%string, OCP_LOCK_ENGINE_INVALID_MEK_SIZE);
   ("IMAGE_VERIFIER_ERR_DEBUG_IMAGE_NOT_ALLOWED"%string, IMAGE_VERIFIER_ERR_DEBUG_IMAGE_NOT_ALLOWED);
   ("IMAGE_VERIFIER_ERR_FMC_OFFSET_INVALID"%string, IMAGE_VERIFIER_ERR_FMC_OFFSET_INVALID);
   ("IMAGE_VERIFIER_ERR_UPDATE_RESET_FMC_LOAD_ADDR_MISMATCH"%string, IMAGE_VERIFIER_ERR_UPDATE_RESET_FMC_LOAD_ADDR_MISMATCH);
   ("IMAGE_VERIFIER_ERR_RUNTIME_OFFSET_INVALID"%string, IMAGE_VERIFIER_ERR_RUNTIME_OFFSET_INVALID);
   ("IMAGE_VERIFIER_ERR_FMC_ENTRY_POINT_NOT_AT_LOAD_ADDR"%string, IMAGE_VERIFIER_ERR_FMC_ENTRY_POINT_NOT_AT_LOAD_ADDR);
   ("IMAGE_VERIFIER_ERR_RUNTIME_ENTRY_POINT_NOT_AT_LOAD_ADDR"%string, IMAGE_VERIFIER_ERR_RUNTIME_ENTRY_POINT_NOT_AT_LOAD_ADDR);
   ("DRIVER_LMS_INVALID_LMS_ALGO_TYPE"%string, DRIVER_LMS_INVALID_LMS_ALGO_TYPE);
   ("DRIVER_LMS_INVALID_LMOTS_ALGO_TYPE"%string, DRIVER_LMS_INVALID_LMOTS_ALGO_TYPE);
   ("DRIVER_LMS_INVALID_WINTERNITS_PARAM"%string, DRIVER_LMS_INVALID_WINTERNITS_PARAM);
   ("DRIVER_LMS_INVALID_PVALUE"%string, DRIVER_LMS_INVALID_PVALUE);
   ("DRIVER_LMS_INVALID_HASH_WIDTH"%string, DRIVER_LMS_INVALID_HASH_WIDTH);
   ("DRIVER_LMS_INVALID_TREE_HEIGHT"%string, DRIVER_LMS_INVALID_TREE_HEIGHT);
   ("DRIVER_LMS_INVALID_Q_VALUE"%string, DRIVER_LMS_INVALID_Q_VALUE);
   ("DRIVER_LMS_INVALID_INDEX"%string, DRIVER_LMS_INVALID_INDEX);
   ("DRIVER_LMS_PATH_OUT_OF_BOUNDS"%string, DRIVER_LMS_PATH_OUT_OF_BOUNDS);
   ("DRIVER_LMS_INVALID_SIGNATURE_LENGTH"%string, DRIVER_LMS_INVALID_SIGNATURE_LENGTH);
   ("DRIVER_LMS_INVALID_PUBLIC_KEY_LENGTH"%string, DRIVER_LMS_INVALID_PUBLIC_KEY_LENGTH);
   ("DRIVER_LMS_INVALID_SIGNATURE_DEPTH"%string, DRIVER_LMS_INVALID_SIGNATURE_DEPTH);
   ("DRIVER_LMS_SIGNATURE_LMOTS_DOESNT_MATCH_PUBKEY_LMOTS"%string, DRIVER_LMS_SIGNATURE_LMOTS_DOESNT_MATCH_PUBKEY_LMOTS);
   ("DRIVER_CSRNG_INSTANTIATE"%string, DRIVER_CSRNG_INSTANTIATE);
   ("DRIVER_CSRNG_UNINSTANTIATE"%string, DRIVER_CSRNG_UNINSTANTIATE);
   ("DRIVER_CSRNG_RESEED"%string, DRIVER_CSRNG_RESEED);
   ("DRIVER_CSRNG_GENERATE"%string, DRIVER_CSRNG_GENERATE);
   ("DRIVER_CSRNG_UPDATE"%string, DRIVER_CSRNG_UPDATE);
   ("DRIVER_CSRNG_OTHER_HEALTH_CHECK_FAILED"%string, DRIVER_CSRNG_OTHER_HEALTH_CHECK_FAILED);
   ("DRIVER_CSRNG_REPCNT_HEALTH_CHECK_FAILED"%string, DRIVER_CSRNG_REPCNT_HEALTH_CHECK_FAILED);
   ("DRIVER_CSRNG_ADAPTP_HEALTH_CHECK_FAILED"%string, DRIVER_CSRNG_ADAPTP_HEALTH_CHECK_FAILED);
   ("DRIVER_CSRNG_MODULE_ALREADY_ENABLED"%string, DRIVER_CSRNG_MODULE_ALREADY_ENABLED);
   ("DRIVER_HANDOFF_INVALID_VAULT"%string, DRIVER_HANDOFF_INVALID_VAULT);
   ("DRIVER_HANDOFF_INVALID_KEY_ID"%string, DRIVER_HANDOFF_INVALID_KEY_ID);
   ("DRIVER_HANDOFF_INVALID_COLD_RESET_ENTRY4"%string, DRIVER_HANDOFF_INVALID_COLD_RESET_ENTRY4);
   ("DRIVER_HANDOFF_INVALID_COLD_RESET_ENTRY48"%string, DRIVER_HANDOFF_INVALID_COLD_RESET_ENTRY48);
   ("DRIVER_HANDOFF_INVALID_WARM_RESET_ENTRY4"%string, DRIVER_HANDOFF_INVALID_WARM_RESET_ENTRY4);
   ("DRIVER_HANDOFF_INVALID_WARM_RESET_ENTRY48"%string, DRIVER_HANDOFF_INVALID_WARM_RESET_ENTRY48);
   ("DRIVER_DMA_TRANSACTION_ALREADY_BUSY"%string, DRIVER_DMA_TRANSACTION_ALREADY_BUSY);
   ("DRIVER_DMA_TRANSACTION_ERROR"%string, DRIVER_DMA_TRANSACTION_ERROR);
   ("DRIVER_DMA_FIFO_UNDERRUN"%string, DRIVER_DMA_FIFO_UNDERRUN);
   ("DRIVER_DMA_FIFO_OVERRUN"%string, DRIVER_DMA_FIFO_OVERRUN);
   ("DRIVER_DMA_FIFO_INVALID_SIZE"%string, DRIVER_DMA_FIFO_INVALID_SIZE);
   ("DRIVER_DMA_SHA_ACCELERATOR_NOT_LOCKED"%string, DRIVER_DMA_SHA_ACCELERATOR_NOT_LOCKED);
   ("DRIVER_DMA_INVALID_DMA_TARGET"%string, DRIVER_DMA_INVALID_DMA_TARGET);
   ("DRIVER_DMA_AES_CHUNKING_UNSUPPORTED"%string, DRIVER_DMA_AES_CHUNKING_UNSUPPORTED);
   ("DRIVER_DMA_AXI_ADDRESS_OVERFLOW"%string, DRIVER_DMA_AXI_ADDRESS_OVERFLOW);
   ("DRIVER_SHA3_INVALID_STATE_ERR"%string, DRIVER_SHA3_INVALID_STATE_ERR);
   ("DRIVER_SHA3_DIGEST_EXCEEDS_RATE"%string, DRIVER_SHA3_DIGEST_EXCEEDS_RATE);
   ("RUNTIME_INTERNAL"%string, RUNTIME_INTERNAL);
   ("RUNTIME_UNIMPLEMENTED_COMMAND"%string, RUNTIME_UNIMPLEMENTED_COMMAND);
   ("RUNTIME_INSUFFICIENT_MEMORY"%string, RUNTIME_INSUFFICIENT_MEMORY);
   ("RUNTIME_ECDSA_VERIFY_FAILED"%string, RUNTIME_ECDSA_VERIFY_FAILED);
   ("RUNTIME_INVALID_CHECKSUM"%string, RUNTIME_INVALID_CHECKSUM);
   ("RUNTIME_HANDOFF_FHT_NOT_LOADED"%string, RUNTIME_HANDOFF_FHT_NOT_LOADED);
   ("RUNTIME_UNEXPECTED_UPDATE_RETURN"%string, RUNTIME_UNEXPECTED_UPDATE_RETURN);
   ("RUNTIME_SHUTDOWN"%string, RUNTIME_SHUTDOWN);
   ("RUNTIME_MAILBOX_INVALID_PARAMS"%string, RUNTIME_MAILBOX_INVALID_PARAMS);
   ("RUNTIME_GLOBAL_NMI"%string, RUNTIME_GLOBAL_NMI);
   ("RUNTIME_GLOBAL_EXCEPTION"%string, RUNTIME_GLOBAL_EXCEPTION);
   ("RUNTIME_GLOBAL_PANIC"%string, RUNTIME_GLOBAL_PANIC);
   ("RUNTIME_HMAC_VERIFY_FAILED"%string, RUNTIME_HMAC_VERIFY_FAILED);
   ("RUNTIME_INITIALIZE_DPE_FAILED"%string, RUNTIME_INITIALIZE_DPE_FAILED);
   ("RUNTIME_GET_IDEVID_CERT_FAILED"%string, RUNTIME_GET_IDEVID_CERT_FAILED);
   ("RUNTIME_CERT_CHAIN_CREATION_FAILED"%string, RUNTIME_CERT_CHAIN_CREATION_FAILED);
   ("RUNTIME_SELF_TEST_IN_PROGRESS"%string, RUNTIME_SELF_TEST_IN_PROGRESS);
   ("RUNTIME_SELF_TEST_NOT_STARTED"%string, RUNTIME_SELF_TEST_NOT_STARTED);
   ("RUNTIME_INVALID_FMC_SIZE"%string, RUNTIME_INVALID_FMC_SIZE);
   ("RUNTIME_INVALID_RUNTIME_SIZE"%string, RUNTIME_INVALID_RUNTIME_SIZE);
   ("RUNTIME_FMC_CERT_HANDOFF_FAILED"%string, RUNTIME_FMC_CERT_HANDOFF_FAILED);
   ("RUNTIME_INCORRECT_PAUSER_PRIVILEGE_LEVEL"%string, RUNTIME_INCORRECT_PAUSER_PRIVILEGE_LEVEL);
   ("RUNTIME_DPE_VALIDATION_FAILED"%string, RUNTIME_DPE_VALIDATION_FAILED);
   ("RUNTIME_UNKNOWN_RESET_FLOW"%string, RUNTIME_UNKNOWN_RESET_FLOW);
   ("RUNTIME_PL0_USED_DPE_CONTEXT_THRESHOLD_EXCEEDED"%string, RUNTIME_PL0_USED_DPE_CONTEXT_THRESHOLD_EXCEEDED);
   ("RUNTIME_PL1_USED_DPE_CONTEXT_THRESHOLD_EXCEEDED"%string, RUNTIME_PL1_USED_DPE_CONTEXT_THRESHOLD_EXCEEDED);
   ("RUNTIME_GLOBAL_WDT_EXPIRED"%string, RUNTIME_GLOBAL_WDT_EXPIRED);
   ("RUNTIME_IDEV_CERT_POPULATION_FAILED"%string, RUNTIME_IDEV_CERT_POPULATION_FAILED);
   ("RUNTIME_ADD_ROM_MEASUREMENTS_TO_DPE_FAILED"%string, RUNTIME_ADD_ROM_MEASUREMENTS_TO_DPE_FAILED);
   ("RUNTIME_TAGGING_FAILURE"%string, RUNTIME_TAGGING_FAILURE);
   ("RUNTIME_DUPLICATE_TAG"%string, RUNTIME_DUPLICATE_TAG);
   ("RUNTIME_CONTEXT_ALREADY_TAGGED"%string, RUNTIME_CONTEXT_ALREADY_TAGGED);
   ("RUNTIME_ADD_CCIV_MEASUREMENT_TO_DPE_FAILED"%string, RUNTIME_ADD_CCIV_MEASUREMENT_TO_DPE_FAILED);
   ("RUNTIME_MAILBOX_API_RESPONSE_DATA_LEN_TOO_LARGE"%string, RUNTIME_MAILBOX_API_RESPONSE_DATA_LEN_TOO_LARGE);
   ("RUNTIME_MAILBOX_API_REQUEST_DATA_LEN_TOO_LARGE"%string, RUNTIME_MAILBOX_API_REQUEST_DATA_LEN_TOO_LARGE);
   ("RUNTIME_LDEVID_CERT_HANDOFF_FAILED"%string, RUNTIME_LDEVID_CERT_HANDOFF_FAILED);
   ("RUNTIME_CONTEXT_TAGS_VALIDATION_FAILED"%string, RUNTIME_CONTEXT_TAGS_VALIDATION_FAILED);
   ("RUNTIME_COULD_NOT_GET_DPE_PROFILE"%string, RUNTIME_COULD_NOT_GET_DPE_PROFILE);
   ("RUNTIME_DPE_COMMAND_DESERIALIZATION_FAILED"%string, RUNTIME_DPE_COMMAND_DESERIALIZATION_FAILED);
   ("GET_LDEVID_CERT_FAILED"%string, GET_LDEVID_CERT_FAILED);
   ("RUNTIME_GET_FMC_ALIAS_CERT_FAILED"%string, RUNTIME_GET_FMC_ALIAS_CERT_FAILED);
   ("RUNTIME_GET_RT_ALIAS_CERT_FAILED"%string, RUNTIME_GET_RT_ALIAS_CERT_FAILED);
   ("RUNTIME_CMD_BUSY_DURING_WARM_RESET"%string, RUNTIME_CMD_BUSY_DURING_WARM_RESET);
   ("RUNTIME_FW_SVN_HANDOFF_FAILED"%string, RUNTIME_FW_SVN_HANDOFF_FAILED);
   ("RUNTIME_FW_MIN_SVN_HANDOFF_FAILED"%string, RUNTIME_FW_MIN_SVN_HANDOFF_FAILED);
   ("RUNTIME_COLD_BOOT_FW_SVN_HANDOFF_FAILED"%string, RUNTIME_COLD_BOOT_FW_SVN_HANDOFF_FAILED);
   ("RUNTIME_CONTEXT_HAS_TAG_VALIDATION_FAILED"%string, RUNTIME_CONTEXT_HAS_TAG_VALIDATION_FAILED);
   ("RUNTIME_LDEV_ID_CERT_TOO_BIG"%string, RUNTIME_LDEV_ID_CERT_TOO_BIG);
   ("RUNTIME_FMC_ALIAS_CERT_TOO_BIG"%string, RUNTIME_FMC_ALIAS_CERT_TOO_BIG);
   ("RUNTIME_RT_ALIAS_CERT_TOO_BIG"%string, RUNTIME_RT_ALIAS_CERT_TOO_BIG);
   ("RUNTIME_COMPUTE_RT_ALIAS_SN_FAILED"%string, RUNTIME_COMPUTE_RT_ALIAS_SN_FAILED);
   ("RUNTIME_RT_JOURNEY_PCR_VALIDATION_FAILED"%string, RUNTIME_RT_JOURNEY_PCR_VALIDATION_FAILED);
   ("RUNTIME_UNABLE_TO_FIND_DPE_ROOT_CONTEXT"%string, RUNTIME_UNABLE_TO_FIND_DPE_ROOT_CONTEXT);
   ("RUNTIME_INCREMENT_PCR_RESET_MAX_REACHED"%string, RUNTIME_INCREMENT_PCR_RESET_MAX_REACHED);
   ("RUNTIME_PL0_USED_DPE_CONTEXT_THRESHOLD_REACHED"%string, RUNTIME_PL0_USED_DPE_CONTEXT_THRESHOLD_REACHED);
   ("RUNTIME_PL1_USED_DPE_CONTEXT_THRESHOLD_REACHED"%string, RUNTIME_PL1_USED_DPE_CONTEXT_THRESHOLD_REACHED);
   ("RUNTIME_CDI_KV_HDL_HANDOFF_FAILED"%string, RUNTIME_CDI_KV_HDL_HANDOFF_FAILED);
   ("RUNTIME_PRIV_KEY_KV_HDL_HANDOFF_FAILED"%string, RUNTIME_PRIV_KEY_KV_HDL_HANDOFF_FAILED);
   ("RUNTIME_KEY_LADDER_HANDOFF_FAILED"%string, RUNTIME_KEY_LADDER_HANDOFF_FAILED);
   ("RUNTIME_PCR_RESERVED"%string, RUNTIME_PCR_RESERVED);
   ("RUNTIME_PCR_INVALID_INDEX"%string, RUNTIME_PCR_INVALID_INDEX);
   ("RUNTIME_DMTF_DEVICE_INFO_VALIDATION_FAILED"%string, RUNTIME_DMTF_DEVICE_INFO_VALIDATION_FAILED);
   ("RUNTIME_STORE_DMTF_DEVICE_INFO_FAILED"%string, RUNTIME_STORE_DMTF_DEVICE_INFO_FAILED);
   ("RUNTIME_CERTIFY_KEY_EXTENDED_FAILED"%string, RUNTIME_CERTIFY_KEY_EXTENDED_FAILED);
   ("RUNTIME_DPE_RESPONSE_SERIALIZATION_FAILED"%string, RUNTIME_DPE_RESPONSE_SERIALIZATION_FAILED);
   ("RUNTIME_LMS_VERIFY_FAILED"%string, RUNTIME_LMS_VERIFY_FAILED);
   ("RUNTIME_LMS_VERIFY_INVALID_LMS_ALGORITHM"%string, RUNTIME_LMS_VERIFY_INVALID_LMS_ALGORITHM);
   ("RUNTIME_LMS_VERIFY_INVALID_LMOTS_ALGORITHM"%string, RUNTIME_LMS_VERIFY_INVALID_LMOTS_ALGORITHM);
   ("RUNTIME_INVALID_AUTH_MANIFEST_MARKER"%string, RUNTIME_INVALID_AUTH_MANIFEST_MARKER);
   ("RUNTIME_AUTH_MANIFEST_PREAMBLE_SIZE_MISMATCH"%string, RUNTIME_AUTH_MANIFEST_PREAMBLE_SIZE_MISMATCH);
   ("RUNTIME_AUTH_MANIFEST_VENDOR_ECC_SIGNATURE_INVALID"%string, RUNTIME_AUTH_MANIFEST_VENDOR_ECC_SIGNATURE_INVALID);
   ("RUNTIME_AUTH_MANIFEST_VENDOR_LMS_SIGNATURE_INVALID"%string, RUNTIME_AUTH_MANIFEST_VENDOR_LMS_SIGNATURE_INVALID);
   ("RUNTIME_AUTH_MANIFEST_OWNER_ECC_SIGNATURE_INVALID"%string, RUNTIME_AUTH_MANIFEST_OWNER_ECC_SIGNATURE_INVALID);
   ("RUNTIME_AUTH_MANIFEST_OWNER_LMS_SIGNATURE_INVALID"%string, RUNTIME_AUTH_MANIFEST_OWNER_LMS_SIGNATURE_INVALID);
   ("RUNTIME_AUTH_MANIFEST_PREAMBLE_SIZE_LT_MIN"%string, RUNTIME_AUTH_MANIFEST_PREAMBLE_SIZE_LT_MIN);
   ("RUNTIME_AUTH_MANIFEST_IMAGE_METADATA_LIST_INVALID_SIZE"%string, RUNTIME_AUTH_MANIFEST_IMAGE_METADATA_LIST_INVALID_SIZE);
   ("RUNTIME_AUTH_MANIFEST_IMAGE_METADATA_LIST_INVALID_ENTRY_COUNT"%string, RUNTIME_AUTH_MANIFEST_IMAGE_METADATA_LIST_INVALID_ENTRY_COUNT);
   ("RUNTIME_AUTH_AND_STASH_UNSUPPORTED_IMAGE_SOURCE"%string, RUNTIME_AUTH_AND_STASH_UNSUPPORTED_IMAGE_SOURCE);
   ("RUNTIME_CMD_RESERVED_PAUSER"%string, RUNTIME_CMD_RESERVED_PAUSER);
   ("RUNTIME_AUTH_AND_STASH_MEASUREMENT_DPE_ERROR"%string, RUNTIME_AUTH_AND_STASH_MEASUREMENT_DPE_ERROR);
   ("RUNTIME_GET_IDEV_ID_UNPROVISIONED"%string, RUNTIME_GET_IDEV_ID_UNPROVISIONED);
   ("RUNTIME_GET_IDEV_ID_UNSUPPORTED_ROM"%string, RUNTIME_GET_IDEV_ID_UNSUPPORTED_ROM);
   ("RUNTIME_AUTH_MANIFEST_IMAGE_METADATA_LIST_DUPLICATE_FIRMWARE_ID"%string, RUNTIME_AUTH_MANIFEST_IMAGE_METADATA_LIST_DUPLICATE_FIRMWARE_ID);
   ("RUNTIME_AUTH_MANIFEST_LMS_VENDOR_PUB_KEY_INVALID"%string, RUNTIME_AUTH_MANIFEST_LMS_VENDOR_PUB_KEY_INVALID);
   ("RUNTIME_AUTH_MANIFEST_LMS_OWNER_PUB_KEY_INVALID"%string, RUNTIME_AUTH_MANIFEST_LMS_OWNER_PUB_KEY_INVALID);
   ("RUNTIME_KEY_LADDER_TARGET_SVN_TOO_LARGE"%string, RUNTIME_KEY_LADDER_TARGET_SVN_TOO_LARGE);
   ("RUNTIME_SIGN_WITH_EXPORTED_ECDSA_KEY_DERIVIATION_FAILED"%string, RUNTIME_SIGN_WITH_EXPORTED_ECDSA_KEY_DERIVIATION_FAILED);
   ("RUNTIME_SIGN_WITH_EXPORTED_ECDSA_SIGNATURE_FAILED"%string, RUNTIME_SIGN_WITH_EXPORTED_ECDSA_SIGNATURE_FAILED);
   ("RUNTIME_SIGN_WITH_EXPORTED_ECDSA_INVALID_DIGEST"%string, RUNTIME_SIGN_WITH_EXPORTED_ECDSA_INVALID_DIGEST);
   ("RUNTIME_SIGN_WITH_EXPORTED_ECDSA_INVALID_SIGNATURE"%string, RUNTIME_SIGN_WITH_EXPORTED_ECDSA_INVALID_SIGNATURE);
   ("RUNTIME_GET_FMC_CSR_UNPROVISIONED"%string, RUNTIME_GET_FMC_CSR_UNPROVISIONED);
   ("RUNTIME_GET_FMC_CSR_UNSUPPORTED_FMC"%string, RUNTIME_GET_FMC_CSR_UNSUPPORTED_FMC);
   ("RUNTIME_CMB_INVALID_KEY_USAGE_AND_SIZE"%string, RUNTIME_CMB_INVALID_KEY_USAGE_AND_SIZE);
   ("RUNTIME_CMB_KEY_USAGE_STORAGE_FULL"%string, RUNTIME_CMB_KEY_USAGE_STORAGE_FULL);
   ("RUNTIME_CMB_NOT_INITIALIZED"%string, RUNTIME_CMB_NOT_INITIALIZED);
   ("RUNTIME_REVOKE_EXPORTED_CDI_HANDLE_NOT_FOUND"%string, RUNTIME_REVOKE_EXPORTED_CDI_HANDLE_NOT_FOUND);
   ("RUNTIME_IMAGE_METADATA_NOT_FOUND"%string, RUNTIME_IMAGE_METADATA_NOT_FOUND);
   ("RUNTIME_SIGN_WITH_EXPORTED_MLDSA_NOT_SUPPORTED"%string, RUNTIME_SIGN_WITH_EXPORTED_MLDSA_NOT_SUPPORTED);
   ("RUNTIME_AUTH_MANIFEST_MLDSA_VENDOR_PUB_KEY_READ_FAILED"%string, RUNTIME_AUTH_MANIFEST_MLDSA_VENDOR_PUB_KEY_READ_FAILED);
   ("RUNTIME_AUTH_MANIFEST_MLDSA_VENDOR_SIG_READ_FAILED"%string, RUNTIME_AUTH_MANIFEST_MLDSA_VENDOR_SIG_READ_FAILED);
   ("RUNTIME_AUTH_MANIFEST_MLDSA_VENDOR_SIG_INVALID"%string, RUNTIME_AUTH_MANIFEST_MLDSA_VENDOR_SIG_INVALID);
   ("RUNTIME_AUTH_MANIFEST_MLDSA_OWNER_PUB_KEY_READ_FAILED"%string, RUNTIME_AUTH_MANIFEST_MLDSA_OWNER_PUB_KEY_READ_FAILED);
   ("RUNTIME_AUTH_MANIFEST_MLDSA_OWNER_SIG_READ_FAILED"%string, RUNTIME_AUTH_MANIFEST_MLDSA_OWNER_SIG_READ_FAILED);
   ("RUNTIME_AUTH_MANIFEST_MLDSA_OWNER_SIG_INVALID"%string, RUNTIME_AUTH_MANIFEST_MLDSA_OWNER_SIG_INVALID);
   ("RUNTIME_DEBUG_UNLOCK_INVALID_LIFECYCLE"%string, RUNTIME_DEBUG_UNLOCK_INVALID_LIFECYCLE);
   ("RUNTIME_DEBUG_UNLOCK_NO_CHALLENGE"%string, RUNTIME_DEBUG_UNLOCK_NO_CHALLENGE);
   ("RUNTIME_DEBUG_UNLOCK_NO_REQUEST"%string, RUNTIME_DEBUG_UNLOCK_NO_REQUEST);
   ("RUNTIME_MLDSA_VERIFY_FAILED"%string, RUNTIME_MLDSA_VERIFY_FAILED);
   ("RUNTIME_GCM_KEY_USAGE_LIMIT_REACHED"%string, RUNTIME_GCM_KEY_USAGE_LIMIT_REACHED);
   ("RUNTIME_FE_PROG_ILLEGAL_LIFECYCLE_STATE"%string, RUNTIME_FE_PROG_ILLEGAL_LIFECYCLE_STATE);
   ("RUNTIME_FE_PROG_INVALID_PARTITION"%string, RUNTIME_FE_PROG_INVALID_PARTITION);
   ("RUNTIME_REALLOCATE_DPE_CONTEXTS_PL0_LESS_THAN_MIN"%string, RUNTIME_REALLOCATE_DPE_CONTEXTS_PL0_LESS_THAN_MIN);
   ("RUNTIME_REALLOCATE_DPE_CONTEXTS_PL0_GREATER_THAN_MAX"%string, RUNTIME_REALLOCATE_DPE_CONTEXTS_PL0_GREATER_THAN_MAX);
   ("RUNTIME_REALLOCATE_DPE_CONTEXTS_PL0_LESS_THAN_USED"%string, RUNTIME_REALLOCATE_DPE_CONTEXTS_PL0_LESS_THAN_USED);
   ("RUNTIME_REALLOCATE_DPE_CONTEXTS_PL1_LESS_THAN_USED"%string, RUNTIME_REALLOCATE_DPE_CONTEXTS_PL1_LESS_THAN_USED);
   ("RUNTIME_OCP_LOCK_UNSUPPORTED_COMMAND"%string, RUNTIME_OCP_LOCK_UNSUPPORTED_COMMAND);
   ("RUNTIME_OCP_LOCK_HEK_UNAVAILABLE"%string, RUNTIME_OCP_LOCK_HEK_UNAVAILABLE);
   ("RUNTIME_OCP_LOCK_MEK_NOT_INITIALIZED"%string, RUNTIME_OCP_LOCK_MEK_NOT_INITIALIZED);
   ("RUNTIME_OCP_LOCK_INVALID_MEK_SECRET_SEED_SIZE"%string, RUNTIME_OCP_LOCK_INVALID_MEK_SECRET_SEED_SIZE);
   ("RUNTIME_OCP_LOCK_INVALID_MEK_SEED_SIZE"%string, RUNTIME_OCP_LOCK_INVALID_MEK_SEED_SIZE);
   ("RUNTIME_OCP_LOCK_MEK_CHKSUM_FAIL"%string, RUNTIME_OCP_LOCK_MEK_CHKSUM_FAIL);
   ("RUNTIME_OCP_LOCK_UNKNOWN_HPKE_HANDLE"%string, RUNTIME_OCP_LOCK_UNKNOWN_HPKE_HANDLE);
   ("RUNTIME_OCP_LOCK_FAILED_TO_CONVERT_WRAPPED_KEY"%string, RUNTIME_OCP_LOCK_FAILED_TO_CONVERT_WRAPPED_KEY);
   ("RUNTIME_OCP_LOCK_FAILED_TO_GENERATE_MEK"%string, RUNTIME_OCP_LOCK_FAILED_TO_GENERATE_MEK);
   ("RUNTIME_OCP_LOCK_UNKNOWN_ENDORSEMENT_ALGORITHM"%string, RUNTIME_OCP_LOCK_UNKNOWN_ENDORSEMENT_ALGORITHM);
   ("RUNTIME_OCP_LOCK_UNKNOWN_KEM_ALGORITHM"%string, RUNTIME_OCP_LOCK_UNKNOWN_KEM_ALGORITHM);
   ("RUNTIME_OCP_LOCK_ENDORSEMENT_CERT_ENCODING_ERROR"%string, RUNTIME_OCP_LOCK_ENDORSEMENT_CERT_ENCODING_ERROR);
   ("RUNTIME_OCP_LOCK_DESERIALIZE_ENC_FAILURE"%string, RUNTIME_OCP_LOCK_DESERIALIZE_ENC_FAILURE);
   ("RUNTIME_OCP_LOCK_DESERIALIZE_METADATA_FAILURE"%string, RUNTIME_OCP_LOCK_DESERIALIZE_METADATA_FAILURE);
   ("RUNTIME_OCP_LOCK_SERIALIZE_METADATA_FAILURE"%string, RUNTIME_OCP_LOCK_SERIALIZE_METADATA_FAILURE);
   ("RUNTIME_OCP_LOCK_INVALID_WRAPPED_KEY_TYPE"%string, RUNTIME_OCP_LOCK_INVALID_WRAPPED_KEY_TYPE);
   ("RUNTIME_OCP_LOCK_VEK_UNAVAILABLE"%string, RUNTIME_OCP_LOCK_VEK_UNAVAILABLE);
   ("RUNTIME_OCP_LOCK_SEK_INVALID"%string, RUNTIME_OCP_LOCK_SEK_INVALID);
   ("RUNTIME_OCP_LOCK_DPK_INVALID"%string, RUNTIME_OCP_LOCK_DPK_INVALID);
   ("RUNTIME_OCP_LOCK_LOCKED_MPK_INVALID"%string, RUNTIME_OCP_LOCK_LOCKED_MPK_INVALID);
   ("RUNTIME_OCP_LOCK_MEK_INVALID_XTS_KEY"%string, RUNTIME_OCP_LOCK_MEK_INVALID_XTS_KEY);
   ("RUNTIME_INVALID_ROM_PERSISTENT_DATA_MARKER"%string, RUNTIME_INVALID_ROM_PERSISTENT_DATA_MARKER);
   ("RUNTIME_INVALID_ROM_PERSISTENT_DATA_VERSION"%string, RUNTIME_INVALID_ROM_PERSISTENT_DATA_VERSION);
   ("RUNTIME_INVALID_FW_PERSISTENT_DATA_MARKER"%string, RUNTIME_INVALID_FW_PERSISTENT_DATA_MARKER);
   ("RUNTIME_INVALID_FW_PERSISTENT_DATA_VERSION"%string, RUNTIME_INVALID_FW_PERSISTENT_DATA_VERSION);
   ("RUNTIME_RT_CURRENT_PCR_VALIDATION_FAILED"%string, RUNTIME_RT_CURRENT_PCR_VALIDATION_FAILED);
   ("RUNTIME_ATTESTED_CSR_EAT_ENCODING_ERROR"%string, RUNTIME_ATTESTED_CSR_EAT_ENCODING_ERROR);
   ("RUNTIME_ATTESTED_CSR_COSE_SIGN1_ENCODING_ERROR"%string, RUNTIME_ATTESTED_CSR_COSE_SIGN1_ENCODING_ERROR);
   ("RUNTIME_AUTH_MANIFEST_INVALID_PQC_KEY_TYPE_IN_FUSE"%string, RUNTIME_AUTH_MANIFEST_INVALID_PQC_KEY_TYPE_IN_FUSE);
   ("RUNTIME_AUTH_MANIFEST_INVALID_PQC_KEY_TYPE"%string, RUNTIME_AUTH_MANIFEST_INVALID_PQC_KEY_TYPE);
   ("RUNTIME_AUTH_MANIFEST_PQC_KEY_TYPE_MISMATCH"%string, RUNTIME_AUTH_MANIFEST_PQC_KEY_TYPE_MISMATCH);
   ("RUNTIME_INVOKE_DPE_RESPONSE_TOO_LARGE"%string, RUNTIME_INVOKE_DPE_RESPONSE_TOO_LARGE);
   ("RUNTIME_CM_SHAKE256_CONTEXT_MISMATCH"%string, RUNTIME_CM_SHAKE256_CONTEXT_MISMATCH);
   ("RUNTIME_CMB_DMA_SHA384_MISMATCH"%string, RUNTIME_CMB_DMA_SHA384_MISMATCH);
   ("RUNTIME_CMB_DMA_NOT_SUBSYSTEM_MODE"%string, RUNTIME_CMB_DMA_NOT_SUBSYSTEM_MODE);
   ("RUNTIME_DPE_CONTEXT_NOT_FOUND"%string, RUNTIME_DPE_CONTEXT_NOT_FOUND);
   ("RUNTIME_MULTIPLE_DPE_CONTEXTS_FOUND"%string, RUNTIME_MULTIPLE_DPE_CONTEXTS_FOUND);
   ("RUNTIME_DISABLE_ATTESTATION_FAILED_WARM_RESET"%string, RUNTIME_DISABLE_ATTESTATION_FAILED_WARM_RESET);
   ("RUNTIME_DISABLE_ATTESTATION_FAILED_RESET_FLOW"%string, RUNTIME_DISABLE_ATTESTATION_FAILED_RESET_FLOW);
   ("RUNTIME_DISABLE_ATTESTATION_FAILED_DPE_VALIDATION"%string, RUNTIME_DISABLE_ATTESTATION_FAILED_DPE_VALIDATION);
   ("RUNTIME_DISABLE_ATTESTATION_FAILED_DPE_LIMITS"%string, RUNTIME_DISABLE_ATTESTATION_FAILED_DPE_LIMITS);
   ("RUNTIME_DISABLE_ATTESTATION_FAILED_PCR_VALIDATION"%string, RUNTIME_DISABLE_ATTESTATION_FAILED_PCR_VALIDATION);
   ("RUNTIME_SIGN_WITH_EXPORTED_MLDSA_KEY_DERIVIATION_FAILED"%string, RUNTIME_SIGN_WITH_EXPORTED_MLDSA_KEY_DERIVIATION_FAILED);
   ("RUNTIME_SIGN_WITH_EXPORTED_MLDSA_SIGNATURE_FAILED"%string, RUNTIME_SIGN_WITH_EXPORTED_MLDSA_SIGNATURE_FAILED);
   ("RUNTIME_SIGN_WITH_EXPORTED_MLDSA_INVALID_SIGNATURE"%string, RUNTIME_SIGN_WITH_EXPORTED_MLDSA_INVALID_SIGNATURE);
   ("RUNTIME_OWNER_AUTH_MANIFEST_INVALID_MARKER"%string, RUNTIME_OWNER_AUTH_MANIFEST_INVALID_MARKER);
   ("RUNTIME_OWNER_AUTH_MANIFEST_PREAMBLE_SIZE_LT_MIN"%string, RUNTIME_OWNER_AUTH_MANIFEST_PREAMBLE_SIZE_LT_MIN);
   ("RUNTIME_OWNER_AUTH_MANIFEST_PREAMBLE_SIZE_MISMATCH"%string, RUNTIME_OWNER_AUTH_MANIFEST_PREAMBLE_SIZE_MISMATCH);
   ("RUNTIME_OWNER_AUTH_MANIFEST_SVN_LESS_THAN_MIN"%string, RUNTIME_OWNER_AUTH_MANIFEST_SVN_LESS_THAN_MIN);
   ("RUNTIME_OWNER_AUTH_MANIFEST_SVN_GREATER_THAN_MAX"%string, RUNTIME_OWNER_AUTH_MANIFEST_SVN_GREATER_THAN_MAX);
   ("RUNTIME_OWNER_AUTH_MANIFEST_OWNER_ECC_SIGNATURE_INVALID"%string, RUNTIME_OWNER_AUTH_MANIFEST_OWNER_ECC_SIGNATURE_INVALID);
   ("RUNTIME_OWNER_AUTH_MANIFEST_OWNER_LMS_SIGNATURE_INVALID"%string, RUNTIME_OWNER_AUTH_MANIFEST_OWNER_LMS_SIGNATURE_INVALID);
   ("RUNTIME_OWNER_AUTH_MANIFEST_OWNER_MLDSA_SIGNATURE_INVALID"%string, RUNTIME_OWNER_AUTH_MANIFEST_OWNER_MLDSA_SIGNATURE_INVALID);
   ("RUNTIME_OWNER_AUTH_MANIFEST_IMC_OWNER_ECC_SIGNATURE_INVALID"%string, RUNTIME_OWNER_AUTH_MANIFEST_IMC_OWNER_ECC_SIGNATURE_INVALID);
   ("RUNTIME_OWNER_AUTH_MANIFEST_IMC_OWNER_LMS_SIGNATURE_INVALID"%string, RUNTIME_OWNER_AUTH_MANIFEST_IMC_OWNER_LMS_SIGNATURE_INVALID);
   ("RUNTIME_OWNER_AUTH_MANIFEST_IMC_OWNER_MLDSA_SIGNATURE_INVALID"%string, RUNTIME_OWNER_AUTH_MANIFEST_IMC_OWNER_MLDSA_SIGNATURE_INVALID);
   ("RUNTIME_OWNER_AUTH_MANIFEST_IMC_INVALID_SIZE"%string, RUNTIME_OWNER_AUTH_MANIFEST_IMC_INVALID_SIZE);
   ("RUNTIME_OWNER_AUTH_MANIFEST_IMC_INVALID_ENTRY_COUNT"%string, RUNTIME_OWNER_AUTH_MANIFEST_IMC_INVALID_ENTRY_COUNT);
   ("RUNTIME_OWNER_AUTH_MANIFEST_IMC_DUPLICATE_FW_ID"%string, RUNTIME_OWNER_AUTH_MANIFEST_IMC_DUPLICATE_FW_ID);
   ("RUNTIME_OWNER_AUTH_MANIFEST_INVALID_FLAGS"%string, RUNTIME_OWNER_AUTH_MANIFEST_INVALID_FLAGS);
   ("RUNTIME_OWNER_AUTH_MANIFEST_OWNER_PUB_KEY_MISMATCH"%string, RUNTIME_OWNER_AUTH_MANIFEST_OWNER_PUB_KEY_MISMATCH);
   ("RUNTIME_STASH_MEASUREMENT_RESERVED_FW_ID"%string, RUNTIME_STASH_MEASUREMENT_RESERVED_FW_ID);
   ("RUNTIME_AUTH_MANIFEST_DEBUG_IMAGE_NOT_ALLOWED"%string, RUNTIME_AUTH_MANIFEST_DEBUG_IMAGE_NOT_ALLOWED);
   ("RUNTIME_AUTH_MANIFEST_INVALID_FLAGS"%string, RUNTIME_AUTH_MANIFEST_INVALID_FLAGS);
   ("RUNTIME_AUTH_MANIFEST_UEID_MISMATCH"%string, RUNTIME_AUTH_MANIFEST_UEID_MISMATCH);
   ("RUNTIME_ZEROIZE_UDS_FE_NOT_SUBSYSTEM_MODE"%string, RUNTIME_ZEROIZE_UDS_FE_NOT_SUBSYSTEM_MODE);
   ("RUNTIME_INVALID_SELF_TEST_CONFIG"%string, RUNTIME_INVALID_SELF_TEST_CONFIG);
   ("FMC_GLOBAL_NMI"%string, FMC_GLOBAL_NMI);
   ("FMC_GLOBAL_EXCEPTION"%string, FMC_GLOBAL_EXCEPTION);
   ("FMC_GLOBAL_PANIC"%string, FMC_GLOBAL_PANIC);
   ("FMC_HANDOFF_INVALID_PARAM"%string, FMC_HANDOFF_INVALID_PARAM);
   ("FMC_RT_ALIAS_DERIVE_FAILURE"%string, FMC_RT_ALIAS_DERIVE_FAILURE);
   ("FMC_RT_ALIAS_CERT_VERIFY"%string, FMC_RT_ALIAS_CERT_VERIFY);
   ("FMC_RT_ALIAS_ECC_TBS_SIZE_EXCEEDED"%string, FMC_RT_ALIAS_ECC_TBS_SIZE_EXCEEDED);
   ("FMC_CDI_KV_COLLISION"%string, FMC_CDI_KV_COLLISION);
   ("FMC_ALIAS_KV_COLLISION"%string, FMC_ALIAS_KV_COLLISION);
   ("FMC_GLOBAL_PCR_LOG_EXHAUSTED"%string, FMC_GLOBAL_PCR_LOG_EXHAUSTED);
   ("ADDRESS_NOT_IN_ICCM"%string, ADDRESS_NOT_IN_ICCM);
   ("FMC_HANDOFF_NOT_READY_FOR_RT"%string, FMC_HANDOFF_NOT_READY_FOR_RT);
   ("FMC_GLOBAL_WDT_EXPIRED"%string, FMC_GLOBAL_WDT_EXPIRED);
   ("FMC_UNKNOWN_RESET"%string, FMC_UNKNOWN_RESET);
   ("FMC_ALIAS_CSR_BUILDER_INIT_FAILURE"%string, FMC_ALIAS_CSR_BUILDER_INIT_FAILURE);
   ("FMC_ALIAS_CSR_BUILDER_BUILD_FAILURE"%string, FMC_ALIAS_CSR_BUILDER_BUILD_FAILURE);
   ("FMC_ALIAS_INVALID_CSR"%string, FMC_ALIAS_INVALID_CSR);
   ("FMC_ALIAS_CSR_VERIFICATION_FAILURE"%string, FMC_ALIAS_CSR_VERIFICATION_FAILURE);
   ("FMC_ALIAS_CSR_OVERFLOW"%string, FMC_ALIAS_CSR_OVERFLOW);
   ("FMC_RT_ALIAS_MLDSA_TBS_SIZE_EXCEEDED"%string, FMC_RT_ALIAS_MLDSA_TBS_SIZE_EXCEEDED);
   ("FMC_INVALID_ROM_PERSISTENT_DATA_MARKER"%string, FMC_INVALID_ROM_PERSISTENT_DATA_MARKER);
   ("FMC_INVALID_ROM_PERSISTENT_DATA_VERSION"%string, FMC_INVALID_ROM_PERSISTENT_DATA_VERSION);
   ("FMC_INVALID_FW_PERSISTENT_DATA_MARKER"%string, FMC_INVALID_FW_PERSISTENT_DATA_MARKER);
   ("FMC_INVALID_FW_PERSISTENT_DATA_VERSION"%string, FMC_INVALID_FW_PERSISTENT_DATA_VERSION);
   ("FMC_REGENERATE_FMC_ECC_KEY_PAIR_FAILED"%string, FMC_REGENERATE_FMC_ECC_KEY_PAIR_FAILED);
   ("FMC_REGENERATE_FMC_MLDSA_KEY_PAIR_FAILED"%string, FMC_REGENERATE_FMC_MLDSA_KEY_PAIR_FAILED);
   ("FMC_HANDOFF_INVALID_FHT"%string, FMC_HANDOFF_INVALID_FHT);
   ("DRIVER_TRNG_EXT_TIMEOUT"%string, DRIVER_TRNG_EXT_TIMEOUT);
   ("DRIVER_SOC_IFC_INVALID_TIMER_CONFIG"%string, DRIVER_SOC_IFC_INVALID_TIMER_CONFIG);
   ("DRIVER_TRNG_UPDATE_NOT_SUPPORTED"%string, DRIVER_TRNG_UPDATE_NOT_SUPPORTED);
   ("ADDRESS_MISALIGNED"%string, ADDRESS_MISALIGNED);
   ("ADDRESS_NOT_IN_ROM"%string, ADDRESS_NOT_IN_ROM);
   ("ROM_IDEVID_CSR_BUILDER_INIT_FAILURE"%string, ROM_IDEVID_CSR_BUILDER_INIT_FAILURE);
   ("ROM_IDEVID_CSR_BUILDER_BUILD_FAILURE"%string, ROM_IDEVID_CSR_BUILDER_BUILD_FAILURE);
   ("ROM_IDEVID_INVALID_CSR"%string, ROM_IDEVID_INVALID_CSR);
   ("ROM_IDEVID_CSR_VERIFICATION_FAILURE"%string, ROM_IDEVID_CSR_VERIFICATION_FAILURE);
   ("ROM_IDEVID_CSR_OVERFLOW"%string, ROM_IDEVID_CSR_OVERFLOW);
   ("ROM_LDEVID_CSR_VERIFICATION_FAILURE"%string, ROM_LDEVID_CSR_VERIFICATION_FAILURE);
   ("FW_PROC_MANIFEST_READ_FAILURE"%string, FW_PROC_MANIFEST_READ_FAILURE);
   ("FW_PROC_INVALID_IMAGE_SIZE"%string, FW_PROC_INVALID_IMAGE_SIZE);
   ("FW_PROC_MAILBOX_STATE_INCONSISTENT"%string, FW_PROC_MAILBOX_STATE_INCONSISTENT);
   ("FW_PROC_MAILBOX_INVALID_COMMAND"%string, FW_PROC_MAILBOX_INVALID_COMMAND);
   ("FW_PROC_MAILBOX_INVALID_CHECKSUM"%string, FW_PROC_MAILBOX_INVALID_CHECKSUM);
   ("FW_PROC_MAILBOX_INVALID_REQUEST_LENGTH"%string, FW_PROC_MAILBOX_INVALID_REQUEST_LENGTH);
   ("FW_PROC_MAILBOX_PROCESS_FAILURE"%string, FW_PROC_MAILBOX_PROCESS_FAILURE);
   ("FW_PROC_MAILBOX_STASH_MEASUREMENT_MAX_LIMIT"%string, FW_PROC_MAILBOX_STASH_MEASUREMENT_MAX_LIMIT);
   ("FW_PROC_MAILBOX_RESERVED_PAUSER"%string, FW_PROC_MAILBOX_RESERVED_PAUSER);
   ("FW_PROC_MAILBOX_GET_IDEV_CSR_UNPROVISIONED_CSR"%string, FW_PROC_MAILBOX_GET_IDEV_CSR_UNPROVISIONED_CSR);
   ("FW_PROC_MAILBOX_FW_LOAD_CMD_IN_SUBSYSTEM_MODE"%string, FW_PROC_MAILBOX_FW_LOAD_CMD_IN_SUBSYSTEM_MODE);
   ("FW_PROC_SVN_TOO_LARGE"%string, FW_PROC_SVN_TOO_LARGE);
   ("FW_PROC_OCP_LOCK_UNSUPPORTED"%string, FW_PROC_OCP_LOCK_UNSUPPORTED);
   ("FW_PROC_MAILBOX_INVALID_PARAMS"%string, FW_PROC_MAILBOX_INVALID_PARAMS);
   ("FMC_ALIAS_CERT_VERIFY_FAILURE"%string, FMC_ALIAS_CERT_VERIFY_FAILURE);
   ("ROM_ECDSA_VERIFY_FAILED"%string, ROM_ECDSA_VERIFY_FAILED);
   ("ROM_MLDSA_VERIFY_FAILED"%string, ROM_MLDSA_VERIFY_FAILED);
   ("ROM_UPDATE_RESET_FLOW_MANIFEST_READ_FAILURE"%string, ROM_UPDATE_RESET_FLOW_MANIFEST_READ_FAILURE);
   ("ROM_UPDATE_RESET_FLOW_INVALID_FIRMWARE_COMMAND"%string, ROM_UPDATE_RESET_FLOW_INVALID_FIRMWARE_COMMAND);
   ("ROM_UPDATE_RESET_FLOW_MAILBOX_ACCESS_FAILURE"%string, ROM_UPDATE_RESET_FLOW_MAILBOX_ACCESS_FAILURE);
   ("ROM_UPDATE_RESET_READ_FHT_FAILURE"%string, ROM_UPDATE_RESET_READ_FHT_FAILURE);
   ("ROM_UPDATE_RESET_FLOW_IMAGE_NOT_IN_MCU_SRAM"%string, ROM_UPDATE_RESET_FLOW_IMAGE_NOT_IN_MCU_SRAM);
   ("ROM_WARM_RESET_UNSUCCESSFUL_PREVIOUS_COLD_RESET"%string, ROM_WARM_RESET_UNSUCCESSFUL_PREVIOUS_COLD_RESET);
   ("ROM_WARM_RESET_UNSUCCESSFUL_PREVIOUS_UPDATE_RESET"%string, ROM_WARM_RESET_UNSUCCESSFUL_PREVIOUS_UPDATE_RESET);
   ("ROM_UNKNOWN_RESET_FLOW"%string, ROM_UNKNOWN_RESET_FLOW);
   ("ROM_CFI_PANIC_UNKNOWN"%string, ROM_CFI_PANIC_UNKNOWN);
   ("ROM_CFI_PANIC_COUNTER_CORRUPT"%string, ROM_CFI_PANIC_COUNTER_CORRUPT);
   ("ROM_CFI_PANIC_COUNTER_OVERFLOW"%string, ROM_CFI_PANIC_COUNTER_OVERFLOW);
   ("ROM_CFI_PANIC_COUNTER_UNDERFLOW"%string, ROM_CFI_PANIC_COUNTER_UNDERFLOW);
   ("ROM_CFI_PANIC_COUNTER_MISMATCH"%string, ROM_CFI_PANIC_COUNTER_MISMATCH);
   ("ROM_CFI_PANIC_ASSERT_EQ_FAILURE"%string, ROM_CFI_PANIC_ASSERT_EQ_FAILURE);
   ("ROM_CFI_PANIC_ASSERT_NE_FAILURE"%string, ROM_CFI_PANIC_ASSERT_NE_FAILURE);
   ("ROM_CFI_PANIC_ASSERT_GT_FAILURE"%string, ROM_CFI_PANIC_ASSERT_GT_FAILURE);
   ("ROM_CFI_PANIC_ASSERT_LT_FAILURE"%string, ROM_CFI_PANIC_ASSERT_LT_FAILURE);
   ("ROM_CFI_PANIC_ASSERT_GE_FAILURE"%string, ROM_CFI_PANIC_ASSERT_GE_FAILURE);
   ("ROM_CFI_PANIC_ASSERT_LE_FAILURE"%string, ROM_CFI_PANIC_ASSERT_LE_FAILURE);
   ("ROM_CFI_PANIC_TRNG_FAILURE"%string, ROM_CFI_PANIC_TRNG_FAILURE);
   ("ROM_CFI_PANIC_UNEXPECTED_MATCH_BRANCH"%string, ROM_CFI_PANIC_UNEXPECTED_MATCH_BRANCH);
   ("ROM_CFI_PANIC_FAKE_TRNG_USED_WITH_DEBUG_LOCK"%string, ROM_CFI_PANIC_FAKE_TRNG_USED_WITH_DEBUG_LOCK);
   ("ROM_UDS_PROG_ILLEGAL_LIFECYCLE_STATE"%string, ROM_UDS_PROG_ILLEGAL_LIFECYCLE_STATE);
   ("ROM_UDS_PROG_IN_PASSIVE_MODE"%string, ROM_UDS_PROG_IN_PASSIVE_MODE);
   ("ROM_UDS_PROG_DEBUG_INTENT_SET"%string, ROM_UDS_PROG_DEBUG_INTENT_SET);
   ("ROM_GLOBAL_NMI"%string, ROM_GLOBAL_NMI);
   ("ROM_GLOBAL_EXCEPTION"%string, ROM_GLOBAL_EXCEPTION);
   ("ROM_GLOBAL_PANIC"%string, ROM_GLOBAL_PANIC);
   ("ROM_GLOBAL_PCR_LOG_INVALID_ENTRY_ID"%string, ROM_GLOBAL_PCR_LOG_INVALID_ENTRY_ID);
   ("ROM_GLOBAL_PCR_LOG_UNSUPPORTED_DATA_LENGTH"%string, ROM_GLOBAL_PCR_LOG_UNSUPPORTED_DATA_LENGTH);
   ("ROM_GLOBAL_PCR_LOG_EXHAUSTED"%string, ROM_GLOBAL_PCR_LOG_EXHAUSTED);
   ("ROM_GLOBAL_FUSE_LOG_INVALID_ENTRY_ID"%string, ROM_GLOBAL_FUSE_LOG_INVALID_ENTRY_ID);
   ("ROM_GLOBAL_FUSE_LOG_UNSUPPORTED_DATA_LENGTH"%string, ROM_GLOBAL_FUSE_LOG_UNSUPPORTED_DATA_LENGTH);
   ("ROM_GLOBAL_UNSUPPORTED_LDEVID_TBS_SIZE"%string, ROM_GLOBAL_UNSUPPORTED_LDEVID_TBS_SIZE);
   ("ROM_GLOBAL_UNSUPPORTED_FMCALIAS_TBS_SIZE"%string, ROM_GLOBAL_UNSUPPORTED_FMCALIAS_TBS_SIZE);
   ("ROM_GLOBAL_FAKE_ROM_IN_PRODUCTION"%string, ROM_GLOBAL_FAKE_ROM_IN_PRODUCTION);
   ("ROM_GLOBAL_WDT_EXPIRED"%string, ROM_GLOBAL_WDT_EXPIRED);
   ("ROM_GLOBAL_MEASUREMENT_LOG_EXHAUSTED"%string, ROM_GLOBAL_MEASUREMENT_LOG_EXHAUSTED);
   ("ROM_GLOBAL_FIPS_HOOKS_ROM_EXIT"%string, ROM_GLOBAL_FIPS_HOOKS_ROM_EXIT);
   ("ROM_GLOBAL_UNSUPPORTED_HW_VERSION"%string, ROM_GLOBAL_UNSUPPORTED_HW_VERSION);
   ("ROM_INVALID_ROM_PERSISTENT_DATA_MARKER"%string, ROM_INVALID_ROM_PERSISTENT_DATA_MARKER);
   ("ROM_INVALID_ROM_PERSISTENT_DATA_VERSION"%string, ROM_INVALID_ROM_PERSISTENT_DATA_VERSION);
   ("KAT_SHA256_DIGEST_FAILURE"%string, KAT_SHA256_DIGEST_FAILURE);
   ("KAT_SHA256_DIGEST_MISMATCH"%string, KAT_SHA256_DIGEST_MISMATCH);
   ("KAT_SHA384_DIGEST_FAILURE"%string, KAT_SHA384_DIGEST_FAILURE);
   ("KAT_SHA384_DIGEST_MISMATCH"%string, KAT_SHA384_DIGEST_MISMATCH);
   ("KAT_HMAC384_FAILURE"%string, KAT_HMAC384_FAILURE);
   ("KAT_HMAC384_TAG_MISMATCH"%string, KAT_HMAC384_TAG_MISMATCH);
   ("KAT_ECC384_SIGNATURE_MISMATCH"%string, KAT_ECC384_SIGNATURE_MISMATCH);
   ("KAT_ECC384_KEY_PAIR_GENERATE_FAILURE"%string, KAT_ECC384_KEY_PAIR_GENERATE_FAILURE);
   ("KAT_ECC384_KEY_PAIR_VERIFY_FAILURE"%string, KAT_ECC384_KEY_PAIR_VERIFY_FAILURE);
   ("KAT_MLDSA87_SIGNATURE_MISMATCH"%string, KAT_MLDSA87_SIGNATURE_MISMATCH);
   ("KAT_MLDSA87_SIGNATURE_FAILURE"%string, KAT_MLDSA87_SIGNATURE_FAILURE);
   ("KAT_MLDSA87_KEY_PAIR_GENERATE_FAILURE"%string, KAT_MLDSA87_KEY_PAIR_GENERATE_FAILURE);
   ("KAT_MLDSA87_KEY_PAIR_VERIFY_FAILURE"%string, KAT_MLDSA87_KEY_PAIR_VERIFY_FAILURE);
   ("KAT_MLDSA87_VERIFY_FAILURE"%string, KAT_MLDSA87_VERIFY_FAILURE);
   ("KAT_ECDH_VERIFY_FAILURE"%string, KAT_ECDH_VERIFY_FAILURE);
   ("KAT_MLKEM1024_KEY_PAIR_GENERATE_FAILURE"%string, KAT_MLKEM1024_KEY_PAIR_GENERATE_FAILURE);
   ("KAT_MLKEM1024_KEY_PAIR_VERIFY_FAILURE"%string, KAT_MLKEM1024_KEY_PAIR_VERIFY_FAILURE);
   ("KAT_MLKEM1024_ENCAPSULATE_FAILURE"%string, KAT_MLKEM1024_ENCAPSULATE_FAILURE);
   ("KAT_MLKEM1024_DECAPSULATE_FAILURE"%string, KAT_MLKEM1024_DECAPSULATE_FAILURE);
   ("KAT_MLKEM1024_SHARED_KEY_MISMATCH"%string, KAT_MLKEM1024_SHARED_KEY_MISMATCH);
   ("KAT_MLKEM1024_CIPHERTEXT_MISMATCH"%string, KAT_MLKEM1024_CIPHERTEXT_MISMATCH);
   ("KAT_SHA2_512_384_ACC_DIGEST_START_OP_FAILURE"%string, KAT_SHA2_512_384_ACC_DIGEST_START_OP_FAILURE);
   ("KAT_SHA2_512_384_ACC_DIGEST_FAILURE"%string, KAT_SHA2_512_384_ACC_DIGEST_FAILURE);
   ("KAT_SHA2_512_384_ACC_DIGEST_MISMATCH"%string, KAT_SHA2_512_384_ACC_DIGEST_MISMATCH);
   ("KAT_SHA1_DIGEST_FAILURE"%string, KAT_SHA1_DIGEST_FAILURE);
   ("KAT_SHA1_DIGEST_MISMATCH"%string, KAT_SHA1_DIGEST_MISMATCH);
   ("KAT_LMS_DIGEST_FAILURE"%string, KAT_LMS_DIGEST_FAILURE);
   ("KAT_LMS_DIGEST_MISMATCH"%string, KAT_LMS_DIGEST_MISMATCH);
   ("KAT_AES_TAG_MISMATCH"%string, KAT_AES_TAG_MISMATCH);
   ("KAT_AES_CIPHERTEXT_MISMATCH"%string, KAT_AES_CIPHERTEXT_MISMATCH);
   ("KAT_AES_PLAINTEXT_MISMATCH"%string, KAT_AES_PLAINTEXT_MISMATCH);
   ("KAT_CMAC_KDF_OUTPUT_MISMATCH"%string, KAT_CMAC_KDF_OUTPUT_MISMATCH);
   ("KAT_SHA512_DIGEST_FAILURE"%string, KAT_SHA512_DIGEST_FAILURE);
   ("KAT_SHA512_DIGEST_MISMATCH"%string, KAT_SHA512_DIGEST_MISMATCH);
   ("KAT_SHA3_SHAKE256_DIGEST_FAILURE"%string, KAT_SHA3_SHAKE256_DIGEST_FAILURE);
   ("KAT_SHA3_SHAKE256_DIGEST_MISMATCH"%string, KAT_SHA3_SHAKE256_DIGEST_MISMATCH);
   ("KAT_CSRNG_INSTANTIATE_FAILURE"%string, KAT_CSRNG_INSTANTIATE_FAILURE);
   ("KAT_CSRNG_GENERATE_FAILURE"%string, KAT_CSRNG_GENERATE_FAILURE);
   ("KAT_CSRNG_DIGEST_MISMATCH"%string, KAT_CSRNG_DIGEST_MISMATCH);
   ("KAT_CSRNG_RESTORE_FAILURE"%string, KAT_CSRNG_RESTORE_FAILURE);
   ("KAT_CSRNG_RESEED_FAILURE"%string, KAT_CSRNG_RESEED_FAILURE);
   ("ROM_INTEGRITY_FAILURE"%string, ROM_INTEGRITY_FAILURE);
   ("FIPS_HOOKS_INJECTED_ERROR"%string, FIPS_HOOKS_INJECTED_ERROR);
   ("SS_DBG_UNLOCK_INVALID_REQ_REG_VALUE"%string, SS_DBG_UNLOCK_INVALID_REQ_REG_VALUE);
   ("SS_DBG_UNLOCK_MANUF_INVALID_MBOX_CMD"%string, SS_DBG_UNLOCK_MANUF_INVALID_MBOX_CMD);
   ("SS_DBG_UNLOCK_MANUF_INVALID_TOKEN"%string, SS_DBG_UNLOCK_MANUF_INVALID_TOKEN);
   ("SS_DBG_UNLOCK_PROD_INVALID_REQ_MBOX_CMD"%string, SS_DBG_UNLOCK_PROD_INVALID_REQ_MBOX_CMD);
   ("SS_DBG_UNLOCK_PROD_INVALID_REQ"%string, SS_DBG_UNLOCK_PROD_INVALID_REQ);
   ("SS_DBG_UNLOCK_PROD_INVALID_LEVEL"%string, SS_DBG_UNLOCK_PROD_INVALID_LEVEL);
   ("SS_DBG_UNLOCK_PROD_INVALID_TOKEN_CHALLENGE"%string, SS_DBG_UNLOCK_PROD_INVALID_TOKEN_CHALLENGE);
   ("SS_DBG_UNLOCK_PROD_INVALID_TOKEN_MBOX_CMD"%string, SS_DBG_UNLOCK_PROD_INVALID_TOKEN_MBOX_CMD);
   ("SS_DBG_UNLOCK_PROD_INVALID_TOKEN_WRONG_PUBLIC_KEYS"%string, SS_DBG_UNLOCK_PROD_INVALID_TOKEN_WRONG_PUBLIC_KEYS);
   ("SS_DBG_UNLOCK_PROD_INVALID_TOKEN_INVALID_SIGNATURE"%string, SS_DBG_UNLOCK_PROD_INVALID_TOKEN_INVALID_SIGNATURE);
   ("SS_DBG_UNLOCK_REQ_IN_PASSIVE_MODE"%string, SS_DBG_UNLOCK_REQ_IN_PASSIVE_MODE);
   ("SS_DBG_UNLOCK_REQ_BIT_NOT_SET"%string, SS_DBG_UNLOCK_REQ_BIT_NOT_SET);
   ("SS_DBG_UNLOCK_PROD_DISABLED"%string, SS_DBG_UNLOCK_PROD_DISABLED);
   ("RUNTIME_DRIVER_AES_READ_KEY_KV_READ"%string, RUNTIME_DRIVER_AES_READ_KEY_KV_READ);
   ("RUNTIME_DRIVER_AES_READ_KEY_KV_WRITE"%string, RUNTIME_DRIVER_AES_READ_KEY_KV_WRITE);
   ("RUNTIME_DRIVER_AES_READ_KEY_KV_UNKNOWN"%string, RUNTIME_DRIVER_AES_READ_KEY_KV_UNKNOWN);
   ("RUNTIME_DRIVER_AES_READ_DATA_KV_READ"%string, RUNTIME_DRIVER_AES_READ_DATA_KV_READ);
   ("RUNTIME_DRIVER_AES_READ_DATA_KV_UNKNOWN"%string, RUNTIME_DRIVER_AES_READ_DATA_KV_UNKNOWN);
   ("RUNTIME_DRIVER_AES_INVALID_STATE"%string, RUNTIME_DRIVER_AES_INVALID_STATE);
   ("RUNTIME_DRIVER_AES_MAX_DATA"%string, RUNTIME_DRIVER_AES_MAX_DATA);
   ("RUNTIME_DRIVER_AES_INVALID_SLICE"%string, RUNTIME_DRIVER_AES_INVALID_SLICE);
   ("RUNTIME_DRIVER_AES_INDEX_OUT_OF_BOUNDS"%string, RUNTIME_DRIVER_AES_INDEX_OUT_OF_BOUNDS);
   ("RUNTIME_DRIVER_AES_INVALID_TAG_SIZE"%string, RUNTIME_DRIVER_AES_INVALID_TAG_SIZE);
   ("RUNTIME_DRIVER_AES_ENGINE_BUSY"%string, RUNTIME_DRIVER_AES_ENGINE_BUSY);
   ("RUNTIME_DRIVER_AES_INVALID_TAG"%string, RUNTIME_DRIVER_AES_INVALID_TAG);
   ("RUNTIME_DRIVER_PRECONDITIONED_AES_ENCRYPT_ERROR"%string, RUNTIME_DRIVER_PRECONDITIONED_AES_ENCRYPT_ERROR);
   ("RUNTIME_DRIVER_PRECONDITIONED_AES_ENCRYPT_INVALID_PARAM"%string, RUNTIME_DRIVER_PRECONDITIONED_AES_ENCRYPT_INVALID_PARAM);
   ("RUNTIME_DRIVER_PRECONDITIONED_AES_DECRYPT_ERROR"%string, RUNTIME_DRIVER_PRECONDITIONED_AES_DECRYPT_ERROR);
   ("RUNTIME_DRIVER_PRECONDITIONED_AES_DECRYPT_INVALID_PARAM"%string, RUNTIME_DRIVER_PRECONDITIONED_AES_DECRYPT_INVALID_PARAM);
   ("RUNTIME_DRIVER_AES_WRITE_KV"%string, RUNTIME_DRIVER_AES_WRITE_KV);
   ("RUNTIME_DRIVER_HPKE_SEQ_EXHAUSTED"%string, RUNTIME_DRIVER_HPKE_SEQ_EXHAUSTED);
   ("RUNTIME_DRIVER_HPKE_SHAKE_INVALID_LABEL_LEN"%string, RUNTIME_DRIVER_HPKE_SHAKE_INVALID_LABEL_LEN);
   ("RUNTIME_DRIVER_HPKE_ENCAP_TRNG_FAIL"%string, RUNTIME_DRIVER_HPKE_ENCAP_TRNG_FAIL);
   ("RUNTIME_DRIVER_HPKE_CONVERT_INVALID_CIPHER_SUITE"%string, RUNTIME_DRIVER_HPKE_CONVERT_INVALID_CIPHER_SUITE);
   ("RUNTIME_DRIVER_HPKE_INVALID_PUB_KEY_BUFFER_SIZE"%string, RUNTIME_DRIVER_HPKE_INVALID_PUB_KEY_BUFFER_SIZE);
   ("RUNTIME_DRIVER_HPKE_OPEN_FAILED"%string, RUNTIME_DRIVER_HPKE_OPEN_FAILED);
   ("RUNTIME_DRIVER_HPKE_ML_KEM_TRNG_KEYGEN_FAIL"%string, RUNTIME_DRIVER_HPKE_ML_KEM_TRNG_KEYGEN_FAIL);
   ("RUNTIME_DRIVER_HPKE_ML_KEM_PKR_DESERIALIZATION_FAIL"%string, RUNTIME_DRIVER_HPKE_ML_KEM_PKR_DESERIALIZATION_FAIL);
   ("RUNTIME_DRIVER_HPKE_ML_KEM_ENCAP_SECRET_DESERIALIZATION_FAIL"%string, RUNTIME_DRIVER_HPKE_ML_KEM_ENCAP_SECRET_DESERIALIZATION_FAIL);
   ("RUNTIME_DRIVER_HPKE_ML_KEM_ENCAP_KEY_SERIALIZATION_FAIL"%string, RUNTIME_DRIVER_HPKE_ML_KEM_ENCAP_KEY_SERIALIZATION_FAIL);
   ("RUNTIME_DRIVER_HPKE_P384_ENCAP_KEY_DESERIALIZATION_FAIL"%string, RUNTIME_DRIVER_HPKE_P384_ENCAP_KEY_DESERIALIZATION_FAIL);
   ("RUNTIME_DRIVER_HPKE_HYBRID_ENCAP_KEY_DESERIALIZATION_FAIL"%string, RUNTIME_DRIVER_HPKE_HYBRID_ENCAP_KEY_DESERIALIZATION_FAIL);
   ("RUNTIME_DRIVER_HPKE_HYBRID_ENCAP_KEY_SERIALIZATION_FAIL"%string, RUNTIME_DRIVER_HPKE_HYBRID_ENCAP_KEY_SERIALIZATION_FAIL);
   ("RUNTIME_DRIVER_HPKE_HYBRID_ENC_SERIALIZATION_FAIL"%string, RUNTIME_DRIVER_HPKE_HYBRID_ENC_SERIALIZATION_FAIL);
   ("RUNTIME_DRIVER_HPKE_HYBRID_ENC_DESERIALIZATION_FAIL"%string, RUNTIME_DRIVER_HPKE_HYBRID_ENC_DESERIALIZATION_FAIL);
   ("RUNTIME_MAILBOX_SIGNATURE_MISMATCH"%string, RUNTIME_MAILBOX_SIGNATURE_MISMATCH);
   ("DOT_INVALID_KEY_TYPE"%string, DOT_INVALID_KEY_TYPE);
   ("CMB_STABLE_OWNER_KEY_NOT_AVAILABLE"%string, CMB_STABLE_OWNER_KEY_NOT_AVAILABLE);
   ("CMB_HMAC_INVALID_ENC_CMK"%string, CMB_HMAC_INVALID_ENC_CMK);
   ("CMB_HMAC_INVALID_DEC_CMK"%string, CMB_HMAC_INVALID_DEC_CMK);
   ("CMB_HMAC_INVALID_KEY_USAGE"%string, CMB_HMAC_INVALID_KEY_USAGE);
   ("CMB_HMAC_INVALID_REQ_SIZE"%string, CMB_HMAC_INVALID_REQ_SIZE);
   ("CMB_HMAC_INVALID_KEY_USAGE_AND_SIZE"%string, CMB_HMAC_INVALID_KEY_USAGE_AND_SIZE);
   ("CMB_HMAC_UNSUPPORTED_HASH_ALGORITHM"%string, CMB_HMAC_UNSUPPORTED_HASH_ALGORITHM);
   ("UDS_FE_ZEROIZATION_MARKER_NOT_CLEARED"%string, UDS_FE_ZEROIZATION_MARKER_NOT_CLEARED);
   ("UDS_FE_ZEROIZATION_SEED_NOT_CLEARED"%string, UDS_FE_ZEROIZATION_SEED_NOT_CLEARED);
   ("UDS_FE_ZEROIZATION_DIGEST_NOT_CLEARED"%string, UDS_FE_ZEROIZATION_DIGEST_NOT_CLEARED);
   ("UDS_FE_PROGRAMMING_SEED_LENGTH_ZERO"%string, UDS_FE_PROGRAMMING_SEED_LENGTH_ZERO);
   ("UDS_FE_PROGRAMMING_ZEROIZATION_SUCCESS"%string, UDS_FE_PROGRAMMING_ZEROIZATION_SUCCESS);
   ("UDS_FE_PROGRAMMING_ZEROIZATION_FAILED"%string, UDS_FE_PROGRAMMING_ZEROIZATION_FAILED)].

(** [error_name]: the arm of the [match] for a value, if there is one. *)
Definition error_name (e : CaliptraError) : option string :=
  fst <$> List.find (λ c, snd c =? e) all_constants.

(** [TryFrom<u32> for CaliptraError]: zero is refused. *)
Definition try_from_u32 (val : Z) : option CaliptraError := if val =? 0 then None else Some val.

Section Table.

Lemma find_nodup (l : list (string * CaliptraError)) n v :
  NoDup (map snd l) → (n, v) ∈ l → List.find (λ c, snd c =? v) l = Some (n, v).
Proof.
  induction l as [|[n' v'] l IH]; simpl; intros Hnd Hin; [by apply elem_of_nil in Hin|].
  apply NoDup_cons in Hnd as [Hni Hnd]. apply elem_of_cons in Hin as [[= <- <-]|Hin].
  - by rewrite Z.eqb_refl.
  - destruct (Z.eqb_spec v' v) as [->|]; [|by apply IH].
    exfalso. apply Hni, list_elem_of_fmap. by exists (n, v).
Qed.

Lemma all_constants_nodup : NoDup (map snd all_constants).
Proof. apply (bool_decide_eq_true_1 _). vm_compute. reflexivity. Qed.

Lemma all_constants_u32 : Forall (λ c, 0 < snd c < 2 ^ 32) all_constants.
Proof. apply (bool_decide_eq_true_1 _). vm_compute. reflexivity. Qed.

(** The error table is unambiguous: every constant is a non-zero 32-bit
    code, [try_from] accepts it, and [error_name] maps a code to a name
    exactly when the table pairs them, so no two constants share a code. *)
Theorem error_table n v :
  (error_name v = Some n ↔ (n, v) ∈ all_constants) ∧
  ((n, v) ∈ all_constants → is_u32 v ∧ try_from_u32 v = Some v).
Proof.
  split; [split|].
  - unfold error_name. destruct (List.find _ _) as [[n' v']|] eqn:E; simpl; [|done].
    intros [= ->]. apply find_some in E as [Hin Hv]. apply Z.eqb_eq in Hv. simpl in Hv. subst v'.
    by apply list_elem_of_In.
  - intros Hin. unfold error_name. by rewrite (find_nodup _ n v all_constants_nodup Hin).
  - intros Hin. pose proof (proj1 (Forall_forall _ _) all_constants_u32 _ Hin) as Hb. simpl in Hb.
    split; [unfold in_u; lia|]. unfold try_from_u32. destruct (Z.eqb_spec v 0); [lia|done].
Qed.

End Table.

Lemma error_table_witness :
  error_name 0x01040055 = Some "ROM_CFI_PANIC_ASSERT_EQ_FAILURE"%string ∧ try_from_u32 0x01040055 = Some 0x01040055.
Proof.
  assert (Hin : ("ROM_CFI_PANIC_ASSERT_EQ_FAILURE"%string, 0x01040055) ∈ all_constants)
    by (apply (bool_decide_eq_true_1 _); vm_compute; reflexivity).
  split.
  - by apply (proj1 (error_table "ROM_CFI_PANIC_ASSERT_EQ_FAILURE"%string 0x01040055)).
  - by apply (proj2 (error_table "ROM_CFI_PANIC_ASSERT_EQ_FAILURE"%string 0x01040055)).
Defined.
