(* ===== verification/Memory.v ===== *)
(** Memories of the emulator (sw-emulator/lib/bus/src/mem.rs and ram.rs): byte,
    half-word and word accesses with their range and alignment checks, the
    aligned and unaligned RAM devices, and the laws that relate reads to
    writes. *)

From S2P Require Import Prelude Bits.

Inductive BusError :=
  | InstrAccessFault | LoadAddrMisaligned | LoadAccessFault | StoreAddrMisaligned | StoreAccessFault.

#[export] Instance BusError_eq_dec : EqDecision BusError.
Proof. solve_decision. Defined.

Abbreviation bus := (result BusError).

Inductive RvSize := Byte | HalfWord | Word | Invalid.

(** * The memory *)

Module Mem.

Inductive MemError := ReadAddrMisaligned | ReadAccessFault | WriteAddrMisaligned | WriteAccessFault.

#[export] Instance MemError_eq_dec : EqDecision MemError.
Proof. solve_decision. Defined.

Definition to_bus_error (e : MemError) : BusError :=
  match e with
  | ReadAddrMisaligned => LoadAddrMisaligned
  | ReadAccessFault => LoadAccessFault
  | WriteAddrMisaligned => StoreAddrMisaligned
  | WriteAccessFault => StoreAccessFault
  end.

(** The data storage is a vector of bytes. *)
Abbreviation t := (list Z).
Abbreviation mem := (result MemError).

Definition read_byte (m : t) (addr : nat) : mem Z :=
  if (addr <? length m)%nat then unwrap (m !! addr) else Err ReadAccessFault.

Definition read_half_word (m : t) (addr : nat) : mem Z :=
  if ((addr <? length m) && (addr + 1 <? length m))%nat then
    b0 ← unwrap (m !! addr);
    b1 ← unwrap (m !! (addr + 1)%nat);
    Ok (Z.lor b0 (Z.shiftl b1 8))
  else Err ReadAccessFault.

Definition read_word (m : t) (addr : nat) : mem Z :=
  if ((addr <? length m) && (addr + 3 <? length m))%nat then
    b0 ← unwrap (m !! addr);
    b1 ← unwrap (m !! (addr + 1)%nat);
    b2 ← unwrap (m !! (addr + 2)%nat);
    b3 ← unwrap (m !! (addr + 3)%nat);
    Ok (Z.lor (Z.lor (Z.lor b0 (Z.shiftl b1 8)) (Z.shiftl b2 16)) (Z.shiftl b3 24))
  else Err ReadAccessFault.

Definition read_aligned_half_word (m : t) (addr : nat) : mem Z :=
  if (addr <? length m)%nat then
    if (Nat.land addr 1 =? 0)%nat then read_half_word m addr else Err ReadAddrMisaligned
  else Err ReadAccessFault.

Definition read_aligned_word (m : t) (addr : nat) : mem Z :=
  if (addr <? length m)%nat then
    if (Nat.land addr 3 =? 0)%nat then read_word m addr else Err ReadAddrMisaligned
  else Err ReadAccessFault.

Definition write_byte (m : t) (addr : nat) (data : Z) : mem t :=
  if (addr <? length m)%nat then Ok (<[addr := u8w data]> m) else Err WriteAccessFault.

Definition write_half_word (m : t) (addr : nat) (data : Z) : mem t :=
  if ((addr <? length m) && (addr + 1 <? length m))%nat then
    let m := <[addr := Z.land data 0xff]> m in
    Ok (<[(addr + 1)%nat := Z.land (Z.shiftr data 8) 0xff]> m)
  else Err WriteAccessFault.

Definition write_word (m : t) (addr : nat) (data : Z) : mem t :=
  if ((addr <? length m) && (addr + 3 <? length m))%nat then
    let m := <[addr := Z.land data 0xff]> m in
    let m := <[(addr + 1)%nat := Z.land (Z.shiftr data 8) 0xff]> m in
    let m := <[(addr + 2)%nat := Z.land (Z.shiftr data 16) 0xff]> m in
    Ok (<[(addr + 3)%nat := Z.land (Z.shiftr data 24) 0xff]> m)
  else Err WriteAccessFault.

Definition write_aligned_half_word (m : t) (addr : nat) (data : Z) : mem t :=
  if (addr <? length m)%nat then
    if (Nat.land addr 1 =? 0)%nat then write_half_word m addr data else Err WriteAddrMisaligned
  else Err WriteAccessFault.

Definition write_aligned_word (m : t) (addr : nat) (data : Z) : mem t :=
  if (addr <? length m)%nat then
    if (Nat.land addr 3 =? 0)%nat then write_word m addr data else Err WriteAddrMisaligned
  else Err WriteAccessFault.

Definition read (m : t) (size : RvSize) (addr : nat) : mem Z :=
  match size with
  | Byte => read_byte m addr
  | HalfWord => read_half_word m addr
  | Word => read_word m addr
  | Invalid => Err ReadAccessFault
  end.

Definition read_aligned (m : t) (size : RvSize) (addr : nat) : mem Z :=
  match size with
  | Byte => read_byte m addr
  | HalfWord => read_aligned_half_word m addr
  | Word => read_aligned_word m addr
  | Invalid => Err ReadAccessFault
  end.

Definition write (m : t) (size : RvSize) (addr : nat) (val : Z) : mem t :=
  match size with
  | Byte => write_byte m addr val
  | HalfWord => write_half_word m addr val
  | Word => write_word m addr val
  | Invalid => Err WriteAccessFault
  end.

Definition write_aligned (m : t) (size : RvSize) (addr : nat) (val : Z) : mem t :=
  match size with
  | Byte => write_byte m addr val
  | HalfWord => write_aligned_half_word m addr val
  | Word => write_aligned_word m addr val
  | Invalid => Err WriteAccessFault
  end.

End Mem.

(** * RAM devices *)

(** The trait [MemAccess] and its two implementations. *)
Class MemAccess := {
  read_mem : Mem.t → RvSize → nat → Mem.mem Z;
  write_mem : Mem.t → RvSize → nat → Z → Mem.mem Mem.t;
}.
Definition UnalignedAccess : MemAccess := {| read_mem := Mem.read; write_mem := Mem.write |}.
Definition AlignedAccess : MemAccess := {| read_mem := Mem.read_aligned; write_mem := Mem.write_aligned |}.

Module Ram.

Record RamImpl := mkRam { error_injection : Z; data : Mem.t }.

Definition new (d : Mem.t) : RamImpl := mkRam 0 d.
Definition len (r : RamImpl) : Z := u32w (Z.of_nat (length (data r))).

Definition read `{MemAccess} (r : RamImpl) (size : RvSize) (addr : nat) : bus Z :=
  if 2 =? error_injection r then Err InstrAccessFault
  else if 8 =? error_injection r then Err LoadAccessFault
  else match read_mem (data r) size addr with
       | Ok d => Ok d
       | Err e => Err (Mem.to_bus_error e)
       | Abort w => Abort w
       end.

Definition write `{MemAccess} (r : RamImpl) (size : RvSize) (addr : nat) (val : Z) : bus RamImpl :=
  match write_mem (data r) size addr val with
  | Ok d => Ok (mkRam (error_injection r) d)
  | Err e => Err (Mem.to_bus_error e)
  | Abort w => Abort w
  end.

End Ram.

(** * Laws *)

Lemma land_255 z : Z.land z 0xff = z mod 256.
Proof. exact (Z.land_ones z 8 ltac:(lia)). Qed.

Lemma lor_shiftl a b n : 0 ≤ n → 0 ≤ a < 2 ^ n → Z.lor a (Z.shiftl b n) = a + b * 2 ^ n.
Proof.
  intros Hn Ha. rewrite Z.shiftl_mul_pow2 by lia.
  assert (Hz : Z.land a (b * 2 ^ n) = 0).
  { apply Z.bits_inj'. intros i Hi. rewrite Z.land_spec, Z.bits_0.
    destruct (Z.lt_ge_cases i n).
    - rewrite Z.mul_pow2_bits_low by lia. apply andb_false_r.
    - rewrite <- (Z.mod_small a (2 ^ n)) by lia. by rewrite Z.mod_pow2_bits_high by lia. }
  by rewrite Z.add_nocarry_lxor, Z.lxor_lor by done.
Qed.

(** Four consecutive cells of a list. *)
Lemma four_cells {A} (m : list A) a : (a + 4 ≤ length m)%nat →
  ∃ l1 b0 b1 b2 b3 l2, m = l1 ++ b0 :: b1 :: b2 :: b3 :: l2 ∧ length l1 = a.
Proof.
  intros H. rewrite <- (take_drop a m).
  assert (Hl : (4 ≤ length (drop a m))%nat) by (rewrite length_drop; lia).
  destruct (drop a m) as [|b0 [|b1 [|b2 [|b3 l2]]]]; simpl in Hl; try lia.
  exists (take a m), b0, b1, b2, b3, l2. split; [done|]. rewrite length_take. lia.
Qed.

Lemma aligned4 a : (Nat.land (4 * a) 3 = 0)%nat.
Proof. change 3%nat with (Nat.ones 2). rewrite Nat.land_ones, Nat.mul_comm. by apply Nat.Div0.mod_mul. Qed.

Module MemLaws.
Import Mem.

Lemma read_word_at m l1 b0 b1 b2 b3 l2 :
  m = l1 ++ b0 :: b1 :: b2 :: b3 :: l2 → is_bytes [b0; b1; b2; b3] →
  read_word m (length l1) = Ok (from_le [b0; b1; b2; b3]).
Proof.
  intros -> Hb. rewrite !Forall_cons in Hb. destruct Hb as (H0 & H1 & H2 & H3 & _).
  unfold read_word. rewrite !(proj2 (Nat.ltb_lt _ _)) by (rewrite length_app; simpl; lia).
  rewrite !(lookup_app_r l1), Nat.sub_diag by lia.
  replace (length l1 + 1 - length l1)%nat with 1%nat by lia.
  replace (length l1 + 2 - length l1)%nat with 2%nat by lia.
  replace (length l1 + 3 - length l1)%nat with 3%nat by lia. simpl. f_equal.
  unfold in_u in *. cbn [from_le].
  rewrite (lor_shiftl b0 b1 8), (lor_shiftl _ b2 16), (lor_shiftl _ b3 24) by lia. lia.
Qed.

Lemma write_word_at m l1 b0 b1 b2 b3 l2 v :
  m = l1 ++ b0 :: b1 :: b2 :: b3 :: l2 →
  write_word m (length l1) v = Ok (l1 ++ to_le 4 v ++ l2).
Proof.
  intros ->. unfold write_word. rewrite !(proj2 (Nat.ltb_lt _ _)) by (rewrite length_app; simpl; lia).
  cbn [andb]. f_equal. rewrite !land_255, !Z.shiftr_div_pow2 by lia.
  rewrite !insert_app_r_alt, Nat.sub_diag by lia.
  replace (length l1 + 1 - length l1)%nat with 1%nat by lia.
  replace (length l1 + 2 - length l1)%nat with 2%nat by lia.
  replace (length l1 + 3 - length l1)%nat with 3%nat by lia. cbn [insert list_insert to_le app].
  rewrite !Z.div_div by lia. done.
Qed.

(** A word written at an aligned address of the memory replaces four bytes. *)
Lemma write_aligned_word_ok m k v : (4 * k + 4 ≤ length m)%nat →
  write_aligned_word m (4 * k) v = Ok (splice m (4 * k) (to_le 4 v)).
Proof.
  intros H. destruct (four_cells m (4 * k) H) as (l1 & b0 & b1 & b2 & b3 & l2 & -> & Hl).
  unfold write_aligned_word. rewrite (proj2 (Nat.ltb_lt _ _)), aligned4 by lia. cbn [Nat.eqb].
  rewrite <- Hl. rewrite (write_word_at _ l1 b0 b1 b2 b3 l2) by done.
  f_equal. symmetry. apply (splice_app_mid l1 [b0; b1; b2; b3] l2). done.
Qed.

Lemma read_aligned_word_ok m k : is_bytes m → (4 * k + 4 ≤ length m)%nat →
  read_aligned_word m (4 * k) = Ok (from_le (slice m (4 * k) (4 * k + 4))).
Proof.
  intros Hm H. destruct (four_cells m (4 * k) H) as (l1 & b0 & b1 & b2 & b3 & l2 & -> & Hl).
  unfold read_aligned_word. rewrite (proj2 (Nat.ltb_lt _ _)), aligned4 by lia. cbn [Nat.eqb].
  rewrite <- Hl. apply Forall_app in Hm as [_ Hm]. apply (Forall_app _ [b0; b1; b2; b3]) in Hm as [Hb _].
  rewrite (read_word_at _ l1 b0 b1 b2 b3 l2) by done. do 2 f_equal.
  unfold slice. rewrite drop_app_length. by replace (length l1 + 4 - length l1)%nat with 4%nat by lia.
Qed.

(** A write keeps the size of the memory and writes bytes; it faults rather
    than panics. *)
Lemma write_aligned_keeps m size addr v m' :
  write_aligned m size addr v = Ok m' → is_bytes m → is_bytes m' ∧ length m' = length m.
Proof.
  assert (H8 : ∀ z, is_u8 (Z.land z 0xff)) by (intros; rewrite land_255; unfold in_u; apply Z.mod_pos_bound; lia).
  assert (Hw : ∀ z, is_u8 (u8w z)) by (intros; apply wrap_in_u; lia).
  unfold write_aligned, write_byte, write_aligned_half_word, write_aligned_word, write_half_word, write_word.
  intros H Hm. repeat case_match; simplify_eq; rewrite ?length_insert; split; auto using Forall_insert.
Qed.

Lemma write_aligned_total m size addr v w : write_aligned m size addr v ≠ Abort w.
Proof.
  unfold write_aligned, write_byte, write_aligned_half_word, write_aligned_word, write_half_word, write_word.
  by repeat case_match.
Qed.

End MemLaws.
