(* ===== verification/HashPad.v ===== *)
(** Padding of the SHA-2 family: a message is cut into blocks of [B] bytes, and
    the rest is followed by a one bit, zeros and the length in bits on [L]
    bytes (FIPS 180-4, section 5.1). What drivers do with the last one or two
    blocks is this padding. *)

From S2P Require Import Prelude.

Lemma insert_at_end (sl rest : list Z) x y :
  <[length sl := x]> (sl ++ y :: rest) = sl ++ x :: rest.
Proof. rewrite insert_app_r_alt by lia. by rewrite Nat.sub_diag. Qed.

Lemma chunks_snoc B (l : list Z) n k : length l = (B * n)%nat → length k = B →
  chunks B (S n) (l ++ k) = chunks B n l ++ [k].
Proof.
  intros Hl Hk. replace (S n) with (n + 1)%nat by lia.
  rewrite chunks_add, chunks_app_r by lia. cbn [chunks].
  rewrite drop_app_ge, Hl, Nat.sub_diag, drop_0 by lia. by rewrite take_ge by lia.
Qed.

(** Sizes of a block and of the length field. *)
Class BlockSize (B L : nat) : Prop := {
  len_pos : (0 < L)%nat;
  len_fits : (2 * L < B)%nat
}.

#[export] Instance block_size_256 : BlockSize 64 8.
Proof. split; lia. Qed.
#[export] Instance block_size_512 : BlockSize 128 16.
Proof. split; lia. Qed.

Section Pad.
Context (B L : nat) `{HBL : !BlockSize B L}.

Let HL : (0 < L)%nat := len_pos.
Let HB : (2 * L < B)%nat := len_fits.

(** What follows the full blocks. *)
Definition tail_of (sl : list Z) (n : nat) : list Z :=
  sl ++ 0x80 :: replicate (Z.to_nat ((Z.of_nat (B - L - 1) - Z.of_nat (length sl)) mod Z.of_nat B)) 0
     ++ to_be L (8 * Z.of_nat n).

(** A block of zeros with [sl] and the one bit in front, and the length at the
    end of a block. *)
Definition marked (sl : list Z) : list Z := <[length sl := 0x80]> (splice (replicate B 0) 0 sl).
Definition with_len (n : nat) (blk : list Z) : list Z := splice blk (B - L) (to_be L (Z.shiftl (Z.of_nat n) 3)).

Lemma marked_eq (sl : list Z) : (length sl < B)%nat →
  marked sl = sl ++ 0x80 :: replicate (B - 1 - length sl) 0.
Proof.
  intros Hl. unfold marked, splice. rewrite take_0, app_nil_l, drop_replicate. simpl (0 + _)%nat.
  replace (B - length sl)%nat with (S (B - 1 - length sl)) by lia. apply insert_at_end.
Qed.

Lemma with_len_app (l : list Z) n : length l = (B - L)%nat →
  with_len n (l ++ replicate L 0) = l ++ to_be L (8 * Z.of_nat n).
Proof.
  intros Hl. unfold with_len. rewrite <- Hl, <- (app_nil_r (replicate L 0)).
  rewrite splice_app_mid by (by rewrite length_replicate, length_to_be). rewrite app_nil_r.
  rewrite Z.shiftl_mul_pow2 by lia. by replace (Z.of_nat n * 2 ^ 3) with (8 * Z.of_nat n) by lia.
Qed.

Lemma short_tail (sl : list Z) n : (length sl < B - L)%nat → with_len n (marked sl) = tail_of sl n.
Proof.
  intros Hl. rewrite marked_eq by lia.
  replace (B - 1 - length sl)%nat with ((B - L - 1 - length sl) + L)%nat by lia.
  rewrite replicate_add. change (0x80 :: replicate (B - L - 1 - length sl) 0 ++ replicate L 0)
    with ((0x80 :: replicate (B - L - 1 - length sl) 0) ++ replicate L 0).
  rewrite app_assoc, with_len_app.
  - unfold tail_of. rewrite Z.mod_small by lia.
    replace (Z.to_nat (Z.of_nat (B - L - 1) - Z.of_nat (length sl))) with (B - L - 1 - length sl)%nat by lia.
    by rewrite <- app_assoc.
  - rewrite length_app. simpl. rewrite length_replicate. lia.
Qed.

Lemma long_tail (sl : list Z) n : (B - L ≤ length sl < B)%nat →
  tail_of sl n = marked sl ++ with_len n (replicate B 0).
Proof.
  intros Hl. rewrite marked_eq by lia.
  replace (replicate B (0 : Z)) with (replicate (B - L) (0 : Z) ++ replicate L (0 : Z))
    by (rewrite <- replicate_add; f_equal; lia).
  rewrite with_len_app by (by rewrite length_replicate). unfold tail_of.
  assert ((Z.of_nat (B - L - 1) - Z.of_nat (length sl)) mod Z.of_nat B = Z.of_nat (2 * B - L - 1 - length sl)) as ->.
  { symmetry. apply Z.mod_unique with (-1); lia. }
  rewrite Nat2Z.id. replace (2 * B - L - 1 - length sl)%nat with ((B - 1 - length sl) + (B - L))%nat by lia.
  rewrite replicate_add. by rewrite <- !app_assoc.
Qed.

Lemma tail_bytes sl n : is_bytes sl → is_bytes (tail_of sl n).
Proof.
  intros. unfold tail_of. apply Forall_app; split; [done|]. constructor; [ulia|].
  apply Forall_app; split; [|apply to_be_bytes]. apply Forall_replicate. ulia.
Qed.

Lemma length_marked sl : (length sl < B)%nat → length (marked sl) = B.
Proof. intros Hl. unfold marked. rewrite length_insert, length_splice; rewrite length_replicate; lia. Qed.

Lemma length_tail sl n : (length sl < B)%nat →
  length (tail_of sl n) = if (length sl <? B - L)%nat then B else (2 * B)%nat.
Proof.
  intros Hl. destruct (Nat.ltb_spec (length sl) (B - L)).
  - unfold tail_of. rewrite !length_app. cbn [length]. rewrite length_app, length_replicate, length_to_be.
    rewrite Z.mod_small by lia. lia.
  - rewrite long_tail by lia. rewrite length_app, length_marked by lia. unfold with_len.
    rewrite length_splice; rewrite ?length_replicate, ?length_to_be; lia.
Qed.

(** ** Iterating a compression function *)

Context (compress : list Z → list Z → list Z).

Definition blocks_of (h l : list Z) : list Z := foldl compress h (chunks B (length l / B) l).

Lemma blocks_of_one h blk : length blk = B → blocks_of h blk = compress h blk.
Proof.
  intros E. unfold blocks_of. rewrite E, Nat.div_same by lia. cbn [chunks foldl]. by rewrite take_ge by lia.
Qed.

Lemma blocks_of_two h b1 b2 : length b1 = B → length b2 = B →
  blocks_of h (b1 ++ b2) = compress (compress h b1) b2.
Proof.
  intros E1 E2. unfold blocks_of. rewrite length_app, E1, E2.
  replace ((B + B) / B)%nat with 2%nat by (apply Nat.div_unique with 0%nat; lia). cbn [chunks foldl].
  rewrite <- E1, take_app_length, drop_app_length, E1, take_ge by lia. done.
Qed.

(** The padded message is its full blocks followed by the tail. *)
Lemma blocks_of_split h m n : n = (length m / B)%nat →
  blocks_of h (tail_of m (length m)) =
    blocks_of (foldl compress h (chunks B n m)) (tail_of (drop (B * n) m) (length m)).
Proof.
  intros Hn. pose proof (Nat.div_mod_eq (length m) B) as Hd. rewrite <- Hn in Hd.
  pose proof (Nat.mod_upper_bound (length m) B ltac:(lia)) as Hu.
  assert (Hp : tail_of m (length m) = take (B * n) m ++ tail_of (drop (B * n) m) (length m)).
  { unfold tail_of. rewrite length_drop, app_assoc, take_drop. do 3 f_equal. do 2 f_equal.
    replace (Z.of_nat (B - L - 1) - Z.of_nat (length m - B * n))
      with (Z.of_nat (B - L - 1) - Z.of_nat (length m) + Z.of_nat n * Z.of_nat B) by lia.
    by rewrite Z.mod_add by lia. }
  assert (Hlt : length (take (B * n) m) = (B * n)%nat) by (rewrite length_take; lia).
  set (t := tail_of (drop (B * n) m) (length m)) in *.
  assert (Hlp : length (tail_of m (length m)) = ((n + length t / B) * B)%nat).
  { rewrite Hp, length_app, Hlt.
    assert (length t = if (length (drop (B * n) m) <? B - L)%nat then B else (2 * B)%nat) as ->
      by (apply length_tail; rewrite length_drop; lia).
    destruct (_ <? _)%nat; [rewrite Nat.div_same by lia; lia|].
    rewrite Nat.div_mul by lia. lia. }
  unfold blocks_of. rewrite Hlp, Nat.div_mul by lia. rewrite chunks_add, foldl_app. f_equal.
  - rewrite Hp, chunks_app_r by lia.
    rewrite <- (take_drop (B * n) m) at 2. by rewrite chunks_app_r by lia.
  - f_equal. rewrite Hp, drop_app_ge by lia. by rewrite Hlt, Nat.sub_diag.
Qed.

(** A property of states that compression establishes. *)
Lemma foldl_compress_ind (P : list Z → Prop) h l :
  (∀ h b, P (compress h b)) → P h → P (foldl compress h l).
Proof. intros Hc. revert h. induction l; simpl; auto. Qed.

End Pad.
