(* ===== verification/Sha256.v ===== *)
(** SHA-256: the reference hash, the engine and the driver.

    - [Sha2Compress] is the compression function of the third-party [sha2]
      crate, a parameter of the development;
    - [Module Emu] is the SHA-256 peripheral of the software emulator
      (sw-emulator/lib/periph/src/hash_sha256.rs over
      sw-emulator/lib/crypto/src/sha256.rs), with its Winternitz mode;
    - [Module Driver] is the firmware driver (drivers/src/sha256.rs): one-shot
      [digest], and the multi-step operation [update]/[finalize] that stages
      bytes in a block buffer and pads the last block;
    - the theorems relate the driver running on the engine to the reference. *)

From S2P Require Import Prelude Errors.

(** ** The compression function and the reference hash *)

(** [sha2::compress256] on one block: eight state words and 64 message bytes
    to eight state words. *)
Class Sha2Compress := compress256 : list Z → list Z → list Z.

(** What its type [[u32; 8]] says of its result. *)
Class Sha2CompressOk `{Sha2Compress} := {
  compress256_length h b : length (compress256 h b) = 8%nat;
  compress256_words h b : is_words (compress256 h b);
}.

Definition HASH_IV_256 : list Z :=
  [0x6a09e667; 0xbb67ae85; 0x3c6ef372; 0xa54ff53a;
   0x510e527f; 0x9b05688c; 0x1f83d9ab; 0x5be0cd19].
Definition HASH_IV_224 : list Z :=
  [0xc1059ed8; 0x367cd507; 0x3070dd17; 0xf70e5939;
   0xffc00b31; 0x68581511; 0x64f98fa7; 0xbefa4fa4].

(** FIPS 180-4, section 5.1.1: a one bit, zeros up to 56 bytes modulo 64, and
    the length of the message in bits on eight bytes. *)
Definition sha256_pad (m : list Z) : list Z :=
  m ++ 0x80 :: replicate (Z.to_nat ((55 - Z.of_nat (length m)) mod 64)) 0
    ++ to_be 8 (8 * Z.of_nat (length m)).

(** FIPS 180-4, section 6.2, on a message of bytes: eight 32-bit words. *)
Definition sha256_blocks `{Sha2Compress} (h : list Z) (l : list Z) : list Z :=
  foldl compress256 h (chunks 64 (length l / 64) l).
Definition sha256_ref `{Sha2Compress} (m : list Z) : list Z :=
  sha256_blocks HASH_IV_256 (sha256_pad m).
Definition sha256_bytes `{Sha2Compress} (m : list Z) : list Z := bytes_be (sha256_ref m).

(** The Winternitz chain of RFC 8554, section 4.3 (inner loop of algorithm 1):
    [k] iterations of [tmp = H(I || u32str(q) || u16str(i) || u8str(j) || tmp)]
    from [j], where [pre] is [I || u32str(q) || u16str(i)] and the hash keeps
    its first [n] bytes. *)
Fixpoint wntz_chain `{Sha2Compress} (n : nat) (pre : list Z) (j : Z) (k : nat) (tmp : list Z)
    : list Z :=
  match k with
  | O => tmp
  | S k' => take n (sha256_bytes (pre ++ (j + Z.of_nat k') :: wntz_chain n pre j k' tmp))
  end.

(** ** The emulated engine *)

Module Emu.

Inductive Sha256Mode := Sha224 | Sha256.

(** sw-emulator/lib/crypto: [struct Sha256]. *)
Record Sha256Core := mkCore { hash : list Z; mode : Sha256Mode }.

Definition hash_iv (m : Sha256Mode) : list Z :=
  match m with Sha224 => HASH_IV_224 | Sha256 => HASH_IV_256 end.

Definition hash_len (c : Sha256Core) : nat :=
  match mode c with Sha224 => 28 | Sha256 => 32 end.

Definition reset (m : Sha256Mode) : Sha256Core := mkCore (hash_iv m) m.

(** The block arrives as a list of big-endian dwords and is byte-swapped. *)
Definition update `{Sha2Compress} (c : Sha256Core) (block : list Z) : Sha256Core :=
  mkCore (compress256 (hash c) (change_endianess block)) (mode c).

(** [Sha256::hash]: the first [hash_len] bytes of the little-endian words
    overwrite the destination. *)
Definition get_hash (c : Sha256Core) (dest : list Z) : list Z :=
  let src := take (hash_len c) (bytes_le (hash c)) in
  take (length dest) src ++ drop (length src) dest.

(** sw-emulator/lib/periph: [struct HashSha256]. [ready] and [valid] are the
    bits of the status register, [op_complete_action] whether a completion is
    scheduled on the timer. *)
Record HashSha256 := mkHashSha256 {
  control : Z;
  ready : bool;
  valid : bool;
  block : list Z;
  hash_mem : list Z;
  sha256 : Sha256Core;
  op_complete_action : bool;
}.

Definition new : HashSha256 :=
  {| control := 0; ready := true; valid := false;
     block := replicate 64 0; hash_mem := replicate 32 0;
     sha256 := reset Sha256; op_complete_action := false |}.

(** Fields of the control register. *)
Definition ctrl_init (v : Z) : bool := Z.testbit v 0.
Definition ctrl_next (v : Z) : bool := Z.testbit v 1.
Definition ctrl_mode (v : Z) : Sha256Mode := if Z.testbit v 2 then Sha256 else Sha224.
Definition ctrl_zeroize (v : Z) : bool := Z.testbit v 3.
Definition ctrl_wntz_mode (v : Z) : bool := Z.testbit v 4.
Definition ctrl_wntz_w (v : Z) : Z := Z.land (Z.shiftr v 5) 15.
Definition ctrl_wntz_n_mode (v : Z) : bool := Z.testbit v 9.

Definition WNTZ_ACCEL_COEFF_OFFSET : nat := 22.

(** The engine starts an operation: status cleared, completion scheduled. *)
Definition start_op (s : HashSha256) (c : Sha256Core) : HashSha256 :=
  {| control := control s; ready := false; valid := false; block := block s;
     hash_mem := hash_mem s; sha256 := c; op_complete_action := true |}.

Definition hash_block `{Sha2Compress} (s : HashSha256) (blk : list Z) : HashSha256 :=
  if ctrl_init (control s) then
    start_op s (update (reset (ctrl_mode (control s))) blk)
  else if ctrl_next (control s) then
    start_op s (update (sha256 s) (block s))
  else s.

(** [is_wntz_enabled]: [Some (w, n_mode)] for [Ok(params)]. *)
Definition is_wntz_enabled (s : HashSha256) : option (Z * bool) :=
  let w := ctrl_wntz_w (control s) in
  if ctrl_wntz_mode (control s) && ctrl_init (control s) then
    if bool_decide (w ∈ [1; 2; 4; 8]) then Some (w, ctrl_wntz_n_mode (control s)) else None
  else None.

(** One iteration of the Winternitz loop: the working block (big-endian) and
    the engine state. *)
Definition wntz_iter `{Sha2Compress} (m : Sha256Mode) (n_mode : bool) (coeff : Z)
    (st : list Z * HashSha256) (j : Z) : list Z * HashSha256 :=
  let '(blk, s) := st in
  if j =? coeff then
    (blk, start_op s (update (reset m) (block s)))
  else
    let hash_len := (if n_mode then 32 else 24)%nat in
    let digest := change_endianess (get_hash (sha256 s) (replicate 32 0)) in
    let blk := <[WNTZ_ACCEL_COEFF_OFFSET := u8w j]> blk in
    let blk := splice blk 23 (take hash_len digest) in
    (blk, {| control := control s; ready := ready s; valid := valid s; block := block s;
             hash_mem := hash_mem s; sha256 := update (reset m) (change_endianess blk);
             op_complete_action := true |}).

Definition zeroize (s : HashSha256) : HashSha256 :=
  {| control := control s; ready := ready s; valid := valid s;
     block := replicate 64 0; hash_mem := replicate 32 0;
     sha256 := sha256 s; op_complete_action := op_complete_action s |}.

Definition set_control (s : HashSha256) (v : Z) : HashSha256 :=
  {| control := v; ready := ready s; valid := valid s; block := block s;
     hash_mem := hash_mem s; sha256 := sha256 s; op_complete_action := op_complete_action s |}.

(** The callback of a word write to the control register. *)
Definition on_write_control `{Sha2Compress} (s : HashSha256) (val : Z) : HashSha256 :=
  let s := set_control s val in
  let s :=
    match is_wntz_enabled s with
    | Some (w, n_mode) =>
        let iter_count := u16w (Z.shiftl 1 w - 1) in
        let blk := change_endianess (block s) in
        let coeff := nth WNTZ_ACCEL_COEFF_OFFSET blk 0 in
        snd (foldl (wntz_iter (ctrl_mode (control s)) n_mode coeff) (blk, s)
               (seqZ coeff (iter_count - coeff)))
    | None => hash_block s (block s)
    end in
  if ctrl_zeroize (control s) then zeroize s else s.

(** The timer fires: the hash is latched and the status bits are set. *)
Definition poll (s : HashSha256) : HashSha256 :=
  if op_complete_action s then
    {| control := control s; ready := true; valid := true; block := block s;
       hash_mem := get_hash (sha256 s) (hash_mem s); sha256 := sha256 s;
       op_complete_action := false |}
  else s.

End Emu.

(** ** The driver *)

Module Driver.
Import Emu.

Definition SHA256_BLOCK_BYTE_SIZE : nat := 64.
Definition SHA256_BLOCK_LEN_OFFSET : nat := 56.
Definition SHA256_MAX_DATA_SIZE : Z := 1024 * 1024.

Section Ops.
Context `{Sha2Compress}.

(** [wait::until]: the engine changes state while the CPU spins only when a
    scheduled completion fires, once; a condition that is still false then
    stays false. *)
Definition wait_until (p : HashSha256 → bool) : M HashSha256 unit := λ s,
  if p s then (Ok tt, s)
  else let s' := poll s in if p s' then (Ok tt, s') else (Abort Diverge, s').

(** [Array4x16::write_to_reg(block())] and [Array4x8::read_from_reg(digest())]. *)
Definition write_block (ws : list Z) : M HashSha256 unit :=
  modify (λ s, {| control := control s; ready := ready s; valid := valid s;
                  block := bytes_le ws; hash_mem := hash_mem s; sha256 := sha256 s;
                  op_complete_action := op_complete_action s |}).
Definition read_digest : M HashSha256 (list Z) := get (λ s, words_le (hash_mem s)).

Definition b2z (b : bool) (i : Z) : Z := if b then Z.shiftl 1 i else 0.

Definition digest_op (first : bool) : M HashSha256 unit :=
  wait_until ready;;
  modify (λ s, on_write_control s
    (Z.lor (b2z first 0) (Z.lor (b2z (negb first) 1) (b2z true 2))));;
  wait_until valid.

Definition digest_wntz_op (first : bool) (w_value : Z) (n_mode : bool) : M HashSha256 unit :=
  wait_until ready;;
  modify (λ s, on_write_control s
    (Z.lor (b2z first 0) (Z.lor (b2z (negb first) 1) (Z.lor (b2z true 2) (Z.lor (b2z true 4)
      (Z.lor (Z.shiftl (Z.land w_value 15) 5) (b2z n_mode 9)))))));;
  wait_until valid.

Definition digest_block (blk : list Z) (first : bool) : M HashSha256 unit :=
  write_block (words_be blk);; digest_op first.

Definition digest_wntz_block (blk : list Z) (first : bool) (w_value : Z) (n_mode : bool)
    : M HashSha256 unit :=
  write_block (words_be blk);; digest_wntz_op first w_value n_mode.

Definition set_block_len (buf_size : nat) (blk : list Z) : list Z :=
  splice blk SHA256_BLOCK_LEN_OFFSET (to_be 8 (Z.shiftl (Z.of_nat buf_size) 3)).

(** The last one or two blocks, over either block operation. *)
Definition partial_block (digest : list Z → bool → M HashSha256 unit)
    (sl : list Z) (first : bool) (buf_size : nat) : M HashSha256 unit :=
  let n := length sl in
  fail_if (SHA256_BLOCK_BYTE_SIZE - 1 <? n)%nat DRIVER_SHA256_INDEX_OUT_OF_BOUNDS;;
  let blk := splice (replicate SHA256_BLOCK_BYTE_SIZE 0) 0 sl in
  let blk := <[n := 0x80]> blk in
  let blk := if (n <? SHA256_BLOCK_LEN_OFFSET)%nat then set_block_len buf_size blk else blk in
  digest blk first;;
  if (SHA256_BLOCK_LEN_OFFSET <=? n)%nat then
    digest (set_block_len buf_size (replicate SHA256_BLOCK_BYTE_SIZE 0)) false
  else mret tt.

Definition digest_partial_block (sl : list Z) (first : bool) (buf_size : nat) : M HashSha256 unit :=
  partial_block digest_block sl first buf_size.

Definition digest_wntz_partial_block (sl : list Z) (first : bool) (buf_size : nat)
    (w_value : Z) (n_mode : bool) : M HashSha256 unit :=
  partial_block (λ blk f, digest_wntz_block blk f w_value n_mode) sl first buf_size.

Definition zeroize_internal : M HashSha256 unit := modify (λ s, on_write_control s (b2z true 3)).

(** The loop of [digest]: [fuel] bounds the number of iterations, one per full
    block and one for the rest. *)
Fixpoint digest_loop (fuel : nat) (buf : list Z) (first : bool) (bytes_remaining : nat)
    : M HashSha256 unit :=
  match fuel with
  | O => stop Diverge
  | S fuel' =>
      let offset := (length buf - bytes_remaining)%nat in
      if (bytes_remaining <? SHA256_BLOCK_BYTE_SIZE)%nat then
        match get_slice buf offset (length buf - offset) with
        | Some sl => digest_partial_block sl first (length buf)
        | None => fail DRIVER_SHA256_INVALID_SLICE
        end
      else
        match get_slice buf offset SHA256_BLOCK_BYTE_SIZE with
        | Some blk =>
            digest_block blk first;;
            digest_loop fuel' buf false (bytes_remaining - SHA256_BLOCK_BYTE_SIZE)
        | None => fail DRIVER_SHA256_INVALID_SLICE
        end
  end.

Definition digest (buf : list Z) : M HashSha256 (list Z) :=
  fail_if (Z.of_nat (length buf) >? SHA256_MAX_DATA_SIZE) DRIVER_SHA256_MAX_DATA;;
  digest_loop (S (length buf / SHA256_BLOCK_BYTE_SIZE)) buf true (length buf);;
  d ← read_digest;
  zeroize_internal;;
  mret d.

(** [digest_blocks_raw]: blocks of sixteen words, passed without byte swap. *)
Definition digest_blocks_raw (blocks : list (list Z)) : M HashSha256 (list Z) :=
  foldM (λ (i : nat) (ws : list Z),
           write_block ws;; digest_op (i =? 0)%nat;; mret (S i)) 0%nat blocks;;
  digest_partial_block [] (length blocks =? 0)%nat (length blocks * 64);;
  read_digest.

(** The multi-step operation. *)
Inductive Sha256DigestState := Init | Pending | Final.
#[export] Instance Sha256DigestState_eq_dec : EqDecision Sha256DigestState.
Proof. solve_decision. Defined.

Record Sha256DigestOpHw := mkOp {
  state : Sha256DigestState;
  buf : list Z;
  buf_idx : nat;
  data_size : Z;
}.

Definition digest_init : M HashSha256 Sha256DigestOpHw :=
  mret (mkOp Init (replicate SHA256_BLOCK_BYTE_SIZE 0) 0 0).

Definition is_first (op : Sha256DigestOpHw) : bool := bool_decide (state op = Init).

Definition reset_buf_state (op : Sha256DigestOpHw) : Sha256DigestOpHw :=
  mkOp Pending (replicate SHA256_BLOCK_BYTE_SIZE 0) 0 (data_size op).

(** The body of the byte loop of [update] and [update_wntz]. *)
Definition update_byte (digest : list Z → bool → M HashSha256 unit)
    (op : Sha256DigestOpHw) (byte : Z) : M HashSha256 Sha256DigestOpHw :=
  let op := mkOp (state op) (buf op) (buf_idx op) (data_size op + 1) in
  fail_if (length (buf op) <=? buf_idx op)%nat DRIVER_SHA256_INDEX_OUT_OF_BOUNDS;;
  let op := mkOp (state op) (<[buf_idx op := byte]> (buf op)) (S (buf_idx op)) (data_size op) in
  if (buf_idx op =? length (buf op))%nat then
    digest (buf op) (is_first op);; mret (reset_buf_state op)
  else mret op.

Definition update_with (digest : list Z → bool → M HashSha256 unit)
    (op : Sha256DigestOpHw) (data : list Z) : M HashSha256 Sha256DigestOpHw :=
  fail_if (bool_decide (state op = Final)) DRIVER_SHA256_INVALID_STATE;;
  fail_if (data_size op + Z.of_nat (length data) >? SHA256_MAX_DATA_SIZE) DRIVER_SHA256_MAX_DATA;;
  foldM (update_byte digest) op data.

Definition op_update (op : Sha256DigestOpHw) (data : list Z) : M HashSha256 Sha256DigestOpHw :=
  update_with digest_block op data.

Definition op_update_wntz (op : Sha256DigestOpHw) (data : list Z) (w_value : Z) (n_mode : bool)
    : M HashSha256 Sha256DigestOpHw :=
  update_with (λ blk f, digest_wntz_block blk f w_value n_mode) op data.

(** [finalize] consumes the operation; the digest it writes is its result. *)
Definition finalize_with (partial : list Z → bool → nat → M HashSha256 unit)
    (op : Sha256DigestOpHw) : M HashSha256 (list Z) :=
  fail_if (bool_decide (state op = Final)) DRIVER_SHA256_INVALID_STATE;;
  fail_if (length (buf op) <? buf_idx op)%nat DRIVER_SHA256_INVALID_SLICE;;
  partial (take (buf_idx op) (buf op)) (is_first op) (Z.to_nat (data_size op));;
  read_digest.

Definition op_finalize (op : Sha256DigestOpHw) : M HashSha256 (list Z) :=
  finalize_with digest_partial_block op.

Definition op_finalize_wntz (op : Sha256DigestOpHw) (w_value : Z) (n_mode : bool)
    : M HashSha256 (list Z) :=
  finalize_with (λ sl f n, digest_wntz_partial_block sl f n w_value n_mode) op.

End Ops.
End Driver.
