(* ===== verification/Sha256Proofs.v ===== *)
(** The SHA-256 driver on the emulated engine computes the reference hash. *)

From S2P Require Import Prelude Errors HashPad Sha256.
Import Emu Driver.

Section Engine.
Context `{Sha2CompressOk}.

(** The engine is idle and its last digest state is [h]. *)
Definition idle (s : HashSha256) : Prop := ready s = true ∧ length (hash_mem s) = 32%nat.
Definition holds (s : HashSha256) (h : list Z) : Prop :=
  idle s ∧ mode (sha256 s) = Sha256 ∧ hash (sha256 s) = h ∧ hash_mem s = bytes_le h.

Lemma holds_idle s h : holds s h → idle s.
Proof. by intros [? _]. Qed.

Lemma read_digest_holds s h : is_words h → holds s h → read_digest s = (Ok h, s).
Proof.
  intros Hw (_ & _ & _ & E). unfold read_digest, get. by rewrite E, words_le_bytes_le.
Qed.

Lemma get_hash_sha256 h (dest : list Z) :
  length h = 8%nat → length dest = 32%nat → get_hash (mkCore h Sha256) dest = bytes_le h.
Proof.
  intros Hh Hd. assert (length (bytes_le h) = 32%nat) by (rewrite length_bytes_le; lia).
  unfold get_hash, hash_len. cbn [mode hash].
  rewrite (take_ge (bytes_le h) 32), Hd, take_ge, drop_ge by lia. apply app_nil_r.
Qed.

(** One block through the engine is one application of the compression
    function: the byte swaps of the register file and of the engine cancel. *)
Lemma digest_block_ok blk (first : bool) s h :
  idle s → length blk = 64%nat → is_bytes blk →
  (if first then h = HASH_IV_256 else holds s h) →
  ∃ s', digest_block blk first s = (Ok tt, s') ∧ holds s' (compress256 h blk).
Proof.
  intros [Hr Hm] Hl Hb Hh.
  assert (E : change_endianess (bytes_le (words_be blk)) = blk).
  { rewrite change_endianess_bytes_le. apply bytes_be_words_be; [done|]. rewrite Hl. by exists 16. }
  assert (Hc : length (compress256 h blk) = 8%nat) by apply compress256_length.
  destruct s as [ct rd vd bk hm [hs md] oc]. simpl in *. subst rd.
  unfold holds, idle in *. simpl in *.
  destruct first.
  - subst h. eexists. split; [reflexivity|]. simpl.
    unfold update. simpl. rewrite E, get_hash_sha256 by done.
    by rewrite length_bytes_le, Hc.
  - destruct Hh as (_ & -> & -> & ->). eexists. split; [reflexivity|]. simpl.
    unfold update. simpl. rewrite E, get_hash_sha256 by done.
    by rewrite length_bytes_le, Hc.
Qed.

(** The tail of a padded message: what follows the full blocks. *)
Abbreviation pad_tail := (tail_of 64 8).

Lemma sha256_blocks_one h blk : length blk = 64%nat → sha256_blocks h blk = compress256 h blk.
Proof. by apply (blocks_of_one 64 8). Qed.

Lemma length_pad_tail sl n : (length sl < 64)%nat →
  length (pad_tail sl n) = if (length sl <? 56)%nat then 64%nat else 128%nat.
Proof. by apply (length_tail 64 8). Qed.

Lemma digest_partial_block_ok sl (first : bool) n s h :
  idle s → (length sl < 64)%nat → is_bytes sl →
  (if first then h = HASH_IV_256 else holds s h) →
  ∃ s', digest_partial_block sl first n s = (Ok tt, s') ∧ holds s' (sha256_blocks h (pad_tail sl n)).
Proof.
  intros Hi Hl Hb Hh.
  pose proof (tail_bytes 64 8 sl n Hb) as Hpb. pose proof (length_pad_tail sl n Hl) as Hpl.
  unfold digest_partial_block, partial_block, SHA256_BLOCK_BYTE_SIZE, SHA256_BLOCK_LEN_OFFSET.
  rewrite bind_fail_if by (apply Nat.ltb_ge; lia).
  destruct (Nat.ltb_spec (length sl) 56).
  - change (set_block_len ?k ?b) with (with_len 64 8 k b). change (<[_ := 0x80]> _) with (marked 64 sl).
    rewrite (short_tail 64 8) by (simpl; lia).
    destruct (digest_block_ok (pad_tail sl n) first s h) as (s1 & E1 & Hs1); [done..|].
    exists s1. rewrite (bind_ok _ _ _ _ _ E1).
    assert ((56 <=? length sl)%nat = false) as -> by (apply Nat.leb_gt; lia).
    split; [done|]. by rewrite sha256_blocks_one.
  - pose proof (long_tail 64 8 sl n ltac:(lia)) as E.
    change (<[_ := 0x80]> _) with (marked 64 sl). set (b1 := marked 64 sl) in *.
    change (set_block_len n _) with (with_len 64 8 n (replicate 64 0)). set (b2 := with_len 64 8 n _) in *.
    rewrite E in *. apply Forall_app in Hpb as [Hb1 Hb2].
    assert (length b1 = 64%nat).
    { by apply (length_marked 64 8). }
    rewrite length_app in Hpl. assert (length b2 = 64%nat) by lia.
    destruct (digest_block_ok b1 first s h) as (s1 & E1 & Hs1); [done..|].
    rewrite (bind_ok _ _ _ _ _ E1).
    assert ((56 <=? length sl)%nat = true) as -> by (apply Nat.leb_le; lia).
    destruct (digest_block_ok b2 false s1 (compress256 h b1)) as (s2 & E2 & Hs2);
      [by eapply holds_idle|done..|].
    exists s2. split; [done|]. by rewrite <- (blocks_of_two 64 8 compress256) in Hs2.
Qed.

(** The padded message is its full blocks followed by the tail. *)
Lemma sha256_ref_split m n :
  n = (length m / 64)%nat →
  sha256_ref m =
    sha256_blocks (foldl compress256 HASH_IV_256 (chunks 64 n m)) (pad_tail (drop (64 * n) m) (length m)).
Proof. by apply (blocks_of_split 64 8). Qed.

Lemma foldl_compress_words h l : is_words h → is_words (foldl compress256 h l).
Proof. apply foldl_compress_ind. intros. apply compress256_words. Qed.

Lemma HASH_IV_256_words : is_words HASH_IV_256.
Proof. unfold HASH_IV_256. repeat (constructor; [ulia|]). constructor. Qed.

Lemma sha256_ref_words m : is_words (sha256_ref m).
Proof. apply foldl_compress_words, HASH_IV_256_words. Qed.

Lemma sha256_ref_length m : length (sha256_ref m) = 8%nat.
Proof.
  unfold sha256_ref, sha256_blocks.
  generalize (chunks 64 (length (sha256_pad m) / 64) (sha256_pad m)). intros l.
  assert (G : ∀ h, length h = 8%nat → length (foldl compress256 h l) = 8%nat).
  { induction l as [|b l IH]; [done|]. intros h Hh. apply IH, compress256_length. }
  by apply G.
Qed.

(** *** The one-shot digest *)

Lemma digest_loop_ok (m : list Z) : is_bytes m →
  ∀ n k (first : bool) s h rem,
  length m = (64 * k + rem)%nat → n = (rem / 64)%nat → idle s →
  (if first then h = HASH_IV_256 else holds s h) →
  ∃ s', digest_loop (S n) m first rem s = (Ok tt, s') ∧
    holds s' (sha256_blocks (foldl compress256 h (chunks 64 n (drop (64 * k) m)))
                            (pad_tail (drop (64 * (k + n)) m) (length m))).
Proof.
  intros Hb n. induction n as [|n IH]; intros k first s h rem Hl Hn Hi Hh;
    pose proof (Nat.div_mod_eq rem 64) as Hd; rewrite <- Hn in Hd;
    pose proof (Nat.mod_upper_bound rem 64 ltac:(lia)) as Hu;
    cbn [digest_loop]; replace (length m - rem)%nat with (64 * k)%nat by lia;
    unfold SHA256_BLOCK_BYTE_SIZE, get_slice.
  - destruct (Nat.ltb_spec rem 64) as [_|]; [|lia].
    rewrite decide_True by lia. rewrite Nat.add_0_r.
    rewrite take_ge by (rewrite length_drop; lia). simpl foldl.
    apply digest_partial_block_ok; auto using Forall_drop. rewrite length_drop. lia.
  - destruct (Nat.ltb_spec rem 64) as [|_]; [lia|]. rewrite decide_True by lia.
    destruct (digest_block_ok (take 64 (drop (64 * k) m)) first s h) as (s1 & E1 & H1);
      [done|rewrite length_take, length_drop; lia|auto using Forall_take, Forall_drop|done|].
    rewrite (bind_ok _ _ _ _ _ E1).
    destruct (IH (S k) false s1 (compress256 h (take 64 (drop (64 * k) m))) (rem - 64)%nat)
      as (s2 & E2 & H2); [lia| |by eapply holds_idle|done|].
    + apply Nat.div_unique with (rem mod 64)%nat; lia.
    + exists s2. split; [exact E2|].
      replace (64 * (k + S n))%nat with (64 * (S k + n))%nat by lia.
      cbn [chunks foldl]. rewrite drop_drop.
      by replace (64 * k + 64)%nat with (64 * S k)%nat by lia.
Qed.

Lemma digest_ok (m : list Z) s :
  idle s → is_bytes m → Z.of_nat (length m) ≤ SHA256_MAX_DATA_SIZE →
  ∃ s', digest m s = (Ok (sha256_ref m), s') ∧ idle s' ∧
        block s' = replicate 64 0 ∧ hash_mem s' = replicate 32 0.
Proof.
  intros Hi Hb Hl. unfold digest.
  rewrite bind_fail_if by (lia).
  destruct (digest_loop_ok m Hb (length m / 64) 0 true s HASH_IV_256 (length m))
    as (s1 & E1 & H1); [lia|done|done|done|].
  rewrite (bind_ok _ _ _ _ _ E1).
  rewrite Nat.mul_0_r, drop_0, Nat.add_0_l, <- (sha256_ref_split m _ eq_refl) in H1.
  rewrite (bind_ok _ _ _ _ _ (read_digest_holds _ _ (sha256_ref_words m) H1)).
  eexists. split; [reflexivity|].
  destruct H1 as ([Hr _] & _). by destruct s1.
Qed.

(** *** The multi-step operation *)

(** [absorbed op s d]: the operation [op] on engine [s] has consumed [d]. *)
Definition absorbed (op : Sha256DigestOpHw) (s : HashSha256) (d : list Z) : Prop :=
  ∃ n full sl,
    d = full ++ sl ∧ is_bytes d ∧ Z.of_nat (length d) ≤ SHA256_MAX_DATA_SIZE ∧
    length full = (64 * n)%nat ∧ (length sl < 64)%nat ∧
    state op = (if (n =? 0)%nat then Init else Pending) ∧
    length (buf op) = 64%nat ∧ buf_idx op = length sl ∧ take (length sl) (buf op) = sl ∧
    data_size op = Z.of_nat (length d) ∧ idle s ∧
    ((0 < n)%nat → holds s (foldl compress256 HASH_IV_256 (chunks 64 n full))).

Lemma digest_init_ok s : idle s → ∃ op, digest_init s = (Ok op, s) ∧ absorbed op s [].
Proof.
  intros Hi. eexists. split; [reflexivity|]. exists 0%nat, [], [].
  unfold SHA256_MAX_DATA_SIZE. simpl. repeat split; (done || lia || constructor || apply Hi).
Qed.

Lemma absorbed_first op s n full :
  state op = (if (n =? 0)%nat then Init else Pending) →
  ((0 < n)%nat → holds s (foldl compress256 HASH_IV_256 (chunks 64 n full))) →
  if is_first op then foldl compress256 HASH_IV_256 (chunks 64 n full) = HASH_IV_256
  else holds s (foldl compress256 HASH_IV_256 (chunks 64 n full)).
Proof.
  intros Hst Hh. unfold is_first. rewrite Hst. destruct n; [done|].
  apply Hh. lia.
Qed.

Lemma update_byte_ok op s d b :
  absorbed op s d → is_u8 b → Z.of_nat (length d) < SHA256_MAX_DATA_SIZE →
  ∃ op' s', update_byte digest_block op b s = (Ok op', s') ∧ absorbed op' s' (d ++ [b]).
Proof.
  intros (n & full & sl & -> & Hb & Hm & Hf & Hsl & Hst & Hbl & Hbi & Htk & Hds & Hi & Hh) Hu8 Hlt.
  assert (Hb' : is_bytes ((full ++ sl) ++ [b])) by (apply Forall_app; auto).
  unfold update_byte. cbn [buf buf_idx state data_size].
  rewrite bind_fail_if by (apply Nat.leb_gt; lia).
  rewrite length_insert, Hbl.
  assert (Hins : take (S (length sl)) (<[buf_idx op := b]> (buf op)) = sl ++ [b]).
  { erewrite take_S_r by (rewrite Hbi; apply list_lookup_insert_eq; lia).
    rewrite take_insert_ge, Htk by lia. done. }
  assert (Hlen : length ((full ++ sl) ++ [b]) = S (length (full ++ sl))) by (rewrite length_app; simpl; lia).
  destruct (Nat.eqb_spec (S (buf_idx op)) 64) as [E64|N64].
  - assert (Hfull : <[buf_idx op := b]> (buf op) = sl ++ [b]).
    { rewrite <- Hins. symmetry. apply take_ge. rewrite length_insert. lia. }
    rewrite Hfull.
    destruct (digest_block_ok (sl ++ [b]) (is_first (mkOp (state op) (sl ++ [b]) (S (buf_idx op)) (data_size op + 1)))
      s (foldl compress256 HASH_IV_256 (chunks 64 n full))) as (s1 & E1 & H1).
    + done.
    + rewrite length_app; simpl; lia.
    + rewrite <- app_assoc in Hb'. by apply Forall_app in Hb' as [_ ?].
    + by apply absorbed_first.
    + rewrite (bind_ok _ _ _ _ _ E1). eexists _, s1. split; [reflexivity|].
      exists (S n), (full ++ sl ++ [b]), []. unfold reset_buf_state. cbn [state buf buf_idx data_size].
      rewrite chunks_snoc, foldl_app by (try done; rewrite length_app; simpl; lia).
      rewrite app_nil_r, <- !app_assoc in *.
      repeat split; try done; rewrite ?Hds, ?length_app in *; simpl in *; try lia.
      all: try apply H1.
  - eexists _, s. split; [reflexivity|].
    exists n, full, (sl ++ [b]). cbn [state buf buf_idx data_size].
    rewrite length_insert, <- !app_assoc in *.
    assert (length (sl ++ [b]) = S (length sl)) as Esl by (rewrite length_app; simpl; lia).
    rewrite Esl. rewrite Hds, !length_app in *. simpl in *.
    repeat split; try done; try lia; try apply Hi; by apply Hh.
Qed.

Lemma op_update_ok op s d x :
  absorbed op s d → is_bytes x → Z.of_nat (length d) + Z.of_nat (length x) ≤ SHA256_MAX_DATA_SIZE →
  ∃ op' s', op_update op x s = (Ok op', s') ∧ absorbed op' s' (d ++ x).
Proof.
  intros Ha Hx Hm.
  assert (state op ≠ Final ∧ data_size op = Z.of_nat (length d)) as [Hnf Hds].
  { destruct Ha as (n & full & sl & -> & Ha). destruct Ha as (_ & _ & _ & _ & -> & _ & _ & _ & -> & _).
    split; [by destruct n|done]. }
  unfold op_update, update_with.
  rewrite bind_fail_if by (by rewrite bool_decide_false).
  rewrite bind_fail_if by (lia).
  destruct (foldM_ok (update_byte digest_block) (λ don o s', absorbed o s' (d ++ don)) x)
    with (b := op) (s := s) as (op' & s' & E & H').
  - intros don a o s' [rest ->] Ho. apply Forall_app in Hx as [_ Hx]. inversion Hx; subst.
    rewrite app_assoc. apply update_byte_ok; [done..|].
    rewrite length_app in *. simpl in *. lia.
  - by rewrite app_nil_r.
  - eauto.
Qed.

Lemma op_finalize_ok op s d :
  absorbed op s d → ∃ s', op_finalize op s = (Ok (sha256_ref d), s') ∧ idle s'.
Proof.
  intros (n & full & sl & -> & Hb & Hm & Hf & Hsl & Hst & Hbl & Hbi & Htk & Hds & Hi & Hh).
  unfold op_finalize, finalize_with.
  rewrite bind_fail_if by (rewrite Hst; by destruct n).
  rewrite bind_fail_if by (apply Nat.ltb_ge; lia).
  rewrite Hbi, Htk, Hds, Nat2Z.id.
  destruct (digest_partial_block_ok sl (is_first op) (length (full ++ sl)) s
    (foldl compress256 HASH_IV_256 (chunks 64 n full))) as (s1 & E1 & H1);
    [done|done|by apply Forall_app in Hb as [_ ?]|by apply absorbed_first|].
  rewrite (bind_ok _ _ _ _ _ E1).
  assert (Hn : n = (length (full ++ sl) / 64)%nat).
  { rewrite length_app, Hf. apply Nat.div_unique with (length sl); lia. }
  rewrite (sha256_ref_split _ _ Hn), chunks_app_r, drop_app_ge by lia.
  rewrite <- Hf, Nat.sub_diag, drop_0.
  exists s1. split; [|by eapply holds_idle].
  apply read_digest_holds; [|done].
  unfold sha256_blocks. auto using foldl_compress_words, HASH_IV_256_words.
Qed.

(** *** The Winternitz mode *)

Lemma sha256_ref_short m :
  (length m < 56)%nat → sha256_ref m = compress256 HASH_IV_256 (pad_tail m (length m)).
Proof.
  intros Hl. assert (E : (length m / 64 = 0)%nat) by (apply Nat.div_small; lia).
  rewrite (sha256_ref_split m 0 (eq_sym E)). simpl foldl. rewrite Nat.mul_0_r, drop_0.
  apply sha256_blocks_one. rewrite length_pad_tail by lia.
  by destruct (Nat.ltb_spec (length m) 56); [|lia].
Qed.

Lemma wntz_chain_length n pre j k tmp :
  length tmp = n → (n ≤ 32)%nat → length (wntz_chain n pre j k tmp) = n.
Proof.
  intros Ht Hn. destruct k; [done|]. cbn [wntz_chain].
  rewrite length_take. unfold sha256_bytes. rewrite length_bytes_be, sha256_ref_length. lia.
Qed.

Lemma wntz_chain_bytes n pre j k tmp : is_bytes tmp → is_bytes (wntz_chain n pre j k tmp).
Proof. intros. destruct k; [done|]. apply Forall_take, bytes_be_bytes. Qed.

Lemma wntz_chain_add n pre j k1 k2 tmp :
  wntz_chain n pre j (k1 + k2) tmp =
  wntz_chain n pre (j + Z.of_nat k1) k2 (wntz_chain n pre j k1 tmp).
Proof.
  induction k2 as [|k2 IH]; [by rewrite Nat.add_0_r|].
  rewrite Nat.add_succ_r. cbn [wntz_chain]. rewrite IH. do 4 f_equal. lia.
Qed.

(** Bytes that do not fill the staging buffer are only staged. *)
Lemma update_with_short dig (data : list Z) s :
  (length data < 64)%nat →
  update_with dig (mkOp Init (replicate 64 0) 0 0) data s =
    (Ok (mkOp Init (data ++ replicate (64 - length data) 0) (length data) (Z.of_nat (length data))), s).
Proof.
  intros Hl. unfold update_with. cbn [state data_size].
  rewrite bind_fail_if by done.
  rewrite bind_fail_if by (unfold SHA256_MAX_DATA_SIZE; lia).
  destruct (foldM_ok (update_byte dig)
    (λ don o s', o = mkOp Init (don ++ replicate (64 - length don) 0) (length don) (Z.of_nat (length don))
                 ∧ s' = s) data) with (b := mkOp Init (replicate 64 0) 0 0) (s := s)
    as (op' & s' & E & -> & ->); [|done|done].
  intros don a o s' [rest ->] [-> ->]. rewrite length_app in Hl. simpl in Hl.
  unfold update_byte. cbn [state buf buf_idx data_size].
  rewrite length_app, length_replicate.
  rewrite bind_fail_if by (apply Nat.leb_gt; lia).
  rewrite length_insert, length_app, length_replicate.
  assert ((S (length don) =? length don + (64 - length don))%nat = false) as ->
    by (apply Nat.eqb_neq; lia).
  eexists _, _. split; [reflexivity|]. split; [|done].
  replace (64 - length don)%nat with (S (63 - length don)) by lia. cbn [replicate].
  rewrite insert_at_end, length_app. simpl.
  replace (64 - (length don + 1))%nat with (63 - length don)%nat by lia.
  rewrite <- app_assoc. f_equal; lia.
Qed.

(** The state of the engine inside the Winternitz loop, after an iteration
    that hashed [pre || c || t]. *)
Definition wntz_inv (pre : list Z) (c : Z) (t : list Z) (n : nat) (st : list Z * HashSha256) : Prop :=
  let '(blk, s) := st in
  blk = pad_tail (pre ++ c :: t) n ∧ length (hash_mem s) = 32%nat ∧ op_complete_action s = true ∧
  ready s = false ∧ valid s = false ∧ ctrl_zeroize (control s) = false ∧
  sha256 s = mkCore (compress256 HASH_IV_256 blk) Sha256.

Lemma wntz_iter_ok pre c t n (nm : bool) coeff j st :
  length pre = 22%nat → length t = (if nm then 32 else 24)%nat → is_u8 j → j ≠ coeff →
  n = length (pre ++ c :: t) →
  wntz_inv pre c t n st →
  wntz_inv pre j (take (length t) (sha256_bytes (pre ++ c :: t))) n (wntz_iter Sha256 nm coeff st j).
Proof.
  intros Hp Ht Hj Hne Hn. destruct st as [blk s]. intros (-> & Hm & Hoc & Hr & Hv & Hz & Hs).
  unfold wntz_iter. rewrite (proj2 (Z.eqb_neq _ _) Hne), Hs.
  rewrite get_hash_sha256 by (try done; apply compress256_length).
  rewrite change_endianess_bytes_le, <- Ht. unfold sha256_bytes.
  rewrite sha256_ref_short, <- Hn by (rewrite length_app; simpl; destruct nm; lia).
  set (dg := bytes_be (compress256 HASH_IV_256 (pad_tail (pre ++ c :: t) n))).
  assert (Hdg : length (take (length t) dg) = length t).
  { rewrite length_take. unfold dg. rewrite length_bytes_be, compress256_length. destruct nm; lia. }
  assert (E : splice (<[WNTZ_ACCEL_COEFF_OFFSET := u8w j]> (pad_tail (pre ++ c :: t) n)) 23 (take (length t) dg)
              = pad_tail (pre ++ j :: take (length t) dg) n).
  { rewrite wrap_small by done. unfold WNTZ_ACCEL_COEFF_OFFSET, tail_of.
    rewrite <- !app_assoc. simpl. rewrite <- Hp at 1. rewrite insert_at_end.
    rewrite !length_app. simpl. rewrite Hdg.
    set (z := 0x80 :: _).
    replace (pre ++ j :: t ++ z) with ((pre ++ [j]) ++ t ++ z) by (by rewrite <- app_assoc).
    replace 23%nat with (length (pre ++ [j])) by (rewrite length_app, Hp; done).
    rewrite splice_app_mid by done. by rewrite <- app_assoc. }
  rewrite E. unfold wntz_inv. simpl. repeat split; try done.
  unfold update. simpl. by rewrite change_endianess_involutive.
Qed.

Lemma wntz_loop_ok pre coeff tmp (nm : bool) n st k :
  length pre = 22%nat → length tmp = (if nm then 32 else 24)%nat →
  is_u8 coeff → coeff + Z.of_nat k < 256 → n = length (pre ++ coeff :: tmp) →
  wntz_inv pre coeff tmp n st →
  wntz_inv pre (coeff + Z.of_nat k) (wntz_chain (length tmp) pre coeff k tmp) n
    (foldl (wntz_iter Sha256 nm coeff) st (seqZ (coeff + 1) (Z.of_nat k))).
Proof.
  intros Hp Ht Hc Hk Hn Hst. assert (length tmp ≤ 32)%nat by (destruct nm; lia).
  induction k as [|k IH].
  - simpl. by rewrite Z.add_0_r.
  - rewrite seqZ_S, foldl_app, Nat2Z.inj_succ. simpl foldl.
    replace (coeff + 1 + Z.of_nat k) with (coeff + Z.succ (Z.of_nat k)) by lia.
    specialize (IH ltac:(lia)). eapply wntz_iter_ok with (nm := nm) (coeff := coeff)
      (j := coeff + Z.succ (Z.of_nat k)) in IH; [|done| |ulia|lia|].
    + cbn [wntz_chain]. rewrite wntz_chain_length in IH by done. exact IH.
    + by rewrite wntz_chain_length.
    + rewrite Hn, !length_app. simpl. by rewrite wntz_chain_length.
Qed.

Definition wntz_ctrl (w_value : Z) (nm : bool) : Z :=
  Z.lor (b2z true 0) (Z.lor (b2z (negb true) 1) (Z.lor (b2z true 2) (Z.lor (b2z true 4)
    (Z.lor (Z.shiftl (Z.land w_value 15) 5) (b2z nm 9))))).

Lemma wntz_ctrl_fields w nm :
  w ∈ [1; 2; 4; 8] →
  ctrl_init (wntz_ctrl w nm) = true ∧ ctrl_mode (wntz_ctrl w nm) = Sha256 ∧
  ctrl_zeroize (wntz_ctrl w nm) = false ∧ ctrl_wntz_mode (wntz_ctrl w nm) = true ∧
  ctrl_wntz_w (wntz_ctrl w nm) = w ∧ ctrl_wntz_n_mode (wntz_ctrl w nm) = nm ∧
  u16w (Z.shiftl 1 w - 1) = 2 ^ w - 1.
Proof.
  rewrite !elem_of_cons, elem_of_nil. intros [->|[->|[->|[->|[]]]]]; by destruct nm.
Qed.

(** A Winternitz operation starting at coefficient [coeff] leaves in the
    engine the last hash of the chain. *)
Lemma digest_wntz_block_ok pre coeff tmp (nm : bool) w s :
  idle s → w ∈ [1; 2; 4; 8] → length pre = 22%nat → length tmp = (if nm then 32 else 24)%nat →
  is_bytes (pre ++ coeff :: tmp) → coeff < 2 ^ w - 1 →
  ∃ s' k, digest_wntz_block (pad_tail (pre ++ coeff :: tmp) (length (pre ++ coeff :: tmp))) true w nm s
            = (Ok tt, s') ∧
    Z.of_nat (S k) = 2 ^ w - 1 - coeff ∧
    holds s' (sha256_ref (pre ++ (coeff + Z.of_nat k) :: wntz_chain (length tmp) pre coeff k tmp)).
Proof.
  intros [Hr Hm] Hw Hp Ht Hb Hlt.
  set (m := pre ++ coeff :: tmp) in *. set (blk := pad_tail m (length m)).
  assert (Hml : (length m < 56)%nat) by (unfold m; rewrite length_app; simpl; destruct nm; lia).
  assert (Hbl : length blk = 64%nat).
  { unfold blk. rewrite length_pad_tail by lia. by destruct (Nat.ltb_spec (length m) 56); [|lia]. }
  assert (Hce : change_endianess (bytes_le (words_be blk)) = blk).
  { rewrite change_endianess_bytes_le. apply bytes_be_words_be; [by apply (tail_bytes 64 8)|].
    rewrite Hbl. by exists 16. }
  assert (Hco : nth WNTZ_ACCEL_COEFF_OFFSET blk 0 = coeff).
  { unfold blk, tail_of, m. rewrite <- app_assoc. rewrite app_nth2; rewrite Hp; [done|].
    unfold WNTZ_ACCEL_COEFF_OFFSET. lia. }
  assert (is_u8 coeff) as Hc8 by (unfold m in Hb; apply Forall_app in Hb as [_ Hb]; by inversion Hb).
  assert (2 ^ w ≤ 256).
  { revert Hw. rewrite !elem_of_cons, elem_of_nil. intros [->|[->|[->|[->|[]]]]]; lia. }
  destruct (wntz_ctrl_fields w nm Hw) as (F1 & F2 & F3 & F4 & F5 & F6 & F7).
  set (k := Z.to_nat (2 ^ w - 2 - coeff)).
  assert (Hk : 2 ^ w - 1 - coeff = Z.of_nat (S k)) by (unfold k, in_u in *; lia).
  unfold digest_wntz_block, digest_wntz_op, write_block.
  rewrite bind_modify.
  rewrite (bind_ok _ _ _ tt _) by (unfold wait_until; simpl; by rewrite Hr).
  rewrite bind_modify.
  match goal with |- ∃ s' k, wait_until valid (on_write_control ?s0 _) = _ ∧ _ => set (s1 := s0) end.
  change (Z.lor (b2z true 0) _) with (wntz_ctrl w nm).
  assert (Hinv : wntz_inv pre (coeff + Z.of_nat k) (wntz_chain (length tmp) pre coeff k tmp) (length m)
    (foldl (wntz_iter Sha256 nm coeff) (blk, set_control s1 (wntz_ctrl w nm))
       (seqZ coeff (2 ^ w - 1 - coeff)))).
  { rewrite Hk. replace (Z.of_nat (S k)) with (Z.succ (Z.of_nat k)) by lia.
    rewrite seqZ_cons by lia. replace (Z.pred (Z.succ (Z.of_nat k))) with (Z.of_nat k) by lia.
    cbn [foldl].
    replace (Z.succ coeff) with (coeff + 1) by lia.
    apply wntz_loop_ok; [done|done|done|unfold k, in_u in *; lia|done|].
    unfold wntz_iter at 1. rewrite Z.eqb_refl. unfold wntz_inv, start_op, set_control. simpl.
    repeat split; try done. unfold update. simpl. by rewrite Hce. }
  unfold on_write_control. unfold is_wntz_enabled.
  change (control (set_control s1 (wntz_ctrl w nm))) with (wntz_ctrl w nm).
  rewrite F1, F2, F4, F5, F6, bool_decide_true by done. cbn [andb].
  change (block (set_control s1 (wntz_ctrl w nm))) with (bytes_le (words_be blk)).
  rewrite Hce, Hco, F7.
  destruct (foldl _ _ _) as [blk' s2]. cbn [snd].
  destruct Hinv as (Hblk & Hm2 & Hoc & Hr2 & Hv2 & Hz2 & Hs2).
  rewrite Hz2. exists (poll s2), k. unfold wait_until. rewrite Hv2.
  unfold poll. rewrite Hoc. cbn [valid]. split; [done|]. split; [lia|].
  unfold holds, idle. cbn [ready hash_mem sha256]. rewrite Hs2. cbn [mode hash].
  rewrite get_hash_sha256 by (try done; apply compress256_length).
  rewrite length_bytes_le, compress256_length, Hblk.
  assert (Hl' : length (pre ++ (coeff + Z.of_nat k) :: wntz_chain (length tmp) pre coeff k tmp) = length m).
  { unfold m. rewrite !length_app. simpl. rewrite wntz_chain_length; [done|done|destruct nm; lia]. }
  rewrite sha256_ref_short by lia. by rewrite Hl'.
Qed.

Lemma wntz_op_ok pre coeff tmp (nm : bool) w s :
  idle s → w ∈ [1; 2; 4; 8] → length pre = 22%nat → length tmp = (if nm then 32 else 24)%nat →
  is_bytes (pre ++ coeff :: tmp) → coeff < 2 ^ w - 1 →
  ∃ d s', (op ← digest_init; op ← op_update_wntz op (pre ++ coeff :: tmp) w nm;
           op_finalize_wntz op w nm) s = (Ok d, s') ∧ idle s' ∧ length d = 8%nat ∧ is_words d ∧
    take (length tmp) (bytes_be d) =
      wntz_chain (length tmp) pre coeff (Z.to_nat (2 ^ w - 1 - coeff)) tmp.
Proof.
  intros Hi Hw Hp Ht Hb Hlt.
  destruct (digest_wntz_block_ok pre coeff tmp nm w s) as (s' & k & E & Hk & Hh); [done..|].
  set (m := pre ++ coeff :: tmp) in *.
  assert (Hml : (length m < 56)%nat) by (unfold m; rewrite length_app; simpl; destruct nm; lia).
  eexists _, s'. split; [|split; [by eapply holds_idle|split; [apply sha256_ref_length|
    split; [apply sha256_ref_words|]]]].
  - unfold digest_init, SHA256_BLOCK_BYTE_SIZE. rewrite bind_mret. unfold op_update_wntz.
    rewrite (bind_ok _ _ _ _ _ (update_with_short _ m s ltac:(lia))).
    unfold op_finalize_wntz, finalize_with. cbn [state buf buf_idx data_size].
    rewrite bind_fail_if by done.
    rewrite bind_fail_if
      by (apply Nat.ltb_ge; rewrite length_app, length_replicate; lia).
    rewrite take_app_length, Nat2Z.id.
    rewrite (bind_ok _ _ _ tt s'); [apply read_digest_holds; [apply sha256_ref_words|exact Hh]|].
    unfold digest_wntz_partial_block, partial_block, SHA256_BLOCK_BYTE_SIZE, SHA256_BLOCK_LEN_OFFSET.
    rewrite bind_fail_if by (apply Nat.ltb_ge; lia).
    rewrite (proj2 (Nat.ltb_lt _ _) Hml). change (set_block_len ?k ?b) with (with_len 64 8 k b).
    change (<[_ := 0x80]> _) with (marked 64 m). rewrite (short_tail 64 8) by (simpl; lia).
    change (is_first _) with true. rewrite (bind_ok _ _ _ _ _ E).
    by rewrite (proj2 (Nat.leb_gt _ _) Hml).
  - replace (Z.to_nat (2 ^ w - 1 - coeff)) with (S k) by lia. done.
Qed.

(** *** Raw blocks *)

Lemma write_block_digest_op ws (first : bool) s :
  is_words ws → (write_block ws;; digest_op first) s = digest_block (bytes_be ws) first s.
Proof. intros Hw. unfold digest_block. by rewrite words_be_bytes_be. Qed.

Definition raw_block (ws : list Z) : Prop := length ws = 16%nat ∧ is_words ws.

Lemma raw_blocks_ok blocks s :
  idle s → Forall raw_block blocks →
  ∃ s', foldM (λ (i : nat) (ws : list Z), write_block ws;; digest_op (i =? 0)%nat;; mret (S i)) 0%nat blocks s
        = (Ok (length blocks), s') ∧ idle s' ∧
    (blocks ≠ [] → holds s' (foldl compress256 HASH_IV_256 (map bytes_be blocks))).
Proof.
  intros Hi Hb.
  pose (I := λ (don : list (list Z)) (i : nat) s', i = length don ∧ idle s' ∧
    (don ≠ [] → holds s' (foldl compress256 HASH_IV_256 (map bytes_be don)))).
  destruct (foldM_ok (λ (i : nat) (ws : list Z), write_block ws;; digest_op (i =? 0)%nat;; mret (S i)) I blocks)
    with (b := 0%nat) (s := s) as (i & s' & E & -> & Hi' & Hh').
  - intros don ws i s1 [rest ->] (-> & Hi1 & Hh1).
    apply Forall_app in Hb as [_ Hb]. inversion Hb as [|? ? [Hl Hw]]; subst.
    destruct (digest_block_ok (bytes_be ws) (length don =? 0)%nat s1
      (foldl compress256 HASH_IV_256 (map bytes_be don))) as (s2 & E & H2).
    + done.
    + rewrite length_bytes_be. lia.
    + apply bytes_be_bytes.
    + destruct don; [done|]. by apply Hh1.
    + exists (S (length don)), s2. split.
      * rewrite <- write_block_digest_op in E by done. unfold mbind, M_bind in *.
        destruct (write_block ws s1) as [[] s3]; try done.
        destruct (digest_op _ s3) as [[] s4]; try done. by inversion E.
      * unfold I. rewrite length_app, map_app, foldl_app. simpl. split; [lia|].
        split; [by eapply holds_idle|done].
  - by split_and!.
  - eauto.
Qed.

Lemma chunks_concat (n : nat) (l : list (list Z)) :
  Forall (λ b, length b = n) l → chunks n (length l) (concat l) = l.
Proof.
  induction 1 as [|b l Hb Hl IH]; [done|]. cbn [length chunks concat].
  subst n. by rewrite take_app_length, drop_app_length, IH.
Qed.

Lemma length_concat_blocks (n : nat) (l : list (list Z)) :
  Forall (λ b, length b = n) l → length (concat l) = (n * length l)%nat.
Proof. induction 1 as [|b l Hb Hl IH]; simpl; [lia|]. rewrite length_app, IH, Hb. lia. Qed.

Lemma digest_blocks_raw_ok blocks s :
  idle s → Forall raw_block blocks →
  ∃ s', digest_blocks_raw blocks s = (Ok (sha256_ref (concat (map bytes_be blocks))), s') ∧ idle s'.
Proof.
  intros Hi Hb. set (bs := map bytes_be blocks).
  assert (Hbs : Forall (λ b, length b = 64%nat) bs).
  { apply Forall_map, (Forall_impl _ _ _ Hb). intros ws [Hl _]. simpl. rewrite length_bytes_be. lia. }
  assert (Hlen : length (concat bs) = (64 * length blocks)%nat).
  { rewrite (length_concat_blocks 64) by done. unfold bs. by rewrite length_map. }
  destruct (raw_blocks_ok blocks s Hi Hb) as (s1 & E1 & Hi1 & Hh1).
  unfold digest_blocks_raw. rewrite (bind_ok _ _ _ _ _ E1).
  destruct (digest_partial_block_ok [] (length blocks =? 0)%nat (length blocks * 64) s1
    (foldl compress256 HASH_IV_256 bs)) as (s2 & E2 & H2); [done|simpl; lia|constructor| |].
  { destruct blocks; [done|]. by apply Hh1. }
  rewrite (bind_ok _ _ _ _ _ E2). exists s2. split; [|by eapply holds_idle].
  rewrite (sha256_ref_split _ (length blocks)).
  - rewrite drop_ge by lia. rewrite Hlen, (Nat.mul_comm 64).
    assert (Hlb : length blocks = length bs) by (unfold bs; by rewrite length_map).
    rewrite Hlb at 1. rewrite chunks_concat by done. apply read_digest_holds; [|done].
    unfold sha256_blocks. auto using foldl_compress_words, HASH_IV_256_words.
  - rewrite Hlen, Nat.mul_comm, Nat.div_mul; lia.
Qed.

End Engine.
