(* ===== verification/Sha256Alg.v ===== *)
(** The interface between the LMS code and a SHA-256 implementation.

    [Sha256Alg] is the pair of traits [Sha256Alg]/[Sha256DigestOp] of
    drivers/src/sha256.rs; [Sha256AlgOk] is what the LMS code relies on. The
    hardware driver over the emulated engine is an instance of both. *)

From S2P Require Import Prelude Errors Sha256 Sha256Proofs.

Class Sha256Alg (S Op : Type) := {
  alg_digest_init : M S Op;
  alg_update : Op → list Z → M S Op;
  alg_update_wntz : Op → list Z → Z → bool → M S Op;
  alg_finalize : Op → M S (list Z);
  alg_finalize_wntz : Op → Z → bool → M S (list Z);
}.

Class Sha256AlgOk (S Op : Type) `{Sha2Compress} `{Sha256Alg S Op} := {
  alg_ready : S → Prop;
  alg_absorbed : Op → S → list Z → Prop;
  alg_digest_init_ok s :
    alg_ready s → ∃ op s', alg_digest_init s = (Ok op, s') ∧ alg_absorbed op s' [];
  alg_update_ok op s d x :
    alg_absorbed op s d → is_bytes x →
    Z.of_nat (length d) + Z.of_nat (length x) ≤ Driver.SHA256_MAX_DATA_SIZE →
    ∃ op' s', alg_update op x s = (Ok op', s') ∧ alg_absorbed op' s' (d ++ x);
  alg_finalize_ok op s d :
    alg_absorbed op s d → ∃ s', alg_finalize op s = (Ok (sha256_ref d), s') ∧ alg_ready s';
  alg_wntz_ok pre coeff tmp (nm : bool) w s :
    alg_ready s → w ∈ [1; 2; 4; 8] → length pre = 22%nat →
    length tmp = (if nm then 32 else 24)%nat → is_bytes (pre ++ coeff :: tmp) → coeff < 2 ^ w - 1 →
    ∃ d s', (op ← alg_digest_init; op ← alg_update_wntz op (pre ++ coeff :: tmp) w nm;
             alg_finalize_wntz op w nm) s = (Ok d, s') ∧ alg_ready s' ∧
      length d = 8%nat ∧ is_words d ∧
      take (length tmp) (bytes_be d) =
        wntz_chain (length tmp) pre coeff (Z.to_nat (2 ^ w - 1 - coeff)) tmp;
}.

#[export] Instance Sha256Hw `{Sha2Compress} : Sha256Alg Emu.HashSha256 Driver.Sha256DigestOpHw := {|
  alg_digest_init := Driver.digest_init;
  alg_update := Driver.op_update;
  alg_update_wntz := Driver.op_update_wntz;
  alg_finalize := Driver.op_finalize;
  alg_finalize_wntz := Driver.op_finalize_wntz;
|}.

#[export] Instance Sha256HwOk `{Sha2CompressOk} :
  Sha256AlgOk Emu.HashSha256 Driver.Sha256DigestOpHw.
Proof.
  refine {| alg_ready := idle; alg_absorbed := absorbed |}.
  - intros s Hs. destruct (digest_init_ok s Hs) as (op & ? & ?). eauto.
  - apply op_update_ok.
  - apply op_finalize_ok.
  - apply wntz_op_ok.
Defined.

Section Clients.
Context {Sh Op : Type} `{Sha2CompressOk, Halg : !Sha256Alg Sh Op, Hok : !Sha256AlgOk Sh Op}.

(** [digest_init], one [update] per element of [xs], [finalize]. *)
Definition hash_parts (xs : list (list Z)) : M Sh (list Z) :=
  op ← alg_digest_init; op ← foldM alg_update op xs; alg_finalize op.

Lemma foldM_update_ok op s d xs :
  alg_absorbed op s d → Forall (λ x, is_bytes x) xs →
  Z.of_nat (length d) + Z.of_nat (length (concat xs)) ≤ Driver.SHA256_MAX_DATA_SIZE →
  ∃ op' s', foldM alg_update op xs s = (Ok op', s') ∧ alg_absorbed op' s' (d ++ concat xs).
Proof.
  intros Ha Hx. revert op s d Ha. induction Hx as [|x xs Hb Hx IH]; intros op s d Ha Hl; simpl in *.
  - rewrite app_nil_r. eexists _, _. by split.
  - rewrite length_app in Hl. destruct (alg_update_ok op s d x) as (op1 & s1 & E1 & H1); [done..|lia|].
    destruct (IH op1 s1 (d ++ x)) as (op2 & s2 & E2 & H2); [done|rewrite length_app; lia|].
    exists op2, s2. rewrite (bind_ok _ _ _ _ _ E1), app_assoc. done.
Qed.

Lemma hash_parts_ok xs s :
  alg_ready s → Forall (λ x, is_bytes x) xs →
  Z.of_nat (length (concat xs)) ≤ Driver.SHA256_MAX_DATA_SIZE →
  ∃ s', hash_parts xs s = (Ok (sha256_ref (concat xs)), s') ∧ alg_ready s'.
Proof.
  intros Hs Hx Hl. unfold hash_parts.
  destruct (alg_digest_init_ok s Hs) as (op & s1 & E1 & H1).
  rewrite (bind_ok _ _ _ _ _ E1).
  destruct (foldM_update_ok op s1 [] xs H1 Hx) as (op2 & s2 & E2 & H2); [simpl; lia|].
  rewrite (bind_ok _ _ _ _ _ E2). by apply alg_finalize_ok.
Qed.
End Clients.
