(* ===== verification/Lms.v ===== *)
(** LMS signature verification (drivers/src/lms.rs, lms-types/src/lib.rs).

    The types of LMS keys and signatures, the LM-OTS parameter table,
    coefficients and checksum, the Winternitz chains, and the walk up the
    Merkle tree, over any SHA-256 implementation of the interface
    [Sha256Alg]. The const generics [N], [P], [H] of the Rust code are the
    arguments of the same name. *)

From S2P Require Import Prelude Errors Sha256 Sha256Alg.

(** ** Types (lms-types) *)

(** [LmsAlgorithmType] and [LmotsAlgorithmType] are 32-bit identifiers. *)
Definition LmsReserved : Z := 0.
Definition LmsSha256N32H5 : Z := 5.
Definition LmsSha256N32H10 : Z := 6.
Definition LmsSha256N32H15 : Z := 7.
Definition LmsSha256N32H20 : Z := 8.
Definition LmsSha256N32H25 : Z := 9.
Definition LmsSha256N24H5 : Z := 10.
Definition LmsSha256N24H10 : Z := 11.
Definition LmsSha256N24H15 : Z := 12.
Definition LmsSha256N24H20 : Z := 13.
Definition LmsSha256N24H25 : Z := 14.

Definition LmotsReserved : Z := 0.
Definition LmotsSha256N32W1 : Z := 1.
Definition LmotsSha256N32W2 : Z := 2.
Definition LmotsSha256N32W4 : Z := 3.
Definition LmotsSha256N32W8 : Z := 4.
Definition LmotsSha256N24W1 : Z := 5.
Definition LmotsSha256N24W2 : Z := 6.
Definition LmotsSha256N24W4 : Z := 7.
Definition LmotsSha256N24W8 : Z := 8.

(** Arrays [[U32<LittleEndian>; N]] are lists of the values of their words. *)
Record LmsPublicKey := mkLmsPublicKey {
  pk_tree_type : Z;
  pk_otstype : Z;
  pk_id : list Z;
  pk_digest : list Z;
}.

Record LmotsSignature := mkLmotsSignature {
  ots_type : Z;
  ots_nonce : list Z;
  ots_y : list (list Z);
}.

Record LmsSignature := mkLmsSignature {
  sig_q : Z;
  sig_ots : LmotsSignature;
  sig_tree_type : Z;
  sig_tree_path : list (list Z);
}.

(** ** Parameters *)

Definition D_PBLC : Z := 0x8080.
Definition D_MESG : Z := 0x8181.
Definition D_LEAF : Z := 0x8282.
Definition D_INTR : Z := 0x8383.

Inductive LmsResult := Success | SigVerifyFailed.

Record LmotsParameter := mkLmotsParameter {
  algorithm_name : Z;
  lp_n : Z;
  lp_w : Z;
  lp_p : Z;
  lp_ls : Z;
}.

Definition LMOTS_P : list LmotsParameter :=
  [ mkLmotsParameter LmotsReserved 0 0 0 0;
    mkLmotsParameter LmotsSha256N32W1 32 1 265 7;
    mkLmotsParameter LmotsSha256N32W2 32 2 133 6;
    mkLmotsParameter LmotsSha256N32W4 32 4 67 4;
    mkLmotsParameter LmotsSha256N32W8 32 8 34 0;
    mkLmotsParameter LmotsSha256N24W1 24 1 200 8;
    mkLmotsParameter LmotsSha256N24W2 24 2 101 6;
    mkLmotsParameter LmotsSha256N24W4 24 4 51 4;
    mkLmotsParameter LmotsSha256N24W8 24 8 26 0 ].

Definition get_lmots_parameters (algo_type : Z) : res LmotsParameter :=
  match List.find (λ i, algorithm_name i =? algo_type) LMOTS_P with
  | Some i => Ok i
  | None => Err DRIVER_LMS_INVALID_LMOTS_ALGO_TYPE
  end.

Definition get_lms_parameters (algo_type : Z) : res (Z * Z) :=
  if algo_type =? LmsSha256N32H5 then Ok (32, 5)
  else if algo_type =? LmsSha256N32H10 then Ok (32, 10)
  else if algo_type =? LmsSha256N32H15 then Ok (32, 15)
  else if algo_type =? LmsSha256N32H20 then Ok (32, 20)
  else if algo_type =? LmsSha256N32H25 then Ok (32, 25)
  else if algo_type =? LmsSha256N24H5 then Ok (24, 5)
  else if algo_type =? LmsSha256N24H10 then Ok (24, 10)
  else if algo_type =? LmsSha256N24H15 then Ok (24, 15)
  else if algo_type =? LmsSha256N24H20 then Ok (24, 20)
  else if algo_type =? LmsSha256N24H25 then Ok (24, 25)
  else Err DRIVER_LMS_INVALID_LMS_ALGO_TYPE.

Definition valid_w (w : Z) : bool := (w =? 1) || (w =? 2) || (w =? 4) || (w =? 8).

(** The body common to [Lms::coefficient] and to the generator's
    [coefficient]: the [i]-th [w]-bit digit of the byte string [s], [None]
    when the byte is out of range. *)
Definition coefficient_digit (s : list Z) (i w : Z) : option Z :=
  let bitmask := u16w (Z.shiftl 1 w - 1) in
  let index := i * w / 8 in
  match s !! Z.to_nat index with
  | None => None
  | Some b =>
      let shift := if w =? 0 then 8 else 8 - (w * (i mod (8 / w)) + w) in
      let rs := if shift <? 8 then Z.shiftr b shift else 0 in
      Some (Z.land (u8w bitmask) rs)
  end.

(** ** [impl Lms] *)

Module Lms.

Definition WNTZ_MODE_SHA256 : Z := 32.
Definition ITER_COUNTER_OFFSET : nat := 22.
Definition WNT_PREFIX_SIZE : nat := 55.
Definition TMP_OFFSET : nat := 23.

Definition coefficient (s : list Z) (i w : Z) : res Z :=
  err_if (negb (valid_w w)) DRIVER_LMS_INVALID_WINTERNITS_PARAM;;
  ok_or (coefficient_digit s i w) DRIVER_LMS_INVALID_INDEX.

Definition checksum (algo_type : Z) (input_string : list Z) : res Z :=
  params ← get_lmots_parameters algo_type;
  err_if (negb (valid_w (lp_w params))) DRIVER_LMS_INVALID_WINTERNITS_PARAM;;
  let upper_bound := u16w (lp_n params * (8 / lp_w params)) in
  let bitmask := u16w (Z.shiftl 1 (lp_w params) - 1) in
  sum ← foldR (λ sum i,
           c ← coefficient input_string i (lp_w params);
           Ok (u16w (sum + u16w (bitmask - c)))) 0 (seqZ 0 upper_bound);
  Ok (u16w (Z.shiftl sum (lp_ls params))).

(** [HashValue::<N>::from(Array4x8)] keeps the first [N] words, and
    [HashValue::from([U32<LittleEndian>; N])] swaps the bytes of every word. *)
Definition hash_value (N : nat) (d : list Z) : list Z := take N d.
Definition hash_value_le (ws : list Z) : list Z := map swap_bytes_u32 ws.

Section Verify.
Context {Sh Op : Type} `{Sha2Compress, !Sha256Alg Sh Op}.

Definition hash_message (N : nat) (message id q nonce : list Z) : M Sh (list Z) :=
  digest ← hash_parts [id; q; to_be 2 D_MESG; bytes_le nonce; message];
  mret (hash_value N digest).

(** Returns the hash and the prefix buffer, which the caller reuses. *)
Definition hash_chain (N : nat) (wnt_prefix : list Z) (coeff : Z) (params : LmotsParameter)
    (tmp : list Z) : M Sh (list Z * list Z) :=
  let iteration_count := u8w (u16w (Z.shiftl 1 (lp_w params) - 1)) in
  if coeff <? iteration_count then
    hasher ← alg_digest_init;
    let wnt_prefix := <[ITER_COUNTER_OFFSET := coeff]> wnt_prefix in
    let wnt_prefix := splice wnt_prefix TMP_OFFSET (bytes_be (take N tmp)) in
    let n_mode := lp_n params =? WNTZ_MODE_SHA256 in
    hasher ← alg_update_wntz hasher (slice wnt_prefix 0 (TMP_OFFSET + N * 4)) (lp_w params) n_mode;
    digest ← alg_finalize_wntz hasher (lp_w params) n_mode;
    mret (hash_value N digest, wnt_prefix)
  else mret (tmp, wnt_prefix).

(** One iteration of the loop over the [P] chains: the buffer and the chain
    ends computed so far. *)
Definition ots_chain_step (N : nat) (params : LmotsParameter) (y : list (list Z)) (mhc : list Z)
    (st : list Z * list (list Z)) (i : nat) : M Sh (list Z * list (list Z)) :=
  let '(hash_block, z) := st in
  a ← lift (coefficient mhc (Z.of_nat i) (lp_w params));
  y_i ← lift (unwrap (y !! i));
  let hash_block := splice hash_block 20 (to_be 2 (u16w (Z.of_nat i))) in
  '(val, hash_block) ← hash_chain N hash_block a params (hash_value_le y_i);
  mret (hash_block, z ++ [val]).

Definition candidate_ots_signature (N P : nat) (id : list Z) (algo_type : Z) (q : list Z)
    (y : list (list Z)) (message_digest : list Z) : M Sh (list Z) :=
  params ← lift (get_lmots_parameters algo_type);
  fail_if (negb (lp_p params =? Z.of_nat P)) DRIVER_LMS_INVALID_PVALUE;;
  fail_if (lp_n params >? 32) DRIVER_LMS_INVALID_HASH_WIDTH;;
  fail_if (negb (lp_n params =? Z.of_nat (N * 4))) DRIVER_LMS_INVALID_HASH_WIDTH;;
  let mhc := splice (replicate 34 0) 0 (bytes_be message_digest) in
  checksum_q ← lift (checksum algo_type mhc);
  let mhc := splice mhc (N * 4) (to_be 2 checksum_q) in
  let hash_block := splice (splice (replicate 55 0) 0 id) 16 q in
  '(_, z) ← foldM (ots_chain_step N params y mhc) (hash_block, []) (seq 0 P);
  digest ← hash_parts ([id; q; to_be 2 D_PBLC] ++ map (to_be 4) (concat z));
  mret (hash_value N digest).

(** One level of the walk up the tree. *)
Definition tree_step (N : nat) (id : list Z) (tree_path : list (list Z))
    (node_num : Z) (i : nat) (temp : list Z) : M Sh (list Z) :=
  hasher ← alg_digest_init;
  hasher ← alg_update hasher id;
  hasher ← alg_update hasher (to_be 4 (node_num / 2));
  hasher ← alg_update hasher (to_be 2 D_INTR);
  hasher ← (if node_num mod 2 =? 1 then
              path ← lift (ok_or (tree_path !! i) DRIVER_LMS_PATH_OUT_OF_BOUNDS);
              alg_update hasher (bytes_le path)
            else mret hasher);
  hasher ← foldM alg_update hasher (map (to_be 4) temp);
  hasher ← (if node_num mod 2 =? 0 then
              path ← lift (ok_or (tree_path !! i) DRIVER_LMS_PATH_OUT_OF_BOUNDS);
              alg_update hasher (bytes_le path)
            else mret hasher);
  digest ← alg_finalize hasher;
  mret (hash_value N digest).

(** [while node_num > 1]: a 32-bit node number reaches 1 after at most 31
    halvings. *)
Fixpoint tree_walk (fuel : nat) (N : nat) (id : list Z) (tree_path : list (list Z))
    (node_num : Z) (i : nat) (temp : list Z) : M Sh (list Z) :=
  if node_num >? 1 then
    match fuel with
    | O => stop Diverge
    | S fuel' =>
        temp ← tree_step N id tree_path node_num i temp;
        tree_walk fuel' N id tree_path (node_num / 2) (S i) temp
    end
  else mret temp.

Definition verify_lms_signature_cfi_generic (N P H : nat) (input_string : list Z)
    (lms_public_key : LmsPublicKey) (lms_sig : LmsSignature) : M Sh (list Z) :=
  fail_if (negb (ots_type (sig_ots lms_sig) =? pk_otstype lms_public_key))
    DRIVER_LMS_SIGNATURE_LMOTS_DOESNT_MATCH_PUBKEY_LMOTS;;
  let q_str := to_be 4 (sig_q lms_sig) in
  '(_, tree_height) ← lift (get_lms_parameters (sig_tree_type lms_sig));
  fail_if (negb (tree_height =? Z.of_nat H)) DRIVER_LMS_INVALID_TREE_HEIGHT;;
  fail_if (sig_q lms_sig >=? Z.shiftl 1 (Z.of_nat H)) DRIVER_LMS_INVALID_Q_VALUE;;
  let node_num := u32w (Z.shiftl 1 tree_height + sig_q lms_sig) in
  fail_if (node_num >=? Z.shiftl 2 tree_height) DRIVER_LMS_INVALID_Q_VALUE;;
  message_digest ← hash_message N input_string (pk_id lms_public_key) q_str
                     (ots_nonce (sig_ots lms_sig));
  candidate_key ← candidate_ots_signature N P (pk_id lms_public_key)
                    (ots_type (sig_ots lms_sig)) q_str (ots_y (sig_ots lms_sig)) message_digest;
  fail_if (negb (bool_decide (tree_height ∈ [5; 10; 15; 20; 25]))) DRIVER_LMS_INVALID_TREE_HEIGHT;;
  digest ← hash_parts ([pk_id lms_public_key; to_be 4 node_num; to_be 2 D_LEAF]
                       ++ map (to_be 4) candidate_key);
  tree_walk 32 N (pk_id lms_public_key) (sig_tree_path lms_sig) node_num 0 (hash_value N digest).

Definition verify_lms_signature_generic (N P H : nat) (input_string : list Z)
    (lms_public_key : LmsPublicKey) (lms_sig : LmsSignature) : M Sh LmsResult :=
  candidate_key ← verify_lms_signature_cfi_generic N P H input_string lms_public_key lms_sig;
  mret (if bool_decide (candidate_key = hash_value_le (pk_digest lms_public_key))
        then Success else SigVerifyFailed).

(** The instances that production firmware calls: SHA-256/192, [w = 4],
    height 15. *)
Definition verify_lms_signature_cfi := verify_lms_signature_cfi_generic 6 51 15.
Definition verify_lms_signature := verify_lms_signature_generic 6 51 15.

End Verify.
End Lms.
