(* ===== verification/LmsGen.v ===== *)
(** LMS key generation and signing (image/crypto/src/lib.rs).

    The host tool that builds firmware images derives one-time keys from a
    seed, computes the root of the Merkle tree with a stack, and collects the
    authentication path while it does so. Byte vectors that the code indexes
    in groups of 24 bytes are lists of such groups. *)

From S2P Require Import Prelude Errors Sha256 Sha256Alg Lms.

Definition SHA192_DIGEST_BYTE_SIZE : nat := 24.
Definition LMS_TREE_GEN_SUPPORTED_FULL_HEIGHT : Z := 10.
Definition SUPPORTED_LMS_Q_VALUE : Z := 5.

Definition IMAGE_LMS_TREE_TYPE : Z := LmsSha256N24H15.
Definition IMAGE_LMS_OTS_TYPE : Z := LmotsSha256N24W4.
Definition IMAGE_LMS_TREE_TYPE_HT_5 : Z := LmsSha256N24H5.
Definition IMAGE_LMS_OTS_TYPE_8 : Z := LmotsSha256N24W8.

(** The [anyhow] errors of this file. *)
Inductive lms_gen_error :=
  | ErrorInvalidCoeffIndex
  | ErrorLookingUpLmsTreeType
  | ErrorLookingUpLmsOtsType
  | ErrorParsingLmsParameters
  | InvalidQ.
Abbreviation hres := (result lms_gen_error).

(** [trait Sha256Hasher]; its implementations call OpenSSL or RustCrypto. *)
Class Sha256Hasher (T : Type) := {
  hasher_new : T;
  hasher_update : T → list Z → T;
  hasher_finish : T → list Z;
}.

(** What its documentation promises: the SHA-256 of the chunks in order. *)
Class Sha256HasherOk (T : Type) `{Sha2Compress} `{Sha256Hasher T} := {
  hasher_ok (xs : list (list Z)) :
    hasher_finish (foldl hasher_update hasher_new xs) = sha256_bytes (concat xs);
}.

(** [LmsPrivateKey]. *)
Record LmsPrivateKey := mkLmsPrivateKey {
  sk_tree_type : Z;
  sk_otstype : Z;
  sk_id : list Z;
  sk_seed : list Z;
}.

Module Gen.
Section Gen.
Context (T : Type) `{Sha256Hasher T}.

(** [T::new()], [update] with each chunk, [finish()[..24]]. *)
Definition hash192 (xs : list (list Z)) : list Z :=
  take SHA192_DIGEST_BYTE_SIZE (hasher_finish (foldl hasher_update hasher_new xs)).

Definition gen_x (id : list Z) (q : Z) (p : nat) (seed : list Z) : list (list Z) :=
  map (λ i : nat, hash192 [id; to_be 4 q; to_be 2 (u16w (Z.of_nat i)); [0xff]; seed]) (seq 0 p).

(** [for j in 0..n]: a Winternitz chain from its start. *)
Definition chain_from_start (id : list Z) (q : Z) (i : nat) (n : Z) (tmp : list Z) : list Z :=
  foldl (λ tmp j, hash192 [id; to_be 4 q; to_be 2 (u16w (Z.of_nat i)); [j]; tmp]) tmp (seqZ 0 n).

Definition gen_k (id : list Z) (q : Z) (p : nat) (w : Z) (x : list (list Z)) : list Z :=
  let chain_len := u8w (u16w (Z.shiftl 1 w - 1)) in
  let y := map (λ i : nat, chain_from_start id q i chain_len (nth i x [])) (seq 0 p) in
  hash192 [id; to_be 4 q; to_be 2 D_PBLC; concat y].

Definition generate_lmots_pubkey_helper (id : list Z) (q : Z) (p : nat) (w : Z) (seed : list Z)
    : list Z :=
  gen_k id q p w (gen_x id q p seed).

Definition coefficient (s : list Z) (i w : Z) : hres Z :=
  ok_or (coefficient_digit s i w) ErrorInvalidCoeffIndex.

(** [Result::unwrap]. *)
Definition expect {E A} (r : result E A) : result E A :=
  match r with Ok a => Ok a | _ => Abort Panic end.

(** *** The tree *)

Definition ots_params (ots_alg : Z) : nat * Z :=
  if ots_alg =? IMAGE_LMS_OTS_TYPE_8 then (26%nat, 8) else (51%nat, 4).

(** The local variables of [generate_lms_pubkey_helper]. *)
Record tree_state := mkTreeState {
  ts_target_node : Z;
  ts_k : list Z;
  ts_level : nat;
  ts_pub_key_stack : list (list Z);
  ts_stack_idx : nat;
  ts_sig : option (list (list Z));
}.

Definition stack_top (st : list (list Z)) (st_index : nat) : hres (list Z) := unwrap (st !! st_index).

(** Store a sibling in the signature path, when there is a signature, and
    move the target to the next level. *)
Definition fill_path (s : tree_state) (node : list Z) : hres tree_state :=
  let target := Z.lxor (Z.shiftr (ts_target_node s) 1) 1 in
  match ts_sig s with
  | Some path =>
      if (ts_level s <? length path)%nat then
        Ok (mkTreeState target (ts_k s) (S (ts_level s)) (ts_pub_key_stack s) (ts_stack_idx s)
              (Some (<[ts_level s := words_le node]> path)))
      else Abort Panic
  | None => Ok (mkTreeState target (ts_k s) (ts_level s) (ts_pub_key_stack s) (ts_stack_idx s) None)
  end.

Definition set_k (s : tree_state) (k : list Z) : tree_state :=
  mkTreeState (ts_target_node s) k (ts_level s) (ts_pub_key_stack s) (ts_stack_idx s) (ts_sig s).
Definition set_idx (s : tree_state) (i : nat) : tree_state :=
  mkTreeState (ts_target_node s) (ts_k s) (ts_level s) (ts_pub_key_stack s) i (ts_sig s).

(** [while j % 2 == 1]: [fuel] bounds the number of levels; [j] is below
    [2 ^ 32]. *)
Fixpoint merge_loop (fuel : nat) (id : list Z) (r j cur_node : Z) (s : tree_state) : hres tree_state :=
  if j mod 2 =? 1 then
    match fuel with
    | O => Abort Diverge
    | S fuel' =>
        let r := Z.shiftr r 1 in
        let j := Z.shiftr j 1 in
        err_if_panic (ts_stack_idx s =? 0)%nat;;
        let s := set_idx s (ts_stack_idx s - 1) in
        s ← (if cur_node =? u32w (ts_target_node s + 1) then
               left ← stack_top (ts_pub_key_stack s) (ts_stack_idx s); fill_path s left
             else Ok s);
        s ← (if cur_node =? ts_target_node s then fill_path s (ts_k s) else Ok s);
        left ← stack_top (ts_pub_key_stack s) (ts_stack_idx s);
        let k := hash192 [id; to_be 4 r; to_be 2 D_INTR; left; ts_k s] in
        merge_loop fuel' id r j (Z.shiftr cur_node 1) (set_k s k)
    end
  else Ok s.

(** [push K onto the data stack]. *)
Definition push_k (s : tree_state) : hres tree_state :=
  if (ts_stack_idx s <? length (ts_pub_key_stack s))%nat then
    Ok (mkTreeState (ts_target_node s) (ts_k s) (ts_level s)
          (<[ts_stack_idx s := ts_k s]> (ts_pub_key_stack s)) (S (ts_stack_idx s)) (ts_sig s))
  else Abort Panic.

(** The one-time public key of leaf [i], or zeros for the leaves of a tall
    tree that are not supported. *)
Definition leaf_key (id : list Z) (p : nat) (w tree_height : Z) (seed : list Z) (i : Z) : list Z :=
  if (tree_height <=? LMS_TREE_GEN_SUPPORTED_FULL_HEIGHT) || (i =? SUPPORTED_LMS_Q_VALUE)
  then generate_lmots_pubkey_helper id i p w seed
  else replicate SHA192_DIGEST_BYTE_SIZE 0.

(** The body of [for i in 0..max_idx]. *)
Definition leaf_step (id : list Z) (p : nat) (w tree_height : Z) (seed : list Z)
    (s : tree_state) (i : Z) : hres tree_state :=
  let k := leaf_key id p w tree_height seed i in
  let r := i + Z.shiftl 1 tree_height in
  let k := hash192 [id; to_be 4 r; to_be 2 D_LEAF; k] in
  s ← merge_loop 32 id r i (Z.shiftl 1 tree_height + i) (set_k s k);
  push_k s.

(** [q] is given when a signature is asked for, and then [path] is the
    [tree_path] of that signature; without [q], the root is asked for. *)
Definition generate_lms_pubkey_helper (id : list Z) (ots_alg tree_height : Z) (seed : list Z)
    (q : option Z) (path : option (list (list Z))) : hres (list Z * option (list (list Z))) :=
  let target_node :=
    match q with
    | None => 1
    | Some q => Z.lxor (u32w (Z.shiftl 1 tree_height + q)) 1
    end in
  let '(p, w) := ots_params ots_alg in
  let s := mkTreeState target_node (replicate SHA192_DIGEST_BYTE_SIZE 0) 0
             (replicate (Z.to_nat tree_height) (replicate SHA192_DIGEST_BYTE_SIZE 0)) 0 path in
  s ← foldR (leaf_step id p w tree_height seed) s (seqZ 0 (Z.shiftl 1 tree_height));
  match q with
  | None =>
      err_if_panic (ts_stack_idx s =? 0)%nat;;
      root ← stack_top (ts_pub_key_stack s) (ts_stack_idx s - 1);
      Ok (words_le root, ts_sig s)
  | Some _ => Ok ([], ts_sig s)
  end.

(** *** The one-time signature *)

Definition ots_sig_params (ots_alg : Z) : nat * Z * Z :=
  if ots_alg =? LmotsSha256N24W8 then (26%nat, 8, 0) else (51%nat, 4, 4).

(** The [i]-th coefficient of the message hash followed by the checksum. *)
Definition ots_coefficient (q_arr checksum_str : list Z) (data_coeff width i : Z) : hres Z :=
  if i <? data_coeff then expect (coefficient q_arr i width)
  else expect (coefficient checksum_str (i - data_coeff) width).

Definition generate_ots_signature_helper (message : list Z) (ots_alg : Z) (id seed rand : list Z) (q : Z)
    : hres LmotsSignature :=
  let '(alg_p, width, ls) := ots_sig_params ots_alg in
  err_if_panic (negb (length rand =? SHA192_DIGEST_BYTE_SIZE))%nat;;
  let q_arr := hash192 [id; to_be 4 q; to_be 2 D_MESG; rand; message] in
  let data_coeff := (Z.of_nat SHA192_DIGEST_BYTE_SIZE * 8) / width in
  let alg_chksum_max := u16w (Z.shiftl 1 width - 1) in
  checksum ← foldR (λ checksum i,
               c ← expect (coefficient q_arr i width);
               Ok (u16w (checksum + u16w (alg_chksum_max - c)))) 0 (seqZ 0 data_coeff);
  let checksum := u16w (Z.shiftl checksum ls) in
  let checksum_str := to_be 2 checksum in
  let x := gen_x id q alg_p seed in
  y ← foldR (λ y (i : nat),
        a ← ots_coefficient q_arr checksum_str data_coeff width (Z.of_nat i);
        Ok (<[i := words_le (chain_from_start id q i a (nth i x []))]> y))
      (replicate 51 (replicate 6 0)) (seq 0 alg_p);
  Ok (mkLmotsSignature ots_alg (words_le rand) y).

(** *** Entry points *)

Definition lms_height (tree_type : Z) : hres Z :=
  if tree_type =? IMAGE_LMS_TREE_TYPE then Ok 15
  else if tree_type =? IMAGE_LMS_TREE_TYPE_HT_5 then Ok 5
  else Err ErrorLookingUpLmsTreeType.

Definition check_otstype (otstype : Z) : hres unit :=
  if (otstype =? IMAGE_LMS_OTS_TYPE) || (otstype =? IMAGE_LMS_OTS_TYPE_8) then Ok tt
  else Err ErrorLookingUpLmsOtsType.

Definition generate_lms_pubkey (priv_key : LmsPrivateKey) : hres LmsPublicKey :=
  height ← lms_height (sk_tree_type priv_key);
  check_otstype (sk_otstype priv_key);;
  '(digest, _) ← generate_lms_pubkey_helper (sk_id priv_key) (sk_otstype priv_key) height
                   (bytes_le (sk_seed priv_key)) None None;
  Ok (mkLmsPublicKey (sk_tree_type priv_key) (sk_otstype priv_key) (sk_id priv_key) digest).

Definition sign_with_lms_key (priv_key : LmsPrivateKey) (message nonce : list Z) (q : Z)
    : hres LmsSignature :=
  height ← lms_height (sk_tree_type priv_key);
  check_otstype (sk_otstype priv_key);;
  err_if (q >=? Z.shiftl 1 height) InvalidQ;;
  ots_sig ← generate_ots_signature_helper message (sk_otstype priv_key) (sk_id priv_key)
              (bytes_le (sk_seed priv_key)) nonce q;
  '(_, path) ← generate_lms_pubkey_helper (sk_id priv_key) (sk_otstype priv_key) height
                 (bytes_le (sk_seed priv_key)) (Some q) (Some (replicate 15 (replicate 6 0)));
  tree_path ← unwrap path;
  Ok (mkLmsSignature q ots_sig (sk_tree_type priv_key) tree_path).

End Gen.
End Gen.
