(* ===== verification/LmsSpec.v ===== *)
(** RFC 8554 as a reference: what LMS verification computes.

    Definitions on byte strings that follow the pseudocode of the RFC, used as
    the specification of both drivers/src/lms.rs and image/crypto/src/lib.rs. *)

From S2P Require Import Prelude Errors Sha256 Sha256Proofs Sha256Alg Lms.

Section Rfc.
Context `{Sha2Compress}.

(** The hash truncated to [n] bytes. *)
Definition H_n (n : nat) (m : list Z) : list Z := take n (sha256_bytes m).

(** Section 3.1.3: the [i]-th [w]-bit element of [s]. *)
Definition coef (s : list Z) (i w : Z) : Z :=
  Z.land (2 ^ w - 1) (Z.shiftr (nth (Z.to_nat (i * w / 8)) s 0) (8 - (w * (i mod (8 / w)) + w))).

(** Section 4.4: the checksum of an [n]-byte string. *)
Definition cksm (n : nat) (w ls : Z) (s : list Z) : Z :=
  Z.shiftl (foldl (λ sum i, sum + (2 ^ w - 1 - coef s i w)) 0 (seqZ 0 (Z.of_nat n * (8 / w)))) ls.

(** Section 4.5/4.6: [Q || Cksm(Q)], the prefix of a chain, the candidate
    one-time public key [Kc] for the chain starts [y]. *)
Definition ots_digits (n : nat) (w ls : Z) (Q : list Z) : list Z := Q ++ to_be 2 (cksm n w ls Q).

Definition ots_pre (id : list Z) (q : Z) (i : nat) : list Z :=
  id ++ to_be 4 q ++ to_be 2 (Z.of_nat i).

Definition ots_chain_end (n : nat) (w ls : Z) (id : list Z) (q : Z) (Q : list Z) (i : nat) (y : list Z)
    : list Z :=
  let a := coef (ots_digits n w ls Q) (Z.of_nat i) w in
  wntz_chain n (ots_pre id q i) a (Z.to_nat (2 ^ w - 1 - a)) y.

Definition ots_Kc (n : nat) (w ls : Z) (id : list Z) (q : Z) (Q : list Z) (y : list (list Z)) : list Z :=
  H_n n (id ++ to_be 4 q ++ to_be 2 D_PBLC ++ concat (imap (ots_chain_end n w ls id q Q) y)).

(** Section 5.4.2: the walk from node [node] with value [tmp]. *)
Fixpoint tree_root (n : nat) (id : list Z) (node : Z) (tmp : list Z) (path : list (list Z)) : list Z :=
  match path with
  | [] => tmp
  | s :: path' =>
      tree_root n id (node / 2)
        (H_n n (id ++ to_be 4 (node / 2) ++ to_be 2 D_INTR
                ++ (if node mod 2 =? 1 then s ++ tmp else tmp ++ s))) path'
  end.

(** The candidate root [Tc] for a message and a signature; [n], [w] and [ls]
    are the LM-OTS parameters and [h] the height of the tree. *)
Definition lms_Tc (n : nat) (w ls h : Z) (id message : list Z) (sg : LmsSignature) : list Z :=
  let q := sig_q sg in
  let Q := H_n n (id ++ to_be 4 q ++ to_be 2 D_MESG ++ bytes_le (ots_nonce (sig_ots sg)) ++ message) in
  let Kc := ots_Kc n w ls id q Q (map bytes_le (ots_y (sig_ots sg))) in
  let node := 2 ^ h + q in
  tree_root n id node (H_n n (id ++ to_be 4 node ++ to_be 2 D_LEAF ++ Kc))
    (map bytes_le (sig_tree_path sg)).

End Rfc.

(** ** Digits and checksum *)

Lemma valid_w_elem w : valid_w w = true → w ∈ [1; 2; 4; 8].
Proof.
  unfold valid_w. intros Hw. rewrite !elem_of_cons.
  destruct (Z.eqb_spec w 1), (Z.eqb_spec w 2), (Z.eqb_spec w 4), (Z.eqb_spec w 8); auto; done.
Qed.

(** Case analysis on a valid Winternitz parameter. *)
Ltac case_w H :=
  rewrite ?elem_of_cons, elem_of_nil in H; destruct H as [->|[->|[->|[->|[]]]]];
  change (8 / 1) with 8 in *; change (8 / 2) with 4 in *;
  change (8 / 4) with 2 in *; change (8 / 8) with 1 in *.

Lemma coef_range s i w : w ∈ [1; 2; 4; 8] → 0 ≤ coef s i w ≤ 2 ^ w - 1.
Proof.
  intros Hw. unfold coef. set (x := Z.shiftr _ _).
  assert (0 ≤ w ∧ 0 < 2 ^ w) as [H0 H2] by (case_w Hw; done).
  assert (E : Z.land (2 ^ w - 1) x = x mod 2 ^ w).
  { rewrite <- Z.land_ones, Z.land_comm, Z.ones_equiv by done. done. }
  rewrite E. pose proof (Z.mod_pos_bound x _ H2). lia.
Qed.

Lemma digit_shift i w : w ∈ [1; 2; 4; 8] → 0 ≤ i → 0 ≤ 8 - (w * (i mod (8 / w)) + w) < 8.
Proof.
  intros Hw Hi. case_w Hw; dlia.
Qed.

(** The driver's digit extraction is the one of the RFC. *)
Lemma coefficient_digit_coef s i w :
  w ∈ [1; 2; 4; 8] → 0 ≤ i → i * w / 8 < Z.of_nat (length s) →
  coefficient_digit s i w = Some (coef s i w).
Proof.
  intros Hw Hi Hl. unfold coefficient_digit, coef.
  assert (0 ≤ i * w / 8) by (apply Z.div_pos; [case_w Hw; lia|lia]).
  destruct (lookup_lt_is_Some_2 s (Z.to_nat (i * w / 8))) as [b Hb]; [lia|].
  rewrite Hb, (nth_lookup_Some _ _ _ _ Hb).
  pose proof (digit_shift i w Hw Hi) as [_ Hs].
  assert ((w =? 0) = false) as -> by (case_w Hw; done).
  rewrite (proj2 (Z.ltb_lt _ _) Hs). do 2 f_equal. case_w Hw; done.
Qed.

Lemma coefficient_digit_out s i w :
  0 ≤ i → 0 ≤ w → Z.of_nat (length s) ≤ i * w / 8 → coefficient_digit s i w = None.
Proof.
  intros Hi Hw Hl. unfold coefficient_digit. rewrite lookup_ge_None_2; [done|]. lia.
Qed.

(** A digit of a concatenation whose first part has a whole number of bytes. *)
Lemma coef_app_l s t i w :
  w ∈ [1; 2; 4; 8] → 0 ≤ i → i * w / 8 < Z.of_nat (length s) → coef (s ++ t) i w = coef s i w.
Proof.
  intros Hw Hi Hl. unfold coef.
  assert (0 ≤ i * w / 8) by (apply Z.div_pos; [case_w Hw; lia|lia]).
  rewrite app_nth1 by lia. done.
Qed.

Lemma coef_app_r s t i w :
  w ∈ [1; 2; 4; 8] → Z.of_nat (length s) * (8 / w) ≤ i →
  coef (s ++ t) i w = coef t (i - Z.of_nat (length s) * (8 / w)) w.
Proof.
  intros Hw Hl. unfold coef. set (L := Z.of_nat (length s)) in *.
  assert (E1 : (i - L * (8 / w)) * w / 8 = i * w / 8 - L).
  { replace ((i - L * (8 / w)) * w) with (i * w + (- L) * 8); [by rewrite Z.div_add by done|].
    case_w Hw; lia. }
  assert (E2 : (i - L * (8 / w)) mod (8 / w) = i mod (8 / w)).
  { assert (8 / w ≠ 0) by (case_w Hw; done).
    by rewrite Zminus_mod, Z.mod_mul, Z.sub_0_r, Z.mod_mod by done. }
  assert (L ≤ i * w / 8).
  { apply Z.div_le_lower_bound; [lia|]. case_w Hw; lia. }
  rewrite E1, E2, app_nth2 by lia. do 2 f_equal. f_equal. unfold L. lia.
Qed.

Lemma foldl_sum_bound (f : Z → Z) c l a :
  (∀ i, i ∈ l → 0 ≤ f i ≤ c) → a ≤ foldl (λ s i, s + f i) a l ≤ a + c * Z.of_nat (length l).
Proof.
  revert a. induction l as [|i l IH]; intros a Hf; simpl; [lia|].
  assert (0 ≤ f i ≤ c) by (apply Hf, elem_of_cons; auto).
  assert (Hl : ∀ j, j ∈ l → 0 ≤ f j ≤ c) by (intros; apply Hf, elem_of_cons; auto).
  specialize (IH (a + f i) Hl). lia.
Qed.

(** A sum accumulated in a [w]-bit register is the exact sum, wrapped. *)
Lemma foldl_wrap_sum w (f : Z → Z) l a :
  0 ≤ w → foldl (λ s i, wrap w (s + wrap w (f i))) (wrap w a) l = wrap w (foldl (λ s i, s + f i) a l).
Proof.
  intros Hw. assert (2 ^ w ≠ 0) by (pose proof (Z.pow_pos_nonneg 2 w); lia).
  revert a. induction l as [|i l IH]; intros a; simpl; [done|].
  rewrite <- IH. f_equal. unfold wrap. by rewrite <- Z.add_mod.
Qed.

(** The sum of the complemented digits, before the shift. *)
Lemma cksm_sum_bound n w s :
  w ∈ [1; 2; 4; 8] →
  0 ≤ foldl (λ sum i, sum + (2 ^ w - 1 - coef s i w)) 0 (seqZ 0 (Z.of_nat n * (8 / w)))
    ≤ (2 ^ w - 1) * (Z.of_nat n * (8 / w)).
Proof.
  intros Hw.
  pose proof (foldl_sum_bound (λ i, 2 ^ w - 1 - coef s i w) (2 ^ w - 1)
    (seqZ 0 (Z.of_nat n * (8 / w))) 0) as Hb.
  rewrite length_seqZ in Hb.
  assert (0 ≤ Z.of_nat n * (8 / w)) by (case_w Hw; lia).
  rewrite Z2Nat.id, Z.add_0_l in Hb by lia. apply Hb.
  intros i _. pose proof (coef_range s i w Hw). lia.
Qed.

(** The loop that both implementations use for the checksum: a 16-bit sum and
    a 16-bit shift. It computes [cksm] when that fits 16 bits. *)
Lemma checksum_loop n w ls s :
  w ∈ [1; 2; 4; 8] → 0 ≤ ls → (2 ^ w - 1) * (Z.of_nat n * (8 / w)) * 2 ^ ls < 2 ^ 16 →
  u16w (Z.shiftl (foldl (λ sum i, u16w (sum + u16w (2 ^ w - 1 - coef s i w))) 0
                    (seqZ 0 (Z.of_nat n * (8 / w)))) ls) = cksm n w ls s.
Proof.
  intros Hw Hls Hb. unfold cksm.
  pose proof (foldl_wrap_sum 16 (λ i, 2 ^ w - 1 - coef s i w) (seqZ 0 (Z.of_nat n * (8 / w))) 0
    ltac:(lia)) as E.
  change (u16w 0) with 0 in E. cbv beta in E. rewrite E. clear E.
  pose proof (cksm_sum_bound n w s Hw) as Hc. set (sum := foldl _ _ _) in *.
  assert (0 < 2 ^ ls) by (apply Z.pow_pos_nonneg; lia).
  rewrite (wrap_small 16 sum) by (unfold in_u; nia).
  rewrite Z.shiftl_mul_pow2 by done. apply wrap_small. unfold in_u. nia.
Qed.

Lemma foldl_ext_in {A B} (f g : A → B → A) l a :
  (∀ x y, y ∈ l → f x y = g x y) → foldl f a l = foldl g a l.
Proof.
  revert a. induction l as [|y l IH]; intros a Hfg; [done|]. simpl.
  rewrite Hfg by (apply elem_of_cons; auto). apply IH. intros. apply Hfg, elem_of_cons. auto.
Qed.

(** The checksum reads only the first [n] bytes. *)
Lemma cksm_app n w ls s t :
  w ∈ [1; 2; 4; 8] → (n ≤ length s)%nat → cksm n w ls (s ++ t) = cksm n w ls s.
Proof.
  intros Hw Hn. unfold cksm. f_equal. apply foldl_ext_in. intros x i Hi.
  apply elem_of_seqZ in Hi. rewrite coef_app_l; [done..|lia|]. case_w Hw; dlia.
Qed.
