(* ===== verification/LmsProofs.v ===== *)
(** Correctness of drivers/src/lms.rs: on well-formed keys and signatures,
    verification computes the candidate root of RFC 8554. *)

From S2P Require Import Prelude Errors Sha256 Sha256Proofs Sha256Alg Lms LmsSpec.

Lemma coefficient_coef s i w :
  w ∈ [1; 2; 4; 8] → 0 ≤ i → i * w / 8 < Z.of_nat (length s) → Lms.coefficient s i w = Ok (coef s i w).
Proof.
  intros Hw Hi Hl. unfold Lms.coefficient. rewrite coefficient_digit_coef by done.
  case_w Hw; done.
Qed.

(** ** The parameter table *)

(** The entries for which verification is meaningful. *)
Definition lmots_ok (prm : LmotsParameter) : Prop := prm ∈ tail LMOTS_P.

(** What the verifier needs of an entry: the digits fit the hash and the
    checksum, the checksum fits 16 bits, and the chains fit the hash engine. *)
Lemma lmots_ok_facts prm :
  lmots_ok prm →
  lp_w prm ∈ [1; 2; 4; 8] ∧ (lp_n prm = 24 ∨ lp_n prm = 32) ∧ 0 ≤ lp_ls prm ∧
  (lp_p prm - 1) * lp_w prm / 8 < lp_n prm + 2 ∧
  (2 ^ lp_w prm - 1) * (lp_n prm * (8 / lp_w prm)) * 2 ^ lp_ls prm < 2 ^ 16 ∧
  lp_n prm * (8 / lp_w prm) ≤ lp_p prm ≤ 265 ∧
  get_lmots_parameters (algorithm_name prm) = Ok prm.
Proof.
  unfold lmots_ok. simpl. rewrite !elem_of_cons, elem_of_nil. intros Hp.
  destruct_or!; try done; subst; repeat split; try done; try set_solver by done; auto.
Qed.

Lemma get_lmots_parameters_inv t prm :
  get_lmots_parameters t = Ok prm → algorithm_name prm = t ∧ (t = 0 ∨ lmots_ok prm).
Proof.
  unfold get_lmots_parameters. destruct (List.find _ _) as [p|] eqn:E; [|done].
  intros ?; simplify_eq. apply find_some in E as [Hin Ht]. apply Z.eqb_eq in Ht.
  split; [done|]. destruct Hin as [<-|Hin]; [by left; subst t|right].
  by apply list_elem_of_In.
Qed.

(** The checksum of the driver is the RFC's, without overflow of its 16-bit
    accumulator or of the final shift. *)
Lemma checksum_ok prm s :
  lmots_ok prm → lp_n prm ≤ Z.of_nat (length s) →
  Lms.checksum (algorithm_name prm) s = Ok (cksm (Z.to_nat (lp_n prm)) (lp_w prm) (lp_ls prm) s).
Proof.
  intros Hp Hl. destruct (lmots_ok_facts _ Hp) as (Hw & Hn & Hls & _ & Hb & Hpp & E).
  unfold Lms.checksum. rewrite E. cbn [mbind res_bind].
  set (w := lp_w prm) in *. set (n := lp_n prm) in *. clearbody w n.
  assert (Hv : negb (valid_w w) = false) by (case_w Hw; done). rewrite Hv. cbn [err_if mbind res_bind].
  rewrite (wrap_small 16 (n * (8 / w))) by (case_w Hw; ulia).
  assert (Hm : u16w (Z.shiftl 1 w - 1) = 2 ^ w - 1) by (case_w Hw; done). rewrite Hm.
  rewrite (foldR_pure _ (λ sum i, u16w (sum + u16w (2 ^ w - 1 - coef s i w)))).
  - cbn [mbind res_bind]. f_equal. pose proof (checksum_loop (Z.to_nat n) w (lp_ls prm) s Hw Hls) as Hc.
    rewrite Z2Nat.id in Hc by lia. auto.
  - intros sum i Hi. apply elem_of_seqZ in Hi. rewrite coefficient_coef; [done..| |].
    + lia.
    + case_w Hw; dlia.
Qed.

(** ** Words and bytes *)

Lemma to_be_swap_bytes z : to_be 4 (swap_bytes_u32 z) = to_le 4 z.
Proof. unfold swap_bytes_u32. apply to_be_from_be'; [apply to_le_bytes|by rewrite length_to_le]. Qed.

Lemma bytes_be_hash_value_le ws : bytes_be (Lms.hash_value_le ws) = bytes_le ws.
Proof.
  induction ws as [|w ws IH]; [done|].
  unfold Lms.hash_value_le, bytes_be, bytes_le in *. cbn [map flat_map].
  by rewrite to_be_swap_bytes, IH.
Qed.

Lemma swap_bytes_u32_u32 z : is_u32 (swap_bytes_u32 z).
Proof.
  unfold swap_bytes_u32. pose proof (from_be_bound (to_le 4 z) (to_le_bytes 4 z)) as Hb.
  by rewrite length_to_le in Hb.
Qed.

Lemma hash_value_le_words ws : is_words (Lms.hash_value_le ws).
Proof. induction ws; constructor; auto. apply swap_bytes_u32_u32. Qed.

Lemma concat_to_be ws : concat (map (to_be 4) ws) = bytes_be ws.
Proof. unfold bytes_be. by rewrite flat_map_concat_map. Qed.

Lemma bytes_be_concat wss : bytes_be (concat wss) = concat (map bytes_be wss).
Proof. induction wss as [|ws wss IH]; [done|]. simpl. by rewrite bytes_be_app, IH. Qed.

Lemma take_bytes_be n ws : take (4 * n) (bytes_be ws) = bytes_be (take n ws).
Proof.
  revert n. induction ws as [|w ws IH]; intros n; [by destruct n|].
  destruct n as [|n]; [done|].
  change (bytes_be (w :: ws)) with (to_be 4 w ++ bytes_be ws).
  replace (4 * S n)%nat with (length (to_be 4 w) + 4 * n)%nat by (rewrite length_to_be; lia).
  rewrite take_app_add, IH. done.
Qed.

Lemma Forall_to_be ws : Forall (λ x, is_bytes x) (map (to_be 4) ws).
Proof. induction ws; constructor; auto using to_be_bytes. Qed.

(** [N]-word hash values, the type [HashValue<N>]. *)
Definition is_hash (N : nat) (v : list Z) : Prop := length v = N ∧ is_words v.

Lemma hash_value_hash N d : (N ≤ length d)%nat → is_words d → is_hash N (Lms.hash_value N d).
Proof. intros Hl Hd. split; [unfold Lms.hash_value; rewrite length_take; lia|by apply Forall_take]. Qed.

Section Verify.
Context {Sh Op : Type} `{Hcomp : Sha2Compress, Hcok : !Sha2CompressOk, Halg : !Sha256Alg Sh Op, Haok : !Sha256AlgOk Sh Op}.

(** Every hash of the verifier: a list of byte strings, truncated. *)
Lemma hash_value_parts N xs s :
  (N ≤ 8)%nat → alg_ready s → Forall (λ x, is_bytes x) xs →
  Z.of_nat (length (concat xs)) ≤ Driver.SHA256_MAX_DATA_SIZE →
  ∃ d s', hash_parts xs s = (Ok d, s') ∧ alg_ready s' ∧ is_hash N (Lms.hash_value N d) ∧
    bytes_be (Lms.hash_value N d) = H_n (4 * N) (concat xs).
Proof.
  intros HN Hs Hx Hl. destruct (hash_parts_ok xs s Hs Hx Hl) as (s' & E & Hs').
  eexists _, s'. split_and!; [done..| |].
  - apply hash_value_hash; [rewrite sha256_ref_length; lia|apply sha256_ref_words].
  - unfold H_n, sha256_bytes. by rewrite take_bytes_be.
Qed.

(** The buffer [wnt_prefix]: identifier, [q] and chain number, the iteration
    counter, and room for the hash value. *)
Definition wnt_buf (pre buf : list Z) : Prop :=
  ∃ c rest, buf = pre ++ c :: rest ∧ length pre = 22%nat ∧ length rest = 32%nat ∧
    is_bytes pre ∧ is_bytes rest ∧ is_u8 c.

Lemma hash_chain_ok N prm pre buf coeff tmp s :
  lmots_ok prm → lp_n prm = Z.of_nat (4 * N) → alg_ready s → wnt_buf pre buf →
  0 ≤ coeff ≤ 2 ^ lp_w prm - 1 → is_hash N tmp →
  ∃ v buf' s', Lms.hash_chain N buf coeff prm tmp s = (Ok (v, buf'), s') ∧ alg_ready s' ∧
    is_hash N v ∧ wnt_buf pre buf' ∧
    bytes_be v = wntz_chain (4 * N) pre coeff (Z.to_nat (2 ^ lp_w prm - 1 - coeff)) (bytes_be tmp).
Proof.
  intros Hp Hn Hs (c & rest & -> & Hpre & Hrest & Hbp & Hbr & Hc8) Hcoeff [Htl Htw].
  destruct (lmots_ok_facts _ Hp) as (Hw & Hn' & _).
  assert (Hit : u8w (u16w (Z.shiftl 1 (lp_w prm) - 1)) = 2 ^ lp_w prm - 1 ∧ 2 ^ lp_w prm ≤ 256)
    by (set (w := lp_w prm) in *; clearbody w; case_w Hw; done).
  destruct Hit as [Hit Hw8]. unfold Lms.hash_chain. rewrite Hit.
  destruct (Z.ltb_spec coeff (2 ^ lp_w prm - 1)) as [Hlt|Hge].
  - set (nm := lp_n prm =? Lms.WNTZ_MODE_SHA256).
    assert (Hlen : length (bytes_be tmp) = (if nm then 32 else 24)%nat).
    { rewrite length_bytes_be. unfold nm, Lms.WNTZ_MODE_SHA256. destruct (Z.eqb_spec (lp_n prm) 32); lia. }
    assert (Hcu : is_u8 coeff) by (unfold in_u; change (2 ^ 8) with 256; lia).
    set (buf := splice _ _ _).
    assert (Hbuf : buf = pre ++ coeff :: bytes_be tmp ++ drop (4 * N) rest).
    { unfold buf, Lms.ITER_COUNTER_OFFSET, Lms.TMP_OFFSET.
      rewrite insert_app_r_alt by lia. rewrite Hpre. cbn [Nat.sub insert list_insert].
      rewrite <- Htl at 1. rewrite firstn_all.
      replace 23%nat with (length (pre ++ [coeff])) by (rewrite length_app; simpl; lia).
      change (coeff :: rest) with ([coeff] ++ rest). rewrite app_assoc.
      rewrite <- (take_drop (4 * N) rest) at 1.
      rewrite splice_app_mid by (rewrite length_take, length_bytes_be; lia).
      by rewrite <- app_assoc. }
    assert (Hsl : slice buf 0 (Lms.TMP_OFFSET + N * 4) = pre ++ coeff :: bytes_be tmp).
    { rewrite Hbuf. unfold slice, Lms.TMP_OFFSET. rewrite drop_0.
      change (pre ++ coeff :: bytes_be tmp ++ drop (4 * N) rest)
        with (pre ++ (coeff :: bytes_be tmp) ++ drop (4 * N) rest).
      rewrite app_assoc, take_app_length'; [done|].
      rewrite length_app. cbn [length]. rewrite length_bytes_be. lia. }
    destruct (alg_wntz_ok pre coeff (bytes_be tmp) nm (lp_w prm) s) as (d & s' & E & Hs' & Hdl & Hdw & Ed);
      [done..| |done|].
    { apply Forall_app. split; [done|]. constructor; [done|]. apply bytes_be_bytes. }
    exists (Lms.hash_value N d), buf, s'. split_and!; [|done| | |].
    + rewrite Hsl. revert E. unfold mbind, M_bind.
      destruct (alg_digest_init s) as [[] s1]; try done.
      destruct (alg_update_wntz _ _ _ _ s1) as [[] s2]; try done. by intros ->.
    + apply hash_value_hash; [lia|done].
    + exists coeff, (bytes_be tmp ++ drop (4 * N) rest). split_and!; try done.
      * rewrite length_app, length_bytes_be, length_drop. lia.
      * apply Forall_app. split; [apply bytes_be_bytes|by apply Forall_drop].
    + rewrite length_bytes_be, Htl in Ed. unfold Lms.hash_value. by rewrite <- take_bytes_be.
  - exists tmp, (pre ++ c :: rest), s. split_and!; try done.
    + by exists c, rest.
    + replace (Z.to_nat _) with 0%nat by lia. done.
Qed.

(** One chain: the value appended is the end of chain [i]. *)
Lemma ots_chain_step_ok N prm id q y mhc x2 buf z i y_i s :
  lmots_ok prm → lp_n prm = Z.of_nat (4 * N) → alg_ready s →
  length id = 16%nat → length q = 4%nat → is_bytes id → is_bytes q → length x2 = 2%nat →
  wnt_buf (id ++ q ++ x2) buf → y !! i = Some y_i → length y_i = N →
  Z.of_nat i * lp_w prm / 8 < Z.of_nat (length mhc) → Z.of_nat i < 2 ^ 16 →
  let a := coef mhc (Z.of_nat i) (lp_w prm) in
  let pre := id ++ q ++ to_be 2 (Z.of_nat i) in
  ∃ v buf' s', Lms.ots_chain_step N prm y mhc (buf, z) i s = (Ok (buf', z ++ [v]), s') ∧
    alg_ready s' ∧ is_hash N v ∧ wnt_buf pre buf' ∧
    bytes_be v = wntz_chain (4 * N) pre a (Z.to_nat (2 ^ lp_w prm - 1 - a)) (bytes_le y_i).
Proof.
  intros Hp Hn Hs Hid Hq Hbid Hbq Hx2 (c & rest & -> & Hpl & Hrl & Hbp & Hbr & Hcu) Hy Hyl Hi Hi16 a pre.
  destruct (lmots_ok_facts _ Hp) as (Hw & _).
  unfold Lms.ots_chain_step. rewrite coefficient_coef by (done || lia). fold a.
  rewrite (bind_lift_ok _ a) by done. rewrite Hy, (bind_lift_ok _ y_i) by done.
  rewrite (wrap_small 16) by (unfold in_u; lia).
  assert (Hb : splice ((id ++ q ++ x2) ++ c :: rest) 20 (to_be 2 (Z.of_nat i)) = pre ++ c :: rest).
  { unfold pre. rewrite !app_assoc, <- (app_assoc _ x2).
    replace 20%nat with (length (id ++ q)) by (rewrite length_app; lia).
    rewrite splice_app_mid by (rewrite length_to_be; lia). by rewrite <- !app_assoc. }
  rewrite Hb.
  destruct (hash_chain_ok N prm pre (pre ++ c :: rest) a (Lms.hash_value_le y_i) s)
    as (v & buf' & s' & E & Hs' & Hv & Hbuf' & Ev); [done..| |by apply coef_range| |].
  - exists c, rest. unfold pre. rewrite !length_app, length_to_be, !Forall_app.
    split_and!; auto using to_be_bytes. lia.
  - split; [unfold Lms.hash_value_le; by rewrite length_map|apply hash_value_le_words].
  - exists v, buf', s'. rewrite (bind_ok _ _ _ _ _ E). rewrite bytes_be_hash_value_le in Ev. done.
Qed.

Lemma imap_take {A B} (f : nat → A → B) l n : imap f (take n l) = take n (imap f l).
Proof.
  revert f n. induction l as [|x l IH]; intros f [|n]; try done. simpl. by rewrite IH.
Qed.

Lemma map_bytes_be_snoc z v (l : list (list Z)) i x :
  map bytes_be z = take i l → l !! i = Some x → bytes_be v = x → map bytes_be (z ++ [v]) = take (S i) l.
Proof. intros Hz Hx <-. rewrite map_app, Hz. simpl. by rewrite (take_S_r _ _ _ Hx). Qed.

(** The [P] chains: their ends, in order. *)
Lemma ots_chains_ok N P prm id q y mhc buf s :
  lmots_ok prm → lp_n prm = Z.of_nat (4 * N) → lp_p prm = Z.of_nat P → alg_ready s →
  length id = 16%nat → length q = 4%nat → is_bytes id → is_bytes q →
  (∃ x2, length x2 = 2%nat ∧ wnt_buf (id ++ q ++ x2) buf) →
  length y = P → Forall (λ y_i, length y_i = N) y → lp_n prm + 2 ≤ Z.of_nat (length mhc) →
  ∃ buf' z s', foldM (Lms.ots_chain_step N prm y mhc) (buf, []) (seq 0 P) s = (Ok (buf', z), s') ∧
    alg_ready s' ∧ Forall (is_hash N) z ∧
    map bytes_be z = imap (λ i y_i, let a := coef mhc (Z.of_nat i) (lp_w prm) in
       wntz_chain (4 * N) (id ++ q ++ to_be 2 (Z.of_nat i)) a (Z.to_nat (2 ^ lp_w prm - 1 - a)) y_i)
       (map bytes_le y).
Proof.
  intros Hp Hn HP Hs Hid Hq Hbid Hbq Hbuf Hyl Hy Hm.
  destruct (lmots_ok_facts _ Hp) as (Hw & _ & _ & Hpw & _ & [_ Hp265] & _).
  set (f := λ (i : nat) (y_i : list Z), _).
  pose (I := λ (don : list nat) (bz : list Z * list (list Z)) (s : Sh),
    alg_ready s ∧ (∃ x2, length x2 = 2%nat ∧ wnt_buf (id ++ q ++ x2) bz.1) ∧ Forall (is_hash N) bz.2 ∧
    map bytes_be bz.2 = take (length don) (imap f (map bytes_le y))).
  destruct (foldM_ok (Lms.ots_chain_step N prm y mhc) I (seq 0 P)) with (b := (buf, [] : list (list Z))) (s := s)
    as ([buf' z] & s' & E & Hs' & _ & Hz & Ez).
  - intros don i [b z] s1 [rest Hsplit] (Hs1 & (x2 & Hx2 & Hb) & Hz & Ez). cbn [fst snd] in *.
    assert (Hdon : length don = i ∧ (i < P)%nat).
    { apply (f_equal (lookup (length don))) in Hsplit as Hl.
      rewrite list_lookup_middle in Hl by done. apply lookup_seq in Hl. lia. }
    destruct Hdon as [Hdi HiP].
    destruct (lookup_lt_is_Some_2 y i) as [y_i Hyi]; [lia|].
    assert (Hyil : length y_i = N) by (eapply Forall_lookup_1 in Hy; eauto).
    destruct (ots_chain_step_ok N prm id q y mhc x2 b z i y_i s1)
      as (v & b' & s2 & E & Hs2 & Hv & Hb' & Ev); [done..| |lia|].
    { assert (Z.of_nat i * lp_w prm / 8 ≤ (lp_p prm - 1) * lp_w prm / 8); [|lia].
      apply Z.div_le_mono; [lia|]. apply Z.mul_le_mono_nonneg_r; [|lia].
      set (w := lp_w prm) in *; clearbody w; case_w Hw; lia. }
    exists (b', z ++ [v]), s2. split; [done|]. split_and!; cbn [fst snd]; [done| | |].
    + exists (to_be 2 (Z.of_nat i)). by rewrite length_to_be.
    + apply Forall_app. split; [done|]. by apply Forall_singleton.
    + rewrite length_app, Hdi, Nat.add_1_r. rewrite Hdi in Ez.
      apply (map_bytes_be_snoc _ _ _ _ _ Ez) with (2 := Ev).
      rewrite list_lookup_imap, list_lookup_fmap, Hyi. done.
  - split_and!; [done..|constructor|done].
  - cbn [snd] in *. exists buf', z, s'. split_and!; [done..|]. rewrite Ez, length_seq, firstn_all2; [done|].
    rewrite length_imap, length_map. lia.
Qed.

Lemma length_H_n n m : (n ≤ 32)%nat → length (H_n n m) = n.
Proof.
  intros. unfold H_n, sha256_bytes. rewrite length_take, length_bytes_be, sha256_ref_length. lia.
Qed.

Lemma H_n_bytes n m : is_bytes (H_n n m).
Proof. apply Forall_take, bytes_be_bytes. Qed.

(** The 34-byte buffer of the message digest and its checksum. *)
Lemma message_buffer N md c :
  length md = N → (N ≤ 8)%nat → length c = 2%nat →
  splice (splice (replicate 34 0) 0 (bytes_be md)) (N * 4) c =
  (bytes_be md ++ c) ++ replicate (32 - 4 * N) 0.
Proof.
  intros Hl HN Hcl. unfold splice at 2. rewrite take_0, app_nil_l, drop_replicate, length_bytes_be, Hl.
  replace (34 - (0 + 4 * N))%nat with (2 + (32 - 4 * N))%nat by lia. rewrite replicate_add.
  replace (N * 4)%nat with (length (bytes_be md)) by (rewrite length_bytes_be; lia).
  rewrite splice_app_mid by (rewrite length_replicate; lia). by rewrite app_assoc.
Qed.

(** The 55-byte buffer of the chains. *)
Lemma ots_buffer id q :
  length id = 16%nat → is_bytes id → length q = 4%nat → is_bytes q →
  wnt_buf (id ++ q ++ [0; 0]) (splice (splice (replicate 55 0) 0 id) 16 q).
Proof.
  intros Hid Hbid Hq Hbq. exists 0, (replicate 32 0). split_and!.
  - unfold splice at 2. rewrite take_0, app_nil_l, Hid.
    change (drop (0 + 16) (replicate 55 0)) with (replicate 4 0 ++ replicate 35 0).
    pose proof (splice_app_mid id (replicate 4 0) (replicate 35 0) q Hq) as E. rewrite Hid in E.
    rewrite E. by rewrite <- !app_assoc.
  - rewrite !length_app, Hid, Hq. done.
  - done.
  - rewrite !Forall_app. split_and!; [done..|]. by repeat constructor.
  - by repeat constructor.
  - done.
Qed.

Lemma imap_ext_in {A B} (f g : nat → A → B) l :
  (∀ i x, (i < length l)%nat → f i x = g i x) → imap f l = imap g l.
Proof.
  intros Hfg. apply list_eq. intros i. rewrite !list_lookup_imap.
  destruct (l !! i) as [x|] eqn:E; [|done]. simpl. f_equal. apply Hfg. by apply lookup_lt_Some in E.
Qed.

(** The digits that the buffer gives are those of the RFC. *)
Lemma chain_ends N P prm id q md y pad :
  lmots_ok prm → lp_n prm = Z.of_nat (4 * N) → lp_p prm = Z.of_nat P → length y = P → length md = N →
  let ck := cksm (4 * N) (lp_w prm) (lp_ls prm) (bytes_be md) in
  let mhc := (bytes_be md ++ to_be 2 ck) ++ pad in
  imap (λ i y_i, let a := coef mhc (Z.of_nat i) (lp_w prm) in
    wntz_chain (4 * N) (id ++ to_be 4 q ++ to_be 2 (Z.of_nat i)) a (Z.to_nat (2 ^ lp_w prm - 1 - a)) y_i)
    (map bytes_le y) =
  imap (ots_chain_end (4 * N) (lp_w prm) (lp_ls prm) id q (bytes_be md)) (map bytes_le y).
Proof.
  intros Hp Hn HP Hyl Hml ck mhc. destruct (lmots_ok_facts _ Hp) as (Hw & _ & _ & Hpw & _).
  apply imap_ext_in. intros i y_i Hi. rewrite length_map in Hi. cbv zeta.
  unfold ots_chain_end, ots_pre, ots_digits. fold ck. unfold mhc.
  rewrite coef_app_l; [done|done|lia|]. rewrite length_app, length_bytes_be, length_to_be.
  assert (Z.of_nat i * lp_w prm / 8 ≤ (lp_p prm - 1) * lp_w prm / 8); [|lia].
  apply Z.div_le_mono; [lia|]. apply Z.mul_le_mono_nonneg_r; [|lia].
  set (w := lp_w prm) in *; clearbody w; case_w Hw; lia.
Qed.

Lemma candidate_ots_signature_ok N P prm id q y md s :
  lmots_ok prm → lp_n prm = Z.of_nat (4 * N) → lp_p prm = Z.of_nat P → alg_ready s →
  length id = 16%nat → is_bytes id →
  length y = P → Forall (λ y_i, length y_i = N) y → is_hash N md →
  ∃ v s', Lms.candidate_ots_signature N P id (algorithm_name prm) (to_be 4 q) y md s = (Ok v, s') ∧
    alg_ready s' ∧ is_hash N v ∧
    bytes_be v = ots_Kc (4 * N) (lp_w prm) (lp_ls prm) id q (bytes_be md) (map bytes_le y).
Proof.
  intros Hp Hn HP Hs Hid Hbid Hyl Hy [Hml Hmw].
  destruct (lmots_ok_facts _ Hp) as (Hw & Hn32 & _ & Hpw & _ & [_ Hp265] & Eprm).
  unfold Lms.candidate_ots_signature. rewrite (bind_lift_ok _ prm) by done.
  rewrite bind_fail_if by (rewrite HP, Z.eqb_refl; done).
  rewrite bind_fail_if by (destruct Hn32 as [-> | ->]; done).
  rewrite bind_fail_if by (rewrite Hn, Nat.mul_comm, Z.eqb_refl; done). cbv zeta.
  set (mhc0 := splice (replicate 34 0) 0 (bytes_be md)).
  assert (Hm0 : mhc0 = bytes_be md ++ replicate (34 - 4 * N) 0).
  { unfold mhc0, splice. by rewrite take_0, drop_replicate, length_bytes_be, Hml. }
  set (ck := cksm (4 * N) (lp_w prm) (lp_ls prm) (bytes_be md)).
  assert (Eck : Lms.checksum (algorithm_name prm) mhc0 = Ok ck).
  { rewrite checksum_ok; [|done|].
    - rewrite Hn, Nat2Z.id, Hm0, cksm_app; [done|done|]. rewrite length_bytes_be. lia.
    - rewrite Hn, Hm0, length_app, length_bytes_be. lia. }
  rewrite (bind_lift_ok _ ck) by done. unfold mhc0. rewrite message_buffer by (rewrite ?length_to_be; lia).
  set (mhc := (bytes_be md ++ to_be 2 ck) ++ replicate (32 - 4 * N) 0).
  destruct (ots_chains_ok N P prm id (to_be 4 q) y mhc (splice (splice (replicate 55 0) 0 id) 16 (to_be 4 q)) s)
    as (b' & z & s1 & E1 & Hs1 & Hz & Ez);
    [done..|by rewrite length_to_be|done|apply to_be_bytes| |done|done| |].
  { exists [0; 0]. split; [done|]. apply ots_buffer; auto using to_be_bytes, length_to_be. }
  { unfold mhc. rewrite !length_app, length_bytes_be, length_to_be. lia. }
  rewrite (bind_ok _ _ _ _ _ E1).
  pose proof (chain_ends N P prm id q md y (replicate (32 - 4 * N) 0) Hp Hn HP Hyl Hml) as Hends.
  apply (eq_trans Ez) in Hends as Ez'. clear Ez Hends. rename Ez' into Ez.
  destruct (hash_value_parts N ([id; to_be 4 q; to_be 2 D_PBLC] ++ map (to_be 4) (concat z)) s1)
    as (d & s2 & E2 & Hs2 & Hd & Ed); [lia|done| | |].
  { apply Forall_app. split; [|apply Forall_to_be]. auto using Forall_cons_2, Forall_nil_2, to_be_bytes. }
  { rewrite concat_app, length_app, concat_to_be, bytes_be_concat. cbn [concat].
    rewrite !length_app, !length_to_be, Hid. cbn [length].
    rewrite (length_concat_blocks (4 * N)), Ez, length_imap, length_map.
    - change Driver.SHA256_MAX_DATA_SIZE with 1048576. nia.
    - apply Forall_map. apply (Forall_impl _ _ _ Hz). intros v [Hv _]. rewrite length_bytes_be. lia. }
  rewrite (bind_ok _ _ _ _ _ E2). exists (Lms.hash_value N d), s2. split_and!; try done.
  rewrite Ed. unfold ots_Kc. rewrite concat_app, concat_to_be, bytes_be_concat, Ez.
  cbn [concat]. by rewrite app_nil_r, <- !app_assoc.
Qed.

(** ** The tree *)

Lemma tree_step_parts N id path node i temp p_i s :
  path !! i = Some p_i →
  Lms.tree_step N id path node i temp s =
  (d ← hash_parts ([id; to_be 4 (node / 2); to_be 2 D_INTR] ++
                   (if node mod 2 =? 1 then bytes_le p_i :: map (to_be 4) temp
                    else map (to_be 4) temp ++ [bytes_le p_i]));
   mret (Lms.hash_value N d)) s.
Proof.
  intros Hp. unfold Lms.tree_step, hash_parts. rewrite Hp.
  assert (Hpar : (node mod 2 =? 0) = negb (node mod 2 =? 1)) by dlia. rewrite Hpar.
  unfold mbind, M_bind, mret, M_ret, lift, ok_or.
  destruct (alg_digest_init s) as [[op|e|w] s0]; [|done..].
  destruct (node mod 2 =? 1); cbn [negb app foldM]; unfold mbind, M_bind, mret, M_ret;
    (destruct (alg_update op id s0) as [[op1|e|w] s1]; [|done..]);
    (destruct (alg_update op1 _ s1) as [[op2|e|w] s2]; [|done..]);
    (destruct (alg_update op2 _ s2) as [[op3|e|w] s3]; [|done..]).
  - destruct (alg_update op3 _ s3) as [[op4|e|w] s4]; [|done..].
    by destruct (foldM alg_update op4 _ s4) as [[op5|e|w] s5].
  - rewrite foldM_app. unfold mbind, M_bind.
    destruct (foldM alg_update op3 _ s3) as [[op4|e|w] s4]; [|done..].
    cbn [foldM]. unfold mbind, M_bind, mret, M_ret. by destruct (alg_update op4 _ s4) as [[op5|e|w] s5].
Qed.

Lemma tree_step_ok N id path node i temp p_i s :
  (N ≤ 8)%nat → alg_ready s → length id = 16%nat → is_bytes id → is_hash N temp →
  path !! i = Some p_i → length p_i = N →
  ∃ v s', Lms.tree_step N id path node i temp s = (Ok v, s') ∧ alg_ready s' ∧ is_hash N v ∧
    bytes_be v = H_n (4 * N) (id ++ to_be 4 (node / 2) ++ to_be 2 D_INTR
      ++ (if node mod 2 =? 1 then bytes_le p_i ++ bytes_be temp else bytes_be temp ++ bytes_le p_i)).
Proof.
  intros HN Hs Hid Hbid [Htl Htw] Hp Hpl. rewrite (tree_step_parts _ _ _ _ _ _ p_i) by done.
  set (xs := _ ++ _).
  assert (Hc' : concat xs = id ++ to_be 4 (node / 2) ++ to_be 2 D_INTR
      ++ (if node mod 2 =? 1 then bytes_le p_i ++ bytes_be temp else bytes_be temp ++ bytes_le p_i)).
  { unfold xs. cbn [app concat]. repeat f_equal. destruct (node mod 2 =? 1).
    - cbn [concat]. by rewrite concat_to_be.
    - rewrite concat_app, concat_to_be. cbn [concat]. by rewrite app_nil_r. }
  destruct (hash_value_parts N xs s) as (d & s' & E & Hs' & Hd & Ed); [done..| | |].
  - unfold xs. repeat (apply Forall_cons_2; [auto using to_be_bytes|]). simpl.
    destruct (node mod 2 =? 1); [apply Forall_cons_2|apply Forall_app; split];
      auto using Forall_to_be, bytes_le_bytes, Forall_cons_2, Forall_nil_2.
  - rewrite Hc', !length_app, !length_to_be, Hid. change Driver.SHA256_MAX_DATA_SIZE with 1048576.
    destruct (node mod 2 =? 1); rewrite length_app, length_bytes_be, length_bytes_le; lia.
  - exists (Lms.hash_value N d), s'. rewrite (bind_ok _ _ _ _ _ E), <- Hc'. done.
Qed.

(** The walk from a node of height [k]: it terminates, reads [k] siblings,
    and computes the RFC's root. *)
Lemma tree_walk_ok N id path (k fuel : nat) node i temp s :
  (N ≤ 8)%nat → alg_ready s → length id = 16%nat → is_bytes id → is_hash N temp →
  2 ^ Z.of_nat k ≤ node < 2 ^ (Z.of_nat k + 1) → (k ≤ fuel)%nat →
  (i + k ≤ length path)%nat → Forall (λ p, length p = N) path →
  ∃ v s', Lms.tree_walk fuel N id path node i temp s = (Ok v, s') ∧ alg_ready s' ∧ is_hash N v ∧
    bytes_be v = tree_root (4 * N) id node (bytes_be temp) (map bytes_le (take k (drop i path))).
Proof.
  intros HN Hs Hid Hbid Ht Hnode Hfuel Hi Hpath.
  revert fuel node i temp s Hs Ht Hnode Hfuel Hi. induction k as [|k IH]; intros.
  - exists temp, s. destruct fuel; cbn [Lms.tree_walk]; (destruct (Z.gtb_spec node 1); [simpl in *; lia|done]).
  - destruct fuel as [|fuel]; [lia|]. cbn [Lms.tree_walk].
    rewrite Nat2Z.inj_succ, <- Z.add_1_r in Hnode.
    rewrite (Z.pow_add_r 2 (Z.of_nat k + 1) 1), (Z.pow_add_r 2 (Z.of_nat k) 1) in Hnode by lia.
    assert (0 < 2 ^ Z.of_nat k) by (apply Z.pow_pos_nonneg; lia).
    destruct (Z.gtb_spec node 1); [|lia].
    destruct (lookup_lt_is_Some_2 path i) as [p_i Hp]; [lia|].
    destruct (tree_step_ok N id path node i temp p_i s) as (v1 & s1 & E1 & Hs1 & Hv1 & Ev1);
      [done..|by eapply Forall_lookup_1 in Hpath|].
    rewrite (bind_ok _ _ _ _ _ E1).
    destruct (IH fuel (node / 2) (S i) v1 s1) as (v & s' & E & Hs' & Hv & Ev); [done..| |lia|lia|].
    { rewrite Z.pow_add_r by lia. dlia. }
    exists v, s'. split_and!; [done..|]. rewrite Ev, Ev1, (drop_S _ _ _ Hp). done.
Qed.

(** ** The whole of verification *)

(** Arrays have the lengths that the const generics fix, words and bytes are
    in range, and the algorithm is the one of table entry [prm]. *)
Record lms_wf (N P H : nat) (prm : LmotsParameter) (pk : LmsPublicKey) (sg : LmsSignature) : Prop := {
  wf_prm : lmots_ok prm;
  wf_n : lp_n prm = Z.of_nat (4 * N);
  wf_p : lp_p prm = Z.of_nat P;
  wf_ots : ots_type (sig_ots sg) = algorithm_name prm;
  wf_pk_ots : pk_otstype pk = algorithm_name prm;
  wf_tree : ∃ n, get_lms_parameters (sig_tree_type sg) = Ok (n, Z.of_nat H);
  wf_id : length (pk_id pk) = 16%nat ∧ is_bytes (pk_id pk);
  wf_nonce : length (ots_nonce (sig_ots sg)) = N;
  wf_y : length (ots_y (sig_ots sg)) = P ∧ Forall (λ y_i, length y_i = N) (ots_y (sig_ots sg));
  wf_path : length (sig_tree_path sg) = H ∧ Forall (λ p, length p = N) (sig_tree_path sg);
  wf_q : 0 ≤ sig_q sg < 2 ^ Z.of_nat H;
}.

Lemma get_lms_parameters_height t n h : get_lms_parameters t = Ok (n, h) → h ∈ [5; 10; 15; 20; 25].
Proof.
  unfold get_lms_parameters. intros E. repeat case_match; simplify_eq;
    by apply (bool_decide_eq_true_1 _).
Qed.

Lemma verify_generic_ok N P H prm message pk sg s :
  lms_wf N P H prm pk sg → alg_ready s → is_bytes message →
  Z.of_nat (22 + 4 * N + length message) ≤ Driver.SHA256_MAX_DATA_SIZE →
  ∃ v s', Lms.verify_lms_signature_cfi_generic N P H message pk sg s = (Ok v, s') ∧ alg_ready s' ∧
    is_hash N v ∧
    bytes_be v = lms_Tc (4 * N) (lp_w prm) (lp_ls prm) (Z.of_nat H) (pk_id pk) message sg.
Proof.
  intros [Hp Hn HP Hots Hpk [n Htree] [Hid Hbid] Hnl [Hyl Hy] [Hpl Hpath] Hq] Hs Hmb Hml.
  destruct (lmots_ok_facts _ Hp) as (_ & Hn32 & _).
  pose proof (get_lms_parameters_height _ _ _ Htree) as HH.
  assert (HH25 : 0 ≤ Z.of_nat H ≤ 25) by (rewrite !elem_of_cons, elem_of_nil in HH; lia).
  assert (Hpow : 2 ^ Z.of_nat H ≤ 2 ^ 25) by (apply Z.pow_le_mono_r; lia).
  unfold Lms.verify_lms_signature_cfi_generic.
  rewrite bind_fail_if by (rewrite Hots, Hpk, Z.eqb_refl; done).
  rewrite (bind_lift_ok _ (n, Z.of_nat H)) by done.
  rewrite bind_fail_if by (rewrite Z.eqb_refl; done).
  rewrite !Z.shiftl_mul_pow2 by lia. rewrite !Z.mul_1_l.
  rewrite bind_fail_if by (rewrite Z.geb_leb; lia).
  rewrite (wrap_small 32) by (unfold in_u; change (2 ^ 25) with 33554432 in *; change (2 ^ 32) with 4294967296; lia).
  cbv zeta. rewrite bind_fail_if by (rewrite Z.geb_leb; lia).
  destruct (hash_value_parts N [pk_id pk; to_be 4 (sig_q sg); to_be 2 D_MESG;
     bytes_le (ots_nonce (sig_ots sg)); message] s) as (d1 & s1 & E1 & Hs1 & Hd1 & Ed1); [lia|done| | |].
  { auto 10 using Forall_cons_2, Forall_nil_2, to_be_bytes, bytes_le_bytes. }
  { cbn [concat]. rewrite app_nil_r, !length_app, !length_to_be, length_bytes_le, Hid, Hnl. lia. }
  assert (Em : Lms.hash_message N message (pk_id pk) (to_be 4 (sig_q sg)) (ots_nonce (sig_ots sg)) s
     = (Ok (Lms.hash_value N d1), s1)) by (unfold Lms.hash_message; by rewrite (bind_ok _ _ _ _ _ E1)).
  rewrite (bind_ok _ _ _ _ _ Em).
  destruct (candidate_ots_signature_ok N P prm (pk_id pk) (sig_q sg) (ots_y (sig_ots sg))
    (Lms.hash_value N d1) s1) as (k & s2 & E2 & Hs2 & Hk & Ek); [done..|].
  rewrite Hots, (bind_ok _ _ _ _ _ E2).
  rewrite bind_fail_if by (by rewrite bool_decide_eq_true_2).
  destruct (hash_value_parts N ([pk_id pk; to_be 4 (2 ^ Z.of_nat H + sig_q sg); to_be 2 D_LEAF]
     ++ map (to_be 4) k) s2) as (d3 & s3 & E3 & Hs3 & Hd3 & Ed3); [lia|done| | |].
  { apply Forall_app. split; [|apply Forall_to_be]. auto using Forall_cons_2, Forall_nil_2, to_be_bytes. }
  { destruct Hk as [Hkl _]. rewrite concat_app, concat_to_be, length_app, length_bytes_be, Hkl. cbn [concat].
    rewrite app_nil_r, !length_app, !length_to_be, Hid. change Driver.SHA256_MAX_DATA_SIZE with 1048576. lia. }
  rewrite (bind_ok _ _ _ _ _ E3).
  destruct (tree_walk_ok N (pk_id pk) (sig_tree_path sg) H 32 (2 ^ Z.of_nat H + sig_q sg) 0
    (Lms.hash_value N d3) s3) as (v & s4 & E4 & Hs4 & Hv & Ev); [lia|done..| |lia|lia|done|].
  { rewrite Z.pow_add_r by lia. lia. }
  exists v, s4. split_and!; [done..|]. rewrite Ev, Ed3. unfold lms_Tc.
  rewrite drop_0, firstn_all2 by lia. rewrite concat_app, concat_to_be, Ek, Ed1. cbn [concat].
  by rewrite !app_nil_r, <- !app_assoc.
Qed.
End Verify.
