(* ===== verification/LmsGenProofs.v ===== *)
(** Correctness of the LMS generator (image/crypto/src/lib.rs): the stack
    algorithm computes the Merkle root and the authentication path, and what
    it signs is accepted by drivers/src/lms.rs. *)

From S2P Require Import Prelude Errors Sha256 Sha256Proofs Sha256Alg Lms LmsGen LmsSpec LmsProofs.

Section Gen.
Context {T : Type} `{Hcomp : Sha2Compress, Hcok : !Sha2CompressOk, Hhash : !Sha256Hasher T, Hhok : !Sha256HasherOk T}.

Lemma hash192_ok xs : Gen.hash192 T xs = H_n 24 (concat xs).
Proof. unfold Gen.hash192, H_n. by rewrite hasher_ok. Qed.

(** ** One-time keys *)

Lemma chain_from_start_ok id q i (k : nat) tmp :
  Z.of_nat i < 2 ^ 16 →
  Gen.chain_from_start T id q i (Z.of_nat k) tmp = wntz_chain 24 (ots_pre id q i) 0 k tmp.
Proof.
  intros Hi. unfold Gen.chain_from_start. induction k as [|k IH]; [done|].
  rewrite seqZ_S, foldl_app, IH. cbn [foldl wntz_chain].
  rewrite hash192_ok, (wrap_small 16) by (unfold in_u; lia). unfold H_n, ots_pre. cbn [concat].
  by rewrite Z.add_0_l, app_nil_r, <- !app_assoc.
Qed.

Lemma length_gen_x id q p seed : length (Gen.gen_x T id q p seed) = p.
Proof. unfold Gen.gen_x. by rewrite length_map, length_seq. Qed.

Lemma gen_x_spec id q p seed :
  Forall (λ x, length x = 24%nat ∧ is_bytes x) (Gen.gen_x T id q p seed).
Proof.
  unfold Gen.gen_x. apply Forall_map, Forall_true. intros i. simpl. rewrite hash192_ok.
  split; [rewrite length_H_n; lia|apply H_n_bytes].
Qed.

(** The start of chain [i] and the value that a signature reveals of it. *)
Definition chain_at (id : list Z) (q : Z) (p : nat) (seed : list Z) (i : nat) (k : Z) : list Z :=
  wntz_chain 24 (ots_pre id q i) 0 (Z.to_nat k) (nth i (Gen.gen_x T id q p seed) []).

Lemma chain_at_spec id q p seed i k :
  (i < p)%nat → length (chain_at id q p seed i k) = 24%nat ∧ is_bytes (chain_at id q p seed i k).
Proof.
  intros Hi. assert (length (nth i (Gen.gen_x T id q p seed) []) = 24%nat ∧
    is_bytes (nth i (Gen.gen_x T id q p seed) [])) as [Hxl Hxb].
  { apply (proj1 (Forall_nth _ [] _) (gen_x_spec id q p seed)). by rewrite length_gen_x. }
  split; [apply wntz_chain_length; [done|lia]|by apply wntz_chain_bytes].
Qed.

Lemma gen_k_ok id q p w seed :
  w ∈ [1; 2; 4; 8] → Z.of_nat p < 2 ^ 16 →
  Gen.generate_lmots_pubkey_helper T id q p w seed =
  H_n 24 (id ++ to_be 4 q ++ to_be 2 D_PBLC
          ++ concat (map (λ i, chain_at id q p seed i (2 ^ w - 1)) (seq 0 p))).
Proof.
  intros Hw Hp. unfold Gen.generate_lmots_pubkey_helper, Gen.gen_k. rewrite hash192_ok. cbn [concat].
  rewrite app_nil_r. do 5 f_equal.
  assert (Hl : u8w (u16w (Z.shiftl 1 w - 1)) = 2 ^ w - 1 ∧ 0 ≤ 2 ^ w - 1) by (case_w Hw; done).
  destruct Hl as [-> Hl]. apply map_ext_in. intros i Hi. apply in_seq in Hi.
  unfold chain_at. rewrite <- chain_from_start_ok, Z2Nat.id by lia. done.
Qed.

(** Completing a revealed chain gives its end: the verifier's chain starts
    where the signer's stopped. *)
Lemma chain_at_complete n w ls id q p seed Q i :
  w ∈ [1; 2; 4; 8] → n = 24%nat →
  ots_chain_end n w ls id q Q i
    (chain_at id q p seed i (coef (ots_digits n w ls Q) (Z.of_nat i) w)) =
  chain_at id q p seed i (2 ^ w - 1).
Proof.
  intros Hw ->. unfold ots_chain_end, chain_at. set (a := coef _ _ _).
  pose proof (coef_range (ots_digits 24 w ls Q) (Z.of_nat i) w Hw) as Ha. fold a in Ha.
  replace (Z.to_nat (2 ^ w - 1)) with (Z.to_nat a + Z.to_nat (2 ^ w - 1 - a))%nat by lia.
  rewrite wntz_chain_add. by rewrite Z2Nat.id, Z.add_0_l by lia.
Qed.

(** ** The tree *)

Section Tree.
Context (id seed : list Z) (p : nat) (w h : Z).
Hypothesis Hh15 : 1 ≤ h ≤ 25.

(** The reference: the value of node [r] at height [l]. *)
Fixpoint tree_node (l : nat) (r : Z) : list Z :=
  match l with
  | O => H_n 24 (id ++ to_be 4 r ++ to_be 2 D_LEAF ++ Gen.leaf_key T id p w h seed (r - 2 ^ h))
  | S l' => H_n 24 (id ++ to_be 4 r ++ to_be 2 D_INTR ++ tree_node l' (2 * r) ++ tree_node l' (2 * r + 1))
  end.

Lemma tree_node_spec l r : length (tree_node l r) = 24%nat ∧ is_bytes (tree_node l r).
Proof. destruct l; (split; [apply length_H_n; lia|apply H_n_bytes]). Qed.

(** The ancestor at height [l] of leaf [q], and its sibling. *)
Definition anc (q : Z) (l : nat) : Z := (2 ^ h + q) / 2 ^ Z.of_nat l.
Definition sib (q : Z) (l : nat) : Z := Z.lxor (anc q l) 1.

Lemma anc_S q l : anc q (S l) = anc q l / 2.
Proof.
  unfold anc. rewrite Nat2Z.inj_succ, Z.pow_succ_r, (Z.mul_comm 2) by lia.
  by rewrite Z.div_div by (try lia; apply Z.pow_pos_nonneg; lia).
Qed.

Lemma lxor_1 x : 0 ≤ x → Z.lxor x 1 = if x mod 2 =? 1 then x - 1 else x + 1.
Proof.
  intros Hx. rewrite Zmod_odd. destruct x as [|[x|x|]|x]; try done; try lia.
Qed.

(** A node of height [l] is in [[2^(h-l), 2^(h-l+1))]. *)
Definition at_height (l : nat) (x : Z) : Prop := 2 ^ (h - Z.of_nat l) ≤ x < 2 * 2 ^ (h - Z.of_nat l).

Lemma at_height_inj l l' x : Z.of_nat l ≤ h → Z.of_nat l' ≤ h → at_height l x → at_height l' x → l = l'.
Proof.
  unfold at_height. intros Hl Hl' H1 H2. rewrite <- !Z.pow_succ_r in * by lia.
  destruct (Nat.lt_total l l') as [Hlt|[Heq|Hlt]]; [|done|].
  - assert (2 ^ Z.succ (h - Z.of_nat l') ≤ 2 ^ (h - Z.of_nat l)) by (apply Z.pow_le_mono_r; lia). lia.
  - assert (2 ^ Z.succ (h - Z.of_nat l) ≤ 2 ^ (h - Z.of_nat l')) by (apply Z.pow_le_mono_r; lia). lia.
Qed.

Lemma anc_height q l : 0 ≤ q < 2 ^ h → Z.of_nat l ≤ h → at_height l (anc q l).
Proof.
  intros Hq Hl. unfold at_height, anc.
  assert (Hp : 0 < 2 ^ Z.of_nat l) by (apply Z.pow_pos_nonneg; lia).
  assert (E : 2 ^ h = 2 ^ (h - Z.of_nat l) * 2 ^ Z.of_nat l) by (rewrite <- Z.pow_add_r by lia; f_equal; lia).
  split; [apply Z.div_le_lower_bound; lia|apply Z.div_lt_upper_bound; lia].
Qed.

Lemma anc_pos q l : 0 ≤ q < 2 ^ h → Z.of_nat l ≤ h → 1 ≤ anc q l.
Proof.
  intros Hq Hl. pose proof (anc_height q l Hq Hl) as [Ha _].
  assert (0 < 2 ^ (h - Z.of_nat l)) by (apply Z.pow_pos_nonneg; lia). lia.
Qed.

Lemma sib_cases q l : 0 ≤ q < 2 ^ h → Z.of_nat l ≤ h →
  (anc q l mod 2 = 1 ∧ sib q l = anc q l - 1) ∨ (anc q l mod 2 = 0 ∧ sib q l = anc q l + 1).
Proof.
  intros Hq Hl. unfold sib. rewrite lxor_1 by (pose proof (anc_pos q l Hq Hl); lia).
  destruct (Z.eqb_spec (anc q l mod 2) 1); [auto|right]. split; [dlia|done].
Qed.

Lemma anc_top q : 0 ≤ q < 2 ^ h → anc q (Z.to_nat h) = 1.
Proof.
  intros Hq. unfold anc. rewrite Z2Nat.id by lia. symmetry. apply Z.div_unique with q; lia.
Qed.

Lemma sib_height q l : 0 ≤ q < 2 ^ h → Z.of_nat l < h → at_height l (sib q l).
Proof.
  intros Hq Hl. pose proof (anc_height q l Hq ltac:(lia)) as Ha. unfold at_height in *.
  replace (h - Z.of_nat l) with (Z.succ (h - Z.of_nat l - 1)) in * by lia.
  rewrite Z.pow_succ_r in * by lia. set (m := 2 ^ (h - Z.of_nat l - 1)) in *.
  destruct (sib_cases q l Hq) as [[Hm ->]|[Hm ->]]; [lia|dlia|dlia].
Qed.

Lemma sib_top q l : 0 ≤ q < 2 ^ h → Z.of_nat l = h → sib q l = 0.
Proof.
  intros Hq Hl. unfold sib. replace l with (Z.to_nat h) by lia. by rewrite anc_top.
Qed.

Lemma height_ge_2 l x : Z.of_nat l < h → at_height l x → 2 ≤ x.
Proof.
  unfold at_height. intros Hl Hx. assert (2 ^ 1 ≤ 2 ^ (h - Z.of_nat l)) by (apply Z.pow_le_mono_r; lia). lia.
Qed.

Lemma sib_bound q l : 0 ≤ q < 2 ^ h → Z.of_nat l ≤ h → 0 ≤ sib q l < 2 ^ 27.
Proof.
  intros Hq Hl. pose proof (anc_pos q l Hq Hl). pose proof (anc_height q l Hq Hl) as [_ Ha].
  assert (2 ^ (h - Z.of_nat l) ≤ 2 ^ 25) by (apply Z.pow_le_mono_r; lia).
  change (2 ^ 25) with 33554432 in *. change (2 ^ 27) with 134217728.
  destruct (sib_cases q l Hq Hl) as [[? ->]|[? ->]]; lia.
Qed.

(** A right child [x] whose parent is not an ancestor of [q] is neither the
    target of the path nor its right neighbour. *)
Lemma path_miss q l m x :
  0 ≤ q < 2 ^ h → Z.of_nat l < h → Z.of_nat m ≤ h → at_height l x → x mod 2 = 1 → anc q (S l) ≠ x / 2 →
  x ≠ u32w (sib q m + 1) ∧ x ≠ sib q m.
Proof.
  intros Hq Hl Hm Hx Hodd Hne. pose proof (sib_bound q m Hq Hm) as Hb.
  rewrite wrap_small by (unfold in_u; change (2 ^ 27) with 134217728 in *; change (2 ^ 32) with 4294967296; lia).
  pose proof (height_ge_2 l x Hl Hx).
  destruct (Z.eq_dec (Z.of_nat m) h) as [Htop|Htop]; [rewrite (sib_top q m) by done; lia|].
  rewrite anc_S in Hne.
  destruct (sib_cases q m Hq Hm) as [[Ho Hs]|[He Hs]]; split; intros ->.
  - rewrite Hs in *. replace (anc q m - 1 + 1) with (anc q m) in * by lia.
    assert (m = l) as -> by (apply (at_height_inj m l (anc q m)); [lia|lia|by apply anc_height|done]). done.
  - dlia.
  - rewrite Hs in *. dlia.
  - assert (m = l) as -> by (apply (at_height_inj m l (sib q m)); [lia|lia|apply sib_height; [done|lia]|done]). rewrite Hs in Hne. dlia.
Qed.

(** *** The authentication path *)

Section Path.
Context (oq : option Z) (path0 : list (list Z)).
Hypothesis Hoq : ∀ q, oq = Some q → 0 ≤ q < 2 ^ h ∧ h ≤ Z.of_nat (length path0).

(** The path with its first [m] entries filled. *)
Definition path_at (q : Z) (m : nat) : list (list Z) :=
  map (λ i, words_le (tree_node i (sib q i))) (seq 0 m) ++ drop m path0.

(** The local variables that track the path, when [m] entries are filled. *)
Definition path_state (m : nat) (s : Gen.tree_state) : Prop :=
  match oq with
  | None => Gen.ts_target_node s = 1 ∧ Gen.ts_sig s = None
  | Some q => Gen.ts_target_node s = sib q m ∧ Gen.ts_level s = m ∧ Gen.ts_sig s = Some (path_at q m) ∧
              Z.of_nat m ≤ h
  end.

(** Is node [x] at height [l] an ancestor of the signing leaf? *)
Definition inside (l : nat) (x : Z) : bool :=
  match oq with None => false | Some q => anc q l =? x end.

Lemma inside_true l x : inside l x = true → ∃ q, oq = Some q ∧ anc q l = x.
Proof. unfold inside. destruct oq as [q|]; [|done]. intros ?%Z.eqb_eq. eauto. Qed.

Lemma length_path_at q m : (m ≤ length path0)%nat → length (path_at q m) = length path0.
Proof. intros. unfold path_at. rewrite length_app, length_map, length_seq, length_drop. lia. Qed.

Lemma path_at_insert q m v :
  (m < length path0)%nat → v = words_le (tree_node m (sib q m)) →
  <[m := v]> (path_at q m) = path_at q (S m).
Proof.
  intros Hm ->. unfold path_at. rewrite seq_S, map_app, <- app_assoc.
  rewrite insert_app_r_alt by (rewrite length_map, length_seq; lia).
  rewrite length_map, length_seq, Nat.sub_diag.
  destruct (lookup_lt_is_Some_2 path0 m Hm) as [x Hx]. by rewrite (drop_S _ _ _ Hx).
Qed.

Lemma fill_path_ok q m s node :
  oq = Some q → path_state m s → Z.of_nat m < h → node = tree_node m (sib q m) →
  ∃ s', Gen.fill_path s node = Ok s' ∧ path_state (S m) s' ∧ Gen.ts_k s' = Gen.ts_k s ∧
    Gen.ts_pub_key_stack s' = Gen.ts_pub_key_stack s ∧ Gen.ts_stack_idx s' = Gen.ts_stack_idx s.
Proof.
  intros Eq Hs Hm ->. unfold path_state in *. destruct (Hoq q Eq) as [Hq Hlen]. rewrite Eq in *.
  destruct Hs as (Ht & Hl & Hsig & _). unfold Gen.fill_path. rewrite Hsig, Hl, Ht.
  rewrite (length_path_at q m), (proj2 (Nat.ltb_lt _ _)) by lia.
  eexists. split; [done|]. cbn. rewrite path_at_insert by (done || lia). split_and!; try done; [|lia].
  rewrite <- Z.div2_spec, Z.div2_div. unfold sib at 2. rewrite anc_S. f_equal.
  destruct (sib_cases q m Hq ltac:(lia)) as [[? ->]|[? ->]]; dlia.
Qed.

Lemma path_state_ext m s s' :
  Gen.ts_target_node s' = Gen.ts_target_node s → Gen.ts_level s' = Gen.ts_level s →
  Gen.ts_sig s' = Gen.ts_sig s → path_state m s → path_state m s'.
Proof. intros E1 E2 E3. unfold path_state. by rewrite E1, E2, E3. Qed.

(** The two tests of the merge loop at a right child [x] of height [l]. *)
Definition path_tests (x : Z) (s : Gen.tree_state) : hres Gen.tree_state :=
  s ← (if x =? u32w (Gen.ts_target_node s + 1) then
         left ← Gen.stack_top (Gen.ts_pub_key_stack s) (Gen.ts_stack_idx s); Gen.fill_path s left
       else Ok s);
  (if x =? Gen.ts_target_node s then Gen.fill_path s (Gen.ts_k s) else Ok s).

Definition same_stack (s s' : Gen.tree_state) : Prop :=
  Gen.ts_k s' = Gen.ts_k s ∧ Gen.ts_pub_key_stack s' = Gen.ts_pub_key_stack s ∧
  Gen.ts_stack_idx s' = Gen.ts_stack_idx s.

Lemma path_tests_miss l m x s :
  Z.of_nat l < h → at_height l x → x mod 2 = 1 → path_state m s → inside (S l) (x / 2) = false →
  path_tests x s = Ok s.
Proof.
  intros Hl Hx Hodd Hs Hin. pose proof (height_ge_2 l x Hl Hx). unfold path_tests, path_state, inside in *.
  destruct oq as [q|] eqn:Eq.
  - destruct (Hoq q eq_refl) as [Hq _]. destruct Hs as (Ht & _ & _ & Hm). rewrite Ht.
    apply Z.eqb_neq in Hin. destruct (path_miss q l m x) as [H1 H2]; [done..|].
    rewrite (proj2 (Z.eqb_neq _ _) H1). cbn [mbind res_bind]. by rewrite Ht, (proj2 (Z.eqb_neq _ _) H2).
  - destruct Hs as [Ht _]. rewrite Ht. change (u32w (1 + 1)) with 2.
    rewrite (proj2 (Z.eqb_neq x 2)) by dlia. cbn [mbind res_bind].
    by rewrite Ht, (proj2 (Z.eqb_neq x 1)) by lia.
Qed.

Lemma path_tests_hit l x s left q :
  oq = Some q → Z.of_nat l < h → at_height l x → x mod 2 = 1 → path_state l s → anc q (S l) = x / 2 →
  Gen.ts_pub_key_stack s !! Gen.ts_stack_idx s = Some left → left = tree_node l (x - 1) →
  Gen.ts_k s = tree_node l x →
  ∃ s', path_tests x s = Ok s' ∧ path_state (S l) s' ∧ same_stack s s'.
Proof.
  intros Eq Hl Hx Hodd Hs Hin Hleft Eleft Ek. destruct (Hoq q Eq) as [Hq Hlen].
  assert (Hs' : Gen.ts_target_node s = sib q l) by (unfold path_state in Hs; rewrite Eq in Hs; apply Hs).
  pose proof (sib_bound q l Hq ltac:(lia)). rewrite anc_S in Hin. unfold path_tests. rewrite Hs'.
  rewrite (wrap_small 32) by (unfold in_u; change (2 ^ 27) with 134217728 in *; change (2 ^ 32) with 4294967296; lia).
  destruct (sib_cases q l Hq ltac:(lia)) as [[Ho Es]|[He Es]].
  - assert (Ex : anc q l = x) by dlia. rewrite (proj2 (Z.eqb_eq _ _)) by lia.
    unfold Gen.stack_top. rewrite Hleft. cbn [unwrap mbind res_bind].
    destruct (fill_path_ok q l s left Eq Hs Hl) as (s1 & E1 & Hs1 & Hk & Hst & Hi); [subst left; f_equal; lia|].
    rewrite E1. cbn [mbind res_bind].
    assert (Ht1 : Gen.ts_target_node s1 = sib q (S l)) by (unfold path_state in Hs1; rewrite Eq in Hs1; apply Hs1).
    rewrite Ht1, (proj2 (Z.eqb_neq _ _)); [by exists s1|]. intros Hxs.
    destruct (Z.eq_dec (Z.of_nat (S l)) h) as [Htop|].
    + rewrite (sib_top q (S l)) in Hxs by done. pose proof (height_ge_2 l x Hl Hx). lia.
    + assert (l = S l); [|lia]. apply (at_height_inj l (S l) x); [lia|lia|done|].
      rewrite Hxs. apply sib_height; [done|lia].
  - assert (Ex : anc q l + 1 = x) by dlia. rewrite (proj2 (Z.eqb_neq _ _)) by lia. cbn [mbind res_bind].
    rewrite Hs', (proj2 (Z.eqb_eq _ _)) by lia.
    destruct (fill_path_ok q l s (Gen.ts_k s) Eq Hs Hl) as (s1 & E1 & Hs1 & Hk & Hst & Hi);
      [rewrite Ek; f_equal; lia|]. by exists s1.
Qed.

(** Both cases: the number of entries filled after the merge at [x]. *)
Lemma path_tests_ok l m x s left :
  Z.of_nat l < h → at_height l x → x mod 2 = 1 → path_state m s →
  (inside (S l) (x / 2) = true → m = l) →
  Gen.ts_pub_key_stack s !! Gen.ts_stack_idx s = Some left → left = tree_node l (x - 1) →
  Gen.ts_k s = tree_node l x →
  ∃ s', path_tests x s = Ok s' ∧ path_state (if inside (S l) (x / 2) then S l else m) s' ∧ same_stack s s'.
Proof.
  intros Hl Hx Hodd Hs Hm Hleft Eleft Ek. destruct (inside (S l) (x / 2)) eqn:Hin.
  - rewrite (Hm eq_refl) in Hs. apply inside_true in Hin as (q & Eq & Hin).
    by apply (path_tests_hit l x s left q).
  - exists s. split; [by apply (path_tests_miss l m)|]. done.
Qed.

(** *** The stack *)

(** [s'] is [s] with the node [x] of height [l] in [k] and with the stack
    unchanged below its index. *)
Definition subtree_done (l m : nat) (x : Z) (s s' : Gen.tree_state) : Prop :=
  Gen.ts_k s' = tree_node l x ∧ path_state m s' ∧ Gen.ts_stack_idx s' = Gen.ts_stack_idx s ∧
  length (Gen.ts_pub_key_stack s') = length (Gen.ts_pub_key_stack s) ∧
  take (Gen.ts_stack_idx s) (Gen.ts_pub_key_stack s') = take (Gen.ts_stack_idx s) (Gen.ts_pub_key_stack s).

(** One iteration of the merge loop at a right child [x] of height [l]. *)
Lemma merge_step fuel l m x j s left n :
  Z.of_nat l < h → at_height l x → x mod 2 = 1 → j mod 2 = 1 → path_state m s →
  (inside (S l) (x / 2) = true → m = l) →
  Gen.ts_stack_idx s = S n → Gen.ts_pub_key_stack s !! n = Some left → left = tree_node l (x - 1) →
  Gen.ts_k s = tree_node l x →
  ∃ s', Gen.merge_loop T (S fuel) id x j x s = Gen.merge_loop T fuel id (x / 2) (j / 2) (x / 2) s' ∧
    Gen.ts_k s' = tree_node (S l) (x / 2) ∧
    path_state (if inside (S l) (x / 2) then S l else m) s' ∧ Gen.ts_stack_idx s' = n ∧
    Gen.ts_pub_key_stack s' = Gen.ts_pub_key_stack s.
Proof.
  intros Hl Hx Hodd Hj Hs Hm Hidx Hleft Eleft Ek. cbn [Gen.merge_loop].
  rewrite Hj, Hidx. cbn [Z.eqb Pos.eqb Nat.eqb err_if_panic mbind res_bind Nat.sub]. rewrite Nat.sub_0_r.
  set (s0 := Gen.set_idx s n).
  destruct (path_tests_ok l m x s0 left) as (s1 & E1 & Hs1 & Hk & Hst & Hi); try done.
  unfold path_tests in E1. apply res_bind_ok_inv in E1 as (s2 & E2 & E1).
  rewrite E2. cbn [mbind res_bind]. rewrite E1. cbn [mbind res_bind]. rewrite Hst, Hi.
  unfold Gen.stack_top at 1. cbn [s0 Gen.set_idx Gen.ts_pub_key_stack Gen.ts_stack_idx].
  rewrite Hleft. cbn [unwrap mbind res_bind]. rewrite <- !Z.div2_spec, !Z.div2_div.
  eexists. split; [done|]. cbn [Gen.set_k Gen.ts_k Gen.ts_stack_idx Gen.ts_pub_key_stack]. split_and!; [|done..].
  rewrite hash192_ok, Hk. cbn [concat tree_node s0 Gen.set_idx Gen.ts_k]. rewrite app_nil_r, Ek, Eleft.
  replace (2 * (x / 2)) with (x - 1) by dlia. by replace (x - 1 + 1) with x by lia.
Qed.

Lemma inside_parent l x : inside (S l) x = inside l (2 * x) || inside l (2 * x + 1).
Proof.
  unfold inside. destruct oq as [q|]; [|done]. rewrite anc_S.
  destruct (Z.eqb_spec (anc q l / 2) x), (Z.eqb_spec (anc q l) (2 * x)), (Z.eqb_spec (anc q l) (2 * x + 1));
    try done; exfalso; dlia.
Qed.

Lemma inside_excl l x : inside l (2 * x) = true → inside l (2 * x + 1) = true → False.
Proof. unfold inside. destruct oq as [q|]; [|done]. intros ?%Z.eqb_eq ?%Z.eqb_eq. lia. Qed.

Lemma foldR_app {E A B} (f : B → A → result E B) b l1 l2 :
  foldR f b (l1 ++ l2) = (b' ← foldR f b l1; foldR f b' l2).
Proof. revert b. induction l1 as [|a l1 IH]; intros b; [done|]. simpl. destruct (f b a); [apply IH|done|done]. Qed.

Lemma seqZ_halves c (l : nat) :
  seqZ (c * 2 ^ Z.of_nat (S l)) (2 ^ Z.of_nat (S l)) =
  seqZ (2 * c * 2 ^ Z.of_nat l) (2 ^ Z.of_nat l) ++ seqZ ((2 * c + 1) * 2 ^ Z.of_nat l) (2 ^ Z.of_nat l).
Proof.
  rewrite Nat2Z.inj_succ, Z.pow_succ_r, <- Z.add_diag by lia.
  rewrite seqZ_app by (apply Z.pow_nonneg; lia). f_equal; f_equal; lia.
Qed.

(** A left child is pushed. *)
Lemma push_left fuel l m x j s s1 :
  subtree_done l m x s s1 → j mod 2 = 0 → (Gen.ts_stack_idx s < length (Gen.ts_pub_key_stack s))%nat →
  ∃ s2, (Gen.merge_loop T fuel id x j x s1 ≫= Gen.push_k) = Ok s2 ∧ path_state m s2 ∧
    Gen.ts_stack_idx s2 = S (Gen.ts_stack_idx s) ∧
    length (Gen.ts_pub_key_stack s2) = length (Gen.ts_pub_key_stack s) ∧
    take (S (Gen.ts_stack_idx s)) (Gen.ts_pub_key_stack s2) =
      take (Gen.ts_stack_idx s) (Gen.ts_pub_key_stack s) ++ [tree_node l x].
Proof.
  intros (Hk & Hp & Hi & Hl & Ht) Hj Hlt.
  assert (E : Gen.merge_loop T fuel id x j x s1 = Ok s1) by (destruct fuel; cbn [Gen.merge_loop]; by rewrite Hj).
  rewrite E. cbn [mbind res_bind]. unfold Gen.push_k. rewrite Hi, Hl, (proj2 (Nat.ltb_lt _ _) Hlt).
  eexists. split; [done|]. cbn [Gen.ts_stack_idx Gen.ts_pub_key_stack]. split_and!; [done|done| |].
  - by rewrite length_insert.
  - rewrite <- Ht, Hk, (take_S_r _ _ (tree_node l x)) by (apply list_lookup_insert_eq; lia).
    by rewrite take_insert_ge by lia.
Qed.

Abbreviation lstep := (Gen.leaf_step T id p w h seed).
Abbreviation node l c := (2 ^ (h - Z.of_nat l) + c).

Lemma take_S_inv {A} n (l l0 : list A) x :
  (n ≤ length l0)%nat → take (S n) l = take n l0 ++ [x] → l !! n = Some x ∧ take n l = take n l0.
Proof.
  intros Hn E. split.
  - rewrite <- (lookup_take_lt _ (S n)), E by lia. apply list_lookup_middle. rewrite length_take. lia.
  - apply (f_equal (take n)) in E. rewrite take_take, Nat.min_l in E by lia. rewrite E.
    rewrite take_app_le, take_take, Nat.min_id by (rewrite length_take; lia). done.
Qed.

Lemma node_double l c : Z.of_nat (S l) ≤ h → 2 * node (S l) c = node l (2 * c).
Proof.
  intros Hl. replace (h - Z.of_nat l) with (Z.succ (h - Z.of_nat (S l))) by lia.
  rewrite Z.pow_succ_r by lia. lia.
Qed.

(** A right child is merged with the left one on the stack. *)
Lemma merge_right l m c s s3 :
  Z.of_nat (S l) ≤ h → 0 ≤ c < 2 ^ (h - Z.of_nat (S l)) → (l < 32)%nat →
  Gen.ts_k s3 = tree_node l (node l (2 * c) + 1) → path_state m s3 →
  (inside (S l) (node (S l) c) = true → m = l) →
  Gen.ts_stack_idx s3 = S (Gen.ts_stack_idx s) → (Gen.ts_stack_idx s ≤ length (Gen.ts_pub_key_stack s))%nat →
  length (Gen.ts_pub_key_stack s3) = length (Gen.ts_pub_key_stack s) →
  take (S (Gen.ts_stack_idx s)) (Gen.ts_pub_key_stack s3) =
    take (Gen.ts_stack_idx s) (Gen.ts_pub_key_stack s) ++ [tree_node l (node l (2 * c))] →
  ∃ s4, subtree_done (S l) (if inside (S l) (node (S l) c) then S l else m) (node (S l) c) s s4 ∧
    Gen.merge_loop T (32 - l) id (node l (2 * c) + 1) (2 * c + 1) (node l (2 * c) + 1) s3 =
    Gen.merge_loop T (32 - S l) id (node (S l) c) c (node (S l) c) s4.
Proof.
  intros Hl Hc Hl32 Hk Hp Hm Hi Hr Hlen Ht.
  pose proof (node_double l c Hl) as E2. rewrite <- E2 in *. set (x := node (S l) c) in *.
  assert (Hxh : (2 * x + 1) / 2 = x) by dlia.
  apply take_S_inv in Ht as [Hleft Ht]; [|done].
  destruct (merge_step (31 - l) l m (2 * x + 1) (2 * c + 1) s3 (tree_node l (2 * x)) (Gen.ts_stack_idx s))
    as (s4 & E4 & Hk4 & Hp4 & Hi4 & Hst4); try done; [lia| |dlia|dlia|by rewrite Hxh|f_equal; lia|].
  { unfold at_height. replace (h - Z.of_nat l) with (Z.succ (h - Z.of_nat (S l))) by lia.
    rewrite Z.pow_succ_r by lia. unfold x. lia. }
  rewrite Hxh in *. exists s4. split.
  - unfold subtree_done. rewrite Hst4. done.
  - replace (32 - l)%nat with (S (31 - l)) by lia. rewrite E4.
    replace ((2 * c + 1) / 2) with c by dlia. by replace (31 - l)%nat with (32 - S l)%nat by lia.
Qed.

(** The leaves of a subtree, processed in order, leave its root in [k]; what
    remains is the merge of that root and its push. *)
Lemma subtree_ok l c m s :
  Z.of_nat l ≤ h → 0 ≤ c < 2 ^ (h - Z.of_nat l) → length (Gen.ts_pub_key_stack s) = Z.to_nat h →
  (Gen.ts_stack_idx s + l ≤ Z.to_nat h)%nat → path_state m s → (inside l (node l c) = true → m = 0%nat) →
  ∃ s', subtree_done l (if inside l (node l c) then l else m) (node l c) s s' ∧
    foldR lstep s (seqZ (c * 2 ^ Z.of_nat l) (2 ^ Z.of_nat l)) =
    (Gen.merge_loop T (32 - l) id (node l c) c (node l c) s' ≫= Gen.push_k).
Proof.
  revert c m s. induction l as [|l IH]; intros c m s Hl Hc Hlen Hroom Hp Hm.
  - change (Z.of_nat 0) with 0 in *. rewrite Z.sub_0_r in *. exists (Gen.set_k s (tree_node 0 (2 ^ h + c))). split.
    + unfold subtree_done. cbn [Gen.set_k Gen.ts_k Gen.ts_stack_idx Gen.ts_pub_key_stack]. split_and!; try done.
      destruct (inside 0 (2 ^ h + c)) eqn:Hin; [|done]. by rewrite (Hm eq_refl) in Hp.
    + change (2 ^ 0) with 1. rewrite Z.mul_1_r, seqZ_cons by lia.
      change (seqZ (Z.succ c) (Z.pred 1)) with (@nil Z). cbn [foldR].
      unfold Gen.leaf_step. rewrite !Z.shiftl_mul_pow2, Z.mul_1_l, hash192_ok by lia. cbn [concat tree_node].
      rewrite app_nil_r, (Z.add_comm c), Z.add_simpl_l, Nat.sub_0_r.
      by destruct (Gen.merge_loop _ _ _ _ _ _ _ ≫= _).
  - pose proof (node_double l c Hl) as E2. rewrite inside_parent in Hm. rewrite E2 in Hm.
    assert (ER : node l (2 * c + 1) = node l (2 * c) + 1) by lia.
    assert (Hpow : 2 ^ (h - Z.of_nat l) = 2 * 2 ^ (h - Z.of_nat (S l)))
      by (rewrite <- Z.pow_succ_r by lia; f_equal; lia).
    destruct (IH (2 * c) m s) as (s1 & Hs1 & E1);
      [lia|lia|done|lia|done|intros Hin; apply Hm; by rewrite Hin|].
    destruct (push_left (32 - l) _ _ _ (2 * c) s s1 Hs1) as (s2 & Es2 & Hp2 & Hi2 & Hl2 & Ht2); [dlia|lia|].
    rewrite Es2 in E1. set (m1 := if inside l (node l (2 * c)) then l else m) in *.
    destruct (IH (2 * c + 1) m1 s2) as (s3 & (Hk3 & Hp3 & Hi3 & Hl3 & Ht3) & E3);
      [lia|lia|congruence|lia|done| |]; rewrite ER in *.
    { intros Hin. unfold m1. destruct (inside l (node l (2 * c))) eqn:Hin'; [|apply Hm; by rewrite Hin].
      rewrite <- E2 in *. by destruct (inside_excl l (node (S l) c)). }
    rewrite Hi2, Ht2 in Ht3.
    destruct (merge_right l (if inside l (node l (2 * c) + 1) then l else m1) c s s3) as (s4 & Hs4 & E4);
      try done; [lia| |congruence|lia|congruence|].
    { rewrite inside_parent, E2. unfold m1. by destruct (inside l (node l (2 * c))), (inside l _). }
    exists s4. split.
    + revert Hs4. rewrite inside_parent, E2. unfold m1.
      by destruct (inside l (node l (2 * c))), (inside l (node l (2 * c) + 1)).
    + rewrite seqZ_halves, foldR_app, E1. cbn [mbind res_bind].
      by rewrite E3, E4.
Qed.

(** The whole tree, from the initial state of the function. *)
Lemma leaves_ok s :
  length (Gen.ts_pub_key_stack s) = Z.to_nat h → Gen.ts_stack_idx s = 0%nat → path_state 0 s →
  ∃ s', foldR lstep s (seqZ 0 (2 ^ h)) = Ok s' ∧ Gen.ts_stack_idx s' = 1%nat ∧
    Gen.ts_pub_key_stack s' !! 0%nat = Some (tree_node (Z.to_nat h) 1) ∧
    path_state (match oq with Some _ => Z.to_nat h | None => 0%nat end) s'.
Proof.
  intros Hlen Hi Hp. destruct (subtree_ok (Z.to_nat h) 0 0 s) as (s1 & Hs1 & E);
    [lia|rewrite Z2Nat.id, Z.sub_diag by lia; lia|done|lia|done|done|].
  rewrite Z2Nat.id in * by lia. rewrite Z.sub_diag in *. change (2 ^ 0 + 0) with 1 in *.
  destruct (push_left (32 - Z.to_nat h) _ _ _ 0 s s1 Hs1) as (s2 & E2 & Hp2 & Hi2 & Hl2 & Ht2); [done|lia|].
  rewrite Z.mul_0_l, E2 in E. exists s2. rewrite Hi in *. split_and!; [done..| |].
  - apply take_S_inv in Ht2 as [Ht2 _]; [done|lia].
  - assert (Hin : inside (Z.to_nat h) 1 = bool_decide (is_Some oq)).
    { unfold inside. destruct oq as [q|]; [|done]. destruct (Hoq q eq_refl). by rewrite anc_top. }
    rewrite Hin in Hp2. by destruct oq.
Qed.
End Path.

(** The verifier's walk over the path of [q] ends at the root. *)
Lemma climb q l :
  0 ≤ q < 2 ^ h → (l ≤ Z.to_nat h)%nat →
  tree_root 24 id (anc q l) (tree_node l (anc q l))
    (map (λ i, tree_node i (sib q i)) (seq l (Z.to_nat h - l))) = tree_node (Z.to_nat h) 1.
Proof.
  intros Hq. remember (Z.to_nat h - l)%nat as k eqn:Ek. revert l Ek.
  induction k as [|k IH]; intros l Ek Hl; cbn [seq map tree_root].
  - replace l with (Z.to_nat h) by lia. by rewrite anc_top.
  - rewrite <- (IH (S l)) by lia. rewrite anc_S. f_equal. cbn [tree_node]. do 4 f_equal.
    destruct (sib_cases q l Hq ltac:(lia)) as [[Hm Hs]|[Hm Hs]]; rewrite Hm, Hs; cbn [Z.eqb Pos.eqb].
    + replace (2 * (anc q l / 2)) with (anc q l - 1) by dlia. by replace (anc q l - 1 + 1) with (anc q l) by lia.
    + by replace (2 * (anc q l / 2)) with (anc q l) by dlia.
Qed.
End Tree.

Lemma pubkey_helper_root id seed p w h ots :
  1 ≤ h ≤ 25 → Gen.ots_params ots = (p, w) →
  Gen.generate_lms_pubkey_helper T id ots h seed None None =
  Ok (words_le (tree_node id seed p w h (Z.to_nat h) 1), None).
Proof.
  intros Hh Hots. unfold Gen.generate_lms_pubkey_helper. rewrite Hots, Z.shiftl_mul_pow2, Z.mul_1_l by lia.
  set (s0 := Gen.mkTreeState _ _ _ _ _ _).
  destruct (leaves_ok id seed p w h Hh None [] ltac:(done) s0) as (s1 & E & Hi & Hr & Hp);
    [apply length_replicate|done|done|].
  rewrite E. cbn [mbind res_bind]. rewrite Hi. cbn [Nat.eqb err_if_panic mbind res_bind Nat.sub].
  unfold Gen.stack_top. rewrite Hr. cbn [unwrap mbind res_bind]. by destruct Hp as [_ ->].
Qed.

Lemma pubkey_helper_path id seed p w h ots q path :
  1 ≤ h ≤ 25 → Gen.ots_params ots = (p, w) → 0 ≤ q < 2 ^ h → h ≤ Z.of_nat (length path) →
  Gen.generate_lms_pubkey_helper T id ots h seed (Some q) (Some path) =
  Ok ([], Some (path_at id seed p w h path q (Z.to_nat h))).
Proof.
  intros Hh Hots Hq Hpath. unfold Gen.generate_lms_pubkey_helper. rewrite Hots, Z.shiftl_mul_pow2, Z.mul_1_l by lia.
  set (s0 := Gen.mkTreeState _ _ _ _ _ _).
  destruct (leaves_ok id seed p w h Hh (Some q) path) with (s := s0) as (s1 & E & _ & _ & Hp).
  - by intros ? [= <-].
  - apply length_replicate.
  - done.
  - unfold path_state, s0, path_at, sib, anc. cbn. split_and!; [|done..|lia].
    rewrite Z.div_1_r, wrap_small; [done|]. split; [lia|].
    assert (2 ^ h ≤ 2 ^ 25) by (apply Z.pow_le_mono_r; lia). lia.
  - rewrite E. cbn [mbind res_bind]. by destruct Hp as (_ & _ & -> & _).
Qed.

(** ** The one-time signature *)

(** The table entry for a supported one-time algorithm. *)
Definition gen_prm (ots : Z) : LmotsParameter :=
  if ots =? LmotsSha256N24W8 then mkLmotsParameter LmotsSha256N24W8 24 8 26 0
  else mkLmotsParameter LmotsSha256N24W4 24 4 51 4.

Lemma gen_prm_ok ots : lmots_ok (gen_prm ots) ∧ lp_n (gen_prm ots) = 24.
Proof. unfold gen_prm. case_match; (split; [|done]); unfold lmots_ok; simpl;
  rewrite !elem_of_cons; tauto. Qed.

Lemma gen_prm_name ots :
  Gen.check_otstype ots = Ok tt → algorithm_name (gen_prm ots) = ots.
Proof.
  unfold Gen.check_otstype, gen_prm. intros Hc. case_match; [|done].
  destruct (Z.eqb_spec ots LmotsSha256N24W8); [done|].
  destruct (Z.eqb_spec ots IMAGE_LMS_OTS_TYPE); [done|].
  by destruct (Z.eqb_spec ots IMAGE_LMS_OTS_TYPE_8).
Qed.

Lemma ots_params_prm ots : Gen.ots_params ots = (Z.to_nat (lp_p (gen_prm ots)), lp_w (gen_prm ots)).
Proof. unfold Gen.ots_params, gen_prm, IMAGE_LMS_OTS_TYPE_8. by case_match. Qed.

Lemma ots_sig_params_prm ots :
  Gen.ots_sig_params ots = (Z.to_nat (lp_p (gen_prm ots)), lp_w (gen_prm ots), lp_ls (gen_prm ots)).
Proof. unfold Gen.ots_sig_params, gen_prm. by case_match. Qed.

Lemma gen_coefficient_coef s i w :
  w ∈ [1; 2; 4; 8] → 0 ≤ i → i * w / 8 < Z.of_nat (length s) →
  Gen.expect (Gen.coefficient s i w) = Ok (coef s i w).
Proof. intros. unfold Gen.coefficient. by rewrite coefficient_digit_coef. Qed.

(** A loop that fills an array from its first entry. *)
Lemma foldR_fill {E A} (f : nat → result E A) (g : nat → A) (n : nat) (l0 : list A) :
  (n ≤ length l0)%nat → (∀ i, (i < n)%nat → f i = Ok (g i)) →
  foldR (λ l i, a ← f i; Ok (<[i := a]> l)) l0 (seq 0 n) = Ok (map g (seq 0 n) ++ drop n l0).
Proof.
  intros Hn Hf. induction n as [|n IH]; [done|].
  rewrite seq_S, foldR_app, IH by (auto with lia). cbn [mbind res_bind foldR]. rewrite Hf by lia.
  cbn [mbind res_bind]. f_equal. rewrite map_app, <- app_assoc.
  rewrite insert_app_r_alt by (rewrite length_map, length_seq; lia).
  rewrite length_map, length_seq, Nat.sub_diag. destruct (lookup_lt_is_Some_2 l0 n) as [x Hx]; [lia|].
  by rewrite (drop_S _ _ _ Hx).
Qed.

Lemma foldR_ext {E A B} (f g : B → A → result E B) b l :
  (∀ b a, f b a = g b a) → foldR f b l = foldR g b l.
Proof.
  intros Hfg. revert b. induction l as [|a l IH]; intros b; [done|]. cbn [foldR]. rewrite Hfg.
  destruct (g b a); [apply IH|done|done].
Qed.

(** Digit [i] of the message hash followed by the checksum. *)
Lemma ots_coefficient_ok w ls Q i p :
  w ∈ [4; 8] → length Q = 24%nat → 0 ≤ i < p → (p - 1) * w / 8 < 26 →
  Gen.ots_coefficient Q (to_be 2 (cksm 24 w ls Q)) (Z.of_nat 24 * 8 / w) w i =
  Ok (coef (ots_digits 24 w ls Q) i w).
Proof.
  intros Hw HQ Hi Hp. assert (Hw' : w ∈ [1; 2; 4; 8]) by (rewrite !elem_of_cons in *; tauto).
  assert (Ed : Z.of_nat 24 * 8 / w = Z.of_nat (length Q) * (8 / w)).
  { rewrite HQ. rewrite !elem_of_cons, elem_of_nil in Hw. by destruct Hw as [->|[->|[]]]. }
  unfold Gen.ots_coefficient, ots_digits. rewrite Ed.
  assert (Hpw : i * w ≤ (p - 1) * w) by (case_w Hw'; lia).
  destruct (Z.ltb_spec i (Z.of_nat (length Q) * (8 / w))) as [Hlt|Hge].
  - assert (i * w / 8 < Z.of_nat (length Q)) by (rewrite HQ in *; clear Ed; case_w Hw'; dlia).
    rewrite gen_coefficient_coef, coef_app_l by (done || lia). done.
  - rewrite coef_app_r by done. apply gen_coefficient_coef; [done|lia|].
    rewrite length_to_be, HQ in *. clear Ed. case_w Hw'; dlia.
Qed.

Lemma ots_signature_ok message ots id seed rand q :
  let prm := gen_prm ots in
  let Q := H_n 24 (id ++ to_be 4 q ++ to_be 2 D_MESG ++ rand ++ message) in
  let y i := chain_at id q (Z.to_nat (lp_p prm)) seed i
               (coef (ots_digits 24 (lp_w prm) (lp_ls prm) Q) (Z.of_nat i) (lp_w prm)) in
  length rand = 24%nat →
  Gen.generate_ots_signature_helper T message ots id seed rand q =
  Ok (mkLmotsSignature ots (words_le rand)
        (map (λ i, words_le (y i)) (seq 0 (Z.to_nat (lp_p prm))) ++
         drop (Z.to_nat (lp_p prm)) (replicate 51 (replicate 6 0)))).
Proof.
  intros prm Q y Hrand. destruct (gen_prm_ok ots) as [Hp Hn]. fold prm in Hp, Hn.
  destruct (lmots_ok_facts _ Hp) as (Hw & _ & Hls & Hpw & Hb & Hp265 & _). rewrite Hn in *.
  assert (Hw48 : lp_w prm ∈ [4; 8] ∧ (Z.to_nat (lp_p prm) ≤ 51)%nat ∧ 0 ≤ lp_p prm).
  { unfold prm, gen_prm. case_match; (split; [by apply (bool_decide_eq_true_1 _)|simpl; lia]). }
  destruct Hw48 as (Hw48 & Hp51 & Hp0).
  unfold Gen.generate_ots_signature_helper. rewrite ots_sig_params_prm. fold prm.
  rewrite Hrand. cbn [Nat.eqb SHA192_DIGEST_BYTE_SIZE negb err_if_panic mbind res_bind].
  rewrite hash192_ok. cbn [concat]. rewrite app_nil_r. fold Q.
  assert (HQ : length Q = 24%nat) by (apply length_H_n; lia).
  set (w := lp_w prm) in *. set (ls := lp_ls prm) in *.
  assert (Hm : u16w (Z.shiftl 1 w - 1) = 2 ^ w - 1) by (clearbody w; case_w Hw; done). rewrite Hm.
  assert (Ed : Z.of_nat SHA192_DIGEST_BYTE_SIZE * 8 / w = Z.of_nat 24 * (8 / w))
    by (clearbody w; case_w Hw; done). rewrite Ed.
  rewrite (foldR_pure _ (λ sum i, u16w (sum + u16w (2 ^ w - 1 - coef Q i w)))).
  2:{ intros sum i Hi. apply elem_of_seqZ in Hi.
      rewrite gen_coefficient_coef; [done..|lia|rewrite HQ; clearbody w; case_w Hw; dlia]. }
  cbn [mbind res_bind]. rewrite checksum_loop by done. rewrite <- Ed.
  rewrite (foldR_ext _ (λ l i, a ← (c ← Gen.ots_coefficient Q (to_be 2 (cksm 24 w ls Q))
    (Z.of_nat 24 * 8 / w) w (Z.of_nat i);
    Ok (words_le (Gen.chain_from_start T id q i c (nth i (Gen.gen_x T id q (Z.to_nat (lp_p prm)) seed) []))));
    Ok (<[i := a]> l))).
  2:{ intros l i. by destruct (Gen.ots_coefficient _ _ _ _ _). }
  rewrite (foldR_fill _ (λ i, words_le (y i))); [done|by rewrite length_replicate|].
  intros i Hi. rewrite (ots_coefficient_ok w ls Q (Z.of_nat i) (lp_p prm)) by (done || lia).
  cbn [mbind res_bind]. unfold y, chain_at. fold w ls.
  rewrite <- chain_from_start_ok by lia.
  rewrite Z2Nat.id by (apply coef_range; done). done.
Qed.

(** ** Signing, then verifying *)

(** 24-byte hashes survive the conversion to six words. *)
Lemma bytes_words_24 l : length l = 24%nat ∧ is_bytes l → bytes_le (words_le l) = l ∧ length (words_le l) = 6%nat.
Proof.
  intros [Hl Hb]. rewrite length_words_le, Hl. split; [|done]. apply bytes_le_words_le; [done|].
  rewrite Hl. by exists 6.
Qed.

(** The one-time public key recovered from a one-time signature. *)
Lemma ots_Kc_ok id q seed Q prm :
  lp_w prm ∈ [1; 2; 4; 8] → 0 ≤ lp_p prm < 2 ^ 16 →
  ots_Kc 24 (lp_w prm) (lp_ls prm) id q Q
    (map (λ i, chain_at id q (Z.to_nat (lp_p prm)) seed i
                 (coef (ots_digits 24 (lp_w prm) (lp_ls prm) Q) (Z.of_nat i) (lp_w prm)))
       (seq 0 (Z.to_nat (lp_p prm)))) =
  Gen.generate_lmots_pubkey_helper T id q (Z.to_nat (lp_p prm)) (lp_w prm) seed.
Proof.
  intros Hw Hp. rewrite gen_k_ok by (done || lia). unfold ots_Kc. do 5 f_equal.
  apply list_eq. intros i. rewrite list_lookup_imap, !list_lookup_fmap.
  destruct (seq 0 (Z.to_nat (lp_p prm)) !! i) as [j|] eqn:E; [|done].
  apply lookup_seq in E as [-> _]. simpl. by rewrite chain_at_complete.
Qed.

(** The const-generic view of a signature: [P] chains, [H] path entries. *)
Definition resize (P H : nat) (sg : LmsSignature) : LmsSignature :=
  mkLmsSignature (sig_q sg)
    (mkLmotsSignature (ots_type (sig_ots sg)) (ots_nonce (sig_ots sg)) (take P (ots_y (sig_ots sg))))
    (sig_tree_type sg) (take H (sig_tree_path sg)).

Definition supported_leaf (h q : Z) : Prop := h ≤ LMS_TREE_GEN_SUPPORTED_FULL_HEIGHT ∨ q = SUPPORTED_LMS_Q_VALUE.

Lemma lms_height_inv t h :
  Gen.lms_height t = Ok h → (h = 15 ∨ h = 5) ∧ get_lms_parameters t = Ok (24, h).
Proof.
  unfold Gen.lms_height. destruct (Z.eqb_spec t IMAGE_LMS_TREE_TYPE) as [->|]; [by intros [= <-]; auto|].
  destruct (Z.eqb_spec t IMAGE_LMS_TREE_TYPE_HT_5) as [->|]; [by intros [= <-]; auto|done].
Qed.

Section Sign.
Context (sk : LmsPrivateKey) (h : Z) (message nonce : list Z) (q : Z).
Hypothesis Hheight : Gen.lms_height (sk_tree_type sk) = Ok h.
Hypothesis Hots : Gen.check_otstype (sk_otstype sk) = Ok tt.
Hypothesis Hid : length (sk_id sk) = 16%nat ∧ is_bytes (sk_id sk).
Hypothesis Hnonce : length nonce = 24%nat ∧ is_bytes nonce.
Hypothesis Hq : 0 ≤ q < 2 ^ h.

Let id := sk_id sk.
Let seed := bytes_le (sk_seed sk).
Let prm := gen_prm (sk_otstype sk).
Let P := Z.to_nat (lp_p prm).
Let H := Z.to_nat h.
Let Q := H_n 24 (id ++ to_be 4 q ++ to_be 2 D_MESG ++ nonce ++ message).
Let y i := chain_at id q P seed i (coef (ots_digits 24 (lp_w prm) (lp_ls prm) Q) (Z.of_nat i) (lp_w prm)).

(** The key and the signature that the tool produces. *)
Definition made_key : LmsPublicKey :=
  mkLmsPublicKey (sk_tree_type sk) (sk_otstype sk) id (words_le (tree_node id seed P (lp_w prm) h H 1)).

Definition made_sig : LmsSignature :=
  mkLmsSignature q
    (mkLmotsSignature (sk_otstype sk) (words_le nonce)
       (map (λ i, words_le (y i)) (seq 0 P) ++ drop P (replicate 51 (replicate 6 0))))
    (sk_tree_type sk) (path_at id seed P (lp_w prm) h (replicate 15 (replicate 6 0)) q H).

Lemma made_facts : (h = 15 ∨ h = 5) ∧ 0 ≤ lp_p prm ≤ 51 ∧ lmots_ok prm ∧ lp_n prm = 24.
Proof.
  destruct (lms_height_inv _ _ Hheight) as [Hh _]. split_and!; [done| | | |]; try apply gen_prm_ok;
    unfold prm, gen_prm; by case_match.
Qed.

Lemma generate_lms_pubkey_ok : Gen.generate_lms_pubkey T sk = Ok made_key.
Proof using Hcok Hhok Hheight Hots.
  clear Hid Hnonce Hq.
  destruct made_facts as (Hh & _). unfold Gen.generate_lms_pubkey. rewrite Hheight, Hots. cbn [mbind res_bind].
  by rewrite (pubkey_helper_root (sk_id sk) seed P (lp_w prm)) by (lia || apply ots_params_prm).
Qed.

Lemma sign_with_lms_key_ok : Gen.sign_with_lms_key T sk message nonce q = Ok made_sig.
Proof.
  destruct made_facts as (Hh & _). unfold Gen.sign_with_lms_key. rewrite Hheight, Hots. cbn [mbind res_bind].
  rewrite Z.shiftl_mul_pow2, Z.mul_1_l, Z.geb_leb, (proj2 (Z.leb_gt _ _)) by lia. cbn [err_if mbind res_bind].
  rewrite ots_signature_ok by apply Hnonce. fold prm P. cbn [mbind res_bind].
  by rewrite (pubkey_helper_path (sk_id sk) seed P (lp_w prm))
    by (done || apply ots_params_prm || (rewrite ?length_replicate; lia)).
Qed.

Lemma made_lengths :
  length (ots_y (sig_ots made_sig)) = 51%nat ∧ length (sig_tree_path made_sig) = 15%nat.
Proof using Hheight.
  clear Hid Hnonce Hq Hots.
  destruct made_facts as (Hh & HP & _). cbn [made_sig sig_ots ots_y sig_tree_path]. split.
  - rewrite length_app, length_map, length_seq, length_drop, length_replicate. unfold P. lia.
  - rewrite length_path_at; [done|]. rewrite length_replicate. unfold H. lia.
Qed.

Lemma made_y : take P (ots_y (sig_ots made_sig)) = map (λ i, words_le (y i)) (seq 0 P).
Proof. cbn [made_sig sig_ots ots_y]. rewrite take_app_length'; [done|]. by rewrite length_map, length_seq. Qed.

Lemma made_path :
  take H (sig_tree_path made_sig) =
  map (λ i, words_le (tree_node id seed P (lp_w prm) h i (sib h q i))) (seq 0 H).
Proof. cbn [made_sig sig_tree_path]. unfold path_at. rewrite take_app_length'; [done|]. by rewrite length_map, length_seq. Qed.

Lemma made_wf : lms_wf 6 P H prm made_key (resize P H made_sig).
Proof.
  destruct made_facts as (Hh & HP & Hp & Hn). destruct (lms_height_inv _ _ Hheight) as [_ Hpar].
  constructor; cbn [resize sig_ots ots_type ots_nonce ots_y sig_tree_type sig_tree_path sig_q pk_otstype pk_id
                    made_key]; rewrite ?made_y, ?made_path; try done.
  - unfold P. lia.
  - symmetry. by apply gen_prm_name.
  - symmetry. by apply gen_prm_name.
  - exists 24. unfold H. by rewrite Z2Nat.id by lia.
  - by apply bytes_words_24.
  - rewrite length_map, length_seq. split; [done|]. apply Forall_map, Forall_seq. intros i Hi.
    apply bytes_words_24, chain_at_spec. lia.
  - rewrite length_map, length_seq. split; [done|]. apply Forall_map, Forall_seq. intros i Hi.
    apply bytes_words_24, tree_node_spec.
  - unfold H. by rewrite Z2Nat.id by lia.
Qed.

Lemma made_Tc :
  supported_leaf h q →
  lms_Tc 24 (lp_w prm) (lp_ls prm) h id message (resize P H made_sig) = bytes_le (pk_digest made_key).
Proof.
  intros Hsup. destruct made_facts as (Hh & HP & Hp & Hn). destruct (lmots_ok_facts _ Hp) as (Hw & _).
  unfold lms_Tc. cbn [resize sig_ots ots_nonce ots_y sig_tree_path sig_q].
  rewrite made_y, made_path, !map_map. cbn [made_sig sig_q sig_ots ots_nonce].
  rewrite (proj1 (bytes_words_24 _ Hnonce)). fold Q.
  rewrite (map_ext_in _ (λ i, tree_node id seed P (lp_w prm) h i (sib h q i)) (seq 0 H))
    by (intros i _; apply bytes_words_24, tree_node_spec).
  rewrite (map_ext_in _ y (seq 0 P))
    by (intros i Hi; apply in_seq in Hi; apply bytes_words_24, chain_at_spec; lia).
  unfold y. rewrite ots_Kc_ok by (done || lia).
  cbn [made_key pk_digest]. rewrite (proj1 (bytes_words_24 _ (tree_node_spec _ _ _ _ _ _ _))).
  unfold H. rewrite <- (climb id seed P (lp_w prm) h ltac:(lia) q 0) by (done || lia).
  assert (E0 : anc h q 0 = 2 ^ h + q) by (unfold anc; apply Z.div_1_r). rewrite Nat.sub_0_r, E0.
  f_equal. cbn [tree_node]. do 4 f_equal. unfold Gen.leaf_key. rewrite Z.add_simpl_l.
  destruct Hsup as [Hs|Hs].
  - by rewrite (proj2 (Z.leb_le _ _) Hs).
  - by rewrite (proj2 (Z.eqb_eq _ _) Hs), orb_true_r.
Qed.

(** The signature is accepted, over any SHA-256 implementation of the
    verifier's interface. *)
Lemma made_verifies {Sh Op} `{Halg : !Sha256Alg Sh Op, Haok : !Sha256AlgOk Sh Op} (s : Sh) :
  supported_leaf h q → alg_ready s → is_bytes message →
  Z.of_nat (46 + length message) ≤ Driver.SHA256_MAX_DATA_SIZE →
  ∃ s', Lms.verify_lms_signature_generic 6 P H message made_key (resize P H made_sig) s = (Ok Success, s') ∧
    alg_ready s'.
Proof.
  intros Hsup Hs Hmb Hml. unfold Lms.verify_lms_signature_generic.
  destruct (verify_generic_ok 6 P H prm message made_key (resize P H made_sig) s made_wf Hs Hmb)
    as (v & s' & E & Hs' & [_ Hvw] & Ev); [lia|].
  exists s'. rewrite (bind_ok _ _ _ _ _ E). split; [|done].
  rewrite bool_decide_eq_true_2; [done|].
  apply bytes_be_inj; [done|apply hash_value_le_words|].
  rewrite bytes_be_hash_value_le, Ev. unfold H. destruct made_facts as (Hh & _).
  rewrite Z2Nat.id by lia. by apply made_Tc.
Qed.
End Sign.
End Gen.
