(* ===== verification/Sha256Fips.v ===== *)
(** A concrete instance of the parameters of the hash components: the
    compression function of FIPS 180-4, section 6.2.2, and a host hasher that
    buffers its input. The theorems hold for any instance; the examples of
    the development are evaluated on these. *)

From S2P Require Import Prelude Errors Sha256 Sha256Proofs Sha256Alg Lms LmsGen.

(** The round constants of section 4.2.2: the first 32 bits of the fractional
    parts of the cube roots of the first 64 primes. *)
Definition is_prime (n : Z) : bool := forallb (λ d, negb (n mod d =? 0)) (seqZ 2 (Z.sqrt n - 1)).

(** The integer cube root of [n], bit by bit from [2 ^ bits]. *)
Fixpoint cbrt (bits : nat) (r n : Z) : Z :=
  match bits with
  | O => r
  | S b => let r' := r + 2 ^ Z.of_nat b in cbrt b (if r' * r' * r' <=? n then r' else r) n
  end.

Definition K256 : list Z :=
  Eval vm_compute in map (λ p, u32w (cbrt 40 0 (p * 2 ^ 96))) (filter is_prime (seqZ 2 310)).

Definition rotr (x n : Z) : Z := u32w (Z.lor (Z.shiftr x n) (Z.shiftl x (32 - n))).
Definition not32 (x : Z) : Z := Z.lxor x 0xffffffff.

Definition schedule_step (w : list Z) : Z :=
  match w with
  | [w0; w1; w2; w3; w4; w5; w6; w7; w8; w9; w10; w11; w12; w13; w14; w15] =>
      let s0 := Z.lxor (rotr w1 7) (Z.lxor (rotr w1 18) (Z.shiftr w1 3)) in
      let s1 := Z.lxor (rotr w14 17) (Z.lxor (rotr w14 19) (Z.shiftr w14 10)) in
      u32w (w0 + s0 + w9 + s1)
  | _ => 0
  end.

Definition round256 (st : list Z) (k w : Z) : list Z :=
  match st with
  | [a; b; c; d; e; f; g; h] =>
      let S1 := Z.lxor (rotr e 6) (Z.lxor (rotr e 11) (rotr e 25)) in
      let ch := Z.lxor (Z.land e f) (Z.land (not32 e) g) in
      let t1 := h + S1 + ch + k + w in
      let S0 := Z.lxor (rotr a 2) (Z.lxor (rotr a 13) (rotr a 22)) in
      let maj := Z.lxor (Z.land a b) (Z.lxor (Z.land a c) (Z.land b c)) in
      [u32w (t1 + S0 + maj); a; b; c; u32w (d + t1); e; f; g]
  | _ => st
  end.

(** The rounds, with a window of sixteen words of the message schedule. *)
Fixpoint rounds256 (ks : list Z) (w st : list Z) : list Z :=
  match ks, w with
  | k :: ks', w0 :: w' => rounds256 ks' (w' ++ [schedule_step w]) (round256 st k w0)
  | _, _ => st
  end.

#[export] Instance Sha2Fips : Sha2Compress := λ h b,
  let st := rounds256 K256 (words_be b) h in
  map (λ i, u32w (nth i h 0 + nth i st 0)) (seq 0 8).

#[export] Instance Sha2FipsOk : Sha2CompressOk.
Proof.
  split.
  - intros. unfold compress256, Sha2Fips. by rewrite length_map, length_seq.
  - intros. unfold compress256, Sha2Fips. apply Forall_map, Forall_true. intros i. by apply wrap_in_u.
Qed.

(** FIPS 180-4's example: the hash of the three bytes [abc]. *)
Example sha256_abc :
  sha256_ref [97; 98; 99] =
  [0xba7816bf; 0x8f01cfea; 0x414140de; 0x5dae2223; 0xb00361a3; 0x96177a9c; 0xb410ff61; 0xf20015ad].
Proof. vm_compute. reflexivity. Qed.

(** A hasher that keeps what it was given. *)
#[export] Instance BufHasher : Sha256Hasher (list Z) := {|
  hasher_new := [];
  hasher_update := λ d x, d ++ x;
  hasher_finish := sha256_bytes;
|}.

#[export] Instance BufHasherOk : Sha256HasherOk (list Z).
Proof.
  split. intros xs. cbn [hasher_finish hasher_update hasher_new BufHasher]. apply (f_equal sha256_bytes).
  enough (G : ∀ d, foldl (λ d x : list Z, d ++ x) d xs = d ++ concat xs) by apply G.
  induction xs as [|x xs IH]; intros d; simpl; [by rewrite app_nil_r|]. by rewrite IH, app_assoc.
Qed.
