(* ===== verification/LmsTheorems.v ===== *)
(** The properties of the SHA-256 and LMS components. *)

From S2P Require Import Prelude Errors Sha256 Sha256Proofs Sha256Alg Lms LmsGen LmsSpec.
From S2P Require Import LmsProofs LmsGenProofs Sha256Fips.

(** ** LMS *)

(** An LMS private key as the image tool holds it: a 16-byte identifier. *)
Definition image_key (sk : LmsPrivateKey) : Prop :=
  sk_tree_type sk = IMAGE_LMS_TREE_TYPE ∧ sk_otstype sk = IMAGE_LMS_OTS_TYPE ∧
  length (sk_id sk) = 16%nat ∧ is_bytes (sk_id sk).

Section Lms.
Context {T : Type} `{Hcomp : Sha2Compress, Hcok : !Sha2CompressOk, Hhash : !Sha256Hasher T, Hhok : !Sha256HasherOk T}.

Lemma resize_full sg :
  length (ots_y (sig_ots sg)) = 51%nat → length (sig_tree_path sg) = 15%nat → resize 51 15 sg = sg.
Proof.
  intros Hy Hp. destruct sg as [q [t n y] tt path]. unfold resize. cbn in *.
  by rewrite !firstn_all2 by lia.
Qed.

(** C11. Signing then verifying, across two programs: for a key of the
    production kind, the public key that the image tool derives from the
    seed and the signature it produces for leaf 5 are accepted by the
    firmware's LMS verifier running on the SHA-256 driver and the emulated
    engine, for every message that fits the engine's limit. *)
Theorem lms_sign_verify sk message nonce s :
  image_key sk → length nonce = 24%nat → is_bytes nonce → is_bytes message →
  Z.of_nat (length message) ≤ Driver.SHA256_MAX_DATA_SIZE - 46 → idle s →
  ∃ pk sg s', Gen.generate_lms_pubkey T sk = Ok pk ∧
    Gen.sign_with_lms_key T sk message nonce SUPPORTED_LMS_Q_VALUE = Ok sg ∧
    Lms.verify_lms_signature message pk sg s = (Ok Success, s') ∧ idle s'.
Proof.
  intros (Ht & Ho & Hid & Hbid) Hnl Hnb Hmb Hml Hs.
  assert (Hh : Gen.lms_height (sk_tree_type sk) = Ok 15) by (by rewrite Ht).
  assert (Hc : Gen.check_otstype (sk_otstype sk) = Ok tt) by (by rewrite Ho).
  assert (Hq : 0 ≤ SUPPORTED_LMS_Q_VALUE < 2 ^ 15) by done.
  destruct (made_verifies (T := T) sk 15 message nonce 5 Hh Hc (conj Hid Hbid) (conj Hnl Hnb) Hq s)
    as (s' & E & Hs'); [by right|done|done|lia|].
  destruct (made_lengths (T := T) sk 15 message nonce 5 Hh) as [Hy Hp].
  rewrite Ho in E. change (Z.to_nat (lp_p (gen_prm IMAGE_LMS_OTS_TYPE))) with 51%nat in E.
  change (Z.to_nat 15) with 15%nat in E. rewrite (resize_full _ Hy Hp) in E.
  exists (made_key (T := T) sk 15), (made_sig (T := T) sk 15 message nonce 5), s'.
  split_and!; [by apply generate_lms_pubkey_ok|by apply sign_with_lms_key_ok|done..].
Qed.
End Lms.

(** A key that the tool accepts: zero seed, identifier 0, 1, ..., 15. *)
Definition example_sk : LmsPrivateKey :=
  mkLmsPrivateKey IMAGE_LMS_TREE_TYPE IMAGE_LMS_OTS_TYPE (seqZ 0 16) (replicate 6 0).

Lemma lms_sign_verify_witness :
  ∃ pk sg s', Gen.generate_lms_pubkey (list Z) example_sk = Ok pk ∧
    Gen.sign_with_lms_key (list Z) example_sk [1; 2; 3] (replicate 24 7) SUPPORTED_LMS_Q_VALUE = Ok sg ∧
    Lms.verify_lms_signature [1; 2; 3] pk sg Emu.new = (Ok Success, s') ∧ idle s'.
Proof.
  apply (lms_sign_verify (T := list Z)).
  - split_and!; [done..|]. by apply (bool_decide_eq_true_1 _).
  - done.
  - by apply (bool_decide_eq_true_1 _).
  - by apply (bool_decide_eq_true_1 _).
  - done.
  - done.
Defined.

(** C16. What the verifier decides: on keys and signatures of the shape that
    the const generics fix (any supported parameter set), over any SHA-256
    implementation that meets the interface, [verify_lms_signature_generic]
    terminates without an error and returns [Success] exactly when the
    public key's digest is the candidate root that RFC 8554 computes from the
    message and the signature. *)
Theorem lms_verify_decides {Sh Op} `{Hcomp : Sha2Compress, Hcok : !Sha2CompressOk, Halg : !Sha256Alg Sh Op, Haok : !Sha256AlgOk Sh Op}
    N P H prm message pk sg (s : Sh) :
  lms_wf N P H prm pk sg → is_words (pk_digest pk) → alg_ready s → is_bytes message →
  Z.of_nat (22 + 4 * N + length message) ≤ Driver.SHA256_MAX_DATA_SIZE →
  ∃ r s', Lms.verify_lms_signature_generic N P H message pk sg s = (Ok r, s') ∧ alg_ready s' ∧
    (r = Success ↔
     bytes_le (pk_digest pk) =
       lms_Tc (4 * N) (lp_w prm) (lp_ls prm) (Z.of_nat H) (pk_id pk) message sg).
Proof.
  intros Hwf Hd Hs Hmb Hml.
  destruct (verify_generic_ok N P H prm message pk sg s) as (v & s' & E & Hs' & [_ Hv] & Ev); [done..|].
  unfold Lms.verify_lms_signature_generic. rewrite (bind_ok _ _ _ _ _ E).
  eexists _, s'. split_and!; [done..|]. rewrite <- Ev, <- bytes_be_hash_value_le.
  case_bool_decide as Heq; split; intros Hr; try done.
  - by rewrite Heq.
  - exfalso. apply Heq. apply bytes_be_inj; [done|apply hash_value_le_words|done].
Qed.

Definition example_pk : LmsPublicKey :=
  mkLmsPublicKey LmsSha256N24H5 LmotsSha256N24W8 (seqZ 0 16) (replicate 6 0).
Definition example_sig : LmsSignature :=
  mkLmsSignature 3 (mkLmotsSignature LmotsSha256N24W8 (replicate 6 1) (replicate 26 (replicate 6 2)))
    LmsSha256N24H5 (replicate 5 (replicate 6 4)).
Definition example_prm : LmotsParameter := mkLmotsParameter LmotsSha256N24W8 24 8 26 0.

Lemma example_wf : lms_wf 6 26 5 example_prm example_pk example_sig.
Proof.
  constructor; try done.
  - unfold lmots_ok. simpl. rewrite !elem_of_cons. tauto.
  - by exists 24.
  - split; [done|]. by apply (bool_decide_eq_true_1 _).
  - split; [done|]. by apply (bool_decide_eq_true_1 _).
  - split; [done|]. by apply (bool_decide_eq_true_1 _).
Qed.

Lemma lms_verify_decides_witness :
  ∃ r s', Lms.verify_lms_signature_generic 6 26 5 [1; 2; 3] example_pk example_sig Emu.new = (Ok r, s') ∧
    idle s' ∧
    (r = Success ↔
     bytes_le (pk_digest example_pk) = lms_Tc 24 8 0 5 (pk_id example_pk) [1; 2; 3] example_sig).
Proof.
  apply (lms_verify_decides (Haok := Sha256HwOk) 6 26 5 example_prm [1; 2; 3] example_pk example_sig Emu.new).
  - apply example_wf.
  - by apply (bool_decide_eq_true_1 _).
  - done.
  - by apply (bool_decide_eq_true_1 _).
  - done.
Defined.

(** What a result of the verifier presupposes, over any SHA-256
    implementation whatever: a candidate root is returned only when the
    signature names the key's one-time algorithm, that algorithm has [P]
    chains and [4 N]-byte hashes, the tree type is known and has height [H],
    and the leaf number is in range. *)
Theorem lms_verify_guards {Sh Op} `{Hcomp : Sha2Compress, Halg : !Sha256Alg Sh Op} N P H message pk sg (s : Sh) v s' :
  Lms.verify_lms_signature_cfi_generic N P H message pk sg s = (Ok v, s') →
  ots_type (sig_ots sg) = pk_otstype pk ∧ sig_q sg < 2 ^ Z.of_nat H ∧
  (∃ n, get_lms_parameters (sig_tree_type sg) = Ok (n, Z.of_nat H)) ∧
  (∃ prm, get_lmots_parameters (pk_otstype pk) = Ok prm ∧ lp_p prm = Z.of_nat P ∧
     lp_n prm = Z.of_nat (4 * N) ∧ lp_n prm ≤ 32).
Proof.
  unfold Lms.verify_lms_signature_cfi_generic. intros E.
  ok_inv E. apply negb_false_iff, Z.eqb_eq in Hok. destruct a0 as [n h]. ok_inv E.
  apply negb_false_iff, Z.eqb_eq in Hok1. subst h. rewrite Z.shiftl_mul_pow2, Z.mul_1_l in Hok2 by lia.
  split; [done|]. split; [lia|]. split; [eauto|].
  rewrite <- Hok. unfold Lms.candidate_ots_signature in Hok5. ok_inv Hok5.
  repeat match goal with H : negb (_ =? _) = false |- _ => apply negb_false_iff, Z.eqb_eq in H end.
  eexists. split_and!; [done|lia|lia|lia].
Qed.

Lemma lms_verify_guards_witness :
  ∃ v s', Lms.verify_lms_signature_cfi_generic 6 26 5 [1; 2; 3] example_pk example_sig Emu.new = (Ok v, s') ∧
    sig_q example_sig < 2 ^ 5.
Proof.
  destruct (verify_generic_ok (Haok := Sha256HwOk) 6 26 5 example_prm [1; 2; 3] example_pk example_sig Emu.new)
    as (v & s' & E & _).
  - apply example_wf.
  - done.
  - by apply (bool_decide_eq_true_1 _).
  - done.
  - exists v, s'. split; [exact E|].
    apply (lms_verify_guards 6 26 5 [1; 2; 3] example_pk example_sig Emu.new v s' E).
Defined.

(** Termination of the walk up the tree, over any SHA-256 implementation:
    a 32-bit node number needs at most 31 levels, so that the walk never
    runs out of the 32 levels of the model, and more would not change it. *)
Theorem lms_walk_terminates {Sh Op} `{Hcomp : Sha2Compress, Halg : !Sha256Alg Sh Op}
    (k : nat) N id path node i temp (s : Sh) :
  is_u32 node →
  Lms.tree_walk (32 + k) N id path node i temp s = Lms.tree_walk 32 N id path node i temp s.
Proof.
  intros [_ Hn].
  assert (G : ∀ f node i temp s, node < 2 ^ Z.of_nat f →
    Lms.tree_walk (f + k) N id path node i temp s = Lms.tree_walk f N id path node i temp s).
  { clear. induction f as [|f IH]; intros node i temp s Hn.
    - destruct k; cbn [Lms.tree_walk Nat.add]; [done|]. destruct (Z.gtb_spec node 1); [simpl in Hn; lia|done].
    - cbn [Lms.tree_walk Nat.add]. destruct (node >? 1); [|done]. unfold mbind, M_bind.
      destruct (Lms.tree_step N id path node i temp s) as [[t|e|w] s1]; [|done..].
      apply IH. rewrite Nat2Z.inj_succ, Z.pow_succ_r in Hn by lia. dlia. }
  by apply G.
Qed.

Lemma lms_walk_terminates_witness :
  Lms.tree_walk (32 + 3) 6 (seqZ 0 16) (replicate 5 (replicate 6 4)) 37 0 (replicate 6 1) Emu.new =
  Lms.tree_walk 32 6 (seqZ 0 16) (replicate 5 (replicate 6 4)) 37 0 (replicate 6 1) Emu.new.
Proof. apply (lms_walk_terminates 3). done. Defined.

(** The checksum of drivers/src/lms.rs is the one of RFC 8554 for every
    entry of the parameter table and every string of the hash's length: no
    16-bit operation of its loop or of its shift overflows. *)
Theorem lms_checksum_rfc prm s :
  lmots_ok prm → lp_n prm ≤ Z.of_nat (length s) →
  Lms.checksum (algorithm_name prm) s = Ok (cksm (Z.to_nat (lp_n prm)) (lp_w prm) (lp_ls prm) s) ∧
  is_u16 (cksm (Z.to_nat (lp_n prm)) (lp_w prm) (lp_ls prm) s).
Proof.
  intros Hp Hl. split; [by apply checksum_ok|].
  destruct (lmots_ok_facts _ Hp) as (Hw & Hn & Hls & _ & Hb & _).
  rewrite <- checksum_loop by (done || rewrite Z2Nat.id by lia; done). by apply wrap_in_u.
Qed.

Lemma lms_checksum_rfc_witness :
  Lms.checksum LmotsSha256N24W8 (seqZ 0 24) = Ok (cksm 24 8 0 (seqZ 0 24)) ∧
  is_u16 (cksm 24 8 0 (seqZ 0 24)).
Proof. apply (lms_checksum_rfc example_prm); [apply example_wf|done]. Defined.

(** ** SHA-256 *)

Section Sha.
Context `{Hcomp : Sha2Compress, Hcok : !Sha2CompressOk}.

(** C27. The multi-step operation: however a message of at most 1 MiB is cut
    into pieces, [digest_init], one [update] per piece and [finalize], on
    the emulated engine, return the FIPS 180-4 hash of the whole message and
    leave the engine idle. *)
Theorem sha256_streaming xs s :
  idle s → Forall (λ x, is_bytes x) xs → Z.of_nat (length (concat xs)) ≤ Driver.SHA256_MAX_DATA_SIZE →
  ∃ s', (op ← Driver.digest_init; op ← foldM Driver.op_update op xs; Driver.op_finalize op) s
        = (Ok (sha256_ref (concat xs)), s') ∧ idle s'.
Proof. exact (hash_parts_ok (Hok := Sha256HwOk) xs s). Qed.

(** The one-shot digest of at most 1 MiB is the FIPS 180-4 hash, and the
    engine is left idle with its block and digest registers zeroized; a
    longer message is refused before the engine is touched. *)
Theorem sha256_digest m s :
  idle s → is_bytes m →
  if decide (Z.of_nat (length m) ≤ Driver.SHA256_MAX_DATA_SIZE) then
    ∃ s', Driver.digest m s = (Ok (sha256_ref m), s') ∧ idle s' ∧
      Emu.block s' = replicate 64 0 ∧ Emu.hash_mem s' = replicate 32 0
  else Driver.digest m s = (Err DRIVER_SHA256_MAX_DATA, s).
Proof.
  intros Hs Hm. case_decide as Hl; [by apply digest_ok|].
  unfold Driver.digest, fail_if. rewrite Z.gtb_ltb, (proj2 (Z.ltb_lt _ _)) by lia. done.
Qed.

(** The Winternitz acceleration: one engine operation on the prefix, the
    counter [coeff] and the value [tmp] returns the value after the
    [2 ^ w - 1 - coeff] iterations of the chain of RFC 8554, for every [w]
    and both hash widths. *)
Theorem sha256_wntz_chain pre coeff tmp (n_mode : bool) w s :
  idle s → w ∈ [1; 2; 4; 8] → length pre = 22%nat → length tmp = (if n_mode then 32 else 24)%nat →
  is_bytes (pre ++ coeff :: tmp) → coeff < 2 ^ w - 1 →
  ∃ d s', (op ← Driver.digest_init; op ← Driver.op_update_wntz op (pre ++ coeff :: tmp) w n_mode;
           Driver.op_finalize_wntz op w n_mode) s = (Ok d, s') ∧ idle s' ∧
    take (length tmp) (bytes_be d) = wntz_chain (length tmp) pre coeff (Z.to_nat (2 ^ w - 1 - coeff)) tmp.
Proof.
  intros. destruct (wntz_op_ok pre coeff tmp n_mode w s) as (d & s' & E & Hs' & _ & _ & Ed); [done..|].
  by exists d, s'.
Qed.

(** [digest_blocks_raw] on any number of 16-word blocks returns the
    FIPS 180-4 hash of the words in big-endian order, whatever the digest
    register held before. *)
Theorem sha256_raw_blocks blocks s :
  idle s → Forall raw_block blocks →
  ∃ s', Driver.digest_blocks_raw blocks s = (Ok (sha256_ref (concat (map bytes_be blocks))), s') ∧ idle s'.
Proof. apply digest_blocks_raw_ok. Qed.
End Sha.

Lemma sha256_streaming_witness :
  ∃ s', (op ← Driver.digest_init; op ← foldM Driver.op_update op [[97]; [98; 99]; []]; Driver.op_finalize op)
        Emu.new = (Ok (sha256_ref [97; 98; 99]), s') ∧ idle s'.
Proof. apply (sha256_streaming [[97]; [98; 99]; []]); [done|by apply (bool_decide_eq_true_1 _)|done]. Defined.

Lemma sha256_digest_witness :
  if decide (3 ≤ Driver.SHA256_MAX_DATA_SIZE) then
    ∃ s', Driver.digest [97; 98; 99] Emu.new = (Ok (sha256_ref [97; 98; 99]), s') ∧ idle s' ∧
      Emu.block s' = replicate 64 0 ∧ Emu.hash_mem s' = replicate 32 0
  else Driver.digest [97; 98; 99] Emu.new = (Err DRIVER_SHA256_MAX_DATA, Emu.new).
Proof. apply (sha256_digest [97; 98; 99]); [done|by apply (bool_decide_eq_true_1 _)]. Defined.

Lemma sha256_wntz_chain_witness :
  ∃ d s', (op ← Driver.digest_init; op ← Driver.op_update_wntz op (replicate 22 1 ++ 5 :: replicate 24 2) 4 false;
           Driver.op_finalize_wntz op 4 false) Emu.new = (Ok d, s') ∧ idle s' ∧
    take 24 (bytes_be d) = wntz_chain 24 (replicate 22 1) 5 10 (replicate 24 2).
Proof.
  apply (sha256_wntz_chain (replicate 22 1) 5 (replicate 24 2) false 4); try done.
  - by apply (bool_decide_eq_true_1 _).
  - by apply (bool_decide_eq_true_1 _).
Defined.

Lemma sha256_raw_blocks_witness :
  ∃ s', Driver.digest_blocks_raw [replicate 16 1; seqZ 0 16] Emu.new =
        (Ok (sha256_ref (concat (map bytes_be [replicate 16 1; seqZ 0 16]))), s') ∧ idle s'.
Proof.
  apply (sha256_raw_blocks [replicate 16 1; seqZ 0 16]); [done|].
  repeat constructor; by apply (bool_decide_eq_true_1 _).
Defined.
