(* ===== verification/Cfi.v ===== *)
(** Control-flow integrity (cfi/lib/src, cfi/derive/src).

    The assertions and what they do when they fail, the assembly of the
    unrolled word comparisons with a small machine that runs it, the masked
    call counter with the wrapper that [cfi_fn] puts around a function, and
    the Xoshiro128 generator behind the random delays. *)

From S2P Require Import Prelude Errors.

(** * Assertions as the rest of the firmware uses them

    Laundering returns its argument, and the second evaluation of a condition
    and the random delay between the two do not change what an assertion does
    without a fault: [cfi_assert_delayed] below is the whole body and [cfi_assert_spec]
    relates the two. *)
Definition cfi_panic {S A} (info : CfiPanicInfo) : M S A := stop (CfiPanic info).

Definition cfi_assert_bool {S} (cond : bool) : M S unit :=
  if cond then mret tt else cfi_panic AssertEqFail.
Definition cfi_assert_eq {S A} `{EqDecision A} (lhs rhs : A) : M S unit :=
  if bool_decide (lhs = rhs) then mret tt else cfi_panic AssertEqFail.
Definition cfi_assert_ne {S A} `{EqDecision A} (lhs rhs : A) : M S unit :=
  if bool_decide (lhs ≠ rhs) then mret tt else cfi_panic AssertNeFail.
Definition cfi_assert_gt {S} (lhs rhs : Z) : M S unit :=
  if lhs >? rhs then mret tt else cfi_panic AssertGtFail.
Definition cfi_assert_lt {S} (lhs rhs : Z) : M S unit :=
  if lhs <? rhs then mret tt else cfi_panic AssertLtFail.
Definition cfi_assert_ge {S} (lhs rhs : Z) : M S unit :=
  if lhs >=? rhs then mret tt else cfi_panic AssertGeFail.
Definition cfi_assert_le {S} (lhs rhs : Z) : M S unit :=
  if lhs <=? rhs then mret tt else cfi_panic AssertLeFail.

(** The versions for targets other than RISC-V; the assembly is below. *)
Definition cfi_assert_eq_words {S} (a b : list Z) : M S unit :=
  if bool_decide (a = b) then mret tt else cfi_panic AssertEqFail.
Definition cfi_assert_ne_words {S} (a b : list Z) : M S unit :=
  if bool_decide (a = b) then cfi_panic AssertNeFail else mret tt.

(** [From<CfiPanicInfo> for CaliptraError]: the code given to the handler. *)
Definition panic_error (info : CfiPanicInfo) : CaliptraError :=
  match info with
  | CounterCorrupt => ROM_CFI_PANIC_COUNTER_CORRUPT
  | CounterOverflow => ROM_CFI_PANIC_COUNTER_OVERFLOW
  | CounterUnderflow => ROM_CFI_PANIC_COUNTER_UNDERFLOW
  | CounterMismatch => ROM_CFI_PANIC_COUNTER_MISMATCH
  | AssertEqFail => ROM_CFI_PANIC_ASSERT_EQ_FAILURE
  | AssertNeFail => ROM_CFI_PANIC_ASSERT_NE_FAILURE
  | AssertGtFail => ROM_CFI_PANIC_ASSERT_GT_FAILURE
  | AssertLtFail => ROM_CFI_PANIC_ASSERT_LT_FAILURE
  | AssertGeFail => ROM_CFI_PANIC_ASSERT_GE_FAILURE
  | AssertLeFail => ROM_CFI_PANIC_ASSERT_LE_FAILURE
  | TrngError => ROM_CFI_PANIC_TRNG_FAILURE
  | _ => ROM_CFI_PANIC_UNKNOWN
  end.

(** * The unrolled comparisons in assembly *)

Module Asm.

(** Registers [tmp0] and [tmp1], and the two array pointers. *)
Inductive reg := T0 | T1.
Inductive base := A4 | A5.

(** Numeric local labels: [2b] is the nearest [2:] before, [3f] the nearest
    [3:] after. *)
Inductive target := Back (n : nat) | Fwd (n : nat).

Inductive instr :=
  | J (t : target)
  | J_cfi_panic_handler
  | Li_a0 (imm : Z)
  | Lw (r : reg) (off : nat) (b : base)
  | Bne (r1 r2 : reg) (t : target)
  | Label (n : nat).

(** The trampoline placed above the comparisons. *)
Definition trampoline (code : Z) : list instr :=
  [J (Fwd 3); Label 2; Li_a0 code; J_cfi_panic_handler; Label 3].

Definition compare (t : target) (k : nat) : list instr :=
  [Lw T0 (4 * k) A4; Lw T1 (4 * k) A5; Bne T0 T1 t].

Definition cfi_assert_eq_16_words : list instr :=
  trampoline 0x01040055 ++ flat_map (compare (Back 2)) (seq 0 16).
Definition cfi_assert_ne_16_words : list instr :=
  trampoline 0x01040056 ++ flat_map (compare (Fwd 4)) (seq 0 16) ++ [J (Back 2); Label 4].
Definition cfi_assert_eq_12_words : list instr :=
  trampoline 0x01040055 ++ flat_map (compare (Back 2)) (seq 0 12).
Definition cfi_assert_eq_8_words : list instr :=
  trampoline 0x01040055 ++ flat_map (compare (Back 2)) (seq 0 8).
Definition cfi_assert_eq_6_words : list instr :=
  trampoline 0x01040055 ++ flat_map (compare (Back 2)) (seq 0 6).

(** A run ends by falling off the end of the block, by jumping to the panic
    handler with a code in [a0], or is stuck (a load outside the arrays). *)
Inductive outcome := FallsThrough | Handler (a0 : Z) | Stuck.

Record cpu := mkCpu { r0 : Z; r1 : Z; a0 : Z }.

Definition get_reg (c : cpu) (r : reg) : Z := match r with T0 => r0 c | T1 => r1 c end.
Definition set_reg (c : cpu) (r : reg) (v : Z) : cpu :=
  match r with T0 => mkCpu v (r1 c) (a0 c) | T1 => mkCpu (r0 c) v (a0 c) end.

Definition is_label (n : nat) (i : instr) : bool :=
  match i with Label m => (m =? n)%nat | _ => false end.

(** Index in [p] of the first label [n] at or after [pc]. *)
Fixpoint find_fwd (n : nat) (p : list instr) (i : nat) : option nat :=
  match p with
  | [] => None
  | x :: p' => if is_label n x then Some i else find_fwd n p' (S i)
  end.

(** Index of the last label [n] among the instructions of [p]. *)
Fixpoint find_back (n : nat) (p : list instr) (i : nat) : option nat :=
  match p with
  | [] => None
  | x :: p' =>
      match find_back n p' (S i) with
      | Some j => Some j
      | None => if is_label n x then Some i else None
      end
  end.

Definition resolve (p : list instr) (pc : nat) (t : target) : option nat :=
  match t with
  | Fwd n => find_fwd n (drop pc p) pc
  | Back n => find_back n (take pc p) 0
  end.

Section Run.
Context (p : list instr) (a b : list Z).

Definition load (x : base) (off : nat) : option Z :=
  if (off mod 4 =? 0)%nat then (match x with A4 => a | A5 => b end) !! (off / 4)%nat else None.

Fixpoint run (fuel : nat) (pc : nat) (c : cpu) : outcome :=
  match fuel with
  | O => Stuck
  | S fuel =>
      match p !! pc with
      | None => if (pc =? length p)%nat then FallsThrough else Stuck
      | Some (J t) => match resolve p pc t with Some pc' => run fuel pc' c | None => Stuck end
      | Some J_cfi_panic_handler => Handler (a0 c)
      | Some (Li_a0 v) => run fuel (S pc) (mkCpu (r0 c) (r1 c) v)
      | Some (Lw r off x) =>
          match load x off with Some v => run fuel (S pc) (set_reg c r v) | None => Stuck end
      | Some (Bne x y t) =>
          if get_reg c x =? get_reg c y then run fuel (S pc) c
          else match resolve p pc t with Some pc' => run fuel pc' c | None => Stuck end
      | Some (Label _) => run fuel (S pc) c
      end
  end.
End Run.

(** Enough for the longest block, which executes each instruction at most
    once and ends in the trampoline. *)
Definition FUEL : nat := 80.
End Asm.

(** * Xoshiro128** *)

Module Xoshiro.

Record Xoshiro128 := mkXoshiro128 { s0 : Z; s1 : Z; s2 : Z; s3 : Z }.

Definition rotate_left_u32 (x n : Z) : Z := Z.lor (u32w (Z.shiftl x n)) (Z.shiftr x (32 - n)).

Definition next (g : Xoshiro128) : Z * Xoshiro128 :=
  let result := u32w (rotate_left_u32 (u32w (s1 g * 5)) 7 * 9) in
  let t := shl_u32 (s1 g) 9 in
  let s2' := Z.lxor (s2 g) (s0 g) in
  let s3' := Z.lxor (s3 g) (s1 g) in
  let s1' := Z.lxor (s1 g) s2' in
  let s0' := Z.lxor (s0 g) s3' in
  let s2'' := Z.lxor s2' t in
  let s3'' := rotate_left_u32 s3' 11 in
  (result, mkXoshiro128 s0' s1' s2'' s3'').

Definition xor_state (g : Xoshiro128) (e : Z * Z * Z * Z) : Xoshiro128 :=
  let '(e0, e1, e2, e3) := e in
  mkXoshiro128 (Z.lxor (s0 g) e0) (Z.lxor (s1 g) e1) (Z.lxor (s2 g) e2) (Z.lxor (s3 g) e3).

Definition all_bits (g : Xoshiro128) : Z := Z.lor (Z.lor (Z.lor (s0 g) (s1 g)) (s2 g)) (s3 g).

(** The successive results of [entropy_gen]; the loop consumes one of them per
    turn, so the list bounds it and running out of it is [Diverge]. *)
Fixpoint mix_entropy (gen : list (res (Z * Z * Z * Z))) (g : Xoshiro128) : res Xoshiro128 :=
  match gen with
  | [] => Abort Diverge
  | Ok e :: gen' =>
      let g' := xor_state g e in
      if negb (all_bits g' =? 0) then Ok g' else mix_entropy gen' g'
  | _ :: _ => Abort (CfiPanic TrngError)
  end.

End Xoshiro.

(** * The counter *)

Module Counter.
Import Xoshiro.

Record CfiInt := mkCfiInt { val : Z; masked_val : Z }.
#[export] Instance CfiInt_eq_dec : EqDecision CfiInt.
Proof. solve_decision. Defined.

Definition MASK : Z := 0xA5A5A5A5.
Definition encode (v : Z) : CfiInt := mkCfiInt v (Z.lxor v MASK).
Definition is_valid (i : CfiInt) : bool := val i =? Z.lxor (masked_val i) MASK.

(** [CFI_STATE] together with the state [E] of the code that is protected. *)
Record CfiState (E : Type) := mkCfiState { ctr : CfiInt; prng : Xoshiro128; env : E }.
Arguments mkCfiState {E}. Arguments ctr {E}. Arguments prng {E}. Arguments env {E}.

Section Counter.
Context {E : Type}.
Abbreviation MC := (M (CfiState E)).

Definition read : MC CfiInt := get ctr.
Definition write (v : CfiInt) : MC unit := modify (λ s, mkCfiState v (prng s) (env s)).

Definition reset_internal : MC unit := write (encode 0).
Definition reset (gen : list (res (Z * Z * Z * Z))) : MC unit :=
  g ← get prng;
  g' ← lift (mix_entropy gen g);
  _ ← modify (λ s, mkCfiState (ctr s) g' (env s));
  reset_internal.

Definition corrupt : MC unit := write (mkCfiInt 0 0).

Definition panic_if (b : bool) (info : CfiPanicInfo) : MC unit :=
  if b then cfi_panic info else mret tt.

Definition increment : MC CfiInt :=
  int ← read;
  _ ← panic_if (negb (is_valid int)) CounterCorrupt;
  let '(new, overflow) := overflowing_add_u32 (val int) 1 in
  _ ← panic_if overflow CounterOverflow;
  _ ← write (encode new);
  mret int.

Definition decrement : MC CfiInt :=
  v ← read;
  _ ← panic_if (negb (is_valid v)) CounterCorrupt;
  let new := u32w (val v - 1) in
  let underflow := val v <? 1 in
  _ ← panic_if underflow CounterUnderflow;
  _ ← write (encode new);
  read.

Definition assert_eq (val1 val2 : CfiInt) : MC unit :=
  _ ← panic_if (negb (is_valid val1)) CounterCorrupt;
  _ ← panic_if (negb (is_valid val2)) CounterCorrupt;
  panic_if (bool_decide (val1 ≠ val2)) CounterMismatch.

(** The loop of [delay]: [addi r, r, -1; bne r, zero, 1b]. *)
Fixpoint delay_loop (fuel : nat) (r : Z) : res unit :=
  match fuel with
  | O => Abort Diverge
  | S fuel => let r' := u32w (r - 1) in if r' =? 0 then Ok tt else delay_loop fuel r'
  end.

Definition delay : MC unit :=
  g ← get prng;
  let '(n, g') := next g in
  _ ← modify (λ s, mkCfiState (ctr s) g' (env s));
  let cycles := n mod 256 in
  lift (delay_loop 128 (1 + cycles / 2)).

(** The functions that [cfi_fn] generates: [cfi_wrapper] has the name of the
    function and calls the renamed original, [cfi_orig], whose first statement is
    the increment. The value that the wrapper passes on is the whole [Result], so
    that the call returns it as a value; a panic does not return. *)
Definition cfi_wrapper {A} (fn_call : MC (res A)) : MC A :=
  saved_ctr ← read;
  _ ← delay;
  ret ← fn_call;
  _ ← delay;
  new_ctr ← decrement;
  _ ← assert_eq saved_ctr new_ctr;
  lift ret.

Definition cfi_orig {A} (body : MC A) : MC (res A) := λ s,
  match (_ ← increment; body) s with
  | (Abort w, s') => (Abort w, s')
  | (r, s') => (Ok r, s')
  end.

Definition cfi_fn {A} (body : MC A) : MC A := cfi_wrapper (cfi_orig body).

(** [cfi_assert_macro!] in full: the condition is evaluated twice, each time
    after a delay. *)
Definition cfi_assert_delayed (cond : bool) (info : CfiPanicInfo) : MC unit :=
  _ ← delay;
  _ ← panic_if (negb cond) info;
  _ ← delay;
  panic_if (negb cond) info.
End Counter.
End Counter.
