(* ===== verification/CfiTheorems.v ===== *)
(** What the control-flow-integrity library guarantees: the assembly
    comparisons, the call counter with its wrapper, and the generator behind
    the delays. *)

From S2P Require Import Prelude Errors Cfi.
From Stdlib Require Import Znumtheory.

(** * The assembly blocks *)

Import Asm.

Definition start : cpu := mkCpu 0 0 0.

Definition eq_outcome (a b : list Z) : outcome :=
  if bool_decide (a = b) then FallsThrough else Handler (panic_error AssertEqFail).
Definition ne_outcome (a b : list Z) : outcome :=
  if bool_decide (a = b) then Handler (panic_error AssertNeFail) else FallsThrough.

(** A list of known length as its elements. *)
Ltac list_of_length l n :=
  lazymatch n with
  | O => destruct l; [|discriminate]
  | S ?n' => destruct l as [|? l]; [discriminate|]; list_of_length l n'
  end.

(** Drives [run] through a block by deciding the words from left to right:
    at the first difference the run leaves the comparisons. The outcome is
    kept abstract, with what it is for equal and for different arrays. *)
Ltac decide_words Heq Hne :=
  cbv -[Z.eqb];
  repeat match goal with
  | |- context [Z.eqb ?x ?y] =>
      destruct (Z.eqb_spec x y); [subst | rewrite Hne by congruence; reflexivity]
  end;
  rewrite Heq; reflexivity.

Ltac run_block a b n :=
  intros Ha Hb;
  let Heq := fresh "Heq" in let Hne := fresh "Hne" in
  pose proof (bool_decide_eq_true_2 (a = b)) as Heq;
  pose proof (bool_decide_eq_false_2 (a = b)) as Hne;
  unfold eq_outcome, ne_outcome; revert Heq Hne;
  generalize (bool_decide (a = b)); intros same Heq Hne;
  list_of_length a n; list_of_length b n; clear Ha Hb; decide_words Heq Hne.

Lemma eq_16_run a b : length a = 16%nat → length b = 16%nat →
  run cfi_assert_eq_16_words a b FUEL 0 start = eq_outcome a b.
Proof. run_block a b 16%nat. Qed.

Lemma ne_16_run a b : length a = 16%nat → length b = 16%nat →
  run cfi_assert_ne_16_words a b FUEL 0 start = ne_outcome a b.
Proof. run_block a b 16%nat. Qed.

Lemma eq_12_run a b : length a = 12%nat → length b = 12%nat →
  run cfi_assert_eq_12_words a b FUEL 0 start = eq_outcome a b.
Proof. run_block a b 12%nat. Qed.

Lemma eq_8_run a b : length a = 8%nat → length b = 8%nat →
  run cfi_assert_eq_8_words a b FUEL 0 start = eq_outcome a b.
Proof. run_block a b 8%nat. Qed.

Lemma eq_6_run a b : length a = 6%nat → length b = 6%nat →
  run cfi_assert_eq_6_words a b FUEL 0 start = eq_outcome a b.
Proof. run_block a b 6%nat. Qed.

(** * The generator *)

Import Xoshiro Counter.

Record wf_prng (g : Xoshiro128) : Prop := {
  wf_s0 : is_u32 (s0 g); wf_s1 : is_u32 (s1 g); wf_s2 : is_u32 (s2 g); wf_s3 : is_u32 (s3 g) }.

Lemma all_bits_zero g :
  all_bits g = 0 ↔ s0 g = 0 ∧ s1 g = 0 ∧ s2 g = 0 ∧ s3 g = 0.
Proof.
  unfold all_bits. rewrite !Z.lor_eq_0_iff. tauto.
Qed.

Lemma lxor_u32 x y : is_u32 x → is_u32 y → is_u32 (Z.lxor x y).
Proof.
  unfold in_u. intros Hx Hy.
  split; [apply Z.lxor_nonneg; lia|].
  destruct (decide (Z.lxor x y = 0)) as [->|Hn]; [lia|].
  apply Z.log2_lt_pow2; [pose proof (Z.lxor_nonneg x y); lia|].
  eapply Z.le_lt_trans; [apply Z.log2_lxor; lia|].
  apply Z.max_lub_lt.
  - destruct (decide (x = 0)) as [->|]; [done|]. apply Z.log2_lt_pow2; lia.
  - destruct (decide (y = 0)) as [->|]; [done|]. apply Z.log2_lt_pow2; lia.
Qed.

(** A rotation of a non-zero word is not zero. *)
Lemma rotate_zero x n : is_u32 x → 0 < n < 32 → rotate_left_u32 x n = 0 → x = 0.
Proof.
  unfold rotate_left_u32, in_u. intros Hx Hn [H1 H2]%Z.lor_eq_0_iff.
  rewrite Z.shiftr_div_pow2 in H2 by lia.
  unfold wrap in H1. rewrite Z.shiftl_mul_pow2 in H1 by lia.
  assert (Hp : 0 < 2 ^ (32 - n)) by (apply Z.pow_pos_nonneg; lia).
  assert (Hm : 0 < 2 ^ n) by (apply Z.pow_pos_nonneg; lia).
  apply Z.div_small_iff in H2 as [H2|H2]; [|lia|lia].
  rewrite Z.mod_small in H1; [nia|]. split; [nia|].
  replace 32 with (n + (32 - n)) by lia. rewrite Z.pow_add_r by lia. nia.
Qed.

(** [x = x << 9] on 32 bits only for zero. *)
Lemma shl9_fix x : is_u32 x → Z.lxor x (shl_u32 x 9) = 0 → x = 0.
Proof.
  intros Hx H%Z.lxor_eq. unfold shl_u32 in H. change (9 mod 32) with 9 in H.
  rewrite Z.shiftl_mul_pow2 in H by lia. change (2 ^ 9) with 512 in H. unfold wrap in H.
  assert (Hd : (2 ^ 32 | 511 * x)).
  { exists (x * 512 / 2 ^ 32). pose proof (Z.div_mod (x * 512) (2 ^ 32)). lia. }
  apply Z.gauss in Hd as [k Hk]; [ulia|done].
Qed.

Lemma lxor_cancel x y z : Z.lxor x (Z.lxor y z) = 0 → Z.lxor y z = 0 → x = 0 ∧ y = z.
Proof. intros H1 H2. split; [|by apply Z.lxor_eq]. by rewrite H2, Z.lxor_0_r in H1. Qed.

Lemma next_nonzero g : wf_prng g → all_bits g ≠ 0 → all_bits (snd (next g)) ≠ 0.
Proof.
  intros [H0 H1 H2 H3] Hn [Ha [Hb [Hc Hd]]]%all_bits_zero. apply Hn, all_bits_zero.
  simpl in *. apply rotate_zero in Hd; [|by apply lxor_u32|lia].
  destruct (lxor_cancel _ _ _ Ha Hd) as [E0 E3].
  rewrite E0, Z.lxor_0_r in Hb, Hc. apply Z.lxor_eq in Hb. rewrite <- Hb in Hc.
  apply shl9_fix in Hc; [|done]. lia.
Qed.

Lemma lor_u32 x y : is_u32 x → is_u32 y → is_u32 (Z.lor x y).
Proof.
  unfold in_u. intros Hx Hy. split; [apply Z.lor_nonneg; lia|].
  destruct (decide (Z.lor x y = 0)) as [->|Hn]; [lia|].
  apply Z.log2_lt_pow2; [pose proof (Z.lor_nonneg x y); lia|].
  rewrite Z.log2_lor by lia. apply Z.max_lub_lt.
  - destruct (decide (x = 0)) as [->|]; [done|]. apply Z.log2_lt_pow2; lia.
  - destruct (decide (y = 0)) as [->|]; [done|]. apply Z.log2_lt_pow2; lia.
Qed.

Lemma shiftr_u32 x n : is_u32 x → 0 ≤ n → is_u32 (Z.shiftr x n).
Proof.
  unfold in_u. intros Hx Hn. rewrite Z.shiftr_div_pow2 by lia.
  assert (0 < 2 ^ n) by (apply Z.pow_pos_nonneg; lia).
  split; [apply Z.div_pos; lia|]. apply Z.div_lt_upper_bound; nia.
Qed.

Lemma next_wf g : wf_prng g → wf_prng (snd (next g)).
Proof.
  intros [H0 H1 H2 H3]. split; simpl; repeat apply lxor_u32; try done.
  - by apply wrap_in_u.
  - apply lor_u32; [by apply wrap_in_u|]. apply shiftr_u32; [by apply lxor_u32|lia].
Qed.

(** * The counter *)

Section CounterFacts.
Context {E : Type}.
Implicit Types s : CfiState E.

Lemma delay_loop_ok n r : 0 < r ≤ Z.of_nat n → r < 2 ^ 32 → delay_loop n r = Ok tt.
Proof.
  revert r. induction n as [|n IH]; intros r Hr Hw; [lia|]. cbn [delay_loop].
  rewrite wrap_small by ulia. destruct (Z.eqb_spec (r - 1) 0); [done|]. apply IH; lia.
Qed.

Lemma delay_ok s : delay s = (Ok tt, mkCfiState (ctr s) (snd (next (prng s))) (env s)).
Proof.
  unfold delay. rewrite bind_get. destruct (next (prng s)) as [n g'] eqn:En. rewrite bind_modify.
  unfold lift. rewrite delay_loop_ok; [done|change (Z.of_nat 128) with 128; dlia|dlia].
Qed.

Lemma lxor_mask x : Z.lxor (Z.lxor x MASK) MASK = x.
Proof. by rewrite Z.lxor_assoc, Z.lxor_nilpotent, Z.lxor_0_r. Qed.

Lemma is_valid_spec i : is_valid i = true ↔ i = encode (val i).
Proof.
  unfold is_valid, encode. rewrite Z.eqb_eq. destruct i as [v m]; simpl. split.
  - intros ->. by rewrite lxor_mask.
  - intros H. injection H as ->. by rewrite lxor_mask.
Qed.

Lemma encode_valid v : is_valid (encode v) = true.
Proof. by apply is_valid_spec. Qed.

Lemma increment_ok s v : ctr s = encode v → 0 ≤ v < 2 ^ 32 - 1 →
  increment s = (Ok (encode v), mkCfiState (encode (v + 1)) (prng s) (env s)).
Proof.
  intros Hc Hv. unfold increment, read. rewrite bind_get, Hc, encode_valid.
  change (val (encode v)) with v. unfold overflowing_add_u32.
  destruct (Z.leb_spec (2 ^ 32) (v + 1)); [lia|]. rewrite wrap_small by ulia. done.
Qed.

Lemma decrement_ok s v : ctr s = encode v → 1 ≤ v < 2 ^ 32 →
  decrement s = (Ok (encode (v - 1)), mkCfiState (encode (v - 1)) (prng s) (env s)).
Proof.
  intros Hc Hv. unfold decrement, read. rewrite bind_get, Hc, encode_valid.
  change (val (encode v)) with v.
  destruct (Z.ltb_spec v 1); [lia|]. rewrite wrap_small by ulia. done.
Qed.

Lemma assert_eq_ok s v : assert_eq (encode v) (encode v) s = (Ok tt, s).
Proof. unfold assert_eq. rewrite !encode_valid. by rewrite bool_decide_eq_false_2 by naive_solver. Qed.

Lemma assert_eq_mismatch s v w : v ≠ w →
  assert_eq (encode v) (encode w) s = (Abort (CfiPanic CounterMismatch), s).
Proof.
  intros Hn. unfold assert_eq. rewrite !encode_valid.
  rewrite bool_decide_eq_true_2; [done|]. unfold encode. congruence.
Qed.

(** The state in which a wrapped body runs, and the one the wrapper leaves. *)
Definition entered s v : CfiState E := mkCfiState (encode (v + 1)) (snd (next (prng s))) (env s).
Definition left s v : CfiState E := mkCfiState (encode v) (snd (next (prng s))) (env s).

(** What the wrapper does after its call has returned [ret], by the counter that
    the call leaves. *)
Lemma cfi_wrapper_run {A} (call : M (CfiState E) (res A)) s v ret s' :
  ctr s = encode v → call (mkCfiState (ctr s) (snd (next (prng s))) (env s)) = (Ok ret, s') →
  (ctr s' = encode (v + 1) → 0 ≤ v < 2 ^ 32 - 1 → cfi_wrapper call s = (ret, left s' v)) ∧
  (∀ u, ctr s' = encode u → 0 ≤ u < 2 ^ 32 → u ≠ v + 1 →
     fst (cfi_wrapper call s) = Abort (CfiPanic (if u =? 0 then CounterUnderflow else CounterMismatch))) ∧
  (is_valid (ctr s') = false → fst (cfi_wrapper call s) = Abort (CfiPanic CounterCorrupt)).
Proof.
  intros Hc Hcall. unfold cfi_wrapper, read. rewrite bind_get, (bind_ok _ _ _ _ _ (delay_ok s)), (bind_ok _ _ _ _ _ Hcall).
  rewrite (bind_ok _ _ _ _ _ (delay_ok s')), Hc. split_and!.
  - intros Hc' Hv. rewrite (bind_ok _ _ _ _ _ (decrement_ok (mkCfiState (ctr s') _ _) (v + 1) Hc' ltac:(lia))).
    replace (v + 1 - 1) with v by lia. rewrite (bind_ok _ _ _ _ _ (assert_eq_ok _ v)). done.
  - intros u Hu Hr Hn. destruct (Z.eqb_spec u 0) as [->|H0].
    + unfold decrement, read. simpl. unfold mbind, M_bind. simpl. by rewrite Hu.
    + rewrite (bind_ok _ _ _ _ _ (decrement_ok (mkCfiState (ctr s') _ _) u Hu ltac:(lia))).
      unfold mbind at 1, M_bind at 1. rewrite assert_eq_mismatch by lia. done.
  - intros Hi. unfold decrement, read. simpl. unfold mbind, M_bind. simpl. by rewrite Hi.
Qed.

Lemma cfi_orig_run {A} (body : M (CfiState E) A) s v r s' :
  ctr s = encode v → 0 ≤ v < 2 ^ 32 - 1 → body (entered s v) = (r, s') → (∀ w, r ≠ Abort w) →
  cfi_orig body (mkCfiState (ctr s) (snd (next (prng s))) (env s)) = (Ok r, s').
Proof.
  intros Hc Hv Hb Hr. unfold cfi_orig.
  rewrite (bind_ok _ _ _ _ _ (increment_ok (mkCfiState (ctr s) _ _) v Hc Hv)). unfold entered in Hb. cbn [prng env].
  rewrite Hb. destruct r; [done..|by destruct (Hr why)].
Qed.

(** The whole assertion behaves as the one of [cfi_assert_bool] and the like:
    it returns exactly when its condition holds and panics with its own
    reason otherwise; the counter and the protected state are untouched. *)
Lemma cfi_assert_spec cond info s :
  let '(r, s') := cfi_assert_delayed cond info s in
  r = (if cond then Ok tt else Abort (CfiPanic info)) ∧ ctr s' = ctr s ∧ env s' = env s.
Proof.
  unfold cfi_assert_delayed. rewrite (bind_ok _ _ _ _ _ (delay_ok s)).
  destruct cond; [|done]. cbn [negb panic_if]. rewrite bind_mret, (bind_ok _ _ _ _ _ (delay_ok _)).
  done.
Qed.
End CounterFacts.

(** * Theorems *)

(** The five unrolled comparisons, executed instruction by instruction,
    fall through exactly when the arrays are equal (for [ne], different) and
    otherwise enter the panic handler with the code of the failed assertion;
    no load leaves the arrays and no other outcome exists. *)
Theorem cfi_asm_blocks a b :
  (length a = 16 → length b = 16 →
     run cfi_assert_eq_16_words a b FUEL 0 start = eq_outcome a b ∧
     run cfi_assert_ne_16_words a b FUEL 0 start = ne_outcome a b)%nat ∧
  (length a = 12 → length b = 12 → run cfi_assert_eq_12_words a b FUEL 0 start = eq_outcome a b)%nat ∧
  (length a = 8 → length b = 8 → run cfi_assert_eq_8_words a b FUEL 0 start = eq_outcome a b)%nat ∧
  (length a = 6 → length b = 6 → run cfi_assert_eq_6_words a b FUEL 0 start = eq_outcome a b)%nat.
Proof. auto using eq_16_run, ne_16_run, eq_12_run, eq_8_run, eq_6_run. Qed.

Lemma cfi_asm_blocks_witness :
  run cfi_assert_eq_6_words [1;2;3;4;5;6] [1;2;3;4;5;7] FUEL 0 start = Handler 0x01040055.
Proof. exact (proj2 (proj2 (proj2 (cfi_asm_blocks [1;2;3;4;5;6] [1;2;3;4;5;7]))) eq_refl eq_refl). Defined.

(** C40. Control-flow integrity of a wrapped function. If its body returns (with
    a value or an error) and leaves the counter as it found it, the function
    returns the body's result, with the counter restored to its value before the
    call: so a wrapped function can itself be part of a wrapped body. Whatever
    else is executed in place of the call, the wrapper never returns unless the
    counter comes back exactly one higher: it panics with a mismatch or an
    underflow if the counter is another one, and as corrupt if it is not
    validly encoded. A call that is skipped is one instance. *)
Theorem cfi_fn_protects {E A} (s : CfiState E) v :
  ctr s = encode v → 0 ≤ v < 2 ^ 32 - 1 →
  (∀ (body : M (CfiState E) A) r s', body (entered s v) = (r, s') → ctr s' = encode (v + 1) → (∀ w, r ≠ Abort w) →
     cfi_fn body s = (r, left s' v) ∧ ctr (left s' v) = ctr s ∧ env (left s' v) = env s') ∧
  (∀ (call : M (CfiState E) (res A)) ret s',
     call (mkCfiState (ctr s) (snd (next (prng s))) (env s)) = (Ok ret, s') →
     (∀ u, ctr s' = encode u → 0 ≤ u < 2 ^ 32 → u ≠ v + 1 →
        fst (cfi_wrapper call s) = Abort (CfiPanic (if u =? 0 then CounterUnderflow else CounterMismatch))) ∧
     (is_valid (ctr s') = false → fst (cfi_wrapper call s) = Abort (CfiPanic CounterCorrupt))) ∧
  (∀ ret : res A, ∃ info, fst (cfi_wrapper (mret ret) s) = Abort (CfiPanic info)).
Proof.
  intros Hc Hv. split_and!.
  - intros body r s' Hb Hc' Hr. pose proof (cfi_orig_run body s v r s' Hc Hv Hb Hr) as Ho.
    unfold cfi_fn. rewrite (proj1 (cfi_wrapper_run _ s v r s' Hc Ho) Hc' Hv). done.
  - intros call ret s' Hcall. apply (cfi_wrapper_run call s v ret s' Hc Hcall).
  - intros ret. eexists. apply (cfi_wrapper_run (mret ret) s v ret _ Hc eq_refl) with (u := v); [exact Hc|lia|lia].
Qed.

(** A state of the counter with a seeded generator, for the witnesses. *)
Definition example_state : CfiState Z := mkCfiState (encode 3) (mkXoshiro128 1 2 3 4) 7.

Lemma cfi_fn_protects_witness :
  fst (cfi_fn (mret 5 : M (CfiState Z) Z) example_state) = Ok 5 ∧
  fst (cfi_wrapper (mret (Ok 5) : M (CfiState Z) (res Z)) example_state) = Abort (CfiPanic CounterMismatch).
Proof.
  destruct (cfi_fn_protects (A := Z) example_state 3 eq_refl ltac:(lia)) as (H1 & H2 & _). split.
  - rewrite (proj1 (H1 (mret 5) (Ok 5) (entered example_state 3) eq_refl eq_refl ltac:(discriminate))). reflexivity.
  - apply (proj1 (H2 (mret (Ok 5)) (Ok 5) _ eq_refl) 3); [reflexivity|lia|lia].
Defined.

(** The redundant encoding of the counter: a valid pair stays valid under
    no change of only one of its two words; the zeroed pair that [corrupt]
    leaves is invalid, and every operation that looks at an invalid pair stops
    with [CounterCorrupt]; the counter neither wraps around at its top nor
    goes below zero. *)
Theorem cfi_counter_faults {E} (s : CfiState E) i w :
  (is_valid i = true → w ≠ val i → is_valid (mkCfiInt w (masked_val i)) = false) ∧
  (is_valid i = true → w ≠ masked_val i → is_valid (mkCfiInt (val i) w) = false) ∧
  is_valid (ctr (snd (corrupt s))) = false ∧
  (is_valid (ctr s) = false →
     increment s = (Abort (CfiPanic CounterCorrupt), s) ∧
     decrement s = (Abort (CfiPanic CounterCorrupt), s) ∧
     assert_eq (ctr s) i s = (Abort (CfiPanic CounterCorrupt), s)) ∧
  (ctr s = encode (2 ^ 32 - 1) → increment s = (Abort (CfiPanic CounterOverflow), s)) ∧
  (ctr s = encode 0 → decrement s = (Abort (CfiPanic CounterUnderflow), s)).
Proof.
  split_and!; [..|done| | |].
  - intros ->%is_valid_spec Hw. apply Z.eqb_neq. simpl in *. by rewrite lxor_mask.
  - intros ->%is_valid_spec Hw. apply Z.eqb_neq. simpl in *. intros Hv. apply Hw.
    by rewrite Hv, lxor_mask.
  - intros Hc. unfold increment, decrement, assert_eq, read. by rewrite !bind_get, Hc.
  - intros Hc. unfold increment, read. rewrite bind_get, Hc. done.
  - intros Hc. unfold decrement, read. rewrite bind_get, Hc. done.
Qed.

Lemma cfi_counter_faults_witness :
  is_valid (mkCfiInt 4 (masked_val (encode 3))) = false ∧
  decrement (mkCfiState (mkCfiInt 1 2) (mkXoshiro128 1 2 3 4) 7)
    = (Abort (CfiPanic CounterCorrupt), mkCfiState (mkCfiInt 1 2) (mkXoshiro128 1 2 3 4) 7).
Proof.
  split.
  - exact (proj1 (cfi_counter_faults example_state (encode 3) 4) eq_refl ltac:(discriminate)).
  - exact (proj1 (proj2 (proj1 (proj2 (proj2 (proj2 (cfi_counter_faults
      (mkCfiState (mkCfiInt 1 2) (mkXoshiro128 1 2 3 4) 7) (encode 3) 4)))) eq_refl))).
Defined.

(** The results of an entropy source that succeeds, up to the first one that
    leaves the generator's state non-zero. *)
Inductive seeds : Xoshiro128 → list (res (Z * Z * Z * Z)) → Xoshiro128 → Prop :=
  | seeds_done g e gen : all_bits (xor_state g e) ≠ 0 → seeds g (Ok e :: gen) (xor_state g e)
  | seeds_again g e gen g' : all_bits (xor_state g e) = 0 → seeds (xor_state g e) gen g' →
      seeds g (Ok e :: gen) g'.

(** Seeding: [mix_entropy] returns exactly when the source delivers values
    that make the state non-zero, and the state it returns is not zero; an
    error as the next result of the source panics; and a state that is not zero stays
    so whatever number of random words are drawn, so the delays never
    degenerate. *)
Theorem prng_never_degenerates (g : Xoshiro128) gen :
  (∀ g', mix_entropy gen g = Ok g' ↔ seeds g gen g') ∧
  (∀ g', mix_entropy gen g = Ok g' → all_bits g' ≠ 0) ∧
  (wf_prng g → all_bits g ≠ 0 → ∀ n,
     all_bits (Nat.iter n (λ g, snd (next g)) g) ≠ 0) ∧
  (∀ e gen', gen = Err e :: gen' → mix_entropy gen g = Abort (CfiPanic TrngError)).
Proof.
  split_and!; [| | |by intros e gen' ->].
  - revert g. induction gen as [|[e|e|w] gen IH]; intros g g'; cbn [mix_entropy];
      [split; [discriminate|inversion 1]| |split; [discriminate|inversion 1]..].
    destruct (Z.eqb_spec (all_bits (xor_state g e)) 0) as [Hz|Hz]; simpl.
    + rewrite IH. split; [by apply seeds_again|]. by inversion 1.
    + split; [intros H; injection H as <-; by apply seeds_done|]. by inversion 1.
  - revert g. induction gen as [|[e|e|w] gen IH]; intros g g'; cbn [mix_entropy]; try discriminate.
    destruct (Z.eqb_spec (all_bits (xor_state g e)) 0) as [Hz|Hz]; simpl; [apply IH|].
    intros H. by injection H as <-.
  - intros Hw Hn n. enough (wf_prng (Nat.iter n (λ g, snd (next g)) g) ∧
      all_bits (Nat.iter n (λ g, snd (next g)) g) ≠ 0) by tauto.
    induction n as [|n [Hw' Hn']]; [done|].
    split; [by apply (next_wf _ Hw') | by apply (next_nonzero _ Hw')].
Qed.

Lemma prng_never_degenerates_witness :
  all_bits (snd (next (snd (next (mkXoshiro128 1 0 0 0))))) ≠ 0 ∧
  mix_entropy [Ok (0, 0, 0, 0); Ok (1, 2, 3, 4)] (mkXoshiro128 0 0 0 0) = Ok (mkXoshiro128 1 2 3 4).
Proof.
  split.
  - apply (proj1 (proj2 (proj2 (prng_never_degenerates (mkXoshiro128 1 0 0 0) []))) ltac:(by split)
      ltac:(done) 2%nat).
  - apply (proj1 (prng_never_degenerates (mkXoshiro128 0 0 0 0) [Ok (0, 0, 0, 0); Ok (1, 2, 3, 4)])).
    apply seeds_again; [done|]. by apply (seeds_done (xor_state (mkXoshiro128 0 0 0 0) (0, 0, 0, 0)) (1, 2, 3, 4)).
Defined.
