(* ===== verification/ImageTypes.v ===== *)
(** The firmware image manifest (image/types/src/lib.rs).

    The structures of the manifest with their [repr(C)] byte layouts (no
    padding, little-endian fields, as [IntoBytes] gives them on the target),
    the decoding of LMS and MLDSA keys and signatures from their byte
    buffers, and the arithmetic of table-of-contents entries. *)

From S2P Require Import Prelude Errors Sha256 Lms LmsGen.

(** ** Constants *)

Definition MANIFEST_MARKER : Z := 0x324E4D43.
Definition IMAGE_FLAGS_PL0_PAUSER : Z := 1.
Definition IMAGE_FLAGS_DEBUG_IMAGE : Z := 2.
Definition KEY_DESCRIPTOR_VERSION : Z := 1.
Definition VENDOR_ECC_MAX_KEY_COUNT : Z := 4.
Definition VENDOR_LMS_MAX_KEY_COUNT : Z := 32.
Definition VENDOR_MLDSA_MAX_KEY_COUNT : Z := 4.
Definition VENDOR_PQC_MAX_KEY_COUNT : Z := VENDOR_LMS_MAX_KEY_COUNT.
Definition MAX_TOC_ENTRY_COUNT : Z := 2.
Definition IMAGE_BYTE_SIZE : Z := 256 * 1024.
Definition IMAGE_ALIGNMENT : nat := 256.
Definition LMS_PUB_KEY_BYTE_SIZE : nat := 48.
Definition MLDSA87_PUB_KEY_BYTE_SIZE : nat := 2592.
Definition MLDSA87_SIGNATURE_BYTE_SIZE : nat := 4628.
Definition PQC_PUB_KEY_BYTE_SIZE : nat := MLDSA87_PUB_KEY_BYTE_SIZE.
Definition PQC_SIGNATURE_BYTE_SIZE : nat := MLDSA87_SIGNATURE_BYTE_SIZE.

Inductive FwVerificationPqcKeyType := MLDSA | LMS.
#[export] Instance FwVerificationPqcKeyType_eq_dec : EqDecision FwVerificationPqcKeyType.
Proof. solve_decision. Defined.

Definition pqc_key_type_u8 (t : FwVerificationPqcKeyType) : Z :=
  match t with MLDSA => 1 | LMS => 3 end.

Definition from_u8 (value : Z) : option FwVerificationPqcKeyType :=
  if value =? 1 then Some MLDSA else if value =? 3 then Some LMS else None.

(** ** Structures *)

(** [ImageScalar] and [ImageDigest384] are lists of twelve words. *)
Record ImageEccPubKey := mkImageEccPubKey { ecc_x : list Z; ecc_y : list Z }.
Record ImageEccSignature := mkImageEccSignature { ecc_r : list Z; ecc_s : list Z }.

Record ImageEccKeyDescriptor := mkImageEccKeyDescriptor {
  ekd_version : Z; ekd_reserved : Z; ekd_key_hash_count : Z; ekd_key_hash : list (list Z) }.
Record ImagePqcKeyDescriptor := mkImagePqcKeyDescriptor {
  pkd_version : Z; pkd_key_type : Z; pkd_key_hash_count : Z; pkd_key_hash : list (list Z) }.
Record ImageVendorPubKeyInfo := mkImageVendorPubKeyInfo {
  ecc_key_descriptor : ImageEccKeyDescriptor; pqc_key_descriptor : ImagePqcKeyDescriptor }.

(** [ImagePqcPubKey] and [ImagePqcSignature] are byte buffers. *)
Record ImageOwnerPubKeys := mkImageOwnerPubKeys { opk_ecc_pub_key : ImageEccPubKey; opk_pqc_pub_key : list Z }.
Record ImageSignatures := mkImageSignatures { ecc_sig : ImageEccSignature; pqc_sig : list Z }.

Record ImagePreamble := mkImagePreamble {
  vendor_pub_key_info : ImageVendorPubKeyInfo;
  pre_vendor_ecc_pub_key_idx : Z;
  vendor_ecc_active_pub_key : ImageEccPubKey;
  pre_vendor_pqc_pub_key_idx : Z;
  vendor_pqc_active_pub_key : list Z;
  vendor_sigs : ImageSignatures;
  owner_pub_keys : ImageOwnerPubKeys;
  owner_sigs : ImageSignatures;
  pre_rsvd : list Z;
}.

Record VendorSignedData := mkVendorSignedData {
  vendor_not_before : list Z; vendor_not_after : list Z; vsd_reserved : list Z }.
Record OwnerSignedData := mkOwnerSignedData {
  owner_not_before : list Z; owner_not_after : list Z; osd_reserved : list Z }.

Record ImageHeader := mkImageHeader {
  hdr_revision : list Z;
  hdr_vendor_ecc_pub_key_idx : Z;
  hdr_vendor_pqc_pub_key_idx : Z;
  hdr_flags : Z;
  toc_len : Z;
  pl0_pauser : Z;
  toc_digest : list Z;
  hdr_svn : Z;
  vendor_data : VendorSignedData;
  owner_data : OwnerSignedData;
}.

Record ImageTocEntry := mkImageTocEntry {
  toc_id : Z;
  toc_type : Z;
  toc_revision : list Z;
  toc_version : Z;
  toc_reserved : list Z;
  load_addr : Z;
  entry_point : Z;
  toc_offset : Z;
  toc_size : Z;
  toc_entry_digest : list Z;
}.

Record ImageManifest := mkImageManifest {
  marker : Z;
  manifest_size : Z;
  manifest_pqc_key_type : Z;
  manifest_reserved : list Z;
  preamble : ImagePreamble;
  header : ImageHeader;
  fmc : ImageTocEntry;
  runtime : ImageTocEntry;
}.

(** ** Byte layouts *)

Definition ecc_pub_key_bytes (k : ImageEccPubKey) : list Z := bytes_le (ecc_x k) ++ bytes_le (ecc_y k).
Definition ecc_signature_bytes (g : ImageEccSignature) : list Z := bytes_le (ecc_r g) ++ bytes_le (ecc_s g).

Definition vendor_pub_key_info_bytes (i : ImageVendorPubKeyInfo) : list Z :=
  let e := ecc_key_descriptor i in
  let q := pqc_key_descriptor i in
  to_le 2 (ekd_version e) ++ [ekd_reserved e; ekd_key_hash_count e] ++ concat (map bytes_le (ekd_key_hash e))
  ++ to_le 2 (pkd_version q) ++ [pkd_key_type q; pkd_key_hash_count q] ++ concat (map bytes_le (pkd_key_hash q)).

Definition owner_pub_keys_bytes (k : ImageOwnerPubKeys) : list Z :=
  ecc_pub_key_bytes (opk_ecc_pub_key k) ++ opk_pqc_pub_key k.

Definition signatures_bytes (g : ImageSignatures) : list Z :=
  ecc_signature_bytes (ecc_sig g) ++ pqc_sig g.

Definition preamble_bytes (p : ImagePreamble) : list Z :=
  vendor_pub_key_info_bytes (vendor_pub_key_info p)
  ++ to_le 4 (pre_vendor_ecc_pub_key_idx p) ++ ecc_pub_key_bytes (vendor_ecc_active_pub_key p)
  ++ to_le 4 (pre_vendor_pqc_pub_key_idx p) ++ vendor_pqc_active_pub_key p
  ++ signatures_bytes (vendor_sigs p) ++ owner_pub_keys_bytes (owner_pub_keys p)
  ++ signatures_bytes (owner_sigs p) ++ bytes_le (pre_rsvd p).

(** The header up to [owner_data], which the vendor signs, and the rest. *)
Definition vendor_header_bytes (h : ImageHeader) : list Z :=
  bytes_le (hdr_revision h) ++ to_le 4 (hdr_vendor_ecc_pub_key_idx h) ++ to_le 4 (hdr_vendor_pqc_pub_key_idx h)
  ++ to_le 4 (hdr_flags h) ++ to_le 4 (toc_len h) ++ to_le 4 (pl0_pauser h) ++ bytes_le (toc_digest h)
  ++ to_le 4 (hdr_svn h) ++ vendor_not_before (vendor_data h) ++ vendor_not_after (vendor_data h)
  ++ vsd_reserved (vendor_data h).
Definition owner_data_bytes (o : OwnerSignedData) : list Z :=
  owner_not_before o ++ owner_not_after o ++ osd_reserved o.
Definition header_bytes (h : ImageHeader) : list Z := vendor_header_bytes h ++ owner_data_bytes (owner_data h).

Definition toc_entry_bytes (e : ImageTocEntry) : list Z :=
  to_le 4 (toc_id e) ++ to_le 4 (toc_type e) ++ toc_revision e ++ to_le 4 (toc_version e)
  ++ bytes_le (toc_reserved e) ++ to_le 4 (load_addr e) ++ to_le 4 (entry_point e) ++ to_le 4 (toc_offset e)
  ++ to_le 4 (toc_size e) ++ bytes_le (toc_entry_digest e).

Definition toc_bytes (m : ImageManifest) : list Z := toc_entry_bytes (fmc m) ++ toc_entry_bytes (runtime m).

Definition manifest_bytes (m : ImageManifest) : list Z :=
  to_le 4 (marker m) ++ to_le 4 (manifest_size m) ++ [manifest_pqc_key_type m] ++ manifest_reserved m
  ++ preamble_bytes (preamble m) ++ header_bytes (header m) ++ toc_bytes m.

(** Sizes, as [size_of] and [offset_of!] compute them. *)
Definition size_ImageEccPubKey : nat := 96.
Definition size_ImageVendorPubKeyInfo : nat := (4 + 4 * 48) + (4 + 32 * 48).
Definition size_ImageOwnerPubKeys : nat := size_ImageEccPubKey + PQC_PUB_KEY_BYTE_SIZE.
Definition size_ImageSignatures : nat := 96 + PQC_SIGNATURE_BYTE_SIZE.
Definition size_ImagePreamble : nat :=
  size_ImageVendorPubKeyInfo + 4 + size_ImageEccPubKey + 4 + PQC_PUB_KEY_BYTE_SIZE
  + size_ImageSignatures + size_ImageOwnerPubKeys + size_ImageSignatures + 8.
Definition vendor_header_len : nat := 8 + 4 + 4 + 4 + 4 + 4 + 48 + 4 + 40.
Definition size_ImageHeader : nat := vendor_header_len + 40.
Definition size_ImageTocEntry : nat := 4 + 4 + 20 + 4 + 8 + 4 + 4 + 4 + 4 + 48.
Definition offset_header : nat := 12 + size_ImagePreamble.
Definition offset_toc : nat := offset_header + size_ImageHeader.
Definition IMAGE_MANIFEST_BYTE_SIZE : Z := Z.of_nat (offset_toc + 2 * size_ImageTocEntry).

(** ** Keys and signatures stored as bytes *)

(** The byte views of [LmsPublicKey] and [LmsSignature] (all fields are
    unaligned and big- or little-endian by type). *)
Definition lms_pub_key_bytes (k : LmsPublicKey) : list Z :=
  to_be 4 (pk_tree_type k) ++ to_be 4 (pk_otstype k) ++ pk_id k ++ bytes_le (pk_digest k).

Definition lms_signature_bytes (g : LmsSignature) : list Z :=
  to_be 4 (sig_q g) ++ to_be 4 (ots_type (sig_ots g)) ++ bytes_le (ots_nonce (sig_ots g))
  ++ concat (map bytes_le (ots_y (sig_ots g))) ++ to_be 4 (sig_tree_type g)
  ++ concat (map bytes_le (sig_tree_path g)).

Definition size_ImageLmsSignature : nat := 4 + 4 + 24 + 51 * 24 + 4 + 15 * 24.

(** [ref_from_prefix]: fails only when the buffer is too short. *)
Definition lms_pub_key_from_prefix (b : list Z) : option LmsPublicKey :=
  if (LMS_PUB_KEY_BYTE_SIZE <=? length b)%nat then
    Some (mkLmsPublicKey (from_be (slice b 0 4)) (from_be (slice b 4 8)) (slice b 8 24) (words_le (slice b 24 48)))
  else None.

Definition lms_signature_from_prefix (b : list Z) : option LmsSignature :=
  if (size_ImageLmsSignature <=? length b)%nat then
    Some (mkLmsSignature (from_be (slice b 0 4))
            (mkLmotsSignature (from_be (slice b 4 8)) (words_le (slice b 8 32))
               (map words_le (chunks 24 51 (drop 32 b))))
            (from_be (slice b 1256 1260)) (map words_le (chunks 24 15 (drop 1260 b))))
  else None.

(** [ImageMldsaPubKey] and [ImageMldsaSignature] are arrays of words; their
    buffers are at offsets of the manifest that are multiples of four. *)
Definition mldsa_pub_key_from_prefix (b : list Z) : option (list Z) :=
  if (MLDSA87_PUB_KEY_BYTE_SIZE <=? length b)%nat then Some (words_le (take MLDSA87_PUB_KEY_BYTE_SIZE b)) else None.
Definition mldsa_signature_from_prefix (b : list Z) : option (list Z) :=
  if (MLDSA87_SIGNATURE_BYTE_SIZE <=? length b)%nat then Some (words_le (take MLDSA87_SIGNATURE_BYTE_SIZE b)) else None.

(** ** Table-of-contents entries *)

(** [Range<u32>], a start and an end. *)
Definition image_range (e : ImageTocEntry) : res (Z * Z) :=
  match checked_add_u32 (toc_offset e) (toc_size e) with
  | Some e' => Ok (toc_offset e, e')
  | None => Err IMAGE_VERIFIER_ERR_TOC_ENTRY_RANGE_ARITHMETIC_OVERFLOW
  end.

Definition image_size (e : ImageTocEntry) : Z := toc_size e.

Definition overlaps (e other : ImageTocEntry) : bool :=
  (load_addr e <? u32w (load_addr other + image_size other))
  && (u32w (load_addr e + image_size e) >? load_addr other).

(** [Range::contains] and [Range::len]. *)
Definition range_contains (r : Z * Z) (x : Z) : bool := (fst r <=? x) && (x <? snd r).
Definition range_len (r : Z * Z) : Z := Z.max 0 (snd r - fst r).

(** ** Well-formedness: what the Rust types say of a value *)

Definition is_digest (d : list Z) : Prop := length d = 12%nat ∧ is_words d.
Definition is_buf (n : nat) (b : list Z) : Prop := length b = n ∧ is_bytes b.
Definition is_hashes (n : nat) (l : list (list Z)) : Prop := length l = n ∧ Forall is_digest l.

Record wf_ecc_key (k : ImageEccPubKey) : Prop := { wf_x : is_digest (ecc_x k); wf_y : is_digest (ecc_y k) }.
Record wf_ecc_sig (g : ImageEccSignature) : Prop := { wf_r : is_digest (ecc_r g); wf_s : is_digest (ecc_s g) }.

Record wf_info (i : ImageVendorPubKeyInfo) : Prop := {
  wf_ecc_version : is_u16 (ekd_version (ecc_key_descriptor i));
  wf_ecc_reserved : is_u8 (ekd_reserved (ecc_key_descriptor i));
  wf_ecc_count : is_u8 (ekd_key_hash_count (ecc_key_descriptor i));
  wf_ecc_hash : is_hashes 4 (ekd_key_hash (ecc_key_descriptor i));
  wf_pqc_version : is_u16 (pkd_version (pqc_key_descriptor i));
  wf_pqc_type : is_u8 (pkd_key_type (pqc_key_descriptor i));
  wf_pqc_count : is_u8 (pkd_key_hash_count (pqc_key_descriptor i));
  wf_pqc_hash : is_hashes 32 (pkd_key_hash (pqc_key_descriptor i));
}.

Record wf_sigs (g : ImageSignatures) : Prop := {
  wf_sig_ecc : wf_ecc_sig (ecc_sig g); wf_sig_pqc : is_buf PQC_SIGNATURE_BYTE_SIZE (pqc_sig g) }.
Record wf_owner_keys (k : ImageOwnerPubKeys) : Prop := {
  wf_opk_ecc : wf_ecc_key (opk_ecc_pub_key k); wf_opk_pqc : is_buf PQC_PUB_KEY_BYTE_SIZE (opk_pqc_pub_key k) }.

Record wf_preamble (p : ImagePreamble) : Prop := {
  wf_pre_info : wf_info (vendor_pub_key_info p);
  wf_pre_ecc_idx : is_u32 (pre_vendor_ecc_pub_key_idx p);
  wf_pre_ecc_key : wf_ecc_key (vendor_ecc_active_pub_key p);
  wf_pre_pqc_idx : is_u32 (pre_vendor_pqc_pub_key_idx p);
  wf_pre_pqc_key : is_buf PQC_PUB_KEY_BYTE_SIZE (vendor_pqc_active_pub_key p);
  wf_pre_vendor_sigs : wf_sigs (vendor_sigs p);
  wf_pre_owner_keys : wf_owner_keys (owner_pub_keys p);
  wf_pre_owner_sigs : wf_sigs (owner_sigs p);
  wf_pre_rsvd : length (pre_rsvd p) = 2%nat ∧ is_words (pre_rsvd p);
}.

Record wf_header (h : ImageHeader) : Prop := {
  wf_hdr_revision : length (hdr_revision h) = 2%nat ∧ is_words (hdr_revision h);
  wf_hdr_ecc_idx : is_u32 (hdr_vendor_ecc_pub_key_idx h);
  wf_hdr_pqc_idx : is_u32 (hdr_vendor_pqc_pub_key_idx h);
  wf_hdr_flags : is_u32 (hdr_flags h);
  wf_hdr_toc_len : is_u32 (toc_len h);
  wf_hdr_pauser : is_u32 (pl0_pauser h);
  wf_hdr_digest : is_digest (toc_digest h);
  wf_hdr_svn : is_u32 (hdr_svn h);
  wf_vendor_data : is_buf 15 (vendor_not_before (vendor_data h)) ∧ is_buf 15 (vendor_not_after (vendor_data h)) ∧
                   is_buf 10 (vsd_reserved (vendor_data h));
  wf_owner_data : is_buf 15 (owner_not_before (owner_data h)) ∧ is_buf 15 (owner_not_after (owner_data h)) ∧
                  is_buf 10 (osd_reserved (owner_data h));
}.

Record wf_toc (e : ImageTocEntry) : Prop := {
  wf_toc_id : is_u32 (toc_id e);
  wf_toc_type : is_u32 (toc_type e);
  wf_toc_revision : is_buf 20 (toc_revision e);
  wf_toc_version : is_u32 (toc_version e);
  wf_toc_reserved : length (toc_reserved e) = 2%nat ∧ is_words (toc_reserved e);
  wf_load_addr : is_u32 (load_addr e);
  wf_entry_point : is_u32 (entry_point e);
  wf_toc_offset : is_u32 (toc_offset e);
  wf_toc_size : is_u32 (toc_size e);
  wf_toc_entry_digest : is_digest (toc_entry_digest e);
}.

Record wf_manifest (m : ImageManifest) : Prop := {
  wf_marker : is_u32 (marker m);
  wf_size : is_u32 (manifest_size m);
  wf_pqc_key_type : is_u8 (manifest_pqc_key_type m);
  wf_reserved : is_buf 3 (manifest_reserved m);
  wf_m_preamble : wf_preamble (preamble m);
  wf_m_header : wf_header (header m);
  wf_m_fmc : wf_toc (fmc m);
  wf_m_runtime : wf_toc (runtime m);
}.

(** Keys and signatures of LMS in the one parameter set of the images. *)
Record wf_lms_key (k : LmsPublicKey) : Prop := {
  wk_tree : is_u32 (pk_tree_type k);
  wk_ots : is_u32 (pk_otstype k);
  wk_id : is_buf 16 (pk_id k);
  wk_digest : length (pk_digest k) = 6%nat ∧ is_words (pk_digest k);
}.

(** Arrays of [n] hashes of six words. *)
Definition is_nodes (n : nat) (l : list (list Z)) : Prop :=
  length l = n ∧ Forall (λ x, length x = 6%nat ∧ is_words x) l.

Record wf_lms_sig (g : LmsSignature) : Prop := {
  wg_q : is_u32 (sig_q g);
  wg_ots : is_u32 (ots_type (sig_ots g));
  wg_nonce : length (ots_nonce (sig_ots g)) = 6%nat ∧ is_words (ots_nonce (sig_ots g));
  wg_y : is_nodes 51 (ots_y (sig_ots g));
  wg_tree : is_u32 (sig_tree_type g);
  wg_path : is_nodes 15 (sig_tree_path g);
}.
