(* ===== verification/ImageLayout.v ===== *)
(** The byte layout of the manifest: the sizes that [size_of] and [offset_of!]
    give are the lengths of the byte views, so that the slices the verifier
    and the generator take are the structures they mean. *)

From S2P Require Import Prelude Errors Sha256 Lms LmsGen ImageTypes.

(** Lengths of concatenations are sums; [len] is the database of the lengths
    of the pieces. *)
Create Rewrite HintDb len.
#[export] Hint Rewrite @length_app length_bytes_le length_to_le length_to_be @length_replicate : len.

Lemma length_concat_same {A} n (l : list (list A)) :
  Forall (λ x, length x = n) l → length (concat l) = (n * length l)%nat.
Proof.
  induction 1 as [|x l Hx Hl IH]; simpl; [lia|]. rewrite length_app, IH, Hx. lia.
Qed.

Lemma length_hashes n l : is_hashes n l → length (concat (map bytes_le l)) = (48 * n)%nat.
Proof.
  intros [<- Hl]. rewrite (length_concat_same 48), length_map; [done|].
  apply Forall_map. eapply Forall_impl; [done|]. intros d [Hd _]. simpl. rewrite length_bytes_le. lia.
Qed.

Section Lengths.

Lemma length_ecc_pub_key k : wf_ecc_key k → length (ecc_pub_key_bytes k) = size_ImageEccPubKey.
Proof. intros [[Hx _] [Hy _]]. unfold ecc_pub_key_bytes. autorewrite with len. rewrite Hx, Hy. done. Qed.

Lemma length_ecc_signature g : wf_ecc_sig g → length (ecc_signature_bytes g) = 96%nat.
Proof. intros [[Hx _] [Hy _]]. unfold ecc_signature_bytes. autorewrite with len. rewrite Hx, Hy. done. Qed.

Lemma length_vendor_pub_key_info i :
  wf_info i → length (vendor_pub_key_info_bytes i) = size_ImageVendorPubKeyInfo.
Proof.
  intros [_ _ _ He _ _ _ Hp]. unfold vendor_pub_key_info_bytes. autorewrite with len.
  rewrite (length_hashes 4), (length_hashes 32) by done. done.
Qed.

Lemma length_owner_pub_keys k : wf_owner_keys k → length (owner_pub_keys_bytes k) = size_ImageOwnerPubKeys.
Proof.
  intros [He [Hp _]]. unfold owner_pub_keys_bytes. autorewrite with len.
  by rewrite length_ecc_pub_key, Hp.
Qed.

Lemma length_signatures g : wf_sigs g → length (signatures_bytes g) = size_ImageSignatures.
Proof.
  intros [He [Hp _]]. unfold signatures_bytes. autorewrite with len.
  by rewrite length_ecc_signature, Hp.
Qed.

Lemma length_preamble p : wf_preamble p → length (preamble_bytes p) = size_ImagePreamble.
Proof.
  intros [Hi _ Hk _ [Hq _] Hv Ho Hs [Hr _]]. unfold preamble_bytes, size_ImagePreamble.
  autorewrite with len.
  rewrite length_vendor_pub_key_info, length_ecc_pub_key, !length_signatures, length_owner_pub_keys, Hq, Hr by done.
  lia.
Qed.

Lemma length_vendor_header h : wf_header h → length (vendor_header_bytes h) = vendor_header_len.
Proof.
  intros [[Hr _] _ _ _ _ _ [Hd _] _ ([H1 _] & [H2 _] & [H3 _]) _]. unfold vendor_header_bytes.
  autorewrite with len. by rewrite Hr, Hd, H1, H2, H3.
Qed.

Lemma length_header h : wf_header h → length (header_bytes h) = size_ImageHeader.
Proof.
  intros Hh. unfold header_bytes, owner_data_bytes. autorewrite with len. rewrite length_vendor_header by done.
  destruct Hh as [_ _ _ _ _ _ _ _ _ ([H1 _] & [H2 _] & [H3 _])]. by rewrite H1, H2, H3.
Qed.

Lemma length_toc_entry e : wf_toc e → length (toc_entry_bytes e) = size_ImageTocEntry.
Proof.
  intros [_ _ [Hr _] _ [Hs _] _ _ _ _ [Hd _]]. unfold toc_entry_bytes. autorewrite with len.
  by rewrite Hr, Hs, Hd.
Qed.

Lemma length_toc m : wf_manifest m → length (toc_bytes m) = (2 * size_ImageTocEntry)%nat.
Proof.
  intros []. unfold toc_bytes. autorewrite with len. rewrite !length_toc_entry by done. lia.
Qed.

(** Everything before the table of contents. *)
Definition manifest_head (m : ImageManifest) : list Z :=
  to_le 4 (marker m) ++ to_le 4 (manifest_size m) ++ [manifest_pqc_key_type m] ++ manifest_reserved m
  ++ preamble_bytes (preamble m) ++ header_bytes (header m).

Lemma manifest_split m : manifest_bytes m = manifest_head m ++ toc_bytes m.
Proof. unfold manifest_bytes, manifest_head. by rewrite <- !app_assoc. Qed.

Lemma length_manifest_head m : wf_manifest m → length (manifest_head m) = offset_toc.
Proof.
  intros [_ _ _ [Hr _] Hp Hh _ _]. unfold manifest_head, offset_toc, offset_header. autorewrite with len.
  rewrite length_preamble, length_header, Hr by done.
  generalize size_ImagePreamble, size_ImageHeader. intros. cbn [length]. lia.
Qed.

Lemma length_manifest m : wf_manifest m → Z.of_nat (length (manifest_bytes m)) = IMAGE_MANIFEST_BYTE_SIZE.
Proof.
  intros Hm. rewrite manifest_split. autorewrite with len.
  rewrite length_manifest_head, length_toc by done. done.
Qed.
End Lengths.

(** The slice [span_of!(ImageManifest, fmc..=runtime)]. *)
Lemma manifest_toc_slice m : wf_manifest m →
  slice (manifest_bytes m) offset_toc (offset_toc + 2 * size_ImageTocEntry) = toc_bytes m.
Proof.
  intros Hm. unfold slice. rewrite manifest_split, <- (length_manifest_head m) by done.
  rewrite drop_app_length, <- (length_toc m) by done.
  rewrite Nat.add_comm, Nat.add_sub. apply take_ge. lia.
Qed.

(** The header up to [offset_of!(ImageHeader, owner_data)]. *)
Lemma vendor_header_slice h : wf_header h → take vendor_header_len (header_bytes h) = vendor_header_bytes h.
Proof. intros. unfold header_bytes. rewrite <- (length_vendor_header h) by done. apply take_app_length. Qed.

(** ** Keys and signatures read from buffers *)

Lemma from_be_slice_u32 b i : is_bytes b → (i + 4 ≤ length b)%nat → is_u32 (from_be (slice b i (i + 4))).
Proof.
  intros Hb Hl. assert (length (slice b i (i + 4)) = 4%nat) by (unfold slice; rewrite length_take, length_drop; lia).
  pose proof (from_be_bound (slice b i (i + 4))) as H'.
  rewrite H, u32_pow in H'. apply H'. unfold slice. by apply Forall_take, Forall_drop.
Qed.

Lemma node_from_bytes b : is_bytes b → length b = 24%nat → length (words_le b) = 6%nat ∧ is_words (words_le b).
Proof. intros Hb Hl. rewrite length_words_le, Hl. split; [done|]. by apply words_le_words. Qed.

Lemma nodes_from_bytes n b : is_bytes b → (24 * n ≤ length b)%nat → is_nodes n (map words_le (chunks 24 n b)).
Proof.
  intros Hb Hl. split; [by rewrite length_map, length_chunks|]. apply Forall_map.
  revert b Hb Hl. induction n as [|n IH]; intros b Hb Hl; [constructor|]. cbn [chunks]. constructor.
  - apply node_from_bytes; [by apply Forall_take|]. rewrite length_take. lia.
  - apply IH; [by apply Forall_drop|]. rewrite length_drop. lia.
Qed.

Lemma lms_pub_key_from_prefix_wf b k : is_bytes b → lms_pub_key_from_prefix b = Some k → wf_lms_key k.
Proof.
  unfold lms_pub_key_from_prefix. intros Hb. case_match eqn:Hl; [|done]. intros [= <-].
  apply Nat.leb_le in Hl. unfold LMS_PUB_KEY_BYTE_SIZE in Hl. split; simpl.
  - apply (from_be_slice_u32 b 0); [done|lia].
  - apply (from_be_slice_u32 b 4); [done|lia].
  - split; [unfold slice; rewrite length_take, length_drop; lia|]. unfold slice. by apply Forall_take, Forall_drop.
  - apply node_from_bytes; [unfold slice; by apply Forall_take, Forall_drop|].
    unfold slice. rewrite length_take, length_drop. lia.
Qed.

Lemma lms_signature_from_prefix_wf b g : is_bytes b → lms_signature_from_prefix b = Some g → wf_lms_sig g.
Proof.
  unfold lms_signature_from_prefix. intros Hb. case_match eqn:Hl; [|done]. intros <-%(inj Some).
  apply Nat.leb_le in Hl. change size_ImageLmsSignature with 1620%nat in Hl.
  split; cbn [sig_q sig_ots ots_type ots_nonce ots_y sig_tree_type sig_tree_path].
  - apply (from_be_slice_u32 b 0); [done|lia].
  - apply (from_be_slice_u32 b 4); [done|lia].
  - apply node_from_bytes; [unfold slice; by apply Forall_take, Forall_drop|].
    unfold slice. rewrite length_take, length_drop. lia.
  - apply nodes_from_bytes; [by apply Forall_drop|]. rewrite length_drop. lia.
  - apply (from_be_slice_u32 b 1256); [done|lia].
  - apply nodes_from_bytes; [by apply Forall_drop|]. rewrite length_drop. lia.
Qed.
