(* ===== verification/LmsImage.v ===== *)
(** LMS verification on the keys and signatures of firmware images.

    The production instance of the verifier (SHA-256/192, [w = 4], height 15)
    on any key and signature read from their buffers: it returns the root that
    RFC 8554 computes when the parameters are the expected ones, and an error
    otherwise; it never panics. *)

From S2P Require Import Prelude Errors Sha256 Sha256Proofs Sha256Alg Lms LmsGen LmsSpec LmsProofs ImageTypes.

(** What the verifier demands of the parameters. *)
Record lms_params_ok (k : LmsPublicKey) (g : LmsSignature) : Prop := {
  lpo_key : ots_type (sig_ots g) = pk_otstype k;
  lpo_ots : ots_type (sig_ots g) = LmotsSha256N24W4;
  lpo_tree : sig_tree_type g = LmsSha256N32H15 ∨ sig_tree_type g = LmsSha256N24H15;
  lpo_q : sig_q g < 2 ^ 15;
}.

#[export] Instance lms_params_ok_dec k g : Decision (lms_params_ok k g).
Proof.
  refine (cast_if (decide (ots_type (sig_ots g) = pk_otstype k ∧ ots_type (sig_ots g) = LmotsSha256N24W4 ∧
    (sig_tree_type g = LmsSha256N32H15 ∨ sig_tree_type g = LmsSha256N24H15) ∧ sig_q g < 2 ^ 15)));
    [by destruct_and!|intros []; naive_solver].
Defined.

(** The root of RFC 8554 as the six words that the verifier returns. *)
Definition lms_root `{Sha2Compress} (k : LmsPublicKey) (message : list Z) (g : LmsSignature) : list Z :=
  words_be (lms_Tc 24 4 4 15 (pk_id k) message g).

Definition lms_candidate `{Sha2Compress} (message : list Z) (k : LmsPublicKey) (g : LmsSignature)
    : option (list Z) :=
  if decide (lms_params_ok k g) then Some (lms_root k message g) else None.

Lemma tree_root_bytes `{Hc : Sha2Compress, Hok : !Sha2CompressOk} n id node tmp path :
  (n ≤ 32)%nat → length tmp = n → is_bytes tmp →
  length (tree_root n id node tmp path) = n ∧ is_bytes (tree_root n id node tmp path).
Proof.
  intros Hn. revert node tmp. induction path as [|p path IH]; intros node tmp Hl Hb; [done|].
  apply IH; [by apply length_H_n|apply H_n_bytes].
Qed.

Lemma lms_Tc_bytes `{Hc : Sha2Compress, Hok : !Sha2CompressOk} w ls h id message g :
  length (lms_Tc 24 w ls h id message g) = 24%nat ∧ is_bytes (lms_Tc 24 w ls h id message g).
Proof. apply tree_root_bytes; [lia|apply length_H_n; lia|apply H_n_bytes]. Qed.

Lemma lms_root_bytes `{Hc : Sha2Compress, Hok : !Sha2CompressOk} k message g :
  bytes_be (lms_root k message g) = lms_Tc 24 4 4 15 (pk_id k) message g.
Proof.
  destruct (lms_Tc_bytes 4 4 15 (pk_id k) message g) as [Hl Hb]. unfold lms_root.
  apply bytes_be_words_be; [done|]. rewrite Hl. by exists 6.
Qed.

Lemma lms_root_words `{Hc : Sha2Compress, Hok : !Sha2CompressOk} k message g : is_words (lms_root k message g).
Proof. apply words_be_words, lms_Tc_bytes. Qed.

(** An LMS signature over a digest, as RFC 8554 defines it. *)
Definition lms_signed `{Sha2Compress} (digest key sig : list Z) : Prop :=
  ∃ k g, lms_pub_key_from_prefix key = Some k ∧ lms_signature_from_prefix sig = Some g ∧ lms_params_ok k g ∧
    bytes_le (pk_digest k) = lms_Tc 24 4 4 15 (pk_id k) (bytes_be digest) g.

Lemma lms_candidate_ok `{Hc : Sha2Compress, Hok : !Sha2CompressOk} message k g :
  lms_candidate message k g = Some (Lms.hash_value_le (pk_digest k)) ↔
  lms_params_ok k g ∧ bytes_le (pk_digest k) = lms_Tc 24 4 4 15 (pk_id k) message g.
Proof.
  unfold lms_candidate. split.
  - destruct (decide (lms_params_ok k g)); [|done]. intros Hr%(inj Some). split; [done|].
    by rewrite <- bytes_be_hash_value_le, <- Hr, lms_root_bytes.
  - intros [Hp Hr]. rewrite decide_True by done. f_equal.
    apply bytes_be_inj; [apply lms_root_words|apply hash_value_le_words|].
    by rewrite lms_root_bytes, bytes_be_hash_value_le.
Qed.

Lemma height_15 t : (∃ n, get_lms_parameters t = Ok (n, 15)) ↔ t = LmsSha256N32H15 ∨ t = LmsSha256N24H15.
Proof.
  unfold get_lms_parameters. split; [|intros [-> | ->]; by eexists].
  intros [n Hn]. repeat case_match; try discriminate; subst; simplify_eq;
    match goal with H : (_ =? _) = true |- _ => apply Z.eqb_eq in H end; auto.
Qed.

Lemma get_lms_parameters_no_abort t w : get_lms_parameters t ≠ Abort w.
Proof. unfold get_lms_parameters. by repeat case_match. Qed.

Section Total.
Context {Sh Op : Type} `{Hcomp : Sha2Compress, Hcok : !Sha2CompressOk, Halg : !Sha256Alg Sh Op, Haok : !Sha256AlgOk Sh Op}.

(** The table entry with 51 chains of 24-byte hashes. *)
Lemma candidate_wrong_ots id t q y md (s : Sh) :
  t ≠ LmotsSha256N24W4 → ∃ e, Lms.candidate_ots_signature 6 51 id t q y md s = (Err e, s).
Proof.
  intros Ht. unfold Lms.candidate_ots_signature.
  destruct (get_lmots_parameters t) as [prm|e|w] eqn:Ep.
  - destruct (get_lmots_parameters_inv _ _ Ep) as [En Hin].
    assert (lp_p prm <> 51).
    { destruct Hin as [->|Hin]; [by injection Ep as <-|].
      unfold lmots_ok in Hin. simpl in Hin. rewrite !elem_of_cons, elem_of_nil in Hin.
      destruct_or!; subst; try done; simpl in *; congruence. }
    eexists. rewrite (bind_lift_ok _ prm) by done. unfold fail_if.
    rewrite (proj2 (Z.eqb_neq (lp_p prm) (Z.of_nat 51))) by done. reflexivity.
  - eexists. reflexivity.
  - unfold get_lmots_parameters in Ep. by case_match.
Qed.

Lemma hash_message_ready message id q nonce (s : Sh) :
  alg_ready s → is_bytes message → Z.of_nat (length message) ≤ 65536 → length id = 16%nat → is_bytes id →
  length nonce = 6%nat →
  ∃ d s', Lms.hash_message 6 message id (to_be 4 q) nonce s = (Ok d, s') ∧ alg_ready s'.
Proof.
  intros Hs Hm Hl Hid Hbid Hn.
  destruct (hash_value_parts 6 [id; to_be 4 q; to_be 2 D_MESG; bytes_le nonce; message] s)
    as (d & s' & E & Hs' & _); [lia|done| | |].
  { auto 10 using Forall_cons_2, Forall_nil_2, to_be_bytes, bytes_le_bytes. }
  { cbn [concat]. rewrite app_nil_r, !length_app, !length_to_be, length_bytes_le, Hid, Hn.
    change Driver.SHA256_MAX_DATA_SIZE with 1048576. lia. }
  eexists _, s'. split; [|done]. unfold Lms.hash_message. by rewrite (bind_ok _ _ _ _ _ E).
Qed.

Lemma params_lms_wf k g : wf_lms_key k → wf_lms_sig g → lms_params_ok k g →
  lms_wf 6 51 15 (mkLmotsParameter LmotsSha256N24W4 24 4 51 4) k g.
Proof.
  intros [_ _ Hid _] [[Hq0 _] _ [Hn _] [Hy Hys] _ [Hp Hps]] [Hk Ho Ht Hq].
  split; try done; try congruence.
  - unfold lmots_ok. simpl. rewrite !elem_of_cons. tauto.
  - simpl. congruence.
  - exact (proj2 (height_15 _) Ht).
  - split; [done|]. eapply Forall_impl; [done|]. by intros ? [].
  - split; [done|]. eapply Forall_impl; [done|]. by intros ? [].
Qed.

Lemma lms_cfi_rejects message k g (s : Sh) :
  wf_lms_key k → wf_lms_sig g → alg_ready s → is_bytes message → Z.of_nat (length message) ≤ 65536 →
  ¬ lms_params_ok k g →
  ∃ e s', Lms.verify_lms_signature_cfi message k g s = (Err e, s') ∧ alg_ready s'.
Proof.
  intros Hk Hg Hs Hm Hl Hn.
  unfold Lms.verify_lms_signature_cfi, Lms.verify_lms_signature_cfi_generic.
  destruct (decide (ots_type (sig_ots g) = pk_otstype k)) as [Hok|];
    [|rewrite (proj2 (Z.eqb_neq _ _)) by done; by eexists _, s].
  rewrite bind_fail_if by (by rewrite (proj2 (Z.eqb_eq _ _))).
  destruct (get_lms_parameters (sig_tree_type g)) as [[n h]|e|w] eqn:Et;
    [|by eexists e, s|by destruct (get_lms_parameters_no_abort _ _ Et)].
  rewrite (bind_lift_ok _ (n, h)) by done. cbv beta iota.
  destruct (decide (h = Z.of_nat 15)) as [->|]; [|rewrite (proj2 (Z.eqb_neq h _)) by done; by eexists _, s].
  rewrite bind_fail_if by done.
  destruct (decide (sig_q g < 2 ^ 15)) as [Hq|Hq].
  2:{ eexists _, s. replace (sig_q g >=? Z.shiftl 1 (Z.of_nat 15)) with true; [done|].
      symmetry. rewrite Z.geb_leb. apply Z.leb_le. change (2 ^ 15 ≤ sig_q g). lia. }
  rewrite bind_fail_if by (rewrite Z.geb_leb; apply Z.leb_gt; exact Hq). cbv zeta.
  destruct (wg_q g Hg) as [Hq0 _].
  rewrite bind_fail_if by (rewrite Z.geb_leb; apply Z.leb_gt; change (Z.shiftl 1 (Z.of_nat 15)) with (2 ^ 15);
    change (Z.shiftl 2 (Z.of_nat 15)) with (2 ^ 16); rewrite wrap_small; ulia).
  destruct (wk_id k Hk) as [Hid Hbid].
  destruct (hash_message_ready message (pk_id k) (sig_q g) (ots_nonce (sig_ots g)) s) as (d & s1 & E1 & Hs1);
    [done..|apply Hg|].
  rewrite (bind_ok _ _ _ _ _ E1).
  destruct (candidate_wrong_ots (pk_id k) (ots_type (sig_ots g)) (to_be 4 (sig_q g)) (ots_y (sig_ots g)) d s1)
    as [e E2]; [|rewrite (bind_err _ _ _ _ _ E2); by eexists e, s1].
  intros Ho. apply Hn. split; [done..| |done]. apply height_15. by exists n.
Qed.

Lemma lms_cfi_total message k g (s : Sh) :
  wf_lms_key k → wf_lms_sig g → alg_ready s → is_bytes message → Z.of_nat (length message) ≤ 65536 →
  ∃ r s', Lms.verify_lms_signature_cfi message k g s = (r, s') ∧ alg_ready s' ∧
    match r with
    | Ok v => lms_candidate message k g = Some v
    | Err _ => lms_candidate message k g = None
    | Abort _ => False
    end.
Proof.
  intros Hk Hg Hs Hm Hl. unfold lms_candidate. destruct (decide (lms_params_ok k g)) as [Hp|Hn].
  - destruct (verify_generic_ok _ _ _ _ message k g s (params_lms_wf k g Hk Hg Hp) Hs Hm)
      as (v & s' & E & Hs' & [Hvl Hv] & Ev); [simpl; change Driver.SHA256_MAX_DATA_SIZE with 1048576; lia|].
    exists (Ok v), s'. split; [done|]. split; [done|]. f_equal. unfold lms_root.
    change (bytes_be v = lms_Tc 24 4 4 15 (pk_id k) message g) in Ev. by rewrite <- Ev, words_be_bytes_be.
  - destruct (lms_cfi_rejects message k g s) as (e & s' & E & Hs'); [done..|]. by exists (Err e), s'.
Qed.
End Total.
