(* ===== verification/ImageVerify.v ===== *)
(** The image verifier (image/verify/src/lib.rs, image/verify/src/verifier.rs).

    The environment the verifier runs in is the type class
    [ImageVerificationEnv], the trait of the same name. Every function of the
    verifier is translated with all its guards in the order of the code,
    including the control-flow-integrity assertions; laundering returns its
    argument. *)

From S2P Require Import Prelude Errors Sha256 Lms LmsGen ImageTypes Cfi.

(** ** Data *)

Inductive ResetReason := ColdReset | WarmReset | UpdateReset | UnknownReset.
#[export] Instance ResetReason_eq_dec : EqDecision ResetReason.
Proof. solve_decision. Defined.

Inductive Lifecycle := Unprovisioned | Manufacturing | Reserved2 | Production.
#[export] Instance Lifecycle_eq_dec : EqDecision Lifecycle.
Proof. solve_decision. Defined.

Inductive Mldsa87Result := MldsaSuccess | SigVerifyFailed.
#[export] Instance Mldsa87Result_eq_dec : EqDecision Mldsa87Result.
Proof. solve_decision. Defined.

(** [VendorEccPubKeyRevocation], a set of flags over the four lowest bits. *)
Definition revocation_from_bits_truncate (bits : Z) : Z := Z.land bits 0xF.
Definition revocation_contains (self other : Z) : bool := Z.land self other =? other.

Definition MAX_FIRMWARE_SVN : Z := 128.
Definition ZERO_DIGEST : list Z := replicate 12 0.

Record FirmwareSvnLogInfo := mkFirmwareSvnLogInfo {
  log_manifest_svn : Z; log_reserved : Z; log_fuse_svn : Z }.

Record ImageVerificationExeInfo := mkImageVerificationExeInfo {
  exe_load_addr : Z; exe_size : Z; exe_entry_point : Z; exe_digest : list Z }.

Record ImageVerificationLogInfo := mkImageVerificationLogInfo {
  log_vendor_ecc_pub_key_idx : Z;
  log_fuse_vendor_ecc_pub_key_revocation : Z;
  log_vendor_pqc_pub_key_idx : Z;
  log_fuse_vendor_pqc_pub_key_revocation : Z;
  fw_log_info : FirmwareSvnLogInfo }.

Record ImageVerificationInfo := mkImageVerificationInfo {
  info_vendor_ecc_pub_key_idx : Z;
  info_vendor_pqc_pub_key_idx : Z;
  info_pqc_key_type : FwVerificationPqcKeyType;
  info_owner_pub_keys_digest : list Z;
  info_owner_pub_keys_digest_in_fuses : bool;
  info_fw_svn : Z;
  info_effective_fuse_svn : Z;
  info_fmc : ImageVerificationExeInfo;
  info_runtime : ImageVerificationExeInfo;
  info_log : ImageVerificationLogInfo }.

Inductive PqcKeyInfo :=
  | PqcLms (k : LmsPublicKey) (g : LmsSignature)
  | PqcMldsa (k : list Z) (g : list Z).

Record HeaderInfo := mkHeaderInfo {
  hi_vendor_ecc_pub_key_idx : Z;
  hi_vendor_pqc_pub_key_idx : Z;
  hi_vendor_ecc_pub_key_revocation : Z;
  hi_vendor_ecc_info : ImageEccPubKey * ImageEccSignature;
  hi_vendor_pqc_info : PqcKeyInfo;
  hi_vendor_pqc_pub_key_revocation : Z;
  hi_owner_ecc_info : ImageEccPubKey * ImageEccSignature;
  hi_owner_pqc_info : PqcKeyInfo;
  hi_owner_pub_keys_digest : list Z;
  hi_owner_pub_keys_digest_in_fuses : bool }.

Record TocInfo := mkTocInfo { ti_len : Z; ti_digest : list Z }.

(** [ImageSignData]: the digest and, for MLDSA, the message itself. *)
Record ImageSignData := mkImageSignData { digest_384 : list Z; mldsa_msg : option (list Z) }.

(** ** The environment *)

(** The operations of the trait that the verifier calls. The ones that take
    [&mut self] may change the environment, the others read it. *)
Class ImageVerificationEnv (E : Type) := {
  sha384_acc_digest_slice : list Z → CaliptraError → M E (list Z);
  sha384_acc_digest : Z → Z → CaliptraError → M E (list Z);
  ecc384_verify : list Z → ImageEccPubKey → ImageEccSignature → M E (list Z);
  lms_verify : list Z → LmsPublicKey → LmsSignature → M E (list Z);
  mldsa87_verify : list Z → list Z → list Z → M E Mldsa87Result;
  vendor_pub_key_info_digest_fuses : E → list Z;
  vendor_ecc_pub_key_revocation : E → Z;
  vendor_lms_pub_key_revocation : E → Z;
  vendor_mldsa_pub_key_revocation : E → Z;
  owner_pub_key_digest_fuses : E → list Z;
  anti_rollback_disable : E → bool;
  dev_lifecycle : E → Lifecycle;
  vendor_ecc_pub_key_idx_dv : E → Z;
  vendor_pqc_pub_key_idx_dv : E → Z;
  owner_pub_key_digest_dv : E → list Z;
  get_fmc_digest_dv : E → list Z;
  get_cold_reset_fmc_load_addr : E → Z;
  get_cold_reset_fmc_size : E → Z;
  fw_fuse_svn : E → Z;
  iccm_range : E → Z * Z;
  set_fw_extended_error : Z → E → E;
  pqc_key_type_fuse : E → res FwVerificationPqcKeyType;
  dot_owner_pk_hash : E → option (list Z);
  debug_image_allowed : E → bool;
}.

(** [.map_err(|err| { set_fw_extended_error(err); e })]. *)
Definition with_extended_error {E A} `{ImageVerificationEnv E} (m : M E A) (e : CaliptraError) : M E A :=
  map_err m (λ err s, (e, set_fw_extended_error err s)).

Definition is_multiple_of (x n : Z) : bool := x mod n =? 0.

Section Verifier.
Context {E : Type} `{Henv : ImageVerificationEnv E}.
Implicit Types (p : ImagePreamble) (reason : ResetReason) (t : FwVerificationPqcKeyType).

(** ** Key indices *)

Definition verify_vendor_ecc_pk_idx p reason : M E (Z * Z) :=
  let key_idx := pre_vendor_ecc_pub_key_idx p in
  revocation ← get vendor_ecc_pub_key_revocation;
  let key_hash_count := ekd_key_hash_count (ecc_key_descriptor (vendor_pub_key_info p)) in
  let last_key_idx := u32w (key_hash_count - 1) in
  fail_if (key_idx >? last_key_idx) IMAGE_VERIFIER_ERR_VENDOR_ECC_PUB_KEY_INDEX_OUT_OF_BOUNDS;;
  (if key_idx =? last_key_idx then cfi_assert_eq key_idx last_key_idx
   else
     let key := revocation_from_bits_truncate (shl_u32 1 key_idx) in
     if revocation_contains revocation key then fail IMAGE_VERIFIER_ERR_VENDOR_ECC_PUB_KEY_REVOKED
     else cfi_assert_bool (negb (revocation_contains revocation key)));;
  (if bool_decide (reason = UpdateReset) then
     expected ← get vendor_ecc_pub_key_idx_dv;
     if negb (expected =? key_idx) then fail IMAGE_VERIFIER_ERR_UPDATE_RESET_VENDOR_ECC_PUB_KEY_IDX_MISMATCH
     else x ← get vendor_ecc_pub_key_idx_dv; cfi_assert_eq x key_idx
   else cfi_assert_ne reason UpdateReset);;
  mret (key_idx, revocation).

Definition verify_vendor_pqc_pk_idx p reason (revocation : Z) : M E Z :=
  let key_idx := pre_vendor_pqc_pub_key_idx p in
  let key_hash_count := pkd_key_hash_count (pqc_key_descriptor (vendor_pub_key_info p)) in
  let last_key_idx := u32w (key_hash_count - 1) in
  fail_if (key_idx >? last_key_idx) IMAGE_VERIFIER_ERR_VENDOR_PQC_PUB_KEY_INDEX_OUT_OF_BOUNDS;;
  (if key_idx =? last_key_idx then cfi_assert_eq key_idx last_key_idx
   else if negb (Z.land revocation (shl_u32 1 key_idx) =? 0) then
     fail IMAGE_VERIFIER_ERR_VENDOR_PQC_PUB_KEY_REVOKED
   else cfi_assert_eq (Z.land revocation (shl_u32 1 key_idx)) 0);;
  (if bool_decide (reason = UpdateReset) then
     expected ← get vendor_pqc_pub_key_idx_dv;
     if negb (expected =? key_idx) then fail IMAGE_VERIFIER_ERR_UPDATE_RESET_VENDOR_PQC_PUB_KEY_IDX_MISMATCH
     else x ← get vendor_pqc_pub_key_idx_dv; cfi_assert_eq x key_idx
   else cfi_assert_ne reason UpdateReset);;
  mret key_idx.

(** ** Key digests *)

(** [if expected != actual { Err(e)? } else { cfi_assert_eq_12_words(..) }]. *)
Definition check_digest (expected actual : list Z) (e : CaliptraError) : M E unit :=
  if bool_decide (expected ≠ actual) then fail e else cfi_assert_eq_words expected actual.

Definition verify_active_ecc_pub_key_digest p : M E unit :=
  let key_idx := pre_vendor_ecc_pub_key_idx p in
  expected ← lift (ok_or (ekd_key_hash (ecc_key_descriptor (vendor_pub_key_info p)) !! Z.to_nat key_idx)
                     IMAGE_VERIFIER_ERR_VENDOR_ECC_PUB_KEY_INDEX_OUT_OF_BOUNDS);
  actual ← sha384_acc_digest_slice (ecc_pub_key_bytes (vendor_ecc_active_pub_key p))
             IMAGE_VERIFIER_ERR_VENDOR_PUB_KEY_DIGEST_FAILURE;
  check_digest expected actual IMAGE_VERIFIER_ERR_VENDOR_ECC_PUB_KEY_DIGEST_MISMATCH.

Definition verify_active_pqc_pub_key_digest p t : M E unit :=
  let key_idx := pre_vendor_pqc_pub_key_idx p in
  let expected := pkd_key_hash (pqc_key_descriptor (vendor_pub_key_info p)) !! Z.to_nat key_idx in
  fail_if (bool_decide (expected = None)
           || (bool_decide (t = LMS) && (key_idx >=? VENDOR_LMS_MAX_KEY_COUNT))
           || (bool_decide (t = MLDSA) && (key_idx >=? VENDOR_MLDSA_MAX_KEY_COUNT)))
    IMAGE_VERIFIER_ERR_VENDOR_PQC_PUB_KEY_INDEX_OUT_OF_BOUNDS;;
  expected ← lift (unwrap expected);
  let size := if bool_decide (t = MLDSA) then MLDSA87_PUB_KEY_BYTE_SIZE else LMS_PUB_KEY_BYTE_SIZE in
  actual ← sha384_acc_digest_slice (take size (vendor_pqc_active_pub_key p))
             IMAGE_VERIFIER_ERR_VENDOR_PUB_KEY_DIGEST_FAILURE;
  check_digest expected actual IMAGE_VERIFIER_ERR_VENDOR_PQC_PUB_KEY_DIGEST_MISMATCH.

(** The part after the early return of an unprovisioned device. *)
Definition verify_provisioned_pub_key_info p t : M E unit :=
  expected ← get vendor_pub_key_info_digest_fuses;
  (if bool_decide (expected = ZERO_DIGEST) then fail IMAGE_VERIFIER_ERR_VENDOR_PUB_KEY_DIGEST_INVALID
   else cfi_assert_ne expected ZERO_DIGEST);;
  let ekd := ecc_key_descriptor (vendor_pub_key_info p) in
  let pkd := pqc_key_descriptor (vendor_pub_key_info p) in
  fail_if (negb (ekd_version ekd =? KEY_DESCRIPTOR_VERSION))
    IMAGE_VERIFIER_ERR_ECC_KEY_DESCRIPTOR_VERSION_MISMATCH;;
  fail_if (ekd_key_hash_count ekd =? 0) IMAGE_VERIFIER_ERR_ECC_KEY_DESCRIPTOR_INVALID_HASH_COUNT;;
  fail_if (ekd_key_hash_count ekd >? VENDOR_ECC_MAX_KEY_COUNT)
    IMAGE_VERIFIER_ERR_ECC_KEY_DESCRIPTOR_HASH_COUNT_GT_MAX;;
  fail_if (negb (pkd_version pkd =? KEY_DESCRIPTOR_VERSION))
    IMAGE_VERIFIER_ERR_PQC_KEY_DESCRIPTOR_VERSION_MISMATCH;;
  fail_if (negb (pkd_key_type pkd =? pqc_key_type_u8 t)) IMAGE_VERIFIER_ERR_PQC_KEY_DESCRIPTOR_TYPE_MISMATCH;;
  fail_if (pkd_key_hash_count pkd =? 0) IMAGE_VERIFIER_ERR_PQC_KEY_DESCRIPTOR_INVALID_HASH_COUNT;;
  fail_if ((bool_decide (t = LMS) && (pkd_key_hash_count pkd >? VENDOR_LMS_MAX_KEY_COUNT))
           || (bool_decide (t = MLDSA) && (pkd_key_hash_count pkd >? VENDOR_MLDSA_MAX_KEY_COUNT)))
    IMAGE_VERIFIER_ERR_PQC_KEY_DESCRIPTOR_HASH_COUNT_GT_MAX;;
  actual ← sha384_acc_digest_slice (vendor_pub_key_info_bytes (vendor_pub_key_info p))
             IMAGE_VERIFIER_ERR_VENDOR_PUB_KEY_DIGEST_FAILURE;
  check_digest expected actual IMAGE_VERIFIER_ERR_VENDOR_PUB_KEY_DIGEST_MISMATCH;;
  verify_active_ecc_pub_key_digest p;;
  verify_active_pqc_pub_key_digest p t.

Definition verify_vendor_pub_key_info_digest p t : M E unit :=
  lifecycle ← get dev_lifecycle;
  if bool_decide (lifecycle = Unprovisioned) then
    l ← get dev_lifecycle; cfi_assert_eq l Unprovisioned
  else
    l ← get dev_lifecycle; cfi_assert_ne l Unprovisioned;;
    verify_provisioned_pub_key_info p t.

Definition verify_owner_pk_digest p reason : M E (list Z * bool) :=
  actual ← sha384_acc_digest_slice (owner_pub_keys_bytes (owner_pub_keys p))
             IMAGE_VERIFIER_ERR_OWNER_PUB_KEY_DIGEST_FAILURE;
  fuses_digest ← get owner_pub_key_digest_fuses;
  (if bool_decide (fuses_digest = ZERO_DIGEST) then
     dot ← get dot_owner_pk_hash;
     (match dot with
      | Some h => fail_if (bool_decide (h ≠ actual)) IMAGE_VERIFIER_ERR_DOT_OWNER_PUB_KEY_DIGEST_MISMATCH
      | None => mret tt
      end);;
     cfi_assert_eq_words fuses_digest ZERO_DIGEST
   else check_digest fuses_digest actual IMAGE_VERIFIER_ERR_OWNER_PUB_KEY_DIGEST_MISMATCH);;
  (if bool_decide (reason = UpdateReset) then
     cold_boot_digest ← get owner_pub_key_digest_dv;
     check_digest cold_boot_digest actual IMAGE_VERIFIER_ERR_UPDATE_RESET_OWNER_DIGEST_FAILURE
   else cfi_assert_ne reason UpdateReset);;
  mret (actual, bool_decide (fuses_digest ≠ ZERO_DIGEST)).

(** ** The preamble *)

(** Reading a post-quantum key and signature out of their buffers, with the
    two errors of the caller. *)
Definition pqc_key_info t (key sig : list Z) (key_err sig_err : CaliptraError) : res PqcKeyInfo :=
  match t with
  | LMS =>
      k ← ok_or (lms_pub_key_from_prefix key) key_err;
      g ← ok_or (lms_signature_from_prefix sig) sig_err;
      Ok (PqcLms k g)
  | MLDSA =>
      k ← ok_or (mldsa_pub_key_from_prefix key) key_err;
      g ← ok_or (mldsa_signature_from_prefix sig) sig_err;
      Ok (PqcMldsa k g)
  end.

Definition vendor_pqc_revocation t : E → Z :=
  match t with LMS => vendor_lms_pub_key_revocation | MLDSA => vendor_mldsa_pub_key_revocation end.

Definition verify_preamble p reason t : M E HeaderInfo :=
  verify_vendor_pub_key_info_digest p t;;
  '(owner_digest, in_fuses) ← verify_owner_pk_digest p reason;
  '(ecc_idx, ecc_revocation) ← verify_vendor_ecc_pk_idx p reason;
  vendor_pqc ← lift (pqc_key_info t (vendor_pqc_active_pub_key p) (pqc_sig (vendor_sigs p))
    (match t with LMS => IMAGE_VERIFIER_ERR_LMS_VENDOR_PUB_KEY_INVALID
                | MLDSA => IMAGE_VERIFIER_ERR_MLDSA_VENDOR_PUB_KEY_READ_FAILED end)
    (match t with LMS => IMAGE_VERIFIER_ERR_LMS_VENDOR_SIG_INVALID
                | MLDSA => IMAGE_VERIFIER_ERR_MLDSA_VENDOR_SIG_READ_FAILED end));
  key_revocation ← get (vendor_pqc_revocation t);
  pqc_idx ← verify_vendor_pqc_pk_idx p reason key_revocation;
  owner_pqc ← lift (pqc_key_info t (opk_pqc_pub_key (owner_pub_keys p)) (pqc_sig (owner_sigs p))
    (match t with LMS => IMAGE_VERIFIER_ERR_LMS_OWNER_PUB_KEY_INVALID
                | MLDSA => IMAGE_VERIFIER_ERR_MLDSA_OWNER_PUB_KEY_READ_FAILED end)
    (match t with LMS => IMAGE_VERIFIER_ERR_LMS_OWNER_SIG_INVALID
                | MLDSA => IMAGE_VERIFIER_ERR_MLDSA_OWNER_SIG_READ_FAILED end));
  mret (mkHeaderInfo ecc_idx pqc_idx ecc_revocation
          (vendor_ecc_active_pub_key p, ecc_sig (vendor_sigs p)) vendor_pqc key_revocation
          (opk_ecc_pub_key (owner_pub_keys p), ecc_sig (owner_sigs p)) owner_pqc
          owner_digest in_fuses).

(** ** Signatures *)

Definition verify_ecc_sig (digest : list Z) (k : ImageEccPubKey) (g : ImageEccSignature)
    (is_owner : bool) : M E unit :=
  let signature_invalid := if is_owner then IMAGE_VERIFIER_ERR_OWNER_ECC_SIGNATURE_INVALID
                           else IMAGE_VERIFIER_ERR_VENDOR_ECC_SIGNATURE_INVALID in
  let pub_key_invalid_arg := if is_owner then IMAGE_VERIFIER_ERR_OWNER_ECC_PUB_KEY_INVALID_ARG
                             else IMAGE_VERIFIER_ERR_VENDOR_ECC_PUB_KEY_INVALID_ARG in
  let sig_invalid_arg := if is_owner then IMAGE_VERIFIER_ERR_OWNER_ECC_SIGNATURE_INVALID_ARG
                         else IMAGE_VERIFIER_ERR_VENDOR_ECC_SIGNATURE_INVALID_ARG in
  fail_if (bool_decide (ecc_x k = ZERO_DIGEST) || bool_decide (ecc_y k = ZERO_DIGEST)) pub_key_invalid_arg;;
  fail_if (bool_decide (ecc_r g = ZERO_DIGEST) || bool_decide (ecc_s g = ZERO_DIGEST)) sig_invalid_arg;;
  verify_r ← with_extended_error (ecc384_verify digest k g)
    (if is_owner then IMAGE_VERIFIER_ERR_OWNER_ECC_VERIFY_FAILURE
     else IMAGE_VERIFIER_ERR_VENDOR_ECC_VERIFY_FAILURE);
  check_digest verify_r (ecc_r g) signature_invalid.

Definition verify_lms_sig (digest : list Z) (k : LmsPublicKey) (g : LmsSignature) (is_owner : bool) : M E unit :=
  let verify_failure := if is_owner then IMAGE_VERIFIER_ERR_OWNER_LMS_VERIFY_FAILURE
                        else IMAGE_VERIFIER_ERR_VENDOR_LMS_VERIFY_FAILURE in
  let signature_invalid := if is_owner then IMAGE_VERIFIER_ERR_OWNER_LMS_SIGNATURE_INVALID
                           else IMAGE_VERIFIER_ERR_VENDOR_LMS_SIGNATURE_INVALID in
  candidate_key ← with_extended_error (lms_verify digest k g) verify_failure;
  let pub_key_digest := Lms.hash_value_le (pk_digest k) in
  check_digest candidate_key pub_key_digest signature_invalid.

Definition verify_mldsa_sig (msg k g : list Z) (is_owner : bool) : M E unit :=
  let verify_failure := if is_owner then IMAGE_VERIFIER_ERR_OWNER_MLDSA_VERIFY_FAILURE
                        else IMAGE_VERIFIER_ERR_VENDOR_MLDSA_VERIFY_FAILURE in
  let signature_invalid := if is_owner then IMAGE_VERIFIER_ERR_OWNER_MLDSA_SIGNATURE_INVALID
                           else IMAGE_VERIFIER_ERR_VENDOR_MLDSA_SIGNATURE_INVALID in
  result ← with_extended_error (mldsa87_verify msg k g) verify_failure;
  fail_if (bool_decide (result ≠ MldsaSuccess)) signature_invalid.

(** The [match pqc_info] at the end of both signature checks. *)
Definition verify_pqc_sig (d : ImageSignData) (info : PqcKeyInfo) (is_owner : bool) : M E unit :=
  match info with
  | PqcLms k g => verify_lms_sig (digest_384 d) k g is_owner
  | PqcMldsa k g =>
      match mldsa_msg d with
      | Some msg => verify_mldsa_sig msg k g is_owner
      | None => fail (if is_owner then IMAGE_VERIFIER_ERR_OWNER_MLDSA_MSG_MISSING
                      else IMAGE_VERIFIER_ERR_VENDOR_MLDSA_MSG_MISSING)
      end
  end.

Definition verify_vendor_sig (d : ImageSignData) (ecc_info : ImageEccPubKey * ImageEccSignature)
    (pqc_info : PqcKeyInfo) : M E unit :=
  let '(k, g) := ecc_info in
  fail_if (bool_decide (ecc_x k = ZERO_DIGEST) || bool_decide (ecc_y k = ZERO_DIGEST))
    IMAGE_VERIFIER_ERR_VENDOR_ECC_PUB_KEY_INVALID_ARG;;
  fail_if (bool_decide (ecc_r g = ZERO_DIGEST) || bool_decide (ecc_s g = ZERO_DIGEST))
    IMAGE_VERIFIER_ERR_VENDOR_ECC_SIGNATURE_INVALID_ARG;;
  verify_r ← with_extended_error (ecc384_verify (digest_384 d) k g)
    IMAGE_VERIFIER_ERR_VENDOR_ECC_VERIFY_FAILURE;
  check_digest verify_r (ecc_r g) IMAGE_VERIFIER_ERR_VENDOR_ECC_SIGNATURE_INVALID;;
  verify_pqc_sig d pqc_info false.

Definition verify_owner_sig (d : ImageSignData) (ecc_info : ImageEccPubKey * ImageEccSignature)
    (pqc_info : PqcKeyInfo) : M E unit :=
  let '(k, g) := ecc_info in
  verify_ecc_sig (digest_384 d) k g true;;
  verify_pqc_sig d pqc_info true.

(** ** The header *)

Definition verify_header (h : ImageHeader) (info : HeaderInfo) : M E TocInfo :=
  let vendor_header := take vendor_header_len (header_bytes h) in
  vendor_digest_384 ← sha384_acc_digest_slice vendor_header IMAGE_VERIFIER_ERR_HEADER_DIGEST_FAILURE;
  owner_digest_384 ← sha384_acc_digest_slice (header_bytes h) IMAGE_VERIFIER_ERR_HEADER_DIGEST_FAILURE;
  let '(vendor_msg, owner_msg) :=
    match hi_vendor_pqc_info info with
    | PqcMldsa _ _ => (Some vendor_header, Some (header_bytes h))
    | PqcLms _ _ => (None, None)
    end in
  verify_vendor_sig (mkImageSignData vendor_digest_384 vendor_msg) (hi_vendor_ecc_info info)
    (hi_vendor_pqc_info info);;
  (if negb (hdr_vendor_ecc_pub_key_idx h =? hi_vendor_ecc_pub_key_idx info) then
     fail IMAGE_VERIFIER_ERR_VENDOR_ECC_PUB_KEY_INDEX_MISMATCH
   else cfi_assert_eq (hdr_vendor_ecc_pub_key_idx h) (hi_vendor_ecc_pub_key_idx info));;
  (if negb (hdr_vendor_pqc_pub_key_idx h =? hi_vendor_pqc_pub_key_idx info) then
     fail IMAGE_VERIFIER_ERR_VENDOR_PQC_PUB_KEY_INDEX_MISMATCH
   else cfi_assert_eq (hdr_vendor_pqc_pub_key_idx h) (hi_vendor_pqc_pub_key_idx info));;
  let debug_image := negb (Z.land (hdr_flags h) IMAGE_FLAGS_DEBUG_IMAGE =? 0) in
  (if debug_image then
     cfi_assert_bool debug_image;;
     allowed ← get debug_image_allowed;
     (if negb allowed then
        cfi_assert_bool (negb allowed);; fail IMAGE_VERIFIER_ERR_DEBUG_IMAGE_NOT_ALLOWED
      else mret tt);;
     cfi_assert_bool allowed
   else cfi_assert_bool (negb debug_image));;
  verify_owner_sig (mkImageSignData owner_digest_384 owner_msg) (hi_owner_ecc_info info)
    (hi_owner_pqc_info info);;
  mret (mkTocInfo (toc_len h) (toc_digest h)).

(** ** The table of contents *)

Definition verify_toc (m : ImageManifest) (verify_info : TocInfo) (img_bundle_sz : Z)
    : M E (ImageTocEntry * ImageTocEntry) :=
  (if negb (ti_len verify_info =? MAX_TOC_ENTRY_COUNT) then fail IMAGE_VERIFIER_ERR_TOC_ENTRY_COUNT_INVALID
   else cfi_assert_eq (ti_len verify_info) MAX_TOC_ENTRY_COUNT);;
  actual ← sha384_acc_digest_slice
    (slice (manifest_bytes m) offset_toc (offset_toc + 2 * size_ImageTocEntry))
    IMAGE_VERIFIER_ERR_TOC_DIGEST_FAILURE;
  check_digest (ti_digest verify_info) actual IMAGE_VERIFIER_ERR_TOC_DIGEST_MISMATCH;;
  fail_if (image_size (fmc m) =? 0) IMAGE_VERIFIER_ERR_FMC_SIZE_ZERO;;
  fail_if (image_size (runtime m) =? 0) IMAGE_VERIFIER_ERR_RUNTIME_SIZE_ZERO;;
  fail_if (negb (toc_offset (fmc m) =? IMAGE_MANIFEST_BYTE_SIZE)) IMAGE_VERIFIER_ERR_FMC_OFFSET_INVALID;;
  let img_len := u64w (u64w (manifest_size m + image_size (fmc m)) + image_size (runtime m)) in
  fail_if (img_len >? img_bundle_sz) IMAGE_VERIFIER_ERR_IMAGE_LEN_MORE_THAN_BUNDLE_SIZE;;
  fmc_range ← lift (image_range (fmc m));
  runtime_range ← lift (image_range (runtime m));
  fail_if ((fst fmc_range <? snd runtime_range) && (snd fmc_range >? fst runtime_range))
    IMAGE_VERIFIER_ERR_FMC_RUNTIME_OVERLAP;;
  fail_if (snd fmc_range >? fst runtime_range) IMAGE_VERIFIER_ERR_FMC_RUNTIME_INCORRECT_ORDER;;
  fail_if ((snd fmc_range >? img_bundle_sz) || (snd runtime_range >? img_bundle_sz))
    IMAGE_VERIFIER_ERR_IMAGE_LEN_MORE_THAN_BUNDLE_SIZE;;
  fail_if (negb (fst runtime_range =? snd fmc_range)) IMAGE_VERIFIER_ERR_RUNTIME_OFFSET_INVALID;;
  let fmc_start := load_addr (fmc m) in
  let '(fmc_end, overflow) := overflowing_add_u32 fmc_start (u32w (image_size (fmc m) - 1)) in
  fail_if overflow IMAGE_VERIFIER_ERR_FMC_LOAD_ADDRESS_IMAGE_SIZE_ARITHMETIC_OVERFLOW;;
  let runtime_start := load_addr (runtime m) in
  let '(runtime_end, overflow) := overflowing_add_u32 runtime_start (u32w (image_size (runtime m) - 1)) in
  fail_if overflow IMAGE_VERIFIER_ERR_RUNTIME_LOAD_ADDRESS_IMAGE_SIZE_ARITHMETIC_OVERFLOW;;
  fail_if ((fmc_start <=? runtime_end) && (fmc_end >=? runtime_start))
    IMAGE_VERIFIER_ERR_FMC_RUNTIME_LOAD_ADDR_OVERLAP;;
  mret (fmc m, runtime m).

(** ** The two images *)

Definition exe_info (e : ImageTocEntry) : ImageVerificationExeInfo :=
  mkImageVerificationExeInfo (load_addr e) (toc_size e) (entry_point e) (toc_entry_digest e).

Definition verify_fmc (e : ImageTocEntry) reason : M E ImageVerificationExeInfo :=
  range ← lift (image_range e);
  actual ← sha384_acc_digest (fst range) (u32w (range_len range)) IMAGE_VERIFIER_ERR_FMC_DIGEST_FAILURE;
  check_digest (toc_entry_digest e) actual IMAGE_VERIFIER_ERR_FMC_DIGEST_MISMATCH;;
  let load_addr_end := u32w (u32w (load_addr e + toc_size e) - 1) in
  iccm ← get iccm_range;
  fail_if (negb (range_contains iccm (load_addr e)) || negb (range_contains iccm load_addr_end))
    IMAGE_VERIFIER_ERR_FMC_LOAD_ADDR_INVALID;;
  fail_if (negb (is_multiple_of (load_addr e) 4)) IMAGE_VERIFIER_ERR_FMC_LOAD_ADDR_UNALIGNED;;
  fail_if (negb (range_contains iccm (entry_point e)) || (entry_point e <? load_addr e)
           || (entry_point e >? load_addr_end)) IMAGE_VERIFIER_ERR_FMC_ENTRY_POINT_INVALID;;
  fail_if (negb (is_multiple_of (entry_point e) 4)) IMAGE_VERIFIER_ERR_FMC_ENTRY_POINT_UNALIGNED;;
  fail_if (negb (entry_point e =? load_addr e)) IMAGE_VERIFIER_ERR_FMC_ENTRY_POINT_NOT_AT_LOAD_ADDR;;
  (if bool_decide (reason = UpdateReset) then
     dv ← get get_fmc_digest_dv;
     (if bool_decide (actual ≠ dv) then fail IMAGE_VERIFIER_ERR_UPDATE_RESET_FMC_DIGEST_MISMATCH
      else dv' ← get get_fmc_digest_dv; cfi_assert_eq actual dv');;
     cold_load_addr ← get get_cold_reset_fmc_load_addr;
     cold_size ← get get_cold_reset_fmc_size;
     fail_if (negb (load_addr e =? cold_load_addr) || negb (toc_size e =? cold_size))
       IMAGE_VERIFIER_ERR_UPDATE_RESET_FMC_LOAD_ADDR_MISMATCH
   else cfi_assert_ne reason UpdateReset);;
  mret (exe_info e).

Definition verify_runtime (e : ImageTocEntry) : M E ImageVerificationExeInfo :=
  range ← lift (image_range e);
  actual ← sha384_acc_digest (fst range) (u32w (range_len range)) IMAGE_VERIFIER_ERR_RUNTIME_DIGEST_FAILURE;
  check_digest (toc_entry_digest e) actual IMAGE_VERIFIER_ERR_RUNTIME_DIGEST_MISMATCH;;
  let load_addr_end := u32w (u32w (load_addr e + toc_size e) - 1) in
  iccm ← get iccm_range;
  fail_if (negb (range_contains iccm (load_addr e)) || negb (range_contains iccm load_addr_end))
    IMAGE_VERIFIER_ERR_RUNTIME_LOAD_ADDR_INVALID;;
  fail_if (negb (is_multiple_of (load_addr e) 4)) IMAGE_VERIFIER_ERR_RUNTIME_LOAD_ADDR_UNALIGNED;;
  fail_if (negb (range_contains iccm (entry_point e)) || (entry_point e <? load_addr e)
           || (entry_point e >? load_addr_end)) IMAGE_VERIFIER_ERR_RUNTIME_ENTRY_POINT_INVALID;;
  fail_if (negb (is_multiple_of (entry_point e) 4)) IMAGE_VERIFIER_ERR_RUNTIME_ENTRY_POINT_UNALIGNED;;
  fail_if (negb (entry_point e =? load_addr e)) IMAGE_VERIFIER_ERR_RUNTIME_ENTRY_POINT_NOT_AT_LOAD_ADDR;;
  mret (exe_info e).

(** ** Security version numbers *)

Definition svn_check_required : M E bool :=
  lifecycle ← get dev_lifecycle;
  if bool_decide (lifecycle = Unprovisioned) then
    l ← get dev_lifecycle; cfi_assert_eq l Unprovisioned;; mret false
  else
    disabled ← get anti_rollback_disable;
    if (disabled : bool) then
      d ← get anti_rollback_disable; cfi_assert_bool d;; mret false
    else mret true.

Definition verify_svn (fw_svn : Z) : M E unit :=
  (if fw_svn >? MAX_FIRMWARE_SVN then
     fail IMAGE_VERIFIER_ERR_FIRMWARE_SVN_GREATER_THAN_MAX_SUPPORTED
   else cfi_assert_bool (fw_svn <=? MAX_FIRMWARE_SVN));;
  required ← svn_check_required;
  if (required : bool) then
    fuse ← get fw_fuse_svn;
    if fw_svn <? fuse then fail IMAGE_VERIFIER_ERR_FIRMWARE_SVN_LESS_THAN_FUSE
    else f ← get fw_fuse_svn; cfi_assert_ge fw_svn f
  else mret tt.

Definition effective_fuse_svn : M E Z :=
  disabled ← get anti_rollback_disable;
  if (disabled : bool) then
    d ← get anti_rollback_disable; cfi_assert_bool d;; mret 0
  else
    d ← get anti_rollback_disable; cfi_assert_bool (negb d);;
    get fw_fuse_svn.

(** ** The whole verification *)

Definition verify (m : ImageManifest) (img_bundle_sz : Z) reason : M E ImageVerificationInfo :=
  fail_if (negb (marker m =? MANIFEST_MARKER)) IMAGE_VERIFIER_ERR_MANIFEST_MARKER_MISMATCH;;
  fail_if (negb (manifest_size m =? IMAGE_MANIFEST_BYTE_SIZE)) IMAGE_VERIFIER_ERR_MANIFEST_SIZE_MISMATCH;;
  t ← lift (ok_or (from_u8 (manifest_pqc_key_type m)) IMAGE_VERIFIER_ERR_PQC_KEY_TYPE_INVALID);
  lifecycle ← get dev_lifecycle;
  (if bool_decide (lifecycle ≠ Unprovisioned) then
     r ← get pqc_key_type_fuse;
     t_fuse ← lift r;
     fail_if (bool_decide (t ≠ t_fuse)) IMAGE_VERIFIER_ERR_PQC_KEY_TYPE_MISMATCH
   else mret tt);;
  header_info ← verify_preamble (preamble m) reason t;
  toc_info ← verify_header (header m) header_info;
  '(fmc_entry, runtime_entry) ← verify_toc m toc_info img_bundle_sz;
  fmc_info ← verify_fmc fmc_entry reason;
  runtime_info ← verify_runtime runtime_entry;
  verify_svn (hdr_svn (header m));;
  fuse_svn ← effective_fuse_svn;
  raw_fuse_svn ← get fw_fuse_svn;
  mret (mkImageVerificationInfo
    (hi_vendor_ecc_pub_key_idx header_info) (hi_vendor_pqc_pub_key_idx header_info) t
    (hi_owner_pub_keys_digest header_info) (hi_owner_pub_keys_digest_in_fuses header_info)
    (hdr_svn (header m)) fuse_svn fmc_info runtime_info
    (mkImageVerificationLogInfo
      (hi_vendor_ecc_pub_key_idx header_info) (hi_vendor_ecc_pub_key_revocation header_info)
      (hi_vendor_pqc_pub_key_idx header_info) (hi_vendor_pqc_pub_key_revocation header_info)
      (mkFirmwareSvnLogInfo (hdr_svn (header m)) 0 raw_fuse_svn))).
End Verifier.
