(* ===== verification/Decides.v ===== *)
(** What a computation decides about the device it runs on.

    A component's environment is summarised by a view: what it can observe, as
    mathematical functions and values. [decides] relates a computation to the
    condition under which it returns a given value; the lemmas follow the
    shapes that the firmware's checks have. *)

From S2P Require Import Prelude Errors Cfi ImageVerify.

(** [reliable V]: no engine refuses to work. Without it an operation may also
    fail for reasons of its own. *)
Class Viewed (W : Type) := reliable : W → Prop.

(** [decides V m c a]: run from any proper state with view [V], [m] keeps both and
    does not abort; it returns [a] if [c] holds and fails otherwise. *)
Definition returns {W A} `{Viewed W} (V : W) (r : res A) (c : Prop) (a : A) : Prop :=
  match r with
  | Ok x => c ∧ x = a
  | Err _ => reliable V → ¬ c
  | Abort _ => False
  end.

Definition value_of {A} (r : res A) : option A := match r with Ok x => Some x | _ => None end.

(** Guards as propositions. *)
Ltac bool_prop :=
  rewrite ?orb_false_iff, ?andb_false_iff, ?negb_false_iff, ?negb_true_iff, ?andb_true_iff, ?Z.gtb_ltb, ?Z.geb_leb,
    ?Z.eqb_eq, ?Z.eqb_neq, ?Z.ltb_lt, ?Z.ltb_ge, ?Z.leb_le, ?Z.leb_gt,
    ?bool_decide_eq_false, ?bool_decide_eq_true.

Section Decides.
Context {W E : Type} `{Hview : Viewed W} (sees : E → W → Prop).

Definition decides {A} (V : W) (m : M E A) (c : Prop) (a : A) : Prop :=
  ∀ s, sees s V → ∃ r s', m s = (r, s') ∧ sees s' V ∧ returns V r c a.

Context (V : W).

Lemma decides_iff {A} (m : M E A) c c' a :
  (c ↔ c') → decides V m c a → decides V m c' a.
Proof.
  intros Hc Hm s Hs. destruct (Hm s Hs) as (r & s' & Er & Hv & Hr).
  exists r, s'. split_and!; [done..|]. destruct r; simpl in *; naive_solver.
Qed.

Lemma decides_ret {A} (a : A) : decides V (mret a) True a.
Proof. intros s Hs. exists (Ok a), s. done. Qed.

Lemma decides_fail {A} e (a : A) : decides V (fail e) False a.
Proof. intros s Hs. exists (Err e), s. simpl. tauto. Qed.

Lemma decides_bind {A B} (m : M E A) (k : A → M E B) c d a b :
  decides V m c a → (c → decides V (k a) d b) → decides V (m ≫= k) (c ∧ d) b.
Proof.
  intros Hm Hk s Hs. destruct (Hm s Hs) as (r & s' & Er & Hv & Hr).
  unfold mbind, M_bind. rewrite Er. destruct r as [x|e|w]; simpl in Hr; [|eauto|done].
  - destruct Hr as [Hc ->]. destruct (Hk Hc s' Hv) as (r & s2 & Ek & Hv2 & Hr).
    exists r, s2. split_and!; [done..|]. destruct r; simpl in *; naive_solver.
  - exists (Err e), s'. split_and!; [done..|]. simpl. tauto.
Qed.

(** An operation that may report an error: what follows may use its value. *)
Definition op_returns {A} (o : option A) (m : M E A) : Prop :=
  ∀ s, sees s V → ∃ r s', m s = (r, s') ∧ sees s' V ∧
    match r with
    | Ok x => o = Some x
    | Err _ => reliable V → o = None
    | Abort _ => False
    end.

Lemma decides_op {A B} (o : option A) (m : M E A) (k : A → M E B) (d : A → Prop) b :
  op_returns o m → (∀ x, o = Some x → decides V (k x) (d x) b) →
  decides V (m ≫= k) (∃ x, o = Some x ∧ d x) b.
Proof.
  intros Hm Hk s Hs. destruct (Hm s Hs) as (r & s' & Er & Hv & Hr).
  unfold mbind, M_bind. rewrite Er. destruct r as [x|e|w]; [| |done].
  - destruct (Hk x Hr s' Hv) as (r & s2 & Ek & Hv2 & Hr2).
    exists r, s2. split_and!; [done..|]. destruct r; simpl in *; naive_solver.
  - exists (Err e), s'. split_and!; [done..|]. simpl. naive_solver.
Qed.

Lemma op_to_err {A} (o : option A) (m : M E A) e : op_returns o m → op_returns o (to_err m e).
Proof.
  intros Hm s Hs. destruct (Hm s Hs) as (r & x & Em & Hw & Hres). unfold to_err, map_err. rewrite Em.
  destruct r as [a|err|w]; eauto 10.
Qed.

Lemma op_lift {A} (r : res A) : (∀ w, r ≠ Abort w) → op_returns (value_of r) (lift r).
Proof. intros Hr s Hs. exists r, s. split; [done|]. split; [done|]. destruct r as [x|e|w]; [done..|by destruct (Hr w)]. Qed.

Lemma op_some {A B} (a : A) (m : M E A) (k : A → M E B) c b :
  op_returns (Some a) m → decides V (k a) c b → decides V (m ≫= k) c b.
Proof.
  intros Hm Hk. apply (decides_iff _ (∃ x, Some a = Some x ∧ (x = a ∧ c))); [naive_solver|].
  apply decides_op; [done|]. intros x [= <-]. apply (decides_iff _ c); naive_solver.
Qed.

Lemma decides_get {A B} (f : E → A) (g : W → A) (k : A → M E B) c b :
  (∀ s, sees s V → f s = g V) → decides V (k (g V)) c b → decides V (get f ≫= k) c b.
Proof. intros Hf Hk s Hs. rewrite bind_get, (Hf s Hs). by apply Hk. Qed.

Lemma decides_read {A B} (f : E → A) a (k : A → M E B) c b :
  (∀ s, sees s V → f s = a) → decides V (k a) c b → decides V (get f ≫= k) c b.
Proof. intros Hf. by apply (decides_get f (λ _, a)). Qed.

Lemma decides_get_ret {A} (f : E → A) (g : W → A) :
  (∀ s, sees s V → f s = g V) → decides V (get f) True (g V).
Proof. intros Hf s Hs. exists (Ok (g V)), s. unfold get. by rewrite (Hf s Hs). Qed.

Lemma decides_fail_if {B} b e (k : unit → M E B) d x :
  (b = false → decides V (k tt) d x) → decides V (fail_if b e ≫= k) (b = false ∧ d) x.
Proof.
  intros Hk. apply (decides_bind _ _ _ _ tt); [|done].
  destruct b.
  - apply (decides_iff _ False); [naive_solver|]. apply decides_fail.
  - apply (decides_iff _ True); [tauto|]. apply (decides_ret tt).
Qed.

Lemma decides_guard b e : decides V (fail_if b e) (b = false) tt.
Proof.
  destruct b.
  - apply (decides_iff _ False); [naive_solver|]. apply decides_fail.
  - apply (decides_iff _ True); [tauto|]. apply (decides_ret tt).
Qed.

Lemma decides_if_fail {A} b e (m : M E A) c a :
  (b = false → decides V m c a) → decides V (if b then fail e else m) (b = false ∧ c) a.
Proof.
  intros Hm. destruct b.
  - apply (decides_iff _ False); [naive_solver|]. apply decides_fail.
  - apply (decides_iff _ c); [naive_solver|]. auto.
Qed.

Lemma decides_lift {A B} (r : res A) (k : A → M E B) (d : A → Prop) b :
  (∀ w, r ≠ Abort w) → (∀ x, r = Ok x → decides V (k x) (d x) b) →
  decides V (lift r ≫= k) (∃ x, r = Ok x ∧ d x) b.
Proof.
  intros Hr Hk s Hs. unfold mbind, M_bind, lift. destruct r as [x|e|w]; [..|by destruct (Hr w)].
  - destruct (Hk x eq_refl s Hs) as (r & s2 & Ek & Hv2 & Hr2).
    exists r, s2. split_and!; [done..|]. destruct r; simpl in *; naive_solver.
  - exists (Err e), s. split_and!; [done..|]. simpl. naive_solver.
Qed.

Lemma decides_lift_ok {A B} (a : A) (k : A → M E B) c b :
  decides V (k a) c b → decides V (lift (Ok a) ≫= k) c b.
Proof. done. Qed.

Lemma decides_option {A B} (o : option A) e (k : A → M E B) (c : A → Prop) b :
  (∀ x, o = Some x → decides V (k x) (c x) b) → decides V (lift (ok_or o e) ≫= k) (∃ x, o = Some x ∧ c x) b.
Proof.
  intros Hk. eapply decides_iff; [|apply (decides_lift (ok_or o e) k c)].
  - destruct o; naive_solver.
  - by destruct o.
  - intros x. destruct o; [|done]. intros [= <-]. auto.
Qed.

(** Assertions hold where they stand: they repeat the condition just tested. *)
Lemma decides_assert_bool b : b = true → decides V (cfi_assert_bool b) True tt.
Proof. intros ->. apply decides_ret. Qed.

Lemma decides_assert_eq {A} `{EqDecision A} (a b : A) : a = b → decides V (cfi_assert_eq a b) True tt.
Proof. intros. unfold cfi_assert_eq. rewrite bool_decide_eq_true_2 by done. apply decides_ret. Qed.

Lemma decides_assert_ne {A} `{EqDecision A} (a b : A) : a ≠ b → decides V (cfi_assert_ne a b) True tt.
Proof. intros. unfold cfi_assert_ne. rewrite bool_decide_eq_true_2 by done. apply decides_ret. Qed.

Lemma decides_assert_words a b : a = b → decides V (cfi_assert_eq_words a b) True tt.
Proof. intros. unfold cfi_assert_eq_words. rewrite bool_decide_eq_true_2 by done. apply decides_ret. Qed.

Lemma decides_check_digest a b e : decides V (check_digest a b e) (a = b) tt.
Proof.
  unfold check_digest. destruct (decide (a = b)) as [->|Hn].
  - rewrite bool_decide_eq_false_2 by naive_solver.
    apply (decides_iff _ True); [tauto|]. by apply decides_assert_words.
  - rewrite bool_decide_eq_true_2 by done. apply (decides_iff _ False); [tauto|]. apply decides_fail.
Qed.

(** [if a == b { assert_eq(a, b) } else { m }]. *)
Lemma decides_update {A} `{EqDecision A} (a b : A) (m : M E unit) c :
  (a = b → decides V m c tt) →
  decides V (if bool_decide (a = b) then m else cfi_assert_ne a b) (a = b → c) tt.
Proof.
  intros Hm. case_bool_decide as Hab.
  - apply (decides_iff _ c); [naive_solver|]. auto.
  - apply (decides_iff _ True); [naive_solver|]. by apply decides_assert_ne.
Qed.

(** ** Values that the view does not determine in advance *)

(** [settles m Q]: [m] returns a value that satisfies [Q], or fails because
    there is none. *)
Definition settles {A} (m : M E A) (Q : A → Prop) : Prop :=
  ∀ s, sees s V → ∃ r s', m s = (r, s') ∧ sees s' V ∧
    match r with
    | Ok x => Q x
    | Err _ => reliable V → ∀ x, ¬ Q x
    | Abort _ => False
    end.

Lemma settles_iff {A} (m : M E A) Q Q' : (∀ x, Q x ↔ Q' x) → settles m Q → settles m Q'.
Proof.
  intros HQ Hm s Hs. destruct (Hm s Hs) as (r & s' & Em & Hv & Hr). exists r, s'. split_and!; [done..|].
  destruct r as [x|e|w]; [by apply HQ| |done]. intros Hrel x Hx. apply (Hr Hrel x). by apply HQ.
Qed.

Lemma settles_ret {A} (a : A) : settles (mret a) (λ x, x = a).
Proof. intros s Hs. by exists (Ok a), s. Qed.

Lemma settles_fail {A} e (Q : A → Prop) : (∀ x, ¬ Q x) → settles (fail e) Q.
Proof. intros HQ s Hs. by exists (Err e), s. Qed.

Lemma settles_bind {A B} (m : M E A) (k : A → M E B) Q R :
  settles m Q → (∀ x, Q x → settles (k x) (R x)) →
  (∀ x y z, Q x → Q y → R y z → R x z) → settles (m ≫= k) (λ z, ∃ x, Q x ∧ R x z).
Proof.
  intros Hm Hk HR s Hs. destruct (Hm s Hs) as (r & s' & Em & Hv & Hr).
  unfold mbind, M_bind. rewrite Em. destruct r as [x|e|w]; [| |done].
  - destruct (Hk x Hr s' Hv) as (r & s2 & Ek & Hv2 & Hr2). exists r, s2. split_and!; [done..|].
    destruct r as [z|e|w]; [by exists x| |done]. intros Hrel z (y & Hy & Hz).
    apply (Hr2 Hrel z). by apply (HR x y).
  - exists (Err e), s'. split_and!; [done..|]. intros Hrel z (y & Hy & _). by apply (Hr Hrel y).
Qed.

(** A function whose prefix determines its value, if there is one. *)
Lemma settles_op {A B} (o : option A) (m : M E A) (k : A → M E B) (R : A → B → Prop) :
  op_returns o m → (∀ x, o = Some x → settles (k x) (R x)) → settles (m ≫= k) (λ z, ∃ x, o = Some x ∧ R x z).
Proof.
  intros Hm Hk. apply settles_bind; [|done|naive_solver].
  intros s Hs. destruct (Hm s Hs) as (r & s' & Em & Hv & Hr). exists r, s'. split_and!; [done..|].
  destruct r; [done| |done]. intros Hrel x. by rewrite (Hr Hrel).
Qed.

Lemma settles_lift {A B} (o : option A) e (k : A → M E B) (R : A → B → Prop) :
  (∀ x, o = Some x → settles (k x) (R x)) → settles (lift (ok_or o e) ≫= k) (λ z, ∃ x, o = Some x ∧ R x z).
Proof.
  intros Hk. apply settles_op; [|done]. intros s Hs. destruct o as [x|].
  - by exists (Ok x), s.
  - by exists (Err e), s.
Qed.

Lemma settles_lift_ok {A B} (a : A) (k : A → M E B) R : settles (k a) R → settles (lift (Ok a) ≫= k) R.
Proof. done. Qed.

Lemma settles_check {A B} (m : M E A) (k : A → M E B) c a R :
  decides V m c a → (c → settles (k a) R) → settles (m ≫= k) (λ z, c ∧ R z).
Proof.
  intros Hm Hk. eapply settles_iff; [|apply (settles_bind m k (λ x, c ∧ x = a) (λ x z, R z))].
  - naive_solver.
  - intros s Hs. destruct (Hm s Hs) as (r & s' & Em & Hv & Hr). exists r, s'. split_and!; [done..|].
    destruct r; [done| |done]. intros Hrel x [Hc _]. by apply Hr.
  - intros x [Hc ->]. auto.
  - done.
Qed.

Lemma settles_fail_if {B} b e (k : unit → M E B) R :
  (b = false → settles (k tt) R) → settles (fail_if b e ≫= k) (λ z, b = false ∧ R z).
Proof.
  intros Hk. apply (settles_check _ _ _ tt); [|done]. destruct b.
  - apply (decides_iff _ False); [naive_solver|]. apply decides_fail.
  - apply (decides_iff _ True); [tauto|]. apply (decides_ret tt).
Qed.

Lemma settles_read {A B} (f : E → A) a (k : A → M E B) R :
  (∀ s, sees s V → f s = a) → settles (k a) R → settles (get f ≫= k) R.
Proof. intros Hf Hk s Hs. rewrite bind_get, (Hf s Hs). by apply Hk. Qed.

Lemma settles_some {A B} (a : A) (m : M E A) (k : A → M E B) R :
  op_returns (Some a) m → settles (k a) R → settles (m ≫= k) R.
Proof.
  intros Hm Hk. apply (settles_iff _ (λ z, ∃ x, Some a = Some x ∧ R z)); [naive_solver|].
  apply (settles_op _ _ _ (λ _, R) Hm). by intros x [= <-].
Qed.
End Decides.
