(* ===== verification/ImageVerifySpec.v ===== *)
(** The contract of the image verifier.

    [View] is what the verifier can observe of its environment, and
    [ImageVerificationEnvOk] what it relies on: operations return what the
    view says or fail, never change the view and never stop the program.
    The condition under which the whole verification succeeds is the record
    [accepts]. *)

From S2P Require Import Prelude Errors Sha256 Lms LmsGen ImageTypes Cfi ImageVerify Decides.

(** * What the verifier observes *)

Record View := mkView {
  (** No engine refuses to work: without it an operation may also fail. *)
  v_reliable : Prop;
  v_sha384 : list Z → list Z;
  v_image_digest : Z → Z → option (list Z);
  v_ecc384 : list Z → ImageEccPubKey → ImageEccSignature → option (list Z);
  v_lms : list Z → LmsPublicKey → LmsSignature → option (list Z);
  v_mldsa87 : list Z → list Z → list Z → option Mldsa87Result;
  v_vendor_digest_fuses : list Z;
  v_ecc_revocation : Z;
  v_lms_revocation : Z;
  v_mldsa_revocation : Z;
  v_owner_digest_fuses : list Z;
  v_anti_rollback_disable : bool;
  v_lifecycle : Lifecycle;
  v_ecc_idx_dv : Z;
  v_pqc_idx_dv : Z;
  v_owner_digest_dv : list Z;
  v_fmc_digest_dv : list Z;
  v_cold_fmc_load_addr : Z;
  v_cold_fmc_size : Z;
  v_fw_fuse_svn : Z;
  v_iccm : Z * Z;
  v_pqc_key_type_fuse : res FwVerificationPqcKeyType;
  v_dot_owner_pk_hash : option (list Z);
  v_debug_image_allowed : bool;
}.

#[export] Instance View_viewed : Viewed View := v_reliable.

(** * What the verifier relies on *)

Class ImageVerificationEnvOk (E : Type) `{ImageVerificationEnv E} := {
  (** The state is a proper one, with this view. *)
  sees : E → View → Prop;
  view_sha384_slice V data e : op_returns sees V (Some (v_sha384 V data)) (sha384_acc_digest_slice data e);
  view_sha384_length V s data : sees s V → length (v_sha384 V data) = 12%nat;
  view_sha384 V off len e : op_returns sees V (v_image_digest V off len) (sha384_acc_digest off len e);
  view_ecc384 V d k g : op_returns sees V (v_ecc384 V d k g) (ecc384_verify d k g);
  view_lms V d k g : length d = 12%nat → wf_lms_key k → wf_lms_sig g →
    op_returns sees V (v_lms V d k g) (lms_verify d k g);
  view_mldsa87 V d k g : op_returns sees V (v_mldsa87 V d k g) (mldsa87_verify d k g);
  view_extended_error V err s : sees s V → sees (set_fw_extended_error err s) V;
  view_fuse_type V s w : sees s V → v_pqc_key_type_fuse V ≠ Abort w;
  view_vendor_digest_fuses V s : sees s V → vendor_pub_key_info_digest_fuses s = v_vendor_digest_fuses V;
  view_ecc_revocation V s : sees s V → vendor_ecc_pub_key_revocation s = v_ecc_revocation V;
  view_lms_revocation V s : sees s V → vendor_lms_pub_key_revocation s = v_lms_revocation V;
  view_mldsa_revocation V s : sees s V → vendor_mldsa_pub_key_revocation s = v_mldsa_revocation V;
  view_owner_digest_fuses V s : sees s V → owner_pub_key_digest_fuses s = v_owner_digest_fuses V;
  view_anti_rollback_disable V s : sees s V → anti_rollback_disable s = v_anti_rollback_disable V;
  view_lifecycle V s : sees s V → dev_lifecycle s = v_lifecycle V;
  view_ecc_idx_dv V s : sees s V → vendor_ecc_pub_key_idx_dv s = v_ecc_idx_dv V;
  view_pqc_idx_dv V s : sees s V → vendor_pqc_pub_key_idx_dv s = v_pqc_idx_dv V;
  view_owner_digest_dv V s : sees s V → owner_pub_key_digest_dv s = v_owner_digest_dv V;
  view_fmc_digest_dv V s : sees s V → get_fmc_digest_dv s = v_fmc_digest_dv V;
  view_cold_fmc_load_addr V s : sees s V → get_cold_reset_fmc_load_addr s = v_cold_fmc_load_addr V;
  view_cold_fmc_size V s : sees s V → get_cold_reset_fmc_size s = v_cold_fmc_size V;
  view_fw_fuse_svn V s : sees s V → fw_fuse_svn s = v_fw_fuse_svn V;
  view_iccm V s : sees s V → iccm_range s = v_iccm V;
  view_pqc_key_type_fuse V s : sees s V → pqc_key_type_fuse s = v_pqc_key_type_fuse V;
  view_dot_owner_pk_hash V s : sees s V → dot_owner_pk_hash s = v_dot_owner_pk_hash V;
  view_debug_image_allowed V s : sees s V → debug_image_allowed s = v_debug_image_allowed V;
}.

(** * What is accepted *)

(** The number of listed keys and the key size of each type. *)
Definition pqc_max_count (t : FwVerificationPqcKeyType) : Z :=
  match t with LMS => VENDOR_LMS_MAX_KEY_COUNT | MLDSA => VENDOR_MLDSA_MAX_KEY_COUNT end.
Definition pqc_key_size (t : FwVerificationPqcKeyType) : nat :=
  match t with MLDSA => MLDSA87_PUB_KEY_BYTE_SIZE | LMS => LMS_PUB_KEY_BYTE_SIZE end.

Section Spec.
Context (V : View).

Definition provisioned : Prop := v_lifecycle V ≠ Unprovisioned.

(** The active vendor keys are the ones whose hashes the descriptors list, and
    the descriptors hash to the value in the fuses. *)
Record vendor_keys_ok (p : ImagePreamble) (t : FwVerificationPqcKeyType) : Prop := {
  vk_fuse_set : v_vendor_digest_fuses V ≠ ZERO_DIGEST;
  vk_fuse : v_vendor_digest_fuses V = v_sha384 V (vendor_pub_key_info_bytes (vendor_pub_key_info p));
  vk_ecc_version : ekd_version (ecc_key_descriptor (vendor_pub_key_info p)) = KEY_DESCRIPTOR_VERSION;
  vk_ecc_count : 0 < ekd_key_hash_count (ecc_key_descriptor (vendor_pub_key_info p)) ≤ VENDOR_ECC_MAX_KEY_COUNT;
  vk_pqc_version : pkd_version (pqc_key_descriptor (vendor_pub_key_info p)) = KEY_DESCRIPTOR_VERSION;
  vk_pqc_type : pkd_key_type (pqc_key_descriptor (vendor_pub_key_info p)) = pqc_key_type_u8 t;
  vk_pqc_count : 0 < pkd_key_hash_count (pqc_key_descriptor (vendor_pub_key_info p)) ≤
    pqc_max_count t;
  vk_ecc_hash : ekd_key_hash (ecc_key_descriptor (vendor_pub_key_info p)) !! Z.to_nat (pre_vendor_ecc_pub_key_idx p) =
    Some (v_sha384 V (ecc_pub_key_bytes (vendor_ecc_active_pub_key p)));
  vk_pqc_idx : pre_vendor_pqc_pub_key_idx p <
    pqc_max_count t;
  vk_pqc_hash : pkd_key_hash (pqc_key_descriptor (vendor_pub_key_info p)) !! Z.to_nat (pre_vendor_pqc_pub_key_idx p) =
    Some (v_sha384 V (take (pqc_key_size t) (vendor_pqc_active_pub_key p)));
}.

Definition owner_digest (p : ImagePreamble) : list Z := v_sha384 V (owner_pub_keys_bytes (owner_pub_keys p)).

Record owner_keys_ok (p : ImagePreamble) (reason : ResetReason) : Prop := {
  ok_fuse : v_owner_digest_fuses V ≠ ZERO_DIGEST → v_owner_digest_fuses V = owner_digest p;
  ok_dot : v_owner_digest_fuses V = ZERO_DIGEST → ∀ h, v_dot_owner_pk_hash V = Some h → h = owner_digest p;
  ok_update : reason = UpdateReset → v_owner_digest_dv V = owner_digest p;
}.

(** The key in use is one of the listed ones, and is the last one or not
    revoked. *)
Record ecc_idx_ok (p : ImagePreamble) (reason : ResetReason) : Prop := {
  ei_bound : pre_vendor_ecc_pub_key_idx p ≤ u32w (ekd_key_hash_count (ecc_key_descriptor (vendor_pub_key_info p)) - 1);
  ei_live : pre_vendor_ecc_pub_key_idx p ≠ u32w (ekd_key_hash_count (ecc_key_descriptor (vendor_pub_key_info p)) - 1) →
    revocation_contains (v_ecc_revocation V)
      (revocation_from_bits_truncate (shl_u32 1 (pre_vendor_ecc_pub_key_idx p))) = false;
  ei_update : reason = UpdateReset → v_ecc_idx_dv V = pre_vendor_ecc_pub_key_idx p;
}.

Definition v_pqc_revocation (t : FwVerificationPqcKeyType) : Z :=
  match t with LMS => v_lms_revocation V | MLDSA => v_mldsa_revocation V end.

Record pqc_idx_ok (p : ImagePreamble) (reason : ResetReason) (revocation : Z) : Prop := {
  pi_bound : pre_vendor_pqc_pub_key_idx p ≤ u32w (pkd_key_hash_count (pqc_key_descriptor (vendor_pub_key_info p)) - 1);
  pi_live : pre_vendor_pqc_pub_key_idx p ≠ u32w (pkd_key_hash_count (pqc_key_descriptor (vendor_pub_key_info p)) - 1) →
    Z.land revocation (shl_u32 1 (pre_vendor_pqc_pub_key_idx p)) = 0;
  pi_update : reason = UpdateReset → v_pqc_idx_dv V = pre_vendor_pqc_pub_key_idx p;
}.

(** Signatures over a message: ECC and the post-quantum one. *)
Record ecc_sig_ok (msg : list Z) (k : ImageEccPubKey) (g : ImageEccSignature) : Prop := {
  es_key : ecc_x k ≠ ZERO_DIGEST ∧ ecc_y k ≠ ZERO_DIGEST;
  es_sig : ecc_r g ≠ ZERO_DIGEST ∧ ecc_s g ≠ ZERO_DIGEST;
  es_verify : v_ecc384 V (v_sha384 V msg) k g = Some (ecc_r g);
}.

Definition lms_sig_ok (msg key sig : list Z) : Prop :=
  ∃ k g, lms_pub_key_from_prefix key = Some k ∧ lms_signature_from_prefix sig = Some g ∧
    v_lms V (v_sha384 V msg) k g = Some (Lms.hash_value_le (pk_digest k)).
Definition mldsa_sig_ok (msg key sig : list Z) : Prop :=
  v_mldsa87 V msg (words_le (take MLDSA87_PUB_KEY_BYTE_SIZE key))
    (words_le (take MLDSA87_SIGNATURE_BYTE_SIZE sig)) = Some MldsaSuccess.
Definition pqc_sig_ok (t : FwVerificationPqcKeyType) : list Z → list Z → list Z → Prop :=
  match t with LMS => lms_sig_ok | MLDSA => mldsa_sig_ok end.

Record header_ok (p : ImagePreamble) (h : ImageHeader) (t : FwVerificationPqcKeyType) : Prop := {
  ho_vendor_ecc : ecc_sig_ok (vendor_header_bytes h) (vendor_ecc_active_pub_key p) (ecc_sig (vendor_sigs p));
  ho_vendor_pqc : pqc_sig_ok t (vendor_header_bytes h) (vendor_pqc_active_pub_key p) (pqc_sig (vendor_sigs p));
  ho_owner_ecc : ecc_sig_ok (header_bytes h) (opk_ecc_pub_key (owner_pub_keys p)) (ecc_sig (owner_sigs p));
  ho_owner_pqc : pqc_sig_ok t (header_bytes h) (opk_pqc_pub_key (owner_pub_keys p)) (pqc_sig (owner_sigs p));
  ho_ecc_idx : hdr_vendor_ecc_pub_key_idx h = pre_vendor_ecc_pub_key_idx p;
  ho_pqc_idx : hdr_vendor_pqc_pub_key_idx h = pre_vendor_pqc_pub_key_idx p;
  ho_debug : Z.land (hdr_flags h) IMAGE_FLAGS_DEBUG_IMAGE ≠ 0 → v_debug_image_allowed V = true;
}.

(** The layout of the bundle and of the two images in memory: half-open
    intervals that neither wrap nor meet. *)
Record layout_ok (m : ImageManifest) (sz : Z) : Prop := {
  lo_fmc_size : 0 < toc_size (fmc m);
  lo_rt_size : 0 < toc_size (runtime m);
  lo_fmc_offset : toc_offset (fmc m) = IMAGE_MANIFEST_BYTE_SIZE;
  lo_rt_offset : toc_offset (runtime m) = toc_offset (fmc m) + toc_size (fmc m);
  lo_bundle : toc_offset (runtime m) + toc_size (runtime m) ≤ sz;
  lo_fmc_wrap : load_addr (fmc m) + toc_size (fmc m) ≤ 2 ^ 32;
  lo_rt_wrap : load_addr (runtime m) + toc_size (runtime m) ≤ 2 ^ 32;
  lo_disjoint : load_addr (fmc m) + toc_size (fmc m) ≤ load_addr (runtime m) ∨
                load_addr (runtime m) + toc_size (runtime m) ≤ load_addr (fmc m);
}.

Record exe_ok (e : ImageTocEntry) : Prop := {
  ex_digest : v_image_digest V (toc_offset e) (toc_size e) = Some (toc_entry_digest e);
  ex_iccm : fst (v_iccm V) ≤ load_addr e ∧ load_addr e + toc_size e ≤ snd (v_iccm V);
  ex_aligned : load_addr e mod 4 = 0;
  ex_entry : entry_point e = load_addr e;
}.

(** An update must keep the FMC that was measured at cold boot. *)
Record fmc_unchanged (e : ImageTocEntry) : Prop := {
  fu_digest : toc_entry_digest e = v_fmc_digest_dv V;
  fu_load_addr : load_addr e = v_cold_fmc_load_addr V;
  fu_size : toc_size e = v_cold_fmc_size V;
}.

Record svn_ok (svn : Z) : Prop := {
  sv_max : svn ≤ MAX_FIRMWARE_SVN;
  sv_fuse : provisioned → v_anti_rollback_disable V = false → v_fw_fuse_svn V ≤ svn;
}.

Record accepts (m : ImageManifest) (sz : Z) (reason : ResetReason) (t : FwVerificationPqcKeyType) : Prop := {
  ac_marker : marker m = MANIFEST_MARKER;
  ac_size : manifest_size m = IMAGE_MANIFEST_BYTE_SIZE;
  ac_type : from_u8 (manifest_pqc_key_type m) = Some t;
  ac_type_fuse : provisioned → v_pqc_key_type_fuse V = Ok t;
  ac_vendor_keys : provisioned → vendor_keys_ok (preamble m) t;
  ac_owner_keys : owner_keys_ok (preamble m) reason;
  ac_ecc_idx : ecc_idx_ok (preamble m) reason;
  ac_pqc_idx : pqc_idx_ok (preamble m) reason (v_pqc_revocation t);
  ac_header : header_ok (preamble m) (header m) t;
  ac_toc_len : toc_len (header m) = MAX_TOC_ENTRY_COUNT;
  ac_toc : toc_digest (header m) = v_sha384 V (toc_bytes m);
  ac_layout : layout_ok m sz;
  ac_fmc : exe_ok (fmc m);
  ac_fmc_update : reason = UpdateReset → fmc_unchanged (fmc m);
  ac_runtime : exe_ok (runtime m);
  ac_svn : svn_ok (hdr_svn (header m));
}.

(** The information returned for an accepted image. *)
Definition accepted_info (m : ImageManifest) (t : FwVerificationPqcKeyType) : ImageVerificationInfo :=
  mkImageVerificationInfo
    (pre_vendor_ecc_pub_key_idx (preamble m)) (pre_vendor_pqc_pub_key_idx (preamble m)) t
    (owner_digest (preamble m)) (bool_decide (v_owner_digest_fuses V ≠ ZERO_DIGEST))
    (hdr_svn (header m)) (if v_anti_rollback_disable V then 0 else v_fw_fuse_svn V)
    (exe_info (fmc m)) (exe_info (runtime m))
    (mkImageVerificationLogInfo (pre_vendor_ecc_pub_key_idx (preamble m)) (v_ecc_revocation V)
       (pre_vendor_pqc_pub_key_idx (preamble m)) (v_pqc_revocation t)
       (mkFirmwareSvnLogInfo (hdr_svn (header m)) 0 (v_fw_fuse_svn V))).
End Spec.
