(* ===== verification/ImageVerifyProofs.v ===== *)
(** The verifier decides [accepts]: one lemma per function of
    image/verify/src/verifier.rs, composed in the order of [verify]. *)

From S2P Require Import Prelude Errors Sha256 Lms LmsGen ImageTypes ImageLayout Cfi ImageVerify Decides ImageVerifySpec.

Section Proofs.
Context {E : Type} `{Henv : ImageVerificationEnv E} {Hok : ImageVerificationEnvOk E}.
Context (V : View).
Implicit Types (p : ImagePreamble) (reason : ResetReason) (t : FwVerificationPqcKeyType).

Abbreviation dec := (decides sees V).

(** ** Environment operations followed by the rest of a function *)

Lemma op_slice {B} data e (k : list Z → M E B) c b :
  dec (k (v_sha384 V data)) c b → dec (sha384_acc_digest_slice data e ≫= k) c b.
Proof.
  intros Hk.
  apply (decides_iff _ _ _ (∃ x, Some (v_sha384 V data) = Some x ∧ (x = v_sha384 V data ∧ c))); [naive_solver|].
  apply decides_op; [apply view_sha384_slice|]. intros x [= <-].
  apply (decides_iff _ _ _ c); naive_solver.
Qed.

Lemma op_extended {A} (o : option A) (m : M E A) e :
  op_returns sees V o m → op_returns sees V o (with_extended_error m e).
Proof.
  intros Hm s Hs. destruct (Hm s Hs) as (r & s' & Er & Hv & Hr).
  unfold with_extended_error, map_err. rewrite Er. destruct r as [x|err|w]; [eauto 10| |done].
  exists (Err e), (set_fw_extended_error err s'). eauto using view_extended_error.
Qed.

(** ** Key indices *)

Lemma live_ecc (a b : Z) (r : bool) e :
  dec (if a =? b then cfi_assert_eq a b else if r then fail e else cfi_assert_bool (negb r))
    (a ≠ b → r = false) tt.
Proof.
  destruct (Z.eqb_spec a b) as [->|Hn].
  - apply (decides_iff _ _ _ True); [tauto|]. by apply decides_assert_eq.
  - apply (decides_iff _ _ _ (r = false ∧ True)); [tauto|].
    apply decides_if_fail. intros ->. by apply decides_assert_bool.
Qed.

Lemma live_pqc (a b x : Z) e :
  dec (if a =? b then cfi_assert_eq a b else if negb (x =? 0) then fail e else cfi_assert_eq x 0)
    (a ≠ b → x = 0) tt.
Proof.
  destruct (Z.eqb_spec a b) as [->|Hn].
  - apply (decides_iff _ _ _ True); [tauto|]. by apply decides_assert_eq.
  - apply (decides_iff _ _ _ (negb (x =? 0) = false ∧ True)); [bool_prop; tauto|].
    apply decides_if_fail. bool_prop. intros ->. by apply decides_assert_eq.
Qed.

(** An index that an update reset must not change. *)
Lemma pinned_idx reason (f : E → Z) (g : View → Z) k e :
  (∀ s, sees s V → f s = g V) →
  dec (if bool_decide (reason = UpdateReset) then
         expected ← get f;
         if negb (expected =? k) then fail e else x ← get f; cfi_assert_eq x k
       else cfi_assert_ne reason UpdateReset)
    (reason = UpdateReset → g V = k) tt.
Proof.
  intros Hf. apply decides_update. intros _. eapply decides_get; [done|].
  apply (decides_iff _ _ _ (negb (g V =? k) = false ∧ True)); [bool_prop; tauto|].
  apply decides_if_fail. bool_prop. intros Hk. eapply decides_get; [done|]. by apply decides_assert_eq.
Qed.

Lemma verify_vendor_ecc_pk_idx_ok p reason :
  dec (verify_vendor_ecc_pk_idx p reason) (ecc_idx_ok V p reason)
    (pre_vendor_ecc_pub_key_idx p, v_ecc_revocation V).
Proof.
  unfold verify_vendor_ecc_pk_idx. eapply decides_iff.
  2:{ eapply decides_get; [apply view_ecc_revocation|]. eapply decides_fail_if; intros _.
      eapply decides_bind; [apply live_ecc|intros _].
      eapply decides_bind; [apply pinned_idx; intros; by apply view_ecc_idx_dv|intros _]. apply decides_ret. }
  bool_prop. split; [intros (?&?&?&_)|intros []]; done.
Qed.

Lemma verify_vendor_pqc_pk_idx_ok p reason revocation :
  dec (verify_vendor_pqc_pk_idx p reason revocation) (pqc_idx_ok V p reason revocation)
    (pre_vendor_pqc_pub_key_idx p).
Proof.
  unfold verify_vendor_pqc_pk_idx. eapply decides_iff.
  2:{ eapply decides_fail_if; intros _. eapply decides_bind; [apply live_pqc|intros _].
      eapply decides_bind; [apply pinned_idx; intros; by apply view_pqc_idx_dv|intros _]. apply decides_ret. }
  bool_prop. split; [intros (?&?&?&_)|intros []]; done.
Qed.

(** ** Key digests *)

Lemma verify_active_ecc_pub_key_digest_ok p :
  dec (verify_active_ecc_pub_key_digest p)
    (ekd_key_hash (ecc_key_descriptor (vendor_pub_key_info p)) !! Z.to_nat (pre_vendor_ecc_pub_key_idx p) =
     Some (v_sha384 V (ecc_pub_key_bytes (vendor_ecc_active_pub_key p)))) tt.
Proof.
  unfold verify_active_ecc_pub_key_digest. eapply decides_iff.
  2:{ eapply decides_lift; [by destruct (_ !! _)|]. intros x Hx. apply op_slice, decides_check_digest. }
  destruct (_ !! _); naive_solver.
Qed.

Lemma pqc_limit t (f : Z → bool) :
  (bool_decide (t = LMS) && f VENDOR_LMS_MAX_KEY_COUNT)
  || (bool_decide (t = MLDSA) && f VENDOR_MLDSA_MAX_KEY_COUNT) = f (pqc_max_count t).
Proof.
  destruct t; [done|]. change (bool_decide (LMS = MLDSA)) with false.
  change (bool_decide (LMS = LMS)) with true. by rewrite orb_false_r.
Qed.

Lemma verify_active_pqc_pub_key_digest_ok p t :
  dec (verify_active_pqc_pub_key_digest p t)
    (pre_vendor_pqc_pub_key_idx p < pqc_max_count t ∧
     pkd_key_hash (pqc_key_descriptor (vendor_pub_key_info p)) !! Z.to_nat (pre_vendor_pqc_pub_key_idx p) =
     Some (v_sha384 V (take (pqc_key_size t) (vendor_pqc_active_pub_key p)))) tt.
Proof.
  unfold verify_active_pqc_pub_key_digest. rewrite <- orb_assoc, (pqc_limit t (λ n, _ >=? n)). eapply decides_iff.
  2:{ eapply decides_fail_if; intros [Hn _]%orb_false_iff. bool_prop.
      eapply decides_lift; [|intros x Hx; apply op_slice, decides_check_digest].
      apply bool_decide_eq_false in Hn. by destruct (_ !! _). }
  assert (Hs : (if bool_decide (t = MLDSA) then MLDSA87_PUB_KEY_BYTE_SIZE else LMS_PUB_KEY_BYTE_SIZE) =
    pqc_key_size t) by by destruct t.
  rewrite Hs. bool_prop. destruct (_ !! _); naive_solver.
Qed.

(** Rules for the common prefixes of a function body; [dstep] applies the one
    that fits, so that a proof names only the lemmas of the functions called. *)
Ltac dstep :=
  lazymatch goal with
  | |- decides _ _ (fail_if _ _ ≫= _) _ _ => eapply decides_fail_if; intros ?
  | |- decides _ _ (sha384_acc_digest_slice _ _ ≫= _) _ _ => apply op_slice
  | |- decides _ _ (check_digest _ _ _ ≫= _) _ _ => eapply decides_bind; [apply decides_check_digest|intros ?]
  | |- decides _ _ (check_digest _ _ _) _ _ => apply decides_check_digest
  | |- decides _ _ (mret _) _ _ => apply decides_ret
  end.

Lemma verify_provisioned_pub_key_info_ok p t :
  is_u8 (ekd_key_hash_count (ecc_key_descriptor (vendor_pub_key_info p))) →
  is_u8 (pkd_key_hash_count (pqc_key_descriptor (vendor_pub_key_info p))) →
  dec (verify_provisioned_pub_key_info p t) (vendor_keys_ok V p t) tt.
Proof.
  intros He Hp. unfold verify_provisioned_pub_key_info. cbv zeta.
  rewrite (pqc_limit t (λ n, _ >? n)). eapply decides_iff.
  2:{ eapply decides_get; [apply view_vendor_digest_fuses|].
      eapply decides_bind; [apply decides_if_fail; intros Hz; apply decides_assert_ne;
        by apply bool_decide_eq_false in Hz|intros _].
      do 8 (dstep).
      eapply decides_bind; [apply decides_check_digest|intros _].
      eapply decides_bind; [apply verify_active_ecc_pub_key_digest_ok|intros _].
      apply verify_active_pqc_pub_key_digest_ok. }
  bool_prop. unfold in_u in *. split.
  - intros ((?&_)&?&?&?&?&?&?&?&?&?&?&?). split; (done || lia).
  - intros []. split_and!; (done || lia).
Qed.

Lemma verify_vendor_pub_key_info_digest_ok p t :
  wf_info (vendor_pub_key_info p) →
  dec (verify_vendor_pub_key_info_digest p t) (provisioned V → vendor_keys_ok V p t) tt.
Proof.
  intros []. unfold verify_vendor_pub_key_info_digest, provisioned.
  eapply decides_get; [apply view_lifecycle|]. case_bool_decide as Hl.
  - eapply decides_get; [apply view_lifecycle|].
    apply (decides_iff _ _ _ True); [tauto|]. by apply decides_assert_eq.
  - eapply decides_get; [apply view_lifecycle|].
    apply (decides_iff _ _ _ (True ∧ vendor_keys_ok V p t)); [tauto|].
    eapply decides_bind; [by apply decides_assert_ne|intros _].
    by apply verify_provisioned_pub_key_info_ok.
Qed.

Lemma owner_fuse_block p :
  dec (if bool_decide (v_owner_digest_fuses V = ZERO_DIGEST) then
         dot ← get dot_owner_pk_hash;
         (match dot with
          | Some h => fail_if (bool_decide (h ≠ owner_digest V p)) IMAGE_VERIFIER_ERR_DOT_OWNER_PUB_KEY_DIGEST_MISMATCH
          | None => mret tt
          end);;
         cfi_assert_eq_words (v_owner_digest_fuses V) ZERO_DIGEST
       else check_digest (v_owner_digest_fuses V) (owner_digest V p) IMAGE_VERIFIER_ERR_OWNER_PUB_KEY_DIGEST_MISMATCH)
    ((v_owner_digest_fuses V ≠ ZERO_DIGEST → v_owner_digest_fuses V = owner_digest V p) ∧
     (v_owner_digest_fuses V = ZERO_DIGEST → ∀ h, v_dot_owner_pk_hash V = Some h → h = owner_digest V p)) tt.
Proof.
  case_bool_decide as Hz.
  - eapply decides_get; [apply view_dot_owner_pk_hash|]. destruct (v_dot_owner_pk_hash V) as [h|].
    + eapply decides_iff; [|eapply decides_fail_if; intros _; by apply decides_assert_words].
      rewrite bool_decide_eq_false.
      split; [intros [Hh _]; split; [done|intros _ h' [= <-]; by apply dec_stable]|].
      intros [_ Hh]. split; [|done]. specialize (Hh Hz h eq_refl). tauto.
    + eapply decides_iff; [|eapply decides_bind; [apply decides_ret|intros _; by apply decides_assert_words]].
      naive_solver.
  - eapply decides_iff; [|apply decides_check_digest]. naive_solver.
Qed.

Lemma verify_owner_pk_digest_ok p reason :
  dec (verify_owner_pk_digest p reason) (owner_keys_ok V p reason)
    (owner_digest V p, bool_decide (v_owner_digest_fuses V ≠ ZERO_DIGEST)).
Proof.
  unfold verify_owner_pk_digest. eapply decides_iff.
  2:{ dstep. eapply decides_get; [apply view_owner_digest_fuses|].
      eapply decides_bind; [apply (owner_fuse_block p)|intros _].
      eapply decides_bind; [apply decides_update; intros _|intros _; dstep].
      eapply decides_get; [apply view_owner_digest_dv|]. dstep. }
  split; [intros ([]&?&_)|intros []]; done.
Qed.

(** ** The preamble *)

(** The key and signature in the two buffers of a well-formed preamble. *)
Definition pqc_info_of t (key sig : list Z) (info : PqcKeyInfo) : Prop :=
  match t, info with
  | LMS, PqcLms k g => lms_pub_key_from_prefix key = Some k ∧ lms_signature_from_prefix sig = Some g ∧
                       wf_lms_key k ∧ wf_lms_sig g
  | MLDSA, PqcMldsa k g => k = words_le (take MLDSA87_PUB_KEY_BYTE_SIZE key) ∧
                           g = words_le (take MLDSA87_SIGNATURE_BYTE_SIZE sig)
  | _, _ => False
  end.

Lemma pqc_key_info_ok t key sig :
  is_buf PQC_PUB_KEY_BYTE_SIZE key → is_buf PQC_SIGNATURE_BYTE_SIZE sig →
  ∃ info, pqc_info_of t key sig info ∧ ∀ e1 e2, pqc_key_info t key sig e1 e2 = Ok info.
Proof.
  intros [Hk Hkb] [Hs Hsb]. destruct t; unfold pqc_key_info.
  - unfold mldsa_pub_key_from_prefix, mldsa_signature_from_prefix. rewrite Hk, Hs.
    change (_ <=? _)%nat with true. change (_ <=? _)%nat with true.
    eexists (PqcMldsa _ _). repeat split; reflexivity.
  - destruct (lms_pub_key_from_prefix key) as [k|] eqn:Ek;
      [|unfold lms_pub_key_from_prefix in Ek; by rewrite Hk in Ek].
    destruct (lms_signature_from_prefix sig) as [g|] eqn:Eg;
      [|unfold lms_signature_from_prefix in Eg; by rewrite Hs in Eg].
    exists (PqcLms k g). simpl. eauto 10 using lms_pub_key_from_prefix_wf, lms_signature_from_prefix_wf.
Qed.

Definition header_info p (vendor owner : PqcKeyInfo) t : HeaderInfo :=
  mkHeaderInfo (pre_vendor_ecc_pub_key_idx p) (pre_vendor_pqc_pub_key_idx p) (v_ecc_revocation V)
    (vendor_ecc_active_pub_key p, ecc_sig (vendor_sigs p)) vendor (v_pqc_revocation V t)
    (opk_ecc_pub_key (owner_pub_keys p), ecc_sig (owner_sigs p)) owner
    (owner_digest V p) (bool_decide (v_owner_digest_fuses V ≠ ZERO_DIGEST)).

Record preamble_ok p reason t : Prop := {
  po_vendor_keys : provisioned V → vendor_keys_ok V p t;
  po_owner_keys : owner_keys_ok V p reason;
  po_ecc_idx : ecc_idx_ok V p reason;
  po_pqc_idx : pqc_idx_ok V p reason (v_pqc_revocation V t);
}.

Lemma verify_preamble_ok p reason t :
  wf_preamble p →
  ∃ vendor owner,
    pqc_info_of t (vendor_pqc_active_pub_key p) (pqc_sig (vendor_sigs p)) vendor ∧
    pqc_info_of t (opk_pqc_pub_key (owner_pub_keys p)) (pqc_sig (owner_sigs p)) owner ∧
    dec (verify_preamble p reason t) (preamble_ok p reason t) (header_info p vendor owner t).
Proof.
  intros [Hi _ _ _ Hq [_ Hvs] [_ Hok'] [_ Hos] _].
  destruct (pqc_key_info_ok t _ _ Hq Hvs) as (vendor & Hvi & Ev).
  destruct (pqc_key_info_ok t _ _ Hok' Hos) as (owner & Hoi & Eo).
  exists vendor, owner. split; [done|]. split; [done|].
  unfold verify_preamble. rewrite Ev, Eo. eapply decides_iff.
  2:{ eapply decides_bind; [by apply verify_vendor_pub_key_info_digest_ok|intros _].
      eapply decides_bind; [apply verify_owner_pk_digest_ok|intros _].
      eapply decides_bind; [apply verify_vendor_ecc_pk_idx_ok|intros _].
      apply decides_lift_ok.
      eapply (decides_get _ _ _ (λ V, v_pqc_revocation V t));
        [intros; destruct t; [by apply view_mldsa_revocation|by apply view_lms_revocation]|].
      eapply decides_bind; [apply verify_vendor_pqc_pk_idx_ok|intros _].
      apply decides_lift_ok. apply decides_ret. }
  split.
  - intros (?&?&?&?&_). done.
  - intros []. done.
Qed.

(** ** Signatures *)

Lemma ecc_block {B} msg k g e1 e2 e3 e4 (m : M E B) c b :
  dec m c b →
  dec (fail_if (bool_decide (ecc_x k = ZERO_DIGEST) || bool_decide (ecc_y k = ZERO_DIGEST)) e1;;
       fail_if (bool_decide (ecc_r g = ZERO_DIGEST) || bool_decide (ecc_s g = ZERO_DIGEST)) e2;;
       verify_r ← with_extended_error (ecc384_verify (v_sha384 V msg) k g) e3;
       check_digest verify_r (ecc_r g) e4;; m)
    (ecc_sig_ok V msg k g ∧ c) b.
Proof.
  intros Hm. eapply decides_iff.
  2:{ dstep. dstep. eapply decides_op; [apply op_extended, view_ecc384|].
      intros r Hr. eapply decides_bind; [apply decides_check_digest|intros _; done]. }
  bool_prop. split.
  - intros ([]&[]&x&?&->&?). done.
  - intros [[[] [] ?] ?]. eauto 10.
Qed.

Lemma verify_ecc_sig_ok msg k g is_owner :
  dec (verify_ecc_sig (v_sha384 V msg) k g is_owner) (ecc_sig_ok V msg k g) tt.
Proof.
  unfold verify_ecc_sig. cbv zeta. eapply decides_iff.
  2:{ dstep. dstep. eapply decides_op; [apply op_extended, view_ecc384|].
      intros r Hr. apply decides_check_digest. }
  bool_prop. split.
  - intros ([]&[]&x&?&->). done.
  - intros [[] [] ?]. eauto 10.
Qed.

Lemma verify_pqc_sig_ok msg key sig t info is_owner :
  pqc_info_of t key sig info →
  dec (verify_pqc_sig (mkImageSignData (v_sha384 V msg) (match t with MLDSA => Some msg | LMS => None end))
         info is_owner)
    (pqc_sig_ok V t msg key sig) tt.
Proof.
  intros Hi. destruct t, info as [k g|k g]; try done; destruct Hi as [Hk Hg]; simpl.
  - unfold verify_mldsa_sig, mldsa_sig_ok. cbv zeta. subst. eapply decides_iff.
    2:{ eapply (decides_op _ _ _ _ _ (λ r, r = MldsaSuccess)); [apply op_extended, view_mldsa87|].
        intros r Hr.
        destruct r; simpl; [apply (decides_iff _ _ _ True)|apply (decides_iff _ _ _ False)]; try done.
        - apply (decides_ret _ _ tt).
        - apply decides_fail. }
    split; [by intros (?&?&->)|eauto].
  - unfold verify_lms_sig, lms_sig_ok. cbv zeta. eapply decides_iff.
    2:{ eapply decides_op; [apply op_extended|intros r Hr; apply decides_check_digest].
        intros s Hs. apply view_lms; [by eapply view_sha384_length|naive_solver..|done]. }
    split; [intros (?&?&->); naive_solver|]. intros (k'&g'&?&?&?). naive_solver.
Qed.

Lemma verify_vendor_sig_ok msg key sig k g t info :
  pqc_info_of t key sig info →
  dec (verify_vendor_sig (mkImageSignData (v_sha384 V msg) (match t with MLDSA => Some msg | LMS => None end))
         (k, g) info)
    (ecc_sig_ok V msg k g ∧ pqc_sig_ok V t msg key sig) tt.
Proof. intros Hi. unfold verify_vendor_sig. simpl. by apply ecc_block, verify_pqc_sig_ok. Qed.

Lemma verify_owner_sig_ok msg key sig k g t info :
  pqc_info_of t key sig info →
  dec (verify_owner_sig (mkImageSignData (v_sha384 V msg) (match t with MLDSA => Some msg | LMS => None end))
         (k, g) info)
    (ecc_sig_ok V msg k g ∧ pqc_sig_ok V t msg key sig) tt.
Proof.
  intros Hi. unfold verify_owner_sig.
  eapply decides_bind; [apply verify_ecc_sig_ok|intros _; by apply verify_pqc_sig_ok].
Qed.

(** ** The header *)

Lemma same_idx (a b : Z) e :
  dec (if negb (a =? b) then fail e else cfi_assert_eq a b) (a = b) tt.
Proof.
  apply (decides_iff _ _ _ (negb (a =? b) = false ∧ True)); [bool_prop; tauto|].
  apply decides_if_fail. bool_prop. intros ->. by apply decides_assert_eq.
Qed.

Lemma debug_block (debug_image : bool) :
  dec (if debug_image then
         cfi_assert_bool debug_image;;
         allowed ← get debug_image_allowed;
         (if negb allowed then
            cfi_assert_bool (negb allowed);; fail IMAGE_VERIFIER_ERR_DEBUG_IMAGE_NOT_ALLOWED
          else mret tt);;
         cfi_assert_bool allowed
       else cfi_assert_bool (negb debug_image))
    (debug_image = true → v_debug_image_allowed V = true) tt.
Proof.
  destruct debug_image; [|apply (decides_iff _ _ _ True); [done|by apply decides_assert_bool]].
  apply (decides_iff _ _ _ (True ∧ v_debug_image_allowed V = true)); [naive_solver|].
  eapply decides_bind; [by apply decides_assert_bool|intros _].
  eapply decides_get; [apply view_debug_image_allowed|]. destruct (v_debug_image_allowed V); simpl.
  - apply (decides_iff _ _ _ True); [done|]. by apply (decides_assert_bool _ _ true).
  - apply (decides_iff _ _ _ ((True ∧ False) ∧ True)); [naive_solver|].
    apply (decides_bind _ _ _ _ _ _ tt); [|intros [_ []]].
    eapply decides_bind; [by apply (decides_assert_bool _ _ true)|intros _; apply decides_fail].
Qed.

Lemma verify_header_ok p h t vendor owner :
  wf_header h →
  pqc_info_of t (vendor_pqc_active_pub_key p) (pqc_sig (vendor_sigs p)) vendor →
  pqc_info_of t (opk_pqc_pub_key (owner_pub_keys p)) (pqc_sig (owner_sigs p)) owner →
  dec (verify_header h (header_info p vendor owner t)) (header_ok V p h t) (mkTocInfo (toc_len h) (toc_digest h)).
Proof.
  intros Hw Hv Ho. unfold verify_header. cbv zeta. rewrite (vendor_header_slice h Hw).
  replace (match hi_vendor_pqc_info (header_info p vendor owner t) with
    | PqcLms _ _ => (None, None)
    | PqcMldsa _ _ => (Some (vendor_header_bytes h), Some (header_bytes h)) end)
    with (match t with MLDSA => Some (vendor_header_bytes h) | LMS => None end,
          match t with MLDSA => Some (header_bytes h) | LMS => None end) by (by destruct t, vendor).
  eapply decides_iff.
  2:{ do 2 dstep. eapply decides_bind; [by apply verify_vendor_sig_ok|intros _].
      eapply decides_bind; [apply same_idx|intros _]. eapply decides_bind; [apply same_idx|intros _].
      eapply decides_bind; [apply debug_block|intros _].
      eapply decides_bind; [by apply verify_owner_sig_ok|intros _]. apply decides_ret. }
  simpl. bool_prop. split.
  - intros ([]&?&?&?&[]&_). done.
  - intros []. done.
Qed.

(** ** The table of contents *)

Lemma image_range_ok {B} e (k : Z * Z → M E B) c b :
  (toc_offset e + toc_size e < 2 ^ 32 → dec (k (toc_offset e, toc_offset e + toc_size e)) c b) →
  dec (lift (image_range e) ≫= k) (toc_offset e + toc_size e < 2 ^ 32 ∧ c) b.
Proof.
  intros Hk. unfold image_range, checked_add_u32.
  destruct (Z.ltb_spec (toc_offset e + toc_size e) (2 ^ 32)).
  - apply decides_lift_ok, (decides_iff _ _ _ c); [tauto|]. auto.
  - apply (decides_iff _ _ _ False); [lia|]. intros s Hs. eexists (Err _), s. split; [done|].
    split; [done|]. simpl. tauto.
Qed.

(** The last address of an image, computed with wrap-around. *)
Lemma last_addr (start size : Z) :
  is_u32 start → is_u32 size → size ≠ 0 →
  overflowing_add_u32 start (u32w (size - 1)) = (u32w (start + size - 1), 2 ^ 32 <? start + size).
Proof.
  intros Hs Hz Hn. rewrite wrap_small by ulia. unfold overflowing_add_u32. f_equal; [f_equal; lia|].
  destruct (Z.leb_spec (2 ^ 32) (start + (size - 1))), (Z.ltb_spec (2 ^ 32) (start + size)); (done || lia).
Qed.

Lemma manifest_size_u16 : 0 < IMAGE_MANIFEST_BYTE_SIZE < 2 ^ 16.
Proof. by vm_compute. Qed.

Lemma verify_toc_ok m len digest sz :
  wf_manifest m → manifest_size m = IMAGE_MANIFEST_BYTE_SIZE → is_u32 sz →
  dec (verify_toc m (mkTocInfo len digest) sz)
    (len = MAX_TOC_ENTRY_COUNT ∧ digest = v_sha384 V (toc_bytes m) ∧ layout_ok m sz)
    (fmc m, runtime m).
Proof.
  intros Hw Hs Hsz. unfold verify_toc. rewrite (manifest_toc_slice m Hw).
  destruct Hw as [_ _ _ _ _ _ [_ _ _ _ _ Hfl _ Hfo Hfs _] [_ _ _ _ _ Hrl _ Hro Hrs _]].
  pose proof manifest_size_u16 as Hms. unfold image_size.
  rewrite (wrap_small 64 (manifest_size m + _)) by (rewrite Hs; ulia).
  rewrite (wrap_small 64 (_ + _)) by (rewrite Hs; ulia).
  eapply decides_iff.
  2:{ eapply decides_bind; [apply same_idx|intros _]. dstep. dstep.
      eapply decides_fail_if; intros Hf0. eapply decides_fail_if; intros Hr0. do 2 dstep.
      apply Z.eqb_neq in Hf0, Hr0.
      apply image_range_ok; intros Hfr. apply image_range_ok; intros Hrr. do 4 dstep.
      rewrite (last_addr _ _ Hfl Hfs Hf0), (last_addr _ _ Hrl Hrs Hr0).
      dstep. dstep. dstep. apply decides_ret. }
  unfold fst, snd. bool_prop. split.
  - intros (?&?&?&?&?&?&?&?&?&?&[]&?&?&?&Hd&_). split_and!; [done..|].
    rewrite !wrap_small in Hd by ulia. split; unfold in_u in *; lia.
  - intros (?&?&[]). rewrite !wrap_small by ulia. unfold in_u in *. split_and!; (done || lia).
Qed.

(** ** The two images *)

(** What [verify_toc] has established of an entry when it is verified. *)
Record entry_bounds (e : ImageTocEntry) : Prop := {
  eb_size : 0 < toc_size e;
  eb_offset : 0 ≤ toc_offset e ∧ toc_offset e + toc_size e < 2 ^ 32;
  eb_addr : 0 ≤ load_addr e ∧ load_addr e + toc_size e ≤ 2 ^ 32;
}.

Lemma exe_block {B} e e0 e1 e2 e3 e4 e5 e6 (k : list Z → M E B) c b :
  entry_bounds e → dec (k (toc_entry_digest e)) c b →
  dec (range ← lift (image_range e);
       actual ← sha384_acc_digest (fst range) (u32w (range_len range)) e0;
       check_digest (toc_entry_digest e) actual e1;;
       let load_addr_end := u32w (u32w (load_addr e + toc_size e) - 1) in
       iccm ← get iccm_range;
       fail_if (negb (range_contains iccm (load_addr e)) || negb (range_contains iccm load_addr_end)) e2;;
       fail_if (negb (is_multiple_of (load_addr e) 4)) e3;;
       fail_if (negb (range_contains iccm (entry_point e)) || (entry_point e <? load_addr e)
                || (entry_point e >? load_addr_end)) e4;;
       fail_if (negb (is_multiple_of (entry_point e) 4)) e5;;
       fail_if (negb (entry_point e =? load_addr e)) e6;;
       k actual)
    (exe_ok V e ∧ c) b.
Proof.
  intros [Hz [Ho Hr] [Ha Hl]] Hk.
  assert (Hend : u32w (u32w (load_addr e + toc_size e) - 1) = load_addr e + toc_size e - 1).
  { unfold wrap. rewrite Zminus_mod_idemp_l. apply Z.mod_small. lia. }
  rewrite Hend. eapply decides_iff.
  2:{ apply image_range_ok; intros _. unfold range_len. cbn [fst snd].
      replace (u32w _) with (toc_size e) by (rewrite wrap_small; ulia).
      eapply decides_op; [apply view_sha384|]. intros x Hx. eapply decides_bind; [apply decides_check_digest|].
      intros <-. eapply decides_get; [apply view_iccm|]. do 5 dstep. exact Hk. }
  unfold range_contains, is_multiple_of. split.
  - intros (?&?&?&<-&Hx). revert Hx. bool_prop. intros ([[][]]&?&?&?&Hen&?). split; [split|done]; (done || lia).
  - intros [[Hd [] ? He] ?]. rewrite He. split; [lia|]. eexists.
    split; [done|]. split; [done|]. bool_prop. split_and!; (done || lia).
Qed.

Lemma verify_runtime_ok e : entry_bounds e → dec (verify_runtime e) (exe_ok V e) (exe_info e).
Proof.
  intros He. unfold verify_runtime. eapply decides_iff.
  2:{ eapply exe_block; [done|]. apply (decides_ret _ _ (exe_info e)). }
  tauto.
Qed.

Lemma verify_fmc_ok e reason :
  entry_bounds e →
  dec (verify_fmc e reason) (exe_ok V e ∧ (reason = UpdateReset → fmc_unchanged V e)) (exe_info e).
Proof.
  intros He. unfold verify_fmc. eapply decides_iff.
  2:{ eapply exe_block; [done|]. eapply decides_bind; [|intros _; apply decides_ret].
      apply decides_update. intros _. eapply decides_get; [apply view_fmc_digest_dv|].
      eapply decides_bind.
      - apply decides_if_fail. intros Hd. eapply decides_get; [apply view_fmc_digest_dv|].
        apply decides_assert_eq. apply bool_decide_eq_false in Hd. by apply dec_stable.
      - intros _. eapply decides_get; [apply view_cold_fmc_load_addr|].
        eapply decides_get; [apply view_cold_fmc_size|].
        apply (decides_iff _ _ _ (load_addr e = v_cold_fmc_load_addr V ∧ toc_size e = v_cold_fmc_size V)); [done|].
        unfold fail_if. apply (decides_iff _ _ _ (negb (load_addr e =? v_cold_fmc_load_addr V)
          || negb (toc_size e =? v_cold_fmc_size V) = false ∧ True)); [bool_prop; tauto|].
        apply decides_if_fail. intros _. apply (decides_ret _ _ tt). }
  bool_prop. split.
  - intros (?&Hu&_). split; [done|]. intros Hr. destruct (Hu Hr) as ((?&_)&?&?). split; try done. by apply dec_stable.
  - intros (?&Hu). split; [done|]. split; [|done]. intros Hr. destruct (Hu Hr). naive_solver.
Qed.

(** ** Security version numbers *)

Lemma svn_check_required_ok :
  dec svn_check_required True (bool_decide (provisioned V) && negb (v_anti_rollback_disable V)).
Proof.
  unfold svn_check_required, provisioned. eapply decides_get; [apply view_lifecycle|].
  case_bool_decide as Hl.
  - rewrite bool_decide_eq_false_2 by tauto. eapply decides_get; [apply view_lifecycle|].
    apply (decides_iff _ _ _ (True ∧ True)); [tauto|].
    eapply decides_bind; [by apply decides_assert_eq|intros _; apply decides_ret].
  - rewrite bool_decide_eq_true_2 by done. eapply decides_get; [apply view_anti_rollback_disable|].
    destruct (v_anti_rollback_disable V) eqn:Ha; [|apply (decides_ret _ _ true)].
    eapply decides_get; [apply view_anti_rollback_disable|]. rewrite Ha.
    apply (decides_iff _ _ _ (True ∧ True)); [tauto|].
    eapply decides_bind; [by apply decides_assert_bool|intros _; apply (decides_ret _ _ false)].
Qed.

Lemma verify_svn_ok svn : dec (verify_svn svn) (svn_ok V svn) tt.
Proof.
  unfold verify_svn. eapply decides_iff.
  2:{ eapply decides_bind; [apply decides_if_fail; intros Hb; apply decides_assert_bool|intros _].
      - rewrite Z.gtb_ltb in Hb. apply Z.ltb_ge in Hb. by apply Z.leb_le.
      - eapply decides_bind; [apply svn_check_required_ok|intros _].
        instantiate (1 := bool_decide (provisioned V) && negb (v_anti_rollback_disable V) = true →
                          v_fw_fuse_svn V ≤ svn).
        destruct (bool_decide (provisioned V) && _);
          [|apply (decides_iff _ _ _ True); [done|]; apply decides_ret].
        eapply decides_get; [apply view_fw_fuse_svn|].
        apply (decides_iff _ _ _ ((svn <? v_fw_fuse_svn V) = false ∧ True)); [bool_prop; naive_solver|].
        apply decides_if_fail. intros Hb. eapply decides_get; [apply view_fw_fuse_svn|].
        unfold cfi_assert_ge. rewrite Z.geb_leb. apply Z.ltb_ge, Z.leb_le in Hb. rewrite Hb. apply decides_ret. }
  rewrite andb_true_iff. bool_prop. split.
  - intros ((?&_)&_&Hf). split; [done|]. auto.
  - intros [? Hf]. split_and!; try done. intros []. auto.
Qed.

Lemma effective_fuse_svn_ok :
  dec effective_fuse_svn True (if v_anti_rollback_disable V then 0 else v_fw_fuse_svn V).
Proof.
  unfold effective_fuse_svn. eapply decides_get; [apply view_anti_rollback_disable|].
  destruct (v_anti_rollback_disable V) eqn:Ha;
    (eapply decides_get; [apply view_anti_rollback_disable|]); rewrite Ha;
    (apply (decides_iff _ _ _ (True ∧ True)); [tauto|]);
    (eapply decides_bind; [by apply decides_assert_bool|intros _]);
    [apply (decides_ret _ _ 0)|apply decides_get_ret, view_fw_fuse_svn].
Qed.

(** ** The whole verification *)

Lemma key_type_block t :
  dec (lifecycle ← get dev_lifecycle;
       if bool_decide (lifecycle ≠ Unprovisioned) then
         r ← get pqc_key_type_fuse;
         t_fuse ← lift r;
         fail_if (bool_decide (t ≠ t_fuse)) IMAGE_VERIFIER_ERR_PQC_KEY_TYPE_MISMATCH
       else mret tt)
    (provisioned V → v_pqc_key_type_fuse V = Ok t) tt.
Proof.
  eapply decides_get; [apply view_lifecycle|]. unfold provisioned. case_bool_decide as Hl.
  2:{ apply (decides_iff _ _ _ True); [tauto|]. apply decides_ret. }
  intros s Hs. rewrite bind_get, (view_pqc_key_type_fuse V s Hs).
  assert (Hw : ∀ w, v_pqc_key_type_fuse V ≠ Abort w) by (intros w; by apply (view_fuse_type V s)).
  revert s Hs. change (dec (t_fuse ← lift (v_pqc_key_type_fuse V);
    fail_if (bool_decide (t ≠ t_fuse)) IMAGE_VERIFIER_ERR_PQC_KEY_TYPE_MISMATCH)
    (v_lifecycle V ≠ Unprovisioned → v_pqc_key_type_fuse V = Ok t) tt).
  eapply decides_iff; [|apply (decides_lift _ _ _ _ (λ x, t = x)); [done|]].
  - split; [by intros (?&?&->)|]. eauto.
  - intros x _. unfold fail_if. apply (decides_iff _ _ _ (bool_decide (t ≠ x) = false ∧ True)).
    + bool_prop. split; [intros [? _]; by apply dec_stable|naive_solver].
    + apply decides_if_fail. intros _. apply (decides_ret _ _ tt).
Qed.

Lemma verify_prefix {B} (m : ImageManifest) (k : FwVerificationPqcKeyType → M E B) t c b :
  from_u8 (manifest_pqc_key_type m) = Some t →
  (manifest_size m = IMAGE_MANIFEST_BYTE_SIZE → dec (k t) c b) →
  dec (fail_if (negb (marker m =? MANIFEST_MARKER)) IMAGE_VERIFIER_ERR_MANIFEST_MARKER_MISMATCH;;
       fail_if (negb (manifest_size m =? IMAGE_MANIFEST_BYTE_SIZE)) IMAGE_VERIFIER_ERR_MANIFEST_SIZE_MISMATCH;;
       t ← lift (ok_or (from_u8 (manifest_pqc_key_type m)) IMAGE_VERIFIER_ERR_PQC_KEY_TYPE_INVALID);
       k t)
    (marker m = MANIFEST_MARKER ∧ manifest_size m = IMAGE_MANIFEST_BYTE_SIZE ∧ c) b.
Proof.
  intros Ht Hk. rewrite Ht. eapply decides_iff.
  2:{ dstep. eapply decides_fail_if; intros Hs. apply decides_lift_ok, Hk.
      by apply negb_false_iff, Z.eqb_eq in Hs. }
  by bool_prop.
Qed.

Lemma layout_bounds m sz : wf_manifest m → layout_ok m sz → is_u32 sz →
  entry_bounds (fmc m) ∧ entry_bounds (runtime m).
Proof.
  intros Hw [] Hsz. destruct Hw as [_ _ _ _ _ _ [_ _ _ _ _ Hfl _ Hfo Hfs _] [_ _ _ _ _ Hrl _ Hro Hrs _]].
  pose proof manifest_size_u16. unfold in_u in *. split; split; lia.
Qed.

(** Associativity, to bring a block of [verify] to the front. *)
Lemma decides_assoc {A B C} (m : M E A) (f : A → M E B) (g : B → M E C) c b :
  dec ((m ≫= f) ≫= g) c b → dec (m ≫= λ a, f a ≫= g) c b.
Proof.
  intros Hd s Hs. destruct (Hd s Hs) as (r & s' & Er & Hrest). exists r, s'. split; [|done].
  rewrite <- Er. unfold mbind, M_bind. by destruct (m s) as [[] s1].
Qed.

Lemma verify_ok m sz reason t :
  wf_manifest m → is_u32 sz → from_u8 (manifest_pqc_key_type m) = Some t →
  dec (verify m sz reason) (accepts V m sz reason t) (accepted_info V m t).
Proof.
  intros Hw Hsz Ht.
  destruct (verify_preamble_ok (preamble m) reason t (wf_m_preamble m Hw)) as (vendor & owner & Hv & Ho & Hp).
  unfold verify. eapply decides_iff.
  2:{ eapply verify_prefix; [exact Ht|intros Hs].
      apply decides_assoc. eapply decides_bind; [apply key_type_block|intros _].
      eapply decides_bind; [exact Hp|intros _].
      eapply decides_bind; [apply (verify_header_ok (preamble m)); [apply Hw|done..]|intros _].
      eapply decides_bind; [by apply verify_toc_ok|]. intros (_ & _ & Hl).
      destruct (layout_bounds m sz Hw Hl Hsz) as [Hf Hr].
      eapply decides_bind; [by apply verify_fmc_ok|intros _].
      eapply decides_bind; [by apply verify_runtime_ok|intros _].
      eapply decides_bind; [apply verify_svn_ok|intros _].
      eapply decides_bind; [apply effective_fuse_svn_ok|intros _].
      eapply decides_get; [apply view_fw_fuse_svn|]. apply decides_ret. }
  split.
  - intros (?&?&?&[]&?&(?&?&?)&(?&?)&?&?&_). by split.
  - intros []. by split_and!.
Qed.
End Proofs.
