(* ===== verification/ImageVerifyExample.v ===== *)
(** A simulated environment and a bundle that verifies in it.

    Every [View] is the view of a state of [SimEnv], so the assumptions of
    [ImageVerificationEnvOk] can be met. The example uses a byte-sum digest and
    signatures that repeat the digest: it shows that the theorems about
    accepted images are not vacuous, by evaluation. *)

From S2P Require Import Prelude Errors Sha256 Lms LmsGen ImageTypes ImageLayout Cfi ImageVerify Decides ImageVerifySpec.

Record SimEnv := mkSimEnv { sim_view : View; sim_extended_error : Z }.

Definition sim_op {A} (o : option A) (e : CaliptraError) : M SimEnv A :=
  λ s, (match o with Some a => Ok a | None => Err e end, s).

#[export] Instance SimVerificationEnv : ImageVerificationEnv SimEnv := {
  sha384_acc_digest_slice data e s := sim_op (Some (v_sha384 (sim_view s) data)) e s;
  sha384_acc_digest off len e s := sim_op (v_image_digest (sim_view s) off len) e s;
  ecc384_verify d k g s := sim_op (v_ecc384 (sim_view s) d k g) 1 s;
  lms_verify d k g s := sim_op (v_lms (sim_view s) d k g) 1 s;
  mldsa87_verify d k g s := sim_op (v_mldsa87 (sim_view s) d k g) 1 s;
  vendor_pub_key_info_digest_fuses s := v_vendor_digest_fuses (sim_view s);
  vendor_ecc_pub_key_revocation s := v_ecc_revocation (sim_view s);
  vendor_lms_pub_key_revocation s := v_lms_revocation (sim_view s);
  vendor_mldsa_pub_key_revocation s := v_mldsa_revocation (sim_view s);
  owner_pub_key_digest_fuses s := v_owner_digest_fuses (sim_view s);
  anti_rollback_disable s := v_anti_rollback_disable (sim_view s);
  dev_lifecycle s := v_lifecycle (sim_view s);
  vendor_ecc_pub_key_idx_dv s := v_ecc_idx_dv (sim_view s);
  vendor_pqc_pub_key_idx_dv s := v_pqc_idx_dv (sim_view s);
  owner_pub_key_digest_dv s := v_owner_digest_dv (sim_view s);
  get_fmc_digest_dv s := v_fmc_digest_dv (sim_view s);
  get_cold_reset_fmc_load_addr s := v_cold_fmc_load_addr (sim_view s);
  get_cold_reset_fmc_size s := v_cold_fmc_size (sim_view s);
  fw_fuse_svn s := v_fw_fuse_svn (sim_view s);
  iccm_range s := v_iccm (sim_view s);
  set_fw_extended_error err s := mkSimEnv (sim_view s) err;
  pqc_key_type_fuse s := match v_pqc_key_type_fuse (sim_view s) with Abort _ => Err 1 | r => r end;
  dot_owner_pk_hash s := v_dot_owner_pk_hash (sim_view s);
  debug_image_allowed s := v_debug_image_allowed (sim_view s);
}.

Definition sim_observe (s : SimEnv) : View :=
  let V := sim_view s in
  mkView (v_reliable V) (v_sha384 V) (v_image_digest V) (v_ecc384 V) (v_lms V) (v_mldsa87 V)
    (v_vendor_digest_fuses V) (v_ecc_revocation V) (v_lms_revocation V) (v_mldsa_revocation V)
    (v_owner_digest_fuses V) (v_anti_rollback_disable V) (v_lifecycle V) (v_ecc_idx_dv V) (v_pqc_idx_dv V)
    (v_owner_digest_dv V) (v_fmc_digest_dv V) (v_cold_fmc_load_addr V) (v_cold_fmc_size V) (v_fw_fuse_svn V)
    (v_iccm V) (match v_pqc_key_type_fuse V with Abort _ => Err 1 | r => r end) (v_dot_owner_pk_hash V)
    (v_debug_image_allowed V).

(** Digests have twelve words. *)
Definition sim_sees (s : SimEnv) (V : View) : Prop :=
  sim_observe s = V ∧ ∀ data, length (v_sha384 V data) = 12%nat.

Lemma sim_op_returns {A} V (o : View → option A) e s :
  sim_sees s V → o (sim_observe s) = o (sim_view s) →
  ∃ r s', sim_op (o (sim_view s)) e s = (r, s') ∧ sim_sees s' V ∧
    match r with Ok x => o V = Some x | Err _ => v_reliable V → o V = None | Abort _ => False end.
Proof.
  intros [<- Hl] Ho. unfold sim_op. do 2 eexists. split; [done|]. split; [done|]. rewrite Ho.
  by destruct (o (sim_view s)).
Qed.

#[export] Instance SimVerificationEnvOk : ImageVerificationEnvOk SimEnv.
Proof.
  apply (Build_ImageVerificationEnvOk _ _ sim_sees); try (by intros ? ? [<- ?]);
    try (by intros ? ? ? [<- ?]).
  - intros V d e s Hs. by apply (sim_op_returns V (λ V, Some (v_sha384 V d))).
  - intros V a b e s Hs. by apply (sim_op_returns V (λ V, v_image_digest V a b)).
  - intros V d k g s Hs. by apply (sim_op_returns V (λ V, v_ecc384 V d k g)).
  - intros V d k g _ _ _ s Hs. by apply (sim_op_returns V (λ V, v_lms V d k g)).
  - intros V d k g s Hs. by apply (sim_op_returns V (λ V, v_mldsa87 V d k g)).
  - intros V s w [<- _]. simpl. by destruct (v_pqc_key_type_fuse _).
Defined.

(** ** A bundle *)

Definition sum_digest (l : list Z) : list Z := replicate 12 (u32w (1 + foldl Z.add 0 l)).

Definition ex_ecc_key : ImageEccPubKey := mkImageEccPubKey (replicate 12 3) (replicate 12 4).
Definition ex_pqc_key : list Z := replicate 2592 5.

(** A signature whose second half, or whose first words, repeat the digest. *)
Definition ex_ecc_sig (msg : list Z) : ImageEccSignature := mkImageEccSignature (replicate 12 1) (sum_digest msg).
Definition ex_pqc_sig (msg : list Z) : list Z := bytes_le (sum_digest msg) ++ replicate (4628 - 48) 0.
Definition ex_sigs (msg : list Z) : ImageSignatures := mkImageSignatures (ex_ecc_sig msg) (ex_pqc_sig msg).

Definition ex_info : ImageVendorPubKeyInfo :=
  mkImageVendorPubKeyInfo
    (mkImageEccKeyDescriptor 1 0 4 (replicate 4 (sum_digest (ecc_pub_key_bytes ex_ecc_key))))
    (mkImagePqcKeyDescriptor 1 1 4 (replicate 32 (sum_digest ex_pqc_key))).
Definition ex_owner_keys : ImageOwnerPubKeys := mkImageOwnerPubKeys ex_ecc_key ex_pqc_key.

(** The image: 16 bytes of FMC followed by 32 bytes of runtime. *)
Definition ex_payload : list Z := map (λ n, Z.of_nat n) (seq 0 48).
Definition ex_bundle_size : Z := IMAGE_MANIFEST_BYTE_SIZE + 48.
Definition ex_image_digest (off len : Z) : option (list Z) :=
  if (IMAGE_MANIFEST_BYTE_SIZE <=? off) && (off + len <=? ex_bundle_size)
  then Some (sum_digest (take (Z.to_nat len) (drop (Z.to_nat (off - IMAGE_MANIFEST_BYTE_SIZE)) ex_payload)))
  else None.

Definition ex_fmc : ImageTocEntry :=
  mkImageTocEntry 1 1 (replicate 20 0) 1 [0; 0] 0x40000000 0x40000000 IMAGE_MANIFEST_BYTE_SIZE 16
    (sum_digest (take 16 ex_payload)).
Definition ex_runtime : ImageTocEntry :=
  mkImageTocEntry 2 1 (replicate 20 0) 1 [0; 0] 0x40000100 0x40000100 (IMAGE_MANIFEST_BYTE_SIZE + 16) 32
    (sum_digest (drop 16 ex_payload)).

Definition ex_header (svn flags : Z) : ImageHeader :=
  mkImageHeader [0; 0] 2 2 flags 2 0 (sum_digest (toc_entry_bytes ex_fmc ++ toc_entry_bytes ex_runtime)) svn
    (mkVendorSignedData (replicate 15 0) (replicate 15 0) (replicate 10 0))
    (mkOwnerSignedData (replicate 15 0) (replicate 15 0) (replicate 10 0)).

Definition ex_preamble (h : ImageHeader) : ImagePreamble :=
  mkImagePreamble ex_info 2 ex_ecc_key 2 ex_pqc_key (ex_sigs (vendor_header_bytes h))
    ex_owner_keys (ex_sigs (header_bytes h)) [0; 0].

Definition ex_manifest (svn flags : Z) : ImageManifest :=
  mkImageManifest MANIFEST_MARKER IMAGE_MANIFEST_BYTE_SIZE 1 (replicate 3 0)
    (ex_preamble (ex_header svn flags)) (ex_header svn flags) ex_fmc ex_runtime.

(** A production device with key 0 revoked, anti-rollback on and a fuse version
    of 3. *)
Definition ex_view : View :=
  mkView True sum_digest ex_image_digest
    (λ d k g, Some (if bool_decide (ecc_s g = d) then ecc_r g else replicate 12 0))
    (λ d k g, None)
    (λ m k g, Some (if bool_decide (take 12 g = sum_digest m) then MldsaSuccess else SigVerifyFailed))
    (sum_digest (vendor_pub_key_info_bytes ex_info)) 1 1 1
    (sum_digest (owner_pub_keys_bytes ex_owner_keys)) false Production 2 2
    (sum_digest (owner_pub_keys_bytes ex_owner_keys)) (sum_digest (take 16 ex_payload)) 0x40000000 16 3
    (0x40000000, 0x40040000) (Ok MLDSA) None false.

Definition ex_env : SimEnv := mkSimEnv ex_view 0.

Lemma ex_sees : sim_sees ex_env ex_view.
Proof. split; [done|]. intros data. apply length_replicate. Qed.

(** The bundle is accepted on a cold boot and on an update, and one bit of
    change in the version is not. *)
Lemma ex_accepted reason :
  fst (verify (ex_manifest 7 0) ex_bundle_size reason ex_env) =
    Ok (accepted_info ex_view (ex_manifest 7 0) MLDSA).
Proof. destruct reason; vm_compute; reflexivity. Qed.

Lemma ex_rollback_refused :
  fst (verify (ex_manifest 2 0) ex_bundle_size ColdReset ex_env) =
    Err IMAGE_VERIFIER_ERR_FIRMWARE_SVN_LESS_THAN_FUSE.
Proof. vm_compute. reflexivity. Qed.

Lemma is_words_replicate n z : is_u32 z → is_words (replicate n z).
Proof. intros. by apply Forall_replicate. Qed.

Lemma sum_digest_ok l : is_digest (sum_digest l).
Proof. split; [done|]. apply is_words_replicate. by apply wrap_in_u. Qed.

(** ** Its well-formedness *)

Lemma is_buf_replicate n z : is_u8 z → is_buf n (replicate n z).
Proof. intros. split; [apply length_replicate|by apply Forall_replicate]. Qed.

Lemma is_digest_replicate z : is_u32 z → is_digest (replicate 12 z).
Proof. intros. split; [apply length_replicate|by apply Forall_replicate]. Qed.

Lemma is_hashes_replicate n l : is_hashes n (replicate n (sum_digest l)).
Proof. split; [apply length_replicate|]. apply Forall_replicate, sum_digest_ok. Qed.

Lemma manifest_size_u32 : is_u32 IMAGE_MANIFEST_BYTE_SIZE ∧ is_u32 (IMAGE_MANIFEST_BYTE_SIZE + 16).
Proof. by vm_compute. Qed.

Create HintDb wf discriminated.
#[local] Hint Resolve is_buf_replicate is_digest_replicate is_hashes_replicate sum_digest_ok : wf.
#[local] Hint Extern 1 (in_u _ _) => done : wf.

Lemma ex_sigs_wf msg : wf_sigs (ex_sigs msg).
Proof.
  split; [split; [by apply (is_digest_replicate 1)|apply sum_digest_ok]|]. split.
  - cbn [pqc_sig ex_sigs]. unfold ex_pqc_sig.
    rewrite length_app, length_bytes_le, length_replicate. unfold sum_digest. rewrite length_replicate. done.
  - cbn [pqc_sig ex_sigs]. unfold ex_pqc_sig.
    apply Forall_app. split; [apply bytes_le_bytes|by apply Forall_replicate].
Qed.

Lemma ex_key_wf : wf_ecc_key ex_ecc_key.
Proof. split; [by apply (is_digest_replicate 3)|by apply (is_digest_replicate 4)]. Qed.

Lemma ex_toc_wf : wf_toc ex_fmc ∧ wf_toc ex_runtime.
Proof.
  destruct manifest_size_u32. unfold ex_fmc, ex_runtime.
  split; (split; cbn -[IMAGE_MANIFEST_BYTE_SIZE replicate sum_digest]; auto with wf);
    (split; [done|by repeat constructor]).
Qed.

Lemma ex_header_wf svn flags : is_u32 svn → is_u32 flags → wf_header (ex_header svn flags).
Proof.
  intros Hs Hf. unfold ex_header. split; cbn -[replicate sum_digest toc_entry_bytes]; auto with wf;
    split_and!; auto with wf; by repeat constructor.
Qed.

Lemma ex_wf svn flags : is_u32 svn → is_u32 flags → wf_manifest (ex_manifest svn flags).
Proof.
  intros Hs Hf. destruct manifest_size_u32, ex_toc_wf.
  split; cbn [ex_manifest marker manifest_size manifest_pqc_key_type manifest_reserved preamble header fmc runtime];
    auto using ex_header_wf with wf.
  split; cbn -[replicate sum_digest ex_sigs ex_ecc_key ex_pqc_key ex_header];
    auto using ex_key_wf, ex_sigs_wf with wf.
  - split; cbn -[replicate sum_digest]; auto with wf.
  - by apply is_buf_replicate.
  - split; [apply ex_key_wf|by apply is_buf_replicate].
Qed.

Lemma ex_bundle_u32 : is_u32 ex_bundle_size.
Proof. by vm_compute. Qed.
