(* ===== verification/ImageVerifyTheorems.v ===== *)
(** What the image verifier guarantees. *)

From S2P Require Import Prelude Errors Sha256 Lms LmsGen ImageTypes ImageLayout Cfi ImageVerify.
From S2P Require Import Decides ImageVerifySpec ImageVerifyProofs ImageVerifyExample.

(** * The outcome of a verification *)

Section Outcome.
Context {E : Type} `{Henv : ImageVerificationEnv E} {Hok : ImageVerificationEnvOk E}.

Lemma verify_bad_type V m sz reason x :
  from_u8 (manifest_pqc_key_type m) = None → decides sees V (verify m sz reason) False x.
Proof.
  intros Ht s Hs. unfold verify. rewrite Ht. unfold fail_if.
  assert (Hret : ∀ e, ∃ r s', (Err e : res ImageVerificationInfo, s) = (r, s') ∧ sees s' V ∧ returns V r False x).
  { intros e. exists (Err e), s. split; [done|]. split; [done|]. simpl. tauto. }
  destruct (negb (marker m =? _)); [apply Hret|].
  destruct (negb (manifest_size m =? _)); apply Hret.
Qed.

Definition outcome_ok (V : View) (m : ImageManifest) (sz : Z) (reason : ResetReason)
    (r : res ImageVerificationInfo) : Prop :=
  match r with
  | Ok info => ∃ t, accepts V m sz reason t ∧ info = accepted_info V m t
  | Err _ => v_reliable V → ∀ t, ¬ accepts V m sz reason t
  | Abort _ => False
  end.

Lemma verify_outcome m sz reason (s : E) V :
  sees s V → wf_manifest m → is_u32 sz →
  outcome_ok V m sz reason (fst (verify m sz reason s)) ∧ sees (snd (verify m sz reason s)) V.
Proof.
  intros Hs Hw Hsz. destruct (from_u8 (manifest_pqc_key_type m)) as [t|] eqn:Ht.
  - destruct (verify_ok V m sz reason t Hw Hsz Ht s Hs) as (r & s' & -> & Hv & Hr).
    split; [|done]. destruct r as [info| |]; simpl in *; [destruct Hr as [? ->]; eauto| |done].
    intros Hrel t' Ha. pose proof (ac_type _ _ _ _ _ Ha) as Ht'. rewrite Ht in Ht'. simplify_eq. by apply Hr.
  - destruct (verify_bad_type V m sz reason (accepted_info V m LMS) Ht s Hs)
      as (r & s' & -> & Hv & Hr).
    split; [|done]. destruct r; simpl in *; [tauto| |done].
    intros _ t Ha. pose proof (ac_type _ _ _ _ _ Ha). congruence.
Qed.

Lemma verify_accepted m sz reason (s : E) V info :
  sees s V → wf_manifest m → is_u32 sz → fst (verify m sz reason s) = Ok info →
  ∃ t, accepts V m sz reason t ∧ info = accepted_info V m t.
Proof. intros Hs Hw Hsz Hv. destruct (verify_outcome m sz reason s V Hs Hw Hsz) as [Ho _]. by rewrite Hv in Ho. Qed.
End Outcome.

(** ** Where the flags are in the signed header *)

Lemma vendor_header_flags_inj h h' : wf_header h → wf_header h' →
  vendor_header_bytes h = vendor_header_bytes h' → hdr_flags h = hdr_flags h'.
Proof.
  intros [[Hr _] _ _ Hf _ _ _ _ _ _] [[Hr' _] _ _ Hf' _ _ _ _ _ _] He. unfold vendor_header_bytes in He.
  apply app_inj_1 in He as [_ He]; [|by rewrite !length_bytes_le, Hr, Hr'].
  do 2 (apply app_inj_1 in He as [_ He]; [|by rewrite !length_to_le]).
  apply app_inj_1 in He as [He _]; [|by rewrite !length_to_le].
  apply (f_equal from_le) in He. by rewrite !from_le_to_le_u32 in He.
Qed.

(** ** Revocation bits *)

Lemma land_pow2 r i : 0 ≤ i → Z.land r (2 ^ i) = if Z.testbit r i then 2 ^ i else 0.
Proof.
  intros Hi. apply Z.bits_inj'. intros n Hn. rewrite Z.land_spec, Z.pow2_bits_eqb by lia.
  destruct (Z.eqb_spec i n) as [->|Hne].
  - destruct (Z.testbit r n) eqn:Hr; [by rewrite Z.pow2_bits_true|by rewrite Z.bits_0].
  - rewrite andb_false_r. destruct (Z.testbit r i); [by rewrite Z.pow2_bits_false|by rewrite Z.bits_0].
Qed.

Lemma shl_one i : 0 ≤ i < 32 → shl_u32 1 i = 2 ^ i.
Proof.
  intros Hi. unfold shl_u32. rewrite (Z.mod_small i 32) by lia. rewrite Z.shiftl_1_l.
  apply wrap_small. split; [apply Z.pow_nonneg; lia|]. apply Z.pow_lt_mono_r; lia.
Qed.

Lemma ecc_revoked_bit r i : 0 ≤ i < 4 →
  revocation_contains r (revocation_from_bits_truncate (shl_u32 1 i)) = Z.testbit r i.
Proof.
  intros Hi. unfold revocation_contains, revocation_from_bits_truncate. rewrite shl_one by lia.
  assert (Hl : Z.land (2 ^ i) 15 = 2 ^ i).
  { rewrite Z.land_comm, land_pow2 by lia. assert (i = 0 ∨ i = 1 ∨ i = 2 ∨ i = 3) as Hc by lia.
    by destruct Hc as [->|[->|[->| ->]]]. }
  rewrite Hl, land_pow2 by lia. pose proof (Z.pow_pos_nonneg 2 i).
  destruct (Z.testbit r i); [apply Z.eqb_refl|]. apply Z.eqb_neq. lia.
Qed.

Lemma pqc_revoked_bit r i : 0 ≤ i < 32 → Z.land r (shl_u32 1 i) = 0 → Z.testbit r i = false.
Proof.
  intros Hi. rewrite shl_one, land_pow2 by lia. pose proof (Z.pow_pos_nonneg 2 i).
  destruct (Z.testbit r i); [lia|done].
Qed.

(** * Theorems *)

(** C5. The verifier implements its contract: on a well-formed manifest it
    never panics, trips no control-flow-integrity assertion and changes nothing
    it can observe; it returns exactly the information of the manifest if the
    image satisfies [accepts], and an error only if it does not (or an engine
    refused to work). *)
Theorem verify_decides {E} `{Henv : ImageVerificationEnv E} {Hok : ImageVerificationEnvOk E}
    (m : ImageManifest) (sz : Z) (reason : ResetReason) (s : E) (V : View) :
  sees s V → wf_manifest m → is_u32 sz →
  outcome_ok V m sz reason (fst (verify m sz reason s)) ∧ sees (snd (verify m sz reason s)) V.
Proof. apply verify_outcome. Qed.

Lemma verify_decides_witness :
  outcome_ok ex_view (ex_manifest 7 0) ex_bundle_size ColdReset
    (fst (verify (ex_manifest 7 0) ex_bundle_size ColdReset ex_env)) ∧
  fst (verify (ex_manifest 7 0) ex_bundle_size ColdReset ex_env) =
    Ok (accepted_info ex_view (ex_manifest 7 0) MLDSA).
Proof.
  split; [|apply ex_accepted].
  exact (proj1 (verify_decides (ex_manifest 7 0) ex_bundle_size ColdReset ex_env ex_view ex_sees
    (ex_wf 7 0 ltac:(done) ltac:(done)) ex_bundle_u32)).
Defined.

(** C7. Loading is safe: the two images of an accepted bundle lie inside the
    bundle, directly after the manifest and one after the other; their load
    regions lie inside the ICCM, do not wrap around and do not meet; and
    execution of each starts at its word-aligned load address. *)
Theorem verify_load_safety {E} `{Henv : ImageVerificationEnv E} {Hok : ImageVerificationEnvOk E}
    (m : ImageManifest) (sz : Z) (reason : ResetReason) (s : E) (V : View) (info : ImageVerificationInfo) :
  sees s V → wf_manifest m → is_u32 sz → fst (verify m sz reason s) = Ok info →
  let f := info_fmc info in
  let r := info_runtime info in
  let '(lo, hi) := iccm_range s in
  (0 < exe_size f ∧ 0 < exe_size r) ∧
  (lo ≤ exe_load_addr f ∧ exe_load_addr f + exe_size f ≤ hi) ∧
  (lo ≤ exe_load_addr r ∧ exe_load_addr r + exe_size r ≤ hi) ∧
  (∀ a, exe_load_addr f ≤ a < exe_load_addr f + exe_size f →
        exe_load_addr r ≤ a < exe_load_addr r + exe_size r → False) ∧
  (exe_entry_point f = exe_load_addr f ∧ exe_entry_point f mod 4 = 0) ∧
  (exe_entry_point r = exe_load_addr r ∧ exe_entry_point r mod 4 = 0) ∧
  toc_offset (fmc m) = IMAGE_MANIFEST_BYTE_SIZE ∧
  toc_offset (runtime m) = toc_offset (fmc m) + exe_size f ∧
  toc_offset (runtime m) + exe_size r ≤ sz.
Proof.
  intros Hs Hw Hsz Hv. destruct (verify_accepted m sz reason s V info Hs Hw Hsz Hv) as (t & Ha & ->).
  destruct (ac_layout _ _ _ _ _ Ha), (ac_fmc _ _ _ _ _ Ha) as [_ Hf Haf Hef], (ac_runtime _ _ _ _ _ Ha) as [_ Hr Har Her].
  rewrite (view_iccm V s Hs). destruct (v_iccm V) as [lo hi]. simpl in *. rewrite Hef, Her.
  split_and!; (done || lia).
Qed.

Lemma verify_load_safety_witness :
  toc_offset (runtime (ex_manifest 7 0)) + 32 ≤ ex_bundle_size.
Proof.
  exact (proj2 (proj2 (proj2 (proj2 (proj2 (proj2 (proj2 (proj2
    (verify_load_safety (ex_manifest 7 0) ex_bundle_size UpdateReset ex_env ex_view _ ex_sees
      (ex_wf 7 0 ltac:(done) ltac:(done)) ex_bundle_u32 (ex_accepted UpdateReset)))))))))).
Defined.

(** C37. Anti-rollback: an accepted image has a version no greater than 128,
    and on a provisioned device with anti-rollback enabled no lower than the
    one in the fuses; the effective version reported is the fuses' one, or zero
    when anti-rollback is disabled. *)
Theorem verify_anti_rollback {E} `{Henv : ImageVerificationEnv E} {Hok : ImageVerificationEnvOk E}
    (m : ImageManifest) (sz : Z) (reason : ResetReason) (s : E) (V : View) (info : ImageVerificationInfo) :
  sees s V → wf_manifest m → is_u32 sz → fst (verify m sz reason s) = Ok info →
  info_fw_svn info = hdr_svn (header m) ∧
  info_fw_svn info ≤ 128 ∧
  (dev_lifecycle s ≠ Unprovisioned → anti_rollback_disable s = false → fw_fuse_svn s ≤ info_fw_svn info) ∧
  info_effective_fuse_svn info = (if anti_rollback_disable s then 0 else fw_fuse_svn s).
Proof.
  intros Hs Hw Hsz Hv. destruct (verify_accepted m sz reason s V info Hs Hw Hsz Hv) as (t & Ha & ->).
  destruct (ac_svn _ _ _ _ _ Ha) as [Hm Hf].
  rewrite (view_lifecycle V s Hs), (view_anti_rollback_disable V s Hs), (view_fw_fuse_svn V s Hs). simpl. auto.
Qed.

Lemma verify_anti_rollback_witness : 3 ≤ hdr_svn (header (ex_manifest 7 0)).
Proof.
  exact (proj1 (proj2 (proj2 (verify_anti_rollback (ex_manifest 7 0) ex_bundle_size ColdReset ex_env ex_view _ ex_sees
    (ex_wf 7 0 ltac:(done) ltac:(done)) ex_bundle_u32 (ex_accepted ColdReset)))) ltac:(discriminate) eq_refl).
Defined.

(** C36. An update keeps what cold boot established: after an update reset an
    accepted image uses the vendor keys with the indices of the data vault and
    the same owner keys, and its FMC has the digest, load address and size of
    the one that was measured and is running. *)
Theorem verify_update_pins {E} `{Henv : ImageVerificationEnv E} {Hok : ImageVerificationEnvOk E}
    (m : ImageManifest) (sz : Z) (s : E) (V : View) (info : ImageVerificationInfo) :
  sees s V → wf_manifest m → is_u32 sz → fst (verify m sz UpdateReset s) = Ok info →
  info_vendor_ecc_pub_key_idx info = vendor_ecc_pub_key_idx_dv s ∧
  info_vendor_pqc_pub_key_idx info = vendor_pqc_pub_key_idx_dv s ∧
  info_owner_pub_keys_digest info = owner_pub_key_digest_dv s ∧
  exe_digest (info_fmc info) = get_fmc_digest_dv s ∧
  exe_load_addr (info_fmc info) = get_cold_reset_fmc_load_addr s ∧
  exe_size (info_fmc info) = get_cold_reset_fmc_size s.
Proof.
  intros Hs Hw Hsz Hv. destruct (verify_accepted m sz UpdateReset s V info Hs Hw Hsz Hv) as (t & Ha & ->).
  rewrite (view_ecc_idx_dv V s Hs), (view_pqc_idx_dv V s Hs), (view_owner_digest_dv V s Hs),
    (view_fmc_digest_dv V s Hs), (view_cold_fmc_load_addr V s Hs), (view_cold_fmc_size V s Hs).
  destruct (ac_fmc_update _ _ _ _ _ Ha eq_refl).
  pose proof (ei_update _ _ _ (ac_ecc_idx _ _ _ _ _ Ha) eq_refl).
  pose proof (pi_update _ _ _ _ (ac_pqc_idx _ _ _ _ _ Ha) eq_refl).
  pose proof (ok_update _ _ _ (ac_owner_keys _ _ _ _ _ Ha) eq_refl).
  done.
Qed.

Lemma verify_update_pins_witness :
  toc_size (fmc (ex_manifest 7 0)) = get_cold_reset_fmc_size ex_env.
Proof.
  exact (proj2 (proj2 (proj2 (proj2 (proj2 (verify_update_pins (ex_manifest 7 0) ex_bundle_size ex_env ex_view _ ex_sees
    (ex_wf 7 0 ltac:(done) ltac:(done)) ex_bundle_u32 (ex_accepted UpdateReset))))))).
Defined.

(** The trust of a public-key pair in a vendor's descriptor list: the list's
    hash is in the fuses, the key in use is one of the listed ones, and it is
    the last one (which cannot be revoked) or its revocation fuse is clear. *)
Record listed_key (V : View) (count idx revocation : Z) (max : Z) (hashes : list (list Z)) (key : list Z) : Prop := {
  lk_count : 0 < count ≤ max;
  lk_idx : 0 ≤ idx < count;
  lk_hash : hashes !! Z.to_nat idx = Some (v_sha384 V key);
  lk_live : idx = count - 1 ∨ Z.testbit revocation idx = false;
}.

(** C6. Chain of trust: on a provisioned device, in an accepted bundle the
    vendor's key descriptors hash to the non-zero fuse value, the active vendor
    keys are listed in them and not revoked, these keys verify the header, the
    owner's keys verify it too and are the ones in the fuses where those are
    set, the header commits to the table of contents, and that to the bytes of
    both images. *)
Theorem verify_chain_of_trust {E} `{Henv : ImageVerificationEnv E} {Hok : ImageVerificationEnvOk E}
    (m : ImageManifest) (sz : Z) (reason : ResetReason) (s : E) (V : View) (info : ImageVerificationInfo) :
  sees s V → wf_manifest m → is_u32 sz → dev_lifecycle s ≠ Unprovisioned → fst (verify m sz reason s) = Ok info →
  let p := preamble m in
  let h := header m in
  let t := info_pqc_key_type info in
  let ekd := ecc_key_descriptor (vendor_pub_key_info p) in
  let pkd := pqc_key_descriptor (vendor_pub_key_info p) in
  (vendor_pub_key_info_digest_fuses s ≠ ZERO_DIGEST ∧
   vendor_pub_key_info_digest_fuses s = v_sha384 V (vendor_pub_key_info_bytes (vendor_pub_key_info p))) ∧
  listed_key V (ekd_key_hash_count ekd) (info_vendor_ecc_pub_key_idx info) (vendor_ecc_pub_key_revocation s) 4
    (ekd_key_hash ekd) (ecc_pub_key_bytes (vendor_ecc_active_pub_key p)) ∧
  listed_key V (pkd_key_hash_count pkd) (info_vendor_pqc_pub_key_idx info) (vendor_pqc_revocation t s)
    (pqc_max_count t) (pkd_key_hash pkd) (take (pqc_key_size t) (vendor_pqc_active_pub_key p)) ∧
  header_ok V p h t ∧
  (owner_pub_key_digest_fuses s ≠ ZERO_DIGEST →
     owner_pub_key_digest_fuses s = v_sha384 V (owner_pub_keys_bytes (owner_pub_keys p))) ∧
  toc_digest h = v_sha384 V (toc_bytes m) ∧
  v_image_digest V (toc_offset (fmc m)) (toc_size (fmc m)) = Some (toc_entry_digest (fmc m)) ∧
  v_image_digest V (toc_offset (runtime m)) (toc_size (runtime m)) = Some (toc_entry_digest (runtime m)).
Proof.
  intros Hs Hw Hsz Hl Hv. destruct (verify_accepted m sz reason s V info Hs Hw Hsz Hv) as (t & Ha & ->).
  rewrite (view_lifecycle V s Hs) in Hl. destruct (ac_vendor_keys _ _ _ _ _ Ha Hl).
  destruct (ac_ecc_idx _ _ _ _ _ Ha) as [Heb Hel _], (ac_pqc_idx _ _ _ _ _ Ha) as [Hpb Hpl _].
  pose proof (wf_pre_ecc_idx _ (wf_m_preamble _ Hw)) as [Hei _].
  pose proof (wf_pre_pqc_idx _ (wf_m_preamble _ Hw)) as [Hpi _].
  assert (pqc_max_count t ≤ 32) by by destruct t.
  cbv zeta. cbn [accepted_info info_pqc_key_type info_vendor_ecc_pub_key_idx info_vendor_pqc_pub_key_idx].
  rewrite (view_vendor_digest_fuses V s Hs), (view_ecc_revocation V s Hs), (view_owner_digest_fuses V s Hs).
  change VENDOR_ECC_MAX_KEY_COUNT with 4 in *.
  rewrite (wrap_small 32) in Heb, Hel by (unfold in_u; lia).
  rewrite (wrap_small 32) in Hpb, Hpl by (unfold in_u; lia).
  split_and!; try apply Ha; try done.
  - split; [done|lia|done|].
    destruct (decide (pre_vendor_ecc_pub_key_idx (preamble m) =
      ekd_key_hash_count (ecc_key_descriptor (vendor_pub_key_info (preamble m))) - 1)) as [|Hn]; [by left|right].
    rewrite <- ecc_revoked_bit by lia. by apply Hel.
  - replace (vendor_pqc_revocation t s) with (v_pqc_revocation V t)
      by (destruct t; symmetry; [by apply view_mldsa_revocation|by apply view_lms_revocation]).
    split; [done|lia|done|].
    destruct (decide (pre_vendor_pqc_pub_key_idx (preamble m) =
      pkd_key_hash_count (pqc_key_descriptor (vendor_pub_key_info (preamble m))) - 1)) as [|Hn]; [by left|right].
    apply pqc_revoked_bit; [lia|]. by apply Hpl.
Qed.

Lemma verify_chain_of_trust_witness :
  header_ok ex_view (preamble (ex_manifest 7 0)) (header (ex_manifest 7 0)) MLDSA.
Proof.
  exact (proj1 (proj2 (proj2 (proj2 (verify_chain_of_trust (ex_manifest 7 0) ex_bundle_size ColdReset ex_env ex_view _ ex_sees
    (ex_wf 7 0 ltac:(done) ltac:(done)) ex_bundle_u32 ltac:(discriminate) (ex_accepted ColdReset)))))).
Defined.

(** Debug images: a bundle whose header carries the debug flag is
    accepted only where the boot mode permits vendor debug images, and the flag
    is covered by both signatures: a header that differs in the flag has other
    signed bytes. *)
Theorem verify_debug_image {E} `{Henv : ImageVerificationEnv E} {Hok : ImageVerificationEnvOk E}
    (m m' : ImageManifest) (sz : Z) (reason : ResetReason) (s : E) (V : View) (info : ImageVerificationInfo) :
  sees s V → wf_manifest m → wf_manifest m' → is_u32 sz → fst (verify m sz reason s) = Ok info →
  (debug_image_allowed s = false → Z.land (hdr_flags (header m)) IMAGE_FLAGS_DEBUG_IMAGE = 0) ∧
  (hdr_flags (header m') ≠ hdr_flags (header m) →
     vendor_header_bytes (header m') ≠ vendor_header_bytes (header m) ∧
     header_bytes (header m') ≠ header_bytes (header m)).
Proof.
  intros Hs Hw Hw' Hsz Hv. destruct (verify_accepted m sz reason s V info Hs Hw Hsz Hv) as (t & Ha & ->).
  split.
  - intros Hd. rewrite (view_debug_image_allowed V s Hs) in Hd.
    destruct (decide (Z.land (hdr_flags (header m)) IMAGE_FLAGS_DEBUG_IMAGE = 0)) as [|Hn]; [done|].
    pose proof (ho_debug _ _ _ _ (ac_header _ _ _ _ _ Ha) Hn). congruence.
  - pose proof (wf_m_header _ Hw). pose proof (wf_m_header _ Hw').
    assert (vendor_header_bytes (header m') = vendor_header_bytes (header m) →
      hdr_flags (header m') = hdr_flags (header m)) by by apply vendor_header_flags_inj.
    intros Hn. split; [tauto|]. intros He. apply Hn.
    apply vendor_header_flags_inj; [done..|]. by rewrite <- !vendor_header_slice, He.
Qed.

Lemma verify_debug_image_witness :
  Z.land (hdr_flags (header (ex_manifest 7 0))) IMAGE_FLAGS_DEBUG_IMAGE = 0 ∧
  vendor_header_bytes (header (ex_manifest 7 2)) ≠ vendor_header_bytes (header (ex_manifest 7 0)).
Proof.
  pose proof (verify_debug_image (ex_manifest 7 0) (ex_manifest 7 2) ex_bundle_size ColdReset ex_env ex_view _ ex_sees
    (ex_wf 7 0 ltac:(done) ltac:(done)) (ex_wf 7 2 ltac:(done) ltac:(done)) ex_bundle_u32
    (ex_accepted ColdReset)) as [Hd Hn].
  split; [by apply Hd|]. by apply Hn.
Defined.

(** The version check on every branch: which error is reported, and that
    nothing else happens. *)
Theorem verify_svn_branches {E} `{Henv : ImageVerificationEnv E} (svn : Z) (s : E) :
  verify_svn svn s =
    (if 128 <? svn then Err IMAGE_VERIFIER_ERR_FIRMWARE_SVN_GREATER_THAN_MAX_SUPPORTED
     else if bool_decide (dev_lifecycle s = Unprovisioned) || anti_rollback_disable s then Ok tt
     else if svn <? fw_fuse_svn s then Err IMAGE_VERIFIER_ERR_FIRMWARE_SVN_LESS_THAN_FUSE
     else Ok tt, s).
Proof.
  unfold verify_svn, svn_check_required, MAX_FIRMWARE_SVN. rewrite Z.gtb_ltb.
  unfold mbind, M_bind, get, cfi_assert_bool, cfi_assert_eq, cfi_assert_ge.
  destruct (Z.ltb_spec 128 svn) as [|Hm]; [done|]. apply Z.leb_le in Hm. rewrite Hm. simpl.
  case_bool_decide as Hl; simpl; [by rewrite ?(bool_decide_eq_true_2 (dev_lifecycle s = Unprovisioned)) by done|].
  destruct (anti_rollback_disable s) eqn:Ha; simpl; [by rewrite Ha|].
  destruct (Z.ltb_spec svn (fw_fuse_svn s)) as [|Hf]; [done|].
  rewrite Z.geb_leb. apply Z.leb_le in Hf. by rewrite Hf.
Qed.
