(* ===== verification/SocIfc.v ===== *)
(** The SoC interface: the values that the firmware derives from the fuse
    registers (drivers/src/fuse_bank.rs), and the device state that its checks
    depend on (drivers/src/soc_ifc.rs). *)

From S2P Require Import Prelude Errors ImageTypes ImageVerify.

(** The registers that [FuseBank] reads; multi-word registers as lists of
    words. *)
Record FuseRegs := mkFuseRegs {
  fuse_idevid_cert_attr : list Z;
  fuse_vendor_pk_hash : list Z;
  fuse_ecc_revocation : Z;
  fuse_lms_revocation : Z;
  fuse_mldsa_revocation : Z;
  cptra_owner_pk_hash : list Z;
  fuse_anti_rollback_disable : Z;
  fuse_runtime_svn : list Z;
  fuse_soc_manifest_svn : list Z;
  fuse_soc_manifest_max_svn : Z;
  fuse_pqc_key_type : Z;
  fuse_manuf_dbg_unlock_token : list Z;
  fuse_hek_seed : list Z;
}.

(** [u128::leading_zeros]. *)
Definition leading_zeros_u128 (x : Z) : Z := if x =? 0 then 128 else 127 - Z.log2 x.

Definition first_set_msbit (num_le : list Z) : Z :=
  let fuse := from_le (bytes_le num_le) in
  128 - leading_zeros_u128 fuse.

Inductive X509KeyIdAlgo := KeyIdSha1 | KeyIdSha256 | KeyIdSha384 | KeyIdSha512 | KeyIdFuse.
#[export] Instance X509KeyIdAlgo_eq_dec : EqDecision X509KeyIdAlgo.
Proof. solve_decision. Defined.

(** The discriminants of the enumeration. *)
Definition key_id_algo_value (a : X509KeyIdAlgo) : Z :=
  match a with KeyIdSha1 => 0 | KeyIdSha256 => 1 | KeyIdSha384 => 2 | KeyIdSha512 => 3 | KeyIdFuse => 4 end.

(** [IdevidCertAttr], the indices into the attribute words. *)
Definition AttrFlags : nat := 0.
Definition EccSubjectKeyId1 : nat := 1.
Definition EccSubjectKeyId2 : nat := 2.
Definition EccSubjectKeyId3 : nat := 3.
Definition EccSubjectKeyId4 : nat := 4.
Definition EccSubjectKeyId5 : nat := 5.
Definition MldsaSubjectKeyId1 : nat := 6.
Definition MldsaSubjectKeyId2 : nat := 7.
Definition MldsaSubjectKeyId3 : nat := 8.
Definition MldsaSubjectKeyId4 : nat := 9.
Definition MldsaSubjectKeyId5 : nat := 10.
Definition UeidType : nat := 11.
Definition ManufacturerSerialNumber1 : nat := 12.
Definition ManufacturerSerialNumber2 : nat := 13.
Definition ManufacturerSerialNumber3 : nat := 14.
Definition ManufacturerSerialNumber4 : nat := 15.

Section FuseBank.
Context (regs : FuseRegs).

(** [fuse_idevid_cert_attr().at(i).read()]. *)
Definition attr (i : nat) : Z := nth i (fuse_idevid_cert_attr regs) 0.

Definition idev_id_x509_key_id_algo (ecc_key_id_algo : bool) : X509KeyIdAlgo :=
  let flags := attr AttrFlags in
  let flags := if negb ecc_key_id_algo then Z.shiftr flags 3 else flags in
  let v := Z.land flags 0x7 in
  if v =? 0 then KeyIdSha1
  else if v =? 1 then KeyIdSha256
  else if v =? 2 then KeyIdSha384
  else if v =? 4 then KeyIdSha512
  else KeyIdFuse.

Definition ueid : list Z :=
  let ueid := replicate 17 0 in
  let ueid := splice ueid 0 [u8w (attr UeidType)] in
  let ueid := splice ueid 1 (to_le 4 (attr ManufacturerSerialNumber1)) in
  let ueid := splice ueid 5 (to_le 4 (attr ManufacturerSerialNumber2)) in
  let ueid := splice ueid 9 (to_le 4 (attr ManufacturerSerialNumber3)) in
  splice ueid 13 (to_le 4 (attr ManufacturerSerialNumber4)).

Definition subject_key_id_words (ecc_subject_key_id : bool) : list nat :=
  if ecc_subject_key_id then
    [EccSubjectKeyId1; EccSubjectKeyId2; EccSubjectKeyId3; EccSubjectKeyId4; EccSubjectKeyId5]
  else
    [MldsaSubjectKeyId1; MldsaSubjectKeyId2; MldsaSubjectKeyId3; MldsaSubjectKeyId4; MldsaSubjectKeyId5].

Definition subject_key_id (ecc_subject_key_id : bool) : list Z :=
  let key_id := subject_key_id_words ecc_subject_key_id in
  let word k := to_le 4 (attr (nth k key_id 0%nat)) in
  let id := replicate 20 0 in
  let id := splice id 0 (word 0%nat) in
  let id := splice id 4 (word 1%nat) in
  let id := splice id 8 (word 2%nat) in
  let id := splice id 12 (word 3%nat) in
  splice id 16 (word 4%nat).

Definition vendor_pub_key_info_hash : list Z := fuse_vendor_pk_hash regs.
Definition fuse_vendor_ecc_pub_key_revocation : Z := revocation_from_bits_truncate (fuse_ecc_revocation regs).
Definition fuse_vendor_lms_pub_key_revocation : Z := fuse_lms_revocation regs.
Definition fuse_vendor_mldsa_pub_key_revocation : Z := fuse_mldsa_revocation regs.
Definition owner_pub_key_hash : list Z := cptra_owner_pk_hash regs.
Definition fuse_bank_anti_rollback_disable : bool := Z.testbit (fuse_anti_rollback_disable regs) 0.
Definition fuse_bank_fw_fuse_svn : Z := first_set_msbit (fuse_runtime_svn regs).
Definition soc_manifest_fuse_svn : Z := first_set_msbit (fuse_soc_manifest_svn regs).
Definition max_soc_manifest_fuse_svn : Z := Z.land (fuse_soc_manifest_max_svn regs) 0xff.
Definition lms_revocation : Z := fuse_lms_revocation regs.
Definition pqc_key_type : Z := fuse_pqc_key_type regs.
Definition manuf_dbg_unlock_token : list Z := fuse_manuf_dbg_unlock_token regs.
Definition ocp_hek_seed : list Z := fuse_hek_seed regs.
End FuseBank.

Record SocIfcRegs := mkSocIfcRegs {
  cptra_security_state : Z;
  cptra_hw_config : Z;
  ss_debug_intent_reg : Z;
  ss_strap_generic_3 : Z;
  fuse_regs : FuseRegs;
  cptra_fw_extended_error_info_0 : Z;
}.

Definition SS_STRAP_GENERIC_3_OWNER_MANIFEST_MIN_SVN_SHIFT : Z := 8.
Definition SS_STRAP_GENERIC_3_OWNER_MANIFEST_MIN_SVN_MASK : Z := 0xFF.
Definition SS_STRAP_GENERIC_3_DISABLE_VENDOR_DEBUG_IMAGES : Z := 2 ^ 31.

Definition lifecycle_of (v : Z) : Lifecycle :=
  if v =? 0 then Unprovisioned
  else if v =? 1 then Manufacturing
  else if v =? 2 then Reserved2
  else Production.

Section SocIfc.
Context (r : SocIfcRegs).

Definition lifecycle : Lifecycle := lifecycle_of (Z.land (cptra_security_state r) 3).
Definition debug_locked : bool := Z.testbit (cptra_security_state r) 2.
Definition ss_debug_intent : bool := Z.testbit (ss_debug_intent_reg r) 0.
Definition subsystem_mode : bool := Z.testbit (cptra_hw_config r) 5.

Definition vendor_debug_image_allowed : bool :=
  let vendor_debug_images_disabled :=
    negb (Z.land (ss_strap_generic_3 r) SS_STRAP_GENERIC_3_DISABLE_VENDOR_DEBUG_IMAGES =? 0) in
  subsystem_mode && ss_debug_intent && negb vendor_debug_images_disabled.

Definition ss_owner_manifest_min_svn : Z :=
  Z.land (Z.shiftr (ss_strap_generic_3 r) SS_STRAP_GENERIC_3_OWNER_MANIFEST_MIN_SVN_SHIFT)
    SS_STRAP_GENERIC_3_OWNER_MANIFEST_MIN_SVN_MASK.

Definition soc_set_fw_extended_error (err : Z) : SocIfcRegs :=
  mkSocIfcRegs (cptra_security_state r) (cptra_hw_config r) (ss_debug_intent_reg r) (ss_strap_generic_3 r)
    (fuse_regs r) err.
End SocIfc.

(** Everything but the register for error codes. *)
Definition same_device (r r' : SocIfcRegs) : Prop :=
  soc_set_fw_extended_error r 0 = soc_set_fw_extended_error r' 0.

Lemma same_device_error r err : same_device (soc_set_fw_extended_error r err) r.
Proof. done. Qed.

Lemma same_device_reads r r' : same_device r r' →
  lifecycle r = lifecycle r' ∧ fuse_regs r = fuse_regs r' ∧
  vendor_debug_image_allowed r = vendor_debug_image_allowed r' ∧
  ss_owner_manifest_min_svn r = ss_owner_manifest_min_svn r'.
Proof. destruct r, r'. unfold same_device, soc_set_fw_extended_error. simpl. intros Hs. by simplify_eq. Qed.

(** * Facts *)

Lemma from_le_bytes_le_cons w ws : is_u32 w → from_le (bytes_le (w :: ws)) = w + 2 ^ 32 * from_le (bytes_le ws).
Proof.
  intros Hw. change (bytes_le (w :: ws)) with (to_le 4 w ++ bytes_le ws).
  rewrite <- (from_le_to_le_u32 w Hw) at 2. cbn [to_le app from_le]. lia.
Qed.

(** Burning fuses only sets bits. *)
Definition burned (ws ws' : list Z) : Prop := Forall2 (λ w w', Z.land w w' = w) ws ws'.

Lemma land_le w w' : 0 ≤ w' → Z.land w w' = w → w ≤ w'.
Proof.
  intros Hw' Hl. assert (Hd : Z.ldiff w w' = 0).
  { apply Z.bits_inj'. intros n Hn. rewrite Z.ldiff_spec, Z.bits_0, <- Hl, Z.land_spec.
    by destruct (Z.testbit w n), (Z.testbit w' n). }
  pose proof (Z.sub_nocarry_ldiff w' w Hd). assert (0 ≤ Z.ldiff w' w) by (apply Z.ldiff_nonneg; lia). lia.
Qed.

Lemma from_le_burned ws ws' : is_words ws → is_words ws' → burned ws ws' →
  from_le (bytes_le ws) ≤ from_le (bytes_le ws').
Proof.
  intros Hw Hw' Hb. revert Hw Hw'. induction Hb as [|w w' ws ws' Hl Hb IH]; [done|].
  intros [Hw Hws]%Forall_cons [Hw' Hws']%Forall_cons. rewrite !from_le_bytes_le_cons by done.
  pose proof (land_le w w' ltac:(unfold in_u in *; lia) Hl). specialize (IH Hws Hws'). lia.
Qed.

Lemma from_le_words_bound ws : is_words ws → 0 ≤ from_le (bytes_le ws) < 2 ^ (32 * Z.of_nat (length ws)).
Proof.
  induction 1 as [|w ws Hw Hws IH]; [done|]. rewrite from_le_bytes_le_cons by done.
  cbn [length]. rewrite Nat2Z.inj_succ, Z.mul_succ_r, Z.pow_add_r by lia. unfold in_u in Hw.
  change (2 ^ 32) with 4294967296 in *. nia.
Qed.

(** The version that a fuse value encodes: the number of its highest set bit,
    counted from one. *)
Lemma first_set_msbit_spec ws : length ws = 4%nat → is_words ws →
  let f := from_le (bytes_le ws) in
  0 ≤ first_set_msbit ws ≤ 128 ∧ f < 2 ^ first_set_msbit ws ∧ (f ≠ 0 → 2 ^ (first_set_msbit ws - 1) ≤ f).
Proof.
  intros Hl Hw f. pose proof (from_le_words_bound ws Hw) as Hb. rewrite Hl in Hb.
  change (32 * Z.of_nat 4) with 128 in Hb. fold f in Hb.
  unfold first_set_msbit, leading_zeros_u128. fold f. destruct (Z.eqb_spec f 0) as [->|Hn]; [lia|].
  pose proof (Z.log2_spec f ltac:(lia)) as [H1 H2].
  pose proof (Z.log2_nonneg f). assert (Z.log2 f < 128) by (apply Z.log2_lt_pow2; lia).
  replace (128 - (127 - Z.log2 f)) with (Z.succ (Z.log2 f)) by lia.
  replace (Z.succ (Z.log2 f) - 1) with (Z.log2 f) by lia. lia.
Qed.

Lemma first_set_msbit_mono ws ws' : is_words ws → is_words ws' → burned ws ws' →
  first_set_msbit ws ≤ first_set_msbit ws'.
Proof.
  intros Hw Hw' Hb. pose proof (from_le_burned ws ws' Hw Hw' Hb).
  pose proof (from_le_words_bound ws Hw). unfold first_set_msbit, leading_zeros_u128.
  destruct (Z.eqb_spec (from_le (bytes_le ws)) 0), (Z.eqb_spec (from_le (bytes_le ws')) 0); [lia| |lia|].
  - pose proof (Z.log2_nonneg (from_le (bytes_le ws'))). lia.
  - pose proof (Z.log2_le_mono (from_le (bytes_le ws)) (from_le (bytes_le ws'))). lia.
Qed.

Lemma thermometer_svn n : 0 ≤ n ≤ 128 → first_set_msbit (words_le (to_le 16 (2 ^ n - 1))) = n.
Proof.
  intros Hn. unfold first_set_msbit. rewrite bytes_le_words_le; [|apply to_le_bytes|by exists 4].
  rewrite from_le_to_le, Z.mod_small.
  2:{ change (256 ^ Z.of_nat 16) with (2 ^ 128). assert (2 ^ n ≤ 2 ^ 128) by (apply Z.pow_le_mono_r; lia).
      assert (0 < 2 ^ n) by (apply Z.pow_pos_nonneg; lia). lia. }
  unfold leading_zeros_u128. destruct (Z.eqb_spec (2 ^ n - 1) 0) as [He|He].
  - destruct (decide (n = 0)) as [->|]; [done|].
    assert (2 ^ 1 ≤ 2 ^ n) by (apply Z.pow_le_mono_r; lia). lia.
  - assert (n ≠ 0) by (by intros ->). replace (2 ^ n - 1) with (Z.pred (2 ^ n)) by lia.
    rewrite Z.log2_pred_pow2 by lia. lia.
Qed.

(** * Theorems *)

(** The version fuses: the version is between 0 and 128, a fuse value with
    its [n] lowest bits set encodes [n], and burning further fuses never lowers
    the version, so that a device cannot be rolled back by programming fuses. *)
Theorem fuse_svn_monotone regs regs' :
  length (fuse_runtime_svn regs) = 4%nat → is_words (fuse_runtime_svn regs) → is_words (fuse_runtime_svn regs') →
  burned (fuse_runtime_svn regs) (fuse_runtime_svn regs') →
  0 ≤ fuse_bank_fw_fuse_svn regs ≤ 128 ∧
  fuse_bank_fw_fuse_svn regs ≤ fuse_bank_fw_fuse_svn regs' ∧
  (∀ n, 0 ≤ n ≤ 128 → fuse_runtime_svn regs = words_le (to_le 16 (2 ^ n - 1)) → fuse_bank_fw_fuse_svn regs = n).
Proof.
  intros Hl Hw Hw' Hb. unfold fuse_bank_fw_fuse_svn. split_and!.
  - apply first_set_msbit_spec; done.
  - apply first_set_msbit_spec; done.
  - by apply first_set_msbit_mono.
  - intros n Hn ->. by apply thermometer_svn.
Qed.

(** A fuse bank with a given version and given certificate attributes. *)
Definition example_fuses (svn attrs : list Z) : FuseRegs :=
  mkFuseRegs attrs (replicate 12 1) 0 0 0 (replicate 12 0) 0 svn [0;0;0;0] 0 1 (replicate 16 0) (replicate 8 0).

Lemma fuse_svn_monotone_witness :
  fuse_bank_fw_fuse_svn (example_fuses [7; 0; 0; 0] []) ≤ fuse_bank_fw_fuse_svn (example_fuses [15; 1; 0; 0] []).
Proof.
  apply (fuse_svn_monotone (example_fuses [7; 0; 0; 0] []) (example_fuses [15; 1; 0; 0] [])).
  - reflexivity.
  - by apply (bool_decide_eq_true_1 _).
  - by apply (bool_decide_eq_true_1 _).
  - by repeat constructor.
Defined.

(** The identifiers read from the certificate attributes: the UEID is the
    type byte followed by the four serial-number words, and the subject key
    identifiers are words 1 to 5 for ECC and 6 to 10 for MLDSA. *)
Theorem fuse_identifiers regs :
  ueid regs = u8w (attr regs UeidType) ::
    bytes_le [attr regs 12; attr regs 13; attr regs 14; attr regs 15] ∧
  subject_key_id regs false = bytes_le [attr regs 6; attr regs 7; attr regs 8; attr regs 9; attr regs 10] ∧
  subject_key_id regs true = bytes_le [attr regs 1; attr regs 2; attr regs 3; attr regs 4; attr regs 5].
Proof. done. Qed.

(** The key-identifier algorithm in the fuses: the values 0, 1 and 2 select
    the algorithm with that number, for ECC from bits 0-2 and for MLDSA from
    bits 3-5, but 3, the number of SHA-512, selects the fuse-provided
    identifier and 4, the number of that, selects SHA-512. *)
Theorem fuse_key_id_algo regs e q :
  0 ≤ e < 8 → 0 ≤ q < 8 → attr regs AttrFlags = e + 8 * q →
  (∀ a, e = key_id_algo_value a → idev_id_x509_key_id_algo regs true =
     match a with KeyIdSha512 => KeyIdFuse | KeyIdFuse => KeyIdSha512 | a => a end) ∧
  (∀ a, q = key_id_algo_value a → idev_id_x509_key_id_algo regs false =
     match a with KeyIdSha512 => KeyIdFuse | KeyIdFuse => KeyIdSha512 | a => a end).
Proof.
  intros He Hq Ha. unfold idev_id_x509_key_id_algo. rewrite Ha. cbn [negb]. change 7 with (Z.ones 3).
  rewrite !Z.land_ones, Z.shiftr_div_pow2 by lia. change (2 ^ 3) with 8.
  replace ((e + 8 * q) mod 8) with e by dlia. replace ((e + 8 * q) / 8 mod 8) with q by dlia.
  split; intros a ->; by destruct a.
Qed.

Lemma fuse_key_id_algo_witness :
  idev_id_x509_key_id_algo (example_fuses [] [0x0A]) true = KeyIdSha384 ∧
  idev_id_x509_key_id_algo (example_fuses [] [0x1B]) true = KeyIdFuse.
Proof.
  split.
  - exact (proj1 (fuse_key_id_algo (example_fuses [] [0x0A]) 2 1 ltac:(lia) ltac:(lia) eq_refl) KeyIdSha384 eq_refl).
  - exact (proj1 (fuse_key_id_algo (example_fuses [] [0x1B]) 3 3 ltac:(lia) ltac:(lia) eq_refl) KeyIdSha512 eq_refl).
Defined.
