(* ===== verification/Engines.v ===== *)
(** The cryptographic engines behind the drivers.

    [Engines] is the interface of the drivers for the SHA-384 engine and
    accelerator, ECC, ML-DSA and SHA-3 as the firmware's checks call it, and
    [EnginesOk] what the checks rely on: an operation returns the value of a
    mathematical function of its arguments, or an error. An engine is not
    required to succeed unless the view says so. [SimEngines] are engines that
    compute the functions of a view, to show that the contract can be met: the
    state is the view itself, and the representative of an ML-DSA message is the
    message. *)

From S2P Require Import Prelude Errors Sha256 Lms LmsGen Cfi ImageTypes ImageVerify Decides.

Class Engines (X Op Acc Mu : Type) := {
  (** [Sha2_512_384] *)
  hw_sha384_digest : list Z → M X (list Z);
  hw_sha384_digest_init : M X Op;
  hw_sha384_update : Op → list Z → M X Op;
  hw_sha384_finalize : Op → M X (list Z);
  (** [Sha2_512_384Acc]: an operation ends, and the lock is released, with the
      call that computes the digest. *)
  hw_acc_try_start_operation : M X (option Acc);
  hw_acc_digest_384_slice : Acc → list Z → M X (list Z);
  hw_acc_digest_384 : Acc → Z → Z → M X (list Z);
  (** [DmaRecovery] with the accelerator: an address on the AXI bus and a
      length *)
  hw_dma_sha384_image : Z → Z → M X (list Z);
  hw_dma_sha384_image_single_dword : Z → Z → M X (list Z);
  (** [Ecc384] and [Mldsa87] *)
  hw_ecc384_verify_r : ImageEccPubKey → list Z → ImageEccSignature → M X (list Z);
  hw_mldsa87_verify_var : list Z → list Z → list Z → M X Mldsa87Result;
  hw_mldsa_external_mu_init : list Z → M X Mu;
  hw_mu_update : Mu → list Z → M X Mu;
  hw_mu_finalize : Mu → M X (list Z);
  hw_mldsa87_verify_external_mu : list Z → list Z → list Z → M X Mldsa87Result;
}.

Section Streams.
Context {X Op Acc Mu : Type} `{Engines X Op Acc Mu}.

Definition hw_sha384_stream (parts : list (list Z)) : M X (list Z) :=
  op ← hw_sha384_digest_init; op ← foldM hw_sha384_update op parts; hw_sha384_finalize op.
Definition hw_mu_stream (pk : list Z) (parts : list (list Z)) : M X (list Z) :=
  op ← hw_mldsa_external_mu_init pk; op ← foldM hw_mu_update op parts; hw_mu_finalize op.
Definition hw_acc_slice (data : list Z) (e : CaliptraError) : M X (list Z) :=
  o ← hw_acc_try_start_operation;
  match o with Some acc => hw_acc_digest_384_slice acc data | None => fail e end.
Definition hw_acc_mbox (len start : Z) (e : CaliptraError) : M X (list Z) :=
  o ← hw_acc_try_start_operation;
  match o with Some acc => hw_acc_digest_384 acc len start | None => fail e end.
End Streams.

(** What the engines compute. [ev_mailbox] and [ev_axi] are the bytes that the
    accelerator reads at an offset of the mailbox memory and that the DMA
    engine reads at an address of the bus. *)
Record EngineView := mkEngineView {
  ev_reliable : Prop;
  ev_sha384 : list Z → list Z;
  ev_mailbox : Z → Z → option (list Z);
  ev_axi : Z → Z → option (list Z);
  ev_ecc384 : ImageEccPubKey → list Z → ImageEccSignature → option (list Z);
  ev_mldsa87 : list Z → list Z → list Z → option Mldsa87Result;
  ev_mu : list Z → list Z → list Z;
}.
#[export] Instance EngineView_viewed : Viewed EngineView := ev_reliable.

Class EnginesOk (X Op Acc Mu : Type) `{Engines X Op Acc Mu} := {
  hw_sees : X → EngineView → Prop;
  hw_digest_length V s d : hw_sees s V → length (ev_sha384 V d) = 12%nat;
  hw_digest_ok V d : op_returns hw_sees V (Some (ev_sha384 V d)) (hw_sha384_digest d);
  hw_stream_ok V parts : op_returns hw_sees V (Some (ev_sha384 V (concat parts))) (hw_sha384_stream parts);
  hw_acc_slice_ok V d e : op_returns hw_sees V (Some (ev_sha384 V d)) (hw_acc_slice d e);
  hw_acc_mbox_ok V len start e :
    op_returns hw_sees V (ev_sha384 V <$> ev_mailbox V start len) (hw_acc_mbox len start e);
  hw_dma_ok V addr len : op_returns hw_sees V (ev_sha384 V <$> ev_axi V addr len) (hw_dma_sha384_image addr len);
  hw_dma_single_ok V addr len :
    op_returns hw_sees V (ev_sha384 V <$> ev_axi V addr len) (hw_dma_sha384_image_single_dword addr len);
  hw_ecc384_ok V k d g : op_returns hw_sees V (ev_ecc384 V k d g) (hw_ecc384_verify_r k d g);
  hw_mldsa87_ok V k m g : op_returns hw_sees V (ev_mldsa87 V k m g) (hw_mldsa87_verify_var k m g);
  hw_mu_ok V k parts : op_returns hw_sees V (Some (ev_mu V k (concat parts))) (hw_mu_stream k parts);
  (** FIPS 204: verifying the representative of a message is verifying the
      message. *)
  hw_external_mu_ok V k m g :
    op_returns hw_sees V (ev_mldsa87 V k m g) (hw_mldsa87_verify_external_mu k (ev_mu V k m) g);
}.

Definition sim_hw {A} (o : EngineView → option A) : M EngineView A :=
  λ s, (match o s with Some a => Ok a | None => Err 1 end, s).

#[export] Instance SimEngines : Engines EngineView (list Z) unit (list Z) := {
  hw_sha384_digest d := sim_hw (λ V, Some (ev_sha384 V d));
  hw_sha384_digest_init := mret [];
  hw_sha384_update op d := mret (op ++ d);
  hw_sha384_finalize op := sim_hw (λ V, Some (ev_sha384 V op));
  hw_acc_try_start_operation := mret (Some tt);
  hw_acc_digest_384_slice _ d := sim_hw (λ V, Some (ev_sha384 V d));
  hw_acc_digest_384 _ len start := sim_hw (λ V, ev_sha384 V <$> ev_mailbox V start len);
  hw_dma_sha384_image addr len := sim_hw (λ V, ev_sha384 V <$> ev_axi V addr len);
  hw_dma_sha384_image_single_dword addr len := sim_hw (λ V, ev_sha384 V <$> ev_axi V addr len);
  hw_ecc384_verify_r k d g := sim_hw (λ V, ev_ecc384 V k d g);
  hw_mldsa87_verify_var k m g := sim_hw (λ V, ev_mldsa87 V k m g);
  hw_mldsa_external_mu_init _ := mret [];
  hw_mu_update op d := mret (op ++ d);
  hw_mu_finalize op := mret op;
  hw_mldsa87_verify_external_mu k mu g := sim_hw (λ V, ev_mldsa87 V k mu g);
}.

Definition sim_hw_sees (s V : EngineView) : Prop :=
  s = V ∧ (∀ d, length (ev_sha384 V d) = 12%nat) ∧ (∀ k m, ev_mu V k m = m).

Lemma sim_hw_returns {A} V (o : EngineView → option A) : op_returns sim_hw_sees V (o V) (sim_hw o).
Proof.
  intros s (<- & Hl & Hm). unfold sim_hw. do 2 eexists. split; [done|]. split; [done|]. by destruct (o s).
Qed.

Lemma foldM_concat {S} (d : list Z) parts (s : S) :
  foldM (λ op x, mret (op ++ x) : M S (list Z)) d parts s = (Ok (d ++ concat parts), s).
Proof.
  revert d. induction parts as [|x parts IH]; intros d; cbn [foldM concat]; [by rewrite app_nil_r|].
  rewrite bind_mret, IH. by rewrite app_assoc.
Qed.

#[export] Instance SimEnginesOk : EnginesOk EngineView (list Z) unit (list Z).
Proof.
  refine {| hw_sees := sim_hw_sees |}.
  - by intros V s d (-> & Hl & _).
  - intros V d. apply (sim_hw_returns V (λ V, Some (ev_sha384 V d))).
  - intros V parts s Hs. unfold hw_sha384_stream. simpl. rewrite bind_mret.
    rewrite (bind_ok _ _ _ _ _ (foldM_concat [] parts s)).
    by apply (sim_hw_returns V (λ V, Some (ev_sha384 V (concat parts)))).
  - intros V d e. apply (sim_hw_returns V (λ V, Some (ev_sha384 V d))).
  - intros V len start e. apply (sim_hw_returns V (λ V, ev_sha384 V <$> ev_mailbox V start len)).
  - intros V addr len. apply (sim_hw_returns V (λ V, ev_sha384 V <$> ev_axi V addr len)).
  - intros V addr len. apply (sim_hw_returns V (λ V, ev_sha384 V <$> ev_axi V addr len)).
  - intros V k d g. apply (sim_hw_returns V (λ V, ev_ecc384 V k d g)).
  - intros V k m g. apply (sim_hw_returns V (λ V, ev_mldsa87 V k m g)).
  - intros V k parts s (<- & Hl & Hm). unfold hw_mu_stream. simpl. rewrite bind_mret.
    rewrite (bind_ok _ _ _ _ _ (foldM_concat [] parts s)). rewrite Hm. by exists (Ok (concat parts)), s.
  - intros V k m g s Hs. assert (ev_mu V k m = m) as -> by apply Hs.
    by apply (sim_hw_returns V (λ V, ev_mldsa87 V k m g)).
Defined.
