(* ===== verification/FirmwareEnv.v ===== *)
(** The environment in which ROM and runtime verify an image
    (common/src/verifier.rs): the trait [ImageVerificationEnv] implemented by
    the drivers, the fuse bank, the data vault and the LMS verifier. *)

From S2P Require Import Prelude Errors Sha256 Sha256Proofs Sha256Alg Lms LmsGen LmsImage ImageTypes Cfi ImageVerify.
From S2P Require Import Decides ImageVerifySpec SocIfc Engines.

(** The cold-reset entries of the data vault (drivers/src/data_vault.rs) that
    the verifier reads. *)
Record ColdResetEntries := mkColdResetEntries {
  fmc_tci : list Z;
  dv_owner_pk_hash : list Z;
  vendor_ecc_pk_index : Z;
  vendor_pqc_pk_index : Z;
}.

(** Where the image is: in the mailbox memory, behind the AXI bus, or, for the
    self test, in its loaded places. *)
Inductive ImageSource :=
  | MboxMemory
  | Axi (axi_start : Z)
  | FipsTest (manifest fmc runtime : list Z).

Definition ICCM_RANGE : Z * Z := (0x40000000, 0x40000000 + 256 * 1024).

Record FirmwareImageVerificationEnv (Sh X : Type) := mkFirmwareEnv {
  env_sha256 : Sh;
  env_hw : X;
  env_soc_ifc : SocIfcRegs;
  env_data_vault : ColdResetEntries;
  env_image_source : ImageSource;
  env_manifest1 : ImageManifest;
  env_dot_owner_pk_hash : bool * list Z;
}.
Arguments mkFirmwareEnv {Sh X}.
Arguments env_sha256 {Sh X}.
Arguments env_hw {Sh X}.
Arguments env_soc_ifc {Sh X}.
Arguments env_data_vault {Sh X}.
Arguments env_image_source {Sh X}.
Arguments env_manifest1 {Sh X}.
Arguments env_dot_owner_pk_hash {Sh X}.

Definition env_with {Sh X} (sh : Sh) (x : X) (soc : SocIfcRegs) (s : FirmwareImageVerificationEnv Sh X)
    : FirmwareImageVerificationEnv Sh X :=
  mkFirmwareEnv sh x soc (env_data_vault s) (env_image_source s) (env_manifest1 s) (env_dot_owner_pk_hash s).

(** [usize] is 32 bits wide. *)
Definition read_fips_test_slice (manifest fmc runtime : list Z) (offset len : Z) : res (list Z) :=
  let err := IMAGE_VERIFIER_ERR_DIGEST_OUT_OF_BOUNDS in
  let manifest_len := Z.of_nat (length manifest) in
  let fmc_len := Z.of_nat (length fmc) in
  let total_len := u32w (u32w (manifest_len + fmc_len) + Z.of_nat (length runtime)) in
  let fin := u32w (offset + len) in
  let range (l : list Z) (a b : Z) : res (list Z) := ok_or (get_range l a b) err in
  if (offset >=? total_len) || (fin >? total_len) then Err err
  else if fin <=? manifest_len then range manifest offset fin
  else if (offset >=? manifest_len) && (fin <=? u32w (manifest_len + fmc_len)) then
    let o := u32w (offset - manifest_len) in range fmc o (u32w (o + len))
  else if offset >=? u32w (manifest_len + fmc_len) then
    let o := u32w (u32w (offset - manifest_len) - fmc_len) in range runtime o (u32w (o + len))
  else Err err.

(** [AxiAddr::checked_offset]. *)
Definition checked_offset (start offset len : Z) : res Z :=
  let err := DRIVER_DMA_AXI_ADDRESS_OVERFLOW in
  err_if (start + offset >=? 2 ^ 64) err;;
  err_if (start + offset + Z.max 0 (len - 1) >=? 2 ^ 64) err;;
  Ok (start + offset).

Section Env.
Context {Sh Op X HOp Acc Mu : Type} `{Hcomp : Sha2Compress, Halg : !Sha256Alg Sh Op, Heng : Engines X HOp Acc Mu}.
Abbreviation Env := (FirmwareImageVerificationEnv Sh X).

Definition on_hw {A} (m : M X A) : M Env A :=
  λ s, let '(r, x) := m (env_hw s) in (r, env_with (env_sha256 s) x (env_soc_ifc s) s).
Definition on_sha256 {A} (m : M Sh A) : M Env A :=
  λ s, let '(r, sh) := m (env_sha256 s) in (r, env_with sh (env_hw s) (env_soc_ifc s) s).

Definition fw_sha384_acc_digest_slice (data : list Z) (digest_failure : CaliptraError) : M Env (list Z) :=
  on_hw (o ← hw_acc_try_start_operation;
         match o with
         | Some op => to_err (hw_acc_digest_384_slice op data) digest_failure
         | None => fail DRIVER_SHA2_512_384_ACC_DIGEST_START_OP_FAILURE
         end).

Definition fw_sha384_acc_digest (offset len : Z) (digest_failure : CaliptraError) : M Env (list Z) :=
  src ← get env_image_source;
  match src with
  | Axi axi_start =>
      on_hw (to_err (source ← lift (checked_offset axi_start offset len); hw_dma_sha384_image source len) digest_failure)
  | MboxMemory =>
      on_hw (o ← hw_acc_try_start_operation;
             match o with
             | Some op => to_err (hw_acc_digest_384 op len offset) digest_failure
             | None => fail DRIVER_SHA2_512_384_ACC_DIGEST_START_OP_FAILURE
             end)
  | FipsTest manifest fmc runtime =>
      match read_fips_test_slice manifest fmc runtime offset len with
      | Ok data => fw_sha384_acc_digest_slice data digest_failure
      | Err _ => fail digest_failure
      | Abort w => stop w
      end
  end.

(** The digest goes to the ECC engine as it is, and to LMS as 48 bytes. *)
Definition fw_lms_verify (digest : list Z) (pub_key : LmsPublicKey) (sig : LmsSignature) : M Env (list Z) :=
  on_sha256 (Lms.verify_lms_signature_cfi (bytes_be digest) pub_key sig).

#[export] Instance FirmwareVerificationEnv : ImageVerificationEnv Env := {
  sha384_acc_digest_slice := fw_sha384_acc_digest_slice;
  sha384_acc_digest := fw_sha384_acc_digest;
  ecc384_verify digest pub_key sig := on_hw (hw_ecc384_verify_r pub_key digest sig);
  lms_verify := fw_lms_verify;
  mldsa87_verify msg pub_key sig := on_hw (hw_mldsa87_verify_var pub_key msg sig);
  vendor_pub_key_info_digest_fuses s := vendor_pub_key_info_hash (fuse_regs (env_soc_ifc s));
  vendor_ecc_pub_key_revocation s := fuse_vendor_ecc_pub_key_revocation (fuse_regs (env_soc_ifc s));
  vendor_lms_pub_key_revocation s := fuse_vendor_lms_pub_key_revocation (fuse_regs (env_soc_ifc s));
  vendor_mldsa_pub_key_revocation s := fuse_vendor_mldsa_pub_key_revocation (fuse_regs (env_soc_ifc s));
  owner_pub_key_digest_fuses s := owner_pub_key_hash (fuse_regs (env_soc_ifc s));
  anti_rollback_disable s := fuse_bank_anti_rollback_disable (fuse_regs (env_soc_ifc s));
  dev_lifecycle s := lifecycle (env_soc_ifc s);
  vendor_ecc_pub_key_idx_dv s := vendor_ecc_pk_index (env_data_vault s);
  vendor_pqc_pub_key_idx_dv s := vendor_pqc_pk_index (env_data_vault s);
  owner_pub_key_digest_dv s := dv_owner_pk_hash (env_data_vault s);
  get_fmc_digest_dv s := fmc_tci (env_data_vault s);
  get_cold_reset_fmc_load_addr s := load_addr (fmc (env_manifest1 s));
  get_cold_reset_fmc_size s := toc_size (fmc (env_manifest1 s));
  fw_fuse_svn s := fuse_bank_fw_fuse_svn (fuse_regs (env_soc_ifc s));
  iccm_range _ := ICCM_RANGE;
  set_fw_extended_error err s :=
    env_with (env_sha256 s) (env_hw s) (soc_set_fw_extended_error (env_soc_ifc s) err) s;
  pqc_key_type_fuse s :=
    ok_or (from_u8 (u8w (pqc_key_type (fuse_regs (env_soc_ifc s)))))
      IMAGE_VERIFIER_ERR_INVALID_PQC_KEY_TYPE_IN_FUSE;
  dot_owner_pk_hash s := if fst (env_dot_owner_pk_hash s) then Some (snd (env_dot_owner_pk_hash s)) else None;
  debug_image_allowed s := vendor_debug_image_allowed (env_soc_ifc s);
}.
End Env.
