(* ===== verification/FirmwareTheorems.v ===== *)
(** Image verification on the device: the drivers' environment meets the contract
    of the image verifier, so that what the verifier decides, with the LMS
    verifier over the emulated SHA-256 engine, is decided by the registers, the
    memory and the signature schemes themselves. *)

From S2P Require Import Prelude Errors Sha256 Sha256Proofs Sha256Alg Lms LmsGen LmsSpec LmsProofs Sha256Fips.
From S2P Require Import Cfi ImageTypes ImageLayout LmsImage ImageVerify Decides ImageVerifySpec.
From S2P Require Import ImageVerifyProofs ImageVerifyExample ImageVerifyTheorems SocIfc Engines.
From S2P Require Import FirmwareEnv.

Ltac udlia := unfold in_u, wrap in *; change (2 ^ 32) with 4294967296 in *; dlia.

Lemma read_fips_test_slice_no_abort manifest fmc runtime offset len w :
  read_fips_test_slice manifest fmc runtime offset len ≠ Abort w.
Proof. unfold read_fips_test_slice, ok_or. cbv zeta. repeat case_match; done. Qed.

(** A slice that lies within one component is that part of the composite
    image; nothing else is ever returned. *)
Lemma read_fips_test_slice_ok manifest fmc runtime offset len data :
  Z.of_nat (length manifest + length fmc + length runtime) < 2 ^ 32 → is_u32 offset → is_u32 len →
  read_fips_test_slice manifest fmc runtime offset len = Ok data →
  offset + len ≤ Z.of_nat (length manifest + length fmc + length runtime) ∧
  data = slice (manifest ++ fmc ++ runtime) (Z.to_nat offset) (Z.to_nat (offset + len)).
Proof.
  intros Ht Ho Hl. unfold read_fips_test_slice. cbv zeta.
  rewrite (wrap_small 32 (Z.of_nat (length manifest) + Z.of_nat (length fmc))) by ulia.
  rewrite (wrap_small 32 (_ + Z.of_nat (length runtime))) by ulia.
  destruct (Z.geb_spec offset (Z.of_nat (length manifest) + Z.of_nat (length fmc) + Z.of_nat (length runtime)));
    [done|].
  destruct (Z.gtb_spec (u32w (offset + len)) (Z.of_nat (length manifest) + Z.of_nat (length fmc) + Z.of_nat (length runtime)));
    [done|]. cbn [orb].
  case_match eqn:E1; [|case_match eqn:E2; [|case_match eqn:E3; [|done]]];
    intros Hd%ok_or_ok_inv; apply get_range_Some in Hd as [Hr ->].
  - apply Z.leb_le in E1. assert (Hw : u32w (offset + len) = offset + len) by udlia. rewrite Hw in *.
    split; [lia|]. rewrite slice_app_l by lia. done.
  - apply andb_true_iff in E2 as [E2%Z.geb_le E3%Z.leb_le].
    rewrite (wrap_small 32 (offset - _)) in * by ulia.
    assert (Hw : u32w (offset - Z.of_nat (length manifest) + len) = offset - Z.of_nat (length manifest) + len) by udlia.
    rewrite Hw in *. split; [lia|]. rewrite slice_app_r, slice_app_l by lia. f_equal; lia.
  - apply Z.geb_le in E3. rewrite (wrap_small 32 (offset - _)) in * by ulia.
    rewrite (wrap_small 32 (_ - Z.of_nat (length fmc))) in * by ulia.
    set (o := offset - Z.of_nat (length manifest) - Z.of_nat (length fmc)) in *.
    assert (Hw : u32w (o + len) = o + len) by udlia. rewrite Hw in *. subst o.
    split; [lia|]. rewrite !slice_app_r by lia. f_equal; lia.
Qed.

(** * The contract *)

Section Contract.
Context {Sh Op X HOp Acc Mu : Type}.
Context `{Hcomp : Sha2Compress, Hcok : !Sha2CompressOk, Halg : !Sha256Alg Sh Op, Haok : !Sha256AlgOk Sh Op}.
Context `{Heng : Engines X HOp Acc Mu, Heok : !EnginesOk X HOp Acc Mu}.
Abbreviation Env := (FirmwareImageVerificationEnv Sh X).

(** The bytes of the image at an offset. *)
Definition source_bytes (W : EngineView) (src : ImageSource) (offset len : Z) : option (list Z) :=
  match src with
  | MboxMemory => ev_mailbox W offset len
  | Axi axi_start => match checked_offset axi_start offset len with Ok a => ev_axi W a len | _ => None end
  | FipsTest manifest fmc runtime =>
      match read_fips_test_slice manifest fmc runtime offset len with Ok d => Some d | _ => None end
  end.

(** What a device with these registers and this memory shows the verifier. *)
Definition firmware_view (s : Env) (W : EngineView) : View :=
  let fuses := fuse_regs (env_soc_ifc s) in
  mkView (ev_reliable W) (ev_sha384 W)
    (λ off len, ev_sha384 W <$> source_bytes W (env_image_source s) off len)
    (λ d k g, ev_ecc384 W k d g) (λ d k g, lms_candidate (bytes_be d) k g) (λ m k g, ev_mldsa87 W k m g)
    (vendor_pub_key_info_hash fuses) (fuse_vendor_ecc_pub_key_revocation fuses)
    (fuse_vendor_lms_pub_key_revocation fuses) (fuse_vendor_mldsa_pub_key_revocation fuses)
    (owner_pub_key_hash fuses) (fuse_bank_anti_rollback_disable fuses) (lifecycle (env_soc_ifc s))
    (vendor_ecc_pk_index (env_data_vault s)) (vendor_pqc_pk_index (env_data_vault s))
    (dv_owner_pk_hash (env_data_vault s)) (fmc_tci (env_data_vault s))
    (load_addr (fmc (env_manifest1 s))) (toc_size (fmc (env_manifest1 s)))
    (fuse_bank_fw_fuse_svn fuses) ICCM_RANGE
    (ok_or (from_u8 (u8w (pqc_key_type fuses))) IMAGE_VERIFIER_ERR_INVALID_PQC_KEY_TYPE_IN_FUSE)
    (if fst (env_dot_owner_pk_hash s) then Some (snd (env_dot_owner_pk_hash s)) else None)
    (vendor_debug_image_allowed (env_soc_ifc s)).

Definition firmware_sees (s : Env) (V : View) : Prop :=
  ∃ W, hw_sees (env_hw s) W ∧ alg_ready (env_sha256 s) ∧ V = firmware_view s W.

(** An operation of an engine as an operation of the environment. *)
Lemma on_hw_at {A} (V : View) (o : EngineView → option A) (m : M X A) (f : option A) s :
  (∀ W, op_returns hw_sees W (o W) m) → (∀ W, V = firmware_view s W → f = o W) → firmware_sees s V →
  ∃ r s', on_hw m s = (r, s') ∧ firmware_sees s' V ∧
    match r with Ok x => f = Some x | Err _ => reliable V → f = None | Abort _ => False end.
Proof.
  intros Hm Hf (W & Hw & Hr & HV). unfold on_hw.
  destruct (Hm W (env_hw s) Hw) as (r & x & Em & Hw' & Hres). rewrite Em.
  exists r, (env_with (env_sha256 s) x (env_soc_ifc s) s). split; [done|]. split; [by exists W|].
  rewrite (Hf W HV). destruct r; [done| |done]. intros Hrel. apply Hres. subst V. exact Hrel.
Qed.

Lemma on_hw_returns {A} (V : View) (o : EngineView → option A) (m : M X A) (f : option A) :
  (∀ W, op_returns hw_sees W (o W) m) → (∀ s W, V = firmware_view s W → f = o W) →
  op_returns firmware_sees V f (on_hw m).
Proof. intros Hm Hf s Hs. eapply (on_hw_at V o); eauto. Qed.

Lemma acc_to_err {A} W (o : option A) (k : Acc → M X A) e e' :
  op_returns hw_sees W o (c ← hw_acc_try_start_operation; match c with Some a => k a | None => fail e end) →
  op_returns hw_sees W o
    (c ← hw_acc_try_start_operation; match c with Some a => to_err (k a) e' | None => fail e end).
Proof.
  intros Hm s Hs. destruct (Hm s Hs) as (r & x & Em & Hw & Hres). clear Hm.
  unfold mbind, M_bind in *. destruct (hw_acc_try_start_operation s) as [[[a|]|err|w] s1]; [|eauto..].
  unfold to_err, map_err. rewrite Em. destruct r as [v|err|w]; eauto 10.
Qed.

Lemma fw_slice_returns V data e :
  op_returns firmware_sees V (Some (v_sha384 V data)) (fw_sha384_acc_digest_slice data e).
Proof.
  apply (on_hw_returns V (λ W, Some (ev_sha384 W data))).
  - intros W. apply acc_to_err, hw_acc_slice_ok.
  - by intros s W ->.
Qed.

Lemma checked_offset_no_abort a off len w : checked_offset a off len ≠ Abort w.
Proof. unfold checked_offset, err_if. repeat case_match; done. Qed.

Lemma axi_returns W a off len :
  op_returns hw_sees W (ev_sha384 W <$> source_bytes W (Axi a) off len)
    (source ← lift (checked_offset a off len); hw_dma_sha384_image source len).
Proof.
  simpl. destruct (checked_offset a off len) as [src|e|w] eqn:E.
  - apply (hw_dma_ok W src len).
  - intros s Hs. by exists (Err e), s.
  - by destruct (checked_offset_no_abort _ _ _ _ E).
Qed.

Lemma fw_digest_returns V off len e :
  op_returns firmware_sees V (v_image_digest V off len) (fw_sha384_acc_digest off len e).
Proof.
  intros s Hs. assert (Hs' := Hs). destruct Hs' as (W & _ & _ & HV).
  unfold fw_sha384_acc_digest. rewrite bind_get. destruct (env_image_source s) as [|a|ma fm rt] eqn:Esrc.
  - apply (on_hw_at V (λ W, ev_sha384 W <$> ev_mailbox W off len)); [| |done].
    + intros W'. apply acc_to_err, hw_acc_mbox_ok.
    + intros W' ->. simpl. by rewrite Esrc.
  - apply (on_hw_at V (λ W, ev_sha384 W <$> source_bytes W (Axi a) off len)); [| |done].
    + intros W'. apply op_to_err, axi_returns.
    + intros W' ->. simpl. by rewrite Esrc.
  - destruct (read_fips_test_slice ma fm rt off len) as [d|err|w] eqn:Ed.
    + assert (v_image_digest V off len = Some (v_sha384 V d)) as -> by (subst V; simpl; by rewrite Esrc; simpl; rewrite Ed).
      by apply fw_slice_returns.
    + exists (Err e), s. split; [done|]. split; [done|]. intros _. subst V. simpl. by rewrite Esrc; simpl; rewrite Ed.
    + by destruct (read_fips_test_slice_no_abort _ _ _ _ _ _ Ed).
Qed.

Lemma fw_lms_returns V d k g : length d = 12%nat → wf_lms_key k → wf_lms_sig g →
  op_returns firmware_sees V (v_lms V d k g) (fw_lms_verify d k g).
Proof.
  intros Hd Hk Hg s (W & Hw & Hr & ->). unfold fw_lms_verify, on_sha256.
  destruct (lms_cfi_total (bytes_be d) k g (env_sha256 s)) as (r & sh & E & Hr' & Hres);
    [done..|apply bytes_be_bytes|rewrite length_bytes_be; lia|].
  rewrite E. eexists r, _. split; [done|]. split; [by exists W|]. by destruct r.
Qed.

#[export] Instance FirmwareVerificationEnvOk : ImageVerificationEnvOk Env.
Proof.
  apply (Build_ImageVerificationEnvOk _ _ firmware_sees);
    try (by intros V s (W & ? & ? & ->)).
  - apply fw_slice_returns.
  - intros V s d (W & Hw & _ & ->). by apply (hw_digest_length W (env_hw s)).
  - apply fw_digest_returns.
  - intros V d k g. apply (on_hw_returns V (λ W, ev_ecc384 W k d g)); [intros W; apply hw_ecc384_ok|by intros s W ->].
  - apply fw_lms_returns.
  - intros V m k g. apply (on_hw_returns V (λ W, ev_mldsa87 W k m g)); [intros W; apply hw_mldsa87_ok|by intros s W ->].
  - intros V err s (W & ? & ? & ->). by exists W.
  - intros V s w (W & ? & ? & ->). simpl. by destruct (from_u8 _).
Defined.
End Contract.

Section Firmware.
Context {Sh Op X HOp Acc Mu : Type}.
Context `{Hcomp : Sha2Compress, Hcok : !Sha2CompressOk, Halg : !Sha256Alg Sh Op, Haok : !Sha256AlgOk Sh Op}.
Context `{Heng : Engines X HOp Acc Mu, Heok : !EnginesOk X HOp Acc Mu}.

Lemma firmware_lms_ok (s : FirmwareImageVerificationEnv Sh X) W msg key sig :
  lms_sig_ok (firmware_view s W) msg key sig ↔ lms_signed (ev_sha384 W msg) key sig.
Proof.
  unfold lms_sig_ok, lms_signed. simpl. setoid_rewrite lms_candidate_ok.
  split; intros (k & g & Hk & Hg & H); by exists k, g.
Qed.
End Firmware.

(** C2. Image verification on the device. Over any engines that meet their
    contract, the verifier with the drivers' environment terminates without a
    panic, and accepts exactly the images that satisfy [accepts] for the
    device's own registers and memory. In particular the runtime's version is
    not below the number the fuses encode, the vendor's key hashes are the
    ones in the fuses, the two images are the bytes found at their offsets of
    the image source, and an LMS image carries signatures of the vendor and of
    the owner that are valid by RFC 8554. *)
Theorem firmware_verify_decides {Sh Op X HOp Acc Mu : Type}
    `{Hcomp : Sha2Compress, Hcok : !Sha2CompressOk, Halg : !Sha256Alg Sh Op, Haok : !Sha256AlgOk Sh Op,
      Heng : Engines X HOp Acc Mu, Heok : !EnginesOk X HOp Acc Mu}
    m sz reason (s : FirmwareImageVerificationEnv Sh X) W :
  hw_sees (env_hw s) W → alg_ready (env_sha256 s) → wf_manifest m → is_u32 sz →
  let V := firmware_view s W in
  let fuses := fuse_regs (env_soc_ifc s) in
  ∃ r s', verify m sz reason s = (r, s') ∧ firmware_sees s' V ∧ outcome_ok V m sz reason r ∧
    ∀ info, r = Ok info →
      (lifecycle (env_soc_ifc s) ≠ Unprovisioned →
        fuse_vendor_pk_hash fuses = ev_sha384 W (vendor_pub_key_info_bytes (vendor_pub_key_info (preamble m))) ∧
        (fuse_bank_anti_rollback_disable fuses = false →
         first_set_msbit (fuse_runtime_svn fuses) ≤ hdr_svn (header m))) ∧
      (∀ e, e = fmc m ∨ e = runtime m → ∃ data,
        source_bytes W (env_image_source s) (toc_offset e) (toc_size e) = Some data ∧
        ev_sha384 W data = toc_entry_digest e) ∧
      (from_u8 (manifest_pqc_key_type m) = Some LMS →
        lms_signed (ev_sha384 W (vendor_header_bytes (header m)))
          (vendor_pqc_active_pub_key (preamble m)) (pqc_sig (vendor_sigs (preamble m))) ∧
        lms_signed (ev_sha384 W (header_bytes (header m)))
          (opk_pqc_pub_key (owner_pub_keys (preamble m))) (pqc_sig (owner_sigs (preamble m)))).
Proof.
  intros Hw Hr Hm Hsz V fuses.
  destruct (verify_outcome m sz reason s V) as [Ho Hs']; [by exists W|done..|].
  exists (fst (verify m sz reason s)), (snd (verify m sz reason s)).
  split; [by destruct (verify m sz reason s)|]. split; [done|]. split; [done|].
  intros info Hi. rewrite Hi in Ho. destruct Ho as (t & Ha & _). split_and!.
  - intros Hp. split; [apply (vk_fuse V _ t), (ac_vendor_keys V m sz reason t Ha Hp)|].
    intros Har. apply (sv_fuse V _ (ac_svn V m sz reason t Ha) Hp Har).
  - assert (He : ∀ e, exe_ok V e → ∃ data,
        source_bytes W (env_image_source s) (toc_offset e) (toc_size e) = Some data ∧
        ev_sha384 W data = toc_entry_digest e) by (intros e [Hd _ _ _]; by apply fmap_Some in Hd as (data & ? & ->); eauto).
    intros e [-> | ->]; apply He; [apply (ac_fmc V m sz reason t Ha)|apply (ac_runtime V m sz reason t Ha)].
  - intros Ht. pose proof (ac_type V m sz reason t Ha) as Ht'. rewrite Ht in Ht'. simplify_eq.
    destruct (ac_header V m sz reason _ Ha) as [_ Hv _ Ho _ _ _]. by split; apply (firmware_lms_ok s W).
Qed.

(** A device like the one of the example, behind its registers. *)
Definition fw_ex_engines : EngineView :=
  mkEngineView True sum_digest
    (λ off len, if (IMAGE_MANIFEST_BYTE_SIZE <=? off) && (off + len <=? ex_bundle_size)
       then Some (take (Z.to_nat len) (drop (Z.to_nat (off - IMAGE_MANIFEST_BYTE_SIZE)) ex_payload)) else None)
    (λ _ _, None)
    (λ k d g, Some (if bool_decide (ecc_s g = d) then ecc_r g else replicate 12 0))
    (λ k m g, Some (if bool_decide (take 12 g = sum_digest m) then MldsaSuccess else ImageVerify.SigVerifyFailed))
    (λ _ m, m).
Definition fw_ex_soc : SocIfcRegs :=
  mkSocIfcRegs 3 0 0 0
    (mkFuseRegs (replicate 24 0) (sum_digest (vendor_pub_key_info_bytes ex_info)) 1 1 1
       (sum_digest (owner_pub_keys_bytes ex_owner_keys)) 0 [7; 0; 0; 0] (replicate 4 0) 0 1 [] []) 0.
Definition fw_ex_env : FirmwareImageVerificationEnv Emu.HashSha256 EngineView :=
  mkFirmwareEnv Emu.new fw_ex_engines fw_ex_soc
    (mkColdResetEntries (sum_digest (take 16 ex_payload)) (sum_digest (owner_pub_keys_bytes ex_owner_keys)) 2 2)
    MboxMemory (ex_manifest 7 0) (false, []).

Lemma firmware_verify_decides_witness :
  ∃ t, accepts (firmware_view fw_ex_env fw_ex_engines) (ex_manifest 7 0) ex_bundle_size ColdReset t.
Proof.
  destruct (firmware_verify_decides (Haok := Sha256HwOk) (Heok := SimEnginesOk) (ex_manifest 7 0) ex_bundle_size
    ColdReset fw_ex_env fw_ex_engines) as (r & s' & E & _ & Ho & _).
  - split; [done|]. split; [intros d; apply length_replicate|done].
  - done.
  - by apply ex_wf.
  - apply ex_bundle_u32.
  - assert (Hr : fst (verify (ex_manifest 7 0) ex_bundle_size ColdReset fw_ex_env) =
      Ok (accepted_info ex_view (ex_manifest 7 0) MLDSA)) by (vm_compute; reflexivity).
    rewrite E in Hr. simpl in Hr. subst r. destruct Ho as (t & Ht & _). by exists t.
Defined.
