(* ===== verification/AuthTypes.v ===== *)
(** The authorization manifests (auth-manifest/types/src/lib.rs): their
    structures, the byte ranges that are signed, and the lists of image
    metadata with the operations on them (runtime/src/manifest.rs, and the
    sort of runtime/src/set_auth_manifest.rs). *)

From S2P Require Import Prelude Errors Sha256 Lms LmsGen ImageTypes.

Definition AUTH_MANIFEST_MARKER : Z := 0x324D5441.
Definition AUTH_MANIFEST_IMAGE_METADATA_MAX_COUNT : nat := 80.
Definition AUTH_MANIFEST_UEID_FW_ID : Z := 0xFFF.
Definition AUTH_MANIFEST_UEID_LEN : nat := 17.
Definition VENDOR_SIGNATURE_REQUIRED : Z := 1.
Definition DEBUG_IMAGE : Z := 2.
Definition OWNER_AUTH_MANIFEST_MARKER : Z := 0x4D4F574F.
Definition OWNER_AUTH_MANIFEST_IMAGE_METADATA_MAX_COUNT : nat := 32.

(** [AuthManifestFlags::from(bits).contains(flag)]: unknown bits are dropped. *)
Definition auth_flags_contain (bits flag : Z) : bool := Z.land (Z.land bits 3) flag =? flag.

(** ** Preambles *)

Record AuthManifestPubKeys := mkAuthManifestPubKeys { am_ecc_pub_key : ImageEccPubKey; am_pqc_pub_key : list Z }.
Record AuthManifestSignatures := mkAuthManifestSignatures { am_ecc_sig : ImageEccSignature; am_pqc_sig : list Z }.

Record AuthManifestPreamble := mkAuthManifestPreamble {
  am_marker : Z;
  am_size : Z;
  am_version : Z;
  am_svn : Z;
  am_flags : Z;
  am_vendor_pub_keys : AuthManifestPubKeys;
  am_vendor_pub_keys_signatures : AuthManifestSignatures;
  am_owner_pub_keys : AuthManifestPubKeys;
  am_owner_pub_keys_signatures : AuthManifestSignatures;
  am_vendor_image_metdata_signatures : AuthManifestSignatures;
  am_owner_image_metdata_signatures : AuthManifestSignatures;
}.

Record OwnerAuthManifestPreamble := mkOwnerAuthManifestPreamble {
  om_marker : Z;
  om_size : Z;
  om_version : Z;
  om_svn : Z;
  om_flags : Z;
  om_owner_pub_keys : AuthManifestPubKeys;
  om_owner_pub_keys_signatures : AuthManifestSignatures;
  om_owner_image_metdata_signatures : AuthManifestSignatures;
}.

Definition size_AuthManifestPubKeys : nat := 96 + PQC_PUB_KEY_BYTE_SIZE.
Definition size_AuthManifestSignatures : nat := 96 + PQC_SIGNATURE_BYTE_SIZE.

(** [offset_of!] and [size_of]: five words, then keys and signatures. *)
Definition off_keys : nat := 20.
Definition off_vendor_sigs : nat := off_keys + size_AuthManifestPubKeys.
Definition off_owner_keys : nat := off_vendor_sigs + size_AuthManifestSignatures.
Definition off_owner_sigs : nat := off_owner_keys + size_AuthManifestPubKeys.
Definition off_vendor_md_sigs : nat := off_owner_sigs + size_AuthManifestSignatures.
Definition off_owner_md_sigs : nat := off_vendor_md_sigs + size_AuthManifestSignatures.
Definition AUTH_MANIFEST_PREAMBLE_SIZE : nat := off_owner_md_sigs + size_AuthManifestSignatures.
Definition om_off_owner_sigs : nat := off_keys + size_AuthManifestPubKeys.
Definition om_off_owner_md_sigs : nat := om_off_owner_sigs + size_AuthManifestSignatures.
Definition OWNER_AUTH_MANIFEST_PREAMBLE_SIZE : nat := om_off_owner_md_sigs + size_AuthManifestSignatures.

(** [as_bytes]. *)
Definition am_pub_keys_bytes (k : AuthManifestPubKeys) : list Z :=
  ecc_pub_key_bytes (am_ecc_pub_key k) ++ am_pqc_pub_key k.
Definition am_signatures_bytes (g : AuthManifestSignatures) : list Z :=
  ecc_signature_bytes (am_ecc_sig g) ++ am_pqc_sig g.

Definition am_policy_bytes (p : AuthManifestPreamble) : list Z :=
  to_le 4 (am_version p) ++ to_le 4 (am_svn p) ++ to_le 4 (am_flags p).
Definition auth_preamble_bytes (p : AuthManifestPreamble) : list Z :=
  (to_le 4 (am_marker p) ++ to_le 4 (am_size p)) ++ am_policy_bytes p
  ++ am_pub_keys_bytes (am_vendor_pub_keys p) ++ am_signatures_bytes (am_vendor_pub_keys_signatures p)
  ++ am_pub_keys_bytes (am_owner_pub_keys p) ++ am_signatures_bytes (am_owner_pub_keys_signatures p)
  ++ am_signatures_bytes (am_vendor_image_metdata_signatures p)
  ++ am_signatures_bytes (am_owner_image_metdata_signatures p).

Definition om_policy_bytes (p : OwnerAuthManifestPreamble) : list Z :=
  to_le 4 (om_version p) ++ to_le 4 (om_svn p) ++ to_le 4 (om_flags p).
Definition owner_preamble_bytes (p : OwnerAuthManifestPreamble) : list Z :=
  (to_le 4 (om_marker p) ++ to_le 4 (om_size p)) ++ om_policy_bytes p
  ++ am_pub_keys_bytes (om_owner_pub_keys p) ++ am_signatures_bytes (om_owner_pub_keys_signatures p)
  ++ am_signatures_bytes (om_owner_image_metdata_signatures p).

(** [ref_from_bytes] on a buffer of the exact size; the buffers are aligned to
    four bytes. *)
Definition u32_at (b : list Z) (i : nat) : Z := from_le (slice b i (i + 4)).
Definition ecc_key_at (b : list Z) (i : nat) : ImageEccPubKey :=
  mkImageEccPubKey (words_le (slice b i (i + 48))) (words_le (slice b (i + 48) (i + 96))).
Definition ecc_sig_at (b : list Z) (i : nat) : ImageEccSignature :=
  mkImageEccSignature (words_le (slice b i (i + 48))) (words_le (slice b (i + 48) (i + 96))).
Definition pub_keys_at (b : list Z) (i : nat) : AuthManifestPubKeys :=
  mkAuthManifestPubKeys (ecc_key_at b i) (slice b (i + 96) (i + size_AuthManifestPubKeys)).
Definition signatures_at (b : list Z) (i : nat) : AuthManifestSignatures :=
  mkAuthManifestSignatures (ecc_sig_at b i) (slice b (i + 96) (i + size_AuthManifestSignatures)).

Definition auth_preamble_from_bytes (b : list Z) : option AuthManifestPreamble :=
  if (length b =? AUTH_MANIFEST_PREAMBLE_SIZE)%nat then
    Some (mkAuthManifestPreamble (u32_at b 0) (u32_at b 4) (u32_at b 8) (u32_at b 12) (u32_at b 16)
            (pub_keys_at b off_keys) (signatures_at b off_vendor_sigs) (pub_keys_at b off_owner_keys)
            (signatures_at b off_owner_sigs) (signatures_at b off_vendor_md_sigs) (signatures_at b off_owner_md_sigs))
  else None.

Definition owner_preamble_from_bytes (b : list Z) : option OwnerAuthManifestPreamble :=
  if (length b =? OWNER_AUTH_MANIFEST_PREAMBLE_SIZE)%nat then
    Some (mkOwnerAuthManifestPreamble (u32_at b 0) (u32_at b 4) (u32_at b 8) (u32_at b 12) (u32_at b 16)
            (pub_keys_at b off_keys) (signatures_at b om_off_owner_sigs) (signatures_at b om_off_owner_md_sigs))
  else None.

(** The signed ranges, as offsets of the preamble. *)
Definition policy_fields_range : nat * nat := (8%nat, off_keys).
Definition vendor_pub_keys_range : nat * nat := (off_keys, off_keys + size_AuthManifestPubKeys)%nat.
Definition vendor_signed_data_range : nat * nat := (fst policy_fields_range, snd vendor_pub_keys_range).
Definition owner_pub_keys_range : nat * nat := (off_owner_keys, off_owner_keys + size_AuthManifestPubKeys)%nat.
Definition owner_signed_data_ranges : list (nat * nat) := [policy_fields_range; owner_pub_keys_range].
(** [OwnerAuthManifestPreamble::owner_signed_data_range]. *)
Definition om_owner_signed_data_range : nat * nat := (8%nat, off_keys + size_AuthManifestPubKeys)%nat.

(** ** Image metadata *)

Record Addr64 := mkAddr64 { addr_lo : Z; addr_hi : Z }.

Record AuthManifestImageMetadata := mkMetadata {
  fw_id : Z;
  component_id : Z;
  classification : Z;
  md_flags : Z;
  image_load_address : Addr64;
  image_staging_address : Addr64;
  md_digest : list Z;
}.

#[export] Instance Addr64_eq_dec : EqDecision Addr64.
Proof. solve_decision. Defined.
#[export] Instance metadata_eq_dec : EqDecision AuthManifestImageMetadata.
Proof. solve_decision. Defined.

Definition size_metadata : nat := 80.

Definition metadata_bytes (e : AuthManifestImageMetadata) : list Z :=
  to_le 4 (fw_id e) ++ to_le 4 (component_id e) ++ to_le 4 (classification e) ++ to_le 4 (md_flags e)
  ++ to_le 4 (addr_lo (image_load_address e)) ++ to_le 4 (addr_hi (image_load_address e))
  ++ to_le 4 (addr_lo (image_staging_address e)) ++ to_le 4 (addr_hi (image_staging_address e)) ++ md_digest e.
Definition metadata_at (b : list Z) (i : nat) : AuthManifestImageMetadata :=
  mkMetadata (u32_at b i) (u32_at b (i + 4)) (u32_at b (i + 8)) (u32_at b (i + 12))
    (mkAddr64 (u32_at b (i + 16)) (u32_at b (i + 20))) (mkAddr64 (u32_at b (i + 24)) (u32_at b (i + 28)))
    (slice b (i + 32) (i + 80)).

(** [ImageMetadataFlags]. *)
Definition ignore_auth_check (flags : Z) : bool := Z.testbit flags 2.
Definition dma_single_dword_read (flags : Z) : bool := Z.testbit flags 3.

Definition metadata_default : AuthManifestImageMetadata :=
  mkMetadata 0xFFFFFFFF 0xFFFFFFFF 0 0 (mkAddr64 0 0) (mkAddr64 0 0) (replicate 48 0).
Definition new_ueid (ueid : list Z) : AuthManifestImageMetadata :=
  mkMetadata AUTH_MANIFEST_UEID_FW_ID 0xFFFFFFFF 0 0 (mkAddr64 0 0) (mkAddr64 0 0)
    (splice (replicate 48 0) 0 ueid).

(** Both collections: a count and an array of [n] entries. *)
Record Collection := mkCollection { entry_count : Z; image_metadata_list : list AuthManifestImageMetadata }.

Definition size_collection (n : nat) : nat := 4 + n * size_metadata.
(** The owner manifest has a fixed size. *)
Definition OWNER_AUTH_MANIFEST_SIZE : nat :=
  OWNER_AUTH_MANIFEST_PREAMBLE_SIZE + size_collection OWNER_AUTH_MANIFEST_IMAGE_METADATA_MAX_COUNT.
Definition collection_default (n : nat) : Collection := mkCollection 0 (replicate n metadata_default).

(** The [k] entries that follow the count in a buffer. *)
Definition entries_of_bytes (k : nat) (b : list Z) : list AuthManifestImageMetadata :=
  map (λ i, metadata_at b (4 + size_metadata * i)) (seq 0 k).
Definition collection_of_bytes (n : nat) (b : list Z) : Collection :=
  mkCollection (u32_at b 0) (entries_of_bytes n b).

(** [col.image_metadata_list.get(..col.entry_count as usize)]. *)
Definition active_entries (c : Collection) : option (list AuthManifestImageMetadata) :=
  get_range (image_metadata_list c) 0 (entry_count c).

(** ** Lookup *)

(** [slice::binary_search_by] of the standard library: halve the size, keeping
    the upper half unless its first element is greater. *)
Fixpoint binary_search_loop (fuel : nat) (l : list AuthManifestImageMetadata) (key : Z) (base size : nat) : nat :=
  match fuel with
  | O => base
  | S fuel' =>
      if (1 <? size)%nat then
        let half := Nat.div2 size in
        let mid := (base + half)%nat in
        let base := match l !! mid with
                    | Some m => match Z.compare (fw_id m) key with Gt => base | _ => mid end
                    | None => base
                    end in
        binary_search_loop fuel' l key base (size - half)
      else base
  end.

Definition binary_search (l : list AuthManifestImageMetadata) (key : Z) : option nat :=
  match length l with
  | O => None
  | size =>
      let base := binary_search_loop size l key 0 size in
      match l !! base with
      | Some m => if fw_id m =? key then Some base else None
      | None => None
      end
  end.

Definition find_in (l : list AuthManifestImageMetadata) (key : Z) : option AuthManifestImageMetadata :=
  index ← binary_search l key; l !! index.

Definition find_metadata_entry (col : Collection) (cmd_fw_id : Z) : option AuthManifestImageMetadata :=
  if cmd_fw_id =? AUTH_MANIFEST_UEID_FW_ID then None
  else l ← active_entries col; find_in l cmd_fw_id.

Definition find_owner_metadata_entry (col : Collection) (cmd_fw_id : Z) : option AuthManifestImageMetadata :=
  l ← active_entries col; find_in l cmd_fw_id.

Inductive AuthManifestSource := VendorOwner | Owner.
#[export] Instance AuthManifestSource_eq_dec : EqDecision AuthManifestSource.
Proof. solve_decision. Defined.

(** [AuthManifestSource::from_flags]. *)
Definition source_from_flags (flags : Z) : option AuthManifestSource :=
  let v := Z.shiftr (Z.land flags 6) 1 in
  if v =? 0 then Some VendorOwner else if v =? 1 then Some Owner else None.

Definition find_metadata_entry_by_type (auth owner : Collection) (cmd_fw_id : Z) (src : AuthManifestSource)
    : option AuthManifestImageMetadata :=
  match src with
  | VendorOwner => find_metadata_entry auth cmd_fw_id
  | Owner => find_owner_metadata_entry owner cmd_fw_id
  end.

(** ** Overlap of two sorted lists *)

Fixpoint overlap_loop (fuel : nat) (first second : list AuthManifestImageMetadata) (i j : nat) : bool :=
  match fuel with
  | O => false
  | S fuel' =>
      match first !! i, second !! j with
      | Some a, Some b =>
          match Z.compare (fw_id a) (fw_id b) with
          | Lt => overlap_loop fuel' first second (S i) j
          | Gt => overlap_loop fuel' first second i (S j)
          | Eq => true
          end
      | _, _ => false
      end
  end.

(** Every round advances one of the indices. *)
Definition sorted_metadata_lists_overlap (first second : list AuthManifestImageMetadata) : bool :=
  overlap_loop (S (length first + length second)) first second 0 0.

(** ** Sorting *)

Abbreviation Slice := (MM CaliptraError (list AuthManifestImageMetadata)).

(** The inner loop: [while j > 0]. *)
Fixpoint sift_down (j : nat) : Slice unit :=
  match j with
  | O => mret tt
  | S j' =>
      len ← get length;
      if (len <=? j)%nat then mret tt
      else
        a ← get (λ l, nth j' l metadata_default);
        b ← get (λ l, nth j l metadata_default);
        match Z.compare (fw_id a) (fw_id b) with
        | Gt => modify (λ l, <[j' := b]> (<[j := a]> l));; sift_down j'
        | Eq => fail RUNTIME_AUTH_MANIFEST_IMAGE_METADATA_LIST_DUPLICATE_FIRMWARE_ID
        | Lt => mret tt
        end
  end.

Definition sort_and_check_duplicate_fwid : Slice unit :=
  len ← get length;
  foldM (λ _ i, sift_down i) tt (seq 1 (len - 1)).

(** The sizes that the source asserts. *)
Example manifest_sizes :
  Z.of_nat AUTH_MANIFEST_PREAMBLE_SIZE = 24292 ∧ Z.of_nat OWNER_AUTH_MANIFEST_PREAMBLE_SIZE = 12156 ∧
  Z.of_nat OWNER_AUTH_MANIFEST_SIZE = 14720.
Proof. vm_compute. auto. Qed.
