(* ===== verification/AuthLists.v ===== *)
(** The operations on lists of image metadata: the sort rejects duplicates and
    nothing else, the binary search finds what is there, and the overlap test
    is exact on sorted lists. *)

From stdpp Require Import sorting.
From S2P Require Import Prelude Errors Sha256 Lms LmsGen ImageTypes AuthTypes.

Abbreviation ids l := (map fw_id l).

(** Strictly increasing firmware identifiers. *)
Definition sorted_ids (l : list AuthManifestImageMetadata) : Prop := StronglySorted Z.lt (ids l).

Lemma sorted_ids_app l1 l2 :
  sorted_ids (l1 ++ l2) ↔
  (∀ x y, x ∈ l1 → y ∈ l2 → fw_id x < fw_id y) ∧ sorted_ids l1 ∧ sorted_ids l2.
Proof.
  unfold sorted_ids. rewrite map_app, StronglySorted_app. split; intros (H & ? & ?); split_and!; try done.
  - intros x y Hx Hy. apply H; by apply list_elem_of_fmap_2.
  - intros i j (x & -> & ?)%list_elem_of_fmap (y & -> & ?)%list_elem_of_fmap. auto.
Qed.

Lemma sorted_ids_singleton x : sorted_ids [x].
Proof. unfold sorted_ids. simpl. by repeat constructor. Qed.

Lemma sorted_ids_NoDup l : sorted_ids l → NoDup (ids l).
Proof.
  unfold sorted_ids. induction 1 as [|i il Hs IH Hf]; constructor; [|done].
  intros Hi. rewrite Forall_forall in Hf. specialize (Hf _ Hi). lia.
Qed.

(** Firmware ids identify the entries of a sorted list. *)
Lemma sorted_ids_unique l1 l2 : sorted_ids l1 → sorted_ids l2 → l1 ≡ₚ l2 → l1 = l2.
Proof.
  revert l2. induction l1 as [|x l1 IH]; intros l2 H1 H2 Hp; [by apply Permutation_nil in Hp|].
  destruct l2 as [|y l2]; [by apply Permutation_sym, Permutation_nil in Hp|].
  apply (sorted_ids_app [x]) in H1 as (Hx & _ & H1). apply (sorted_ids_app [y]) in H2 as (Hy & _ & H2).
  assert (x = y) as ->.
  { assert (Hxy : x ∈ y :: l2) by (rewrite <- Hp; left). assert (Hyx : y ∈ x :: l1) by (rewrite Hp; left).
    apply elem_of_cons in Hxy as [|Hxy]; [done|]. apply elem_of_cons in Hyx as [|Hyx]; [done|].
    pose proof (Hx x y ltac:(left) Hyx). pose proof (Hy y x ltac:(left) Hxy). lia. }
  f_equal. apply IH; [done..|]. by eapply Permutation_cons_inv.
Qed.

(** ** Sorting *)

Section Sort.
Implicit Types (l pre post : list AuthManifestImageMetadata) (x y : AuthManifestImageMetadata).

(** The outcome of moving [x] down into a sorted prefix. *)
Definition sifted pre x post (out : res unit * list AuthManifestImageMetadata) : Prop :=
  match out with
  | (Ok _, l') => ∃ pre', l' = pre' ++ post ∧ pre' ≡ₚ pre ++ [x] ∧ sorted_ids pre'
  | (Err e, l') => e = RUNTIME_AUTH_MANIFEST_IMAGE_METADATA_LIST_DUPLICATE_FIRMWARE_ID ∧
                    fw_id x ∈ ids pre ∧ l' ≡ₚ pre ++ x :: post
  | (Abort _, _) => False
  end.

Lemma sift_down_ok pre x post :
  sorted_ids pre → sifted pre x post (sift_down (length pre) (pre ++ x :: post)).
Proof.
  revert x post. induction pre as [|y pre IH] using rev_ind; intros x post Hs.
  - simpl. exists [x]. split_and!; [done..|apply sorted_ids_singleton].
  - rewrite length_app, Nat.add_1_r. cbn [sift_down]. rewrite bind_get.
    rewrite <- app_assoc. cbn [app].
    assert (Hlen : length (pre ++ y :: x :: post) = S (S (length pre) + length post))
      by (rewrite length_app; simpl; lia).
    rewrite Hlen, (proj2 (Nat.leb_gt _ _)) by lia. rewrite !bind_get.
    assert (Ha : nth (length pre) (pre ++ y :: x :: post) metadata_default = y)
      by (rewrite app_nth2, Nat.sub_diag by lia; done).
    assert (Hb : nth (S (length pre)) (pre ++ y :: x :: post) metadata_default = x).
    { rewrite app_nth2 by lia. by replace (S (length pre) - length pre)%nat with 1%nat by lia. }
    rewrite Ha, Hb. apply sorted_ids_app in Hs as (Hlt & Hs & _).
    destruct (Z.compare_spec (fw_id y) (fw_id x)) as [He|Hl|Hg].
    + split; [done|]. split; [rewrite <- He; apply list_elem_of_fmap_2; set_solver|]. by rewrite <- app_assoc.
    + exists (pre ++ [y; x]). rewrite <- !app_assoc. split_and!; [done..|].
      apply sorted_ids_app. split_and!; [|done|].
      * intros a b Ha' [->|[->|[]%elem_of_nil]%elem_of_cons]%elem_of_cons; [by apply Hlt; [|set_solver]|].
        assert (fw_id a < fw_id y) by (apply Hlt; set_solver). lia.
      * unfold sorted_ids. simpl. repeat constructor. done.
    + rewrite bind_modify.
      assert (Hsw : <[length pre := x]> (<[S (length pre) := y]> (pre ++ y :: x :: post)) = pre ++ x :: y :: post).
      { rewrite insert_app_r_alt by lia. replace (S (length pre) - length pre)%nat with 1%nat by lia. simpl.
        rewrite insert_app_r_alt by lia. by rewrite Nat.sub_diag. }
      rewrite Hsw. specialize (IH x (y :: post) Hs).
      destruct (sift_down (length pre) (pre ++ x :: y :: post)) as [[u|e|w] l']; simpl in *; [| |done].
      * destruct IH as (pre' & -> & Hp & Hs'). exists (pre' ++ [y]). rewrite <- app_assoc. split_and!; [done| |].
        { rewrite Hp, <- !app_assoc. apply Permutation_app_head. simpl. apply Permutation_swap. }
        apply sorted_ids_app. split_and!; [|done|apply sorted_ids_singleton].
        intros a b Ha' ->%list_elem_of_singleton. rewrite Hp, elem_of_app, list_elem_of_singleton in Ha'.
        destruct Ha' as [Ha'| ->]; [apply Hlt; set_solver|lia].
      * destruct IH as (-> & Hin & ->). split; [done|]. split; [rewrite map_app; set_solver|].
        rewrite <- app_assoc. apply Permutation_app_head. simpl. apply Permutation_swap.
Qed.

(** What the sort returns, and leaves in the slice. *)
Definition sort_outcome l (out : res unit * list AuthManifestImageMetadata) : Prop :=
  snd out ≡ₚ l ∧
  match fst out with
  | Ok _ => sorted_ids (snd out)
  | Err e => e = RUNTIME_AUTH_MANIFEST_IMAGE_METADATA_LIST_DUPLICATE_FIRMWARE_ID ∧ ¬ NoDup (ids l)
  | Abort _ => False
  end.

Lemma sort_loop_ok post pre :
  sorted_ids pre →
  sort_outcome (pre ++ post) (foldM (λ _ i, sift_down i) tt (seq (length pre) (length post)) (pre ++ post)).
Proof.
  revert pre. induction post as [|x post IH]; intros pre Hs; [by rewrite app_nil_r|].
  cbn [length seq foldM]. pose proof (sift_down_ok pre x post Hs) as Hx. unfold mbind, M_bind.
  destruct (sift_down (length pre) (pre ++ x :: post)) as [[u|e|w] l']; [| |done].
  - destruct Hx as (pre' & -> & Hp & Hs'). destruct u.
    assert (Hl : length pre' = S (length pre)) by (rewrite Hp, length_app; simpl; lia).
    specialize (IH pre' Hs'). rewrite Hl in IH.
    assert (Heq : pre' ++ post ≡ₚ pre ++ x :: post) by (by rewrite Hp, <- app_assoc).
    destruct IH as [Hperm Hout]. split; [by rewrite Hperm|].
    destruct (fst _); [done| |done]. destruct Hout as [He Hnd]. split; [done|]. by rewrite <- Heq.
  - destruct Hx as (-> & Hin & Hp). split; [done|]. split; [done|]. simpl.
    rewrite map_app. cbn [map]. rewrite NoDup_app, NoDup_cons. set_solver.
Qed.

Lemma sort_ok l : sort_outcome l (sort_and_check_duplicate_fwid l).
Proof.
  unfold sort_and_check_duplicate_fwid. rewrite bind_get. destruct l as [|x l].
  - split; [done|]. constructor.
  - cbn [length]. rewrite Nat.sub_succ, Nat.sub_0_r. apply (sort_loop_ok l [x]), sorted_ids_singleton.
Qed.

(** The sort succeeds exactly on lists without duplicates. *)
Lemma sort_decides l :
  NoDup (ids l) ↔ ∃ l', sort_and_check_duplicate_fwid l = (Ok tt, l') ∧ l' ≡ₚ l ∧ sorted_ids l'.
Proof.
  pose proof (sort_ok l) as Hs. destruct (sort_and_check_duplicate_fwid l) as [[[]|e|w] l'];
    destruct Hs as [Hp Hs]; simpl in *; [| |done].
  - split; [eauto|]. intros _. rewrite <- Hp. by apply sorted_ids_NoDup.
  - split; [naive_solver|]. by intros (? & ? & _).
Qed.
End Sort.

(** ** Binary search *)

Lemma sorted_ids_lookup l i j x y :
  sorted_ids l → l !! i = Some x → l !! j = Some y → (i < j)%nat → fw_id x < fw_id y.
Proof.
  intros Hs Hi Hj Hij. rewrite <- (take_drop j l) in Hs. apply sorted_ids_app in Hs as (H & _ & _). apply H.
  - apply list_elem_of_lookup. exists i. by rewrite lookup_take_lt.
  - apply list_elem_of_lookup. exists 0%nat. by rewrite lookup_drop, Nat.add_0_r.
Qed.

(** The loop keeps the searched element inside its window. *)
Lemma binary_search_loop_ok fuel l key base size k x :
  sorted_ids l → l !! k = Some x → fw_id x = key → (base ≤ k < base + size)%nat →
  (base + size ≤ length l)%nat → (size ≤ S fuel)%nat →
  binary_search_loop fuel l key base size = k.
Proof.
  intros Hs Hk Hx. revert base size. induction fuel as [|fuel IH]; intros base size Hb Hl Hf; simpl; [lia|].
  destruct (Nat.ltb_spec 1 size) as [Hsz|]; [|lia].
  set (h := Nat.div2 size).
  assert (Hd : (0 < h ∧ 2 * h ≤ size)%nat).
  { unfold h. rewrite Nat.div2_div. split; [apply Nat.div_str_pos; lia|apply Nat.Div0.mul_div_le]. }
  clearbody h. destruct (lookup_lt_is_Some_2 l (base + h)) as [m Hm]; [lia|]. rewrite Hm.
  destruct (Z.compare_spec (fw_id m) key) as [He|Hlt|Hgt].
  - assert (k = (base + h)%nat) as ->.
    { destruct (lt_eq_lt_dec k (base + h)) as [[H|H]|H]; [|done|].
      - pose proof (sorted_ids_lookup l _ _ _ _ Hs Hk Hm H). lia.
      - pose proof (sorted_ids_lookup l _ _ _ _ Hs Hm Hk H). lia. }
    apply IH; lia.
  - assert (base + h ≤ k)%nat.
    { destruct (decide (k < base + h)%nat) as [H|]; [|lia].
      pose proof (sorted_ids_lookup l _ _ _ _ Hs Hk Hm H). lia. }
    apply IH; lia.
  - assert (k < base + h)%nat.
    { destruct (decide (k < base + h)%nat) as [|H]; [done|].
      destruct (decide (k = base + h)%nat) as [->|]; [simplify_eq; lia|].
      pose proof (sorted_ids_lookup l (base + h) k _ _ Hs Hm Hk ltac:(lia)). lia. }
    apply IH; lia.
Qed.

Lemma find_in_ok l key x : sorted_ids l → (find_in l key = Some x ↔ x ∈ l ∧ fw_id x = key).
Proof.
  intros Hs. unfold find_in, binary_search. destruct l as [|y l]; [set_solver|].
  cbn [length]. cbv zeta. set (b := binary_search_loop _ _ _ _ _). split.
  - destruct ((y :: l) !! b) as [m|] eqn:Hm; [|done]. destruct (Z.eqb_spec (fw_id m) key) as [He|]; [|done].
    simpl. intros Hx. rewrite Hm in Hx. simplify_eq. split; [by eapply list_elem_of_lookup_2|done].
  - intros [[k Hk]%list_elem_of_lookup He].
    assert (b = k) as ->.
    { apply (binary_search_loop_ok _ _ _ _ _ k x); try done; [|simpl; lia..].
      apply lookup_lt_Some in Hk. simpl in *. lia. }
    rewrite Hk, (proj2 (Z.eqb_eq _ _)) by done. done.
Qed.

(** ** Overlap *)

Lemma overlap_loop_ok fuel first second i j :
  sorted_ids first → sorted_ids second →
  (length first - i + (length second - j) < fuel)%nat →
  overlap_loop fuel first second i j = true ↔
  ∃ x y, x ∈ drop i first ∧ y ∈ drop j second ∧ fw_id x = fw_id y.
Proof.
  intros H1 H2. revert i j. induction fuel as [|fuel IH]; intros i j Hf; [lia|]. simpl.
  destruct (first !! i) as [a|] eqn:Ha.
  2:{ rewrite drop_ge by (by apply lookup_ge_None_1). split; [done|]. intros (x & y & Hx & _). set_solver. }
  destruct (second !! j) as [b|] eqn:Hb.
  2:{ rewrite (drop_ge second) by (by apply lookup_ge_None_1). split; [done|]. intros (x & y & _ & Hx & _). set_solver. }
  pose proof (lookup_lt_Some _ _ _ Ha). pose proof (lookup_lt_Some _ _ _ Hb).
  rewrite (drop_S _ _ _ Ha), (drop_S _ _ _ Hb).
  assert (Hra : ∀ x, x ∈ drop (S i) first → fw_id a < fw_id x).
  { intros x [k Hk]%list_elem_of_lookup. rewrite lookup_drop in Hk. eapply (sorted_ids_lookup first); eauto. lia. }
  assert (Hrb : ∀ y, y ∈ drop (S j) second → fw_id b < fw_id y).
  { intros y [k Hk]%list_elem_of_lookup. rewrite lookup_drop in Hk. eapply (sorted_ids_lookup second); eauto. lia. }
  destruct (Z.compare_spec (fw_id a) (fw_id b)) as [He|Hlt|Hgt].
  - split; [|done]. intros _. exists a, b. set_solver.
  - rewrite IH by lia. rewrite (drop_S _ _ _ Hb). split; intros (x & y & Hx & Hy & E); exists x, y; [set_solver|].
    split_and!; [|done..]. apply elem_of_cons in Hx as [->|]; [|done].
    apply elem_of_cons in Hy as [->|Hy]; [lia|]. specialize (Hrb _ Hy). lia.
  - rewrite IH by lia. rewrite (drop_S _ _ _ Ha). split; intros (x & y & Hx & Hy & E); exists x, y; [set_solver|].
    split_and!; [done| |done]. apply elem_of_cons in Hy as [->|]; [|done].
    apply elem_of_cons in Hx as [->|Hx]; [lia|]. specialize (Hra _ Hx). lia.
Qed.

Lemma overlap_ok first second :
  sorted_ids first → sorted_ids second →
  sorted_metadata_lists_overlap first second = true ↔ ∃ x y, x ∈ first ∧ y ∈ second ∧ fw_id x = fw_id y.
Proof.
  intros H1 H2. unfold sorted_metadata_lists_overlap. rewrite overlap_loop_ok by (done || lia).
  by rewrite !drop_0.
Qed.
