(* ===== verification/AuthManifest.v ===== *)
(** The runtime's commands on authorization manifests
    (runtime/src/set_auth_manifest.rs, runtime/src/set_owner_auth_manifest.rs,
    runtime/src/authorize_and_stash.rs, runtime/src/stash_measurement.rs,
    runtime/src/get_image_info.rs).

    The manifests are verified with the keys of the firmware image, and their
    lists of image digests kept in persistent memory; SoC images are then
    authorized against those lists. The DICE protection environment, a crate of
    its own, is behind the interface [RuntimeDpe]. *)

From S2P Require Import Prelude Errors Sha256 Sha256Alg Lms LmsGen ImageTypes Cfi ImageVerify SocIfc Engines.
From S2P Require Import AuthTypes.

(** * The runtime's state *)

Record FwPersistentData := mkFwPersistentData {
  auth_manifest_image_metadata_col : Collection;
  owner_auth_manifest_image_metadata_col : Collection;
  auth_manifest_digest : list Z;
  auth_manifest_svn : Z;
  dpe_soc_manifest_svn : Z;
  auth_manifest_is_debug : bool;
  owner_auth_manifest_digest : list Z;
  owner_auth_manifest_svn : Z;
  attestation_disabled : bool;
}.

Definition set_auth_col (c : Collection) (p : FwPersistentData) : FwPersistentData :=
  mkFwPersistentData c (owner_auth_manifest_image_metadata_col p) (auth_manifest_digest p) (auth_manifest_svn p)
    (dpe_soc_manifest_svn p) (auth_manifest_is_debug p) (owner_auth_manifest_digest p) (owner_auth_manifest_svn p)
    (attestation_disabled p).
Definition set_owner_col (c : Collection) (p : FwPersistentData) : FwPersistentData :=
  mkFwPersistentData (auth_manifest_image_metadata_col p) c (auth_manifest_digest p) (auth_manifest_svn p)
    (dpe_soc_manifest_svn p) (auth_manifest_is_debug p) (owner_auth_manifest_digest p) (owner_auth_manifest_svn p)
    (attestation_disabled p).
Definition set_auth_info (digest : list Z) (svn : Z) (p : FwPersistentData) : FwPersistentData :=
  mkFwPersistentData (auth_manifest_image_metadata_col p) (owner_auth_manifest_image_metadata_col p) digest svn svn
    (auth_manifest_is_debug p) (owner_auth_manifest_digest p) (owner_auth_manifest_svn p) (attestation_disabled p).
Definition set_auth_debug (b : bool) (p : FwPersistentData) : FwPersistentData :=
  mkFwPersistentData (auth_manifest_image_metadata_col p) (owner_auth_manifest_image_metadata_col p)
    (auth_manifest_digest p) (auth_manifest_svn p) (dpe_soc_manifest_svn p) b (owner_auth_manifest_digest p)
    (owner_auth_manifest_svn p) (attestation_disabled p).
Definition set_owner_digest (digest : list Z) (p : FwPersistentData) : FwPersistentData :=
  mkFwPersistentData (auth_manifest_image_metadata_col p) (owner_auth_manifest_image_metadata_col p)
    (auth_manifest_digest p) (auth_manifest_svn p) (dpe_soc_manifest_svn p) (auth_manifest_is_debug p) digest
    (owner_auth_manifest_svn p) (attestation_disabled p).
Definition set_owner_svn (svn : Z) (p : FwPersistentData) : FwPersistentData :=
  mkFwPersistentData (auth_manifest_image_metadata_col p) (owner_auth_manifest_image_metadata_col p)
    (auth_manifest_digest p) (auth_manifest_svn p) (dpe_soc_manifest_svn p) (auth_manifest_is_debug p)
    (owner_auth_manifest_digest p) svn (attestation_disabled p).

Record Drivers (Sh X D : Type) := mkDrivers {
  d_sha256 : Sh;
  d_hw : X;
  d_dpe : D;
  d_soc_ifc : SocIfcRegs;
  d_manifest1 : ImageManifest;
  d_mbox_id : Z;
  d_fw : FwPersistentData;
}.
Arguments mkDrivers {Sh X D}.
Arguments d_sha256 {Sh X D}.
Arguments d_hw {Sh X D}.
Arguments d_dpe {Sh X D}.
Arguments d_soc_ifc {Sh X D}.
Arguments d_manifest1 {Sh X D}.
Arguments d_mbox_id {Sh X D}.
Arguments d_fw {Sh X D}.

Inductive CaliptraManagedDpeContext := Cciv | Somv | Somo | McuRt.
Inductive PauserPrivileges := PL0 | PL1.
#[export] Instance PauserPrivileges_eq_dec : EqDecision PauserPrivileges.
Proof. solve_decision. Defined.
Inductive AuthManifestUpdateMode := UpdateExisting | CreateMissingDpeContexts.
Inductive CaliptraManagedContextAccess := AccessAllowed | AccessDenied.
#[export] Instance CaliptraManagedContextAccess_eq_dec : EqDecision CaliptraManagedContextAccess.
Proof. solve_decision. Defined.

(** The commands of this part, as [execute_command] dispatches them. *)
Inductive AuthCommandId :=
  | STASH_MEASUREMENT | AUTHORIZE_AND_STASH | SET_AUTH_MANIFEST | VERIFY_AUTH_MANIFEST
  | SET_OWNER_AUTH_MANIFEST | VERIFY_OWNER_AUTH_MANIFEST | GET_IMAGE_INFO.

(** The operations on the DICE protection environment and the measurement
    registers. [dpe_derive_context] returns the error code of the command, 0
    for none. *)
Class RuntimeDpe (D : Type) := {
  create_or_update_caliptra_managed_measurement :
    CaliptraManagedDpeContext → list Z → Z → Z → bool → M D unit;
  dpe_used_context_counts : D → res (Z * Z);
  dpe_context_limits : D → Z * Z;
  dpe_derive_context : list Z → Z → Z → Z → D → Z * D;
  dpe_active_context_pos : Z → D → option Z;
  dpe_set_mcu_rt : Z → D → D;
  extend_stash_pcr : list Z → M D unit;
}.

Definition PL0_PAUSER_FLAG : Z := 1.
Definition MCU_RT_TCI_TYPE : Z := from_le [77; 67; 70; 87].
Definition MCU_RT_RESERVED_FW_ID : list Z := to_le 4 2.

Section Commands.
Context {Sh Op X HOp Acc Mu D : Type}.
Context `{Hcomp : Sha2Compress, Halg : !Sha256Alg Sh Op, Heng : Engines X HOp Acc Mu, Hdpe : RuntimeDpe D}.
Abbreviation Drv := (Drivers Sh X D).
Implicit Types (p : AuthManifestPreamble) (t : FwVerificationPqcKeyType).

Definition on_engines {A} (m : M X A) : M Drv A := λ d,
  let '(r, x) := m (d_hw d) in
  (r, mkDrivers (d_sha256 d) x (d_dpe d) (d_soc_ifc d) (d_manifest1 d) (d_mbox_id d) (d_fw d)).
Definition on_sha {A} (m : M Sh A) : M Drv A := λ d,
  let '(r, sh) := m (d_sha256 d) in
  (r, mkDrivers sh (d_hw d) (d_dpe d) (d_soc_ifc d) (d_manifest1 d) (d_mbox_id d) (d_fw d)).
Definition on_dpe {A} (m : M D A) : M Drv A := λ d,
  let '(r, x) := m (d_dpe d) in
  (r, mkDrivers (d_sha256 d) (d_hw d) x (d_soc_ifc d) (d_manifest1 d) (d_mbox_id d) (d_fw d)).
Definition on_fw (f : FwPersistentData → FwPersistentData) : M Drv unit :=
  modify (λ d, mkDrivers (d_sha256 d) (d_hw d) (d_dpe d) (d_soc_ifc d) (d_manifest1 d) (d_mbox_id d) (f (d_fw d))).
Definition set_extended_error (err : Z) : M Drv unit :=
  modify (λ d, mkDrivers (d_sha256 d) (d_hw d) (d_dpe d) (soc_set_fw_extended_error (d_soc_ifc d) err)
                 (d_manifest1 d) (d_mbox_id d) (d_fw d)).

(** ** Privilege levels *)

Definition privilege_level_from_locality (locality : Z) (d : Drv) : PauserPrivileges :=
  let h := header (d_manifest1 d) in
  if Z.land (hdr_flags h) PL0_PAUSER_FLAG =? 0 then PL1
  else if locality =? pl0_pauser h then PL0 else PL1.
Definition caller_privilege_level (d : Drv) : PauserPrivileges := privilege_level_from_locality (d_mbox_id d) d.
Definition ensure_pl0 : M Drv unit :=
  pl ← get caller_privilege_level;
  match pl with PL0 => mret tt | PL1 => fail RUNTIME_INCORRECT_PAUSER_PRIVILEGE_LEVEL end.

Definition is_dpe_context_threshold_exceeded (pl : PauserPrivileges) : M Drv unit :=
  counts ← get (λ d, dpe_used_context_counts (d_dpe d));
  '(used_pl0, used_pl1) ← lift counts;
  '(limit_pl0, limit_pl1) ← get (λ d, dpe_context_limits (d_dpe d));
  match pl, Z.compare used_pl1 limit_pl1, Z.compare used_pl0 limit_pl0 with
  | PL1, Eq, _ => fail RUNTIME_PL1_USED_DPE_CONTEXT_THRESHOLD_REACHED
  | PL1, Gt, _ => fail RUNTIME_PL1_USED_DPE_CONTEXT_THRESHOLD_EXCEEDED
  | PL0, _, Eq => fail RUNTIME_PL0_USED_DPE_CONTEXT_THRESHOLD_REACHED
  | PL0, _, Gt => fail RUNTIME_PL0_USED_DPE_CONTEXT_THRESHOLD_EXCEEDED
  | _, _, _ => mret tt
  end.

(** * Digests and signatures *)

Definition offset_data (buf : list Z) (range : nat * nat) : res (list Z) :=
  ok_or (get_slice buf (fst range) (snd range - fst range)) IMAGE_VERIFIER_ERR_DIGEST_OUT_OF_BOUNDS.

Definition cmd_sha384_digest (buf : list Z) (range : nat * nat) : M Drv (list Z) :=
  data ← lift (offset_data buf range);
  on_engines (hw_sha384_digest data).

Definition owner_signed_data_digest p : M Drv (list Z) :=
  op ← on_engines hw_sha384_digest_init;
  op ← foldM (λ op range, d ← lift (offset_data (auth_preamble_bytes p) range); on_engines (hw_sha384_update op d))
         op owner_signed_data_ranges;
  on_engines (hw_sha384_finalize op).

Definition cmd_lms_verify (digest : list Z) (k : LmsPublicKey) (g : LmsSignature) : M Drv (list Z) :=
  on_sha (Lms.verify_lms_signature_cfi (bytes_be digest) k g).

(** The ECC check that every function below starts with: the engine must
    recompute [r]. *)
Definition check_ecc (digest : list Z) (key : ImageEccPubKey) (sig : ImageEccSignature) (e : CaliptraError)
    : M Drv unit :=
  verify_r ← to_err (on_engines (hw_ecc384_verify_r key digest sig)) e;
  check_digest verify_r (ecc_r sig) e.

(** The LMS branch: key and signature are read from the front of their
    buffers. *)
Definition check_lms (digest key sig : list Z) (e_key e_sig : CaliptraError) : M Drv unit :=
  k ← lift (ok_or (lms_pub_key_from_prefix key) e_key);
  g ← lift (ok_or (lms_signature_from_prefix sig) e_sig);
  candidate_key ← to_err (cmd_lms_verify digest k g) e_sig;
  check_digest candidate_key (Lms.hash_value_le (pk_digest k)) e_sig.

(** The ML-DSA branch, over the message itself. *)
Definition mldsa_result (r : Mldsa87Result) (e : CaliptraError) : M Drv unit :=
  fail_if (bool_decide (r ≠ MldsaSuccess)) e.
Definition check_mldsa (msg key sig : list Z) (e_key e_read e_sig : CaliptraError) : M Drv unit :=
  k ← lift (ok_or (mldsa_pub_key_from_prefix key) e_key);
  g ← lift (ok_or (mldsa_signature_from_prefix sig) e_read);
  r ← on_engines (hw_mldsa87_verify_var k msg g);
  mldsa_result r e_sig.

Definition verify_vendor_signed_data p (fw : ImagePreamble) t : M Drv unit :=
  let sigs := am_vendor_pub_keys_signatures p in
  digest_vendor ← cmd_sha384_digest (auth_preamble_bytes p) vendor_signed_data_range;
  check_ecc digest_vendor (vendor_ecc_active_pub_key fw) (am_ecc_sig sigs)
    RUNTIME_AUTH_MANIFEST_VENDOR_ECC_SIGNATURE_INVALID;;
  match t with
  | LMS =>
      check_lms digest_vendor (vendor_pqc_active_pub_key fw) (am_pqc_sig sigs)
        RUNTIME_AUTH_MANIFEST_LMS_VENDOR_PUB_KEY_INVALID RUNTIME_AUTH_MANIFEST_VENDOR_LMS_SIGNATURE_INVALID
  | MLDSA =>
      vendor_data ← lift (offset_data (auth_preamble_bytes p) vendor_signed_data_range);
      check_mldsa vendor_data (vendor_pqc_active_pub_key fw) (am_pqc_sig sigs)
        RUNTIME_AUTH_MANIFEST_MLDSA_VENDOR_PUB_KEY_READ_FAILED RUNTIME_AUTH_MANIFEST_MLDSA_VENDOR_SIG_READ_FAILED
        RUNTIME_AUTH_MANIFEST_MLDSA_VENDOR_SIG_INVALID
  end.

(** The owner's message is not contiguous: it is streamed into the hash and
    into the ML-DSA message representative. *)
Definition verify_owner_signed_data p (fw : ImagePreamble) t : M Drv unit :=
  let sigs := am_owner_pub_keys_signatures p in
  digest_owner ← owner_signed_data_digest p;
  check_ecc digest_owner (opk_ecc_pub_key (owner_pub_keys fw)) (am_ecc_sig sigs)
    RUNTIME_AUTH_MANIFEST_OWNER_ECC_SIGNATURE_INVALID;;
  match t with
  | LMS =>
      check_lms digest_owner (opk_pqc_pub_key (owner_pub_keys fw)) (am_pqc_sig sigs)
        RUNTIME_AUTH_MANIFEST_LMS_OWNER_PUB_KEY_INVALID RUNTIME_AUTH_MANIFEST_OWNER_LMS_SIGNATURE_INVALID
  | MLDSA =>
      k ← lift (ok_or (mldsa_pub_key_from_prefix (opk_pqc_pub_key (owner_pub_keys fw)))
                  RUNTIME_AUTH_MANIFEST_MLDSA_OWNER_PUB_KEY_READ_FAILED);
      g ← lift (ok_or (mldsa_signature_from_prefix (am_pqc_sig sigs))
                  RUNTIME_AUTH_MANIFEST_MLDSA_OWNER_SIG_READ_FAILED);
      op ← on_engines (hw_mldsa_external_mu_init k);
      op ← foldM (λ op range, d ← lift (offset_data (auth_preamble_bytes p) range); on_engines (hw_mu_update op d))
             op owner_signed_data_ranges;
      mu ← on_engines (hw_mu_finalize op);
      r ← on_engines (hw_mldsa87_verify_external_mu k mu g);
      mldsa_result r RUNTIME_AUTH_MANIFEST_MLDSA_OWNER_SIG_INVALID
  end.

Definition verify_vendor_image_metadata_col p (digest : list Z) t (metadata_col : list Z) : M Drv unit :=
  if negb (auth_flags_contain (am_flags p) VENDOR_SIGNATURE_REQUIRED) then mret tt
  else
    let keys := am_vendor_pub_keys p in
    let sigs := am_vendor_image_metdata_signatures p in
    check_ecc digest (am_ecc_pub_key keys) (am_ecc_sig sigs) RUNTIME_AUTH_MANIFEST_VENDOR_ECC_SIGNATURE_INVALID;;
    match t with
    | LMS =>
        check_lms digest (am_pqc_pub_key keys) (am_pqc_sig sigs)
          RUNTIME_AUTH_MANIFEST_LMS_VENDOR_PUB_KEY_INVALID RUNTIME_AUTH_MANIFEST_VENDOR_LMS_SIGNATURE_INVALID
    | MLDSA =>
        metadata_col_data ← lift (offset_data metadata_col (0%nat, length metadata_col));
        check_mldsa metadata_col_data (am_pqc_pub_key keys) (am_pqc_sig sigs)
          RUNTIME_AUTH_MANIFEST_MLDSA_VENDOR_PUB_KEY_READ_FAILED RUNTIME_AUTH_MANIFEST_MLDSA_VENDOR_SIG_READ_FAILED
          RUNTIME_AUTH_MANIFEST_MLDSA_VENDOR_SIG_INVALID
    end.

Definition verify_owner_image_metadata_col p (digest : list Z) t (metadata_col : list Z) : M Drv unit :=
  let keys := am_owner_pub_keys p in
  let sigs := am_owner_image_metdata_signatures p in
  check_ecc digest (am_ecc_pub_key keys) (am_ecc_sig sigs) RUNTIME_AUTH_MANIFEST_OWNER_ECC_SIGNATURE_INVALID;;
  match t with
  | LMS =>
      check_lms digest (am_pqc_pub_key keys) (am_pqc_sig sigs)
        RUNTIME_AUTH_MANIFEST_LMS_OWNER_PUB_KEY_INVALID RUNTIME_AUTH_MANIFEST_OWNER_LMS_SIGNATURE_INVALID
  | MLDSA =>
      metadata_col_data ← lift (offset_data metadata_col (0%nat, length metadata_col));
      check_mldsa metadata_col_data (am_pqc_pub_key keys) (am_pqc_sig sigs)
        RUNTIME_AUTH_MANIFEST_MLDSA_OWNER_PUB_KEY_READ_FAILED RUNTIME_AUTH_MANIFEST_MLDSA_OWNER_SIG_READ_FAILED
        RUNTIME_AUTH_MANIFEST_MLDSA_OWNER_SIG_INVALID
  end.

(** * Policy *)

Definition soc_lifecycle (d : Drv) : Lifecycle := lifecycle (d_soc_ifc d).
Definition fuse_bank (d : Drv) : FuseRegs := fuse_regs (d_soc_ifc d).
Definition debug_artifacts_allowed (d : Drv) : bool := vendor_debug_image_allowed (d_soc_ifc d).

(** The anti-rollback policy that both manifests share. *)
Definition manifest_svn_check_required : M Drv bool :=
  lc ← get soc_lifecycle;
  if bool_decide (lc = Unprovisioned) then
    lc ← get soc_lifecycle; cfi_assert_eq lc Unprovisioned;; mret false
  else
    fuses ← get fuse_bank;
    if fuse_bank_anti_rollback_disable fuses then
      fuses ← get fuse_bank; cfi_assert_bool (fuse_bank_anti_rollback_disable fuses);; mret false
    else mret true.

Definition manifest_verify_svn (svn : Z) : M Drv unit :=
  required ← manifest_svn_check_required;
  if (required : bool) then
    fuses ← get fuse_bank;
    (if (svn >? 128) || (svn >? max_soc_manifest_fuse_svn fuses) then
       fail IMAGE_VERIFIER_ERR_FIRMWARE_SVN_GREATER_THAN_MAX_SUPPORTED
     else cfi_assert_le svn 128;; cfi_assert_le svn (max_soc_manifest_fuse_svn fuses));;
    (if svn <? soc_manifest_fuse_svn fuses then fail IMAGE_VERIFIER_ERR_FIRMWARE_SVN_LESS_THAN_FUSE
     else cfi_assert_ge svn (soc_manifest_fuse_svn fuses))
  else mret tt.

Definition verify_ueid (l : list AuthManifestImageMetadata) (device_ueid : list Z) : M Drv unit :=
  match List.find (λ m, fw_id m =? AUTH_MANIFEST_UEID_FW_ID) l with
  | None => mret tt
  | Some m =>
      let expected_digest := md_digest (new_ueid device_ueid) in
      if bool_decide (md_digest m ≠ expected_digest) then fail RUNTIME_AUTH_MANIFEST_UEID_MISMATCH
      else cfi_assert_eq_words (words_be (md_digest m)) (words_be expected_digest)
  end.

(** The key type of the firmware image, which the fuses must confirm on a
    provisioned device. *)
Definition manifest_pqc_type : M Drv FwVerificationPqcKeyType :=
  m ← get d_manifest1;
  manifest_type ← lift (ok_or (from_u8 (manifest_pqc_key_type m)) RUNTIME_AUTH_MANIFEST_INVALID_PQC_KEY_TYPE);
  lc ← get soc_lifecycle;
  if bool_decide (lc = Unprovisioned) then mret manifest_type
  else
    fuses ← get fuse_bank;
    fuse_type ← lift (ok_or (from_u8 (u8w (pqc_key_type fuses)))
                        RUNTIME_AUTH_MANIFEST_INVALID_PQC_KEY_TYPE_IN_FUSE);
    fail_if (bool_decide (fuse_type ≠ manifest_type)) RUNTIME_AUTH_MANIFEST_PQC_KEY_TYPE_MISMATCH;;
    mret fuse_type.

(** * SET_AUTH_MANIFEST *)

(** The sort works in place on the mailbox memory that holds the manifest: the
    entries after it are what the buffer contains from then on. *)
Definition sort_entries (buf : list Z) (count : nat) : res (list AuthManifestImageMetadata) :=
  let '(r, sorted) := sort_and_check_duplicate_fwid (entries_of_bytes count buf) in
  r;; Ok sorted.
Definition write_entries (buf : list Z) (l : list AuthManifestImageMetadata) : list Z :=
  splice buf 4 (concat (map metadata_bytes l)).

(** [process_image_metadata_col] up to the point where it has nothing left to
    refuse: the sorted entries. *)
Definition metadata_buf (cmd_buf : list Z) : list Z :=
  take (Nat.min (length cmd_buf) (size_collection AUTH_MANIFEST_IMAGE_METADATA_MAX_COUNT)) cmd_buf.

Definition check_image_metadata_col (cmd_buf : list Z) p t : M Drv (list AuthManifestImageMetadata) :=
  fail_if (length cmd_buf <? 4)%nat RUNTIME_AUTH_MANIFEST_IMAGE_METADATA_LIST_INVALID_SIZE;;
  let buf := metadata_buf cmd_buf in
  let count := u32_at buf 0 in
  fail_if ((count =? 0) || (count >? Z.of_nat AUTH_MANIFEST_IMAGE_METADATA_MAX_COUNT))
    RUNTIME_AUTH_MANIFEST_IMAGE_METADATA_LIST_INVALID_ENTRY_COUNT;;
  fail_if (Z.of_nat (length buf) <? 4 + count * Z.of_nat size_metadata)
    RUNTIME_AUTH_MANIFEST_IMAGE_METADATA_LIST_INVALID_SIZE;;
  digest ← cmd_sha384_digest buf (0%nat, length buf);
  verify_vendor_image_metadata_col p digest t buf;;
  verify_owner_image_metadata_col p digest t buf;;
  entries ← lift (sort_entries buf (Z.to_nat count));
  fuses ← get fuse_bank;
  verify_ueid entries (ueid fuses);;
  owner_col ← get (λ d, owner_auth_manifest_image_metadata_col (d_fw d));
  owner_slice ← lift (ok_or (active_entries owner_col) RUNTIME_INTERNAL);
  fail_if (sorted_metadata_lists_overlap entries owner_slice)
    RUNTIME_AUTH_MANIFEST_IMAGE_METADATA_LIST_DUPLICATE_FIRMWARE_ID;;
  mret entries.

(** [zeroize], then the bytes of the buffer over the front of the collection. *)
Definition stored_collection (buf : list Z) : Collection :=
  collection_of_bytes AUTH_MANIFEST_IMAGE_METADATA_MAX_COUNT
    (splice (replicate (size_collection AUTH_MANIFEST_IMAGE_METADATA_MAX_COUNT) 0) 0 buf).

(** Returns the new contents of [cmd_buf]. *)
Definition process_image_metadata_col (cmd_buf : list Z) p t (verify_only : bool) : M Drv (list Z) :=
  entries ← check_image_metadata_col cmd_buf p t;
  let buf := write_entries (metadata_buf cmd_buf) entries in
  (if negb verify_only then on_fw (set_auth_col (stored_collection buf)) else mret tt);;
  mret (buf ++ drop (length buf) cmd_buf).

Definition update_soc_manifest_dpe_contexts p (mode : AuthManifestUpdateMode) : M Drv unit :=
  disabled ← get (λ d, attestation_disabled (d_fw d));
  if (disabled : bool) then mret tt
  else
    let create_if_missing := match mode with CreateMissingDpeContexts => true | UpdateExisting => false end in
    vendor ← cmd_sha384_digest (auth_preamble_bytes p) vendor_signed_data_range;
    owner ← owner_signed_data_digest p;
    locality ← get (λ d, pl0_pauser (header (d_manifest1 d)));
    on_dpe (create_or_update_caliptra_managed_measurement Somv (bytes_be vendor) (am_svn p) locality create_if_missing);;
    on_dpe (create_or_update_caliptra_managed_measurement Somo (bytes_be owner) 0 locality create_if_missing).

(** [set_auth_manifest] up to the image metadata. *)
Definition check_auth_preamble (manifest_buf : list Z)
    : M Drv (list Z * AuthManifestPreamble * FwVerificationPqcKeyType) :=
  let err := RUNTIME_AUTH_MANIFEST_PREAMBLE_SIZE_LT_MIN in
  bytes ← lift (ok_or (get_range manifest_buf 0 (Z.of_nat AUTH_MANIFEST_PREAMBLE_SIZE)) err);
  p ← lift (ok_or (auth_preamble_from_bytes bytes) err);
  fail_if (negb (am_marker p =? AUTH_MANIFEST_MARKER)) RUNTIME_INVALID_AUTH_MANIFEST_MARKER;;
  fail_if (negb (am_size p =? Z.of_nat AUTH_MANIFEST_PREAMBLE_SIZE)) RUNTIME_AUTH_MANIFEST_PREAMBLE_SIZE_MISMATCH;;
  manifest_verify_svn (am_svn p);;
  t ← manifest_pqc_type;
  fw ← get (λ d, preamble (d_manifest1 d));
  verify_vendor_signed_data p fw t;;
  (if auth_flags_contain (am_flags p) DEBUG_IMAGE then
     fail_if (negb (auth_flags_contain (am_flags p) VENDOR_SIGNATURE_REQUIRED)) RUNTIME_AUTH_MANIFEST_INVALID_FLAGS;;
     allowed ← get debug_artifacts_allowed;
     fail_if (negb allowed) RUNTIME_AUTH_MANIFEST_DEBUG_IMAGE_NOT_ALLOWED
   else mret tt);;
  verify_owner_signed_data p fw t;;
  mret (bytes, p, t).

Definition set_auth_manifest (manifest_buf : list Z) (verify_only : bool) (mode : AuthManifestUpdateMode) : M Drv unit :=
  '(bytes, p, t) ← check_auth_preamble manifest_buf;
  col ← process_image_metadata_col (drop AUTH_MANIFEST_PREAMBLE_SIZE manifest_buf) p t verify_only;
  if negb verify_only then
    digest ← on_engines (hw_sha384_digest (bytes ++ col));
    on_fw (set_auth_info digest (am_svn p));;
    update_soc_manifest_dpe_contexts p mode;;
    on_fw (set_auth_debug (auth_flags_contain (am_flags p) DEBUG_IMAGE))
  else mret tt.

(** The manifest in a command: its size is the word after the checksum. *)
Definition manifest_of_cmd (cmd_args : list Z) (max : Z) : res (list Z) :=
  let err := RUNTIME_MAILBOX_INVALID_PARAMS in
  sz ← ok_or (get_range cmd_args 4 8) err;
  let manifest_size := from_le sz in
  err_if (manifest_size >? max) err;;
  ok_or (get_range cmd_args 8 (8 + manifest_size)) err.

Definition set_auth_manifest_execute (cmd_args : list Z) (verify_only : bool) : M Drv Z :=
  ensure_pl0;;
  manifest_buf ← lift (manifest_of_cmd cmd_args (34 * 1024));
  set_auth_manifest manifest_buf verify_only UpdateExisting;;
  mret 0.

(** * SET_OWNER_AUTH_MANIFEST *)

Implicit Types (o : OwnerAuthManifestPreamble).

Definition verify_owner_pub_keys_against_fw_owner o (fw : ImagePreamble) t : M Drv unit :=
  let sigs := om_owner_pub_keys_signatures o in
  digest ← cmd_sha384_digest (owner_preamble_bytes o) om_owner_signed_data_range;
  check_ecc digest (opk_ecc_pub_key (owner_pub_keys fw)) (am_ecc_sig sigs)
    RUNTIME_OWNER_AUTH_MANIFEST_OWNER_ECC_SIGNATURE_INVALID;;
  match t with
  | LMS =>
      check_lms digest (opk_pqc_pub_key (owner_pub_keys fw)) (am_pqc_sig sigs)
        RUNTIME_OWNER_AUTH_MANIFEST_OWNER_LMS_SIGNATURE_INVALID RUNTIME_OWNER_AUTH_MANIFEST_OWNER_LMS_SIGNATURE_INVALID
  | MLDSA =>
      owner_data ← lift (offset_data (owner_preamble_bytes o) om_owner_signed_data_range);
      check_mldsa owner_data (opk_pqc_pub_key (owner_pub_keys fw)) (am_pqc_sig sigs)
        RUNTIME_OWNER_AUTH_MANIFEST_OWNER_MLDSA_SIGNATURE_INVALID
        RUNTIME_OWNER_AUTH_MANIFEST_OWNER_MLDSA_SIGNATURE_INVALID
        RUNTIME_OWNER_AUTH_MANIFEST_OWNER_MLDSA_SIGNATURE_INVALID
  end.

Definition verify_imc_signatures o (imc_digest : list Z) t (imc_bytes : list Z) : M Drv unit :=
  let keys := om_owner_pub_keys o in
  let sigs := om_owner_image_metdata_signatures o in
  check_ecc imc_digest (am_ecc_pub_key keys) (am_ecc_sig sigs)
    RUNTIME_OWNER_AUTH_MANIFEST_IMC_OWNER_ECC_SIGNATURE_INVALID;;
  match t with
  | LMS =>
      check_lms imc_digest (am_pqc_pub_key keys) (am_pqc_sig sigs)
        RUNTIME_OWNER_AUTH_MANIFEST_IMC_OWNER_LMS_SIGNATURE_INVALID
        RUNTIME_OWNER_AUTH_MANIFEST_IMC_OWNER_LMS_SIGNATURE_INVALID
  | MLDSA =>
      imc_data ← lift (offset_data imc_bytes (0%nat, length imc_bytes));
      check_mldsa imc_data (am_pqc_pub_key keys) (am_pqc_sig sigs)
        RUNTIME_OWNER_AUTH_MANIFEST_IMC_OWNER_MLDSA_SIGNATURE_INVALID
        RUNTIME_OWNER_AUTH_MANIFEST_IMC_OWNER_MLDSA_SIGNATURE_INVALID
        RUNTIME_OWNER_AUTH_MANIFEST_IMC_OWNER_MLDSA_SIGNATURE_INVALID
  end.

Definition verify_owner_svn (svn : Z) : M Drv unit :=
  required ← manifest_svn_check_required;
  if (required : bool) then
    fail_if (svn >? 255) RUNTIME_OWNER_AUTH_MANIFEST_SVN_GREATER_THAN_MAX;;
    min_svn ← get (λ d, ss_owner_manifest_min_svn (d_soc_ifc d));
    fail_if (svn <? min_svn) RUNTIME_OWNER_AUTH_MANIFEST_SVN_LESS_THAN_MIN
  else mret tt.

(** [process_imc] up to the replacement of the collection. The candidate is a
    copy, sorted in place. *)
Definition check_imc (cmd_buf : list Z) o t : M Drv Collection :=
  fail_if (length cmd_buf <? 4)%nat RUNTIME_OWNER_AUTH_MANIFEST_IMC_INVALID_SIZE;;
  let imc_size := size_collection OWNER_AUTH_MANIFEST_IMAGE_METADATA_MAX_COUNT in
  buf ← lift (ok_or (get_range cmd_buf 0 (Z.of_nat imc_size)) RUNTIME_OWNER_AUTH_MANIFEST_IMC_INVALID_SIZE);
  let count := u32_at buf 0 in
  fail_if ((count =? 0) || (count >? Z.of_nat OWNER_AUTH_MANIFEST_IMAGE_METADATA_MAX_COUNT))
    RUNTIME_OWNER_AUTH_MANIFEST_IMC_INVALID_ENTRY_COUNT;;
  fail_if (Z.of_nat (length buf) <? 4 + count * Z.of_nat size_metadata) RUNTIME_OWNER_AUTH_MANIFEST_IMC_INVALID_SIZE;;
  imc_digest ← cmd_sha384_digest buf (0%nat, imc_size);
  verify_imc_signatures o imc_digest t buf;;
  new_slice ← to_err (lift (sort_entries buf (Z.to_nat count))) RUNTIME_OWNER_AUTH_MANIFEST_IMC_DUPLICATE_FW_ID;
  auth_col ← get (λ d, auth_manifest_image_metadata_col (d_fw d));
  auth_slice ← lift (ok_or (active_entries auth_col) RUNTIME_INTERNAL);
  fail_if (sorted_metadata_lists_overlap new_slice auth_slice) RUNTIME_OWNER_AUTH_MANIFEST_IMC_DUPLICATE_FW_ID;;
  mret (mkCollection count
          (new_slice ++ drop (Z.to_nat count) (entries_of_bytes OWNER_AUTH_MANIFEST_IMAGE_METADATA_MAX_COUNT buf))).

(** When only verifying, the collection replaced is a local one. *)
Definition process_imc (cmd_buf : list Z) o t (verify_only : bool) : M Drv unit :=
  imc_candidate ← check_imc cmd_buf o t;
  if verify_only then mret tt else on_fw (set_owner_col imc_candidate).

(** [process_owner_auth_manifest] up to the image metadata. *)
Definition check_owner_preamble (manifest_buf : list Z)
    : M Drv (OwnerAuthManifestPreamble * FwVerificationPqcKeyType) :=
  let err := RUNTIME_OWNER_AUTH_MANIFEST_PREAMBLE_SIZE_LT_MIN in
  bytes ← lift (ok_or (get_range manifest_buf 0 (Z.of_nat OWNER_AUTH_MANIFEST_PREAMBLE_SIZE)) err);
  o ← lift (ok_or (owner_preamble_from_bytes bytes) err);
  fail_if (negb (om_marker o =? OWNER_AUTH_MANIFEST_MARKER)) RUNTIME_OWNER_AUTH_MANIFEST_INVALID_MARKER;;
  fail_if (negb (om_size o =? Z.of_nat OWNER_AUTH_MANIFEST_PREAMBLE_SIZE))
    RUNTIME_OWNER_AUTH_MANIFEST_PREAMBLE_SIZE_MISMATCH;;
  cfi_assert_eq (om_size o) (Z.of_nat OWNER_AUTH_MANIFEST_PREAMBLE_SIZE);;
  fail_if (negb (length manifest_buf =? OWNER_AUTH_MANIFEST_SIZE)%nat) RUNTIME_OWNER_AUTH_MANIFEST_IMC_INVALID_SIZE;;
  fail_if (negb (om_flags o =? 0)) RUNTIME_OWNER_AUTH_MANIFEST_INVALID_FLAGS;;
  cfi_assert_eq (om_flags o) 0;;
  verify_owner_svn (om_svn o);;
  t ← manifest_pqc_type;
  fw ← get (λ d, preamble (d_manifest1 d));
  verify_owner_pub_keys_against_fw_owner o fw t;;
  mret (o, t).

Definition process_owner_auth_manifest (manifest_buf : list Z) (verify_only : bool) : M Drv unit :=
  '(o, t) ← check_owner_preamble manifest_buf;
  process_imc (drop OWNER_AUTH_MANIFEST_PREAMBLE_SIZE manifest_buf) o t verify_only;;
  if negb verify_only then
    digest ← on_engines (hw_sha384_digest manifest_buf);
    on_fw (set_owner_digest digest);;
    on_fw (set_owner_svn (om_svn o))
  else mret tt.

Definition set_owner_auth_manifest_execute (cmd_args : list Z) (verify_only : bool) : M Drv Z :=
  ensure_pl0;;
  manifest_buf ← lift (manifest_of_cmd cmd_args (24 * 1024));
  process_owner_auth_manifest manifest_buf verify_only;;
  mret 0.

(** * STASH_MEASUREMENT *)

Definition stash_measurement (metadata measurement : list Z) (svn : Z) (pl : PauserPrivileges) (locality : Z)
    (access : CaliptraManagedContextAccess) : M Drv Z :=
  let is_mcu_rt := bool_decide (metadata = MCU_RT_RESERVED_FW_ID) in
  fail_if (is_mcu_rt && bool_decide (access = AccessDenied)) RUNTIME_STASH_MEASUREMENT_RESERVED_FW_ID;;
  let tci_type := if is_mcu_rt then MCU_RT_TCI_TYPE else from_le metadata in
  is_dpe_context_threshold_exceeded pl;;
  dpe_result ← on_dpe (λ x, let '(code, x) := dpe_derive_context measurement tci_type svn locality x in (Ok code, x));
  (if dpe_result =? 0 then mret tt else set_extended_error dpe_result);;
  (if dpe_result =? 0 then
     (if is_mcu_rt then
        pos ← get (λ d, dpe_active_context_pos locality (d_dpe d));
        idx ← lift (ok_or pos RUNTIME_DPE_CONTEXT_NOT_FOUND);
        fail_if (idx >? 255) RUNTIME_DPE_CONTEXT_NOT_FOUND;;
        on_dpe (modify (dpe_set_mcu_rt idx))
      else mret tt);;
     on_dpe (extend_stash_pcr measurement)
   else mret tt);;
  mret dpe_result.

(** [StashMeasurementReq] and its response. *)
Definition stash_measurement_execute (cmd_args : list Z) : M Drv (list Z) :=
  pl ← get caller_privilege_level;
  (match pl with PL0 => mret tt | PL1 => fail RUNTIME_INCORRECT_PAUSER_PRIVILEGE_LEVEL end);;
  fail_if (negb (length cmd_args =? 108)%nat) RUNTIME_INSUFFICIENT_MEMORY;;
  locality ← get d_mbox_id;
  dpe_result ← stash_measurement (slice cmd_args 4 8) (slice cmd_args 8 56) (u32_at cmd_args 104) pl locality
                 AccessDenied;
  mret (to_le 4 0 ++ to_le 4 0 ++ to_le 4 dpe_result).

(** * AUTHORIZE_AND_STASH *)

Definition IMAGE_AUTHORIZED : Z := 0xDEADC0DE.
Definition IMAGE_NOT_AUTHORIZED : Z := 0x21523F21.
Definition IMAGE_HASH_MISMATCH : Z := 0x8BFB95CB.
Definition IMAGE_AUTHORIZED_VENDOR_OWNER : Z := IMAGE_AUTHORIZED.
Definition IMAGE_AUTHORIZED_OWNER_ONLY : Z := 0xC0DEDEAD.

Inductive ImageHashSource := InvalidSource | InRequest | LoadAddress | StagingAddress.
Definition hash_source (v : Z) : ImageHashSource :=
  if v =? 1 then InRequest else if v =? 2 then LoadAddress else if v =? 3 then StagingAddress else InvalidSource.

Record AuthorizeAndStashReq := mkAuthorizeAndStashReq {
  ar_fw_id : list Z;
  ar_measurement : list Z;
  ar_svn : Z;
  ar_flags : Z;
  ar_source : Z;
  ar_image_size : Z;
}.
Definition authorize_req_of_bytes (b : list Z) : option AuthorizeAndStashReq :=
  if (length b =? 120)%nat then
    Some (mkAuthorizeAndStashReq (slice b 4 8) (slice b 8 56) (u32_at b 104) (u32_at b 108) (u32_at b 112) (u32_at b 116))
  else None.
(** [AuthAndStashFlags::contains(SKIP_STASH)]. *)
Definition skip_stash (flags : Z) : bool := Z.testbit flags 0.

Definition success_code (src : AuthManifestSource) : Z :=
  match src with VendorOwner => IMAGE_AUTHORIZED_VENDOR_OWNER | Owner => IMAGE_AUTHORIZED_OWNER_ONLY end.

(** [AxiAddr { hi, lo }] as a 64-bit number. *)
Definition axi_addr (a : Addr64) : Z := Z.shiftl (addr_hi a) 32 + addr_lo a.

(** The image is hashed where the manifest says it is. *)
Definition authorize_hashed (e : AuthManifestImageMetadata) (a : Addr64) (image_size code : Z) (claimed : list Z)
    : M Drv (Z * list Z) :=
  let single_dword := dma_single_dword_read (md_flags e) in
  fail_if (single_dword && negb (image_size =? 0) && negb (Z.land (Z.lor (addr_lo a) image_size) 3 =? 0))
    RUNTIME_MAILBOX_INVALID_PARAMS;;
  digest ← to_err (on_engines (if single_dword then hw_dma_sha384_image_single_dword (axi_addr a) image_size
                               else hw_dma_sha384_image (axi_addr a) image_size)) RUNTIME_INTERNAL;
  let measurement := bytes_be digest in
  if bool_decide (md_digest e = measurement) then
    cfi_assert_eq_words (words_be (md_digest e)) (words_be measurement);; mret (code, measurement)
  else mret (IMAGE_HASH_MISMATCH, claimed).

Definition authorize_image (cmd : AuthorizeAndStashReq) : M Drv (Z * list Z) :=
  match hash_source (ar_source cmd) with
  | InvalidSource => fail RUNTIME_AUTH_AND_STASH_UNSUPPORTED_IMAGE_SOURCE
  | source =>
      src ← lift (ok_or (source_from_flags (ar_flags cmd)) RUNTIME_MAILBOX_INVALID_PARAMS);
      fw ← get d_fw;
      match find_metadata_entry_by_type (auth_manifest_image_metadata_col fw)
              (owner_auth_manifest_image_metadata_col fw) (from_le (ar_fw_id cmd)) src with
      | None => mret (IMAGE_NOT_AUTHORIZED, ar_measurement cmd)
      | Some e =>
          if ignore_auth_check (md_flags e) then
            cfi_assert_bool (ignore_auth_check (md_flags e));; mret (success_code src, ar_measurement cmd)
          else
            match source with
            | InRequest =>
                if bool_decide (md_digest e = ar_measurement cmd) then
                  cfi_assert_eq_words (words_be (md_digest e)) (words_be (ar_measurement cmd));;
                  mret (success_code src, ar_measurement cmd)
                else mret (IMAGE_HASH_MISMATCH, ar_measurement cmd)
            | LoadAddress =>
                authorize_hashed e (image_load_address e) (ar_image_size cmd) (success_code src) (ar_measurement cmd)
            | StagingAddress =>
                authorize_hashed e (image_staging_address e) (ar_image_size cmd) (success_code src) (ar_measurement cmd)
            | InvalidSource => mret (IMAGE_NOT_AUTHORIZED, ar_measurement cmd)
            end
      end
  end.

Definition authorize_and_stash (cmd : AuthorizeAndStashReq) (locality : Z) : M Drv Z :=
  '(auth_result, measurement) ← authorize_image cmd;
  (if ((auth_result =? IMAGE_AUTHORIZED_VENDOR_OWNER) || (auth_result =? IMAGE_AUTHORIZED_OWNER_ONLY))
      && negb (skip_stash (ar_flags cmd)) then
     pl ← get caller_privilege_level;
     dpe_result ← stash_measurement (ar_fw_id cmd) measurement (ar_svn cmd) pl locality AccessAllowed;
     if negb (dpe_result =? 0) then
       set_extended_error dpe_result;; fail RUNTIME_AUTH_AND_STASH_MEASUREMENT_DPE_ERROR
     else mret tt
   else mret tt);;
  mret auth_result.

Definition authorize_and_stash_execute (cmd_args : list Z) : M Drv (list Z) :=
  pl ← get caller_privilege_level;
  locality ← get d_mbox_id;
  cmd ← lift (ok_or (authorize_req_of_bytes cmd_args) RUNTIME_INSUFFICIENT_MEMORY);
  fail_if (bool_decide (pl = PL1) && negb (skip_stash (ar_flags cmd))) RUNTIME_INCORRECT_PAUSER_PRIVILEGE_LEVEL;;
  auth_result ← authorize_and_stash cmd locality;
  mret (to_le 4 0 ++ to_le 4 0 ++ to_le 4 auth_result).

(** * GET_IMAGE_INFO *)

Definition get_image_info_execute (cmd_args : list Z) : M Drv (list Z) :=
  fail_if (negb (length cmd_args =? 12)%nat) RUNTIME_INSUFFICIENT_MEMORY;;
  let flags := u32_at cmd_args 8 in
  fail_if (negb (Z.land flags (Z.lnot 6) =? 0)) RUNTIME_MAILBOX_INVALID_PARAMS;;
  src ← lift (ok_or (source_from_flags flags) RUNTIME_MAILBOX_INVALID_PARAMS);
  fw ← get d_fw;
  e ← lift (ok_or (find_metadata_entry_by_type (auth_manifest_image_metadata_col fw)
                     (owner_auth_manifest_image_metadata_col fw) (u32_at cmd_args 4) src)
              RUNTIME_IMAGE_METADATA_NOT_FOUND);
  mret (to_le 4 0 ++ to_le 4 0 ++ to_le 4 (component_id e) ++ to_le 4 (md_flags e)
        ++ to_le 4 (addr_hi (image_load_address e)) ++ to_le 4 (addr_lo (image_load_address e))
        ++ to_le 4 (addr_hi (image_staging_address e)) ++ to_le 4 (addr_lo (image_staging_address e)) ++ md_digest e).

(** * Dispatch *)

(** The response; the commands that set a manifest have none of their own. *)
Definition execute_auth_command (id : AuthCommandId) (cmd_bytes : list Z) : M Drv (list Z) :=
  match id with
  | STASH_MEASUREMENT => stash_measurement_execute cmd_bytes
  | AUTHORIZE_AND_STASH => authorize_and_stash_execute cmd_bytes
  | SET_AUTH_MANIFEST => set_auth_manifest_execute cmd_bytes false;; mret []
  | VERIFY_AUTH_MANIFEST => set_auth_manifest_execute cmd_bytes true;; mret []
  | SET_OWNER_AUTH_MANIFEST => set_owner_auth_manifest_execute cmd_bytes false;; mret []
  | VERIFY_OWNER_AUTH_MANIFEST => set_owner_auth_manifest_execute cmd_bytes true;; mret []
  | GET_IMAGE_INFO => get_image_info_execute cmd_bytes
  end.
End Commands.
