(* ===== verification/AuthLayout.v ===== *)
(** Layout of the authorization manifests: reading a structure and writing it
    back gives the bytes that were read, so that the signed ranges of a
    preamble are ranges of the buffer it came from. *)

From S2P Require Import Prelude Errors Sha256 Lms LmsGen ImageTypes ImageLayout AuthTypes AuthLists AuthManifest.

(** Offsets, as sums of the sizes of the keys and signatures. *)
Ltac olia :=
  unfold AUTH_MANIFEST_PREAMBLE_SIZE, OWNER_AUTH_MANIFEST_PREAMBLE_SIZE, om_off_owner_md_sigs, om_off_owner_sigs,
    off_owner_md_sigs, off_vendor_md_sigs, off_owner_sigs, off_owner_keys, off_vendor_sigs, off_keys,
    size_AuthManifestPubKeys, size_AuthManifestSignatures, size_collection, size_metadata in *; lia.

Lemma u32_at_bytes b i : is_bytes b → (i + 4 ≤ length b)%nat → to_le 4 (u32_at b i) = slice b i (i + 4).
Proof.
  intros Hb Hi. unfold u32_at. rewrite <- (to_le_from_le (slice b i (i + 4))) at 2 by by apply slice_bytes.
  rewrite length_slice by done. f_equal. lia.
Qed.

Lemma words_at_bytes b i : is_bytes b → (i + 48 ≤ length b)%nat →
  bytes_le (words_le (slice b i (i + 48))) = slice b i (i + 48).
Proof.
  intros Hb Hi. apply bytes_le_words_le; [by apply slice_bytes|]. rewrite length_slice by done.
  exists 12%Z. lia.
Qed.

Lemma ecc_at_bytes b i : is_bytes b → (i + 96 ≤ length b)%nat →
  bytes_le (words_le (slice b i (i + 48))) ++ bytes_le (words_le (slice b (i + 48) (i + 96))) = slice b i (i + 96).
Proof.
  intros Hb Hi. replace (i + 96)%nat with (i + 48 + 48)%nat by lia.
  rewrite !words_at_bytes by (done || lia). by rewrite <- slice_split by lia.
Qed.

Lemma pub_keys_at_bytes b i : is_bytes b → (i + size_AuthManifestPubKeys ≤ length b)%nat →
  am_pub_keys_bytes (pub_keys_at b i) = slice b i (i + size_AuthManifestPubKeys).
Proof.
  intros Hb Hi. unfold am_pub_keys_bytes, pub_keys_at, ecc_pub_key_bytes. simpl.
  rewrite ecc_at_bytes by (done || olia). by rewrite <- slice_split by olia.
Qed.

Lemma signatures_at_bytes b i : is_bytes b → (i + size_AuthManifestSignatures ≤ length b)%nat →
  am_signatures_bytes (signatures_at b i) = slice b i (i + size_AuthManifestSignatures).
Proof.
  intros Hb Hi. unfold am_signatures_bytes, signatures_at, ecc_signature_bytes. simpl.
  rewrite ecc_at_bytes by (done || olia). by rewrite <- slice_split by olia.
Qed.

Lemma words_at_slice b i : is_bytes b → (i + 8 ≤ length b)%nat →
  to_le 4 (u32_at b i) ++ to_le 4 (u32_at b (i + 4)) = slice b i (i + 8).
Proof.
  intros Hb Hi. rewrite !u32_at_bytes by (done || lia). replace (i + 8)%nat with (i + 4 + 4)%nat by lia.
  by rewrite <- slice_split by lia.
Qed.

Lemma slice_join {A} (l : list A) a b b' c :
  b = b' → (a ≤ b ≤ c)%nat → slice l a b ++ slice l b' c = slice l a c.
Proof. intros <- ?. by rewrite <- slice_split. Qed.

Ltac join := rewrite <- ?app_assoc; repeat (rewrite slice_join by olia).

(** Reading a preamble and writing it back. *)
Lemma auth_preamble_roundtrip b p :
  is_bytes b → auth_preamble_from_bytes b = Some p → auth_preamble_bytes p = b.
Proof.
  intros Hb. unfold auth_preamble_from_bytes. case_match eqn:Hl; [|done]. apply Nat.eqb_eq in Hl.
  intros <-%(inj Some). unfold auth_preamble_bytes, am_policy_bytes.
  cbn [am_marker am_size am_version am_svn am_flags am_vendor_pub_keys am_vendor_pub_keys_signatures am_owner_pub_keys
    am_owner_pub_keys_signatures am_vendor_image_metdata_signatures am_owner_image_metdata_signatures].
  rewrite !u32_at_bytes, !pub_keys_at_bytes, !signatures_at_bytes by (done || olia). join.
  apply slice_full. olia.
Qed.

Lemma owner_preamble_roundtrip b o :
  is_bytes b → owner_preamble_from_bytes b = Some o → owner_preamble_bytes o = b.
Proof.
  intros Hb. unfold owner_preamble_from_bytes. case_match eqn:Hl; [|done]. apply Nat.eqb_eq in Hl.
  intros <-%(inj Some). unfold owner_preamble_bytes, om_policy_bytes.
  cbn [om_marker om_size om_version om_svn om_flags om_owner_pub_keys om_owner_pub_keys_signatures
    om_owner_image_metdata_signatures].
  rewrite !u32_at_bytes, !pub_keys_at_bytes, !signatures_at_bytes by (done || olia). join.
  apply slice_full. olia.
Qed.

(** ** Image metadata *)

Record wf_metadata (e : AuthManifestImageMetadata) : Prop := {
  wm_words : is_words [fw_id e; component_id e; classification e; md_flags e; addr_lo (image_load_address e);
    addr_hi (image_load_address e); addr_lo (image_staging_address e); addr_hi (image_staging_address e)];
  wm_digest : length (md_digest e) = 48%nat;
  wm_bytes : is_bytes (md_digest e);
}.

Lemma u32_at_u32 b i : is_bytes b → (i + 4 ≤ length b)%nat → is_u32 (u32_at b i).
Proof.
  intros Hb Hi. unfold u32_at. assert (Hs := length_slice b i (i + 4) Hi).
  assert (Hf := from_le_bound (slice b i (i + 4)) (slice_bytes _ _ _ Hb)).
  rewrite Hs in Hf. replace (i + 4 - i)%nat with 4%nat in Hf by lia. change (256 ^ Z.of_nat 4) with (2 ^ 32) in Hf. ulia.
Qed.

Lemma u32_at_nonneg b i : is_bytes b → 0 ≤ u32_at b i.
Proof. intros Hb. apply (from_le_bound (slice b i (i + 4))). by apply slice_bytes. Qed.

Lemma metadata_at_wf b i : is_bytes b → (i + size_metadata ≤ length b)%nat → wf_metadata (metadata_at b i).
Proof.
  intros Hb Hi. unfold metadata_at. split; simpl.
  - repeat (apply Forall_cons; split; [apply u32_at_u32; [done|olia]|]). done.
  - rewrite length_slice by olia. lia.
  - by apply slice_bytes.
Qed.

Lemma length_metadata_bytes e : wf_metadata e → length (metadata_bytes e) = size_metadata.
Proof. intros [_ Hd _]. unfold metadata_bytes. by rewrite !length_app, !length_to_le, Hd. Qed.

Lemma u32_at_app pre w post : is_u32 w → u32_at (pre ++ to_le 4 w ++ post) (length pre) = w.
Proof.
  intros Hw. unfold u32_at. rewrite slice_app_r by done. rewrite slice_app_l by (rewrite length_to_le; lia).
  rewrite Nat.sub_diag, slice_full by (rewrite length_to_le; lia). by apply from_le_to_le_u32.
Qed.

Lemma slice_mid {A} (pre m post : list A) a b :
  a = length pre → b = (length pre + length m)%nat → slice (pre ++ m ++ post) a b = m.
Proof.
  intros -> ->. rewrite slice_app_r by done. rewrite slice_app_l by lia.
  rewrite Nat.sub_diag. apply slice_full. lia.
Qed.

Lemma u32_at_bytes_le pre ws post k w i :
  is_words ws → ws !! k = Some w → i = (length pre + 4 * k)%nat → u32_at (pre ++ bytes_le ws ++ post) i = w.
Proof.
  intros Hw Hk ->. revert pre k Hk. induction Hw as [|v ws Hv Hws IH]; intros pre k Hk; [done|].
  change (bytes_le (v :: ws)) with (to_le 4 v ++ bytes_le ws). rewrite <- app_assoc.
  destruct k as [|k]; simpl in Hk.
  - simplify_eq. rewrite Nat.mul_0_r, Nat.add_0_r. by apply u32_at_app.
  - rewrite app_assoc. rewrite <- (IH (pre ++ to_le 4 v) k Hk). f_equal. rewrite length_app, length_to_le. lia.
Qed.

(** An entry of a list, read where it was written. *)
Lemma metadata_at_mid pre e post i : wf_metadata e → i = length pre → metadata_at (pre ++ metadata_bytes e ++ post) i = e.
Proof.
  intros [Hw Hl Hb] Hi. set (ws := [_; _; _; _; _; _; _; _]) in Hw.
  assert (Hm : metadata_bytes e = bytes_le ws ++ md_digest e) by reflexivity.
  assert (Hu : ∀ k w j, ws !! k = Some w → j = (i + 4 * k)%nat → u32_at (pre ++ metadata_bytes e ++ post) j = w).
  { intros k w j Hk ->. rewrite Hm, <- app_assoc. by apply (u32_at_bytes_le _ _ _ k); [..|lia]. }
  assert (Hd : slice (pre ++ metadata_bytes e ++ post) (i + 32) (i + 80) = md_digest e).
  { rewrite Hm, <- app_assoc, app_assoc. apply slice_mid; rewrite ?length_app, ?length_bytes_le, ?Hl; simpl; lia. }
  unfold metadata_at. rewrite Hd.
  rewrite (Hu 0%nat _ i eq_refl), (Hu 1%nat _ (i + 4)%nat eq_refl), (Hu 2%nat _ (i + 8)%nat eq_refl),
    (Hu 3%nat _ (i + 12)%nat eq_refl), (Hu 4%nat _ (i + 16)%nat eq_refl), (Hu 5%nat _ (i + 20)%nat eq_refl),
    (Hu 6%nat _ (i + 24)%nat eq_refl), (Hu 7%nat _ (i + 28)%nat eq_refl) by lia.
  by destruct e as [? ? ? ? [] [] ?].
Qed.

Lemma length_entries_bytes l : Forall wf_metadata l → length (concat (map metadata_bytes l)) = (size_metadata * length l)%nat.
Proof.
  induction 1 as [|e l He Hl IH]; [done|]. cbn [map concat length].
  rewrite length_app, length_metadata_bytes, IH by done. lia.
Qed.

Lemma entries_at l pre post i :
  Forall wf_metadata l → i = length pre →
  map (λ k, metadata_at (pre ++ concat (map metadata_bytes l) ++ post) (i + size_metadata * k)) (seq 0 (length l)) = l.
Proof.
  intros Hl. revert pre i. induction Hl as [|e l He Hl IH]; intros pre i Hi; [done|].
  cbn [map concat length seq]. rewrite <- app_assoc, metadata_at_mid by (done || lia). f_equal.
  rewrite <- seq_shift, map_map, app_assoc.
  etrans; [|apply (IH (pre ++ metadata_bytes e) (i + size_metadata)%nat)].
  - apply map_ext. intros k. f_equal. lia.
  - rewrite length_app, length_metadata_bytes by done. lia.
Qed.

Lemma entries_of_bytes_app pre l post :
  length pre = 4%nat → Forall wf_metadata l →
  entries_of_bytes (length l) (pre ++ concat (map metadata_bytes l) ++ post) = l.
Proof. intros. by apply entries_at. Qed.

Lemma length_entries_of_bytes k b : length (entries_of_bytes k b) = k.
Proof. unfold entries_of_bytes. by rewrite length_map, length_seq. Qed.

Lemma entries_of_bytes_wf k b :
  is_bytes b → (4 + size_metadata * k ≤ length b)%nat → Forall wf_metadata (entries_of_bytes k b).
Proof.
  intros Hb Hl. apply Forall_forall. intros e (i & -> & Hi)%list_elem_of_fmap.
  apply elem_of_seq in Hi. apply metadata_at_wf; [done|]. unfold size_metadata in *. lia.
Qed.

Lemma take_entries_of_bytes k n b : (k ≤ n)%nat → take k (entries_of_bytes n b) = entries_of_bytes k b.
Proof. intros. unfold entries_of_bytes. rewrite <- fmap_take, take_seq. do 2 f_equal. lia. Qed.

(** The active entries of a collection read from a buffer. *)
Lemma active_of_bytes n b :
  0 ≤ u32_at b 0 ≤ Z.of_nat n →
  active_entries (collection_of_bytes n b) = Some (entries_of_bytes (Z.to_nat (u32_at b 0)) b).
Proof.
  intros Hc. unfold active_entries, get_range, collection_of_bytes. cbn [entry_count image_metadata_list].
  rewrite length_entries_of_bytes, !(proj2 (Z.leb_le _ _)) by lia. cbn [andb]. unfold slice.
  rewrite drop_0, Nat.sub_0_r, take_entries_of_bytes by lia. done.
Qed.

(** What [process_image_metadata_col] stores: the sorted entries, in a
    collection that was zeroed first. *)
Lemma stored_entries buf l :
  is_bytes buf → (length buf ≤ size_collection AUTH_MANIFEST_IMAGE_METADATA_MAX_COUNT)%nat →
  (4 + size_metadata * length l ≤ length buf)%nat → u32_at buf 0 = Z.of_nat (length l) →
  (length l ≤ AUTH_MANIFEST_IMAGE_METADATA_MAX_COUNT)%nat → Forall wf_metadata l →
  active_entries (stored_collection (write_entries buf l)) = Some l.
Proof.
  intros Hb Hmax Hlen Hcount Hcap Hl. unfold stored_collection, write_entries, splice at 2.
  set (post := drop _ buf). unfold splice. rewrite take_0. cbn [app]. rewrite <- !app_assoc.
  set (rest := post ++ _).
  assert (H4 : length (take 4 buf) = 4%nat) by (rewrite length_take; lia).
  assert (Hu : u32_at (take 4 buf ++ concat (map metadata_bytes l) ++ rest) 0 = Z.of_nat (length l)).
  { rewrite <- Hcount. unfold u32_at. rewrite slice_app_l by lia. by rewrite (slice_full (take 4 buf)) by lia. }
  rewrite active_of_bytes by (rewrite Hu; lia). rewrite Hu, Nat2Z.id. by rewrite entries_of_bytes_app.
Qed.

Lemma length_write_entries buf l :
  Forall wf_metadata l → (4 + size_metadata * length l ≤ length buf)%nat → length (write_entries buf l) = length buf.
Proof. intros. unfold write_entries. apply length_splice. rewrite length_entries_bytes by done. lia. Qed.

Lemma slice_take {A} (l : list A) n a b : (b ≤ n)%nat → slice (take n l) a b = slice l a b.
Proof.
  intros Hb. unfold slice. rewrite skipn_firstn_comm, take_take. f_equal. lia.
Qed.

(** The buffers for post-quantum keys and signatures of a preamble. *)
Lemma auth_preamble_pqc b p : is_bytes b → auth_preamble_from_bytes b = Some p →
  is_bytes (am_pqc_pub_key (am_vendor_pub_keys p)) ∧ is_bytes (am_pqc_pub_key (am_owner_pub_keys p)) ∧
  is_bytes (am_pqc_sig (am_vendor_pub_keys_signatures p)) ∧ is_bytes (am_pqc_sig (am_owner_pub_keys_signatures p)) ∧
  is_bytes (am_pqc_sig (am_vendor_image_metdata_signatures p)) ∧
  is_bytes (am_pqc_sig (am_owner_image_metdata_signatures p)).
Proof.
  intros Hb. unfold auth_preamble_from_bytes. case_match; [|done]. intros <-%(inj Some).
  split_and!; by apply slice_bytes.
Qed.

Lemma owner_preamble_pqc b o : is_bytes b → owner_preamble_from_bytes b = Some o →
  is_bytes (am_pqc_pub_key (om_owner_pub_keys o)) ∧ is_bytes (am_pqc_sig (om_owner_pub_keys_signatures o)) ∧
  is_bytes (am_pqc_sig (om_owner_image_metdata_signatures o)).
Proof.
  intros Hb. unfold owner_preamble_from_bytes. case_match; [|done]. intros <-%(inj Some).
  split_and!; by apply slice_bytes.
Qed.
