(* ===== verification/AuthSpec.v ===== *)
(** What an authorization manifest must satisfy to be accepted, in terms of the
    buffer that carries it, the device's registers and the firmware image that
    runs; and what the runtime keeps of it. *)

From S2P Require Import Prelude Errors Sha256 Sha256Alg Lms LmsGen LmsSpec LmsImage ImageTypes Cfi ImageVerify Decides.
From S2P Require Import SocIfc Engines AuthTypes AuthLists AuthManifest.

Section Spec.
Context `{Hcomp : Sha2Compress}.

(** A signature pair of a manifest over a message: ECC over its digest and, by
    the key type, LMS over the digest or ML-DSA over the message. *)
Definition mldsa_signed (W : EngineView) (msg key sig : list Z) : Prop :=
  ∃ k g, mldsa_pub_key_from_prefix key = Some k ∧ mldsa_signature_from_prefix sig = Some g ∧
    ev_mldsa87 W k msg g = Some MldsaSuccess.

Definition pqc_signed (W : EngineView) (t : FwVerificationPqcKeyType) (msg key sig : list Z) : Prop :=
  match t with
  | LMS => lms_signed (ev_sha384 W msg) key sig
  | MLDSA => mldsa_signed W msg key sig
  end.

Definition ecc_signed (W : EngineView) (msg : list Z) (key : ImageEccPubKey) (sig : ImageEccSignature) : Prop :=
  ev_ecc384 W key (ev_sha384 W msg) sig = Some (ecc_r sig).

Definition signed (W : EngineView) t msg ecc_key pqc_key (g : AuthManifestSignatures) : Prop :=
  ecc_signed W msg ecc_key (am_ecc_sig g) ∧ pqc_signed W t msg pqc_key (am_pqc_sig g).

(** A device that runs a firmware image. *)
Record Device := mkDevice {
  dev_engines : EngineView;
  dev_soc : SocIfcRegs;
  dev_manifest1 : ImageManifest;
}.
Implicit Types (V : Device) (t : FwVerificationPqcKeyType) (p : AuthManifestPreamble).

Definition dev_fw V : ImagePreamble := preamble (dev_manifest1 V).
Definition dev_fuses V : FuseRegs := fuse_regs (dev_soc V).

Definition key_type_ok V t : Prop :=
  from_u8 (manifest_pqc_key_type (dev_manifest1 V)) = Some t ∧
  (lifecycle (dev_soc V) ≠ Unprovisioned → from_u8 (u8w (pqc_key_type (dev_fuses V))) = Some t).

(** Anti-rollback applies to provisioned devices unless a fuse disables it. *)
Definition rollback_checked V : Prop :=
  lifecycle (dev_soc V) ≠ Unprovisioned ∧ fuse_bank_anti_rollback_disable (dev_fuses V) = false.

(** The entries that the metadata part of a manifest lists. *)
Definition listed (buf : list Z) : list AuthManifestImageMetadata := entries_of_bytes (Z.to_nat (u32_at buf 0)) buf.

(** ** The SoC manifest *)

Definition preamble_buf (manifest : list Z) : list Z := take AUTH_MANIFEST_PREAMBLE_SIZE manifest.
Definition soc_metadata (manifest : list Z) : list Z := metadata_buf (drop AUTH_MANIFEST_PREAMBLE_SIZE manifest).

Record soc_preamble_ok V (manifest : list Z) p t : Prop := {
  sp_parse : auth_preamble_from_bytes (preamble_buf manifest) = Some p;
  sp_marker : am_marker p = AUTH_MANIFEST_MARKER;
  sp_size : am_size p = Z.of_nat AUTH_MANIFEST_PREAMBLE_SIZE;
  sp_svn : rollback_checked V →
    am_svn p ≤ 128 ∧ am_svn p ≤ max_soc_manifest_fuse_svn (dev_fuses V) ∧ soc_manifest_fuse_svn (dev_fuses V) ≤ am_svn p;
  sp_type : key_type_ok V t;
  (** The firmware vendor signs version, security version, flags and the
      vendor's manifest keys, the firmware owner the owner's. *)
  sp_vendor : signed (dev_engines V) t (slice manifest 8 off_vendor_sigs)
    (vendor_ecc_active_pub_key (dev_fw V)) (vendor_pqc_active_pub_key (dev_fw V)) (am_vendor_pub_keys_signatures p);
  sp_owner : signed (dev_engines V) t (slice manifest 8 off_keys ++ slice manifest off_owner_keys off_owner_sigs)
    (opk_ecc_pub_key (owner_pub_keys (dev_fw V))) (opk_pqc_pub_key (owner_pub_keys (dev_fw V)))
    (am_owner_pub_keys_signatures p);
  sp_debug : auth_flags_contain (am_flags p) DEBUG_IMAGE = true →
    auth_flags_contain (am_flags p) VENDOR_SIGNATURE_REQUIRED = true ∧ vendor_debug_image_allowed (dev_soc V) = true;
}.

Record soc_metadata_ok V (buf : list Z) p t : Prop := {
  sm_count : 1 ≤ u32_at buf 0 ≤ Z.of_nat AUTH_MANIFEST_IMAGE_METADATA_MAX_COUNT;
  sm_length : (4 + size_metadata * Z.to_nat (u32_at buf 0) ≤ length buf)%nat;
  (** The metadata is signed with the keys of the preamble. *)
  sm_vendor : auth_flags_contain (am_flags p) VENDOR_SIGNATURE_REQUIRED = true →
    signed (dev_engines V) t buf (am_ecc_pub_key (am_vendor_pub_keys p)) (am_pqc_pub_key (am_vendor_pub_keys p))
      (am_vendor_image_metdata_signatures p);
  sm_owner :
    signed (dev_engines V) t buf (am_ecc_pub_key (am_owner_pub_keys p)) (am_pqc_pub_key (am_owner_pub_keys p))
      (am_owner_image_metdata_signatures p);
  sm_ids : NoDup (ids (listed buf));
  sm_ueid e : e ∈ listed buf → fw_id e = AUTH_MANIFEST_UEID_FW_ID →
    md_digest e = md_digest (new_ueid (ueid (dev_fuses V)));
}.

Definition soc_manifest_ok V (manifest : list Z) p t : Prop :=
  soc_preamble_ok V manifest p t ∧ soc_metadata_ok V (soc_metadata manifest) p t.

(** ** The owner's manifest *)

Definition owner_metadata (manifest : list Z) : list Z := drop OWNER_AUTH_MANIFEST_PREAMBLE_SIZE manifest.
Implicit Types (o : OwnerAuthManifestPreamble).

Record owner_preamble_ok V (manifest : list Z) o t : Prop := {
  op_size : length manifest = OWNER_AUTH_MANIFEST_SIZE;
  op_parse : owner_preamble_from_bytes (take OWNER_AUTH_MANIFEST_PREAMBLE_SIZE manifest) = Some o;
  op_marker : om_marker o = OWNER_AUTH_MANIFEST_MARKER;
  op_own_size : om_size o = Z.of_nat OWNER_AUTH_MANIFEST_PREAMBLE_SIZE;
  op_flags : om_flags o = 0;
  op_svn : rollback_checked V → ss_owner_manifest_min_svn (dev_soc V) ≤ om_svn o ≤ 255;
  op_type : key_type_ok V t;
  op_owner : signed (dev_engines V) t (slice manifest 8 om_off_owner_sigs)
    (opk_ecc_pub_key (owner_pub_keys (dev_fw V))) (opk_pqc_pub_key (owner_pub_keys (dev_fw V)))
    (om_owner_pub_keys_signatures o);
}.

Record owner_metadata_ok V (buf : list Z) o t : Prop := {
  oo_count : 1 ≤ u32_at buf 0 ≤ Z.of_nat OWNER_AUTH_MANIFEST_IMAGE_METADATA_MAX_COUNT;
  oo_owner :
    signed (dev_engines V) t buf (am_ecc_pub_key (om_owner_pub_keys o)) (am_pqc_pub_key (om_owner_pub_keys o))
      (om_owner_image_metdata_signatures o);
  oo_ids : NoDup (ids (listed buf));
}.

Definition owner_manifest_ok V (manifest : list Z) o t : Prop :=
  owner_preamble_ok V manifest o t ∧ owner_metadata_ok V (owner_metadata manifest) o t.

(** ** The lists kept in persistent memory *)

(** The entries a collection holds, in the order of their firmware ids. *)
Definition holds (c : Collection) (l : list AuthManifestImageMetadata) : Prop :=
  active_entries c = Some l ∧ sorted_ids l.

Definition disjoint_ids (l1 l2 : list AuthManifestImageMetadata) : Prop :=
  ∀ x y, x ∈ l1 → y ∈ l2 → fw_id x ≠ fw_id y.

End Spec.

(** ** Authorization of an image *)

(** The digest to compare an entry with: the caller's, or that of the image in
    memory where the entry says it is. The DMA engine reads single words only
    if address and length are multiples of four. *)
Definition dword_readable (e : AuthManifestImageMetadata) (a : Addr64) (size : Z) : bool :=
  negb (dma_single_dword_read (md_flags e)) || (size =? 0) || ((addr_lo a mod 4 =? 0) && (size mod 4 =? 0)).
Definition memory_measurement (W : EngineView) (e : AuthManifestImageMetadata) (a : Addr64) (size : Z) : option (list Z) :=
  if dword_readable e a size then (λ data, bytes_be (ev_sha384 W data)) <$> ev_axi W (axi_addr a) size else None.
Definition image_measurement (W : EngineView) (cmd : AuthorizeAndStashReq) (e : AuthManifestImageMetadata)
    : option (list Z) :=
  match hash_source (ar_source cmd) with
  | InvalidSource => None
  | InRequest => Some (ar_measurement cmd)
  | LoadAddress => memory_measurement W e (image_load_address e) (ar_image_size cmd)
  | StagingAddress => memory_measurement W e (image_staging_address e) (ar_image_size cmd)
  end.

(** The entry for an image. The id of the device's own identity is never an
    image of the SoC manifest. *)
Definition entry_for (src : AuthManifestSource) (la lo : list AuthManifestImageMetadata) (id : Z)
    (e : AuthManifestImageMetadata) : Prop :=
  fw_id e = id ∧ match src with VendorOwner => e ∈ la ∧ id ≠ AUTH_MANIFEST_UEID_FW_ID | Owner => e ∈ lo end.

(** The three answers, with the digest to be recorded. *)
Inductive authorization (W : EngineView) (la lo : list AuthManifestImageMetadata) (cmd : AuthorizeAndStashReq)
    (src : AuthManifestSource) : Z → list Z → Prop :=
  | auth_unknown :
      (∀ e, ¬ entry_for src la lo (from_le (ar_fw_id cmd)) e) →
      authorization W la lo cmd src IMAGE_NOT_AUTHORIZED (ar_measurement cmd)
  | auth_ignored e :
      entry_for src la lo (from_le (ar_fw_id cmd)) e → ignore_auth_check (md_flags e) = true →
      authorization W la lo cmd src (success_code src) (ar_measurement cmd)
  | auth_matched e :
      entry_for src la lo (from_le (ar_fw_id cmd)) e → ignore_auth_check (md_flags e) = false →
      image_measurement W cmd e = Some (md_digest e) →
      authorization W la lo cmd src (success_code src) (md_digest e)
  | auth_mismatch e m :
      entry_for src la lo (from_le (ar_fw_id cmd)) e → ignore_auth_check (md_flags e) = false →
      image_measurement W cmd e = Some m → m ≠ md_digest e →
      authorization W la lo cmd src IMAGE_HASH_MISMATCH (ar_measurement cmd).

(** What the device and the persistent data show a check. *)
Record AuthView := mkAuthView { av_device : Device; av_fw : FwPersistentData }.
#[export] Instance AuthView_viewed : Viewed AuthView := λ V, ev_reliable (dev_engines (av_device V)).

(** A firmware image whose keys and signatures are buffers of bytes. *)
Record wf_keys (fw : ImagePreamble) : Prop := {
  wf_vendor_pqc : is_bytes (vendor_pqc_active_pub_key fw);
  wf_owner_pqc : is_bytes (opk_pqc_pub_key (owner_pub_keys fw));
}.

Definition auth_sees {Sh Op X HOp Acc Mu D : Type} `{Hcomp : Sha2Compress, Halg : !Sha256Alg Sh Op,
    Haok : !Sha256AlgOk Sh Op, Heng : Engines X HOp Acc Mu, Heok : !EnginesOk X HOp Acc Mu}
    (d : Drivers Sh X D) (V : AuthView) : Prop :=
  hw_sees (d_hw d) (dev_engines (av_device V)) ∧ alg_ready (d_sha256 d) ∧
  same_device (d_soc_ifc d) (dev_soc (av_device V)) ∧ d_manifest1 d = dev_manifest1 (av_device V) ∧
  d_fw d = av_fw V.
