(* ===== verification/AuthProofs.v ===== *)
(** The checks on authorization manifests decide the conditions of the
    specification: one lemma per function, composed in the order of the
    code. *)

From S2P Require Import Prelude Errors Sha256 Sha256Alg Lms LmsGen LmsSpec LmsProofs LmsImage ImageTypes ImageLayout Cfi.
From S2P Require Import ImageVerify Decides SocIfc Engines AuthTypes AuthLists AuthManifest AuthLayout AuthSpec.

Section Checks.
Context {Sh Op X HOp Acc Mu D : Type}.
Context `{Hcomp : Sha2Compress, Hcok : !Sha2CompressOk, Halg : !Sha256Alg Sh Op, Haok : !Sha256AlgOk Sh Op}.
Context `{Heng : Engines X HOp Acc Mu, Heok : !EnginesOk X HOp Acc Mu, Hdpe : RuntimeDpe D}.
Abbreviation Drv := (Drivers Sh X D).
Context (V : AuthView).
Abbreviation W := (dev_engines (av_device V)).
Abbreviation dec := (decides (E := Drv) auth_sees V).
Abbreviation returns_op := (op_returns (E := Drv) auth_sees V).
Implicit Types (t : FwVerificationPqcKeyType) (p : AuthManifestPreamble).

(** ** The engines as the commands use them *)

Lemma on_engines_returns {A} (o : option A) (m : M X A) :
  op_returns hw_sees W o m → returns_op o (on_engines m).
Proof.
  intros Hm d (Hw & Hr & Hs & Hm1 & Hf). destruct (Hm (d_hw d) Hw) as (r & x & Em & Hw' & Hres).
  unfold on_engines. rewrite Em. eexists r, _. split; [done|]. split; [by split_and!|done].
Qed.

Lemma lms_returns msg k g : wf_lms_key k → wf_lms_sig g →
  returns_op (lms_candidate (bytes_be (ev_sha384 W msg)) k g) (cmd_lms_verify (ev_sha384 W msg) k g).
Proof.
  intros Hk Hg d (Hw & Hr & Hs & Hm1 & Hf). pose proof (hw_digest_length W _ msg Hw) as Hl.
  destruct (lms_cfi_total (bytes_be (ev_sha384 W msg)) k g (d_sha256 d)) as (r & sh & E & Hr' & Hres);
    [done..|apply bytes_be_bytes|rewrite length_bytes_be; lia|].
  unfold cmd_lms_verify, on_sha. rewrite E. eexists r, _. split; [done|]. split; [by split_and!|by destruct r].
Qed.

Lemma cmd_digest_ok {B} buf range data (k : list Z → M Drv B) c b :
  offset_data buf range = Ok data → dec (k (ev_sha384 W data)) c b → dec (cmd_sha384_digest buf range ≫= k) c b.
Proof.
  intros Hd Hk. unfold cmd_sha384_digest. rewrite Hd. cbn [lift].
  apply (op_some _ _ (ev_sha384 W data)); [|done]. apply on_engines_returns, hw_digest_ok.
Qed.

Lemma offset_data_full buf : offset_data buf (0%nat, length buf) = Ok buf.
Proof. unfold offset_data, get_slice. simpl. rewrite Nat.sub_0_r, decide_True by done. simpl. by rewrite drop_0, firstn_all. Qed.

Lemma offset_data_slice buf a b : (a ≤ b ≤ length buf)%nat → offset_data buf (a, b) = Ok (slice buf a b).
Proof. intros. unfold offset_data, get_slice. simpl. by rewrite decide_True by lia. Qed.

(** ** Signatures *)

Lemma check_ecc_ok msg key sig e : dec (check_ecc (ev_sha384 W msg) key sig e) (ecc_signed W msg key sig) tt.
Proof.
  unfold check_ecc. eapply decides_iff.
  2:{ eapply decides_op; [apply op_to_err, on_engines_returns, hw_ecc384_ok|]. intros x _. apply decides_check_digest. }
  unfold ecc_signed. naive_solver.
Qed.

Lemma check_lms_ok msg key sig e e' : is_bytes key → is_bytes sig →
  dec (check_lms (ev_sha384 W msg) key sig e e') (lms_signed (ev_sha384 W msg) key sig) tt.
Proof.
  intros Hk Hs. unfold check_lms. eapply decides_iff.
  2:{ apply decides_option. intros k Hpk. apply decides_option. intros g Hg. eapply decides_op.
      - apply op_to_err, lms_returns; [exact (lms_pub_key_from_prefix_wf _ _ Hk Hpk)|exact (lms_signature_from_prefix_wf _ _ Hs Hg)].
      - intros x _. apply decides_check_digest. }
  unfold lms_signed. setoid_rewrite <- lms_candidate_ok. split.
  - intros (k & Hpk & g & Hg & x & Hx & ->). by exists k, g.
  - intros (k & g & Hpk & Hg & Hx). exists k. split; [done|]. exists g. split; [done|]. by eexists.
Qed.

Lemma mldsa_result_ok r e : dec (mldsa_result r e) (r = MldsaSuccess) tt.
Proof.
  unfold mldsa_result, fail_if. case_bool_decide as Hr.
  - apply (decides_iff _ _ _ False); [tauto|]. apply decides_fail.
  - apply (decides_iff _ _ _ True); [|apply decides_ret]. destruct r; naive_solver.
Qed.

Lemma mldsa_signed_iff msg key sig :
  (∃ k, mldsa_pub_key_from_prefix key = Some k ∧ ∃ g, mldsa_signature_from_prefix sig = Some g ∧
     ∃ r, ev_mldsa87 W k msg g = Some r ∧ r = MldsaSuccess) ↔ mldsa_signed W msg key sig.
Proof.
  split; [intros (k & Hk & g & Hg & r & Hr & ->); by exists k, g|].
  intros (k & g & Hk & Hg & Hr). exists k. split; [done|]. exists g. split; [done|]. by exists MldsaSuccess.
Qed.

Lemma check_mldsa_ok msg key sig e e' e'' : dec (check_mldsa msg key sig e e' e'') (mldsa_signed W msg key sig) tt.
Proof.
  unfold check_mldsa. eapply decides_iff.
  2:{ apply decides_option. intros k Hpk. apply decides_option. intros g Hg.
      eapply decides_op; [apply on_engines_returns, hw_mldsa87_ok|]. intros x _. apply mldsa_result_ok. }
  apply mldsa_signed_iff.
Qed.

(** A message that lies in one buffer. *)
Lemma check_signed_ok buf range msg ecc_key pqc_key g t e e1 e2 e3 e4 e5 :
  offset_data buf range = Ok msg → is_bytes pqc_key → is_bytes (am_pqc_sig g) →
  dec (check_ecc (ev_sha384 W msg) ecc_key (am_ecc_sig g) e;;
       match t with
       | LMS => check_lms (ev_sha384 W msg) pqc_key (am_pqc_sig g) e1 e2
       | MLDSA => data ← lift (offset_data buf range); check_mldsa data pqc_key (am_pqc_sig g) e3 e4 e5
       end) (signed W t msg ecc_key pqc_key g) tt.
Proof.
  intros Hd Hk Hs. eapply decides_bind; [apply check_ecc_ok|intros _]. destruct t.
  - rewrite Hd. apply check_mldsa_ok.
  - by apply check_lms_ok.
Qed.

(** ** The SoC manifest *)

Lemma preamble_range manifest p a b :
  is_bytes manifest → auth_preamble_from_bytes (preamble_buf manifest) = Some p →
  (a ≤ b ≤ AUTH_MANIFEST_PREAMBLE_SIZE)%nat →
  offset_data (auth_preamble_bytes p) (a, b) = Ok (slice manifest a b).
Proof.
  intros Hb Hp Hab. rewrite (auth_preamble_roundtrip (preamble_buf manifest) p (Forall_take _ _ _ Hb) Hp).
  assert (length (preamble_buf manifest) = AUTH_MANIFEST_PREAMBLE_SIZE).
  { unfold auth_preamble_from_bytes in Hp. by case_match eqn:E; [apply Nat.eqb_eq in E|]. }
  rewrite offset_data_slice by lia. f_equal. unfold preamble_buf. apply slice_take. lia.
Qed.

Lemma on_engines_bind {A B} (m : M X A) (k : A → M X B) (d : Drv) :
  on_engines (m ≫= k) d = (on_engines m ≫= λ a, on_engines (k a)) d.
Proof. unfold on_engines, mbind, M_bind. destruct (m (d_hw d)) as [[a|e|w] x]; done. Qed.

Lemma op_returns_ext {A} (o : option A) (m m' : M Drv A) :
  (∀ d, m d = m' d) → returns_op o m' → returns_op o m.
Proof. intros He Hm d Hd. rewrite He. by apply Hm. Qed.

(** Streaming two ranges into an operation of an engine. *)
Lemma stream_ranges {O A} (init : M X O) (update : O → list Z → M X O) (finish : O → M X A) buf r1 r2 d1 d2 (d : Drv) :
  offset_data buf r1 = Ok d1 → offset_data buf r2 = Ok d2 →
  (op ← on_engines init;
   op ← foldM (λ op range, x ← lift (offset_data buf range); on_engines (update op x)) op [r1; r2];
   on_engines (finish op)) d
  = on_engines (op ← init; op ← foldM update op [d1; d2]; finish op) d.
Proof.
  intros H1 H2. cbn [foldM]. rewrite H1, H2. unfold on_engines, mbind, M_bind, lift, mret, M_ret.
  destruct (init (d_hw d)) as [[op|e|w] x]; [|done..]. cbn.
  destruct (update op d1 x) as [[op1|e|w] x1]; [|done..]. cbn.
  destruct (update op1 d2 x1) as [[op2|e|w] x2]; [|done..]. done.
Qed.

(** The rest of a function after such a stream. *)
Lemma decides_stream {O O' A B} (m : M Drv O) (f : O → M Drv O') (g : O' → M Drv A) (k : A → M Drv B) c b :
  dec ((x ← m; y ← f x; g y) ≫= k) c b → dec (x ← m; y ← f x; z ← g y; k z) c b.
Proof.
  intros Hd d Hs. destruct (Hd d Hs) as (r & d' & E & H). exists r, d'. rewrite <- E. split; [|done].
  unfold mbind, M_bind. destruct (m d) as [[x|e|w] d1]; [|done..]. by destruct (f x d1) as [[y|e|w] d2].
Qed.

Section SocManifest.
Context (manifest : list Z) (p : AuthManifestPreamble).
Context (Hb : is_bytes manifest) (Hp : auth_preamble_from_bytes (preamble_buf manifest) = Some p).
Context (Hwf : wf_keys (dev_fw (av_device V))).
Abbreviation fw := (dev_fw (av_device V)).
Abbreviation owner_message := (slice manifest 8 off_keys ++ slice manifest off_owner_keys off_owner_sigs).

Lemma verify_vendor_signed_data_ok t :
  dec (verify_vendor_signed_data p fw t)
    (signed W t (slice manifest 8 off_vendor_sigs) (vendor_ecc_active_pub_key fw) (vendor_pqc_active_pub_key fw)
       (am_vendor_pub_keys_signatures p)) tt.
Proof.
  assert (Hr : offset_data (auth_preamble_bytes p) vendor_signed_data_range = Ok (slice manifest 8 off_vendor_sigs))
    by (apply preamble_range; [done..|olia]).
  destruct (auth_preamble_pqc _ _ (Forall_take _ _ _ Hb) Hp) as (_ & _ & Hs & _).
  unfold verify_vendor_signed_data. cbv zeta. eapply cmd_digest_ok; [done|]. apply check_signed_ok; [done|apply Hwf|done].
Qed.

Lemma owner_digest_ok {B} (k : list Z → M Drv B) c b :
  dec (k (ev_sha384 W owner_message)) c b → dec (owner_signed_data_digest p ≫= k) c b.
Proof.
  intros Hk. apply (op_some _ _ (ev_sha384 W owner_message)); [|done].
  eapply op_returns_ext.
  - intros d. apply stream_ranges; apply (preamble_range manifest); [done..|olia|done|done|olia].
  - apply on_engines_returns. rewrite <- (app_nil_r (slice manifest off_owner_keys off_owner_sigs)). apply (hw_stream_ok W [_; _]).
Qed.

Lemma verify_owner_signed_data_ok t :
  dec (verify_owner_signed_data p fw t)
    (signed W t owner_message (opk_ecc_pub_key (owner_pub_keys fw)) (opk_pqc_pub_key (owner_pub_keys fw))
       (am_owner_pub_keys_signatures p)) tt.
Proof.
  destruct (auth_preamble_pqc _ _ (Forall_take _ _ _ Hb) Hp) as (_ & _ & _ & Hs & _).
  unfold verify_owner_signed_data. cbv zeta. apply owner_digest_ok.
  eapply decides_bind; [apply check_ecc_ok|intros _]. destruct t; [|by apply check_lms_ok; [apply Hwf|]].
  eapply decides_iff.
  2:{ apply decides_option. intros k Hpk. apply decides_option. intros g Hg. apply decides_stream.
      apply (op_some _ _ (ev_mu W k owner_message)).
      - eapply op_returns_ext.
        + intros d. apply (stream_ranges _ (hw_mu_update) hw_mu_finalize); apply (preamble_range manifest); [done..|olia|done|done|olia].
        + apply on_engines_returns. rewrite <- (app_nil_r (slice manifest off_owner_keys off_owner_sigs)).
          apply (hw_mu_ok W k [_; _]).
      - eapply decides_op; [apply on_engines_returns, hw_external_mu_ok|]. intros x _. apply mldsa_result_ok. }
  apply mldsa_signed_iff.
Qed.
Lemma metadata_signed_ok ecc_key pqc_key g buf t e e1 e2 e3 e4 e5 :
  is_bytes pqc_key → is_bytes (am_pqc_sig g) →
  dec (check_ecc (ev_sha384 W buf) ecc_key (am_ecc_sig g) e;;
       match t with
       | LMS => check_lms (ev_sha384 W buf) pqc_key (am_pqc_sig g) e1 e2
       | MLDSA =>
           data ← lift (offset_data buf (0%nat, length buf)); check_mldsa data pqc_key (am_pqc_sig g) e3 e4 e5
       end) (signed W t buf ecc_key pqc_key g) tt.
Proof. apply check_signed_ok, offset_data_full. Qed.

Lemma verify_vendor_image_metadata_col_ok buf t :
  dec (verify_vendor_image_metadata_col p (ev_sha384 W buf) t buf)
    (auth_flags_contain (am_flags p) VENDOR_SIGNATURE_REQUIRED = true →
     signed W t buf (am_ecc_pub_key (am_vendor_pub_keys p)) (am_pqc_pub_key (am_vendor_pub_keys p))
       (am_vendor_image_metdata_signatures p)) tt.
Proof.
  destruct (auth_preamble_pqc _ _ (Forall_take _ _ _ Hb) Hp) as (Hk & _ & _ & _ & Hs & _).
  unfold verify_vendor_image_metadata_col. cbv zeta. destruct (auth_flags_contain _ _); cbn [negb].
  - eapply decides_iff; [|by apply metadata_signed_ok]. naive_solver.
  - eapply decides_iff; [|apply decides_ret]. naive_solver.
Qed.

Lemma verify_owner_image_metadata_col_ok buf t :
  dec (verify_owner_image_metadata_col p (ev_sha384 W buf) t buf)
    (signed W t buf (am_ecc_pub_key (am_owner_pub_keys p)) (am_pqc_pub_key (am_owner_pub_keys p))
       (am_owner_image_metdata_signatures p)) tt.
Proof.
  destruct (auth_preamble_pqc _ _ (Forall_take _ _ _ Hb) Hp) as (_ & Hk & _ & _ & _ & Hs).
  by apply metadata_signed_ok.
Qed.
End SocManifest.

(** ** Policy *)

Lemma sees_lifecycle (d : Drv) : auth_sees d V → soc_lifecycle d = lifecycle (dev_soc (av_device V)).
Proof. intros (_ & _ & Hs & _). by apply same_device_reads. Qed.
Lemma sees_fuses (d : Drv) : auth_sees d V → fuse_bank d = dev_fuses (av_device V).
Proof. intros (_ & _ & Hs & _). by apply same_device_reads. Qed.
Lemma sees_debug (d : Drv) : auth_sees d V → debug_artifacts_allowed d = vendor_debug_image_allowed (dev_soc (av_device V)).
Proof. intros (_ & _ & Hs & _). by apply same_device_reads. Qed.
Lemma sees_min_svn (d : Drv) :
  auth_sees d V → ss_owner_manifest_min_svn (d_soc_ifc d) = ss_owner_manifest_min_svn (dev_soc (av_device V)).
Proof. intros (_ & _ & Hs & _). by apply same_device_reads. Qed.

#[local] Instance rollback_checked_dec : Decision (rollback_checked (av_device V)).
Proof. unfold rollback_checked. apply _. Defined.

Lemma manifest_svn_check_required_ok :
  dec manifest_svn_check_required True (bool_decide (rollback_checked (av_device V))).
Proof.
  unfold manifest_svn_check_required. set (b := bool_decide _).
  eapply decides_read; [apply sees_lifecycle|]. destruct (decide (lifecycle (dev_soc (av_device V)) = Unprovisioned)) as [Hl|Hl].
  - rewrite bool_decide_eq_true_2 by done. eapply decides_read; [apply sees_lifecycle|].
    assert (b = false) as -> by (apply bool_decide_eq_false; by intros []).
    eapply decides_iff; [|eapply decides_bind; [by apply decides_assert_eq|intros _; apply decides_ret]]. tauto.
  - rewrite bool_decide_eq_false_2 by done. eapply decides_read; [apply sees_fuses|].
    destruct (fuse_bank_anti_rollback_disable _) eqn:Hf.
    + assert (b = false) as -> by (apply bool_decide_eq_false; intros []; congruence).
      eapply decides_read; [apply sees_fuses|].
      eapply decides_iff; [|eapply decides_bind; [by apply decides_assert_bool|intros _; apply decides_ret]]. tauto.
    + assert (b = true) as -> by (by apply bool_decide_eq_true). apply decides_ret.
Qed.

Lemma decides_assert_le a b : a ≤ b → dec (cfi_assert_le a b) True tt.
Proof. intros. unfold cfi_assert_le. rewrite (proj2 (Z.leb_le a b)) by done. apply decides_ret. Qed.
Lemma decides_assert_ge a b : b ≤ a → dec (cfi_assert_ge a b) True tt.
Proof. intros. unfold cfi_assert_ge. rewrite Z.geb_leb, (proj2 (Z.leb_le b a)) by done. apply decides_ret. Qed.

Lemma manifest_verify_svn_ok svn :
  dec (manifest_verify_svn svn)
    (rollback_checked (av_device V) →
     svn ≤ 128 ∧ svn ≤ max_soc_manifest_fuse_svn (dev_fuses (av_device V)) ∧
     soc_manifest_fuse_svn (dev_fuses (av_device V)) ≤ svn) tt.
Proof.
  unfold manifest_verify_svn. destruct (decide (rollback_checked (av_device V))) as [Hr|Hr]; eapply decides_iff.
  2:{ eapply decides_bind; [apply manifest_svn_check_required_ok|intros _].
      rewrite bool_decide_eq_true_2 by done. eapply decides_read; [apply sees_fuses|]. eapply decides_bind.
      - apply decides_if_fail. bool_prop. intros [H1 H2].
        eapply decides_bind; [by apply decides_assert_le|intros _; by apply decides_assert_le].
      - intros _. apply decides_if_fail. bool_prop. intros H1. by apply decides_assert_ge. }
  3:{ eapply decides_bind; [apply manifest_svn_check_required_ok|intros _].
      rewrite bool_decide_eq_false_2 by done. apply decides_ret. }
  - bool_prop. tauto.
  - tauto.
Qed.

Lemma manifest_pqc_type_ok :
  settles (E := Drv) auth_sees V manifest_pqc_type (λ t, key_type_ok (av_device V) t).
Proof.
  unfold manifest_pqc_type, key_type_ok. eapply settles_iff.
  2:{ eapply (settles_read _ _ _ (dev_manifest1 (av_device V))); [by intros d (_ & _ & _ & Hm & _)|].
      apply (settles_lift _ _ _ _ _ (λ t t', t' = t ∧ (lifecycle (dev_soc (av_device V)) ≠ Unprovisioned →
        from_u8 (u8w (pqc_key_type (dev_fuses (av_device V)))) = Some t'))).
      intros t Ht. eapply settles_read; [apply sees_lifecycle|].
      case_bool_decide as Hl.
      - eapply settles_iff; [|apply settles_ret]. naive_solver.
      - eapply settles_read; [apply sees_fuses|]. eapply settles_iff.
        2:{ apply settles_lift. intros t' Ht'. apply settles_fail_if. intros _. apply settles_ret. }
        intros x. setoid_rewrite bool_decide_eq_false. split.
        + intros (t' & Ht' & Hn & ->). apply dec_stable in Hn. by subst.
        + intros [-> Hx]. exists t. split; [auto|]. split; [|done]. tauto. }
  intros t. naive_solver.
Qed.

(** Only the entry for the device's own identity has its digest checked here. *)
Lemma find_ueid l : NoDup (ids l) →
  match List.find (λ m, fw_id m =? AUTH_MANIFEST_UEID_FW_ID) l with
  | Some m => m ∈ l ∧ fw_id m = AUTH_MANIFEST_UEID_FW_ID ∧
      ∀ e, e ∈ l → fw_id e = AUTH_MANIFEST_UEID_FW_ID → e = m
  | None => ∀ e, e ∈ l → fw_id e ≠ AUTH_MANIFEST_UEID_FW_ID
  end.
Proof.
  intros Hn. destruct (List.find _ l) as [m|] eqn:Hf.
  - apply find_some in Hf as [Hm%list_elem_of_In Hid%Z.eqb_eq]. split_and!; [done..|].
    intros e He Hide. apply list_elem_of_lookup in Hm as [i Hi], He as [j Hj].
    assert (Hl : ∀ k x, l !! k = Some x → ids l !! k = Some (fw_id x))
      by (intros k x Hk; change (ids l) with (fw_id <$> l); by rewrite list_lookup_fmap, Hk).
    assert (i = j) by (eapply NoDup_lookup; [done|by apply Hl|rewrite (Hl j e) by done; congruence]).
    congruence.
  - intros e He%list_elem_of_In Hid. pose proof (find_none _ _ Hf e He) as Hne. simpl in Hne. by apply Z.eqb_neq in Hne.
Qed.

Lemma verify_ueid_ok l u : NoDup (ids l) →
  dec (verify_ueid l u) (∀ e, e ∈ l → fw_id e = AUTH_MANIFEST_UEID_FW_ID → md_digest e = md_digest (new_ueid u)) tt.
Proof.
  intros Hn%find_ueid. unfold verify_ueid. destruct (List.find _ l) as [m|].
  - cbv zeta. destruct Hn as (Hm & Hid & Hu). eapply decides_iff.
    2:{ apply decides_if_fail. intros Hd. apply decides_assert_words. apply bool_decide_eq_false, dec_stable in Hd. by rewrite Hd. }
    rewrite bool_decide_eq_false. split.
    + intros [Hd%dec_stable _] e He Hide. by rewrite (Hu e He Hide).
    + intros H. split; [|done]. intros Hd. by apply Hd, H.
  - eapply decides_iff; [|apply decides_ret]. naive_solver.
Qed.

(** ** The list of image metadata *)

Lemma sort_entries_no_abort buf n w : sort_entries buf n ≠ Abort w.
Proof.
  unfold sort_entries. pose proof (sort_ok (entries_of_bytes n buf)) as Hs.
  destruct (sort_and_check_duplicate_fwid _) as [[u|e|w'] l]; simpl; [done..|]. by destruct Hs.
Qed.

Lemma sort_entries_value buf n :
  match value_of (sort_entries buf n) with
  | Some l => NoDup (ids (entries_of_bytes n buf)) ∧ l ≡ₚ entries_of_bytes n buf ∧ sorted_ids l
  | None => ¬ NoDup (ids (entries_of_bytes n buf))
  end.
Proof.
  pose proof (sort_decides (entries_of_bytes n buf)) as Hd. unfold sort_entries.
  destruct (sort_and_check_duplicate_fwid _) as [[[]|e|w] l] eqn:E; simpl.
  - pose proof (sort_ok (entries_of_bytes n buf)) as Hs. rewrite E in Hs. destruct Hs as [Hp Hs].
    split; [|done]. apply Hd. eauto.
  - intros (? & ? & _)%Hd. done.
  - intros (? & ? & _)%Hd. done.
Qed.

Lemma overlap_false l1 l2 : sorted_ids l1 → sorted_ids l2 →
  sorted_metadata_lists_overlap l1 l2 = false ↔ disjoint_ids l1 l2.
Proof.
  intros H1 H2. rewrite <- not_true_iff_false, overlap_ok by done. unfold disjoint_ids. naive_solver.
Qed.

Lemma check_image_metadata_col_ok manifest p t lo cmd_buf :
  is_bytes manifest → auth_preamble_from_bytes (preamble_buf manifest) = Some p → is_bytes cmd_buf →
  holds (owner_auth_manifest_image_metadata_col (av_fw V)) lo →
  settles (E := Drv) auth_sees V (check_image_metadata_col cmd_buf p t) (λ l,
    soc_metadata_ok (av_device V) (metadata_buf cmd_buf) p t ∧ l ≡ₚ listed (metadata_buf cmd_buf) ∧
    sorted_ids l ∧ disjoint_ids l lo).
Proof.
  intros Hb Hp Hbc [Hact Hslo]. unfold check_image_metadata_col. cbv zeta.
  set (buf := metadata_buf cmd_buf). assert (Hbb : is_bytes buf) by by apply Forall_take. eapply settles_iff.
  2:{ apply settles_fail_if. intros _. apply settles_fail_if. intros _. apply settles_fail_if. intros _.
      eapply settles_some.
      { unfold cmd_sha384_digest. rewrite offset_data_full. apply on_engines_returns, hw_digest_ok. }
      eapply settles_check; [by apply (verify_vendor_image_metadata_col_ok manifest)|intros _].
      eapply settles_check; [by apply (verify_owner_image_metadata_col_ok manifest)|intros _].
      eapply settles_op; [apply op_lift, sort_entries_no_abort|]. intros l Hl.
      pose proof (sort_entries_value buf (Z.to_nat (u32_at buf 0))) as Hv. rewrite Hl in Hv.
      destruct Hv as (Hnd & Hperm & Hsl). eapply settles_read; [apply sees_fuses|].
      eapply settles_check; [apply verify_ueid_ok; by apply sorted_ids_NoDup|intros _].
      eapply settles_read; [by intros d (_ & _ & _ & _ & ->)|]. rewrite Hact. cbn [ok_or lift].
      apply (settles_fail_if _ _ (sorted_metadata_lists_overlap l lo)). intros _. apply settles_ret. }
  intros l. pose proof (sort_entries_value buf (Z.to_nat (u32_at buf 0))) as Hv. split.
  - intros (H4 & [Hc0 Hc1]%orb_false_iff & Hlen & Hven & Hown & x & Hx & Hu & Ho & ->). rewrite Hx in Hv.
    apply Z.eqb_neq in Hc0. rewrite Z.gtb_ltb in Hc1. apply Z.ltb_ge in Hc1, Hlen. pose proof (u32_at_nonneg buf 0 Hbb).
    destruct Hv as (Hnd & Hperm & Hsl). split; [|split; [done|split; [done|by apply overlap_false]]].
    split; [lia|unfold size_metadata in *; lia|done..|]. intros e He. apply Hu. by rewrite Hperm.
  - intros ([Hc Hlen Hven Hown Hnd Hu] & Hperm & Hsl & Hdis). fold buf in Hperm.
    assert (Hbuf : (length buf ≤ length cmd_buf)%nat) by (unfold buf, metadata_buf; rewrite length_take; lia).
    split; [apply Nat.ltb_ge; lia|]. split; [bool_prop; lia|].
    split; [bool_prop; unfold size_metadata in *; lia|]. split; [done|]. split; [done|].
    destruct (value_of _) as [x|]; [|done]. destruct Hv as (_ & Hpx & Hsx).
    assert (l = x) as -> by (apply sorted_ids_unique; [done..|]; by rewrite Hperm, Hpx).
    exists x. split; [done|]. split; [|split; [by apply overlap_false|done]].
    intros e He. apply Hu. by rewrite <- Hpx.
Qed.

(** ** The preamble of the SoC manifest *)

Lemma preamble_slice (manifest : list Z) n b :
  get_range manifest 0 (Z.of_nat n) = Some b ↔ (n ≤ length manifest)%nat ∧ b = take n manifest.
Proof.
  unfold get_range, slice. rewrite Nat2Z.id, drop_0, Nat.sub_0_r, (proj2 (Z.leb_le 0 _)) by lia. cbn [andb].
  destruct (Z.leb_spec (Z.of_nat n) (Z.of_nat (length manifest))).
  - split; [intros <-%(inj Some); split; [lia|done]|by intros [_ ->]].
  - split; [done|lia].
Qed.

Lemma debug_policy_ok flags :
  dec (if auth_flags_contain flags DEBUG_IMAGE then
         fail_if (negb (auth_flags_contain flags VENDOR_SIGNATURE_REQUIRED)) RUNTIME_AUTH_MANIFEST_INVALID_FLAGS;;
         allowed ← get debug_artifacts_allowed;
         fail_if (negb allowed) RUNTIME_AUTH_MANIFEST_DEBUG_IMAGE_NOT_ALLOWED
       else mret tt)
    (auth_flags_contain flags DEBUG_IMAGE = true →
     auth_flags_contain flags VENDOR_SIGNATURE_REQUIRED = true ∧
     vendor_debug_image_allowed (dev_soc (av_device V)) = true) tt.
Proof.
  destruct (auth_flags_contain flags DEBUG_IMAGE).
  - eapply decides_iff.
    2:{ apply decides_fail_if. intros _. eapply decides_read; [apply sees_debug|]. apply decides_guard. }
    rewrite !negb_false_iff. naive_solver.
  - eapply decides_iff; [|apply decides_ret]. naive_solver.
Qed.

Lemma check_auth_preamble_ok manifest : is_bytes manifest → wf_keys (dev_fw (av_device V)) →
  settles (E := Drv) auth_sees V (check_auth_preamble manifest) (λ x,
    x.1.1 = preamble_buf manifest ∧ soc_preamble_ok (av_device V) manifest x.1.2 x.2).
Proof.
  intros Hb Hwf. unfold check_auth_preamble. cbv zeta. eapply settles_iff.
  2:{ apply settles_lift. intros b Hbuf. apply settles_lift. intros p Hpb.
      assert (Hp : auth_preamble_from_bytes (preamble_buf manifest) = Some p)
        by (apply preamble_slice in Hbuf as [_ ->]; done).
      apply settles_fail_if. intros _. apply settles_fail_if. intros _.
      eapply settles_check; [apply manifest_verify_svn_ok|intros _].
      eapply settles_bind; [apply manifest_pqc_type_ok| |by intros t t' z [Ht _] [Ht' _]; simplify_eq].
      intros t Ht. eapply (settles_read _ _ _ (dev_fw (av_device V))); [by intros d (_ & _ & _ & Hm & _); rewrite Hm|].
      eapply settles_check; [by apply (verify_vendor_signed_data_ok manifest)|intros _].
      eapply settles_check; [apply debug_policy_ok|intros _].
      eapply settles_check; [by apply (verify_owner_signed_data_ok manifest)|intros _]. apply settles_ret. }
  intros [[b p] t]. simpl. setoid_rewrite preamble_slice. split.
  - intros (x & [Hl ->] & q & Hq & Hm & Hsz & Hsvn & t' & Ht & Hv & Hd & Ho & [= -> -> ->]). split; [done|].
    apply negb_false_iff, Z.eqb_eq in Hm, Hsz. by split.
  - intros [-> [Hp Hm Hsz Hsvn Ht Hv Ho Hd]]. exists (preamble_buf manifest). split.
    { split; [|done]. unfold auth_preamble_from_bytes in Hp. case_match eqn:Hl; [|done]. apply Nat.eqb_eq in Hl.
      unfold preamble_buf in Hl. rewrite length_take in Hl. lia. }
    exists p. split; [done|]. rewrite Hm, Hsz, !Z.eqb_refl. split_and!; [done..|]. exists t. by split_and!.
Qed.

(** ** The owner's manifest *)

Lemma verify_owner_svn_ok svn :
  dec (verify_owner_svn svn)
    (rollback_checked (av_device V) → ss_owner_manifest_min_svn (dev_soc (av_device V)) ≤ svn ≤ 255) tt.
Proof.
  unfold verify_owner_svn. destruct (decide (rollback_checked (av_device V))) as [Hr|Hr]; eapply decides_iff.
  2:{ eapply decides_bind; [apply manifest_svn_check_required_ok|intros _].
      rewrite bool_decide_eq_true_2 by done. apply decides_fail_if. intros _.
      eapply decides_read; [apply sees_min_svn|]. apply decides_guard. }
  3:{ eapply decides_bind; [apply manifest_svn_check_required_ok|intros _].
      rewrite bool_decide_eq_false_2 by done. apply decides_ret. }
  - bool_prop. split; [lia|]. intros H. specialize (H Hr). lia.
  - tauto.
Qed.

Lemma owner_preamble_length manifest o :
  owner_preamble_from_bytes (take OWNER_AUTH_MANIFEST_PREAMBLE_SIZE manifest) = Some o →
  (OWNER_AUTH_MANIFEST_PREAMBLE_SIZE ≤ length manifest)%nat.
Proof.
  unfold owner_preamble_from_bytes. case_match eqn:Hl; [|done]. apply Nat.eqb_eq in Hl.
  rewrite length_take in Hl. lia.
Qed.

Lemma verify_owner_pub_keys_ok manifest o t :
  is_bytes manifest → owner_preamble_from_bytes (take OWNER_AUTH_MANIFEST_PREAMBLE_SIZE manifest) = Some o →
  wf_keys (dev_fw (av_device V)) →
  dec (verify_owner_pub_keys_against_fw_owner o (dev_fw (av_device V)) t)
    (signed W t (slice manifest 8 om_off_owner_sigs) (opk_ecc_pub_key (owner_pub_keys (dev_fw (av_device V))))
       (opk_pqc_pub_key (owner_pub_keys (dev_fw (av_device V)))) (om_owner_pub_keys_signatures o)) tt.
Proof.
  intros Hb Ho Hwf. destruct (owner_preamble_pqc _ _ (Forall_take _ _ _ Hb) Ho) as (_ & Hs & _).
  pose proof (owner_preamble_length _ _ Ho) as Hl.
  assert (Hr : offset_data (owner_preamble_bytes o) om_owner_signed_data_range = Ok (slice manifest 8 om_off_owner_sigs)).
  { rewrite (owner_preamble_roundtrip _ _ (Forall_take _ _ _ Hb) Ho). unfold om_owner_signed_data_range.
    rewrite offset_data_slice by (rewrite length_take; olia). f_equal. apply slice_take. olia. }
  unfold verify_owner_pub_keys_against_fw_owner. cbv zeta.
  eapply cmd_digest_ok; [done|]. apply check_signed_ok; [done|apply Hwf|done].
Qed.

Lemma check_owner_preamble_ok manifest : is_bytes manifest → wf_keys (dev_fw (av_device V)) →
  settles (E := Drv) auth_sees V (check_owner_preamble manifest) (λ x,
    owner_preamble_ok (av_device V) manifest x.1 x.2).
Proof.
  intros Hb Hwf. unfold check_owner_preamble. cbv zeta. eapply settles_iff.
  2:{ apply settles_lift. intros b Hbuf. apply settles_lift. intros o Hob.
      assert (Ho : owner_preamble_from_bytes (take OWNER_AUTH_MANIFEST_PREAMBLE_SIZE manifest) = Some o)
        by (apply preamble_slice in Hbuf as [_ ->]; done).
      apply settles_fail_if. intros _. apply settles_fail_if. intros Hz.
      eapply settles_check; [apply decides_assert_eq; by apply negb_false_iff, Z.eqb_eq in Hz|intros _].
      apply settles_fail_if. intros _. apply settles_fail_if. intros Hf.
      eapply settles_check; [apply decides_assert_eq; by apply negb_false_iff, Z.eqb_eq in Hf|intros _].
      eapply settles_check; [apply verify_owner_svn_ok|intros _].
      eapply settles_bind; [apply manifest_pqc_type_ok| |by intros t t' z [Ht _] [Ht' _]; simplify_eq].
      intros t Ht. eapply (settles_read _ _ _ (dev_fw (av_device V))); [by intros d (_ & _ & _ & Hm & _); rewrite Hm|].
      eapply settles_check; [by apply (verify_owner_pub_keys_ok manifest)|intros _]. apply settles_ret. }
  intros [o t]. simpl. setoid_rewrite preamble_slice. split.
  - intros (x & [Hl ->] & q & Hq & Hm & Hsz & _ & Hlen & Hf & _ & Hsvn & t' & Ht & Hv & [= -> ->]).
    apply negb_false_iff in Hm, Hsz, Hlen, Hf. apply Z.eqb_eq in Hm, Hsz, Hf. apply Nat.eqb_eq in Hlen. by split.
  - intros [Hlen Ho Hm Hsz Hf Hsvn Ht Hv]. eexists. split; [split; [by eapply owner_preamble_length|done]|].
    exists o. split; [done|]. rewrite Hm, Hsz, Hf, Hlen, !Z.eqb_refl, Nat.eqb_refl. split_and!; [done..|].
    exists t. by split_and!.
Qed.

(** The collection that replaces the owner's: the sorted entries, then what
    the rest of the buffer held. *)
Definition imc_candidate (buf : list Z) (l : list AuthManifestImageMetadata) : Collection :=
  mkCollection (u32_at buf 0)
    (l ++ drop (Z.to_nat (u32_at buf 0)) (entries_of_bytes OWNER_AUTH_MANIFEST_IMAGE_METADATA_MAX_COUNT buf)).

Lemma imc_candidate_holds buf l :
  is_bytes buf → l ≡ₚ listed buf → sorted_ids l → holds (imc_candidate buf l) l.
Proof.
  intros Hb Hp Hs. split; [|done]. pose proof (u32_at_nonneg buf 0 Hb).
  assert (Hl : length l = Z.to_nat (u32_at buf 0)) by (rewrite Hp; apply length_entries_of_bytes).
  unfold active_entries, imc_candidate, get_range. cbn [entry_count image_metadata_list].
  rewrite length_app, Hl, !(proj2 (Z.leb_le _ _)) by lia. cbn [andb]. unfold slice.
  by rewrite drop_0, Nat.sub_0_r, <- Hl, take_app_length.
Qed.

Lemma verify_imc_signatures_ok manifest o t buf :
  is_bytes manifest → owner_preamble_from_bytes (take OWNER_AUTH_MANIFEST_PREAMBLE_SIZE manifest) = Some o →
  dec (verify_imc_signatures o (ev_sha384 W buf) t buf)
    (signed W t buf (am_ecc_pub_key (om_owner_pub_keys o)) (am_pqc_pub_key (om_owner_pub_keys o))
       (om_owner_image_metdata_signatures o)) tt.
Proof.
  intros Hb Ho. destruct (owner_preamble_pqc _ _ (Forall_take _ _ _ Hb) Ho) as (Hk & _ & Hs). by apply metadata_signed_ok.
Qed.

Lemma check_imc_ok manifest o t la buf :
  is_bytes manifest → owner_preamble_from_bytes (take OWNER_AUTH_MANIFEST_PREAMBLE_SIZE manifest) = Some o →
  is_bytes buf → length buf = size_collection OWNER_AUTH_MANIFEST_IMAGE_METADATA_MAX_COUNT →
  holds (auth_manifest_image_metadata_col (av_fw V)) la →
  settles (E := Drv) auth_sees V (check_imc buf o t) (λ c,
    owner_metadata_ok (av_device V) buf o t ∧
    ∃ l, c = imc_candidate buf l ∧ l ≡ₚ listed buf ∧ sorted_ids l ∧ disjoint_ids l la).
Proof.
  intros Hb Ho Hbb Hlen [Hact Hsla]. unfold check_imc. cbv zeta.
  assert (Hrange : get_range buf 0 (Z.of_nat (size_collection OWNER_AUTH_MANIFEST_IMAGE_METADATA_MAX_COUNT)) = Some buf).
  { apply preamble_slice. rewrite Hlen. split; [lia|]. rewrite take_ge by lia. done. }
  rewrite Hrange. cbn [ok_or]. eapply settles_iff.
  2:{ apply settles_fail_if. intros _. apply settles_lift_ok.
      apply settles_fail_if. intros _. apply settles_fail_if. intros _. eapply settles_some.
      { unfold cmd_sha384_digest. rewrite <- Hlen, offset_data_full. apply on_engines_returns, hw_digest_ok. }
      eapply settles_check; [by apply (verify_imc_signatures_ok manifest)|intros _].
      eapply settles_op; [apply op_to_err, op_lift, sort_entries_no_abort|]. intros l Hl.
      eapply settles_read; [by intros d (_ & _ & _ & _ & ->)|]. rewrite Hact. apply settles_lift_ok.
      apply (settles_fail_if _ _ (sorted_metadata_lists_overlap l la)). intros _. apply settles_ret. }
  intros c. pose proof (sort_entries_value buf (Z.to_nat (u32_at buf 0))) as Hv. split.
  - intros (_ & [Hc0 Hc1]%orb_false_iff & _ & Hown & x & Hx & Hov & ->). rewrite Hx in Hv.
    apply Z.eqb_neq in Hc0. rewrite Z.gtb_ltb in Hc1. apply Z.ltb_ge in Hc1. pose proof (u32_at_nonneg buf 0 Hbb).
    destruct Hv as (Hnd & Hperm & Hsl). split; [split; [lia|done..]|].
    exists x. split_and!; [done..|by apply overlap_false].
  - intros ([Hc Hown Hnd] & l & -> & Hperm & Hsl & Hdis).
    split; [apply Nat.ltb_ge; rewrite Hlen; olia|]. split; [bool_prop; lia|].
    split; [bool_prop; rewrite Hlen; unfold size_collection, size_metadata; lia|]. split; [done|].
    destruct (value_of _) as [x|]; [|done]. destruct Hv as (_ & Hpx & Hsx).
    assert (l = x) as -> by (apply sorted_ids_unique; [done..|]; by rewrite Hperm, Hpx).
    exists x. split; [done|]. split; [by apply overlap_false|done].
Qed.
End Checks.
