(* ===== verification/AuthRuns.v ===== *)
(** The commands as a whole: what a run of each does to the persistent data,
    whatever its outcome. *)

From S2P Require Import Prelude Errors Sha256 Sha256Alg Lms LmsGen LmsSpec LmsProofs LmsImage ImageTypes ImageLayout Cfi.
From S2P Require Import ImageVerify Decides SocIfc Engines AuthTypes AuthLists AuthManifest AuthLayout AuthSpec.
From S2P Require Import AuthProofs.

Section Quiet.
Context {Sh Op X HOp Acc Mu D : Type}.
Context `{Hcomp : Sha2Compress, Hcok : !Sha2CompressOk, Halg : !Sha256Alg Sh Op, Haok : !Sha256AlgOk Sh Op}.
Context `{Heng : Engines X HOp Acc Mu, Heok : !EnginesOk X HOp Acc Mu, Hdpe : RuntimeDpe D}.
Abbreviation Drv := (Drivers Sh X D).
Implicit Types (d : Drv) (Dv : Device) (p : AuthManifestPreamble) (t : FwVerificationPqcKeyType).

(** The drivers run on the device, whatever the persistent data. *)
Definition device_sees d Dv : Prop := auth_sees d (mkAuthView Dv (d_fw d)).

Lemma device_sees_of d V : auth_sees d V → device_sees d (av_device V) ∧ d_fw d = av_fw V.
Proof. intros (Hw & Hr & Hs & Hm & Hf). split; [by split_and!|done]. Qed.

Lemma auth_sees_of d V : device_sees d (av_device V) → d_fw d = av_fw V → auth_sees d V.
Proof. intros (Hw & Hr & Hs & Hm & _) Hf. by split_and!. Qed.

Lemma on_fw_sees f d Dv : device_sees d Dv → device_sees (snd (on_fw f d)) Dv.
Proof. intros (Hw & Hr & Hs & Hm & _). by split_and!. Qed.

(** Operations that leave the view as it is, whatever they return. *)
Definition quiet {A} (m : M Drv A) : Prop := ∀ V d, auth_sees d V → auth_sees (snd (m d)) V.

Lemma quiet_bind {A B} (m : M Drv A) (k : A → M Drv B) : quiet m → (∀ a, quiet (k a)) → quiet (m ≫= k).
Proof.
  intros Hm Hk V d Hd. specialize (Hm V d Hd). unfold mbind, M_bind. destruct (m d) as [[a|e|w] d1]; [|done..].
  by apply Hk.
Qed.
Lemma quiet_get {A} (f : Drv → A) : quiet (get f).
Proof. by intros V d. Qed.
Lemma quiet_ret {A} (a : A) : quiet (mret a).
Proof. by intros V d. Qed.
Lemma quiet_fail {A} e : quiet (@fail _ _ A e).
Proof. by intros V d. Qed.
Lemma quiet_lift {A} (r : res A) : quiet (lift r).
Proof. by intros V d. Qed.
Lemma quiet_fail_if b e : quiet (fail_if b e).
Proof. intros V d. by destruct b. Qed.
Lemma quiet_dpe {A} (m : M D A) : quiet (on_dpe m).
Proof. intros V d (Hw & Hr & Hs & Hm & Hf). unfold on_dpe. destruct (m (d_dpe d)). by split_and!. Qed.
Lemma quiet_error e : quiet (set_extended_error e).
Proof. intros V d (Hw & Hr & Hs & Hm & Hf). by split_and!. Qed.
Lemma quiet_op {A} (m : M Drv A) : (∀ V, ∃ o, op_returns auth_sees V o m) → quiet m.
Proof. intros Hm V d Hd. destruct (Hm V) as [o Ho]. by destruct (Ho d Hd) as (r & d' & -> & ? & _). Qed.
Lemma quiet_digest data : quiet (on_engines (hw_sha384_digest data)).
Proof. apply quiet_op. intros V. eexists. apply on_engines_returns, hw_digest_ok. Qed.

End Quiet.

Ltac solve_quiet :=
  repeat first
    [ apply quiet_bind; [|intros ?] | apply quiet_get | apply quiet_ret | apply quiet_fail | apply quiet_lift
    | apply quiet_fail_if | apply quiet_dpe | apply quiet_error | apply quiet_digest | case_match ].

Section Runs.
Context {Sh Op X HOp Acc Mu D : Type}.
Context `{Hcomp : Sha2Compress, Hcok : !Sha2CompressOk, Halg : !Sha256Alg Sh Op, Haok : !Sha256AlgOk Sh Op}.
Context `{Heng : Engines X HOp Acc Mu, Heok : !EnginesOk X HOp Acc Mu, Hdpe : RuntimeDpe D}.
Abbreviation Drv := (Drivers Sh X D).
Implicit Types (d : Drv) (Dv : Device) (p : AuthManifestPreamble) (t : FwVerificationPqcKeyType).

Lemma update_soc_manifest_dpe_contexts_quiet manifest p mode :
  is_bytes manifest → auth_preamble_from_bytes (preamble_buf manifest) = Some p →
  quiet (update_soc_manifest_dpe_contexts p mode).
Proof.
  intros Hb Hp. unfold update_soc_manifest_dpe_contexts.
  apply quiet_bind; [apply quiet_get|]. intros disabled. destruct disabled; [apply quiet_ret|].
  apply quiet_bind; [unfold cmd_sha384_digest; solve_quiet|intros vendor].
  apply quiet_bind; [|intros owner; solve_quiet].
  apply quiet_op. intros V. eexists. eapply op_returns_ext.
  - intros d. apply stream_ranges; apply (preamble_range manifest); [done..|olia|done|done|olia].
  - apply on_engines_returns. apply (hw_stream_ok _ [_; _]).
Qed.

(** ** SET_AUTH_MANIFEST *)

(** A manifest that the device accepts while the owner's list is [lo]. *)
Definition soc_acceptable Dv (manifest : list Z) (lo : list AuthManifestImageMetadata) p t : Prop :=
  soc_manifest_ok Dv manifest p t ∧ disjoint_ids (listed (soc_metadata manifest)) lo.

(** The manifest after the sort: what the mailbox holds from then on. *)
Definition sorted_manifest (manifest : list Z) (l : list AuthManifestImageMetadata) : list Z :=
  let buf := write_entries (soc_metadata manifest) l in
  preamble_buf manifest ++ buf ++ drop (length buf) (drop AUTH_MANIFEST_PREAMBLE_SIZE manifest).

(** The list is installed; the rest of the data when the command succeeds. *)
Record soc_installed Dv (manifest : list Z) p (r : res unit) (before after : FwPersistentData) : Prop := {
  si_list : ∃ l, holds (auth_manifest_image_metadata_col after) l ∧ l ≡ₚ listed (soc_metadata manifest) ∧
    (r = Ok tt → auth_manifest_digest after = ev_sha384 (dev_engines Dv) (sorted_manifest manifest l));
  si_owner : owner_auth_manifest_image_metadata_col after = owner_auth_manifest_image_metadata_col before;
  si_svn : r = Ok tt → auth_manifest_svn after = am_svn p;
  si_debug : r = Ok tt → auth_manifest_is_debug after = auth_flags_contain (am_flags p) DEBUG_IMAGE;
}.

Lemma disjoint_ids_perm l l' lo : l ≡ₚ l' → disjoint_ids l lo ↔ disjoint_ids l' lo.
Proof. intros Hp. unfold disjoint_ids. by setoid_rewrite Hp. Qed.

Lemma stored_holds Dv manifest p t l :
  is_bytes manifest → soc_metadata_ok Dv (soc_metadata manifest) p t → l ≡ₚ listed (soc_metadata manifest) →
  sorted_ids l → holds (stored_collection (write_entries (soc_metadata manifest) l)) l.
Proof.
  intros Hb [Hc Hlen _ _ _ _] Hp Hs. split; [|done].
  assert (Hbm : is_bytes (soc_metadata manifest)) by by apply Forall_take, Forall_drop.
  assert (Hl : length l = Z.to_nat (u32_at (soc_metadata manifest) 0)) by (rewrite Hp; apply length_entries_of_bytes).
  apply stored_entries; [done|..].
  - unfold soc_metadata, metadata_buf. rewrite length_take. lia.
  - by rewrite Hl.
  - lia.
  - lia.
  - rewrite Hp. by apply entries_of_bytes_wf.
Qed.

Lemma soc_preamble_unique Dv manifest p t p' t' :
  soc_preamble_ok Dv manifest p t → soc_preamble_ok Dv manifest p' t' → p = p' ∧ t = t'.
Proof. intros [Hp _ _ _ [Ht _] _ _ _] [Hp' _ _ _ [Ht' _] _ _ _]. split; congruence. Qed.

(** What follows the checks when the manifest is installed. *)
Lemma soc_install Dv manifest mode lo p t l d :
  device_sees d Dv → is_bytes manifest → soc_acceptable Dv manifest lo p t →
  l ≡ₚ listed (soc_metadata manifest) → sorted_ids l →
  let m :=
    on_fw (set_auth_col (stored_collection (write_entries (soc_metadata manifest) l)));;
    digest ← on_engines (hw_sha384_digest (sorted_manifest manifest l));
    on_fw (set_auth_info digest (am_svn p));;
    update_soc_manifest_dpe_contexts p mode;;
    on_fw (set_auth_debug (auth_flags_contain (am_flags p) DEBUG_IMAGE)) in
  ∃ r d', m d = (r, d') ∧ device_sees d' Dv ∧ soc_installed Dv manifest p r (d_fw d) (d_fw d').
Proof.
  intros Hd Hb [[Hpre Hmeta] _] Hp Hs m. unfold m. clear m.
  pose proof (stored_holds _ _ _ _ _ Hb Hmeta Hp Hs) as Hh. set (c := stored_collection _) in *.
  set (d1 := snd (on_fw (set_auth_col c) d)).
  assert (Hd1 : auth_sees d1 (mkAuthView Dv (d_fw d1))) by by apply on_fw_sees.
  rewrite (bind_ok _ _ _ tt d1) by done.
  destruct (on_engines_returns (mkAuthView Dv (d_fw d1)) _ _ (hw_digest_ok _ (sorted_manifest manifest l)) d1 Hd1)
    as (r2 & d2 & E2 & Hd2 & Hr2).
  destruct (device_sees_of _ _ Hd2) as [Hs2 Hf2]. simpl in Hs2, Hf2.
  destruct r2 as [digest|e|w]; [|rewrite (bind_err _ _ _ _ _ E2)|done].
  2:{ exists (Err e), d2. split; [done|]. split; [done|]. rewrite Hf2. split; [by exists l|done..]. }
  rewrite (bind_ok _ _ _ _ _ E2). injection Hr2 as <-.
  set (digest := ev_sha384 _ _). set (d3 := snd (on_fw (set_auth_info digest (am_svn p)) d2)). rewrite (bind_ok _ _ _ tt d3) by done.
  assert (Hd3 : auth_sees d3 (mkAuthView Dv (d_fw d3))) by by apply on_fw_sees.
  pose proof (update_soc_manifest_dpe_contexts_quiet manifest p mode Hb (sp_parse _ _ _ _ Hpre) _ _ Hd3) as Hq.
  unfold mbind, M_bind. destruct (update_soc_manifest_dpe_contexts p mode d3) as [r4 d4]. simpl in Hq.
  destruct (device_sees_of _ _ Hq) as [Hs4 Hf4]. simpl in Hs4, Hf4.
  destruct r4 as [[]|e|w].
  - eexists (Ok tt), _. split; [done|]. split; [by apply on_fw_sees|]. simpl. rewrite Hf4. simpl. rewrite Hf2.
    split; [|done..]. by exists l.
  - exists (Err e), d4. split; [done|]. split; [done|]. rewrite Hf4. simpl. rewrite Hf2. split; [by exists l|done..].
  - exists (Abort w), d4. split; [done|]. split; [done|]. rewrite Hf4. simpl. rewrite Hf2. split; [by exists l|done..].
Qed.

Lemma set_auth_manifest_outcome Dv manifest verify_only mode lo d :
  device_sees d Dv → is_bytes manifest → wf_keys (dev_fw Dv) →
  holds (owner_auth_manifest_image_metadata_col (d_fw d)) lo →
  ∃ r d', set_auth_manifest manifest verify_only mode d = (r, d') ∧ device_sees d' Dv ∧
    ((∃ e, r = Err e) ∧ d_fw d' = d_fw d ∧
       (ev_reliable (dev_engines Dv) → ∀ p t, ¬ soc_acceptable Dv manifest lo p t) ∨
     ∃ p t, soc_acceptable Dv manifest lo p t ∧
       if verify_only then r = Ok tt ∧ d_fw d' = d_fw d else soc_installed Dv manifest p r (d_fw d) (d_fw d')).
Proof.
  intros Hd Hb Hwf Hlo. set (V := mkAuthView Dv (d_fw d)). unfold set_auth_manifest.
  destruct (check_auth_preamble_ok V manifest Hb Hwf d Hd) as (r1 & d1 & E1 & Hd1 & Hr1).
  destruct (device_sees_of _ _ Hd1) as [Hs1 Hf1].
  destruct r1 as [[[bytes p] t]|e|w]; [rewrite (bind_ok _ _ _ _ _ E1)|rewrite (bind_err _ _ _ _ _ E1)|done].
  2:{ exists (Err e), d1. split_and!; [done..|]. left. split_and!; [by exists e|done|].
      intros Hrel p t [[Hp _] _]. by apply (Hr1 Hrel (preamble_buf manifest, p, t)). }
  destruct Hr1 as [Hbytes Hpre]. simpl in Hpre, Hbytes. subst bytes. cbv beta iota. unfold process_image_metadata_col.
  destruct (check_image_metadata_col_ok V manifest p t lo (drop AUTH_MANIFEST_PREAMBLE_SIZE manifest) Hb
    (sp_parse _ _ _ _ Hpre) (Forall_drop _ _ _ Hb) Hlo d1 Hd1) as (r2 & d2 & E2 & Hd2 & Hr2).
  fold (soc_metadata manifest) in Hr2. destruct (device_sees_of _ _ Hd2) as [Hs2 Hf2].
  rewrite bind_assoc. destruct r2 as [l|e|w]; [rewrite (bind_ok _ _ _ _ _ E2)|rewrite (bind_err _ _ _ _ _ E2)|done].
  2:{ exists (Err e), d2. split_and!; [done..|]. left. split_and!; [by exists e|done|]. intros Hrel p' t' [[Hp' Hm'] Hdis].
      destruct (soc_preamble_unique _ _ _ _ _ _ Hpre Hp') as [<- <-].
      destruct (proj1 (sort_decides _) (sm_ids _ _ _ _ Hm')) as (l & _ & Hperm & Hsl).
      apply (Hr2 Hrel l). split_and!; [done..|]. by apply (disjoint_ids_perm _ _ _ Hperm). }
  destruct Hr2 as (Hmeta & Hperm & Hsl & Hdis).
  assert (Hacc : soc_acceptable Dv manifest lo p t) by (split; [done|by apply (disjoint_ids_perm _ _ _ Hperm)]).
  cbv zeta. destruct verify_only; cbn [negb].
  - exists (Ok tt), d2. split_and!; [done..|]. right. by exists p, t.
  - destruct (soc_install Dv manifest mode lo p t l d2) as (r3 & d3 & E3 & Hd3 & Hi); [done..|].
    exists r3, d3. split_and!; [exact E3|done|]. right. exists p, t. split; [done|]. by rewrite Hf2 in Hi.
Qed.

(** ** SET_OWNER_AUTH_MANIFEST *)

Implicit Types (o : OwnerAuthManifestPreamble).

Definition owner_acceptable Dv (manifest : list Z) (la : list AuthManifestImageMetadata) o t : Prop :=
  owner_manifest_ok Dv manifest o t ∧ disjoint_ids (listed (owner_metadata manifest)) la.

Record owner_installed Dv (manifest : list Z) o (r : res unit) (before after : FwPersistentData) : Prop := {
  oi_list : ∃ l, holds (owner_auth_manifest_image_metadata_col after) l ∧ l ≡ₚ listed (owner_metadata manifest);
  oi_auth : auth_manifest_image_metadata_col after = auth_manifest_image_metadata_col before;
  oi_digest : r = Ok tt → owner_auth_manifest_digest after = ev_sha384 (dev_engines Dv) manifest;
  oi_svn : r = Ok tt → owner_auth_manifest_svn after = om_svn o;
  oi_reliable : ev_reliable (dev_engines Dv) → r = Ok tt;
}.

Lemma owner_preamble_unique Dv manifest o t o' t' :
  owner_preamble_ok Dv manifest o t → owner_preamble_ok Dv manifest o' t' → o = o' ∧ t = t'.
Proof. intros [_ Ho _ _ _ _ [Ht _] _] [_ Ho' _ _ _ _ [Ht' _] _]. split; congruence. Qed.

Lemma owner_install Dv manifest o l d :
  device_sees d Dv → is_bytes manifest → l ≡ₚ listed (owner_metadata manifest) → sorted_ids l →
  let m :=
    on_fw (set_owner_col (imc_candidate (owner_metadata manifest) l));;
    digest ← on_engines (hw_sha384_digest manifest);
    on_fw (set_owner_digest digest);;
    on_fw (set_owner_svn (om_svn o)) in
  ∃ r d', m d = (r, d') ∧ device_sees d' Dv ∧ owner_installed Dv manifest o r (d_fw d) (d_fw d').
Proof.
  intros Hd Hb Hp Hs m. unfold m. clear m.
  pose proof (imc_candidate_holds (owner_metadata manifest) l (Forall_drop _ _ _ Hb) Hp Hs) as Hh.
  set (c := imc_candidate _ l) in *. set (d1 := snd (on_fw (set_owner_col c) d)).
  assert (Hd1 : auth_sees d1 (mkAuthView Dv (d_fw d1))) by by apply on_fw_sees.
  rewrite (bind_ok _ _ _ tt d1) by done.
  destruct (on_engines_returns (mkAuthView Dv (d_fw d1)) _ _ (hw_digest_ok _ manifest) d1 Hd1)
    as (r2 & d2 & E2 & Hd2 & Hr2).
  destruct (device_sees_of _ _ Hd2) as [Hs2 Hf2]. simpl in Hs2, Hf2.
  destruct r2 as [digest|e|w]; [rewrite (bind_ok _ _ _ _ _ E2)|rewrite (bind_err _ _ _ _ _ E2)|done].
  - injection Hr2 as <-. eexists (Ok tt), _. split; [done|].
    split; [by apply (on_fw_sees (set_owner_svn (om_svn o))), (on_fw_sees (set_owner_digest _))|].
    simpl. rewrite Hf2. split; [by exists l|done..].
  - exists (Err e), d2. split; [done|]. split; [done|]. rewrite Hf2. split; [by exists l|done..|].
    intros Hrel. by specialize (Hr2 Hrel).
Qed.

Lemma set_owner_auth_manifest_outcome Dv manifest verify_only la d :
  device_sees d Dv → is_bytes manifest → wf_keys (dev_fw Dv) →
  holds (auth_manifest_image_metadata_col (d_fw d)) la →
  ∃ r d', process_owner_auth_manifest manifest verify_only d = (r, d') ∧ device_sees d' Dv ∧
    ((∃ e, r = Err e) ∧ d_fw d' = d_fw d ∧
       (ev_reliable (dev_engines Dv) → ∀ o t, ¬ owner_acceptable Dv manifest la o t) ∨
     ∃ o t, owner_acceptable Dv manifest la o t ∧
       if verify_only then r = Ok tt ∧ d_fw d' = d_fw d else owner_installed Dv manifest o r (d_fw d) (d_fw d')).
Proof.
  intros Hd Hb Hwf Hla. set (V := mkAuthView Dv (d_fw d)). unfold process_owner_auth_manifest.
  destruct (check_owner_preamble_ok V manifest Hb Hwf d Hd) as (r1 & d1 & E1 & Hd1 & Hr1).
  destruct (device_sees_of _ _ Hd1) as [Hs1 Hf1].
  destruct r1 as [[o t]|e|w]; [rewrite (bind_ok _ _ _ _ _ E1)|rewrite (bind_err _ _ _ _ _ E1)|done].
  2:{ exists (Err e), d1. split_and!; [done..|]. left. split_and!; [by exists e|done|].
      intros Hrel o t [[Ho _] _]. by apply (Hr1 Hrel (o, t)). }
  simpl in Hr1. cbv beta iota. unfold process_imc. rewrite bind_assoc.
  assert (Hlen : length (owner_metadata manifest) = size_collection OWNER_AUTH_MANIFEST_IMAGE_METADATA_MAX_COUNT).
  { unfold owner_metadata. rewrite length_drop, (op_size _ _ _ _ Hr1). unfold OWNER_AUTH_MANIFEST_SIZE. lia. }
  destruct (check_imc_ok V manifest o t la (owner_metadata manifest) Hb (op_parse _ _ _ _ Hr1) (Forall_drop _ _ _ Hb)
    Hlen Hla d1 Hd1) as (r2 & d2 & E2 & Hd2 & Hr2).
  destruct (device_sees_of _ _ Hd2) as [Hs2 Hf2].
  destruct r2 as [c|e|w]; [rewrite (bind_ok _ _ _ _ _ E2)|rewrite (bind_err _ _ _ _ _ E2)|done].
  2:{ exists (Err e), d2. split_and!; [done..|]. left. split_and!; [by exists e|done|]. intros Hrel o' t' [[Ho' Hm'] Hdis].
      destruct (owner_preamble_unique _ _ _ _ _ _ Hr1 Ho') as [<- <-].
      destruct (proj1 (sort_decides _) (oo_ids _ _ _ _ Hm')) as (l & _ & Hperm & Hsl).
      apply (Hr2 Hrel (imc_candidate (owner_metadata manifest) l)). split; [done|]. exists l.
      split_and!; [done..|]. by apply (disjoint_ids_perm _ _ _ Hperm). }
  destruct Hr2 as (Hmeta & l & -> & Hperm & Hsl & Hdis).
  assert (Hacc : owner_acceptable Dv manifest la o t) by (split; [done|by apply (disjoint_ids_perm _ _ _ Hperm)]).
  destruct verify_only; cbn [negb].
  - exists (Ok tt), d2. split_and!; [done..|]. right. by exists o, t.
  - destruct (owner_install Dv manifest o l d2) as (r3 & d3 & E3 & Hd3 & Hi); [done..|].
    exists r3, d3. split_and!; [exact E3|done|]. right. exists o, t. split; [done|]. by rewrite Hf2 in Hi.
Qed.

(** ** AUTHORIZE_AND_STASH *)

Lemma find_entry_ok la lo fw id src e :
  holds (auth_manifest_image_metadata_col fw) la → holds (owner_auth_manifest_image_metadata_col fw) lo →
  find_metadata_entry_by_type (auth_manifest_image_metadata_col fw) (owner_auth_manifest_image_metadata_col fw) id src
    = Some e ↔ entry_for src la lo id e.
Proof.
  intros [Ha Hsa] [Ho Hso]. unfold entry_for. destruct src; simpl.
  - unfold find_metadata_entry. rewrite Ha. simpl. destruct (Z.eqb_spec id AUTH_MANIFEST_UEID_FW_ID); [naive_solver|].
    rewrite find_in_ok by done. naive_solver.
  - unfold find_owner_metadata_entry. rewrite Ho. simpl. rewrite find_in_ok by done. naive_solver.
Qed.

Lemma land_lor_3 a b : (Z.land (Z.lor a b) 3 =? 0) = (a mod 4 =? 0) && (b mod 4 =? 0).
Proof.
  rewrite Z.land_lor_distr_l, !(Z.land_ones _ 2) by lia. change (2 ^ 2) with 4.
  apply eq_true_iff_eq. by rewrite andb_true_iff, !Z.eqb_eq, Z.lor_eq_0_iff.
Qed.

Lemma authorize_hashed_ok V e a size code claimed :
  settles (E := Drv) auth_sees V (authorize_hashed e a size code claimed) (λ x, ∃ m,
    memory_measurement (dev_engines (av_device V)) e a size = Some m ∧
    x = if decide (md_digest e = m) then (code, m) else (IMAGE_HASH_MISMATCH, claimed)).
Proof.
  unfold authorize_hashed, memory_measurement. cbv zeta. set (W := dev_engines (av_device V)). eapply settles_iff.
  2:{ apply settles_fail_if. intros _. apply (settles_op _ _ (ev_sha384 W <$> ev_axi W (axi_addr a) size) _ _
        (λ digest x, x = if decide (md_digest e = bytes_be digest) then (code, bytes_be digest) else (IMAGE_HASH_MISMATCH, claimed))).
      - apply op_to_err, on_engines_returns. case_match; [apply hw_dma_single_ok|apply hw_dma_ok].
      - intros digest _. destruct (decide (md_digest e = bytes_be digest)) as [He|He].
        + rewrite bool_decide_eq_true_2 by done. eapply settles_iff; [|eapply settles_check;
            [apply decides_assert_words; by rewrite He|intros _; apply settles_ret]]. naive_solver.
        + rewrite bool_decide_eq_false_2 by done. apply settles_ret. }
  intros x. rewrite land_lor_3. unfold dword_readable.
  destruct (dma_single_dword_read (md_flags e)), (size =? 0), ((addr_lo a mod 4 =? 0) && (size mod 4 =? 0)); simpl;
    destruct (ev_axi W (axi_addr a) size); simpl; naive_solver.
Qed.

Lemma entry_for_unique src la lo id e e' :
  sorted_ids la → sorted_ids lo → entry_for src la lo id e → entry_for src la lo id e' → e = e'.
Proof.
  intros Ha Ho [He H] [He' H'].
  assert (∀ l, sorted_ids l → e ∈ l → e' ∈ l → e = e').
  { intros l Hl Hin Hin'. pose proof (proj2 (find_in_ok l id e Hl) (conj Hin He)).
    pose proof (proj2 (find_in_ok l id e' Hl) (conj Hin' He')). congruence. }
  destruct src; naive_solver.
Qed.

Section Authorize.
Context (V : AuthView) (la lo : list AuthManifestImageMetadata) (cmd : AuthorizeAndStashReq).
Context (Hla : holds (auth_manifest_image_metadata_col (av_fw V)) la).
Context (Hlo : holds (owner_auth_manifest_image_metadata_col (av_fw V)) lo).
Abbreviation W := (dev_engines (av_device V)).
Abbreviation id := (from_le (ar_fw_id cmd)).

(** The answer for an image whose digest is compared. *)
Lemma authorization_compared src e x : entry_for src la lo id e → ignore_auth_check (md_flags e) = false →
  (∃ m, image_measurement W cmd e = Some m ∧
     x = if decide (md_digest e = m) then (success_code src, m) else (IMAGE_HASH_MISMATCH, ar_measurement cmd)) ↔
  authorization W la lo cmd src x.1 x.2.
Proof.
  intros He Hi. split.
  - intros (m & Hm & ->). destruct (decide (md_digest e = m)) as [<-|Hne]; simpl.
    + by apply (auth_matched _ _ _ _ _ e).
    + by apply (auth_mismatch _ _ _ _ _ e m).
  - destruct x as [code m]. simpl.
    assert (Hu : ∀ e', entry_for src la lo id e' → e' = e).
    { intros e' He'. by apply (entry_for_unique src la lo id); [apply Hla|apply Hlo|..]. }
    intros [Hn|e' He' Hi'|e' He' Hi' Hm'|e' m' He' Hi' Hm' Hne].
    + by destruct (Hn e).
    + apply Hu in He'. congruence.
    + apply Hu in He' as ->. exists (md_digest e). by rewrite decide_True.
    + apply Hu in He' as ->. exists m'. by rewrite decide_False by congruence.
Qed.

Lemma authorization_ignored src e x : entry_for src la lo id e → ignore_auth_check (md_flags e) = true →
  x = (success_code src, ar_measurement cmd) ↔ authorization W la lo cmd src x.1 x.2.
Proof.
  intros He Hi. split; [intros ->; by apply (auth_ignored _ _ _ _ _ e)|]. destruct x as [code m]. simpl.
  assert (Hu : ∀ e', entry_for src la lo id e' → e' = e).
  { intros e' He'. by apply (entry_for_unique src la lo id); [apply Hla|apply Hlo|..]. }
  intros [Hn|e' He' Hi'|e' He' Hi' Hm'|e' m' He' Hi' Hm' Hne]; [by destruct (Hn e)|done|..];
    apply Hu in He'; congruence.
Qed.

Lemma authorization_unknown src x : (∀ e, ¬ entry_for src la lo id e) →
  x = (IMAGE_NOT_AUTHORIZED, ar_measurement cmd) ↔ authorization W la lo cmd src x.1 x.2.
Proof.
  intros Hn. split; [intros ->; by apply auth_unknown|]. destruct x as [code m]. simpl.
  intros [_|e' He'|e' He'|e' m' He']; [done|by destruct (Hn e')..].
Qed.

Lemma authorize_image_ok :
  settles (E := Drv) auth_sees V (authorize_image cmd) (λ x, hash_source (ar_source cmd) ≠ InvalidSource ∧
    ∃ src, source_from_flags (ar_flags cmd) = Some src ∧ authorization W la lo cmd src x.1 x.2).
Proof.
  unfold authorize_image. destruct (hash_source (ar_source cmd)) eqn:Hh; [apply settles_fail; naive_solver|..].
  all: eapply settles_iff; [|apply (settles_lift _ _ _ _ _ (λ src x, authorization W la lo cmd src x.1 x.2));
    intros src Hsrc; eapply settles_read; [by intros d (_ & _ & _ & _ & ->)|]]; [naive_solver|].
  all: destruct (find_metadata_entry_by_type _ _ id src) as [e|] eqn:Hf;
    [apply (find_entry_ok la lo) in Hf; [|done..]|].
  all: try (eapply settles_iff; [|apply settles_ret]; intros x; apply authorization_unknown; intros e He;
    apply (find_entry_ok la lo (av_fw V)) in He; [congruence|done..]).
  all: destruct (ignore_auth_check (md_flags e)) eqn:Hi;
    [eapply settles_iff; [|eapply settles_check; [by apply decides_assert_bool|intros _; apply settles_ret]];
     intros x; rewrite <- (authorization_ignored src e) by done; tauto|].
  all: eapply settles_iff; [intros x; by apply authorization_compared|]; unfold image_measurement; rewrite Hh.
  2,3: apply authorize_hashed_ok.
  case_bool_decide as Hd.
  - eapply settles_iff; [|eapply settles_check; [apply decides_assert_words; by rewrite Hd|intros _; apply settles_ret]].
    intros x. split; [intros [_ ->]; exists (ar_measurement cmd); by rewrite decide_True|].
    intros (m & [= <-] & ->). by rewrite decide_True.
  - eapply settles_iff; [|apply settles_ret].
    intros x. split; [intros ->; exists (ar_measurement cmd); by rewrite decide_False|].
    intros (m & [= <-] & ->). by rewrite decide_False.
Qed.
End Authorize.
End Runs.
