(* ===== verification/AuthInv.v ===== *)
(** Sequences of commands: the invariant of the lists of image metadata, from
    a fresh boot on. *)

From stdpp Require Import relations.
From S2P Require Import Prelude Errors Sha256 Sha256Alg Lms LmsGen LmsSpec LmsProofs LmsImage ImageTypes ImageLayout Cfi.
From S2P Require Import ImageVerify Decides SocIfc Engines AuthTypes AuthLists AuthManifest AuthLayout AuthSpec.
From S2P Require Import AuthProofs AuthRuns.

Section Runtime.
Context {Sh Op X HOp Acc Mu D : Type}.
Context `{Hcomp : Sha2Compress, Hcok : !Sha2CompressOk, Halg : !Sha256Alg Sh Op, Haok : !Sha256AlgOk Sh Op}.
Context `{Heng : Engines X HOp Acc Mu, Heok : !EnginesOk X HOp Acc Mu, Hdpe : RuntimeDpe D}.
Abbreviation Drv := (Drivers Sh X D).
Implicit Types (d : Drv) (Dv : Device).

(** ** Runs of the runtime *)

(** One step: a command with any outcome, or anything else that the runtime
    does to the caller's identity, the DPE and the attestation flag. *)
Inductive auth_step d : Drv → Prop :=
  | step_command c cmd_bytes d' :
      is_bytes cmd_bytes → snd (execute_auth_command c cmd_bytes d) = d' → auth_step d d'
  | step_other dpe mbox_id fw :
      auth_manifest_image_metadata_col fw = auth_manifest_image_metadata_col (d_fw d) →
      owner_auth_manifest_image_metadata_col fw = owner_auth_manifest_image_metadata_col (d_fw d) →
      auth_step d (mkDrivers (d_sha256 d) (d_hw d) dpe (d_soc_ifc d) (d_manifest1 d) mbox_id fw).

(** A freshly booted runtime has no manifest. *)
Definition fresh Dv d : Prop :=
  device_sees d Dv ∧ wf_keys (dev_fw Dv) ∧
  entry_count (auth_manifest_image_metadata_col (d_fw d)) = 0 ∧
  entry_count (owner_auth_manifest_image_metadata_col (d_fw d)) = 0.

(** Where the entries of the two lists come from. *)
Definition soc_endorsed Dv (l : list AuthManifestImageMetadata) : Prop :=
  l = [] ∨ ∃ manifest p t, soc_manifest_ok Dv manifest p t ∧ l ≡ₚ listed (soc_metadata manifest).
Definition owner_endorsed Dv (l : list AuthManifestImageMetadata) : Prop :=
  l = [] ∨ ∃ manifest o t, owner_manifest_ok Dv manifest o t ∧ l ≡ₚ listed (owner_metadata manifest).

Record auth_inv Dv d : Prop := {
  ai_device : device_sees d Dv;
  ai_keys : wf_keys (dev_fw Dv);
  ai_lists : ∃ la lo,
    holds (auth_manifest_image_metadata_col (d_fw d)) la ∧ holds (owner_auth_manifest_image_metadata_col (d_fw d)) lo ∧
    disjoint_ids la lo ∧ soc_endorsed Dv la ∧ owner_endorsed Dv lo;
}.

Lemma fresh_inv Dv d : fresh Dv d → auth_inv Dv d.
Proof.
  intros (Hd & Hk & Ha & Ho). split; [done..|]. exists [], [].
  assert (Hempty : ∀ c, entry_count c = 0 → holds c []).
  { intros c Hc. split; [|constructor]. unfold active_entries, get_range. rewrite Hc. simpl.
    rewrite (proj2 (Z.leb_le 0 _)) by lia. done. }
  split_and!; [by apply Hempty..| |by left|by left]. by intros x y ?%elem_of_nil.
Qed.

(** ** The commands that do not set a manifest *)

Lemma inv_quiet {A} Dv d (m : M Drv A) : quiet m → auth_inv Dv d → auth_inv Dv (snd (m d)).
Proof.
  intros Hm [Hd Hk Hl]. specialize (Hm _ _ Hd). destruct (device_sees_of _ _ Hm) as [Hd' Hf]. simpl in Hf.
  split; [done..|]. by rewrite Hf.
Qed.

Lemma stash_measurement_quiet md ms svn pl loc access : quiet (stash_measurement md ms svn pl loc access).
Proof. unfold stash_measurement, is_dpe_context_threshold_exceeded. cbv zeta. solve_quiet. Qed.

Lemma stash_measurement_execute_quiet args : quiet (stash_measurement_execute args).
Proof. unfold stash_measurement_execute. solve_quiet. Qed.

Lemma get_image_info_execute_quiet args : quiet (get_image_info_execute args : M Drv (list Z)).
Proof. unfold get_image_info_execute. cbv zeta. solve_quiet. Qed.

(** A function that starts with [m] and then leaves the view alone. *)
Lemma bind_keeps {A B} V d (m : M Drv A) (k : A → M Drv B) :
  auth_sees (snd (m d)) V → (∀ a, quiet (k a)) → auth_sees (snd ((m ≫= k) d)) V.
Proof.
  intros Hm Hk. unfold mbind, M_bind. destruct (m d) as [[a|e|w] d1]; [by apply Hk|done..].
Qed.

Lemma authorize_and_stash_execute_keeps Dv d args : auth_inv Dv d →
  auth_sees (snd (authorize_and_stash_execute args d)) (mkAuthView Dv (d_fw d)).
Proof.
  intros [Hd Hk (la & lo & Ha & Ho & _)]. unfold authorize_and_stash_execute. rewrite !bind_get.
  destruct (authorize_req_of_bytes args) as [cmd|]; [|done]. rewrite (bind_lift_ok _ cmd) by done.
  destruct (bool_decide _ && _); [done|]. rewrite bind_fail_if by done.
  apply bind_keeps; [|intros a; apply quiet_ret].
  unfold authorize_and_stash. apply bind_keeps.
  - by destruct (authorize_image_ok (mkAuthView Dv (d_fw d)) la lo cmd Ha Ho d Hd) as (r & d' & -> & Hd' & _).
  - intros [code m]. solve_quiet.
Qed.

(** ** Order of authorization and measurement *)

(** Deciding does not touch the protection environment. *)
Definition keeps_dpe {A} (m : M Drv A) : Prop := ∀ d, d_dpe (snd (m d)) = d_dpe d.

Lemma keeps_dpe_bind {A B} (m : M Drv A) (k : A → M Drv B) :
  keeps_dpe m → (∀ a, keeps_dpe (k a)) → keeps_dpe (m ≫= k).
Proof.
  intros Hm Hk d. specialize (Hm d). unfold mbind, M_bind. destruct (m d) as [[a|e|w] d1]; [|done..].
  simpl in Hm. by rewrite Hk.
Qed.
Lemma keeps_dpe_pure {A} (r : res A) : keeps_dpe (λ d, (r, d)).
Proof. by intros d. Qed.
Lemma keeps_dpe_fail_if b e : keeps_dpe (fail_if b e).
Proof. intros d. by destruct b. Qed.
Lemma keeps_dpe_engines {A} (m : M X A) e : keeps_dpe (to_err (on_engines m) e).
Proof. intros d. unfold to_err, map_err, on_engines. by destruct (m (d_hw d)) as [[a|e'|w] x]. Qed.

Lemma authorize_image_keeps_dpe cmd : keeps_dpe (authorize_image cmd).
Proof.
  unfold authorize_image, authorize_hashed, cfi_assert_bool, cfi_assert_eq_words. cbv zeta.
  repeat first [ apply keeps_dpe_bind; [|intros ?] | apply keeps_dpe_engines | apply keeps_dpe_fail_if
               | apply keeps_dpe_pure | case_match | by intros d ].
Qed.

(** What a recorded measurement went through. *)
Definition derive_tci (md : list Z) : Z := if bool_decide (md = MCU_RT_RESERVED_FW_ID) then MCU_RT_TCI_TYPE else from_le md.

(** Recording a measurement, on the protection environment alone: a context is
    derived from it, the cached index follows for the reserved id, and PCR 31 is
    extended. *)
Definition record_measurement (md ms : list Z) (svn loc : Z) : M D unit :=
  code ← (λ x, let '(code, x) := dpe_derive_context ms (derive_tci md) svn loc x in (Ok code, x));
  fail_if (negb (code =? 0)) RUNTIME_AUTH_AND_STASH_MEASUREMENT_DPE_ERROR;;
  (if bool_decide (md = MCU_RT_RESERVED_FW_ID) then
     pos ← get (dpe_active_context_pos loc);
     idx ← lift (ok_or pos RUNTIME_DPE_CONTEXT_NOT_FOUND);
     fail_if (idx >? 255) RUNTIME_DPE_CONTEXT_NOT_FOUND;;
     modify (dpe_set_mcu_rt idx)
   else mret tt);;
  extend_stash_pcr ms.

Lemma threshold_keeps_dpe pl : keeps_dpe (is_dpe_context_threshold_exceeded pl).
Proof.
  unfold is_dpe_context_threshold_exceeded.
  repeat first [ apply keeps_dpe_bind; [|intros ?] | apply keeps_dpe_pure | case_match | by intros ? ].
Qed.

(** The part of the command that follows a positive decision. *)
Definition stash_authorized (md ms : list Z) (svn : Z) (pl : PauserPrivileges) (loc : Z) : M Drv unit :=
  dpe_result ← stash_measurement md ms svn pl loc AccessAllowed;
  if negb (dpe_result =? 0) then
    set_extended_error dpe_result;; fail RUNTIME_AUTH_AND_STASH_MEASUREMENT_DPE_ERROR
  else mret tt.

(** It fails before it touches the environment, or records the measurement. *)
Lemma stash_authorized_records md ms svn pl loc d r d' :
  stash_authorized md ms svn pl loc d = (r, d') →
  (d_dpe d' = d_dpe d ∧ r ≠ Ok tt) ∨ record_measurement md ms svn loc (d_dpe d) = (r, d_dpe d').
Proof.
  unfold stash_authorized, stash_measurement, record_measurement, derive_tci. cbv zeta.
  rewrite bind_assoc, bind_fail_if by (by rewrite andb_false_r). rewrite bind_assoc.
  pose proof (threshold_keeps_dpe pl d) as Ht. unfold mbind at 1, M_bind at 1.
  destruct (is_dpe_context_threshold_exceeded pl d) as [[[]|e|w] d1]; simpl in Ht; [|by intros [= <- <-]; left..].
  intros H. right. revert H. rewrite <-Ht. clear Ht. unfold on_dpe, mbind, M_bind, get, lift, modify, set_extended_error, fail_if.
  destruct (dpe_derive_context _ _ _ _ (d_dpe d1)) as [code x]. destruct (Z.eqb_spec code 0) as [->|]; simpl.
  2: { intros H. rewrite (proj2 (Z.eqb_neq _ _)) in H by done. by injection H as <- <-. }
  destruct (bool_decide (md = _)); simpl.
  - destruct (dpe_active_context_pos loc x) as [idx|]; simpl; [|by intros [= <- <-]].
    destruct (idx >? 255); simpl; [by intros [= <- <-]|].
    destruct (extend_stash_pcr ms _) as [[[]|e|w] x']; simpl; by intros [= <- <-].
  - destruct (extend_stash_pcr ms _) as [[[]|e|w] x']; simpl; by intros [= <- <-].
Qed.

(** The response carries the decision. *)
Lemma authorize_execute_inv args d resp d' :
  authorize_and_stash_execute args d = (Ok resp, d') →
  ∃ cmd code m d1, authorize_req_of_bytes args = Some cmd ∧ authorize_image cmd d = (Ok (code, m), d1) ∧
    resp = to_le 4 0 ++ to_le 4 0 ++ to_le 4 code.
Proof.
  unfold authorize_and_stash_execute. rewrite !bind_get. intros H.
  apply bind_ok_inv in H as (cmd & s1 & Hc & H). apply lift_ok_inv in Hc as [Hc%ok_or_ok_inv ->].
  apply bind_ok_inv in H as ([] & s2 & Hp & H). apply fail_if_ok_inv in Hp as [_ ->].
  apply bind_ok_inv in H as (code & s3 & Ha & H). apply mret_ok_inv in H as [? ?]. subst.
  unfold authorize_and_stash in Ha. apply bind_ok_inv in Ha as ([code' m] & s4 & Hi & Ha).
  apply bind_ok_inv in Ha as ([] & s5 & _ & Ha). apply mret_ok_inv in Ha as [? ?]. subst. by exists cmd, code', m, s4.
Qed.

(** ** The commands that do *)

Lemma manifest_of_cmd_bytes args max b : is_bytes args → manifest_of_cmd args max = Ok b → is_bytes b.
Proof.
  intros Hb Hm. unfold manifest_of_cmd in Hm. cbv zeta in Hm. res_inv Hm.
  apply ok_or_ok_inv, get_range_Some in Hm as [_ ->]. by apply slice_bytes.
Qed.

Lemma inv_same_lists Dv d d' : auth_inv Dv d → device_sees d' Dv →
  auth_manifest_image_metadata_col (d_fw d') = auth_manifest_image_metadata_col (d_fw d) →
  owner_auth_manifest_image_metadata_col (d_fw d') = owner_auth_manifest_image_metadata_col (d_fw d) → auth_inv Dv d'.
Proof. intros [_ Hk Hl] Hd Ha Ho. split; [done..|]. by rewrite Ha, Ho. Qed.

Lemma disjoint_ids_sym l1 l2 : disjoint_ids l1 l2 → disjoint_ids l2 l1.
Proof. intros H x y Hx Hy Heq. by apply (H y x). Qed.

Lemma inv_set_auth_manifest Dv d manifest verify_only mode : auth_inv Dv d → is_bytes manifest →
  auth_inv Dv (snd (set_auth_manifest manifest verify_only mode d)).
Proof.
  intros Hi Hb. assert (Hi' := Hi). destruct Hi' as [Hd Hk (la & lo & Ha & Ho & _ & _ & Heo)].
  destruct (set_auth_manifest_outcome Dv manifest verify_only mode lo d Hd Hb Hk Ho) as (r & d' & -> & Hd' & Hr). simpl.
  destruct Hr as [(_ & Hf & _)|(p & t & [Hok Hdis] & Hr)]; [by apply (inv_same_lists Dv d); rewrite ?Hf|].
  destruct verify_only; [destruct Hr as [_ Hf]; by apply (inv_same_lists Dv d); rewrite ?Hf|].
  destruct Hr as [(l & Hl & Hperm & _) Hown _ _]. split; [done..|]. exists l, lo. rewrite Hown.
  split_and!; [done..| | |done]; [by apply (disjoint_ids_perm _ _ _ Hperm)|right; eauto].
Qed.

Lemma inv_process_owner Dv d manifest verify_only : auth_inv Dv d → is_bytes manifest →
  auth_inv Dv (snd (process_owner_auth_manifest manifest verify_only d)).
Proof.
  intros Hi Hb. assert (Hi' := Hi). destruct Hi' as [Hd Hk (la & lo & Ha & Ho & _ & Hea & _)].
  destruct (set_owner_auth_manifest_outcome Dv manifest verify_only la d Hd Hb Hk Ha) as (r & d' & -> & Hd' & Hr). simpl.
  destruct Hr as [(_ & Hf & _)|(o & t & [Hok Hdis] & Hr)]; [by apply (inv_same_lists Dv d); rewrite ?Hf|].
  destruct verify_only; [destruct Hr as [_ Hf]; by apply (inv_same_lists Dv d); rewrite ?Hf|].
  destruct Hr as [(l & Hl & Hperm) Hau _ _ _]. split; [done..|]. exists la, l. rewrite Hau.
  split_and!; [done..| |done|right; eauto]. by apply disjoint_ids_sym, (disjoint_ids_perm _ _ _ Hperm).
Qed.

(** The frame that both commands share. *)
Lemma inv_execute {A B} Dv d args max (m : list Z → M Drv A) (k : A → M Drv B) :
  auth_inv Dv d → is_bytes args → (∀ b, is_bytes b → auth_inv Dv (snd (m b d))) → (∀ a, quiet (k a)) →
  auth_inv Dv (snd ((ensure_pl0;; b ← lift (manifest_of_cmd args max); a ← m b; k a) d)).
Proof.
  intros Hi Hb Hm Hk. unfold ensure_pl0. rewrite bind_assoc, bind_get. destruct (caller_privilege_level d); [|done].
  rewrite bind_mret. destruct (manifest_of_cmd args max) as [b|e|w] eqn:E; [|done..].
  rewrite (bind_lift_ok _ b) by done. specialize (Hm b (manifest_of_cmd_bytes _ _ _ Hb E)).
  unfold mbind, M_bind. destruct (m b d) as [[a|e|w] d1]; [|done..]. by apply inv_quiet.
Qed.

(** ** The invariant *)

Lemma auth_step_inv Dv d d' : auth_inv Dv d → auth_step d d' → auth_inv Dv d'.
Proof.
  intros Hi [c args d2 Hb <-|dpe mbox_id fw Ha Ho].
  2:{ apply (inv_same_lists Dv d); [done| |done..]. destruct (ai_device _ _ Hi) as (Hw & Hr & Hs & Hm & _). by split_and!. }
  assert (Hret : ∀ z : Z, quiet (mret z : M Drv Z)) by (intros z; apply quiet_ret).
  assert (Hdrop : ∀ (m : M Drv Z), auth_inv Dv (snd (m d)) → auth_inv Dv (snd ((m;; mret []) d : res (list Z) * Drv))).
  { intros m. unfold mbind, M_bind. by destruct (m d) as [[a|e|w] d1]. }
  destruct c; simpl.
  - by apply inv_quiet; [apply stash_measurement_execute_quiet|].
  - pose proof (authorize_and_stash_execute_keeps Dv d args Hi) as Hs.
    destruct (device_sees_of _ _ Hs) as [Hd' Hf]. simpl in Hf. by apply (inv_same_lists Dv d); rewrite ?Hf.
  - by apply Hdrop, inv_execute; [..|intros b ?; apply inv_set_auth_manifest|].
  - by apply Hdrop, inv_execute; [..|intros b ?; apply inv_set_auth_manifest|].
  - by apply Hdrop, inv_execute; [..|intros b ?; apply inv_process_owner|].
  - by apply Hdrop, inv_execute; [..|intros b ?; apply inv_process_owner|].
  - by apply inv_quiet; [apply get_image_info_execute_quiet|].
Qed.

Lemma auth_steps_inv Dv d d' : fresh Dv d → rtc auth_step d d' → auth_inv Dv d'.
Proof. intros Hf. apply fresh_inv in Hf. intros Hr. revert Hf. induction Hr; eauto using auth_step_inv. Qed.
End Runtime.
