(* ===== verification/AuthTheorems.v ===== *)
(** The authorization manifests: what the commands decide, and that no image is
    authorized but on the authority of the firmware's vendor or owner; first a
    runtime on which both manifests are accepted, over the simulated engines, to
    which the theorems apply. *)

From stdpp Require Import relations.
From S2P Require Import Prelude Errors Sha256 Sha256Proofs Sha256Alg Lms LmsGen LmsSpec LmsProofs Sha256Fips.
From S2P Require Import Cfi ImageTypes ImageLayout LmsImage ImageVerify Decides ImageVerifySpec.
From S2P Require Import ImageVerifyExample SocIfc Engines AuthTypes AuthLists AuthManifest AuthLayout.
From S2P Require Import AuthSpec AuthProofs AuthRuns AuthInv.

(** A protection environment that accepts every measurement and keeps them. *)
#[export] Instance ToyDpe : RuntimeDpe (list (list Z)) := {
  create_or_update_caliptra_managed_measurement _ m _ _ _ := modify (cons m);
  dpe_used_context_counts _ := Ok (1, 1);
  dpe_context_limits _ := (16, 16);
  dpe_derive_context m _ _ _ s := (0, m :: s);
  dpe_active_context_pos _ _ := Some 1;
  dpe_set_mcu_rt _ s := s;
  extend_stash_pcr m := modify (cons m);
}.

(** An image of 16 bytes in memory at 0x1000. *)
Definition ex_soc_image : list Z := map Z.of_nat (seq 1 16).
Definition auth_ex_engines : EngineView :=
  mkEngineView True sum_digest (λ _ _, None)
    (λ a len, if (a =? 0x1000) && (len =? 16) then Some ex_soc_image else None)
    (λ k d g, Some (if bool_decide (ecc_s g = d) then ecc_r g else replicate 12 0))
    (λ k m g, Some (if bool_decide (take 12 g = sum_digest m) then MldsaSuccess else ImageVerify.SigVerifyFailed))
    (λ _ m, m).

(** A production device; the fuses demand a version of at least 2 of the SoC
    manifest and at most 50, the straps one of at least 3 of the owner's. *)
Definition auth_ex_soc : SocIfcRegs :=
  mkSocIfcRegs 3 0 0 0x300
    (mkFuseRegs (replicate 24 0) [] 0 0 0 [] 0 [7; 0; 0; 0] [3; 0; 0; 0] 50 1 [] []) 0.

Definition auth_ex_fw : FwPersistentData :=
  mkFwPersistentData (collection_default AUTH_MANIFEST_IMAGE_METADATA_MAX_COUNT)
    (collection_default OWNER_AUTH_MANIFEST_IMAGE_METADATA_MAX_COUNT) (replicate 12 0) 0 0 false (replicate 12 0) 0 false.

(** Firmware whose header names the caller as privileged. *)
Definition auth_ex_drivers : Drivers Emu.HashSha256 EngineView (list (list Z)) :=
  mkDrivers Emu.new auth_ex_engines [] auth_ex_soc (ex_manifest 7 1) 0 auth_ex_fw.
Definition auth_ex_device : Device := mkDevice auth_ex_engines auth_ex_soc (ex_manifest 7 1).

(** ** Manifests *)

Definition ex_am_keys : AuthManifestPubKeys := mkAuthManifestPubKeys ex_ecc_key ex_pqc_key.
Definition ex_am_sigs (msg : list Z) : AuthManifestSignatures :=
  mkAuthManifestSignatures (ex_ecc_sig msg) (ex_pqc_sig msg).

Definition ex_entry (id flags : Z) (addr : Z) (digest : list Z) : AuthManifestImageMetadata :=
  mkMetadata id 0 0 flags (mkAddr64 addr 0) (mkAddr64 0 0) digest.
Definition ex_image_digest_bytes : list Z := bytes_be (sum_digest ex_soc_image).

(** Not in order; the second entry skips the comparison. *)
Definition ex_soc_entries : list AuthManifestImageMetadata :=
  [ex_entry 9 0 0x1000 ex_image_digest_bytes; ex_entry 5 4 0 (replicate 48 0)].
Definition ex_owner_entries : list AuthManifestImageMetadata := [ex_entry 7 0 0x1000 ex_image_digest_bytes].

Definition ex_collection (l : list AuthManifestImageMetadata) : list Z :=
  to_le 4 (Z.of_nat (length l)) ++ concat (map metadata_bytes l).

Definition ex_soc_preamble (svn : Z) : AuthManifestPreamble :=
  let flags := 1 in
  let policy := to_le 4 2 ++ to_le 4 svn ++ to_le 4 flags in
  let signed_keys := ex_am_sigs (policy ++ am_pub_keys_bytes ex_am_keys) in
  let signed_list := ex_am_sigs (ex_collection ex_soc_entries) in
  mkAuthManifestPreamble AUTH_MANIFEST_MARKER (Z.of_nat AUTH_MANIFEST_PREAMBLE_SIZE) 2 svn flags
    ex_am_keys signed_keys ex_am_keys signed_keys signed_list signed_list.
Definition ex_soc_manifest (svn : Z) : list Z :=
  auth_preamble_bytes (ex_soc_preamble svn) ++ ex_collection ex_soc_entries.

Definition ex_owner_collection : list Z :=
  ex_collection ex_owner_entries ++ replicate (31 * size_metadata) 0.
Definition ex_owner_preamble (svn : Z) : OwnerAuthManifestPreamble :=
  let policy := to_le 4 2 ++ to_le 4 svn ++ to_le 4 0 in
  mkOwnerAuthManifestPreamble OWNER_AUTH_MANIFEST_MARKER (Z.of_nat OWNER_AUTH_MANIFEST_PREAMBLE_SIZE) 2 svn 0
    ex_am_keys (ex_am_sigs (policy ++ am_pub_keys_bytes ex_am_keys)) (ex_am_sigs ex_owner_collection).
Definition ex_owner_manifest (svn : Z) : list Z := owner_preamble_bytes (ex_owner_preamble svn) ++ ex_owner_collection.

Definition ex_set_manifest_args (manifest : list Z) : list Z :=
  to_le 4 0 ++ to_le 4 (Z.of_nat (length manifest)) ++ manifest.

(** ** Runs *)

(** Both manifests are accepted, whichever comes first; a version below the
    fuses' is not. *)
Example ex_manifests_accepted :
  let d1 := snd (set_auth_manifest_execute (ex_set_manifest_args (ex_soc_manifest 5)) false auth_ex_drivers) in
  fst (set_auth_manifest (ex_soc_manifest 5) false UpdateExisting auth_ex_drivers) = Ok tt ∧
  fst (process_owner_auth_manifest (ex_owner_manifest 4) false d1) = Ok tt ∧
  fst (set_auth_manifest (ex_soc_manifest 1) false UpdateExisting auth_ex_drivers)
    = Err IMAGE_VERIFIER_ERR_FIRMWARE_SVN_LESS_THAN_FUSE ∧
  fst (process_owner_auth_manifest (ex_owner_manifest 2) false d1) = Err RUNTIME_OWNER_AUTH_MANIFEST_SVN_LESS_THAN_MIN.
Proof. vm_compute. auto. Qed.

(** ** The example meets the assumptions *)

Lemma auth_ex_sees : device_sees auth_ex_drivers auth_ex_device.
Proof. split_and!; [|done..]. split; [done|]. split; [intros d; apply length_replicate|done]. Qed.

Lemma auth_ex_keys : wf_keys (dev_fw auth_ex_device).
Proof. split; apply (bool_decide_eq_true_1 _); vm_compute; reflexivity. Qed.

Lemma auth_ex_fresh : fresh auth_ex_device auth_ex_drivers.
Proof. split; [apply auth_ex_sees|]. split; [apply auth_ex_keys|]. by split; vm_compute. Qed.

Lemma holds_default n : holds (collection_default n) [].
Proof. split; [|constructor]. unfold active_entries, get_range. simpl. by rewrite (proj2 (Z.leb_le 0 _)) by lia. Qed.

(** C4. SET_AUTH_MANIFEST and VERIFY_AUTH_MANIFEST. Over engines that meet
    their contract, setting a manifest ends without a panic of its own; it
    rejects the manifest and changes nothing in persistent memory, or the
    manifest is acceptable: well-formed, its keys signed by the vendor and by
    the owner of the running firmware together with its version and flags, its
    list signed with those keys, its version within the fuses' bounds, its ids
    unique and none of them in the owner's list. An acceptable manifest is
    rejected only by an engine that fails. Verifying changes nothing; setting
    installs the list, sorted by id, and leaves the owner's list alone. When
    the command succeeds the digest it records is that of the buffer after the
    sort. *)
Theorem set_auth_manifest_decides {Sh Op X HOp Acc Mu D : Type}
    `{Hcomp : Sha2Compress, Hcok : !Sha2CompressOk, Halg : !Sha256Alg Sh Op, Haok : !Sha256AlgOk Sh Op,
      Heng : Engines X HOp Acc Mu, Heok : !EnginesOk X HOp Acc Mu, Hdpe : RuntimeDpe D}
    Dv manifest verify_only mode lo (d : Drivers Sh X D) :
  device_sees d Dv → is_bytes manifest → wf_keys (dev_fw Dv) →
  holds (owner_auth_manifest_image_metadata_col (d_fw d)) lo →
  ∃ r d', set_auth_manifest manifest verify_only mode d = (r, d') ∧ device_sees d' Dv ∧
    ((∃ e, r = Err e) ∧ d_fw d' = d_fw d ∧
       (ev_reliable (dev_engines Dv) → ∀ p t, ¬ soc_acceptable Dv manifest lo p t) ∨
     ∃ p t, soc_acceptable Dv manifest lo p t ∧
       if verify_only then r = Ok tt ∧ d_fw d' = d_fw d else soc_installed Dv manifest p r (d_fw d) (d_fw d')).
Proof. apply set_auth_manifest_outcome. Qed.

Lemma set_auth_manifest_decides_witness :
  ∃ p t, soc_acceptable auth_ex_device (ex_soc_manifest 5) [] p t.
Proof.
  destruct (set_auth_manifest_decides (Haok := Sha256HwOk) (Heok := SimEnginesOk) auth_ex_device (ex_soc_manifest 5)
    false UpdateExisting [] auth_ex_drivers) as (r & d' & E & _ & Hr).
  - apply auth_ex_sees.
  - apply (bool_decide_eq_true_1 _). vm_compute. reflexivity.
  - apply auth_ex_keys.
  - apply holds_default.
  - assert (Hf : fst (set_auth_manifest (ex_soc_manifest 5) false UpdateExisting auth_ex_drivers) = Ok tt)
      by (vm_compute; reflexivity).
    rewrite E in Hf. simpl in Hf. subst r. destruct Hr as [([e He] & _)|(p & t & Ha & _)]; [discriminate He|]. exists p, t. exact Ha.
Defined.

(** C19. SET_OWNER_AUTH_MANIFEST and VERIFY_OWNER_AUTH_MANIFEST. As for the SoC
    manifest, with the keys of the firmware's owner alone, the exact size, no
    flags, and the version demanded by the strap: an acceptable manifest is
    installed and its digest and version recorded, unless an engine fails; any
    other leaves the persistent data as it was. *)
Theorem set_owner_auth_manifest_decides {Sh Op X HOp Acc Mu D : Type}
    `{Hcomp : Sha2Compress, Hcok : !Sha2CompressOk, Halg : !Sha256Alg Sh Op, Haok : !Sha256AlgOk Sh Op,
      Heng : Engines X HOp Acc Mu, Heok : !EnginesOk X HOp Acc Mu}
    Dv manifest verify_only la (d : Drivers Sh X D) :
  device_sees d Dv → is_bytes manifest → wf_keys (dev_fw Dv) →
  holds (auth_manifest_image_metadata_col (d_fw d)) la →
  ∃ r d', process_owner_auth_manifest manifest verify_only d = (r, d') ∧ device_sees d' Dv ∧
    ((∃ e, r = Err e) ∧ d_fw d' = d_fw d ∧
       (ev_reliable (dev_engines Dv) → ∀ o t, ¬ owner_acceptable Dv manifest la o t) ∨
     ∃ o t, owner_acceptable Dv manifest la o t ∧
       if verify_only then r = Ok tt ∧ d_fw d' = d_fw d else owner_installed Dv manifest o r (d_fw d) (d_fw d')).
Proof. apply set_owner_auth_manifest_outcome. Qed.

Lemma set_owner_auth_manifest_decides_witness :
  ∃ o t, owner_acceptable auth_ex_device (ex_owner_manifest 4) [] o t.
Proof.
  destruct (set_owner_auth_manifest_decides (Haok := Sha256HwOk) (Heok := SimEnginesOk) auth_ex_device
    (ex_owner_manifest 4) false [] auth_ex_drivers) as (r & d' & E & _ & Hr).
  - apply auth_ex_sees.
  - apply (bool_decide_eq_true_1 _). vm_compute. reflexivity.
  - apply auth_ex_keys.
  - apply holds_default.
  - assert (Hf : fst (process_owner_auth_manifest (ex_owner_manifest 4) false auth_ex_drivers) = Ok tt)
      by (vm_compute; reflexivity).
    rewrite E in Hf. simpl in Hf. subst r. destruct Hr as [([e He] & _)|(o & t & Ha & _)]; [discriminate He|]. exists o, t. exact Ha.
Defined.

(** ** Authorizing images *)

(** C18. AUTHORIZE_AND_STASH, the decision. With both lists in order, it
    answers without a panic, and the answer is the one that the entry for the
    image calls for: not authorized if the list of the requested manifest has
    no entry with its id; authorized if the entry skips the comparison, or if
    its digest is that of the image (the caller's, or computed over the memory
    the entry points to); a hash mismatch otherwise. A request that has no such
    answer (an unknown hash source or manifest, memory that cannot be read) is
    refused, and only an engine that fails refuses any other. *)
Theorem authorize_image_decides {Sh Op X HOp Acc Mu D : Type}
    `{Hcomp : Sha2Compress, Hcok : !Sha2CompressOk, Halg : !Sha256Alg Sh Op, Haok : !Sha256AlgOk Sh Op,
      Heng : Engines X HOp Acc Mu, Heok : !EnginesOk X HOp Acc Mu}
    Dv cmd la lo (d : Drivers Sh X D) :
  device_sees d Dv → holds (auth_manifest_image_metadata_col (d_fw d)) la →
  holds (owner_auth_manifest_image_metadata_col (d_fw d)) lo →
  let answer code m := hash_source (ar_source cmd) ≠ InvalidSource ∧ ∃ src,
    source_from_flags (ar_flags cmd) = Some src ∧ authorization (dev_engines Dv) la lo cmd src code m in
  ∃ r d', authorize_image cmd d = (r, d') ∧ device_sees d' Dv ∧ d_fw d' = d_fw d ∧
    match r with
    | Ok (code, m) => answer code m
    | Err _ => ev_reliable (dev_engines Dv) → ∀ code m, ¬ answer code m
    | Abort _ => False
    end.
Proof.
  intros Hd Ha Ho answer.
  destruct (authorize_image_ok (mkAuthView Dv (d_fw d)) la lo cmd Ha Ho d Hd) as (r & d' & E & Hd' & Hr).
  destruct (device_sees_of _ _ Hd') as [Hs Hf]. exists r, d'. split_and!; [done..|].
  destruct r as [[code m]|e|w]; [done| |done]. intros Hrel code m. apply (Hr Hrel (code, m)).
Qed.

(** The image at 0x1000 is in the owner's list, and not in the SoC's. *)
Definition ex_authorize_req (flags source size : Z) : AuthorizeAndStashReq :=
  mkAuthorizeAndStashReq (to_le 4 7) (replicate 48 0) 1 flags source size.
Definition auth_ex_owner_set : Drivers Emu.HashSha256 EngineView (list (list Z)) :=
  snd (process_owner_auth_manifest (ex_owner_manifest 4) false auth_ex_drivers).

Lemma auth_ex_owner_sees : device_sees auth_ex_owner_set auth_ex_device.
Proof.
  destruct (set_owner_auth_manifest_outcome (Haok := Sha256HwOk) (Heok := SimEnginesOk) auth_ex_device
    (ex_owner_manifest 4) false [] auth_ex_drivers) as (r & d' & E & Hd & _).
  - apply auth_ex_sees.
  - apply (bool_decide_eq_true_1 _). vm_compute. reflexivity.
  - apply auth_ex_keys.
  - apply holds_default.
  - unfold auth_ex_owner_set. rewrite E. exact Hd.
Qed.

Lemma authorize_image_decides_witness :
  authorization auth_ex_engines [] ex_owner_entries (ex_authorize_req 2 2 16) Owner IMAGE_AUTHORIZED_OWNER_ONLY
    ex_image_digest_bytes.
Proof.
  destruct (authorize_image_decides (Haok := Sha256HwOk) (Heok := SimEnginesOk) auth_ex_device (ex_authorize_req 2 2 16)
    [] ex_owner_entries auth_ex_owner_set) as (r & d' & E & _ & _ & Hr).
  - exact auth_ex_owner_sees.
  - split; [vm_compute; reflexivity|constructor].
  - split; [vm_compute; reflexivity|]. unfold sorted_ids. vm_compute. by repeat constructor.
  - assert (Hf : fst (authorize_image (ex_authorize_req 2 2 16) auth_ex_owner_set)
      = Ok (IMAGE_AUTHORIZED_OWNER_ONLY, ex_image_digest_bytes)) by (vm_compute; reflexivity).
    rewrite E in Hf. cbn [fst] in Hf. subst r. destruct Hr as (_ & src & Hsrc & Ha).
    vm_compute in Hsrc. injection Hsrc as <-. exact Ha.
Defined.

(** C26. AUTHORIZE_AND_STASH, the record. However the command ends, with an
    answer, an error or a panic, the protection environment is as it was, or the
    request does not skip the stash, the image is authorized by an entry of the
    manifest, and what happened to the environment is exactly that a measurement
    was recorded, which is the digest of the image and of the entry or, if the
    entry skips the comparison, the caller's unverified. When the command
    answers that the image is authorized and the stash is not skipped, it has
    been recorded; with every other answer the environment is as it was. *)
Theorem authorize_stash_records {Sh Op X HOp Acc Mu D : Type}
    `{Hcomp : Sha2Compress, Hcok : !Sha2CompressOk, Halg : !Sha256Alg Sh Op, Haok : !Sha256AlgOk Sh Op,
      Heng : Engines X HOp Acc Mu, Heok : !EnginesOk X HOp Acc Mu, Hdpe : RuntimeDpe D}
    Dv cmd locality la lo (d : Drivers Sh X D) r d' :
  device_sees d Dv → holds (auth_manifest_image_metadata_col (d_fw d)) la →
  holds (owner_auth_manifest_image_metadata_col (d_fw d)) lo →
  authorize_and_stash cmd locality d = (r, d') →
  let recorded res code := ∃ src e m, entry_for src la lo (from_le (ar_fw_id cmd)) e ∧
    skip_stash (ar_flags cmd) = false ∧ code = success_code src ∧
    (if ignore_auth_check (md_flags e) then m = ar_measurement cmd
     else image_measurement (dev_engines Dv) cmd e = Some m ∧ md_digest e = m) ∧
    record_measurement (ar_fw_id cmd) m (ar_svn cmd) locality (d_dpe d) = (res, d_dpe d') in
  match r with
  | Ok code =>
      if bool_decide (code = IMAGE_AUTHORIZED_VENDOR_OWNER ∨ code = IMAGE_AUTHORIZED_OWNER_ONLY)
         && negb (skip_stash (ar_flags cmd))
      then recorded (Ok tt) code else d_dpe d' = d_dpe d
  | Err e => d_dpe d' = d_dpe d ∨ ∃ code, recorded (Err e) code
  | Abort w => d_dpe d' = d_dpe d ∨ ∃ code, recorded (Abort w) code
  end.
Proof.
  intros Hd Ha Ho H recorded. unfold authorize_and_stash in H.
  pose proof (authorize_image_keeps_dpe cmd d) as Hk.
  destruct (authorize_image_ok (mkAuthView Dv (d_fw d)) la lo cmd Ha Ho d Hd) as (ri & d1 & E & _ & Hres).
  unfold mbind at 1, M_bind at 1 in H. rewrite E in H, Hk. simpl in Hk.
  destruct ri as [[code m]|e|w]; [|injection H as <- <-; by left..]. destruct Hres as (_ & src & _ & Hauth).
  cbv beta iota in H. cbn [av_device fst snd] in Hauth.
  assert (Hb : (code =? IMAGE_AUTHORIZED_VENDOR_OWNER) || (code =? IMAGE_AUTHORIZED_OWNER_ONLY) =
    bool_decide (code = IMAGE_AUTHORIZED_VENDOR_OWNER ∨ code = IMAGE_AUTHORIZED_OWNER_ONLY)).
  { apply eq_true_iff_eq. by rewrite orb_true_iff, !Z.eqb_eq, bool_decide_eq_true. }
  rewrite Hb in H. destruct (bool_decide _ && negb (skip_stash _)) eqn:Hs.
  2: { rewrite bind_mret in H. injection H as <- <-. by rewrite Hs. }
  pose proof Hs as [Hc%bool_decide_eq_true Hsk%negb_true_iff]%andb_true_iff. rewrite bind_assoc, bind_get in H.
  assert (Hrec : ∀ res, record_measurement (ar_fw_id cmd) m (ar_svn cmd) locality (d_dpe d) = (res, d_dpe d') →
    recorded res code).
  { intros res Hrun. destruct Hauth as [Hn|e He Hi|e He Hi Hm|e m' He]; [by destruct Hc| | |by destruct Hc].
    - exists src, e, (ar_measurement cmd). by rewrite Hi.
    - exists src, e, (md_digest e). by rewrite Hi. }
  unfold mbind at 1, M_bind at 1 in H.
  destruct (stash_authorized (ar_fw_id cmd) m (ar_svn cmd) (caller_privilege_level d1) locality d1) as [r2 d2] eqn:Es.
  unfold stash_authorized in Es. rewrite Es in H.
  destruct (stash_authorized_records _ _ _ _ _ _ _ _ Es) as [[Hd2 Hne]|Hrun]; rewrite Hk in *.
  - destruct r2 as [[]|e|w]; [done|injection H as <- <-; by left..].
  - destruct r2 as [[]|e|w]; injection H as <- <-; [rewrite Hs|right; exists code..]; by apply Hrec.
Qed.

Definition auth_ex_soc_set : Drivers Emu.HashSha256 EngineView (list (list Z)) :=
  snd (set_auth_manifest (ex_soc_manifest 5) false UpdateExisting auth_ex_drivers).

Lemma auth_ex_soc_sees : device_sees auth_ex_soc_set auth_ex_device.
Proof.
  destruct (set_auth_manifest_outcome (Haok := Sha256HwOk) (Heok := SimEnginesOk) auth_ex_device
    (ex_soc_manifest 5) false UpdateExisting [] auth_ex_drivers) as (r & d' & E & Hd & _).
  - apply auth_ex_sees.
  - apply (bool_decide_eq_true_1 _). vm_compute. reflexivity.
  - apply auth_ex_keys.
  - apply holds_default.
  - unfold auth_ex_soc_set. rewrite E. exact Hd.
Qed.

(** An entry that skips the comparison: any measurement is recorded. *)
Lemma authorize_stash_records_witness :
  ∃ src e m d', entry_for src [ex_entry 5 4 0 (replicate 48 0); ex_entry 9 0 0x1000 ex_image_digest_bytes] [] 5 e ∧
    (if ignore_auth_check (md_flags e) then m = replicate 48 7 else md_digest e = m) ∧
    record_measurement (D := list (list Z)) (to_le 4 5) m 1 0 (d_dpe auth_ex_soc_set) = (Ok tt, d') ∧
    success_code src = IMAGE_AUTHORIZED.
Proof.
  pose (cmd := mkAuthorizeAndStashReq (to_le 4 5) (replicate 48 7) 1 0 1 0).
  assert (Hf : fst (authorize_and_stash cmd 0 auth_ex_soc_set) = Ok IMAGE_AUTHORIZED) by (vm_compute; reflexivity).
  destruct (authorize_and_stash cmd 0 auth_ex_soc_set) as [r d'] eqn:E. cbn [fst] in Hf. subst r.
  destruct (authorize_stash_records (Haok := Sha256HwOk) (Heok := SimEnginesOk) auth_ex_device cmd 0
    [ex_entry 5 4 0 (replicate 48 0); ex_entry 9 0 0x1000 ex_image_digest_bytes] [] auth_ex_soc_set (Ok IMAGE_AUTHORIZED) d'
    auth_ex_soc_sees) as (src & e & m & He & _ & Hc & Hm & Hx).
  - split; [vm_compute; reflexivity|]. unfold sorted_ids. vm_compute. by repeat constructor.
  - split; [vm_compute; reflexivity|constructor].
  - exact E.
  - exists src, e, m, (d_dpe d'). split; [exact He|]. split; [|split; [exact Hx|symmetry; exact Hc]].
    destruct (ignore_auth_check (md_flags e)); [exact Hm|exact (proj2 Hm)].
Defined.

(** ** Any sequence of commands *)

(** C17. The lists of image metadata. From a fresh boot and after any commands,
    accepted or not, from any caller, each list is sorted by firmware id and
    within its array, no id is in both lists, and each list is empty or holds
    exactly the entries of one manifest that the device accepts. *)
Theorem auth_lists_endorsed {Sh Op X HOp Acc Mu D : Type}
    `{Hcomp : Sha2Compress, Hcok : !Sha2CompressOk, Halg : !Sha256Alg Sh Op, Haok : !Sha256AlgOk Sh Op,
      Heng : Engines X HOp Acc Mu, Heok : !EnginesOk X HOp Acc Mu, Hdpe : RuntimeDpe D}
    Dv (d0 d : Drivers Sh X D) :
  fresh Dv d0 → rtc auth_step d0 d →
  ∃ la lo, holds (auth_manifest_image_metadata_col (d_fw d)) la ∧
    holds (owner_auth_manifest_image_metadata_col (d_fw d)) lo ∧ disjoint_ids la lo ∧
    soc_endorsed Dv la ∧ owner_endorsed Dv lo.
Proof. intros Hf Hr. apply (ai_lists Dv), (auth_steps_inv Dv d0 d Hf Hr). Qed.

Definition ex_set_owner_args : list Z := ex_set_manifest_args (ex_owner_manifest 4).
Lemma ex_set_owner_step : rtc auth_step auth_ex_drivers
  (snd (execute_auth_command SET_OWNER_AUTH_MANIFEST ex_set_owner_args auth_ex_drivers)).
Proof.
  apply rtc_once, (step_command _ SET_OWNER_AUTH_MANIFEST ex_set_owner_args); [|reflexivity].
  apply (bool_decide_eq_true_1 _). vm_compute. reflexivity.
Qed.

Lemma auth_lists_endorsed_witness : ∃ manifest o t,
  owner_manifest_ok auth_ex_device manifest o t ∧ listed (owner_metadata manifest) ≠ [].
Proof.
  destruct (auth_lists_endorsed (Haok := Sha256HwOk) (Heok := SimEnginesOk) auth_ex_device auth_ex_drivers
    (snd (execute_auth_command SET_OWNER_AUTH_MANIFEST ex_set_owner_args auth_ex_drivers)) auth_ex_fresh
    ex_set_owner_step) as (la & lo & _ & [Hlo _] & _ & _ & He).
  assert (Hn : lo ≠ []).
  { intros ->. apply (f_equal (option_map length)) in Hlo. vm_compute in Hlo. discriminate Hlo. }
  destruct He as [He|(manifest & o & t & Hok & Hp)]; [exact (False_ind _ (Hn He))|].
  exists manifest, o, t. split; [exact Hok|]. intros Hl. rewrite Hl in Hp. exact (Hn (proj1 (Permutation_nil_r _) Hp)).
Defined.

(** C3. The chain of trust to a SoC image. Whatever commands a freshly booted
    runtime has served, if AUTHORIZE_AND_STASH answers that an image is
    authorized by vendor and owner, then there is a manifest whose keys the
    vendor and the owner of the running firmware have signed, whose list is
    signed with those keys and has an entry with the image's id, and the entry
    skips the comparison or its digest is that of the image. Likewise for the
    owner's manifest. *)
Theorem auth_chain_of_trust {Sh Op X HOp Acc Mu D : Type}
    `{Hcomp : Sha2Compress, Hcok : !Sha2CompressOk, Halg : !Sha256Alg Sh Op, Haok : !Sha256AlgOk Sh Op,
      Heng : Engines X HOp Acc Mu, Heok : !EnginesOk X HOp Acc Mu, Hdpe : RuntimeDpe D}
    Dv (d0 d d' : Drivers Sh X D) cmd_bytes cmd resp :
  fresh Dv d0 → rtc auth_step d0 d → authorize_req_of_bytes cmd_bytes = Some cmd →
  execute_auth_command AUTHORIZE_AND_STASH cmd_bytes d = (Ok resp, d') →
  let trusted e := fw_id e = from_le (ar_fw_id cmd) ∧
    (ignore_auth_check (md_flags e) = true ∨ image_measurement (dev_engines Dv) cmd e = Some (md_digest e)) in
  (u32_at resp 8 = IMAGE_AUTHORIZED_VENDOR_OWNER → ∃ manifest p t e,
     soc_manifest_ok Dv manifest p t ∧ e ∈ listed (soc_metadata manifest) ∧ trusted e) ∧
  (u32_at resp 8 = IMAGE_AUTHORIZED_OWNER_ONLY → ∃ manifest o t e,
     owner_manifest_ok Dv manifest o t ∧ e ∈ listed (owner_metadata manifest) ∧ trusted e).
Proof.
  intros Hf Hr Hcmd Hex trusted. destruct (auth_steps_inv Dv d0 d Hf Hr) as [Hd _ (la & lo & Ha & Ho & _ & Hsa & Hso)].
  simpl in Hex. apply authorize_execute_inv in Hex as (cmd' & code & m & d1 & Hcmd' & Himg & ->).
  rewrite Hcmd in Hcmd'. injection Hcmd' as <-.
  destruct (authorize_image_ok (mkAuthView Dv (d_fw d)) la lo cmd Ha Ho d Hd) as (r & d2 & E & _ & Hres).
  rewrite Himg in E. injection E as <- <-. destruct Hres as (_ & src & _ & Hauth). simpl in Hauth.
  assert (Hentry : code = success_code src → ∃ e, entry_for src la lo (from_le (ar_fw_id cmd)) e ∧ trusted e).
  { intros ->. remember (success_code src) as c eqn:Hc. destruct Hauth as [Hn|e He Hi|e He Hi Hm|e m' He].
    - by destruct src.
    - exists e. split; [done|]. split; [apply He|by left].
    - exists e. split; [done|]. split; [apply He|by right].
    - by destruct src. }
  assert (Hcode : u32_at (to_le 4 0 ++ to_le 4 0 ++ to_le 4 code) 8 = code).
  { destruct Hauth as [_|e He Hi|e He Hi Hm|e m' He]; [reflexivity|destruct src; reflexivity..|reflexivity]. }
  rewrite Hcode. split; intros Hs.
  - destruct src; [|destruct Hauth; discriminate Hs]. destruct (Hentry Hs) as (e & [_ [He _]] & Ht).
    destruct Hsa as [->|(manifest & p & t & Hok & Hp)]; [by apply elem_of_nil in He|].
    exists manifest, p, t, e. split; [done|]. split; [by rewrite <- Hp|done].
  - destruct src; [destruct Hauth; discriminate Hs|]. destruct (Hentry Hs) as (e & [_ He] & Ht).
    destruct Hso as [->|(manifest & o & t & Hok & Hp)]; [by apply elem_of_nil in He|].
    exists manifest, o, t, e. split; [done|]. split; [by rewrite <- Hp|done].
Qed.

Definition ex_authorize_args : list Z :=
  to_le 4 0 ++ to_le 4 7 ++ replicate 48 0 ++ replicate 48 0 ++ to_le 4 1 ++ to_le 4 2 ++ to_le 4 2 ++ to_le 4 16.

Lemma auth_chain_of_trust_witness : ∃ manifest o t e,
  owner_manifest_ok auth_ex_device manifest o t ∧ e ∈ listed (owner_metadata manifest) ∧ fw_id e = 7.
Proof.
  pose (d := snd (execute_auth_command SET_OWNER_AUTH_MANIFEST ex_set_owner_args auth_ex_drivers)).
  assert (Hresp : option_map (λ x, u32_at x 8) (value_of (fst (execute_auth_command AUTHORIZE_AND_STASH ex_authorize_args d)))
    = Some IMAGE_AUTHORIZED_OWNER_ONLY) by (vm_compute; reflexivity).
  destruct (execute_auth_command AUTHORIZE_AND_STASH ex_authorize_args d) as [[resp|e|w] d'] eqn:E;
    [|discriminate Hresp..]. injection Hresp as Hresp.
  destruct (auth_chain_of_trust (Haok := Sha256HwOk) (Heok := SimEnginesOk) auth_ex_device auth_ex_drivers d d'
    ex_authorize_args (mkAuthorizeAndStashReq (to_le 4 7) (replicate 48 0) 1 2 2 16) resp auth_ex_fresh
    ex_set_owner_step) as [_ Ho].
  - vm_compute. reflexivity.
  - exact E.
  - destruct (Ho Hresp) as (manifest & o & t & e & Hok & He & Hid & _). exists manifest, o, t, e.
    split; [exact Hok|]. split; [exact He|exact Hid].
Defined.
