(* ===== verification/KeyVault.v ===== *)
(** The key vault and the PCR bank: the emulated peripheral
    (sw-emulator/lib/periph/src/key_vault.rs) and the firmware's drivers
    (drivers/src/key_vault.rs, drivers/src/pcr_bank.rs) on top of it. *)

From S2P Require Import Prelude Bits Errors Memory.

(** * The peripheral *)

Module Vault.

Definition KEY_COUNT : nat := 24.
Definition KEY_SIZE : nat := 64.
Definition KEY_REG_SIZE : nat := 0x800.
Definition PCR_COUNT : nat := 32.
Definition PCR_SIZE_WORDS : nat := 12.
Definition PCR_REG_SIZE_WORDS : nat := 0x600 / 4.
Definition DV_ENTRY_SIZE_WORDS : nat := 12.

Record KeyVaultRegs := mkKeyVaultRegs {
  key_control : list Z;
  keys : list Z;
  pcr_control : list Z;
  pcrs : list Z;
  sticky_datavault_control : list Z;
  sticky_datavault_entry : list Z;
  datavault_control : list Z;
  datavault_entry : list Z;
  lockable_scratch_control : list Z;
  lockable_scratch : list Z;
  nonsticky_generic_scratch : list Z;
  sticky_lockable_scratch_control : list Z;
  sticky_lockable_scratch : list Z;
}.

Definition new : KeyVaultRegs :=
  mkKeyVaultRegs (replicate KEY_COUNT 0) (replicate KEY_REG_SIZE 0) (replicate PCR_COUNT 0)
    (replicate PCR_REG_SIZE_WORDS 0) (replicate 10 0) (replicate 120 0) (replicate 10 0) (replicate 120 0)
    (replicate 10 0) (replicate 10 0) (replicate 8 0) (replicate 8 0) (replicate 8 0).

(** Fields of [KV_CONTROL], [PV_CONTROL] and [DV_CONTROL]. *)
Definition kv_write_lock (r : Z) : Z := fget 0 1 r.
Definition kv_use_lock (r : Z) : Z := fget 1 1 r.
Definition kv_clear (r : Z) : bool := negb (fget 2 1 r =? 0).
Definition kv_usage (r : Z) : Z := fget 9 8 r.
Definition kv_last_dword (r : Z) : Z := fget 17 4 r.
Definition pv_lock (r : Z) : Z := fget 0 1 r.
Definition pv_clear (r : Z) : bool := negb (fget 1 1 r =? 0).
Definition dv_lock (r : Z) : Z := fget 0 1 r.

(** Updates of single components. *)
Definition set_key_control v r : KeyVaultRegs :=
  mkKeyVaultRegs v (keys r) (pcr_control r) (pcrs r) (sticky_datavault_control r) (sticky_datavault_entry r)
    (datavault_control r) (datavault_entry r) (lockable_scratch_control r) (lockable_scratch r)
    (nonsticky_generic_scratch r) (sticky_lockable_scratch_control r) (sticky_lockable_scratch r).
Definition set_keys v r : KeyVaultRegs :=
  mkKeyVaultRegs (key_control r) v (pcr_control r) (pcrs r) (sticky_datavault_control r) (sticky_datavault_entry r)
    (datavault_control r) (datavault_entry r) (lockable_scratch_control r) (lockable_scratch r)
    (nonsticky_generic_scratch r) (sticky_lockable_scratch_control r) (sticky_lockable_scratch r).
Definition set_pcr_control v r : KeyVaultRegs :=
  mkKeyVaultRegs (key_control r) (keys r) v (pcrs r) (sticky_datavault_control r) (sticky_datavault_entry r)
    (datavault_control r) (datavault_entry r) (lockable_scratch_control r) (lockable_scratch r)
    (nonsticky_generic_scratch r) (sticky_lockable_scratch_control r) (sticky_lockable_scratch r).
Definition set_pcrs v r : KeyVaultRegs :=
  mkKeyVaultRegs (key_control r) (keys r) (pcr_control r) v (sticky_datavault_control r) (sticky_datavault_entry r)
    (datavault_control r) (datavault_entry r) (lockable_scratch_control r) (lockable_scratch r)
    (nonsticky_generic_scratch r) (sticky_lockable_scratch_control r) (sticky_lockable_scratch r).
Definition set_sticky_dv c e r : KeyVaultRegs :=
  mkKeyVaultRegs (key_control r) (keys r) (pcr_control r) (pcrs r) c e
    (datavault_control r) (datavault_entry r) (lockable_scratch_control r) (lockable_scratch r)
    (nonsticky_generic_scratch r) (sticky_lockable_scratch_control r) (sticky_lockable_scratch r).
Definition set_dv c e r : KeyVaultRegs :=
  mkKeyVaultRegs (key_control r) (keys r) (pcr_control r) (pcrs r) (sticky_datavault_control r)
    (sticky_datavault_entry r) c e (lockable_scratch_control r) (lockable_scratch r)
    (nonsticky_generic_scratch r) (sticky_lockable_scratch_control r) (sticky_lockable_scratch r).
Definition set_scratch c e r : KeyVaultRegs :=
  mkKeyVaultRegs (key_control r) (keys r) (pcr_control r) (pcrs r) (sticky_datavault_control r)
    (sticky_datavault_entry r) (datavault_control r) (datavault_entry r) c e
    (nonsticky_generic_scratch r) (sticky_lockable_scratch_control r) (sticky_lockable_scratch r).
Definition set_sticky_scratch c e r : KeyVaultRegs :=
  mkKeyVaultRegs (key_control r) (keys r) (pcr_control r) (pcrs r) (sticky_datavault_control r)
    (sticky_datavault_entry r) (datavault_control r) (datavault_entry r) (lockable_scratch_control r)
    (lockable_scratch r) (nonsticky_generic_scratch r) c e.

Definition set_generic_scratch v r : KeyVaultRegs :=
  mkKeyVaultRegs (key_control r) (keys r) (pcr_control r) (pcrs r) (sticky_datavault_control r)
    (sticky_datavault_entry r) (datavault_control r) (datavault_entry r) (lockable_scratch_control r)
    (lockable_scratch r) v (sticky_lockable_scratch_control r) (sticky_lockable_scratch r).

(** ** Reset *)

Definition unlock_vault_registers (r : KeyVaultRegs) : KeyVaultRegs :=
  let r := set_pcr_control (map (fset 0 1 0) (pcr_control r)) r in
  let r := set_key_control (map (λ x, fset 1 1 0 (fset 0 1 0 x)) (key_control r)) r in
  let r := set_dv (map (fset 0 1 0) (datavault_control r)) (datavault_entry r) r in
  set_scratch (map (fset 0 1 0) (lockable_scratch_control r)) (lockable_scratch r) r.
Definition warm_reset := unlock_vault_registers.
Definition update_reset := unlock_vault_registers.

(** ** Register writes *)

Definition write_pcr_ctrl (index : nat) (val : Z) (r : KeyVaultRegs) : bus KeyVaultRegs :=
  c ← unwrap (pcr_control r !! index);
  let c := fset 0 1 (Z.lor (pv_lock c) (pv_lock val)) c in
  let r := set_pcr_control (<[index := c]> (pcr_control r)) r in
  if (pv_lock c =? 0) && pv_clear val then
    Ok (set_pcrs (splice (pcrs r) (index * PCR_SIZE_WORDS) (replicate PCR_SIZE_WORDS 0)) r)
  else Ok r.

Definition write_key_ctrl (index : nat) (val : Z) (r : KeyVaultRegs) : bus KeyVaultRegs :=
  c ← unwrap (key_control r !! index);
  let c := fset 0 1 (Z.lor (kv_write_lock c) (kv_write_lock val)) c in
  let c := fset 1 1 (Z.lor (kv_use_lock c) (kv_use_lock val)) c in
  let r := set_key_control (<[index := c]> (key_control r)) r in
  if (kv_write_lock c =? 0) && kv_clear val then
    Ok (set_keys (splice (keys r) (index * KEY_SIZE) (replicate KEY_SIZE 0)) r)
  else Ok r.

(** Registers without a handler: a word is stored as it is. *)
Definition write_pcr_word (word_index : nat) (val : Z) (r : KeyVaultRegs) : KeyVaultRegs :=
  set_pcrs (<[word_index := val]> (pcrs r)) r.
Definition write_generic_scratch (word_index : nat) (val : Z) (r : KeyVaultRegs) : KeyVaultRegs :=
  set_generic_scratch (<[word_index := val]> (nonsticky_generic_scratch r)) r.

(** The four control/entry pairs with a lock bit. *)
Definition lock_entry (c val : Z) : Z := fset 0 1 (Z.lor (dv_lock c) (dv_lock val)) c.

Definition write_sticky_datavault_ctrl (index : nat) (val : Z) (r : KeyVaultRegs) : bus KeyVaultRegs :=
  c ← unwrap (sticky_datavault_control r !! index);
  Ok (set_sticky_dv (<[index := lock_entry c val]> (sticky_datavault_control r)) (sticky_datavault_entry r) r).
Definition write_sticky_datavault_entry (word_index : nat) (val : Z) (r : KeyVaultRegs) : bus KeyVaultRegs :=
  c ← unwrap (sticky_datavault_control r !! (word_index / DV_ENTRY_SIZE_WORDS)%nat);
  err_if (negb (dv_lock c =? 0)) StoreAccessFault;;
  Ok (set_sticky_dv (sticky_datavault_control r) (<[word_index := val]> (sticky_datavault_entry r)) r).
Definition write_nonsticky_datavault_ctrl (index : nat) (val : Z) (r : KeyVaultRegs) : bus KeyVaultRegs :=
  c ← unwrap (datavault_control r !! index);
  Ok (set_dv (<[index := lock_entry c val]> (datavault_control r)) (datavault_entry r) r).
Definition write_nonsticky_datavault_entry (word_index : nat) (val : Z) (r : KeyVaultRegs) : bus KeyVaultRegs :=
  c ← unwrap (datavault_control r !! (word_index / DV_ENTRY_SIZE_WORDS)%nat);
  err_if (negb (dv_lock c =? 0)) StoreAccessFault;;
  Ok (set_dv (datavault_control r) (<[word_index := val]> (datavault_entry r)) r).
Definition write_nonsticky_lockable_scratch_ctrl (index : nat) (val : Z) (r : KeyVaultRegs) : bus KeyVaultRegs :=
  c ← unwrap (lockable_scratch_control r !! index);
  Ok (set_scratch (<[index := lock_entry c val]> (lockable_scratch_control r)) (lockable_scratch r) r).
Definition write_nonsticky_lockable_scratch (word_index : nat) (val : Z) (r : KeyVaultRegs) : bus KeyVaultRegs :=
  c ← unwrap (lockable_scratch_control r !! word_index);
  err_if (negb (dv_lock c =? 0)) StoreAccessFault;;
  Ok (set_scratch (lockable_scratch_control r) (<[word_index := val]> (lockable_scratch r)) r).
Definition write_sticky_lockable_scratch_ctrl (index : nat) (val : Z) (r : KeyVaultRegs) : bus KeyVaultRegs :=
  c ← unwrap (sticky_lockable_scratch_control r !! index);
  Ok (set_sticky_scratch (<[index := lock_entry c val]> (sticky_lockable_scratch_control r))
        (sticky_lockable_scratch r) r).
Definition write_sticky_lockable_scratch (word_index : nat) (val : Z) (r : KeyVaultRegs) : bus KeyVaultRegs :=
  c ← unwrap (sticky_lockable_scratch_control r !! word_index);
  err_if (negb (dv_lock c =? 0)) StoreAccessFault;;
  Ok (set_sticky_scratch (sticky_lockable_scratch_control r) (<[word_index := val]> (sticky_lockable_scratch r)) r).

(** ** The interface of the cryptographic engines *)

Definition key_slot (key_id : nat) (r : KeyVaultRegs) : list Z :=
  slice (keys r) (key_id * KEY_SIZE) (key_id * KEY_SIZE + KEY_SIZE).

Definition read_key (key_id : nat) (desired_usage : Z) (r : KeyVaultRegs) : bus (list Z) :=
  c ← unwrap (key_control r !! key_id);
  err_if (negb (kv_use_lock c =? 0) || (Z.land (kv_usage c) desired_usage =? 0)) LoadAccessFault;;
  Ok (key_slot key_id r).

Definition read_key_locked (key_id : nat) (desired_usage : Z) (r : KeyVaultRegs) : bus (list Z) :=
  c ← unwrap (key_control r !! key_id);
  err_if (Z.land (kv_usage c) desired_usage =? 0) LoadAccessFault;;
  Ok (key_slot key_id r).

(** [Vec::resize] with zeroes. *)
Definition resize (n : nat) (l : list Z) : list Z := take n l ++ replicate (n - length l) 0.

Definition read_key_as_data (key_id : nat) (desired_usage : Z) (r : KeyVaultRegs) : bus (list Z) :=
  result ← read_key key_id desired_usage r;
  c ← unwrap (key_control r !! key_id);
  Ok (resize (Z.to_nat (kv_last_dword c + 1) * 4) result).

Definition write_key (key_id : nat) (key : list Z) (key_usage : Z) (r : KeyVaultRegs) : bus KeyVaultRegs :=
  err_if ((KEY_SIZE <? length key)%nat || negb (length key mod 4 =? 0)%nat) StoreAccessFault;;
  c ← unwrap (key_control r !! key_id);
  err_if (negb (kv_write_lock c =? 0) || negb (kv_use_lock c =? 0)) StoreAccessFault;;
  let r := set_keys (splice (keys r) (key_id * KEY_SIZE) key) r in
  let c := fset 9 8 key_usage c in
  let c := fset 17 4 (u32w (Z.of_nat (length key / 4) - 1)) c in
  Ok (set_key_control (<[key_id := c]> (key_control r)) r).

Definition fill_byte (sel_debug_value : bool) : Z := if sel_debug_value then 0x55 else 0xaa.
Definition clear_with_debug_values (sel_debug_value : bool) (r : KeyVaultRegs) : KeyVaultRegs :=
  set_keys (replicate (length (keys r)) (fill_byte sel_debug_value)) r.

Definition read_pcr (pcr_id : nat) (r : KeyVaultRegs) : list Z :=
  bytes_le (slice (pcrs r) (pcr_id * PCR_SIZE_WORDS) (pcr_id * PCR_SIZE_WORDS + PCR_SIZE_WORDS)).

Definition write_pcr (pcr_id : nat) (pcr : list Z) (r : KeyVaultRegs) : KeyVaultRegs :=
  set_pcrs (splice (pcrs r) (pcr_id * PCR_SIZE_WORDS) (words_le pcr)) r.
End Vault.

(** * The drivers *)

Module KvDriver.
Import Vault.

(** An MMIO store: a bus fault is a trap, which does not return. *)
Definition mmio (f : KeyVaultRegs → bus KeyVaultRegs) : M KeyVaultRegs unit := λ s,
  match f s with
  | Ok s' => (Ok tt, s')
  | Err _ => (Abort Panic, s)
  | Abort w => (Abort w, s)
  end.

Definition mmio_read (l : KeyVaultRegs → list Z) (i : nat) : M KeyVaultRegs Z :=
  λ s, (unwrap (l s !! i), s).

(** Values of [KvctrlWriteVal] and [PvctrlWriteVal] built from the reset
    value, zero. *)
Definition w_lock_wr (b : bool) : Z := Z.b2z b.
Definition w_lock_use (b : bool) : Z := 2 * Z.b2z b.
Definition w_clear (b : bool) : Z := 4 * Z.b2z b.
Definition w_pcr_lock (b : bool) : Z := Z.b2z b.
Definition w_pcr_clear (b : bool) : Z := 2 * Z.b2z b.

(** Fields of [KvctrlReadVal] and [PvctrlReadVal]. *)
Definition r_lock_wr (r : Z) : bool := negb (Z.land (Z.shiftr r 0) 1 =? 0).
Definition r_lock_use (r : Z) : bool := negb (Z.land (Z.shiftr r 1) 1 =? 0).
Definition r_dest_valid (r : Z) : Z := Z.land (Z.shiftr r 9) 0x1ff.
Definition r_pcr_lock (r : Z) : bool := negb (Z.land (Z.shiftr r 0) 1 =? 0).

(** ** Keys; a [KeyId] is its number, below 24. *)

Definition key_write_lock (id : nat) : M KeyVaultRegs bool := r ← mmio_read key_control id; mret (r_lock_wr r).
Definition key_use_lock (id : nat) : M KeyVaultRegs bool := r ← mmio_read key_control id; mret (r_lock_use r).
Definition set_key_write_lock (id : nat) : M KeyVaultRegs unit := mmio (write_key_ctrl id (w_lock_wr true)).
Definition clear_key_write_lock (id : nat) : M KeyVaultRegs unit := mmio (write_key_ctrl id (w_lock_wr false)).
Definition set_key_use_lock (id : nat) : M KeyVaultRegs unit := mmio (write_key_ctrl id (w_lock_use true)).
Definition clear_key_use_lock (id : nat) : M KeyVaultRegs unit := mmio (write_key_ctrl id (w_lock_use false)).
Definition key_usage (id : nat) : M KeyVaultRegs Z := r ← mmio_read key_control id; mret (r_dest_valid r).

Definition key_try_from (original : Z) : option nat :=
  if (0 <=? original) && (original <? 24) then Some (Z.to_nat original) else None.

Definition erase_key (id : nat) : M KeyVaultRegs unit :=
  use_lock ← key_use_lock id;
  fail_if use_lock DRIVER_KV_ERASE_USE_LOCK_SET_FAILURE;;
  write_lock ← key_write_lock id;
  fail_if write_lock DRIVER_KV_ERASE_WRITE_LOCK_SET_FAILURE;;
  mmio (write_key_ctrl id (w_clear true)).

Definition erase_step (_ : unit) (id : nat) : M KeyVaultRegs unit :=
  use_lock ← key_use_lock id;
  if negb use_lock then
    write_lock ← key_write_lock id;
    if negb write_lock then mmio (write_key_ctrl id (w_clear true)) else mret tt
  else mret tt.
Definition erase_all_keys : M KeyVaultRegs unit := foldM erase_step tt (seq 0 24).

(** ** PCRs *)

Definition pcr_lock (id : nat) : M KeyVaultRegs bool := r ← mmio_read pcr_control id; mret (r_pcr_lock r).
Definition set_pcr_lock (id : nat) : M KeyVaultRegs unit := mmio (write_pcr_ctrl id (w_pcr_lock true)).
Definition clear_pcr_lock (id : nat) : M KeyVaultRegs unit := mmio (write_pcr_ctrl id (w_pcr_lock false)).

Definition pcr_try_from (original : Z) : option nat :=
  if (0 <=? original) && (original <? 32) then Some (Z.to_nat original) else None.

Definition erase_pcr (id : nat) : M KeyVaultRegs unit :=
  locked ← pcr_lock id;
  fail_if locked DRIVER_PCR_BANK_ERASE_WRITE_LOCK_SET_FAILURE;;
  mmio (write_pcr_ctrl id (w_pcr_clear true)).

Definition erase_pcr_step (_ : unit) (id : nat) : M KeyVaultRegs unit :=
  locked ← pcr_lock id;
  if negb locked then mmio (write_pcr_ctrl id (w_pcr_clear true)) else mret tt.
Definition erase_all_pcrs : M KeyVaultRegs unit := foldM erase_pcr_step tt (seq 0 32).

(** [read_pcr]: the words of the entry, one register read each. *)
Definition read_pcr (id : nat) : M KeyVaultRegs (list Z) :=
  foldM (λ acc i, w ← mmio_read pcrs (id * PCR_SIZE_WORDS + i); mret (acc ++ [w])) [] (seq 0 12).
Definition read_all_pcrs : M KeyVaultRegs (list (list Z)) :=
  foldM (λ acc id, v ← read_pcr id; mret (acc ++ [v])) [] (seq 0 32).
End KvDriver.
