(* ===== verification/KeyVaultProofs.v ===== *)
(** What the key vault guarantees to the firmware: locks that only a reset
    removes, erasure, and the round trip of keys and PCRs. *)

From stdpp Require Import relations.
From S2P Require Import Prelude Bits Errors Memory KeyVault.

Import Vault KvDriver.

(** * Well-formed register files *)

Record vault_wf (r : KeyVaultRegs) : Prop := {
  wf_key_control : length (key_control r) = KEY_COUNT;
  wf_keys : length (keys r) = KEY_REG_SIZE;
  wf_pcr_control : length (pcr_control r) = PCR_COUNT;
  wf_pcrs : length (pcrs r) = PCR_REG_SIZE_WORDS;
}.

(** ** Slots of a flat memory *)

Lemma slice_splice_same {A} (l : list A) off n src :
  length src = n → (off + n ≤ length l)%nat → slice (splice l off src) off (off + n) = src.
Proof.
  intros <- Hl. unfold slice, splice. rewrite drop_app_ge by (rewrite length_take; lia).
  rewrite length_take, Nat.min_l by lia. rewrite Nat.sub_diag, drop_0.
  rewrite take_app_le by lia. apply take_ge. lia.
Qed.

Lemma slice_splice_other {A} (l : list A) off src a b :
  (off + length src ≤ length l)%nat → (a ≤ b)%nat → (b ≤ off ∨ off + length src ≤ a)%nat →
  slice (splice l off src) a b = slice l a b.
Proof.
  intros Hl Hab [Hb|Ha]; unfold slice, splice; apply list_eq; intros i.
  - destruct (decide (i < b - a)%nat); [|rewrite !lookup_take_ge by lia; done].
    rewrite !lookup_take_lt, !lookup_drop, lookup_app_l by (rewrite ?length_take; lia).
    by rewrite lookup_take_lt by lia.
  - destruct (decide (i < b - a)%nat); [|rewrite !lookup_take_ge by lia; done].
    rewrite !lookup_take_lt, !lookup_drop by lia.
    rewrite lookup_app_r, length_take, Nat.min_l by (rewrite ?length_take; lia).
    rewrite lookup_app_r, lookup_drop by lia. f_equal. lia.
Qed.

Lemma slice_splice_prefix {A} (l : list A) off n src :
  (length src ≤ n)%nat → (off + n ≤ length l)%nat →
  slice (splice l off src) off (off + n) = src ++ drop (length src) (slice l off (off + n)).
Proof.
  intros Hs Hl. unfold slice, splice. rewrite drop_app_ge by (rewrite length_take; lia).
  rewrite length_take, Nat.min_l, Nat.sub_diag, drop_0 by lia.
  rewrite take_app_ge by lia. f_equal. replace (off + n - off)%nat with n by lia.
  rewrite skipn_firstn_comm, drop_drop. f_equal.
Qed.

(** ** Register values written by the driver *)

Lemma write_bits :
  kv_write_lock (w_lock_wr true) = 1 ∧ kv_use_lock (w_lock_wr true) = 0 ∧ kv_clear (w_lock_wr true) = false ∧
  kv_write_lock (w_lock_use true) = 0 ∧ kv_use_lock (w_lock_use true) = 1 ∧ kv_clear (w_lock_use true) = false ∧
  kv_write_lock (w_clear true) = 0 ∧ kv_use_lock (w_clear true) = 0 ∧ kv_clear (w_clear true) = true.
Proof. done. Qed.

Lemma r_lock_wr_spec r : r_lock_wr r = negb (kv_write_lock r =? 0).
Proof. done. Qed.
Lemma r_lock_use_spec r : r_lock_use r = negb (kv_use_lock r =? 0).
Proof. done. Qed.
Lemma r_pcr_lock_spec r : r_pcr_lock r = negb (pv_lock r =? 0).
Proof. done. Qed.

Lemma lock_01 o r : 0 ≤ o → fget o 1 r = 0 ∨ fget o 1 r = 1.
Proof. intros. rewrite fget1 by lia. destruct (Z.testbit r o); auto. Qed.

Lemma land_bit b : b = 0 ∨ b = 1 → Z.land b (Z.ones 1) = b.
Proof. by intros [-> | ->]. Qed.

Lemma lor_bit a b : a = 0 ∨ a = 1 → b = 0 ∨ b = 1 → Z.lor a b = 0 ∨ Z.lor a b = 1.
Proof. intros [-> | ->] [-> | ->]; auto. Qed.

(** The control word after a write: locks accumulate, the rest is kept. *)
Definition ctrl_after (c val : Z) : Z :=
  fset 1 1 (Z.lor (kv_use_lock (fset 0 1 (Z.lor (kv_write_lock c) (kv_write_lock val)) c)) (kv_use_lock val))
    (fset 0 1 (Z.lor (kv_write_lock c) (kv_write_lock val)) c).

Lemma ctrl_after_write_lock c val :
  kv_write_lock (ctrl_after c val) = Z.lor (kv_write_lock c) (kv_write_lock val).
Proof.
  unfold ctrl_after, kv_write_lock. rewrite fget_fset_other, fget_fset_same by lia.
  apply land_bit, lor_bit; apply lock_01; lia.
Qed.

Lemma ctrl_after_use_lock c val :
  kv_use_lock (ctrl_after c val) = Z.lor (kv_use_lock c) (kv_use_lock val).
Proof.
  unfold ctrl_after, kv_use_lock. rewrite fget_fset_same by lia. rewrite (fget_fset_other 1 1 0 1) by lia.
  apply land_bit, lor_bit; apply lock_01; lia.
Qed.

Lemma ctrl_after_usage c val : kv_usage (ctrl_after c val) = kv_usage c.
Proof. unfold ctrl_after, kv_usage. by rewrite !fget_fset_other by lia. Qed.

Lemma ctrl_after_clear c : ctrl_after c (w_clear true) = c.
Proof.
  apply Z.bits_inj'. intros i Hi. unfold ctrl_after. change (kv_write_lock (w_clear true)) with 0.
  change (kv_use_lock (w_clear true)) with 0. rewrite !Z.lor_0_r. unfold kv_use_lock.
  rewrite (fget_fset_other 1 1 0 1) by lia. unfold kv_write_lock. rewrite !fset_bit by lia.
  destruct (decide (i = 0)) as [->|H0]; [change (Z.testbit (fget 0 1 c) 0 = Z.testbit c 0); by rewrite fget_bit by lia|].
  destruct (decide (i = 1)) as [->|H1]; [change (Z.testbit (fget 1 1 c) 0 = Z.testbit c 1); by rewrite fget_bit by lia|].
  destruct (Z.ltb_spec i (1 + 1)), (Z.ltb_spec i (0 + 1)); try lia. by rewrite !andb_false_r.
Qed.

(** ** Single operations *)

Lemma write_key_ctrl_ok id val c r : key_control r !! id = Some c →
  write_key_ctrl id val r =
    Ok (if (kv_write_lock (ctrl_after c val) =? 0) && kv_clear val
        then set_keys (splice (keys r) (id * KEY_SIZE) (replicate KEY_SIZE 0))
               (set_key_control (<[id := ctrl_after c val]> (key_control r)) r)
        else set_key_control (<[id := ctrl_after c val]> (key_control r)) r).
Proof. intros Hc. unfold write_key_ctrl. rewrite Hc. simpl. fold (ctrl_after c val). by destruct (_ && _). Qed.

Lemma key_ctrl_lookup r id : vault_wf r → (id < 24)%nat → ∃ c, key_control r !! id = Some c.
Proof. intros [Hl _ _ _] Hi. apply lookup_lt_is_Some. rewrite Hl. done. Qed.

Lemma pcr_ctrl_lookup r id : vault_wf r → (id < 32)%nat → ∃ c, pcr_control r !! id = Some c.
Proof. intros [_ _ Hl _] Hi. apply lookup_lt_is_Some. rewrite Hl. done. Qed.

(** A key is unlocked when neither lock is set. *)
Definition unlocked (r : KeyVaultRegs) (id : nat) : Prop :=
  ∃ c, key_control r !! id = Some c ∧ kv_use_lock c = 0 ∧ kv_write_lock c = 0.
#[export] Instance unlocked_dec r id : Decision (unlocked r id).
Proof.
  destruct (key_control r !! id) as [c|] eqn:Hc.
  - destruct (decide (kv_use_lock c = 0 ∧ kv_write_lock c = 0)).
    + left. exists c. tauto.
    + right. intros (c' & Hc' & ?). simplify_eq. tauto.
  - right. intros (c' & Hc' & ?). congruence.
Defined.

Definition zero_slot (id : nat) (r : KeyVaultRegs) : KeyVaultRegs :=
  set_keys (splice (keys r) (id * KEY_SIZE) (replicate KEY_SIZE 0)) r.

Lemma clear_write id c r : key_control r !! id = Some c → kv_write_lock c = 0 →
  mmio (write_key_ctrl id (w_clear true)) r = (Ok tt, zero_slot id r).
Proof.
  intros Hc Hl. unfold mmio. rewrite (write_key_ctrl_ok id _ c r Hc), ctrl_after_clear, Hl. simpl.
  rewrite list_insert_id by done. by destruct r.
Qed.

Lemma key_use_lock_run id c r : key_control r !! id = Some c →
  key_use_lock id r = (Ok (negb (kv_use_lock c =? 0)), r).
Proof. intros Hc. unfold key_use_lock, mmio_read, mbind, M_bind. by rewrite Hc. Qed.

Lemma key_write_lock_run id c r : key_control r !! id = Some c →
  key_write_lock id r = (Ok (negb (kv_write_lock c =? 0)), r).
Proof. intros Hc. unfold key_write_lock, mmio_read, mbind, M_bind. by rewrite Hc. Qed.

Lemma erase_step_run id r : vault_wf r → (id < 24)%nat →
  erase_step tt id r = (Ok tt, if decide (unlocked r id) then zero_slot id r else r).
Proof.
  intros Hw Hi. destruct (key_ctrl_lookup r id Hw Hi) as [c Hc].
  unfold erase_step, key_use_lock, key_write_lock, mmio_read, mbind, M_bind, mret, M_ret.
  rewrite Hc. cbn [unwrap]. rewrite r_lock_use_spec, negb_involutive.
  destruct (Z.eqb_spec (kv_use_lock c) 0) as [Hu|Hu].
  - rewrite Hc. cbn [unwrap]. rewrite r_lock_wr_spec, negb_involutive.
    destruct (Z.eqb_spec (kv_write_lock c) 0) as [Hl|Hl].
    + rewrite decide_True by (exists c; tauto). by rewrite (clear_write id c).
    + rewrite decide_False; [done|]. intros (c' & Hc' & _ & ?). congruence.
  - rewrite decide_False; [done|]. intros (c' & Hc' & ? & _). congruence.
Qed.

Lemma zero_slot_wf id r : vault_wf r → (id < 24)%nat → vault_wf (zero_slot id r).
Proof.
  intros [H1 H2 H3 H4] Hi. split; [done| |done|done]. cbn [keys zero_slot set_keys].
  rewrite length_splice; [done|]. rewrite length_replicate, H2. unfold KEY_SIZE, KEY_REG_SIZE. lia.
Qed.

Lemma key_slot_zero_same id r : vault_wf r → (id < 24)%nat →
  key_slot id (zero_slot id r) = replicate KEY_SIZE 0.
Proof.
  intros [_ Hk _ _] Hi. apply slice_splice_same; [apply length_replicate|]. rewrite Hk.
  unfold KEY_SIZE, KEY_REG_SIZE. lia.
Qed.

Lemma key_slot_splice_other id j key r : vault_wf r → (id < 24)%nat → (j < 24)%nat → id ≠ j → (length key ≤ 64)%nat →
  slice (splice (keys r) (id * KEY_SIZE) key) (j * KEY_SIZE) (j * KEY_SIZE + KEY_SIZE) = key_slot j r.
Proof.
  intros [_ Hk _ _] Hi Hj Hn Hl. apply slice_splice_other; rewrite ?Hk; unfold KEY_SIZE, KEY_REG_SIZE; lia.
Qed.

Lemma unlocked_zero_slot r id j : unlocked (zero_slot id r) j ↔ unlocked r j.
Proof. done. Qed.

(** ** Erasing everything *)

Lemma erase_all_keys_run r : vault_wf r →
  ∃ r', erase_all_keys r = (Ok tt, r') ∧ vault_wf r' ∧ key_control r' = key_control r ∧
    ∀ j, (j < 24)%nat → key_slot j r' = if decide (unlocked r j) then replicate KEY_SIZE 0 else key_slot j r.
Proof.
  intros Hw. unfold erase_all_keys.
  set (I := λ (don : list nat) (_ : unit) (s : KeyVaultRegs), vault_wf s ∧ key_control s = key_control r ∧
    ∀ j, (j < 24)%nat → key_slot j s =
      if decide (unlocked r j ∧ j ∈ don) then replicate KEY_SIZE 0 else key_slot j r).
  destruct (foldM_ok erase_step I (seq 0 24)) with (b := tt) (s := r) as ([] & r' & E & Hw' & Hc & Hs).
  - intros don id [] s [rest Hrest] (Hws & Hcs & Hss).
    assert (Hid : (id < 24)%nat).
    { assert (id ∈ seq 0 24) as Hin by (rewrite Hrest; set_solver). apply elem_of_seq in Hin. lia. }
    rewrite erase_step_run by done. eexists tt, _. split; [done|].
    assert (Hun : ∀ j, unlocked s j ↔ unlocked r j) by (intros j; unfold unlocked; by rewrite Hcs).
    destruct (decide (unlocked s id)) as [Hu|Hu]; unfold I.
    + split; [by apply zero_slot_wf|]. split; [done|]. intros j Hj. destruct (decide (j = id)) as [->|Hne].
      * rewrite key_slot_zero_same by done. rewrite decide_True; [done|]. split; [by apply Hun|set_solver].
      * unfold key_slot at 1. simpl. rewrite key_slot_splice_other by (done || lia). rewrite Hss by done.
        apply decide_ext. set_solver.
    + split; [done|]. split; [done|]. intros j Hj. rewrite Hss by done. apply decide_ext.
      split; [set_solver|]. intros [Hj1 Hj2]. split; [done|]. apply elem_of_app in Hj2 as [|Hj2]; [done|].
      apply list_elem_of_singleton in Hj2. subst. by apply Hun in Hj1.
  - split; [done|]. split; [done|]. intros j Hj. rewrite decide_False; [done|]. set_solver.
  - exists r'. split; [done|]. split; [done|]. split; [done|]. intros j Hj. rewrite Hs by done.
    apply decide_ext. rewrite elem_of_seq. split; [tauto|]. intros. split; [done|lia].
Qed.

(** * Histories of the vault *)

(** Everything that can happen to the register file: stores of the firmware to
    any of its registers with any value, keys and PCRs written by the engines,
    where [debug] allows it the filling of all keys with a debug value, and where
    [resets] allows it warm and update resets. *)
Inductive vault_step (resets debug : bool) : KeyVaultRegs → KeyVaultRegs → Prop :=
  | step_key_ctrl id val r r' : write_key_ctrl id val r = Ok r' → vault_step resets debug r r'
  | step_pcr_ctrl id val r r' : write_pcr_ctrl id val r = Ok r' → vault_step resets debug r r'
  | step_write_key id key usage r r' : write_key id key usage r = Ok r' → vault_step resets debug r r'
  | step_write_pcr id pcr r : (id < 32)%nat → length pcr = 48%nat → vault_step resets debug r (write_pcr id pcr r)
  | step_pcr_word i val r : vault_step resets debug r (write_pcr_word i val r)
  | step_generic_scratch i val r : vault_step resets debug r (write_generic_scratch i val r)
  | step_debug_fill sel r : debug = true → vault_step resets debug r (clear_with_debug_values sel r)
  | step_sticky_ctrl i val r r' : write_sticky_datavault_ctrl i val r = Ok r' → vault_step resets debug r r'
  | step_sticky_entry i val r r' : write_sticky_datavault_entry i val r = Ok r' → vault_step resets debug r r'
  | step_dv_ctrl i val r r' : write_nonsticky_datavault_ctrl i val r = Ok r' → vault_step resets debug r r'
  | step_dv_entry i val r r' : write_nonsticky_datavault_entry i val r = Ok r' → vault_step resets debug r r'
  | step_scratch_ctrl i val r r' : write_nonsticky_lockable_scratch_ctrl i val r = Ok r' → vault_step resets debug r r'
  | step_scratch i val r r' : write_nonsticky_lockable_scratch i val r = Ok r' → vault_step resets debug r r'
  | step_sticky_scratch_ctrl i val r r' :
      write_sticky_lockable_scratch_ctrl i val r = Ok r' → vault_step resets debug r r'
  | step_sticky_scratch i val r r' : write_sticky_lockable_scratch i val r = Ok r' → vault_step resets debug r r'
  | step_warm_reset r : resets = true → vault_step resets debug r (warm_reset r)
  | step_update_reset r : resets = true → vault_step resets debug r (update_reset r).

(** What a step does to the keys: nothing, the debug value everywhere, a control
    write, or a new key. *)
Inductive key_effect (debug : bool) (r r' : KeyVaultRegs) : Prop :=
  | ke_none : key_control r' = key_control r → keys r' = keys r → key_effect debug r r'
  | ke_fill sel : debug = true → key_control r' = key_control r →
      keys r' = replicate (length (keys r)) (fill_byte sel) → key_effect debug r r'
  | ke_ctrl id c val : key_control r !! id = Some c →
      key_control r' = <[id := ctrl_after c val]> (key_control r) →
      keys r' = keys r ∨
        (kv_write_lock (ctrl_after c val) = 0 ∧
         keys r' = splice (keys r) (id * KEY_SIZE) (replicate KEY_SIZE 0)) →
      key_effect debug r r'
  | ke_key id c c' key : key_control r !! id = Some c → kv_write_lock c = 0 → kv_use_lock c = 0 →
      (length key ≤ KEY_SIZE)%nat → key_control r' = <[id := c']> (key_control r) →
      keys r' = splice (keys r) (id * KEY_SIZE) key → key_effect debug r r'.

Lemma write_key_ok_inv id key usage r r' : write_key id key usage r = Ok r' →
  ∃ c, key_control r !! id = Some c ∧ kv_write_lock c = 0 ∧ kv_use_lock c = 0 ∧
    (length key ≤ KEY_SIZE)%nat ∧ (length key mod 4 = 0)%nat ∧
    r' = set_key_control
      (<[id := fset 17 4 (u32w (Z.of_nat (length key / 4) - 1)) (fset 9 8 usage c)]> (key_control r))
      (set_keys (splice (keys r) (id * KEY_SIZE) key) r).
Proof.
  unfold write_key. intros H. res_inv H.
  match goal with H : unwrap _ = Ok ?x |- _ => apply unwrap_ok_inv in H; exists x end.
  repeat match goal with H : err_if _ _ = Ok _ |- _ => apply err_if_ok_inv, orb_false_iff in H as [? ?] end.
  rewrite !negb_false_iff, !Z.eqb_eq in *. rewrite Nat.eqb_eq, Nat.ltb_ge in *. done.
Qed.

Lemma vault_step_key_effect dbg r r' : vault_step false dbg r r' → key_effect dbg r r'.
Proof.
  destruct 1 as [id val r r' H|id val r r' H|id key usage r r' H| | | |sel r H| | | | | | | | | |];
    try (apply ke_none; done); try (by apply (ke_fill _ _ _ sel)); try (apply ke_none;
      match goal with H : _ = Ok _ |- _ => unfold write_pcr_ctrl, write_sticky_datavault_ctrl,
        write_sticky_datavault_entry, write_nonsticky_datavault_ctrl, write_nonsticky_datavault_entry,
        write_nonsticky_lockable_scratch_ctrl, write_nonsticky_lockable_scratch,
        write_sticky_lockable_scratch_ctrl, write_sticky_lockable_scratch in H; res_inv H;
        repeat case_match; simplify_eq; done end); try discriminate.
  - pose proof H as H'. unfold write_key_ctrl in H'. res_inv H'. apply unwrap_ok_inv in Hs.
    rewrite (write_key_ctrl_ok id val _ r Hs) in H. injection H as <-.
    eapply ke_ctrl; [done| |]; destruct (_ && _) eqn:Hb; try done; [|by left].
    right. apply andb_true_iff in Hb as [Hb _]. split; [by apply Z.eqb_eq|done].
  - apply write_key_ok_inv in H as (c & Hc & Hw & Hu & Hl & _ & ->). by eapply ke_key.
Qed.

Lemma length_bytes_le_words b : length b = 48%nat → length (words_le b) = 12%nat.
Proof. intros Hl. do 48 (destruct b as [|? b]; [discriminate|]). by destruct b. Qed.

(** What a step does to the PCRs. *)
Inductive pcr_effect (r r' : KeyVaultRegs) : Prop :=
  | pe_none : pcr_control r' = pcr_control r → pcrs r' = pcrs r → pcr_effect r r'
  | pe_ctrl id c c' : pcr_control r !! id = Some c → pcr_control r' = <[id := c']> (pcr_control r) →
      (pv_lock c = 1 → pv_lock c' = 1) →
      pcrs r' = pcrs r ∨ (pv_lock c' = 0 ∧ pcrs r' = splice (pcrs r) (id * PCR_SIZE_WORDS) (replicate 12 0)) →
      pcr_effect r r'
  | pe_word i v : pcr_control r' = pcr_control r → pcrs r' = <[i := v]> (pcrs r) → pcr_effect r r'
  | pe_write id ws : (id < 32)%nat → length ws = 12%nat → pcr_control r' = pcr_control r →
      pcrs r' = splice (pcrs r) (id * PCR_SIZE_WORDS) ws → pcr_effect r r'.

Lemma pcr_lock_after c val :
  pv_lock (fset 0 1 (Z.lor (pv_lock c) (pv_lock val)) c) = Z.lor (pv_lock c) (pv_lock val).
Proof.
  unfold pv_lock. rewrite fget_fset_same by lia. apply land_bit, lor_bit; apply lock_01; lia.
Qed.

Lemma lor_one a : a = 0 ∨ a = 1 → Z.lor 1 a = 1.
Proof. by intros [-> | ->]. Qed.

Lemma vault_step_pcr_effect dbg r r' : vault_step false dbg r r' → pcr_effect r r'.
Proof.
  destruct 1 as [id val r r' H|id val r r' H|id key usage r r' H|id pcr r Hi Hl|i v r| |sel r H| | | | | | | | | |];
    try (by apply pe_none); try (by apply (pe_word _ _ i v)); try (apply pe_none; match goal with H : _ = Ok _ |- _ => unfold write_key_ctrl, write_key,
        write_sticky_datavault_ctrl,
        write_sticky_datavault_entry, write_nonsticky_datavault_ctrl, write_nonsticky_datavault_entry,
        write_nonsticky_lockable_scratch_ctrl, write_nonsticky_lockable_scratch,
        write_sticky_lockable_scratch_ctrl, write_sticky_lockable_scratch in H; res_inv H;
        repeat case_match; simplify_eq; done end); try discriminate.
  - unfold write_pcr_ctrl in H. res_inv H. apply unwrap_ok_inv in Hs. rewrite pcr_lock_after in H.
    eapply (pe_ctrl _ _ id a (fset 0 1 (Z.lor (pv_lock a) (pv_lock val)) a)); [done| | |].
    + by destruct (_ && _) in H; simplify_eq.
    + intros Ha. rewrite pcr_lock_after, Ha. apply lor_one, lock_01. lia.
    + destruct (_ && _) eqn:Hb in H; simplify_eq; [right|by left].
      rewrite pcr_lock_after. apply andb_true_iff in Hb as [Hb _]. split; [by apply Z.eqb_eq|done].
  - apply (pe_write _ _ id (words_le pcr)); try done. by apply length_bytes_le_words.
Qed.

Lemma key_effect_wf dbg r r' : length (key_control r) = KEY_COUNT → length (keys r) = KEY_REG_SIZE →
  key_effect dbg r r' → length (key_control r') = KEY_COUNT ∧ length (keys r') = KEY_REG_SIZE.
Proof.
  intros Hc Hk [E1 E2|sel _ E1 E2|id c val Hl E1 E2|id c c' key Hl _ _ Hn E1 E2].
  - by rewrite E1, E2.
  - by rewrite E1, E2, length_replicate.
  - rewrite E1, length_insert. split; [done|]. apply lookup_lt_Some in Hl. rewrite Hc in Hl.
    destruct E2 as [-> | [_ ->]]; [done|]. rewrite length_splice; [done|].
    rewrite length_replicate, Hk. unfold KEY_SIZE, KEY_REG_SIZE, KEY_COUNT in *. lia.
  - rewrite E1, E2, length_insert. split; [done|]. apply lookup_lt_Some in Hl. rewrite Hc in Hl.
    rewrite length_splice; [done|]. rewrite Hk. unfold KEY_SIZE, KEY_REG_SIZE, KEY_COUNT in *. lia.
Qed.

Lemma pcr_effect_wf r r' : length (pcr_control r) = PCR_COUNT → length (pcrs r) = PCR_REG_SIZE_WORDS →
  pcr_effect r r' → length (pcr_control r') = PCR_COUNT ∧ length (pcrs r') = PCR_REG_SIZE_WORDS.
Proof.
  intros Hc Hp [E1 E2|id c c' Hl E1 _ E2|i v E1 E2|id ws Hi Hw E1 E2].
  - by rewrite E1, E2.
  - rewrite E1, length_insert. split; [done|]. apply lookup_lt_Some in Hl. rewrite Hc in Hl.
    destruct E2 as [-> | [_ ->]]; [done|]. rewrite length_splice; [done|].
    rewrite length_replicate, Hp. change PCR_REG_SIZE_WORDS with 384%nat. unfold PCR_SIZE_WORDS, PCR_COUNT in *. lia.
  - by rewrite E1, E2, length_insert.
  - rewrite E1, E2. split; [done|]. rewrite length_splice; [done|]. rewrite Hp, Hw.
    change PCR_REG_SIZE_WORDS with 384%nat. unfold PCR_SIZE_WORDS. lia.
Qed.

Lemma vault_step_wf dbg r r' : vault_wf r → vault_step false dbg r r' → vault_wf r'.
Proof.
  intros [H1 H2 H3 H4] Hs.
  destruct (key_effect_wf dbg r r' H1 H2 (vault_step_key_effect dbg r r' Hs)).
  destruct (pcr_effect_wf r r' H3 H4 (vault_step_pcr_effect dbg r r' Hs)). by split.
Qed.

(** ** Locks survive every step *)

Definition key_locked (field : Z → Z) (r : KeyVaultRegs) (i : nat) : Prop :=
  ∃ c, key_control r !! i = Some c ∧ field c = 1.

(** What may have become of the bytes of a key. *)
Definition slot_after (debug cleared : bool) (old new : list Z) : Prop :=
  new = old ∨ (cleared = true ∧ new = replicate KEY_SIZE 0) ∨
  (debug = true ∧ ∃ sel, new = replicate KEY_SIZE (fill_byte sel)).

Lemma slot_after_trans dbg cl x y z : slot_after dbg cl x y → slot_after dbg cl y z → slot_after dbg cl x z.
Proof. unfold slot_after. intros [->|H] [->|H']; auto. Qed.

Lemma filled_slot i (b : Z) (l : list Z) : length l = KEY_REG_SIZE → (i < 24)%nat →
  slice (replicate (length l) b) (i * KEY_SIZE) (i * KEY_SIZE + KEY_SIZE) = replicate KEY_SIZE b.
Proof.
  intros -> Hi. unfold slice. rewrite drop_replicate, take_replicate. f_equal. unfold KEY_REG_SIZE, KEY_SIZE. lia.
Qed.

(** A locked key over one step: the lock and the usage stay, the bytes only
    change as the lock allows. *)
Lemma step_locked dbg (field : Z → Z) r r' i c : field = kv_write_lock ∨ field = kv_use_lock →
  vault_wf r → (i < 24)%nat → vault_step false dbg r r' → key_control r !! i = Some c → field c = 1 →
  ∃ c', key_control r' !! i = Some c' ∧ field c' = 1 ∧ kv_usage c' = kv_usage c ∧
    (kv_write_lock c = 1 → kv_write_lock c' = 1) ∧
    slot_after dbg (kv_write_lock c =? 0) (key_slot i r) (key_slot i r').
Proof.
  intros Hf Hw Hi Hs Hci Hli.
  assert (Hlt : ∀ id d, key_control r !! id = Some d → (id < 24)%nat).
  { intros id d Hd. apply lookup_lt_Some in Hd. by rewrite (wf_key_control r Hw) in Hd. }
  destruct (vault_step_key_effect dbg r r' Hs)
    as [E1 E2|sel Hd E1 E2|id d val Hl E1 E2|id d d' key Hl Hwl Hul Hn E1 E2]; unfold key_slot.
  - rewrite E1, E2. exists c. split_and!; try done. by left.
  - rewrite E1, E2. exists c. split_and!; try done. right. right. split; [done|]. exists sel.
    apply filled_slot; [apply (wf_keys r Hw)|done].
  - rewrite E1. destruct (decide (id = i)) as [->|Hne].
    + rewrite Hci in Hl. injection Hl as <-. exists (ctrl_after c val).
      rewrite list_lookup_insert_eq by (by apply lookup_lt_Some in Hci).
      assert (Hk : ∀ v, v = 1 → ∀ x, (x = 0 ∨ x = 1) → Z.lor v x = 1) by (intros v -> x; apply lor_one).
      split_and!; [done| |apply ctrl_after_usage| |].
      * destruct Hf as [-> | ->]; rewrite ?ctrl_after_write_lock, ?ctrl_after_use_lock; apply Hk; try done; apply lock_01; lia.
      * intros H1. rewrite ctrl_after_write_lock. apply Hk; [done|apply lock_01; lia].
      * destruct E2 as [-> | [E2 ->]]; [by left|]. right. left. split; [|exact (key_slot_zero_same i r Hw Hi)].
        rewrite ctrl_after_write_lock in E2. apply Z.eqb_eq. destruct (lock_01 0 c ltac:(lia)) as [?|H1]; [done|].
        unfold kv_write_lock in *. rewrite H1, lor_one in E2; [done|apply lock_01; lia].
    + exists c. rewrite list_lookup_insert_ne by done. split_and!; try done. left.
      destruct E2 as [-> | [_ ->]]; [done|]. apply key_slot_splice_other; eauto.
  - rewrite E1, E2. assert (id ≠ i) by (intros ->; simplify_eq; destruct Hf as [-> | ->]; lia).
    exists c. rewrite list_lookup_insert_ne by done. split_and!; try done. left. apply key_slot_splice_other; eauto.
Qed.

Lemma history_locked dbg (field : Z → Z) r r' i c : field = kv_write_lock ∨ field = kv_use_lock →
  vault_wf r → (i < 24)%nat → rtc (vault_step false dbg) r r' → key_control r !! i = Some c → field c = 1 →
  vault_wf r' ∧ ∃ c', key_control r' !! i = Some c' ∧ field c' = 1 ∧ kv_usage c' = kv_usage c ∧
    slot_after dbg (kv_write_lock c =? 0) (key_slot i r) (key_slot i r').
Proof.
  intros Hf Hw Hi Hs. revert c Hw. induction Hs as [r|r r1 r2 Hs Hss IH]; intros c Hw Hc Hl.
  { split; [done|]. exists c. split_and!; try done. by left. }
  destruct (step_locked dbg field r r1 i c Hf Hw Hi Hs Hc Hl) as (c1 & Hc1 & Hl1 & Hu1 & Hm & Ha1).
  destruct (IH c1 (vault_step_wf dbg r r1 Hw Hs) Hc1 Hl1) as (Hw2 & c2 & Hc2 & Hl2 & Hu2 & Ha2).
  split; [done|]. exists c2. split_and!; [done|done|congruence|]. eapply slot_after_trans; [exact Ha1|].
  destruct Ha2 as [->|[[Hz ->]|Ha2]]; [by left| |by right; right]. right. left. split; [|done].
  apply Z.eqb_eq in Hz. apply Z.eqb_eq. destruct (lock_01 0 c ltac:(lia)) as [?|H1]; [done|].
  assert (kv_write_lock c1 = 1) by (by apply Hm). lia.
Qed.

(** ** Locked sticky entries *)

Definition sticky_locked (r : KeyVaultRegs) (i : nat) : Prop :=
  ∃ c, sticky_datavault_control r !! i = Some c ∧ dv_lock c = 1.

Definition sticky_entry (r : KeyVaultRegs) (i : nat) : list Z :=
  slice (sticky_datavault_entry r) (i * 12) (i * 12 + 12).

Lemma slice_insert_other {A} (l : list A) j x a b : (j < a ∨ b ≤ j)%nat → slice (<[j := x]> l) a b = slice l a b.
Proof.
  intros Hj. unfold slice. apply list_eq. intros k. destruct (decide (k < b - a)%nat).
  - rewrite !lookup_take_lt, !lookup_drop by lia. apply list_lookup_insert_ne. lia.
  - by rewrite !lookup_take_ge by lia.
Qed.

Lemma step_sticky_locked dbg r r' i : vault_step true dbg r r' → sticky_locked r i →
  sticky_locked r' i ∧ sticky_entry r' i = sticky_entry r i.
Proof.
  intros Hs (ci & Hci & Hli). unfold sticky_locked, sticky_entry.
  destruct Hs; try (match goal with H : _ = Ok _ |- _ => unfold write_key_ctrl, write_key, write_pcr_ctrl,
        write_nonsticky_datavault_ctrl, write_nonsticky_datavault_entry,
        write_nonsticky_lockable_scratch_ctrl, write_nonsticky_lockable_scratch,
        write_sticky_lockable_scratch_ctrl, write_sticky_lockable_scratch in H; res_inv H;
        repeat case_match; simplify_eq end; simpl; eauto); try (simpl; by eauto).
  - unfold write_sticky_datavault_ctrl in H. res_inv H. apply unwrap_ok_inv in Hs. simpl. split; [|done].
    destruct (decide (i0 = i)) as [->|Hne].
    + rewrite Hci in Hs. injection Hs as <-. exists (lock_entry ci val). rewrite list_lookup_insert_eq by (by apply lookup_lt_Some in Hci).
      split; [done|]. unfold lock_entry, dv_lock in *. rewrite fget_fset_same by lia.
      rewrite Hli, lor_one by (apply lock_01; lia). done.
    + exists ci. by rewrite list_lookup_insert_ne by done.
  - unfold write_sticky_datavault_entry in H. res_inv H. apply unwrap_ok_inv in Hs. simpl.
    split; [eauto|]. apply slice_insert_other.
    apply err_if_ok_inv, negb_false_iff, Z.eqb_eq in Hs0.
    assert (Hne : (i0 / 12)%nat ≠ i) by (intros <-; change DV_ENTRY_SIZE_WORDS with 12%nat in Hs; simplify_eq; lia).
    pose proof (Nat.div_mod_eq i0 12). pose proof (Nat.mod_upper_bound i0 12 ltac:(lia)). lia.
Qed.

(** ** Reading back a key *)

Lemma resize_take n l : (n ≤ length l)%nat → resize n l = take n l.
Proof. intros. unfold resize. replace (n - length l)%nat with 0%nat by lia. apply app_nil_r. Qed.

Lemma length_key_slot id r : vault_wf r → (id < 24)%nat → length (key_slot id r) = 64%nat.
Proof.
  intros [_ Hk _ _] Hi. unfold key_slot, slice. rewrite length_take, length_drop, Hk.
  unfold KEY_SIZE, KEY_REG_SIZE. lia.
Qed.

Lemma last_dword_ok (key : list Z) usage c : (0 < length key ≤ 64)%nat → (length key mod 4 = 0)%nat →
  kv_last_dword (fset 17 4 (u32w (Z.of_nat (length key / 4) - 1)) (fset 9 8 usage c)) =
    Z.of_nat (length key / 4) - 1.
Proof.
  intros Hl Hm. unfold kv_last_dword. rewrite fget_fset_same by lia.
  assert (Hd : (0 < length key / 4 ≤ 16)%nat).
  { pose proof (Nat.div_mod_eq (length key) 4). lia. }
  rewrite wrap_small by ulia. apply Z.bits_inj'. intros i Hi. rewrite Z.land_spec, ones_bit by lia.
  destruct (Z.ltb_spec i 4); [by rewrite andb_true_r|]. rewrite andb_false_r. symmetry.
  apply Z.bits_above_log2; [lia|]. destruct (decide (Z.of_nat (length key / 4) - 1 = 0)) as [->|]; [simpl; lia|].
  apply Z.log2_lt_pow2; [lia|]. assert (2 ^ 4 ≤ 2 ^ i) by (apply Z.pow_le_mono_r; lia). lia.
Qed.

Lemma key_slot_written id key usage r r' : vault_wf r → (id < 24)%nat → write_key id key usage r = Ok r' →
  key_slot id r' = key ++ drop (length key) (key_slot id r).
Proof.
  intros Hw Hi (c & Hc & _ & _ & Hl & _ & ->)%write_key_ok_inv. unfold key_slot.
  cbn [keys set_keys set_key_control]. apply slice_splice_prefix; [done|]. rewrite (wf_keys r Hw).
  unfold KEY_SIZE, KEY_REG_SIZE. lia.
Qed.

Lemma usage_written (key : list Z) usage c :
  kv_usage (fset 17 4 (u32w (Z.of_nat (length key / 4) - 1)) (fset 9 8 usage c)) = Z.land usage 0xff.
Proof. unfold kv_usage. rewrite fget_fset_other by lia. by rewrite fget_fset_same by lia. Qed.

Lemma use_lock_written (key : list Z) usage c :
  kv_use_lock (fset 17 4 (u32w (Z.of_nat (length key / 4) - 1)) (fset 9 8 usage c)) = kv_use_lock c.
Proof. unfold kv_use_lock. by rewrite !fget_fset_other by lia. Qed.

(** * Theorems *)

(** C38. Locks hold until a reset: whatever is stored to any register of the
    vault and whatever keys and PCRs the engines write, a write-locked key keeps
    its lock and its bytes and no engine can overwrite it; only filling the whole
    vault with a debug value, which the emulator does when debugging is not
    locked, replaces the bytes. A use-locked key keeps its lock and its usage and
    can be neither read nor overwritten by an engine, except by the read for
    locked keys, which returns the key for its usages; its bytes stay or, unless
    it is also write-locked, are cleared to zero. So the driver's clear-lock
    functions have no effect. *)
Theorem kv_locks_hold dbg r r' i c :
  vault_wf r → (i < 24)%nat → rtc (vault_step false dbg) r r' → key_control r !! i = Some c →
  (kv_write_lock c = 1 → key_locked kv_write_lock r' i ∧
     slot_after dbg false (key_slot i r) (key_slot i r') ∧
     ∀ key usage r2, write_key i key usage r' ≠ Ok r2) ∧
  (kv_use_lock c = 1 → key_locked kv_use_lock r' i ∧
     slot_after dbg (kv_write_lock c =? 0) (key_slot i r) (key_slot i r') ∧
     (∀ usage, read_key i usage r' = Err LoadAccessFault) ∧
     (∀ key usage r2, write_key i key usage r' ≠ Ok r2) ∧
     ∀ usage, read_key_locked i usage r' =
       if Z.land (kv_usage c) usage =? 0 then Err LoadAccessFault else Ok (key_slot i r')).
Proof.
  intros Hw Hi Hs Hc. split; intros Hl.
  - destruct (history_locked dbg kv_write_lock r r' i c ltac:(auto) Hw Hi Hs Hc Hl) as (_ & c' & Hc' & Hl' & _ & Ha).
    rewrite Hl in Ha. split; [by exists c'|]. split; [exact Ha|].
    intros key usage r2 (c2 & Hc2 & Hw2 & _)%write_key_ok_inv. simplify_eq. lia.
  - destruct (history_locked dbg kv_use_lock r r' i c ltac:(auto) Hw Hi Hs Hc Hl) as (_ & c' & Hc' & Hl' & Hu & Ha).
    split; [by exists c'|]. split; [exact Ha|]. split_and!.
    + intros usage. unfold read_key. rewrite Hc'. cbn. by rewrite Hl'.
    + intros key usage r2 (c2 & Hc2 & _ & Hu2 & _)%write_key_ok_inv. simplify_eq. lia.
    + intros usage. unfold read_key_locked. rewrite Hc'. cbn [unwrap mbind res_bind]. rewrite Hu.
      by destruct (Z.land _ _ =? 0).
Qed.

(** The vault after reset with key 3 written and locked, for the witnesses. *)
Definition example_vault : KeyVaultRegs :=
  set_key_control (<[3%nat := 0x20003]> (key_control new)) (set_keys (splice (keys new) 192 (replicate 64 7)) new).

Lemma example_vault_wf : vault_wf example_vault.
Proof. by split. Qed.

Lemma kv_locks_hold_witness :
  let r' := snd (clear_key_use_lock 3 example_vault) in
  read_key 3 1 r' = Err LoadAccessFault ∧ read_key_locked 3 1 r' = Err LoadAccessFault ∧
  slot_after false false (replicate 64 7) (key_slot 3 r').
Proof.
  destruct (kv_locks_hold false example_vault (snd (clear_key_use_lock 3 example_vault)) 3 0x20003 example_vault_wf
    ltac:(lia) ltac:(apply rtc_once; by apply (step_key_ctrl false false 3 (w_lock_use false))) eq_refl) as (Hwl & Hul).
  destruct (Hwl eq_refl) as (_ & Ha & _). destruct (Hul eq_refl) as (_ & _ & Hr & _ & Hk). exact (conj (Hr 1) (conj (Hk 1) Ha)).
Defined.

(** Locked entries of the sticky data vault survive even warm and update
    resets: their lock stays set and their words do not change. *)
Theorem kv_sticky_vault dbg r r' i :
  rtc (vault_step true dbg) r r' → sticky_locked r i →
  sticky_locked r' i ∧ sticky_entry r' i = sticky_entry r i.
Proof.
  induction 1 as [r|r r1 r2 Hs Hss IH]; intros Hl; [done|].
  destruct (step_sticky_locked dbg r r1 i Hs Hl) as [Hl1 E1]. destruct (IH Hl1) as [Hl2 E2]. by rewrite E2.
Qed.

Lemma kv_sticky_vault_witness :
  let r := set_sticky_dv [1] (replicate 12 9) new in sticky_entry (warm_reset r) 0 = replicate 12 9.
Proof.
  exact (proj2 (kv_sticky_vault false (set_sticky_dv [1] (replicate 12 9) new) _ 0
    (rtc_once _ _ (step_warm_reset true false _ eq_refl)) (ex_intro _ 1 (conj eq_refl eq_refl)))).
Defined.

(** Erasure: [erase_all_keys] zeroes exactly the keys that are neither use-
    nor write-locked and changes nothing else of the keys; [erase_key] zeroes an
    unlocked key, and reports which lock is set otherwise without any effect. *)
Theorem kv_erase r :
  vault_wf r →
  (∃ r', erase_all_keys r = (Ok tt, r') ∧ vault_wf r' ∧ key_control r' = key_control r ∧
     ∀ j, (j < 24)%nat → key_slot j r' = if decide (unlocked r j) then replicate KEY_SIZE 0 else key_slot j r) ∧
  ∀ j c, key_control r !! j = Some c →
    if decide (kv_use_lock c = 1) then erase_key j r = (Err DRIVER_KV_ERASE_USE_LOCK_SET_FAILURE, r)
    else if decide (kv_write_lock c = 1) then erase_key j r = (Err DRIVER_KV_ERASE_WRITE_LOCK_SET_FAILURE, r)
    else fst (erase_key j r) = Ok tt ∧ key_slot j (snd (erase_key j r)) = replicate KEY_SIZE 0.
Proof.
  intros Hw. split; [by apply erase_all_keys_run|]. intros j c Hc.
  assert (Hj : (j < 24)%nat) by (apply lookup_lt_Some in Hc; by rewrite (wf_key_control r Hw) in Hc).
  unfold erase_key. rewrite (bind_ok _ _ _ _ _ (key_use_lock_run j c r Hc)).
  assert (H01 := lock_01 1 c ltac:(lia)). assert (H01' := lock_01 0 c ltac:(lia)).
  change (fget 1 1 c) with (kv_use_lock c) in H01. change (fget 0 1 c) with (kv_write_lock c) in H01'.
  destruct (decide (kv_use_lock c = 1)) as [->|Hu]; [done|]. rewrite bind_fail_if by (by destruct H01 as [->|?]).
  rewrite (bind_ok _ _ _ _ _ (key_write_lock_run j c r Hc)).
  destruct (decide (kv_write_lock c = 1)) as [->|Hwl]; [done|].
  rewrite bind_fail_if by (by destruct H01' as [->|?]). rewrite (clear_write j c r Hc) by tauto.
  split; [done|]. by apply key_slot_zero_same.
Qed.

Lemma kv_erase_witness :
  erase_key 3 example_vault = (Err DRIVER_KV_ERASE_USE_LOCK_SET_FAILURE, example_vault).
Proof. exact (proj2 (kv_erase example_vault example_vault_wf) 3%nat 0x20003 eq_refl). Defined.

(** C39. Writing then reading: an engine that reads a key as data for one of the
    usages the key was written with gets the bytes that were written, whatever
    the slot held before. The emulator keeps only eight usage bits: a key
    written for DMA alone (bit 8) cannot be read for it. *)
Theorem kv_key_roundtrip r r' id key usage desired :
  vault_wf r → (id < 24)%nat → (0 < length key)%nat → write_key id key usage r = Ok r' →
  (Z.land (Z.land usage 0xff) desired ≠ 0 → read_key_as_data id desired r' = Ok key) ∧
  (usage = 0x100 → read_key id desired r' = Err LoadAccessFault).
Proof.
  intros Hw Hi Hpos Hwr. pose proof (key_slot_written id key usage r r' Hw Hi Hwr) as Hslot.
  destruct (write_key_ok_inv id key usage r r' Hwr) as (c & Hc & _ & Hu & Hl & Hm & ->).
  unfold read_key_as_data, read_key. cbn [key_control set_key_control].
  rewrite list_lookup_insert_eq by (by apply lookup_lt_Some in Hc). cbn [unwrap mbind res_bind].
  rewrite use_lock_written, usage_written, Hu. split.
  - intros Hd. apply Z.eqb_neq in Hd. rewrite Hd. cbn [negb orb Z.eqb err_if mbind res_bind].
    rewrite Hslot. unfold KEY_SIZE in Hl. rewrite last_dword_ok by lia.
    replace (Z.to_nat (Z.of_nat (length key / 4) - 1 + 1) * 4)%nat with (length key)
      by (pose proof (Nat.div_mod_eq (length key) 4); lia).
    rewrite resize_take by (rewrite length_app; lia). by rewrite take_app_length.
  - intros ->. done.
Qed.

Lemma kv_key_roundtrip_witness :
  (r' ← write_key 5 (replicate 48 9) 3 example_vault; read_key_as_data 5 2 r') = Ok (replicate 48 9).
Proof.
  destruct (write_key 5 (replicate 48 9) 3 example_vault) as [r'|e|w] eqn:Hw; [|vm_compute in Hw; discriminate..].
  exact (proj1 (kv_key_roundtrip example_vault r' 5 (replicate 48 9) 3 2 example_vault_wf ltac:(lia)
    ltac:(by apply Nat.ltb_lt) Hw) ltac:(discriminate)).
Defined.

(** The usage that firmware reads back after an engine wrote a key: the
    driver takes nine bits of the control register, of which the emulator keeps
    the usage in the low eight and the lowest bit of the key's length field in
    the ninth, so that a 48- or 64-byte key looks as if it were usable for DMA. *)
Theorem kv_usage_readback r r' id key usage :
  vault_wf r → (id < 24)%nat → (0 < length key)%nat → write_key id key usage r = Ok r' →
  fst (key_usage id r') = Ok (Z.land usage 0xff + 0x100 * ((Z.of_nat (length key / 4) - 1) mod 2)).
Proof.
  intros Hw Hi Hpos Hwr. destruct (write_key_ok_inv id key usage r r' Hwr) as (c & Hc & _ & _ & Hl & Hm & ->).
  unfold key_usage, mmio_read, mbind, M_bind. cbn [key_control set_key_control].
  rewrite list_lookup_insert_eq by (by apply lookup_lt_Some in Hc). cbn [unwrap fst mret M_ret]. f_equal.
  pose proof (last_dword_ok key usage c ltac:(unfold KEY_SIZE in Hl; lia) Hm) as Hld.
  pose proof (usage_written key usage c) as Hus. revert Hld Hus.
  generalize (fset 17 4 (u32w (Z.of_nat (length key / 4) - 1)) (fset 9 8 usage c)). intros z Hld Hus.
  rewrite <- Hld, <- Hus. change (r_dest_valid z) with (fget 9 9 z). unfold kv_last_dword, kv_usage, fget.
  rewrite !Z.land_ones, !Z.shiftr_div_pow2 by lia. change (2 ^ 9) with 512. change (2 ^ 8) with 256.
  change (2 ^ 17) with 131072. change (2 ^ 4) with 16. dlia.
Qed.

Lemma kv_usage_readback_witness :
  ∃ r', write_key 5 (replicate 48 9) 1 example_vault = Ok r' ∧ fst (key_usage 5 r') = Ok 0x101.
Proof.
  destruct (write_key 5 (replicate 48 9) 1 example_vault) as [r'|e|w] eqn:Hw; [|vm_compute in Hw; discriminate..].
  exists r'. split; [done|]. exact (kv_usage_readback example_vault r' 5 (replicate 48 9) 1 example_vault_wf
    ltac:(lia) ltac:(by apply Nat.ltb_lt) Hw).
Defined.
