(* ===== verification/Sha512.v ===== *)
(** SHA-384 and SHA-512: the reference hash, the engine and the driver.

    - [Sha512Compress] is the compression function of the third-party [sha2]
      crate, a parameter;
    - [Module Emu512] is the SHA-512 peripheral of the software emulator
      (sw-emulator/lib/periph/src/hash_sha512.rs over
      sw-emulator/lib/crypto/src/sha512.rs), which also extends PCRs of the key
      vault and hashes all of them together with a nonce;
    - [Module Sha2] is the firmware driver (drivers/src/sha2_512_384.rs) with the
      part of drivers/src/kv_access.rs that it uses. *)

From S2P Require Import Prelude Bits Errors Memory KeyVault.

(** * The reference *)

(** [sha2::compress512] on one block: eight 64-bit state words and 128 message
    bytes to eight state words. *)
Class Sha512Compress := compress512 : list Z → list Z → list Z.

(** What its type [[u64; 8]] says of its result. *)
Class Sha512CompressOk `{Sha512Compress} := {
  compress512_length h b : length (compress512 h b) = 8%nat;
  compress512_words h b : Forall (in_u 64) (compress512 h b);
}.

Definition HASH_IV_512_224 : list Z :=
  [0x8c3d37c819544da2; 0x73e1996689dcd4d6; 0x1dfab7ae32ff9c82; 0x679dd514582f9fcf;
   0x0f6d2b697bd44da8; 0x77e36f7304c48942; 0x3f9d85a86a1d36c8; 0x1112e6ad91d692a1].
Definition HASH_IV_512_256 : list Z :=
  [0x22312194fc2bf72c; 0x9f555fa3c84c64c2; 0x2393b86b6f53b151; 0x963877195940eabd;
   0x96283ee2a88effe3; 0xbe5e1e2553863992; 0x2b0199fc2c85b8aa; 0x0eb72ddc81c52ca2].
Definition HASH_IV_384 : list Z :=
  [0xcbbb9d5dc1059ed8; 0x629a292a367cd507; 0x9159015a3070dd17; 0x152fecd8f70e5939;
   0x67332667ffc00b31; 0x8eb44a8768581511; 0xdb0c2e0d64f98fa7; 0x47b5481dbefa4fa4].
Definition HASH_IV_512 : list Z :=
  [0x6a09e667f3bcc908; 0xbb67ae8584caa73b; 0x3c6ef372fe94f82b; 0xa54ff53a5f1d36f1;
   0x510e527fade682d1; 0x9b05688c2b3e6c1f; 0x1f83d9abfb41bd6b; 0x5be0cd19137e2179].

(** FIPS 180-4, section 5.1.2: a one bit, zeros up to 112 bytes modulo 128, and
    the length of the message in bits on sixteen bytes. *)
Definition sha512_pad (m : list Z) : list Z :=
  m ++ 0x80 :: replicate (Z.to_nat ((111 - Z.of_nat (length m)) mod 128)) 0
    ++ to_be 16 (8 * Z.of_nat (length m)).

(** FIPS 180-4, sections 6.4 and 6.5, on a message of bytes. A 64-bit word is two
    32-bit words, the high one first. *)
Definition sha512_blocks `{Sha512Compress} (h l : list Z) : list Z :=
  foldl compress512 h (chunks 128 (length l / 128) l).
Definition split64 (h : list Z) : list Z := flat_map (λ x, [Z.shiftr x 32; x mod 2 ^ 32]) h.
Definition sha384_ref `{Sha512Compress} (m : list Z) : list Z :=
  take 12 (split64 (sha512_blocks HASH_IV_384 (sha512_pad m))).
Definition sha512_ref `{Sha512Compress} (m : list Z) : list Z :=
  split64 (sha512_blocks HASH_IV_512 (sha512_pad m)).

(** * The emulated engine *)

Module Emu512.

(** ** sw-emulator/lib/crypto: [struct Sha512] *)

Inductive Sha512Mode := Sha224 | Sha256 | Sha384 | Sha512.

Record Sha512Core := mkCore {
  hash : list Z;
  mode : Sha512Mode;
  partial_block : list Z;
  blocks_processed : nat
}.

Definition BLOCK_SIZE : nat := 128.
Definition HASH_SIZE : nat := 64.

Definition hash_iv (m : Sha512Mode) : list Z :=
  match m with
  | Sha224 => HASH_IV_512_224
  | Sha256 => HASH_IV_512_256
  | Sha384 => HASH_IV_384
  | Sha512 => HASH_IV_512
  end.

Definition core_new (m : Sha512Mode) : Sha512Core := mkCore (hash_iv m) m [] 0.

(** The state is reset, the pending bytes stay. *)
Definition reset (m : Sha512Mode) (c : Sha512Core) : Sha512Core := mkCore (hash_iv m) m (partial_block c) 0.

(** The hash arrives as a list of big-endian dwords. *)
Definition set_hash (bytes : list Z) (c : Sha512Core) : Sha512Core :=
  let b := change_endianess bytes in
  mkCore (map (λ i, from_be (slice b (i * 8) ((i + 1) * 8))) (seq 0 (HASH_SIZE / 8)))
    (mode c) (partial_block c) (blocks_processed c).

Definition update `{Sha512Compress} (blk : list Z) (c : Sha512Core) : Sha512Core :=
  mkCore (compress512 (hash c) (change_endianess blk)) (mode c) (partial_block c) (S (blocks_processed c)).

Definition set_partial (p : list Z) (c : Sha512Core) : Sha512Core :=
  mkCore (hash c) (mode c) p (blocks_processed c).

(** [while self.partial_block.len() >= BLOCK_SIZE]: each round removes a block;
    [swap] is the byte swap that [update_bytes] applies to the block. *)
Fixpoint drain_blocks `{Sha512Compress} (fuel : nat) (swap : list Z → list Z) (c : Sha512Core) : Sha512Core :=
  match fuel with
  | O => c
  | S fuel =>
      if (BLOCK_SIZE <=? length (partial_block c))%nat then
        let c' := update (swap (take BLOCK_SIZE (partial_block c))) c in
        drain_blocks fuel swap (set_partial (drop BLOCK_SIZE (partial_block c)) c')
      else c
  end.

Definition drain_fuel (c : Sha512Core) : nat := S (length (partial_block c) / BLOCK_SIZE).

(** Subtractions that underflow panic. *)
Definition update_bytes `{Sha512Compress} {E} (bytes : list Z) (dlen : option Z) (c : Sha512Core) :
    result E Sha512Core :=
  let p := partial_block c ++ bytes in
  let total := (blocks_processed c * BLOCK_SIZE + length p)%nat in
  keep ← match dlen with
         | Some dlen =>
             if dlen <? Z.of_nat total then
               let over := Z.of_nat total - dlen in
               if Z.of_nat (length p) <? over then Abort Panic else Ok (Z.to_nat (Z.of_nat (length p) - over))
             else Ok (length p)
         | None => Ok (length p)
         end;
  let c := set_partial (take keep p) c in
  Ok (drain_blocks (drain_fuel c) change_endianess c).

Definition finalize `{Sha512Compress} {E} (dlen : Z) (c : Sha512Core) : result E Sha512Core :=
  let bytes_of_blocks := Z.of_nat (blocks_processed c * BLOCK_SIZE) in
  partial ← (if dlen <? bytes_of_blocks + Z.of_nat (length (partial_block c)) then
               if dlen <? bytes_of_blocks then Abort Panic else Ok (Z.to_nat (dlen - bytes_of_blocks))
             else Ok (length (partial_block c)));
  let msg_len := (blocks_processed c * BLOCK_SIZE + partial)%nat in
  let zeros := (BLOCK_SIZE - ((msg_len + 1 + 16) mod 128))%nat in
  let p := Vault.resize partial (partial_block c) ++ [0x80] ++ replicate zeros 0
             ++ to_be 16 (Z.of_nat (msg_len * 8)) in
  let c := set_partial (change_endianess p) c in
  Ok (drain_blocks (drain_fuel c) (λ b, b) c).

(** The words with the bytes of each half swapped, as big-endian bytes,
    overwrite the destination. *)
Definition copy_hash (c : Sha512Core) (dest : list Z) : list Z :=
  let hash_be := map (λ x, Z.lor (Z.shiftl (swap_bytes_u32 (Z.shiftr x 32)) 32) (swap_bytes_u32 (x mod 2 ^ 32)))
                   (hash c) in
  let src := take (length dest `min` HASH_SIZE) (flat_map (to_be 8) hash_be) in
  src ++ drop (length src) dest.

(** ** sw-emulator/lib/periph: [struct HashSha512Regs] *)

(** A status register: ready, valid and, where it has one, an error. *)
Record Status := mkStatus { st_ready : bool; st_valid : bool; st_error : Z }.

(** A scheduled completion is the time at which it is due. *)
Record HashSha512Regs := mkRegs {
  control : Z;
  status : Status;
  block : list Z;
  hash_mem : list Z;
  block_read_ctrl : Z;
  block_read_status : Status;
  hash_write_ctrl : Z;
  hash_write_status : Status;
  pcr_gen_hash_nonce : list Z;
  pcr_hash_control : Z;
  pcr_hash_status : Status;
  pcr_hash_digest : list Z;
  sha512 : Sha512Core;
  op_complete_action : option Z;
  op_block_read_complete_action : option Z;
  op_hash_write_complete_action : option Z;
  op_pcr_gen_hash_complete_action : option Z;
  pcr_present : bool
}.

Definition set_control (v : Z) (r : HashSha512Regs) : HashSha512Regs :=
  mkRegs v (status r) (block r) (hash_mem r) (block_read_ctrl r) (block_read_status r) (hash_write_ctrl r)
    (hash_write_status r) (pcr_gen_hash_nonce r) (pcr_hash_control r) (pcr_hash_status r) (pcr_hash_digest r)
    (sha512 r) (op_complete_action r) (op_block_read_complete_action r) (op_hash_write_complete_action r)
    (op_pcr_gen_hash_complete_action r) (pcr_present r).
Definition set_status (v : Status) (r : HashSha512Regs) : HashSha512Regs :=
  mkRegs (control r) v (block r) (hash_mem r) (block_read_ctrl r) (block_read_status r) (hash_write_ctrl r)
    (hash_write_status r) (pcr_gen_hash_nonce r) (pcr_hash_control r) (pcr_hash_status r) (pcr_hash_digest r)
    (sha512 r) (op_complete_action r) (op_block_read_complete_action r) (op_hash_write_complete_action r)
    (op_pcr_gen_hash_complete_action r) (pcr_present r).
Definition set_block (v : list Z) (r : HashSha512Regs) : HashSha512Regs :=
  mkRegs (control r) (status r) v (hash_mem r) (block_read_ctrl r) (block_read_status r) (hash_write_ctrl r)
    (hash_write_status r) (pcr_gen_hash_nonce r) (pcr_hash_control r) (pcr_hash_status r) (pcr_hash_digest r)
    (sha512 r) (op_complete_action r) (op_block_read_complete_action r) (op_hash_write_complete_action r)
    (op_pcr_gen_hash_complete_action r) (pcr_present r).
Definition set_hash_mem (v : list Z) (r : HashSha512Regs) : HashSha512Regs :=
  mkRegs (control r) (status r) (block r) v (block_read_ctrl r) (block_read_status r) (hash_write_ctrl r)
    (hash_write_status r) (pcr_gen_hash_nonce r) (pcr_hash_control r) (pcr_hash_status r) (pcr_hash_digest r)
    (sha512 r) (op_complete_action r) (op_block_read_complete_action r) (op_hash_write_complete_action r)
    (op_pcr_gen_hash_complete_action r) (pcr_present r).
Definition set_block_read_ctrl (v : Z) (r : HashSha512Regs) : HashSha512Regs :=
  mkRegs (control r) (status r) (block r) (hash_mem r) v (block_read_status r) (hash_write_ctrl r)
    (hash_write_status r) (pcr_gen_hash_nonce r) (pcr_hash_control r) (pcr_hash_status r) (pcr_hash_digest r)
    (sha512 r) (op_complete_action r) (op_block_read_complete_action r) (op_hash_write_complete_action r)
    (op_pcr_gen_hash_complete_action r) (pcr_present r).
Definition set_block_read_status (v : Status) (r : HashSha512Regs) : HashSha512Regs :=
  mkRegs (control r) (status r) (block r) (hash_mem r) (block_read_ctrl r) v (hash_write_ctrl r)
    (hash_write_status r) (pcr_gen_hash_nonce r) (pcr_hash_control r) (pcr_hash_status r) (pcr_hash_digest r)
    (sha512 r) (op_complete_action r) (op_block_read_complete_action r) (op_hash_write_complete_action r)
    (op_pcr_gen_hash_complete_action r) (pcr_present r).
Definition set_hash_write_ctrl (v : Z) (r : HashSha512Regs) : HashSha512Regs :=
  mkRegs (control r) (status r) (block r) (hash_mem r) (block_read_ctrl r) (block_read_status r) v
    (hash_write_status r) (pcr_gen_hash_nonce r) (pcr_hash_control r) (pcr_hash_status r) (pcr_hash_digest r)
    (sha512 r) (op_complete_action r) (op_block_read_complete_action r) (op_hash_write_complete_action r)
    (op_pcr_gen_hash_complete_action r) (pcr_present r).
Definition set_hash_write_status (v : Status) (r : HashSha512Regs) : HashSha512Regs :=
  mkRegs (control r) (status r) (block r) (hash_mem r) (block_read_ctrl r) (block_read_status r)
    (hash_write_ctrl r) v (pcr_gen_hash_nonce r) (pcr_hash_control r) (pcr_hash_status r) (pcr_hash_digest r)
    (sha512 r) (op_complete_action r) (op_block_read_complete_action r) (op_hash_write_complete_action r)
    (op_pcr_gen_hash_complete_action r) (pcr_present r).
Definition set_pcr_gen_hash_nonce (v : list Z) (r : HashSha512Regs) : HashSha512Regs :=
  mkRegs (control r) (status r) (block r) (hash_mem r) (block_read_ctrl r) (block_read_status r)
    (hash_write_ctrl r) (hash_write_status r) v (pcr_hash_control r) (pcr_hash_status r) (pcr_hash_digest r)
    (sha512 r) (op_complete_action r) (op_block_read_complete_action r) (op_hash_write_complete_action r)
    (op_pcr_gen_hash_complete_action r) (pcr_present r).
Definition set_pcr_hash_control (v : Z) (r : HashSha512Regs) : HashSha512Regs :=
  mkRegs (control r) (status r) (block r) (hash_mem r) (block_read_ctrl r) (block_read_status r)
    (hash_write_ctrl r) (hash_write_status r) (pcr_gen_hash_nonce r) v (pcr_hash_status r) (pcr_hash_digest r)
    (sha512 r) (op_complete_action r) (op_block_read_complete_action r) (op_hash_write_complete_action r)
    (op_pcr_gen_hash_complete_action r) (pcr_present r).
Definition set_pcr_hash_status (v : Status) (r : HashSha512Regs) : HashSha512Regs :=
  mkRegs (control r) (status r) (block r) (hash_mem r) (block_read_ctrl r) (block_read_status r)
    (hash_write_ctrl r) (hash_write_status r) (pcr_gen_hash_nonce r) (pcr_hash_control r) v (pcr_hash_digest r)
    (sha512 r) (op_complete_action r) (op_block_read_complete_action r) (op_hash_write_complete_action r)
    (op_pcr_gen_hash_complete_action r) (pcr_present r).
Definition set_pcr_hash_digest (v : list Z) (r : HashSha512Regs) : HashSha512Regs :=
  mkRegs (control r) (status r) (block r) (hash_mem r) (block_read_ctrl r) (block_read_status r)
    (hash_write_ctrl r) (hash_write_status r) (pcr_gen_hash_nonce r) (pcr_hash_control r) (pcr_hash_status r) v
    (sha512 r) (op_complete_action r) (op_block_read_complete_action r) (op_hash_write_complete_action r)
    (op_pcr_gen_hash_complete_action r) (pcr_present r).
Definition set_sha512 (v : Sha512Core) (r : HashSha512Regs) : HashSha512Regs :=
  mkRegs (control r) (status r) (block r) (hash_mem r) (block_read_ctrl r) (block_read_status r)
    (hash_write_ctrl r) (hash_write_status r) (pcr_gen_hash_nonce r) (pcr_hash_control r) (pcr_hash_status r)
    (pcr_hash_digest r) v (op_complete_action r) (op_block_read_complete_action r)
    (op_hash_write_complete_action r) (op_pcr_gen_hash_complete_action r) (pcr_present r).
Definition set_op_complete_action (v : option Z) (r : HashSha512Regs) : HashSha512Regs :=
  mkRegs (control r) (status r) (block r) (hash_mem r) (block_read_ctrl r) (block_read_status r)
    (hash_write_ctrl r) (hash_write_status r) (pcr_gen_hash_nonce r) (pcr_hash_control r) (pcr_hash_status r)
    (pcr_hash_digest r) (sha512 r) v (op_block_read_complete_action r) (op_hash_write_complete_action r)
    (op_pcr_gen_hash_complete_action r) (pcr_present r).
Definition set_op_block_read_complete_action (v : option Z) (r : HashSha512Regs) : HashSha512Regs :=
  mkRegs (control r) (status r) (block r) (hash_mem r) (block_read_ctrl r) (block_read_status r)
    (hash_write_ctrl r) (hash_write_status r) (pcr_gen_hash_nonce r) (pcr_hash_control r) (pcr_hash_status r)
    (pcr_hash_digest r) (sha512 r) (op_complete_action r) v (op_hash_write_complete_action r)
    (op_pcr_gen_hash_complete_action r) (pcr_present r).
Definition set_op_hash_write_complete_action (v : option Z) (r : HashSha512Regs) : HashSha512Regs :=
  mkRegs (control r) (status r) (block r) (hash_mem r) (block_read_ctrl r) (block_read_status r)
    (hash_write_ctrl r) (hash_write_status r) (pcr_gen_hash_nonce r) (pcr_hash_control r) (pcr_hash_status r)
    (pcr_hash_digest r) (sha512 r) (op_complete_action r) (op_block_read_complete_action r) v
    (op_pcr_gen_hash_complete_action r) (pcr_present r).
Definition set_op_pcr_gen_hash_complete_action (v : option Z) (r : HashSha512Regs) : HashSha512Regs :=
  mkRegs (control r) (status r) (block r) (hash_mem r) (block_read_ctrl r) (block_read_status r)
    (hash_write_ctrl r) (hash_write_status r) (pcr_gen_hash_nonce r) (pcr_hash_control r) (pcr_hash_status r)
    (pcr_hash_digest r) (sha512 r) (op_complete_action r) (op_block_read_complete_action r)
    (op_hash_write_complete_action r) v (pcr_present r).
Definition set_pcr_present (v : bool) (r : HashSha512Regs) : HashSha512Regs :=
  mkRegs (control r) (status r) (block r) (hash_mem r) (block_read_ctrl r) (block_read_status r)
    (hash_write_ctrl r) (hash_write_status r) (pcr_gen_hash_nonce r) (pcr_hash_control r) (pcr_hash_status r)
    (pcr_hash_digest r) (sha512 r) (op_complete_action r) (op_block_read_complete_action r)
    (op_hash_write_complete_action r) (op_pcr_gen_hash_complete_action r) v.

Definition regs_new : HashSha512Regs :=
  mkRegs 0 (mkStatus true false 0) (replicate 32 0) (replicate 64 0) 0 (mkStatus true false 0) 0
    (mkStatus true false 0) (replicate 8 0) 0 (mkStatus true false 0) (replicate 16 0) (core_new Sha512)
    None None None None false.

Definition INIT_TICKS : Z := 1000.
Definition UPDATE_TICKS : Z := 1000.
Definition KEY_RW_TICKS : Z := 100.

(** Fields of the control registers. *)
Definition ctrl_init (v : Z) : bool := Z.testbit v 0.
Definition ctrl_next (v : Z) : bool := Z.testbit v 1.
Definition ctrl_mode (v : Z) : Sha512Mode :=
  match fget 2 2 v with 0 => Sha224 | 1 => Sha256 | 2 => Sha384 | _ => Sha512 end.
Definition ctrl_zeroize (v : Z) : bool := Z.testbit v 4.
Definition ctrl_last (v : Z) : bool := Z.testbit v 5.
Definition ctrl_restore (v : Z) : bool := Z.testbit v 6.
Definition key_read_en (v : Z) : bool := Z.testbit v 0.
Definition read_key_id (v : Z) : Z := fget 1 5 v.
Definition pcr_hash_extend (v : Z) : Z := fget 6 1 v.
Definition key_write_en (v : Z) : bool := Z.testbit v 0.
Definition write_key_id (v : Z) : Z := fget 1 5 v.
Definition write_usage (v : Z) : Z := fget 6 6 v.

(** The engine, the key vault that it shares with the processor, and the time. *)
Record World := mkWorld { regs : HashSha512Regs; key_vault : Vault.KeyVaultRegs; now : Z }.

Definition on_regs (f : HashSha512Regs → HashSha512Regs) (w : World) : World :=
  mkWorld (f (regs w)) (key_vault w) (now w).
Definition set_vault (v : Vault.KeyVaultRegs) (w : World) : World := mkWorld (regs w) v (now w).

(** [timer.schedule_poll_in(ticks)]. *)
Definition schedule_poll_in (ticks : Z) (w : World) : option Z := Some (now w + ticks).

Definition zeroize (r : HashSha512Regs) : HashSha512Regs :=
  set_hash_mem (replicate 64 0) (set_block (replicate 32 0) r).

Section Engine.
Context `{Sha512Compress}.

(** The callback of a word write to the control register. *)
Definition on_write_control (val : Z) (w : World) : World :=
  let r := set_pcr_present false (set_control val (regs w)) in
  let r := if ctrl_restore val then set_sha512 (set_hash (hash_mem r) (sha512 r)) r else r in
  let r :=
    if ctrl_init val || ctrl_next val then
      let r := set_status (mkStatus false false (st_error (status r))) r in
      if ctrl_init val then
        let r := set_sha512 (update (bytes_le (block r)) (reset (ctrl_mode val) (sha512 r))) r in
        set_op_complete_action (schedule_poll_in INIT_TICKS w) r
      else
        let r := set_sha512 (update (bytes_le (block r)) (sha512 r)) r in
        set_op_complete_action (schedule_poll_in UPDATE_TICKS w) r
    else r in
  let r := if ctrl_zeroize val then zeroize r else r in
  on_regs (λ _, r) w.

(** While a PCR is in the block, writes to its words are ignored. *)
Definition write_block_word (word_index : nat) (val : Z) (r : HashSha512Regs) : HashSha512Regs :=
  if negb (pcr_present r) || (12 <=? word_index)%nat then set_block (<[word_index := val]> (block r)) r else r.

Definition on_write_block_read_control (val : Z) (w : World) : World :=
  let r := regs w in
  let c := fset 0 1 (Z.b2z (key_read_en val)) (block_read_ctrl r) in
  let c := fset 1 5 (read_key_id val) c in
  let c := fset 6 1 (pcr_hash_extend val) c in
  let r := set_block_read_ctrl c r in
  let r :=
    if key_read_en val then
      set_op_block_read_complete_action (schedule_poll_in KEY_RW_TICKS w)
        (set_block_read_status (mkStatus false false 0) r)
    else r in
  on_regs (λ _, r) w.

Definition on_write_hash_write_control (val : Z) (w : World) : World :=
  let c := fset 0 1 (Z.b2z (key_write_en val)) (hash_write_ctrl (regs w)) in
  let c := fset 1 5 (write_key_id val) c in
  let c := fset 6 6 (write_usage val) c in
  on_regs (set_hash_write_ctrl c) w.

Definition on_write_pcr_hash_control (val : Z) (w : World) : World :=
  let r := regs w in
  if negb (st_ready (pcr_hash_status r)) then w
  else
    let r := set_pcr_hash_control val r in
    let r := set_pcr_hash_status (mkStatus false false (st_error (pcr_hash_status r))) r in
    on_regs (λ _, set_op_pcr_gen_hash_complete_action (schedule_poll_in UPDATE_TICKS w) r) w.

(** ** Completions *)

Definition op_complete (w : World) : World :=
  let r := regs w in
  let r := set_hash_mem (copy_hash (sha512 r) (hash_mem r)) r in
  let '(r, v) :=
    if key_write_en (hash_write_ctrl r) then
      (set_op_hash_write_complete_action (schedule_poll_in KEY_RW_TICKS w)
         (set_hash_write_status (mkStatus false false 0) r), key_vault w)
    else if ctrl_last (control r) && negb (pcr_hash_extend (block_read_ctrl r) =? 0) then
      let pcr_id := Z.to_nat (read_key_id (block_read_ctrl r)) in
      (set_block_read_ctrl (fset 6 1 0 (block_read_ctrl r)) r,
       Vault.write_pcr pcr_id (take 48 (hash_mem r)) (key_vault w))
    else (r, key_vault w) in
  mkWorld (set_status (mkStatus true true (st_error (status r))) r) v (now w).

(** Adds padding and total data size. *)
Definition format_block (data : list Z) (r : HashSha512Regs) : HashSha512Regs :=
  let b := splice (replicate 128 0) 0 data in
  let b := change_endianess b in
  let b := <[length data := 0x80]> b in
  let b := splice b 112 (to_be 16 (Z.of_nat (length data) * 8)) in
  set_block (words_le (change_endianess b)) r.

(** [KeyUsage::default()] permits nothing. *)
Definition block_read_complete {E} (w : World) : result E World :=
  let r := regs w in
  let key_id := Z.to_nat (read_key_id (block_read_ctrl r)) in
  let extend := negb (pcr_hash_extend (block_read_ctrl r) =? 0) in
  let r := set_block (replicate 32 0) r in
  let res := if extend then Ok (Vault.read_pcr key_id (key_vault w))
             else x ← Vault.read_key key_id 0 (key_vault w); Ok (take 48 x) in
  '(r, code) ←
    match res with
    | Ok data =>
        if extend then Ok (set_pcr_present true (set_block (splice (block r) 0 (words_le data)) r), 0)
        else Ok (format_block data r, 0)
    | Err LoadAccessFault | Err LoadAddrMisaligned | Err InstrAccessFault => Ok (r, 1)
    | Err StoreAccessFault | Err StoreAddrMisaligned => Ok (r, 2)
    | Abort why => Abort why
    end;
  Ok (on_regs (λ _, set_block_read_status (mkStatus true true code) r) w).

Definition hash_write_complete {E} (w : World) : result E World :=
  let r := regs w in
  let key_id := Z.to_nat (write_key_id (hash_write_ctrl r)) in
  '(v, code) ←
    match Vault.write_key key_id (take 64 (hash_mem r)) (write_usage (hash_write_ctrl r)) (key_vault w) with
    | Ok v => Ok (v, 0)
    | Err LoadAccessFault | Err LoadAddrMisaligned | Err InstrAccessFault => Ok (key_vault w, 1)
    | Err StoreAccessFault | Err StoreAddrMisaligned => Ok (key_vault w, 2)
    | Abort why => Abort why
    end;
  Ok (set_vault v (on_regs (set_hash_write_status (mkStatus true true code)) w)).

Definition pcr_hash_op_complete {E} (w : World) : result E World :=
  let r := regs w in
  let c := reset Sha512 (sha512 r) in
  c ← foldR (λ c pcr_id, update_bytes (change_endianess (Vault.read_pcr pcr_id (key_vault w))) None c) c (seq 0 32);
  c ← update_bytes (bytes_le (pcr_gen_hash_nonce r)) None c;
  c ← finalize (32 * 48 + 32) c;
  let r := set_pcr_hash_digest (words_le (copy_hash c (bytes_le (pcr_hash_digest r)))) (set_sha512 c r) in
  Ok (on_regs (λ _, set_pcr_hash_status (mkStatus true true (st_error (pcr_hash_status r))) r) w).

(** [timer.fired(..)]: the time has come. *)
Definition fired (a : option Z) (now : Z) : bool := match a with Some t => t <=? now | None => false end.

(** A completion of which the action has been taken. *)
Definition completion (f : World → res World) : M World unit := λ w,
  match f w with
  | Ok w' => (Ok tt, w')
  | Err e => (Err e, w)
  | Abort why => (Abort why, w)
  end.

Definition poll : M World unit :=
  w ← get (λ w, w);
  let r := regs w in
  if fired (op_complete_action r) (now w) then
    modify (on_regs (set_op_complete_action None));; modify op_complete
  else if fired (op_block_read_complete_action r) (now w) then
    modify (on_regs (set_op_block_read_complete_action None));; completion block_read_complete
  else if fired (op_hash_write_complete_action r) (now w) then
    modify (on_regs (set_op_hash_write_complete_action None));; completion hash_write_complete
  else if fired (op_pcr_gen_hash_complete_action r) (now w) then
    modify (on_regs (set_op_pcr_gen_hash_complete_action None));; completion pcr_hash_op_complete
  else mret tt.

End Engine.
End Emu512.

(** * The driver *)

Module Sha2.
Import Emu512.

Definition SHA512_BLOCK_BYTE_SIZE : nat := 128.
Definition SHA512_BLOCK_LEN_OFFSET : nat := 112.
Definition SHA512_MAX_DATA_SIZE : Z := 1024 * 1024.
Definition SHA384_HASH_SIZE : nat := 48.

Inductive ShaMode := ShaMode384 | ShaMode512.
Definition reg_value (m : ShaMode) : Z := match m with ShaMode384 => 2 | ShaMode512 => 3 end.

(** Values written to registers. *)
Definition b2z (b : bool) (i : Z) : Z := if b then Z.shiftl 1 i else 0.
Definition ctrl_val (m : Z) (init next zero last restore : bool) : Z :=
  Z.lor (b2z init 0) (Z.lor (b2z next 1) (Z.lor (Z.shiftl (Z.land m 3) 2)
    (Z.lor (b2z zero 4) (Z.lor (b2z last 5) (b2z restore 6))))).
Definition vault_rd_val (read_en : bool) (entry : Z) (extend : bool) : Z :=
  Z.lor (b2z read_en 0) (Z.lor (Z.shiftl (Z.land entry 0x1f) 1) (b2z extend 6)).

Section Ops.
Context `{Sha512Compress}.

(** [wait::until]: while the processor spins, the peripheral is polled at the
    times that were scheduled. The code around the loops takes no time. *)
Definition later (now : Z) (a : option Z) (acc : option Z) : option Z :=
  match a with
  | Some t => if now <? t then Some (match acc with Some u => Z.min t u | None => t end) else acc
  | None => acc
  end.
Definition next_event (w : World) : option Z :=
  let r := regs w in
  later (now w) (op_complete_action r)
    (later (now w) (op_block_read_complete_action r)
      (later (now w) (op_hash_write_complete_action r)
        (later (now w) (op_pcr_gen_hash_complete_action r) None))).

(** Each poll takes one of at most four actions, and only the completion of an
    operation schedules another one. *)
Fixpoint wait_loop (fuel : nat) (p : HashSha512Regs → bool) : M World unit :=
  w ← get (λ w, w);
  if p (regs w) then mret tt
  else
    match fuel, next_event w with
    | S fuel, Some t =>
        modify (λ w, mkWorld (regs w) (key_vault w) t);;
        poll;;
        wait_loop fuel p
    | _, _ => stop Diverge
    end.
Definition wait_until (p : HashSha512Regs → bool) : M World unit := wait_loop 5 p.

Definition write_ctrl (v : Z) : M World unit := modify (on_write_control v).

(** [Array4x32::write_to_reg(block())], word by word. *)
Definition write_block (ws : list Z) : M World unit :=
  modify (on_regs (λ r, foldl (λ r '(i, v), write_block_word i v r) r (imap pair ws))).

(** [Array4x16::read_from_reg(digest())]; [truncate::<12>] reads the first words. *)
Definition read_digest_reg (n : nat) : M World (list Z) := get (λ w, take n (words_le (hash_mem (regs w)))).

Definition digest_op (m : ShaMode) (first last restore : bool) : M World unit :=
  wait_until (λ r, st_ready (status r));;
  write_ctrl (ctrl_val (reg_value m) first (negb first) false last restore);;
  wait_until (λ r, st_ready (status r)).

Definition digest_block (m : ShaMode) (blk : list Z) (first last restore : bool) : M World unit :=
  write_block (words_be blk);; digest_op m first last restore.

Definition set_block_len (buf_size : nat) (blk : list Z) : list Z :=
  splice blk SHA512_BLOCK_LEN_OFFSET (to_be 16 (Z.shiftl (Z.of_nat buf_size) 3)).

Definition digest_partial_block (m : ShaMode) (sl : list Z) (first : bool) (buf_size : nat) (restore : bool) :
    M World unit :=
  let n := length sl in
  fail_if (SHA512_BLOCK_BYTE_SIZE - 1 <? n)%nat DRIVER_SHA2_512_384_INDEX_OUT_OF_BOUNDS;;
  let blk := splice (replicate SHA512_BLOCK_BYTE_SIZE 0) 0 sl in
  let blk := <[n := 0x80]> blk in
  let '(blk, last) :=
    if (n <? SHA512_BLOCK_LEN_OFFSET)%nat then (set_block_len buf_size blk, true) else (blk, false) in
  digest_block m blk first last restore;;
  if (SHA512_BLOCK_LEN_OFFSET <=? n)%nat then
    digest_block m (set_block_len buf_size (replicate SHA512_BLOCK_BYTE_SIZE 0)) false true false
  else mret tt.

(** The loop of [sha_digest_helper]: one round per full block and one for the
    rest. *)
Fixpoint digest_loop (fuel : nat) (m : ShaMode) (buf : list Z) (first : bool) (bytes_remaining : nat) :
    M World unit :=
  match fuel with
  | O => stop Diverge
  | S fuel =>
      let offset := (length buf - bytes_remaining)%nat in
      if (bytes_remaining <? SHA512_BLOCK_BYTE_SIZE)%nat then
        match get_slice buf offset (length buf - offset) with
        | Some sl => digest_partial_block m sl first (length buf) false
        | None => fail DRIVER_SHA2_512_384_INVALID_SLICE
        end
      else
        match get_slice buf offset SHA512_BLOCK_BYTE_SIZE with
        | Some blk =>
            digest_block m blk first false false;;
            digest_loop fuel m buf false (bytes_remaining - SHA512_BLOCK_BYTE_SIZE)
        | None => fail DRIVER_SHA2_512_384_INVALID_SLICE
        end
  end.

Definition sha_digest_helper (buf : list Z) (m : ShaMode) : M World unit :=
  fail_if (SHA512_MAX_DATA_SIZE <? Z.of_nat (length buf)) DRIVER_SHA2_512_384_MAX_DATA_ERR;;
  digest_loop (S (length buf / SHA512_BLOCK_BYTE_SIZE)) m buf true (length buf).

Definition zeroize_internal : M World unit := write_ctrl (ctrl_val 0 false false true false false).

Definition sha384_read_digest : M World (list Z) :=
  wait_until (λ r, st_valid (status r));; read_digest_reg 12.
Definition sha512_read_digest : M World (list Z) :=
  wait_until (λ r, st_valid (status r));; read_digest_reg 16.

Definition sha384_digest (buf : list Z) : M World (list Z) :=
  sha_digest_helper buf ShaMode384;;
  digest ← sha384_read_digest;
  zeroize_internal;;
  mret digest.

Definition sha512_digest (buf : list Z) : M World (list Z) :=
  sha_digest_helper buf ShaMode512;;
  digest ← sha512_read_digest;
  zeroize_internal;;
  mret digest.

(** ** PCRs *)

Inductive KvAccessErr := KeyRead | KeyWrite | Generic.

Definition kv_error (code : Z) : option KvAccessErr :=
  if code =? 0 then None else if code =? 1 then Some KeyRead else if code =? 2 then Some KeyWrite else Some Generic.

Definition into_read_data_err (e : KvAccessErr) : CaliptraError :=
  match e with
  | KeyRead => DRIVER_SHA2_512_384_READ_DATA_KV_READ
  | KeyWrite => DRIVER_SHA2_512_384_READ_DATA_KV_WRITE
  | Generic => DRIVER_SHA2_512_384_READ_DATA_KV_UNKNOWN
  end.

(** [KvAccess::extend_from_pv], with the conversion of its error that
    [retrieve_pcr] adds. *)
Definition retrieve_pcr (pcr_id : nat) : M World unit :=
  wait_until (λ r, st_ready (block_read_status r));;
  modify (on_write_block_read_control (vault_rd_val true (Z.of_nat pcr_id) true));;
  wait_until (λ r, st_valid (block_read_status r));;
  code ← get (λ w, st_error (block_read_status (regs w)));
  match kv_error code with
  | None => mret tt
  | Some e => fail (into_read_data_err e)
  end.

Definition pcr_extend (id : nat) (data : list Z) : M World unit :=
  let total_bytes := (length data + SHA384_HASH_SIZE)%nat in
  fail_if (SHA512_BLOCK_BYTE_SIZE - 1 <? total_bytes)%nat DRIVER_SHA2_512_384_MAX_DATA_ERR;;
  retrieve_pcr id;;
  let blk := replicate SHA512_BLOCK_BYTE_SIZE 0 in
  fail_if ((total_bytes <? SHA384_HASH_SIZE)%nat || (length blk <? total_bytes)%nat)
    DRIVER_SHA2_512_384_MAX_DATA_ERR;;
  let blk := splice blk SHA384_HASH_SIZE data in
  match get_slice blk 0 total_bytes with
  | Some sl => digest_partial_block ShaMode384 sl true total_bytes false
  | None => fail DRIVER_SHA2_512_384_MAX_DATA_ERR
  end.

Definition gen_pcr_hash (nonce : list Z) : M World (list Z) :=
  wait_until (λ r, st_ready (pcr_hash_status r));;
  modify (on_regs (set_pcr_gen_hash_nonce nonce));;
  modify (on_write_pcr_hash_control 1);;
  wait_until (λ r, st_ready (pcr_hash_status r));;
  write_ctrl (ctrl_val 0 true false false false false);;
  wait_until (λ r, st_ready (pcr_hash_status r));;
  valid ← get (λ w, st_valid (pcr_hash_status (regs w)));
  if (valid : bool) then get (λ w, pcr_hash_digest (regs w))
  else fail DRIVER_SHA2_512_384_INVALID_STATE_ERR.

(** ** The multi-step operation *)

Inductive Sha2DigestState := Init | Restore | Pending | Final.
#[export] Instance Sha2DigestState_eq_dec : EqDecision Sha2DigestState.
Proof. solve_decision. Defined.

(** The type parameter [V] is the mode. *)
Record Sha2DigestOp := mkOp {
  sha_mode : ShaMode;
  state : Sha2DigestState;
  buf : list Z;
  buf_idx : nat;
  data_size : Z
}.

Definition digest_init (m : ShaMode) : M World Sha2DigestOp :=
  mret (mkOp m Init (replicate SHA512_BLOCK_BYTE_SIZE 0) 0 0).

Definition is_first (op : Sha2DigestOp) : bool := bool_decide (state op = Init).
Definition is_restore (op : Sha2DigestOp) : bool := bool_decide (state op = Restore).
Definition reset_buf_state (op : Sha2DigestOp) : Sha2DigestOp :=
  mkOp (sha_mode op) Pending (replicate SHA512_BLOCK_BYTE_SIZE 0) 0 (data_size op).

(** The body of the loop of [update]; [usize] is 32 bits wide. *)
Definition update_byte (op : Sha2DigestOp) (byte : Z) : M World Sha2DigestOp :=
  let op := mkOp (sha_mode op) (state op) (buf op) (buf_idx op) (u32w (data_size op + 1)) in
  fail_if (length (buf op) <=? buf_idx op)%nat DRIVER_SHA2_512_384_INDEX_OUT_OF_BOUNDS;;
  let op := mkOp (sha_mode op) (state op) (<[buf_idx op := byte]> (buf op)) (S (buf_idx op)) (data_size op) in
  if (buf_idx op =? length (buf op))%nat then
    digest_block (sha_mode op) (buf op) (is_first op) false (is_restore op);;
    mret (reset_buf_state op)
  else mret op.

Definition op_update (op : Sha2DigestOp) (data : list Z) : M World Sha2DigestOp :=
  fail_if (bool_decide (state op = Final)) DRIVER_SHA2_512_384_INVALID_STATE_ERR;;
  fail_if (SHA512_MAX_DATA_SIZE <? Z.of_nat (length data)) DRIVER_SHA2_512_384_MAX_DATA_ERR;;
  foldM update_byte op data.

(** [finalize] consumes the operation; the digest it writes is its result. *)
Definition op_finalize (op : Sha2DigestOp) : M World (list Z) :=
  fail_if (bool_decide (state op = Final)) DRIVER_SHA2_512_384_INVALID_STATE_ERR;;
  fail_if (length (buf op) <? buf_idx op)%nat DRIVER_SHA2_512_384_INVALID_SLICE;;
  digest_partial_block (sha_mode op) (take (buf_idx op) (buf op)) (is_first op) (Z.to_nat (data_size op))
    (is_restore op);;
  match sha_mode op with ShaMode384 => sha384_read_digest | ShaMode512 => sha512_read_digest end.

Definition op_resume (op : Sha2DigestOp) (previous_size : Z) (digest buffer : list Z) : M World Sha2DigestOp :=
  let op := mkOp (sha_mode op) (state op) (buf op) (buf_idx op) previous_size in
  op ← (if Z.of_nat SHA512_BLOCK_BYTE_SIZE <=? previous_size then
          wait_until (λ r, st_ready (status r));;
          modify (on_regs (set_hash_mem (bytes_le digest)));;
          mret (mkOp (sha_mode op) Restore (buf op) (buf_idx op) (data_size op))
        else mret op);
  op_update op buffer.

(** The saved buffer, on the caller's array of 128 bytes, and the size. *)
Definition op_save_buffer (op : Sha2DigestOp) (buffer : list Z) : res (list Z * Z) :=
  err_if (length buffer <=? buf_idx op)%nat DRIVER_SHA2_512_384_INDEX_OUT_OF_BOUNDS;;
  Ok (splice buffer 0 (take (buf_idx op) (buf op)), data_size op).

(** ** [DpeHasher] *)

(** The hasher that the runtime gives to the DICE protection environment;
    [active] is [Some] between [initialize] and [finish]. *)
Record DpeHasher := mkDpeHasher { dpe_op : Sha2DigestOp; dpe_active : bool }.

Definition dpe_hasher_new : M World DpeHasher :=
  op ← digest_init ShaMode384;
  mret (mkDpeHasher op false).

Definition dpe_hasher_initialize (h : DpeHasher) : DpeHasher :=
  mkDpeHasher (mkOp (sha_mode (dpe_op h)) Init (replicate SHA512_BLOCK_BYTE_SIZE 0) 0 0) true.

(** Errors are the codes in [CryptoError::HashError]. *)
Definition dpe_hasher_update (h : DpeHasher) (bytes : list Z) : M World DpeHasher :=
  fail_if (negb (dpe_active h)) DRIVER_SHA2_512_384_INVALID_STATE_ERR;;
  op ← op_update (dpe_op h) bytes;
  mret (mkDpeHasher op (dpe_active h)).

(** The operation is copied, not consumed. *)
Definition dpe_hasher_finish (h : DpeHasher) : M World (list Z * DpeHasher) :=
  fail_if (negb (dpe_active h)) 0;;
  digest ← op_finalize (dpe_op h);
  mret (bytes_be digest, mkDpeHasher (dpe_op h) false).

End Ops.
End Sha2.
