(* ===== verification/Sha512Proofs.v ===== *)
(** One operation of the SHA-384/512 engine and what the driver does with it:
    a block, and the last one or two blocks of a message. A PCR that was read
    into the block is hashed in place of the first 48 bytes, and the last block
    writes the digest back to it. *)

From S2P Require Import Prelude Bits Errors Memory HashPad KeyVault KeyVaultProofs Sha512.
Import Emu512 Sha2.

(** * Words of 64 bits *)

Lemma to_be_add n k z : to_be (n + k) z = to_be n (z / 256 ^ Z.of_nat k) ++ to_be k z.
Proof.
  revert z. induction k as [|k IH]; intros z.
  - rewrite Nat.add_0_r. cbn [to_be]. by rewrite Z.div_1_r, app_nil_r.
  - rewrite Nat.add_succ_r, !to_be_snoc, IH, <- app_assoc. f_equal.
    f_equal. rewrite Z.div_div by (try apply Z.pow_pos_nonneg; lia).
    by rewrite Nat2Z.inj_succ, Z.pow_succ_r by lia.
Qed.

Lemma to_be_swap x : is_u32 x → to_be 4 (swap_bytes_u32 x) = to_le 4 x.
Proof. intros _. apply to_be_from_be'; [apply to_le_bytes|apply length_to_le]. Qed.

Lemma swap_bytes_u32_bound x : is_u32 (swap_bytes_u32 x).
Proof.
  pose proof (from_be_bound (to_le 4 x) (to_le_bytes 4 x)) as Hb. rewrite length_to_le in Hb. exact Hb.
Qed.

Lemma halves_u32 x : in_u 64 x → is_u32 (Z.shiftr x 32) ∧ is_u32 (x mod 2 ^ 32).
Proof.
  unfold in_u. intros Hx. rewrite Z.shiftr_div_pow2 by lia. split; [|apply Z.mod_pos_bound; lia].
  split; [apply Z.div_pos; lia|apply Z.div_lt_upper_bound; lia].
Qed.

Lemma split64_words h : Forall (in_u 64) h → is_words (split64 h).
Proof.
  induction 1 as [|x h Hx Hh IH]; [constructor|]. destruct (halves_u32 x Hx).
  constructor; [done|]. by constructor.
Qed.

Lemma length_split64 h : length (split64 h) = (2 * length h)%nat.
Proof. induction h as [|x h IH]; [done|]. cbn [split64 flat_map app length]. fold (split64 h). lia. Qed.

(** The hash as the engine exposes it: little-endian halves. *)
Lemma copied_word x : in_u 64 x →
  to_be 8 (Z.lor (Z.shiftl (swap_bytes_u32 (Z.shiftr x 32)) 32) (swap_bytes_u32 (x mod 2 ^ 32))) =
  to_le 4 (Z.shiftr x 32) ++ to_le 4 (x mod 2 ^ 32).
Proof.
  intros Hx. destruct (halves_u32 x Hx) as [H1 H2].
  pose proof (swap_bytes_u32_bound (Z.shiftr x 32)) as B1. pose proof (swap_bytes_u32_bound (x mod 2 ^ 32)) as B2.
  set (a := swap_bytes_u32 (Z.shiftr x 32)) in *. set (b := swap_bytes_u32 (x mod 2 ^ 32)) in *.
  rewrite Z.lor_comm, lor_shiftl, Z.add_comm by (lia || apply B2).
  change 8%nat with (4 + 4)%nat. rewrite to_be_add. f_equal.
  - change (256 ^ Z.of_nat 4) with (2 ^ 32). rewrite Z.div_add_l by lia.
    rewrite Z.div_small, Z.add_0_r by apply B2. by apply to_be_swap.
  - rewrite <- (to_be_mod 4 _ 4) by lia. change (256 ^ Z.of_nat 4) with (2 ^ 32).
    rewrite Z.add_comm, Z.mod_add, Z.mod_small by (try lia; apply B2). by apply to_be_swap.
Qed.

Lemma copy_hash_eq c dest : Forall (in_u 64) (hash c) → length (hash c) = 8%nat → length dest = 64%nat →
  copy_hash c dest = bytes_le (split64 (hash c)).
Proof.
  intros Hw Hl Hd. unfold copy_hash, HASH_SIZE. rewrite Hd. change (64 `min` 64)%nat with 64%nat.
  assert (E : ∀ l, Forall (in_u 64) l →
    flat_map (to_be 8) (map (λ x, Z.lor (Z.shiftl (swap_bytes_u32 (Z.shiftr x 32)) 32) (swap_bytes_u32 (x mod 2 ^ 32))) l)
    = bytes_le (split64 l)).
  { induction 1 as [|x l Hx Hxs IH]; [done|]. cbn [map flat_map]. rewrite IH, copied_word by done.
    unfold bytes_le at 2. cbn [split64 flat_map app]. by rewrite <- app_assoc. }
  rewrite E by done. assert (L : length (bytes_le (split64 (hash c))) = 64%nat).
  { rewrite length_bytes_le, length_split64, Hl. done. }
  rewrite take_ge by lia. rewrite drop_ge, app_nil_r by lia. done.
Qed.

Lemma bytes_be_split64 h : Forall (in_u 64) h → bytes_be (split64 h) = flat_map (to_be 8) h.
Proof.
  induction 1 as [|x h Hx Hh IH]; [done|]. cbn [flat_map]. rewrite <- IH.
  change (bytes_be (split64 (x :: h))) with (to_be 4 (Z.shiftr x 32) ++ to_be 4 (x mod 2 ^ 32) ++ bytes_be (split64 h)).
  rewrite app_assoc. f_equal. rewrite (to_be_add 4 4 x : to_be 8 x = _), Z.shiftr_div_pow2 by lia.
  change (256 ^ Z.of_nat 4) with (2 ^ 32). f_equal.
  by rewrite <- (to_be_mod 4 x 4) by lia.
Qed.

Lemma set_hash_eq h c : Forall (in_u 64) h → length h = 8%nat →
  hash (set_hash (bytes_le (split64 h)) c) = h.
Proof.
  intros Hw Hl. cbn [set_hash hash]. rewrite change_endianess_bytes_le, bytes_be_split64 by done.
  do 8 (destruct h as [|? h]; [done|]). destruct h; [|done].
  change (HASH_SIZE / 8)%nat with 8%nat. repeat (apply Forall_cons in Hw as [? Hw]).
  assert (R : ∀ x, in_u 64 x → from_be (to_be 8 x) = x).
  { intros x Hx. rewrite from_be_to_be. by apply Z.mod_small. }
  cbn [flat_map map seq]. repeat (apply (f_equal2 cons); [|]); try done.
  all: etransitivity; [|apply R; eassumption]; reflexivity.
Qed.

(** * The engine *)

(** While no PCR and no key is being read or written, the engine is ready, or a
    block is in progress that ends no extension. [ext] is the PCR that the next
    last block extends, [present] whether it is in the block. *)
Record engine (w : World) (ext : option nat) (present : bool) : Prop := {
  e_block : length (block (regs w)) = 32%nat;
  e_hash : length (hash_mem (regs w)) = 64%nat;
  e_present : pcr_present (regs w) = present;
  e_ext : pcr_hash_extend (block_read_ctrl (regs w)) = (if ext is Some _ then 1 else 0);
  e_id : ∀ id, ext = Some id → read_key_id (block_read_ctrl (regs w)) = Z.of_nat id;
  e_write : key_write_en (hash_write_ctrl (regs w)) = false;
  e_read_ready : st_ready (block_read_status (regs w)) = true;
  e_pcr_ready : st_ready (pcr_hash_status (regs w)) = true;
  e_read : op_block_read_complete_action (regs w) = None;
  e_hash_write : op_hash_write_complete_action (regs w) = None;
  e_pcr_hash : op_pcr_gen_hash_complete_action (regs w) = None;
  e_core : length (hash (sha512 (regs w))) = 8%nat ∧ Forall (in_u 64) (hash (sha512 (regs w))) ∧
           partial_block (sha512 (regs w)) = [];
  e_digest : length (pcr_hash_digest (regs w)) = 16%nat;
  e_op : if st_ready (status (regs w)) then op_complete_action (regs w) = None
         else ctrl_last (control (regs w)) = false ∧ ∃ t, op_complete_action (regs w) = Some t ∧ now w < t
}.
Abbreviation quiet w := (engine w None false).

(** The engine is ready and holds the state [h]. *)
Definition holds (w : World) (h : list Z) : Prop :=
  st_ready (status (regs w)) = true ∧ st_valid (status (regs w)) = true ∧
  hash (sha512 (regs w)) = h ∧ hash_mem (regs w) = bytes_le (split64 h).

Abbreviation tail512 := (tail_of 128 16).

Section Engine.
Context `{Sha512CompressOk}.

(** Writing the words of the block. *)
Lemma set_block_twice a b r : set_block a (set_block b r) = set_block a r.
Proof. done. Qed.

Lemma write_block_words ws : ∀ k r,
  foldl (λ r '(i, v), write_block_word i v r) r (imap (λ i v, ((k + i)%nat, v)) ws) =
  set_block (imap (λ j x, if decide (k ≤ j < k + length ws ∧ (pcr_present r = false ∨ 12 ≤ j))%nat
                          then nth (j - k) ws x else x) (block r)) r.
Proof.
  induction ws as [|v ws IH]; intros k r.
  - cbn [imap foldl length]. transitivity (set_block (block r) r); [by destruct r|]. f_equal. symmetry.
    apply list_eq. intros j. rewrite list_lookup_imap. destruct (block r !! j) as [x|]; [|done]. cbn.
    by rewrite decide_False by lia.
  - cbn [imap foldl]. rewrite Nat.add_0_r.
    rewrite (imap_ext _ (λ i v, ((S k + i)%nat, v)) ws) by (intros i x _; cbn; f_equal; lia).
    rewrite IH. unfold write_block_word.
    assert (Hp : ∀ b, pcr_present (set_block b r) = pcr_present r) by done.
    destruct (negb (pcr_present r) || (12 <=? k)%nat) eqn:E.
    + rewrite Hp. change (block (set_block (<[k := v]> (block r)) r)) with (<[k := v]> (block r)).
      rewrite set_block_twice. f_equal. apply list_eq. intros j. rewrite !list_lookup_imap.
      destruct (decide (j = k)) as [->|Hne].
      * destruct (block r !! k) as [x|] eqn:Ek.
        -- rewrite list_lookup_insert_eq by (by eapply lookup_lt_Some). cbn.
           rewrite decide_False by lia. rewrite decide_True.
           ++ by rewrite Nat.sub_diag.
           ++ split; [lia|]. apply orb_true_iff in E as [E|E]; [left; by destruct (pcr_present r)|right; by apply Nat.leb_le].
        -- rewrite list_insert_ge by (by apply lookup_ge_None). by rewrite Ek.
      * rewrite list_lookup_insert_ne by done. destruct (block r !! j) as [x|]; [|done]. cbn.
        f_equal. repeat case_decide; try done.
        -- by replace (j - k)%nat with (S (j - S k)) by lia.
        -- exfalso. naive_solver lia.
        -- exfalso. naive_solver lia.
    + f_equal. apply list_eq. intros j. rewrite !list_lookup_imap. destruct (block r !! j) as [x|]; [|done]. cbn.
      apply orb_false_iff in E as [E1 E2]. apply Nat.leb_gt in E2.
      assert (pcr_present r = true) by (by destruct (pcr_present r)).
      f_equal. repeat case_decide; try done.
      * by replace (j - k)%nat with (S (j - S k)) by lia.
      * exfalso. naive_solver lia.
      * exfalso. destruct H3 as [? [?|?]]; [congruence|]. apply H2. split; [lia|by right].
Qed.

Lemma write_block_run ws w ext (present : bool) : engine w ext present → length ws = 32%nat →
  write_block ws w =
    (Ok tt, on_regs (set_block (if present then take 12 (block (regs w)) ++ drop 12 ws else ws)) w).
Proof.
  intros He Hl. unfold write_block, modify. f_equal. unfold on_regs. f_equal.
  pose proof (write_block_words ws 0 (regs w)) as E. change (imap (λ i v, ((0 + i)%nat, v)) ws) with (imap pair ws) in E.
  rewrite E. f_equal. rewrite (e_present _ _ _ He). pose proof (e_block _ _ _ He) as Hb.
  apply list_eq. intros j. rewrite list_lookup_imap.
  destruct (block (regs w) !! j) as [x|] eqn:Ex; cbn.
  - apply lookup_lt_Some in Ex as Hj. rewrite Hb in Hj. rewrite Nat.sub_0_r.
    destruct (nth_lookup_or_length ws j x) as [En|]; [|lia]. destruct present.
    + destruct (decide (j < 12)%nat).
      * rewrite decide_False by naive_solver lia. rewrite lookup_app_l by (rewrite length_take; lia).
        by rewrite lookup_take_lt.
      * rewrite decide_True by (split; [lia|right; lia]).
        rewrite lookup_app_r by (rewrite length_take; lia).
        rewrite length_take, lookup_drop, <- En. f_equal. lia.
    + rewrite decide_True by (split; [lia|by left]). done.
  - apply lookup_ge_None in Ex. symmetry. apply lookup_ge_None. destruct present; [|lia].
    rewrite length_app, length_take, length_drop. lia.
Qed.

(** ** One operation *)

(** The state of the core after a write to the control register. *)
Definition started (v : Z) (r : HashSha512Regs) : Sha512Core :=
  let c := if ctrl_restore v then set_hash (hash_mem r) (sha512 r) else sha512 r in
  update (bytes_le (block r)) (if ctrl_init v then reset (ctrl_mode v) c else c).

Lemma on_write_control_starts v w : ctrl_zeroize v = false → ctrl_init v || ctrl_next v = true →
  on_write_control v w =
    on_regs (λ r, set_op_complete_action (Some (now w + 1000)) (set_sha512 (started v r)
      (set_status (mkStatus false false (st_error (status r))) (set_pcr_present false (set_control v r))))) w.
Proof.
  intros Hz Hs. unfold on_write_control, started. rewrite Hz, Hs.
  destruct (ctrl_restore v), (ctrl_init v); done.
Qed.

Definition after_op (v : Z) (w : World) : World :=
  op_complete (mkWorld (set_op_complete_action None (regs (on_write_control v w))) (key_vault w) (now w + 1000)).

Lemma wait_ready (p : HashSha512Regs → bool) n w : p (regs w) = true → wait_loop n p w = (Ok tt, w).
Proof. intros E. destruct n; cbn [wait_loop]; rewrite bind_get, E; done. Qed.

(** A wait that polls once. *)
Lemma wait_once p n w t : p (regs w) = false → next_event w = Some t →
  wait_loop (S n) p w = ((poll;; wait_loop n p) : M World unit) (mkWorld (regs w) (key_vault w) t).
Proof. intros E N. cbn [wait_loop]. rewrite bind_get, E, N, bind_modify. done. Qed.

Lemma poll_op w t : op_complete_action (regs w) = Some t → t <= now w →
  poll w = (Ok tt, op_complete (on_regs (set_op_complete_action None) w)).
Proof.
  intros E Ht. unfold poll. rewrite bind_get, E. cbn [fired].
  assert ((t <=? now w) = true) as -> by (by apply Z.leb_le). by rewrite bind_modify.
Qed.

Lemma run_op v w : ctrl_zeroize v = false → ctrl_init v || ctrl_next v = true →
  op_block_read_complete_action (regs w) = None → op_hash_write_complete_action (regs w) = None →
  op_pcr_gen_hash_complete_action (regs w) = None →
  ((write_ctrl v;; wait_until (λ r, st_ready (status r))) : M World unit) w = (Ok tt, after_op v w).
Proof.
  intros Hz Hs H1 H2 H3. unfold write_ctrl. rewrite bind_modify. unfold after_op.
  rewrite on_write_control_starts by done. set (w1 := on_regs _ w).
  unfold wait_until. rewrite (wait_once _ _ _ (now w + 1000)); [|done|].
  - rewrite (bind_ok _ _ _ _ _ (poll_op (mkWorld (regs w1) (key_vault w1) (now w + 1000)) _ eq_refl (Z.le_refl _))).
    rewrite wait_ready; [done|].
    unfold op_complete. cbn [regs on_regs set_op_complete_action hash_write_ctrl set_hash_mem].
    repeat case_match; simplify_eq; done.
  - unfold next_event. cbn [w1 on_regs regs set_op_complete_action op_complete_action op_block_read_complete_action
      set_sha512 set_status set_pcr_present set_control op_hash_write_complete_action
      op_pcr_gen_hash_complete_action now].
    rewrite H1, H2, H3. cbn [later]. by assert ((now w <? now w + 1000) = true) as -> by (apply Z.ltb_lt; lia).
Qed.

(** Completing an operation, and the PCR it extends. *)
Lemma op_complete_eq w ext :
  key_write_en (hash_write_ctrl (regs w)) = false →
  pcr_hash_extend (block_read_ctrl (regs w)) = (if ext is Some _ then 1 else 0) →
  (∀ id, ext = Some id → read_key_id (block_read_ctrl (regs w)) = Z.of_nat id) →
  op_complete w =
    let r := set_hash_mem (copy_hash (sha512 (regs w)) (hash_mem (regs w))) (regs w) in
    let r' := set_status (mkStatus true true (st_error (status r))) r in
    match ext with
    | Some id =>
        if ctrl_last (control (regs w)) then
          mkWorld (set_block_read_ctrl (fset 6 1 0 (block_read_ctrl r)) r')
            (Vault.write_pcr id (take 48 (hash_mem r)) (key_vault w)) (now w)
        else on_regs (λ _, r') w
    | None => on_regs (λ _, r') w
    end.
Proof.
  intros Hk Hx Hid. unfold op_complete.
  change (hash_write_ctrl (set_hash_mem _ (regs w))) with (hash_write_ctrl (regs w)).
  change (control (set_hash_mem _ (regs w))) with (control (regs w)).
  change (block_read_ctrl (set_hash_mem _ (regs w))) with (block_read_ctrl (regs w)).
  rewrite Hk, Hx. destruct ext as [id|].
  - rewrite (Hid id eq_refl), Nat2Z.id. by destruct (ctrl_last (control (regs w))).
  - by rewrite andb_false_r.
Qed.

Lemma settle w ext present : engine w ext present →
  ∃ w', wait_until (λ r, st_ready (status r)) w = (Ok tt, w') ∧ engine w' ext present ∧
    st_ready (status (regs w')) = true ∧ key_vault w' = key_vault w ∧ block (regs w') = block (regs w) ∧
    sha512 (regs w') = sha512 (regs w) ∧ (st_ready (status (regs w)) = true → w' = w).
Proof.
  intros He. destruct (st_ready (status (regs w))) eqn:Er.
  - exists w. split; [by apply wait_ready|done].
  - pose proof (e_op _ _ _ He) as Ho. rewrite Er in Ho. destruct Ho as (Hl & t & Ht & Hnow).
    assert (N : next_event w = Some t).
    { unfold next_event. rewrite Ht, (e_read _ _ _ He), (e_hash_write _ _ _ He), (e_pcr_hash _ _ _ He). cbn [later].
      by assert ((now w <? t) = true) as -> by (by apply Z.ltb_lt). }
    unfold wait_until. rewrite (wait_once _ _ _ _ Er N).
    rewrite (bind_ok _ _ _ _ _ (poll_op (mkWorld (regs w) (key_vault w) t) t Ht (Z.le_refl _))).
    set (w1 := on_regs (set_op_complete_action None) _).
    assert (E1 : op_complete w1 = on_regs (λ r, set_status (mkStatus true true (st_error (status r)))
      (set_hash_mem (copy_hash (sha512 r) (hash_mem r)) r)) w1).
    { unfold op_complete. cbn [w1 on_regs regs set_op_complete_action set_hash_mem hash_write_ctrl control].
      rewrite (e_write _ _ _ He), Hl. done. }
    rewrite E1. eexists. split; [by apply wait_ready|]. split; [|done].
    destruct (e_core _ _ _ He) as (Hc1 & Hc2 & Hc3).
    destruct He. constructor; try done.
    change (length (copy_hash (sha512 (regs w)) (hash_mem (regs w))) = 64%nat). rewrite copy_hash_eq by done.
    by rewrite length_bytes_le, length_split64, Hc1.
Qed.

Definition emu_mode (m : ShaMode) : Sha512Mode := match m with ShaMode384 => Sha384 | ShaMode512 => Sha512 end.

Lemma ctrl_val_bits m (first last restore : bool) :
  let v := ctrl_val (reg_value m) first (negb first) false last restore in
  ctrl_zeroize v = false ∧ ctrl_init v = first ∧ ctrl_init v || ctrl_next v = true ∧ ctrl_last v = last ∧
  ctrl_restore v = restore ∧ ctrl_mode v = emu_mode m.
Proof. by destruct m, first, last, restore. Qed.

(** What the state before an operation must be for it to continue from [h]. *)
Definition starts (w : World) (m : ShaMode) (first restore : bool) (h : list Z) : Prop :=
  if first then h = hash_iv (emu_mode m)
  else if restore then
    st_ready (status (regs w)) = true ∧ hash_mem (regs w) = bytes_le (split64 h) ∧ length h = 8%nat ∧ Forall (in_u 64) h
  else hash (sha512 (regs w)) = h.

Lemma started_hash w m (first last restore : bool) h :
  starts w m first restore h → partial_block (sha512 (regs w)) = [] →
  let v := ctrl_val (reg_value m) first (negb first) false last restore in
  hash (started v (regs w)) = compress512 h (bytes_be (block (regs w))) ∧ partial_block (started v (regs w)) = [].
Proof.
  intros Hs Hp v. destruct (ctrl_val_bits m first last restore) as (_ & Bi & _ & _ & Br & Bm).
  fold v in Bi, Br, Bm. unfold started. rewrite Bi, Br, Bm. unfold starts in Hs. split; [|by destruct first, restore].
  cbn [update hash]. rewrite change_endianess_bytes_le. f_equal. destruct first; [by rewrite Hs|].
  destruct restore; [|done]. destruct Hs as (_ & -> & Hl & Hw). by apply set_hash_eq.
Qed.

(** The vault after a block that may end an extension. *)
Definition extended (ext : option nat) (last : bool) (h : list Z) (v : Vault.KeyVaultRegs) : Vault.KeyVaultRegs :=
  match ext with
  | Some id => if last then Vault.write_pcr id (bytes_le (take 12 (split64 h))) v else v
  | None => v
  end.

Lemma take_bytes_le n ws : take (4 * n) (bytes_le ws) = bytes_le (take n ws).
Proof.
  revert ws. induction n as [|n IH]; intros ws; [done|]. destruct ws as [|w ws]; [by rewrite !take_nil|].
  replace (4 * S n)%nat with (4 + 4 * n)%nat by lia. cbn [take].
  change (bytes_le (w :: ?l)) with (to_le 4 w ++ bytes_le l).
  rewrite take_app_add' by (by rewrite length_to_le). by rewrite IH.
Qed.

Lemma fset_extend_clear c id : read_key_id c = Z.of_nat id →
  pcr_hash_extend (fset 6 1 0 c) = 0.
Proof. intros _. unfold pcr_hash_extend. by rewrite fget_fset_same. Qed.

Lemma sha2_op_ok m (first last restore : bool) w ext present h :
  engine w ext present → starts w m first restore h →
  let h' := compress512 h (bytes_be (block (regs w))) in
  ∃ w', digest_op m first last restore w = (Ok tt, w') ∧ engine w' (if last then None else ext) false ∧
    holds w' h' ∧ key_vault w' = extended ext last h' (key_vault w).
Proof.
  intros He Hs h'. destruct (settle w ext present He) as (w1 & E1 & He1 & Hr1 & Hv1 & Hb1 & Hc1 & Hw1).
  assert (Hs1 : starts w1 m first restore h).
  { unfold starts in *. destruct first; [done|]. destruct restore; [|by rewrite Hc1]. by rewrite Hw1 by apply Hs. }
  set (v := ctrl_val (reg_value m) first (negb first) false last restore).
  destruct (ctrl_val_bits m first last restore) as (Bz & _ & Bs & Bl & _). fold v in Bz, Bs, Bl.
  destruct (e_core _ _ _ He1) as (_ & _ & Hp).
  destruct (started_hash w1 m first last restore h Hs1 Hp) as [Hh Hpb]. fold v in Hh, Hpb. rewrite Hb1 in Hh. fold h' in Hh.
  exists (after_op v w1). split.
  { unfold digest_op. rewrite (bind_ok _ _ _ _ _ E1). destruct He1. by apply run_op. }
  unfold after_op. rewrite on_write_control_starts by done. set (w2 := mkWorld _ _ _).
  assert (Hw8 : length h' = 8%nat) by apply compress512_length.
  assert (Hw64 : Forall (in_u 64) h') by apply compress512_words.
  destruct He1 as [Q1 Q2 Q3 Q4 Q5 Q6 Q7 Q8 Q9 Q10 Q11 Q12 Q13 Q14].
  assert (Hm : copy_hash (sha512 (regs w2)) (hash_mem (regs w2)) = bytes_le (split64 h')).
  { change (sha512 (regs w2)) with (started v (regs w1)). rewrite copy_hash_eq, Hh; try done; by rewrite Hh. }
  rewrite (op_complete_eq w2 ext Q6 Q4 Q5), Hm. change (control (regs w2)) with v. rewrite Bl. cbv zeta.
  change (hash_mem (set_hash_mem ?x _)) with x. change (take 48 ?l) with (take (4 * 12) l). rewrite take_bytes_le.
  assert (L : length (bytes_le (split64 h')) = 64%nat) by (by rewrite length_bytes_le, length_split64, Hw8).
  assert (C : length (hash (started v (regs w1))) = 8%nat ∧ Forall (in_u 64) (hash (started v (regs w1))) ∧
    partial_block (started v (regs w1)) = []) by (by rewrite Hh).
  rewrite <-Hv1. destruct ext as [id|]; [destruct last|].
  - split; [constructor; try done; cbn; by rewrite ?(fset_extend_clear _ id) by (by apply Q5)|]. by split_and!.
  - split; [by constructor|]. by split_and!.
  - destruct last; (split; [by constructor|]); by split_and!.
Qed.

(** ** Blocks *)

Lemma drop_bytes_be n ws : drop (4 * n) (bytes_be ws) = bytes_be (drop n ws).
Proof.
  revert ws. induction n as [|n IH]; intros ws; [done|]. destruct ws as [|w ws]; [by rewrite !drop_nil|].
  replace (4 * S n)%nat with (4 + 4 * n)%nat by lia. cbn [drop].
  change (bytes_be (w :: ws)) with (to_be 4 w ++ bytes_be ws).
  rewrite drop_app_add' by (by rewrite length_to_be). by rewrite IH.
Qed.

(** The bytes that are hashed when [blk] is written: a PCR that is present
    replaces the first 48. *)
Definition effective (present : bool) (w : World) (blk : list Z) : list Z :=
  if present then bytes_be (take 12 (block (regs w))) ++ drop 48 blk else blk.

Lemma effective_app (present : bool) w sl rest : (if present then 48 ≤ length sl else True)%nat →
  effective present w (sl ++ rest) = effective present w sl ++ rest.
Proof.
  intros Hl. destruct present; [|done]. cbn [effective]. rewrite drop_app_le by lia. by rewrite app_assoc.
Qed.

Lemma length_effective (present : bool) w sl : (length (block (regs w)) = 32)%nat →
  (if present then 48 ≤ length sl else True)%nat → length (effective present w sl) = length sl.
Proof.
  intros Hb Hl. destruct present; [|done]. cbn [effective].
  rewrite length_app, length_bytes_be, length_take, length_drop, Hb. lia.
Qed.

Lemma sha2_block_ok m blk (first last restore : bool) w ext present h :
  engine w ext present → length blk = 128%nat → is_bytes blk → starts w m first restore h →
  let h' := compress512 h (effective present w blk) in
  ∃ w', digest_block m blk first last restore w = (Ok tt, w') ∧ engine w' (if last then None else ext) false ∧
    holds w' h' ∧ key_vault w' = extended ext last h' (key_vault w).
Proof.
  intros He Hl Hb Hs h'. pose proof (e_block _ _ _ He) as Hbl.
  assert (Hwl : length (words_be blk) = 32%nat) by (by rewrite length_words_be, Hl).
  unfold digest_block. rewrite (bind_ok _ _ _ _ _ (write_block_run _ w ext present He Hwl)).
  set (b := if present then _ else _). set (w1 := on_regs (set_block b) w).
  assert (Hb1 : length b = 32%nat).
  { unfold b. destruct present; [|done]. rewrite length_app, length_take, length_drop. lia. }
  assert (He1 : engine w1 ext present) by (destruct He; by constructor).
  destruct (sha2_op_ok m first last restore w1 ext present h He1 Hs) as (w' & E & P).
  exists w'. split; [exact E|]. change (block (regs w1)) with b in P.
  assert (Eb : bytes_be b = effective present w blk).
  { assert (bytes_be (words_be blk) = blk) as Ew by (apply bytes_be_words_be; [done|rewrite Hl; by exists 32]).
    unfold b, effective. destruct present; [|done]. rewrite bytes_be_app. f_equal.
    by rewrite <- drop_bytes_be, Ew. }
  by rewrite Eb in P.
Qed.

Lemma effective_bytes (present : bool) w sl : is_bytes sl → is_bytes (effective present w sl).
Proof. intros Hs. destruct present; [|done]. apply Forall_app. split; [apply bytes_be_bytes|by apply Forall_drop]. Qed.

Lemma tail_of_effective (present : bool) w sl n : (length (block (regs w)) = 32)%nat →
  (if present then 48 ≤ length sl else True)%nat →
  tail512 (effective present w sl) n = effective present w (tail512 sl n).
Proof. intros Hb Hl. unfold tail_of. by rewrite effective_app, length_effective. Qed.

Lemma sha2_partial_block_ok m sl (first restore : bool) n w ext (present : bool) h :
  engine w ext present → (length sl < 128)%nat → is_bytes sl → (if present then 48 ≤ length sl else True)%nat →
  starts w m first restore h →
  let h' := sha512_blocks h (tail512 (effective present w sl) n) in
  ∃ w', digest_partial_block m sl first n restore w = (Ok tt, w') ∧ quiet w' ∧ holds w' h' ∧
    key_vault w' = extended ext true h' (key_vault w).
Proof.
  intros He Hl Hb Hp Hs h'. pose proof (e_block _ _ _ He) as Hbl.
  pose proof (tail_bytes 128 16 sl n Hb) as Hpb. pose proof (length_tail 128 16 sl n Hl) as Hpl.
  subst h'. rewrite tail_of_effective by done.
  unfold digest_partial_block, SHA512_BLOCK_BYTE_SIZE, SHA512_BLOCK_LEN_OFFSET.
  rewrite bind_fail_if by (apply Nat.ltb_ge; lia). change (<[_ := 0x80]> _) with (marked 128 sl).
  change (128 - 16)%nat with 112%nat in Hpl.
  destruct (Nat.ltb_spec (length sl) 112).
  - change (set_block_len ?k ?b) with (with_len 128 16 k b). rewrite (short_tail 128 16) by (simpl; lia).
    destruct (sha2_block_ok m (tail512 sl n) first true restore w ext present h) as (w1 & E1 & Q & R & V); [done..|].
    exists w1. rewrite (bind_ok _ _ _ _ _ E1). rewrite (proj2 (Nat.leb_gt 112 _)) by lia. split; [done|].
    unfold sha512_blocks. fold (blocks_of 128 compress512 h (effective present w (tail512 sl n))).
    assert (L1 : length (effective present w (tail512 sl n)) = 128%nat).
    { etransitivity; [apply length_effective; [done|]|exact Hpl]. destruct present; [rewrite Hpl; lia|done]. }
    rewrite (blocks_of_one 128 16) by done. by destruct ext.
  - pose proof (long_tail 128 16 sl n ltac:(simpl; lia)) as E. set (b1 := marked 128 sl) in *.
    change (set_block_len n _) with (with_len 128 16 n (replicate 128 0)). set (b2 := with_len 128 16 n _) in *.
    rewrite E in *. apply Forall_app in Hpb as [Hb1 Hb2].
    assert (L1 : length b1 = 128%nat) by (by apply (length_marked 128 16)).
    rewrite length_app in Hpl. assert (L2 : length b2 = 128%nat) by lia.
    destruct (sha2_block_ok m b1 first false restore w ext present h) as (w1 & E1 & Q1 & R1 & V1); [done..|].
    rewrite (bind_ok _ _ _ _ _ E1). rewrite (proj2 (Nat.leb_le 112 _)) by lia.
    destruct (sha2_block_ok m b2 false true false w1 ext false (compress512 h (effective present w b1)))
      as (w2 & E2 & Q2 & R2 & V2); [done..|by apply R1|].
    exists w2. split; [done|]. rewrite effective_app by (destruct present; [lia|done]).
    unfold sha512_blocks. fold (blocks_of 128 compress512 h (effective present w b1 ++ b2)).
    assert (L1' : length (effective present w b1) = 128%nat).
    { etransitivity; [apply length_effective; [done|]|exact L1]. destruct present; [lia|done]. }
    rewrite (blocks_of_two 128 16) by done.
    split; [by destruct ext|]. split; [done|]. rewrite V2, V1. by destruct ext.
Qed.

End Engine.
