(* ===== verification/Sha512Digest.v ===== *)
(** The SHA-384/512 driver computes the reference hash: in one call, in several
    steps, and from a state that was saved. *)

From S2P Require Import Prelude Bits Errors Memory HashPad KeyVault Sha512 Sha512Proofs.
Import Emu512 Sha2.

Section Digest.
Context `{Sha512CompressOk}.

Definition iv (m : ShaMode) : list Z := hash_iv (emu_mode m).
Definition digest_words (m : ShaMode) : nat := match m with ShaMode384 => 12 | ShaMode512 => 16 end.

(** The reference, by mode. *)
Definition sha_state (m : ShaMode) (msg : list Z) : list Z := sha512_blocks (iv m) (sha512_pad msg).
Definition sha_ref (m : ShaMode) (msg : list Z) : list Z := take (digest_words m) (split64 (sha_state m msg)).

Lemma iv_words m : Forall (in_u 64) (iv m) ∧ length (iv m) = 8%nat.
Proof.
  destruct m; (split; [|done]); unfold iv; cbn [emu_mode hash_iv]; unfold HASH_IV_384, HASH_IV_512;
    repeat (constructor; [unfold in_u; lia|]); constructor.
Qed.

(** States that compression reaches. *)
Definition hash_state (h : list Z) : Prop := Forall (in_u 64) h ∧ length h = 8%nat.

Lemma foldl_state m l : hash_state (foldl compress512 (iv m) l).
Proof.
  apply foldl_compress_ind; [|apply iv_words]. intros. split; [apply compress512_words|apply compress512_length].
Qed.

Lemma blocks_state h l : hash_state h → hash_state (sha512_blocks h l).
Proof. apply foldl_compress_ind. intros. split; [apply compress512_words|apply compress512_length]. Qed.

Lemma sha_state_ok m msg : hash_state (sha_state m msg).
Proof. apply blocks_state, iv_words. Qed.

Lemma length_sha_ref m msg : length (sha_ref m msg) = digest_words m.
Proof.
  unfold sha_ref. rewrite length_take, length_split64, (proj2 (sha_state_ok m msg)). by destruct m.
Qed.

Lemma sha_ref_words m msg : is_words (sha_ref m msg).
Proof. apply Forall_take, split64_words, sha_state_ok. Qed.

Lemma sha384_ref_eq msg : sha384_ref msg = sha_ref ShaMode384 msg.
Proof. done. Qed.

Lemma sha512_ref_eq msg : sha512_ref msg = sha_ref ShaMode512 msg.
Proof.
  unfold sha_ref. rewrite take_ge; [done|]. rewrite length_split64, (proj2 (sha_state_ok _ msg)). done.
Qed.

Lemma sha_state_split m msg n : n = (length msg / 128)%nat →
  sha_state m msg =
    sha512_blocks (foldl compress512 (iv m) (chunks 128 n msg)) (tail512 (drop (128 * n) msg) (length msg)).
Proof. by apply (blocks_of_split 128 16). Qed.

(** ** Reading the digest *)

Lemma read_digest_ok w h n : holds w h → hash_state h →
  ((wait_until (λ r, st_valid (status r));; read_digest_reg n) : M World (list Z)) w = (Ok (take n (split64 h)), w).
Proof.
  intros (_ & Hv & _ & Hm) [Hw _].
  rewrite (bind_ok _ _ _ tt w) by (by apply wait_ready). unfold read_digest_reg, get.
  by rewrite Hm, words_le_bytes_le by (by apply split64_words).
Qed.

Definition zeroized (w : World) : Prop :=
  block (regs w) = replicate 32 0 ∧ hash_mem (regs w) = replicate 64 0.

Lemma zeroize_internal_ok w : quiet w → st_ready (status (regs w)) = true →
  ∃ w', zeroize_internal w = (Ok tt, w') ∧ quiet w' ∧ st_ready (status (regs w')) = true ∧
    zeroized w' ∧ key_vault w' = key_vault w.
Proof.
  intros He Hr. eexists. split; [reflexivity|]. split; [|done].
  pose proof (e_op _ _ _ He) as Ho. rewrite Hr in Ho. destruct He. constructor; try done.
  change (if st_ready (status (regs w)) then op_complete_action (regs w) = None
    else false = false ∧ ∃ t, op_complete_action (regs w) = Some t ∧ now w < t). by rewrite Hr.
Qed.

(** ** The one-shot digest *)

Lemma holds_starts w m h : holds w h → starts w m false false h.
Proof. by intros (_ & _ & ? & _). Qed.

Lemma sha2_loop_ok m (msg : list Z) : is_bytes msg →
  ∀ n k (first : bool) w h rem,
  length msg = (128 * k + rem)%nat → n = (rem / 128)%nat → quiet w → starts w m first false h →
  ∃ w', digest_loop (S n) m msg first rem w = (Ok tt, w') ∧ quiet w' ∧ key_vault w' = key_vault w ∧
    holds w' (sha512_blocks (foldl compress512 h (chunks 128 n (drop (128 * k) msg)))
                            (tail512 (drop (128 * (k + n)) msg) (length msg))).
Proof.
  intros Hb n. induction n as [|n IH]; intros k first w h rem Hl Hn He Hs;
    pose proof (Nat.div_mod_eq rem 128) as Hd; rewrite <- Hn in Hd;
    pose proof (Nat.mod_upper_bound rem 128 ltac:(lia)) as Hu;
    cbn [digest_loop]; replace (length msg - rem)%nat with (128 * k)%nat by lia;
    unfold SHA512_BLOCK_BYTE_SIZE, get_slice.
  - destruct (Nat.ltb_spec rem 128) as [_|]; [|lia].
    rewrite decide_True by lia. rewrite Nat.add_0_r, take_ge by (rewrite length_drop; lia).
    destruct (sha2_partial_block_ok m (drop (128 * k) msg) first false (length msg) w None false h)
      as (w' & E & Q & R & V); [done|rewrite length_drop; lia|by apply Forall_drop|done..|].
    by exists w'.
  - destruct (Nat.ltb_spec rem 128) as [|_]; [lia|]. rewrite decide_True by lia.
    destruct (sha2_block_ok m (take 128 (drop (128 * k) msg)) first false false w None false h)
      as (w1 & E1 & Q1 & R1 & V1);
      [done|rewrite length_take, length_drop; lia|auto using Forall_take, Forall_drop|done|].
    rewrite (bind_ok _ _ _ _ _ E1).
    destruct (IH (S k) false w1 (compress512 h (take 128 (drop (128 * k) msg))) (rem - 128)%nat)
      as (w2 & E2 & Q2 & V2 & R2); [lia| |done|by apply holds_starts|].
    + apply Nat.div_unique with (rem mod 128)%nat; lia.
    + exists w2. split; [exact E2|]. split; [done|]. split; [by rewrite V2|].
      replace (128 * (k + S n))%nat with (128 * (S k + n))%nat by lia.
      cbn [chunks foldl]. rewrite drop_drop.
      by replace (128 * k + 128)%nat with (128 * S k)%nat by lia.
Qed.

Lemma sha_digest_helper_ok m msg w : quiet w → is_bytes msg → Z.of_nat (length msg) ≤ SHA512_MAX_DATA_SIZE →
  ∃ w', sha_digest_helper msg m w = (Ok tt, w') ∧ quiet w' ∧ key_vault w' = key_vault w ∧ holds w' (sha_state m msg).
Proof.
  intros He Hb Hl. unfold sha_digest_helper. rewrite bind_fail_if by lia.
  destruct (sha2_loop_ok m msg Hb (length msg / 128) 0 true w (iv m) (length msg))
    as (w1 & E1 & Q1 & V1 & R1); [lia|done..|].
  exists w1. rewrite Nat.mul_0_r, drop_0, Nat.add_0_l, <- (sha_state_split m msg _ eq_refl) in R1. done.
Qed.

Definition one_shot (m : ShaMode) (msg : list Z) : M World (list Z) :=
  match m with ShaMode384 => sha384_digest msg | ShaMode512 => sha512_digest msg end.

Lemma one_shot_ok m msg w : quiet w → is_bytes msg → Z.of_nat (length msg) ≤ SHA512_MAX_DATA_SIZE →
  ∃ w', one_shot m msg w = (Ok (sha_ref m msg), w') ∧ quiet w' ∧ zeroized w' ∧ key_vault w' = key_vault w.
Proof.
  intros He Hb Hl. destruct (sha_digest_helper_ok m msg w He Hb Hl) as (w1 & E1 & Q1 & V1 & R1).
  destruct (zeroize_internal_ok w1 Q1 (proj1 R1)) as (w2 & E2 & Q2 & _ & Z2 & V2).
  exists w2. split; [|by rewrite V2].
  destruct m; cbn [one_shot]; unfold sha384_digest, sha512_digest; rewrite (bind_ok _ _ _ _ _ E1);
    unfold sha384_read_digest, sha512_read_digest;
    rewrite (bind_ok _ _ _ _ _ (read_digest_ok _ _ _ R1 (sha_state_ok _ msg)));
    by rewrite (bind_ok _ _ _ _ _ E2).
Qed.

(** ** The multi-step operation *)

(** [absorbed op w d]: the operation [op] on the engine has consumed [d]; the
    state after its full blocks is the one the next block starts from. *)
Definition absorbed (op : Sha2DigestOp) (w : World) (d : list Z) : Prop :=
  ∃ n full sl,
    d = full ++ sl ∧ is_bytes d ∧ Z.of_nat (length d) < 2 ^ 32 ∧
    length full = (128 * n)%nat ∧ (length sl < 128)%nat ∧ state op ≠ Final ∧
    length (buf op) = 128%nat ∧ buf_idx op = length sl ∧ take (length sl) (buf op) = sl ∧
    data_size op = Z.of_nat (length d) ∧ quiet w ∧
    starts w (sha_mode op) (is_first op) (is_restore op)
      (foldl compress512 (iv (sha_mode op)) (chunks 128 n full)) ∧
    (state op = Pending → holds w (foldl compress512 (iv (sha_mode op)) (chunks 128 n full))) ∧
    (state op = Init → n = 0%nat).

Lemma digest_init_absorbed m w : quiet w →
  ∃ op, digest_init m w = (Ok op, w) ∧ sha_mode op = m ∧ state op = Init ∧ absorbed op w [].
Proof.
  intros He. eexists. split; [reflexivity|]. split; [done|]. split; [done|]. exists 0%nat, [], [].
  split_and!; try done; try constructor; simpl; lia.
Qed.

Lemma update_byte_absorbed op w d b :
  absorbed op w d → is_u8 b → Z.of_nat (length d) + 1 < 2 ^ 32 →
  ∃ op' w', update_byte op b w = (Ok op', w') ∧ absorbed op' w' (d ++ [b]) ∧
    sha_mode op' = sha_mode op ∧ key_vault w' = key_vault w ∧ (state op' = state op ∨ state op' = Pending).
Proof.
  intros (n & full & sl & -> & Hb & Hm & Hf & Hsl & Hst & Hbl & Hbi & Htk & Hds & He & Hh & Hpd & Hin) Hu8 Hlt.
  assert (Hb' : is_bytes ((full ++ sl) ++ [b])) by (apply Forall_app; auto).
  assert (Hsz : u32w (data_size op + 1) = Z.of_nat (length ((full ++ sl) ++ [b]))).
  { rewrite Hds. rewrite wrap_small by (rewrite length_app in *; ulia). rewrite !length_app. simpl. lia. }
  unfold update_byte. cbn [sha_mode buf buf_idx state data_size]. rewrite Hsz.
  rewrite bind_fail_if by (apply Nat.leb_gt; lia). rewrite length_insert, Hbl.
  assert (Hins : take (S (length sl)) (<[buf_idx op := b]> (buf op)) = sl ++ [b]).
  { erewrite take_S_r by (rewrite Hbi; apply list_lookup_insert_eq; lia).
    rewrite take_insert_ge, Htk by lia. done. }
  destruct (Nat.eqb_spec (S (buf_idx op)) 128) as [E128|N128].
  - assert (Hfull : <[buf_idx op := b]> (buf op) = sl ++ [b]).
    { rewrite <- Hins. symmetry. apply take_ge. rewrite length_insert. lia. }
    rewrite Hfull. change (is_first (mkOp _ (state op) _ _ _)) with (is_first op).
    change (is_restore (mkOp _ (state op) _ _ _)) with (is_restore op).
    assert (Hl1 : length (sl ++ [b]) = 128%nat) by (rewrite length_app; simpl; lia).
    destruct (sha2_block_ok (sha_mode op) (sl ++ [b]) (is_first op) false (is_restore op) w None false
      (foldl compress512 (iv (sha_mode op)) (chunks 128 n full))) as (w1 & E1 & Q1 & R1 & V1); [done..| |done|].
    { rewrite <- app_assoc in Hb'. by apply Forall_app in Hb' as [_ ?]. }
    rewrite (bind_ok _ _ _ _ _ E1). eexists _, w1. split; [reflexivity|]. split; [|by auto].
    exists (S n), (full ++ sl ++ [b]), []. unfold reset_buf_state. cbn [state buf buf_idx data_size sha_mode].
    rewrite chunks_snoc, foldl_app, app_nil_r, <- !app_assoc in * by done.
    split_and!; try done; rewrite ?length_app in *; simpl in *; try lia. apply R1.
  - eexists _, w. split; [reflexivity|]. split; [|by auto].
    exists n, full, (sl ++ [b]). cbn [state buf buf_idx data_size sha_mode].
    rewrite length_insert, <- !app_assoc in *.
    assert (length (sl ++ [b]) = S (length sl)) as Esl by (rewrite length_app; simpl; lia).
    rewrite Esl. split_and!; try done; rewrite ?length_app in *; simpl in *; lia.
Qed.

Lemma op_update_absorbed op w d x :
  absorbed op w d → is_bytes x → Z.of_nat (length x) ≤ SHA512_MAX_DATA_SIZE →
  Z.of_nat (length d) + Z.of_nat (length x) < 2 ^ 32 →
  ∃ op' w', op_update op x w = (Ok op', w') ∧ absorbed op' w' (d ++ x) ∧
    sha_mode op' = sha_mode op ∧ key_vault w' = key_vault w ∧ (state op' = state op ∨ state op' = Pending).
Proof.
  intros Ha Hx Hm Hlt. assert (Hnf : state op ≠ Final) by (by destruct Ha as (? & ? & ? & Ha); apply Ha).
  unfold op_update. rewrite bind_fail_if by (by rewrite bool_decide_false). rewrite bind_fail_if by lia.
  destruct (foldM_ok update_byte (λ don o w', absorbed o w' (d ++ don) ∧ sha_mode o = sha_mode op ∧
    key_vault w' = key_vault w ∧ (state o = state op ∨ state o = Pending)) x) with (b := op) (s := w) as (op' & w' & E & P).
  - intros don a o w' [rest ->] (Ho & Hmo & Hvo & Hso). apply Forall_app in Hx as [_ Hx]. inversion Hx; subst.
    rewrite app_assoc. destruct (update_byte_absorbed o w' (d ++ don) a) as (o2 & w2 & E2 & A2 & M2 & V2 & S2); [done..| |].
    { rewrite !length_app in *. simpl in *. lia. }
    exists o2, w2. split; [done|]. split; [done|]. split; [congruence|]. split; [congruence|].
    destruct S2 as [-> | ->]; auto.
  - rewrite app_nil_r. by auto.
  - eauto.
Qed.

Lemma op_finalize_absorbed op w d : absorbed op w d →
  ∃ w', op_finalize op w = (Ok (sha_ref (sha_mode op) d), w') ∧ quiet w' ∧ st_ready (status (regs w')) = true ∧
    key_vault w' = key_vault w.
Proof.
  intros (n & full & sl & -> & Hb & Hm & Hf & Hsl & Hst & Hbl & Hbi & Htk & Hds & He & Hh & Hpd & Hin).
  unfold op_finalize. rewrite bind_fail_if by (by rewrite bool_decide_false).
  rewrite bind_fail_if by (apply Nat.ltb_ge; lia). rewrite Hbi, Htk, Hds, Nat2Z.id.
  destruct (sha2_partial_block_ok (sha_mode op) sl (is_first op) (is_restore op) (length (full ++ sl)) w None false
    (foldl compress512 (iv (sha_mode op)) (chunks 128 n full))) as (w1 & E1 & Q1 & R1 & V1);
    [done|done|by apply Forall_app in Hb as [_ ?]|done..|].
  rewrite (bind_ok _ _ _ _ _ E1). exists w1. split; [|split; [done|split; [apply R1|done]]].
  assert (Hn : n = (length (full ++ sl) / 128)%nat).
  { rewrite length_app, Hf. apply Nat.div_unique with (length sl); lia. }
  assert (Es : sha_state (sha_mode op) (full ++ sl) = sha512_blocks
    (foldl compress512 (iv (sha_mode op)) (chunks 128 n full)) (tail512 (effective false w sl) (length (full ++ sl)))).
  { rewrite (sha_state_split _ _ _ Hn), chunks_app_r, drop_app_ge by lia. by rewrite <- Hf, Nat.sub_diag, drop_0. }
  rewrite <- Es in R1. unfold sha_ref.
  destruct (sha_mode op); cbn [digest_words]; apply read_digest_ok; try done; apply sha_state_ok.
Qed.

(** Saving an operation that was not resumed: the bytes of the last block that is
    not full, the size, and the digest after the full blocks. *)
Lemma op_save_absorbed op w d : absorbed op w d → state op ≠ Restore →
  op_save_buffer op (replicate 128 0) =
    Ok (splice (replicate 128 0) 0 (drop (128 * (length d / 128)) d), Z.of_nat (length d)) ∧
  ((128 ≤ length d)%nat → sha512_read_digest w =
     (Ok (split64 (foldl compress512 (iv (sha_mode op)) (chunks 128 (length d / 128) d))), w)).
Proof.
  intros (n & full & sl & -> & Hb & Hm & Hf & Hsl & Hst & Hbl & Hbi & Htk & Hds & He & Hh & Hpd & Hin) Hr.
  assert (Hn : (length (full ++ sl) / 128)%nat = n).
  { rewrite length_app, Hf. symmetry. apply Nat.div_unique with (length sl); lia. }
  rewrite Hn, drop_app_ge, chunks_app_r by lia. rewrite <- Hf, Nat.sub_diag, drop_0. split.
  - unfold op_save_buffer. rewrite length_replicate, Hbi, Htk, Hds.
    by rewrite (proj2 (Nat.leb_gt 128 (length sl))).
  - intros Hl. rewrite length_app in Hl. unfold sha512_read_digest. destruct (state op) eqn:Es; try done.
    + specialize (Hin eq_refl). lia.
    + rewrite (read_digest_ok _ _ 16 (Hpd eq_refl)) by apply foldl_state.
      rewrite take_ge; [done|]. by rewrite length_split64, (proj2 (foldl_state _ _)).
Qed.

(** A saved state: the digest after the full blocks [full] of a message. *)
Lemma op_resume_absorbed m w n full digest rest :
  quiet w → is_bytes (full ++ rest) → length full = (128 * n)%nat →
  ((0 < n)%nat → digest = split64 (foldl compress512 (iv m) (chunks 128 n full))) →
  Z.of_nat (length rest) ≤ SHA512_MAX_DATA_SIZE → Z.of_nat (length (full ++ rest)) < 2 ^ 32 →
  ∃ op op' w', digest_init m w = (Ok op, w) ∧
    op_resume op (Z.of_nat (length full)) digest rest w = (Ok op', w') ∧
    absorbed op' w' (full ++ rest) ∧ sha_mode op' = m ∧ key_vault w' = key_vault w.
Proof.
  intros He Hb Hf Hd Hr Hlt. apply Forall_app in Hb as [Hbf Hbr]. rewrite length_app in Hlt.
  exists (mkOp m Init (replicate 128 0) 0 0). assert (G : ∀ op w1, sha_mode op = m → key_vault w1 = key_vault w → absorbed op w1 full →
    ∃ op' w', op_update op rest w1 = (Ok op', w') ∧ absorbed op' w' (full ++ rest) ∧ sha_mode op' = m ∧
      key_vault w' = key_vault w).
  { intros op w1 Hm Hv Ha. destruct (op_update_absorbed op w1 full rest) as (op' & w' & E & A & M & V & _); [done..|lia|].
    exists op', w'. split_and!; congruence. }
  unfold op_resume. change (Z.of_nat SHA512_BLOCK_BYTE_SIZE) with 128. cbn [sha_mode state buf buf_idx data_size].
  destruct n as [|n].
  - assert (full = []) as -> by (by apply nil_length_inv). change (128 <=? Z.of_nat (length (@nil Z))) with false.
    destruct (G (mkOp m Init (replicate 128 0) 0 0) w) as (op' & w' & E & P); [done..| |].
    { destruct (digest_init_absorbed m w He) as (op & E & _ & _ & A). inversion E; subst op. exact A. }
    exists op', w'. split; [reflexivity|]. by rewrite bind_mret.
  - rewrite (proj2 (Z.leb_le 128 _)) by lia.
    destruct (settle w None false He) as (w1 & E1 & Q1 & Hr1 & V1 & _).
    set (w2 := on_regs (set_hash_mem (bytes_le digest)) w1).
    destruct (foldl_state m (chunks 128 (S n) full)) as [Sw Sl]. specialize (Hd ltac:(lia)).
    destruct (G (mkOp m Restore (replicate 128 0) 0 (Z.of_nat (length full))) w2) as (op' & w' & E & P); [done..| |].
    { exists (S n), full, []. rewrite app_nil_r. split_and!; try done; try (simpl; lia).
      - destruct Q1. constructor; try done.
        change (length (bytes_le digest) = 64%nat). by rewrite Hd, length_bytes_le, length_split64, Sl.
      - exact (conj Hr1 (conj (f_equal bytes_le Hd) (conj Sl Sw))). }
    exists op', w'. split; [reflexivity|]. split; [|done].
    rewrite (bind_ok _ _ _ (mkOp m Restore (replicate 128 0) 0 (Z.of_nat (length full))) w2); [done|].
    rewrite (bind_ok _ _ _ _ _ E1). by rewrite bind_modify.
Qed.

End Digest.
