(* ===== verification/Sha512Fips.v ===== *)
(** A concrete instance of the compression function of SHA-384 and SHA-512, that
    of FIPS 180-4, section 6.4.2, on which the examples are evaluated. *)

From S2P Require Import Prelude Sha256Fips Sha512.

(** The round constants of section 4.2.3: the first 64 bits of the fractional
    parts of the cube roots of the first 80 primes. *)
Definition K512 : list Z :=
  Eval vm_compute in map (λ p, u64w (cbrt 72 0 (p * 2 ^ 192))) (filter is_prime (seqZ 2 408)).

Definition rotr64 (x n : Z) : Z := u64w (Z.lor (Z.shiftr x n) (Z.shiftl x (64 - n))).
Definition not64 (x : Z) : Z := Z.lxor x 0xffffffffffffffff.

Definition schedule512 (w : list Z) : Z :=
  let at_ i := nth i w 0 in
  let s0 := Z.lxor (rotr64 (at_ 1%nat) 1) (Z.lxor (rotr64 (at_ 1%nat) 8) (Z.shiftr (at_ 1%nat) 7)) in
  let s1 := Z.lxor (rotr64 (at_ 14%nat) 19) (Z.lxor (rotr64 (at_ 14%nat) 61) (Z.shiftr (at_ 14%nat) 6)) in
  u64w (at_ 0%nat + s0 + at_ 9%nat + s1).

Definition round512 (st : list Z) (k w : Z) : list Z :=
  match st with
  | [a; b; c; d; e; f; g; h] =>
      let ch := Z.lxor (Z.land e f) (Z.land (not64 e) g) in
      let maj := Z.lxor (Z.land a b) (Z.lxor (Z.land a c) (Z.land b c)) in
      let t1 := h + Z.lxor (rotr64 e 14) (Z.lxor (rotr64 e 18) (rotr64 e 41)) + ch + k + w in
      let t2 := Z.lxor (rotr64 a 28) (Z.lxor (rotr64 a 34) (rotr64 a 39)) + maj in
      [u64w (t1 + t2); a; b; c; u64w (d + t1); e; f; g]
  | _ => st
  end.

(** The rounds, with a window of sixteen words of the message schedule. *)
Fixpoint rounds512 (ks w st : list Z) : list Z :=
  match ks, w with
  | k :: ks', w0 :: w' => rounds512 ks' (w' ++ [schedule512 w]) (round512 st k w0)
  | _, _ => st
  end.

#[export] Instance Sha512Fips : Sha512Compress := λ h b,
  let st := rounds512 K512 (map from_be (chunks 8 16 b)) h in
  map (λ i, u64w (nth i h 0 + nth i st 0)) (seq 0 8).

#[export] Instance Sha512FipsOk : Sha512CompressOk.
Proof.
  split.
  - intros. unfold compress512, Sha512Fips. by rewrite length_map, length_seq.
  - intros. unfold compress512, Sha512Fips. apply Forall_map, Forall_true. intros i. by apply wrap_in_u.
Qed.

(** The examples of FIPS 180-4: the hashes of the three bytes [abc]. *)
Example sha384_abc : sha384_ref [97; 98; 99] =
  [0xcb00753f; 0x45a35e8b; 0xb5a03d69; 0x9ac65007; 0x272c32ab; 0x0eded163; 0x1a8b605a; 0x43ff5bed;
   0x8086072b; 0xa1e7cc23; 0x58baeca1; 0x34c825a7].
Proof. vm_compute. reflexivity. Qed.

Example sha512_abc : sha512_ref [97; 98; 99] =
  [0xddaf35a1; 0x93617aba; 0xcc417349; 0xae204131; 0x12e6fa4e; 0x89a97ea2; 0x0a9eeee6; 0x4b55d39a;
   0x2192992a; 0x274fc1a8; 0x36ba3c23; 0xa3feebbd; 0x454d4423; 0x643ce80e; 0x2a9ac94f; 0xa54ca49f].
Proof. vm_compute. reflexivity. Qed.
