(* ===== verification/Pcr.v ===== *)
(** PCRs: an extension replaces a PCR by the SHA-384 of its value followed by
    the data; a quote hashes the 32 PCRs and a nonce, with the streaming hash of
    the engine (sw-emulator/lib/crypto/src/sha512.rs). *)

From S2P Require Import Prelude Bits Errors Memory HashPad KeyVault KeyVaultProofs Sha512 Sha512Proofs.
From S2P Require Import Sha512Digest.

Import Emu512 Sha2.

(** * The PCRs of the vault *)

Definition pcrs_wf (v : Vault.KeyVaultRegs) : Prop :=
  length (Vault.pcrs v) = 384%nat ∧ is_words (Vault.pcrs v).
Definition pcr (id : nat) (v : Vault.KeyVaultRegs) : list Z := slice (Vault.pcrs v) (id * 12) (id * 12 + 12).
Definition set_pcr (id : nat) (ws : list Z) (v : Vault.KeyVaultRegs) : Vault.KeyVaultRegs :=
  Vault.set_pcrs (splice (Vault.pcrs v) (id * 12) ws) v.

Lemma slice_words l a b : is_words l → is_words (slice l a b).
Proof. intros Hl. by apply Forall_take, Forall_drop. Qed.

Lemma pcr_words id v : pcrs_wf v → is_words (pcr id v).
Proof. intros [_ Hw]. by apply slice_words. Qed.

Lemma length_pcr id v : pcrs_wf v → (id < 32)%nat → length (pcr id v) = 12%nat.
Proof. intros [Hl _] Hi. unfold pcr, slice. rewrite length_take, length_drop. lia. Qed.

Lemma pcr_set_same id ws v : pcrs_wf v → (id < 32)%nat → length ws = 12%nat → pcr id (set_pcr id ws v) = ws.
Proof. intros [Hl _] Hi Hw. apply slice_splice_same; [done|lia]. Qed.

Lemma pcr_set_other id j ws v : pcrs_wf v → (id < 32)%nat → (j < 32)%nat → j ≠ id → length ws = 12%nat →
  pcr j (set_pcr id ws v) = pcr j v.
Proof.
  intros [Hl _] Hi Hj Hne Hw. apply slice_splice_other; rewrite ?Hw; [lia..|].
  destruct (decide (j < id)%nat); [left|right]; lia.
Qed.

Lemma set_pcr_wf id ws v : pcrs_wf v → (id < 32)%nat → length ws = 12%nat → is_words ws → pcrs_wf (set_pcr id ws v).
Proof.
  intros [Hl Hw] Hi Hn Hs. split; cbn.
  - rewrite length_splice; [done|]. lia.
  - unfold splice. apply Forall_app. split; [by apply Forall_take|]. apply Forall_app. split; [done|].
    by apply Forall_drop.
Qed.

(** * Reading a PCR into the block *)

Section Pcr.
Context `{Sha512CompressOk}.

(** A block operation in progress was started before now, and ends after a PCR
    could be read: two completions are never due at the same time. *)
Definition calm (w : World) : Prop :=
  quiet w ∧ ∀ t, op_complete_action (regs w) = Some t → now w + KEY_RW_TICKS < t < now w + UPDATE_TICKS.

Lemma ready_calm w : quiet w → st_ready (status (regs w)) = true → calm w.
Proof. intros He Hr. split; [done|]. intros t. pose proof (e_op _ _ _ He) as Ho. rewrite Hr in Ho. congruence. Qed.

Lemma rd_val_bits id : (id < 32)%nat →
  let v := vault_rd_val true (Z.of_nat id) true in
  key_read_en v = true ∧ read_key_id v = Z.of_nat id ∧ pcr_hash_extend v = 1.
Proof. intros Hi. do 32 (destruct id as [|id]; [done|]). lia. Qed.

Lemma read_ctrl_bits id c : (id < 32)%nat →
  let v := vault_rd_val true (Z.of_nat id) true in
  let c' := fset 6 1 (pcr_hash_extend v) (fset 1 5 (read_key_id v) (fset 0 1 (Z.b2z (key_read_en v)) c)) in
  read_key_id c' = Z.of_nat id ∧ pcr_hash_extend c' = 1.
Proof.
  intros Hi v c'. destruct (rd_val_bits id Hi) as (_ & Ei & Ee). fold v in Ei, Ee.
  unfold c'. rewrite Ei, Ee. unfold read_key_id, pcr_hash_extend. rewrite fget_fset_same by lia.
  rewrite fget_fset_other by lia. rewrite fget_fset_same by lia. split; [|done].
  rewrite Z.land_ones, Z.mod_small by lia. done.
Qed.

(** The world after the PCR was read. *)
Definition with_pcr (id : nat) (c : Z) (w : World) : World :=
  mkWorld (set_block_read_status (mkStatus true true 0) (set_pcr_present true
    (set_block (splice (replicate 32 0) 0 (words_le (Vault.read_pcr id (key_vault w))))
      (set_op_block_read_complete_action None
        (set_block_read_status (mkStatus false false 0) (set_block_read_ctrl c (regs w))))))) (key_vault w) (now w + 100).

Lemma poll_read w t : fired (op_complete_action (regs w)) (now w) = false →
  op_block_read_complete_action (regs w) = Some t → t <= now w →
  poll w = completion block_read_complete (on_regs (set_op_block_read_complete_action None) w).
Proof.
  intros E1 E2 Ht. unfold poll. rewrite bind_get, E1, E2. cbn [fired].
  assert ((t <=? now w) = true) as -> by (by apply Z.leb_le). by rewrite bind_modify.
Qed.

Lemma block_read_extend w id : read_key_id (block_read_ctrl (regs w)) = Z.of_nat id →
  pcr_hash_extend (block_read_ctrl (regs w)) = 1 →
  completion block_read_complete w = (Ok tt, on_regs (λ r, set_block_read_status (mkStatus true true 0)
    (set_pcr_present true (set_block (splice (replicate 32 0) 0 (words_le (Vault.read_pcr id (key_vault w)))) r))) w).
Proof. intros Bi Be. unfold completion, block_read_complete. by rewrite Bi, Be, Nat2Z.id. Qed.

Lemma retrieve_pcr_run id w : calm w → (id < 32)%nat →
  ∃ c, read_key_id c = Z.of_nat id ∧ pcr_hash_extend c = 1 ∧ retrieve_pcr id w = (Ok tt, with_pcr id c w).
Proof.
  intros [He Ht] Hi. destruct (rd_val_bits id Hi) as (Bv & _ & _).
  pose proof (read_ctrl_bits id (block_read_ctrl (regs w)) Hi) as Bc. cbv zeta in Bc. rewrite Bv in Bc.
  unfold retrieve_pcr. rewrite (bind_ok _ _ _ tt w) by (apply wait_ready, He). rewrite bind_modify.
  unfold on_write_block_read_control. rewrite Bv. set (c := fset 6 1 _ _) in *. destruct Bc as [Bi Be].
  exists c. split; [done|]. split; [done|]. set (w1 := on_regs _ w).
  assert (N : next_event w1 = Some (now w + 100)).
  { unfold next_event. change (op_complete_action (regs w1)) with (op_complete_action (regs w)).
    change (op_block_read_complete_action (regs w1)) with (Some (now w + 100)).
    change (op_hash_write_complete_action (regs w1)) with (op_hash_write_complete_action (regs w)).
    change (op_pcr_gen_hash_complete_action (regs w1)) with (op_pcr_gen_hash_complete_action (regs w)).
    change (now w1) with (now w). rewrite (e_hash_write _ _ _ He), (e_pcr_hash _ _ _ He). cbn [later].
    rewrite (proj2 (Z.ltb_lt (now w) (now w + 100))) by lia.
    destruct (op_complete_action (regs w)) as [t|]; [|done]. specialize (Ht t eq_refl). unfold KEY_RW_TICKS in Ht.
    cbn [later]. rewrite (proj2 (Z.ltb_lt (now w) t)) by lia. f_equal. lia. }
  set (w2 := mkWorld (regs w1) (key_vault w1) (now w + 100)).
  assert (P : poll w2 = (Ok tt, with_pcr id c w)).
  { rewrite (poll_read w2 (now w + 100)); [|by cbn; destruct (op_complete_action (regs w)) as [t|]; [|done];
      specialize (Ht t eq_refl); unfold KEY_RW_TICKS in Ht; cbn; apply Z.leb_gt; lia|done|cbn; lia].
    by rewrite (block_read_extend _ id). }
  rewrite (bind_ok _ _ _ tt (with_pcr id c w)); [done|].
  unfold wait_until. rewrite (wait_once _ _ _ _ eq_refl N). rewrite (bind_ok _ _ _ _ _ P). by apply wait_ready.
Qed.

Lemma with_pcr_engine id c w : calm w → pcrs_wf (key_vault w) → (id < 32)%nat →
  read_key_id c = Z.of_nat id → pcr_hash_extend c = 1 →
  engine (with_pcr id c w) (Some id) true ∧ take 12 (block (regs (with_pcr id c w))) = pcr id (key_vault w).
Proof.
  intros [He Ht] Hv Hi Bi Be. pose proof (length_pcr id _ Hv Hi) as Hl. pose proof (pcr_words id _ Hv) as Hw.
  assert (Eb : block (regs (with_pcr id c w)) = pcr id (key_vault w) ++ replicate 20 0).
  { change (splice (replicate 32 0) 0 (words_le (bytes_le (pcr id (key_vault w)))) = pcr id (key_vault w) ++ replicate 20 0).
    rewrite words_le_bytes_le by done. unfold splice. by rewrite Hl. }
  split; [|rewrite Eb; by rewrite <- Hl, take_app_length].
  destruct He as [Q1 Q2 Q3 Q4 Q5 Q6 Q7 Q8 Q9 Q10 Q11 Q12 Q13 Q14]. constructor; try done.
  - by rewrite Eb, length_app, Hl.
  - by intros ? [= <-].
  - change (if st_ready (status (regs w)) then op_complete_action (regs w) = None
      else ctrl_last (control (regs w)) = false ∧ ∃ t, op_complete_action (regs w) = Some t ∧ now w + 100 < t).
    destruct (st_ready (status (regs w))); [done|]. destruct Q14 as (? & t & Ho & _). split; [done|].
    exists t. split; [done|]. by apply Ht.
Qed.

(** * Extending a PCR *)

Definition extend_value (old data : list Z) : list Z := sha384_ref (bytes_be old ++ data).

Lemma length_extend old data : length (extend_value old data) = 12%nat.
Proof. apply (length_sha_ref ShaMode384). Qed.
Lemma extend_words old data : is_words (extend_value old data).
Proof. apply (sha_ref_words ShaMode384). Qed.

Lemma pcr_extend_run id data w : calm w → pcrs_wf (key_vault w) → (id < 32)%nat → is_bytes data →
  (length data ≤ 79)%nat →
  ∃ w', pcr_extend id data w = (Ok tt, w') ∧ calm w' ∧ st_ready (status (regs w')) = true ∧
    key_vault w' = set_pcr id (extend_value (pcr id (key_vault w)) data) (key_vault w).
Proof.
  intros Hc Hv Hi Hb Hd. destruct (retrieve_pcr_run id w Hc Hi) as (c & Bi & Be & E1).
  destruct (with_pcr_engine id c w Hc Hv Hi Bi Be) as [He1 Hp1]. set (w1 := with_pcr id c w) in *.
  set (sl := replicate 48 0 ++ data). assert (Hsl : length sl = (length data + 48)%nat).
  { unfold sl. rewrite length_app, length_replicate. lia. }
  destruct (sha2_partial_block_ok ShaMode384 sl true false (length data + 48) w1 (Some id) true (iv ShaMode384))
    as (w2 & E2 & Q2 & R2 & V2); [done|lia| |simpl; lia|done|].
  { apply Forall_app. split; [|done]. apply Forall_replicate. ulia. }
  exists w2. split; [|split; [by apply ready_calm; [|apply R2]|split; [apply R2|]]].
  - unfold pcr_extend, SHA384_HASH_SIZE, SHA512_BLOCK_BYTE_SIZE.
    rewrite bind_fail_if by (apply Nat.ltb_ge; lia). rewrite (bind_ok _ _ _ _ _ E1), length_replicate.
    rewrite bind_fail_if by (apply orb_false_iff; split; apply Nat.ltb_ge; lia).
    assert (Es : splice (replicate 128 0) 48 data = sl ++ replicate (80 - length data) 0).
    { unfold splice, sl. rewrite take_replicate, drop_replicate, <- app_assoc. done. }
    rewrite Es. unfold get_slice. rewrite decide_True by (rewrite length_app; lia).
    by rewrite drop_0, <- Hsl, take_app_length, Hsl.
  - rewrite V2. cbn [extended]. unfold Vault.write_pcr, set_pcr, extend_value, sha384_ref. cbn [effective].
    unfold sl. rewrite Hp1, drop_app_length' by (by rewrite length_replicate).
    assert (Hm : length (bytes_be (pcr id (key_vault w)) ++ data) = (length data + 48)%nat).
    { rewrite length_app, length_bytes_be, length_pcr by done. lia. }
    rewrite <- Hm. change (tail512 ?m (length ?m)) with (sha512_pad m). fold (sha384_ref (bytes_be (pcr id (key_vault w)) ++ data)).
    by rewrite words_le_bytes_le by apply extend_words.
Qed.

Lemma pcr_extend_too_long id data w : (79 < length data)%nat →
  pcr_extend id data w = (Err DRIVER_SHA2_512_384_MAX_DATA_ERR, w).
Proof.
  intros Hd. unfold pcr_extend, SHA384_HASH_SIZE, SHA512_BLOCK_BYTE_SIZE.
  by rewrite (proj2 (Nat.ltb_lt (128 - 1) (length data + 48)) ltac:(lia)).
Qed.

End Pcr.

Section Quote.
Context `{Sha512CompressOk}.

(** * Bytes through the core *)

Lemma chunks_drop_start (l : list Z) n : chunks 128 (S n) l = take 128 l :: chunks 128 n (drop 128 l).
Proof. done. Qed.

Lemma drain_blocks_eq swap fuel : ∀ c n, n = (length (partial_block c) / 128)%nat → (n < fuel)%nat →
  drain_blocks fuel swap c =
    mkCore (foldl compress512 (hash c) (map (λ b, change_endianess (swap b)) (chunks 128 n (partial_block c))))
      (mode c) (drop (128 * n) (partial_block c)) (blocks_processed c + n).
Proof.
  induction fuel as [|fuel IH]; intros c n Hn Hf; [lia|].
  pose proof (Nat.div_mod_eq (length (partial_block c)) 128) as Hd. rewrite <- Hn in Hd.
  pose proof (Nat.mod_upper_bound (length (partial_block c)) 128 ltac:(lia)) as Hu.
  cbn [drain_blocks]. unfold BLOCK_SIZE. destruct (Nat.leb_spec 128 (length (partial_block c))).
  - destruct n as [|n]; [lia|]. rewrite (IH _ n); [|cbn [partial_block set_partial]|lia].
    + rewrite chunks_drop_start. cbn [hash mode partial_block blocks_processed set_partial update map foldl].
      rewrite drop_drop. f_equal; [f_equal|]; lia.
    + rewrite length_drop. apply Nat.div_unique with (length (partial_block c) mod 128)%nat; lia.
  - assert (n = 0)%nat as -> by lia. rewrite Nat.mul_0_r, drop_0, Nat.add_0_r. by destruct c.
Qed.

Lemma change_endianess_app n : ∀ l1 l2, length l1 = (4 * n)%nat →
  change_endianess (l1 ++ l2) = change_endianess l1 ++ change_endianess l2.
Proof.
  induction n as [|n IH]; intros l1 l2 Hl; [by destruct l1|].
  do 4 (destruct l1 as [|? l1]; [simpl in Hl; lia|]). cbn [app change_endianess]. rewrite IH; [done|]. simpl in Hl. lia.
Qed.

Lemma chunks_swapped k : ∀ l, length l = (128 * k)%nat →
  map change_endianess (chunks 128 k (change_endianess l)) = chunks 128 k l.
Proof.
  induction k as [|k IH]; intros l Hl; [done|]. rewrite !chunks_drop_start.
  assert (Ht : length (take 128 l) = 128%nat) by (rewrite length_take; lia).
  rewrite <- (take_drop 128 l) at 1 2. rewrite (change_endianess_app 32) by done. cbn [map].
  rewrite take_app_length', drop_app_length' by (by rewrite length_change_endianess).
  rewrite change_endianess_involutive, IH; [done|]. rewrite length_drop. lia.
Qed.

(** The core has consumed [d] since it was set to [h]. *)
Definition streamed (h : list Z) (c : Sha512Core) (d : list Z) : Prop :=
  let n := (length d / 128)%nat in
  hash c = foldl compress512 h (chunks 128 n d) ∧ partial_block c = drop (128 * n) d ∧ blocks_processed c = n.

Lemma streamed_reset m c : partial_block c = [] → streamed (hash_iv m) (reset m c) [].
Proof. intros E. by split_and!. Qed.

Lemma update_bytes_streamed {E} h c d x : streamed h c d →
  ∃ c', update_bytes (E := E) x None c = Ok c' ∧ streamed h c' (d ++ x).
Proof.
  intros (Hh & Hp & Hb). unfold update_bytes. cbn [mbind res_bind].
  rewrite take_ge by done. eexists. split; [reflexivity|].
  set (n := (length d / 128)%nat) in *. pose proof (Nat.div_mod_eq (length d) 128) as Hd. fold n in Hd.
  pose proof (Nat.mod_upper_bound (length d) 128 ltac:(lia)) as Hu.
  set (k := (length (partial_block c ++ x) / 128)%nat).
  assert (Hk : (length (d ++ x) / 128 = n + k)%nat).
  { unfold k. rewrite Hp, !length_app, length_drop.
    replace (length d + length x)%nat with ((length d - 128 * n + length x) + n * 128)%nat by lia.
    rewrite Nat.div_add by lia. lia. }
  rewrite (drain_blocks_eq _ _ _ k) by (done || unfold drain_fuel; cbn; lia).
  unfold streamed. rewrite Hk. cbn [hash partial_block blocks_processed set_partial].
  assert (Ed : drop (128 * n) (d ++ x) = drop (128 * n) d ++ x) by (apply drop_app_le; lia).
  split_and!; [|rewrite Hp, <- Ed, drop_drop; f_equal; lia|by rewrite Hb].
  rewrite chunks_add, foldl_app, Ed, Hp. f_equal.
  - rewrite Hh. f_equal. rewrite <- (take_drop (128 * n) d), <- app_assoc.
    rewrite !chunks_app_r by (rewrite length_take; lia). done.
  - rewrite (map_ext _ (λ b, b)) by (intros; apply change_endianess_involutive). apply map_id.
Qed.

Lemma update_all_streamed {E A} h (f : A → list Z) xs : ∀ c d, streamed h c d →
  ∃ c', foldR (E := E) (λ c x, update_bytes (f x) None c) c xs = Ok c' ∧ streamed h c' (d ++ concat (map f xs)).
Proof.
  induction xs as [|x xs IH]; intros c d Hc.
  - exists c. split; [done|]. cbn. by rewrite app_nil_r.
  - destruct (update_bytes_streamed (E := E) h c d (f x) Hc) as (c1 & E1 & H1).
    cbn [foldR]. rewrite E1. cbn [mbind res_bind].
    destruct (IH c1 _ H1) as (c2 & E2 & H2). exists c2. split; [done|]. cbn [map concat]. by rewrite app_assoc.
Qed.

(** The length is appended properly unless the message leaves exactly 111 bytes
    in its last block. *)
Lemma finalize_streamed {E} h c d : streamed h c d → (length d mod 128 ≠ 111)%nat →
  ∃ c', finalize (E := E) (Z.of_nat (length d)) c = Ok c' ∧ hash c' = sha512_blocks h (sha512_pad d) ∧ partial_block c' = [].
Proof.
  intros (Hh & Hp & Hb) Hm. set (n := (length d / 128)%nat) in *.
  pose proof (Nat.div_mod_eq (length d) 128) as Hd. fold n in Hd.
  pose proof (Nat.mod_upper_bound (length d) 128 ltac:(lia)) as Hu.
  assert (Hlp : length (partial_block c) = (length d mod 128)%nat) by (rewrite Hp, length_drop; lia).
  unfold finalize, BLOCK_SIZE. rewrite Hb, Hlp.
  rewrite (proj2 (Z.ltb_ge _ _)) by lia. cbn [mbind res_bind].
  replace (n * 128 + length d mod 128)%nat with (length d) by lia.
  assert (Hr : Vault.resize (length d mod 128) (partial_block c) = drop (128 * n) d).
  { unfold Vault.resize. rewrite <- Hlp. by rewrite take_ge, Nat.sub_diag, app_nil_r by done. }
  rewrite Hr. change (?p ++ [0x80] ++ ?z ++ ?l) with (p ++ 0x80 :: z ++ l).
  set (p := drop (128 * n) d ++ _).
  assert (Ep : p = tail512 (drop (128 * n) d) (length d)).
  { unfold p, tail_of. do 3 f_equal.
    - f_equal. rewrite length_drop. replace (length d - 128 * n)%nat with (length d mod 128)%nat by lia.
      set (r := (length d mod 128)%nat) in *.
      assert (Hq : ((length d + 1 + 16) mod 128 = (r + 17) mod 128)%nat).
      { replace (length d + 1 + 16)%nat with (r + 17 + n * 128)%nat by lia. by rewrite Nat.Div0.mod_add. }
      rewrite Hq. destruct (decide (r < 111)%nat).
      + rewrite Nat.mod_small, Z.mod_small by lia. lia.
      + replace ((r + 17) mod 128)%nat with (r - 111)%nat by (apply Nat.mod_unique with 1%nat; lia).
        replace ((Z.of_nat (128 - 16 - 1) - Z.of_nat r) mod Z.of_nat 128) with (239 - Z.of_nat r)
          by (apply Z.mod_unique with (-1); lia). lia.
    - f_equal. lia. }
  eexists. split; [reflexivity|].
  assert (Hlt : length (change_endianess p) = length p) by apply length_change_endianess.
  set (k := (length p / 128)%nat). assert (Hk : length p = (128 * k)%nat).
  { unfold k. rewrite Ep, (length_tail 128 16) by (rewrite length_drop; lia). by destruct (_ <? _)%nat. }
  assert (Hk' : k = (length (partial_block (set_partial (change_endianess p) c)) / 128)%nat) by (cbn [partial_block set_partial]; by rewrite Hlt).
  rewrite (drain_blocks_eq _ _ _ k Hk') by (unfold drain_fuel, BLOCK_SIZE; rewrite <- Hk'; lia).
  cbn [hash partial_block set_partial]. split; [|apply drop_ge; lia].
  rewrite Hh. change (sha512_pad d) with (tail512 d (length d)).
  change (sha512_blocks h ?l) with (blocks_of 128 compress512 h l).
  rewrite (blocks_of_split 128 16 _ _ _ n eq_refl), <- Ep. unfold blocks_of. fold k. f_equal.
  by apply chunks_swapped.
Qed.

(** * The hash of the PCRs *)

Lemma concat_pcrs v n : (n ≤ 32)%nat → length (Vault.pcrs v) = 384%nat →
  concat (map (λ i, bytes_be (pcr i v)) (seq 0 n)) = bytes_be (take (12 * n) (Vault.pcrs v)).
Proof.
  intros Hn Hl. induction n as [|n IH]; [done|].
  rewrite seq_S, map_app, concat_app, IH by lia. cbn [map concat]. rewrite app_nil_r, <- bytes_be_app. f_equal.
  unfold pcr, slice. replace (12 * S n)%nat with (12 * n + 12)%nat by lia.
  rewrite <- (take_drop (12 * n) (Vault.pcrs v)) at 3.
  rewrite take_app_add' by (rewrite length_take; lia). f_equal. f_equal; [lia|f_equal; lia].
Qed.

(** What a quote hashes: the PCRs as big-endian words, and the nonce register. *)
Definition quoted (v : Vault.KeyVaultRegs) (nonce : list Z) : list Z := bytes_be (Vault.pcrs v) ++ bytes_le nonce.

Lemma length_quoted v nonce : pcrs_wf v → length nonce = 8%nat → length (quoted v nonce) = 1568%nat.
Proof. intros [Hl _] Hn. unfold quoted. by rewrite length_app, length_bytes_be, length_bytes_le, Hl, Hn. Qed.

Lemma pcr_hash_op_complete_eq w : pcrs_wf (key_vault w) → length (pcr_gen_hash_nonce (regs w)) = 8%nat →
  partial_block (sha512 (regs w)) = [] → length (pcr_hash_digest (regs w)) = 16%nat →
  ∃ c, partial_block c = [] ∧ hash_state (hash c) ∧
    completion pcr_hash_op_complete w = (Ok tt, on_regs (λ r, set_pcr_hash_status (mkStatus true true (st_error (pcr_hash_status r)))
      (set_pcr_hash_digest (sha512_ref (quoted (key_vault w) (pcr_gen_hash_nonce (regs w)))) (set_sha512 c r))) w).
Proof.
  intros Hv Hn Hp Hd. unfold completion, pcr_hash_op_complete.
  destruct (update_all_streamed (E := CaliptraError) (hash_iv Sha512)
    (λ i, change_endianess (Vault.read_pcr i (key_vault w))) (seq 0 32) _ _ (streamed_reset Sha512 _ Hp)) as (c1 & E1 & S1).
  rewrite E1. cbn [mbind res_bind].
  destruct (update_bytes_streamed (E := CaliptraError) _ _ _ (bytes_le (pcr_gen_hash_nonce (regs w))) S1) as (c2 & E2 & S2).
  rewrite E2. cbn [mbind res_bind].
  assert (Eq : ([] ++ concat (map (λ i, change_endianess (Vault.read_pcr i (key_vault w))) (seq 0 32))) ++
    bytes_le (pcr_gen_hash_nonce (regs w)) = quoted (key_vault w) (pcr_gen_hash_nonce (regs w))).
  { unfold quoted. f_equal. cbn [app]. rewrite (map_ext _ (λ i, bytes_be (pcr i (key_vault w)))).
    - rewrite concat_pcrs by (lia || apply Hv). by rewrite take_ge by (destruct Hv; lia).
    - intros i. apply change_endianess_bytes_le. }
  rewrite Eq in S2. pose proof (length_quoted _ _ Hv Hn) as Lq.
  destruct (finalize_streamed (E := CaliptraError) _ _ _ S2) as (c3 & E3 & H3 & P3); [by rewrite Lq|].
  rewrite Lq in E3. change (Z.of_nat 1568) with (32 * 48 + 32) in E3. rewrite E3. cbn [mbind res_bind].
  pose proof (sha_state_ok ShaMode512 (quoted (key_vault w) (pcr_gen_hash_nonce (regs w)))) as Hs.
  unfold sha_state, iv in Hs. cbn [emu_mode] in Hs. rewrite <- H3 in Hs.
  destruct Hs as [Hs1 Hs2].
  assert (D : words_le (copy_hash c3 (bytes_le (pcr_hash_digest (regs w)))) =
    sha512_ref (quoted (key_vault w) (pcr_gen_hash_nonce (regs w)))).
  { rewrite copy_hash_eq; [|exact Hs1|exact Hs2|by rewrite length_bytes_le, Hd].
    rewrite words_le_bytes_le by (by apply split64_words). by rewrite H3. }
  exists c3. split; [exact P3|]. split; [exact (conj Hs1 Hs2)|]. rewrite D. reflexivity.
Qed.

Lemma poll_quote w t : op_complete_action (regs w) = None → op_block_read_complete_action (regs w) = None →
  op_hash_write_complete_action (regs w) = None → op_pcr_gen_hash_complete_action (regs w) = Some t → t <= now w →
  poll w = completion pcr_hash_op_complete (on_regs (set_op_pcr_gen_hash_complete_action None) w).
Proof.
  intros E1 E2 E3 E4 Ht. unfold poll. rewrite bind_get, E1, E2, E3, E4. cbn [fired].
  assert ((t <=? now w) = true) as -> by (by apply Z.leb_le). by rewrite bind_modify.
Qed.

(** The world after the hash of the PCRs, due at [t]. *)
Definition quote_done (c : Sha512Core) (t : Z) (w : World) : World :=
  mkWorld (set_pcr_hash_status (mkStatus true true (st_error (pcr_hash_status (regs w))))
    (set_pcr_hash_digest (sha512_ref (quoted (key_vault w) (pcr_gen_hash_nonce (regs w))))
      (set_sha512 c (set_op_pcr_gen_hash_complete_action None (regs w))))) (key_vault w) t.

Lemma wait_quote n w t : op_complete_action (regs w) = None → op_block_read_complete_action (regs w) = None →
  op_hash_write_complete_action (regs w) = None → op_pcr_gen_hash_complete_action (regs w) = Some t → now w < t →
  st_ready (pcr_hash_status (regs w)) = false → pcrs_wf (key_vault w) → length (pcr_gen_hash_nonce (regs w)) = 8%nat →
  partial_block (sha512 (regs w)) = [] → length (pcr_hash_digest (regs w)) = 16%nat →
  ∃ c, partial_block c = [] ∧ hash_state (hash c) ∧
    wait_loop (S n) (λ r, st_ready (pcr_hash_status r)) w = (Ok tt, quote_done c t w).
Proof.
  intros E1 E2 E3 E4 Ht Er Hv Hn Hp Hd.
  assert (N : next_event w = Some t).
  { unfold next_event. rewrite E1, E2, E3, E4. cbn [later]. by rewrite (proj2 (Z.ltb_lt _ _) Ht). }
  rewrite (wait_once _ _ _ _ Er N). set (w1 := mkWorld (regs w) (key_vault w) t).
  destruct (pcr_hash_op_complete_eq (on_regs (set_op_pcr_gen_hash_complete_action None) w1) Hv Hn Hp Hd)
    as (c & Pc & Sc & Ec).
  exists c. split; [exact Pc|]. split; [exact Sc|].
  rewrite <- (poll_quote w1 t E1 E2 E3 E4 (Z.le_refl _)) in Ec. rewrite (bind_ok _ _ _ _ _ Ec).
  rewrite wait_ready; reflexivity.
Qed.

(** The hash of the PCRs has been requested. *)
Definition requested (nonce : list Z) (t : Z) (w : World) : World :=
  on_regs (λ r, set_op_pcr_gen_hash_complete_action (Some t) (set_pcr_hash_status
    (mkStatus false false (st_error (pcr_hash_status r))) (set_pcr_hash_control 1 (set_pcr_gen_hash_nonce nonce r)))) w.

(** An operation that was in progress has completed. *)
Definition completed (t : Z) (w : World) : World :=
  mkWorld (set_status (mkStatus true true (st_error (status (regs w)))) (set_hash_mem (copy_hash (sha512 (regs w))
    (hash_mem (regs w))) (set_op_complete_action None (regs w)))) (key_vault w) t.

Lemma completed_engine t w : quiet w → quiet (completed t w).
Proof.
  intros He. destruct (e_core _ _ _ He) as (Hc1 & Hc2 & Hc3). destruct He. constructor; try done.
  change (length (copy_hash (sha512 (regs w)) (hash_mem (regs w))) = 64%nat). rewrite copy_hash_eq by done.
  by rewrite length_bytes_le, length_split64, Hc1.
Qed.

Lemma wait_request nonce t w : calm w → t = now w + UPDATE_TICKS → pcrs_wf (key_vault w) → length nonce = 8%nat →
  ∃ c w1, partial_block c = [] ∧ hash_state (hash c) ∧ quiet w1 ∧ st_ready (status (regs w1)) = true ∧
    key_vault w1 = key_vault w ∧
    wait_until (λ r, st_ready (pcr_hash_status r)) (requested nonce t w) = (Ok tt, quote_done c t (requested nonce t w1)).
Proof.
  intros [He Hop] -> Hv Hn. set (t := now w + UPDATE_TICKS). unfold UPDATE_TICKS in *.
  assert (G : ∀ n w1, quiet w1 → st_ready (status (regs w1)) = true → key_vault w1 = key_vault w → now w1 < t →
    ∃ c, partial_block c = [] ∧ hash_state (hash c) ∧
      wait_loop (S n) (λ r, st_ready (pcr_hash_status r)) (requested nonce t w1)
        = (Ok tt, quote_done c t (requested nonce t w1))).
  { intros n w1 H1 Hr1 Hv1 Hn1. pose proof (e_op _ _ _ H1) as Ho. rewrite Hr1 in Ho. rewrite <- Hv1 in Hv.
    destruct H1 as [Q1 Q2 Q3 Q4 Q5 Q6 Q7 Q8 Q9 Q10 Q11 (_ & _ & Q12) Q13 Q14].
    exact (wait_quote n (requested nonce t w1) t Ho Q9 Q10 eq_refl Hn1 eq_refl Hv Hn Q12 Q13). }
  destruct (st_ready (status (regs w))) eqn:Er.
  - destruct (G 4%nat w He Er eq_refl) as (c & P & S & E); [unfold t; lia|]. by exists c, w.
  - pose proof (e_op _ _ _ He) as Ho. rewrite Er in Ho. destruct Ho as (Hl & t0 & Ht0 & Hlt).
    specialize (Hop t0 Ht0). unfold KEY_RW_TICKS in Hop.
    destruct (G 3%nat (completed t0 w) (completed_engine t0 w He) eq_refl eq_refl) as (c & P & S & E);
      [unfold t; cbn; lia|].
    exists c, (completed t0 w). split_and!; try done; [by apply completed_engine|].
    assert (N : next_event (requested nonce t w) = Some t0).
    { unfold next_event. cbn [requested on_regs regs now set_op_pcr_gen_hash_complete_action set_pcr_hash_status
        set_pcr_hash_control set_pcr_gen_hash_nonce op_complete_action op_block_read_complete_action
        op_hash_write_complete_action op_pcr_gen_hash_complete_action].
      rewrite Ht0, (e_read _ _ _ He), (e_hash_write _ _ _ He). cbn [later].
      rewrite (proj2 (Z.ltb_lt _ _) Hlt), (proj2 (Z.ltb_lt (now w) t)) by (unfold t; lia). f_equal. unfold t. lia. }
    unfold wait_until. rewrite (wait_once _ _ _ _ eq_refl N).
    rewrite (bind_ok _ _ _ _ _ (poll_op (mkWorld (regs (requested nonce t w)) (key_vault w) t0) t0 Ht0 (Z.le_refl _))).
    rewrite (op_complete_eq _ None); [exact E|apply He|apply He|done].
Qed.

(** ** [gen_pcr_hash] *)

(** Time passes between calls. *)
Definition elapse (d : Z) (w : World) : World := mkWorld (regs w) (key_vault w) (now w + d).

Lemma gen_pcr_hash_run nonce w : calm w → pcrs_wf (key_vault w) → length nonce = 8%nat →
  ∃ w', gen_pcr_hash nonce w = (Ok (sha512_ref (quoted (key_vault w) nonce)), w') ∧
    key_vault w' = key_vault w ∧ ∀ d, 0 < d < 900 → calm (elapse d w').
Proof.
  intros Hc Hv Hn.
  destruct (wait_request nonce _ w Hc eq_refl Hv Hn) as (c & w1 & P & S & Q1 & R1 & V1 & E1).
  set (t := now w + UPDATE_TICKS) in *. set (w2 := quote_done c t (requested nonce t w1)) in *.
  set (v := ctrl_val 0 true false false false false).
  exists (on_write_control v w2). rewrite on_write_control_starts by done. split; [|split; [exact V1|]].
  - unfold gen_pcr_hash. rewrite (bind_ok _ _ _ tt w) by (apply wait_ready, Hc).
    rewrite !bind_modify. unfold on_write_pcr_hash_control.
    change (pcr_hash_status (regs (on_regs (set_pcr_gen_hash_nonce nonce) w))) with (pcr_hash_status (regs w)).
    rewrite (e_pcr_ready _ _ _ (proj1 Hc)). cbn [negb]. rewrite (bind_ok _ _ _ _ _ E1).
    unfold write_ctrl. rewrite bind_modify, on_write_control_starts by done. fold v.
    set (w3 := on_regs _ w2).
    assert (A : pcr_hash_status (regs w3) = mkStatus true true (st_error (pcr_hash_status (regs w1)))) by reflexivity.
    assert (B : pcr_hash_digest (regs w3) = sha512_ref (quoted (key_vault w1) nonce)) by reflexivity.
    clearbody w3. rewrite (bind_ok _ _ _ tt w3) by (apply wait_ready; by rewrite A).
    rewrite bind_get, A. cbn [st_valid]. unfold get. by rewrite B, V1.
  - intros d Hd.
    assert (Cs : length (hash (started v (regs w2))) = 8%nat ∧ Forall (in_u 64) (hash (started v (regs w2)))).
    { split; [apply compress512_length|apply compress512_words]. }
    destruct Q1 as [Q1 Q2 Q3 Q4 Q5 Q6 Q7 Q8 Q9 Q10 Q11 Q12 Q13 Q14]. split.
    + constructor; try done.
      * destruct Cs. by split_and!.
      * change (length (sha512_ref (quoted (key_vault w1) nonce)) = 16%nat).
        rewrite sha512_ref_eq. apply length_sha_ref.
      * split; [done|]. exists (t + 1000). split; [done|]. cbn. lia.
    + intros t0 [= <-]. cbn. unfold KEY_RW_TICKS, UPDATE_TICKS in *. lia.
Qed.

End Quote.
