(* ===== verification/MeasuredBoot.v ===== *)
(** Measured boot: the PCR log and the code of ROM, FMC and runtime that extends
    PCRs and reports them.

    - drivers/src/pcr_log.rs, drivers/src/pcr_reset.rs, drivers/src/pcr_bank.rs;
    - rom/dev/src/pcr.rs, the PCR part of rom/dev/src/lock.rs, and
      rom/dev/src/flow/cold_reset/fw_processor/stash_measurement.rs;
    - fmc/src/flow/pcr.rs and the PCR part of fmc/src/flow/rt_alias.rs;
    - runtime/src/pcr.rs. *)

From S2P Require Import Prelude Bits Errors Memory ImageTypes ImageVerify SocIfc FirmwareEnv AuthManifest.
From S2P Require Import KeyVault Sha512.
Import Emu512 Sha2.

Module MeasuredBoot.

(** * Data *)

Definition PCR_ID_FMC_CURRENT : nat := 0.
Definition PCR_ID_FMC_JOURNEY : nat := 1.
Definition RT_FW_CURRENT_PCR : nat := 2.
Definition RT_FW_JOURNEY_PCR : nat := 3.
Definition PCR_ID_STASH_MEASUREMENT : nat := 31.

Inductive PcrLogEntryId :=
  | IdInvalid
  | IdDeviceStatus
  | IdVendorPubKeyInfoHash
  | IdOwnerPubKeyHash
  | IdFmcTci
  | IdStashMeasurement
  | IdRtTci
  | IdFwImageManifest.
#[export] Instance PcrLogEntryId_eq_dec : EqDecision PcrLogEntryId.
Proof. solve_decision. Defined.

(** The discriminants, and [From<u16>]. *)
Definition entry_id_value (i : PcrLogEntryId) : Z :=
  match i with
  | IdInvalid => 0
  | IdDeviceStatus => 1
  | IdVendorPubKeyInfoHash => 2
  | IdOwnerPubKeyHash => 3
  | IdFmcTci => 4
  | IdStashMeasurement => 5
  | IdRtTci => 6
  | IdFwImageManifest => 7
  end.
Definition entry_id_from (id : Z) : PcrLogEntryId :=
  match id with
  | 1 => IdDeviceStatus
  | 2 => IdVendorPubKeyInfoHash
  | 3 => IdOwnerPubKeyHash
  | 4 => IdFmcTci
  | 5 => IdStashMeasurement
  | 6 => IdRtTci
  | 7 => IdFwImageManifest
  | _ => IdInvalid
  end.

Record PcrLogEntry := mkPcrLogEntry {
  id : Z;
  reserved0 : list Z;
  pcr_ids : Z;
  pcr_data : list Z
}.
Definition default_entry : PcrLogEntry := mkPcrLogEntry 0 [0; 0] 0 (replicate 12 0).

(** [as_bytes]; 56 bytes. *)
Definition entry_bytes (e : PcrLogEntry) : list Z :=
  to_le 2 (id e) ++ reserved0 e ++ to_le 4 (pcr_ids e) ++ bytes_le (pcr_data e).

Definition measured_data (e : PcrLogEntry) : list Z :=
  let data_len :=
    match entry_id_from (id e) with
    | IdInvalid => 0%nat
    | IdDeviceStatus => 18%nat
    | IdVendorPubKeyInfoHash => 48%nat
    | IdOwnerPubKeyHash => 48%nat
    | IdFmcTci => 48%nat
    | IdStashMeasurement => 48%nat
    | IdRtTci => 48%nat
    | IdFwImageManifest => 48%nat
    end in
  take data_len (bytes_le (pcr_data e)).

Record MeasurementLogEntry := mkMeasurementLogEntry {
  pcr_entry : PcrLogEntry;
  metadata : list Z;
  context : list Z;
  svn : Z;
  m_reserved0 : list Z
}.

Definition PCR_LOG_MAX_COUNT : nat := 17.
Definition MEASUREMENT_MAX_COUNT : nat := 8.

(** The entries of the data vault that are measured, as words: those of
    [ColdResetEntries] that the verifier reads, its [cold_boot_fw_svn], and
    [rt_tci] of [WarmResetEntries]. *)
Record DataVault := mkDataVault {
  cold_reset_entries : ColdResetEntries;
  cold_boot_fw_svn : Z;
  rt_tci : list Z
}.

(** What survives from ROM to runtime, and the devices: the engine with the key
    vault, the persistent data. *)
Record Boot := mkBoot {
  world : World;
  pcr_log : list PcrLogEntry;
  pcr_log_index : Z;
  measurement_log : list MeasurementLogEntry;
  meas_log_index : Z;
  data_vault : DataVault;
  pcr_reset : list Z
}.

Definition set_world (w : World) (b : Boot) : Boot :=
  mkBoot w (pcr_log b) (pcr_log_index b) (measurement_log b) (meas_log_index b) (data_vault b) (pcr_reset b).
Definition set_log (l : list PcrLogEntry) (i : Z) (b : Boot) : Boot :=
  mkBoot (world b) l i (measurement_log b) (meas_log_index b) (data_vault b) (pcr_reset b).
Definition set_measurements (l : list MeasurementLogEntry) (i : Z) (b : Boot) : Boot :=
  mkBoot (world b) (pcr_log b) (pcr_log_index b) l i (data_vault b) (pcr_reset b).
Definition set_data_vault (d : DataVault) (b : Boot) : Boot :=
  mkBoot (world b) (pcr_log b) (pcr_log_index b) (measurement_log b) (meas_log_index b) d (pcr_reset b).
Definition set_pcr_reset (c : list Z) (b : Boot) : Boot :=
  mkBoot (world b) (pcr_log b) (pcr_log_index b) (measurement_log b) (meas_log_index b) (data_vault b) c.

(** The drivers work on parts of the state. *)
Definition on_world {A} (m : M World A) : M Boot A := λ b,
  let '(r, w) := m (world b) in (r, set_world w b).
Definition on_vault {A} (m : M Vault.KeyVaultRegs A) : M Boot A := λ b,
  let '(r, v) := m (key_vault (world b)) in (r, set_world (set_vault v (world b)) b).

(** [PcrResetCounter::increment]: false when the counter is at its maximum. *)
Definition increment (pcr_id : nat) (c : list Z) : bool * list Z :=
  let old_value := nth pcr_id c 0 in
  if old_value + 1 <? 2 ^ 32 then (true, <[pcr_id := old_value + 1]> c) else (false, c).

Definition lifecycle_value (l : Lifecycle) : Z :=
  match l with Unprovisioned => 0 | Manufacturing => 1 | Reserved2 => 2 | Production => 3 end.

Section Boot.
Context `{Sha512Compress}.

(** [PcrBank::extend_pcr] and [PcrBank::erase_pcr]. *)
Definition extend_pcr (pcr_id : nat) (data : list Z) : M Boot unit := on_world (pcr_extend pcr_id data).
Definition erase_pcr (pcr_id : nat) : M Boot unit := on_vault (KvDriver.erase_pcr pcr_id).
Definition set_pcr_lock (pcr_id : nat) : M Boot unit := on_vault (KvDriver.set_pcr_lock pcr_id).

(** * ROM *)

Definition rom_log_pcr (pcr_entry_id : PcrLogEntryId) (ids : Z) (data : list Z) : M Boot unit :=
  fail_if (bool_decide (pcr_entry_id = IdInvalid)) ROM_GLOBAL_PCR_LOG_INVALID_ENTRY_ID;;
  b ← get (λ b, b);
  fail_if (Z.of_nat (length (pcr_log b)) <=? pcr_log_index b) ROM_GLOBAL_PCR_LOG_EXHAUSTED;;
  fail_if (48 <? length data)%nat ROM_GLOBAL_PCR_LOG_UNSUPPORTED_DATA_LENGTH;;
  let e := mkPcrLogEntry (entry_id_value pcr_entry_id) [0; 0] ids
             (words_le (splice (bytes_le (replicate 12 0)) 0 data)) in
  modify (λ b, set_log (<[Z.to_nat (pcr_log_index b) := e]> (pcr_log b)) (pcr_log_index b + 1) b).

(** [PcrExtender::extend]. *)
Definition rom_extend (data : list Z) (pcr_entry_id : PcrLogEntryId) : M Boot unit :=
  extend_pcr PCR_ID_FMC_CURRENT data;;
  extend_pcr PCR_ID_FMC_JOURNEY data;;
  let ids := Z.lor (Z.shiftl 1 (Z.of_nat PCR_ID_FMC_CURRENT)) (Z.shiftl 1 (Z.of_nat PCR_ID_FMC_JOURNEY)) in
  rom_log_pcr pcr_entry_id ids data.

Definition device_status (soc : SocIfcRegs) (dv : DataVault) : list Z :=
  let f := fuse_regs soc in
  let lms_revocation_bytes := to_le 4 (fuse_vendor_lms_pub_key_revocation f) in
  let owner_pub_keys_digest_in_fuses := bool_decide (owner_pub_key_hash f ≠ replicate 12 0) in
  [Z.b2z owner_pub_keys_digest_in_fuses;
   Z.b2z (fuse_bank_anti_rollback_disable f);
   u8w (fuse_vendor_ecc_pub_key_revocation f);
   nth 0 lms_revocation_bytes 0;
   nth 1 lms_revocation_bytes 0;
   nth 2 lms_revocation_bytes 0;
   nth 3 lms_revocation_bytes 0;
   u8w (fuse_vendor_mldsa_pub_key_revocation f);
   u8w (fuse_bank_fw_fuse_svn f);
   u8w (soc_manifest_fuse_svn f);
   u8w (max_soc_manifest_fuse_svn f);
   u8w (pqc_key_type f);
   lifecycle_value (lifecycle soc);
   Z.b2z (debug_locked soc);
   u8w (cold_boot_fw_svn dv);
   u8w (vendor_ecc_pk_index (cold_reset_entries dv));
   u8w (vendor_pqc_pk_index (cold_reset_entries dv));
   Z.b2z (subsystem_mode soc)].

Definition rom_extend_pcrs (soc : SocIfcRegs) : M Boot unit :=
  dv ← get data_vault;
  let owner_pk_hash := bytes_be (dv_owner_pk_hash (cold_reset_entries dv)) in
  let tci := bytes_be (fmc_tci (cold_reset_entries dv)) in
  modify (λ b, set_log (pcr_log b) 0 b);;
  erase_pcr PCR_ID_FMC_CURRENT;;
  rom_extend (device_status soc dv) IdDeviceStatus;;
  rom_extend (bytes_be (vendor_pub_key_info_hash (fuse_regs soc))) IdVendorPubKeyInfoHash;;
  rom_extend owner_pk_hash IdOwnerPubKeyHash;;
  rom_extend tci IdFmcTci.

(** The PCRs that [lock_registers] locks. *)
Definition rom_lock_pcrs : M Boot unit :=
  set_pcr_lock PCR_ID_FMC_CURRENT;;
  set_pcr_lock PCR_ID_FMC_JOURNEY;;
  set_pcr_lock PCR_ID_STASH_MEASUREMENT.

(** ** STASH_MEASUREMENT *)

Record StashMeasurementReq := mkStashMeasurementReq {
  req_metadata : list Z;
  req_measurement : list Z;
  req_context : list Z;
  req_svn : Z
}.

Definition log_measurement (req : StashMeasurementReq) : M Boot unit :=
  b ← get (λ b, b);
  fail_if (Z.of_nat (length (measurement_log b)) <=? meas_log_index b) ROM_GLOBAL_MEASUREMENT_LOG_EXHAUSTED;;
  let e := mkMeasurementLogEntry
    (mkPcrLogEntry (entry_id_value IdStashMeasurement) [0; 0] (Z.shiftl 1 (Z.of_nat PCR_ID_STASH_MEASUREMENT))
       (words_le (req_measurement req)))
    (req_metadata req) (words_le (req_context req)) (req_svn req) [0; 0; 0; 0] in
  modify (λ b, set_measurements (<[Z.to_nat (meas_log_index b) := e]> (measurement_log b)) (meas_log_index b + 1) b).

Definition extend_measurement (req : StashMeasurementReq) : M Boot unit :=
  extend_pcr PCR_ID_STASH_MEASUREMENT (req_measurement req);;
  log_measurement req.

(** A request of 108 bytes, after the checksum: metadata, measurement, context
    and version. The response, of zeros, has 12 bytes. *)
Definition parse_stash (cmd : list Z) : option StashMeasurementReq :=
  if (length cmd =? 108)%nat then
    Some (mkStashMeasurementReq (slice cmd 4 8) (slice cmd 8 56) (slice cmd 56 104) (from_le (slice cmd 104 108)))
  else None.
Definition stash_measurement (cmd : list Z) : M Boot Z :=
  match parse_stash cmd with
  | None => fail FW_PROC_MAILBOX_INVALID_REQUEST_LENGTH
  | Some req => extend_measurement req;; mret 12
  end.

(** The arm of the mailbox loop: the log is full is fatal. *)
Definition process_stash (cmd : list Z) : M Boot Z :=
  i ← get meas_log_index;
  fail_if (i =? Z.of_nat MEASUREMENT_MAX_COUNT) FW_PROC_MAILBOX_STASH_MEASUREMENT_MAX_LIMIT;;
  stash_measurement cmd.

(** * FMC *)

(** The entry is written before its data, a longer slice panics in between. *)
Definition fmc_log_pcr (pcr_entry_id : PcrLogEntryId) (ids : Z) (data : list Z) : M Boot unit :=
  b ← get (λ b, b);
  fail_if (Z.of_nat (length (pcr_log b)) <=? pcr_log_index b) FMC_GLOBAL_PCR_LOG_EXHAUSTED;;
  let e := mkPcrLogEntry (entry_id_value pcr_entry_id) [0; 0] ids (replicate 12 0) in
  modify (λ b, set_log (<[Z.to_nat (pcr_log_index b) := e]> (pcr_log b)) (pcr_log_index b) b);;
  if (48 <? length data)%nat then stop Panic
  else
    let e := mkPcrLogEntry (id e) (reserved0 e) (pcr_ids e) (words_le (splice (bytes_le (pcr_data e)) 0 data)) in
    modify (λ b, set_log (<[Z.to_nat (pcr_log_index b) := e]> (pcr_log b)) (pcr_log_index b + 1) b).

Definition extend_and_log (entry_id : PcrLogEntryId) (data : list Z) : M Boot unit :=
  extend_pcr RT_FW_CURRENT_PCR data;;
  extend_pcr RT_FW_JOURNEY_PCR data;;
  fmc_log_pcr entry_id
    (Z.lor (Z.shiftl 1 (Z.of_nat RT_FW_CURRENT_PCR)) (Z.shiftl 1 (Z.of_nat RT_FW_JOURNEY_PCR))) data.

Definition extend_pcr_common : M Boot unit :=
  dv ← get data_vault;
  let tci := bytes_be (rt_tci dv) in
  erase_pcr RT_FW_CURRENT_PCR;;
  extend_and_log IdRtTci tci.

(** The value of the current PCR after an extension of zeros. *)
Definition predict_pcr_value : M Boot (list Z) :=
  dv ← get data_vault;
  let tci := bytes_be (rt_tci dv) in
  let pcr := replicate 12 0 in
  on_world (
    op ← digest_init ShaMode384;
    op ← op_update op (bytes_be pcr);
    op ← op_update op tci;
    op_finalize op).

Inductive ResetReason := ColdReset | WarmReset | UpdateReset | UnknownReset.

(** [reset_reason()], of the bits fw_upd_reset and warm_reset. *)
Definition reset_reason (fw_upd_reset warm_reset : bool) : ResetReason :=
  match fw_upd_reset, warm_reset with
  | true, true => UnknownReset
  | false, true => WarmReset
  | true, false => UpdateReset
  | false, false => ColdReset
  end.

Definition fmc_extend_pcrs (reason : ResetReason) : M Boot unit :=
  match reason with
  | ColdReset => extend_pcr_common
  | UpdateReset =>
      predicted_pcr ← predict_pcr_value;
      prev_pcr ← on_vault (KvDriver.read_pcr RT_FW_CURRENT_PCR);
      if bool_decide (predicted_pcr = prev_pcr) then mret tt else extend_pcr_common
  | WarmReset => mret tt
  | UnknownReset => fail FMC_UNKNOWN_RESET
  end.

(** The measurements of [RtAliasLayer::run]. *)
Definition rt_alias_measure (reason : ResetReason) : M Boot unit :=
  fmc_extend_pcrs reason;;
  set_pcr_lock RT_FW_CURRENT_PCR;;
  set_pcr_lock RT_FW_JOURNEY_PCR.

(** * Runtime *)

(** [u8::try_from] and [PcrId::try_from]. *)
Definition u8_try_from (v : Z) : option Z := if v <? 256 then Some v else None.

Definition increment_pcr_reset_counter (cmd_args : list Z) : M Boot Z :=
  fail_if (negb (length cmd_args =? 8)%nat) RUNTIME_INSUFFICIENT_MEMORY;;
  match u8_try_from (from_le (slice cmd_args 4 8)) with
  | None => fail RUNTIME_MAILBOX_INVALID_PARAMS
  | Some index =>
      match KvDriver.pcr_try_from index with
      | None => fail RUNTIME_MAILBOX_INVALID_PARAMS
      | Some pcr_id =>
          c ← get pcr_reset;
          let '(ok, c') := increment pcr_id c in
          modify (set_pcr_reset c');;
          fail_if (negb ok) RUNTIME_INCREMENT_PCR_RESET_MAX_REACHED;;
          mret 0
      end
  end.

Definition execute_extend_pcr (pl : PauserPrivileges) (cmd_args : list Z) : M Boot Z :=
  fail_if (bool_decide (pl = PL1)) RUNTIME_INCORRECT_PAUSER_PRIVILEGE_LEVEL;;
  fail_if (negb (length cmd_args =? 56)%nat) RUNTIME_INSUFFICIENT_MEMORY;;
  let data := slice cmd_args 8 56 in
  match u8_try_from (from_le (slice cmd_args 4 8)) with
  | None => fail RUNTIME_MAILBOX_INVALID_PARAMS
  | Some idx =>
      match KvDriver.pcr_try_from idx with
      | None => fail RUNTIME_PCR_INVALID_INDEX
      | Some pcr_index =>
          fail_if (bool_decide (pcr_index ∈ [0; 1; 2; 3]%nat)) RUNTIME_PCR_RESERVED;;
          extend_pcr pcr_index data;;
          mret 0
      end
  end.

(** The response buffer and the length written. *)
Definition VAR_SIZE_DATA_RESP_SIZE : nat := 12 + 9216.
Definition get_pcr_log (resp : list Z) : M Boot (list Z * Z) :=
  fail_if (length resp <? VAR_SIZE_DATA_RESP_SIZE)%nat RUNTIME_INTERNAL;;
  log ← get (λ b, flat_map entry_bytes (pcr_log b));
  let resp := splice resp 0 (replicate 8 0 ++ to_le 4 (Z.of_nat (length log)) ++ log) in
  mret (resp, Z.of_nat VAR_SIZE_DATA_RESP_SIZE).

End Boot.

(** ** Quotes *)

(** [pcr_sign_flow] of the ECC and ML-DSA drivers: the engines sign the digest
    of the PCRs that the SHA engine holds. *)
Class PcrSigner := {
  ecc_pcr_sign : World → res (list Z * list Z);
  mldsa_pcr_sign : World → res (list Z)
}.

Inductive AlgorithmType := Ecc384 | Mldsa87.

Section Quote.
Context `{Sha512Compress, PcrSigner}.

Definition lift_res {A} (r : res A) : M Boot A := λ b, (r, b).

(** The response, in the order of its fields. *)
Definition quote_response (pcrs : list (list Z)) (nonce ctrs digest sig : list Z) : list Z :=
  replicate 8 0 ++ flat_map bytes_be pcrs ++ nonce ++ bytes_le ctrs ++ digest ++ sig.

Definition QUOTE_PCRS_ECC384_RESP_SIZE : nat := 1848.
Definition QUOTE_PCRS_MLDSA87_RESP_SIZE : nat := 6396.

Definition get_pcr_quote (alg : AlgorithmType) (cmd_bytes resp : list Z) : M Boot (list Z * Z) :=
  raw_pcrs ← on_vault KvDriver.read_all_pcrs;
  fail_if (negb (length cmd_bytes =? 36)%nat) RUNTIME_MAILBOX_INVALID_PARAMS;;
  let nonce := slice cmd_bytes 4 36 in
  pcr_hash ← on_world (gen_pcr_hash (words_be nonce));
  w ← get world;
  ctrs ← get pcr_reset;
  match alg with
  | Ecc384 =>
      '(r, s) ← lift_res (ecc_pcr_sign w);
      fail_if (length resp <? QUOTE_PCRS_ECC384_RESP_SIZE)%nat RUNTIME_INTERNAL;;
      let out := quote_response raw_pcrs nonce ctrs (take 48 (bytes_be pcr_hash)) (bytes_be r ++ bytes_be s) in
      mret (splice resp 0 out, Z.of_nat QUOTE_PCRS_ECC384_RESP_SIZE)
  | Mldsa87 =>
      let pcr_hash := rev pcr_hash in
      sig ← lift_res (mldsa_pcr_sign w);
      fail_if (length resp <? QUOTE_PCRS_MLDSA87_RESP_SIZE)%nat RUNTIME_INTERNAL;;
      let out := quote_response raw_pcrs nonce ctrs (bytes_le pcr_hash) (bytes_le sig) in
      mret (splice resp 0 out, Z.of_nat QUOTE_PCRS_MLDSA87_RESP_SIZE)
  end.

End Quote.
End MeasuredBoot.
