(* ===== verification/MeasuredBootProofs.v ===== *)
(** Measured boot, operation by operation: what ROM and FMC do to the PCR bank and
    to the PCR log, and what a log replays to. *)

From S2P Require Import Prelude Bits Errors Memory HashPad ImageTypes ImageVerify SocIfc FirmwareEnv AuthManifest.
From S2P Require Import KeyVault KeyVaultProofs Sha512 Sha512Proofs Sha512Digest Pcr MeasuredBoot.
Import Emu512 Sha2 MeasuredBoot.

(** * The vault *)

(** The lock of a PCR. *)
Definition pcr_locked (j : nat) (v : Vault.KeyVaultRegs) : Prop :=
  ∃ c, Vault.pcr_control v !! j = Some c ∧ Vault.pv_lock c = 1.
Definition pcr_unlocked (j : nat) (v : Vault.KeyVaultRegs) : Prop :=
  ∃ c, Vault.pcr_control v !! j = Some c ∧ Vault.pv_lock c = 0.

(** The PCR part of the vault is in order. *)
Definition bank_wf (v : Vault.KeyVaultRegs) : Prop := pcrs_wf v ∧ length (Vault.pcr_control v) = 32%nat.

(** [v'] is [v] with other values of the PCRs. *)
Definition same_locks (v v' : Vault.KeyVaultRegs) : Prop :=
  ∀ j c, Vault.pcr_control v !! j = Some c →
    ∃ c', Vault.pcr_control v' !! j = Some c' ∧ Vault.pv_lock c' = Vault.pv_lock c.

Lemma same_locks_refl v : same_locks v v.
Proof. intros j c Hc. by exists c. Qed.

Lemma same_locks_trans v v' v'' : same_locks v v' → same_locks v' v'' → same_locks v v''.
Proof.
  intros H1 H2 j c Hc. destruct (H1 j c Hc) as (c1 & E1 & L1). destruct (H2 j c1 E1) as (c2 & E2 & L2).
  exists c2. split; [done|congruence].
Qed.

Lemma same_locks_unlocked v v' j : same_locks v v' → pcr_unlocked j v → pcr_unlocked j v'.
Proof. intros H (c & E & L). destruct (H j c E) as (c' & E' & L'). exists c'. split; [done|congruence]. Qed.

Lemma same_locks_locked v v' j : same_locks v v' → pcr_locked j v → pcr_locked j v'.
Proof. intros H (c & E & L). destruct (H j c E) as (c' & E' & L'). exists c'. split; [done|congruence]. Qed.

Lemma set_pcr_locks id ws v : same_locks v (set_pcr id ws v).
Proof. intros j c Hc. by exists c. Qed.

Lemma ctrl_insert_locks v v' id c c' : Vault.pcr_control v !! id = Some c → Vault.pv_lock c' = Vault.pv_lock c →
  Vault.pcr_control v' = <[id := c']> (Vault.pcr_control v) → same_locks v v'.
Proof.
  intros Hc Hl E j d Hd. rewrite E. destruct (decide (j = id)) as [->|Hne].
  - exists c'. rewrite list_lookup_insert_eq by (by eapply lookup_lt_Some). simplify_eq. done.
  - exists d. by rewrite list_lookup_insert_ne.
Qed.

Lemma erase_pcr_run id v : bank_wf v → (id < 32)%nat → pcr_unlocked id v →
  ∃ v', KvDriver.erase_pcr id v = (Ok tt, v') ∧ bank_wf v' ∧ same_locks v v' ∧
    ∀ j, (j < 32)%nat → pcr j v' = if decide (j = id) then replicate 12 0 else pcr j v.
Proof.
  intros [Hw Hn] Hi (c & Hc & Hl). set (c' := fset 0 1 (Z.lor (Vault.pv_lock c) 0) c).
  assert (Hl' : Vault.pv_lock c' = 0) by (unfold c', Vault.pv_lock at 1; rewrite fget_fset_same, Hl by lia; done).
  exists (set_pcr id (replicate 12 0) (Vault.set_pcr_control (<[id := c']> (Vault.pcr_control v)) v)). split_and!.
  - unfold KvDriver.erase_pcr, KvDriver.pcr_lock, KvDriver.mmio_read, mbind, M_bind.
    unfold unwrap. rewrite Hc. cbn. rewrite r_pcr_lock_spec, Hl. cbn.
    unfold KvDriver.mmio, Vault.write_pcr_ctrl. rewrite Hc. cbn [unwrap mbind res_bind].
    change (Vault.pv_lock (KvDriver.w_pcr_clear true)) with 0. fold c'.
    change (Vault.pv_lock c') with (Vault.pv_lock c'). rewrite Hl'. done.
  - split; [|cbn [Vault.pcr_control set_pcr Vault.set_pcrs Vault.set_pcr_control]; by rewrite length_insert]. apply set_pcr_wf; [done..|]. apply Forall_replicate. ulia.
  - by eapply (ctrl_insert_locks _ _ id c c'); [done|congruence|].
  - intros j Hj. case_decide as E; [subst; by apply pcr_set_same|].
    by rewrite (pcr_set_other id).
Qed.

Lemma set_pcr_lock_run id v : bank_wf v → (id < 32)%nat →
  ∃ v', KvDriver.set_pcr_lock id v = (Ok tt, v') ∧ bank_wf v' ∧ Vault.pcrs v' = Vault.pcrs v ∧ pcr_locked id v' ∧
    (∀ j, pcr_locked j v → pcr_locked j v') ∧ ∀ j, j ≠ id → pcr_unlocked j v → pcr_unlocked j v'.
Proof.
  intros [Hw Hn] Hi. destruct (lookup_lt_is_Some_2 (Vault.pcr_control v) id) as [c Hc]; [lia|].
  set (c' := fset 0 1 (Z.lor (Vault.pv_lock c) 1) c).
  assert (Hl' : Vault.pv_lock c' = 1).
  { unfold c'. rewrite (pcr_lock_after c 1 : Vault.pv_lock (fset 0 1 (Z.lor (Vault.pv_lock c) 1) c) = _).
    rewrite Z.lor_comm. apply lor_one, lock_01. lia. }
  assert (Hid : <[id := c']> (Vault.pcr_control v) !! id = Some c') by (apply list_lookup_insert_eq; lia).
  exists (Vault.set_pcr_control (<[id := c']> (Vault.pcr_control v)) v). split_and!.
  - unfold KvDriver.set_pcr_lock, KvDriver.mmio, Vault.write_pcr_ctrl. rewrite Hc. cbn [unwrap mbind res_bind].
    change (Vault.pv_lock (KvDriver.w_pcr_lock true)) with 1. fold c'. by rewrite Hl'.
  - split; [done|]. cbn [Vault.pcr_control Vault.set_pcr_control]. by rewrite length_insert.
  - done.
  - by exists c'.
  - intros j (d & Hd & Ld). destruct (decide (j = id)) as [->|Hne]; [by exists c'|].
    exists d. cbn. by rewrite list_lookup_insert_ne.
  - intros j Hne (d & Hd & Ld). exists d. cbn. by rewrite list_lookup_insert_ne.
Qed.

Lemma unlock_unlocked v j : bank_wf v → (j < 32)%nat → pcr_unlocked j (Vault.unlock_vault_registers v).
Proof.
  intros [_ Hn] Hj. destruct (lookup_lt_is_Some_2 (Vault.pcr_control v) j) as [c Hc]; [lia|].
  exists (fset 0 1 0 c). cbn. rewrite list_lookup_fmap, Hc. split; [done|].
  unfold Vault.pv_lock. by rewrite fget_fset_same by lia.
Qed.

Lemma unlock_bank v : bank_wf v → bank_wf (Vault.unlock_vault_registers v) ∧
  Vault.pcrs (Vault.unlock_vault_registers v) = Vault.pcrs v.
Proof. intros [Hw Hn]. split; [|done]. split; [done|]. cbn. by rewrite length_map. Qed.

Lemma seq_split n don a rest : seq 0 n = don ++ a :: rest → a = length don ∧ (length don < n)%nat.
Proof.
  intros Hr. assert (Hl : seq 0 n !! length don = Some a) by (by rewrite Hr, list_lookup_middle).
  apply lookup_seq in Hl. lia.
Qed.

(** [read_pcr] of the driver reads the words of the PCR. *)
Lemma read_pcr_run id v : bank_wf v → (id < 32)%nat → KvDriver.read_pcr id v = (Ok (pcr id v), v).
Proof.
  intros [[Hl _] _] Hi. unfold KvDriver.read_pcr.
  destruct (foldM_ok (λ (acc : list Z) i, w ← KvDriver.mmio_read Vault.pcrs (id * Vault.PCR_SIZE_WORDS + i); mret (acc ++ [w]))
    (λ don acc v', v' = v ∧ acc = take (length don) (drop (id * 12) (Vault.pcrs v))) (seq 0 12))
    with (b := @nil Z) (s := v) as (acc & v' & E & -> & ->).
  - intros don a acc v' [rest Hr] [-> ->].
    destruct (seq_split _ _ _ _ Hr) as [Ha Hd].
    destruct (lookup_lt_is_Some_2 (Vault.pcrs v) (id * 12 + a)) as [x Hx]; [lia|].
    eexists _, v. split; [unfold mbind, M_bind, KvDriver.mmio_read, unwrap; unfold Vault.PCR_SIZE_WORDS; rewrite Hx; done|].
    split; [done|]. rewrite length_app, Nat.add_1_r. symmetry. apply take_S_r. rewrite lookup_drop. by subst a.
  - done.
  - rewrite E. unfold pcr, slice. by rewrite length_seq, Nat.add_comm, Nat.add_sub.
Qed.

Lemma read_all_pcrs_run v : bank_wf v →
  KvDriver.read_all_pcrs v = (Ok (map (λ i, pcr i v) (seq 0 32)), v).
Proof.
  intros Hw. unfold KvDriver.read_all_pcrs.
  destruct (foldM_ok (λ (acc : list (list Z)) i, x ← KvDriver.read_pcr i; mret (acc ++ [x]))
    (λ don acc v', v' = v ∧ acc = map (λ i, pcr i v) don) (seq 0 32))
    with (b := @nil (list Z)) (s := v) as (acc & v' & E & -> & ->); [|done|exact E].
  intros don a acc v' [rest Hr] [-> ->]. destruct (seq_split _ _ _ _ Hr) as [Ha Hd].
  eexists _, v. split; [by rewrite (bind_ok _ _ _ _ _ (read_pcr_run a v Hw ltac:(lia)))|].
  by rewrite map_app.
Qed.

(** * Log entries *)

(** The entry that a measurement leaves in the log. *)
Definition logged (eid : PcrLogEntryId) (ids : Z) (data : list Z) : PcrLogEntry :=
  mkPcrLogEntry (entry_id_value eid) [0; 0] ids (words_le (splice (bytes_le (replicate 12 0)) 0 data)).

Definition data_size_of (eid : PcrLogEntryId) : nat :=
  match eid with IdInvalid => 0 | IdDeviceStatus => 18 | _ => 48 end.

Lemma measured_data_logged eid ids data : is_bytes data → length data = data_size_of eid →
  measured_data (logged eid ids data) = data.
Proof.
  intros Hb Hl. assert (Hle : (length data ≤ 48)%nat) by (rewrite Hl; destruct eid; cbn; lia).
  unfold measured_data, logged. cbn [id pcr_data].
  rewrite bytes_le_words_le.
  - assert (E : take (length data) (splice (bytes_le (replicate 12 0)) 0 data) = data).
    { unfold splice. rewrite take_0, app_nil_l. apply take_app_length. }
    rewrite Hl in E. by destruct eid.
  - apply splice_bytes; [apply bytes_le_bytes|done].
  - rewrite length_splice by (rewrite length_bytes_le, length_replicate; lia).
    rewrite length_bytes_le, length_replicate. by exists 12.
Qed.

Section Boot.
Context `{Sha512CompressOk}.

(** * Replay *)

(** The value of PCR [j] after the entries of a log were extended into [v]. *)
Definition replay_step (j : nat) (v : list Z) (e : PcrLogEntry) : list Z :=
  if Z.testbit (pcr_ids e) (Z.of_nat j) then extend_value v (measured_data e) else v.
Definition replay (j : nat) (log : list PcrLogEntry) (v : list Z) : list Z := foldl (replay_step j) v log.
Definition zeros : list Z := replicate 12 0.

Lemma replay_app j l1 l2 v : replay j (l1 ++ l2) v = replay j l2 (replay j l1 v).
Proof. apply foldl_app. Qed.

(** Entries that name no PCR. *)
Lemma replay_none j l v : Forall (λ e, Z.testbit (pcr_ids e) (Z.of_nat j) = false) l → replay j l v = v.
Proof. induction 1 as [|e l He Hl IH]; [done|]. cbn. unfold replay_step at 2. by rewrite He. Qed.

#[local] Opaque extend_value.

(** * Operations on the state *)

(** The state is [b0] but for the devices and the PCR log. *)
Record at_ (b0 : Boot) (v : Vault.KeyVaultRegs) (l : list PcrLogEntry) (i : Z) (b : Boot) : Prop := {
  at_calm : calm (world b);
  at_vault : key_vault (world b) = v;
  at_bank : bank_wf v;
  at_log : pcr_log b = l;
  at_index : pcr_log_index b = i;
  at_len : length l = 17%nat;
  at_dv : data_vault b = data_vault b0;
  at_meas : measurement_log b = measurement_log b0 ∧ meas_log_index b = meas_log_index b0;
  at_ctrs : pcr_reset b = pcr_reset b0
}.

(** [v'] is [v] with [data] extended into the PCRs of [ids]. *)
Definition extends (ids : list nat) (data : list Z) (v v' : Vault.KeyVaultRegs) : Prop :=
  bank_wf v' ∧ same_locks v v' ∧
  ∀ j, (j < 32)%nat → pcr j v' = if bool_decide (j ∈ ids) then extend_value (pcr j v) data else pcr j v.

Lemma extend_pcr_at b0 v l i b j data : at_ b0 v l i b → (j < 32)%nat → is_bytes data → (length data ≤ 79)%nat →
  ∃ b' v', extend_pcr j data b = (Ok tt, b') ∧ at_ b0 v' l i b' ∧ extends [j] data v v'.
Proof.
  intros [A1 A2 [A3 A3'] A4 A5 A6 A7 A8 A9] Hj Hb Hd. subst v.
  destruct (pcr_extend_run j data (world b) A1 A3 Hj Hb Hd) as (w' & E & C & _ & V).
  exists (set_world w' b), (key_vault w'). unfold extend_pcr, on_world. rewrite E.
  assert (W : bank_wf (key_vault w')).
  { rewrite V. split; [|done]. apply set_pcr_wf; [done..|apply length_extend|apply extend_words]. }
  split; [done|]. split; [by constructor|]. split; [done|]. rewrite V. split; [apply set_pcr_locks|].
  intros k Hk. case_bool_decide as Ek.
  - apply list_elem_of_singleton in Ek as ->. apply pcr_set_same; [done..|apply length_extend].
  - rewrite list_elem_of_singleton in Ek. apply pcr_set_other; [done..|apply length_extend].
Qed.

Lemma extends_two j k data v v1 v2 : j ≠ k → extends [j] data v v1 → extends [k] data v1 v2 → extends [j; k] data v v2.
Proof.
  intros Hne (W1 & L1 & P1) (W2 & L2 & P2). split; [done|]. split; [by eapply same_locks_trans|].
  intros i Hi. rewrite P2, P1 by done. repeat case_bool_decide; done || (exfalso; set_solver).
Qed.

Lemma erase_pcr_at b0 v l i b j : at_ b0 v l i b → (j < 32)%nat → pcr_unlocked j v →
  ∃ b' v', erase_pcr j b = (Ok tt, b') ∧ at_ b0 v' l i b' ∧ same_locks v v' ∧
    ∀ k, (k < 32)%nat → pcr k v' = if decide (k = j) then zeros else pcr k v.
Proof.
  intros [A1 A2 A3 A4 A5 A6 A7 A8 A9] Hj Hu. subst v.
  destruct (erase_pcr_run j _ A3 Hj Hu) as (v' & E & W & L & P).
  eexists _, v'. unfold erase_pcr, on_vault. rewrite E. split; [reflexivity|]. split; [|done].
  constructor; try done. destruct A1 as [Q T]. split; [|done]. by destruct Q.
Qed.

Lemma set_pcr_lock_at b0 v l i b j : at_ b0 v l i b → (j < 32)%nat →
  ∃ b' v', set_pcr_lock j b = (Ok tt, b') ∧ at_ b0 v' l i b' ∧ Vault.pcrs v' = Vault.pcrs v ∧ pcr_locked j v' ∧
    (∀ k, pcr_locked k v → pcr_locked k v') ∧ ∀ k, k ≠ j → pcr_unlocked k v → pcr_unlocked k v'.
Proof.
  intros [A1 A2 A3 A4 A5 A6 A7 A8 A9] Hj. subst v.
  destruct (set_pcr_lock_run j _ A3 Hj) as (v' & E & W & P & L & K).
  eexists _, v'. unfold set_pcr_lock, on_vault. rewrite E. split; [reflexivity|]. split; [|done].
  constructor; try done. destruct A1 as [Q T]. split; [|done]. by destruct Q.
Qed.

Definition fmc_ids : Z := 3.
Definition rt_ids : Z := 12.

Lemma rom_extend_at b0 v l i b data eid : at_ b0 v l i b → is_bytes data → (length data ≤ 48)%nat →
  eid ≠ IdInvalid → 0 ≤ i < 17 →
  ∃ b' v', rom_extend data eid b = (Ok tt, b') ∧
    at_ b0 v' (<[Z.to_nat i := logged eid fmc_ids data]> l) (i + 1) b' ∧ extends [0; 1]%nat data v v'.
Proof.
  intros Ha Hb Hd He Hi. unfold rom_extend.
  destruct (extend_pcr_at b0 v l i b 0 data Ha) as (b1 & v1 & E1 & A1 & X1); [lia|done|lia|].
  rewrite (bind_ok _ _ _ _ _ E1).
  destruct (extend_pcr_at b0 v1 l i b1 1 data A1) as (b2 & v2 & E2 & A2 & X2); [lia|done|lia|].
  rewrite (bind_ok _ _ _ _ _ E2). unfold rom_log_pcr.
  rewrite bind_fail_if by (by apply bool_decide_false). rewrite bind_get.
  destruct A2 as [C1 C2 C3 C4 C5 C6 C7 C8 C9].
  rewrite bind_fail_if by (rewrite C4, C5, C6; apply Z.leb_gt; lia).
  rewrite bind_fail_if by (apply Nat.ltb_ge; lia).
  eexists _, v2. split; [reflexivity|]. split; [|by eapply extends_two].
  constructor; try done; cbn; rewrite ?C4, ?C5; [done|done|]. by rewrite length_insert.
Qed.

Lemma extend_and_log_at b0 v l i b data eid : at_ b0 v l i b → is_bytes data → (length data ≤ 48)%nat → 0 ≤ i < 17 →
  ∃ b' v', extend_and_log eid data b = (Ok tt, b') ∧
    at_ b0 v' (<[Z.to_nat i := logged eid rt_ids data]> l) (i + 1) b' ∧ extends [2; 3]%nat data v v'.
Proof.
  intros Ha Hb Hd Hi. unfold extend_and_log.
  destruct (extend_pcr_at b0 v l i b 2 data Ha) as (b1 & v1 & E1 & A1 & X1); [lia|done|lia|].
  rewrite (bind_ok _ _ _ _ _ E1).
  destruct (extend_pcr_at b0 v1 l i b1 3 data A1) as (b2 & v2 & E2 & A2 & X2); [lia|done|lia|].
  rewrite (bind_ok _ _ _ _ _ E2). unfold fmc_log_pcr. rewrite bind_get.
  destruct A2 as [C1 C2 C3 C4 C5 C6 C7 C8 C9].
  rewrite bind_fail_if by (rewrite C4, C5, C6; apply Z.leb_gt; lia). rewrite bind_modify.
  rewrite (proj2 (Nat.ltb_ge 48 (length data))) by lia.
  eexists _, v2. split; [reflexivity|]. split; [|by eapply extends_two].
  constructor; try done; cbn; rewrite ?C4, ?C5; [by rewrite list_insert_insert_eq|done|]. by rewrite length_insert.
Qed.

(** * What ROM measures *)

Definition tci_wf (ws : list Z) : Prop := length ws = 12%nat.
Definition dv_wf (dv : DataVault) : Prop :=
  tci_wf (dv_owner_pk_hash (cold_reset_entries dv)) ∧ tci_wf (fmc_tci (cold_reset_entries dv)) ∧ tci_wf (rt_tci dv).
Definition soc_wf (soc : SocIfcRegs) : Prop := tci_wf (vendor_pub_key_info_hash (fuse_regs soc)).

Definition rom_data (soc : SocIfcRegs) (dv : DataVault) : list (PcrLogEntryId * list Z) :=
  [(IdDeviceStatus, device_status soc dv);
   (IdVendorPubKeyInfoHash, bytes_be (vendor_pub_key_info_hash (fuse_regs soc)));
   (IdOwnerPubKeyHash, bytes_be (dv_owner_pk_hash (cold_reset_entries dv)));
   (IdFmcTci, bytes_be (fmc_tci (cold_reset_entries dv)))].
Definition rom_entries (soc : SocIfcRegs) (dv : DataVault) : list PcrLogEntry :=
  map (λ '(e, d), logged e fmc_ids d) (rom_data soc dv).
Definition rt_entry (dv : DataVault) : PcrLogEntry := logged IdRtTci rt_ids (bytes_be (rt_tci dv)).

Lemma device_status_bytes soc dv : is_bytes (device_status soc dv).
Proof.
  assert (Hb : ∀ x : bool, is_u8 (Z.b2z x)) by (intros []; unfold in_u; cbn; lia).
  assert (Hw : ∀ x, is_u8 (u8w x)) by (intros x; by apply wrap_in_u).
  assert (Hn : ∀ k x, is_u8 (nth k (to_le 4 x) 0)).
  { intros k x. destruct (nth_in_or_default k (to_le 4 x) 0) as [Hi| ->]; [|ulia].
    eapply Forall_forall; [apply (to_le_bytes 4 x)|by apply list_elem_of_In]. }
  unfold device_status. cbv zeta. repeat (apply Forall_cons; split; [auto|]).
  all: try (destruct (lifecycle soc); unfold in_u; cbn; lia); auto.
Qed.

Lemma tci_bytes ws : tci_wf ws → is_bytes (bytes_be ws) ∧ length (bytes_be ws) = 48%nat.
Proof. intros Hl. split; [apply bytes_be_bytes|]. by rewrite length_bytes_be, Hl. Qed.

(** What the measurements do to the bank: [ids] are extended with [ds] in order. *)
Definition extends_all (ids : list nat) (ds : list (list Z)) (v v' : Vault.KeyVaultRegs) : Prop :=
  bank_wf v' ∧ same_locks v v' ∧
  ∀ j, (j < 32)%nat → pcr j v' = if bool_decide (j ∈ ids) then foldl extend_value (pcr j v) ds else pcr j v.

Lemma extends_all_cons ids d ds v v1 v2 : extends ids d v v1 → extends_all ids ds v1 v2 → extends_all ids (d :: ds) v v2.
Proof.
  intros (W1 & L1 & P1) (W2 & L2 & P2). split; [done|]. split; [by eapply same_locks_trans|].
  intros j Hj. rewrite P2, P1 by done. by case_bool_decide.
Qed.

Lemma extends_all_nil ids v : bank_wf v → extends_all ids [] v v.
Proof. intros W. split; [done|]. split; [apply same_locks_refl|]. intros. by case_bool_decide. Qed.

Lemma rom_extend_pcrs_at b0 v l i b soc : at_ b0 v l i b → pcr_unlocked 0 v → dv_wf (data_vault b0) → soc_wf soc →
  ∃ b' v0 v', rom_extend_pcrs soc b = (Ok tt, b') ∧
    at_ b0 v' (rom_entries soc (data_vault b0) ++ drop 4 l) 4 b' ∧ same_locks v v0 ∧
    (∀ k, (k < 32)%nat → pcr k v0 = if decide (k = 0%nat) then zeros else pcr k v) ∧
    extends_all [0; 1]%nat (map snd (rom_data soc (data_vault b0))) v0 v'.
Proof.
  intros Ha Hu (D1 & D2 & _) Hs. unfold rom_extend_pcrs. rewrite bind_get, (at_dv _ _ _ _ _ Ha).
  set (dv := data_vault b0) in *. rewrite bind_modify.
  assert (A0 : at_ b0 v l 0 (set_log (pcr_log b) 0 b)) by (by destruct Ha).
  destruct (erase_pcr_at _ _ _ _ _ 0 A0) as (b1 & v1 & E1 & A1 & L1 & P1); [lia|done|].
  rewrite (bind_ok _ _ _ _ _ E1).
  destruct (rom_extend_at _ _ _ _ _ (device_status soc dv) IdDeviceStatus A1) as (b2 & v2 & E2 & A2 & X2);
    [apply device_status_bytes|cbn; lia|done|lia|]. rewrite (bind_ok _ _ _ _ _ E2).
  destruct (tci_bytes _ Hs) as [B3 N3].
  destruct (rom_extend_at _ _ _ _ _ _ IdVendorPubKeyInfoHash A2 B3) as (b3 & v3 & E3 & A3 & X3); [lia|done|lia|].
  rewrite (bind_ok _ _ _ _ _ E3). destruct (tci_bytes _ D1) as [B4 N4].
  destruct (rom_extend_at _ _ _ _ _ _ IdOwnerPubKeyHash A3 B4) as (b4 & v4 & E4 & A4 & X4); [lia|done|lia|].
  rewrite (bind_ok _ _ _ _ _ E4). destruct (tci_bytes _ D2) as [B5 N5].
  destruct (rom_extend_at _ _ _ _ _ _ IdFmcTci A4 B5) as (b5 & v5 & E5 & A5 & X5); [lia|done|lia|].
  exists b5, v1, v5. split; [exact E5|]. split_and!; [|done|done|].
  - pose proof (at_len _ _ _ _ _ Ha) as Hl. do 4 (destruct l as [|? l]; [done|]). exact A5.
  - do 4 (eapply extends_all_cons; [done|]). apply extends_all_nil, A5.
Qed.

(** Locking a list of PCRs. *)
Definition locked_all (ids : list nat) (v v' : Vault.KeyVaultRegs) : Prop :=
  Vault.pcrs v' = Vault.pcrs v ∧ (∀ k, k ∈ ids → pcr_locked k v') ∧
  (∀ k, pcr_locked k v → pcr_locked k v') ∧ ∀ k, k ∉ ids → pcr_unlocked k v → pcr_unlocked k v'.

Lemma locked_all_cons k ids v v1 v2 : Vault.pcrs v1 = Vault.pcrs v → pcr_locked k v1 →
  (∀ j, pcr_locked j v → pcr_locked j v1) → (∀ j, j ≠ k → pcr_unlocked j v → pcr_unlocked j v1) →
  locked_all ids v1 v2 → locked_all (k :: ids) v v2.
Proof.
  intros P L K U (P2 & L2 & K2 & U2). split; [congruence|]. split_and!.
  - intros j [->|Hj]%elem_of_cons; auto.
  - auto.
  - intros j Hj Hu. apply not_elem_of_cons in Hj as [? ?]. auto.
Qed.

Lemma locked_all_nil v : locked_all [] v v.
Proof. split_and!; try done. by intros k ?%elem_of_nil. Qed.

Lemma rom_lock_at b0 v l i b : at_ b0 v l i b →
  ∃ b' v', rom_lock_pcrs b = (Ok tt, b') ∧ at_ b0 v' l i b' ∧ locked_all [0; 1; 31]%nat v v'.
Proof.
  intros Ha. unfold rom_lock_pcrs.
  destruct (set_pcr_lock_at _ _ _ _ _ 0 Ha) as (b1 & v1 & E1 & A1 & P1 & L1 & K1 & U1); [lia|].
  rewrite (bind_ok _ _ _ _ _ E1).
  destruct (set_pcr_lock_at _ _ _ _ _ 1 A1) as (b2 & v2 & E2 & A2 & P2 & L2 & K2 & U2); [lia|].
  rewrite (bind_ok _ _ _ _ _ E2).
  destruct (set_pcr_lock_at _ _ _ _ _ 31 A2) as (b3 & v3 & E3 & A3 & P3 & L3 & K3 & U3); [lia|].
  exists b3, v3. split; [exact E3|]. split; [done|].
  do 3 (eapply locked_all_cons; [done..|]). apply locked_all_nil.
Qed.

(** * What FMC measures *)

Lemma extend_pcr_common_at b0 v l i b : at_ b0 v l i b → pcr_unlocked 2 v → dv_wf (data_vault b0) → 0 ≤ i < 17 →
  ∃ b' v', extend_pcr_common b = (Ok tt, b') ∧
    at_ b0 v' (<[Z.to_nat i := rt_entry (data_vault b0)]> l) (i + 1) b' ∧ same_locks v v' ∧
    ∀ k, (k < 32)%nat → pcr k v' =
      if decide (k = 2%nat) then extend_value zeros (bytes_be (rt_tci (data_vault b0)))
      else if decide (k = 3%nat) then extend_value (pcr 3 v) (bytes_be (rt_tci (data_vault b0))) else pcr k v.
Proof.
  intros Ha Hu (_ & _ & D) Hi. unfold extend_pcr_common. rewrite bind_get, (at_dv _ _ _ _ _ Ha).
  set (dv := data_vault b0) in *.
  destruct (erase_pcr_at _ _ _ _ _ 2 Ha) as (b1 & v1 & E1 & A1 & L1 & P1); [lia|done|].
  rewrite (bind_ok _ _ _ _ _ E1). destruct (tci_bytes _ D) as [B2 N2].
  destruct (extend_and_log_at _ _ _ _ _ _ IdRtTci A1 B2) as (b2 & v2 & E2 & A2 & W2 & L2 & P2); [lia|done|].
  exists b2, v2. split; [exact E2|]. split; [done|]. split; [by eapply same_locks_trans|].
  intros k Hk. rewrite P2, P1 by done. repeat case_decide; subst; try done;
    case_bool_decide; done || (exfalso; set_solver).
Qed.

(** The prediction is the value that the current PCR would have. *)
Lemma predict_pcr_value_at b0 v l i b : at_ b0 v l i b → dv_wf (data_vault b0) →
  ∃ b', predict_pcr_value b = (Ok (extend_value zeros (bytes_be (rt_tci (data_vault b0)))), b') ∧ at_ b0 v l i b'.
Proof.
  intros [A1 A2 A3 A4 A5 A6 A7 A8 A9] (_ & _ & D). unfold predict_pcr_value. rewrite bind_get, A7.
  destruct (tci_bytes _ D) as [B N]. set (tci := bytes_be (rt_tci (data_vault b0))) in *.
  assert (Bz : is_bytes (bytes_be (replicate 12 0))) by apply bytes_be_bytes.
  destruct (digest_init_absorbed ShaMode384 (world b) (proj1 A1)) as (op0 & E0 & M0 & _ & S0).
  destruct (op_update_absorbed op0 _ _ _ S0 Bz) as (op1 & w1 & E1 & S1 & M1 & V1 & _); [by vm_compute|by vm_compute|].
  destruct (op_update_absorbed op1 _ _ tci S1 B) as (op2 & w2 & E2 & S2 & M2 & V2 & _).
  { rewrite N. by vm_compute. }
  { rewrite N. by vm_compute. }
  destruct (op_finalize_absorbed op2 _ _ S2) as (w3 & E3 & Q3 & R3 & V3).
  exists (set_world w3 b). rewrite M2, M1, M0 in E3. split.
  - unfold on_world. rewrite (bind_ok _ _ _ _ _ E0), (bind_ok _ _ _ _ _ E1), (bind_ok _ _ _ _ _ E2), E3. done.
  - constructor; try done; [by apply ready_calm|]. cbn. congruence.
Qed.

(** Whether FMC measures the runtime: always on a cold reset, and on an update
    when the current PCR would change. *)
Definition measures (reason : ResetReason) (val prev : list Z) : bool :=
  match reason with ColdReset => true | UpdateReset => bool_decide (val ≠ prev) | _ => false end.

(** The PCRs after FMC, of which [new] tells whether it measured. *)
Definition rt_pcrs (new : bool) (tci : list Z) (v v' : Vault.KeyVaultRegs) : Prop :=
  ∀ k, (k < 32)%nat → pcr k v' =
    if decide (k = 2%nat) then extend_value zeros tci
    else if decide (k = 3%nat) then (if new then extend_value (pcr 3 v) tci else pcr 3 v) else pcr k v.

Lemma fmc_extend_pcrs_at b0 v l i b reason : at_ b0 v l i b → pcr_unlocked 2 v → dv_wf (data_vault b0) → 0 ≤ i < 17 →
  reason = ColdReset ∨ reason = UpdateReset →
  let tci := bytes_be (rt_tci (data_vault b0)) in
  let new := measures reason (extend_value zeros tci) (pcr 2 v) in
  ∃ b' v', fmc_extend_pcrs reason b = (Ok tt, b') ∧ same_locks v v' ∧ rt_pcrs new tci v v' ∧
    at_ b0 v' (if new then <[Z.to_nat i := rt_entry (data_vault b0)]> l else l) (if new then i + 1 else i) b'.
Proof.
  intros Ha Hu Hd Hi [-> | ->] tci new.
  - destruct (extend_pcr_common_at b0 v l i b Ha Hu Hd Hi) as (b' & v' & E & A & L & P).
    exists b', v'. exact (conj E (conj L (conj P A))).
  - destruct (predict_pcr_value_at b0 v l i b Ha Hd) as (b1 & E1 & A1). cbn [fmc_extend_pcrs].
    rewrite (bind_ok _ _ _ _ _ E1). fold tci.
    assert (E2 : on_vault (KvDriver.read_pcr RT_FW_CURRENT_PCR) b1 = (Ok (pcr 2 v), b1)).
    { unfold on_vault, RT_FW_CURRENT_PCR. destruct A1 as [C1 C2 C3 _ _ _ _ _ _]. rewrite C2.
      rewrite (read_pcr_run 2 v C3) by lia. rewrite <- C2. by destruct b1 as [[]]. }
    rewrite (bind_ok _ _ _ _ _ E2). unfold new. cbn [measures].
    destruct (decide (extend_value zeros tci = pcr 2 v)) as [Ev|Ev].
    + rewrite (bool_decide_true _ Ev), (bool_decide_false (_ ≠ _)) by (by intros []).
      exists b1, v. split; [done|]. split; [apply same_locks_refl|]. split; [|done].
      intros k Hk. repeat case_decide; by subst.
    + rewrite (bool_decide_false _ Ev), (bool_decide_true (_ ≠ _)) by done.
      destruct (extend_pcr_common_at b0 v l i b1 A1 Hu Hd Hi) as (b' & v' & E & A & L & P).
      exists b', v'. exact (conj E (conj L (conj P A))).
Qed.

(** * A boot *)

(** The measurements of ROM and FMC after a reset. *)
Definition firmware_boot (soc : SocIfcRegs) (reason : ResetReason) : M Boot unit :=
  rom_extend_pcrs soc;; rom_lock_pcrs;; rt_alias_measure reason.

Lemma rt_alias_measure_at b0 v l i b reason : at_ b0 v l i b → pcr_unlocked 2 v → dv_wf (data_vault b0) → 0 ≤ i < 17 →
  reason = ColdReset ∨ reason = UpdateReset →
  let tci := bytes_be (rt_tci (data_vault b0)) in
  let new := measures reason (extend_value zeros tci) (pcr 2 v) in
  ∃ b' v1 v', rt_alias_measure reason b = (Ok tt, b') ∧ same_locks v v1 ∧ rt_pcrs new tci v v1 ∧
    locked_all [2; 3]%nat v1 v' ∧
    at_ b0 v' (if new then <[Z.to_nat i := rt_entry (data_vault b0)]> l else l) (if new then i + 1 else i) b'.
Proof.
  intros Ha Hu Hd Hi Hr tci new.
  destruct (fmc_extend_pcrs_at b0 v l i b reason Ha Hu Hd Hi Hr) as (b1 & v1 & E1 & L1 & P1 & A1).
  fold tci in P1, A1. fold new in P1, A1. unfold rt_alias_measure. rewrite (bind_ok _ _ _ _ _ E1).
  destruct (set_pcr_lock_at _ _ _ _ _ 2 A1) as (b2 & v2 & E2 & A2 & P2 & L2 & K2 & U2); [lia|].
  rewrite (bind_ok _ _ _ _ _ E2).
  destruct (set_pcr_lock_at _ _ _ _ _ 3 A2) as (b3 & v3 & E3 & A3 & P3 & L3 & K3 & U3); [lia|].
  exists b3, v1, v3. split; [exact E3|]. split_and!; try done.
  do 2 (eapply locked_all_cons; [done..|]). apply locked_all_nil.
Qed.

Lemma pcr_same v v' k : Vault.pcrs v' = Vault.pcrs v → pcr k v' = pcr k v.
Proof. intros E. unfold pcr. by rewrite E. Qed.

(** The PCRs after a boot from the bank [v]. *)
Definition booted (soc : SocIfcRegs) (dv : DataVault) (new : bool) (v v' : Vault.KeyVaultRegs) : Prop :=
  let ds := map snd (rom_data soc dv) in
  let tci := bytes_be (rt_tci dv) in
  pcr 0 v' = foldl extend_value zeros ds ∧ pcr 1 v' = foldl extend_value (pcr 1 v) ds ∧
  pcr 2 v' = extend_value zeros tci ∧ pcr 3 v' = (if new then extend_value (pcr 3 v) tci else pcr 3 v) ∧
  (∀ k, (4 ≤ k < 32)%nat → pcr k v' = pcr k v) ∧ ∀ k, k ∈ [0; 1; 2; 3; 31]%nat → pcr_locked k v'.

Lemma firmware_boot_at b0 v l i b soc reason : at_ b0 v l i b → pcr_unlocked 0 v → pcr_unlocked 2 v →
  dv_wf (data_vault b0) → soc_wf soc → reason = ColdReset ∨ reason = UpdateReset →
  let dv := data_vault b0 in
  let new := measures reason (extend_value zeros (bytes_be (rt_tci dv))) (pcr 2 v) in
  ∃ b' v', firmware_boot soc reason b = (Ok tt, b') ∧ booted soc dv new v v' ∧
    at_ b0 v' (rom_entries soc dv ++ (if new then rt_entry dv :: drop 5 l else drop 4 l)) (if new then 5 else 4) b'.
Proof.
  intros Ha Hu0 Hu2 Hd Hs Hr dv new. pose proof (at_len _ _ _ _ _ Ha) as Hl. unfold firmware_boot.
  destruct (rom_extend_pcrs_at b0 v l i b soc Ha Hu0 Hd Hs) as (b1 & v0 & v1 & E1 & A1 & L0 & P0 & W1 & L1 & P1).
  rewrite (bind_ok _ _ _ _ _ E1).
  destruct (rom_lock_at _ _ _ _ _ A1) as (b2 & v2 & E2 & A2 & P2 & L2 & K2 & U2). rewrite (bind_ok _ _ _ _ _ E2).
  assert (Hu2' : pcr_unlocked 2 v2).
  { apply U2; [set_solver|]. eapply same_locks_unlocked; [done|]. by eapply same_locks_unlocked. }
  destruct (rt_alias_measure_at _ _ _ _ _ reason A2 Hu2' Hd) as (b3 & v3 & v4 & E3 & L3 & P3 & (Q4 & L4 & K4 & _) & A3);
    [lia|done|].
  assert (Q : ∀ k, (k < 32)%nat → pcr k v2 = if bool_decide (k ∈ [0; 1]%nat)
    then foldl extend_value (if decide (k = 0%nat) then zeros else pcr k v) (map snd (rom_data soc dv)) else pcr k v).
  { intros k Hk. rewrite (pcr_same v1 v2 k P2), P1, P0 by done. case_bool_decide as Ek; [reflexivity|].
    rewrite decide_False; [reflexivity|]. intros ->. apply Ek. left. }
  assert (Ep : pcr 2 v2 = pcr 2 v) by (by rewrite Q by lia). rewrite Ep in P3, A3. fold dv in P3, A3. fold new in P3, A3.
  exists b3, v4. split; [exact E3|]. split.
  - unfold booted. cbv zeta. rewrite !(pcr_same v3 v4 _ Q4), !P3, !Q by lia. split_and!; try done.
    + intros k Hk. rewrite (pcr_same v3 v4 _ Q4), P3 by lia. rewrite !decide_False by lia. rewrite Q by lia.
      rewrite bool_decide_false; [done|]. intros [?|?%list_elem_of_singleton]%elem_of_cons; lia.
    + intros k Hk. destruct (decide (k ∈ [2; 3]%nat)) as [Hin|Hin]; [by apply L4|]. apply K4.
      eapply same_locks_locked; [exact L3|]. apply L2. revert Hk Hin. clear. set_solver.
  - destruct new; [|exact A3]. change (Z.to_nat 4) with (length (rom_entries soc dv)) in A3.
    do 5 (destruct l as [|? l]; [discriminate Hl|]). exact A3.
Qed.

(** ** Replaying what a boot logs *)

Lemma replay_logged j ids l x : Forall (λ '(e, d), is_bytes d ∧ length d = data_size_of e) l →
  replay j (map (λ '(e, d), logged e ids d) l) x =
    if Z.testbit ids (Z.of_nat j) then foldl extend_value x (map snd l) else x.
Proof.
  intros Hl. revert x. induction Hl as [|[e d] l [Hb Hn] Hl IH]; intros x; [by destruct (Z.testbit _ _)|].
  unfold replay in *. cbn [map foldl snd]. rewrite IH. unfold replay_step. cbn [logged pcr_ids].
  rewrite measured_data_logged by done. by destruct (Z.testbit _ _).
Qed.

Lemma rom_data_sizes soc dv : soc_wf soc → dv_wf dv →
  Forall (λ '(e, d), is_bytes d ∧ length d = data_size_of e) (rom_data soc dv).
Proof.
  intros Hs (D1 & D2 & _). apply Forall_cons. split; [split; [apply device_status_bytes|done]|].
  repeat (apply Forall_cons; split; [by apply tci_bytes|]). constructor.
Qed.

Lemma replay_rom j soc dv x : soc_wf soc → dv_wf dv →
  replay j (rom_entries soc dv) x =
    if Z.testbit fmc_ids (Z.of_nat j) then foldl extend_value x (map snd (rom_data soc dv)) else x.
Proof. intros Hs Hd. apply replay_logged. by apply rom_data_sizes. Qed.

Lemma replay_rt j dv x : dv_wf dv →
  replay j [rt_entry dv] x = if Z.testbit rt_ids (Z.of_nat j) then extend_value x (bytes_be (rt_tci dv)) else x.
Proof.
  intros (_ & _ & D). apply (replay_logged j rt_ids [(IdRtTci, bytes_be (rt_tci dv))]).
  apply Forall_singleton. by apply tci_bytes.
Qed.

Lemma replay_default j n x : replay j (replicate n default_entry) x = x.
Proof. apply replay_none, Forall_replicate. apply Z.testbit_0_l. Qed.

(** * Measurements stashed before the firmware is loaded *)

Definition stash_ok (cmd : list Z) : Prop := is_bytes cmd ∧ length cmd = 108%nat.
Definition stash_data (cmd : list Z) : list Z := slice cmd 8 56.
Definition stash_entry (cmd : list Z) : MeasurementLogEntry :=
  mkMeasurementLogEntry
    (mkPcrLogEntry 5 [0; 0] (Z.shiftl 1 31) (words_le (stash_data cmd)))
    (slice cmd 4 8) (words_le (slice cmd 56 104)) (from_le (slice cmd 104 108)) [0; 0; 0; 0].

Lemma stash_data_ok cmd : stash_ok cmd → is_bytes (stash_data cmd) ∧ length (stash_data cmd) = 48%nat.
Proof.
  intros [Hb Hl]. unfold stash_data, slice. split; [by apply Forall_take, Forall_drop|].
  rewrite length_take, length_drop. lia.
Qed.

Lemma measured_stash cmd : stash_ok cmd → measured_data (pcr_entry (stash_entry cmd)) = stash_data cmd.
Proof.
  intros Hc. destruct (stash_data_ok cmd Hc) as [Hb Hl].
  change (take 48 (bytes_le (words_le (stash_data cmd))) = stash_data cmd).
  rewrite bytes_le_words_le; [|done|rewrite Hl; by exists 12]. apply take_ge. lia.
Qed.

(** After [cmds] were stashed. *)
Record stashed (b0 : Boot) (cmds : list (list Z)) (b : Boot) : Prop := {
  s_calm : calm (world b);
  s_bank : bank_wf (key_vault (world b));
  s_locks : same_locks (key_vault (world b0)) (key_vault (world b));
  s_pcr : pcr 31 (key_vault (world b)) =
            foldl extend_value (pcr 31 (key_vault (world b0))) (map stash_data cmds);
  s_others : ∀ j, (j < 31)%nat → pcr j (key_vault (world b)) = pcr j (key_vault (world b0));
  s_log : measurement_log b = map stash_entry cmds ++ drop (length cmds) (measurement_log b0);
  s_index : meas_log_index b = Z.of_nat (length cmds);
  s_rest : pcr_log b = pcr_log b0 ∧ pcr_log_index b = pcr_log_index b0 ∧ data_vault b = data_vault b0 ∧
           pcr_reset b = pcr_reset b0
}.

Lemma process_stash_step b0 cmds b cmd : stashed b0 cmds b → length (measurement_log b0) = 8%nat →
  (length cmds < 8)%nat → stash_ok cmd →
  ∃ b', process_stash cmd b = (Ok 12, b') ∧ stashed b0 (cmds ++ [cmd]) b'.
Proof.
  intros [S1 [S2 S2'] S3 S4 S5 S6 S7 S8] Hm Hn Hc. destruct (stash_data_ok cmd Hc) as [Hb Hl].
  unfold process_stash. rewrite bind_get, S7.
  rewrite bind_fail_if by (apply Z.eqb_neq; unfold MEASUREMENT_MAX_COUNT; lia).
  unfold stash_measurement, parse_stash. rewrite (proj2 Hc). change (108 =? 108)%nat with true. cbv iota.
  unfold extend_measurement. rewrite bind_assoc.
  destruct (pcr_extend_run 31 (stash_data cmd) (world b) S1 S2) as (w' & E & C & _ & V); [lia|done|lia|].
  assert (E' : extend_pcr PCR_ID_STASH_MEASUREMENT (req_measurement (mkStashMeasurementReq (slice cmd 4 8)
    (slice cmd 8 56) (slice cmd 56 104) (from_le (slice cmd 104 108)))) b = (Ok tt, set_world w' b)).
  { change (on_world (pcr_extend 31 (stash_data cmd)) b = (Ok tt, set_world w' b)). unfold on_world. by rewrite E. }
  rewrite (bind_ok _ _ _ _ _ E'). unfold log_measurement. rewrite bind_assoc, bind_get.
  assert (Hml : length (measurement_log (set_world w' b)) = 8%nat).
  { change (length (measurement_log b) = 8%nat). rewrite S6, length_app, length_map, length_drop. lia. }
  rewrite bind_assoc, bind_fail_if by (rewrite Hml; change (meas_log_index (set_world w' b)) with (meas_log_index b);
    rewrite S7; apply Z.leb_gt; lia).
  rewrite bind_modify. eexists. split; [reflexivity|].
  constructor; try done; cbn [set_measurements set_world world measurement_log meas_log_index].
  - rewrite V. split; [|done]. apply set_pcr_wf; [done|lia|apply length_extend|apply extend_words].
  - rewrite V. eapply same_locks_trans; [done|]. apply set_pcr_locks.
  - rewrite V, pcr_set_same by (done || lia || apply length_extend). by rewrite S4, map_app, foldl_app.
  - intros j Hj. rewrite V, pcr_set_other by (done || lia || apply length_extend). by apply S5.
  - rewrite S6, S7, Nat2Z.id, map_app, length_app, <- app_assoc.
    rewrite <- (length_map stash_entry cmds) at 1. rewrite insert_app_r_alt by lia. rewrite Nat.sub_diag. f_equal.
    destruct (drop (length cmds) (measurement_log b0)) as [|m ms] eqn:Ed.
    + apply (f_equal length) in Ed. rewrite length_drop in Ed. cbn in Ed. lia.
    + cbn [length]. rewrite <- drop_drop, Ed. done.
  - rewrite S7, length_app. cbn. lia.
Qed.

End Boot.
