(* ===== verification/MeasuredBootTheorems.v ===== *)
(** Measured boot: the PCRs that firmware measurements are extended into are the
    replay of the PCR log, in every state that resets and commands reach; and
    the SHA-384/512 driver, PCR extension and quotes on which this rests. *)

From S2P Require Import Prelude Bits Errors Memory HashPad ImageTypes ImageVerify SocIfc FirmwareEnv AuthManifest.
From S2P Require Import KeyVault KeyVaultProofs Sha512 Sha512Proofs Sha512Digest Sha512Fips Pcr.
From S2P Require Import MeasuredBoot MeasuredBootProofs.
Import Emu512 Sha2 MeasuredBoot.

(** * The life of a device *)

(** After a cold reset the memories are zero (rom/dev/src/start.S), the devices
    are new. *)
Definition default_measurement : MeasurementLogEntry := mkMeasurementLogEntry default_entry (replicate 4 0) (replicate 12 0) 0 [0; 0; 0; 0].
Definition default_dv : DataVault := mkDataVault (mkColdResetEntries (replicate 12 0) (replicate 12 0) 0 0) 0 (replicate 12 0).
Definition cold_state (now : Z) : Boot :=
  mkBoot (mkWorld regs_new Vault.new now) (replicate PCR_LOG_MAX_COUNT default_entry) 0
    (replicate MEASUREMENT_MAX_COUNT default_measurement) 0 default_dv (replicate 32 0).

Definition reset_vault (f : Vault.KeyVaultRegs → Vault.KeyVaultRegs) (b : Boot) : Boot :=
  set_world (set_vault (f (key_vault (world b))) (world b)) b.

(** What the boot that led to this state logged. *)
Definition session (b : Boot) : list PcrLogEntry := take (Z.to_nat (pcr_log_index b)) (pcr_log b).

Section Life.
Context `{Sha512CompressOk}.

#[local] Opaque extend_value.

(** A cold boot: measurements are stashed until the firmware arrives, of which
    the verified values are put into the data vault. *)
Definition cold_boot (stashes : list (list Z)) (soc : SocIfcRegs) (dv : DataVault) : M Boot unit :=
  foldM (λ _ cmd, process_stash cmd;; mret tt) tt stashes;;
  modify (set_data_vault dv);;
  firmware_boot soc ColdReset.

Definition update_boot (soc : SocIfcRegs) (dv : DataVault) : M Boot unit :=
  modify (reset_vault Vault.update_reset);;
  modify (set_data_vault dv);;
  firmware_boot soc UpdateReset.

Definition warm_boot : M Boot unit :=
  modify (reset_vault Vault.warm_reset);;
  rom_lock_pcrs;;
  rt_alias_measure WarmReset.

Lemma cold_state_ok now : stashed (cold_state now) [] (cold_state now) ∧
  (∀ j, (j < 32)%nat → pcr j (key_vault (world (cold_state now))) = zeros) ∧
  ∀ j, (j < 32)%nat → pcr_unlocked j (key_vault (world (cold_state now))).
Proof.
  split_and!.
  - assert (Q : quiet (mkWorld regs_new Vault.new now)).
    { constructor; try done. split; [done|]. split; [|done]. apply (iv_words ShaMode512). }
    constructor; try done.
    + split; [|done]. split; [done|]. apply Forall_replicate. ulia.
    + apply same_locks_refl.
  - intros j Hj. do 32 (destruct j as [|j]; [reflexivity|]). lia.
  - intros j Hj. exists 0. split; [|done]. change (Vault.pcr_control _) with (replicate 32 0).
    by apply lookup_replicate_2.
Qed.

Lemma stash_all now stashes : (length stashes ≤ 8)%nat → Forall stash_ok stashes →
  ∃ b, foldM (λ _ cmd, process_stash cmd;; mret tt) tt stashes (cold_state now) = (Ok tt, b) ∧
    stashed (cold_state now) stashes b.
Proof.
  intros Hn Hs. destruct (foldM_ok (λ (_ : unit) cmd, process_stash cmd;; mret tt)
    (λ don _ b, stashed (cold_state now) don b) stashes) with (b := tt) (s := cold_state now) as ([] & b & E & S).
  - intros don cmd [] b [rest ->] Sb. apply Forall_app in Hs as [_ [Hc _]%Forall_cons].
    rewrite length_app in Hn. cbn in Hn.
    destruct (process_stash_step _ _ b cmd Sb eq_refl ltac:(lia) Hc) as (b' & E & S').
    exists tt, b'. split; [|done]. by rewrite (bind_ok _ _ _ _ _ E).
  - apply cold_state_ok.
  - by exists b.
Qed.

(** The PCRs after a cold boot: journey and current PCRs agree. *)
Definition measured_cold (soc : SocIfcRegs) (dv : DataVault) (v : Vault.KeyVaultRegs) : Prop :=
  let fw := foldl extend_value zeros
    [device_status soc dv; bytes_be (vendor_pub_key_info_hash (fuse_regs soc));
     bytes_be (dv_owner_pk_hash (cold_reset_entries dv)); bytes_be (fmc_tci (cold_reset_entries dv))] in
  let rt := extend_value zeros (bytes_be (rt_tci dv)) in
  pcr 0 v = fw ∧ pcr 1 v = fw ∧ pcr 2 v = rt ∧ pcr 3 v = rt ∧ ∀ k, k ∈ [0; 1; 2; 3; 31]%nat → pcr_locked k v.

(** The state after a cold boot. *)
Lemma cold_boot_run now stashes soc dv : (length stashes ≤ 8)%nat → Forall stash_ok stashes → soc_wf soc → dv_wf dv →
  ∃ b v, cold_boot stashes soc dv (cold_state now) = (Ok tt, b) ∧ key_vault (world b) = v ∧ calm (world b) ∧ bank_wf v ∧
    measured_cold soc dv v ∧ data_vault b = dv ∧ pcr_log_index b = 5 ∧
    pcr_log b = rom_entries soc dv ++ rt_entry dv :: replicate 12 default_entry ∧
    pcr 31 v = foldl extend_value zeros (map stash_data stashes) ∧ (∀ k, (4 ≤ k < 31)%nat → pcr k v = zeros) ∧
    measurement_log b = map stash_entry stashes ++ replicate (8 - length stashes) default_measurement ∧
    meas_log_index b = Z.of_nat (length stashes) ∧ pcr_reset b = replicate 32 0.
Proof.
  intros Hn Hs Hsoc Hdv. destruct (stash_all now stashes Hn Hs) as (b1 & E1 & S).
  destruct (cold_state_ok now) as (_ & Z0 & U0).
  unfold cold_boot. rewrite (bind_ok _ _ _ _ _ E1), bind_modify.
  destruct S as [S1 S2 S3 S4 S5 S6 S7 (R1 & R2 & R3 & R4)]. set (b2 := set_data_vault dv b1).
  assert (A : at_ b2 (key_vault (world b1)) (replicate 17 default_entry) 0 b2) by (by constructor).
  assert (Ua : ∀ j, (j < 32)%nat → pcr_unlocked j (key_vault (world b1))).
  { intros j Hj. eapply same_locks_unlocked; [exact S3|]. by apply U0. }
  destruct (firmware_boot_at b2 _ _ _ b2 soc ColdReset A) as (b' & v' & E & B & A');
    [apply Ua; lia|apply Ua; lia|done|done|by left|].
  cbv zeta in B, A'. cbn [measures] in B, A'. change (data_vault b2) with dv in B, A'.
  destruct B as (B0 & B1 & B2 & B3 & B4 & B5). destruct A' as [C1 C2 C3 C4 C5 C6 C7 [C8 C8'] C9].
  assert (Zs : ∀ j, (j < 31)%nat → pcr j (key_vault (world b1)) = zeros).
  { intros j Hj. rewrite S5 by done. apply Z0. lia. }
  exists b', v'. split_and!; try done.
  - unfold measured_cold. cbv zeta. rewrite B0, B1, B2, B3, !Zs by lia. done.
  - rewrite B4, S4, Z0 by lia. done.
  - intros k Hk. by rewrite B4, Zs by lia.
  - rewrite C8. change (measurement_log b2) with (measurement_log b1). rewrite S6. f_equal. apply drop_replicate.
  - rewrite C8'. exact S7.
  - rewrite C9. exact R4.
Qed.

(** The states that resets and commands reach, with the measurements logged since
    the cold reset. After a quote the engine is left at work: some time passes
    before the next command, or the work is waited for. *)
Inductive life `{!PcrSigner} : list PcrLogEntry → Boot → Prop :=
  | life_cold now stashes soc dv b :
      (length stashes ≤ 8)%nat → Forall stash_ok stashes → soc_wf soc → dv_wf dv →
      cold_boot stashes soc dv (cold_state now) = (Ok tt, b) → life (session b) b
  | life_update h b soc dv b' : life h b → soc_wf soc → dv_wf dv →
      update_boot soc dv b = (Ok tt, b') → life (h ++ session b') b'
  | life_warm h b b' : life h b → warm_boot b = (Ok tt, b') → life h b'
  | life_extend h b pl cmd r b' : life h b → is_bytes cmd → execute_extend_pcr pl cmd b = (r, b') → life h b'
  | life_stash h b data b' : life h b → is_bytes data → (length data ≤ 48)%nat →
      extend_pcr PCR_ID_STASH_MEASUREMENT data b = (Ok tt, b') → life h b'
  | life_increment h b cmd r b' : life h b → increment_pcr_reset_counter cmd b = (r, b') → life h b'
  | life_log h b resp r b' : life h b → get_pcr_log resp b = (r, b') → life h b'
  | life_quote h b alg cmd resp r b' d : life h b → get_pcr_quote alg cmd resp b = (r, b') →
      (if decide (length cmd = 36%nat) then 0 < d < 900 else d = 0) →
      life h (set_world (elapse d (world b')) b')
  | life_wait h b w : life h b → wait_until (λ r, st_ready (status r)) (world b) = (Ok tt, w) →
      life h (set_world w b).

(** What holds of them. *)
Record attested (h : list PcrLogEntry) (b : Boot) : Prop := {
  a_calm : calm (world b);
  a_bank : bank_wf (key_vault (world b));
  a_locks : ∀ k, k ∈ [0; 1; 2; 3; 31]%nat → pcr_locked k (key_vault (world b));
  a_dv : dv_wf (data_vault b);
  a_log : ∃ soc dvr, soc_wf soc ∧ dv_wf dvr ∧
    pcr_log b = rom_entries soc (data_vault b) ++ rt_entry dvr :: replicate 12 default_entry ∧
    pcr 2 (key_vault (world b)) = extend_value zeros (bytes_be (rt_tci dvr));
  a_pcr0 : pcr 0 (key_vault (world b)) = replay 0 (pcr_log b) zeros;
  a_pcr1 : pcr 1 (key_vault (world b)) = replay 1 h zeros;
  a_pcr2 : pcr 2 (key_vault (world b)) = extend_value zeros (bytes_be (rt_tci (data_vault b)));
  a_pcr3 : pcr 3 (key_vault (world b)) = replay 3 h zeros
}.

(** ** Steps that leave the firmware's PCRs alone *)

Lemma attested_frame h b b' : attested h b → calm (world b') → bank_wf (key_vault (world b')) →
  (∀ k, pcr_locked k (key_vault (world b)) → pcr_locked k (key_vault (world b'))) →
  (∀ k, (k < 4)%nat → pcr k (key_vault (world b')) = pcr k (key_vault (world b))) →
  pcr_log b' = pcr_log b → data_vault b' = data_vault b → attested h b'.
Proof.
  intros [A1 A2 A3 A4 A5 A6 A7 A8 A9] Hc Hb Hl Hp El Ed.
  constructor; rewrite ?El, ?Ed, ?Hp by lia; auto.
Qed.

Lemma attested_same_vault h b b' : attested h b → calm (world b') → key_vault (world b') = key_vault (world b) →
  pcr_log b' = pcr_log b → data_vault b' = data_vault b → attested h b'.
Proof. intros Ha Hc Hv El Ed. apply (attested_frame h b); rewrite ?Hv; auto. apply Ha. Qed.

Lemma attested_extend h b j data r b' : attested h b → (4 ≤ j < 32)%nat → is_bytes data → (length data ≤ 79)%nat →
  extend_pcr j data b = (r, b') → r = Ok tt ∧ attested h b'.
Proof.
  intros Ha Hj Hb Hd E. destruct (a_bank _ _ Ha) as [W W'].
  destruct (pcr_extend_run j data (world b) (a_calm _ _ Ha) W) as (w' & E' & C & _ & V); [lia|done..|].
  unfold extend_pcr, on_world in E. rewrite E' in E. injection E as <- <-. split; [done|].
  apply (attested_frame h b); try done; cbn [set_world world]; rewrite V.
  - split; [|done]. apply set_pcr_wf; [done|lia|apply length_extend|apply extend_words].
  - intros k. apply same_locks_locked, set_pcr_locks.
  - intros k Hk. apply pcr_set_other; [done|lia|lia|lia|apply length_extend].
Qed.

Lemma pcr_try_from_spec z k : KvDriver.pcr_try_from z = Some k → z = Z.of_nat k ∧ (k < 32)%nat.
Proof.
  unfold KvDriver.pcr_try_from. destruct (_ && _) eqn:E; [|done]. intros [= <-].
  apply andb_true_iff in E as [?%Z.leb_le ?%Z.ltb_lt]. lia.
Qed.

Lemma attested_extend_cmd h b pl cmd r b' : attested h b → is_bytes cmd →
  execute_extend_pcr pl cmd b = (r, b') → attested h b'.
Proof.
  intros Ha Hb. unfold execute_extend_pcr.
  destruct (bool_decide (pl = PL1)) eqn:Ep; [by intros [= <- <-]|]. rewrite bind_fail_if by done.
  destruct (negb (length cmd =? 56)%nat) eqn:El; [by intros [= <- <-]|]. rewrite bind_fail_if by done.
  apply negb_false_iff, Nat.eqb_eq in El.
  destruct (u8_try_from _) as [idx|]; [|by intros [= <- <-]].
  destruct (KvDriver.pcr_try_from idx) as [j|] eqn:Ej; [|by intros [= <- <-]].
  apply pcr_try_from_spec in Ej as [_ Hj].
  destruct (bool_decide (j ∈ [0; 1; 2; 3]%nat)) eqn:Er; [by intros [= <- <-]|]. rewrite bind_fail_if by done.
  apply bool_decide_eq_false in Er.
  assert (Hj4 : (4 ≤ j)%nat) by (do 4 (destruct j as [|j]; [exfalso; apply Er; set_solver|]); lia).
  destruct (extend_pcr j (slice cmd 8 56) b) as [r1 b1] eqn:E1.
  destruct (attested_extend h b j (slice cmd 8 56) r1 b1 Ha) as [-> Ha1]; [lia| | |done|].
  - by apply Forall_take, Forall_drop.
  - unfold slice. rewrite length_take. lia.
  - rewrite (bind_ok _ _ _ _ _ E1). by intros [= <- <-].
Qed.

Lemma attested_increment h b cmd r b' : attested h b → increment_pcr_reset_counter cmd b = (r, b') → attested h b'.
Proof.
  intros Ha E. assert (G : ∃ c, b' = set_pcr_reset c b).
  { assert (G0 : ∃ c, b = set_pcr_reset c b) by (exists (pcr_reset b); by destruct b).
    revert E. unfold increment_pcr_reset_counter.
    destruct (negb _); [by intros [= <- <-]|]. rewrite bind_fail_if by done.
    destruct (u8_try_from _) as [idx|]; [|by intros [= <- <-]].
    destruct (KvDriver.pcr_try_from idx) as [j|]; [|by intros [= <- <-]].
    rewrite bind_get. destruct (increment j (pcr_reset b)) as [ok c]. rewrite bind_modify.
    destruct ok; intros [= <- <-]; by exists c. }
  destruct G as [c ->]. apply (attested_same_vault h b); try done. apply Ha.
Qed.

Lemma attested_log h b resp r b' : attested h b → get_pcr_log resp b = (r, b') → attested h b'.
Proof.
  intros Ha. unfold get_pcr_log. destruct (_ <? _)%nat; [by intros [= <- <-]|].
  rewrite bind_fail_if, bind_get by done. by intros [= <- <-].
Qed.

(** ** Quotes *)

Lemma read_all_at b : bank_wf (key_vault (world b)) →
  on_vault KvDriver.read_all_pcrs b = (Ok (map (λ i, pcr i (key_vault (world b))) (seq 0 32)), b).
Proof. intros W. unfold on_vault. rewrite read_all_pcrs_run by done. by destruct b as [[]]. Qed.

(** The hash of a quote, and what is left to do. *)
Lemma quote_hash_at b cmd : calm (world b) → bank_wf (key_vault (world b)) → length cmd = 36%nat →
  ∃ w', on_world (gen_pcr_hash (words_be (slice cmd 4 36))) b =
      (Ok (sha512_ref (quoted (key_vault (world b)) (words_be (slice cmd 4 36)))), set_world w' b) ∧
    key_vault w' = key_vault (world b) ∧ ∀ d, 0 < d < 900 → calm (elapse d w').
Proof.
  intros Hc [W _] Hl. assert (Hn : length (words_be (slice cmd 4 36)) = 8%nat).
  { rewrite length_words_be. unfold slice. rewrite length_take, length_drop, Hl. done. }
  destruct (gen_pcr_hash_run _ _ Hc W Hn) as (w' & E & V & D). exists w'. unfold on_world. by rewrite E.
Qed.

Lemma quote_state `{!PcrSigner} b alg cmd resp r b' : calm (world b) → bank_wf (key_vault (world b)) →
  get_pcr_quote alg cmd resp b = (r, b') →
  if decide (length cmd = 36%nat) then ∃ w', b' = set_world w' b ∧ key_vault w' = key_vault (world b) ∧
    ∀ d, 0 < d < 900 → calm (elapse d w')
  else b' = b.
Proof.
  intros Hc W. unfold get_pcr_quote. rewrite (bind_ok _ _ _ _ _ (read_all_at b W)).
  destruct (decide (length cmd = 36%nat)) as [Hl|Hl].
  - rewrite bind_fail_if by (by rewrite Hl).
    destruct (quote_hash_at b cmd Hc W Hl) as (w' & E & V & D). rewrite (bind_ok _ _ _ _ _ E), !bind_get.
    intros Er. exists w'. split; [|done]. revert Er. unfold mbind, M_bind, lift_res, fail_if.
    destruct alg; [destruct (ecc_pcr_sign _) as [[r1 s1]|e|a]|destruct (mldsa_pcr_sign _) as [s1|e|a]];
      try (by intros [= <- <-]); destruct (_ <? _)%nat; by intros [= <- <-].
  - rewrite (proj2 (Nat.eqb_neq _ _) Hl). by intros [= <- <-].
Qed.

Lemma attested_quote `{!PcrSigner} h b alg cmd resp r b' d : attested h b → get_pcr_quote alg cmd resp b = (r, b') →
  (if decide (length cmd = 36%nat) then 0 < d < 900 else d = 0) → attested h (set_world (elapse d (world b')) b').
Proof.
  intros Ha E Hd. pose proof (quote_state b alg cmd resp r b' (a_calm _ _ Ha) (a_bank _ _ Ha) E) as Q.
  destruct (decide (length cmd = 36%nat)).
  - destruct Q as (w' & -> & V & C). apply (attested_same_vault h b); try done. by apply C.
  - subst. apply (attested_same_vault h b); try done. cbn [set_world world].
    assert (E0 : elapse 0 (world b) = world b) by (destruct (world b); unfold elapse; cbn; by rewrite Z.add_0_r).
    rewrite E0. apply Ha.
Qed.

Lemma attested_wait h b w : attested h b → wait_until (λ r, st_ready (status r)) (world b) = (Ok tt, w) →
  attested h (set_world w b).
Proof.
  intros Ha E. destruct (settle (world b) None false (proj1 (a_calm _ _ Ha))) as (w' & E' & Q & R & V & _).
  rewrite E' in E. injection E as <-. apply (attested_same_vault h b); try done. by apply ready_calm.
Qed.

(** ** Resets *)

Lemma attested_warm h b b' : attested h b → warm_boot b = (Ok tt, b') → attested h b'.
Proof.
  intros Ha. unfold warm_boot. rewrite bind_modify.
  set (b1 := reset_vault Vault.warm_reset b). destruct (unlock_bank _ (a_bank _ _ Ha)) as [W1 P1].
  assert (A1 : at_ b1 (Vault.unlock_vault_registers (key_vault (world b))) (pcr_log b) (pcr_log_index b) b1).
  { constructor; try done.
    - destruct (a_calm _ _ Ha) as [Q T]. split; [|done]. by destruct Q.
    - destruct (a_log _ _ Ha) as (soc & dvr & _ & _ & -> & _). by rewrite length_app. }
  destruct (rom_lock_at _ _ _ _ _ A1) as (b2 & v2 & E2 & A2 & P2 & L2 & K2 & U2). rewrite (bind_ok _ _ _ _ _ E2).
  unfold rt_alias_measure. cbn [fmc_extend_pcrs]. rewrite bind_mret.
  destruct (set_pcr_lock_at _ _ _ _ _ 2 A2) as (b3 & v3 & E3 & A3 & P3 & L3 & K3 & U3); [lia|].
  rewrite (bind_ok _ _ _ _ _ E3).
  destruct (set_pcr_lock_at _ _ _ _ _ 3 A3) as (b4 & v4 & E4 & A4 & P4 & L4 & K4 & U4); [lia|].
  change (RT_FW_JOURNEY_PCR) with 3%nat. rewrite E4. intros [= <-].
  assert (Pv : Vault.pcrs v4 = Vault.pcrs (key_vault (world b))) by congruence.
  destruct Ha as [B1 B2 B3 B4 B5 B6 B7 B8 B9]. destruct A4 as [C1 C2 C3 C4 C5 C6 C7 C8 C9].
  constructor; try done; rewrite ?C2, ?(pcr_same _ _ _ Pv), ?C4, ?C7; try done.
  intros k Hk. destruct (decide (k = 3%nat)) as [->|]; [done|]. apply K4.
  destruct (decide (k = 2%nat)) as [->|]; [done|]. apply K3, L2. revert Hk. set_solver.
Qed.

Lemma attested_update h b soc dv b' : attested h b → soc_wf soc → dv_wf dv →
  update_boot soc dv b = (Ok tt, b') → attested (h ++ session b') b'.
Proof.
  intros Ha Hs Hd. unfold update_boot. rewrite !bind_modify.
  set (b1 := set_data_vault dv (reset_vault Vault.update_reset b)).
  destruct (unlock_bank _ (a_bank _ _ Ha)) as [W1 P1]. set (v1 := Vault.unlock_vault_registers (key_vault (world b))) in *.
  destruct (a_log _ _ Ha) as (soc0 & dvr & _ & Hdr & El & E2).
  assert (A1 : at_ b1 v1 (pcr_log b) (pcr_log_index b) b1).
  { constructor; try done.
    - destruct (a_calm _ _ Ha) as [Q T]. split; [|done]. by destruct Q.
    - by rewrite El, length_app. }
  destruct (firmware_boot_at b1 v1 _ _ b1 soc UpdateReset A1) as (b2 & v2 & E & B & A2);
    [apply unlock_unlocked; [apply Ha|lia]..|done|done|by right|].
  rewrite E. intros [= <-]. cbv zeta in B, A2. cbn [measures] in B, A2. change (data_vault b1) with dv in B, A2.
  assert (Pv : ∀ k, pcr k v1 = pcr k (key_vault (world b))) by (intros k; by apply pcr_same).
  rewrite Pv in B, A2. set (new := bool_decide _) in *.
  destruct B as (B0 & B1 & B2 & B3 & _ & B5). destruct A2 as [C1 C2 C3 C4 C5 C6 C7 C8 C9].
  rewrite El in C4. rewrite Pv in B1, B3.
  assert (T : (if new then rt_entry dv :: drop 5 (rom_entries soc0 (data_vault b) ++ rt_entry dvr :: replicate 12 default_entry)
    else drop 4 (rom_entries soc0 (data_vault b) ++ rt_entry dvr :: replicate 12 default_entry))
    = rt_entry (if new then dv else dvr) :: replicate 12 default_entry) by (by destruct new).
  rewrite T in C4. change (data_vault b1) with dv in C7.
  assert (Es : session b2 = rom_entries soc dv ++ (if new then [rt_entry dv] else [])).
  { unfold session. rewrite C4, C5. by destruct new. }
  assert (E2' : pcr 2 v2 = extend_value zeros (bytes_be (rt_tci (if new then dv else dvr)))).
  { rewrite B2. destruct new eqn:En; [done|]. apply bool_decide_eq_false in En. rewrite <- E2.
    destruct (decide (extend_value zeros (bytes_be (rt_tci dv)) = pcr 2 (key_vault (world b)))); [done|by exfalso]. }
  assert (Hd' : dv_wf (if new then dv else dvr)) by (by destruct new).
  constructor; rewrite ?C2, ?C7; try done.
  - exists soc, (if new then dv else dvr). by rewrite C4.
  - rewrite C4, B0, replay_app, replay_rom by done. change (Z.testbit fmc_ids (Z.of_nat 0)) with true. cbv iota.
    change (rt_entry ?x :: ?l) with ([rt_entry x] ++ l). by rewrite replay_app, replay_rt, replay_default by done.
  - rewrite Es, !replay_app, replay_rom, B1, (a_pcr1 _ _ Ha) by done.
    change (Z.testbit fmc_ids (Z.of_nat 1)) with true. cbv iota. destruct new; [by rewrite replay_rt|done].
  - rewrite Es, !replay_app, replay_rom, B3, (a_pcr3 _ _ Ha) by done.
    change (Z.testbit fmc_ids (Z.of_nat 3)) with false. cbv iota. destruct new; [by rewrite replay_rt|done].
Qed.

Lemma attested_cold now stashes soc dv b : (length stashes ≤ 8)%nat → Forall stash_ok stashes → soc_wf soc → dv_wf dv →
  cold_boot stashes soc dv (cold_state now) = (Ok tt, b) → attested (session b) b.
Proof.
  intros Hn Hs Hsoc Hd E.
  destruct (cold_boot_run now stashes soc dv Hn Hs Hsoc Hd)
    as (b' & v & E' & V & C & W & (M0 & M1 & M2 & M3 & M4) & D & I & L & _).
  rewrite E' in E. injection E as <-.
  assert (Es : session b' = rom_entries soc dv ++ [rt_entry dv]) by (unfold session; by rewrite I, L).
  constructor; rewrite ?V, ?D; try done.
  - by exists soc, dv.
  - rewrite L, M0, replay_app, replay_rom by done. change (Z.testbit fmc_ids (Z.of_nat 0)) with true. cbv iota.
    change (rt_entry ?x :: ?l) with ([rt_entry x] ++ l). by rewrite replay_app, replay_rt, replay_default by done.
  - rewrite Es, M1, replay_app, replay_rom, replay_rt by done. done.
  - rewrite Es, M3, replay_app, replay_rom, replay_rt by done. done.
Qed.

Lemma life_attested `{!PcrSigner} h b : life h b → attested h b.
Proof.
  induction 1; eauto using attested_cold, attested_update, attested_warm, attested_extend_cmd, attested_increment,
    attested_log, attested_quote, attested_wait.
  eapply (attested_extend _ _ 31); eauto; lia.
Qed.

End Life.

(** * Theorems *)

Section Theorems.
Context `{Sha512CompressOk}.

#[local] Opaque extend_value.

(** An operation over several pieces of a message. *)
Definition in_steps (m : ShaMode) (xs : list (list Z)) : M World (list Z) :=
  op ← digest_init m; op ← foldM op_update op xs; op_finalize op.

Lemma in_steps_run m xs w : quiet w → is_bytes (concat xs) → Z.of_nat (length (concat xs)) ≤ SHA512_MAX_DATA_SIZE →
  ∃ w', in_steps m xs w = (Ok (sha_ref m (concat xs)), w') ∧ quiet w' ∧ key_vault w' = key_vault w.
Proof.
  intros Q Hb Hl. destruct (digest_init_absorbed m w Q) as (op & E & M & _ & A). unfold in_steps.
  rewrite (bind_ok _ _ _ _ _ E). unfold SHA512_MAX_DATA_SIZE in Hl.
  destruct (foldM_ok op_update (λ don o w', absorbed o w' (concat don) ∧ sha_mode o = m ∧ key_vault w' = key_vault w) xs)
    with (b := op) (s := w) as (op' & w' & E' & A' & M' & V').
  - intros don x o w1 [rest ->] (Ao & Mo & Vo). rewrite concat_app in Hb, Hl. cbn [concat] in Hb, Hl.
    rewrite !length_app in Hl. apply Forall_app in Hb as [_ [Hx _]%Forall_app].
    destruct (op_update_absorbed o w1 (concat don) x Ao Hx) as (o2 & w2 & E2 & A2 & M2 & V2 & _);
      [unfold SHA512_MAX_DATA_SIZE; lia|lia|].
    exists o2, w2. rewrite concat_app. cbn [concat]. rewrite app_nil_r. split_and!; congruence.
  - done.
  - rewrite (bind_ok _ _ _ _ _ E'). destruct (op_finalize_absorbed op' w' _ A') as (w3 & E3 & Q3 & _ & V3).
    exists w3. rewrite M' in E3. split; [done|]. split; [done|congruence].
Qed.

(** The same with the hasher of the DICE protection environment. *)
Definition with_hasher (xs : list (list Z)) : M World (list Z * DpeHasher) :=
  h ← dpe_hasher_new; h ← foldM dpe_hasher_update (dpe_hasher_initialize h) xs; dpe_hasher_finish h.

Lemma with_hasher_run xs w : quiet w → is_bytes (concat xs) → Z.of_nat (length (concat xs)) ≤ SHA512_MAX_DATA_SIZE →
  ∃ h w', with_hasher xs w = (Ok (bytes_be (sha_ref ShaMode384 (concat xs)), h), w') ∧ quiet w'.
Proof.
  intros Q Hb Hl. unfold with_hasher, dpe_hasher_new, digest_init. rewrite bind_assoc, !bind_mret. unfold SHA512_MAX_DATA_SIZE in Hl.
  destruct (digest_init_absorbed ShaMode384 w Q) as (op & E & _ & _ & A). injection E as <-.
  destruct (foldM_ok dpe_hasher_update (λ don h w', absorbed (dpe_op h) w' (concat don) ∧
      sha_mode (dpe_op h) = ShaMode384 ∧ dpe_active h = true) xs)
    with (b := dpe_hasher_initialize (mkDpeHasher (mkOp ShaMode384 Init (replicate SHA512_BLOCK_BYTE_SIZE 0) 0 0) false))
         (s := w) as (h & w' & E' & A' & M' & T').
  - intros don x h w1 [rest ->] (Ao & Mo & To). rewrite concat_app in Hb, Hl. cbn [concat] in Hb, Hl.
    rewrite !length_app in Hl. apply Forall_app in Hb as [_ [Hx _]%Forall_app].
    destruct (op_update_absorbed (dpe_op h) w1 (concat don) x Ao Hx) as (o2 & w2 & E2 & A2 & M2 & V2 & _);
      [unfold SHA512_MAX_DATA_SIZE; lia|lia|].
    exists (mkDpeHasher o2 true), w2. unfold dpe_hasher_update. rewrite To, bind_fail_if, (bind_ok _ _ _ _ _ E2) by done.
    rewrite concat_app. cbn [concat]. rewrite app_nil_r. split_and!; try done. cbn. congruence.
  - done.
  - rewrite (bind_ok _ _ _ _ _ E'). destruct (op_finalize_absorbed (dpe_op h) w' _ A') as (w3 & E3 & Q3 & _).
    unfold dpe_hasher_finish. rewrite T', bind_fail_if, (bind_ok _ _ _ _ _ E3), M' by done. by eexists _, w3.
Qed.

(** The operation that the hash commands of the runtime resume from a saved
    context of size [n], buffer and digest. *)
Definition resumed (m : ShaMode) (n : Z) (dg buffer rest : list Z) : M World (list Z) :=
  let k := n mod 128 in
  op ← digest_init m; op ← op_resume op (n - k) dg (take (Z.to_nat k) buffer); op ← op_update op rest; op_finalize op.

Lemma resumed_run m d rest dg buffer w : quiet w → is_bytes (d ++ rest) →
  Z.of_nat (length (d ++ rest)) ≤ SHA512_MAX_DATA_SIZE →
  buffer = splice (replicate 128 0) 0 (drop (128 * (length d / 128)) d) →
  ((128 ≤ length d)%nat → dg = split64 (foldl compress512 (iv m) (chunks 128 (length d / 128) d))) →
  ∃ w', resumed m (Z.of_nat (length d)) dg buffer rest w = (Ok (sha_ref m (d ++ rest)), w').
Proof.
  intros Q Hb Hl -> Hdg. unfold SHA512_MAX_DATA_SIZE in Hl. set (n := (length d / 128)%nat) in *.
  pose proof (Nat.div_mod_eq (length d) 128) as Hd. fold n in Hd.
  pose proof (Nat.mod_upper_bound (length d) 128 ltac:(lia)) as Hu. rewrite length_app in Hl.
  apply Forall_app in Hb as [Hbd Hbr]. set (full := take (128 * n) d). set (sl := drop (128 * n) d).
  assert (Ef : length full = (128 * n)%nat) by (unfold full; rewrite length_take; lia).
  assert (Esl : length sl = (length d mod 128)%nat) by (unfold sl; rewrite length_drop; lia).
  assert (Es : d = full ++ sl) by (symmetry; apply take_drop).
  assert (Ek : Z.of_nat (length d) mod 128 = Z.of_nat (length sl)).
  { rewrite Esl. change 128 with (Z.of_nat 128). by rewrite <- Nat2Z.inj_mod. }
  unfold resumed. rewrite Ek, Nat2Z.id. replace (Z.of_nat (length d) - Z.of_nat (length sl)) with (Z.of_nat (length full)) by lia.
  assert (Et : take (length sl) (splice (replicate 128 0) 0 sl) = sl) by (unfold splice; rewrite take_0, app_nil_l; apply take_app_length).
  rewrite Et.
  destruct (op_resume_absorbed m w n full dg sl Q) as (op & op' & w1 & E0 & E1 & A1 & M1 & V1).
  - by rewrite <- Es.
  - done.
  - intros Hn. rewrite Hdg by lia. f_equal. f_equal.
    transitivity (chunks 128 n (full ++ sl)); [by rewrite <- Es|]. apply chunks_app_r. lia.
  - unfold SHA512_MAX_DATA_SIZE. lia.
  - rewrite <- Es. lia.
  - rewrite (bind_ok _ _ _ _ _ E0), (bind_ok _ _ _ _ _ E1). rewrite <- Es in A1.
    destruct (op_update_absorbed op' w1 d rest A1 Hbr) as (o2 & w2 & E2 & A2 & M2 & _); [unfold SHA512_MAX_DATA_SIZE; lia|lia|].
    rewrite (bind_ok _ _ _ _ _ E2). destruct (op_finalize_absorbed o2 w2 _ A2) as (w3 & E3 & _).
    exists w3. rewrite M2, M1 in E3. done.
Qed.

(** C10. The SHA-384/512 driver on the emulated engine computes the reference hash
    of a message: in one call, which also clears the engine; in several steps,
    for every way to cut the message into pieces, also through the hasher that
    the DICE protection environment is given; and from a context that was
    saved after a part of it, on an engine that has been used for other things
    since. The key vault is not touched. *)
Theorem sha2_driver_correct m msg w :
  quiet w → is_bytes msg → Z.of_nat (length msg) ≤ SHA512_MAX_DATA_SIZE →
  (∃ w', one_shot m msg w = (Ok (sha_ref m msg), w') ∧ quiet w' ∧ zeroized w' ∧ key_vault w' = key_vault w) ∧
  (∀ xs, concat xs = msg →
     (∃ w', in_steps m xs w = (Ok (sha_ref m msg), w') ∧ quiet w' ∧ key_vault w' = key_vault w) ∧
     ∃ h w', with_hasher xs w = (Ok (bytes_be (sha384_ref msg), h), w') ∧ quiet w') ∧
  (∀ d rest, d ++ rest = msg →
     ∃ op w1 buffer, (op ← digest_init m; op_update op d) w = (Ok op, w1) ∧
       op_save_buffer op (replicate 128 0) = Ok (buffer, Z.of_nat (length d)) ∧
       ∃ dg, ((128 ≤ length d)%nat → sha512_read_digest w1 = (Ok dg, w1)) ∧
         ∀ w2, quiet w2 → ∃ w3, resumed m (Z.of_nat (length d)) dg buffer rest w2 = (Ok (sha_ref m msg), w3)).
Proof.
  intros Q Hb Hl. split_and!; [by apply one_shot_ok|intros xs <-; split; [by apply in_steps_run|by apply with_hasher_run]|].
  intros d rest <-. destruct (digest_init_absorbed m w Q) as (op0 & E0 & M0 & I0 & A0).
  pose proof Hb as [Hbd _]%Forall_app. pose proof Hl as Hl'. rewrite length_app in Hl'. unfold SHA512_MAX_DATA_SIZE in Hl'.
  destruct (op_update_absorbed op0 w [] d A0 Hbd) as (op & w1 & E1 & A1 & M1 & _ & S1);
    [unfold SHA512_MAX_DATA_SIZE; lia|cbn; lia|].
  rewrite I0 in S1. destruct (op_save_absorbed op w1 d A1) as [Es Er]; [destruct S1 as [-> | ->]; done|].
  rewrite M1, M0 in Er. eexists op, w1, _. split; [by rewrite (bind_ok _ _ _ _ _ E0)|]. split; [exact Es|].
  eexists. split; [exact Er|]. intros w2 Q2. by apply resumed_run.
Qed.

(** C23. Extending a PCR with up to 79 bytes replaces its value by the SHA-384 of
    the value followed by the data, whatever the engine was doing, and changes
    nothing else in the vault; more data is refused without effect. *)
Theorem pcr_extension w j data :
  calm w → pcrs_wf (key_vault w) → (j < 32)%nat → is_bytes data →
  if decide (length data ≤ 79)%nat then
    ∃ w', pcr_extend j data w = (Ok tt, w') ∧ calm w' ∧
      key_vault w' = set_pcr j (sha384_ref (bytes_be (pcr j (key_vault w)) ++ data)) (key_vault w) ∧
      pcr j (key_vault w') = sha384_ref (bytes_be (pcr j (key_vault w)) ++ data) ∧
      ∀ k, (k < 32)%nat → k ≠ j → pcr k (key_vault w') = pcr k (key_vault w)
  else pcr_extend j data w = (Err DRIVER_SHA2_512_384_MAX_DATA_ERR, w).
Proof.
  intros Hc Hv Hj Hb. case_decide as Hd; [|apply pcr_extend_too_long; lia].
  destruct (pcr_extend_run j data w Hc Hv Hj Hb Hd) as (w' & E & C & _ & V). exists w'.
  pose proof (length_extend (pcr j (key_vault w)) data) as L.
  split; [done|]. split; [done|]. split; [exact V|]. rewrite V. split; [by apply pcr_set_same|].
  intros k Hk Hne. by apply pcr_set_other.
Qed.

(** C24. A quote with ECC: on a request with a nonce, the response carries the 32
    PCRs, the nonce, the reset counters, the first 48 bytes of a SHA-512 digest
    and the signature. The digest is of the PCRs followed by the nonce with the
    bytes of each of its words in reverse order, not by the nonce as it was
    sent. The PCRs are not changed. *)
Theorem quote_digest `{!PcrSigner} b cmd resp :
  calm (world b) → bank_wf (key_vault (world b)) → is_bytes cmd → length cmd = 36%nat →
  (QUOTE_PCRS_ECC384_RESP_SIZE ≤ length resp)%nat → (∀ w, ∃ r s, ecc_pcr_sign w = Ok (r, s)) →
  let v := key_vault (world b) in
  let nonce := slice cmd 4 36 in
  let digest := sha512_ref (bytes_be (Vault.pcrs v) ++ change_endianess nonce) in
  ∃ b' sig, get_pcr_quote Ecc384 cmd resp b =
      (Ok (splice resp 0 (quote_response (map (λ i, pcr i v) (seq 0 32)) nonce (pcr_reset b)
             (take 48 (bytes_be digest)) sig), 1848), b') ∧
    key_vault (world b') = v ∧ bytes_be (Vault.pcrs v) = flat_map bytes_be (map (λ i, pcr i v) (seq 0 32)).
Proof.
  intros Hc W Hb Hl Hr Hsig v nonce digest. destruct (quote_hash_at b cmd Hc W Hl) as (w' & E & V & _).
  destruct (Hsig w') as (r & s & Es). exists (set_world w' b), (bytes_be r ++ bytes_be s).
  assert (Hn : is_bytes nonce ∧ length nonce = 32%nat).
  { unfold nonce, slice. split; [by apply Forall_take, Forall_drop|]. rewrite length_take, length_drop. lia. }
  assert (Eq : quoted v (words_be nonce) = bytes_be (Vault.pcrs v) ++ change_endianess nonce).
  { unfold quoted. f_equal. rewrite <- (change_endianess_involutive (bytes_le _)), change_endianess_bytes_le.
    f_equal. apply bytes_be_words_be; [apply Hn|]. destruct Hn as [_ ->]. by exists 8. }
  fold nonce in E. fold v in E, V. rewrite Eq in E. fold digest in E. split_and!.
  - unfold get_pcr_quote. rewrite (bind_ok _ _ _ _ _ (read_all_at b W)). fold nonce v.
    rewrite bind_fail_if by (by rewrite Hl). rewrite (bind_ok _ _ _ _ _ E), !bind_get.
    cbn [set_world world]. rewrite (bind_ok _ _ _ (r, s) (set_world w' b)) by (unfold lift_res; by rewrite Es).
    rewrite bind_fail_if by (apply Nat.ltb_ge; lia). done.
  - exact V.
  - rewrite flat_map_concat_map, map_map, concat_pcrs by (lia || apply W). f_equal. symmetry. apply take_ge.
    destruct W as [[Hw _] _]. fold v in Hw. lia.
Qed.

(** C9. A cold boot on which at most eight measurements are stashed succeeds. PCR
    0 and 1 are then zeros extended with the status of the device, the hashes of
    the vendor's and the owner's keys and the measurement of FMC, PCR 2 and 3
    zeros extended with the measurement of the runtime, and PCR 31 zeros
    extended with what was stashed, in order; the other PCRs are zero. The PCR
    log has these five entries and the measurement log those stashed, and the
    five PCRs cannot be erased any more. *)
Theorem measured_cold_boot now stashes soc dv :
  (length stashes ≤ 8)%nat → Forall stash_ok stashes → soc_wf soc → dv_wf dv →
  ∃ b, cold_boot stashes soc dv (cold_state now) = (Ok tt, b) ∧ measured_cold soc dv (key_vault (world b)) ∧
    pcr 31 (key_vault (world b)) = replay 31 (map pcr_entry (take (Z.to_nat (meas_log_index b)) (measurement_log b))) zeros ∧
    map (λ e, measured_data (pcr_entry e)) (take (Z.to_nat (meas_log_index b)) (measurement_log b)) =
      map (λ cmd, slice cmd 8 56) stashes ∧
    (∀ k, (4 ≤ k < 31)%nat → pcr k (key_vault (world b)) = zeros) ∧
    map measured_data (session b) =
      [device_status soc dv; bytes_be (vendor_pub_key_info_hash (fuse_regs soc));
       bytes_be (dv_owner_pk_hash (cold_reset_entries dv)); bytes_be (fmc_tci (cold_reset_entries dv));
       bytes_be (rt_tci dv)] ∧
    ∀ k, k ∈ [0; 1; 2; 3; 31]%nat →
      KvDriver.erase_pcr k (key_vault (world b)) = (Err DRIVER_PCR_BANK_ERASE_WRITE_LOCK_SET_FAILURE, key_vault (world b)).
Proof.
  intros Hn Hs Hsoc Hd. destruct (cold_boot_run now stashes soc dv Hn Hs Hsoc Hd)
    as (b & v & E & <- & C & W & M & D & I & L & P & Z & ML & MI & _).
  assert (Et : take (Z.to_nat (meas_log_index b)) (measurement_log b) = map stash_entry stashes).
  { rewrite MI, ML, Nat2Z.id, <- (length_map stash_entry stashes). apply take_app_length. }
  assert (Em : ∀ f, (∀ c, stash_ok c → f c = stash_data c) → map f stashes = map stash_data stashes).
  { intros f Hf. apply map_ext_in. intros c Hc. apply Hf. by eapply Forall_forall, list_elem_of_In. }
  exists b. split; [done|]. split; [done|]. rewrite Et, !map_map. split_and!.
  - rewrite P. unfold replay. rewrite <- (Em (λ c, measured_data (pcr_entry (stash_entry c)))) by apply measured_stash.
    generalize zeros. clear. induction stashes as [|c cs IH]; intros z; [done|]. cbn [map foldl]. rewrite IH. done.
  - apply Em, measured_stash.
  - done.
  - unfold session. rewrite I, L. destruct Hd as (D1 & D2 & D3).
    change (take _ _) with (rom_entries soc dv ++ [rt_entry dv]). unfold rom_entries, rt_entry. cbn [map rom_data app].
    rewrite !measured_data_logged by (try apply tci_bytes; try apply device_status_bytes; done). done.
  - intros k Hk. destruct M as (_ & _ & _ & _ & M). destruct (M k Hk) as (c & Hc & Lc).
    unfold KvDriver.erase_pcr, KvDriver.pcr_lock, KvDriver.mmio_read, mbind, M_bind, unwrap. rewrite Hc. cbn.
    by rewrite r_pcr_lock_spec, Lc.
Qed.

(** C8. In every state that a device reaches by a cold boot and then updates,
    warm resets and runtime commands in any order: replaying the PCR log that
    GET_PCR_LOG returns, from zeros, gives the current PCRs 0 and 2; replaying
    every entry logged since the cold boot gives the journey PCRs 1 and 3; the
    log holds the device status, key hashes and FMC measurement that are in
    force, and PCR 2 is the measurement of the runtime in force. *)
Theorem pcr_log_replays `{!PcrSigner} h b :
  life h b →
  let v := key_vault (world b) in
  pcr 0 v = replay 0 (pcr_log b) zeros ∧ pcr 2 v = replay 2 (pcr_log b) zeros ∧
  pcr 1 v = replay 1 h zeros ∧ pcr 3 v = replay 3 h zeros ∧
  (∃ soc, take 4 (pcr_log b) = rom_entries soc (data_vault b)) ∧
  pcr 2 v = sha384_ref (bytes_be zeros ++ bytes_be (rt_tci (data_vault b))) ∧
  ∀ k, k ∈ [0; 1; 2; 3; 31]%nat → pcr_locked k v.
Proof.
  intros Hl v. destruct (life_attested h b Hl) as [A1 A2 A3 A4 (soc & dvr & Hs & Hr & L & E2) A6 A7 A8 A9].
  split_and!; try done.
  - fold v in E2. rewrite E2, L, replay_app, replay_rom by done.
    change (Z.testbit fmc_ids (Z.of_nat 2)) with false. cbv iota.
    change (rt_entry ?x :: ?l) with ([rt_entry x] ++ l). by rewrite replay_app, replay_rt, replay_default by done.
  - exists soc. by rewrite L.
Qed.

(** C25. EXTEND_PCR: it is refused to callers that are not privileged, for
    malformed requests, for indices that are not of a PCR and for the PCRs of
    the firmware, each with its error and without any effect; otherwise it
    extends the PCR with the 48 bytes of the request and succeeds. *)
Theorem extend_pcr_command b pl cmd :
  calm (world b) → bank_wf (key_vault (world b)) → is_bytes cmd →
  let idx := from_le (slice cmd 4 8) in
  let refused e := execute_extend_pcr pl cmd b = (Err e, b) in
  if decide (pl = PL1) then refused RUNTIME_INCORRECT_PAUSER_PRIVILEGE_LEVEL
  else if decide (length cmd ≠ 56%nat) then refused RUNTIME_INSUFFICIENT_MEMORY
  else if decide (256 ≤ idx) then refused RUNTIME_MAILBOX_INVALID_PARAMS
  else if decide (32 ≤ idx) then refused RUNTIME_PCR_INVALID_INDEX
  else if decide (idx < 4) then refused RUNTIME_PCR_RESERVED
  else ∃ b', execute_extend_pcr pl cmd b = (Ok 0, b') ∧
    key_vault (world b') = set_pcr (Z.to_nat idx)
      (sha384_ref (bytes_be (pcr (Z.to_nat idx) (key_vault (world b))) ++ slice cmd 8 56)) (key_vault (world b)).
Proof.
  intros Hc [W _] Hb idx refused. unfold refused, execute_extend_pcr.
  assert (Hi : 0 ≤ idx) by (apply from_le_bound; by apply Forall_take, Forall_drop).
  destruct (decide (pl = PL1)) as [->|Hp]; [done|].
  rewrite bind_fail_if by (by rewrite bool_decide_false).
  destruct (decide (length cmd ≠ 56%nat)) as [Hl|Hl].
  { by rewrite (proj2 (Nat.eqb_neq _ _) Hl). }
  assert (length cmd = 56%nat) as Hl' by lia. rewrite bind_fail_if by (by rewrite Hl'). fold idx. unfold u8_try_from.
  destruct (decide (256 ≤ idx)); [by rewrite (proj2 (Z.ltb_ge idx 256)) by lia|].
  rewrite (proj2 (Z.ltb_lt idx 256)) by lia. unfold KvDriver.pcr_try_from. rewrite (proj2 (Z.leb_le 0 idx) Hi).
  destruct (decide (32 ≤ idx)); [by rewrite (proj2 (Z.ltb_ge idx 32)) by lia|].
  rewrite (proj2 (Z.ltb_lt idx 32)) by lia. cbn [andb].
  destruct (decide (idx < 4)).
  { rewrite bool_decide_true; [done|]. set (k := Z.to_nat idx). assert (k < 4)%nat by lia.
    do 4 (destruct k as [|k]; [set_solver|]). lia. }
  rewrite bind_fail_if.
  2:{ apply bool_decide_false. rewrite !elem_of_cons, elem_of_nil. lia. }
  destruct (pcr_extend_run (Z.to_nat idx) (slice cmd 8 56) (world b) Hc W) as (w' & E & _ & _ & V);
    [lia|by apply Forall_take, Forall_drop|unfold slice; rewrite length_take; lia|].
  exists (set_world w' b). split; [|exact V]. unfold extend_pcr.
  by rewrite (bind_ok _ _ _ tt (set_world w' b)) by (unfold on_world; by rewrite E).
Qed.

End Theorems.

(** * Examples *)

(** A signer that returns the digest it signs. *)
#[export] Instance ExampleSigner : PcrSigner := {
  ecc_pcr_sign w := Ok (take 12 (pcr_hash_digest (regs w)), take 12 (pcr_hash_digest (regs w)));
  mldsa_pcr_sign w := Ok (pcr_hash_digest (regs w))
}.

Definition example_world : World := world (cold_state 7).
Definition example_soc : SocIfcRegs := mkSocIfcRegs 7 32 0 0 (example_fuses [7; 0; 0; 0] []) 0.
Definition example_dv : DataVault :=
  mkDataVault (mkColdResetEntries (replicate 12 1) (replicate 12 2) 3 0) 5 (replicate 12 6).
Definition example_stash : list Z := replicate 108 9.
Definition example_extend : list Z := [0; 0; 0; 0; 5; 0; 0; 0] ++ replicate 48 3.

#[local] Opaque Sha512Fips.

Lemma example_calm : calm example_world.
Proof. apply (cold_state_ok 7). Qed.
Lemma example_bank : bank_wf (key_vault example_world).
Proof. apply (cold_state_ok 7). Qed.
Lemma example_dv_wf : dv_wf example_dv.
Proof. done. Qed.
Lemma example_stash_ok : Forall stash_ok [example_stash; example_stash].
Proof. repeat constructor; unfold in_u; lia. Qed.

Lemma abc_bytes : is_bytes [97; 98; 99] ∧ Z.of_nat (length [97; 98; 99]) ≤ SHA512_MAX_DATA_SIZE.
Proof. split; [by apply (bool_decide_eq_true_1 _)|by vm_compute]. Qed.

Lemma sha2_driver_correct_witness :
  ∃ w', one_shot ShaMode384 [97; 98; 99] example_world = (Ok (sha_ref ShaMode384 [97; 98; 99]), w') ∧
    quiet w' ∧ zeroized w' ∧ key_vault w' = key_vault example_world.
Proof.
  exact (proj1 (sha2_driver_correct ShaMode384 [97; 98; 99] example_world (proj1 example_calm)
    (proj1 abc_bytes) (proj2 abc_bytes))).
Defined.

Lemma pcr_extension_witness :
  ∃ w', pcr_extend 4 [97; 98; 99] example_world = (Ok tt, w') ∧
    pcr 4 (key_vault w') = sha384_ref (bytes_be (pcr 4 (key_vault example_world)) ++ [97; 98; 99]).
Proof.
  destruct (pcr_extension example_world 4 [97; 98; 99] example_calm (proj1 example_bank) ltac:(lia) (proj1 abc_bytes))
    as (w' & E & _ & _ & P & _).
  exists w'. exact (conj E P).
Defined.

Lemma quote_digest_witness :
  ∃ b' sig, get_pcr_quote Ecc384 (seqZ 0 36) (replicate 2000 0) (cold_state 7) =
      (Ok (splice (replicate 2000 0) 0
         (quote_response (map (λ i, pcr i Vault.new) (seq 0 32)) (slice (seqZ 0 36) 4 36) (replicate 32 0)
           (take 48 (bytes_be (sha512_ref (bytes_be (Vault.pcrs Vault.new) ++ change_endianess (slice (seqZ 0 36) 4 36))))) sig),
        1848), b') ∧ key_vault (world b') = Vault.new.
Proof.
  destruct (quote_digest (cold_state 7) (seqZ 0 36) (replicate 2000 0)) as (b' & sig & E & V & _).
  - apply example_calm.
  - apply example_bank.
  - by apply (bool_decide_eq_true_1 _).
  - reflexivity.
  - rewrite length_replicate. unfold QUOTE_PCRS_ECC384_RESP_SIZE. lia.
  - intros w. by eexists _, _.
  - exists b', sig. exact (conj E V).
Defined.

Lemma measured_cold_boot_witness :
  ∃ b, cold_boot [example_stash; example_stash] example_soc example_dv (cold_state 7) = (Ok tt, b) ∧
    measured_cold example_soc example_dv (key_vault (world b)).
Proof.
  destruct (measured_cold_boot 7 [example_stash; example_stash] example_soc example_dv) as (b & E & M & _).
  - cbn. lia.
  - apply example_stash_ok.
  - reflexivity.
  - apply example_dv_wf.
  - exists b. exact (conj E M).
Defined.

Lemma pcr_log_replays_witness :
  ∃ b, cold_boot [] example_soc example_dv (cold_state 7) = (Ok tt, b) ∧
    pcr 0 (key_vault (world b)) = replay 0 (pcr_log b) zeros ∧ pcr 1 (key_vault (world b)) = replay 1 (session b) zeros.
Proof.
  destruct (cold_boot_run 7 [] example_soc example_dv) as (b & v & E & _); [cbn; lia|constructor|done|done|].
  destruct (pcr_log_replays (session b) b) as (R0 & _ & R1 & _).
  - apply (life_cold 7 [] example_soc example_dv); [cbn; lia|constructor|reflexivity|apply example_dv_wf|exact E].
  - exists b. exact (conj E (conj R0 R1)).
Defined.

Lemma extend_pcr_command_witness :
  ∃ b', execute_extend_pcr PL0 example_extend (cold_state 7) = (Ok 0, b') ∧
    key_vault (world b') = set_pcr 5
      (sha384_ref (bytes_be (pcr 5 Vault.new) ++ slice example_extend 8 56)) Vault.new.
Proof.
  apply (extend_pcr_command (cold_state 7) PL0 example_extend).
  - apply example_calm.
  - apply example_bank.
  - by apply (bool_decide_eq_true_1 _).
Defined.
