(* ===== verification/ImageGen.v ===== *)
(** The image generator (image/gen/src/lib.rs, image/gen/src/generator.rs) and
    the serialization of bundles ([ImageBundle::to_bytes] of
    image/types/src/lib.rs).

    The cryptographic library behind the trait [ImageGeneratorCrypto] is a
    type class. Additions of [u32] values wrap, indexing out of range is a
    panic, and the messages of [bail!] are constructors of [gen_error]. *)

From S2P Require Import Prelude Errors Sha256 Lms LmsGen ImageTypes ImageVerify.

Inductive ImageTocEntryId := TocFmc | TocRuntime.
Definition toc_entry_id_u32 (i : ImageTocEntryId) : Z := match i with TocFmc => 1 | TocRuntime => 2 end.

Inductive gen_error :=
  | ImageLarger (image_size : Z)
  | EntryPointNotLoadAddr (id : ImageTocEntryId)
  | LoadAddressesOverlap
  | CryptoError.
Abbreviation gres := (result gen_error).

(** ** Configuration *)

(** The getters of the trait [ImageGeneratorExecutable]. *)
Record ImageGeneratorExecutable := mkImageGeneratorExecutable {
  x_version : Z;
  x_rev : list Z;
  x_load_addr : Z;
  x_entry_point : Z;
  x_content : list Z;
  x_size : Z;
}.

(** ECC private keys are scalars; MLDSA keys are arrays of words. *)
Record ImageVendorPubKeys := mkImageVendorPubKeys {
  ecc_pub_keys : list ImageEccPubKey; lms_pub_keys : list LmsPublicKey; mldsa_pub_keys : list (list Z) }.
Record ImageVendorPrivKeys := mkImageVendorPrivKeys {
  ecc_priv_keys : list (list Z); lms_priv_keys : list LmsPrivateKey; mldsa_priv_keys : list (list Z) }.
Record OwnerPubKeyConfig := mkOwnerPubKeyConfig {
  o_ecc_pub_key : ImageEccPubKey; o_lms_pub_key : LmsPublicKey; o_mldsa_pub_key : list Z }.
Record ImageOwnerPrivKeys := mkImageOwnerPrivKeys {
  o_ecc_priv_key : list Z; o_lms_priv_key : LmsPrivateKey; o_mldsa_priv_key : list Z }.

Record ImageGeneratorVendorConfig := mkImageGeneratorVendorConfig {
  ecc_key_count : Z;
  lms_key_count : Z;
  mldsa_key_count : Z;
  pub_keys : ImageVendorPubKeys;
  ecc_key_idx : Z;
  pqc_key_idx : Z;
  priv_keys : option ImageVendorPrivKeys;
  v_not_before : list Z;
  v_not_after : list Z;
  cfg_pl0_pauser : option Z;
  debug_image : option bool;
}.

Record ImageGeneratorOwnerConfig := mkImageGeneratorOwnerConfig {
  o_pub_keys : OwnerPubKeyConfig;
  o_priv_keys : option ImageOwnerPrivKeys;
  o_not_before : list Z;
  o_not_after : list Z;
}.

Record ImageGeneratorConfig := mkImageGeneratorConfig {
  cfg_pqc_key_type : FwVerificationPqcKeyType;
  vendor_config : ImageGeneratorVendorConfig;
  owner_config : option ImageGeneratorOwnerConfig;
  cfg_fmc : ImageGeneratorExecutable;
  cfg_runtime : ImageGeneratorExecutable;
  fw_svn : Z;
}.

Record ImageBundle := mkImageBundle {
  b_manifest : ImageManifest;
  b_fmc : list Z;
  b_runtime : list Z;
}.

(** The methods of [ImageGeneratorCrypto] that the generator calls. *)
Class ImageGeneratorCrypto := {
  sha384_digest : list Z → gres (list Z);
  ecdsa384_sign : list Z → list Z → ImageEccPubKey → gres ImageEccSignature;
  lms_sign : list Z → LmsPrivateKey → gres LmsSignature;
  mldsa_sign : list Z → list Z → list Z → gres (list Z);
}.

(** ** Defaults *)

Definition default_ecc_pub_key : ImageEccPubKey := mkImageEccPubKey (replicate 12 0) (replicate 12 0).
Definition default_signatures : ImageSignatures :=
  mkImageSignatures (mkImageEccSignature (replicate 12 0) (replicate 12 0)) (replicate PQC_SIGNATURE_BYTE_SIZE 0).

(** [a[i]] and [a[i] = x]. *)
Definition index {A} (l : list A) (i : Z) : gres A := unwrap (l !! Z.to_nat i).
Definition set_index {A} (l : list A) (i : Z) (x : A) : gres (list A) :=
  if (Z.to_nat i <? length l)%nat then Ok (<[Z.to_nat i := x]> l) else Abort Panic.

(** [dst[..src.len()].copy_from_slice(src)]. *)
Definition copy_prefix (dst src : list Z) : gres (list Z) :=
  if (length src <=? length dst)%nat then Ok (splice dst 0 src) else Abort Panic.

Definition image_header_flags (c : ImageGeneratorVendorConfig) : Z :=
  let flags := 0 in
  let flags := match cfg_pl0_pauser c with Some _ => Z.lor flags IMAGE_FLAGS_PL0_PAUSER | None => flags end in
  if default false (debug_image c) then Z.lor flags IMAGE_FLAGS_DEBUG_IMAGE else flags.

Section Generator.
Context `{Hcrypto : ImageGeneratorCrypto}.
Implicit Types (config : ImageGeneratorConfig).

(** ** The table of contents *)

Definition gen_image config (id : ImageTocEntryId) (offset : Z) : gres (ImageTocEntry * list Z) :=
  let image := match id with TocFmc => cfg_fmc config | TocRuntime => cfg_runtime config end in
  digest ← sha384_digest (x_content image);
  err_if (negb (x_entry_point image =? x_load_addr image)) (EntryPointNotLoadAddr id);;
  Ok (mkImageTocEntry (toc_entry_id_u32 id) 1 (x_rev image) (x_version image) [0; 0] (x_load_addr image)
        (x_entry_point image) offset (u32w (Z.of_nat (length (x_content image)))) digest, x_content image).

Definition gen_toc_digest (fmc_toc rt_toc : ImageTocEntry) : gres (list Z) :=
  sha384_digest (toc_entry_bytes fmc_toc ++ toc_entry_bytes rt_toc).

(** ** The header *)

Definition gen_header config (ecc_key_idx lms_key_idx : Z) (digest : list Z) : ImageHeader :=
  let v := vendor_config config in
  mkImageHeader [0; 0] ecc_key_idx lms_key_idx (image_header_flags v) MAX_TOC_ENTRY_COUNT
    (match cfg_pl0_pauser v with Some pauser => pauser | None => 0 end) digest (fw_svn config)
    (mkVendorSignedData (v_not_before v) (v_not_after v) (replicate 10 0))
    (match owner_config config with
     | Some o => mkOwnerSignedData (o_not_before o) (o_not_after o) (replicate 10 0)
     | None => mkOwnerSignedData (replicate 15 0) (replicate 15 0) (replicate 10 0)
     end).

Definition gen_vendor_header_bytes (h : ImageHeader) : list Z := take vendor_header_len (header_bytes h).
Definition vendor_header_digest_384 (h : ImageHeader) : gres (list Z) :=
  sha384_digest (take vendor_header_len (header_bytes h)).
Definition owner_header_digest_384 (h : ImageHeader) : gres (list Z) := sha384_digest (header_bytes h).

Definition owner_pubkey_digest (p : ImagePreamble) : gres (list Z) :=
  sha384_digest (owner_pub_keys_bytes (owner_pub_keys p)).
Definition vendor_pubkey_info_digest (p : ImagePreamble) : gres (list Z) :=
  sha384_digest (vendor_pub_key_info_bytes (vendor_pub_key_info p)).

(** ** The preamble *)

Definition gen_vendor_sigs config (ecc_idx pqc_idx : Z) (d : ImageSignData) : gres ImageSignatures :=
  let v := vendor_config config in
  match priv_keys v with
  | Some sk =>
      ecc_sk ← index (ecc_priv_keys sk) ecc_idx;
      ecc_pk ← index (ecc_pub_keys (pub_keys v)) ecc_idx;
      sig ← ecdsa384_sign (digest_384 d) ecc_sk ecc_pk;
      pqc ← (match cfg_pqc_key_type config with
             | LMS =>
                 lms_sk ← index (lms_priv_keys sk) pqc_idx;
                 lms_sig ← lms_sign (digest_384 d) lms_sk;
                 Ok (lms_signature_bytes lms_sig)
             | MLDSA =>
                 msg ← unwrap (mldsa_msg d);
                 mldsa_sk ← index (mldsa_priv_keys sk) pqc_idx;
                 mldsa_pk ← index (mldsa_pub_keys (pub_keys v)) pqc_idx;
                 mldsa_sig ← mldsa_sign msg mldsa_sk mldsa_pk;
                 Ok (bytes_le mldsa_sig)
             end);
      buf ← copy_prefix (pqc_sig default_signatures) pqc;
      Ok (mkImageSignatures sig buf)
  | None => Ok default_signatures
  end.

Definition gen_owner_sigs config (d : ImageSignData) : gres ImageSignatures :=
  match owner_config config with
  | Some o =>
      match o_priv_keys o with
      | Some sk =>
          sig ← ecdsa384_sign (digest_384 d) (o_ecc_priv_key sk) (o_ecc_pub_key (o_pub_keys o));
          pqc ← (match cfg_pqc_key_type config with
                 | LMS =>
                     lms_sig ← lms_sign (digest_384 d) (o_lms_priv_key sk);
                     Ok (lms_signature_bytes lms_sig)
                 | MLDSA =>
                     msg ← unwrap (mldsa_msg d);
                     mldsa_sig ← mldsa_sign msg (o_mldsa_priv_key sk) (o_mldsa_pub_key (o_pub_keys o));
                     Ok (bytes_le mldsa_sig)
                 end);
          buf ← copy_prefix (pqc_sig default_signatures) pqc;
          Ok (mkImageSignatures sig buf)
      | None => Ok default_signatures
      end
  | None => Ok default_signatures
  end.

(** [for i in 0..count { key_hash[i] = sha384_digest(keys[i].as_bytes())? }]. *)
Definition hash_keys {K} (bytes : K → list Z) (keys : list K) (count : Z) (key_hash : list (list Z))
    : gres (list (list Z)) :=
  foldR (λ h i, k ← index keys i; d ← sha384_digest (bytes k); set_index h i d) key_hash (seqZ 0 count).

Definition gen_pub_key_info config : gres ImageVendorPubKeyInfo :=
  let v := vendor_config config in
  ecc_hash ← hash_keys ecc_pub_key_bytes (ecc_pub_keys (pub_keys v)) (ecc_key_count v)
               (replicate 4 (replicate 12 0));
  '(pqc_hash, count) ←
    (match cfg_pqc_key_type config with
     | LMS =>
         h ← hash_keys lms_pub_key_bytes (lms_pub_keys (pub_keys v)) (lms_key_count v) (replicate 32 (replicate 12 0));
         Ok (h, lms_key_count v)
     | MLDSA =>
         h ← hash_keys bytes_le (mldsa_pub_keys (pub_keys v)) (mldsa_key_count v) (replicate 32 (replicate 12 0));
         Ok (h, mldsa_key_count v)
     end);
  Ok (mkImageVendorPubKeyInfo
        (mkImageEccKeyDescriptor KEY_DESCRIPTOR_VERSION 0 (u8w (ecc_key_count v)) ecc_hash)
        (mkImagePqcKeyDescriptor KEY_DESCRIPTOR_VERSION (pqc_key_type_u8 (cfg_pqc_key_type config)) (u8w count) pqc_hash)).

Definition gen_owner_pub_keys config : gres ImageOwnerPubKeys :=
  match owner_config config with
  | Some o =>
      let pqc_pub_key :=
        match cfg_pqc_key_type config with
        | LMS => lms_pub_key_bytes (o_lms_pub_key (o_pub_keys o))
        | MLDSA => bytes_le (o_mldsa_pub_key (o_pub_keys o))
        end in
      buf ← copy_prefix (replicate PQC_PUB_KEY_BYTE_SIZE 0) pqc_pub_key;
      Ok (mkImageOwnerPubKeys (o_ecc_pub_key (o_pub_keys o)) buf)
  | None => Ok (mkImageOwnerPubKeys default_ecc_pub_key (replicate PQC_PUB_KEY_BYTE_SIZE 0))
  end.

Definition gen_preamble config (ecc_idx pqc_idx : Z) (vendor_d owner_d : ImageSignData) : gres ImagePreamble :=
  let keys := pub_keys (vendor_config config) in
  vsigs ← gen_vendor_sigs config ecc_idx pqc_idx vendor_d;
  osigs ← gen_owner_sigs config owner_d;
  info ← gen_pub_key_info config;
  ecc_key ← index (ecc_pub_keys keys) ecc_idx;
  pqc_pub_key ←
    (match cfg_pqc_key_type config with
     | LMS => k ← index (lms_pub_keys keys) pqc_idx; Ok (lms_pub_key_bytes k)
     | MLDSA => k ← index (mldsa_pub_keys keys) pqc_idx; Ok (bytes_le k)
     end);
  pqc_key ← copy_prefix (replicate PQC_PUB_KEY_BYTE_SIZE 0) pqc_pub_key;
  owner_keys ← gen_owner_pub_keys config;
  Ok (mkImagePreamble info ecc_idx ecc_key pqc_idx pqc_key vsigs owner_keys osigs [0; 0]).

(** ** The bundle *)

Definition generate config : gres ImageBundle :=
  let image_size := u32w (u32w (IMAGE_MANIFEST_BYTE_SIZE + x_size (cfg_fmc config)) + x_size (cfg_runtime config)) in
  err_if (image_size >? IMAGE_BYTE_SIZE) (ImageLarger image_size);;
  let offset := IMAGE_MANIFEST_BYTE_SIZE in
  '(fmc_toc, fmc) ← gen_image config TocFmc offset;
  let offset := u32w (offset + toc_size fmc_toc) in
  '(runtime_toc, runtime) ← gen_image config TocRuntime offset;
  err_if (overlaps fmc_toc runtime_toc) LoadAddressesOverlap;;
  let ecc_idx := ecc_key_idx (vendor_config config) in
  let pqc_idx := pqc_key_idx (vendor_config config) in
  toc_digest ← gen_toc_digest fmc_toc runtime_toc;
  let header := gen_header config ecc_idx pqc_idx toc_digest in
  vendor_digest ← vendor_header_digest_384 header;
  owner_digest ← owner_header_digest_384 header;
  let '(vendor_msg, owner_msg) :=
    match cfg_pqc_key_type config with
    | MLDSA => (Some (gen_vendor_header_bytes header), Some (header_bytes header))
    | LMS => (None, None)
    end in
  preamble ← gen_preamble config ecc_idx pqc_idx (mkImageSignData vendor_digest vendor_msg)
               (mkImageSignData owner_digest owner_msg);
  Ok (mkImageBundle
        (mkImageManifest MANIFEST_MARKER IMAGE_MANIFEST_BYTE_SIZE (pqc_key_type_u8 (cfg_pqc_key_type config))
           (replicate 3 0) preamble header fmc_toc runtime_toc) fmc runtime).
End Generator.

(** ** Serialization *)

Inductive bundle_error := FmcOffsetMismatch | FmcSizeMismatch | RuntimeOffsetMismatch | RuntimeSizeMismatch.

Definition next_multiple_of (x n : nat) : nat :=
  let r := (x mod n)%nat in if (r =? 0)%nat then x else (x + (n - r))%nat.

Definition to_bytes (b : ImageBundle) : result bundle_error (list Z) :=
  let m := b_manifest b in
  let result := manifest_bytes m in
  err_if (negb (toc_offset (fmc m) =? Z.of_nat (length result))) FmcOffsetMismatch;;
  err_if (negb (toc_size (fmc m) =? Z.of_nat (length (b_fmc b)))) FmcSizeMismatch;;
  let result := result ++ b_fmc b in
  err_if (negb (toc_offset (runtime m) =? Z.of_nat (length result))) RuntimeOffsetMismatch;;
  err_if (negb (toc_size (runtime m) =? Z.of_nat (length (b_runtime b)))) RuntimeSizeMismatch;;
  let result := result ++ b_runtime b in
  Ok (result ++ replicate (next_multiple_of (length result) IMAGE_ALIGNMENT - length result) 0).
