(* ===== verification/ImageGenProofs.v ===== *)
(** What the image generator produces: keys and signatures that the verifier
    reads back from their buffers, the shape of the manifest, and the bundle's
    bytes. *)

From S2P Require Import Prelude Errors Sha256 Sha256Proofs Lms LmsGen ImageTypes ImageLayout Cfi ImageVerify.
From S2P Require Import Decides ImageVerifySpec ImageGen.

(** * Keys and signatures in their buffers *)

Lemma slice_app_mid {A} (a b c : list A) n m :
  length a = n → length b = m → slice (a ++ b ++ c) n (n + m) = b.
Proof.
  intros <- <-. unfold slice. rewrite drop_app_length.
  replace (length a + length b - length a)%nat with (length b) by lia. apply take_app_length.
Qed.

Lemma length_node_bytes n l : is_nodes n l → length (concat (map bytes_le l)) = (24 * n)%nat.
Proof.
  intros [<- Hl]. rewrite (length_concat_same 24), length_map; [done|].
  apply Forall_map. eapply Forall_impl; [done|]. intros d [Hd _]. simpl. rewrite length_bytes_le. lia.
Qed.

Lemma node_chunks n l rest : is_nodes n l →
  map words_le (chunks 24 n (concat (map bytes_le l) ++ rest)) = l.
Proof.
  intros Hn. rewrite chunks_app_r by (rewrite (length_node_bytes n); [lia|done]).
  destruct Hn as [<- Hl]. rewrite <- (length_map bytes_le l), chunks_concat.
  - rewrite map_map. transitivity (map id l); [|apply map_id]. apply map_ext_Forall. eapply Forall_impl; [done|].
    intros w [_ Hw]. by apply words_le_bytes_le.
  - apply Forall_map. eapply Forall_impl; [done|]. intros d [Hd _]. simpl. rewrite length_bytes_le. lia.
Qed.

Lemma length_lms_pub_key_bytes k : wf_lms_key k → length (lms_pub_key_bytes k) = 48%nat.
Proof. intros [_ _ [Hi _] [Hd _]]. unfold lms_pub_key_bytes. autorewrite with len. by rewrite Hi, Hd. Qed.

Lemma length_lms_signature_bytes g : wf_lms_sig g → length (lms_signature_bytes g) = 1620%nat.
Proof.
  intros [_ _ [Hn _] Hy _ Hp]. unfold lms_signature_bytes. autorewrite with len.
  by rewrite Hn, (length_node_bytes 51), (length_node_bytes 15).
Qed.

(** [ref_from_prefix] inverts [as_bytes], whatever follows in the buffer. *)
Lemma lms_pub_key_roundtrip k rest : wf_lms_key k →
  lms_pub_key_from_prefix (lms_pub_key_bytes k ++ rest) = Some k.
Proof.
  intros Hk. pose proof (length_lms_pub_key_bytes k Hk) as Hlen. unfold lms_pub_key_from_prefix.
  rewrite length_app, Hlen, (proj2 (Nat.leb_le _ _)) by (unfold LMS_PUB_KEY_BYTE_SIZE; lia).
  destruct Hk as [Ht Ho [Hi _] [Hd Hdw]]. unfold lms_pub_key_bytes. rewrite <- !app_assoc. f_equal.
  set (n1 := to_be 4 (pk_tree_type k)). set (n2 := to_be 4 (pk_otstype k)). set (n4 := bytes_le (pk_digest k)).
  assert (length n1 = 4%nat ∧ length n2 = 4%nat ∧ length n4 = 24%nat) as (L1 & L2 & L4).
  { unfold n1, n2, n4. by rewrite !length_to_be, length_bytes_le, Hd. }
  set (w := n1 ++ n2 ++ pk_id k ++ n4 ++ rest).
  replace (slice w 0 4) with n1 by (symmetry; by apply (slice_app_mid [] n1 _ 0 4)).
  replace (slice w 4 8) with n2 by (symmetry; by apply (slice_app_mid n1 n2 _ 4 4)). unfold w.
  replace (slice (n1 ++ n2 ++ pk_id k ++ n4 ++ rest) 8 24) with (pk_id k).
  2:{ rewrite (app_assoc n1 n2). symmetry. apply (slice_app_mid _ _ _ 8 16); [by rewrite length_app, L1, L2|done]. }
  replace (slice (n1 ++ n2 ++ pk_id k ++ n4 ++ rest) 24 48) with n4.
  2:{ rewrite (app_assoc n1 n2), (app_assoc (n1 ++ n2)). symmetry.
      apply (slice_app_mid _ n4 _ 24 24); [by rewrite !length_app, L1, L2, Hi|done]. }
  unfold n1, n2, n4. rewrite !from_be_to_be_u32, words_le_bytes_le by done. by destruct k.
Qed.

Lemma lms_signature_roundtrip g rest : wf_lms_sig g →
  lms_signature_from_prefix (lms_signature_bytes g ++ rest) = Some g.
Proof.
  intros Hg. pose proof (length_lms_signature_bytes g Hg) as Hlen. unfold lms_signature_from_prefix.
  rewrite length_app, Hlen, (proj2 (Nat.leb_le _ _)) by (unfold size_ImageLmsSignature; lia).
  destruct Hg as [Hq Ho [Hn Hnw] Hy Ht Hp]. unfold lms_signature_bytes. rewrite <- !app_assoc. f_equal.
  set (n1 := to_be 4 (sig_q g)). set (n2 := to_be 4 (ots_type (sig_ots g))). set (n3 := bytes_le (ots_nonce (sig_ots g))).
  set (n4 := concat (map bytes_le (ots_y (sig_ots g)))). set (n5 := to_be 4 (sig_tree_type g)).
  set (n6 := concat (map bytes_le (sig_tree_path g))).
  assert (length n1 = 4%nat ∧ length n2 = 4%nat ∧ length n3 = 24%nat ∧ length n4 = 1224%nat ∧ length n5 = 4%nat)
    as (L1 & L2 & L3 & L4 & L5).
  { unfold n1, n2, n3, n4, n5. rewrite !length_to_be, length_bytes_le, Hn, (length_node_bytes 51) by done. done. }
  set (w := n1 ++ n2 ++ n3 ++ n4 ++ n5 ++ n6 ++ rest).
  replace (slice w 0 4) with n1 by (symmetry; by apply (slice_app_mid [] n1 _ 0 4)).
  replace (slice w 4 8) with n2 by (symmetry; by apply (slice_app_mid n1 n2 _ 4 4)). unfold w.
  replace (slice (n1 ++ n2 ++ n3 ++ n4 ++ n5 ++ n6 ++ rest) 8 32) with n3.
  2:{ rewrite (app_assoc n1 n2). symmetry. apply (slice_app_mid _ n3 _ 8 24); [by rewrite length_app, L1, L2|done]. }
  replace (slice (n1 ++ n2 ++ n3 ++ n4 ++ n5 ++ n6 ++ rest) 1256 1260) with n5.
  2:{ rewrite !app_assoc, <- (app_assoc _ n6), <- (app_assoc _ n5). symmetry.
      apply (slice_app_mid _ n5 _ 1256 4); [by rewrite !length_app, L1, L2, L3, L4|done]. }
  replace (drop 32 (n1 ++ n2 ++ n3 ++ n4 ++ n5 ++ n6 ++ rest)) with (n4 ++ n5 ++ n6 ++ rest).
  2:{ rewrite !(app_assoc n1), !(app_assoc (n1 ++ n2)). symmetry. apply drop_app_length'.
      by rewrite !length_app, L1, L2, L3. }
  replace (drop 1260 (n1 ++ n2 ++ n3 ++ n4 ++ n5 ++ n6 ++ rest)) with (n6 ++ rest).
  2:{ rewrite (app_assoc n1), (app_assoc (n1 ++ n2)), (app_assoc ((n1 ++ n2) ++ n3)), (app_assoc (_ ++ n4)).
      symmetry. apply drop_app_length'. by rewrite !length_app, L1, L2, L3, L4, L5. }
  unfold n1, n2, n3, n4, n5, n6. rewrite !from_be_to_be_u32, words_le_bytes_le by done.
  rewrite (node_chunks 51), (node_chunks 15) by done. by destruct g as [? [? ? ?] ? ?].
Qed.

Lemma copy_prefix_inv dst src b : copy_prefix dst src = Ok b →
  b = src ++ drop (length src) dst ∧ length b = length dst.
Proof.
  unfold copy_prefix. destruct (Nat.leb_spec (length src) (length dst)); [|done]. intros [= <-].
  split; [done|]. by rewrite length_splice.
Qed.

Lemma index_inv {A} (l : list A) i x : index l i = Ok x → l !! Z.to_nat i = Some x.
Proof. apply unwrap_ok_inv. Qed.

(** * What the generator is given *)

Record wf_exe (x : ImageGeneratorExecutable) : Prop := {
  wx_version : is_u32 (x_version x);
  wx_rev : is_buf 20 (x_rev x);
  wx_load_addr : is_u32 (x_load_addr x);
  wx_entry_point : is_u32 (x_entry_point x);
  wx_content : is_bytes (x_content x);
  wx_size : x_size x = Z.of_nat (length (x_content x));
}.

Definition is_mldsa_key (k : list Z) : Prop := length k = 648%nat ∧ is_words k.

(** What the Rust types say of a configuration. *)
Record wf_config (c : ImageGeneratorConfig) : Prop := {
  wc_ecc_keys : length (ecc_pub_keys (pub_keys (vendor_config c))) = 4%nat ∧
                Forall wf_ecc_key (ecc_pub_keys (pub_keys (vendor_config c)));
  wc_lms_keys : length (lms_pub_keys (pub_keys (vendor_config c))) = 32%nat ∧
                Forall wf_lms_key (lms_pub_keys (pub_keys (vendor_config c)));
  wc_mldsa_keys : length (mldsa_pub_keys (pub_keys (vendor_config c))) = 4%nat ∧
                  Forall is_mldsa_key (mldsa_pub_keys (pub_keys (vendor_config c)));
  wc_ecc_idx : is_u32 (ecc_key_idx (vendor_config c));
  wc_pqc_idx : is_u32 (pqc_key_idx (vendor_config c));
  wc_dates : is_buf 15 (v_not_before (vendor_config c)) ∧ is_buf 15 (v_not_after (vendor_config c));
  wc_pauser : ∀ p, cfg_pl0_pauser (vendor_config c) = Some p → is_u32 p;
  wc_owner : ∀ o, owner_config c = Some o →
    (is_buf 15 (o_not_before o) ∧ is_buf 15 (o_not_after o)) ∧ wf_ecc_key (o_ecc_pub_key (o_pub_keys o)) ∧
    wf_lms_key (o_lms_pub_key (o_pub_keys o)) ∧ is_mldsa_key (o_mldsa_pub_key (o_pub_keys o));
  wc_fmc : wf_exe (cfg_fmc c);
  wc_runtime : wf_exe (cfg_runtime c);
  wc_svn : is_u32 (fw_svn c);
}.

(** The cryptographic library on one side and the device on the other
    implement the same hash, and what one signs with a key pair the other
    verifies; [v_ecc384] returns the first half of a valid signature and
    [v_lms] the public key's digest. *)
Section Generated.
Context `{Hcrypto : ImageGeneratorCrypto} (V : View).
Context (ecc_pair : list Z → ImageEccPubKey → Prop) (lms_pair : LmsPrivateKey → LmsPublicKey → Prop)
  (mldsa_pair : list Z → list Z → Prop).

Record same_crypto : Prop := {
  sc_sha384 d : sha384_digest d = Ok (v_sha384 V d);
  sc_digest d : is_digest (v_sha384 V d);
  sc_ecc d sk pk g : ecc_pair sk pk → ecdsa384_sign d sk pk = Ok g →
    wf_ecc_sig g ∧ ecc_r g ≠ ZERO_DIGEST ∧ ecc_s g ≠ ZERO_DIGEST ∧ v_ecc384 V d pk g = Some (ecc_r g);
  sc_lms d sk pk g : lms_pair sk pk → lms_sign d sk = Ok g →
    wf_lms_sig g ∧ v_lms V d pk g = Some (Lms.hash_value_le (pk_digest pk));
  sc_mldsa m sk pk g : mldsa_pair sk pk → mldsa_sign m sk pk = Ok g →
    (length g = 1157%nat ∧ is_words g) ∧ v_mldsa87 V m pk g = Some MldsaSuccess;
}.
Context (Hsc : same_crypto).

Lemma hash_keys_inv {K} (bytes : K → list Z) keys count n h :
  hash_keys bytes keys count (replicate n (replicate 12 0)) = Ok h →
  is_hashes n h ∧ ∀ i, 0 ≤ i < count → ∃ k, keys !! Z.to_nat i = Some k ∧ h !! Z.to_nat i = Some (v_sha384 V (bytes k)).
Proof.
  intros Hh. set (I (don : list Z) (h : list (list Z)) := is_hashes n h ∧ ∀ i, i ∈ don →
    ∃ k, keys !! Z.to_nat i = Some k ∧ h !! Z.to_nat i = Some (v_sha384 V (bytes k))).
  assert (HI : I (seqZ 0 count) h).
  { refine (foldR_inv _ I _ _ _ _ _ Hh).
    - split; [|set_solver]. split; [apply length_replicate|]. apply Forall_replicate.
      split; [done|]. apply Forall_replicate. done.
    - intros don i x y [[Hl Hf] Hx] Hy. res_inv Hy. apply index_inv in Hs. rewrite sc_sha384 in Hs0 by done.
      simplify_eq. unfold set_index in Hy. destruct (Nat.ltb_spec (Z.to_nat i) (length x)); [|done].
      injection Hy as <-. split.
      + split; [by rewrite length_insert|]. apply Forall_insert; [done|]. by apply sc_digest.
      + intros j [Hj|[->|Hj%elem_of_nil]%elem_of_cons]%elem_of_app; [|exists a|done].
        * destruct (Hx j Hj) as (k & Hk & Hj'). exists k. split; [done|].
          destruct (decide (Z.to_nat i = Z.to_nat j)) as [E|E].
          -- rewrite <- E, list_lookup_insert_eq by done. rewrite <- E in Hk. by simplify_eq.
          -- by rewrite list_lookup_insert_ne.
        * split; [done|]. by rewrite list_lookup_insert_eq. }
  destruct HI as [Hw HI]. split; [done|]. intros i Hi. apply HI. apply elem_of_seqZ. lia.
Qed.

(** ** Signatures *)

Lemma is_buf_prefix n src buf : copy_prefix (replicate n 0) src = Ok buf → is_bytes src → is_buf n buf.
Proof.
  intros [-> Hl]%copy_prefix_inv Hs. rewrite length_replicate in Hl. split; [done|].
  apply Forall_app. split; [done|]. apply Forall_drop, Forall_replicate. done.
Qed.

Lemma nodes_bytes l : is_bytes (concat (map bytes_le l)).
Proof. induction l; [constructor|]. apply Forall_app. split; [apply bytes_le_bytes|done]. Qed.

Lemma lms_pub_key_is_bytes k : wf_lms_key k → is_bytes (lms_pub_key_bytes k).
Proof.
  intros [_ _ [_ Hi] _]. unfold lms_pub_key_bytes. rewrite !Forall_app.
  split_and!; auto using to_be_bytes, bytes_le_bytes.
Qed.

Lemma lms_made_ok msg sk pk g buf rest :
  lms_pair sk pk → wf_lms_key pk → lms_sign (v_sha384 V msg) sk = Ok g →
  copy_prefix (pqc_sig default_signatures) (lms_signature_bytes g) = Ok buf →
  is_buf PQC_SIGNATURE_BYTE_SIZE buf ∧ lms_sig_ok V msg (lms_pub_key_bytes pk ++ rest) buf.
Proof.
  intros Hp Hk Hg Hb. destruct (sc_lms Hsc _ _ _ _ Hp Hg) as [Hwg Hv]. split.
  - apply (is_buf_prefix _ _ _ Hb). unfold lms_signature_bytes. rewrite !Forall_app.
    split_and!; auto using to_be_bytes, bytes_le_bytes, nodes_bytes.
  - apply copy_prefix_inv in Hb as [-> _]. exists pk, g.
    split_and!; [by apply lms_pub_key_roundtrip|by apply lms_signature_roundtrip|done].
Qed.

Lemma mldsa_made_ok msg sk pk g buf rest :
  mldsa_pair sk pk → is_mldsa_key pk → mldsa_sign msg sk pk = Ok g →
  copy_prefix (pqc_sig default_signatures) (bytes_le g) = Ok buf →
  is_buf PQC_SIGNATURE_BYTE_SIZE buf ∧ mldsa_sig_ok V msg (bytes_le pk ++ rest) buf.
Proof.
  intros Hp [Hkl Hkw] Hg Hb. destruct (sc_mldsa Hsc _ _ _ _ Hp Hg) as [[Hgl Hgw] Hv]. split.
  - apply (is_buf_prefix _ _ _ Hb). apply bytes_le_bytes.
  - apply copy_prefix_inv in Hb as [-> _]. unfold mldsa_sig_ok.
    rewrite (take_app_length' (bytes_le pk)) by (by rewrite length_bytes_le, Hkl).
    rewrite (take_app_length' (bytes_le g)) by (by rewrite length_bytes_le, Hgl).
    by rewrite !words_le_bytes_le.
Qed.

Lemma ecc_made_ok msg sk pk g :
  ecc_pair sk pk → (ecc_x pk ≠ ZERO_DIGEST ∧ ecc_y pk ≠ ZERO_DIGEST) → ecdsa384_sign (v_sha384 V msg) sk pk = Ok g →
  wf_ecc_sig g ∧ ecc_sig_ok V msg pk g.
Proof. intros Hp Hk Hg. destruct (sc_ecc Hsc _ _ _ _ Hp Hg) as (? & ? & ? & ?). done. Qed.

(** ** Configurations that can work *)

Definition pqc_count (c : ImageGeneratorConfig) : Z :=
  match cfg_pqc_key_type c with
  | LMS => lms_key_count (vendor_config c) | MLDSA => mldsa_key_count (vendor_config c)
  end.

(** The active keys of the vendor and the owner: matching pairs, of which the
    ECC key is not one with a zero coordinate. *)
Record vendor_pairs (c : ImageGeneratorConfig) (sk : ImageVendorPrivKeys) : Prop := {
  vp_ecc esk epk : ecc_priv_keys sk !! Z.to_nat (ecc_key_idx (vendor_config c)) = Some esk →
    ecc_pub_keys (pub_keys (vendor_config c)) !! Z.to_nat (ecc_key_idx (vendor_config c)) = Some epk →
    ecc_pair esk epk ∧ ecc_x epk ≠ ZERO_DIGEST ∧ ecc_y epk ≠ ZERO_DIGEST;
  vp_lms lsk lpk : lms_priv_keys sk !! Z.to_nat (pqc_key_idx (vendor_config c)) = Some lsk →
    lms_pub_keys (pub_keys (vendor_config c)) !! Z.to_nat (pqc_key_idx (vendor_config c)) = Some lpk →
    lms_pair lsk lpk;
  vp_mldsa msk mpk : mldsa_priv_keys sk !! Z.to_nat (pqc_key_idx (vendor_config c)) = Some msk →
    mldsa_pub_keys (pub_keys (vendor_config c)) !! Z.to_nat (pqc_key_idx (vendor_config c)) = Some mpk →
    mldsa_pair msk mpk;
}.

Record owner_pairs (o : ImageGeneratorOwnerConfig) (sk : ImageOwnerPrivKeys) : Prop := {
  op_ecc : ecc_pair (o_ecc_priv_key sk) (o_ecc_pub_key (o_pub_keys o)) ∧
    ecc_x (o_ecc_pub_key (o_pub_keys o)) ≠ ZERO_DIGEST ∧ ecc_y (o_ecc_pub_key (o_pub_keys o)) ≠ ZERO_DIGEST;
  op_lms : lms_pair (o_lms_priv_key sk) (o_lms_pub_key (o_pub_keys o));
  op_mldsa : mldsa_pair (o_mldsa_priv_key sk) (o_mldsa_pub_key (o_pub_keys o));
}.

(** What the generator does not check but a verifiable image needs. *)
Record usable (c : ImageGeneratorConfig) : Prop := {
  us_ecc_count : 0 < ecc_key_count (vendor_config c) ≤ VENDOR_ECC_MAX_KEY_COUNT;
  us_ecc_idx : ecc_key_idx (vendor_config c) < ecc_key_count (vendor_config c);
  us_pqc_count : 0 < pqc_count c ≤ pqc_max_count (cfg_pqc_key_type c);
  us_pqc_idx : pqc_key_idx (vendor_config c) < pqc_count c;
  us_vendor : ∃ sk, priv_keys (vendor_config c) = Some sk ∧ vendor_pairs c sk;
  us_owner : ∃ o sk, owner_config c = Some o ∧ o_priv_keys o = Some sk ∧ owner_pairs o sk;
  us_fmc_size : (0 < length (x_content (cfg_fmc c)))%nat;
  us_rt_size : (0 < length (x_content (cfg_runtime c)))%nat;
  us_total : IMAGE_MANIFEST_BYTE_SIZE + x_size (cfg_fmc c) + x_size (cfg_runtime c) < 2 ^ 32;
  us_aligned : x_load_addr (cfg_fmc c) mod 4 = 0 ∧ x_load_addr (cfg_runtime c) mod 4 = 0;
  us_svn : fw_svn c ≤ MAX_FIRMWARE_SVN;
}.

(** ** The preamble *)

Definition sign_data (t : FwVerificationPqcKeyType) (msg : list Z) : ImageSignData :=
  mkImageSignData (v_sha384 V msg) (match t with MLDSA => Some msg | LMS => None end).

(** The bytes of the active post-quantum key of the vendor. *)
Definition active_pqc_key (c : ImageGeneratorConfig) : gres (list Z) :=
  let keys := pub_keys (vendor_config c) in
  match cfg_pqc_key_type c with
  | LMS => k ← index (lms_pub_keys keys) (pqc_key_idx (vendor_config c)); Ok (lms_pub_key_bytes k)
  | MLDSA => k ← index (mldsa_pub_keys keys) (pqc_key_idx (vendor_config c)); Ok (bytes_le k)
  end.

Lemma active_pqc_key_len c key : wf_config c → active_pqc_key c = Ok key →
  length key = pqc_key_size (cfg_pqc_key_type c) ∧ is_bytes key.
Proof.
  intros Hw. unfold active_pqc_key. destruct (cfg_pqc_key_type c); intros Hk; res_inv Hk; apply index_inv in Hs.
  - destruct (Forall_lookup_1 _ _ _ _ (proj2 (wc_mldsa_keys c Hw)) Hs) as [Hl _].
    split; [by rewrite length_bytes_le, Hl|apply bytes_le_bytes].
  - pose proof (Forall_lookup_1 _ _ _ _ (proj2 (wc_lms_keys c Hw)) Hs).
    split; [by apply length_lms_pub_key_bytes|by apply lms_pub_key_is_bytes].
Qed.

Lemma vendor_sigs_made c msg g key rest :
  wf_config c → usable c →
  gen_vendor_sigs c (ecc_key_idx (vendor_config c)) (pqc_key_idx (vendor_config c))
    (sign_data (cfg_pqc_key_type c) msg) = Ok g →
  active_pqc_key c = Ok key →
  wf_sigs g ∧ pqc_sig_ok V (cfg_pqc_key_type c) msg (key ++ rest) (pqc_sig g) ∧
  ∀ epk, ecc_pub_keys (pub_keys (vendor_config c)) !! Z.to_nat (ecc_key_idx (vendor_config c)) = Some epk →
    ecc_sig_ok V msg epk (ecc_sig g).
Proof.
  intros Hw Hu Hg Hk. destruct (us_vendor c Hu) as (sk & Hsk & Hp). unfold gen_vendor_sigs in Hg. rewrite Hsk in Hg.
  apply res_bind_ok_inv in Hg as (esk & Hesk%index_inv & Hg).
  apply res_bind_ok_inv in Hg as (epk & Hepk%index_inv & Hg).
  apply res_bind_ok_inv in Hg as (sig & Hsig & Hg). apply res_bind_ok_inv in Hg as (pqc & Hpqc & Hg).
  apply res_bind_ok_inv in Hg as (buf & Hbuf & [= <-]).
  destruct (vp_ecc c sk Hp esk epk Hesk Hepk) as [Hpair Hnz].
  destruct (ecc_made_ok msg esk epk sig Hpair Hnz Hsig) as [Hwe He].
  assert (is_buf PQC_SIGNATURE_BYTE_SIZE buf ∧ pqc_sig_ok V (cfg_pqc_key_type c) msg (key ++ rest) buf) as [Hb Ho].
  { unfold active_pqc_key in Hk. destruct (cfg_pqc_key_type c); simpl in Hpqc, Hk; res_inv Hk; res_inv Hpqc;
      repeat match goal with H : index _ _ = Ok _ |- _ => apply index_inv in H end; simplify_eq.
    - eapply mldsa_made_ok; [by eapply (vp_mldsa c sk Hp)| |done|done].
      by eapply (Forall_lookup_1 _ _ _ _ (proj2 (wc_mldsa_keys c Hw))).
    - eapply lms_made_ok; [by eapply (vp_lms c sk Hp)| |done|done].
      by eapply (Forall_lookup_1 _ _ _ _ (proj2 (wc_lms_keys c Hw))). }
  split_and!; [by split|done|]. intros epk' Hepk'. by simplify_eq.
Qed.

Lemma owner_sigs_made c o msg g keys :
  wf_config c → usable c → owner_config c = Some o →
  gen_owner_sigs c (sign_data (cfg_pqc_key_type c) msg) = Ok g → gen_owner_pub_keys c = Ok keys →
  wf_sigs g ∧ wf_owner_keys keys ∧ pqc_sig_ok V (cfg_pqc_key_type c) msg (opk_pqc_pub_key keys) (pqc_sig g) ∧
  ecc_sig_ok V msg (opk_ecc_pub_key keys) (ecc_sig g).
Proof.
  intros Hw Hu Ho Hg Hk. destruct (us_owner c Hu) as (o' & sk & Ho' & Hsk & Hp). simplify_eq.
  destruct (wc_owner c Hw o Ho) as (_ & Hwe & Hwl & Hwm).
  unfold gen_owner_sigs in Hg. unfold gen_owner_pub_keys in Hk. rewrite Ho in Hg, Hk. rewrite Hsk in Hg.
  apply res_bind_ok_inv in Hg as (sig & Hsig & Hg). apply res_bind_ok_inv in Hg as (pqc & Hpqc & Hg).
  apply res_bind_ok_inv in Hg as (buf & Hbuf & [= <-]). apply res_bind_ok_inv in Hk as (kb & Hkb & [= <-]).
  destruct (op_ecc o sk Hp) as [Hpair Hnz]. destruct (ecc_made_ok msg _ _ sig Hpair Hnz Hsig) as [Hwes He].
  cbn [pqc_sig ecc_sig opk_pqc_pub_key opk_ecc_pub_key].
  assert (is_buf PQC_PUB_KEY_BYTE_SIZE kb) as Hkbuf.
  { apply (is_buf_prefix _ _ _ Hkb). destruct (cfg_pqc_key_type c); [apply bytes_le_bytes|by apply lms_pub_key_is_bytes]. }
  apply copy_prefix_inv in Hkb as [-> _].
  assert (is_buf PQC_SIGNATURE_BYTE_SIZE buf ∧ pqc_sig_ok V (cfg_pqc_key_type c) msg
    (match cfg_pqc_key_type c with LMS => lms_pub_key_bytes (o_lms_pub_key (o_pub_keys o))
      | MLDSA => bytes_le (o_mldsa_pub_key (o_pub_keys o)) end ++
     drop (length (match cfg_pqc_key_type c with LMS => lms_pub_key_bytes (o_lms_pub_key (o_pub_keys o))
      | MLDSA => bytes_le (o_mldsa_pub_key (o_pub_keys o)) end)) (replicate PQC_PUB_KEY_BYTE_SIZE 0)) buf) as [Hb Hpo].
  { destruct (cfg_pqc_key_type c); simpl in Hpqc; res_inv Hpqc.
    - eapply mldsa_made_ok; [apply (op_mldsa o sk Hp)|done..].
    - eapply lms_made_ok; [apply (op_lms o sk Hp)|done..]. }
  split_and!; [by split|by split|done|done].
Qed.

(** The descriptors list the hashes of the configured keys. *)
Record made_info (c : ImageGeneratorConfig) (i : ImageVendorPubKeyInfo) : Prop := {
  mi_wf : wf_info i;
  mi_ecc_version : ekd_version (ecc_key_descriptor i) = KEY_DESCRIPTOR_VERSION;
  mi_ecc_count : ekd_key_hash_count (ecc_key_descriptor i) = ecc_key_count (vendor_config c);
  mi_pqc_version : pkd_version (pqc_key_descriptor i) = KEY_DESCRIPTOR_VERSION;
  mi_pqc_type : pkd_key_type (pqc_key_descriptor i) = pqc_key_type_u8 (cfg_pqc_key_type c);
  mi_pqc_count : pkd_key_hash_count (pqc_key_descriptor i) = pqc_count c;
  mi_ecc_hash j k : 0 ≤ j < ecc_key_count (vendor_config c) →
    ecc_pub_keys (pub_keys (vendor_config c)) !! Z.to_nat j = Some k →
    ekd_key_hash (ecc_key_descriptor i) !! Z.to_nat j = Some (v_sha384 V (ecc_pub_key_bytes k));
  mi_pqc_hash key : active_pqc_key c = Ok key →
    pkd_key_hash (pqc_key_descriptor i) !! Z.to_nat (pqc_key_idx (vendor_config c)) = Some (v_sha384 V key);
}.

Lemma pub_key_info_made c i : wf_config c → usable c → gen_pub_key_info c = Ok i → made_info c i.
Proof.
  intros Hw Hu Hi. unfold gen_pub_key_info in Hi. apply res_bind_ok_inv in Hi as (eh & Heh & Hi).
  apply res_bind_ok_inv in Hi as ([ph n] & Hph & [= <-]).
  destruct (hash_keys_inv _ _ _ _ _ Heh) as [Hew Hel].
  assert (is_hashes 32 ph ∧ n = pqc_count c ∧ ∀ key, active_pqc_key c = Ok key →
    ph !! Z.to_nat (pqc_key_idx (vendor_config c)) = Some (v_sha384 V key)) as (Hpw & -> & Hpl).
  { pose proof (us_pqc_idx c Hu). pose proof (wc_pqc_idx c Hw) as [? _]. unfold active_pqc_key, pqc_count in *.
    destruct (cfg_pqc_key_type c); res_inv Hph; destruct (hash_keys_inv _ _ _ _ _ Hs) as [Hpw Hpl];
      (split_and!; [done..|]); intros key Hk; res_inv Hk; apply index_inv in Hs0;
      destruct (Hpl (pqc_key_idx (vendor_config c)) ltac:(lia)) as (k & Hk & Hh); by simplify_eq. }
  pose proof (us_ecc_count c Hu) as Hec. unfold VENDOR_ECC_MAX_KEY_COUNT in Hec.
  pose proof (us_pqc_count c Hu) as Hpc.
  assert (pqc_max_count (cfg_pqc_key_type c) ≤ 32) by (by destruct (cfg_pqc_key_type c)).
  split; simpl; try done.
  - split; simpl; try done; try apply wrap_in_u; try lia. by destruct (cfg_pqc_key_type c).
  - apply wrap_small. ulia.
  - apply wrap_small. ulia.
  - intros j k Hj Hk. destruct (Hel j Hj) as (k' & Hk' & Hh). by simplify_eq.
Qed.

Record made_preamble (c : ImageGeneratorConfig) (vmsg omsg : list Z) (p : ImagePreamble) : Prop := {
  mp_wf : wf_preamble p;
  mp_info : made_info c (vendor_pub_key_info p);
  mp_ecc_idx : pre_vendor_ecc_pub_key_idx p = ecc_key_idx (vendor_config c);
  mp_pqc_idx : pre_vendor_pqc_pub_key_idx p = pqc_key_idx (vendor_config c);
  mp_ecc_key : ecc_pub_keys (pub_keys (vendor_config c)) !! Z.to_nat (ecc_key_idx (vendor_config c)) =
    Some (vendor_ecc_active_pub_key p);
  mp_pqc_key : active_pqc_key c = Ok (take (pqc_key_size (cfg_pqc_key_type c)) (vendor_pqc_active_pub_key p));
  mp_vendor_ecc : ecc_sig_ok V vmsg (vendor_ecc_active_pub_key p) (ecc_sig (vendor_sigs p));
  mp_vendor_pqc : pqc_sig_ok V (cfg_pqc_key_type c) vmsg (vendor_pqc_active_pub_key p) (pqc_sig (vendor_sigs p));
  mp_owner_ecc : ecc_sig_ok V omsg (opk_ecc_pub_key (owner_pub_keys p)) (ecc_sig (owner_sigs p));
  mp_owner_pqc : pqc_sig_ok V (cfg_pqc_key_type c) omsg (opk_pqc_pub_key (owner_pub_keys p)) (pqc_sig (owner_sigs p));
}.

Lemma preamble_made c vmsg omsg p : wf_config c → usable c →
  gen_preamble c (ecc_key_idx (vendor_config c)) (pqc_key_idx (vendor_config c))
    (sign_data (cfg_pqc_key_type c) vmsg) (sign_data (cfg_pqc_key_type c) omsg) = Ok p →
  made_preamble c vmsg omsg p.
Proof.
  intros Hw Hu Hp. unfold gen_preamble in Hp.
  apply res_bind_ok_inv in Hp as (vs & Hvs & Hp). apply res_bind_ok_inv in Hp as (os & Hos & Hp).
  apply res_bind_ok_inv in Hp as (info & Hinfo & Hp). apply res_bind_ok_inv in Hp as (ek & Hek%index_inv & Hp).
  apply res_bind_ok_inv in Hp as (pk & Hpk & Hp). change (active_pqc_key c = Ok pk) in Hpk.
  apply res_bind_ok_inv in Hp as (pb & Hpb & Hp). apply res_bind_ok_inv in Hp as (ok & Hok & [= <-]).
  destruct (us_owner c Hu) as (o & osk & Ho & _). destruct (active_pqc_key_len c pk Hw Hpk) as [Hlen Hbytes].
  pose proof (is_buf_prefix _ _ _ Hpb Hbytes) as Hbuf. apply copy_prefix_inv in Hpb as [-> _].
  destruct (vendor_sigs_made c vmsg vs pk (drop (length pk) (replicate PQC_PUB_KEY_BYTE_SIZE 0)) Hw Hu Hvs Hpk)
    as (Hwv & Hvp & Hve).
  destruct (owner_sigs_made c o omsg os ok Hw Hu Ho Hos Hok) as (Hwo & Hwk & Hop & Hoe).
  pose proof (pub_key_info_made c info Hw Hu Hinfo) as Hi.
  split; cbn [vendor_pub_key_info pre_vendor_ecc_pub_key_idx pre_vendor_pqc_pub_key_idx vendor_ecc_active_pub_key
    vendor_pqc_active_pub_key vendor_sigs owner_sigs owner_pub_keys]; auto.
  - split; cbn [vendor_pub_key_info pre_vendor_ecc_pub_key_idx pre_vendor_pqc_pub_key_idx vendor_ecc_active_pub_key
      vendor_pqc_active_pub_key vendor_sigs owner_sigs owner_pub_keys pre_rsvd]; auto.
    + apply Hi.
    + apply (wc_ecc_idx c Hw).
    + by apply (Forall_lookup_1 _ _ _ _ (proj2 (wc_ecc_keys c Hw)) Hek).
    + apply (wc_pqc_idx c Hw).
    + split; [done|by repeat constructor].
  - by rewrite take_app_length'.
Qed.
End Generated.
