(* ===== verification/ImageGenTheorems.v ===== *)
(** What the generator guarantees, and the round trip through the verifier: a
    bundle generated from a sound configuration is serialized without error and
    is accepted by a device whose fuses, memory and engines match it. *)

From S2P Require Import Prelude Errors Sha256 Sha256Proofs Lms LmsGen ImageTypes ImageLayout Cfi ImageVerify.
From S2P Require Import Decides ImageVerifySpec ImageVerifyProofs ImageVerifyExample ImageVerifyTheorems ImageGen ImageGenProofs.

Section Bundle.
Context `{Hcrypto : ImageGeneratorCrypto} (V : View).
Context (ecc_pair : list Z → ImageEccPubKey → Prop) (lms_pair : LmsPrivateKey → LmsPublicKey → Prop)
  (mldsa_pair : list Z → list Z → Prop).
Context (Hsc : same_crypto V ecc_pair lms_pair mldsa_pair).

Definition content_len (x : ImageGeneratorExecutable) : Z := Z.of_nat (length (x_content x)).

Definition made_toc (id : ImageTocEntryId) (x : ImageGeneratorExecutable) (offset : Z) : ImageTocEntry :=
  mkImageTocEntry (toc_entry_id_u32 id) 1 (x_rev x) (x_version x) [0; 0] (x_load_addr x) (x_entry_point x) offset
    (content_len x) (v_sha384 V (x_content x)).

Definition made_fmc (c : ImageGeneratorConfig) : ImageTocEntry :=
  made_toc TocFmc (cfg_fmc c) IMAGE_MANIFEST_BYTE_SIZE.
Definition made_runtime (c : ImageGeneratorConfig) : ImageTocEntry :=
  made_toc TocRuntime (cfg_runtime c) (IMAGE_MANIFEST_BYTE_SIZE + content_len (cfg_fmc c)).
Definition made_header (c : ImageGeneratorConfig) : ImageHeader :=
  gen_header c (ecc_key_idx (vendor_config c)) (pqc_key_idx (vendor_config c))
    (v_sha384 V (toc_entry_bytes (made_fmc c) ++ toc_entry_bytes (made_runtime c))).

Lemma gen_image_inv c id offset e bytes :
  content_len (match id with TocFmc => cfg_fmc c | TocRuntime => cfg_runtime c end) < 2 ^ 32 →
  gen_image c id offset = Ok (e, bytes) →
  let x := match id with TocFmc => cfg_fmc c | TocRuntime => cfg_runtime c end in
  e = made_toc id x offset ∧ bytes = x_content x ∧ x_entry_point x = x_load_addr x.
Proof.
  intros Hl Hg. unfold gen_image in Hg. rewrite (sc_sha384 _ _ _ _ Hsc) in Hg. cbn [mbind res_bind] in Hg.
  apply res_bind_ok_inv in Hg as (? & Hc%err_if_ok_inv & Hg). rewrite negb_false_iff, Z.eqb_eq in Hc.
  injection Hg as <- <-. cbv zeta. split_and!; [|done|done]. unfold made_toc, content_len in *.
  by rewrite wrap_small by ulia.
Qed.

Lemma header_flags_u32 v : is_u32 (image_header_flags v).
Proof. unfold image_header_flags. destruct (cfg_pl0_pauser v), (default false (debug_image v)); by vm_compute. Qed.

Lemma made_header_wf c : wf_config c → wf_header (made_header c).
Proof.
  intros Hw. unfold made_header, gen_header. pose proof (wc_owner c Hw) as Ho.
  assert (∀ n, is_buf n (replicate n 0)) as Hz by (intros; by apply is_buf_replicate).
  split; cbn [hdr_revision hdr_vendor_ecc_pub_key_idx hdr_vendor_pqc_pub_key_idx hdr_flags toc_len pl0_pauser
    toc_digest hdr_svn vendor_data owner_data vendor_not_before vendor_not_after vsd_reserved].
  - split; [done|by repeat constructor].
  - apply (wc_ecc_idx c Hw).
  - apply (wc_pqc_idx c Hw).
  - apply header_flags_u32.
  - done.
  - destruct (cfg_pl0_pauser _) eqn:E; [by apply (wc_pauser c Hw)|done].
  - apply (sc_digest _ _ _ _ Hsc).
  - apply (wc_svn c Hw).
  - destruct (wc_dates c Hw). auto.
  - destruct (owner_config c) as [o|]; [|simpl; auto]. destruct (Ho o eq_refl) as ([? ?] & _). simpl. auto.
Qed.

(** ** The generated manifest *)

Record made_bundle (c : ImageGeneratorConfig) (b : ImageBundle) : Prop := {
  mb_manifest : b_manifest b = mkImageManifest MANIFEST_MARKER IMAGE_MANIFEST_BYTE_SIZE
    (pqc_key_type_u8 (cfg_pqc_key_type c)) (replicate 3 0) (preamble (b_manifest b)) (made_header c)
    (made_fmc c) (made_runtime c);
  mb_fmc : b_fmc b = x_content (cfg_fmc c);
  mb_runtime : b_runtime b = x_content (cfg_runtime c);
  mb_entry : x_entry_point (cfg_fmc c) = x_load_addr (cfg_fmc c) ∧
             x_entry_point (cfg_runtime c) = x_load_addr (cfg_runtime c);
  mb_overlap : overlaps (made_fmc c) (made_runtime c) = false;
  mb_total : IMAGE_MANIFEST_BYTE_SIZE + content_len (cfg_fmc c) + content_len (cfg_runtime c) ≤ IMAGE_BYTE_SIZE;
  mb_preamble : made_preamble V c (vendor_header_bytes (made_header c)) (header_bytes (made_header c))
                  (preamble (b_manifest b));
}.

Lemma generate_made c b : wf_config c → usable ecc_pair lms_pair mldsa_pair c → generate c = Ok b → made_bundle c b.
Proof.
  intros Hw Hu Hg. unfold generate in Hg. pose proof (us_total _ _ _ c Hu) as Ht.
  pose proof manifest_size_u16 as HM.
  pose proof (wx_size _ (wc_fmc c Hw)) as Hfs. pose proof (wx_size _ (wc_runtime c Hw)) as Hrs.
  change (Z.of_nat (length (x_content (cfg_fmc c)))) with (content_len (cfg_fmc c)) in Hfs.
  change (Z.of_nat (length (x_content (cfg_runtime c)))) with (content_len (cfg_runtime c)) in Hrs.
  assert (0 ≤ content_len (cfg_fmc c) ∧ 0 ≤ content_len (cfg_runtime c)) as [Hf0 Hr0] by (unfold content_len; lia).
  rewrite Hfs, Hrs in Ht, Hg.
  rewrite (wrap_small 32 (_ + content_len (cfg_fmc c))), (wrap_small 32 (_ + content_len (cfg_runtime c))) in Hg by ulia.
  apply res_bind_ok_inv in Hg as (? & Hsz%err_if_ok_inv & Hg). rewrite Z.gtb_ltb, Z.ltb_ge in Hsz.
  apply res_bind_ok_inv in Hg as ([ft fb] & Hf & Hg). apply gen_image_inv in Hf as (-> & -> & Hfe); [|lia].
  apply res_bind_ok_inv in Hg as ([rt rb] & Hr & Hg). cbn [toc_size made_toc] in Hr.
  rewrite (wrap_small 32) in Hr by ulia. apply gen_image_inv in Hr as (-> & -> & Hre); [|lia].
  apply res_bind_ok_inv in Hg as (? & Hov%err_if_ok_inv & Hg).
  unfold gen_toc_digest, vendor_header_digest_384, owner_header_digest_384, gen_vendor_header_bytes in Hg.
  do 3 (rewrite (sc_sha384 _ _ _ _ Hsc) in Hg; cbn [mbind res_bind] in Hg).
  change (gen_header c _ _ _) with (made_header c) in Hg.
  rewrite (vendor_header_slice _ (made_header_wf c Hw)) in Hg.
  assert (∃ p, gen_preamble c (ecc_key_idx (vendor_config c)) (pqc_key_idx (vendor_config c))
    (sign_data V (cfg_pqc_key_type c) (vendor_header_bytes (made_header c)))
    (sign_data V (cfg_pqc_key_type c) (header_bytes (made_header c))) = Ok p ∧
    b = mkImageBundle (mkImageManifest MANIFEST_MARKER IMAGE_MANIFEST_BYTE_SIZE
      (pqc_key_type_u8 (cfg_pqc_key_type c)) (replicate 3 0) p (made_header c) (made_fmc c) (made_runtime c))
      (x_content (cfg_fmc c)) (x_content (cfg_runtime c))) as (p & Hp & ->).
  { unfold sign_data. destruct (cfg_pqc_key_type c); apply res_bind_ok_inv in Hg as (p & Hp & Hg);
      exists p; split; [exact Hp|by injection Hg as <-|exact Hp|by injection Hg as <-]. }
  split; try done. eapply preamble_made; eauto.
Qed.

Lemma made_toc_wf id x off : wf_exe x → is_u32 off → content_len x < 2 ^ 32 → wf_toc (made_toc id x off).
Proof.
  intros [] Ho Hl. split; cbn; auto.
  - by destruct id.
  - done.
  - split; [done|by repeat constructor].
  - unfold content_len in *. split; [apply Nat2Z.is_nonneg|done].
  - apply (sc_digest _ _ _ _ Hsc).
Qed.

Lemma made_sizes c b : made_bundle c b →
  0 < IMAGE_MANIFEST_BYTE_SIZE ∧ 0 ≤ content_len (cfg_fmc c) ∧ 0 ≤ content_len (cfg_runtime c) ∧
  IMAGE_MANIFEST_BYTE_SIZE + content_len (cfg_fmc c) + content_len (cfg_runtime c) ≤ 0x40000.
Proof.
  intros Hb. pose proof (mb_total c b Hb). pose proof manifest_size_u16. unfold content_len, IMAGE_BYTE_SIZE in *. lia.
Qed.

Lemma made_bundle_wf c b : wf_config c → made_bundle c b → wf_manifest (b_manifest b).
Proof.
  intros Hw Hb. destruct (made_sizes c b Hb) as (? & ? & ? & ?). rewrite (mb_manifest c b Hb).
  split; cbn [marker manifest_size manifest_pqc_key_type manifest_reserved preamble header fmc runtime].
  - done.
  - ulia.
  - by destruct (cfg_pqc_key_type c).
  - by apply is_buf_replicate.
  - apply (mp_wf _ _ _ _ _ (mb_preamble c b Hb)).
  - by apply made_header_wf.
  - apply made_toc_wf; [apply (wc_fmc c Hw)|ulia|lia].
  - apply made_toc_wf; [apply (wc_runtime c Hw)|ulia|lia].
Qed.

(** ** The bytes of the bundle *)

Definition bundle_body (b : ImageBundle) : list Z := manifest_bytes (b_manifest b) ++ b_fmc b ++ b_runtime b.

Lemma next_multiple_spec x : ∃ k, next_multiple_of x 256 = (256 * k)%nat ∧ (x ≤ next_multiple_of x 256 < x + 256)%nat.
Proof.
  unfold next_multiple_of. pose proof (Nat.div_mod_eq x 256) as E. pose proof (Nat.mod_upper_bound x 256 ltac:(lia)).
  destruct (Nat.eqb_spec (x mod 256) 0) as [Hz|Hz].
  - exists (x / 256)%nat. lia.
  - exists (x / 256 + 1)%nat. lia.
Qed.

Lemma to_bytes_made c b : wf_config c → made_bundle c b →
  ∃ pad, to_bytes b = Ok (bundle_body b ++ replicate pad 0) ∧ (pad < 256)%nat ∧
    (length (bundle_body b ++ replicate pad 0%Z) mod 256 = 0)%nat.
Proof.
  intros Hw Hb. pose proof (length_manifest _ (made_bundle_wf c b Hw Hb)) as Hlm. unfold to_bytes.
  assert (Hfm : fmc (b_manifest b) = made_fmc c) by (by rewrite (mb_manifest c b Hb)).
  assert (Hrm : runtime (b_manifest b) = made_runtime c) by (by rewrite (mb_manifest c b Hb)).
  rewrite Hfm, Hrm. cbn [made_fmc made_runtime made_toc toc_offset toc_size].
  cbv zeta. rewrite (length_app (manifest_bytes _) (b_fmc b)), Nat2Z.inj_add, Hlm, (mb_fmc c b Hb), (mb_runtime c b Hb). fold (content_len (cfg_fmc c)).
  fold (content_len (cfg_runtime c)). rewrite !Z.eqb_refl. cbn [negb err_if mbind res_bind].
  rewrite <- (app_assoc (manifest_bytes _)), <- (mb_fmc c b Hb), <- (mb_runtime c b Hb). change (_ ++ b_fmc b ++ b_runtime b) with (bundle_body b).
  unfold IMAGE_ALIGNMENT. destruct (next_multiple_spec (length (bundle_body b))) as (k & Hk & Hb1).
  exists (next_multiple_of (length (bundle_body b)) 256 - length (bundle_body b))%nat.
  split_and!; [done|lia|]. rewrite length_app, length_replicate.
  replace (_ + _)%nat with (256 * k)%nat by lia. rewrite Nat.mul_comm. by apply Nat.Div0.mod_mul.
Qed.

Lemma body_slices c b rest : wf_config c → made_bundle c b →
  let M := Z.to_nat IMAGE_MANIFEST_BYTE_SIZE in
  let n := length (b_fmc b) in
  take M (bundle_body b ++ rest) = manifest_bytes (b_manifest b) ∧
  slice (bundle_body b ++ rest) M (M + n) = b_fmc b ∧
  slice (bundle_body b ++ rest) (M + n) (M + n + length (b_runtime b)) = b_runtime b.
Proof.
  intros Hw Hb M n. pose proof (length_manifest _ (made_bundle_wf c b Hw Hb)) as Hlm.
  assert (HM : length (manifest_bytes (b_manifest b)) = M) by (unfold M; lia). unfold bundle_body.
  rewrite <- !app_assoc. split_and!.
  - by apply take_app_length'.
  - by apply slice_app_mid.
  - rewrite (app_assoc (manifest_bytes _)). apply slice_app_mid; [|done]. rewrite length_app. unfold n. lia.
Qed.

(** ** A device that the bundle is for *)

(** The memory holds the bundle, the fuses hold the digests that the generator
    prints for it, the keys in use are not revoked, the images fit in the ICCM,
    and an update keeps what the cold boot recorded. *)
Record device_ready (c : ImageGeneratorConfig) (b : ImageBundle) (bytes : list Z) (reason : ResetReason) : Prop := {
  dr_memory off len : 0 ≤ off → 0 ≤ len → off + len ≤ Z.of_nat (length bytes) →
    v_image_digest V off len = Some (v_sha384 V (slice bytes (Z.to_nat off) (Z.to_nat (off + len))));
  dr_type : provisioned V → v_pqc_key_type_fuse V = Ok (cfg_pqc_key_type c);
  dr_vendor : provisioned V → v_vendor_digest_fuses V ≠ ZERO_DIGEST ∧
    vendor_pubkey_info_digest (preamble (b_manifest b)) = Ok (v_vendor_digest_fuses V);
  dr_owner : v_owner_digest_fuses V ≠ ZERO_DIGEST →
    owner_pubkey_digest (preamble (b_manifest b)) = Ok (v_owner_digest_fuses V);
  dr_dot h : v_dot_owner_pk_hash V = Some h → owner_pubkey_digest (preamble (b_manifest b)) = Ok h;
  dr_ecc_live : ecc_key_idx (vendor_config c) ≠ ecc_key_count (vendor_config c) - 1 →
    Z.testbit (v_ecc_revocation V) (ecc_key_idx (vendor_config c)) = false;
  dr_pqc_live : pqc_key_idx (vendor_config c) ≠ pqc_count c - 1 →
    Z.testbit (v_pqc_revocation V (cfg_pqc_key_type c)) (pqc_key_idx (vendor_config c)) = false;
  dr_debug : debug_image (vendor_config c) = Some true → v_debug_image_allowed V = true;
  dr_iccm x : x = cfg_fmc c ∨ x = cfg_runtime c →
    fst (v_iccm V) ≤ x_load_addr x ∧ x_load_addr x + content_len x ≤ snd (v_iccm V);
  dr_iccm_end : snd (v_iccm V) < 2 ^ 32;
  dr_svn : provisioned V → v_anti_rollback_disable V = false → v_fw_fuse_svn V ≤ fw_svn c;
  dr_update : reason = UpdateReset →
    owner_pubkey_digest (preamble (b_manifest b)) = Ok (v_owner_digest_dv V) ∧
    v_ecc_idx_dv V = ecc_key_idx (vendor_config c) ∧ v_pqc_idx_dv V = pqc_key_idx (vendor_config c) ∧
    v_fmc_digest_dv V = v_sha384 V (x_content (cfg_fmc c)) ∧
    v_cold_fmc_load_addr V = x_load_addr (cfg_fmc c) ∧ v_cold_fmc_size V = content_len (cfg_fmc c);
}.

Lemma owner_digest_gen p d : owner_pubkey_digest p = Ok d → d = owner_digest V p.
Proof. unfold owner_pubkey_digest. rewrite (sc_sha384 _ _ _ _ Hsc). by intros [= <-]. Qed.

Lemma flag_debug v : Z.land (image_header_flags v) IMAGE_FLAGS_DEBUG_IMAGE ≠ 0 → debug_image v = Some true.
Proof. unfold image_header_flags. by destruct (cfg_pl0_pauser v), (debug_image v) as [[]|]; vm_compute. Qed.

Lemma testbit_land r i : 0 ≤ i < 32 → Z.testbit r i = false → Z.land r (shl_u32 1 i) = 0.
Proof. intros Hi Ht. by rewrite shl_one, land_pow2, Ht by lia. Qed.

Lemma made_keys_ok c p bytes b reason vmsg omsg :
  wf_config c → usable ecc_pair lms_pair mldsa_pair c → p = preamble (b_manifest b) →
  made_preamble V c vmsg omsg p → device_ready c b bytes reason →
  (provisioned V → vendor_keys_ok V p (cfg_pqc_key_type c)) ∧ owner_keys_ok V p reason ∧
  ecc_idx_ok V p reason ∧ pqc_idx_ok V p reason (v_pqc_revocation V (cfg_pqc_key_type c)).
Proof.
  intros Hw Hu -> [Hwp Hi Hei Hpi Hek Hpk _ _ _ _] Hd. set (p := preamble (b_manifest b)) in *.
  destruct Hi as [_ Hev Hec Hpv Hpt Hpc Heh Hph].
  pose proof (us_ecc_count _ _ _ c Hu) as Uec. pose proof (us_ecc_idx _ _ _ c Hu) as Uei.
  pose proof (us_pqc_count _ _ _ c Hu) as Upc. pose proof (us_pqc_idx _ _ _ c Hu) as Upi.
  pose proof (wc_ecc_idx c Hw) as [We _]. pose proof (wc_pqc_idx c Hw) as [Wp _].
  unfold VENDOR_ECC_MAX_KEY_COUNT in Uec.
  assert (Hmax : pqc_max_count (cfg_pqc_key_type c) ≤ 32) by (by destruct (cfg_pqc_key_type c)).
  split_and!.
  - intros Hprov. destruct (dr_vendor _ _ _ _ Hd Hprov) as [Hnz Hfuse]. unfold vendor_pubkey_info_digest in Hfuse.
    rewrite (sc_sha384 _ _ _ _ Hsc) in Hfuse. injection Hfuse as Hfuse.
    split; rewrite ?Hec, ?Hpc, ?Hei, ?Hpi; try done; try lia.
    + apply Heh; [lia|done].
    + by apply Hph.
  - split.
    + intros Hnz. by apply owner_digest_gen, (dr_owner _ _ _ _ Hd).
    + intros _ h Hh. by apply owner_digest_gen, (dr_dot _ _ _ _ Hd).
    + intros Hr. by apply owner_digest_gen, (dr_update _ _ _ _ Hd).
  - split; rewrite Hei, ?Hec; rewrite ?(wrap_small 32) by ulia.
    + lia.
    + intros Hne. rewrite ecc_revoked_bit by lia. by apply (dr_ecc_live _ _ _ _ Hd).
    + intros Hr. by apply (dr_update _ _ _ _ Hd).
  - split; rewrite Hpi, ?Hpc; rewrite ?(wrap_small 32) by ulia.
    + lia.
    + intros Hne. apply testbit_land; [lia|]. by apply (dr_pqc_live _ _ _ _ Hd).
    + intros Hr. by apply (dr_update _ _ _ _ Hd).
Qed.

Lemma made_layout_ok c b reason pad : wf_config c → usable ecc_pair lms_pair mldsa_pair c → made_bundle c b →
  device_ready c b (bundle_body b ++ replicate pad 0) reason →
  layout_ok (b_manifest b) (Z.of_nat (length (bundle_body b ++ replicate pad 0))).
Proof.
  intros Hw Hu Hb Hd. destruct (made_sizes c b Hb) as (HM & Hf & Hr & Ht).
  pose proof (length_manifest _ (made_bundle_wf c b Hw Hb)) as Hlm.
  pose proof (us_fmc_size _ _ _ c Hu). pose proof (us_rt_size _ _ _ c Hu).
  destruct (dr_iccm _ _ _ _ Hd (cfg_fmc c)) as [If1 If2]; [by left|].
  destruct (dr_iccm _ _ _ _ Hd (cfg_runtime c)) as [Ir1 Ir2]; [by right|].
  pose proof (dr_iccm_end _ _ _ _ Hd) as Hend. pose proof (mb_overlap c b Hb) as Hov.
  destruct (wx_load_addr _ (wc_fmc c Hw)) as [Lf _]. destruct (wx_load_addr _ (wc_runtime c Hw)) as [Lr _].
  unfold overlaps, image_size in Hov. cbn [made_fmc made_runtime made_toc load_addr toc_size] in Hov.
  rewrite !(wrap_small 32), andb_false_iff, Z.gtb_ltb, !Z.ltb_ge in Hov by ulia.
  assert (Hl : Z.of_nat (length (bundle_body b ++ replicate pad 0)) =
    IMAGE_MANIFEST_BYTE_SIZE + content_len (cfg_fmc c) + content_len (cfg_runtime c) + Z.of_nat pad).
  { unfold bundle_body. rewrite !length_app, length_replicate, (mb_fmc c b Hb), (mb_runtime c b Hb).
    unfold content_len. lia. }
  rewrite Hl, (mb_manifest c b Hb). split; cbn [fmc runtime made_fmc made_runtime made_toc toc_size toc_offset load_addr];
    unfold content_len in *; try lia.
Qed.

Lemma made_exes_ok c b reason pad : wf_config c → usable ecc_pair lms_pair mldsa_pair c → made_bundle c b →
  device_ready c b (bundle_body b ++ replicate pad 0) reason →
  exe_ok V (made_fmc c) ∧ exe_ok V (made_runtime c).
Proof.
  intros Hw Hu Hb Hd. destruct (made_sizes c b Hb) as (HM & Hf & Hr & Ht).
  destruct (body_slices c b (replicate pad 0) Hw Hb) as (_ & Sf & Sr). cbv zeta in Sf, Sr.
  pose proof (length_manifest _ (made_bundle_wf c b Hw Hb)) as Hlm.
  assert (Hl : IMAGE_MANIFEST_BYTE_SIZE + content_len (cfg_fmc c) + content_len (cfg_runtime c) ≤
    Z.of_nat (length (bundle_body b ++ replicate pad 0))).
  { unfold bundle_body. rewrite !length_app, (mb_fmc c b Hb), (mb_runtime c b Hb). unfold content_len. lia. }
  destruct (mb_entry c b Hb) as [Ef Er]. destruct (us_aligned _ _ _ c Hu) as [Af Ar].
  rewrite (mb_fmc c b Hb) in Sf. rewrite (mb_fmc c b Hb), (mb_runtime c b Hb) in Sr.
  split; (split; cbn [made_fmc made_runtime made_toc toc_offset toc_size load_addr entry_point toc_entry_digest]; auto).
  - rewrite (dr_memory _ _ _ _ Hd) by lia. do 2 f_equal. rewrite Z2Nat.inj_add by lia. unfold content_len at 1.
    by rewrite Nat2Z.id.
  - apply (dr_iccm _ _ _ _ Hd). by left.
  - rewrite (dr_memory _ _ _ _ Hd) by lia. do 2 f_equal. rewrite !Z2Nat.inj_add by lia. unfold content_len.
    by rewrite !Nat2Z.id.
  - apply (dr_iccm _ _ _ _ Hd). by right.
Qed.

Lemma made_accepts c b reason pad : wf_config c → usable ecc_pair lms_pair mldsa_pair c → made_bundle c b →
  device_ready c b (bundle_body b ++ replicate pad 0) reason →
  accepts V (b_manifest b) (Z.of_nat (length (bundle_body b ++ replicate pad 0))) reason (cfg_pqc_key_type c).
Proof.
  intros Hw Hu Hb Hd. pose proof (mb_preamble c b Hb) as Hp.
  destruct (made_keys_ok c _ _ b reason _ _ Hw Hu eq_refl Hp Hd) as (Hvk & Hok & Hei & Hpi).
  destruct (made_exes_ok c b reason pad Hw Hu Hb Hd) as [Xf Xr].
  pose proof (made_layout_ok c b reason pad Hw Hu Hb Hd) as Hlay. revert Hvk Hok Hei Hpi Hp Hlay.
  rewrite (mb_manifest c b Hb). cbn [preamble]. intros Hvk Hok Hei Hpi Hp Hlay.
  split; cbn [marker manifest_size manifest_pqc_key_type preamble header fmc runtime]; try done.
  - by destruct (cfg_pqc_key_type c).
  - apply (dr_type _ _ _ _ Hd).
  - destruct Hp as [_ _ He Hq _ _ Hve Hvp Hoe Hop]. split; auto.
    intros Hdbg. by apply (dr_debug _ _ _ _ Hd), flag_debug.
  - intros Hr. destruct (dr_update _ _ _ _ Hd Hr) as (_ & _ & _ & H1 & H2 & H3). by split.
  - split; [apply (us_svn _ _ _ c Hu)|apply (dr_svn _ _ _ _ Hd)].
Qed.
End Bundle.

(** * Generation succeeds *)

Section Total.
Context `{Hcrypto : ImageGeneratorCrypto} (V : View).
Context (ecc_pair : list Z → ImageEccPubKey → Prop) (lms_pair : LmsPrivateKey → LmsPublicKey → Prop)
  (mldsa_pair : list Z → list Z → Prop).
Context (Hsc : same_crypto V ecc_pair lms_pair mldsa_pair).

(** The library signs whatever it is given. *)
Record always_signs : Prop := {
  as_ecc d sk pk : ∃ g, ecdsa384_sign d sk pk = Ok g;
  as_lms d sk : ∃ g, lms_sign d sk = Ok g;
  as_mldsa m sk pk : ∃ g, mldsa_sign m sk pk = Ok g;
}.
Context (Has : always_signs).

(** The arrays of private keys have the lengths of their types. *)
Definition priv_lengths (c : ImageGeneratorConfig) : Prop :=
  ∀ sk, priv_keys (vendor_config c) = Some sk →
    length (ecc_priv_keys sk) = 4%nat ∧ length (lms_priv_keys sk) = 32%nat ∧ length (mldsa_priv_keys sk) = 4%nat.

Lemma copy_prefix_ok dst src : (length src ≤ length dst)%nat → ∃ b, copy_prefix dst src = Ok b.
Proof. intros H. unfold copy_prefix. rewrite (proj2 (Nat.leb_le _ _) H). eauto. Qed.

Lemma index_ok {A} (l : list A) i n : length l = n → 0 ≤ i → i < Z.of_nat n → ∃ x, index l i = Ok x ∧ l !! Z.to_nat i = Some x.
Proof.
  intros Hl H0 Hi. destruct (lookup_lt_is_Some_2 l (Z.to_nat i)) as [x Hx]; [lia|]. exists x. unfold index.
  by rewrite Hx.
Qed.

Lemma hash_keys_ok {K} (bytes : K → list Z) keys count n :
  count ≤ Z.of_nat (length keys) → count ≤ Z.of_nat n →
  ∃ h, hash_keys bytes keys count (replicate n (replicate 12 0)) = Ok h.
Proof.
  intros Hk Hn. unfold hash_keys.
  enough (Hgen : ∀ l h, (∀ i, i ∈ l → 0 ≤ i < count) → length h = n → ∃ h', foldR (λ h i, k ← index keys i;
    d ← sha384_digest (bytes k); set_index h i d) h l = Ok h').
  { apply Hgen; [|by rewrite length_replicate]. intros i Hi%elem_of_seqZ. lia. }
  induction l as [|i l IH]; intros h Hl Hh; [by exists h|]. cbn [foldR].
  assert (Hi : 0 ≤ i < count) by (apply Hl; set_solver).
  destruct (index_ok keys i _ eq_refl) as (k & -> & _); [lia..|]. cbn [mbind res_bind].
  rewrite (sc_sha384 _ _ _ _ Hsc). cbn [mbind res_bind]. unfold set_index.
  rewrite (proj2 (Nat.ltb_lt (Z.to_nat i) (length h))) by lia. cbn [mbind res_bind].
  apply IH; [|by rewrite length_insert]. intros j Hj. apply Hl. set_solver.
Qed.

Lemma vendor_sigs_ok c vmsg : wf_config c → usable ecc_pair lms_pair mldsa_pair c → priv_lengths c →
  ∃ g, gen_vendor_sigs c (ecc_key_idx (vendor_config c)) (pqc_key_idx (vendor_config c))
    (sign_data V (cfg_pqc_key_type c) vmsg) = Ok g.
Proof.
  intros Hw Hu Hl. destruct (us_vendor _ _ _ c Hu) as (sk & Hsk & Hp). destruct (Hl sk Hsk) as (Le & Ll & Lm).
  pose proof (us_ecc_count _ _ _ c Hu) as Uec. pose proof (us_ecc_idx _ _ _ c Hu) as Uei.
  pose proof (us_pqc_count _ _ _ c Hu) as Upc. pose proof (us_pqc_idx _ _ _ c Hu) as Upi.
  pose proof (wc_ecc_idx c Hw) as [We _]. pose proof (wc_pqc_idx c Hw) as [Wp _].
  unfold VENDOR_ECC_MAX_KEY_COUNT in Uec. unfold gen_vendor_sigs. rewrite Hsk.
  destruct (index_ok (ecc_priv_keys sk) (ecc_key_idx (vendor_config c)) 4 Le) as (esk & -> & Hesk); [lia..|].
  destruct (index_ok _ (ecc_key_idx (vendor_config c)) 4 (proj1 (wc_ecc_keys c Hw))) as (epk & -> & Hepk); [lia..|].
  cbn [mbind res_bind]. destruct (as_ecc Has (digest_384 (sign_data V (cfg_pqc_key_type c) vmsg)) esk epk) as [eg ->].
  cbn [mbind res_bind]. unfold pqc_count, pqc_max_count, VENDOR_LMS_MAX_KEY_COUNT, VENDOR_MLDSA_MAX_KEY_COUNT in *.
  destruct (cfg_pqc_key_type c); cbn [sign_data mldsa_msg digest_384 unwrap mbind res_bind].
  - destruct (index_ok (mldsa_priv_keys sk) (pqc_key_idx (vendor_config c)) 4 Lm) as (msk & -> & Hmsk); [lia..|].
    destruct (index_ok _ (pqc_key_idx (vendor_config c)) 4 (proj1 (wc_mldsa_keys c Hw))) as (mpk & -> & Hmpk); [lia..|].
    cbn [mbind res_bind]. destruct (as_mldsa Has vmsg msk mpk) as [mg Hmg]. rewrite Hmg. cbn [mbind res_bind].
    destruct (sc_mldsa _ _ _ _ Hsc _ _ _ _ (vp_mldsa _ _ _ _ _ Hp _ _ Hmsk Hmpk) Hmg) as [[Hgl _] _].
    destruct (copy_prefix_ok (pqc_sig default_signatures) (bytes_le mg)) as [buf ->]; [|by eexists].
    rewrite length_bytes_le, Hgl. by apply (bool_decide_eq_true_1 _).
  - destruct (index_ok (lms_priv_keys sk) (pqc_key_idx (vendor_config c)) 32 Ll) as (lsk & -> & Hlsk); [lia..|].
    destruct (index_ok _ (pqc_key_idx (vendor_config c)) 32 (proj1 (wc_lms_keys c Hw))) as (lpk & _ & Hlpk); [lia..|].
    cbn [mbind res_bind]. destruct (as_lms Has (v_sha384 V vmsg) lsk) as [lg Hlg]. rewrite Hlg. cbn [mbind res_bind].
    destruct (sc_lms _ _ _ _ Hsc _ _ _ _ (vp_lms _ _ _ _ _ Hp _ _ Hlsk Hlpk) Hlg) as [Hgw _].
    destruct (copy_prefix_ok (pqc_sig default_signatures) (lms_signature_bytes lg)) as [buf ->]; [|by eexists].
    rewrite length_lms_signature_bytes by done. by apply (bool_decide_eq_true_1 _).
Qed.

Lemma owner_sigs_ok c omsg : wf_config c → usable ecc_pair lms_pair mldsa_pair c →
  (∃ g, gen_owner_sigs c (sign_data V (cfg_pqc_key_type c) omsg) = Ok g) ∧ (∃ k, gen_owner_pub_keys c = Ok k).
Proof.
  intros Hw Hu. destruct (us_owner _ _ _ c Hu) as (o & sk & Ho & Hsk & Hp).
  destruct (wc_owner c Hw o Ho) as (_ & _ & Hwl & Hwm). unfold gen_owner_sigs, gen_owner_pub_keys. rewrite Ho, Hsk. split.
  - destruct (as_ecc Has (digest_384 (sign_data V (cfg_pqc_key_type c) omsg)) (o_ecc_priv_key sk)
      (o_ecc_pub_key (o_pub_keys o))) as [eg ->]. cbn [mbind res_bind].
    destruct (cfg_pqc_key_type c); cbn [sign_data mldsa_msg digest_384 unwrap mbind res_bind].
    + destruct (as_mldsa Has omsg (o_mldsa_priv_key sk) (o_mldsa_pub_key (o_pub_keys o))) as [mg Hmg].
      rewrite Hmg. cbn [mbind res_bind].
      destruct (sc_mldsa _ _ _ _ Hsc _ _ _ _ (op_mldsa _ _ _ _ _ Hp) Hmg) as [[Hgl _] _].
      destruct (copy_prefix_ok (pqc_sig default_signatures) (bytes_le mg)) as [buf ->]; [|by eexists].
      rewrite length_bytes_le, Hgl. by apply (bool_decide_eq_true_1 _).
    + destruct (as_lms Has (v_sha384 V omsg) (o_lms_priv_key sk)) as [lg Hlg]. rewrite Hlg. cbn [mbind res_bind].
      destruct (sc_lms _ _ _ _ Hsc _ _ _ _ (op_lms _ _ _ _ _ Hp) Hlg) as [Hgw _].
      destruct (copy_prefix_ok (pqc_sig default_signatures) (lms_signature_bytes lg)) as [buf ->]; [|by eexists].
      rewrite length_lms_signature_bytes by done. by apply (bool_decide_eq_true_1 _).
  - destruct (copy_prefix_ok (replicate PQC_PUB_KEY_BYTE_SIZE 0) (match cfg_pqc_key_type c with
      | LMS => lms_pub_key_bytes (o_lms_pub_key (o_pub_keys o))
      | MLDSA => bytes_le (o_mldsa_pub_key (o_pub_keys o)) end)) as [buf ->]; [|by eexists].
    rewrite length_replicate. destruct Hwm as [Hml _].
    destruct (cfg_pqc_key_type c); rewrite ?length_bytes_le, ?Hml, ?length_lms_pub_key_bytes by done;
      by apply (bool_decide_eq_true_1 _).
Qed.

Lemma pub_key_info_ok c : wf_config c → usable ecc_pair lms_pair mldsa_pair c → ∃ i, gen_pub_key_info c = Ok i.
Proof.
  intros Hw Hu. unfold gen_pub_key_info. pose proof (us_ecc_count _ _ _ c Hu) as Uec.
  pose proof (us_pqc_count _ _ _ c Hu) as Upc. unfold VENDOR_ECC_MAX_KEY_COUNT in Uec.
  destruct (hash_keys_ok ecc_pub_key_bytes (ecc_pub_keys (pub_keys (vendor_config c)))
    (ecc_key_count (vendor_config c)) 4) as [eh ->]; [rewrite (proj1 (wc_ecc_keys c Hw)); lia|lia|].
  cbn [mbind res_bind]. unfold pqc_count, pqc_max_count, VENDOR_LMS_MAX_KEY_COUNT, VENDOR_MLDSA_MAX_KEY_COUNT in Upc.
  destruct (cfg_pqc_key_type c).
  - destruct (hash_keys_ok bytes_le (mldsa_pub_keys (pub_keys (vendor_config c)))
      (mldsa_key_count (vendor_config c)) 32) as [ph ->]; [rewrite (proj1 (wc_mldsa_keys c Hw)); lia|lia|]. by eexists.
  - destruct (hash_keys_ok lms_pub_key_bytes (lms_pub_keys (pub_keys (vendor_config c)))
      (lms_key_count (vendor_config c)) 32) as [ph ->]; [rewrite (proj1 (wc_lms_keys c Hw)); lia|lia|]. by eexists.
Qed.

Lemma preamble_ok c vmsg omsg : wf_config c → usable ecc_pair lms_pair mldsa_pair c → priv_lengths c →
  ∃ p, gen_preamble c (ecc_key_idx (vendor_config c)) (pqc_key_idx (vendor_config c))
    (sign_data V (cfg_pqc_key_type c) vmsg) (sign_data V (cfg_pqc_key_type c) omsg) = Ok p.
Proof.
  intros Hw Hu Hl. unfold gen_preamble. destruct (vendor_sigs_ok c vmsg Hw Hu Hl) as [vs ->].
  destruct (owner_sigs_ok c omsg Hw Hu) as [[os ->] [ok Hok]]. destruct (pub_key_info_ok c Hw Hu) as [i ->].
  pose proof (us_ecc_count _ _ _ c Hu) as Uec. pose proof (us_ecc_idx _ _ _ c Hu) as Uei.
  pose proof (us_pqc_count _ _ _ c Hu) as Upc. pose proof (us_pqc_idx _ _ _ c Hu) as Upi.
  pose proof (wc_ecc_idx c Hw) as [We _]. pose proof (wc_pqc_idx c Hw) as [Wp _].
  unfold VENDOR_ECC_MAX_KEY_COUNT in Uec. cbn [mbind res_bind].
  destruct (index_ok _ (ecc_key_idx (vendor_config c)) 4 (proj1 (wc_ecc_keys c Hw))) as (epk & -> & _); [lia..|].
  cbn [mbind res_bind]. change (match cfg_pqc_key_type c with MLDSA => _ | LMS => _ end) with (active_pqc_key c).
  assert (∃ key, active_pqc_key c = Ok key) as [key Hkey].
  { unfold active_pqc_key, pqc_count, pqc_max_count, VENDOR_LMS_MAX_KEY_COUNT, VENDOR_MLDSA_MAX_KEY_COUNT in *.
    destruct (cfg_pqc_key_type c).
    - destruct (index_ok _ (pqc_key_idx (vendor_config c)) 4 (proj1 (wc_mldsa_keys c Hw))) as (k & -> & _); [lia..|eauto].
    - destruct (index_ok _ (pqc_key_idx (vendor_config c)) 32 (proj1 (wc_lms_keys c Hw))) as (k & -> & _); [lia..|eauto]. }
  rewrite Hkey. cbn [mbind res_bind]. destruct (active_pqc_key_len c key Hw Hkey) as [Hlen _].
  destruct (copy_prefix_ok (replicate PQC_PUB_KEY_BYTE_SIZE 0) key) as [buf ->].
  { rewrite Hlen, length_replicate. destruct (cfg_pqc_key_type c); by apply (bool_decide_eq_true_1 _). }
  rewrite Hok. by eexists.
Qed.

(** What [generate] returns, branch by branch. *)
Definition generate_outcome (c : ImageGeneratorConfig) (r : gres ImageBundle) : Prop :=
  let total := IMAGE_MANIFEST_BYTE_SIZE + x_size (cfg_fmc c) + x_size (cfg_runtime c) in
  if decide (IMAGE_BYTE_SIZE < total) then r = Err (ImageLarger total)
  else if decide (x_entry_point (cfg_fmc c) ≠ x_load_addr (cfg_fmc c)) then r = Err (EntryPointNotLoadAddr TocFmc)
  else if decide (x_entry_point (cfg_runtime c) ≠ x_load_addr (cfg_runtime c)) then
    r = Err (EntryPointNotLoadAddr TocRuntime)
  else if overlaps (made_fmc V c) (made_runtime V c) then r = Err LoadAddressesOverlap
  else ∃ b, r = Ok b.

Lemma gen_image_run c id offset :
  let x := match id with TocFmc => cfg_fmc c | TocRuntime => cfg_runtime c end in
  content_len x < 2 ^ 32 →
  gen_image c id offset =
    if decide (x_entry_point x ≠ x_load_addr x) then Err (EntryPointNotLoadAddr id)
    else Ok (made_toc V id x offset, x_content x).
Proof.
  intros x Hl. unfold gen_image. rewrite (sc_sha384 _ _ _ _ Hsc). cbn [mbind res_bind]. fold x.
  destruct (Z.eqb_spec (x_entry_point x) (x_load_addr x)) as [He|He].
  - rewrite decide_False by naive_solver. unfold made_toc. cbn. rewrite wrap_small; [done|].
    unfold content_len in Hl. split; [apply Nat2Z.is_nonneg|done].
  - by rewrite decide_True by done.
Qed.

Lemma generate_run c : wf_config c → usable ecc_pair lms_pair mldsa_pair c → priv_lengths c →
  generate_outcome c (generate c).
Proof.
  intros Hw Hu Hpl. unfold generate_outcome, generate. pose proof (us_total _ _ _ c Hu) as Ht.
  pose proof manifest_size_u16 as HM.
  pose proof (wx_size _ (wc_fmc c Hw)) as Hfs. pose proof (wx_size _ (wc_runtime c Hw)) as Hrs.
  change (Z.of_nat (length (x_content (cfg_fmc c)))) with (content_len (cfg_fmc c)) in Hfs.
  change (Z.of_nat (length (x_content (cfg_runtime c)))) with (content_len (cfg_runtime c)) in Hrs.
  assert (0 ≤ content_len (cfg_fmc c) ∧ 0 ≤ content_len (cfg_runtime c)) as [Hf0 Hr0] by (unfold content_len; lia).
  rewrite Hfs, Hrs in Ht |- *. cbv zeta.
  rewrite (wrap_small 32 (_ + content_len (cfg_fmc c))), (wrap_small 32 (_ + content_len (cfg_runtime c))) by ulia.
  case_decide as Hsz; rewrite Z.gtb_ltb.
  { by rewrite (proj2 (Z.ltb_lt _ _) Hsz). }
  rewrite (proj2 (Z.ltb_ge _ _)) by lia. cbn [err_if mbind res_bind].
  rewrite (gen_image_run c TocFmc) by lia. cbv zeta. case_decide as Hfe; [done|]. cbn [mbind res_bind].
  cbn [toc_size made_toc]. rewrite (wrap_small 32) by ulia. rewrite (gen_image_run c TocRuntime) by lia. cbv zeta.
  case_decide as Hre; [done|]. cbn [mbind res_bind].
  fold (made_fmc V c). fold (made_runtime V c). destruct (overlaps _ _); [done|]. cbn [err_if mbind res_bind].
  unfold gen_toc_digest, vendor_header_digest_384, owner_header_digest_384, gen_vendor_header_bytes.
  do 3 (rewrite (sc_sha384 _ _ _ _ Hsc); cbn [mbind res_bind]).
  change (gen_header c _ _ _) with (made_header V c).
  rewrite (vendor_header_slice _ (made_header_wf V _ _ _ Hsc c Hw)).
  destruct (preamble_ok c (vendor_header_bytes (made_header V c)) (header_bytes (made_header V c)) Hw Hu Hpl) as [p Hp].
  unfold sign_data in Hp. destruct (cfg_pqc_key_type c); rewrite Hp; by eexists.
Qed.
End Total.

(** * Theorems *)

(** C1. Generating then verifying, across two programs: if the image tool
    generates a bundle from a sound configuration and serializes it, the
    firmware's verifier accepts it on every device whose memory holds the bytes,
    whose fuses match the digests of the bundle's keys and whose engines verify
    what the tool's library signs, on a cold boot and on an update, for LMS and
    for MLDSA; it returns the information of the generated manifest. *)
Theorem gen_then_verify `{Hcrypto : ImageGeneratorCrypto} {E} `{Henv : ImageVerificationEnv E}
    {Hok : ImageVerificationEnvOk E} V ecc_pair lms_pair mldsa_pair c b bytes reason (s : E) :
  same_crypto V ecc_pair lms_pair mldsa_pair → wf_config c → usable ecc_pair lms_pair mldsa_pair c →
  generate c = Ok b → to_bytes b = Ok bytes → device_ready V c b bytes reason → sees s V → v_reliable V →
  fst (verify (b_manifest b) (Z.of_nat (length bytes)) reason s) =
    Ok (accepted_info V (b_manifest b) (cfg_pqc_key_type c)).
Proof.
  intros Hsc Hw Hu Hg Hb Hd Hs Hrel. pose proof (generate_made V _ _ _ Hsc c b Hw Hu Hg) as Hm.
  destruct (to_bytes_made V _ _ _ Hsc c b Hw Hm) as (pad & Hb' & Hpad & _).
  rewrite Hb in Hb'. injection Hb' as ->.
  pose proof (made_accepts V _ _ _ Hsc c b reason pad Hw Hu Hm Hd) as Ha.
  pose proof (made_bundle_wf V _ _ _ Hsc c b Hw Hm) as Hwf.
  assert (Hsz : is_u32 (Z.of_nat (length (bundle_body b ++ replicate pad 0)))).
  { destruct (made_sizes V c b Hm) as (? & ? & ? & ?). unfold bundle_body.
    rewrite !length_app, length_replicate, (mb_fmc V c b Hm), (mb_runtime V c b Hm).
    pose proof (length_manifest _ Hwf). unfold content_len in *. ulia. }
  destruct (verify_outcome (b_manifest b) _ reason s V Hs Hwf Hsz) as [Ho _].
  destruct (fst (verify _ _ _ _)) as [info|e|w]; simpl in Ho; [|by destruct (Ho Hrel _ Ha)|done].
  destruct Ho as (t & Ha' & ->). pose proof (ac_type _ _ _ _ _ Ha). pose proof (ac_type _ _ _ _ _ Ha').
  by simplify_eq.
Qed.

(** When the generator works: for a sound configuration it reports exactly
    the first of the four defects it looks for (too large, an entry point that is
    not the load address of the FMC or of the runtime, overlapping load regions),
    and produces a bundle when there is none; it never panics. *)
Theorem gen_outcomes `{Hcrypto : ImageGeneratorCrypto} V ecc_pair lms_pair mldsa_pair c :
  same_crypto V ecc_pair lms_pair mldsa_pair → always_signs → wf_config c →
  usable ecc_pair lms_pair mldsa_pair c → priv_lengths c → generate_outcome V c (generate c).
Proof. intros Hsc Has Hw Hu Hp. by apply (generate_run V ecc_pair lms_pair mldsa_pair). Qed.

(** The bytes of a generated bundle: serialization succeeds; the result is a
    multiple of 256 bytes long, starts with the manifest, holds each image at the
    offset and with the size of its table-of-contents entry, whose digest is the
    one of those bytes, and is padded with fewer than 256 zeroes. *)
Theorem gen_bundle_bytes `{Hcrypto : ImageGeneratorCrypto} V ecc_pair lms_pair mldsa_pair c b :
  same_crypto V ecc_pair lms_pair mldsa_pair → wf_config c → usable ecc_pair lms_pair mldsa_pair c →
  generate c = Ok b →
  ∃ bytes pad, to_bytes b = Ok bytes ∧ (length bytes mod IMAGE_ALIGNMENT = 0)%nat ∧ (pad < IMAGE_ALIGNMENT)%nat ∧
    bytes = manifest_bytes (b_manifest b) ++ x_content (cfg_fmc c) ++ x_content (cfg_runtime c) ++ replicate pad 0 ∧
    ∀ e x, (e, x) = (fmc (b_manifest b), cfg_fmc c) ∨ (e, x) = (runtime (b_manifest b), cfg_runtime c) →
      slice bytes (Z.to_nat (toc_offset e)) (Z.to_nat (toc_offset e + toc_size e)) = x_content x ∧
      sha384_digest (x_content x) = Ok (toc_entry_digest e) ∧ entry_point e = load_addr e.
Proof.
  intros Hsc Hw Hu Hg. pose proof (generate_made V _ _ _ Hsc c b Hw Hu Hg) as Hm.
  destruct (to_bytes_made V _ _ _ Hsc c b Hw Hm) as (pad & Hb & Hpad & Hmod).
  exists (bundle_body b ++ replicate pad 0), pad. split_and!; [done..| |].
  { unfold bundle_body. by rewrite <- !app_assoc, (mb_fmc V c b Hm), (mb_runtime V c b Hm). }
  destruct (body_slices V _ _ _ Hsc c b (replicate pad 0) Hw Hm) as (_ & Sf & Sr). cbv zeta in Sf, Sr.
  rewrite (mb_fmc V c b Hm) in Sf. rewrite (mb_fmc V c b Hm), (mb_runtime V c b Hm) in Sr.
  destruct (made_sizes V c b Hm) as (? & ? & ? & _). destruct (mb_entry V c b Hm) as [Ef Er].
  rewrite (mb_manifest V c b Hm). cbn [fmc runtime].
  intros e x [[= -> ->]|[= -> ->]]; cbn [made_fmc made_runtime made_toc toc_offset toc_size toc_entry_digest entry_point load_addr];
    rewrite (sc_sha384 _ _ _ _ Hsc); (split_and!; [|done|done]).
  - rewrite Z2Nat.inj_add by lia. unfold content_len at 1. by rewrite Nat2Z.id.
  - rewrite !Z2Nat.inj_add by lia. unfold content_len. by rewrite !Nat2Z.id.
Qed.

(** ** A toy library and a configuration, for the witnesses *)

Definition toy_r (d : list Z) : list Z := replicate 12 (1 + foldl Z.add 0 d mod 2 ^ 16).
Definition toy_node : list Z := replicate 6 7.
Definition toy_lms_sig : LmsSignature := mkLmsSignature 5 (mkLmotsSignature 7 toy_node (replicate 51 toy_node)) 12
  (replicate 15 toy_node).

Definition ToyCrypto : ImageGeneratorCrypto := {|
  sha384_digest d := Ok (toy_r d);
  ecdsa384_sign d sk pk := Ok (mkImageEccSignature (toy_r d) (replicate 12 9));
  lms_sign d sk := Ok toy_lms_sig;
  mldsa_sign m sk pk := Ok (toy_r m ++ replicate 1145 0);
|}.

Definition toy_lms_key : LmsPublicKey := mkLmsPublicKey 12 7 (replicate 16 1) (replicate 6 2).
Definition toy_lms_sk : LmsPrivateKey := mkLmsPrivateKey 12 7 (replicate 16 1) (replicate 6 0).
Definition toy_exe (load : Z) (content : list Z) : ImageGeneratorExecutable :=
  mkImageGeneratorExecutable 1 (replicate 20 0) load load content (Z.of_nat (length content)).

Definition toy_config (t : FwVerificationPqcKeyType) : ImageGeneratorConfig :=
  mkImageGeneratorConfig t
    (mkImageGeneratorVendorConfig 4 32 4
       (mkImageVendorPubKeys (replicate 4 ex_ecc_key) (replicate 32 toy_lms_key) (replicate 4 (replicate 648 5))) 2 2
       (Some (mkImageVendorPrivKeys (replicate 4 []) (replicate 32 toy_lms_sk) (replicate 4 [])))
       (replicate 15 48) (replicate 15 57) None None)
    (Some (mkImageGeneratorOwnerConfig (mkOwnerPubKeyConfig ex_ecc_key toy_lms_key (replicate 648 5))
       (Some (mkImageOwnerPrivKeys [] toy_lms_sk [])) (replicate 15 48) (replicate 15 57)))
    (toy_exe 0x40000000 (seqZ 0 16)) (toy_exe 0x40000100 (seqZ 16 32)) 7.

(** A device for a given bundle: production, key 0 revoked, fuse version 3. *)
Definition toy_view (t : FwVerificationPqcKeyType) (b : ImageBundle) (bytes : list Z) : View :=
  let p := preamble (b_manifest b) in
  mkView True toy_r
    (λ off len, Some (toy_r (slice bytes (Z.to_nat off) (Z.to_nat (off + len)))))
    (λ d k g, Some (toy_r d)) (λ d k g, Some (Lms.hash_value_le (pk_digest k)))
    (λ m k g, Some (if bool_decide (take 12 g = toy_r m) then MldsaSuccess else SigVerifyFailed))
    (toy_r (vendor_pub_key_info_bytes (vendor_pub_key_info p))) 1 1 1
    (toy_r (owner_pub_keys_bytes (owner_pub_keys p))) false Production 2 2
    (toy_r (owner_pub_keys_bytes (owner_pub_keys p))) (toy_r (seqZ 0 16)) 0x40000000 16 3
    (0x40000000, 0x40040000) (Ok t) None false.

Definition any_pair {A B} (a : A) (b : B) : Prop := True.

Lemma toy_r_ok d : is_digest (toy_r d) ∧ toy_r d ≠ ZERO_DIGEST.
Proof.
  pose proof (Z.mod_pos_bound (foldl Z.add 0 d) (2 ^ 16) ltac:(done)). unfold toy_r.
  split; [apply is_digest_replicate; ulia|]. intros [= E]. lia.
Qed.

Lemma toy_nodes n : is_nodes n (replicate n toy_node).
Proof.
  split; [apply length_replicate|]. apply Forall_replicate. split; [done|]. by apply is_words_replicate.
Qed.

Lemma toy_sees t b bytes : sim_sees (mkSimEnv (toy_view t b bytes) 0) (toy_view t b bytes).
Proof. split; [done|]. intros data. apply length_replicate. Qed.

Lemma toy_same_crypto t b bytes :
  same_crypto (Hcrypto := ToyCrypto) (toy_view t b bytes) any_pair any_pair any_pair.
Proof.
  split; cbn -[app replicate toy_r].
  - done.
  - intros d. apply toy_r_ok.
  - intros d sk pk g _ [= <-]. destruct (toy_r_ok d). split_and!; [split|..]; try done. by apply is_digest_replicate.
  - intros d sk pk g _ [= <-]. split; [|done]. split; try done; try apply toy_nodes.
    split; [done|]. by apply is_words_replicate.
  - intros m sk pk g _ Hg. assert (g = toy_r m ++ replicate 1145 0) as -> by congruence. split; [split|].
    + by rewrite length_app, length_replicate.
    + apply Forall_app. split; [apply (toy_r_ok m)|by apply Forall_replicate].
    + rewrite take_app_length' by done. by rewrite bool_decide_eq_true_2.
Qed.

Lemma toy_signs : always_signs (Hcrypto := ToyCrypto).
Proof. split; intros; by eexists. Qed.

Lemma toy_exe_wf load n m : is_u32 load → 0 ≤ n → 0 ≤ m → n + m ≤ 256 → wf_exe (toy_exe load (seqZ n m)).
Proof.
  intros Hl Hn Hm Hs. split; cbn -[replicate seqZ]; try done.
  - by apply is_buf_replicate.
  - apply Forall_forall. intros x Hx%elem_of_seqZ. ulia.
Qed.

Lemma toy_wf t : wf_config (toy_config t).
Proof.
  assert (Hlk : wf_lms_key toy_lms_key).
  { split; try done; [by apply is_buf_replicate|]. split; [done|]. by apply is_words_replicate. }
  assert (Hmk : is_mldsa_key (replicate 648 5)) by (split; [apply length_replicate|by apply is_words_replicate]).
  assert (Hd : ∀ z, is_u8 z → is_buf 15 (replicate 15 z)) by (intros; by apply is_buf_replicate).
  split; cbn -[replicate seqZ]; try done.
  - split; [done|]. apply Forall_replicate, ex_key_wf.
  - split; [done|]. by apply Forall_replicate.
  - split; [done|]. by apply Forall_replicate.
  - split; by apply Hd.
  - intros o [= <-]. cbn -[replicate]. split_and!; auto using ex_key_wf; by apply Hd.
  - by apply toy_exe_wf.
  - by apply toy_exe_wf.
Qed.

Lemma toy_usable t : usable any_pair any_pair any_pair (toy_config t).
Proof.
  assert (Hz : ecc_x ex_ecc_key ≠ ZERO_DIGEST ∧ ecc_y ex_ecc_key ≠ ZERO_DIGEST) by (by split).
  split; try (destruct t; done).
  - eexists. split; [done|]. split; [|done..]. intros esk epk _ Hk. split; [done|].
    apply lookup_replicate in Hk as [-> _]. done.
  - do 2 eexists. split; [done|]. split; [done|]. by split.
  - vm_compute. lia.
  - vm_compute. lia.
Qed.

Lemma toy_lengths t : priv_lengths (toy_config t).
Proof. by intros sk [= <-]. Qed.

Lemma toy_ready t b bytes reason :
  device_ready (Hcrypto := ToyCrypto) (toy_view t b bytes) (toy_config t) b bytes reason.
Proof.
  split; try done.
  - intros _. split; [apply toy_r_ok|done].
  - by destruct t.
  - intros x [-> | ->]; by vm_compute.
Qed.

Lemma toy_generates t : ∃ b, generate (Hcrypto := ToyCrypto) (toy_config t) = Ok b.
Proof.
  destruct (generate (Hcrypto := ToyCrypto) (toy_config t)) as [b|e|w] eqn:Hg; [by exists b|..];
    destruct t; vm_compute in Hg; discriminate.
Qed.

Lemma gen_then_verify_witness :
  ∃ b bytes, generate (Hcrypto := ToyCrypto) (toy_config LMS) = Ok b ∧ to_bytes b = Ok bytes ∧
    let V := toy_view LMS b bytes in
    fst (verify (b_manifest b) (Z.of_nat (length bytes)) UpdateReset (mkSimEnv V 0)) =
      Ok (accepted_info V (b_manifest b) LMS).
Proof.
  destruct (toy_generates LMS) as [b Hg].
  destruct (to_bytes_made (Hcrypto := ToyCrypto) (toy_view LMS b []) _ _ _ (toy_same_crypto LMS b []) (toy_config LMS) b
    (toy_wf LMS) (generate_made _ _ _ _ (toy_same_crypto LMS b []) _ b (toy_wf LMS) (toy_usable LMS) Hg))
    as (pad & Hb & _).
  exists b, (bundle_body b ++ replicate pad 0). split; [done|]. split; [done|].
  exact (gen_then_verify (Hcrypto := ToyCrypto) _ _ _ _ (toy_config LMS) b _ UpdateReset (mkSimEnv (toy_view LMS b _) 0)
    (toy_same_crypto LMS b _) (toy_wf LMS) (toy_usable LMS) Hg Hb (toy_ready LMS b _ _)
    (toy_sees LMS b _) I).
Defined.

Lemma gen_outcomes_witness :
  generate_outcome (toy_view MLDSA (mkImageBundle (ex_manifest 7 0) [] []) []) (toy_config MLDSA)
    (generate (Hcrypto := ToyCrypto) (toy_config MLDSA)).
Proof.
  exact (gen_outcomes (Hcrypto := ToyCrypto) _ _ _ _ (toy_config MLDSA) (toy_same_crypto MLDSA _ []) toy_signs
    (toy_wf MLDSA) (toy_usable MLDSA) (toy_lengths MLDSA)).
Defined.

Lemma gen_bundle_bytes_witness :
  ∃ b bytes, generate (Hcrypto := ToyCrypto) (toy_config MLDSA) = Ok b ∧ to_bytes b = Ok bytes ∧
    (length bytes mod IMAGE_ALIGNMENT = 0)%nat.
Proof.
  destruct (toy_generates MLDSA) as [b Hg].
  destruct (gen_bundle_bytes (Hcrypto := ToyCrypto) _ _ _ _ (toy_config MLDSA) b (toy_same_crypto MLDSA b [])
    (toy_wf MLDSA) (toy_usable MLDSA) Hg) as (bytes & pad & Hb & Hm & _).
  by exists b, bytes.
Defined.
