(* ===== verification/Mailbox.v ===== *)
(** The mailbox peripheral of the emulator
    (sw-emulator/lib/periph/src/mailbox.rs): the protocol state machine, the
    FIFO on top of the mailbox SRAM, and the register file as seen from the
    microcontroller and from the SoC. *)

From S2P Require Import Prelude Bits Memory.

Module Mbox.

Definition MBOX_SIZE_SUBSYSTEM : nat := Nat.shiftl 16 10.
Definition MBOX_SIZE_PASSIVE : nat := Nat.shiftl 256 10.

(** [MailboxRam]: the SRAM is shared by the FIFO and the bus, so there is one
    copy of it, in the FIFO's record. *)
Definition MailboxRam_new (subsystem_mode : bool) : Ram.RamImpl :=
  Ram.new (replicate (if subsystem_mode then MBOX_SIZE_SUBSYSTEM else MBOX_SIZE_PASSIVE) 0).
Definition ram_read (r : Ram.RamImpl) (size : RvSize) (addr : nat) : bus Z :=
  Ram.read (H := AlignedAccess) r size addr.
Definition ram_write (r : Ram.RamImpl) (size : RvSize) (addr : nat) (val : Z) : bus Ram.RamImpl :=
  Ram.write (H := AlignedAccess) r size addr val.

Inductive MailboxRequester := Caliptra | SocUser (pauser : Z).

#[export] Instance MailboxRequester_eq_dec : EqDecision MailboxRequester.
Proof. solve_decision. Defined.

Definition requester_of_u32 (value : Z) : MailboxRequester :=
  if value =? 0xFFFFFFFF then Caliptra else SocUser value.
Definition requester_to_u32 (val : MailboxRequester) : Z :=
  match val with Caliptra => 0xFFFFFFFF | SocUser pauser => pauser end.

(** ** The FIFO *)

Record Fifo := mkFifo {
  latched_dlen : Z;
  capacity : nat;
  read_index : nat;
  write_index : nat;
  mailbox_ram : Ram.RamImpl;
}.

(** [usize as u32], used as an address. *)
Definition as_addr (n : nat) : nat := Z.to_nat (u32w (Z.of_nat n)).

Definition Fifo_new (ram : Ram.RamImpl) : Fifo := mkFifo 0 (length (Ram.data ram)) 0 0 ram.

Definition latch_dlen (dlen : nat) (f : Fifo) : Fifo :=
  mkFifo (u32w (Z.of_nat (if (capacity f <? dlen)%nat then capacity f else dlen)))
    (capacity f) (read_index f) (write_index f) (mailbox_ram f).

Definition fifo_enqueue {E} (element : Z) (f : Fifo) : result E Fifo :=
  if (write_index f <? capacity f)%nat then
    match ram_write (mailbox_ram f) Word (as_addr (write_index f)) element with
    | Ok r => Ok (mkFifo (latched_dlen f) (capacity f) (read_index f) (write_index f + 4) r)
    | Err _ => Abort Panic
    | Abort w => Abort w
    end
  else Ok f.

(** [None] is the [Err(())] of the source. *)
Definition fifo_dequeue {E} (f : Fifo) : result E (option Z * Fifo) :=
  if (Z.to_nat (latched_dlen f) <=? read_index f)%nat then Ok (None, f)
  else
    match ram_read (mailbox_ram f) Word (as_addr (read_index f)) with
    | Ok element =>
        Ok (Some element,
            mkFifo (latched_dlen f) (capacity f) (read_index f + 4) (write_index f) (mailbox_ram f))
    | Err _ => Abort Panic
    | Abort w => Abort w
    end.

Definition fifo_reset (f : Fifo) : Fifo :=
  mkFifo (latched_dlen f) (capacity f) 0 0 (mailbox_ram f).

(** ** The state machine *)

Record Context := mkContext {
  locked : Z;
  user : MailboxRequester;
  dlen : Z;
  fifo : Fifo;
  status : Z;
  cmd : Z;
  data_out : Z;
  unlock_reg : Z;
}.

Definition Context_new (ram : Ram.RamImpl) : Context := mkContext 0 Caliptra 0 (Fifo_new ram) 0 0 0 0.

Definition with_fifo (f : Fifo) (c : Context) : Context :=
  mkContext (locked c) (user c) (dlen c) f (status c) (cmd c) (data_out c) (unlock_reg c).
Definition with_status (s : Z) (c : Context) : Context :=
  mkContext (locked c) (user c) (dlen c) (fifo c) s (cmd c) (data_out c) (unlock_reg c).

(** Guards: [Err tt] is a refused transition. *)
Definition is_not_locked (c : Context) : result unit bool :=
  if locked c =? 1 then Err tt else Ok true.
Definition is_locked (c : Context) : result unit bool :=
  if negb (locked c =? 0) then Ok true else Err tt.

(** Actions. *)
Definition init_dlen (data_len : Z) (c : Context) : result unit Context :=
  let f := fifo_reset (fifo c) in
  Ok (mkContext (locked c) (user c) data_len (latch_dlen (Z.to_nat data_len) f) (status c) (cmd c)
        (data_out c) (unlock_reg c)).
Definition set_cmd (v : Z) (c : Context) : result unit Context :=
  Ok (mkContext (locked c) (user c) (dlen c) (fifo c) (status c) v (data_out c) (unlock_reg c)).
Definition lock (u : MailboxRequester) (c : Context) : result unit Context :=
  Ok (mkContext 1 u (dlen c) (fifo_reset (fifo c)) (status c) (cmd c) (data_out c) (unlock_reg c)).
Definition unlock (c : Context) : result unit Context :=
  Ok (mkContext 0 (user c) (dlen c) (fifo c) 0 (cmd c) (data_out c) (unlock_reg c)).
Definition dequeue (c : Context) : result unit Context :=
  '(o, f) ← fifo_dequeue (fifo c);
  Ok (mkContext (locked c) (user c) (dlen c) f (status c) (cmd c) (default 0 o) (unlock_reg c)).
Definition enqueue (data_in : Z) (c : Context) : result unit Context :=
  f ← fifo_enqueue data_in (fifo c); Ok (with_fifo f c).
Definition unlock_and_reset (c : Context) : result unit Context :=
  c ← unlock c; Ok (with_fifo (fifo_reset (fifo c)) c).

Inductive States := Idle | RdyForCmd | RdyForDlen | RdyForData | ExecUc | ExecSoc | Error.

#[export] Instance States_eq_dec : EqDecision States.
Proof. solve_decision. Defined.

Inductive Events :=
  | RdLock (requester : MailboxRequester)
  | CmdWrite (v : Z)
  | DlenWrite (v : Z)
  | DataWrite (v : Z)
  | DataRead
  | SocExecSet | SocExecClear | UcExecSet | UcExecClear
  | SetStatus
  | WrUnlock
  | EvError.

(** The table of the [statemachine!] block: guard, action and next state. *)
Definition no_guard (c : Context) : result unit bool := Ok true.
Definition no_action (c : Context) : result unit Context := Ok c.

Definition transition (s : States) (e : Events)
    : option ((Context → result unit bool) * (Context → result unit Context) * States) :=
  match s, e with
  | Idle, RdLock r => Some (is_not_locked, lock r, RdyForCmd)
  | RdyForCmd, CmdWrite v => Some (no_guard, set_cmd v, RdyForDlen)
  | RdyForCmd, WrUnlock => Some (no_guard, unlock_and_reset, Idle)
  | RdyForDlen, DlenWrite v => Some (no_guard, init_dlen v, RdyForData)
  | RdyForDlen, WrUnlock => Some (no_guard, no_action, Idle)
  | RdyForData, DataWrite v => Some (no_guard, enqueue v, RdyForData)
  | RdyForData, WrUnlock => Some (no_guard, unlock_and_reset, Idle)
  | RdyForData, SocExecSet => Some (no_guard, no_action, ExecUc)
  | RdyForData, UcExecSet => Some (no_guard, no_action, ExecSoc)
  | ExecUc, DataRead => Some (no_guard, dequeue, ExecUc)
  | ExecUc, DlenWrite v => Some (no_guard, init_dlen v, ExecUc)
  | ExecUc, DataWrite v => Some (no_guard, enqueue v, ExecUc)
  | ExecUc, SocExecClear => Some (is_locked, unlock, Idle)
  | ExecUc, UcExecClear => Some (is_locked, unlock, Idle)
  | ExecUc, SetStatus => Some (no_guard, no_action, ExecSoc)
  | ExecUc, WrUnlock => Some (no_guard, unlock_and_reset, Idle)
  | ExecSoc, DataRead => Some (no_guard, dequeue, ExecSoc)
  | ExecSoc, DlenWrite v => Some (no_guard, init_dlen v, ExecSoc)
  | ExecSoc, DataWrite v => Some (no_guard, enqueue v, ExecSoc)
  | ExecSoc, UcExecClear => Some (is_locked, unlock, Idle)
  | ExecSoc, SocExecClear => Some (is_locked, unlock, Idle)
  | ExecSoc, EvError => Some (no_guard, no_action, Error)
  | ExecSoc, SetStatus => Some (no_guard, no_action, ExecUc)
  | ExecSoc, WrUnlock => Some (no_guard, unlock_and_reset, Idle)
  | Error, WrUnlock => Some (no_guard, unlock_and_reset, Idle)
  | _, _ => None
  end.

(** [process_event] of the generated machine: an event without a transition,
    or whose guard fails, changes nothing and is reported as an error. *)
Inductive SmError := InvalidEvent | GuardFailed | ActionFailed | TransitionsFailed.

Definition process_event (e : Events) (s : States) (c : Context) : result SmError (States * Context) :=
  match transition s e with
  | None => Err InvalidEvent
  | Some (guard, action, next) =>
      match guard c with
      | Ok true =>
          match action c with
          | Ok c' => Ok (next, c')
          | Err _ => Err ActionFailed
          | Abort w => Abort w
          end
      | Ok false => Err TransitionsFailed
      | Err _ => Err GuardFailed
      | Abort w => Abort w
      end
  end.

(** ** The register file *)

(** The fields [lock], [user], [_cmd], [_dlen], [data_in], [data_out],
    [_status] and [_unlock] of the source hold their initial value: accesses go
    to the callbacks. [polls] counts the calls of [Timer::schedule_poll_in]. *)
Record MailboxRegs := mkRegs {
  execute : Z;
  tap_mode : Z;
  state : States;
  context : Context;
  requester : MailboxRequester;
  irq : bool;
  polls : nat;
}.

Definition new (ram : Ram.RamImpl) : MailboxRegs := mkRegs 0 0 Idle (Context_new ram) Caliptra false 0.

Abbreviation R := (MM BusError MailboxRegs).

Definition set_request (u : MailboxRequester) (r : MailboxRegs) : MailboxRegs :=
  mkRegs (execute r) (tap_mode r) (state r) (context r) u (irq r) (polls r).
Definition set_machine (s : States) (c : Context) (r : MailboxRegs) : MailboxRegs :=
  mkRegs (execute r) (tap_mode r) s c (requester r) (irq r) (polls r).

(** [let _ = self.state_machine.process_event(e)]. *)
Definition event (e : Events) : R unit := λ r,
  match process_event e (state r) (context r) with
  | Ok (s, c) => (Ok tt, set_machine s c r)
  | Err _ => (Ok tt, r)
  | Abort w => (Abort w, r)
  end.

Definition read_lock : R Z :=
  result ← get (λ r, match state r with Idle => 0 | _ => 1 end);
  u ← get requester;
  event (RdLock u);;
  mret result.
Definition read_user : R MailboxRequester := get (λ r, user (context r)).
Definition write_cmd (val : Z) : R unit := event (CmdWrite val).
Definition read_cmd : R Z := get (λ r, cmd (context r)).
Definition write_dlen (val : Z) : R unit := event (DlenWrite val).
Definition read_dlen : R Z := get (λ r, dlen (context r)).
Definition write_din (val : Z) : R unit := event (DataWrite val).
Definition read_dout : R Z := event DataRead;; get (λ r, data_out (context r)).

Definition write_ex (val : Z) : R unit :=
  req ← get requester;
  own ← get (λ r, user (context r));
  if negb (bool_decide (req = own)) then event EvError
  else
    let ev := match req with
              | Caliptra => if negb (Z.land val 1 =? 0) then UcExecSet else UcExecClear
              | SocUser _ => if negb (Z.land val 1 =? 0) then SocExecSet else SocExecClear
              end in
    modify (λ r, mkRegs (execute r) (tap_mode r) (state r) (context r) (requester r) true (polls r + 1));;
    event ev;;
    modify (λ r, mkRegs val (tap_mode r) (state r) (context r) (requester r) (irq r) (polls r)).

(** [Status::STATUS] is the field of four bits at offset 0; [write] of a field
    clears the others. *)
Definition write_status (val : Z) : R unit :=
  event SetStatus;;
  modify (λ r, set_machine (state r) (with_status (fget 0 4 val) (context r)) r).

Definition fsm_ps (s : States) : Z :=
  match s with
  | ExecUc => 6 | ExecSoc => 4 | Idle => 0 | RdyForCmd => 1 | RdyForData => 2 | RdyForDlen => 3 | Error => 7
  end.
Definition read_status : R Z := get (λ r, fset 6 3 (fsm_ps (state r)) (status (context r))).

Definition write_unlock : R unit := event WrUnlock.
Definition read_unlock : R Z := get (λ r, unlock_reg (context r)).

(** Raw read-write registers. *)
Definition read_execute (size : RvSize) : R Z :=
  match size with Word => get execute | _ => fail LoadAccessFault end.
Definition read_tap_mode (size : RvSize) : R Z :=
  match size with Word => get tap_mode | _ => fail LoadAccessFault end.
Definition write_tap_mode (size : RvSize) (val : Z) : R unit :=
  match size with
  | Word => modify (λ r, mkRegs (execute r) val (state r) (context r) (requester r) (irq r) (polls r))
  | _ => fail StoreAccessFault
  end.

(** [Bus::read] and [Bus::write], derived from the [register] attributes. *)
Definition bus_read (size : RvSize) (addr : Z) : R Z :=
  match addr with
  | 0x00 => read_lock
  | 0x04 => u ← read_user; mret (requester_to_u32 u)
  | 0x08 => read_cmd
  | 0x0c => read_dlen
  | 0x10 => fail LoadAccessFault
  | 0x14 => read_dout
  | 0x18 => read_execute size
  | 0x1c => read_status
  | 0x20 => read_unlock
  | 0x24 => read_tap_mode size
  | _ => fail LoadAccessFault
  end.

Definition bus_write (size : RvSize) (addr val : Z) : R unit :=
  match addr with
  | 0x00 | 0x04 | 0x14 => mret tt
  | 0x08 => write_cmd val
  | 0x0c => write_dlen val
  | 0x10 => write_din val
  | 0x18 => write_ex val
  | 0x1c => write_status val
  | 0x20 => write_unlock
  | 0x24 => write_tap_mode size val
  | _ => fail StoreAccessFault
  end.

(** ** The two sides of the mailbox *)

(** [MailboxInternal]: the microcontroller. *)
Definition internal {A} (m : R A) : R A := modify (set_request Caliptra);; m.

(** [MailboxExternal]: a SoC user; the requester is restored afterwards, also
    when the access fails. *)
Definition external {A} (soc_user : MailboxRequester) (m : R A) : R A := λ r,
  let '(result, r) := m (set_request soc_user r) in (result, set_request Caliptra r).

(** The bus of an agent that accesses the mailbox. *)
Definition side_of (q : MailboxRequester) : ∀ A, R A → R A :=
  match q with Caliptra => @internal | SocUser u => λ A, @external A (SocUser u) end.

Definition get_notif_irq (r : MailboxRegs) : bool * MailboxRegs :=
  if irq r then
    (true, mkRegs (execute r) (tap_mode r) (state r) (context r) (requester r) false (polls r))
  else (false, r).

(** Accesses to the SRAM itself, which the microcontroller's bus maps. *)
Definition set_ram (m : Ram.RamImpl) (r : MailboxRegs) : MailboxRegs :=
  let f := fifo (context r) in
  set_machine (state r)
    (with_fifo (mkFifo (latched_dlen f) (capacity f) (read_index f) (write_index f) m) (context r)) r.
Definition sram (r : MailboxRegs) : Ram.RamImpl := mailbox_ram (fifo (context r)).
Definition sram_read (size : RvSize) (addr : nat) : R Z := λ r, (ram_read (sram r) size addr, r).
Definition sram_write (size : RvSize) (addr : nat) (val : Z) : R unit := λ r,
  match ram_write (sram r) size addr val with
  | Ok m => (Ok tt, set_ram m r)
  | Err e => (Err e, r)
  | Abort w => (Abort w, r)
  end.

End Mbox.
