(* ===== verification/MailboxDriver.v ===== *)
(** The firmware side of the mailbox: the register interface generated for it
    (hw/latest/registers/src/mbox.rs), the driver of ROM and FMC
    (drivers/src/mailbox.rs) with its send and receive transactions, and the
    mailbox of the runtime firmware (runtime/src/mailbox.rs). *)

From S2P Require Import Prelude Bits Errors Memory Mailbox.

(** * Register interface *)

Module Csr.
Import Mbox.

Inductive MboxFsmE :=
  | MboxIdle | MboxRdyForCmd | MboxRdyForData | MboxRdyForDlen
  | MboxExecuteSoc | MboxExecuteTap | MboxExecuteUc | MboxError.

#[export] Instance MboxFsmE_eq_dec : EqDecision MboxFsmE.
Proof. solve_decision. Defined.

Definition MboxFsmE_try_from (val : Z) : option MboxFsmE :=
  match val with
  | 0 => Some MboxIdle | 1 => Some MboxRdyForCmd | 2 => Some MboxRdyForData | 3 => Some MboxRdyForDlen
  | 4 => Some MboxExecuteSoc | 5 => Some MboxExecuteTap | 6 => Some MboxExecuteUc | 7 => Some MboxError
  | _ => None
  end.

(** [Reserved n] stands for the reserved codes 4 to 15. *)
Inductive MboxStatusE := CmdBusy | DataReady | CmdComplete | CmdFailure | Reserved (n : Z).

#[export] Instance MboxStatusE_eq_dec : EqDecision MboxStatusE.
Proof. solve_decision. Defined.

Definition MboxStatusE_try_from (val : Z) : option MboxStatusE :=
  match val with
  | 0 => Some CmdBusy | 1 => Some DataReady | 2 => Some CmdComplete | 3 => Some CmdFailure
  | n => if n <? 0x10 then Some (Reserved n) else None
  end.
Definition MboxStatusE_into (s : MboxStatusE) : Z :=
  match s with CmdBusy => 0 | DataReady => 1 | CmdComplete => 2 | CmdFailure => 3 | Reserved n => n end.

(** Volatile accesses through a bus: a bus fault panics. *)
Definition mmio {E A} (m : R A) : MM E MailboxRegs A := λ r,
  match m r with
  | (Ok a, r') => (Ok a, r')
  | (Err _, r') => (Abort Panic, r')
  | (Abort w, r') => (Abort w, r')
  end.

(** A register block on one side of the mailbox. *)
Section Regs.
Context {E : Type} (side : ∀ A, R A → R A).
Abbreviation X := (MM E MailboxRegs).

Definition rd (addr : Z) : X Z := mmio (side _ (bus_read Word addr)).
Definition wr (addr val : Z) : X unit := mmio (side _ (bus_write Word addr val)).

Definition lock_read : X bool := v ← rd 0x00; mret (negb (fget 0 1 v =? 0)).
Definition user_read : X Z := rd 0x04.
Definition cmd_read : X Z := rd 0x08.
Definition cmd_write (v : Z) : X unit := wr 0x08 v.
Definition dlen_read : X Z := rd 0x0c.
Definition dlen_write (v : Z) : X unit := wr 0x0c v.
Definition datain_write (v : Z) : X unit := wr 0x10 v.
Definition dataout_read : X Z := rd 0x14.
Definition execute_write (b : bool) : X unit := wr 0x18 (fset 0 1 (Z.b2z b) 0).
Definition status_read : X (MboxStatusE * MboxFsmE) :=
  v ← rd 0x1c;
  s ← lift (unwrap (MboxStatusE_try_from (fget 0 4 v)));
  f ← lift (unwrap (MboxFsmE_try_from (fget 6 3 v)));
  mret (s, f).
Definition status_write (s : MboxStatusE) : X unit := wr 0x1c (fset 0 4 (MboxStatusE_into s) 0).
Definition unlock_write (b : bool) : X unit := wr 0x20 (fset 0 1 (Z.b2z b) 0).
Definition tap_mode_modify (b : bool) : X unit := v ← rd 0x24; wr 0x24 (fset 0 1 (Z.b2z b) v).

(** Only one of the two fields of a status read is looked at; the other is not
    decoded. *)
Definition fsm_read : X MboxFsmE := v ← rd 0x1c; lift (unwrap (MboxFsmE_try_from (fget 6 3 v))).
Definition status_field_read : X MboxStatusE :=
  v ← rd 0x1c; lift (unwrap (MboxStatusE_try_from (fget 0 4 v))).

(** [while c {}] where [others] is what the other agents do to the mailbox
    between the polls. *)
Fixpoint spin_while (c : X bool) (others : list (MailboxRegs → MailboxRegs)) : X unit :=
  b ← c;
  if (b : bool) then
    match others with
    | [] => stop Diverge
    | o :: others' => modify o;; spin_while c others'
    end
  else mret tt.

Fixpoint write_words (ws : list Z) : X unit :=
  match ws with [] => mret tt | w :: ws' => datain_write w;; write_words ws' end.
Fixpoint read_words (n : nat) : X (list Z) :=
  match n with
  | O => mret []
  | S n' => w ← dataout_read; ws ← read_words n'; mret (w :: ws)
  end.
End Regs.

Abbreviation uc := (side_of Caliptra).
Abbreviation soc u := (side_of (SocUser u)).

End Csr.

(** * The driver *)

Module Driver.
Import Mbox Csr.

Inductive MailboxOpState := OpRdyForCmd | OpRdyForDlen | OpRdyForData | OpExecute | OpIdle.

#[export] Instance MailboxOpState_eq_dec : EqDecision MailboxOpState.
Proof. solve_decision. Defined.

Definition MBOX_SIZE_SUBSYSTEM : Z := 16 * 1024.
Definition MBOX_SIZE_PASSIVE : Z := 256 * 1024.
Definition get_mbox_size (subsystem_mode : bool) : Z :=
  if subsystem_mode then MBOX_SIZE_SUBSYSTEM else MBOX_SIZE_PASSIVE.

(** The firmware's accesses to the mailbox. *)
Abbreviation F := (M MailboxRegs).

(** ** The FIFO interface *)

(** [last_word.as_mut_bytes()[..suffix.len()].copy_from_slice(suffix)]. *)
Definition last_word (suffix : list Z) : Z := from_le (suffix ++ replicate (4 - length suffix) 0).
Definition suffix_of (buf : list Z) : list Z := drop (4 * (length buf / 4)) buf.

Definition fifo_enqueue (buf : list Z) : F unit :=
  n ← dlen_read uc;
  fail_if (negb (Z.to_nat n =? length buf)%nat) DRIVER_MAILBOX_ENQUEUE_ERR;;
  write_words uc (words_le buf);;
  match suffix_of buf with
  | [] => mret tt
  | sfx => if (length sfx <=? 4)%nat then write_words uc [last_word sfx] else mret tt
  end.

(** Returns the new contents of the buffer. *)
Definition fifo_dequeue (buf : list Z) : F (list Z) :=
  n ← dlen_read uc;
  let dlen_bytes := Z.to_nat n in
  let len := if (dlen_bytes <? length buf)%nat then dlen_bytes else length buf in
  let len_words := (len / 4)%nat in
  ws ← read_words uc len_words;
  let sfx_len := (len - 4 * len_words)%nat in
  sfx ← (if (0 <? sfx_len)%nat && (sfx_len <=? 4)%nat then
           w ← dataout_read uc; mret (take sfx_len (to_le 4 w))
         else mret (take sfx_len (drop (4 * len_words) buf)));
  mret (bytes_le ws ++ sfx ++ drop len buf).

(** ** Send transactions *)

Record MailboxSendTxn := mkSend { s_state : MailboxOpState; s_mbox : MailboxRegs }.
Abbreviation S_ := (M MailboxSendTxn).

Definition s_lift {A} (m : F A) : S_ A := λ t,
  let '(x, r) := m (s_mbox t) in (x, mkSend (s_state t) r).
Definition s_set (st : MailboxOpState) : S_ unit := modify (λ t, mkSend st (s_mbox t)).
Definition s_need (st : MailboxOpState) : S_ unit :=
  s ← get s_state; fail_if (negb (bool_decide (s = st))) DRIVER_MAILBOX_INVALID_STATE.

(** [Mailbox::try_start_send_txn]: the state of the transaction if the lock was
    free. *)
Definition try_start_send_txn : F (option MailboxOpState) :=
  b ← lock_read uc; mret (if b : bool then None else Some OpRdyForCmd).
Definition wait_until_start_send_txn (others : list (MailboxRegs → MailboxRegs)) : F MailboxOpState :=
  spin_while (lock_read uc) others;; mret OpRdyForCmd.
Definition wait_until_idle (others : list (MailboxRegs → MailboxRegs)) : F unit :=
  spin_while (f ← fsm_read uc; mret (negb (bool_decide (f = MboxIdle)))) others.

Definition abort_pending_soc_to_uc_transactions : F unit :=
  f ← fsm_read uc;
  if bool_decide (f = MboxExecuteUc) then status_write uc CmdFailure else mret tt.

Section Send.
Context (mbox_len : Z).

Definition send_write_cmd (cmd : Z) : S_ unit :=
  s_need OpRdyForCmd;;
  s_lift (cmd_write uc cmd);;
  s_set OpRdyForDlen.

Definition send_write_dlen (dlen : Z) : S_ unit :=
  s_need OpRdyForDlen;;
  fail_if (mbox_len <? dlen) DRIVER_MAILBOX_INVALID_DATA_LEN;;
  s_lift (dlen_write uc dlen);;
  s_set OpRdyForData.

Definition send_copy_request (cmd : Z) (data : list Z) : S_ unit :=
  s_need OpRdyForCmd;;
  send_write_cmd cmd;;
  send_write_dlen (u32w (Z.of_nat (length data)));;
  s_lift (fifo_enqueue data);;
  s_set OpRdyForData.

Definition execute_request : S_ unit :=
  s_need OpRdyForData;;
  s_lift (execute_write uc true);;
  s_set OpExecute.

Definition send_request (cmd : Z) (data : list Z) : S_ unit :=
  send_copy_request cmd data;; execute_request;; mret tt.

Definition is_response_ready : S_ bool :=
  '(s, f) ← s_lift (status_read uc);
  mret (if bool_decide (f = MboxError) then true
        else match s with DataReady | CmdComplete | CmdFailure => true | _ => false end).

Definition send_status : S_ MboxStatusE := s_lift (status_field_read uc).

Definition send_complete : S_ unit :=
  s_need OpExecute;;
  '(s, f) ← s_lift (status_read uc);
  if bool_decide (f = MboxError) || bool_decide (s = DataReady) then
    s_lift (unlock_write uc true);;
    s_set OpIdle;;
    fail DRIVER_MAILBOX_FSM_ERROR
  else
    s_lift (execute_write uc false);;
    s_set OpIdle.

Definition send_drop : S_ unit :=
  f ← s_lift (fsm_read uc);
  if negb (bool_decide (f = MboxIdle)) then s_lift (unlock_write uc true) else mret tt.

End Send.

(** ** Receive transactions *)

Record MailboxRecvTxn := mkRecv { r_state : MailboxOpState; recovery_transaction : bool; r_mbox : MailboxRegs }.
Abbreviation R_ := (M MailboxRecvTxn).

Definition r_lift {A} (m : F A) : R_ A := λ t,
  let '(x, r) := m (r_mbox t) in (x, mkRecv (r_state t) (recovery_transaction t) r).
Definition r_set (st : MailboxOpState) : R_ unit :=
  modify (λ t, mkRecv st (recovery_transaction t) (r_mbox t)).
Definition r_need (st : MailboxOpState) : R_ unit :=
  s ← get r_state; fail_if (negb (bool_decide (s = st))) DRIVER_MAILBOX_INVALID_STATE.

(** [try_start_recv_txn] and [peek_recv] with [start_txn]: the initial state
    and the recovery flag of the transaction. *)
Definition try_start_recv_txn : F (option (MailboxOpState * bool)) :=
  f ← fsm_read uc;
  mret (match f with MboxExecuteUc => Some (OpExecute, false) | _ => None end).
Definition recovery_recv_txn (others : list (MailboxRegs → MailboxRegs)) : F (MailboxOpState * bool) :=
  spin_while (lock_read uc) others;; mret (OpExecute, true).
Definition peek_recv : F bool :=
  f ← fsm_read uc; mret (match f with MboxExecuteUc => true | _ => false end).
Definition peek_cmd : F Z := cmd_read uc.
Definition peek_id : F Z := user_read uc.
Definition peek_dlen : F Z := dlen_read uc.
Definition start_txn : MailboxOpState * bool := (OpExecute, false).

Section Recv.
(** [mailbox_uncorrectable_ecc] is a bit of the SoC interface registers. *)
Context (mbox_len : Z) (mailbox_uncorrectable_ecc : bool).

Definition recv_cmd : R_ Z := r_lift (cmd_read uc).
Definition recv_dlen : R_ Z := r_lift (dlen_read uc).
Definition recv_raw_mailbox_contents : R_ (list Z) :=
  get (λ t, take (Z.to_nat mbox_len) (Ram.data (sram (r_mbox t)))).

Definition drop_words (count : nat) : R_ unit :=
  n ← recv_dlen;
  let dlen_words := ((Z.to_nat n + 3) / 4)%nat in
  r_lift (read_words uc (Nat.min count dlen_words));;
  mret tt.

Definition recv_write_dlen (dlen : Z) : R_ unit :=
  r_need OpRdyForDlen;;
  fail_if (mbox_len <? dlen) DRIVER_MAILBOX_INVALID_DATA_LEN;;
  r_lift (dlen_write uc dlen).

Definition recv_copy_request (data : list Z) : R_ (list Z) :=
  r_need OpExecute;;
  buf ← r_lift (fifo_dequeue data);
  fail_if mailbox_uncorrectable_ecc DRIVER_MAILBOX_UNCORRECTABLE_ECC;;
  mret buf.

Definition recv_complete (success : bool) : R_ unit :=
  rec ← get recovery_transaction;
  if (rec : bool) then r_lift (unlock_write uc true)
  else
    st ← get r_state;
    fail_if (negb (bool_decide (st = OpExecute)) && negb (bool_decide (st = OpRdyForData)))
      DRIVER_MAILBOX_INVALID_STATE;;
    let status := if success then if bool_decide (st = OpRdyForData) then DataReady else CmdComplete
                  else CmdFailure in
    r_lift (status_write uc status);;
    r_set OpIdle.

Definition recv_request (data : list Z) : R_ (list Z) :=
  buf ← recv_copy_request data; recv_complete true;; mret buf.

Definition copy_response (data : list Z) : R_ unit :=
  r_need OpExecute;;
  r_set OpRdyForDlen;;
  recv_write_dlen (u32w (Z.of_nat (length data)));;
  r_set OpRdyForData;;
  r_lift (fifo_enqueue data).

Definition send_response (data : list Z) : R_ unit :=
  copy_response data;; recv_complete true.

Definition set_uc_tap_unlock (enable : bool) : R_ unit := r_lift (tap_mode_modify uc enable).

(** [let _ = self.complete(false)]: an error is dropped. *)
Definition recv_drop : R_ unit :=
  st ← get r_state;
  if negb (bool_decide (st = OpIdle)) then ignore_err (recv_complete false) else mret tt.

End Recv.
End Driver.
