(* ===== verification/MailboxApi.v ===== *)
(** The two ends of a mailbox command: the host library (api/src/soc_mgr.rs,
    api/src/mailbox.rs, api/src/checksum.rs) and the command loop of the
    runtime firmware (runtime/src/mailbox.rs, packet.rs and lib.rs). *)

From S2P Require Import Prelude Bits Errors Memory Mailbox MailboxDriver.

(** * Checksums *)

Definition calc_checksum (cmd : Z) (data : list Z) : Z :=
  let checksum := foldl (λ a c, u32w (a + c)) 0 (to_le 4 cmd) in
  let checksum := foldl (λ a d, u32w (a + d)) checksum data in
  u32w (0 - checksum).
Definition verify_checksum (checksum cmd : Z) (data : list Z) : bool := calc_checksum cmd data =? checksum.

(** [populate_checksum]: the first word of a response; [split_at_mut] panics on
    a shorter message. *)
Definition populate_checksum {E} (msg : list Z) : result E (list Z) :=
  err_if_panic (length msg <? 4)%nat;;
  Ok (to_le 4 (calc_checksum 0 (drop 4 msg)) ++ drop 4 msg).

(** * The host *)

Module Host.
Import Mbox Csr.

Inductive CaliptraApiError :=
  | UnableToSetPauser | UnableToLockMailbox | UnableToReadMailbox | BufferTooLargeForMailbox
  | UnknownCommandStatus (status : Z) | MailboxTimeout | MailboxCmdFailed (code : Z)
  | UnexpectedMailboxFsmStatus (expected actual : Z)
  | MailboxRespInvalidFipsStatus (status : Z)
  | MailboxRespInvalidChecksum (expected actual : Z)
  | MailboxRespTypeTooSmall | MailboxReqTypeTooSmall | MailboxNoResponseData
  | MailboxUnexpectedResponseLen (expected_min expected_max actual : Z)
  | UploadFirmwareUnexpectedResponse | UploadMeasurementResponseError | ReadBuffTooSmall
  | FusesAlreadyIniitalized | FuseDoneNotSet | StashMeasurementFailed.

#[export] Instance CaliptraApiError_eq_dec : EqDecision CaliptraApiError.
Proof. solve_decision. Defined.

Definition SUBSYSTEM_MAILBOX_SIZE_LIMIT : nat := 16 * 1024.
Definition PASSIVE_MAILBOX_SIZE_LIMIT : nat := 256 * 1024.
Definition MAILBOX_SIZE : nat := SUBSYSTEM_MAILBOX_SIZE_LIMIT.
Definition FIPS_STATUS_APPROVED : Z := 0.
Definition FIPS_STATUS_NOT_APPROVED_USER_SUPPLIED_DIGEST : Z := 0x55535244.
Definition size_of_MailboxReqHeader : nat := 4.
Definition size_of_MailboxRespHeader : nat := 8.

(** ** FIFO accesses *)

Section Fifo.
Context (pauser : Z).
Abbreviation B := (MM CaliptraApiError MailboxRegs).
Abbreviation side := (soc pauser).

Definition mbox_write_fifo_with_limit (buf : list Z) (mailbox_size_limit : nat) : B unit :=
  fail_if (2 ^ 32 <=? Z.of_nat (length buf)) BufferTooLargeForMailbox;;
  fail_if (mailbox_size_limit <? length buf)%nat BufferTooLargeForMailbox;;
  dlen_write side (Z.of_nat (length buf));;
  write_words side (words_le buf);;
  let remaining := Driver.suffix_of buf in
  if negb (length remaining =? 0)%nat then datain_write side (Driver.last_word remaining) else mret tt.
Definition mbox_write_fifo (buf : list Z) : B unit := mbox_write_fifo_with_limit buf MAILBOX_SIZE.

(** [buf.get_mut(..dlen)], filled from the FIFO; the slice is returned. *)
Definition mbox_read_fifo (buf : list Z) : B (list Z) :=
  n ← dlen_read side;
  let dlen_bytes := Z.to_nat n in
  fail_if (length buf <? dlen_bytes)%nat UnableToReadMailbox;;
  ws ← read_words side (dlen_bytes / 4);
  let rest := (dlen_bytes - 4 * (dlen_bytes / 4))%nat in
  if negb (rest =? 0)%nat then
    w ← dataout_read side; mret (bytes_le ws ++ take rest (to_le 4 w))
  else mret (bytes_le ws).

Definition mbox_read_response (buf : list Z) : B (list Z) :=
  n ← dlen_read side;
  let dlen_bytes := Z.to_nat n in
  fail_if (length buf <? dlen_bytes)%nat ReadBuffTooSmall;;
  mbox_read_fifo (take dlen_bytes buf).
End Fifo.

(** ** The SoC manager *)

(** The trait [SocManager]: its constants, the user it accesses the mailbox as,
    and [delay], during which the device runs. [Dev] is the rest of the device;
    the two error registers belong to the SoC interface. *)
Class SocManager (Dev : Type) := {
  pauser : Z;
  MAX_WAIT_CYCLES : Z;
  MAILBOX_SIZE_LIMIT : nat;
  delay : MailboxRegs * Dev → MailboxRegs * Dev;
  cptra_fw_error_fatal : Dev → Z;
  cptra_fw_error_non_fatal : Dev → Z;
}.

Section Exec.
Context `{SM : SocManager Dev}.
Abbreviation HM := (MM CaliptraApiError (MailboxRegs * Dev)).
Abbreviation side := (soc pauser).

Definition on_mbox {A} (m : MM CaliptraApiError MailboxRegs A) : HM A := λ '(r, d),
  let '(x, r') := m r in (x, (r', d)).

Definition start_mailbox_exec (cmd : Z) (buf : list Z) : HM unit :=
  l ← on_mbox (lock_read side);
  fail_if l UnableToLockMailbox;;
  l ← on_mbox (lock_read side);
  fail_if (negb l) UnableToReadMailbox;;
  on_mbox (cmd_write side cmd);;
  on_mbox (mbox_write_fifo_with_limit pauser buf MAILBOX_SIZE_LIMIT);;
  on_mbox (execute_write side true).

(** The wait loop decrements an unsigned counter. [wait_fuel] iterations are
    enough for it to reach zero. *)
Fixpoint wait_not_busy (fuel : nat) (timeout_cycles : Z) : HM unit :=
  match fuel with
  | O => stop Diverge
  | S fuel' =>
      s ← on_mbox (status_field_read side);
      if bool_decide (s = CmdBusy) then
        modify delay;;
        let timeout_cycles := u32w (timeout_cycles - 1) in
        fail_if (timeout_cycles =? 0) MailboxTimeout;;
        wait_not_busy fuel' timeout_cycles
      else mret tt
  end.
Definition wait_fuel : nat := S (S (Z.to_nat (u32w (MAX_WAIT_CYCLES - 1)))).

Definition finish_mailbox_exec (resp_data : list Z) : HM (option (list Z)) :=
  wait_not_busy wait_fuel MAX_WAIT_CYCLES;;
  status ← on_mbox (status_field_read side);
  if bool_decide (status = CmdFailure) then
    on_mbox (execute_write side false);;
    code ← get (λ '(_, d), if negb (cptra_fw_error_fatal d =? 0) then cptra_fw_error_fatal d
                           else cptra_fw_error_non_fatal d);
    fail (MailboxCmdFailed code)
  else if bool_decide (status = CmdComplete) then
    on_mbox (execute_write side false);; mret None
  else if negb (bool_decide (status = DataReady)) then
    fail (UnknownCommandStatus (MboxStatusE_into status))
  else
    res ← catch (on_mbox (mbox_read_response pauser resp_data));
    on_mbox (execute_write side false);;
    buf ← lift res;
    mret (Some buf).

Definition mailbox_exec (cmd : Z) (buf resp_data : list Z) : HM (option (list Z)) :=
  start_mailbox_exec cmd buf;; finish_mailbox_exec resp_data.

(** A request type [R] is given by its command code and the bytes of its value;
    a response type by its size and [MIN_SIZE]. The response is returned as the
    bytes of its value. *)
Definition mailbox_exec_req (id : Z) (req : list Z) (resp_size resp_min : nat) (resp_bytes : list Z)
    : HM (list Z) :=
  fail_if (length req <? size_of_MailboxReqHeader)%nat MailboxReqTypeTooSmall;;
  fail_if (resp_size <? size_of_MailboxRespHeader)%nat MailboxRespTypeTooSmall;;
  fail_if (resp_min <? size_of_MailboxRespHeader)%nat MailboxRespTypeTooSmall;;
  let payload_bytes := drop size_of_MailboxReqHeader req in
  let req := to_le 4 (calc_checksum id payload_bytes) ++ payload_bytes in
  o ← mailbox_exec id req resp_bytes;
  match o with
  | None => fail MailboxNoResponseData
  | Some data =>
      fail_if ((length data <? resp_min) || (resp_size <? length data))%nat
        (MailboxUnexpectedResponseLen (u32w (Z.of_nat resp_min)) (u32w (Z.of_nat resp_size))
           (u32w (Z.of_nat (length data))));;
      let response := data ++ replicate (resp_size - length data) 0 in
      fail_if (length data <? size_of_MailboxRespHeader)%nat MailboxRespTypeTooSmall;;
      let chksum := from_le (slice data 0 4) in
      let fips_status := from_le (slice data 4 8) in
      let actual_checksum := calc_checksum 0 (drop 4 data) in
      fail_if (negb (actual_checksum =? chksum)) (MailboxRespInvalidChecksum chksum actual_checksum);;
      fail_if (negb (fips_status =? FIPS_STATUS_APPROVED)
               && negb (fips_status =? FIPS_STATUS_NOT_APPROVED_USER_SUPPLIED_DIGEST))
        (MailboxRespInvalidFipsStatus fips_status);;
      mret response
  end.

(** [STASH_MEASUREMENT]: the response is a header and the word [dpe_result]. *)
Definition STASH_MEASUREMENT : Z := 0x4D454153.
Definition send_stash_measurement_req (req response_packet : list Z) : HM unit :=
  resp ← mailbox_exec_req STASH_MEASUREMENT req 12 12 response_packet;
  fail_if (negb (from_le (slice resp 8 12) =? 0)) StashMeasurementFailed.
End Exec.
End Host.

(** * The runtime firmware *)

Module Runtime.
Import Mbox Csr.

(** ** Its mailbox *)

Section RtMailbox.
Context (mbox_len : Z).
Abbreviation F := (M MailboxRegs).

Definition is_cmd_ready : F bool := f ← fsm_read uc; mret (bool_decide (f = MboxExecuteUc)).
Definition cmd_busy : F bool := s ← status_field_read uc; mret (bool_decide (s = CmdBusy)).
Definition mailbox_state : F MboxFsmE := fsm_read uc.
Definition rt_wait_until_idle (others : list (MailboxRegs → MailboxRegs)) : F unit :=
  spin_while (f ← mailbox_state; mret (negb (bool_decide (f = MboxIdle)))) others.
Definition rt_dlen : F Z := dlen_read uc.
Definition set_dlen (len : Z) : F unit :=
  fail_if (mbox_len <? len) RUNTIME_MAILBOX_INVALID_PARAMS;; dlen_write uc len.
Definition dlen_words : F Z := n ← rt_dlen; mret ((n + 3) / 4).
Definition rt_cmd : F Z := cmd_read uc.
Definition rt_lock : F bool := lock_read uc.
Definition rt_unlock : F unit := unlock_write uc true.
Definition rt_write_cmd (cmd : Z) : F unit :=
  f ← fsm_read uc;
  match f with MboxRdyForCmd => cmd_write uc cmd | _ => fail RUNTIME_INTERNAL end.
Definition rt_id : F Z := user_read uc.
Definition copy_from_mbox (buf : list Z) : F (list Z) := read_words uc (length buf).
Definition flush : F unit := n ← dlen_words; read_words uc (Z.to_nat n);; mret tt.
Definition copy_words_to_mbox (buf : list Z) : F unit := write_words uc buf.
Definition copy_bytes_to_mbox (buf : list Z) : F unit :=
  copy_words_to_mbox (words_le buf);;
  match Driver.suffix_of buf with
  | [] => mret tt
  | sfx => if (length sfx <=? 4)%nat then copy_words_to_mbox [Driver.last_word sfx] else mret tt
  end.
Definition write_response (buf : list Z) : F unit :=
  set_dlen (u32w (Z.of_nat (length buf)));; copy_bytes_to_mbox buf.
Definition set_status (status : MboxStatusE) : F unit := status_write uc status.
Definition raw_mailbox_contents (r : MailboxRegs) : list Z := take (Z.to_nat mbox_len) (Ram.data (sram r)).

(** ** Packets *)

(** The payload is a pointer to the SRAM and a length: its bytes are those the
    SRAM holds when it is looked at. *)
Record Packet := mkPacket { p_cmd : Z; payload_len : nat }.
Definition payload (r : MailboxRegs) (p : Packet) : list Z := take (payload_len p) (raw_mailbox_contents r).

Definition get_from_mbox : F Packet :=
  cmd ← rt_cmd;
  dlen ← rt_dlen;
  raw_data ← get raw_mailbox_contents;
  fail_if (length raw_data <? Z.to_nat dlen)%nat RUNTIME_MAILBOX_INVALID_PARAMS;;
  let packet := mkPacket cmd (Z.to_nat dlen) in
  bytes ← get (λ r, payload r packet);
  fail_if (length bytes <? 4)%nat RUNTIME_MAILBOX_INVALID_PARAMS;;
  fail_if (negb (verify_checksum (from_le (take 4 bytes)) cmd (drop 4 bytes))) RUNTIME_INVALID_CHECKSUM;;
  mret packet.
End RtMailbox.

(** ** Commands *)

Definition RESERVED_PAUSER : Z := 0xFFFFFFFF.
Definition FIRMWARE_LOAD : Z := 0x46574C44.
Definition FIRMWARE_VERIFY : Z := 0x46575652.
Definition EXTERNAL_MAILBOX_CMD : Z := 0x4558544D.
Definition PRODUCTION_AUTH_DEBUG_UNLOCK_REQ : Z := 0x50445552.
Definition PRODUCTION_AUTH_DEBUG_UNLOCK_TOKEN : Z := 0x50445554.

(** The handlers of the single commands act on [D], everything of the firmware
    that is not the mailbox; [execute] is given the staged response buffer and
    returns the length of the response and the new contents of the buffer. *)
Class Handlers (D : Type) := {
  subsystem_mode : bool;
  rt_mbox_len : Z;
  MAX_RESP_SIZE : nat;
  handle_impactless_update : M D unit;
  firmware_verify : M (MailboxRegs * D) MboxStatusE;
  handle_external : list Z → M (MailboxRegs * D) MboxStatusE;
  execute : Z → list Z → list Z → M D (nat * list Z);
}.

Section Commands.
Context `{HD : Handlers D}.

(** The state of the command loop: the mailbox, the rest, the notification of
    the SoC interface, its register of non-fatal errors and the copy of it in
    persistent data, and the flags set around a command. *)
Record Drivers := mkDrivers {
  mbox : MailboxRegs;
  rest : D;
  notif_cmd_avail : bool;
  fw_error_non_fatal : Z;
  cleared_non_fatal_fw_error : Z;
  mailbox_flow_done : bool;
  runtime_cmd_active : bool;
  wdt_running : bool;
  ss_dbg_unlock_in_progress : bool;
  tap_mailbox_available : bool;
}.
Abbreviation C := (M Drivers).

Definition with_mbox (r : MailboxRegs) (d : D) (s : Drivers) : Drivers :=
  mkDrivers r d (notif_cmd_avail s) (fw_error_non_fatal s) (cleared_non_fatal_fw_error s)
    (mailbox_flow_done s) (runtime_cmd_active s) (wdt_running s) (ss_dbg_unlock_in_progress s)
    (tap_mailbox_available s).
Definition on_both {A} (m : M (MailboxRegs * D) A) : C A := λ s,
  let '(x, (r, d)) := m (mbox s, rest s) in (x, with_mbox r d s).
Definition on_mbox {A} (m : M MailboxRegs A) : C A := λ s,
  let '(x, r) := m (mbox s) in (x, with_mbox r (rest s) s).
Definition on_rest {A} (m : M D A) : C A := λ s,
  let '(x, d) := m (rest s) in (x, with_mbox (mbox s) d s).
Definition cfi_assert_eq (a b : Z) : C unit := if a =? b then mret tt else stop (CfiPanic AssertEqFail).
Definition cfi_assert_ne (a b : Z) : C unit := if a =? b then stop (CfiPanic AssertNeFail) else mret tt.

(** The dispatch is [execute]; what follows it sends the response. *)
Definition execute_command (cmd_id : Z) (cmd_bytes : list Z) : C MboxStatusE :=
  '(len, resp) ← on_rest (execute cmd_id cmd_bytes (replicate MAX_RESP_SIZE 0));
  let len := Nat.max len 8 in
  fail_if (MAX_RESP_SIZE <? len)%nat RUNTIME_INSUFFICIENT_MEMORY;;
  resp ← lift (populate_checksum (take len resp));
  on_mbox (write_response rt_mbox_len resp);;
  mret DataReady.

Definition handle_command : C MboxStatusE :=
  id ← on_mbox rt_id;
  fail_if (id =? RESERVED_PAUSER) RUNTIME_CMD_RESERVED_PAUSER;;
  c ← on_mbox rt_cmd;
  if c =? FIRMWARE_LOAD then
    c ← on_mbox rt_cmd; cfi_assert_eq c FIRMWARE_LOAD;;
    on_rest handle_impactless_update;;
    fail RUNTIME_UNEXPECTED_UPDATE_RETURN
  else
    c ← on_mbox rt_cmd; cfi_assert_ne c FIRMWARE_LOAD;;
    c ← on_mbox rt_cmd;
    if c =? FIRMWARE_VERIFY then on_both firmware_verify
    else
      c ← on_mbox rt_cmd; cfi_assert_ne c FIRMWARE_VERIFY;;
      req_packet ← on_mbox (get_from_mbox rt_mbox_len);
      cmd_bytes ← get (λ s, payload rt_mbox_len (mbox s) req_packet);
      let cmd_id := p_cmd req_packet in
      if subsystem_mode && (cmd_id =? EXTERNAL_MAILBOX_CMD) then on_both (handle_external cmd_bytes)
      else execute_command cmd_id cmd_bytes.

Definition debug_unlock_mailbox_access_complete (cmd_id : Z) (command_failed : bool) : bool :=
  (cmd_id =? PRODUCTION_AUTH_DEBUG_UNLOCK_TOKEN)
  || ((cmd_id =? PRODUCTION_AUTH_DEBUG_UNLOCK_REQ) && command_failed).

Definition set_flow (done active : bool) (s : Drivers) : Drivers :=
  mkDrivers (mbox s) (rest s) (notif_cmd_avail s) (fw_error_non_fatal s) (cleared_non_fatal_fw_error s)
    done active (wdt_running s) (ss_dbg_unlock_in_progress s) (tap_mailbox_available s).
Definition clear_mbox_notif_status (s : Drivers) : Drivers :=
  mkDrivers (mbox s) (rest s) false (fw_error_non_fatal s) (cleared_non_fatal_fw_error s)
    (mailbox_flow_done s) (runtime_cmd_active s) (wdt_running s) (ss_dbg_unlock_in_progress s)
    (tap_mailbox_available s).
Definition set_wdt (b : bool) (s : Drivers) : Drivers :=
  mkDrivers (mbox s) (rest s) (notif_cmd_avail s) (fw_error_non_fatal s) (cleared_non_fatal_fw_error s)
    (mailbox_flow_done s) (runtime_cmd_active s) b (ss_dbg_unlock_in_progress s) (tap_mailbox_available s).
Definition report_fw_error_non_fatal (val : Z) (s : Drivers) : Drivers :=
  mkDrivers (mbox s) (rest s) (notif_cmd_avail s) val (cleared_non_fatal_fw_error s)
    (mailbox_flow_done s) (runtime_cmd_active s) (wdt_running s) (ss_dbg_unlock_in_progress s)
    (tap_mailbox_available s).
Definition clear_fw_error_non_fatal (s : Drivers) : Drivers :=
  if fw_error_non_fatal s =? 0 then s
  else mkDrivers (mbox s) (rest s) (notif_cmd_avail s) 0 (fw_error_non_fatal s)
         (mailbox_flow_done s) (runtime_cmd_active s) (wdt_running s) (ss_dbg_unlock_in_progress s)
         (tap_mailbox_available s).
Definition set_dbg_unlock (progress avail : bool) (s : Drivers) : Drivers :=
  mkDrivers (mbox s) (rest s) (notif_cmd_avail s) (fw_error_non_fatal s) (cleared_non_fatal_fw_error s)
    (mailbox_flow_done s) (runtime_cmd_active s) (wdt_running s) progress avail.

Definition finish_debug_unlock_mailbox_access (others : list (MailboxRegs → MailboxRegs)) : C unit :=
  avail ← get tap_mailbox_available;
  modify (set_dbg_unlock false avail);;
  on_mbox (rt_wait_until_idle others);;
  modify (set_dbg_unlock false false).

(** What the loop does with the outcome of a command; [others] is what the SoC
    does while the firmware waits for the mailbox to become idle. *)
Definition finish_command (others : list (MailboxRegs → MailboxRegs)) (cmd_id : Z)
    (command_result : res MboxStatusE) : C unit :=
  let command_failed := match command_result with Err _ => true | _ => false end in
  let complete := debug_unlock_mailbox_access_complete cmd_id command_failed in
  (if complete then modify (set_wdt false) else mret tt);;
  (match command_result with
   | Ok status => on_mbox (set_status status)
   | Err e => modify (report_fw_error_non_fatal e);; on_mbox (set_status CmdFailure)
   | Abort w => stop w
   end);;
  if complete then finish_debug_unlock_mailbox_access others else modify (set_wdt false).

(** One round of the command loop after [enter_idle]. *)
Definition command_round (others : list (MailboxRegs → MailboxRegs)) : C unit :=
  cmd_ready ← get notif_cmd_avail;
  if (cmd_ready : bool) then
    modify (set_flow false true);;
    modify clear_mbox_notif_status;;
    ready ← on_mbox is_cmd_ready;
    if negb ready then mret tt
    else
      modify (set_wdt true);;
      modify clear_fw_error_non_fatal;;
      cmd_id ← on_mbox rt_cmd;
      command_result ← catch handle_command;
      finish_command others cmd_id command_result
  else mret tt.

(** The start of a round: the loop marks itself idle. *)
Definition mark_idle : Drivers → Drivers := set_flow true false.

End Commands.
#[global] Arguments Drivers D : clear implicits.

End Runtime.
