(* ===== verification/MailboxProofs.v ===== *)
(** Facts about the mailbox: the invariant of the peripheral and that every
    access keeps it, the effect of each register access on a state in explicit
    form, and the transfer of byte strings through the FIFO. *)

From stdpp Require Import relations.
From S2P Require Import Prelude Bits Errors Memory Mailbox MailboxDriver MailboxApi.
Import Mbox Csr.

(** * Byte strings as words *)

(** A byte string, padded with zeros to whole words. *)
Definition pad4 (buf : list Z) : list Z :=
  match Driver.suffix_of buf with
  | [] => buf
  | sfx => buf ++ replicate (4 - length sfx) 0
  end.

Lemma words_le_app l1 l2 : (4 | Z.of_nat (length l1)) → words_le (l1 ++ l2) = words_le l1 ++ words_le l2.
Proof.
  induction l1 as [l Hl|a b c d l IH] using list_ind4; intros Hd.
  - destruct Hd as [k Hk], l; [done|simpl in *; lia].
  - cbn [words_le app]. rewrite IH; [done|]. destruct Hd as [k Hk]. exists (k - 1). simpl in Hk. lia.
Qed.

Lemma words_le_short l : (length l < 4)%nat → words_le l = [].
Proof. destruct l as [|? [|? [|? [|? ?]]]]; simpl; (done || lia). Qed.

Lemma length_suffix buf : (length (Driver.suffix_of buf) < 4)%nat.
Proof. unfold Driver.suffix_of. rewrite length_drop. pose proof (Nat.div_mod_eq (length buf) 4). pose proof (Nat.mod_upper_bound (length buf) 4). lia. Qed.

Lemma divide4 n : (4 | Z.of_nat (4 * n)).
Proof. exists (Z.of_nat n). lia. Qed.

Lemma body_suffix buf : buf = take (4 * (length buf / 4)) buf ++ Driver.suffix_of buf.
Proof. symmetry. apply take_drop. Qed.

Lemma length_body (buf : list Z) : length (take (4 * (length buf / 4)) buf) = (4 * (length buf / 4))%nat.
Proof. rewrite length_take. pose proof (Nat.div_mod_eq (length buf) 4). lia. Qed.

Lemma words_le_body buf : words_le buf = words_le (take (4 * (length buf / 4)) buf).
Proof.
  rewrite (body_suffix buf) at 1. rewrite words_le_app by (rewrite length_body; apply divide4).
  rewrite (words_le_short (Driver.suffix_of buf)) by apply length_suffix. apply app_nil_r.
Qed.

(** The words that are written for a byte string are its padded bytes. *)
Definition payload_words (buf : list Z) : list Z :=
  words_le buf ++ match Driver.suffix_of buf with [] => [] | sfx => [Driver.last_word sfx] end.

Lemma bytes_le_app l1 l2 : bytes_le (l1 ++ l2) = bytes_le l1 ++ bytes_le l2.
Proof. apply flat_map_app. Qed.

Lemma payload_words_bytes buf : is_bytes buf → bytes_le (payload_words buf) = pad4 buf.
Proof.
  intros Hb. unfold payload_words, pad4. rewrite bytes_le_app, words_le_body.
  rewrite bytes_le_words_le by (try (by apply Forall_take); rewrite length_body; apply divide4).
  pose proof (length_suffix buf). pose proof (body_suffix buf) as Hbs.
  assert (Hsb : is_bytes (Driver.suffix_of buf)) by (by apply Forall_drop).
  destruct (Driver.suffix_of buf) as [|x sfx] eqn:E.
  - rewrite app_nil_r in Hbs. cbn [bytes_le flat_map]. by rewrite app_nil_r, <- Hbs.
  - rewrite Hbs at 3. rewrite <- app_assoc. f_equal. cbn [bytes_le flat_map]. rewrite app_nil_r.
    unfold Driver.last_word.
    assert (Hl : length ((x :: sfx) ++ replicate (4 - length (x :: sfx)) 0) = 4%nat).
    { rewrite length_app, length_replicate. lia. }
    rewrite <- Hl at 1. apply to_le_from_le. apply Forall_app. split; [done|].
    apply Forall_replicate. done.
Qed.

Lemma length_pad4 buf : (length (pad4 buf) = 4 * length (payload_words buf) ∧ length buf ≤ length (pad4 buf))%nat.
Proof.
  unfold pad4, payload_words. pose proof (length_suffix buf). pose proof (length_body buf) as Hl.
  pose proof (body_suffix buf) as Hbs. apply (f_equal length) in Hbs. rewrite length_app, Hl in Hbs.
  rewrite length_app, words_le_body.
  assert (Hw : length (words_le (take (4 * (length buf / 4)) buf)) = (length buf / 4)%nat).
  { clear. set (q := (length buf / 4)%nat). assert (Hq : (4 * q ≤ length buf)%nat).
    { unfold q. pose proof (Nat.div_mod_eq (length buf) 4). lia. }
    clearbody q. revert buf Hq. induction q as [|q IH]; intros buf Hq; [done|].
    destruct buf as [|a [|b [|c [|d buf]]]]; simpl in Hq; try lia.
    replace (4 * S q)%nat with (S (S (S (S (4 * q))))) by lia. cbn [take words_le length]. f_equal. apply IH. lia. }
  rewrite Hw. destruct (Driver.suffix_of buf); cbn [length] in *; [lia|].
  rewrite length_app, length_replicate. lia.
Qed.

Lemma payload_words_u32 buf : is_bytes buf → is_words (payload_words buf).
Proof.
  intros Hb. apply Forall_app. split.
  - clear -Hb. induction buf as [l Hl|a b c d l IH] using list_ind4.
    + by rewrite words_le_short.
    + apply (Forall_app _ [a; b; c; d]) in Hb as [H4 Hl]. cbn [words_le]. constructor; [|auto].
      rewrite !Forall_cons in H4. unfold in_u in *. cbn [from_le]. change (2 ^ 32) with 4294967296. lia.
  - assert (Hsb : is_bytes (Driver.suffix_of buf)) by (by apply Forall_drop).
    pose proof (length_suffix buf). destruct (Driver.suffix_of buf) as [|x sfx]; [constructor|].
    constructor; [|constructor]. unfold Driver.last_word. rewrite from_le_rev.
    assert (Hb4 : is_bytes (reverse ((x :: sfx) ++ replicate (4 - length (x :: sfx)) 0))).
    { apply Forall_reverse, Forall_app. split; [done|]. apply Forall_replicate. done. }
    pose proof (from_be_bound _ Hb4) as Hbd. rewrite length_reverse, length_app, length_replicate in Hbd.
    replace (length (x :: sfx) + (4 - length (x :: sfx)))%nat with 4%nat in Hbd by lia. apply Hbd.
Qed.

(** * The invariant of the peripheral *)

(** The FIFO stays inside the SRAM, whose size is a whole number of words. *)
Record wf_fifo (f : Fifo) : Prop := {
  wf_cap : capacity f = length (Ram.data (mailbox_ram f));
  wf_cap4 : ∃ k, capacity f = (4 * k)%nat;
  wf_cap_u32 : Z.of_nat (capacity f) < 2 ^ 32;
  wf_write : ∃ i, write_index f = (4 * i)%nat ∧ (4 * i ≤ capacity f)%nat;
  wf_read : ∃ j, read_index f = (4 * j)%nat ∧ (4 * j ≤ capacity f)%nat;
  wf_latched : 0 ≤ latched_dlen f ≤ Z.of_nat (capacity f);
  wf_data : is_bytes (Ram.data (mailbox_ram f));
  wf_ecc : Ram.error_injection (mailbox_ram f) = 0;
}.

Definition wf_user (u : MailboxRequester) : Prop := is_u32 (requester_to_u32 u).

Record wf_ctx (c : Context) : Prop := {
  wf_f : wf_fifo (fifo c);
  wf_lock01 : locked c = 0 ∨ locked c = 1;
  wf_u : wf_user (user c);
  wf_dlen : is_u32 (dlen c);
  wf_status : in_u 4 (status c);
  wf_cmd : is_u32 (cmd c);
  wf_dout : is_u32 (data_out c);
  wf_unlock : is_u32 (unlock_reg c);
}.

Record wf (r : MailboxRegs) : Prop := {
  wf_c : wf_ctx (context r);
  wf_held : state r ≠ Idle → locked (context r) = 1;
  wf_ex : is_u32 (execute r);
  wf_tap : is_u32 (tap_mode r);
}.

Definition wf_event (e : Events) : Prop :=
  match e with
  | RdLock u => wf_user u
  | CmdWrite v | DlenWrite v | DataWrite v => is_u32 v
  | _ => True
  end.

(** ** Words of the SRAM *)

Lemma as_addr_small n : Z.of_nat n < 2 ^ 32 → as_addr n = n.
Proof. intros. unfold as_addr. rewrite wrap_small by (unfold in_u; lia). lia. Qed.

Lemma ram_write_ok d k v : (4 * k + 4 ≤ length d)%nat →
  ram_write (Ram.mkRam 0 d) Word (4 * k) v = Ok (Ram.mkRam 0 (splice d (4 * k) (to_le 4 v))).
Proof.
  intros H. unfold ram_write, Ram.write. cbn [write_mem AlignedAccess Mem.write_aligned Ram.data].
  by rewrite MemLaws.write_aligned_word_ok.
Qed.

Lemma ram_read_ok d k : is_bytes d → (4 * k + 4 ≤ length d)%nat →
  ram_read (Ram.mkRam 0 d) Word (4 * k) = Ok (from_le (slice d (4 * k) (4 * k + 4))).
Proof.
  intros Hd H. unfold ram_read, Ram.read. cbn [read_mem AlignedAccess Mem.read_aligned Ram.data Ram.error_injection].
  change (2 =? 0) with false. change (8 =? 0) with false. cbv iota.
  by rewrite MemLaws.read_aligned_word_ok.
Qed.

Lemma slice_bytes_u32 d a : is_bytes d → is_u32 (from_le (slice d a (a + 4))).
Proof.
  intros Hd. rewrite from_le_rev.
  assert (Hb : is_bytes (reverse (slice d a (a + 4)))) by (apply Forall_reverse, Forall_take, Forall_drop, Hd).
  pose proof (from_be_bound _ Hb) as [H1 H2]. split; [done|].
  eapply Z.lt_le_trans; [exact H2|]. change (2 ^ 32) with (256 ^ 4).
  apply Z.pow_le_mono_r; [lia|]. rewrite length_reverse. unfold slice. rewrite length_take. lia.
Qed.

(** ** Operations keep the invariant *)

Lemma fifo_reset_wf f : wf_fifo f → wf_fifo (fifo_reset f).
Proof. intros []. constructor; simpl; auto; exists 0%nat; lia. Qed.

Lemma latch_dlen_wf n f : wf_fifo f → wf_fifo (latch_dlen n f).
Proof.
  intros []. constructor; simpl; auto.
  destruct (Nat.ltb_spec (capacity f) n); rewrite wrap_small by ulia; lia.
Qed.

Lemma fifo_enqueue_wf {E} v f : wf_fifo f → ∃ f', fifo_enqueue (E := E) v f = Ok f' ∧ wf_fifo f'.
Proof.
  intros Hf. destruct Hf as [Hc [k Hk] H32 (i & Hi & Hile) Hr Hl Hd He]. unfold fifo_enqueue.
  destruct (Nat.ltb_spec (write_index f) (capacity f)); [|exists f; split; [done|constructor; eauto]].
  destruct f as [ld cap ri wi [ei d]]; cbn -[Nat.mul] in *. subst ei wi.
  rewrite as_addr_small, ram_write_ok by lia. eexists. split; [done|].
  assert (Hls : length (splice d (4 * i) (to_le 4 v)) = length d) by (apply length_splice; rewrite length_to_le; lia).
  constructor; cbn -[Nat.mul splice to_le]; auto.
  - by rewrite Hls.
  - eauto.
  - exists (S i). lia.
  - apply splice_bytes; [done|apply to_le_bytes].
Qed.

Lemma fifo_dequeue_wf {E} f : wf_fifo f →
  ∃ o f', fifo_dequeue (E := E) f = Ok (o, f') ∧ wf_fifo f' ∧ (∀ v, o = Some v → is_u32 v).
Proof.
  intros Hf. destruct Hf as [Hc [k Hk] H32 Hw (j & Hj & Hjle) Hl Hd He]. unfold fifo_dequeue.
  destruct (Nat.leb_spec (Z.to_nat (latched_dlen f)) (read_index f)).
  { exists None, f. split; [done|]. split; [|done]. constructor; eauto. }
  destruct f as [ld cap ri wi [ei d]]; cbn -[Nat.mul] in *. subst ei ri.
  rewrite as_addr_small, ram_read_ok by (done || lia). eexists _, _. split; [done|]. split.
  - constructor; cbn -[Nat.mul]; eauto. exists (S j). lia.
  - intros v [= <-]. by apply slice_bytes_u32.
Qed.

(** An action that is run keeps the context well formed, without failing. *)
Lemma transition_wf s e guard action next c :
  transition s e = Some (guard, action, next) → wf_event e → wf_ctx c → guard c = Ok true →
  (s ≠ Idle → locked c = 1) →
  ∃ c', action c = Ok c' ∧ wf_ctx c' ∧ (next ≠ Idle → locked c' = 1).
Proof.
  intros Ht He Hc Hg Hs. pose proof Hc as [Hf Hlk Hu Hdl Hst Hcm Hdo Hul].
  assert (Henq : ∀ v, ∃ c', enqueue v c = Ok c' ∧ wf_ctx c' ∧ (locked c' = locked c)).
  { intros v. unfold enqueue. destruct (fifo_enqueue_wf (E := unit) v _ Hf) as (f' & -> & Hf').
    eexists. split; [done|]. split; [by constructor|done]. }
  assert (Hdeq : ∃ c', dequeue c = Ok c' ∧ wf_ctx c' ∧ (locked c' = locked c)).
  { unfold dequeue. destruct (fifo_dequeue_wf (E := unit) _ Hf) as (o & f' & -> & Hf' & Ho).
    eexists. split; [done|]. split; [|done]. constructor; try done. destruct o; [by apply Ho|done]. }
  assert (H0 : in_u 4 0) by done.
  destruct s, e; try discriminate Ht; injection Ht as <- <- <-; simpl in He;
    first [ destruct (Henq v) as (c' & ? & ? & ?); exists c'; split; [done|]; split; [done|]; intros _; etransitivity; [eassumption|by apply Hs]
          | destruct Hdeq as (c' & ? & ? & ?); exists c'; split; [done|]; split; [done|]; intros _; etransitivity; [eassumption|by apply Hs]
          | eexists; split; [reflexivity|]; split;
            [ constructor; simpl; auto using fifo_reset_wf, latch_dlen_wf
            | simpl; intros; first [done | by apply Hs | congruence]] ].
Qed.

Lemma event_wf e r : wf r → wf_event e →
  ∃ s c, event e r = (Ok tt, set_machine s c r) ∧ wf_ctx c ∧ (s ≠ Idle → locked c = 1).
Proof.
  intros [Hc Hh Hx Ht] He. unfold event, process_event.
  assert (Hsame : set_machine (state r) (context r) r = r) by (by destruct r).
  destruct (transition (state r) e) as [[[guard action] next]|] eqn:Et; [|by exists (state r), (context r); rewrite Hsame].
  destruct (guard (context r)) as [[]|?|?] eqn:Eg; try (by exists (state r), (context r); rewrite Hsame).
  - destruct (transition_wf _ _ _ _ _ _ Et He Hc Eg Hh) as (c' & -> & ? & ?). eauto.
  - exfalso. clear -Et Eg. destruct (state r), e; try discriminate Et; injection Et as <- <- <-;
      unfold no_guard, is_not_locked, is_locked in Eg; repeat case_match; congruence.
Qed.

Lemma event_ok e r : wf r → wf_event e → ∃ r', event e r = (Ok tt, r') ∧ wf r'.
Proof.
  intros Hr He. destruct (event_wf e r Hr He) as (s & c & -> & Hc & Hh).
  eexists. split; [done|]. destruct Hr. by constructor.
Qed.

Lemma set_request_wf u r : wf r → wf (set_request u r).
Proof. intros []. by constructor. Qed.

(** The outcome of an access: no panic, a word if it succeeds, and the
    invariant afterwards. *)
Definition good {A} (P : A → Prop) (x : bus A * MailboxRegs) : Prop :=
  wf x.2 ∧ match x.1 with Ok a => P a | Err _ => True | Abort _ => False end.

Lemma good_ok {A} (P : A → Prop) a r : wf r → P a → good P (Ok a, r).
Proof. by split. Qed.

Lemma good_bind {A B} (P : A → Prop) (Q : B → Prop) (m : R A) (f : A → R B) r :
  good P (m r) → (∀ a r', P a → wf r' → good Q (f a r')) → good Q ((m ≫= f) r).
Proof.
  unfold good, mbind, M_bind. destruct (m r) as [[a|e|w] r'] eqn:E; simpl; intros [Hw HP] Hf; [|by split..].
  by apply Hf.
Qed.

Lemma good_get {A} (P : A → Prop) (f : MailboxRegs → A) r : wf r → P (f r) → good P (get f r).
Proof. by split. Qed.

Lemma good_event e r : wf r → wf_event e → good (λ _, True) (event e r).
Proof. intros Hr He. destruct (event_ok e r Hr He) as (r' & -> & ?). by split. Qed.

Lemma wf_same_machine ex tm iq po r : wf r → is_u32 ex → is_u32 tm →
  wf (mkRegs ex tm (state r) (context r) (requester r) iq po).
Proof. intros []. by constructor. Qed.

Lemma fsm_ps_bits s x : in_u 4 x → is_u32 (fset 6 3 (fsm_ps s) x).
Proof.
  intros Hx. unfold in_u in *.
  assert (H : x = 0 ∨ x = 1 ∨ x = 2 ∨ x = 3 ∨ x = 4 ∨ x = 5 ∨ x = 6 ∨ x = 7 ∨ x = 8 ∨ x = 9 ∨ x = 10 ∨ x = 11
    ∨ x = 12 ∨ x = 13 ∨ x = 14 ∨ x = 15) by (change (2 ^ 4) with 16 in Hx; lia).
  destruct s; destruct_or! H; subst; vm_compute; split; (done || discriminate).
Qed.

Lemma fget_0_4 v : in_u 4 (fget 0 4 v).
Proof.
  unfold fget. rewrite Z.shiftr_0_r, Z.land_ones by lia. apply Z.mod_pos_bound. lia.
Qed.

Lemma write_ex_good v r : wf r → is_u32 v → good (λ _, True) (write_ex v r).
Proof.
  intros Hr Hv. unfold write_ex. rewrite !bind_get.
  destruct (bool_decide (requester r = user (context r))); simpl; [|by apply good_event].
  rewrite bind_modify.
  eapply good_bind; [apply good_event|intros ? r' _ Hr'; by split; [apply wf_same_machine; try done; apply Hr'|]].
  - apply wf_same_machine; try done; apply Hr.
  - by repeat case_match.
Qed.

Lemma bus_read_good size addr r : wf r → wf_user (requester r) → good is_u32 (bus_read size addr r).
Proof.
  intros Hr Hq. pose proof Hr as [[Hf Hlk Hu Hdl Hst Hcm Hdo Hul] Hh Hx Ht].
  assert (Hfail : good is_u32 ((fail LoadAccessFault : R Z) r)) by done.
  assert (Hlock : good is_u32 (read_lock r)).
  { unfold read_lock. rewrite !bind_get. eapply good_bind; [by apply good_event|].
    intros ? r' _ Hr'. apply good_ok; [done|]. by case_match. }
  assert (Hdout : good is_u32 (read_dout r)).
  { unfold read_dout. eapply good_bind; [by apply good_event|]. intros ? r' _ Hr'. by apply good_get, Hr'. }
  unfold bus_read, read_user. rewrite ?bind_get.
  repeat (case_match; try done); try (by apply good_get); unfold read_execute, read_tap_mode, read_status.
  all: try (apply good_get; [done|]; by apply fsm_ps_bits).
  all: destruct size; try done; by apply good_get.
Qed.

Lemma bus_write_good size addr val r : wf r → is_u32 val → good (λ _, True) (bus_write size addr val r).
Proof.
  intros Hr Hv. unfold bus_write.
  assert (Hfail : good (λ _, True) ((fail StoreAccessFault : R unit) r)) by done.
  assert (Hst : good (λ _, True) (write_status val r)).
  { unfold write_status. eapply good_bind; [by apply good_event|]. intros ? r' _ [[] ? ? ?].
    split; [|done]. constructor; simpl; try done. constructor; simpl; try done. apply fget_0_4. }
  assert (Htap : good (λ _, True) (write_tap_mode size val r)).
  { unfold write_tap_mode. destruct size; try done. split; [|done]. by apply wf_same_machine; [..|apply Hr|]. }
  repeat (case_match; try done); try (by apply good_event); by apply write_ex_good.
Qed.

Lemma side_good {A} q (P : A → Prop) (m : R A) r :
  good P (m (set_request q r)) → good P (side_of q A m r).
Proof.
  destruct q; simpl; [by unfold internal; rewrite bind_modify|].
  unfold external, good. destruct (m _) as [x r']; simpl. intros [? ?]. split; [|done]. by apply set_request_wf.
Qed.

Lemma sram_write_good size addr val r : wf r → is_u32 val → good (λ _, True) (sram_write size addr val r).
Proof.
  intros Hr Hv. unfold sram_write, ram_write, Ram.write.
  pose proof Hr as [[[Hcap Hc4 H32 Hw Hrd Hl Hd He] Hlk Hu Hdl Hst Hcm Hdo Hul] Hh Hx Ht].
  set (d := Ram.data (sram r)) in *.
  assert (Hkeep : ∀ m', write_mem (MemAccess := AlignedAccess) d size addr val = Ok m' → is_bytes m' ∧ length m' = length d).
  { cbn [write_mem AlignedAccess]. intros m' Hm'. apply MemLaws.write_aligned_keeps in Hm'; auto. }
  assert (Hnp : ∀ w, write_mem (MemAccess := AlignedAccess) d size addr val ≠ Abort w).
  { intros w. apply MemLaws.write_aligned_total. }
  destruct (write_mem _ _ _ _) as [m'|e|w] eqn:E; [|done|by destruct (Hnp w)].
  destruct (Hkeep _ eq_refl) as [Hb Hlen]. split; [|done].
  constructor; simpl; try done. constructor; simpl; try done. constructor; simpl; try done. by rewrite Hlen.
Qed.

(** * Reachable states *)

(** One access of an agent: a register access of the microcontroller or of a
    SoC user, a write of the microcontroller to the SRAM, or the delivery of the
    notification interrupt. *)
Inductive step (r : MailboxRegs) : MailboxRegs → Prop :=
  | step_read q size addr : wf_user q → step r (side_of q _ (bus_read size addr) r).2
  | step_write q size addr val : wf_user q → is_u32 val → step r (side_of q _ (bus_write size addr val) r).2
  | step_sram size addr val : is_u32 val → step r (sram_write size addr val r).2
  | step_irq : step r (get_notif_irq r).2.

Lemma step_wf r r' : step r r' → wf r → wf r'.
Proof.
  intros [q size addr Hq|q size addr val Hq Hv|size addr val Hv|] Hr.
  - eapply side_good, bus_read_good; [by apply set_request_wf|done].
  - eapply side_good, bus_write_good; [by apply set_request_wf|done].
  - by apply sram_write_good.
  - unfold get_notif_irq. destruct (irq r); [|done]. by apply wf_same_machine; [..|apply Hr|apply Hr].
Qed.

Lemma steps_wf r r' : rtc step r r' → wf r → wf r'.
Proof. induction 1; eauto using step_wf. Qed.

Lemma new_wf subsystem : wf (new (MailboxRam_new subsystem)).
Proof.
  constructor; try done. constructor; try done; [|by left].
  constructor; cbn -[replicate MBOX_SIZE_SUBSYSTEM MBOX_SIZE_PASSIVE Nat.mul]; try done.
  - rewrite length_replicate. exists (if subsystem then 4 * 2 ^ 10 else 64 * 2 ^ 10)%nat.
    unfold MBOX_SIZE_SUBSYSTEM, MBOX_SIZE_PASSIVE. rewrite !Nat.shiftl_mul_pow2.
    generalize (2 ^ 10)%nat. intros. destruct subsystem; lia.
  - rewrite length_replicate. unfold MBOX_SIZE_SUBSYSTEM, MBOX_SIZE_PASSIVE. rewrite !Nat.shiftl_mul_pow2.
    destruct subsystem; rewrite Nat2Z.inj_mul, Nat2Z.inj_pow; done.
  - exists 0%nat; lia.
  - exists 0%nat; lia.
  - lia.
  - apply Forall_replicate. done.
Qed.

(** ** The lock *)

(** Who holds the mailbox. *)
Definition core (r : MailboxRegs) : States * Z * MailboxRequester :=
  (state r, locked (context r), user (context r)).

Definition granted (r : MailboxRegs) (q : MailboxRequester) : Prop :=
  state r ≠ Idle ∧ user (context r) = q.
Definition wedged (r : MailboxRegs) : Prop := state r = Idle ∧ locked (context r) = 1.

Lemma event_snd {A} e (x : A) r : (event e ≫= λ _, mret x) r =
  match event e r with (Ok _, r') => (Ok x, r') | (Err b, r') => (Err b, r') | (Abort w, r') => (Abort w, r') end.
Proof. unfold mbind, M_bind, event. by repeat case_match. Qed.

(** Every access delivers at most one event to the state machine. *)
Lemma read_core size addr r :
  core (bus_read size addr r).2 = core r ∨ ∃ e, core (bus_read size addr r).2 = core (event e r).2.
Proof.
  unfold bus_read, read_lock, read_user, read_dout, read_execute, read_tap_mode.
  repeat (case_match; try (by left)).
  - right. exists (RdLock (requester r)). rewrite !bind_get, event_snd. by destruct (event _ r) as [[] ?].
  - right. exists DataRead. unfold mbind, M_bind, event. by repeat case_match.
Qed.

Lemma write_core size addr val r :
  core (bus_write size addr val r).2 = core r ∨ ∃ e, core (bus_write size addr val r).2 = core (event e r).2.
Proof.
  unfold bus_write, write_cmd, write_dlen, write_din, write_unlock, write_status, write_tap_mode.
  repeat (case_match; try (by left)); try (by right; eexists).
  - right. exists SetStatus. unfold mbind, M_bind, event. by repeat case_match.
  - unfold write_ex. rewrite !bind_get.
    destruct (negb (bool_decide _)); [by right; eexists|]. rewrite bind_modify.
    match goal with |- context [event ?ev ≫= _] => right; exists ev; generalize ev; intros e end.
    unfold mbind, M_bind, event. cbn [state context]. by destruct (process_event e _ _) as [[]| |].
Qed.

Lemma core_set_request q r : core (set_request q r) = core r.
Proof. done. Qed.

Lemma core_event_request e q r : core (event e (set_request q r)).2 = core (event e r).2.
Proof. unfold event. simpl. by repeat case_match. Qed.

Lemma side_core {A} q (m : R A) r :
  (core (m (set_request q r)).2 = core r ∨ ∃ e, core (m (set_request q r)).2 = core (event e (set_request q r)).2) →
  core (side_of q A m r).2 = core r ∨ ∃ e, core (side_of q A m r).2 = core (event e r).2.
Proof.
  assert (Hs : core (side_of q A m r).2 = core (m (set_request q r)).2).
  { destruct q; simpl; [done|]. unfold external. by destruct (m _). }
  rewrite Hs. intros [H|[e H]]; [by left|right]. exists e. by rewrite H, core_event_request.
Qed.

Lemma step_core r r' : step r r' → core r' = core r ∨ ∃ e, core r' = core (event e r).2.
Proof.
  intros [q size addr Hq|q size addr val Hq Hv|size addr val Hv|].
  - apply side_core. rewrite <- (core_set_request q r). apply read_core.
  - apply side_core. rewrite <- (core_set_request q r). apply write_core.
  - left. unfold sram_write. by case_match.
  - left. unfold get_notif_irq. by destruct (irq r).
Qed.

Lemma event_held e r : state r ≠ Idle →
  state (event e r).2 = Idle ∨ (state (event e r).2 ≠ Idle ∧ user (context (event e r).2) = user (context r)).
Proof.
  intros Hs. unfold event, process_event.
  destruct (transition (state r) e) as [[[guard action] next]|] eqn:Et; [|by right].
  destruct (guard (context r)) as [[]| |]; [|by right..].
  destruct (action (context r)) as [c| |] eqn:Ea; [|by right..]. simpl.
  destruct (decide (next = Idle)); [by left|right]. split; [done|].
  destruct (state r), e; try discriminate Et; injection Et as <- <- <-; try done;
    unfold set_cmd, init_dlen, unlock_and_reset, unlock, no_action, enqueue, dequeue in Ea;
    res_inv Ea; repeat case_match; simplify_eq; done.
Qed.

Lemma event_wedged e r : wedged r → core (event e r).2 = core r.
Proof.
  intros [Hs Hl]. unfold event, process_event. rewrite Hs.
  destruct e; try done. simpl. unfold is_not_locked. by rewrite Hl.
Qed.

Lemma core_eq r r' : core r' = core r → state r' = state r ∧ locked (context r') = locked (context r) ∧ user (context r') = user (context r).
Proof. unfold core. intros H. by simplify_eq. Qed.

Lemma step_wedged r r' : step r r' → wedged r → wedged r' ∧ core r' = core r.
Proof.
  intros Hs Hw. assert (Hc : core r' = core r).
  { apply step_core in Hs as [?|[e He]]; [done|]. by rewrite He, event_wedged. }
  split; [|done]. apply core_eq in Hc as (? & ? & _). destruct Hw. split; congruence.
Qed.

Lemma steps_wedged r r' : rtc step r r' → wedged r → wedged r' ∧ core r' = core r.
Proof.
  induction 1 as [|r r1 r2 H1 H2 IH]; [done|]. intros Hw.
  destruct (step_wedged _ _ H1 Hw) as [Hw1 E1]. destruct (IH Hw1) as [? E2]. split; [done|congruence].
Qed.

(** While the mailbox is held its user does not change. *)
Definition held_step (r r' : MailboxRegs) : Prop := step r r' ∧ state r' ≠ Idle.

Lemma held_steps_user r r' q : rtc held_step r r' → granted r q → granted r' q.
Proof.
  induction 1 as [|r r1 r2 [H1 Hni] H2 IH]; [done|]. intros [Hs Hu]. apply IH. split; [done|].
  apply step_core in H1 as [Hc|[e Hc]]; apply core_eq in Hc as (Hst & _ & Hus).
  - congruence.
  - destruct (event_held e r Hs) as [?|[_ ?]]; congruence.
Qed.

Lemma held_steps_steps r r' : rtc held_step r r' → rtc step r r'.
Proof. induction 1 as [|? ? ? [] ]; [done|]. by eapply rtc_l. Qed.

(** ** Reading the lock *)

Lemma lock_read_held {E} q r : wf r → wf_user q → state r ≠ Idle →
  ∃ r', lock_read (E := E) (side_of q) r = (Ok true, r') ∧ core r' = core r ∧ wf r'.
Proof.
  intros Hr Hq Hs.
  assert (He : event (RdLock q) (set_request q r) = (Ok tt, set_request q r)).
  { unfold event, process_event. simpl. by destruct (state r). }
  assert (Hrl : read_lock (set_request q r) = (Ok 1, set_request q r)).
  { unfold read_lock. rewrite !bind_get, event_snd. cbn [requester set_request]. rewrite He. simpl.
    by destruct (state r). }
  exists (match q with Caliptra => set_request q r | _ => set_request Caliptra (set_request q r) end).
  split.
  - unfold lock_read, rd, mmio, mbind, M_bind. cbn [bus_read].
    destruct q; simpl; unfold internal, external; rewrite ?bind_modify, Hrl; done.
  - split; [by destruct q|]. destruct q; auto using set_request_wf.
Qed.

(** Between accesses the requester is the microcontroller. *)
Definition keeps_requester {A} (m : R A) : Prop := ∀ r, requester (m r).2 = requester r.

Lemma event_requester e : keeps_requester (event e).
Proof. intros r. unfold event. by repeat case_match. Qed.

Lemma keeps_bind {A B} (m : R A) (f : A → R B) :
  keeps_requester m → (∀ a, keeps_requester (f a)) → keeps_requester (m ≫= f).
Proof.
  intros Hm Hf r. unfold mbind, M_bind. specialize (Hm r). destruct (m r) as [[a| |] r']; simpl in *; [|done..].
  by rewrite Hf.
Qed.

Ltac keeps :=
  repeat first [apply event_requester | by intros ? | apply keeps_bind; [|intros ?] | case_match].

Lemma bus_read_requester size addr : keeps_requester (bus_read size addr).
Proof. unfold bus_read, read_lock, read_dout, read_user, read_execute, read_tap_mode. all: keeps. Qed.

Lemma bus_write_requester size addr val : keeps_requester (bus_write size addr val).
Proof.
  unfold bus_write, write_cmd, write_dlen, write_din, write_ex, write_status, write_unlock, write_tap_mode.
  all: keeps.
Qed.

Lemma step_requester r r' : step r r' → requester r = Caliptra → requester r' = Caliptra.
Proof.
  intros [q size addr Hq|q size addr val Hq Hv|size addr val Hv|] Hr.
  - destruct q; simpl; [by apply bus_read_requester|]. unfold external. by destruct (bus_read _ _ _).
  - destruct q; simpl; [by apply bus_write_requester|]. unfold external. by destruct (bus_write _ _ _ _).
  - unfold sram_write. by case_match.
  - unfold get_notif_irq. by destruct (irq r).
Qed.

Lemma steps_requester r r' : rtc step r r' → requester r = Caliptra → requester r' = Caliptra.
Proof. induction 1; eauto using step_requester. Qed.
