(* ===== verification/MailboxRuns.v ===== *)
(** Runs of the mailbox: the effect of each register access on a state in
    explicit form, the transfer of a byte string through the FIFO, and the
    programs of the two sides put together from them. *)

From stdpp Require Import relations.
From S2P Require Import Prelude Bits Errors Memory Mailbox MailboxDriver MailboxApi MailboxProofs.
Import Mbox Csr.

(** * States in explicit form *)

(** The registers that do not take part in the protocol, and the counters of
    the notification. *)
Record Misc := mkMisc { m_unlock : Z; m_execute : Z; m_tap : Z; m_irq : bool; m_polls : nat }.

Section Explicit.
Context {E : Type}.

Definition mk (st : States) (lk : Z) (us : MailboxRequester) (dl ld : Z) (cap ri wi : nat) (d : list Z)
    (stt cm dout : Z) (x : Misc) : MailboxRegs :=
  mkRegs (m_execute x) (m_tap x) st
    (mkContext lk us dl (mkFifo ld cap ri wi (Ram.mkRam 0 d)) stt cm dout (m_unlock x))
    Caliptra (m_irq x) (m_polls x).

(** Every well-formed state at rest is of this form. *)
Lemma explicit_form r : wf r → requester r = Caliptra →
  ∃ st lk us dl ld cap ri wi d stt cm dout x, r = mk st lk us dl ld cap ri wi d stt cm dout x.
Proof.
  destruct r as [ex tm st [lk us dl [ld cap ri wi [ei d]] stt cm dout ul] rq iq po].
  intros Hw Hq. pose proof (wf_ecc _ (wf_f _ (wf_c _ Hw))) as He. simpl in *. subst ei rq.
  by exists st, lk, us, dl, ld, cap, ri, wi, d, stt, cm, dout, (mkMisc ul ex tm iq po).
Qed.

Abbreviation X := (MM E MailboxRegs).

Lemma lock_read_idle q us dl ld cap ri wi d stt cm dout x :
  lock_read (E := E) (side_of q) (mk Idle 0 us dl ld cap ri wi d stt cm dout x) =
  (Ok false, mk RdyForCmd 1 q dl ld cap 0 0 d stt cm dout x).
Proof. by destruct q. Qed.

Lemma lock_read_busy q st lk us dl ld cap ri wi d stt cm dout x : st ≠ Idle →
  lock_read (E := E) (side_of q) (mk st lk us dl ld cap ri wi d stt cm dout x) =
  (Ok true, mk st lk us dl ld cap ri wi d stt cm dout x).
Proof. by destruct q, st. Qed.

Lemma lock_read_wedged q us dl ld cap ri wi d stt cm dout x :
  lock_read (E := E) (side_of q) (mk Idle 1 us dl ld cap ri wi d stt cm dout x) =
  (Ok false, mk Idle 1 us dl ld cap ri wi d stt cm dout x).
Proof. by destruct q. Qed.

Lemma cmd_write_ok q v lk us dl ld cap ri wi d stt cm dout x :
  cmd_write (E := E) (side_of q) v (mk RdyForCmd lk us dl ld cap ri wi d stt cm dout x) =
  (Ok tt, mk RdyForDlen lk us dl ld cap ri wi d stt v dout x).
Proof. by destruct q. Qed.

(** The latched length is clipped to the capacity. *)
Definition clip (cap : nat) (n : Z) : Z :=
  u32w (Z.of_nat (if (cap <? Z.to_nat n)%nat then cap else Z.to_nat n)).

Lemma clip_small cap n : 0 ≤ n ≤ Z.of_nat cap → n < 2 ^ 32 → clip cap n = n.
Proof.
  intros. unfold clip. destruct (Nat.ltb_spec cap (Z.to_nat n)); [lia|].
  rewrite wrap_small by (unfold in_u; lia). lia.
Qed.

Lemma dlen_write_first q n lk us dl ld cap ri wi d stt cm dout x :
  dlen_write (E := E) (side_of q) n (mk RdyForDlen lk us dl ld cap ri wi d stt cm dout x) =
  (Ok tt, mk RdyForData lk us n (clip cap n) cap 0 0 d stt cm dout x).
Proof. by destruct q. Qed.

Lemma dlen_write_again q n st lk us dl ld cap ri wi d stt cm dout x : st = ExecUc ∨ st = ExecSoc →
  dlen_write (E := E) (side_of q) n (mk st lk us dl ld cap ri wi d stt cm dout x) =
  (Ok tt, mk st lk us n (clip cap n) cap 0 0 d stt cm dout x).
Proof. intros [-> | ->]; by destruct q. Qed.

Lemma dlen_read_ok q st lk us dl ld cap ri wi d stt cm dout x :
  dlen_read (E := E) (side_of q) (mk st lk us dl ld cap ri wi d stt cm dout x) =
  (Ok dl, mk st lk us dl ld cap ri wi d stt cm dout x).
Proof. by destruct q. Qed.

Lemma cmd_read_ok q st lk us dl ld cap ri wi d stt cm dout x :
  cmd_read (E := E) (side_of q) (mk st lk us dl ld cap ri wi d stt cm dout x) =
  (Ok cm, mk st lk us dl ld cap ri wi d stt cm dout x).
Proof. by destruct q. Qed.

Lemma user_read_ok q st lk us dl ld cap ri wi d stt cm dout x :
  user_read (E := E) (side_of q) (mk st lk us dl ld cap ri wi d stt cm dout x) =
  (Ok (requester_to_u32 us), mk st lk us dl ld cap ri wi d stt cm dout x).
Proof. by destruct q. Qed.

(** The state the execute bit leads to: the other side works on the command. *)
Definition exec_state (q : MailboxRequester) : States :=
  match q with Caliptra => ExecSoc | SocUser _ => ExecUc end.
Definition kicked (v : Z) (x : Misc) : Misc := mkMisc (m_unlock x) v (m_tap x) true (m_polls x + 1).

Lemma execute_set_ok q lk dl ld cap ri wi d stt cm dout x :
  execute_write (E := E) (side_of q) true (mk RdyForData lk q dl ld cap ri wi d stt cm dout x) =
  (Ok tt, mk (exec_state q) lk q dl ld cap ri wi d stt cm dout (kicked 1 x)).
Proof.
  destruct q as [|u]; [done|]. unfold execute_write, wr, mmio. cbn [side_of bus_write].
  unfold external, write_ex. rewrite !bind_get. cbn [requester set_request mk user context].
  by rewrite bool_decide_eq_true_2 by done.
Qed.

Lemma execute_clear_ok q st dl ld cap ri wi d stt cm dout x : st = ExecUc ∨ st = ExecSoc →
  execute_write (E := E) (side_of q) false (mk st 1 q dl ld cap ri wi d stt cm dout x) =
  (Ok tt, mk Idle 0 q dl ld cap ri wi d 0 cm dout (kicked 0 x)).
Proof.
  intros Hs. destruct q as [|u]; [by destruct Hs as [-> | ->]|]. unfold execute_write, wr, mmio. cbn [side_of bus_write].
  unfold external, write_ex. rewrite !bind_get. cbn [requester set_request mk user context].
  rewrite bool_decide_eq_true_2 by done. by destruct Hs as [-> | ->].
Qed.

Lemma unlock_write_wedges q b lk us dl ld cap ri wi d stt cm dout x :
  unlock_write (E := E) (side_of q) b (mk RdyForDlen lk us dl ld cap ri wi d stt cm dout x) =
  (Ok tt, mk Idle lk us dl ld cap ri wi d stt cm dout x).
Proof. by destruct q. Qed.

Lemma status_write_ok q s st lk us dl ld cap ri wi d stt cm dout x :
  st = ExecUc ∨ st = ExecSoc → s = DataReady ∨ s = CmdComplete ∨ s = CmdFailure →
  status_write (E := E) (side_of q) s (mk st lk us dl ld cap ri wi d stt cm dout x) =
  (Ok tt, mk (if bool_decide (st = ExecUc) then ExecSoc else ExecUc) lk us dl ld cap ri wi d (MboxStatusE_into s) cm dout x).
Proof. intros [-> | ->] [-> |[-> | ->]]; by destruct q. Qed.

Lemma fsm_read_ok q st lk us dl ld cap ri wi d stt cm dout x :
  fsm_read (E := E) (side_of q) (mk st lk us dl ld cap ri wi d stt cm dout x) =
  (unwrap (MboxFsmE_try_from (fsm_ps st)), mk st lk us dl ld cap ri wi d stt cm dout x).
Proof.
  assert (Hf : fget 6 3 (fset 6 3 (fsm_ps st) stt) = fsm_ps st).
  { rewrite fget_fset_same by lia. by destruct st. }
  unfold fsm_read, rd, mmio, mbind, M_bind.
  destruct q; cbn [side_of bus_read]; unfold internal, external, read_status; rewrite ?bind_modify;
    cbn [get state context status mk set_request requester]; unfold lift; by rewrite Hf.
Qed.

Lemma status_field_read_ok q st lk us dl ld cap ri wi d s cm dout x : (∀ n, s ≠ Reserved n) →
  status_field_read (E := E) (side_of q) (mk st lk us dl ld cap ri wi d (MboxStatusE_into s) cm dout x) =
  (Ok s, mk st lk us dl ld cap ri wi d (MboxStatusE_into s) cm dout x).
Proof.
  intros Hs.
  assert (Hf : fget 0 4 (fset 6 3 (fsm_ps st) (MboxStatusE_into s)) = MboxStatusE_into s).
  { rewrite fget_fset_other by lia. destruct s; try done. by destruct (Hs n). }
  unfold status_field_read, rd, mmio, mbind, M_bind.
  destruct q; cbn [side_of bus_read]; unfold internal, external, read_status; rewrite ?bind_modify;
    cbn [get state context status mk set_request requester]; unfold lift; rewrite Hf;
    destruct s; try done; by destruct (Hs n).
Qed.

(** ** The FIFO *)

Definition moving (st : States) : Prop := st = ExecUc ∨ st = ExecSoc.

Lemma fifo_enqueue_at {F} v ld cap ri k d : cap = length d → (4 * k + 4 ≤ cap)%nat → Z.of_nat cap < 2 ^ 32 →
  fifo_enqueue (E := F) v (mkFifo ld cap ri (4 * k) (Ram.mkRam 0 d)) =
  Ok (mkFifo ld cap ri (4 * k + 4) (Ram.mkRam 0 (splice d (4 * k) (to_le 4 v)))).
Proof.
  intros -> Hk Hc. unfold fifo_enqueue. cbn [write_index capacity latched_dlen read_index mailbox_ram].
  rewrite (proj2 (Nat.ltb_lt _ _)) by lia. rewrite as_addr_small by lia. by rewrite ram_write_ok.
Qed.

Lemma fifo_dequeue_at {F} ld cap j wi d : cap = length d → is_bytes d → (4 * j < Z.to_nat ld)%nat →
  (4 * j + 4 ≤ cap)%nat → Z.of_nat cap < 2 ^ 32 →
  fifo_dequeue (E := F) (mkFifo ld cap (4 * j) wi (Ram.mkRam 0 d)) =
  Ok (Some (from_le (slice d (4 * j) (4 * j + 4))), mkFifo ld cap (4 * j + 4) wi (Ram.mkRam 0 d)).
Proof.
  intros -> Hd Hl Hk Hc. unfold fifo_dequeue. cbn [write_index capacity latched_dlen read_index mailbox_ram].
  rewrite (proj2 (Nat.leb_gt _ _)) by lia. rewrite as_addr_small by lia. by rewrite ram_read_ok.
Qed.

Lemma wr_event q addr val e r s' c' :
  bus_write Word addr val = event e → requester r = Caliptra → process_event e (state r) (context r) = Ok (s', c') →
  wr (E := E) (side_of q) addr val r = (Ok tt, set_machine s' c' r).
Proof.
  intros Hb Hq Hp. destruct r as [ex tm st c rq iq po]; simpl in *. subst rq.
  unfold wr, mmio. rewrite Hb.
  destruct q; cbn [side_of]; unfold internal, external; rewrite ?bind_modify; unfold event; simpl; by rewrite Hp.
Qed.

Lemma dataout_event q r s' c' :
  requester r = Caliptra → process_event DataRead (state r) (context r) = Ok (s', c') →
  dataout_read (E := E) (side_of q) r = (Ok (data_out c'), set_machine s' c' r).
Proof.
  intros Hq Hp. destruct r as [ex tm st c rq iq po]; simpl in *. subst rq.
  unfold dataout_read, rd, mmio. cbn [bus_read].
  destruct q; cbn [side_of]; unfold internal, external, read_dout, mbind, M_bind; unfold modify, event; simpl; by rewrite Hp.
Qed.

Lemma datain_write_ok q v st lk us dl ld cap ri k d stt cm dout x :
  st = RdyForData ∨ moving st → cap = length d → (4 * k + 4 ≤ cap)%nat → Z.of_nat cap < 2 ^ 32 →
  datain_write (E := E) (side_of q) v (mk st lk us dl ld cap ri (4 * k) d stt cm dout x) =
  (Ok tt, mk st lk us dl ld cap ri (4 * k + 4) (splice d (4 * k) (to_le 4 v)) stt cm dout x).
Proof.
  intros Hst Hcap Hk Hc. unfold datain_write. erewrite (wr_event q 0x10 v (DataWrite v)); [|done..|].
  2: { unfold process_event. destruct Hst as [-> |[-> | ->]]; cbn [transition state context mk no_guard];
       unfold enqueue; cbn [fifo]; rewrite fifo_enqueue_at by done; reflexivity. }
  done.
Qed.

Lemma dataout_read_ok q st lk us dl ld cap j wi d stt cm dout x :
  moving st → cap = length d → is_bytes d → (4 * j < Z.to_nat ld)%nat → (4 * j + 4 ≤ cap)%nat → Z.of_nat cap < 2 ^ 32 →
  let w := from_le (slice d (4 * j) (4 * j + 4)) in
  dataout_read (E := E) (side_of q) (mk st lk us dl ld cap (4 * j) wi d stt cm dout x) =
  (Ok w, mk st lk us dl ld cap (4 * j + 4) wi d stt cm w x).
Proof.
  intros Hst Hcap Hd Hl Hk Hc w. erewrite (dataout_event q); [|done|].
  2: { unfold process_event. destruct Hst as [-> | ->]; cbn [transition state context mk no_guard];
       unfold dequeue; cbn [fifo]; rewrite fifo_dequeue_at by done; reflexivity. }
  done.
Qed.

Lemma splice_splice {A} (d a b : list A) o :
  (o + length a + length b ≤ length d)%nat → splice (splice d o a) (o + length a) b = splice d o (a ++ b).
Proof.
  intros H.
  assert (Hd : d = take o d ++ take (length a) (drop o d) ++ take (length b) (drop (o + length a) d)
                   ++ drop (o + length a + length b) d).
  { by rewrite <- (drop_drop d _ (o + length a)), take_drop, <- (drop_drop d _ o), take_drop, take_drop. }
  set (d1 := take o d) in *. set (m1 := take (length a) (drop o d)) in *.
  set (m2 := take (length b) (drop (o + length a) d)) in *. set (d2 := drop (o + length a + length b) d) in *.
  assert (H1 : length d1 = o) by (unfold d1; rewrite length_take; lia).
  assert (H2 : length m1 = length a) by (unfold m1; rewrite length_take, length_drop; lia).
  assert (H3 : length m2 = length b) by (unfold m2; rewrite length_take, length_drop; lia).
  clearbody d1 m1 m2 d2. subst d. rewrite <- H1.
  rewrite splice_app_mid by done. rewrite app_assoc, <- length_app, splice_app_mid by done.
  rewrite (app_assoc m1), splice_app_mid by (rewrite !length_app; lia). by rewrite !app_assoc.
Qed.

Lemma write_words_ok q ws st lk us dl ld cap ri k d stt cm dout x :
  st = RdyForData ∨ moving st → cap = length d → (4 * k + 4 * length ws ≤ cap)%nat → Z.of_nat cap < 2 ^ 32 →
  write_words (E := E) (side_of q) ws (mk st lk us dl ld cap ri (4 * k) d stt cm dout x) =
  (Ok tt, mk st lk us dl ld cap ri (4 * k + 4 * length ws) (splice d (4 * k) (bytes_le ws)) stt cm dout x).
Proof.
  intros Hst. revert k d. induction ws as [|w ws IH]; intros k d Hcap Hk Hc; cbn [write_words].
  - unfold mret, M_ret. cbn [length bytes_le flat_map]. rewrite Nat.mul_0_r, Nat.add_0_r. do 2 f_equal.
    unfold splice. cbn [length app]. by rewrite Nat.add_0_r, take_drop.
  - cbn [length] in Hk.
    rewrite (bind_ok _ _ _ tt _ (datain_write_ok q w st lk us dl ld cap ri k d stt cm dout x Hst Hcap ltac:(lia) Hc)).
    replace (4 * k + 4)%nat with (4 * S k)%nat by lia.
    assert (Hl : length (splice d (4 * k) (to_le 4 w)) = length d) by (apply length_splice; rewrite length_to_le; lia).
    rewrite IH by (rewrite ?Hl; lia). f_equal. f_equal; [cbn [length]; lia|].
    change (bytes_le (w :: ws)) with (to_le 4 w ++ bytes_le ws).
    rewrite <- splice_splice by (rewrite length_to_le, length_bytes_le; lia).
    f_equal. rewrite length_to_le. lia.
Qed.

Lemma read_words_ok q n st lk us dl ld cap j wi d stt cm dout x :
  moving st → cap = length d → is_bytes d → (4 * j + 4 * n ≤ cap)%nat → Z.of_nat cap < 2 ^ 32 →
  (4 * j + 4 * n < Z.to_nat ld + 4)%nat →
  ∃ dout', read_words (E := E) (side_of q) n (mk st lk us dl ld cap (4 * j) wi d stt cm dout x) =
  (Ok (words_le (slice d (4 * j) (4 * j + 4 * n))),
   mk st lk us dl ld cap (4 * j + 4 * n) wi d stt cm dout' x).
Proof.
  intros Hst Hcap Hd. revert j dout. induction n as [|n IH]; intros j dout Hn Hc Hl; cbn [read_words].
  - exists dout. unfold mret, M_ret, slice. by rewrite Nat.mul_0_r, Nat.add_0_r, Nat.sub_diag.
  - rewrite (bind_ok _ _ _ _ _ (dataout_read_ok q st lk us dl ld cap j wi d stt cm dout x Hst Hcap Hd ltac:(lia) ltac:(lia) Hc)).
    replace (4 * j + 4)%nat with (4 * S j)%nat by lia.
    destruct (IH (S j) (from_le (slice d (4 * j) (4 * S j)))) as [dout' Hrec]; [lia..|].
    exists dout'. rewrite (bind_ok _ _ _ _ _ Hrec). unfold mret, M_ret. f_equal; [|f_equal; lia]. f_equal.
    destruct (four_cells d (4 * j)) as (l1 & b0 & b1 & b2 & b3 & l2 & -> & Hl1); [lia|].
    unfold slice. rewrite <- Hl1, drop_app_length.
    replace (4 * S j)%nat with (length l1 + 4)%nat by lia.
    rewrite <- drop_drop, drop_app_length.
    replace (length l1 + 4 - length l1)%nat with 4%nat by lia.
    replace (length l1 + 4 * S n - length l1)%nat with (S (S (S (S (4 * n))))) by lia.
    replace (length l1 + 4 + 4 * n - (length l1 + 4))%nat with (4 * n)%nat by lia. done.
Qed.
End Explicit.

(** ** Byte strings through the FIFO *)

Lemma pad4_upper buf : (length (pad4 buf) < length buf + 4)%nat.
Proof.
  unfold pad4. destruct (Driver.suffix_of buf); cbn [length]; [lia|]. rewrite length_app, length_replicate. lia.
Qed.

Lemma pad4_fits buf cap : (length buf ≤ cap)%nat → (∃ k, cap = 4 * k)%nat → (4 * length (payload_words buf) ≤ cap)%nat.
Proof. intros H [k ->]. pose proof (pad4_upper buf). pose proof (length_pad4 buf). lia. Qed.

Lemma pad4_prefix buf : ∃ z, pad4 buf = buf ++ z.
Proof. unfold pad4. destruct (Driver.suffix_of buf); [exists []; by rewrite app_nil_r|eauto]. Qed.

(** What the SRAM holds after a byte string was written from its start. *)
Definition loaded (d buf : list Z) : list Z := splice d 0 (pad4 buf).

Lemma loaded_prefix d buf : take (length buf) (loaded d buf) = buf.
Proof.
  unfold loaded, splice. destruct (pad4_prefix buf) as [z ->]. rewrite take_0, app_nil_l.
  by rewrite <- app_assoc, take_app_length.
Qed.

Lemma length_loaded d buf : (4 * length (payload_words buf) ≤ length d)%nat → length (loaded d buf) = length d.
Proof. intros. apply length_splice. pose proof (length_pad4 buf). lia. Qed.

Lemma loaded_bytes d buf : is_bytes d → is_bytes buf → is_bytes (loaded d buf).
Proof.
  intros. apply splice_bytes; [done|]. unfold pad4. destruct (Driver.suffix_of buf); [done|].
  apply Forall_app. split; [done|]. by apply Forall_replicate.
Qed.

Lemma write_words_app {E} side l1 l2 r :
  write_words (E := E) side (l1 ++ l2) r = (write_words side l1;; write_words side l2) r.
Proof.
  revert r. induction l1 as [|w l1 IH]; intros r; [done|]. cbn [write_words app].
  unfold mbind, M_bind in *. destruct (datain_write side w r) as [[[]| |] r']; [|done..]. apply IH.
Qed.

Lemma write_payload_ok {E} q buf st lk us dl ld cap ri d stt cm dout x :
  st = RdyForData ∨ moving st → is_bytes buf → cap = length d → (4 * length (payload_words buf) ≤ cap)%nat →
  Z.of_nat cap < 2 ^ 32 →
  write_words (E := E) (side_of q) (payload_words buf) (mk st lk us dl ld cap ri 0 d stt cm dout x) =
  (Ok tt, mk st lk us dl ld cap ri (4 * length (payload_words buf)) (loaded d buf) stt cm dout x).
Proof.
  intros. change 0%nat with (4 * 0)%nat at 1. rewrite write_words_ok by (done || lia).
  unfold loaded. rewrite payload_words_bytes by done. done.
Qed.

(** The last, partial word of a byte string. *)
Lemma last_word_of d n : is_bytes d → (4 * (n / 4) + 4 ≤ length d)%nat →
  take (n - 4 * (n / 4)) (to_le 4 (from_le (slice d (4 * (n / 4)) (4 * (n / 4) + 4)))) =
  take (n - 4 * (n / 4)) (drop (4 * (n / 4)) d).
Proof.
  intros Hd Hn. set (a := (4 * (n / 4))%nat) in *.
  assert (Hs : is_bytes (slice d a (a + 4))) by (by apply Forall_take, Forall_drop).
  assert (Hl : length (slice d a (a + 4)) = 4%nat) by (unfold slice; rewrite length_take, length_drop; lia).
  pose proof (to_le_from_le _ Hs) as Ht. rewrite Hl in Ht. rewrite Ht. unfold slice. rewrite take_take. f_equal.
  pose proof (Nat.div_mod_eq n 4). pose proof (Nat.mod_upper_bound n 4). lia.
Qed.

Lemma words_of_prefix d n : is_bytes d → (4 * (n / 4) ≤ length d)%nat →
  bytes_le (words_le (slice d 0 (4 * (n / 4)))) = take (4 * (n / 4)) d.
Proof.
  intros Hd Hn. unfold slice. rewrite Nat.sub_0_r, drop_0.
  apply bytes_le_words_le; [by apply Forall_take|]. rewrite length_take, Nat.min_l by lia. apply divide4.
Qed.

Lemma take_split_at {A} (d : list A) a n : (a ≤ n)%nat → take a d ++ take (n - a) (drop a d) = take n d.
Proof. intros. rewrite <- (take_drop a (take n d)), take_take, Nat.min_l by lia. by rewrite skipn_firstn_comm. Qed.

(** Reading [n] bytes word by word from the start of the FIFO. *)
Lemma read_payload {E} q n st lk us dl ld cap wi d stt cm dout x :
  moving st → cap = length d → (∃ k, cap = 4 * k)%nat → is_bytes d → (n ≤ cap)%nat → Z.of_nat cap < 2 ^ 32 →
  (n ≤ Z.to_nat ld)%nat →
  ∃ ri' dout' ws, read_words (E := E) (side_of q) (n / 4) (mk st lk us dl ld cap 0 wi d stt cm dout x) =
    (Ok ws, mk st lk us dl ld cap (4 * (n / 4)) wi d stt cm dout' x) ∧
  bytes_le ws = take (4 * (n / 4)) d ∧
  (n - 4 * (n / 4) ≠ 0 → ∃ w dout'',
     dataout_read (E := E) (side_of q) (mk st lk us dl ld cap (4 * (n / 4)) wi d stt cm dout' x) =
     (Ok w, mk st lk us dl ld cap ri' wi d stt cm dout'' x) ∧
     bytes_le ws ++ take (n - 4 * (n / 4)) (to_le 4 w) = take n d)%nat ∧
  (n - 4 * (n / 4) = 0 → bytes_le ws = take n d)%nat.
Proof.
  intros Hst Hcap [k Hk] Hd Hn Hc Hl.
  pose proof (Nat.div_mod_eq n 4). pose proof (Nat.mod_upper_bound n 4).
  destruct (read_words_ok (E := E) q (n / 4) st lk us dl ld cap 0 wi d stt cm dout x) as [dout' Hr]; [done..|lia|lia|lia|].
  rewrite Nat.mul_0_r, Nat.add_0_l in Hr.
  exists (4 * (n / 4) + 4)%nat, dout', (words_le (slice d 0 (4 * (n / 4)))).
  rewrite words_of_prefix by (done || lia).
  split; [exact Hr|]. split; [done|]. split.
  - intros Hrest. eexists _, _. split; [apply dataout_read_ok; (done || lia)|].
    rewrite last_word_of by (done || lia). apply take_split_at. lia.
  - intros Hrest. f_equal. lia.
Qed.

(** * The programs of the two sides *)

(** What the firmware and the host find in the mailbox: an SRAM of whole words. *)
Record sane (cap : nat) (d : list Z) : Prop := {
  sane_len : cap = length d;
  sane_words : (∃ k, cap = 4 * k)%nat;
  sane_u32 : Z.of_nat cap < 2 ^ 32;
  sane_bytes : is_bytes d;
}.

Lemma loaded_sane cap d buf : sane cap d → is_bytes buf → (length buf ≤ cap)%nat → sane cap (loaded d buf).
Proof.
  intros [Hc Hk Hu Hd] Hb Hl. constructor; auto using loaded_bytes.
  rewrite length_loaded; [done|]. rewrite <- Hc. by apply pad4_fits.
Qed.

(** ** The host *)

Lemma mbox_write_fifo_run u buf lim r :
  (length buf ≤ lim)%nat → Z.of_nat (length buf) < 2 ^ 32 →
  Host.mbox_write_fifo_with_limit u buf lim r =
  (dlen_write (side_of (SocUser u)) (Z.of_nat (length buf));; write_words (side_of (SocUser u)) (payload_words buf)) r.
Proof.
  intros Hl H32. unfold Host.mbox_write_fifo_with_limit.
  rewrite !bind_fail_if by (apply Z.leb_gt || apply Nat.ltb_ge; lia).
  apply bind_ext. intros [] r'. unfold payload_words. rewrite write_words_app. apply bind_ext. intros [] r''.
  destruct (Driver.suffix_of buf); [done|]. cbn [write_words length Nat.eqb negb].
  by rewrite bind_unit_ret.
Qed.

Section HostRuns.
Context `{SM : Host.SocManager Dev}.
Abbreviation q := (SocUser Host.pauser).

Lemma on_mbox_ok {A} (m : MM Host.CaliptraApiError MailboxRegs A) r r' a (d : Dev) :
  m r = (Ok a, r') → Host.on_mbox m (r, d) = (Ok a, (r', d)).
Proof. unfold Host.on_mbox. by intros ->. Qed.

Lemma host_start_ok cmd buf us dl ld cap ri wi d stt cm dout x (dev : Dev) :
  sane cap d → is_bytes buf → (length buf ≤ cap)%nat → (length buf ≤ Host.MAILBOX_SIZE_LIMIT)%nat →
  Host.start_mailbox_exec cmd buf (mk Idle 0 us dl ld cap ri wi d stt cm dout x, dev) =
  (Ok tt, (mk ExecUc 1 q (Z.of_nat (length buf)) (Z.of_nat (length buf)) cap 0 (4 * length (payload_words buf))
             (loaded d buf) stt cmd dout (kicked 1 x), dev)).
Proof.
  intros [Hc Hk Hu Hd] Hb Hl Hlim. unfold Host.start_mailbox_exec.
  rewrite (bind_ok _ _ _ _ _ (on_mbox_ok _ _ _ _ dev (lock_read_idle q us dl ld cap ri wi d stt cm dout x))).
  rewrite bind_fail_if by done.
  rewrite (bind_ok _ _ _ _ _ (on_mbox_ok _ _ _ _ dev (lock_read_busy q RdyForCmd 1 q dl ld cap 0 0 d stt cm dout x ltac:(done)))).
  rewrite bind_fail_if by done.
  rewrite (bind_ok _ _ _ _ _ (on_mbox_ok _ _ _ _ dev (cmd_write_ok q cmd 1 q dl ld cap 0 0 d stt cm dout x))).
  assert (Hw : Host.mbox_write_fifo_with_limit Host.pauser buf Host.MAILBOX_SIZE_LIMIT
                 (mk RdyForDlen 1 q dl ld cap 0 0 d stt cmd dout x) =
               (Ok tt, mk RdyForData 1 q (Z.of_nat (length buf)) (Z.of_nat (length buf)) cap 0
                         (4 * length (payload_words buf)) (loaded d buf) stt cmd dout x)).
  { rewrite mbox_write_fifo_run by lia. rewrite (bind_ok _ _ _ _ _ (dlen_write_first q _ 1 q dl ld cap 0 0 d stt cmd dout x)).
    rewrite clip_small by lia. apply write_payload_ok; auto using pad4_fits. }
  rewrite (bind_ok _ _ _ _ _ (on_mbox_ok _ _ _ _ dev Hw)).
  apply on_mbox_ok, execute_set_ok.
Qed.

(** A response of [n] bytes is read and the mailbox released. *)
Lemma mbox_read_response_ok buf n st lk us cap wi d stt cm dout x :
  moving st → sane cap d → (n ≤ cap)%nat → (n ≤ length buf)%nat →
  ∃ ri' dout', Host.mbox_read_response Host.pauser buf (mk st lk us (Z.of_nat n) (Z.of_nat n) cap 0 wi d stt cm dout x) =
    (Ok (take n d), mk st lk us (Z.of_nat n) (Z.of_nat n) cap ri' wi d stt cm dout' x).
Proof.
  intros Hst [Hc Hk Hu Hd] Hn Hb.
  destruct (read_payload (E := Host.CaliptraApiError) q n st lk us (Z.of_nat n) (Z.of_nat n) cap wi d stt cm dout x)
    as (ri' & dout' & ws & Hr & Hws & Hsfx & Hno); [done..|lia|].
  unfold Host.mbox_read_response.
  rewrite (bind_ok _ _ _ _ _ (dlen_read_ok q st lk us (Z.of_nat n) (Z.of_nat n) cap 0 wi d stt cm dout x)).
  rewrite Nat2Z.id. rewrite bind_fail_if by (apply Nat.ltb_ge; lia).
  unfold Host.mbox_read_fifo.
  rewrite (bind_ok _ _ _ _ _ (dlen_read_ok q st lk us (Z.of_nat n) (Z.of_nat n) cap 0 wi d stt cm dout x)).
  rewrite Nat2Z.id. rewrite bind_fail_if by (apply Nat.ltb_ge; rewrite length_take; lia).
  rewrite (bind_ok _ _ _ _ _ Hr).
  destruct (Nat.eqb_spec (n - 4 * (n / 4)) 0) as [Hz|Hz]; cbn [negb].
  - rewrite Hno by done. by eexists _, _.
  - destruct (Hsfx Hz) as (w & dout'' & Hrd & Heq). rewrite (bind_ok _ _ _ _ _ Hrd). rewrite Heq. by eexists _, _.
Qed.

(** *** Waiting *)

Definition busy (s : MailboxRegs * Dev) : Prop := status_field_read (E := Host.CaliptraApiError) (soc Host.pauser) s.1 = (Ok CmdBusy, s.1).

Lemma wait_done fuel t r (d : Dev) st :
  status_field_read (E := Host.CaliptraApiError) (soc Host.pauser) r = (Ok st, r) → st ≠ CmdBusy →
  Host.wait_not_busy (S fuel) t (r, d) = (Ok tt, (r, d)).
Proof.
  intros Hr Hs. cbn [Host.wait_not_busy]. rewrite (bind_ok _ _ _ _ _ (on_mbox_ok _ _ _ _ d Hr)).
  by rewrite bool_decide_eq_false_2.
Qed.

Lemma wait_busy fuel t s : busy s →
  Host.wait_not_busy (S fuel) t s =
  if u32w (t - 1) =? 0 then (Err Host.MailboxTimeout, Host.delay s)
  else Host.wait_not_busy fuel (u32w (t - 1)) (Host.delay s).
Proof.
  destruct s as [r d]. intros Hr. cbn [Host.wait_not_busy].
  rewrite (bind_ok _ _ _ _ _ (on_mbox_ok _ _ _ _ d Hr)). rewrite bool_decide_eq_true_2 by done.
  rewrite bind_modify. unfold fail_if. by destruct (u32w (t - 1) =? 0).
Qed.

Lemma wait_steps k fuel t s : (∀ i, (i < k)%nat → busy (Nat.iter i Host.delay s)) → Z.of_nat k < t < 2 ^ 32 →
  Host.wait_not_busy (k + fuel) t s = Host.wait_not_busy fuel (t - Z.of_nat k) (Nat.iter k Host.delay s).
Proof.
  revert t s. induction k as [|k IH]; intros t s Hb Ht; [by rewrite Z.sub_0_r|].
  rewrite Nat.add_succ_l, wait_busy by (apply (Hb 0%nat); lia).
  rewrite wrap_small by ulia. rewrite (proj2 (Z.eqb_neq _ _)) by lia. rewrite IH.
  - rewrite Nat.iter_succ_r. f_equal. lia.
  - intros i Hi. rewrite <- Nat.iter_succ_r. apply Hb. lia.
  - lia.
Qed.

(** The loop ends whatever the device does, after at most [t] delays. *)
Definition readable (s : MailboxRegs * Dev) : Prop :=
  ∃ st, status_field_read (E := Host.CaliptraApiError) (soc Host.pauser) s.1 = (Ok st, s.1).

Lemma wait_bounded fuel t s :
  (∀ n, readable (Nat.iter n Host.delay s)) → (Z.to_nat t < fuel)%nat → 1 ≤ t < 2 ^ 32 →
  ∃ n, Z.of_nat n ≤ t ∧
    (Host.wait_not_busy fuel t s = (Ok tt, Nat.iter n Host.delay s)
     ∨ Z.of_nat n = t ∧ Host.wait_not_busy fuel t s = (Err Host.MailboxTimeout, Nat.iter n Host.delay s)).
Proof.
  revert t s. induction fuel as [|fuel IH]; intros t s Hr Hf Ht; [lia|].
  destruct (Hr 0%nat) as [st Hst]. simpl in Hst.
  destruct (decide (st = CmdBusy)) as [->|Hs].
  - rewrite wait_busy by done. rewrite wrap_small by ulia.
    destruct (Z.eqb_spec (t - 1) 0).
    + exists 1%nat. split; [lia|]. right. split; [lia|done].
    + destruct (IH (t - 1) (Host.delay s)) as (n' & Hn & Ho); [|lia..|].
      * intros n'. rewrite <- Nat.iter_succ_r. apply Hr.
      * exists (S n'). split; [lia|]. rewrite Nat.iter_succ_r. destruct Ho as [?|[? ?]]; [by left|right].
        split; [lia|done].
  - exists 0%nat. split; [lia|]. left. destruct s. by eapply wait_done.
Qed.

(** *** The end of a command *)

Lemma finish_data_ok buf n cap wi d cm dout x s (dev : Dev) :
  sane cap d → (n ≤ cap)%nat → (n ≤ length buf)%nat →
  Host.wait_not_busy Host.wait_fuel Host.MAX_WAIT_CYCLES s =
    (Ok tt, (mk ExecSoc 1 q (Z.of_nat n) (Z.of_nat n) cap 0 wi d 1 cm dout x, dev)) →
  ∃ ri' dout', Host.finish_mailbox_exec buf s =
    (Ok (Some (take n d)), (mk Idle 0 q (Z.of_nat n) (Z.of_nat n) cap ri' wi d 0 cm dout' (kicked 0 x), dev)).
Proof.
  intros Hs Hn Hb Hw. unfold Host.finish_mailbox_exec. rewrite (bind_ok _ _ _ _ _ Hw).
  rewrite (bind_ok _ _ _ _ _ (on_mbox_ok _ _ _ _ dev (status_field_read_ok q ExecSoc 1 q (Z.of_nat n) (Z.of_nat n) cap 0 wi d DataReady cm dout x ltac:(done)))).
  rewrite bool_decide_eq_false_2, bool_decide_eq_false_2, bool_decide_eq_true_2 by done. cbn [negb].
  destruct (mbox_read_response_ok buf n ExecSoc 1 q cap wi d 1 cm dout x) as (ri' & dout' & Hr); [by right|done..|].
  exists ri', dout'. rewrite (bind_ok _ _ _ _ _ (catch_ok _ _ _ _ (on_mbox_ok _ _ _ _ dev Hr))).
  rewrite (bind_ok _ _ _ _ _ (on_mbox_ok _ _ _ _ dev (execute_clear_ok q ExecSoc _ _ _ _ _ _ _ _ _ _ ltac:(by right)))).
  done.
Qed.

Lemma finish_failure buf dl ld cap ri wi d cm dout x s (dev : Dev) :
  Host.wait_not_busy Host.wait_fuel Host.MAX_WAIT_CYCLES s =
    (Ok tt, (mk ExecSoc 1 q dl ld cap ri wi d 3 cm dout x, dev)) →
  Host.finish_mailbox_exec buf s =
    (Err (Host.MailboxCmdFailed (if negb (Host.cptra_fw_error_fatal dev =? 0) then Host.cptra_fw_error_fatal dev
                                 else Host.cptra_fw_error_non_fatal dev)),
     (mk Idle 0 q dl ld cap ri wi d 0 cm dout (kicked 0 x), dev)).
Proof.
  intros Hw. unfold Host.finish_mailbox_exec. rewrite (bind_ok _ _ _ _ _ Hw).
  rewrite (bind_ok _ _ _ _ _ (on_mbox_ok _ _ _ _ dev (status_field_read_ok q ExecSoc 1 q dl ld cap ri wi d CmdFailure cm dout x ltac:(done)))).
  rewrite bool_decide_eq_true_2 by done.
  rewrite (bind_ok _ _ _ _ _ (on_mbox_ok _ _ _ _ dev (execute_clear_ok q ExecSoc _ _ _ _ _ _ _ _ _ _ ltac:(by right)))).
  done.
Qed.
End HostRuns.

(** ** The firmware *)

Abbreviation uq := Caliptra.

Lemma copy_suffix_run buf r :
  (write_words (E := CaliptraError) uc (words_le buf);;
   match Driver.suffix_of buf with
   | [] => mret tt
   | sfx => if (length sfx <=? 4)%nat then write_words uc [Driver.last_word sfx] else mret tt
   end) r = write_words uc (payload_words buf) r.
Proof.
  unfold payload_words. rewrite write_words_app. apply bind_ext. intros [] r'.
  pose proof (length_suffix buf). destruct (Driver.suffix_of buf) as [|z l]; [done|].
  by rewrite (proj2 (Nat.leb_le _ _)) by lia.
Qed.

Lemma driver_enqueue_ok buf st lk us ld cap ri d stt cm dout x :
  st = RdyForData ∨ moving st → is_bytes buf → sane cap d → (length buf ≤ cap)%nat →
  Driver.fifo_enqueue buf (mk st lk us (Z.of_nat (length buf)) ld cap ri 0 d stt cm dout x) =
  (Ok tt, mk st lk us (Z.of_nat (length buf)) ld cap ri (4 * length (payload_words buf)) (loaded d buf) stt cm dout x).
Proof.
  intros Hst Hb [Hc Hk Hu Hd] Hl. unfold Driver.fifo_enqueue.
  rewrite (bind_ok _ _ _ _ _ (dlen_read_ok uq st lk us (Z.of_nat (length buf)) ld cap ri 0 d stt cm dout x)).
  rewrite Nat2Z.id, bind_fail_if by (by rewrite Nat.eqb_refl).
  rewrite copy_suffix_run. apply write_payload_ok; auto using pad4_fits.
Qed.

Lemma driver_dequeue_ok b n st lk us cap wi d stt cm dout x :
  moving st → sane cap d → (n ≤ cap)%nat →
  ∃ ri' dout', Driver.fifo_dequeue b (mk st lk us (Z.of_nat n) (Z.of_nat n) cap 0 wi d stt cm dout x) =
    (Ok (take (Nat.min n (length b)) d ++ drop (Nat.min n (length b)) b),
     mk st lk us (Z.of_nat n) (Z.of_nat n) cap ri' wi d stt cm dout' x).
Proof.
  intros Hst [Hc Hk Hu Hd] Hn. unfold Driver.fifo_dequeue.
  rewrite (bind_ok _ _ _ _ _ (dlen_read_ok uq st lk us (Z.of_nat n) (Z.of_nat n) cap 0 wi d stt cm dout x)).
  rewrite Nat2Z.id. set (m := Nat.min n (length b)).
  assert (Hm : (if (n <? length b)%nat then n else length b) = m) by (destruct (Nat.ltb_spec n (length b)); lia).
  rewrite Hm.
  destruct (read_payload (E := CaliptraError) uq m st lk us (Z.of_nat n) (Z.of_nat n) cap wi d stt cm dout x)
    as (ri' & dout' & ws & Hr & Hws & Hsfx & Hno); [done..|lia|done|lia|].
  rewrite (bind_ok _ _ _ _ _ Hr).
  destruct (Nat.eq_dec (m - 4 * (m / 4)) 0)%nat as [Hz|Hz].
  - rewrite Hz. cbn [Nat.ltb Nat.leb andb take]. rewrite bind_mret. rewrite Hno by done. rewrite app_nil_l.
    by eexists _, _.
  - pose proof (Nat.div_mod_eq m 4). pose proof (Nat.mod_upper_bound m 4).
    rewrite (proj2 (Nat.ltb_lt _ _)), (proj2 (Nat.leb_le _ _)) by lia. cbn [andb].
    destruct (Hsfx Hz) as (w & dout'' & Hrd & Heq).
    erewrite bind_ok; [|erewrite bind_ok; [reflexivity|exact Hrd]].
    rewrite app_assoc, Heq. by eexists _, _.
Qed.

Section RecvRuns.
Context (mbox_len : Z).

Lemma r_lift_ok {A} (m : Driver.F A) st rec r r' a :
  m r = (Ok a, r') → Driver.r_lift m (Driver.mkRecv st rec r) = (Ok a, Driver.mkRecv st rec r').
Proof. unfold Driver.r_lift. simpl. by intros ->. Qed.

Lemma s_lift_ok {A} (m : Driver.F A) st r r' a :
  m r = (Ok a, r') → Driver.s_lift m (Driver.mkSend st r) = (Ok a, Driver.mkSend st r').
Proof. unfold Driver.s_lift. simpl. by intros ->. Qed.

Lemma r_need_ok st rec r : Driver.r_need st (Driver.mkRecv st rec r) = (Ok tt, Driver.mkRecv st rec r).
Proof. unfold Driver.r_need. rewrite bind_get. cbn [Driver.r_state]. by rewrite bool_decide_eq_true_2. Qed.

Lemma r_set_ok st st' rec r : Driver.r_set st' (Driver.mkRecv st rec r) = (Ok tt, Driver.mkRecv st' rec r).
Proof. done. Qed.

Lemma s_set_ok st st' r : Driver.s_set st' (Driver.mkSend st r) = (Ok tt, Driver.mkSend st' r).
Proof. done. Qed.

Lemma s_need_ok st r : Driver.s_need st (Driver.mkSend st r) = (Ok tt, Driver.mkSend st r).
Proof. unfold Driver.s_need. rewrite bind_get. cbn [Driver.s_state]. by rewrite bool_decide_eq_true_2. Qed.

Lemma recv_copy_request_ok b n st lk us cap wi d stt cm dout x :
  moving st → sane cap d → (n ≤ cap)%nat →
  ∃ ri' dout', Driver.recv_copy_request false b
      (Driver.mkRecv Driver.OpExecute false (mk st lk us (Z.of_nat n) (Z.of_nat n) cap 0 wi d stt cm dout x)) =
    (Ok (take (Nat.min n (length b)) d ++ drop (Nat.min n (length b)) b),
     Driver.mkRecv Driver.OpExecute false (mk st lk us (Z.of_nat n) (Z.of_nat n) cap ri' wi d stt cm dout' x)).
Proof.
  intros Hst Hs Hn. destruct (driver_dequeue_ok b n st lk us cap wi d stt cm dout x) as (ri' & dout' & H); [done..|].
  exists ri', dout'. unfold Driver.recv_copy_request.
  rewrite (bind_ok _ _ _ _ _ (r_need_ok _ _ _)).
  by rewrite (bind_ok _ _ _ _ _ (r_lift_ok _ _ _ _ _ _ H)).
Qed.

Lemma send_response_ok resp lk us dl ld cap ri wi d stt cm dout x :
  sane cap d → is_bytes resp → (length resp ≤ cap)%nat → Z.of_nat (length resp) ≤ mbox_len →
  Driver.send_response mbox_len resp
    (Driver.mkRecv Driver.OpExecute false (mk ExecUc lk us dl ld cap ri wi d stt cm dout x)) =
  (Ok tt, Driver.mkRecv Driver.OpIdle false
     (mk ExecSoc lk us (Z.of_nat (length resp)) (Z.of_nat (length resp)) cap 0 (4 * length (payload_words resp))
        (loaded d resp) 1 cm dout x)).
Proof.
  intros Hs Hb Hl Hm. pose proof Hs as [Hc Hk Hu Hd]. unfold Driver.send_response, Driver.copy_response.
  assert (Hcr : (Driver.r_need Driver.OpExecute;; Driver.r_set Driver.OpRdyForDlen;;
      Driver.recv_write_dlen mbox_len (u32w (Z.of_nat (length resp)));; Driver.r_set Driver.OpRdyForData;;
      Driver.r_lift (Driver.fifo_enqueue resp))
      (Driver.mkRecv Driver.OpExecute false (mk ExecUc lk us dl ld cap ri wi d stt cm dout x)) =
      (Ok tt, Driver.mkRecv Driver.OpRdyForData false
        (mk ExecUc lk us (Z.of_nat (length resp)) (Z.of_nat (length resp)) cap 0 (4 * length (payload_words resp))
           (loaded d resp) stt cm dout x))).
  { rewrite (bind_ok _ _ _ _ _ (r_need_ok _ _ _)). rewrite (bind_ok _ _ _ _ _ (r_set_ok _ _ _ _)).
    rewrite wrap_small by (unfold in_u; lia).
    assert (Hwd : Driver.recv_write_dlen mbox_len (Z.of_nat (length resp))
        (Driver.mkRecv Driver.OpRdyForDlen false (mk ExecUc lk us dl ld cap ri wi d stt cm dout x)) =
      (Ok tt, Driver.mkRecv Driver.OpRdyForDlen false
         (mk ExecUc lk us (Z.of_nat (length resp)) (Z.of_nat (length resp)) cap 0 0 d stt cm dout x))).
    { unfold Driver.recv_write_dlen. rewrite (bind_ok _ _ _ _ _ (r_need_ok _ _ _)).
      rewrite bind_fail_if by (apply Z.ltb_ge; lia). apply r_lift_ok.
      rewrite dlen_write_again by (by left). by rewrite clip_small by lia. }
    rewrite (bind_ok _ _ _ _ _ Hwd). rewrite (bind_ok _ _ _ _ _ (r_set_ok _ _ _ _)).
    apply r_lift_ok, driver_enqueue_ok; [right; by left|done..]. }
  rewrite (bind_ok _ _ _ _ _ Hcr). unfold Driver.recv_complete. rewrite !bind_get. cbn [Driver.recovery_transaction Driver.r_state].
  rewrite bind_get. cbn [Driver.r_state]. rewrite bind_fail_if by done.
  rewrite bool_decide_eq_true_2 by done.
  by rewrite (bind_ok _ _ _ _ _ (r_lift_ok _ _ _ _ _ _ (status_write_ok uq DataReady ExecUc _ _ _ _ _ _ _ _ _ _ _ _ ltac:(by left) ltac:(by left)))).
Qed.
End RecvRuns.
