(* ===== verification/MailboxServe.v ===== *)
(** A command from the host to the runtime firmware and back: checksums, the
    packet the firmware sees, and one round of its command loop. *)

From stdpp Require Import relations.
From S2P Require Import Prelude Bits Errors Memory Mailbox MailboxDriver MailboxApi MailboxProofs MailboxRuns.
Import Mbox Csr.

(** * Checksums *)

Definition sumz (l : list Z) : Z := foldr Z.add 0 l.

Lemma checksum_fold acc l : is_u32 acc → foldl (λ a c, u32w (a + c)) acc l = u32w (acc + sumz l).
Proof.
  revert acc. induction l as [|b l IH]; intros acc Ha; cbn [foldl sumz foldr].
  - by rewrite Z.add_0_r, wrap_small.
  - rewrite IH by (apply wrap_in_u; lia). unfold wrap, sumz. rewrite Zplus_mod_idemp_l. f_equal. lia.
Qed.

Lemma calc_checksum_sum cmd data : calc_checksum cmd data = u32w (- (sumz (to_le 4 cmd) + sumz data)).
Proof.
  unfold calc_checksum. rewrite (checksum_fold 0) by done.
  rewrite checksum_fold by (apply wrap_in_u; lia).
  unfold wrap. rewrite Zplus_mod_idemp_l, Z.sub_0_l, Z.add_0_l.
  rewrite <- (Z.sub_0_l (_ mod _)), Zminus_mod_idemp_r. f_equal.
Qed.

Lemma calc_checksum_u32 cmd data : is_u32 (calc_checksum cmd data).
Proof. rewrite calc_checksum_sum. apply wrap_in_u. lia. Qed.

Lemma sumz_app l1 l2 : sumz (l1 ++ l2) = sumz l1 + sumz l2.
Proof. induction l1 as [|x l1 IH]; simpl; [done|]. unfold sumz in *. lia. Qed.

Lemma sumz_insert l i b b' : l !! i = Some b → sumz (<[i := b']> l) = sumz l - b + b'.
Proof.
  intros Hi. rewrite <- (take_drop_middle l i b Hi) at 2.
  rewrite insert_take_drop by (by eapply lookup_lt_Some). rewrite !sumz_app. cbn [sumz foldr]. unfold sumz. lia.
Qed.

(** A message with a checksum in front of it. *)
Definition sealed (cmd : Z) (body : list Z) : list Z := to_le 4 (calc_checksum cmd body) ++ body.

Lemma sealed_header cmd body : from_le (take 4 (sealed cmd body)) = calc_checksum cmd body ∧ drop 4 (sealed cmd body) = body.
Proof.
  unfold sealed. split.
  - rewrite take_app_length' by (by rewrite length_to_le). apply from_le_to_le_u32, calc_checksum_u32.
  - by rewrite drop_app_length' by (by rewrite length_to_le).
Qed.

Lemma sealed_bytes cmd body : is_bytes body → is_bytes (sealed cmd body).
Proof. intros. apply Forall_app. split; [apply to_le_bytes|done]. Qed.

Lemma length_sealed cmd body : length (sealed cmd body) = (4 + length body)%nat.
Proof. unfold sealed. by rewrite length_app, length_to_le. Qed.

(** What the firmware checks of the bytes of a request. *)
Definition accepted (cmd : Z) (bytes : list Z) : bool :=
  (4 <=? length bytes)%nat && verify_checksum (from_le (take 4 bytes)) cmd (drop 4 bytes).

Lemma sealed_accepted cmd body : accepted cmd (sealed cmd body) = true.
Proof.
  unfold accepted, verify_checksum. destruct (sealed_header cmd body) as [-> ->].
  rewrite Z.eqb_refl, length_sealed. by rewrite andb_true_r.
Qed.

Lemma from_le_insert l i b b' : is_bytes l → is_u8 b' → l !! i = Some b → b ≠ b' → from_le (<[i := b']> l) ≠ from_le l.
Proof.
  intros Hl Hb' Hi Hne Heq.
  assert (Hl' : is_bytes (<[i := b']> l)) by (by apply Forall_insert).
  pose proof (to_le_from_le _ Hl) as H1. pose proof (to_le_from_le _ Hl') as H2.
  rewrite length_insert, Heq, H1 in H2. pose proof (lookup_lt_Some _ _ _ Hi) as Hlt.
  assert (Hb : (<[i := b']> l) !! i = Some b') by (by apply list_lookup_insert_eq). congruence.
Qed.

Lemma u32_differ a b : u32w a = u32w b → (a - b) mod 2 ^ 32 = 0.
Proof. unfold wrap. intros H. rewrite Zminus_mod, H, Z.sub_diag. done. Qed.

(** Any change of one byte of a request is noticed. *)
Lemma corrupted_rejected cmd bytes i b b' :
  is_bytes bytes → is_u8 b' → bytes !! i = Some b → b ≠ b' → accepted cmd bytes = true →
  accepted cmd (<[i := b']> bytes) = false.
Proof.
  intros Hb Hb' Hi Hne Ha. unfold accepted in *. rewrite length_insert.
  apply andb_true_iff in Ha as [Hl Hv]. rewrite Hl. cbn [andb]. unfold verify_checksum in *.
  apply Z.eqb_eq in Hv. apply Z.eqb_neq. intros Hv'. apply Nat.leb_le in Hl.
  assert (Hbu : is_u8 b) by (by eapply Forall_lookup_1).
  destruct (decide (i < 4)%nat) as [Hi4|Hi4].
  - rewrite take_insert_lt, drop_insert_lt in Hv' by lia. rewrite Hv in Hv'. symmetry in Hv'. revert Hv'.
    apply (from_le_insert _ i b b'); [by apply Forall_take|done|by rewrite lookup_take_lt by lia|done].
  - rewrite take_insert_ge, drop_insert_ge in Hv' by lia. rewrite <- Hv in Hv'. rewrite !calc_checksum_sum in Hv'.
    apply u32_differ in Hv'. rewrite (sumz_insert _ _ b) in Hv' by (rewrite lookup_drop; by replace (4 + (i - 4))%nat with i by lia).
    replace (- (_ + (sumz (drop 4 bytes) - b + b')) - _) with (b - b') in Hv' by lia.
    unfold in_u in *. apply Z.mod_divide in Hv' as [k Hk]; [|done]. change (2 ^ 32) with 4294967296 in Hk. change (2 ^ 8) with 256 in *. lia.
Qed.

(** * The packet *)

(** The checks of [get_from_mbox], on the bytes the SRAM holds. *)
Lemma get_from_mbox_run mbox_len n st lk us ld cap ri wi d stt cm dout x :
  Z.to_nat mbox_len = cap → sane cap d → (n ≤ cap)%nat →
  let r := mk st lk us (Z.of_nat n) ld cap ri wi d stt cm dout x in
  Runtime.get_from_mbox mbox_len r =
  (if (4 <=? n)%nat then
     if accepted cm (take n d) then Ok (Runtime.mkPacket cm n) else Err RUNTIME_INVALID_CHECKSUM
   else Err RUNTIME_MAILBOX_INVALID_PARAMS, r)
  ∧ Runtime.payload mbox_len r (Runtime.mkPacket cm n) = take n d.
Proof.
  intros Hml [Hc Hk Hu Hd] Hn r.
  assert (Hraw : Runtime.raw_mailbox_contents mbox_len r = d).
  { unfold Runtime.raw_mailbox_contents. cbn. rewrite Hml, Hc. by apply take_ge. }
  assert (Hpay : Runtime.payload mbox_len r (Runtime.mkPacket cm n) = take n d).
  { unfold Runtime.payload. by rewrite Hraw. }
  split; [|done]. unfold Runtime.get_from_mbox, Runtime.rt_cmd, Runtime.rt_dlen.
  rewrite (bind_ok _ _ _ _ _ (cmd_read_ok uq st lk us (Z.of_nat n) ld cap ri wi d stt cm dout x)).
  rewrite (bind_ok _ _ _ _ _ (dlen_read_ok uq st lk us (Z.of_nat n) ld cap ri wi d stt cm dout x)).
  rewrite bind_get. fold r. rewrite Hraw, Nat2Z.id.
  rewrite bind_fail_if by (apply Nat.ltb_ge; lia). rewrite bind_get, Hpay.
  assert (Hlen : length (take n d) = n) by (rewrite length_take; lia).
  unfold accepted. rewrite Hlen, Nat.ltb_antisym.
  destruct (4 <=? n)%nat; [|done]. cbn [negb andb]. rewrite bind_fail_if by done.
  unfold fail_if. by destruct (verify_checksum _ _ _).
Qed.

(** * One round of the command loop *)

Section Round.
Context `{HD : Runtime.Handlers D}.

Lemma rt_on_mbox_ok {A} (m : M MailboxRegs A) (s : Runtime.Drivers D) r' a :
  m (Runtime.mbox s) = (Ok a, r') → Runtime.on_mbox m s = (Ok a, Runtime.with_mbox r' (Runtime.rest s) s).
Proof. unfold Runtime.on_mbox. by intros ->. Qed.

Lemma rt_on_mbox_read {A} (m : M MailboxRegs A) (s : Runtime.Drivers D) a :
  m (Runtime.mbox s) = (Ok a, Runtime.mbox s) → Runtime.on_mbox m s = (Ok a, s).
Proof. intros H. rewrite (rt_on_mbox_ok _ _ _ _ H). by destruct s. Qed.

(** A command that goes to the handlers of [execute_command]. *)
Definition ordinary (u cmd : Z) : Prop :=
  u ≠ Runtime.RESERVED_PAUSER ∧ cmd ≠ Runtime.FIRMWARE_LOAD ∧ cmd ≠ Runtime.FIRMWARE_VERIFY ∧
  (Runtime.subsystem_mode && (cmd =? Runtime.EXTERNAL_MAILBOX_CMD)) = false ∧
  cmd ≠ Runtime.PRODUCTION_AUTH_DEBUG_UNLOCK_TOKEN ∧ cmd ≠ Runtime.PRODUCTION_AUTH_DEBUG_UNLOCK_REQ.

(** The response of [len] bytes that is sent for a staged buffer. *)
Definition response_of (len : nat) (resp : list Z) : list Z := sealed 0 (drop 4 (take (Nat.max len 8) resp)).

Section Command.
Context (u cmd : Z) (n cap wi : nat) (d : list Z) (dout : Z) (x : Misc) (ri : nat).
Context (s : Runtime.Drivers D).
Hypothesis Hord : ordinary u cmd.
Hypothesis Hlen : Z.to_nat Runtime.rt_mbox_len = cap.
Hypothesis Hsane : sane cap d.
Hypothesis Hn : (4 ≤ n ≤ cap)%nat.
Hypothesis Hacc : accepted cmd (take n d) = true.
Hypothesis Hmbox : Runtime.mbox s = mk ExecUc 1 (SocUser u) (Z.of_nat n) (Z.of_nat n) cap ri wi d 0 cmd dout x.

Lemma handle_command_run :
  Runtime.handle_command s = Runtime.execute_command cmd (take n d) s.
Proof.
  destruct Hord as (Hu & Hfl & Hfv & Hext & _).
  assert (Hcmd : Runtime.rt_cmd (Runtime.mbox s) = (Ok cmd, Runtime.mbox s)).
  { rewrite Hmbox. apply (cmd_read_ok uq). }
  unfold Runtime.handle_command.
  assert (Hid : Runtime.rt_id (Runtime.mbox s) = (Ok u, Runtime.mbox s)) by (rewrite Hmbox; apply (user_read_ok uq)).
  rewrite (bind_ok _ _ _ _ _ (rt_on_mbox_read _ _ _ Hid)). rewrite bind_fail_if by (by apply Z.eqb_neq).
  rewrite (bind_ok _ _ _ _ _ (rt_on_mbox_read _ _ _ Hcmd)). rewrite (proj2 (Z.eqb_neq _ _) Hfl).
  rewrite (bind_ok _ _ _ _ _ (rt_on_mbox_read _ _ _ Hcmd)).
  unfold Runtime.cfi_assert_ne. rewrite (proj2 (Z.eqb_neq _ _) Hfl), bind_mret.
  rewrite (bind_ok _ _ _ _ _ (rt_on_mbox_read _ _ _ Hcmd)). rewrite (proj2 (Z.eqb_neq _ _) Hfv).
  rewrite (bind_ok _ _ _ _ _ (rt_on_mbox_read _ _ _ Hcmd)).
  rewrite (proj2 (Z.eqb_neq _ _) Hfv), bind_mret.
  destruct (get_from_mbox_run Runtime.rt_mbox_len n ExecUc 1 (SocUser u) (Z.of_nat n) cap ri wi d 0 cmd dout x Hlen Hsane ltac:(lia))
    as [Hg Hp]. rewrite <- Hmbox in Hg, Hp. rewrite (proj2 (Nat.leb_le _ _)), Hacc in Hg by lia.
  rewrite (bind_ok _ _ _ _ _ (rt_on_mbox_read _ _ _ Hg)). rewrite bind_get, Hp. cbn [Runtime.p_cmd].
  by rewrite Hext.
Qed.

Lemma execute_command_ok len resp rest' :
  Runtime.execute cmd (take n d) (replicate Runtime.MAX_RESP_SIZE 0) (Runtime.rest s) = (Ok (len, resp), rest') →
  length resp = Runtime.MAX_RESP_SIZE → is_bytes resp → (Nat.max len 8 ≤ Runtime.MAX_RESP_SIZE ≤ cap)%nat →
  let m := response_of len resp in
  Runtime.execute_command cmd (take n d) s =
  (Ok DataReady, Runtime.with_mbox (mk ExecUc 1 (SocUser u) (Z.of_nat (length m)) (Z.of_nat (length m)) cap 0
     (4 * length (payload_words m)) (loaded d m) 0 cmd dout x) rest' s).
Proof.
  intros Hex Hrl Hrb Hmax m. pose proof Hsane as [Hc Hk Hu Hd]. unfold Runtime.execute_command.
  assert (Hor : Runtime.on_rest (Runtime.execute cmd (take n d) (replicate Runtime.MAX_RESP_SIZE 0)) s =
    (Ok (len, resp), Runtime.with_mbox (Runtime.mbox s) rest' s)) by (unfold Runtime.on_rest; by rewrite Hex).
  rewrite (bind_ok _ _ _ _ _ Hor). rewrite bind_fail_if by (apply Nat.ltb_ge; lia).
  assert (Hlm : length m = Nat.max len 8).
  { unfold m, response_of. rewrite length_sealed, length_drop, length_take. lia. }
  assert (Hbm : is_bytes m) by (apply sealed_bytes, Forall_drop, Forall_take, Hrb).
  assert (Hpc : populate_checksum (E := CaliptraError) (take (Nat.max len 8) resp) = Ok m).
  { unfold populate_checksum, err_if_panic. rewrite length_take. rewrite (proj2 (Nat.ltb_ge _ _)) by lia. done. }
  rewrite (bind_lift_ok _ _ _ _ Hpc).
  assert (Hw : Runtime.write_response Runtime.rt_mbox_len m (Runtime.mbox s) =
    (Ok tt, mk ExecUc 1 (SocUser u) (Z.of_nat (length m)) (Z.of_nat (length m)) cap 0 (4 * length (payload_words m))
       (loaded d m) 0 cmd dout x)).
  { rewrite Hmbox. unfold Runtime.write_response, Runtime.set_dlen, Runtime.copy_bytes_to_mbox, Runtime.copy_words_to_mbox.
    rewrite wrap_small by (unfold in_u; lia).
    erewrite bind_ok; [|rewrite bind_fail_if by (apply Z.ltb_ge; lia);
      rewrite dlen_write_again by (by left); by rewrite clip_small by lia].
    rewrite copy_suffix_run. apply write_payload_ok; try done; [right; by left|]. apply pad4_fits; [lia|done]. }
  rewrite (bind_ok _ _ _ _ _ (rt_on_mbox_ok _ (Runtime.with_mbox (Runtime.mbox s) rest' s) _ _ Hw)).
  done.
Qed.

Lemma execute_command_err e rest' :
  Runtime.execute cmd (take n d) (replicate Runtime.MAX_RESP_SIZE 0) (Runtime.rest s) = (Err e, rest') →
  Runtime.execute_command cmd (take n d) s = (Err e, Runtime.with_mbox (Runtime.mbox s) rest' s).
Proof. intros Hex. unfold Runtime.execute_command, mbind, M_bind, Runtime.on_rest. by rewrite Hex. Qed.

End Command.

(** The state in which the command is handled. *)
Definition prepared (s : Runtime.Drivers D) : Runtime.Drivers D :=
  Runtime.clear_fw_error_non_fatal (Runtime.set_wdt true (Runtime.clear_mbox_notif_status (Runtime.set_flow false true s))).

Lemma prepared_same s : Runtime.mbox (prepared s) = Runtime.mbox s ∧ Runtime.rest (prepared s) = Runtime.rest s
  ∧ Runtime.fw_error_non_fatal (prepared s) = 0.
Proof.
  unfold prepared, Runtime.clear_fw_error_non_fatal.
  match goal with |- context [Runtime.fw_error_non_fatal ?t =? 0] => destruct (Z.eqb_spec (Runtime.fw_error_non_fatal t) 0) end; done.
Qed.

Lemma command_round_run u cmd dl ld cap ri wi d stt dout x (s : Runtime.Drivers D) :
  Runtime.notif_cmd_avail s = true → Runtime.mbox s = mk ExecUc 1 (SocUser u) dl ld cap ri wi d stt cmd dout x →
  Runtime.command_round [] s =
  (command_result ← catch Runtime.handle_command; Runtime.finish_command [] cmd command_result) (prepared s).
Proof.
  intros Hnot Hm. unfold Runtime.command_round. rewrite bind_get, Hnot, !bind_modify.
  assert (Hready : Runtime.is_cmd_ready (Runtime.mbox s) = (Ok true, Runtime.mbox s)).
  { rewrite Hm. unfold Runtime.is_cmd_ready.
    rewrite (bind_ok _ _ _ _ _ (fsm_read_ok uq ExecUc 1 (SocUser u) dl ld cap ri wi d stt cmd dout x)). done. }
  rewrite (bind_ok _ _ _ _ _ (rt_on_mbox_read _ (Runtime.clear_mbox_notif_status (Runtime.set_flow false true s)) _ Hready)).
  cbn [negb]. rewrite !bind_modify. fold (prepared s).
  assert (Hcmd : Runtime.rt_cmd (Runtime.mbox (prepared s)) = (Ok cmd, Runtime.mbox (prepared s))).
  { rewrite (proj1 (prepared_same s)), Hm. apply (cmd_read_ok uq). }
  by rewrite (bind_ok _ _ _ _ _ (rt_on_mbox_read _ _ _ Hcmd)).
Qed.

(** The outcome of a command is published through the status register. *)
Lemma finish_command_run u cmd (out : res MboxStatusE) st dl ld cap ri wi d stt dout x (s : Runtime.Drivers D) :
  ordinary u cmd → (out = Ok DataReady ∧ st = DataReady ∨ ∃ e, out = Err e ∧ st = CmdFailure) →
  Runtime.mbox s = mk ExecUc 1 (SocUser u) dl ld cap ri wi d stt cmd dout x →
  ∃ s', Runtime.finish_command [] cmd out s = (Ok tt, s') ∧
    Runtime.mbox s' = mk ExecSoc 1 (SocUser u) dl ld cap ri wi d (MboxStatusE_into st) cmd dout x ∧
    Runtime.rest s' = Runtime.rest s ∧
    Runtime.fw_error_non_fatal s' = match out with Err e => e | _ => Runtime.fw_error_non_fatal s end.
Proof.
  intros (_ & _ & _ & _ & Ht & Hq) Hout Hm. unfold Runtime.finish_command.
  unfold Runtime.debug_unlock_mailbox_access_complete. rewrite (proj2 (Z.eqb_neq _ _) Ht), (proj2 (Z.eqb_neq _ _) Hq).
  cbn [orb andb]. rewrite bind_mret.
  assert (Hset : ∀ t : Runtime.Drivers D, Runtime.mbox t = Runtime.mbox s → Runtime.on_mbox (Runtime.set_status st) t =
    (Ok tt, Runtime.with_mbox (mk ExecSoc 1 (SocUser u) dl ld cap ri wi d (MboxStatusE_into st) cmd dout x) (Runtime.rest t) t)).
  { intros t Ht'. apply rt_on_mbox_ok. rewrite Ht', Hm. unfold Runtime.set_status.
    rewrite status_write_ok by (first [by left | destruct Hout as [[_ ->]|[e [_ ->]]]; auto]). done. }
  destruct Hout as [[-> ->]|(e & -> & ->)].
  - rewrite (bind_ok _ _ _ _ _ (Hset s eq_refl)). by eexists.
  - unfold mbind at 1, M_bind at 1. rewrite bind_modify.
    rewrite (Hset (Runtime.report_fw_error_non_fatal e s) eq_refl). by eexists.
Qed.

Lemma round_ok u cmd n cap wi d dout x ri (s : Runtime.Drivers D) len resp rest' :
  ordinary u cmd → Z.to_nat Runtime.rt_mbox_len = cap → sane cap d → (4 ≤ n ≤ cap)%nat →
  accepted cmd (take n d) = true → Runtime.notif_cmd_avail s = true →
  Runtime.mbox s = mk ExecUc 1 (SocUser u) (Z.of_nat n) (Z.of_nat n) cap ri wi d 0 cmd dout x →
  Runtime.execute cmd (take n d) (replicate Runtime.MAX_RESP_SIZE 0) (Runtime.rest s) = (Ok (len, resp), rest') →
  length resp = Runtime.MAX_RESP_SIZE → is_bytes resp → (Nat.max len 8 ≤ Runtime.MAX_RESP_SIZE ≤ cap)%nat →
  let m := response_of len resp in
  ∃ s', Runtime.command_round [] s = (Ok tt, s') ∧
    Runtime.mbox s' = mk ExecSoc 1 (SocUser u) (Z.of_nat (length m)) (Z.of_nat (length m)) cap 0
      (4 * length (payload_words m)) (loaded d m) 1 cmd dout x ∧
    Runtime.rest s' = rest' ∧ Runtime.fw_error_non_fatal s' = 0.
Proof.
  intros Hord Hlen Hsane Hn Hacc Hnot Hm Hex Hrl Hrb Hmax m.
  destruct (prepared_same s) as (Hpm & Hpr & Hpe).
  rewrite (command_round_run _ _ _ _ _ _ _ _ _ _ _ _ Hnot Hm).
  rewrite Hm in Hpm. rewrite <- Hpr in Hex.
  assert (Hh : Runtime.handle_command (prepared s) = (Ok DataReady, Runtime.with_mbox (mk ExecUc 1 (SocUser u)
     (Z.of_nat (length m)) (Z.of_nat (length m)) cap 0 (4 * length (payload_words m)) (loaded d m) 0 cmd dout x) rest' (prepared s))).
  { rewrite (handle_command_run u cmd n cap wi d dout x ri) by done. by eapply execute_command_ok. }
  rewrite (bind_ok _ _ _ _ _ (catch_ok _ _ _ _ Hh)).
  destruct (finish_command_run u cmd (Ok DataReady) DataReady (Z.of_nat (length m)) (Z.of_nat (length m)) cap 0
    (4 * length (payload_words m)) (loaded d m) 0 dout x
    (Runtime.with_mbox (mk ExecUc 1 (SocUser u) (Z.of_nat (length m)) (Z.of_nat (length m)) cap 0
       (4 * length (payload_words m)) (loaded d m) 0 cmd dout x) rest' (prepared s))) as (s' & Hf & Hfm & Hfr & Hfe);
    [done|by left|done|].
  exists s'. rewrite Hfm, Hfr, Hfe. done.
Qed.

Lemma round_err u cmd n cap wi d dout x ri (s : Runtime.Drivers D) e rest' :
  ordinary u cmd → Z.to_nat Runtime.rt_mbox_len = cap → sane cap d → (4 ≤ n ≤ cap)%nat →
  accepted cmd (take n d) = true → Runtime.notif_cmd_avail s = true →
  Runtime.mbox s = mk ExecUc 1 (SocUser u) (Z.of_nat n) (Z.of_nat n) cap ri wi d 0 cmd dout x →
  Runtime.execute cmd (take n d) (replicate Runtime.MAX_RESP_SIZE 0) (Runtime.rest s) = (Err e, rest') →
  ∃ s', Runtime.command_round [] s = (Ok tt, s') ∧
    Runtime.mbox s' = mk ExecSoc 1 (SocUser u) (Z.of_nat n) (Z.of_nat n) cap ri wi d 3 cmd dout x ∧
    Runtime.rest s' = rest' ∧ Runtime.fw_error_non_fatal s' = e.
Proof.
  intros Hord Hlen Hsane Hn Hacc Hnot Hm Hex.
  destruct (prepared_same s) as (Hpm & Hpr & Hpe).
  rewrite (command_round_run _ _ _ _ _ _ _ _ _ _ _ _ Hnot Hm).
  rewrite Hm in Hpm. rewrite <- Hpr in Hex.
  assert (Hh : Runtime.handle_command (prepared s) = (Err e, Runtime.with_mbox (Runtime.mbox (prepared s)) rest' (prepared s))).
  { rewrite (handle_command_run u cmd n cap wi d dout x ri) by done. by eapply execute_command_err. }
  rewrite (bind_ok _ _ _ _ _ (catch_err _ _ _ _ Hh)).
  destruct (finish_command_run u cmd (Err e) CmdFailure (Z.of_nat n) (Z.of_nat n) cap ri wi d 0 dout x
    (Runtime.with_mbox (Runtime.mbox (prepared s)) rest' (prepared s))) as (s' & Hf & Hfm & Hfr & Hfe); [done|right; eauto|done|].
  exists s'. rewrite Hfm, Hfr, Hfe. done.
Qed.
End Round.
