(* ===== verification/MailboxTheorems.v ===== *)
(** Theorems about the mailbox: the peripheral on its own, and commands from
    the host through the emulated mailbox to the firmware and back. *)

From stdpp Require Import relations.
From S2P Require Import Prelude Bits Errors Memory Mailbox MailboxDriver MailboxApi MailboxProofs MailboxRuns MailboxServe.
Import Mbox Csr.

(** * The peripheral *)

(** C29. Whatever the microcontroller and the SoC users do to the mailbox, from
    power-on: the state stays well typed (registers are words, the SRAM holds
    bytes and keeps its size, the FIFO's indices stay inside it and the mailbox
    is locked whenever it is not idle), no access panics, reads return words and
    only accesses to unmapped or write-only offsets, or of a wrong size, fault. *)
Theorem mbox_typed subsystem r q size addr val :
  rtc step (new (MailboxRam_new subsystem)) r → wf_user q → is_u32 val →
  wf r ∧
  match (side_of q _ (bus_read size addr) r).1 with Ok v => is_u32 v | Err _ => True | Abort _ => False end ∧
  match (side_of q _ (bus_write size addr val) r).1 with Abort _ => False | _ => True end.
Proof.
  intros Hr Hq Hv. assert (Hw : wf r) by (eapply steps_wf, new_wf; done).
  split; [done|]. split.
  - by destruct (side_good q is_u32 (bus_read size addr) r (bus_read_good _ _ _ (set_request_wf q r Hw) Hq)).
  - destruct (side_good q _ (bus_write size addr val) r (bus_write_good _ _ _ _ (set_request_wf q r Hw) Hv)) as [_ H].
    by destruct (side_of _ _ _ _).1.
Qed.

Lemma mbox_typed_witness :
  wf (new (MailboxRam_new true)).
Proof. apply (mbox_typed true _ Caliptra Word 0 0); [apply rtc_refl | by vm_compute | by vm_compute]. Defined.

(** C28. Mutual exclusion. An agent that reads a free lock gets the mailbox;
    from then on, as long as the mailbox is not released, whatever anybody does
    the mailbox belongs to that agent, and everybody who reads the lock is told
    that it is taken. *)
Theorem mbox_lock_exclusive q r r' r'' :
  wf r → wf_user q → state r = Idle → locked (context r) = 0 → requester r = Caliptra →
  lock_read (E := CaliptraError) (side_of q) r = (Ok false, r') → rtc held_step r' r'' →
  user (context r'') = q ∧ locked (context r'') = 1 ∧
  (∀ q', wf_user q' → ∃ r3, lock_read (E := CaliptraError) (side_of q') r'' = (Ok true, r3) ∧
     user (context r3) = q ∧ state r3 = state r'').
Proof.
  intros Hw Hq Hs Hl Hrq Hlr Hst.
  destruct (explicit_form r Hw Hrq) as (st & lk & us & dl & ld & cap & ri & wi & d & stt & cm & dout & x & ->).
  simpl in Hs, Hl. subst st lk. rewrite lock_read_idle in Hlr. injection Hlr as <-.
  set (r1 := mk _ _ _ _ _ _ _ _ _ _ _ _ _) in Hst.
  assert (Hw1 : wf r1).
  { assert (Hstep : step (mk Idle 0 us dl ld cap ri wi d stt cm dout x) r1).
    { replace r1 with (side_of q _ (bus_read Word 0) (mk Idle 0 us dl ld cap ri wi d stt cm dout x)).2
        by (by destruct q). by apply step_read. }
    by eapply step_wf. }
  assert (Hg : granted r'' q) by (eapply held_steps_user; [done|by split]).
  assert (Hw2 : wf r'') by (eapply steps_wf; [by apply held_steps_steps|done]).
  destruct Hg as [Hni Hu]. split; [done|]. split; [by apply Hw2|].
  intros q' Hq'. destruct (lock_read_held (E := CaliptraError) q' r'' Hw2 Hq' Hni) as (r3 & Hr3 & Hc & _).
  apply core_eq in Hc as (? & _ & ?). exists r3. split; [done|]. split; congruence.
Qed.

Lemma mbox_lock_exclusive_witness :
  ∃ r', lock_read (E := CaliptraError) (side_of (SocUser 1)) (new (MailboxRam_new true)) = (Ok false, r') ∧ user (context r') = SocUser 1.
Proof.
  set (r' := (lock_read (E := CaliptraError) (side_of (SocUser 1)) (new (MailboxRam_new true))).2).
  exists r'. split; [reflexivity|].
  apply (mbox_lock_exclusive (SocUser 1) (new (MailboxRam_new true)) r' r'); try reflexivity.
  - apply new_wf.
  - by vm_compute.
Defined.

(** ** A lost mailbox *)

Section Wedge.
Context (mbox_len cmd : Z) (data : list Z).
Hypothesis Hbig : mbox_len < Z.of_nat (length data) < 2 ^ 32.

(** The firmware starts a transaction, is refused the length and drops it. *)
Definition oversized_send (r : MailboxRegs) : res unit * MailboxRegs :=
  match Driver.try_start_send_txn r with
  | (Ok (Some st), r1) =>
      let '(out, t) := Driver.send_request mbox_len cmd data (Driver.mkSend st r1) in
      let '(_, t) := Driver.send_drop t in
      (out, Driver.s_mbox t)
  | (Ok None, r1) => (Ok tt, r1)
  | (Err e, r1) => (Err e, r1)
  | (Abort w, r1) => (Abort w, r1)
  end.

Lemma oversized_send_run us dl ld cap ri wi d stt cm dout x :
  oversized_send (mk Idle 0 us dl ld cap ri wi d stt cm dout x) =
  (Err DRIVER_MAILBOX_INVALID_DATA_LEN, mk Idle 1 Caliptra dl ld cap 0 0 d stt cmd dout x).
Proof.
  unfold oversized_send, Driver.try_start_send_txn.
  rewrite (bind_ok _ _ _ _ _ (lock_read_idle uq us dl ld cap ri wi d stt cm dout x)). unfold mret, M_ret.
  assert (Hsr : Driver.send_request mbox_len cmd data
      (Driver.mkSend Driver.OpRdyForCmd (mk RdyForCmd 1 Caliptra dl ld cap 0 0 d stt cm dout x)) =
    (Err DRIVER_MAILBOX_INVALID_DATA_LEN,
     Driver.mkSend Driver.OpRdyForDlen (mk RdyForDlen 1 Caliptra dl ld cap 0 0 d stt cmd dout x))).
  { unfold Driver.send_request, Driver.send_copy_request.
    unfold mbind at 1, M_bind at 1. rewrite (bind_ok _ _ _ _ _ (s_need_ok _ _)).
    assert (Hc : Driver.send_write_cmd cmd
        (Driver.mkSend Driver.OpRdyForCmd (mk RdyForCmd 1 Caliptra dl ld cap 0 0 d stt cm dout x)) =
      (Ok tt, Driver.mkSend Driver.OpRdyForDlen (mk RdyForDlen 1 Caliptra dl ld cap 0 0 d stt cmd dout x))).
    { unfold Driver.send_write_cmd. rewrite (bind_ok _ _ _ _ _ (s_need_ok _ _)).
      by rewrite (bind_ok _ _ _ _ _ (s_lift_ok _ _ _ _ _ (cmd_write_ok uq cmd 1 Caliptra dl ld cap 0 0 d stt cm dout x))). }
    rewrite (bind_ok _ _ _ _ _ Hc). unfold Driver.send_write_dlen. rewrite wrap_small by (unfold in_u; lia).
    unfold mbind at 1, M_bind at 1. rewrite (bind_ok _ _ _ _ _ (s_need_ok _ _)).
    unfold fail_if. rewrite (proj2 (Z.ltb_lt _ _)) by lia. done. }
  rewrite Hsr. unfold Driver.send_drop.
  rewrite (bind_ok _ _ _ _ _ (s_lift_ok _ _ _ _ _ (fsm_read_ok uq RdyForDlen 1 Caliptra dl ld cap 0 0 d stt cmd dout x))).
  cbn [MboxFsmE_try_from fsm_ps unwrap negb bool_decide].
  by rewrite (s_lift_ok _ _ _ _ _ (unlock_write_wedges uq true 1 Caliptra dl ld cap 0 0 d stt cmd dout x)).
Qed.

Lemma wedge_wf us dl ld cap ri wi d stt cm dout x :
  is_u32 cmd → wf (mk Idle 0 us dl ld cap ri wi d stt cm dout x) → wf (mk Idle 1 Caliptra dl ld cap 0 0 d stt cmd dout x).
Proof.
  intros Hc [[[] ? ? ? ? ? ? ?] ? ? ?]. constructor; simpl in *; try done.
  constructor; simpl; auto; [constructor; simpl; auto; exists 0%nat; lia|done].
Qed.
End Wedge.

(** C32. A lost mailbox. When the firmware tries to send more than the mailbox
    holds, the driver reports [DRIVER_MAILBOX_INVALID_DATA_LEN] and releases the
    transaction in the state [RdyForDlen], where the state machine returns to
    [Idle] without clearing the lock. After that no sequence of accesses ever
    brings the mailbox back: it stays idle and locked, everybody who reads the
    lock is told to have acquired it, and the host's commands all fail with
    [UnableToReadMailbox]. *)
Theorem mbox_oversized_send_wedges mbox_len cmd data r r' :
  wf r → requester r = Caliptra → state r = Idle → locked (context r) = 0 → is_u32 cmd →
  mbox_len < Z.of_nat (length data) < 2 ^ 32 → rtc step (oversized_send mbox_len cmd data r).2 r' →
  (oversized_send mbox_len cmd data r).1 = Err DRIVER_MAILBOX_INVALID_DATA_LEN ∧
  state r' = Idle ∧ locked (context r') = 1 ∧
  (∀ q, lock_read (E := CaliptraError) (side_of q) r' = (Ok false, r')) ∧
  (∀ Dev (SM : Host.SocManager Dev) cmd' buf dev,
     Host.start_mailbox_exec cmd' buf (r', dev) = (Err Host.UnableToReadMailbox, (r', dev))).
Proof.
  intros Hw Hrq Hs Hl Hcmd Hbig.
  destruct (explicit_form r Hw Hrq) as (st & lk & us & dl & ld & cap & ri & wi & d & stt & cm & dout & x & ->).
  simpl in Hs, Hl. subst st lk. rewrite oversized_send_run by done. cbn [fst snd]. intros Hsteps.
  destruct (steps_wedged _ _ Hsteps) as [[Hi Hlk] _]; [done|].
  assert (Hrq' : requester r' = Caliptra) by (by eapply steps_requester).
  assert (Hw' : wf r') by (eapply steps_wf; [done|]; by eapply wedge_wf).
  destruct (explicit_form r' Hw' Hrq') as (st' & lk' & us' & dl' & ld' & cap' & ri' & wi' & d' & stt' & cm' & dout' & x' & ->).
  simpl in Hi, Hlk. subst st' lk'.
  split; [done|]. split; [done|]. split; [done|]. split; [intros q; apply lock_read_wedged|].
  intros Dev SM cmd' buf dev. unfold Host.start_mailbox_exec.
  rewrite (bind_ok _ _ _ _ _ (on_mbox_ok _ _ _ _ dev (lock_read_wedged (SocUser Host.pauser) us' dl' ld' cap' ri' wi' d' stt' cm' dout' x'))).
  rewrite bind_fail_if by done.
  by rewrite (bind_ok _ _ _ _ _ (on_mbox_ok _ _ _ _ dev (lock_read_wedged (SocUser Host.pauser) us' dl' ld' cap' ri' wi' d' stt' cm' dout' x'))).
Qed.

Lemma mbox_oversized_send_wedges_witness :
  (oversized_send 4 1 [1; 2; 3; 4; 5] (new (MailboxRam_new true))).1 = Err DRIVER_MAILBOX_INVALID_DATA_LEN.
Proof.
  apply (mbox_oversized_send_wedges 4 1 [1; 2; 3; 4; 5] (new (MailboxRam_new true))
           (oversized_send 4 1 [1; 2; 3; 4; 5] (new (MailboxRam_new true))).2); try reflexivity.
  - apply new_wf.
  - by vm_compute.
  - by vm_compute.
Defined.

(** * Commands *)

(** A mailbox at rest: idle, unlocked and without a status left over. *)
Record at_rest (r : MailboxRegs) : Prop := {
  rest_wf : wf r;
  rest_requester : requester r = Caliptra;
  rest_idle : state r = Idle;
  rest_unlocked : locked (context r) = 0;
  rest_status : status (context r) = 0;
}.

Definition mbox_capacity (r : MailboxRegs) : nat := capacity (fifo (context r)).

Lemma at_rest_form r : at_rest r → ∃ us dl ld cap ri wi d cm dout x,
  r = mk Idle 0 us dl ld cap ri wi d 0 cm dout x ∧ sane cap d.
Proof.
  intros [Hw Hq Hs Hl Ht].
  destruct (explicit_form r Hw Hq) as (st & lk & us & dl & ld & cap & ri & wi & d & stt & cm & dout & x & ->).
  simpl in *. subst. exists us, dl, ld, cap, ri, wi, d, cm, dout, x. split; [done|].
  destruct Hw as [[[] ] ]. by constructor.
Qed.

Lemma new_at_rest subsystem : at_rest (new (MailboxRam_new subsystem)).
Proof. constructor; try reflexivity. apply new_wf. Qed.

(** The release of the mailbox after a command. *)
Definition released (r : MailboxRegs) : Prop :=
  state r = Idle ∧ locked (context r) = 0 ∧ status (context r) = 0 ∧ requester r = Caliptra.

(** C30. The driver's protocol. A request sent by the host is found by the
    firmware's driver with its command code, is received byte for byte, and the
    response the driver sends is what the host's library returns; the mailbox is
    released. This holds for requests and responses of every length up to the
    size of the mailbox, whole words or not. *)
Theorem mbox_driver_roundtrip Dev (SM : Host.SocManager Dev) (dev : Dev) mbox_len cmd req resp buf r :
  at_rest r → is_bytes req → (length req ≤ mbox_capacity r)%nat → (length req ≤ Host.MAILBOX_SIZE_LIMIT)%nat →
  is_bytes resp → (length resp ≤ mbox_capacity r)%nat → Z.of_nat (length resp) ≤ mbox_len → (length resp ≤ length buf)%nat →
  ∃ r1 t2 t3 r4,
    Host.start_mailbox_exec cmd req (r, dev) = (Ok tt, (r1, dev)) ∧
    Driver.try_start_recv_txn r1 = (Ok (Some (Driver.OpExecute, false)), r1) ∧
    Driver.recv_cmd (Driver.mkRecv Driver.OpExecute false r1) = (Ok cmd, Driver.mkRecv Driver.OpExecute false r1) ∧
    Driver.recv_copy_request false (replicate (length req) 0) (Driver.mkRecv Driver.OpExecute false r1) = (Ok req, t2) ∧
    Driver.send_response mbox_len resp t2 = (Ok tt, t3) ∧
    Host.finish_mailbox_exec buf (Driver.r_mbox t3, dev) = (Ok (Some resp), (r4, dev)) ∧ released r4.
Proof.
  intros Hrest Hb Hl Hlim Hrb Hrl Hm Hbuf.
  destruct (at_rest_form r Hrest) as (us & dl & ld & cap & ri & wi & d & cm & dout & x & -> & Hs).
  cbn in Hl, Hrl. pose proof (host_start_ok cmd req us dl ld cap ri wi d 0 cm dout x dev Hs Hb Hl Hlim) as Hstart.
  pose proof (loaded_sane _ _ _ Hs Hb Hl) as Hs1.
  destruct (recv_copy_request_ok (replicate (length req) 0) (length req) ExecUc 1 (SocUser Host.pauser) cap
    (4 * length (payload_words req)) (loaded d req) 0 cmd dout (kicked 1 x)) as (ri' & dout' & Hrecv); [by left|done..|].
  rewrite length_replicate, Nat.min_id, drop_ge, app_nil_r, loaded_prefix in Hrecv by (by rewrite length_replicate).
  pose proof (send_response_ok mbox_len resp 1 (SocUser Host.pauser) (Z.of_nat (length req)) (Z.of_nat (length req)) cap ri'
    (4 * length (payload_words req)) (loaded d req) 0 cmd dout' (kicked 1 x) Hs1 Hrb Hrl Hm) as Hsend.
  pose proof (loaded_sane _ _ _ Hs1 Hrb Hrl) as Hs2.
  destruct (finish_data_ok buf (length resp) cap (4 * length (payload_words resp)) (loaded (loaded d req) resp) cmd dout'
    (kicked 1 x) (mk ExecSoc 1 (SocUser Host.pauser) (Z.of_nat (length resp)) (Z.of_nat (length resp)) cap 0
       (4 * length (payload_words resp)) (loaded (loaded d req) resp) 1 cmd dout' (kicked 1 x), dev) dev Hs2 Hrl Hbuf)
    as (ri2 & dout2 & Hfin).
  { apply (wait_done _ _ _ _ DataReady); [|done]. apply (status_field_read_ok (SocUser Host.pauser) _ _ _ _ _ _ _ _ _ DataReady). done. }
  rewrite loaded_prefix in Hfin.
  eexists _, _, _, _. split; [exact Hstart|]. split.
  { unfold Driver.try_start_recv_txn. rewrite (bind_ok _ _ _ _ _ (fsm_read_ok uq ExecUc _ _ _ _ _ _ _ _ _ _ _ _)). done. }
  split; [apply r_lift_ok, (cmd_read_ok uq)|]. split; [exact Hrecv|]. split; [exact Hsend|]. split; [exact Hfin|]. done.
Qed.

(** A host that waits for a device that has already answered. *)
Definition still_soc : Host.SocManager unit := {|
  Host.pauser := 1;
  Host.MAX_WAIT_CYCLES := 400000;
  Host.MAILBOX_SIZE_LIMIT := Host.MAILBOX_SIZE;
  Host.delay := λ s, s;
  Host.cptra_fw_error_fatal := λ _, 0;
  Host.cptra_fw_error_non_fatal := λ _, 0;
|}.

Lemma mbox_driver_roundtrip_witness :
  ∃ r1, Host.start_mailbox_exec (SM := still_soc) 0x55 [1; 2; 3; 4; 5] (new (MailboxRam_new true), tt) = (Ok tt, (r1, tt)).
Proof.
  destruct (mbox_driver_roundtrip unit still_soc tt 16384 0x55 [1; 2; 3; 4; 5] [9; 8; 7] (replicate 4 0)
    (new (MailboxRam_new true))) as (r1 & t2 & t3 & r4 & H & _).
  - apply new_at_rest.
  - apply (bool_decide_eq_true_1 _). reflexivity.
  - apply Nat.leb_le. vm_compute. reflexivity.
  - apply Nat.leb_le. vm_compute. reflexivity.
  - apply (bool_decide_eq_true_1 _). reflexivity.
  - apply Nat.leb_le. vm_compute. reflexivity.
  - apply Z.leb_le. reflexivity.
  - apply Nat.leb_le. reflexivity.
  - exists r1. exact H.
Defined.

(** ** The host and the runtime firmware *)

Section Device.
Context `{HD : Runtime.Handlers D}.

(** The device while the host waits: for some cycles nothing happens to the
    mailbox, then the notification is raised (soc_reg.rs, [poll]) and the
    firmware's loop runs a round. *)
Definition device : Type := nat * Runtime.Drivers D.

Definition raise_notif (b : bool) (r : MailboxRegs) (s : Runtime.Drivers D) : Runtime.Drivers D :=
  Runtime.mkDrivers r (Runtime.rest s) (Runtime.notif_cmd_avail s || b) (Runtime.fw_error_non_fatal s)
    (Runtime.cleared_non_fatal_fw_error s) (Runtime.mailbox_flow_done s) (Runtime.runtime_cmd_active s)
    (Runtime.wdt_running s) (Runtime.ss_dbg_unlock_in_progress s) (Runtime.tap_mailbox_available s).

Definition run_device (w : MailboxRegs * device) : MailboxRegs * device :=
  let '(r, (k, s)) := w in
  match k with
  | S k' => (r, (k', s))
  | O =>
      let '(b, r) := get_notif_irq r in
      let '(_, s) := Runtime.command_round [] (raise_notif b r (Runtime.mark_idle s)) in
      (Runtime.mbox s, (O, s))
  end.

Definition runtime_soc (u max : Z) (lim : nat) : Host.SocManager device := {|
  Host.pauser := u;
  Host.MAX_WAIT_CYCLES := max;
  Host.MAILBOX_SIZE_LIMIT := lim;
  Host.delay := run_device;
  Host.cptra_fw_error_fatal := λ _, 0;
  Host.cptra_fw_error_non_fatal := λ '(_, s), Runtime.fw_error_non_fatal s;
|}.

Lemma run_device_idle k s r i : (i ≤ k)%nat → Nat.iter i run_device (r, (k, s)) = (r, ((k - i)%nat, s)).
Proof.
  induction i as [|i IH]; intros Hi; [by rewrite Nat.sub_0_r|]. rewrite Nat.iter_succ, IH by lia.
  replace (k - i)%nat with (S (k - S i)) by lia. done.
Qed.

(** The misc registers after the notification was taken. *)
Definition notified (x : Misc) : Misc := mkMisc (m_unlock x) 1 (m_tap x) false (m_polls x + 1).

(** The wait of the host until the firmware has published its answer. *)
Lemma wait_for_device u max lim k s dl ld cap ri wi d cmd dout x r' s' st' dl' ld' ri' wi' d' x' (st : MboxStatusE) :
  Z.of_nat k + 1 < max < 2 ^ 32 → st ≠ CmdBusy → (∀ n, st ≠ Reserved n) →
  Runtime.command_round [] (raise_notif true (mk ExecUc 1 (SocUser u) dl ld cap ri wi d 0 cmd dout (notified x))
    (Runtime.mark_idle s)) = (r', s') →
  Runtime.mbox s' = mk st' 1 (SocUser u) dl' ld' cap ri' wi' d' (MboxStatusE_into st) cmd dout x' →
  Host.wait_not_busy (SM := runtime_soc u max lim) (Host.wait_fuel (SM := runtime_soc u max lim)) max
    (mk ExecUc 1 (SocUser u) dl ld cap ri wi d 0 cmd dout (kicked 1 x), (k, s)) = (Ok tt, (Runtime.mbox s', (0%nat, s'))).
Proof.
  intros Hk Hst Hres Hround Hm. set (SM := runtime_soc u max lim).
  set (r1 := mk ExecUc 1 (SocUser u) dl ld cap ri wi d 0 cmd dout (kicked 1 x)).
  assert (Hiter : Nat.iter (S k) run_device (r1, (k, s)) = (Runtime.mbox s', (0%nat, s'))).
  { rewrite Nat.iter_succ, run_device_idle, Nat.sub_diag by lia. unfold run_device. cbn [get_notif_irq irq r1 mk m_irq kicked].
    change (mkRegs _ _ _ _ _ _ _) with (mk ExecUc 1 (SocUser u) dl ld cap ri wi d 0 cmd dout (notified x)).
    by rewrite Hround. }
  unfold Host.wait_fuel. cbn [Host.MAX_WAIT_CYCLES runtime_soc SM].
  rewrite (wrap_small 32 (max - 1)) by ulia.
  replace (S (S (Z.to_nat (max - 1)))) with (S k + (S (Z.to_nat (max - 1) - k)))%nat by lia.
  rewrite (wait_steps (SM := SM) (S k)); [|intros i Hi; change (@Host.delay _ SM) with run_device; rewrite (run_device_idle k s r1 i) by lia|lia].
  - change (@Host.delay _ SM) with run_device. rewrite Hiter, Hm. apply (wait_done (SM := SM) _ _ _ _ st); [|done].
    by apply (status_field_read_ok (SocUser u)).
  - apply (status_field_read_ok (SocUser u) _ _ _ _ _ _ _ _ _ CmdBusy). done.
Qed.
(** What the host and the firmware must agree on for a command to get
    through. *)
Record command_ok (u max : Z) (lim k : nat) (id : Z) (req : list Z) (r : MailboxRegs) : Prop := {
  co_rest : at_rest r;
  co_wait : Z.of_nat k + 1 < max < 2 ^ 32;
  co_ordinary : ordinary u id;
  co_mbox_len : Z.to_nat Runtime.rt_mbox_len = mbox_capacity r;
  co_bytes : is_bytes req;
  co_size : (4 ≤ length req ≤ mbox_capacity r)%nat;
  co_limit : (length req ≤ lim)%nat;
}.

(** The request as it is sent, with its checksum. *)
Definition request (id : Z) (req : list Z) : list Z := sealed id (drop 4 req).

Section Exec.
Context (u max : Z) (lim k : nat) (id : Z) (req : list Z) (r : MailboxRegs) (s : Runtime.Drivers D).
Hypothesis Hco : command_ok u max lim k id req r.
#[local] Instance SM : Host.SocManager device := runtime_soc u max lim.

Lemma length_request : length (request id req) = length req.
Proof. unfold request. rewrite length_sealed, length_drop. pose proof (co_size _ _ _ _ _ _ _ Hco). lia. Qed.

Lemma request_bytes : is_bytes (request id req).
Proof. apply sealed_bytes, Forall_drop, (co_bytes _ _ _ _ _ _ _ Hco). Qed.

(** The request reaches the firmware; it is the host's turn to wait. *)
Lemma request_delivered : ∃ d x wi dout cap,
  Host.start_mailbox_exec id (request id req) (r, (k, s)) =
    (Ok tt, (mk ExecUc 1 (SocUser u) (Z.of_nat (length req)) (Z.of_nat (length req)) cap 0 wi d 0 id dout (kicked 1 x), (k, s))) ∧
  cap = mbox_capacity r ∧ sane cap d ∧ take (length req) d = request id req.
Proof.
  pose proof length_request as Hlr. pose proof request_bytes as Hrb.
  pose proof Hco as [Hrest Hw Hord Hml Hb Hsz Hlim].
  destruct (at_rest_form r Hrest) as (us & dl & ld & cap & ri & wi & d & cm & dout & x & -> & Hs). cbn in Hsz.
  pose proof (host_start_ok id (request id req) us dl ld cap ri wi d 0 cm dout x (k, s) Hs Hrb
    ltac:(rewrite Hlr; lia) ltac:(rewrite Hlr; exact Hlim)) as Hstart.
  rewrite Hlr in Hstart. exists (loaded d (request id req)), x, (4 * length (payload_words (request id req)))%nat, dout, cap.
  split; [exact Hstart|]. split; [done|]. split; [apply loaded_sane; try done; rewrite Hlr; lia|].
  rewrite <- Hlr. apply loaded_prefix.
Qed.

Lemma exec_served len resp rest' buf :
  Runtime.execute id (request id req) (replicate Runtime.MAX_RESP_SIZE 0) (Runtime.rest s) = (Ok (len, resp), rest') →
  length resp = Runtime.MAX_RESP_SIZE → is_bytes resp → (Nat.max len 8 ≤ Runtime.MAX_RESP_SIZE ≤ mbox_capacity r)%nat →
  (Nat.max len 8 ≤ length buf)%nat →
  ∃ r' s', Host.mailbox_exec id (request id req) buf (r, (k, s)) = (Ok (Some (response_of len resp)), (r', (0%nat, s')))
    ∧ released r' ∧ Runtime.rest s' = rest'.
Proof.
  intros Hex Hrl Hrb Hmax Hbuf. destruct request_delivered as (d & x & wi & dout & cap & Hstart & Hcap & Hs & Hreq).
  rewrite <- Hcap in Hmax. pose proof Hco as [Hrest Hw Hord Hml Hb Hsz Hlim]. rewrite <- Hcap in Hml, Hsz.
  destruct (round_ok u id (length req) cap wi d dout (notified x) 0
    (raise_notif true (mk ExecUc 1 (SocUser u) (Z.of_nat (length req)) (Z.of_nat (length req)) cap 0 wi d 0 id dout (notified x))
       (Runtime.mark_idle s)) len resp rest') as (s' & Hround & Hm & Hrest' & Hfe); try done.
  { rewrite Hreq. apply sealed_accepted. }
  { apply orb_true_r. }
  { by rewrite Hreq. }
  set (m := response_of len resp) in *.
  assert (Hlm : length m = Nat.max len 8) by (unfold m, response_of; rewrite length_sealed, length_drop, length_take; lia).
  assert (Hbm : is_bytes m) by (apply sealed_bytes, Forall_drop, Forall_take, Hrb).
  destruct (finish_data_ok buf (length m) cap (4 * length (payload_words m)) (loaded d m) id dout (notified x)
    (mk ExecUc 1 (SocUser u) (Z.of_nat (length req)) (Z.of_nat (length req)) cap 0 wi d 0 id dout (kicked 1 x), (k, s)) (0%nat, s'))
    as (ri' & dout' & Hfin); [apply loaded_sane; try done; lia|lia|lia| |].
  { change Host.MAX_WAIT_CYCLES with max.
    etransitivity; [eapply (wait_for_device u max lim k s _ _ _ _ _ _ _ _ x _ s' _ _ _ _ _ _ _ DataReady); try done; exact Hm|].
    by rewrite Hm. }
  rewrite loaded_prefix in Hfin.
  unfold Host.mailbox_exec. rewrite (bind_ok _ _ _ _ _ Hstart), Hfin. by eexists _, s'.
Qed.

Lemma exec_failed e rest' buf :
  Runtime.execute id (request id req) (replicate Runtime.MAX_RESP_SIZE 0) (Runtime.rest s) = (Err e, rest') →
  ∃ r' s', Host.mailbox_exec id (request id req) buf (r, (k, s)) = (Err (Host.MailboxCmdFailed e), (r', (0%nat, s')))
    ∧ released r' ∧ Runtime.rest s' = rest'.
Proof.
  intros Hex. destruct request_delivered as (d & x & wi & dout & cap & Hstart & Hcap & Hs & Hreq).
  pose proof Hco as [Hrest Hw Hord Hml Hb Hsz Hlim]. rewrite <- Hcap in Hml, Hsz.
  destruct (round_err u id (length req) cap wi d dout (notified x) 0
    (raise_notif true (mk ExecUc 1 (SocUser u) (Z.of_nat (length req)) (Z.of_nat (length req)) cap 0 wi d 0 id dout (notified x))
       (Runtime.mark_idle s)) e rest') as (s' & Hround & Hm & Hrest' & Hfe); try done.
  { rewrite Hreq. apply sealed_accepted. }
  { apply orb_true_r. }
  { by rewrite Hreq. }
  pose proof (finish_failure buf (Z.of_nat (length req)) (Z.of_nat (length req)) cap 0 wi d id dout (notified x)
    (mk ExecUc 1 (SocUser u) (Z.of_nat (length req)) (Z.of_nat (length req)) cap 0 wi d 0 id dout (kicked 1 x), (k, s)) (0%nat, s'))
    as Hfin.
  cbn [Host.cptra_fw_error_non_fatal Host.cptra_fw_error_fatal SM runtime_soc] in Hfin. rewrite Hfe in Hfin.
  unfold Host.mailbox_exec. rewrite (bind_ok _ _ _ _ _ Hstart). rewrite Hfin.
  - by eexists _, s'.
  - change Host.MAX_WAIT_CYCLES with max.
    etransitivity; [eapply (wait_for_device u max lim k s _ _ _ _ _ _ _ _ x _ s' _ _ _ _ _ _ _ CmdFailure); try done; exact Hm|].
    by rewrite Hm.
Qed.
End Exec.
End Device.

(** C12. Commands are served. Let the mailbox be at rest, the device answer
    within the host's waiting time and the handler of the command succeed. Then
    the typed request of the host's library returns the handler's response: the
    handler was given the request with the checksum the host computed, the
    response is the handler's, with its checksum, padded with zeros to the size
    of the response type, and the mailbox is released. *)
Theorem mbox_command_served D (HD : Runtime.Handlers D) u max lim k id req r (s : Runtime.Drivers D) len resp rest' resp_size resp_min buf :
  command_ok u max lim k id req r →
  Runtime.execute id (request id req) (replicate Runtime.MAX_RESP_SIZE 0) (Runtime.rest s) = (Ok (len, resp), rest') →
  length resp = Runtime.MAX_RESP_SIZE → is_bytes resp → (Nat.max len 8 ≤ Runtime.MAX_RESP_SIZE ≤ mbox_capacity r)%nat →
  (8 ≤ resp_min ≤ Nat.max len 8)%nat → (Nat.max len 8 ≤ resp_size)%nat → (Nat.max len 8 ≤ length buf)%nat →
  from_le (slice resp 4 8) = Host.FIPS_STATUS_APPROVED
    ∨ from_le (slice resp 4 8) = Host.FIPS_STATUS_NOT_APPROVED_USER_SUPPLIED_DIGEST →
  ∃ r' s', Host.mailbox_exec_req (SM := runtime_soc u max lim) id req resp_size resp_min buf (r, (k, s)) =
    (Ok (response_of len resp ++ replicate (resp_size - Nat.max len 8) 0), (r', (0%nat, s')))
    ∧ released r' ∧ Runtime.rest s' = rest'.
Proof.
  intros Hco Hex Hrl Hrb Hmax Hmin Hsz Hbuf Hfips.
  destruct (exec_served u max lim k id req r s Hco len resp rest' buf Hex Hrl Hrb Hmax Hbuf) as (r' & s' & Hexec & Hrel & Hrest).
  pose proof (co_size _ _ _ _ _ _ _ Hco) as Hreq. exists r', s'. split; [|done].
  assert (Hlm : length (response_of len resp) = Nat.max len 8).
  { unfold response_of. rewrite length_sealed, length_drop, length_take. lia. }
  unfold Host.mailbox_exec_req, Host.size_of_MailboxReqHeader, Host.size_of_MailboxRespHeader.
  rewrite !bind_fail_if by (apply Nat.ltb_ge; lia). rewrite (bind_ok _ _ _ _ _ Hexec), Hlm.
  rewrite bind_fail_if by (apply orb_false_iff; split; apply Nat.ltb_ge; lia).
  rewrite bind_fail_if by (apply Nat.ltb_ge; lia).
  assert (Hslice : slice (response_of len resp) 0 4 = take 4 (response_of len resp)) by done.
  destruct (sealed_header 0 (drop 4 (take (Nat.max len 8) resp))) as [Hh Hd]. fold (response_of len resp) in Hh, Hd.
  rewrite Hslice, Hh, Hd, bind_fail_if by (by rewrite Z.eqb_refl).
  assert (Hfs : slice (response_of len resp) 4 8 = slice resp 4 8).
  { unfold slice. rewrite Hd, skipn_firstn_comm, take_take. f_equal. lia. }
  rewrite Hfs. rewrite bind_fail_if by (destruct Hfips as [-> | ->]; done). done.
Qed.

(** Failures are reported. When the handler fails with a code, the host
    gets [MailboxCmdFailed] with that code, and the mailbox is released. *)
Theorem mbox_command_failed D (HD : Runtime.Handlers D) u max lim k id req r (s : Runtime.Drivers D) e rest' resp_size resp_min buf :
  command_ok u max lim k id req r →
  Runtime.execute id (request id req) (replicate Runtime.MAX_RESP_SIZE 0) (Runtime.rest s) = (Err e, rest') →
  (8 ≤ resp_min)%nat → (8 ≤ resp_size)%nat →
  ∃ r' s', Host.mailbox_exec_req (SM := runtime_soc u max lim) id req resp_size resp_min buf (r, (k, s)) =
    (Err (Host.MailboxCmdFailed e), (r', (0%nat, s')))
    ∧ released r' ∧ Runtime.rest s' = rest'.
Proof.
  intros Hco Hex Hmin Hsz.
  destruct (exec_failed u max lim k id req r s Hco e rest' buf Hex) as (r' & s' & Hexec & Hrel & Hrest).
  pose proof (co_size _ _ _ _ _ _ _ Hco) as Hreq. exists r', s'. split; [|done].
  unfold Host.mailbox_exec_req, Host.size_of_MailboxReqHeader, Host.size_of_MailboxRespHeader.
  rewrite !bind_fail_if by (apply Nat.ltb_ge; lia).
  exact (bind_err _ _ _ _ _ Hexec).
Qed.

(** The host never waits for ever. Whatever the device does to the mailbox
    while the host polls it, provided the status register stays readable, the
    wait loop ends after at most [MAX_WAIT_CYCLES] delays: the command is no
    longer busy, or all of the delays were used up and the call fails with
    [MailboxTimeout]. *)
Theorem mbox_wait_terminates Dev (SM : Host.SocManager Dev) s buf :
  (∀ n, readable (Nat.iter n Host.delay s)) → 1 ≤ Host.MAX_WAIT_CYCLES < 2 ^ 32 →
  ∃ n, Z.of_nat n ≤ Host.MAX_WAIT_CYCLES ∧
    (Host.wait_not_busy Host.wait_fuel Host.MAX_WAIT_CYCLES s = (Ok tt, Nat.iter n Host.delay s)
     ∨ Z.of_nat n = Host.MAX_WAIT_CYCLES ∧
       Host.finish_mailbox_exec buf s = (Err Host.MailboxTimeout, Nat.iter n Host.delay s)).
Proof.
  intros Hr Hm. destruct (wait_bounded Host.wait_fuel Host.MAX_WAIT_CYCLES s Hr) as (n & Hn & Ho); [|done|].
  { unfold Host.wait_fuel. rewrite wrap_small by ulia. lia. }
  exists n. split; [done|]. destruct Ho as [?|[? Hw]]; [by left|right]. split; [done|].
  unfold Host.finish_mailbox_exec, mbind, M_bind. by rewrite Hw.
Qed.

Lemma mbox_wait_terminates_witness :
  ∃ n, Z.of_nat n ≤ 400000.
Proof.
  destruct (mbox_wait_terminates unit still_soc (new (MailboxRam_new true), tt) []) as (n & Hn & _).
  - intros n. exists CmdBusy. replace (Nat.iter n _ _) with (new (MailboxRam_new true), tt); [reflexivity|].
    induction n as [|n IH]; [reflexivity|]. exact IH.
  - vm_compute. split; [discriminate|reflexivity].
  - exists n. exact Hn.
Defined.

(** A firmware with two commands: 1 answers with the first bytes of the request
    after its header, the others fail. *)
Definition toy_handlers : Runtime.Handlers nat := {|
  Runtime.subsystem_mode := true;
  Runtime.rt_mbox_len := 16384;
  Runtime.MAX_RESP_SIZE := 16;
  Runtime.handle_impactless_update := mret tt;
  Runtime.firmware_verify := mret CmdComplete;
  Runtime.handle_external := λ _, fail RUNTIME_INTERNAL;
  Runtime.execute := λ id bytes resp,
    if id =? 1 then n ← get (λ n : nat, n); modify S;; mret (11%nat, replicate 8 0 ++ take 3 (drop 4 bytes) ++ replicate 5 0)
    else fail RUNTIME_INTERNAL;
|}.

Definition toy_drivers : Runtime.Drivers nat :=
  Runtime.mkDrivers (new (MailboxRam_new true)) 0%nat false 0 0 true false false false false.

Lemma toy_command_ok id : id = 1 ∨ id = 2 →
  command_ok (HD := toy_handlers) 1 400000 Host.MAILBOX_SIZE 3 id [0; 0; 0; 0; 7; 8; 9] (new (MailboxRam_new true)).
Proof.
  intros Hid. constructor.
  - apply new_at_rest.
  - vm_compute. done.
  - destruct Hid as [-> | ->]; vm_compute; done.
  - vm_compute. done.
  - apply (bool_decide_eq_true_1 _). reflexivity.
  - split; apply Nat.leb_le; vm_compute; reflexivity.
  - apply Nat.leb_le; vm_compute; reflexivity.
Qed.

Lemma mbox_command_served_witness :
  ∃ r' s', Host.mailbox_exec_req (SM := runtime_soc (HD := toy_handlers) 1 400000 Host.MAILBOX_SIZE) 1 [0; 0; 0; 0; 7; 8; 9] 12 8
    (replicate 20 0) (new (MailboxRam_new true), (3%nat, toy_drivers)) =
  (Ok [232; 255; 255; 255; 0; 0; 0; 0; 7; 8; 9; 0], (r', (0%nat, s'))).
Proof.
  destruct (mbox_command_served nat toy_handlers 1 400000 Host.MAILBOX_SIZE 3 1 [0; 0; 0; 0; 7; 8; 9] (new (MailboxRam_new true))
    toy_drivers 11 (replicate 8 0 ++ [7; 8; 9] ++ replicate 5 0) 1%nat 12 8 (replicate 20 0)) as (r' & s' & H & _).
  - apply toy_command_ok. by left.
  - reflexivity.
  - reflexivity.
  - apply (bool_decide_eq_true_1 _). reflexivity.
  - split; apply Nat.leb_le; vm_compute; reflexivity.
  - split; apply Nat.leb_le; vm_compute; reflexivity.
  - apply Nat.leb_le; vm_compute; reflexivity.
  - apply Nat.leb_le; vm_compute; reflexivity.
  - by left.
  - exists r', s'. exact H.
Defined.

Lemma mbox_command_failed_witness :
  ∃ r' s', Host.mailbox_exec_req (SM := runtime_soc (HD := toy_handlers) 1 400000 Host.MAILBOX_SIZE) 2 [0; 0; 0; 0; 7; 8; 9] 12 8
    (replicate 20 0) (new (MailboxRam_new true), (3%nat, toy_drivers)) =
  (Err (Host.MailboxCmdFailed RUNTIME_INTERNAL), (r', (0%nat, s'))).
Proof.
  destruct (mbox_command_failed nat toy_handlers 1 400000 Host.MAILBOX_SIZE 3 2 [0; 0; 0; 0; 7; 8; 9] (new (MailboxRam_new true))
    toy_drivers RUNTIME_INTERNAL 0%nat 12 8 (replicate 20 0)) as (r' & s' & H & _).
  - apply toy_command_ok. by right.
  - reflexivity.
  - apply Nat.leb_le; vm_compute; reflexivity.
  - apply Nat.leb_le; vm_compute; reflexivity.
  - exists r', s'. exact H.
Defined.

(** C31. Corrupted requests are refused. If the runtime firmware accepts the
    packet in the mailbox, then after any change of a single byte of it in the
    SRAM, in the checksum or in the body, it refuses the packet with
    [RUNTIME_INVALID_CHECKSUM]. *)
Theorem mbox_corruption_detected mbox_len r p i b b' :
  wf r → requester r = Caliptra → Z.to_nat mbox_len = mbox_capacity r →
  (Runtime.get_from_mbox mbox_len r).1 = Ok p → (i < Runtime.payload_len p)%nat →
  Ram.data (sram r) !! i = Some b → is_u8 b' → b ≠ b' →
  let r' := set_ram (Ram.mkRam 0 (<[i := b']> (Ram.data (sram r)))) r in
  Runtime.get_from_mbox mbox_len r' = (Err RUNTIME_INVALID_CHECKSUM, r').
Proof.
  intros Hw Hrq Hml Hok Hi Hb Hb' Hne.
  destruct (explicit_form r Hw Hrq) as (st & lk & us & dl & ld & cap & ri & wi & d & stt & cm & dout & x & ->).
  pose proof Hw as [[[Hcap Hc4 H32 Hwi Hri Hld Hd Hec] Hlk Hu Hdl Hst Hcm Hdo Hul] Hh Hx Ht]. cbn in Hml, Hb, Hcap, Hc4, H32, Hd, Hdl.
  assert (Hs : sane cap d) by (by constructor).
  assert (Hs' : sane cap (<[i := b']> d)).
  { constructor; try done; [by rewrite length_insert|by apply Forall_insert]. }
  assert (Hdn : dl = Z.of_nat (Z.to_nat dl)) by (unfold in_u in Hdl; lia).
  set (n := Z.to_nat dl) in *. rewrite Hdn in Hok |- *.
  destruct (decide (n ≤ cap)%nat) as [Hn|Hn].
  2: { exfalso. revert Hok. unfold Runtime.get_from_mbox, Runtime.rt_cmd, Runtime.rt_dlen.
    rewrite (bind_ok _ _ _ _ _ (cmd_read_ok uq st lk us (Z.of_nat n) ld cap ri wi d stt cm dout x)).
    rewrite (bind_ok _ _ _ _ _ (dlen_read_ok uq st lk us (Z.of_nat n) ld cap ri wi d stt cm dout x)). rewrite bind_get.
    unfold fail_if. rewrite (proj2 (Nat.ltb_lt _ _)); [done|]. unfold Runtime.raw_mailbox_contents. cbn.
    rewrite length_take, Nat2Z.id. lia. }
  destruct (get_from_mbox_run mbox_len n st lk us ld cap ri wi d stt cm dout x Hml Hs Hn) as [Hg _].
  rewrite Hg in Hok. cbn [fst] in Hok. destruct (Nat.leb_spec 4 n) as [H4|]; [|done].
  destruct (accepted cm (take n d)) eqn:Ha; [|done]. injection Hok as <-. cbn in Hi.
  destruct (get_from_mbox_run mbox_len n st lk us ld cap ri wi (<[i := b']> d) stt cm dout x Hml Hs' Hn) as [Hg' _].
  assert (Hrej : accepted cm (take n (<[i := b']> d)) = false).
  { rewrite take_insert_lt by lia. eapply corrupted_rejected; try done; [by apply Forall_take|by rewrite lookup_take_lt]. }
  rewrite Hrej, (proj2 (Nat.leb_le _ _)) in Hg' by lia. exact Hg'.
Qed.

(** A small mailbox that holds an accepted packet. *)
Definition toy_packet : MailboxRegs :=
  mk ExecUc 1 (SocUser 1) 7 7 8 0 8 (sealed 1 [7; 8; 9] ++ [0]) 0 1 0 (mkMisc 0 1 0 false 1).

Lemma toy_packet_wf : wf toy_packet.
Proof.
  constructor; try done. constructor; try done; [|by right]. constructor; try done.
  - by exists 2%nat.
  - exists 2%nat. simpl. lia.
  - exists 0%nat. simpl. lia.
  - apply (bool_decide_eq_true_1 _). reflexivity.
Qed.

Lemma mbox_corruption_detected_witness :
  let r' := set_ram (Ram.mkRam 0 (<[5%nat := 0]> (Ram.data (sram toy_packet)))) toy_packet in
  Runtime.get_from_mbox 8 r' = (Err RUNTIME_INVALID_CHECKSUM, r').
Proof.
  apply (mbox_corruption_detected 8 toy_packet (Runtime.mkPacket 1 7) 5 8 0); try reflexivity.
  - exact toy_packet_wf.
  - apply Nat.ltb_lt. reflexivity.
  - by vm_compute.
  - discriminate.
Defined.
