(* ===== verification/RvTypes.v ===== *)
(** The types of the emulated RISC-V processor
    (sw-emulator/lib/types/src/exception.rs, sw-emulator/lib/types/src/macros.rs,
    sw-emulator/lib/cpu/src/types.rs, sw-emulator/lib/cpu/src/xreg_file.rs):
    exceptions, the enumerations with their encodings, the instruction formats
    as bit fields, the fields of the status registers, and the register
    file. *)

From S2P Require Import Prelude Bits Memory.

(** The value of a [w]-bit integer read as a signed one: [x as i32]. *)
Definition sx (w z : Z) : Z :=
  let m := wrap w z in if m <? 2 ^ (w - 1) then m else m - 2 ^ w.

(** A signed field of [n] bits at offset [o]. *)
Definition sget (o n r : Z) : Z := sx n (fget o n r).

(** * Enumerations *)

(** The conversions that [emu_enum!] generates from the table of variants. *)
Section EmuEnum.
Context {A : Type} `{EqDecision A} (variants : list (A * Z)) (invalid : A).

Fixpoint emu_from_list (vs : list (A * Z)) (val : Z) : A :=
  match vs with
  | [] => invalid
  | (name, value) :: vs => if val =? value then name else emu_from_list vs val
  end.
Definition emu_from (val : Z) : A := emu_from_list variants val.

(** The conversion of [Invalid] panics, which is [None] here. *)
Fixpoint emu_into_list (vs : list (A * Z)) (val : A) : option Z :=
  match vs with
  | [] => None
  | (name, value) :: vs => if decide (val = name) then Some value else emu_into_list vs val
  end.
Definition emu_into (val : A) : option Z := emu_into_list variants val.

(** The value of a valid variant. *)
Definition emu_val (val : A) : Z := default 0 (emu_into val).

Lemma emu_from_cases v :
  (emu_from v, v) ∈ variants ∨ (emu_from v = invalid ∧ Forall (λ p, v ≠ p.2) variants).
Proof.
  unfold emu_from. induction variants as [|[a x] vs IH]; simpl; [right; split; [done|constructor]|].
  destruct (Z.eqb_spec v x) as [->|Hne]; [left; left|].
  destruct IH as [IH|[IH1 IH2]]; [left; by right|right]. split; [done|]. by constructor.
Qed.

End EmuEnum.

Module RvExceptionCause.

Inductive t :=
  | InstrAddrMisaligned | InstrAccessFault | IllegalInstr | Breakpoint | LoadAddrMisaligned
  | LoadAccessFault | StoreAddrMisaligned | StoreAccessFault | EnvironmentCallUser
  | EnvironmentCallMachine | IllegalRegister | Invalid.

#[global] Instance t_eq_dec : EqDecision t.
Proof. solve_decision. Defined.

Definition variants : list (t * Z) :=
  [(InstrAddrMisaligned, 0); (InstrAccessFault, 1); (IllegalInstr, 2); (Breakpoint, 3);
   (LoadAddrMisaligned, 4); (LoadAccessFault, 5); (StoreAddrMisaligned, 6);
   (StoreAccessFault, 7); (EnvironmentCallUser, 8); (EnvironmentCallMachine, 11);
   (IllegalRegister, 24)].

Definition into (c : t) : Z := emu_val variants c.

End RvExceptionCause.

Module RvException.

Record t := new { cause : RvExceptionCause.t; info : Z }.

Definition instr_addr_misaligned (addr : Z) := new RvExceptionCause.InstrAddrMisaligned addr.
Definition instr_access_fault (addr : Z) := new RvExceptionCause.InstrAccessFault addr.
Definition illegal_instr (instr : Z) := new RvExceptionCause.IllegalInstr instr.
Definition breakpoint (instr : Z) := new RvExceptionCause.Breakpoint instr.
Definition load_addr_misaligned (addr : Z) := new RvExceptionCause.LoadAddrMisaligned addr.
Definition load_access_fault (addr : Z) := new RvExceptionCause.LoadAccessFault addr.
Definition store_addr_misaligned (addr : Z) := new RvExceptionCause.StoreAddrMisaligned addr.
Definition store_access_fault (addr : Z) := new RvExceptionCause.StoreAccessFault addr.
Definition illegal_register := new RvExceptionCause.IllegalRegister 0.
Definition environment_call_user := new RvExceptionCause.EnvironmentCallUser 0.
Definition environment_call_machine := new RvExceptionCause.EnvironmentCallMachine 0.

#[global] Instance t_eq_dec : EqDecision t.
Proof. solve_decision. Defined.

End RvException.

Module RvInstr32Opcode.
Inductive t :=
  | Load | OpImm | Auipc | Store | Op | Lui | Branch | Jalr | Jal | System | Fence | Invalid.
#[global] Instance t_eq_dec : EqDecision t.
Proof. solve_decision. Defined.
Definition variants : list (t * Z) :=
  [(Load, 0x03); (OpImm, 0x13); (Auipc, 0x17); (Store, 0x23); (Op, 0x33); (Lui, 0x37);
   (Branch, 0x63); (Jalr, 0x67); (Jal, 0x6f); (System, 0x73); (Fence, 0x0f)].
Definition from : Z → t := emu_from variants Invalid.
Definition into : t → Z := emu_val variants.
End RvInstr32Opcode.

Module RvInstr32LoadFunct3.
Inductive t := Lb | Lh | Lw | Lbu | Lhu | Invalid.
#[global] Instance t_eq_dec : EqDecision t.
Proof. solve_decision. Defined.
Definition variants : list (t * Z) := [(Lb, 0); (Lh, 1); (Lw, 2); (Lbu, 4); (Lhu, 5)].
Definition from : Z → t := emu_from variants Invalid.
Definition into : t → Z := emu_val variants.
End RvInstr32LoadFunct3.

Module RvInstr32OpImmFunct3.
Inductive t := Addi | Sli | Slti | Sltiu | Xori | Sri | Ori | Andi | Invalid.
#[global] Instance t_eq_dec : EqDecision t.
Proof. solve_decision. Defined.
Definition variants : list (t * Z) :=
  [(Addi, 0); (Sli, 1); (Slti, 2); (Sltiu, 3); (Xori, 4); (Sri, 5); (Ori, 6); (Andi, 7)].
Definition from : Z → t := emu_from variants Invalid.
Definition into : t → Z := emu_val variants.
End RvInstr32OpImmFunct3.

(** [Slli] is another name of [Srli]. *)
Module RvInstr32OpImmFunct7.
Inductive t := Srli | Srai | Bitmanip | Orc | Bclr | Rev8 | Invalid.
#[global] Instance t_eq_dec : EqDecision t.
Proof. solve_decision. Defined.
Definition variants : list (t * Z) :=
  [(Srli, 0x00); (Srai, 0x20); (Bitmanip, 0x30); (Orc, 0x14); (Bclr, 0x24); (Rev8, 0x34)].
Definition from : Z → t := emu_from variants Invalid.
Definition into : t → Z := emu_val variants.
End RvInstr32OpImmFunct7.

Module RvInstr32StoreFunct3.
Inductive t := Sb | Sh | Sw | Invalid.
#[global] Instance t_eq_dec : EqDecision t.
Proof. solve_decision. Defined.
Definition variants : list (t * Z) := [(Sb, 0); (Sh, 1); (Sw, 2)].
Definition from : Z → t := emu_from variants Invalid.
Definition into : t → Z := emu_val variants.
End RvInstr32StoreFunct3.

Module RvInstr32OpFunct3.
Inductive t := Zero | One | Two | Three | Four | Five | Six | Seven | Invalid.
#[global] Instance t_eq_dec : EqDecision t.
Proof. solve_decision. Defined.
Definition variants : list (t * Z) :=
  [(Zero, 0); (One, 1); (Two, 2); (Three, 3); (Four, 4); (Five, 5); (Six, 6); (Seven, 7)].
Definition from : Z → t := emu_from variants Invalid.
End RvInstr32OpFunct3.

Module RvInstr32BranchFunct3.
Inductive t := Beq | Bne | Blt | Bge | Bltu | Bgeu | Invalid.
#[global] Instance t_eq_dec : EqDecision t.
Proof. solve_decision. Defined.
Definition variants : list (t * Z) :=
  [(Beq, 0); (Bne, 1); (Blt, 4); (Bge, 5); (Bltu, 6); (Bgeu, 7)].
Definition from : Z → t := emu_from variants Invalid.
Definition into : t → Z := emu_val variants.
End RvInstr32BranchFunct3.

Module RvInstr32SystemFunct3.
Inductive t := Priv | Csrrw | Csrrs | Csrrc | Csrrwi | Csrrsi | Csrrci | Invalid.
#[global] Instance t_eq_dec : EqDecision t.
Proof. solve_decision. Defined.
Definition variants : list (t * Z) :=
  [(Priv, 0); (Csrrw, 1); (Csrrs, 2); (Csrrc, 3); (Csrrwi, 5); (Csrrsi, 6); (Csrrci, 7)].
Definition from : Z → t := emu_from variants Invalid.
End RvInstr32SystemFunct3.

Module RvInstr32FenceFunct3.
Inductive t := Fence | FenceI | Invalid.
#[global] Instance t_eq_dec : EqDecision t.
Proof. solve_decision. Defined.
Definition variants : list (t * Z) := [(Fence, 0); (FenceI, 1)].
Definition from : Z → t := emu_from variants Invalid.
End RvInstr32FenceFunct3.

Module RvInstr32OpFunct10.
Inductive t :=
  | Add | Sll | Slt | Sltu | Xor | Srl | Or | And | Mul | Mulh | Mulhsu | Mulhu
  | Div | Divu | Rem | Remu | Sub | Sra | Invalid.
#[global] Instance t_eq_dec : EqDecision t.
Proof. solve_decision. Defined.
Definition variants : list (t * Z) :=
  [(Add, 0x000); (Sll, 0x001); (Slt, 0x002); (Sltu, 0x003); (Xor, 0x004); (Srl, 0x005);
   (Or, 0x006); (And, 0x007); (Mul, 0x008); (Mulh, 0x009); (Mulhsu, 0x00a); (Mulhu, 0x00b);
   (Div, 0x00c); (Divu, 0x00d); (Rem, 0x00e); (Remu, 0x00f); (Sub, 0x100); (Sra, 0x105)].
Definition into : t → Z := emu_val variants.
End RvInstr32OpFunct10.

(** The other names of the source ([Sll], [Mulh], [Andn], ...) stand for
    [Add], [Mul] and [Sub]. *)
Module RvInstr32OpFunct7.
Inductive t :=
  | Add | Mul | Sub | MinMaxClmul | Zext | Rotate | Sh1add | Bset | Bclr | Binv | Invalid.
#[global] Instance t_eq_dec : EqDecision t.
Proof. solve_decision. Defined.
Definition variants : list (t * Z) :=
  [(Add, 0x00); (Mul, 0x01); (Sub, 0x20); (MinMaxClmul, 0x05); (Zext, 0x04); (Rotate, 0x30);
   (Sh1add, 0x10); (Bset, 0x14); (Bclr, 0x24); (Binv, 0x34)].
Definition from : Z → t := emu_from variants Invalid.
End RvInstr32OpFunct7.

Module RvInstr32SystemImm.
Inductive t := Ecall | Ebreak | Mret | Wfi | Invalid.
#[global] Instance t_eq_dec : EqDecision t.
Proof. solve_decision. Defined.
Definition variants : list (t * Z) := [(Ecall, 0x000); (Ebreak, 0x001); (Mret, 0x302); (Wfi, 0x105)].
Definition from : Z → t := emu_from variants Invalid.
End RvInstr32SystemImm.

Module RvPrivMode.
Inductive t := U | M | Invalid.
#[global] Instance t_eq_dec : EqDecision t.
Proof. solve_decision. Defined.
Definition variants : list (t * Z) := [(U, 0); (M, 3)].
Definition from : Z → t := emu_from variants Invalid.
Definition into : t → Z := emu_val variants.
End RvPrivMode.

Module RvMemAccessType.
Inductive t := Read | Write | Execute | Invalid.
#[global] Instance t_eq_dec : EqDecision t.
Proof. solve_decision. Defined.
Definition variants : list (t * Z) := [(Read, 1); (Write, 2); (Execute, 4)].
Definition into : t → Z := emu_val variants.
End RvMemAccessType.

Module RvPmpAddrMode.
Inductive t := Off | Tor | Na4 | Napot | Invalid.
#[global] Instance t_eq_dec : EqDecision t.
Proof. solve_decision. Defined.
Definition variants : list (t * Z) := [(Off, 0); (Tor, 1); (Na4, 2); (Napot, 3)].
Definition from : Z → t := emu_from variants Invalid.
End RvPmpAddrMode.

Module XReg.
Inductive t :=
  | X0 : t | X1 : t | X2 : t | X3 : t | X4 : t | X5 : t | X6 : t | X7 : t
  | X8 : t | X9 : t | X10 : t | X11 : t | X12 : t | X13 : t | X14 : t | X15 : t
  | X16 : t | X17 : t | X18 : t | X19 : t | X20 : t | X21 : t | X22 : t | X23 : t
  | X24 : t | X25 : t | X26 : t | X27 : t | X28 : t | X29 : t | X30 : t | X31 : t
  | Invalid : t.
#[global] Instance t_eq_dec : EqDecision t.
Proof. solve_decision. Defined.
Definition variants : list (t * Z) :=
  [(X0, 0); (X1, 1); (X2, 2); (X3, 3); (X4, 4); (X5, 5); (X6, 6); (X7, 7); (X8, 8); (X9, 9);
   (X10, 10); (X11, 11); (X12, 12); (X13, 13); (X14, 14); (X15, 15); (X16, 16); (X17, 17);
   (X18, 18); (X19, 19); (X20, 20); (X21, 21); (X22, 22); (X23, 23); (X24, 24); (X25, 25);
   (X26, 26); (X27, 27); (X28, 28); (X29, 29); (X30, 30); (X31, 31)].
Definition from : Z → t := emu_from variants Invalid.
Definition into : t → Z := emu_val variants.
End XReg.

(** * Instruction formats

    The structures of [bitfield!]: a field is its offset and its width; the
    fields of type [i32] are sign-extended. *)

Module RvInstr32.
Definition opcode (i : Z) := RvInstr32Opcode.from (fget 0 7 i).
End RvInstr32.

Module RvInstr32I.
Definition opcode (i : Z) := RvInstr32Opcode.from (fget 0 7 i).
Definition set_opcode (v : RvInstr32Opcode.t) (i : Z) := fset 0 7 (RvInstr32Opcode.into v) i.
Definition rd (i : Z) := XReg.from (fget 7 5 i).
Definition set_rd (v : XReg.t) (i : Z) := fset 7 5 (XReg.into v) i.
Definition funct3 (i : Z) := fget 12 3 i.
Definition set_funct3 (v i : Z) := fset 12 3 v i.
Definition rs (i : Z) := XReg.from (fget 15 5 i).
Definition set_rs (v : XReg.t) (i : Z) := fset 15 5 (XReg.into v) i.
Definition shamt (i : Z) := fget 20 5 i.
Definition set_shamt (v i : Z) := fset 20 5 v i.
Definition funct7 (i : Z) := fget 25 7 i.
Definition set_funct7 (v i : Z) := fset 25 7 v i.
Definition funct5 (i : Z) := fget 20 5 i.
Definition imm (i : Z) := sget 20 12 i.
Definition set_imm (v i : Z) := fset 20 12 v i.
Definition uimm (i : Z) := fget 20 12 i.
Definition set_uimm (v i : Z) := fset 20 12 v i.
End RvInstr32I.

Module RvInstr32U.
Definition opcode (i : Z) := RvInstr32Opcode.from (fget 0 7 i).
Definition set_opcode (v : RvInstr32Opcode.t) (i : Z) := fset 0 7 (RvInstr32Opcode.into v) i.
Definition rd (i : Z) := XReg.from (fget 7 5 i).
Definition set_rd (v : XReg.t) (i : Z) := fset 7 5 (XReg.into v) i.
Definition imm (i : Z) := sget 12 20 i.
Definition set_imm (v i : Z) := fset 12 20 v i.
End RvInstr32U.

Module RvInstr32S.
Definition opcode (i : Z) := RvInstr32Opcode.from (fget 0 7 i).
Definition set_opcode (v : RvInstr32Opcode.t) (i : Z) := fset 0 7 (RvInstr32Opcode.into v) i.
Definition imm11_7 (i : Z) := fget 7 5 i.
Definition set_imm11_7 (v i : Z) := fset 7 5 v i.
Definition funct3 (i : Z) := fget 12 3 i.
Definition set_funct3 (v i : Z) := fset 12 3 v i.
Definition rs1 (i : Z) := XReg.from (fget 15 5 i).
Definition set_rs1 (v : XReg.t) (i : Z) := fset 15 5 (XReg.into v) i.
Definition rs2 (i : Z) := XReg.from (fget 20 5 i).
Definition set_rs2 (v : XReg.t) (i : Z) := fset 20 5 (XReg.into v) i.
Definition imm31_25 (i : Z) := sget 25 7 i.
Definition set_imm31_25 (v i : Z) := fset 25 7 v i.
Definition imm (i : Z) : Z := Z.lor (Z.shiftl (imm31_25 i) 5) (imm11_7 i).
Definition set_imm (v i : Z) : Z :=
  let v := u32w v in
  let i := set_imm11_7 (fget 0 5 v) i in
  set_imm31_25 (sget 5 7 v) i.
End RvInstr32S.

Module RvInstr32R.
Definition opcode (i : Z) := RvInstr32Opcode.from (fget 0 7 i).
Definition set_opcode (v : RvInstr32Opcode.t) (i : Z) := fset 0 7 (RvInstr32Opcode.into v) i.
Definition rd (i : Z) := XReg.from (fget 7 5 i).
Definition set_rd (v : XReg.t) (i : Z) := fset 7 5 (XReg.into v) i.
Definition funct3 (i : Z) := fget 12 3 i.
Definition set_funct3 (v i : Z) := fset 12 3 v i.
Definition rs1 (i : Z) := XReg.from (fget 15 5 i).
Definition set_rs1 (v : XReg.t) (i : Z) := fset 15 5 (XReg.into v) i.
Definition rs2 (i : Z) := XReg.from (fget 20 5 i).
Definition set_rs2 (v : XReg.t) (i : Z) := fset 20 5 (XReg.into v) i.
Definition funct7 (i : Z) := fget 25 7 i.
Definition set_funct7 (v i : Z) := fset 25 7 v i.
Definition set_funct10 (v : RvInstr32OpFunct10.t) (i : Z) : Z :=
  let i := set_funct3 (Z.land (RvInstr32OpFunct10.into v) 0x007) i in
  set_funct7 (Z.shiftr (Z.land (RvInstr32OpFunct10.into v) 0x3f8) 3) i.
End RvInstr32R.

Module RvInstr32B.
Definition opcode (i : Z) := RvInstr32Opcode.from (fget 0 7 i).
Definition set_opcode (v : RvInstr32Opcode.t) (i : Z) := fset 0 7 (RvInstr32Opcode.into v) i.
Definition imm7 (i : Z) := fget 7 1 i.
Definition imm11_8 (i : Z) := fget 8 4 i.
Definition funct3 (i : Z) := fget 12 3 i.
Definition set_funct3 (v i : Z) := fset 12 3 v i.
Definition rs1 (i : Z) := XReg.from (fget 15 5 i).
Definition set_rs1 (v : XReg.t) (i : Z) := fset 15 5 (XReg.into v) i.
Definition rs2 (i : Z) := XReg.from (fget 20 5 i).
Definition set_rs2 (v : XReg.t) (i : Z) := fset 20 5 (XReg.into v) i.
Definition imm30_25 (i : Z) := fget 25 6 i.
Definition imm31 (i : Z) := sget 31 1 i.
Definition imm (i : Z) : Z :=
  let imm := fset 12 20 (imm31 i) 0 in
  let imm := fset 11 1 (imm7 i) imm in
  let imm := fset 5 6 (imm30_25 i) imm in
  let imm := fset 1 4 (imm11_8 i) imm in
  fset 0 1 0 imm.
Definition set_imm (v i : Z) : Z :=
  let i := fset 7 1 (fget 11 1 v) i in
  let i := fset 8 4 (fget 1 4 v) i in
  let i := fset 25 6 (fget 5 6 v) i in
  fset 31 1 (sget 12 1 v) i.
End RvInstr32B.

Module RvInstr32J.
Definition opcode (i : Z) := RvInstr32Opcode.from (fget 0 7 i).
Definition set_opcode (v : RvInstr32Opcode.t) (i : Z) := fset 0 7 (RvInstr32Opcode.into v) i.
Definition rd (i : Z) := XReg.from (fget 7 5 i).
Definition set_rd (v : XReg.t) (i : Z) := fset 7 5 (XReg.into v) i.
Definition imm19_12 (i : Z) := fget 12 8 i.
Definition imm20 (i : Z) := fget 20 1 i.
Definition imm30_21 (i : Z) := fget 21 10 i.
Definition imm31 (i : Z) := sget 31 1 i.
Definition imm (i : Z) : Z :=
  let imm := fset 20 12 (imm31 i) 0 in
  let imm := fset 12 8 (imm19_12 i) imm in
  let imm := fset 11 1 (imm20 i) imm in
  fset 1 10 (imm30_21 i) imm.
Definition set_imm (v i : Z) : Z :=
  let i := fset 31 1 (sget 20 1 v) i in
  let i := fset 21 10 (fget 1 10 v) i in
  let i := fset 20 1 (fget 11 1 v) i in
  fset 12 8 (fget 12 8 v) i.
End RvInstr32J.

(** * Fields of the status registers *)

Module RvMStatus.
Definition mie (r : Z) := fget 3 1 r.
Definition set_mie (v r : Z) := fset 3 1 v r.
Definition mpie (r : Z) := fget 7 1 r.
Definition set_mpie (v r : Z) := fset 7 1 v r.
Definition mpp (r : Z) := RvPrivMode.from (fget 11 2 r).
Definition set_mpp (v : RvPrivMode.t) (r : Z) := fset 11 2 (RvPrivMode.into v) r.
Definition mprv (r : Z) := fget 17 1 r.
End RvMStatus.

Module RvMIE.
Definition meie (r : Z) := fget 11 1 r.
End RvMIE.

Module RvMEIHAP.
Definition set_claimid (v r : Z) := fset 2 8 v r.
End RvMEIHAP.

Module RvMPMC.
Definition halt (r : Z) := fget 0 1 r.
Definition haltie (r : Z) := fget 1 1 r.
End RvMPMC.

Module RvPmpiCfg.
Definition read (r : Z) := fget 0 1 r.
Definition write (r : Z) := fget 1 1 r.
Definition execute (r : Z) := fget 2 1 r.
Definition addr_mode (r : Z) := RvPmpAddrMode.from (fget 3 2 r).
Definition lock (r : Z) := fget 7 1 r.
End RvPmpiCfg.

Module RvPmpCfgi.
Definition r1 (r : Z) := fget 0 8 r.
Definition set_r1 (v r : Z) := fset 0 8 v r.
Definition r2 (r : Z) := fget 8 8 r.
Definition set_r2 (v r : Z) := fset 8 8 v r.
Definition r3 (r : Z) := fget 16 8 r.
Definition set_r3 (v r : Z) := fset 16 8 v r.
Definition r4 (r : Z) := fget 24 8 r.
Definition set_r4 (v r : Z) := fset 24 8 v r.
End RvPmpCfgi.

Module RvMsecCfg.
Definition mml (r : Z) := fget 0 1 r.
Definition mmwp (r : Z) := fget 1 1 r.
End RvMsecCfg.

(** * The register file *)

Module XRegFile.

Record t := mk { reg : list Z }.

Definition REG_COUNT : nat := 32.
Definition RESET_VAL : Z := 0.

Definition new : t := mk (replicate REG_COUNT RESET_VAL).
Definition reset (f : t) : t := mk (replicate REG_COUNT RESET_VAL).

Definition read (r : XReg.t) (f : t) : result RvException.t Z :=
  match r with
  | XReg.X0 => Ok 0
  | XReg.Invalid => Err RvException.illegal_register
  | _ => unwrap (reg f !! Z.to_nat (XReg.into r))
  end.

Definition write (r : XReg.t) (val : Z) (f : t) : result RvException.t t :=
  match r with
  | XReg.X0 => Ok f
  | XReg.Invalid => Err RvException.illegal_register
  | _ =>
      err_if_panic (negb (Z.to_nat (XReg.into r) <? length (reg f))%nat);;
      Ok (mk (<[Z.to_nat (XReg.into r) := val]> (reg f)))
  end.

End XRegFile.
