(* ===== verification/RvDecompress.v ===== *)
(** Compressed instructions (sw-emulator/lib/cpu/src/instr/compression.rs): the
    16-bit formats and the expansion of a compressed instruction into the
    32-bit instruction it stands for. *)

From S2P Require Import Prelude Bits Memory RvTypes.

(** * The formats *)

Module rv16.

Definition sign_extend (val msb : Z) : Z :=
  let sh := 15 - msb in Z.shiftr (sx 16 (u16w (Z.shiftl val sh))) sh.
Definition sign_extend_i32 (val msb : Z) : Z :=
  let sh := 31 - msb in Z.shiftr (sx 32 (u32w (Z.shiftl val sh))) sh.

(** The three-bit register fields name the registers x8 to x15. *)
Definition reg3 (o i : Z) : XReg.t := XReg.from (fget o 3 i + 8).

Module CLwsp.
Definition OP_CODE : Z := 0x4002.
Definition rd (i : Z) := XReg.from (fget 7 5 i).
Definition uimm (i : Z) : Z :=
  let r := fset 5 1 (fget 12 1 i) 0 in
  let r := fset 2 3 (fget 4 3 i) r in
  fset 6 2 (fget 2 2 i) r.
End CLwsp.

Module CSwsp.
Definition OP_CODE : Z := 0xc002.
Definition rs2 (i : Z) := XReg.from (fget 2 5 i).
Definition uimm (i : Z) : Z :=
  let r := fset 2 4 (fget 9 4 i) 0 in
  fset 6 2 (fget 7 2 i) r.
End CSwsp.

Module CLw.
Definition OP_CODE : Z := 0x4000.
Definition rs1 (i : Z) := reg3 7 i.
Definition rd (i : Z) := reg3 2 i.
Definition uimm (i : Z) : Z :=
  let r := fset 3 3 (fget 10 3 i) 0 in
  let r := fset 2 1 (fget 6 1 i) r in
  fset 6 1 (fget 5 1 i) r.
End CLw.

Module CSw.
Definition OP_CODE : Z := 0xc000.
Definition rs1 (i : Z) := reg3 7 i.
Definition rs2 (i : Z) := reg3 2 i.
Definition uimm (i : Z) : Z :=
  let r := fset 3 3 (fget 10 3 i) 0 in
  let r := fset 2 1 (fget 6 1 i) r in
  fset 6 1 (fget 5 1 i) r.
End CSw.

Module CJ.
Definition OP_CODE : Z := 0xa001.
Definition imm (i : Z) : Z :=
  let r := fset 11 1 (fget 12 1 i) 0 in
  let r := fset 4 1 (fget 11 1 i) r in
  let r := fset 8 2 (fget 9 2 i) r in
  let r := fset 10 1 (fget 8 1 i) r in
  let r := fset 6 1 (fget 7 1 i) r in
  let r := fset 7 1 (fget 6 1 i) r in
  let r := fset 1 3 (fget 3 3 i) r in
  let r := fset 5 1 (fget 2 1 i) r in
  sign_extend r 11.
End CJ.

Module CJal.
Definition OP_CODE : Z := 0x2001.
Definition imm (i : Z) : Z := CJ.imm i.
End CJal.

Module CAddi.
Definition OP_CODE : Z := 0x0001.
Definition nzimm (i : Z) : Z :=
  let r := fset 5 1 (fget 12 1 i) 0 in
  let r := fset 0 5 (fget 2 5 i) r in
  sign_extend r 5.
Definition rs1rd (i : Z) := XReg.from (fget 7 5 i).
End CAddi.

Module CAddi4spn.
Definition OP_CODE : Z := 0x0000.
Definition nzuimm (i : Z) : Z :=
  let r := fset 4 2 (fget 11 2 i) 0 in
  let r := fset 6 4 (fget 7 4 i) r in
  let r := fset 2 1 (fget 6 1 i) r in
  fset 3 1 (fget 5 1 i) r.
Definition rd (i : Z) := reg3 2 i.
End CAddi4spn.

Module CAddi16sp.
Definition nzimm (i : Z) : Z :=
  let r := fset 9 1 (fget 12 1 i) 0 in
  let r := fset 4 1 (fget 6 1 i) r in
  let r := fset 6 1 (fget 5 1 i) r in
  let r := fset 7 2 (fget 3 2 i) r in
  let r := fset 5 1 (fget 2 1 i) r in
  sign_extend_i32 r 9.
End CAddi16sp.

Module CLi.
Definition OP_CODE : Z := 0x4001.
Definition nzimm (i : Z) : Z :=
  let r := fset 5 1 (fget 12 1 i) 0 in
  let r := fset 0 5 (fget 2 5 i) r in
  sign_extend_i32 r 5.
Definition rd (i : Z) := XReg.from (fget 7 5 i).
End CLi.

Module CLui.
Definition OP_CODE : Z := 0x6001.
Definition nzimm (i : Z) : Z :=
  let r := fset 17 1 (fget 12 1 i) 0 in
  let r := fset 12 5 (fget 2 5 i) r in
  sign_extend_i32 r 17.
Definition rd (i : Z) := XReg.from (fget 7 5 i).
End CLui.

Module CBeqz.
Definition OP_CODE : Z := 0xc001.
Definition offset (i : Z) : Z :=
  let r := fset 8 1 (fget 12 1 i) 0 in
  let r := fset 3 2 (fget 10 2 i) r in
  let r := fset 6 2 (fget 5 2 i) r in
  let r := fset 1 2 (fget 3 2 i) r in
  let r := fset 5 1 (fget 2 1 i) r in
  sign_extend r 8.
Definition rs1 (i : Z) := reg3 7 i.
End CBeqz.

Module CBnez.
Definition OP_CODE : Z := 0xe001.
Definition offset (i : Z) : Z := CBeqz.offset i.
Definition rs1 (i : Z) := CBeqz.rs1 i.
End CBnez.

Module CSlli.
Definition OP_CODE : Z := 0x0002.
Definition shamt (i : Z) : Z :=
  let r := fset 5 1 (fget 12 1 i) 0 in
  fset 0 5 (fget 2 5 i) r.
Definition rs1rd (i : Z) := XReg.from (fget 7 5 i).
End CSlli.

Module CMv.
Definition OP_CODE : Z := 0x8002.
Definition rd (i : Z) := XReg.from (fget 7 5 i).
Definition rs2 (i : Z) := XReg.from (fget 2 5 i).
End CMv.

Module CAdd.
Definition OP_CODE : Z := 0x9002.
Definition rs1rd (i : Z) := XReg.from (fget 7 5 i).
Definition rs2 (i : Z) := XReg.from (fget 2 5 i).
End CAdd.

Module CJalr.
Definition rs1 (i : Z) := XReg.from (fget 7 5 i).
End CJalr.

Module CJr.
Definition rs1 (i : Z) := XReg.from (fget 7 5 i).
End CJr.

Module CSrli.
Definition OP_CODE : Z := 0x8001.
Definition shamt (i : Z) : Z :=
  let r := fset 5 1 (fget 12 1 i) 0 in
  fset 0 5 (fget 2 5 i) r.
Definition rs1rd (i : Z) := reg3 7 i.
End CSrli.

Module CSrai.
Definition OP_CODE : Z := 0x8401.
Definition shamt (i : Z) : Z := CSrli.shamt i.
Definition rs1rd (i : Z) := CSrli.rs1rd i.
End CSrai.

Module CAndi.
Definition OP_CODE : Z := 0x8801.
Definition imm (i : Z) : Z :=
  let r := fset 5 1 (fget 12 1 i) 0 in
  let r := fset 0 5 (fget 2 5 i) r in
  sign_extend r 5.
Definition rs1rd (i : Z) := CSrli.rs1rd i.
End CAndi.

Module CAnd.
Definition OP_CODE : Z := 0x8c61.
Definition rs1rd (i : Z) := reg3 7 i.
Definition rs2 (i : Z) := reg3 2 i.
End CAnd.

Module COr.
Definition OP_CODE : Z := 0x8c41.
End COr.

Module CXor.
Definition OP_CODE : Z := 0x8c21.
End CXor.

Module CSub.
Definition OP_CODE : Z := 0x8c01.
End CSub.

End rv16.
Import rv16.

(** * Expansion *)

Definition OP_MASK_5 : Z := 0xe003.
Definition OP_MASK_6 : Z := 0xf003.
Definition OP_MASK_7 : Z := 0xec03.
Definition OP_MASK_9 : Z := 0xfc63.

(** The first [match] of [decompress_instr]; [None] falls through to the
    next. *)
Definition decompress_5 (instr : Z) : option Z :=
  let op := Z.land instr OP_MASK_5 in
  if op =? CJ.OP_CODE then
    let result := RvInstr32J.set_opcode RvInstr32Opcode.Jal 0 in
    let result := RvInstr32J.set_imm (u32w (CJ.imm instr)) result in
    Some (RvInstr32J.set_rd XReg.X0 result)
  else if op =? CJal.OP_CODE then
    let result := RvInstr32J.set_opcode RvInstr32Opcode.Jal 0 in
    let result := RvInstr32J.set_imm (u32w (CJal.imm instr)) result in
    Some (RvInstr32J.set_rd XReg.X1 result)
  else if op =? CLw.OP_CODE then
    let result := RvInstr32I.set_opcode RvInstr32Opcode.Load 0 in
    let result := RvInstr32I.set_funct3 (RvInstr32LoadFunct3.into RvInstr32LoadFunct3.Lw) result in
    let result := RvInstr32I.set_imm (CLw.uimm instr) result in
    let result := RvInstr32I.set_rs (CLw.rs1 instr) result in
    Some (RvInstr32I.set_rd (CLw.rd instr) result)
  else if op =? CSw.OP_CODE then
    let result := RvInstr32S.set_opcode RvInstr32Opcode.Store 0 in
    let result := RvInstr32S.set_funct3 (RvInstr32StoreFunct3.into RvInstr32StoreFunct3.Sw) result in
    let result := RvInstr32S.set_imm (CSw.uimm instr) result in
    let result := RvInstr32S.set_rs1 (CSw.rs1 instr) result in
    Some (RvInstr32S.set_rs2 (CSw.rs2 instr) result)
  else if op =? CLwsp.OP_CODE then
    if decide (CLwsp.rd instr = XReg.X0) then None
    else
      let result := RvInstr32I.set_opcode RvInstr32Opcode.Load 0 in
      let result := RvInstr32I.set_funct3 (RvInstr32LoadFunct3.into RvInstr32LoadFunct3.Lw) result in
      let result := RvInstr32I.set_uimm (CLwsp.uimm instr) result in
      let result := RvInstr32I.set_rs XReg.X2 result in
      Some (RvInstr32I.set_rd (CLwsp.rd instr) result)
  else if op =? CSwsp.OP_CODE then
    let result := RvInstr32S.set_opcode RvInstr32Opcode.Store 0 in
    let result := RvInstr32S.set_funct3 (RvInstr32StoreFunct3.into RvInstr32StoreFunct3.Sw) result in
    let result := RvInstr32S.set_imm (CSwsp.uimm instr) result in
    let result := RvInstr32S.set_rs1 XReg.X2 result in
    Some (RvInstr32S.set_rs2 (CSwsp.rs2 instr) result)
  else if op =? CAddi.OP_CODE then
    let result := RvInstr32I.set_opcode RvInstr32Opcode.OpImm 0 in
    let result := RvInstr32I.set_funct3 (RvInstr32OpImmFunct3.into RvInstr32OpImmFunct3.Addi) result in
    let result := RvInstr32I.set_imm (CAddi.nzimm instr) result in
    let result := RvInstr32I.set_rs (CAddi.rs1rd instr) result in
    Some (RvInstr32I.set_rd (CAddi.rs1rd instr) result)
  else if op =? CAddi4spn.OP_CODE then
    if CAddi4spn.nzuimm instr =? 0 then None
    else
      let result := RvInstr32I.set_opcode RvInstr32Opcode.OpImm 0 in
      let result := RvInstr32I.set_funct3 (RvInstr32OpImmFunct3.into RvInstr32OpImmFunct3.Addi) result in
      let result := RvInstr32I.set_imm (CAddi4spn.nzuimm instr) result in
      let result := RvInstr32I.set_rs XReg.X2 result in
      Some (RvInstr32I.set_rd (CAddi4spn.rd instr) result)
  else if op =? CLi.OP_CODE then
    let result := RvInstr32I.set_opcode RvInstr32Opcode.OpImm 0 in
    let result := RvInstr32I.set_funct3 (RvInstr32OpImmFunct3.into RvInstr32OpImmFunct3.Addi) result in
    let result := RvInstr32I.set_imm (CLi.nzimm instr) result in
    let result := RvInstr32I.set_rs XReg.X0 result in
    Some (RvInstr32I.set_rd (CLi.rd instr) result)
  else if op =? CLui.OP_CODE then
    if CLui.nzimm instr =? 0 then None
    else if decide (CLui.rd instr = XReg.X2) then
      let result := RvInstr32I.set_opcode RvInstr32Opcode.OpImm 0 in
      let result := RvInstr32I.set_funct3 (RvInstr32OpImmFunct3.into RvInstr32OpImmFunct3.Addi) result in
      let result := RvInstr32I.set_imm (CAddi16sp.nzimm instr) result in
      let result := RvInstr32I.set_rs XReg.X2 result in
      Some (RvInstr32I.set_rd XReg.X2 result)
    else
      let result := RvInstr32U.set_opcode RvInstr32Opcode.Lui 0 in
      let result := RvInstr32U.set_imm (Z.shiftr (CLui.nzimm instr) 12) result in
      Some (RvInstr32U.set_rd (CLui.rd instr) result)
  else if op =? CBeqz.OP_CODE then
    let result := RvInstr32B.set_opcode RvInstr32Opcode.Branch 0 in
    let result := RvInstr32B.set_funct3 (RvInstr32BranchFunct3.into RvInstr32BranchFunct3.Beq) result in
    let result := RvInstr32B.set_imm (u32w (CBeqz.offset instr)) result in
    let result := RvInstr32B.set_rs1 (CBeqz.rs1 instr) result in
    Some (RvInstr32B.set_rs2 XReg.X0 result)
  else if op =? CBnez.OP_CODE then
    let result := RvInstr32B.set_opcode RvInstr32Opcode.Branch 0 in
    let result := RvInstr32B.set_funct3 (RvInstr32BranchFunct3.into RvInstr32BranchFunct3.Bne) result in
    let result := RvInstr32B.set_imm (u32w (CBnez.offset instr)) result in
    let result := RvInstr32B.set_rs1 (CBnez.rs1 instr) result in
    Some (RvInstr32B.set_rs2 XReg.X0 result)
  else if op =? CSlli.OP_CODE then
    if Z.land (CSlli.shamt instr) 0x20 =? 0 then
      let result := RvInstr32I.set_opcode RvInstr32Opcode.OpImm 0 in
      let result := RvInstr32I.set_funct3 (RvInstr32OpImmFunct3.into RvInstr32OpImmFunct3.Sli) result in
      let result := RvInstr32I.set_uimm (CSlli.shamt instr) result in
      let result := RvInstr32I.set_rs (CSlli.rs1rd instr) result in
      Some (RvInstr32I.set_rd (CSlli.rs1rd instr) result)
    else None
  else None.

Definition decompress_6 (instr : Z) : option Z :=
  let op := Z.land instr OP_MASK_6 in
  if op =? CMv.OP_CODE then
    if decide (CMv.rs2 instr = XReg.X0) then
      let result := RvInstr32I.set_opcode RvInstr32Opcode.Jalr 0 in
      let result := RvInstr32I.set_funct3 0 result in
      let result := RvInstr32I.set_imm 0 result in
      let result := RvInstr32I.set_rs (CJr.rs1 instr) result in
      Some (RvInstr32I.set_rd XReg.X0 result)
    else
      let result := RvInstr32R.set_opcode RvInstr32Opcode.Op 0 in
      let result := RvInstr32R.set_funct10 RvInstr32OpFunct10.Add result in
      let result := RvInstr32R.set_rs1 XReg.X0 result in
      let result := RvInstr32R.set_rs2 (CMv.rs2 instr) result in
      Some (RvInstr32R.set_rd (CMv.rd instr) result)
  else if op =? CAdd.OP_CODE then
    if decide (CAdd.rs1rd instr = XReg.X0 ∧ CAdd.rs2 instr = XReg.X0) then Some 0x100073
    else if decide (CAdd.rs2 instr = XReg.X0) then
      let result := RvInstr32I.set_opcode RvInstr32Opcode.Jalr 0 in
      let result := RvInstr32I.set_funct3 0 result in
      let result := RvInstr32I.set_imm 0 result in
      let result := RvInstr32I.set_rs (CJalr.rs1 instr) result in
      Some (RvInstr32I.set_rd XReg.X1 result)
    else
      let result := RvInstr32R.set_opcode RvInstr32Opcode.Op 0 in
      let result := RvInstr32R.set_funct10 RvInstr32OpFunct10.Add result in
      let result := RvInstr32R.set_rs1 (CAdd.rs1rd instr) result in
      let result := RvInstr32R.set_rs2 (CAdd.rs2 instr) result in
      Some (RvInstr32R.set_rd (CAdd.rs1rd instr) result)
  else None.

Definition decompress_7 (instr : Z) : option Z :=
  let op := Z.land instr OP_MASK_7 in
  if op =? CSrli.OP_CODE then
    if Z.land (CSrli.shamt instr) 0x20 =? 0 then
      let result := RvInstr32I.set_opcode RvInstr32Opcode.OpImm 0 in
      let result := RvInstr32I.set_funct7 (RvInstr32OpImmFunct7.into RvInstr32OpImmFunct7.Srli) result in
      let result := RvInstr32I.set_funct3 (RvInstr32OpImmFunct3.into RvInstr32OpImmFunct3.Sri) result in
      let result := RvInstr32I.set_shamt (CSrli.shamt instr) result in
      let result := RvInstr32I.set_rs (CSrli.rs1rd instr) result in
      Some (RvInstr32I.set_rd (CSrli.rs1rd instr) result)
    else None
  else if op =? CSrai.OP_CODE then
    if Z.land (CSrai.shamt instr) 0x20 =? 0 then
      let result := RvInstr32I.set_opcode RvInstr32Opcode.OpImm 0 in
      let result := RvInstr32I.set_funct7 (RvInstr32OpImmFunct7.into RvInstr32OpImmFunct7.Srai) result in
      let result := RvInstr32I.set_funct3 (RvInstr32OpImmFunct3.into RvInstr32OpImmFunct3.Sri) result in
      let result := RvInstr32I.set_shamt (CSrai.shamt instr) result in
      let result := RvInstr32I.set_rs (CSrai.rs1rd instr) result in
      Some (RvInstr32I.set_rd (CSrai.rs1rd instr) result)
    else None
  else if op =? CAndi.OP_CODE then
    let result := RvInstr32I.set_opcode RvInstr32Opcode.OpImm 0 in
    let result := RvInstr32I.set_funct3 (RvInstr32OpImmFunct3.into RvInstr32OpImmFunct3.Andi) result in
    let result := RvInstr32I.set_imm (CAndi.imm instr) result in
    let result := RvInstr32I.set_rs (CAndi.rs1rd instr) result in
    Some (RvInstr32I.set_rd (CAndi.rs1rd instr) result)
  else None.

(** The four register operations of the last [match], which differ in the
    function code only. *)
Definition decompress_op (funct10 : RvInstr32OpFunct10.t) (instr : Z) : Z :=
  let result := RvInstr32R.set_opcode RvInstr32Opcode.Op 0 in
  let result := RvInstr32R.set_funct10 funct10 result in
  let result := RvInstr32R.set_rs1 (CAnd.rs1rd instr) result in
  let result := RvInstr32R.set_rs2 (CAnd.rs2 instr) result in
  RvInstr32R.set_rd (CAnd.rs1rd instr) result.

Definition decompress_9 (instr : Z) : option Z :=
  let op := Z.land instr OP_MASK_9 in
  if op =? CAnd.OP_CODE then Some (decompress_op RvInstr32OpFunct10.And instr)
  else if op =? COr.OP_CODE then Some (decompress_op RvInstr32OpFunct10.Or instr)
  else if op =? CXor.OP_CODE then Some (decompress_op RvInstr32OpFunct10.Xor instr)
  else if op =? CSub.OP_CODE then Some (decompress_op RvInstr32OpFunct10.Sub instr)
  else None.

Definition decompress_instr (instr : Z) : result RvException.t Z :=
  match decompress_5 instr with
  | Some r => Ok r
  | None =>
      match decompress_6 instr with
      | Some r => Ok r
      | None =>
          match decompress_7 instr with
          | Some r => Ok r
          | None => ok_or (decompress_9 instr) (RvException.illegal_instr instr)
          end
      end
  end.
