(* ===== verification/RvAlu.v ===== *)
(** The arithmetic of the emulated processor
    (sw-emulator/lib/cpu/src/instr/op.rs, op_imm.rs and bit.rs): the value that
    a register or immediate instruction computes from its operands. *)

From S2P Require Import Prelude Bits Memory RvTypes.

(** * Integer operations of the standard library

    On [u32] values, unless the name says otherwise. *)

Definition not_u32 (x : Z) : Z := u32w (Z.lnot x).
Definition wrapping_shl (x n : Z) : Z := u32w (Z.shiftl x (Z.land n 31)).
Definition wrapping_shr (x n : Z) : Z := Z.shiftr x (Z.land n 31).
Definition wrapping_shr_i32 (x n : Z) : Z := Z.shiftr x (Z.land n 31).
Definition rotate_left (x n : Z) : Z :=
  Z.lor (u32w (Z.shiftl x (n mod 32))) (Z.shiftr x ((32 - n mod 32) mod 32)).
Definition rotate_right (x n : Z) : Z :=
  Z.lor (Z.shiftr x (n mod 32)) (u32w (Z.shiftl x ((32 - n mod 32) mod 32))).

(** A count over the bits of a word, from the lowest to the highest. *)
Fixpoint count_ones_n (n : nat) (x : Z) : Z :=
  match n with
  | O => 0
  | S n => Z.b2z (Z.odd x) + count_ones_n n (Z.div2 x)
  end.
Definition count_ones (x : Z) : Z := count_ones_n 32 x.

Fixpoint trailing_zeros_n (n : nat) (x : Z) : Z :=
  match n with
  | O => 0
  | S n => if Z.odd x then 0 else 1 + trailing_zeros_n n (Z.div2 x)
  end.
Definition trailing_zeros (x : Z) : Z := trailing_zeros_n 32 x.
Definition trailing_ones (x : Z) : Z := trailing_zeros (not_u32 x).

Definition leading_zeros (x : Z) : Z := if x =? 0 then 32 else 31 - Z.log2 x.

(** * Bit manipulation (bit.rs) *)

(** The loops of the three carry-less products, on the positions they visit. *)
Definition clmul_loop (term : Z → Z) (b : Z) (positions : list Z) : Z :=
  foldl (λ output i, if Z.land (Z.shiftr b i) 1 =? 1 then Z.lxor output (term i) else output) 0 positions.

Definition clmul (a b : Z) : Z :=
  clmul_loop (λ i, u32w (Z.shiftl a i)) b (seqZ 0 32).
Definition clmulh (a b : Z) : Z :=
  clmul_loop (λ i, Z.shiftr a (32 - i)) b (seqZ 1 31).
Definition clmulr (a b : Z) : Z :=
  clmul_loop (λ i, Z.shiftr a (32 - i - 1)) b (seqZ 0 32).

Definition exec_bit_instr_op (instr val1 val2 : Z) : option Z :=
  match RvInstr32OpFunct7.from (RvInstr32R.funct7 instr), RvInstr32R.funct3 instr with
  | RvInstr32OpFunct7.Sh1add, 2 => Some (u32w (wrapping_shl val1 1 + val2))
  | RvInstr32OpFunct7.Sh1add, 4 => Some (u32w (wrapping_shl val1 2 + val2))
  | RvInstr32OpFunct7.Sh1add, 6 => Some (u32w (wrapping_shl val1 3 + val2))
  | RvInstr32OpFunct7.Bset, 1 => Some (Z.lor val1 (Z.shiftl 1 (Z.land val2 0x1f)))
  | RvInstr32OpFunct7.Binv, 1 => Some (Z.lxor val1 (Z.shiftl 1 (Z.land val2 0x1f)))
  | RvInstr32OpFunct7.Bclr, 1 => Some (Z.land val1 (not_u32 (Z.shiftl 1 (Z.land val2 0x1f))))
  | RvInstr32OpFunct7.Bclr, 5 => Some (Z.land (Z.shiftr val1 (Z.land val2 0x1f)) 1)
  | RvInstr32OpFunct7.MinMaxClmul, 1 => Some (clmul val1 val2)
  | RvInstr32OpFunct7.MinMaxClmul, 3 => Some (clmulh val1 val2)
  | RvInstr32OpFunct7.MinMaxClmul, 2 => Some (clmulr val1 val2)
  | RvInstr32OpFunct7.MinMaxClmul, 6 => Some (u32w (Z.max (sx 32 val1) (sx 32 val2)))
  | RvInstr32OpFunct7.MinMaxClmul, 7 => Some (Z.max val1 val2)
  | RvInstr32OpFunct7.MinMaxClmul, 4 => Some (u32w (Z.min (sx 32 val1) (sx 32 val2)))
  | RvInstr32OpFunct7.MinMaxClmul, 5 => Some (Z.min val1 val2)
  | RvInstr32OpFunct7.Sub, 7 => Some (Z.land val1 (not_u32 val2))
  | RvInstr32OpFunct7.Sub, 6 => Some (Z.lor val1 (not_u32 val2))
  | RvInstr32OpFunct7.Sub, 4 => Some (not_u32 (Z.lxor val1 val2))
  | RvInstr32OpFunct7.Zext, 4 =>
      if decide (RvInstr32R.rs2 instr = XReg.X0) then Some (Z.land val1 0xffff) else None
  | RvInstr32OpFunct7.Rotate, 1 => Some (rotate_left val1 (Z.land val2 0x1f))
  | RvInstr32OpFunct7.Rotate, 5 => Some (rotate_right val1 (Z.land val2 0x1f))
  | _, _ => None
  end.

Definition orc_b (reg : Z) : Z :=
  from_le ((λ b, if b =? 0 then 0x00 else 0xff) <$> to_le 4 reg).

Definition exec_bit_instr_op_imm (instr reg : Z) : option Z :=
  let imm := RvInstr32I.imm instr in
  let funct5 := RvInstr32I.funct5 instr in
  match RvInstr32OpImmFunct7.from (RvInstr32I.funct7 instr), RvInstr32I.funct3 instr with
  | RvInstr32OpImmFunct7.Orc, 1 => Some (Z.lor reg (Z.shiftl 1 (Z.land imm 0x1f)))
  | RvInstr32OpImmFunct7.Orc, 5 => if funct5 =? 7 then Some (orc_b reg) else None
  | RvInstr32OpImmFunct7.Rev8, 1 => Some (Z.lxor reg (Z.shiftl 1 (Z.land imm 0x1f)))
  | RvInstr32OpImmFunct7.Bclr, 1 => Some (Z.land reg (not_u32 (Z.shiftl 1 (Z.land imm 0x1f))))
  | RvInstr32OpImmFunct7.Bclr, 5 => Some (Z.land (Z.shiftr reg (Z.land imm 0x1f)) 1)
  | RvInstr32OpImmFunct7.Bitmanip, 5 => Some (rotate_right reg (RvInstr32I.shamt instr))
  | RvInstr32OpImmFunct7.Bitmanip, 1 =>
      if funct5 =? 0 then Some (leading_zeros reg)
      else if funct5 =? 1 then Some (trailing_zeros reg)
      else if funct5 =? 2 then Some (count_ones reg)
      else if funct5 =? 4 then Some (u32w (sx 8 reg))
      else if funct5 =? 5 then Some (u32w (sx 16 reg))
      else None
  | RvInstr32OpImmFunct7.Rev8, 5 => if funct5 =? 0x18 then Some (swap_bytes_u32 reg) else None
  | _, _ => None
  end.

(** * Register operations (op.rs) *)

Definition i32_min : Z := - 2 ^ 31.
Definition u32_max : Z := 2 ^ 32 - 1.

(** The value of [data] in [exec_op_instr]. *)
Definition op_data (instr val1 val2 : Z) : result RvException.t Z :=
  match RvInstr32OpFunct3.from (RvInstr32R.funct3 instr),
        RvInstr32OpFunct7.from (RvInstr32R.funct7 instr) with
  | RvInstr32OpFunct3.Zero, RvInstr32OpFunct7.Add => Ok (u32w (val1 + val2))
  | RvInstr32OpFunct3.Zero, RvInstr32OpFunct7.Mul => Ok (u32w (sx 32 (sx 32 val1 * sx 32 val2)))
  | RvInstr32OpFunct3.Zero, RvInstr32OpFunct7.Sub => Ok (u32w (val1 - val2))
  | RvInstr32OpFunct3.One, RvInstr32OpFunct7.Add => Ok (wrapping_shl val1 val2)
  | RvInstr32OpFunct3.One, RvInstr32OpFunct7.Mul =>
      Ok (u32w (Z.shiftr (sx 64 (sx 32 val1 * sx 32 val2)) 32))
  | RvInstr32OpFunct3.Two, RvInstr32OpFunct7.Add => Ok (if sx 32 val1 <? sx 32 val2 then 1 else 0)
  | RvInstr32OpFunct3.Two, RvInstr32OpFunct7.Mul =>
      Ok (u32w (Z.shiftr (u64w (u64w (sx 32 val1) * val2)) 32))
  | RvInstr32OpFunct3.Three, RvInstr32OpFunct7.Add => Ok (if val1 <? val2 then 1 else 0)
  | RvInstr32OpFunct3.Three, RvInstr32OpFunct7.Mul => Ok (u32w (Z.shiftr (u64w (val1 * val2)) 32))
  | RvInstr32OpFunct3.Four, RvInstr32OpFunct7.Add => Ok (Z.lxor val1 val2)
  | RvInstr32OpFunct3.Four, RvInstr32OpFunct7.Mul =>
      let dividend := sx 32 val1 in
      let divisor := sx 32 val2 in
      if divisor =? 0 then Ok u32_max
      else if (dividend =? i32_min) && (divisor =? -1) then Ok (u32w dividend)
      else Ok (u32w (sx 32 (Z.quot dividend divisor)))
  | RvInstr32OpFunct3.Five, RvInstr32OpFunct7.Add => Ok (wrapping_shr val1 val2)
  | RvInstr32OpFunct3.Five, RvInstr32OpFunct7.Mul =>
      if val2 =? 0 then Ok u32_max else Ok (Z.quot val1 val2)
  | RvInstr32OpFunct3.Five, RvInstr32OpFunct7.Sub => Ok (u32w (wrapping_shr_i32 (sx 32 val1) val2))
  | RvInstr32OpFunct3.Six, RvInstr32OpFunct7.Add => Ok (Z.lor val1 val2)
  | RvInstr32OpFunct3.Six, RvInstr32OpFunct7.Mul =>
      let dividend := sx 32 val1 in
      let divisor := sx 32 val2 in
      if divisor =? 0 then Ok (u32w dividend)
      else if (dividend =? i32_min) && (divisor =? -1) then Ok 0
      else Ok (u32w (sx 32 (Z.rem dividend divisor)))
  | RvInstr32OpFunct3.Seven, RvInstr32OpFunct7.Add => Ok (Z.land val1 val2)
  | RvInstr32OpFunct3.Seven, RvInstr32OpFunct7.Mul =>
      if val2 =? 0 then Ok val1 else Ok (Z.rem val1 val2)
  | _, _ => ok_or (exec_bit_instr_op instr val1 val2) (RvException.illegal_instr instr)
  end.

(** * Immediate operations (op_imm.rs) *)

(** The value of [data] in [exec_op_imm_instr]. *)
Definition op_imm_data (instr reg : Z) : result RvException.t Z :=
  match exec_bit_instr_op_imm instr reg with
  | Some data => Ok data
  | None =>
      let imm := RvInstr32I.imm instr in
      match RvInstr32OpImmFunct3.from (RvInstr32I.funct3 instr) with
      | RvInstr32OpImmFunct3.Addi => Ok (u32w (reg + u32w imm))
      | RvInstr32OpImmFunct3.Sli =>
          match RvInstr32OpImmFunct7.from (RvInstr32I.funct7 instr) with
          | RvInstr32OpImmFunct7.Srli => Ok (wrapping_shl reg (RvInstr32I.shamt instr))
          | _ => Err (RvException.illegal_instr instr)
          end
      | RvInstr32OpImmFunct3.Slti => Ok (if sx 32 reg <? imm then 1 else 0)
      | RvInstr32OpImmFunct3.Sltiu => Ok (if reg <? u32w imm then 1 else 0)
      | RvInstr32OpImmFunct3.Xori => Ok (Z.lxor reg (u32w imm))
      | RvInstr32OpImmFunct3.Sri =>
          match RvInstr32OpImmFunct7.from (RvInstr32I.funct7 instr) with
          | RvInstr32OpImmFunct7.Srli => Ok (wrapping_shr reg (RvInstr32I.shamt instr))
          | RvInstr32OpImmFunct7.Srai =>
              Ok (u32w (wrapping_shr_i32 (sx 32 reg) (RvInstr32I.shamt instr)))
          | _ => Err (RvException.illegal_instr instr)
          end
      | RvInstr32OpImmFunct3.Ori => Ok (Z.lor reg (u32w imm))
      | RvInstr32OpImmFunct3.Andi => Ok (Z.land reg (u32w imm))
      | RvInstr32OpImmFunct3.Invalid => Err (RvException.illegal_instr instr)
      end
  end.
