(* ===== verification/Clock.v ===== *)
(** The emulator's clock (sw-emulator/lib/bus/src/clock.rs): actions scheduled
    for a time on a 64-bit counter that wraps, the actions that fire when the
    clock is advanced, and the timer of unbounded time that it implements. *)

From Stdlib Require Import Sorted.
From S2P Require Import Prelude.

(** * Actions *)

Module TimerAction.

Inductive t :=
  | Poll
  | WarmReset
  | UpdateReset
  | Nmi (mcause : Z)
  | SetNmiVec (addr : Z)
  | ExtInt (irq : Z) (can_wake : bool)
  | SetExtIntVec (addr : Z)
  | SetGlobalIntEn (en : bool)
  | SetExtIntEn (en : bool)
  | InternalTimerLocalInterrupt (timer_id : Z)
  | Halt
  | MachineTimerInterrupt.

#[global] Instance t_eq_dec : EqDecision t.
Proof. solve_decision. Defined.

Definition priority (a : t) : Z :=
  match a with
  | Poll => 0
  | Halt => 1
  | SetExtIntVec _ => 2
  | SetNmiVec _ => 3
  | SetGlobalIntEn _ => 4
  | SetExtIntEn _ => 5
  | WarmReset => 6
  | UpdateReset => 7
  | Nmi _ => 8
  | ExtInt _ _ => 9
  | InternalTimerLocalInterrupt _ => 10
  | MachineTimerInterrupt => 11
  end.

(** The derived order compares the position of the variant, then its
    fields. *)
Definition key (a : t) : list Z :=
  match a with
  | Poll => [0] | WarmReset => [1] | UpdateReset => [2]
  | Nmi mcause => [3; mcause] | SetNmiVec addr => [4; addr]
  | ExtInt irq can_wake => [5; irq; Z.b2z can_wake] | SetExtIntVec addr => [6; addr]
  | SetGlobalIntEn en => [7; Z.b2z en] | SetExtIntEn en => [8; Z.b2z en]
  | InternalTimerLocalInterrupt timer_id => [9; timer_id]
  | Halt => [10] | MachineTimerInterrupt => [11]
  end.

End TimerAction.

(** A scheduled action. The identity of the clock in [TimerActionId] is left
    out: there is one clock. *)
Record ActionHandle := mkAction { time : Z; id : Z; action : TimerAction.t }.

#[export] Instance ActionHandle_eq_dec : EqDecision ActionHandle.
Proof. solve_decision. Defined.

Fixpoint lex_ltb (k l : list Z) : bool :=
  match k, l with
  | _, [] => false
  | [], _ :: _ => true
  | x :: k, y :: l => (x <? y) || ((x =? y) && lex_ltb k l)
  end.
Definition handle_ltb (h g : ActionHandle) : bool :=
  lex_ltb (time h :: id h :: TimerAction.key (action h)) (time g :: id g :: TimerAction.key (action g)).

(** The [BTreeSet] of actions is a sorted list. *)
Fixpoint set_insert (h : ActionHandle) (l : list ActionHandle) : list ActionHandle :=
  match l with
  | [] => [h]
  | g :: l' => if decide (h = g) then l else if handle_ltb h g then h :: l else g :: set_insert h l'
  end.
Definition set_remove (h : ActionHandle) (l : list ActionHandle) : list ActionHandle :=
  filter (λ g, g ≠ h) l.

(** * The clock *)

Record Clock := mkClock {
  now : Z;
  next_action_time : option Z;
  next_action_id : Z;
  action_handles : list ActionHandle
}.

Definition clock_new : Clock := mkClock 0 None 0 [].

(** [u64::MAX >> 1]. *)
Definition HALF : Z := Z.shiftr (2 ^ 64 - 1) 1.

Definition has_fired (now action_time : Z) : bool := u64w (now - action_time) <? HALF.

Definition find_next_action (now : Z) (future : list ActionHandle) : option ActionHandle :=
  let search_start := u64w (now - HALF) in
  match list_find (λ h, search_start ≤ time h) future with
  | Some (_, h) => Some h
  | None => head future
  end.

Definition recompute_next_action_time (c : Clock) : Clock :=
  mkClock (now c) (time <$> find_next_action (now c) (action_handles c)) (next_action_id c)
    (action_handles c).

Definition hash_insert (a : TimerAction.t) (s : list TimerAction.t) : list TimerAction.t :=
  if decide (a ∈ s) then s else s ++ [a].

(** The loop of [remove_fired_actions]: it ends when an action has not fired
    or none is left, and removes one action per round. *)
Fixpoint remove_fired_loop (fuel : nat) (now : Z) (future : list ActionHandle)
    (fired : list TimerAction.t) : list ActionHandle * list TimerAction.t :=
  match fuel with
  | O => (future, fired)
  | S fuel =>
      match find_next_action now future with
      | None => (future, fired)
      | Some h =>
          if has_fired now (time h) then
            remove_fired_loop fuel now (set_remove h future) (hash_insert (action h) fired)
          else (future, fired)
      end
  end.

Definition remove_fired_actions (c : Clock) : Clock * list TimerAction.t :=
  let '(future, fired) :=
    remove_fired_loop (S (length (action_handles c))) (now c) (action_handles c) [] in
  (recompute_next_action_time (mkClock (now c) (next_action_time c) (next_action_id c) future), fired).

Definition clock_increment {E} (delta : Z) (c : Clock) : result E (list TimerAction.t) * Clock :=
  if delta <? HALF then
    let c := mkClock (u64w (now c + delta)) (next_action_time c) (next_action_id c) (action_handles c) in
    match next_action_time c with
    | Some t =>
        if has_fired (now c) t then
          let '(c, fired) := remove_fired_actions c in (Ok fired, c)
        else (Ok [], c)
    | None => (Ok [], c)
    end
  else (Abort Panic, c).

Definition schedule_action_at {E} (t : Z) (a : TimerAction.t) (c : Clock) : result E ActionHandle * Clock :=
  if u64w (t - now c) <? HALF then
    let h := mkAction t (next_action_id c) a in
    (Ok h, recompute_next_action_time
             (mkClock (now c) (next_action_time c) (u64w (next_action_id c + 1))
                (set_insert h (action_handles c))))
  else (Abort Panic, c).

Definition schedule_action_in {E} (ticks_from_now : Z) (a : TimerAction.t) (c : Clock) :
    result E ActionHandle * Clock :=
  schedule_action_at (u64w (now c + ticks_from_now)) a c.

Definition schedule_poll_in {E} (ticks_from_now : Z) (c : Clock) : result E ActionHandle * Clock :=
  schedule_action_in ticks_from_now TimerAction.Poll c.

Definition cancel (h : ActionHandle) (c : Clock) : Clock :=
  recompute_next_action_time
    (mkClock (now c) (next_action_time c) (next_action_id c) (set_remove h (action_handles c))).

(** [Timer::fired]: the handle that is left, and whether it has fired. *)
Definition fired (h : option ActionHandle) (c : Clock) : option ActionHandle * bool :=
  match h with
  | Some h' => if has_fired (now c) (time h') then (None, true) else (h, false)
  | None => (None, false)
  end.

(** * What fires, and when *)

Ltac tlia := unfold HALF, wrap, in_u in *; change (Z.shiftr (2 ^ 64 - 1) 1) with 9223372036854775807 in *;
  change (2 ^ 64) with 18446744073709551616 in *; Z.div_mod_to_equations; lia.

(** How far an action is ahead of the time [n]. *)
Definition ahead (n : Z) (h : ActionHandle) : Z := u64w (time h - n).

Definition by_time (h g : ActionHandle) : Prop := time h ≤ time g.

(** Scheduled actions are ahead of the clock by less than half of its range,
    and the clock knows the time of the next one. *)
Record clock_ok (c : Clock) : Prop := {
  ok_now : in_u 64 (now c);
  ok_sorted : StronglySorted by_time (action_handles c);
  ok_ahead : Forall (λ h, in_u 64 (time h) ∧ ahead (now c) h < HALF) (action_handles c);
  ok_next : match next_action_time c with
            | None => action_handles c = []
            | Some t => ∃ h, h ∈ action_handles c ∧ time h = t ∧
                        Forall (λ g, ahead (now c) h ≤ ahead (now c) g) (action_handles c)
            end
}.

Lemma sorted_lookup l i j h g :
  StronglySorted by_time l → (i < j)%nat → l !! i = Some h → l !! j = Some g → time h ≤ time g.
Proof.
  intros Hs. revert i j. induction Hs as [|x l Hs IH Hx]; intros i j Hij Hi Hj; [done|].
  destruct j as [|j]; [lia|]. destruct i as [|i]; simpl in *.
  - injection Hi as <-. rewrite Forall_lookup in Hx. by apply Hx in Hj.
  - apply (IH i j); [lia|done|done].
Qed.

Lemma find_next_spec n l :
  in_u 64 n → StronglySorted by_time l → Forall (λ h, in_u 64 (time h)) l →
  match find_next_action n l with
  | None => l = []
  | Some h => h ∈ l ∧
      Forall (λ g, u64w (time h - u64w (n - HALF)) ≤ u64w (time g - u64w (n - HALF))) l
  end.
Proof.
  intros Hn Hs Hl. unfold find_next_action. set (s := u64w (n - HALF)).
  assert (Hsu : in_u 64 s) by (apply wrap_in_u; lia). clearbody s.
  destruct (list_find _ _) as [[i h]|] eqn:E.
  - apply list_find_Some in E as (Hi & Hge & Hbefore). split; [by eapply list_elem_of_lookup_2|].
    apply Forall_lookup. intros j g Hj. rewrite Forall_lookup in Hl.
    pose proof (Hl _ _ Hi). pose proof (Hl _ _ Hj). destruct (decide (j < i)%nat) as [Hlt|Hle].
    + specialize (Hbefore _ _ Hj Hlt). tlia.
    + assert (time h ≤ time g); [|tlia]. destruct (decide (i = j)) as [->|Hne]; [naive_solver|].
      apply (sorted_lookup l i j); [done|lia|done|done].
  - apply list_find_None in E. destruct l as [|h l]; [done|]. simpl. split; [left|].
    apply Forall_cons in Hl as [Hh Hl]. apply StronglySorted_inv in Hs as [_ Hmin].
    apply Forall_cons in E as [Eh E].
    apply Forall_cons. split; [lia|]. rewrite !Forall_forall in *.
    intros g Hg. specialize (Hl g Hg). specialize (Hmin g Hg). specialize (E g Hg).
    unfold by_time in Hmin. cbv beta in *. tlia.
Qed.

Lemma hash_insert_elem a b s : a ∈ hash_insert b s ↔ a = b ∨ a ∈ s.
Proof.
  unfold hash_insert. case_decide; [split; [tauto|intros [->|?]; done]|].
  rewrite elem_of_app, list_elem_of_singleton. naive_solver.
Qed.

Lemma filter_sorted P `{∀ h, Decision (P h)} l :
  StronglySorted by_time l → StronglySorted by_time (filter P l).
Proof.
  induction 1 as [|h l Hs IH Hh]; [constructor|]. rewrite filter_cons. case_decide; [|done].
  constructor; [done|]. rewrite Forall_forall in *. intros g Hg.
  apply list_elem_of_filter in Hg as [_ Hg]. exact (Hh g Hg).
Qed.

Lemma forall_filter {A} (P Q : A → Prop) `{∀ h, Decision (P h)} l : Forall Q l → Forall Q (filter P l).
Proof.
  rewrite !Forall_forall. intros HQ h Hh. apply list_elem_of_filter in Hh as [_ Hh]. exact (HQ h Hh).
Qed.

Lemma filter_all {A} (P : A → Prop) `{∀ h, Decision (P h)} l : Forall P l → filter P l = l.
Proof. induction 1; [done|]. rewrite filter_cons_True by done. by f_equal. Qed.

(** The loop removes exactly the actions whose time has come. *)
Lemma remove_fired_loop_spec fuel n l fs :
  in_u 64 n → StronglySorted by_time l →
  Forall (λ h, in_u 64 (time h) ∧ u64w (time h - u64w (n - HALF)) ≠ 0) l →
  (length l < fuel)%nat →
  ∃ fs', remove_fired_loop fuel n l fs = (filter (λ h, has_fired n (time h) = false) l, fs') ∧
    ∀ a, a ∈ fs' ↔ a ∈ fs ∨ ∃ h, h ∈ l ∧ has_fired n (time h) = true ∧ action h = a.
Proof.
  intros Hn. revert l fs. induction fuel as [|fuel IH]; intros l fs Hs Hl Hf; [lia|]. simpl.
  pose proof (find_next_spec n l Hn Hs (Forall_impl _ _ _ Hl (λ h H, proj1 H))) as Hnext.
  destruct (find_next_action n l) as [h|]; [|subst l; exists fs; split; [done|set_solver]].
  destruct Hnext as [Hh Hmin]. destruct (has_fired n (time h)) eqn:Hfired.
  - destruct (IH (set_remove h l) (hash_insert (action h) fs)) as (fs' & -> & Hfs).
    + by apply filter_sorted.
    + by apply forall_filter.
    + eapply Nat.lt_le_trans; [apply (length_filter_lt _ _ h); [done|tauto]|lia].
    + exists fs'. split.
      * f_equal. unfold set_remove. rewrite list_filter_filter. apply list_filter_iff.
        intros g. split; [tauto|]. intros Hg. split; [done|]. congruence.
      * intros a. rewrite Hfs, hash_insert_elem. unfold set_remove. setoid_rewrite list_elem_of_filter.
        split; [naive_solver|]. intros [?|(g & Hg & ? & <-)]; [tauto|].
        destruct (decide (g = h)) as [->|]; [tauto|]. right. eauto.
  - exists fs. assert (Hno : Forall (λ g, has_fired n (time g) = false) l).
    { rewrite Forall_forall in *. intros g Hg. specialize (Hmin g Hg). destruct (Hl h Hh) as [? ?].
      destruct (Hl g Hg) as [? ?]. unfold has_fired in *. cbv beta in *.
      destruct (Z.ltb_spec (u64w (n - time h)) HALF); [done|]. apply Z.ltb_ge. tlia. }
    split; [f_equal; symmetry; by apply filter_all|].
    intros a. split; [tauto|]. intros [?|(g & Hg & Hgf & _)]; [done|].
    rewrite Forall_forall in Hno. rewrite (Hno g Hg) in Hgf. done.
Qed.

(** The actions due within [delta] cycles from [n]. *)
Definition due (n delta : Z) (h : ActionHandle) : bool := ahead n h <=? delta.

Lemma recompute_ok c :
  in_u 64 (now c) → StronglySorted by_time (action_handles c) →
  Forall (λ h, in_u 64 (time h) ∧ ahead (now c) h < HALF) (action_handles c) →
  clock_ok (recompute_next_action_time c).
Proof.
  intros Hn Hs Ha. constructor; [done..|]. simpl.
  pose proof (find_next_spec _ _ Hn Hs (Forall_impl _ _ _ Ha (λ h H, proj1 H))) as Hnext.
  destruct (find_next_action _ _) as [h|]; [|done]. destruct Hnext as [Hh Hmin].
  exists h. split_and!; [done..|]. rewrite Forall_forall in *. intros g Hg.
  specialize (Hmin g Hg). pose proof (Ha h Hh). pose proof (Ha g Hg). unfold ahead in *. tlia.
Qed.

Lemma clock_new_ok : clock_ok clock_new.
Proof. constructor; simpl; [done|constructor|constructor|done]. Qed.

Lemma set_insert_elem h g l : g ∈ set_insert h l ↔ g = h ∨ g ∈ l.
Proof.
  induction l as [|x l IH]; simpl; [set_solver|]. case_decide; [subst; set_solver|].
  destruct (handle_ltb h x); set_solver.
Qed.

Lemma set_insert_sorted h l : StronglySorted by_time l → StronglySorted by_time (set_insert h l).
Proof.
  induction 1 as [|x l Hs IH Hx]; simpl; [repeat constructor|]. case_decide; [by constructor|].
  unfold handle_ltb. simpl. destruct (Z.ltb_spec (time h) (time x)); simpl.
  { constructor; [by constructor|]. constructor; [unfold by_time; lia|].
    eapply Forall_impl; [done|]. unfold by_time. simpl. lia. }
  assert (Hrest : Forall (by_time x) (set_insert h l)).
  { rewrite Forall_forall in *. intros g [->|Hg]%set_insert_elem; [unfold by_time; lia|by apply Hx]. }
  case_match eqn:E; [|by constructor]. apply andb_true_iff in E as [E _].
  constructor; [by constructor|]. constructor; [unfold by_time; lia|].
  eapply Forall_impl; [done|]. unfold by_time. simpl. lia.
Qed.

Lemma schedule_action_in_ok {E} ticks a c :
  clock_ok c → 0 ≤ ticks < HALF →
  ∃ h c', schedule_action_in (E:=E) ticks a c = (Ok h, c') ∧ clock_ok c' ∧ now c' = now c ∧
    action h = a ∧ ahead (now c) h = ticks ∧
    ∀ g, g ∈ action_handles c' ↔ g = h ∨ g ∈ action_handles c.
Proof.
  intros [Hn Hs Ha _] Ht. unfold schedule_action_in, schedule_action_at.
  destruct (Z.ltb_spec (u64w (u64w (now c + ticks) - now c)) HALF) as [_|Hbad]; [|exfalso; tlia].
  eexists _, _. split; [done|]. split_and!; simpl; [|done|done|unfold ahead; simpl; tlia|].
  - apply recompute_ok; simpl; [done|by apply set_insert_sorted|].
    rewrite Forall_forall in *. intros g [->|Hg]%set_insert_elem; [|by apply Ha].
    unfold ahead. simpl. split; [apply wrap_in_u; lia|tlia].
  - intros g. apply set_insert_elem.
Qed.

Lemma cancel_ok h c : clock_ok c → clock_ok (cancel h c).
Proof.
  intros [Hn Hs Ha _]. apply recompute_ok; simpl; [done|by apply filter_sorted|by apply forall_filter].
Qed.

Lemma filter_ext_in {A} (P Q : A → Prop) `{∀ h, Decision (P h), ∀ h, Decision (Q h)} (l : list A) :
  (∀ h, h ∈ l → P h ↔ Q h) → filter P l = filter Q l.
Proof.
  induction l as [|x l IH]; intros HPQ; [done|]. rewrite !filter_cons, IH by set_solver.
  pose proof (HPQ x ltac:(left)). do 2 case_decide; tauto || done.
Qed.

Section Increment.
Context (c : Clock) (delta : Z) (Hc : clock_ok c) (Hd : 0 ≤ delta < HALF).
Local Abbreviation n := (u64w (now c + delta)).

Lemma has_fired_due h : h ∈ action_handles c → has_fired n (time h) = due (now c) delta h.
Proof.
  destruct Hc as [Hn _ Ha _]. rewrite Forall_forall in Ha. intros Hh. pose proof (Ha h Hh).
  unfold has_fired, due, ahead in *.
  destruct (Z.leb_spec (u64w (time h - now c)) delta); [apply Z.ltb_lt|apply Z.ltb_ge]; tlia.
Qed.

Lemma late_ahead h : h ∈ action_handles c → due (now c) delta h = false →
  ahead n h = ahead (now c) h - delta ∧ ahead n h < HALF.
Proof.
  destruct Hc as [Hn _ Ha _]. rewrite Forall_forall in Ha. intros Hh Hlate. pose proof (Ha h Hh).
  unfold due, ahead in *. apply Z.leb_gt in Hlate. tlia.
Qed.

Lemma late_times : Forall (λ h, in_u 64 (time h) ∧ ahead n h < HALF)
  (filter (λ h, due (now c) delta h = false) (action_handles c)).
Proof.
  apply Forall_forall. intros h [Hlate Hh]%list_elem_of_filter. destruct Hc as [_ _ Ha _].
  rewrite Forall_forall in Ha. pose proof (Ha h Hh). pose proof (late_ahead h Hh Hlate). tauto.
Qed.

(** The branch of [clock_increment] in which the next action has fired. *)
Lemma remove_fired_actions_spec nt nid :
  ∃ fs, remove_fired_actions (mkClock n nt nid (action_handles c)) =
      (recompute_next_action_time
         (mkClock n nt nid (filter (λ h, due (now c) delta h = false) (action_handles c))), fs) ∧
    ∀ a, a ∈ fs ↔ ∃ h, h ∈ action_handles c ∧ due (now c) delta h = true ∧ action h = a.
Proof.
  unfold remove_fired_actions. cbn [action_handles now next_action_time next_action_id].
  destruct Hc as [Hn Hs Ha _].
  destruct (remove_fired_loop_spec (S (length (action_handles c))) n (action_handles c) [])
    as (fs & -> & Hfs); [apply wrap_in_u; lia|done| |lia|].
  { eapply Forall_impl; [exact Ha|]. intros g [? ?]. unfold ahead in *. simpl in *. tlia. }
  exists fs. split.
  - rewrite (filter_ext_in _ (λ h, due (now c) delta h = false)); [done|].
    intros h Hh. by rewrite has_fired_due.
  - intros a. rewrite Hfs. split.
    + intros [?%elem_of_nil|(g & Hg & Hf & <-)]; [done|]. rewrite has_fired_due in Hf by done. eauto.
    + intros (g & Hg & Hf & <-). right. exists g. by rewrite has_fired_due.
Qed.

End Increment.

(** Advancing the clock fires exactly the actions that are due, leaves the
    others scheduled, and the clock's bookkeeping is right again. *)
Lemma clock_increment_spec {E} delta c :
  clock_ok c → 0 ≤ delta < HALF →
  ∃ fs c', clock_increment (E:=E) delta c = (Ok fs, c') ∧ clock_ok c' ∧
    now c' = u64w (now c + delta) ∧ next_action_id c' = next_action_id c ∧
    action_handles c' = filter (λ h, due (now c) delta h = false) (action_handles c) ∧
    ∀ a, a ∈ fs ↔ ∃ h, h ∈ action_handles c ∧ due (now c) delta h = true ∧ action h = a.
Proof.
  intros [Hn Hs Ha Hnext] Hd. unfold clock_increment. rewrite (proj2 (Z.ltb_lt delta HALF)) by lia.
  cbn [next_action_time now next_action_id action_handles].
  assert (Hn' : in_u 64 (u64w (now c + delta))) by (apply wrap_in_u; lia).
  pose proof (Build_clock_ok c Hn Hs Ha Hnext) as Hc.
  destruct (next_action_time c) as [t|] eqn:Et; [destruct Hnext as (h & Hh & Ht & Hmin)|].
  2: { eexists _, _. split; [done|]. simpl. rewrite Hnext. split_and!; try done.
       - constructor; simpl; [done|constructor|constructor|done].
       - set_solver. }
  destruct (has_fired (u64w (now c + delta)) t) eqn:Hf.
  - destruct (remove_fired_actions_spec c delta Hc Hd (Some t) (next_action_id c)) as (fs & -> & Hfs).
    eexists _, _. split; [done|]. split_and!; simpl; try done.
    apply recompute_ok; simpl; [done|by apply filter_sorted|by apply late_times].
  - assert (Hnone : Forall (λ g, due (now c) delta g = false) (action_handles c)).
    { subst t. rewrite has_fired_due in Hf by done. rewrite Forall_forall in *. intros g Hg.
      specialize (Hmin g Hg). unfold due in *. apply Z.leb_gt in Hf. apply Z.leb_gt. lia. }
    pose proof (late_times c delta Hc Hd) as Hlate. rewrite filter_all in * by done.
    eexists _, _. split; [done|]. rewrite Forall_forall in *. split_and!; simpl; try done.
    + constructor; simpl; [done|done|by apply Forall_forall|]. exists h. split_and!; [done..|].
      apply Forall_forall. intros g Hg.
      pose proof (late_ahead _ _ Hc Hd h Hh (Hnone h Hh)). specialize (Hmin g Hg).
      pose proof (late_ahead _ _ Hc Hd g Hg (Hnone g Hg)). lia.
    + intros a. split; [by intros ?%elem_of_nil|]. intros (g & Hg & Hgd & _).
      by rewrite (Hnone g Hg) in Hgd.
Qed.

(** * Programs of timer operations *)

(** What clients ask of the clock: to schedule an action, to cancel the [k]-th
    scheduled one, and to advance the time. *)
Inductive clock_op :=
  | Schedule (ticks : Z) (a : TimerAction.t)
  | Cancel (k : nat)
  | Advance (delta : Z).

Definition clock_op_ok (op : clock_op) : Prop :=
  match op with Schedule ticks _ => in_u 64 ticks | Cancel _ => True | Advance delta => in_u 64 delta end.

(** An operation on the clock, with the handles given out so far, and the
    actions that fire in it. *)
Definition clock_do {E} (op : clock_op) (hs : list ActionHandle) (c : Clock) :
    result E (list TimerAction.t) * (list ActionHandle * Clock) :=
  match op with
  | Schedule ticks a =>
      match schedule_action_in ticks a c with
      | (Ok h, c) => (Ok [], (hs ++ [h], c))
      | (Err e, c) => (Err e, (hs, c))
      | (Abort f, c) => (Abort f, (hs, c))
      end
  | Cancel k => (Ok [], (hs, match hs !! k with Some h => cancel h c | None => c end))
  | Advance delta => let '(r, c) := clock_increment delta c in (r, (hs, c))
  end.

Fixpoint clock_run {E} (ops : list clock_op) (hs : list ActionHandle) (c : Clock) :
    result E (list (list TimerAction.t)) :=
  match ops with
  | [] => Ok []
  | op :: ops =>
      let '(r, (hs, c)) := clock_do op hs c in
      fs ← r; rest ← clock_run ops hs c; Ok (fs :: rest)
  end.

(** The timer that the clock implements: an unbounded time, and for every
    action ever scheduled its deadline while it is waiting. An interval of half
    the range of the counter or more is refused. *)
Record Timer := mkTimer { elapsed : Z; plan : list (option (Z * TimerAction.t)) }.

Definition timer_new : Timer := mkTimer 0 [].

Definition timer_do (op : clock_op) (t : Timer) : option (list TimerAction.t * Timer) :=
  match op with
  | Schedule ticks a =>
      if ticks <? HALF then Some ([], mkTimer (elapsed t) (plan t ++ [Some (elapsed t + ticks, a)])) else None
  | Cancel k => Some ([], mkTimer (elapsed t) (<[k := None]> (plan t)))
  | Advance delta =>
      if delta <? HALF then
        Some (omap (λ e, '(d, a) ← e; if d <=? elapsed t + delta then Some a else None) (plan t),
              mkTimer (elapsed t + delta)
                ((λ e, '(d, a) ← e; if d <=? elapsed t + delta then None else Some (d, a)) <$> plan t))
      else None
  end.

Fixpoint timer_run (ops : list clock_op) (t : Timer) : option (list (list TimerAction.t)) :=
  match ops with
  | [] => Some []
  | op :: ops => '(fs, t) ← timer_do op t; rest ← timer_run ops t; Some (fs :: rest)
  end.

(** The clock shows the time modulo 2^64, and its set of handles holds those of
    the waiting actions and no others. *)
Record clock_sim (hs : list ActionHandle) (c : Clock) (t : Timer) : Prop := {
  sim_ok : clock_ok c;
  sim_now : now c = u64w (elapsed t);
  sim_next : next_action_id c = u64w (Z.of_nat (length hs));
  sim_len : length (plan t) = length hs;
  sim_ids : ∀ k h, hs !! k = Some h → id h = Z.of_nat k;
  sim_handles : ∀ h, h ∈ action_handles c → h ∈ hs;
  sim_plan : ∀ k h, hs !! k = Some h →
    match plan t !! k with
    | Some (Some (d, a)) => h ∈ action_handles c ∧ time h = u64w d ∧ action h = a ∧ elapsed t ≤ d < elapsed t + HALF
    | _ => h ∉ action_handles c
    end
}.

Lemma clock_new_sim : clock_sim [] clock_new timer_new.
Proof. split; try done. exact clock_new_ok. Qed.

Lemma schedule_sim {E} ticks a hs c t :
  clock_sim hs c t → 0 ≤ ticks < HALF → Z.of_nat (length hs) < 2 ^ 64 →
  ∃ h c', schedule_action_in (E:=E) ticks a c = (Ok h, c') ∧
    clock_sim (hs ++ [h]) c' (mkTimer (elapsed t) (plan t ++ [Some (elapsed t + ticks, a)])).
Proof.
  intros S Ht Hlen. destruct S as [Hok Hnow Hnext Hl Hids Hhs Hplan].
  destruct (schedule_action_in_ok (E:=E) ticks a c Hok Ht) as (h & c' & Es & Hok' & Hn & Ha & Hah & Hin).
  assert (Hh : h = mkAction (u64w (now c + ticks)) (next_action_id c) a ∧
               next_action_id c' = u64w (next_action_id c + 1)).
  { unfold schedule_action_in, schedule_action_at in Es. case_match; [|done]. by injection Es as <- <-. }
  destruct Hh as [Hh Hid']. assert (Hid : next_action_id c = Z.of_nat (length hs)) by (rewrite Hnext; tlia).
  assert (Hnew : ∀ k g, hs !! k = Some g → g ≠ h).
  { intros k g Hk ->. pose proof (Hids _ _ Hk) as Hi. rewrite Hh in Hi. cbn in Hi.
    apply lookup_lt_Some in Hk. lia. }
  exists h, c'. split; [done|]. split; cbn [elapsed plan]; try done.
  - congruence.
  - rewrite Hid', Hid, length_app. cbn [length]. f_equal. lia.
  - rewrite !length_app. simpl. lia.
  - intros k g [Hk|[Hk Hg]]%lookup_app_Some; [by apply Hids|].
    apply list_lookup_singleton_Some in Hg as [? <-]. rewrite Hh. cbn. lia.
  - intros g [->|Hg]%Hin; [set_solver|]. apply elem_of_app. left. by apply Hhs.
  - intros k g [Hk|[Hk Hg]]%lookup_app_Some.
    + pose proof (lookup_lt_Some _ _ _ Hk). rewrite lookup_app_l by lia. specialize (Hplan k g Hk).
      pose proof (Hnew _ _ Hk). repeat case_match; rewrite Hin; tauto.
    + apply list_lookup_singleton_Some in Hg as [? <-]. rewrite lookup_app_r by lia.
      replace (k - length (plan t))%nat with 0%nat by lia. cbn. rewrite Hin, Ha, Hh. cbn.
      split_and!; [by left| |done|lia|lia]. rewrite Hnow. tlia.
Qed.

Lemma cancel_sim k hs c t : clock_sim hs c t →
  clock_sim hs (match hs !! k with Some h => cancel h c | None => c end) (mkTimer (elapsed t) (<[k := None]> (plan t))).
Proof.
  intros S. destruct (hs !! k) as [h|] eqn:Hk.
  2: { rewrite list_insert_ge; [by destruct t|]. rewrite (sim_len _ _ _ S). by apply lookup_ge_None. }
  destruct S as [Hok Hnow Hnext Hl Hids Hhs Hplan].
  assert (Hin : ∀ g, g ∈ action_handles (cancel h c) ↔ g ≠ h ∧ g ∈ action_handles c).
  { intros g. cbn. unfold set_remove. by rewrite list_elem_of_filter. }
  split; cbn [elapsed plan]; try done.
  - by apply cancel_ok.
  - by rewrite length_insert.
  - intros g [_ Hg]%Hin. by apply Hhs.
  - intros j g Hj. destruct (decide (j = k)) as [->|Hne].
    + pose proof (lookup_lt_Some _ _ _ Hk). rewrite list_lookup_insert_eq by lia. rewrite Hin. naive_solver.
    + rewrite list_lookup_insert_ne by done. specialize (Hplan j g Hj).
      assert (g ≠ h) by (intros ->; pose proof (Hids _ _ Hj); pose proof (Hids _ _ Hk); lia).
      repeat case_match; rewrite Hin; tauto.
Qed.

Lemma due_deadline d n delta h : elapsed n ≤ d < elapsed n + HALF → time h = u64w d →
  due (u64w (elapsed n)) delta h = (d <=? elapsed n + delta).
Proof.
  intros Hd Hh. unfold due, ahead. rewrite Hh. apply eq_true_iff_eq. rewrite !Z.leb_le.
  assert (u64w (u64w d - u64w (elapsed n)) = d - elapsed n) by tlia. lia.
Qed.

Lemma advance_sim {E} delta hs c t : clock_sim hs c t → 0 ≤ delta < HALF →
  ∃ fs fs' c' t', clock_increment (E:=E) delta c = (Ok fs, c') ∧ timer_do (Advance delta) t = Some (fs', t') ∧
    clock_sim hs c' t' ∧ ∀ a, a ∈ fs ↔ a ∈ fs'.
Proof.
  intros S Hd. destruct S as [Hok Hnow Hnext Hl Hids Hhs Hplan].
  destruct (clock_increment_spec (E:=E) delta c Hok Hd) as (fs & c' & Ei & Hok' & Hn & Hid & Hh & Hfs).
  unfold timer_do. rewrite (proj2 (Z.ltb_lt delta HALF)) by lia. eexists fs, _, c', _.
  split; [done|]. split; [done|]. split; [split; cbn [elapsed plan]|].
  - done.
  - rewrite Hn, Hnow. tlia.
  - congruence.
  - by rewrite length_fmap.
  - done.
  - intros h. rewrite Hh. intros [_ Hin]%list_elem_of_filter. by apply Hhs.
  - intros k h Hk. specialize (Hplan k h Hk). rewrite list_lookup_fmap.
    assert (Hin' := list_elem_of_filter (λ h, due (now c) delta h = false) (action_handles c) h). rewrite <-Hh in Hin'.
    destruct (plan t !! k) as [[[d a]|]|]; cbn; [|tauto|tauto].
    destruct Hplan as (Hin & Ht & Ha & Hr). pose proof (due_deadline d t delta h Hr Ht) as Hdue.
    rewrite <-Hnow in Hdue. destruct (Z.leb_spec d (elapsed t + delta)); rewrite Hdue in Hin'; rewrite Hin'; [naive_solver|].
    split_and!; try done; lia.
  - intros a. rewrite Hfs, list_elem_of_omap. split.
    + intros (h & Hin & Hdue & <-). destruct (list_elem_of_lookup_1 _ _ (Hhs h Hin)) as [k Hk].
      specialize (Hplan k h Hk). destruct (plan t !! k) as [[[d b]|]|] eqn:Hp; [|done|done].
      destruct Hplan as (_ & Ht & Ha & Hr). rewrite Hnow, (due_deadline d t delta h Hr Ht) in Hdue.
      exists (Some (d, b)). split; [by eapply list_elem_of_lookup_2|]. cbn. by rewrite Hdue, Ha.
    + intros (e & [k Hp]%list_elem_of_lookup_1 & He). destruct e as [[d b]|]; [|done]. cbn in He.
      destruct (lookup_lt_is_Some_2 hs k) as [h Hk]; [rewrite <-Hl; by eapply lookup_lt_Some|].
      specialize (Hplan k h Hk). rewrite Hp in Hplan. destruct Hplan as (Hin & Ht & <- & Hr).
      exists h. rewrite Hnow, (due_deadline d t delta h Hr Ht). case_match; [|done]. by injection He.
Qed.

Lemma clock_do_sim {E} op hs c t :
  clock_op_ok op → clock_sim hs c t → Z.of_nat (length hs) < 2 ^ 64 →
  match timer_do op t with
  | Some (fs, t') => ∃ fs' hs' c', clock_do (E:=E) op hs c = (Ok fs', (hs', c')) ∧ clock_sim hs' c' t' ∧
      (length hs' ≤ length hs + 1)%nat ∧ ∀ a, a ∈ fs' ↔ a ∈ fs
  | None => fst (clock_do (E:=E) op hs c) = Abort Panic
  end.
Proof.
  intros Hop Hsim Hlen. destruct op as [ticks a|k|delta]; cbn [clock_op_ok clock_do] in *.
  - unfold timer_do. destruct (Z.ltb_spec ticks HALF).
    + destruct (schedule_sim (E:=E) ticks a hs c t Hsim) as (h & c' & -> & Hsim'); [unfold in_u in *; lia|lia|].
      exists [], (hs ++ [h]), c'. split; [done|]. split; [done|]. rewrite length_app. simpl. split; [lia|done].
    + unfold schedule_action_in, schedule_action_at. pose proof (ok_now _ (sim_ok _ _ _ Hsim)).
      rewrite (proj2 (Z.ltb_ge _ _)) by tlia. done.
  - cbn [timer_do]. eexists [], hs, _. split; [done|]. split; [by apply cancel_sim|]. split; [lia|done].
  - destruct (Z.ltb_spec delta HALF) as [Hlt|Hge].
    + destruct (advance_sim (E:=E) delta hs c t Hsim) as (fs & fs' & c' & t' & -> & -> & Hsim' & Hf);
        [unfold in_u in *; lia|].
      exists fs, hs, c'. split; [done|]. split; [done|]. split; [lia|done].
    + unfold timer_do, clock_increment. by rewrite (proj2 (Z.ltb_ge _ _) Hge).
Qed.

(** Programs of the clock do what they do on the timer. *)
Lemma clock_run_refines {E} ops hs c t :
  Forall clock_op_ok ops → clock_sim hs c t → Z.of_nat (length hs + length ops) ≤ 2 ^ 64 →
  match timer_run ops t with
  | Some outs => ∃ outs', clock_run (E:=E) ops hs c = Ok outs' ∧ Forall2 (λ fs fs', ∀ a, a ∈ fs ↔ a ∈ fs') outs' outs
  | None => clock_run (E:=E) ops hs c = Abort Panic
  end.
Proof.
  intros Hops. revert hs c t. induction Hops as [|op ops Hop Hops IH]; intros hs c t Hsim Hlen; [by exists []|].
  cbn [length] in Hlen. pose proof (clock_do_sim (E:=E) op hs c t Hop Hsim ltac:(lia)) as Hstep.
  cbn [timer_run clock_run]. destruct (timer_do op t) as [[fs t']|]; cbn [mbind option_bind].
  - destruct Hstep as (fs' & hs' & c' & -> & Hsim' & Hl' & Hf). cbn [mbind res_bind].
    specialize (IH hs' c' t' Hsim'). destruct (timer_run ops t') as [outs|]; cbn [mbind option_bind].
    + destruct IH as (outs' & -> & Ho); [lia|]. exists (fs' :: outs'). split; [done|]. by constructor.
    + rewrite IH by lia. done.
  - destruct (clock_do op hs c) as [r [hs' c']]. cbn in Hstep. by rewrite Hstep.
Qed.
