(* ===== verification/Pic.v ===== *)
(** The interrupt controller of the emulator (sw-emulator/lib/cpu/src/pic.rs):
    gateways, pending and enable bits, and the order of priorities that is kept
    up to date so that the interrupt to serve is found from one bit mask. *)

From stdpp Require Import sorting.
From S2P Require Import Prelude Bits Memory RvTypes RvAlu Clock.

Definition MAX_PRIORITY : Z := 15.

(** * Bit masks *)

Module Bits256.

Record t := mk { bits0 : Z; bits1 : Z }.

Definition new : t := mk 0 0.
Definition word (b : t) (i : Z) : Z := if i =? 0 then bits0 b else bits1 b.
Definition set_word (b : t) (i v : Z) : t := if i =? 0 then mk v (bits1 b) else mk (bits0 b) v.

Definition all_bits_cleared (b : t) : bool := (bits0 b =? 0) && (bits1 b =? 0).

Definition first_set_index (b : t) : option Z :=
  if all_bits_cleared b then None
  else
    let a := trailing_zeros_n 128 (bits0 b) in
    let c := trailing_zeros_n 128 (bits1 b) in
    if a =? 128 then Some (128 + c) else Some a.

Definition get (b : t) (idx : Z) : bool :=
  negb (Z.land (word b (idx / 128)) (Z.shiftl 1 (idx mod 128)) =? 0).

Definition set (idx : Z) (val : bool) (b : t) : t :=
  let mask := Z.shiftl 1 (idx mod 128) in
  if val then set_word b (idx / 128) (Z.lor (word b (idx / 128)) mask)
  else set_word b (idx / 128) (Z.ldiff (word b (idx / 128)) mask).

End Bits256.

Module Bits32.

Definition get (b idx : Z) : bool := negb (Z.land b (Z.shiftl 1 idx) =? 0).
Definition set (idx : Z) (val : bool) (b : Z) : Z :=
  let mask := Z.shiftl 1 idx in if val then Z.lor b mask else Z.ldiff b mask.

End Bits32.

(** * Registers *)

Record PicImplRegs := mkRegs {
  meipl : list Z;
  meip : list Z;
  meie : list Z;
  mpiccfg : Z;
  meigwctrl : list Z
}.

Definition regs_new : PicImplRegs :=
  mkRegs (replicate 256 0) (replicate 8 0) (replicate 256 0) 0 (replicate 256 0).

Definition set_meipl v r := mkRegs v (meip r) (meie r) (mpiccfg r) (meigwctrl r).
Definition set_meip v r := mkRegs (meipl r) v (meie r) (mpiccfg r) (meigwctrl r).
Definition set_meie v r := mkRegs (meipl r) (meip r) v (mpiccfg r) (meigwctrl r).
Definition set_mpiccfg v r := mkRegs (meipl r) (meip r) (meie r) v (meigwctrl r).
Definition set_meigwctrl v r := mkRegs (meipl r) (meip r) (meie r) (mpiccfg r) v.

(** A register of an array; indices are below the length everywhere. *)
Definition nth_reg (l : list Z) (i : Z) : Z := default 0 (l !! Z.to_nat i).

Definition meipl_priority (r : Z) : Z := fget 0 4 r.
Definition mpiccfg_reverse (r : Z) : bool := fget 0 1 r =? 1.
Definition meie_inten (r : Z) : bool := fget 0 1 r =? 1.
Definition meigwctrl_polarity (r : Z) : bool := fget 0 1 r =? 1.
Definition meigwctrl_edge (r : Z) : bool := fget 1 1 r =? 1.

(** [ReadWriteRegisterArray] of 256 words (sw-emulator/lib/bus/src/register_array.rs). *)
Definition array_read (l : list Z) (addr : Z) : bus Z :=
  if addr mod 4 =? 0 then ok_or (l !! Z.to_nat (addr / 4)) LoadAccessFault
  else Err LoadAddrMisaligned.
Definition array_write (l : list Z) (size : RvSize) (addr val : Z) : bus (list Z) :=
  match size with
  | Word =>
      if addr mod 4 =? 0 then
        if (Z.to_nat (addr / 4) <? length l)%nat then Ok (<[Z.to_nat (addr / 4) := val]> l)
        else Err StoreAccessFault
      else Err StoreAddrMisaligned
  | _ => Err StoreAccessFault
  end.

(** The accesses that [derive(Bus)] generates for the registers. *)
Definition regs_read (size : RvSize) (addr : Z) (r : PicImplRegs) : bus Z :=
  if (0x1000 <=? addr) && (addr <=? 0x101c) && (addr mod 4 =? 0) then
    Ok (nth_reg (meip r) ((addr - 0x1000) / 4))
  else if addr =? 0x3000 then
    match size with Word => Ok (mpiccfg r) | _ => Err LoadAccessFault end
  else if addr <=? 0x3ff then array_read (meipl r) addr
  else if (0x2000 <=? addr) && (addr <=? 0x23ff) then array_read (meie r) (addr - 0x2000)
  else if (0x4000 <=? addr) && (addr <=? 0x43ff) then array_read (meigwctrl r) (addr - 0x4000)
  else Err LoadAccessFault.

Definition regs_write (size : RvSize) (addr val : Z) (r : PicImplRegs) : bus PicImplRegs :=
  if (0x1000 <=? addr) && (addr <=? 0x101c) && (addr mod 4 =? 0) then
    match size with
    | Word => Ok (set_meip (<[Z.to_nat ((addr - 0x1000) / 4) := val]> (meip r)) r)
    | _ => Err StoreAccessFault
    end
  else if addr =? 0x3000 then
    match size with Word => Ok (set_mpiccfg val r) | _ => Err StoreAccessFault end
  else if addr <=? 0x3ff then
    l ← array_write (meipl r) size addr val; Ok (set_meipl l r)
  else if (0x2000 <=? addr) && (addr <=? 0x23ff) then
    l ← array_write (meie r) size (addr - 0x2000) val; Ok (set_meie l r)
  else if (0x4000 <=? addr) && (addr <=? 0x43ff) then
    l ← array_write (meigwctrl r) size (addr - 0x4000) val; Ok (set_meigwctrl l r)
  else Err StoreAccessFault.

(** * The controller *)

Record IrqPriority := mkPrio { priority_xored : Z; irq_id : Z }.

(** The derived order: the priority first, then the number. *)
Definition prio_le (p q : IrqPriority) : Prop :=
  priority_xored p < priority_xored q ∨
  priority_xored p = priority_xored q ∧ irq_id p ≤ irq_id q.

#[export] Instance prio_le_dec : RelDecision prio_le.
Proof. intros p q. unfold prio_le. apply _. Defined.

Record Pic := mkPic {
  regs : PicImplRegs;
  irq_levels : Bits256.t;
  gw_pending_ff : Bits256.t;
  priority_order : list IrqPriority;
  id_to_order : list Z;
  ordered_irq_pending : Bits256.t;
  priority_xor : Z
}.

Definition set_regs v p := mkPic v (irq_levels p) (gw_pending_ff p) (priority_order p) (id_to_order p)
  (ordered_irq_pending p) (priority_xor p).
Definition set_irq_levels v p := mkPic (regs p) v (gw_pending_ff p) (priority_order p) (id_to_order p)
  (ordered_irq_pending p) (priority_xor p).
Definition set_gw_pending_ff v p := mkPic (regs p) (irq_levels p) v (priority_order p) (id_to_order p)
  (ordered_irq_pending p) (priority_xor p).
Definition set_ordered v p := mkPic (regs p) (irq_levels p) (gw_pending_ff p) (priority_order p)
  (id_to_order p) v (priority_xor p).
Definition set_order order ids x p := mkPic (regs p) (irq_levels p) (gw_pending_ff p) order ids
  (ordered_irq_pending p) x.

(** The threshold is asserted to be at most [MAX_PRIORITY]. *)
Definition highest_priority_irq {E} (prithresh : Z) (p : Pic) : result E (option Z) :=
  if prithresh <=? MAX_PRIORITY then
    match Bits256.first_set_index (ordered_irq_pending p) with
    | Some idx =>
        let firing_irq := default (mkPrio 0 0) (priority_order p !! Z.to_nat idx) in
        if priority_xored firing_irq <? Z.lxor prithresh (priority_xor p) then Ok (Some (irq_id firing_irq))
        else Ok None
    | None => Ok None
    end
  else Abort Panic.

Definition set_ordered_irq_pending (id : Z) (is_pending : bool) (p : Pic) : Pic :=
  let enabled := meie_inten (nth_reg (meie (regs p)) id) in
  set_ordered (Bits256.set (nth_reg (id_to_order p) id) (enabled && is_pending)
                 (ordered_irq_pending p)) p.

Definition irq_set_level (id : Z) (is_high : bool) (p : Pic) : Pic :=
  let p := set_irq_levels (Bits256.set id is_high (irq_levels p)) p in
  let ctrl := nth_reg (meigwctrl (regs p)) id in
  let is_high := xorb is_high (meigwctrl_polarity ctrl) in
  let p := if is_high then set_gw_pending_ff (Bits256.set id true (gw_pending_ff p)) p else p in
  let is_high := if meigwctrl_edge ctrl then Bits256.get (gw_pending_ff p) id else is_high in
  let w := nth_reg (meip (regs p)) (id / 32) in
  let p := set_regs (set_meip (<[Z.to_nat (id / 32) := Bits32.set (id mod 32) is_high w]> (meip (regs p)))
                       (regs p)) p in
  set_ordered_irq_pending id is_high p.

Definition refresh_gateway (id : Z) (p : Pic) : Pic :=
  irq_set_level id (Bits256.get (irq_levels p) id) p.

Definition refresh_enabled (id : Z) (p : Pic) : Pic :=
  set_ordered_irq_pending id (Bits32.get (nth_reg (meip (regs p)) (id / 32)) (id mod 32)) p.

Definition irq_priority (r : PicImplRegs) (x i : Z) : IrqPriority :=
  if i =? 0 then mkPrio 0 0
  else mkPrio (Z.lxor (meipl_priority (nth_reg (meipl r) i)) x) i.

Definition refresh_order (p : Pic) : Pic :=
  let x := if mpiccfg_reverse (mpiccfg (regs p)) then 0x00 else 0x0f in
  let priorities := merge_sort prio_le (irq_priority (regs p) x <$> seqZ 0 256) in
  let ids := foldl (λ ids '(index, q), <[Z.to_nat (irq_id q) := index]> ids) (replicate 256 0)
               (zip (seqZ 0 256) priorities) in
  let p := set_order priorities ids x p in
  foldl (λ p i, refresh_enabled i p) p (seqZ 0 256).

Definition pic_new : Pic :=
  refresh_order
    (mkPic regs_new Bits256.new Bits256.new (replicate 256 (mkPrio 0 0)) (replicate 256 0)
       Bits256.new 0).

(** [Pic::highest_priority_irq_total]: the thresholds are tried downwards. *)
Fixpoint first_above {E} (ts : list Z) (p : Pic) : result E (option Z) :=
  match ts with
  | [] => Ok None
  | t :: ts =>
      r ← highest_priority_irq t p;
      match r with
      | Some irq => Ok (Some irq)
      | None => first_above ts p
      end
  end.
Definition highest_priority_irq_total {E} (p : Pic) : result E (option Z) :=
  first_above (reverse (seqZ 0 MAX_PRIORITY)) p.

(** * The bus interface *)

Definition MEIPL_OFFSET : Z := 0x0000.
Definition MEIPL_MIN : Z := MEIPL_OFFSET + 4.
Definition MEIPL_MAX : Z := MEIPL_OFFSET + 255 * 4.
Definition MEIE_OFFSET : Z := 0x2000.
Definition MEIE_MIN : Z := MEIE_OFFSET + 4.
Definition MEIE_MAX : Z := MEIE_OFFSET + 255 * 4.
Definition MPICCFG_OFFSET : Z := 0x3000.
Definition MEIGWCTRL_OFFSET : Z := 0x4000.
Definition MEIGWCTRL_MIN : Z := MEIGWCTRL_OFFSET + 4.
Definition MEIGWCTRL_MAX : Z := MEIGWCTRL_OFFSET + 255 * 4.
Definition MEIGWCLR_OFFSET : Z := 0x5000.
Definition MEIGWCLR_MIN : Z := MEIGWCLR_OFFSET + 4.
Definition MEIGWCLR_MAX : Z := MEIGWCLR_OFFSET + 255 * 4.

Definition irq_id_from_addr (addr : Z) : Z := Z.land addr 0x3ff / 4.

(** The first element of each register array is invalid. *)
Definition reserved_addr (addr : Z) : bool :=
  (addr =? MEIPL_OFFSET) || (addr =? MEIE_OFFSET) || (addr =? MEIGWCTRL_OFFSET)
  || (addr =? MEIGWCLR_OFFSET).

Definition between (lo hi addr : Z) : bool := (lo <=? addr) && (addr <=? hi).

Definition pic_read (size : RvSize) (addr : Z) (p : Pic) : bus Z :=
  if reserved_addr addr then Err LoadAccessFault
  else if between MEIGWCLR_MIN MEIGWCLR_MAX addr then Ok 0
  else regs_read size addr (regs p).

Definition pic_write (size : RvSize) (addr val : Z) (p : Pic) : bus Pic :=
  if reserved_addr addr then Err StoreAccessFault
  else if between MEIGWCTRL_MIN MEIGWCTRL_MAX addr then
    r ← regs_write size addr val (regs p);
    Ok (refresh_gateway (irq_id_from_addr addr) (set_regs r p))
  else if between MEIGWCLR_MIN MEIGWCLR_MAX addr then
    let id := irq_id_from_addr addr in
    Ok (refresh_gateway id (set_gw_pending_ff (Bits256.set id false (gw_pending_ff p)) p))
  else if between MEIPL_MIN MEIPL_MAX addr || (addr =? MPICCFG_OFFSET) then
    r ← regs_write size addr val (regs p);
    Ok (refresh_order (set_regs r p))
  else if between MEIE_MIN MEIE_MAX addr then
    r ← regs_write size addr val (regs p);
    Ok (refresh_enabled (irq_id_from_addr addr) (set_regs r p))
  else
    r ← regs_write size addr val (regs p);
    Ok (set_regs r p).

(** [PicMmioRegisters::poll]: the interrupt to serve is announced to the
    processor after two cycles. *)
Definition pic_poll {E} (p : Pic) (c : Clock) : result E unit * Clock :=
  let EXT_INT_DELAY := 2 in
  let schedule irq := let '(r, c) := schedule_action_in EXT_INT_DELAY (TimerAction.ExtInt irq true) c in
                      ((λ _, tt) <$> r, c) in
  match highest_priority_irq (MAX_PRIORITY - 1) p with
  | Ok (Some irq) => schedule irq
  | Ok None =>
      match highest_priority_irq 0 p with
      | Ok (Some irq) => schedule irq
      | Ok None => (Ok tt, c)
      | Err e => (Err e, c)
      | Abort w => (Abort w, c)
      end
  | Err e => (Err e, c)
  | Abort w => (Abort w, c)
  end.
