(* ===== verification/PicProofs.v ===== *)
(** The interrupt controller serves the right interrupt: the ordered bit mask
    always agrees with the pending and enable bits and the priorities, so that
    its first bit is the enabled pending interrupt of the highest priority. *)

From stdpp Require Import sorting.
From S2P Require Import Prelude Bits Memory RvTypes RvAlu Clock Pic.

(** * Bit masks *)

Lemma bit_mask w k : 0 ≤ k → negb (Z.land w (Z.shiftl 1 k) =? 0) = Z.testbit w k.
Proof.
  intros Hk. rewrite Z.shiftl_1_l. destruct (Z.testbit w k) eqn:E.
  - apply negb_true_iff, Z.eqb_neq. intros H0. apply (f_equal (λ z, Z.testbit z k)) in H0.
    rewrite Z.land_spec, E, Z.pow2_bits_true, Z.bits_0 in H0 by lia. done.
  - apply negb_false_iff, Z.eqb_eq, Z.bits_inj'. intros i Hi. rewrite Z.land_spec, Z.bits_0.
    destruct (decide (i = k)) as [->|Hne]; [by rewrite E|]. rewrite Z.pow2_bits_false by lia.
    by rewrite andb_false_r.
Qed.

Lemma set_mask_bit (v : bool) w k i : 0 ≤ k → 0 ≤ i →
  Z.testbit (if v then Z.lor w (Z.shiftl 1 k) else Z.ldiff w (Z.shiftl 1 k)) i =
  if decide (i = k) then v else Z.testbit w i.
Proof.
  intros Hk Hi. rewrite Z.shiftl_1_l. destruct v; rewrite ?Z.lor_spec, ?Z.ldiff_spec;
    case_decide as E; subst; rewrite ?Z.pow2_bits_true by lia; rewrite ?Z.pow2_bits_false by lia;
    by rewrite ?orb_true_r, ?andb_false_r, ?orb_false_r, ?andb_true_r.
Qed.

Lemma bits32_get_set idx idx' v b : 0 ≤ idx → 0 ≤ idx' →
  Bits32.get (Bits32.set idx v b) idx' = if decide (idx' = idx) then v else Bits32.get b idx'.
Proof. intros. unfold Bits32.get, Bits32.set. by rewrite !bit_mask, set_mask_bit by lia. Qed.

Lemma bits256_get_word b idx : 0 ≤ idx →
  Bits256.get b idx = Z.testbit (Bits256.word b (idx / 128)) (idx mod 128).
Proof. intros. unfold Bits256.get. rewrite bit_mask; [done|dlia]. Qed.

Lemma word_set_word b i j v : 0 ≤ i < 2 → 0 ≤ j < 2 →
  Bits256.word (Bits256.set_word b i v) j = if decide (j = i) then v else Bits256.word b j.
Proof.
  intros Hi Hj. unfold Bits256.word, Bits256.set_word.
  destruct (Z.eqb_spec i 0), (Z.eqb_spec j 0); case_decide; done || lia.
Qed.

Lemma set_eq idx v b :
  Bits256.set idx v b =
  Bits256.set_word b (idx / 128)
    (if v then Z.lor (Bits256.word b (idx / 128)) (Z.shiftl 1 (idx mod 128))
     else Z.ldiff (Bits256.word b (idx / 128)) (Z.shiftl 1 (idx mod 128))).
Proof. unfold Bits256.set. by destruct v. Qed.

Lemma bits256_get_set idx idx' v b : 0 ≤ idx < 256 → 0 ≤ idx' < 256 →
  Bits256.get (Bits256.set idx v b) idx' = if decide (idx' = idx) then v else Bits256.get b idx'.
Proof.
  intros Hi Hi'. rewrite !bits256_get_word, set_eq, word_set_word by dlia.
  destruct (decide (idx' / 128 = idx / 128)) as [E|E].
  - rewrite set_mask_bit, <-E by dlia. do 2 case_decide; (done || exfalso; dlia).
  - rewrite decide_False; [done|]. congruence.
Qed.

Lemma trailing_zeros_n_spec n w : 
  let k := trailing_zeros_n n w in
  0 ≤ k ≤ Z.of_nat n ∧ (∀ i, 0 ≤ i < k → Z.testbit w i = false) ∧
  (k < Z.of_nat n → Z.testbit w k = true).
Proof.
  revert w. induction n as [|n IH]; intros w; simpl; [split_and!; lia|].
  destruct (Z.odd w) eqn:Hw; [split_and!; [lia..|by rewrite Z.bit0_odd]|].
  destruct (IH (Z.div2 w)) as (Hk & Hlow & Hbit). set (k := trailing_zeros_n n (Z.div2 w)) in *.
  split_and!; [lia|lia| |].
  - intros i Hi. destruct (decide (i = 0)) as [->|]; [by rewrite Z.bit0_odd|].
    replace i with (Z.succ (i - 1)) by lia. rewrite <-Z.div2_bits, <-Z.div2_div by lia. apply Hlow. lia.
  - intros Hlt. replace (1 + k) with (Z.succ k) by lia. rewrite <-Z.div2_bits, <-Z.div2_div by lia. apply Hbit. lia.
Qed.

(** Both words of a mask have 128 bits. *)
Definition bits256_ok (b : Bits256.t) : Prop := in_u 128 (Bits256.bits0 b) ∧ in_u 128 (Bits256.bits1 b).

Lemma in_u_bits w z : 0 ≤ w → in_u w z ↔ 0 ≤ z ∧ ∀ i, w ≤ i → Z.testbit z i = false.
Proof.
  intros Hw. unfold in_u. split.
  - intros Hz. split; [lia|]. intros i Hi. rewrite Z.testbit_odd, Z.shiftr_div_pow2 by lia.
    rewrite Z.div_small; [done|]. split; [lia|]. apply Z.lt_le_trans with (2 ^ w); [lia|].
    apply Z.pow_le_mono_r; lia.
  - intros [Hz Hbits]. split; [lia|]. destruct (decide (z = 0)) as [->|]; [lia|].
    apply Z.log2_lt_pow2; [lia|]. apply Z.nle_gt. intros Hlog.
    specialize (Hbits (Z.log2 z) Hlog). rewrite Z.bit_log2 in Hbits by lia. done.
Qed.

Lemma mask_in_u (v : bool) w k : 0 ≤ k < 128 → in_u 128 w →
  in_u 128 (if v then Z.lor w (Z.shiftl 1 k) else Z.ldiff w (Z.shiftl 1 k)).
Proof.
  intros Hk. rewrite !in_u_bits by lia. intros [Hw Hbits]. split.
  - rewrite Z.shiftl_1_l. destruct v; [apply Z.lor_nonneg; split; [lia|apply Z.pow_nonneg; lia]|].
    apply Z.ldiff_nonneg. lia.
  - intros i Hi. rewrite set_mask_bit by lia. rewrite decide_False by lia. by apply Hbits.
Qed.

Lemma bits256_set_ok idx v b : 0 ≤ idx < 256 → bits256_ok b → bits256_ok (Bits256.set idx v b).
Proof.
  intros Hi [H0 H1]. pose proof (mask_in_u v (Bits256.bits0 b) (idx mod 128) ltac:(dlia) H0).
  pose proof (mask_in_u v (Bits256.bits1 b) (idx mod 128) ltac:(dlia) H1).
  unfold Bits256.set, Bits256.word, Bits256.set_word, bits256_ok.
  destruct v, (idx / 128 =? 0); done.
Qed.

Lemma word_zero w : in_u 128 w → (∀ i, 0 ≤ i < 128 → Z.testbit w i = false) → w = 0.
Proof.
  rewrite in_u_bits by lia. intros [Hw Hhigh] Hlow. apply Z.bits_inj'. intros i Hi. rewrite Z.bits_0.
  destruct (decide (i < 128)); [apply Hlow|apply Hhigh]; lia.
Qed.

Lemma first_set_index_spec b : bits256_ok b →
  match Bits256.first_set_index b with
  | None => ∀ i, 0 ≤ i < 256 → Bits256.get b i = false
  | Some k => 0 ≤ k < 256 ∧ Bits256.get b k = true ∧ ∀ i, 0 ≤ i < k → Bits256.get b i = false
  end.
Proof.
  intros [H0 H1]. unfold Bits256.first_set_index, Bits256.all_bits_cleared.
  destruct (trailing_zeros_n_spec 128 (Bits256.bits0 b)) as (Ha & Halow & Habit).
  destruct (trailing_zeros_n_spec 128 (Bits256.bits1 b)) as (Hc & Hclow & Hcbit).
  set (a := trailing_zeros_n 128 (Bits256.bits0 b)) in *.
  set (c := trailing_zeros_n 128 (Bits256.bits1 b)) in *. clearbody a c.
  assert (Hlo : ∀ i, 0 ≤ i < 128 → Bits256.get b i = Z.testbit (Bits256.bits0 b) i).
  { intros i Hi. rewrite bits256_get_word, Z.div_small, Z.mod_small by lia. done. }
  assert (Hhi : ∀ i, 128 ≤ i < 256 → Bits256.get b i = Z.testbit (Bits256.bits1 b) (i - 128)).
  { intros i Hi. rewrite bits256_get_word by lia. replace (i / 128) with 1 by dlia.
    by replace (i mod 128) with (i - 128) by dlia. }
  destruct (_ && _) eqn:Ezero.
  - apply andb_true_iff in Ezero as [E0%Z.eqb_eq E1%Z.eqb_eq]. intros i Hi.
    destruct (decide (i < 128)); [rewrite Hlo, E0 by lia|rewrite Hhi, E1 by lia]; apply Z.bits_0.
  - destruct (Z.eqb_spec a 128) as [->|Hne].
    + assert (c ≠ 128).
      { intros ->. apply word_zero in Halow, Hclow; [|done..]. rewrite Halow, Hclow in Ezero. done. }
      split_and!; [lia|lia| |].
      * rewrite Hhi by lia. replace (128 + c - 128) with c by lia. apply Hcbit. lia.
      * intros i Hi. destruct (decide (i < 128)); [rewrite Hlo by lia; apply Halow; lia|].
        rewrite Hhi by lia. apply Hclow. lia.
    + split_and!; [lia|lia| |]; [rewrite Hlo by lia; apply Habit; lia|].
      intros i Hi. rewrite Hlo by lia. apply Halow. lia.
Qed.

(** * The invariant *)

Definition is_irq (id : Z) : Prop := 0 ≤ id < 256.

Definition xor_mask (r : PicImplRegs) : Z := if mpiccfg_reverse (mpiccfg r) then 0x00 else 0x0f.

(** The priority of an interrupt, such that smaller is more urgent. *)
Definition prio (r : PicImplRegs) (id : Z) : IrqPriority := irq_priority r (xor_mask r) id.

(** An interrupt is pending and enabled, by the registers. *)
Definition pending (r : PicImplRegs) (id : Z) : bool :=
  meie_inten (nth_reg (meie r) id) && Bits32.get (nth_reg (meip r) (id / 32)) (id mod 32).

Definition sorted_prios (r : PicImplRegs) : list IrqPriority :=
  merge_sort prio_le (prio r <$> seqZ 0 256).

Record regs_ok (r : PicImplRegs) : Prop := {
  ok_meipl : length (meipl r) = 256%nat;
  ok_meip : length (meip r) = 8%nat;
  ok_meie : length (meie r) = 256%nat;
  ok_gwctrl : length (meigwctrl r) = 256%nat
}.

(** The tables of the controller fit the registers. *)
Record tables_ok (p : Pic) : Prop := {
  ok_regs : regs_ok (regs p);
  ok_xor : priority_xor p = xor_mask (regs p);
  ok_order : priority_order p = sorted_prios (regs p);
  ok_ids : ∀ id, is_irq id → is_irq (nth_reg (id_to_order p) id) ∧
             priority_order p !! Z.to_nat (nth_reg (id_to_order p) id) = Some (prio (regs p) id);
  ok_bits : bits256_ok (ordered_irq_pending p)
}.

(** The mask agrees with the registers, but for the interrupts of [except]. *)
Definition mask_ok (except : Z → Prop) (p : Pic) : Prop :=
  ∀ id, is_irq id → ¬ except id →
  Bits256.get (ordered_irq_pending p) (nth_reg (id_to_order p) id) = pending (regs p) id.

Definition pic_ok (p : Pic) : Prop := tables_ok p ∧ mask_ok (λ _, False) p.

Lemma prio_id r id : irq_id (prio r id) = id.
Proof. unfold prio, irq_priority. by destruct (Z.eqb_spec id 0). Qed.

#[local] Instance prio_le_total : Total prio_le.
Proof. intros p q. unfold prio_le. lia. Qed.
#[local] Instance prio_le_trans : Transitive prio_le.
Proof. intros p q r. unfold prio_le. lia. Qed.

Lemma order_inj p id id' : tables_ok p → is_irq id → is_irq id' →
  nth_reg (id_to_order p) id = nth_reg (id_to_order p) id' → id = id'.
Proof.
  intros Hp Hid Hid' E. destruct (ok_ids _ Hp id Hid) as [_ H1]. destruct (ok_ids _ Hp id' Hid') as [_ H2].
  rewrite E, H2 in H1. injection H1 as H1. apply (f_equal irq_id) in H1. by rewrite !prio_id in H1.
Qed.

Lemma prio_ids r (l : list Z) : irq_id <$> (prio r <$> l) = l.
Proof. induction l as [|id l IH]; [done|]. csimpl. by rewrite prio_id, IH. Qed.

Lemma sorted_prios_perm r : sorted_prios r ≡ₚ (prio r <$> seqZ 0 256).
Proof. apply merge_sort_Permutation. Qed.

Lemma sorted_prios_length r : length (sorted_prios r) = 256%nat.
Proof. rewrite (Permutation_length (sorted_prios_perm r)). by rewrite length_fmap, length_seqZ. Qed.

Lemma sorted_prios_ids r : NoDup (irq_id <$> sorted_prios r).
Proof. rewrite sorted_prios_perm, prio_ids. apply NoDup_seqZ. Qed.

(** The entry at a position of the order is the priority of an interrupt. *)
Lemma order_entry p k : tables_ok p → is_irq k →
  ∃ id, is_irq id ∧ priority_order p !! Z.to_nat k = Some (prio (regs p) id) ∧
    nth_reg (id_to_order p) id = k.
Proof.
  intros Hp Hk. rewrite (ok_order _ Hp).
  destruct (lookup_lt_is_Some_2 (sorted_prios (regs p)) (Z.to_nat k)) as [q Hq].
  { rewrite sorted_prios_length. unfold is_irq in Hk. lia. }
  assert (q ∈ prio (regs p) <$> seqZ 0 256) as (id & -> & Hid%elem_of_seqZ)%list_elem_of_fmap.
  { rewrite <-sorted_prios_perm. by eapply list_elem_of_lookup_2. }
  assert (Hirq : is_irq id) by (unfold is_irq; lia). exists id. split; [done|]. split; [done|].
  destruct (ok_ids _ Hp id Hirq) as [Hord Hlook]. rewrite (ok_order _ Hp) in Hlook.
  pose proof (NoDup_lookup _ _ _ _ (NoDup_fmap_1 _ _ (sorted_prios_ids (regs p))) Hlook Hq).
  unfold is_irq in *. lia.
Qed.

(** * The interrupt that is served *)

(** [id] is the most urgent of the enabled pending interrupts. *)
Definition most_urgent (r : PicImplRegs) (id : Z) : Prop :=
  is_irq id ∧ pending r id = true ∧
  ∀ id', is_irq id' → pending r id' = true → prio_le (prio r id) (prio r id').

Lemma sorted_lookup_le r i j q q' :
  sorted_prios r !! i = Some q → sorted_prios r !! j = Some q' → (i ≤ j)%nat → prio_le q q'.
Proof.
  intros Hi Hj Hle. destruct (decide (i = j)) as [->|Hne].
  { rewrite Hi in Hj. injection Hj as ->. unfold prio_le. lia. }
  assert (Hs : StronglySorted prio_le (sorted_prios r)) by apply (StronglySorted_merge_sort _).
  assert (Hlt : (i < j)%nat) by lia. clear Hle Hne.
  revert i j Hi Hj Hlt. induction Hs as [|x l Hs IH Hx]; intros i j Hi Hj Hlt; [done|].
  destruct j as [|j]; [lia|]. destruct i as [|i]; simpl in *.
  - injection Hi as <-. rewrite Forall_lookup in Hx. eauto.
  - apply (IH i j); [done|done|lia].
Qed.

Lemma highest_priority_irq_spec {E} t p : pic_ok p → t ≤ MAX_PRIORITY →
  ∃ o, highest_priority_irq (E:=E) t p = Ok o ∧ ∀ irq, o = Some irq ↔
    most_urgent (regs p) irq ∧
    priority_xored (prio (regs p) irq) < Z.lxor t (xor_mask (regs p)).
Proof.
  intros [Hp Hmask] Ht. assert (Hm : ∀ id, is_irq id →
    Bits256.get (ordered_irq_pending p) (nth_reg (id_to_order p) id) = pending (regs p) id).
  { intros id Hid. apply Hmask; [done|tauto]. }
  unfold highest_priority_irq. rewrite (proj2 (Z.leb_le _ _) Ht). pose proof (first_set_index_spec _ (ok_bits _ Hp)) as Hfirst.
  destruct (Bits256.first_set_index _) as [k|].
  - destruct Hfirst as (Hk & Hget & Hlow). destruct (order_entry p k Hp Hk) as (id & Hid & Hlook & Hord).
    rewrite Hlook. simpl. rewrite prio_id, (ok_xor _ Hp).
    assert (Hurgent : most_urgent (regs p) id).
    { split; [done|]. split; [by rewrite <-Hm, Hord|]. intros id' Hid' Hpend.
      destruct (ok_ids _ Hp id' Hid') as [Hirq Hlook']. rewrite (ok_order _ Hp) in Hlook, Hlook'.
      eapply sorted_lookup_le; [done..|]. rewrite <-Hm in Hpend by done.
      destruct (decide (nth_reg (id_to_order p) id' < k)); [|unfold is_irq in *; lia].
      rewrite Hlow in Hpend; [done|]. unfold is_irq in *. lia. }
    assert (Huniq : ∀ irq, most_urgent (regs p) irq → irq = id).
    { intros irq (Hi & Hpi & Hmin). destruct Hurgent as (_ & Hpid & Hmin').
      specialize (Hmin id Hid Hpid). specialize (Hmin' irq Hi Hpi).
      unfold prio_le in *. rewrite !prio_id in *. lia. }
    destruct (Z.ltb_spec (priority_xored (prio (regs p) id)) (Z.lxor t (xor_mask (regs p)))).
    + exists (Some id). split; [done|]. intros irq. split; [by intros [= <-]|]. by intros [->%Huniq _].
    + exists None. split; [done|]. intros irq. split; [done|]. intros [->%Huniq ?]. lia.
  - exists None. split; [done|]. intros irq. split; [done|]. intros [(Hirq & Hpend & _) _]. rewrite <-Hm in Hpend by done.
    rewrite Hfirst in Hpend; [done|]. by apply (ok_ids _ Hp).
Qed.

(** * The operations keep the invariant *)

Lemma tables_set_ordered b p : tables_ok p → bits256_ok b → tables_ok (set_ordered b p).
Proof. by intros [] ?. Qed.

(** Setting the bit of one interrupt repairs the mask for it. *)
Lemma set_ordered_irq_pending_ok id b P p :
  tables_ok p → is_irq id → mask_ok P p →
  meie_inten (nth_reg (meie (regs p)) id) && b = pending (regs p) id →
  tables_ok (set_ordered_irq_pending id b p) ∧
  mask_ok (λ id', P id' ∧ id' ≠ id) (set_ordered_irq_pending id b p).
Proof.
  intros Hp Hid Hmask Hb. destruct (ok_ids _ Hp id Hid) as [Hirq _]. split.
  { apply tables_set_ordered; [done|]. apply bits256_set_ok; [done|]. apply (ok_bits _ Hp). }
  intros id' Hid' HP. destruct (ok_ids _ Hp id' Hid') as [Hirq' _].
  unfold set_ordered_irq_pending. cbn [ordered_irq_pending set_ordered regs id_to_order].
  rewrite Hb, bits256_get_set by done. case_decide as E.
  - by rewrite (order_inj _ _ _ Hp Hid' Hid E).
  - apply Hmask; [done|]. intros HP'. apply HP. split; [done|]. intros ->. done.
Qed.

Lemma refresh_enabled_ok id P p :
  tables_ok p → is_irq id → mask_ok P p →
  tables_ok (refresh_enabled id p) ∧ mask_ok (λ id', P id' ∧ id' ≠ id) (refresh_enabled id p).
Proof. intros. by apply set_ordered_irq_pending_ok. Qed.

Lemma mask_ok_weaken (P Q : Z → Prop) p : (∀ id, P id → Q id) → mask_ok P p → mask_ok Q p.
Proof. intros HPQ Hm id Hid HQ. apply Hm; [done|]. intros HP. by apply HQ, HPQ. Qed.

Lemma refresh_all_ok p n : (n ≤ 256)%nat → tables_ok p →
  let p' := foldl (λ p i, refresh_enabled i p) p (seqZ 0 (Z.of_nat n)) in
  tables_ok p' ∧ mask_ok (λ id, Z.of_nat n ≤ id) p'.
Proof.
  intros Hn Hp. induction n as [|n IH]; [split; [done|]; intros id Hid Hle; simpl in Hle; unfold is_irq in Hid; lia|].
  rewrite seqZ_S, foldl_app.
  destruct IH as [IHt IHm]; [lia|]. cbn [foldl]. rewrite Z.add_0_l.
  destruct (refresh_enabled_ok (Z.of_nat n) _ _ IHt ltac:(unfold is_irq; lia) IHm) as [Ht Hm].
  split; [done|]. eapply mask_ok_weaken; [|exact Hm]. simpl. lia.
Qed.

(** The table of positions that [refresh_order] builds. *)
Lemma build_ids_lookup (l : list IrqPriority) (k : Z) (ids : list Z) i q :
  NoDup (irq_id <$> l) → Forall (λ q, is_irq (irq_id q)) l → length ids = 256%nat →
  l !! i = Some q →
  nth_reg (foldl (λ ids '(index, q), <[Z.to_nat (irq_id q) := index]> ids) ids
    (zip (seqZ k (Z.of_nat (length l))) l)) (irq_id q) = k + Z.of_nat i.
Proof.
  revert k ids i. induction l as [|x l IH] using rev_ind; intros k ids i Hnd Hirq Hlen Hi; [done|].
  rewrite length_app, Nat.add_1_r, seqZ_S.
  rewrite zip_with_app by (rewrite length_seqZ; lia). rewrite foldl_app. cbn [foldl zip_with].
  rewrite fmap_app in Hnd. apply NoDup_app in Hnd as (Hnd & Hdisj & _).
  apply Forall_app in Hirq as [Hirq [Hx _]%Forall_cons].
  set (ids' := foldl _ ids _). assert (Hlen' : length ids' = 256%nat).
  { unfold ids'. clear -Hlen. generalize (zip (seqZ k (Z.of_nat (length l))) l) as zs.
    intros zs. revert ids Hlen. induction zs as [|[??] zs IHz]; intros ids Hlen; [done|].
    apply IHz. by rewrite length_insert. }
  unfold nth_reg. apply lookup_app_Some in Hi as [Hi|[Hi Hlast]].
  - rewrite list_lookup_insert_ne; [by apply IH|]. intros E.
    assert (irq_id x = irq_id q); [|].
    { apply list_elem_of_lookup_2 in Hi. rewrite Forall_forall in Hirq.
      specialize (Hirq q Hi). unfold is_irq in *. lia. }
    apply (Hdisj (irq_id q)); [apply list_elem_of_fmap_2; by eapply list_elem_of_lookup_2|].
    csimpl. set_solver.
  - destruct (i - length l)%nat eqn:Ei; [|done]. injection Hlast as <-.
    rewrite list_lookup_insert_eq; [simpl; lia|]. unfold is_irq in Hx. lia.
Qed.

Lemma refresh_order_tables p :
  regs_ok (regs p) → bits256_ok (ordered_irq_pending p) →
  let x := xor_mask (regs p) in
  let priorities := sorted_prios (regs p) in
  tables_ok (set_order priorities
    (foldl (λ ids '(index, q), <[Z.to_nat (irq_id q) := index]> ids) (replicate 256 0)
       (zip (seqZ 0 256) priorities)) x p).
Proof.
  intros Hr Hb x priorities. constructor; [done|done|done| |done].
  cbn [id_to_order set_order priority_order regs]. intros id Hid.
  assert (Hin : prio (regs p) id ∈ priorities).
  { unfold priorities. rewrite sorted_prios_perm. apply list_elem_of_fmap_2, elem_of_seqZ.
    unfold is_irq in Hid. lia. }
  apply list_elem_of_lookup in Hin as [i Hi].
  pose proof (build_ids_lookup priorities 0 (replicate 256 0) i (prio (regs p) id)
    (sorted_prios_ids _)) as Hnth.
  assert (Hlen : length priorities = 256%nat) by apply sorted_prios_length.
  rewrite Hlen, prio_id in Hnth.
  change (Z.of_nat 256) with 256 in Hnth. rewrite Hnth; [|..|done|done].
  - apply lookup_lt_Some in Hi as Hlt. rewrite Hlen in Hlt.
    split; [unfold is_irq; lia|]. by rewrite Z.add_0_l, Nat2Z.id.
  - unfold priorities. rewrite sorted_prios_perm. apply Forall_fmap, Forall_forall. intros j Hj.
    simpl. rewrite prio_id. apply elem_of_seqZ in Hj. unfold is_irq. lia.
Qed.

Lemma refresh_order_ok p :
  regs_ok (regs p) → bits256_ok (ordered_irq_pending p) → pic_ok (refresh_order p).
Proof.
  intros Hr Hb. unfold refresh_order.
  destruct (refresh_all_ok _ 256 ltac:(lia) (refresh_order_tables p Hr Hb)) as [Ht Hm].
  split; [exact Ht|]. intros id Hid _. apply Hm; [done|]. unfold is_irq in Hid. lia.
Qed.

Lemma nth_reg_insert l i j v : 0 ≤ i → 0 ≤ j → (Z.to_nat i < length l)%nat →
  nth_reg (<[Z.to_nat i := v]> l) j = if decide (j = i) then v else nth_reg l j.
Proof.
  intros Hi Hj Hlen. unfold nth_reg. case_decide as E.
  - subst. by rewrite list_lookup_insert_eq.
  - rewrite list_lookup_insert_ne by lia. done.
Qed.

(** The pending bit of one interrupt is changed in its word. *)
Lemma meip_get_set r id id' b : regs_ok r → is_irq id → is_irq id' →
  Bits32.get (nth_reg (<[Z.to_nat (id / 32) := Bits32.set (id mod 32) b (nth_reg (meip r) (id / 32))]>
    (meip r)) (id' / 32)) (id' mod 32) =
  if decide (id' = id) then b else Bits32.get (nth_reg (meip r) (id' / 32)) (id' mod 32).
Proof.
  intros Hr Hid Hid'. unfold is_irq in *. pose proof (ok_meip _ Hr).
  rewrite nth_reg_insert by dlia. destruct (decide (id' / 32 = id / 32)) as [E|E].
  - rewrite bits32_get_set, <-E by dlia. do 2 case_decide; done || (exfalso; dlia).
  - rewrite decide_False; [done|]. congruence.
Qed.

(** Tables and mask do not depend on the levels, the latches and the pending
    words. *)
Lemma tables_ok_regs r p :
  tables_ok p → regs_ok r → meipl r = meipl (regs p) → mpiccfg r = mpiccfg (regs p) →
  tables_ok (set_regs r p).
Proof.
  intros [] Hr E1 E2.
  assert (Hx : xor_mask r = xor_mask (regs p)) by (unfold xor_mask; by rewrite E2).
  assert (Hprio : ∀ id, prio r id = prio (regs p) id).
  { intros id. unfold prio, irq_priority. by rewrite Hx, E1. }
  constructor; cbn [regs set_regs priority_xor priority_order id_to_order ordered_irq_pending].
  - done.
  - by rewrite Hx.
  - rewrite ok_order0. unfold sorted_prios. f_equal. apply list_fmap_ext. intros. by rewrite Hprio.
  - intros id Hid. rewrite Hprio. by apply ok_ids0.
  - done.
Qed.

Lemma irq_set_level_ok id is_high P p :
  tables_ok p → mask_ok P p → is_irq id →
  tables_ok (irq_set_level id is_high p) ∧ mask_ok (λ id', P id' ∧ id' ≠ id) (irq_set_level id is_high p).
Proof.
  intros Hp Hm Hid. unfold irq_set_level.
  set (b := if meigwctrl_edge _ then _ else _). set (ff := if xorb _ _ then _ else _) in *.
  assert (Hff : regs ff = regs p ∧ id_to_order ff = id_to_order p ∧
    ordered_irq_pending ff = ordered_irq_pending p ∧ tables_ok ff).
  { unfold ff. destruct (xorb _ _); simpl; (split_and!; [done..|]); by destruct Hp. }
  clearbody ff b. destruct Hff as (Er & Ei & Eo & Hff). rewrite Er.
  set (r := set_meip _ _). assert (Hr : regs_ok r).
  { destruct (ok_regs _ Hp). unfold r. constructor; simpl; [done| |done|done]. by rewrite length_insert. }
  assert (Hpend : ∀ id', is_irq id' → pending r id' =
    if decide (id' = id) then meie_inten (nth_reg (meie r) id) && b else pending (regs p) id').
  { intros id' Hid'. unfold pending, r at 2. cbn [meip set_meip].
    rewrite meip_get_set by (done || apply (ok_regs _ Hp)). case_decide; [by subst|done]. }
  assert (Ht : tables_ok (set_regs r ff)) by (apply tables_ok_regs; rewrite ?Er; done).
  destruct (set_ordered_irq_pending_ok id b (λ id', P id' ∨ id' = id) (set_regs r ff)) as [H1 H2];
    [done|done| | |].
  - intros id' Hid' HP. cbn [ordered_irq_pending set_regs id_to_order regs]. rewrite Ei, Eo, Hpend by done.
    rewrite decide_False by tauto. apply Hm; [done|tauto].
  - cbn [regs set_regs]. rewrite Hpend by done. by rewrite decide_True.
  - split; [done|]. eapply mask_ok_weaken; [|exact H2]. simpl. tauto.
Qed.

Lemma array_write_ok l size addr val l' :
  array_write l size addr val = Ok l' →
  addr mod 4 = 0 ∧ (Z.to_nat (addr / 4) < length l)%nat ∧ l' = <[Z.to_nat (addr / 4) := val]> l.
Proof.
  unfold array_write. destruct size; try done. destruct (Z.eqb_spec (addr mod 4) 0); [|done].
  destruct (Nat.ltb_spec (Z.to_nat (addr / 4)) (length l)); [|done]. by intros [= <-].
Qed.

(** The pending words are written by the gateways only. *)
Definition meip_addr (addr : Z) : bool := (0x1000 <=? addr) && (addr <=? 0x101c).

Lemma regs_write_ok size addr val r r' : regs_ok r → regs_write size addr val r = Ok r' → regs_ok r'.
Proof.
  intros [H1 H2 H3 H4] Hw. unfold regs_write in Hw.
  repeat (case_match; try discriminate);
    first [injection Hw as <-; constructor; simpl; rewrite ?length_insert; done
          |apply res_bind_ok_inv in Hw as (l & (_ & _ & ->)%array_write_ok & [= <-]);
           constructor; simpl; rewrite ?length_insert; done].
Qed.

Lemma regs_write_cases size addr val r r' :
  regs_write size addr val r = Ok r' → 0 ≤ addr → meip_addr addr = false →
  addr = 0x3000 ∧ r' = set_mpiccfg val r ∨
  (addr mod 4 = 0 ∧
   (addr ≤ 0x3ff ∧ r' = set_meipl (<[Z.to_nat (addr / 4) := val]> (meipl r)) r ∨
    (0x2000 ≤ addr ≤ 0x23ff ∧ r' = set_meie (<[Z.to_nat ((addr - 0x2000) / 4) := val]> (meie r)) r) ∨
    (0x4000 ≤ addr ≤ 0x43ff ∧
     r' = set_meigwctrl (<[Z.to_nat ((addr - 0x4000) / 4) := val]> (meigwctrl r)) r))).
Proof.
  unfold regs_write, meip_addr. intros Hw Haddr Hmeip. rewrite Hmeip in Hw. cbn [andb] in Hw.
  destruct (Z.eqb_spec addr 0x3000); [left; destruct size; try done; by injection Hw as <-|]. right.
  destruct (Z.leb_spec addr 0x3ff).
  { apply res_bind_ok_inv in Hw as (l & (? & _ & ->)%array_write_ok & [= <-]). tauto. }
  destruct (_ && _) eqn:E.
  { apply andb_true_iff in E as [?%Z.leb_le ?%Z.leb_le].
    apply res_bind_ok_inv in Hw as (l & (? & _ & ->)%array_write_ok & [= <-]). split; [dlia|]. tauto. }
  destruct (_ && _) eqn:E' in Hw; [|done].
  apply andb_true_iff in E' as [?%Z.leb_le ?%Z.leb_le].
  apply res_bind_ok_inv in Hw as (l & (? & _ & ->)%array_write_ok & [= <-]). split; [dlia|]. tauto.
Qed.

Lemma irq_id_from_addr_eq addr : 0 ≤ addr → irq_id_from_addr addr = (addr mod 1024) / 4.
Proof.
  intros. unfold irq_id_from_addr. change 0x3ff with (Z.ones 10). by rewrite Z.land_ones by lia.
Qed.

Lemma irq_id_from_addr_irq addr : 0 ≤ addr → is_irq (irq_id_from_addr addr).
Proof. intros. rewrite irq_id_from_addr_eq by done. unfold is_irq. dlia. Qed.

Lemma refresh_gateway_ok id P p :
  tables_ok p → mask_ok P p → is_irq id →
  tables_ok (refresh_gateway id p) ∧ mask_ok (λ id', P id' ∧ id' ≠ id) (refresh_gateway id p).
Proof. apply irq_set_level_ok. Qed.

Lemma pic_ok_of p P : tables_ok p → mask_ok P p → (∀ id, is_irq id → ¬ P id) → pic_ok p.
Proof. intros Ht Hm HP. split; [done|]. intros id Hid _. apply Hm; [done|]. by apply HP. Qed.

Lemma write_gateway_ok id l p :
  pic_ok p → is_irq id → length l = 256%nat →
  pic_ok (refresh_gateway id (set_regs (set_meigwctrl l (regs p)) p)).
Proof.
  intros [Hp Hm] Hid Hl.
  destruct (refresh_gateway_ok id (λ _, False) (set_regs (set_meigwctrl l (regs p)) p)) as [Ht Hm'];
    [|exact Hm|done|apply (pic_ok_of _ _ Ht Hm'); tauto].
  apply tables_ok_regs; try done. by destruct (ok_regs _ Hp).
Qed.

Lemma clear_gateway_ok id p :
  pic_ok p → is_irq id →
  pic_ok (refresh_gateway id (set_gw_pending_ff (Bits256.set id false (gw_pending_ff p)) p)).
Proof.
  intros [Hp Hm] Hid. set (q := set_gw_pending_ff _ p).
  destruct (refresh_gateway_ok id (λ _, False) q) as [Ht Hm'];
    [by destruct Hp|exact Hm|done|apply (pic_ok_of _ _ Ht Hm'); tauto].
Qed.

Lemma write_enable_ok id val p :
  pic_ok p → is_irq id →
  pic_ok (refresh_enabled id (set_regs (set_meie (<[Z.to_nat id := val]> (meie (regs p))) (regs p)) p)).
Proof.
  intros [Hp Hm] Hid.
  destruct (refresh_enabled_ok id (λ id', id' = id)
    (set_regs (set_meie (<[Z.to_nat id := val]> (meie (regs p))) (regs p)) p)) as [Ht Hm'];
    [|done| |apply (pic_ok_of _ _ Ht Hm'); tauto].
  - apply tables_ok_regs; try done. destruct (ok_regs _ Hp). constructor; simpl; try done.
    by rewrite length_insert.
  - intros id' Hid' Hne. cbn [regs set_regs ordered_irq_pending id_to_order]. rewrite Hm by tauto.
    unfold pending. cbn [meie set_meie meip]. unfold is_irq in *.
    rewrite nth_reg_insert, decide_False by (rewrite ?(ok_meie _ (ok_regs _ Hp)); lia). done.
Qed.

(** A write to the registers, but for the pending words, keeps the
    invariant. *)
Lemma pic_write_ok size addr val p p' :
  pic_ok p → 0 ≤ addr → meip_addr addr = false → pic_write size addr val p = Ok p' → pic_ok p'.
Proof.
  intros Hpic Haddr Hmeip Hw. pose proof (irq_id_from_addr_irq addr Haddr) as Hirq.
  pose proof Hpic as [Hp _].
  unfold pic_write in Hw. destruct (reserved_addr addr) eqn:Hres; [done|].
  destruct (between MEIGWCTRL_MIN MEIGWCTRL_MAX addr) eqn:Hgw.
  { apply res_bind_ok_inv in Hw as (r & Hr & [= <-]).
    apply andb_true_iff in Hgw as [?%Z.leb_le ?%Z.leb_le]. unfold MEIGWCTRL_MIN, MEIGWCTRL_OFFSET in *.
    apply regs_write_cases in Hr as [[? _]|(_ & [[? _]|[[? _]|[_ ->]]])]; [lia..| |done|done].
    apply write_gateway_ok; [done|done|]. rewrite length_insert. apply (ok_regs _ Hp). }
  destruct (between MEIGWCLR_MIN MEIGWCLR_MAX addr).
  { injection Hw as <-. by apply clear_gateway_ok. }
  destruct (between MEIPL_MIN MEIPL_MAX addr || (addr =? MPICCFG_OFFSET)) eqn:Hpl.
  { apply res_bind_ok_inv in Hw as (r & Hr & [= <-]).
    apply refresh_order_ok; [by eapply regs_write_ok; [apply Hp|]|apply Hp]. }
  apply orb_false_iff in Hpl as [Hpl Hcfg%Z.eqb_neq].
  destruct (between MEIE_MIN MEIE_MAX addr) eqn:Hie.
  - apply res_bind_ok_inv in Hw as (r & Hr & [= <-]).
    apply andb_true_iff in Hie as [?%Z.leb_le ?%Z.leb_le].
    unfold MEIE_MIN, MEIE_MAX, MEIE_OFFSET, MPICCFG_OFFSET in *.
    apply regs_write_cases in Hr as [[? _]|(Hal & [[? _]|[[_ ->]|[? _]]])]; [lia..| |lia|done|done].
    replace ((addr - 0x2000) / 4) with (irq_id_from_addr addr)
      by (rewrite irq_id_from_addr_eq by done; dlia).
    by apply write_enable_ok.
  - exfalso. apply res_bind_ok_inv in Hw as (r & Hr & _).
    unfold between, reserved_addr, MEIPL_MIN, MEIPL_MAX, MEIPL_OFFSET, MEIE_MIN, MEIE_MAX, MEIE_OFFSET,
      MEIGWCTRL_MIN, MEIGWCTRL_MAX, MEIGWCTRL_OFFSET, MPICCFG_OFFSET, MEIGWCLR_OFFSET in *.
    apply regs_write_cases in Hr as [[? _]|(Hal & [[? _]|[[? _]|[? _]]])]; [lia|dlia|dlia|dlia|done|done].
Qed.

Lemma pic_new_ok : pic_ok pic_new.
Proof. apply refresh_order_ok; [by constructor|by split]. Qed.

(** * Histories *)

(** What can happen to the controller: a peripheral moves its line, or
    software writes a register. A refused write changes nothing. *)
Inductive pic_event :=
  | SetLevel (id : Z) (is_high : bool)
  | WriteReg (size : RvSize) (addr val : Z).

Definition pic_event_ok (e : pic_event) : Prop :=
  match e with
  | SetLevel id _ => is_irq id
  | WriteReg _ addr _ => 0 ≤ addr ∧ meip_addr addr = false
  end.

Definition pic_handle (p : Pic) (e : pic_event) : Pic :=
  match e with
  | SetLevel id is_high => irq_set_level id is_high p
  | WriteReg size addr val =>
      match pic_write size addr val p with Ok p' => p' | _ => p end
  end.

Lemma pic_handle_ok e p : pic_ok p → pic_event_ok e → pic_ok (pic_handle p e).
Proof.
  intros Hp He. destruct e as [id is_high|size addr val]; simpl in *.
  - destruct Hp as [Ht Hm]. destruct (irq_set_level_ok id is_high _ _ Ht Hm He) as [Ht' Hm'].
    apply (pic_ok_of _ _ Ht' Hm'). tauto.
  - destruct (pic_write size addr val p) as [p'| |] eqn:E; [|done|done].
    destruct He. by eapply pic_write_ok.
Qed.

Lemma pic_history_ok es : Forall pic_event_ok es → pic_ok (foldl pic_handle pic_new es).
Proof.
  intros Hes. assert (H0 := pic_new_ok). revert H0. generalize pic_new as p.
  induction Hes as [|e es He Hes IH]; intros p Hp; [done|]. apply IH. by apply pic_handle_ok.
Qed.

(** ** The reserved interrupt *)

(** Number 0 is reserved: its registers cannot be written, so that it is never
    enabled. *)
Lemma irq_set_level_meie id b p : meie (regs (irq_set_level id b p)) = meie (regs p).
Proof. unfold irq_set_level. by destruct (xorb _ _). Qed.

Lemma pic_handle_reserved e p : pic_event_ok e → nth_reg (meie (regs p)) 0 = 0 →
  nth_reg (meie (regs (pic_handle p e))) 0 = 0.
Proof.
  intros He H0. destruct e as [id b|size addr val]; cbn [pic_handle pic_event_ok] in *; [by rewrite irq_set_level_meie|].
  destruct He as [Haddr Hmeip]. destruct (pic_write size addr val p) as [p'| |] eqn:Hw; [|done..].
  assert (Hr : ∀ r, reserved_addr addr = false → regs_write size addr val (regs p) = Ok r → nth_reg (meie r) 0 = 0).
  { intros r Hres Hr. unfold reserved_addr in Hres. rewrite !orb_false_iff, !Z.eqb_neq in Hres.
    unfold MEIE_OFFSET in Hres.
    apply regs_write_cases in Hr as [[_ ->]|(Hal & [[_ ->]|[[Hrg ->]|[_ ->]]])]; try done. cbn [meie set_meie].
    unfold nth_reg. rewrite list_lookup_insert_ne by dlia. exact H0. }
  unfold pic_write in Hw. destruct (reserved_addr addr) eqn:Hres; [done|].
  repeat case_match; try (apply res_bind_ok_inv in Hw as (r & Hw & [= <-]); specialize (Hr r eq_refl Hw));
    try injection Hw as <-; unfold refresh_gateway; rewrite ?irq_set_level_meie; try done.
Qed.

Lemma pic_history_reserved es : Forall pic_event_ok es → pending (regs (foldl pic_handle pic_new es)) 0 = false.
Proof.
  intros Hes. assert (H0 : nth_reg (meie (regs pic_new)) 0 = 0) by (vm_compute; reflexivity).
  enough (H : nth_reg (meie (regs (foldl pic_handle pic_new es))) 0 = 0) by (unfold pending; by rewrite H).
  revert H0. generalize pic_new as p. induction Hes as [|e es He Hes IH]; intros p Hp; [done|].
  apply IH. by apply pic_handle_reserved.
Qed.

(** ** Urgency in terms of the registers *)

(** The priority level of an interrupt, and the order that the configuration
    selects: larger levels are more urgent, or smaller ones in reverse order. *)
Definition irq_level (r : PicImplRegs) (id : Z) : Z := meipl_priority (nth_reg (meipl r) id).
Definition level_above (r : PicImplRegs) (a b : Z) : Prop := if mpiccfg_reverse (mpiccfg r) then a < b else b < a.

(** The interrupt to serve. *)
Definition irq_to_serve (r : PicImplRegs) (t irq : Z) : Prop :=
  0 < irq < 256 ∧ pending r irq = true ∧ level_above r (irq_level r irq) t ∧
  ∀ id, 0 < id < 256 → pending r id = true → id ≠ irq →
    level_above r (irq_level r irq) (irq_level r id) ∨ (irq_level r irq = irq_level r id ∧ irq < id).

Lemma lxor_15 x : 0 ≤ x < 16 → Z.lxor x 15 = 15 - x.
Proof.
  intros Hx. assert (Hin : x ∈ seqZ 0 16) by (apply elem_of_seqZ; lia). revert Hin.
  change (seqZ 0 16) with [0; 1; 2; 3; 4; 5; 6; 7; 8; 9; 10; 11; 12; 13; 14; 15]. intros Hin.
  repeat (apply elem_of_cons in Hin as [->|Hin]; [reflexivity|]). by apply elem_of_nil in Hin.
Qed.

Lemma irq_level_range r id : 0 ≤ irq_level r id < 16.
Proof.
  unfold irq_level, meipl_priority, fget. rewrite Z.land_ones by lia. by apply (Z.mod_pos_bound _ 16).
Qed.

Lemma prio_level r id : 0 < id →
  priority_xored (prio r id) = if mpiccfg_reverse (mpiccfg r) then irq_level r id else 15 - irq_level r id.
Proof.
  intros Hid. unfold prio, irq_priority, xor_mask. rewrite (proj2 (Z.eqb_neq _ _)) by lia. cbn [priority_xored].
  fold (irq_level r id). destruct (mpiccfg_reverse _); [apply Z.lxor_0_r|]. apply lxor_15, irq_level_range.
Qed.

Lemma irq_to_serve_iff r t irq : pending r 0 = false → 0 ≤ t ≤ MAX_PRIORITY →
  (most_urgent r irq ∧ priority_xored (prio r irq) < Z.lxor t (xor_mask r)) ↔ irq_to_serve r t irq.
Proof.
  intros H0 Ht. unfold MAX_PRIORITY in Ht. unfold most_urgent, irq_to_serve, level_above, prio_le, is_irq.
  assert (Hp : ∀ id, pending r id = true → 0 ≤ id → 0 < id) by (intros id Hp Hid; destruct (decide (id = 0)) as [->|]; [congruence|lia]).
  assert (Hx : Z.lxor t (xor_mask r) = if mpiccfg_reverse (mpiccfg r) then t else 15 - t).
  { unfold xor_mask. destruct (mpiccfg_reverse _); [apply Z.lxor_0_r|apply lxor_15; lia]. }
  rewrite Hx. split.
  - intros ((Hi & Hpi & Hmin) & Hlt). pose proof (Hp irq Hpi ltac:(lia)). rewrite prio_level in Hlt by done.
    split_and!; [lia|lia|done|destruct (mpiccfg_reverse _); lia|]. intros id Hid Hpid Hne.
    specialize (Hmin id ltac:(lia) Hpid). rewrite !prio_level, !prio_id in Hmin by lia.
    destruct (mpiccfg_reverse _); lia.
  - intros (Hi & Hpi & Hab & Hmin). rewrite !prio_level, !prio_id by lia.
    split; [|destruct (mpiccfg_reverse _); lia]. split; [lia|]. split; [done|]. intros id Hid Hpid.
    pose proof (Hp id Hpid ltac:(lia)). rewrite !prio_level, !prio_id by lia.
    destruct (decide (id = irq)) as [->|Hne]; [lia|]. specialize (Hmin id ltac:(lia) Hpid Hne).
    destruct (mpiccfg_reverse _); lia.
Qed.
