(* ===== verification/RvCsr.v ===== *)
(** The control and status registers of the emulated processor
    (sw-emulator/lib/cpu/src/csr_file.rs) with the two internal timers
    (sw-emulator/lib/cpu/src/internal_timers.rs) and the physical memory
    protection entries. *)

From stdpp Require Import gmap.
From S2P Require Import Prelude Bits Memory RvTypes RvAlu Clock Pic.

(** The devices that processor, registers and bus share by reference counting:
    the clock, the interrupt controller and the cell of the region access
    control. *)
Record Shared := mkShared { clock : Clock; pic : Pic; mrac : Z }.

Definition set_clock c w := mkShared c (pic w) (mrac w).
Definition set_pic p w := mkShared (clock w) p (mrac w).
Definition set_mrac m w := mkShared (clock w) (pic w) m.

(** * Internal timers *)

Module InternalTimer.

Record t := mk {
  timer_id : Z;
  last_set_ticks : Z;
  last_set_val : Z;
  bound : Z;
  timer_action : option ActionHandle;
  cascade : bool;
  pause_en : bool;
  halt_en : bool;
  enabled : bool
}.

Definition new (id : Z) : t := mk id 0 0 0xffffffff None false false false true.

Definition set_action a t :=
  mk (timer_id t) (last_set_ticks t) (last_set_val t) (bound t) a (cascade t) (pause_en t) (halt_en t)
    (enabled t).

Definition read_control (t : t) : Z :=
  let ctl := 0 in
  let ctl := if cascade t then Z.lor ctl (Z.shiftl 1 3) else ctl in
  let ctl := if pause_en t then Z.lor ctl (Z.shiftl 1 2) else ctl in
  let ctl := if halt_en t then Z.lor ctl (Z.shiftl 1 1) else ctl in
  if enabled t then Z.lor ctl 1 else ctl.

Definition read_time (now : Z) (t : t) : Z :=
  let elapsed := Z.land (u64w (now - last_set_ticks t)) 0xffffffff in
  u32w (last_set_val t + elapsed).

Definition interrupt_pending (now : Z) (t : t) : bool := bound t <=? read_time now t.

Definition ticks_to_interrupt (now : Z) (t : t) : Z :=
  Z.max (Z.max 0 (bound t - read_time now t)) 1.

(** [disarm] and [arm] cancel the scheduled interrupt; [arm] schedules the
    next one. *)
Definition disarm {E} : MM E (t * Clock) unit :=
  '(t, c) ← get (λ s, s);
  match timer_action t with
  | Some a => modify (λ _, (set_action None t, cancel a c))
  | None => mret tt
  end.

Definition arm {E} : MM E (t * Clock) unit :=
  disarm;;
  '(t, c) ← get (λ s, s);
  if negb (enabled t) then mret tt
  else
    let next_interrupt := ticks_to_interrupt (now c) t in
    let '(r, c') := schedule_action_in next_interrupt
                      (TimerAction.InternalTimerLocalInterrupt (timer_id t)) c in
    modify (λ _, (t, c'));;
    a ← lift r;
    modify (λ '(t, c), (set_action (Some a) t, c)).

Definition write_control {E} (val : Z) : MM E (t * Clock) unit :=
  modify (λ '(t, c),
    (mk (timer_id t) (last_set_ticks t) (last_set_val t) (bound t) (timer_action t)
       (Z.land val 8 =? 8) (Z.land val 4 =? 4) (Z.land val 2 =? 2) (Z.land val 1 =? 1), c));;
  arm.

Definition write_time {E} (val : Z) : MM E (t * Clock) unit :=
  modify (λ '(t, c),
    (mk (timer_id t) (now c) val (bound t) (timer_action t) (cascade t) (pause_en t) (halt_en t)
       (enabled t), c));;
  arm.

Definition write_bound {E} (val : Z) : MM E (t * Clock) unit :=
  modify (λ '(t, c),
    (mk (timer_id t) (last_set_ticks t) (last_set_val t) val (timer_action t) (cascade t) (pause_en t)
       (halt_en t) (enabled t), c));;
  arm.

End InternalTimer.

(** * The register file *)

Record Csr := mkCsr { csr_val : Z; default_val : Z; csr_mask : Z }.

Definition csr_new (default_val mask : Z) : Csr := mkCsr default_val default_val mask.
Definition csr_reset (c : Csr) : Csr := mkCsr (default_val c) (default_val c) (csr_mask c).

Definition MISA : Z := 0x301.
Definition MVENDORID : Z := 0xF11.
Definition MARCHID : Z := 0xF12.
Definition MIMPIID : Z := 0xF13.
Definition MHARTID : Z := 0xF14.
Definition MSTATUS : Z := 0x300.
Definition MIE : Z := 0x304.
Definition MTVEC : Z := 0x305.
Definition MCOUNTINHIBIT : Z := 0x320.
Definition MSCRATCH : Z := 0x340.
Definition MEPC : Z := 0x341.
Definition MCAUSE : Z := 0x342.
Definition MTVAL : Z := 0x343.
Definition MIP : Z := 0x344.
Definition MRAC : Z := 0x7C0.
Definition MPMC : Z := 0x7C6.
Definition MSECCFG : Z := 0x747.
Definition MCYCLE : Z := 0xB00.
Definition MINSTRET : Z := 0xB02.
Definition MCYCLEH : Z := 0xB80.
Definition MINSTRETH : Z := 0xB82.
Definition MEIVT : Z := 0xBC8.
Definition MEIHAP : Z := 0xFC8.
Definition MITCNT0 : Z := 0x7D2.
Definition MITCNT1 : Z := 0x7D5.
Definition MITB0 : Z := 0x7D3.
Definition MITB1 : Z := 0x7D6.
Definition MITCTL0 : Z := 0x7D4.
Definition MITCTL1 : Z := 0x7D5.
Definition PMPCFG_START : Z := 0x3A0.
Definition PMPCFG_END : Z := 0x3AF.
Definition PMPADDR_START : Z := 0x3B0.
Definition PMPADDR_END : Z := 0x3EF.
Definition PMPCOUNT : Z := 64.
Definition CSR_COUNT : Z := 4096.

(** [MipBits]. *)
Definition Mitip0 : Z := 29.
Definition Mitip1 : Z := 28.
Definition Mtip : Z := 7.

(** The array of 4096 registers as a map: a register without an entry is
    [Csr::default()]. *)
Record CsrFile := mkCsrFile {
  csrs : gmap Z Csr;
  max_pmpcfgi : option Z;
  timer0 : InternalTimer.t;
  timer1 : InternalTimer.t
}.

Definition set_csrs v f := mkCsrFile v (max_pmpcfgi f) (timer0 f) (timer1 f).
Definition set_max_pmpcfgi v f := mkCsrFile (csrs f) v (timer0 f) (timer1 f).
Definition set_timer0 v f := mkCsrFile (csrs f) (max_pmpcfgi f) v (timer1 f).
Definition set_timer1 v f := mkCsrFile (csrs f) (max_pmpcfgi f) (timer0 f) v.

Definition csr (f : CsrFile) (addr : Z) : Csr := default (mkCsr 0 0 0) (csrs f !! addr).
Definition cval (f : CsrFile) (addr : Z) : Z := csr_val (csr f addr).

(** The entries of [csr_val!] and [csr_val_block!] in the order of the source:
    first and last register, reset value and mask. *)
Definition csr_vals : list (Z * Z * Z * Z) :=
  [(MISA, MISA, 0x40101104, 0); (MVENDORID, MVENDORID, 0x45, 0); (MARCHID, MARCHID, 0x10, 0);
   (MIMPIID, MIMPIID, 0x4, 0); (MHARTID, MHARTID, 0, 0);
   (MSTATUS, MSTATUS, 0x18001800, 0x00021888); (MIE, MIE, 0, 0x70000888);
   (MTVEC, MTVEC, 0, 0xFFFFFFFF); (MCOUNTINHIBIT, MCOUNTINHIBIT, 0, 0x7D);
   (MSCRATCH, MSCRATCH, 0, 0xFFFFFFFF); (MEPC, MEPC, 0, 0xFFFFFFFF);
   (MCAUSE, MCAUSE, 0, 0xFFFFFFFF); (MTVAL, MTVAL, 0, 0xFFFFFFFF); (MIP, MIP, 0, 0xFFFFFFFF);
   (MRAC, MRAC, 0, 0xFFFFFFFF); (MPMC, MPMC, 2, 2); (MSECCFG, MSECCFG, 0, 3);
   (MCYCLE, MCYCLE, 0, 0xFFFFFFFF); (MCYCLEH, MCYCLEH, 0, 0xFFFFFFFF);
   (MINSTRET, MINSTRET, 0, 0xFFFFFFFF); (MINSTRETH, MINSTRETH, 0, 0xFFFFFFFF);
   (MEIVT, MEIVT, 0, 0xFFFFFC00);
   (PMPCFG_START, PMPCFG_END, 0, 0x9F9F9F9F); (PMPADDR_START, PMPADDR_END, 0, 0x3FFFFFFF);
   (MITCNT0, MITCNT0, 0, 0xFFFFFFFF); (MITCNT1, MITCNT1, 0, 0xFFFFFFFF);
   (MITB0, MITB0, 0xFFFFFFFF, 0xFFFFFFFF); (MITB1, MITB1, 0xFFFFFFFF, 0xFFFFFFFF);
   (MITCTL0, MITCTL0, 1, 0xF); (MITCTL1, MITCTL1, 1, 0xF);
   (MCYCLE, MCYCLE, 0, 0xFFFFFFFF); (MCYCLEH, MCYCLEH, 0, 0xFFFFFFFF)].

Definition csr_val_block (m : gmap Z Csr) (e : Z * Z * Z * Z) : gmap Z Csr :=
  let '(first, last, d, mask) := e in
  foldl (λ m i, <[i := csr_new d mask]> m) m (seqZ first (last - first + 1)).

Definition csr_file_new : CsrFile :=
  mkCsrFile (foldl csr_val_block ∅ csr_vals) None (InternalTimer.new 0) (InternalTimer.new 1).

(** * The handlers *)

Abbreviation CsrM := (MM RvException.t (CsrFile * Shared)).

Definition any_read (f : CsrFile) (addr : Z) : result RvException.t Z := Ok (cval f addr).

Definition system_read (priv_mode : RvPrivMode.t) (f : CsrFile) (addr : Z) : result RvException.t Z :=
  if decide (priv_mode = RvPrivMode.U) then Err RvException.illegal_register else any_read f addr.

(** [any_write] on the file itself. A register without an entry has no writable
    bits. *)
Definition masked_write (addr val : Z) (f : CsrFile) : CsrFile :=
  set_csrs (alter (λ c,
    let v := Z.lor (Z.land (csr_val c) (not_u32 (csr_mask c))) (Z.land val (csr_mask c)) in
    mkCsr v (default_val c) (csr_mask c)) addr (csrs f)) f.

Definition any_write (addr val : Z) : CsrM unit := modify (λ '(f, w), (masked_write addr val f, w)).

Definition system_write (priv_mode : RvPrivMode.t) (addr val : Z) : CsrM unit :=
  fail_if (bool_decide (priv_mode = RvPrivMode.U)) RvException.illegal_register;;
  any_write addr val.

(** Handlers that only machine mode may use. *)
Definition machine_only (priv_mode : RvPrivMode.t) : CsrM unit :=
  fail_if (bool_decide (priv_mode ≠ RvPrivMode.M)) RvException.illegal_register.

Definition schedule (ticks : Z) (a : TimerAction.t) : CsrM unit := λ '(f, w),
  let '(r, c) := schedule_action_in ticks a (clock w) in
  ((λ _, tt) <$> r, (f, set_clock c w)).

Definition read_csr_val (addr : Z) : CsrM Z := get (λ '(f, _), cval f addr).

Definition csr_file_reset : CsrM unit :=
  modify (λ '(f, w),
    let f := mkCsrFile (csr_reset <$> csrs f) None (timer0 f) (timer1 f) in
    (f, set_mrac (cval f MRAC) w)).

Definition meivt_write (priv_mode : RvPrivMode.t) (addr val : Z) : CsrM unit :=
  system_write priv_mode addr val;;
  v ← read_csr_val addr;
  schedule 0 (TimerAction.SetExtIntVec v).

Definition mstatus_write (priv_mode : RvPrivMode.t) (addr val : Z) : CsrM unit :=
  mstatus_old ← read_csr_val addr;
  let mstatus_new :=
    if decide (RvMStatus.mpp val = RvPrivMode.Invalid)
    then RvMStatus.set_mpp (RvMStatus.mpp mstatus_old) val else val in
  system_write priv_mode addr mstatus_new;;
  mstatus_new ← read_csr_val addr;
  schedule 0 (TimerAction.SetGlobalIntEn (RvMStatus.mie mstatus_new =? 1));;
  schedule 2 TimerAction.Poll.

Definition mip_write (priv_mode : RvPrivMode.t) : CsrM unit :=
  fail_if (bool_decide (priv_mode = RvPrivMode.U)) RvException.illegal_register.

Definition mie_write (priv_mode : RvPrivMode.t) (addr val : Z) : CsrM unit :=
  system_write priv_mode addr val;;
  v ← read_csr_val addr;
  schedule 0 (TimerAction.SetExtIntEn (RvMIE.meie v =? 1));;
  schedule 2 TimerAction.Poll.

(** The loop of [mrac_write] over the sixteen regions. *)
Definition sanitize_region (sanitized region : Z) : Z :=
  let shift := region * 2 in
  let bits := Z.land (Z.shiftr sanitized shift) 3 in
  if bits =? 3 then
    Z.lor (Z.land sanitized (not_u32 (u32w (Z.shiftl 3 shift)))) (u32w (Z.shiftl 2 shift))
  else sanitized.
Definition sanitize_mrac (val : Z) : Z := foldl sanitize_region val (seqZ 0 16).

Definition mrac_write (priv_mode : RvPrivMode.t) (addr val : Z) : CsrM unit :=
  system_write priv_mode addr (sanitize_mrac val);;
  v ← read_csr_val addr;
  modify (λ '(f, w), (f, set_mrac v w)).

Definition mpmc_write (priv_mode : RvPrivMode.t) (addr val : Z) : CsrM unit :=
  system_write priv_mode addr val;;
  mpmc ← read_csr_val addr;
  if RvMPMC.halt val =? 1 then
    (if RvMPMC.haltie mpmc =? 1 then
       f ← get fst;
       mstatus ← lift (system_read priv_mode f MSTATUS);
       mstatus_write priv_mode MSTATUS (RvMStatus.set_mie 1 mstatus)
     else mret tt);;
    schedule 0 TimerAction.Halt
  else mret tt.

Definition mseccfg_write (priv_mode : RvPrivMode.t) (addr val : Z) : CsrM unit :=
  machine_only priv_mode;;
  old ← read_csr_val addr;
  any_write addr (Z.lor val old).

(** * Physical memory protection *)

(** One of the four entries of a packed register, with the running [is_set]:
    a locked entry is left alone. *)
Definition pmpcfg_entry (get_r : Z → Z) (set_r : Z → Z → Z) (val : Z) (acc : Z * option bool) :
    Z * option bool :=
  let '(pmpcfgi, is_set) := acc in
  if RvPmpiCfg.lock (get_r pmpcfgi) =? 0 then
    (set_r val pmpcfgi,
     match is_set with
     | None | Some false => Some (0 <? val)
     | Some true => is_set
     end)
  else acc.

(** [for i in (0..index).rev()]: the highest register below [index] that is not
    zero. *)
Fixpoint highest_nonzero (f : CsrFile) (index : nat) : option Z :=
  match index with
  | O => None
  | S i => if 0 <? cval f (PMPCFG_START + Z.of_nat i) then Some (Z.of_nat i) else highest_nonzero f i
  end.

Definition new_max_pmpcfgi (f : CsrFile) (index : Z) (is_set : bool) : option Z :=
  if is_set then
    match max_pmpcfgi f with
    | None => Some index
    | Some m => if m <? index then Some index else Some m
    end
  else if decide (max_pmpcfgi f = Some index) then highest_nonzero f (Z.to_nat index)
  else max_pmpcfgi f.

Definition pmpcfg_write (priv_mode : RvPrivMode.t) (addr val : Z) : CsrM unit :=
  machine_only priv_mode;;
  f ← get fst;
  pmpcfgi ← lift (system_read priv_mode f addr);
  let acc := (pmpcfgi, None) in
  let acc := pmpcfg_entry RvPmpCfgi.r1 RvPmpCfgi.set_r1 (Z.land val 0xFF) acc in
  let acc := pmpcfg_entry RvPmpCfgi.r2 RvPmpCfgi.set_r2 (Z.land (Z.shiftr val 8) 0xFF) acc in
  let acc := pmpcfg_entry RvPmpCfgi.r3 RvPmpCfgi.set_r3 (Z.land (Z.shiftr val 16) 0xFF) acc in
  let '(pmpcfgi, is_set) :=
    pmpcfg_entry RvPmpCfgi.r4 RvPmpCfgi.set_r4 (Z.land (Z.shiftr val 24) 0xFF) acc in
  match is_set with
  | None => mret tt
  | Some b =>
      modify (λ '(f, w), (set_max_pmpcfgi (new_max_pmpcfgi f (addr - PMPCFG_START) b) f, w));;
      any_write addr pmpcfgi
  end.

(** [RvPmpCfgi::r1] to [r4] by number. *)
Definition pmp_packed (k r : Z) : Z :=
  if k =? 0 then RvPmpCfgi.r1 r else if k =? 1 then RvPmpCfgi.r2 r
  else if k =? 2 then RvPmpCfgi.r3 r else RvPmpCfgi.r4 r.

Definition read_pmpicfg (f : CsrFile) (reg : Z) : Z :=
  pmp_packed (reg mod 4) (cval f (reg / 4 + PMPCFG_START)).

Definition pmpaddr_write (priv_mode : RvPrivMode.t) (addr val : Z) : CsrM unit :=
  machine_only priv_mode;;
  f ← get fst;
  let index := addr - PMPADDR_START in
  if negb (RvPmpiCfg.lock (read_pmpicfg f index) =? 0) then mret tt
  else if (index <? PMPCOUNT - 1)
       && bool_decide (RvPmpiCfg.addr_mode (read_pmpicfg f (index + 1)) = RvPmpAddrMode.Tor)
       && negb (RvPmpiCfg.lock (read_pmpicfg f (index + 1)) =? 0)
  then mret tt
  else any_write addr val.

(** Base (inclusive) and end (exclusive) of a naturally aligned region. *)
Definition decode_napot_pmpaddr (addr : Z) : Z * Z :=
  let bits := trailing_ones addr in
  let base := Z.shiftl (Z.ldiff addr (Z.shiftl 1 bits - 1)) 2 in
  (base, base + Z.shiftl 1 (bits + 3)).

Definition pmp_match_one_addr (f : CsrFile) (pmpicfg index addr : Z) : result RvException.t bool :=
  let pmpaddr := cval f (PMPADDR_START + index) in
  let pmpaddr_shift := Z.shiftl pmpaddr 2 in
  match RvPmpiCfg.addr_mode pmpicfg with
  | RvPmpAddrMode.Off => Ok false
  | RvPmpAddrMode.Tor =>
      let addr_bottom := if 0 <? index then Z.shiftl (cval f (PMPADDR_START + (index - 1))) 2 else 0 in
      Ok ((addr_bottom <=? addr) && (addr <? pmpaddr_shift))
  | RvPmpAddrMode.Na4 => Ok ((pmpaddr_shift <=? addr) && (addr <? pmpaddr_shift + 4))
  | RvPmpAddrMode.Napot =>
      let '(bot, top) := decode_napot_pmpaddr pmpaddr in
      Ok ((bot <=? addr) && (addr <? top))
  | RvPmpAddrMode.Invalid => Abort Panic
  end.

(** The first entry of one packed register that matches. *)
Definition pmp_match_packed (f : CsrFile) (addr i : Z) : result RvException.t (option Z) :=
  let pmpcfgi := cval f (PMPCFG_START + i) in
  let pmpicfg_1 := RvPmpCfgi.r1 pmpcfgi in
  let pmpicfg_2 := RvPmpCfgi.r2 pmpcfgi in
  let pmpicfg_3 := RvPmpCfgi.r3 pmpcfgi in
  let pmpicfg_4 := RvPmpCfgi.r4 pmpcfgi in
  m1 ← pmp_match_one_addr f pmpicfg_1 (i * 4) addr;
  if (m1 : bool) then Ok (Some pmpicfg_1)
  else
    m2 ← pmp_match_one_addr f pmpicfg_2 (i * 4 + 1) addr;
    if (m2 : bool) then Ok (Some pmpicfg_2)
    else
      m3 ← pmp_match_one_addr f pmpicfg_3 (i * 4 + 2) addr;
      if (m3 : bool) then Ok (Some pmpicfg_3)
      else
        m4 ← pmp_match_one_addr f pmpicfg_4 (i * 4 + 3) addr;
        Ok (if (m4 : bool) then Some pmpicfg_4 else None).

Fixpoint pmp_match_loop (f : CsrFile) (addr : Z) (regs : list Z) : result RvException.t (option Z) :=
  match regs with
  | [] => Ok None
  | i :: regs =>
      m ← pmp_match_packed f addr i;
      match m with
      | Some cfg => Ok (Some cfg)
      | None => pmp_match_loop f addr regs
      end
  end.

Definition pmp_match_addr (f : CsrFile) (addr : Z) : result RvException.t (option Z) :=
  match max_pmpcfgi f with
  | None => Ok None
  | Some m => pmp_match_loop f addr (seqZ 0 (m + 1))
  end.

(** * Timer and counter registers *)

Definition on_timer0 (m : MM RvException.t (InternalTimer.t * Clock) unit) : CsrM unit := λ '(f, w),
  let '(r, (t, c)) := m (timer0 f, clock w) in (r, (set_timer0 t f, set_clock c w)).
Definition on_timer1 (m : MM RvException.t (InternalTimer.t * Clock) unit) : CsrM unit := λ '(f, w),
  let '(r, (t, c)) := m (timer1 f, clock w) in (r, (set_timer1 t f, set_clock c w)).

(** [InternalTimers::write_mitcnt] and [disarm]; other numbers panic. *)
Definition write_mitcnt (timer_id val : Z) : CsrM unit :=
  if timer_id =? 0 then on_timer0 (InternalTimer.write_time val)
  else if timer_id =? 1 then on_timer1 (InternalTimer.write_time val)
  else stop Panic.
Definition disarm (timer_id : Z) : CsrM unit :=
  if timer_id =? 0 then on_timer0 InternalTimer.disarm
  else if timer_id =? 1 then on_timer1 InternalTimer.disarm
  else stop Panic.

(** [read_mitb1] returns the bound of timer 0. *)
Definition read_mitb0 (f : CsrFile) : Z := InternalTimer.bound (timer0 f).
Definition read_mitb1 (f : CsrFile) : Z := InternalTimer.bound (timer0 f).

Definition machine_read {A} (priv_mode : RvPrivMode.t) (r : result RvException.t A) :
    result RvException.t A :=
  if decide (priv_mode = RvPrivMode.M) then r else Err RvException.illegal_register.

Definition mitcnt_read (f : CsrFile) (w : Shared) (addr : Z) : result RvException.t Z :=
  if addr =? MITCNT0 then Ok (InternalTimer.read_time (now (clock w)) (timer0 f))
  else if addr =? MITCNT1 then Ok (InternalTimer.read_time (now (clock w)) (timer1 f))
  else Abort Panic.
Definition mitcnt_write (addr val : Z) : CsrM unit :=
  if addr =? MITCNT0 then on_timer0 (InternalTimer.write_time val)
  else if addr =? MITCNT1 then on_timer1 (InternalTimer.write_time val)
  else stop Panic.
Definition mitb_read (f : CsrFile) (addr : Z) : result RvException.t Z :=
  if addr =? MITB0 then Ok (read_mitb0 f)
  else if addr =? MITB1 then Ok (read_mitb1 f)
  else Abort Panic.
Definition mitb_write (addr val : Z) : CsrM unit :=
  if addr =? MITB0 then on_timer0 (InternalTimer.write_bound val)
  else if addr =? MITB1 then on_timer1 (InternalTimer.write_bound val)
  else stop Panic.
Definition mitctl_read (f : CsrFile) (addr : Z) : result RvException.t Z :=
  if addr =? MITCTL0 then Ok (InternalTimer.read_control (timer0 f))
  else if addr =? MITCTL1 then Ok (InternalTimer.read_control (timer1 f))
  else Abort Panic.
Definition mitctl_write (addr val : Z) : CsrM unit :=
  if addr =? MITCTL0 then on_timer0 (InternalTimer.write_control val)
  else if addr =? MITCTL1 then on_timer1 (InternalTimer.write_control val)
  else stop Panic.

Definition interrupts_pending (f : CsrFile) (w : Shared) : bool * bool :=
  (InternalTimer.interrupt_pending (now (clock w)) (timer0 f),
   InternalTimer.interrupt_pending (now (clock w)) (timer1 f)).

Definition mip_read (priv_mode : RvPrivMode.t) (f : CsrFile) (w : Shared) : result RvException.t Z :=
  mie ← system_read priv_mode f MIE;
  let '(pending0, pending1) := interrupts_pending f w in
  let mitip0 := if (pending0 : bool) then Z.shiftl 1 Mitip0 else 0 in
  let mitip1 := if (pending1 : bool) then Z.shiftl 1 Mitip1 else 0 in
  let mtip_pending := Z.land (cval f MIP) (Z.shiftl 1 Mtip) in
  let masked_internal := Z.land mie (Z.lor mitip0 mitip1) in
  let masked_mtip := Z.land (Z.land mie (Z.shiftl 1 Mtip)) mtip_pending in
  Ok (Z.lor masked_internal masked_mtip).

(** The addition is checked: the vector is aligned to 1024 bytes and the number
    below 256, so that it does not overflow. *)
Definition meihap_read (priv_mode : RvPrivMode.t) (f : CsrFile) (w : Shared) : result RvException.t Z :=
  if decide (priv_mode = RvPrivMode.U) then Err RvException.illegal_register
  else
    v ← system_read RvPrivMode.M f MEIVT;
    irq ← highest_priority_irq_total (pic w);
    unwrap (checked_add_u32 v (Z.shiftl (default 0 irq) 2)).

(** * Access *)

Inductive csr_read_fn :=
  | SystemRead | MipRead | MitcntRead | MitbRead | MitctlRead | MeihapRead | McycleRead | McyclehRead.
Inductive csr_write_fn :=
  | SystemWrite | MstatusWrite | MipWrite | MieWrite | MracWrite | MpmcWrite | MseccfgWrite | MeivtWrite
  | PmpcfgWrite | PmpaddrWrite | MitcntWrite | MitbWrite | MitctlWrite | McycleWrite.

(** The entries of [csr_fn!] and [csr_fn_block!] in the order of the source: a
    later entry replaces an earlier one. *)
Definition CSR_FN : list (Z * Z * csr_read_fn * csr_write_fn) :=
  [(MSTATUS, MSTATUS, SystemRead, MstatusWrite); (MIP, MIP, MipRead, MipWrite);
   (MIE, MIE, SystemRead, MieWrite); (MRAC, MRAC, SystemRead, MracWrite);
   (MPMC, MPMC, SystemRead, MpmcWrite); (MSECCFG, MSECCFG, SystemRead, MseccfgWrite);
   (MEIVT, MEIVT, SystemRead, MeivtWrite); (PMPCFG_START, PMPCFG_END, SystemRead, PmpcfgWrite);
   (PMPADDR_START, PMPADDR_END, SystemRead, PmpaddrWrite);
   (MITCNT0, MITCNT0, MitcntRead, MitcntWrite); (MITCNT1, MITCNT1, MitcntRead, MitcntWrite);
   (MITB0, MITB0, MitbRead, MitbWrite); (MITB1, MITB1, MitbRead, MitbWrite);
   (MITCTL0, MITCTL0, MitctlRead, MitctlWrite); (MITCTL1, MITCTL1, MitctlRead, MitctlWrite);
   (MEIHAP, MEIHAP, MeihapRead, SystemWrite); (MCYCLE, MCYCLE, McycleRead, McycleWrite);
   (MCYCLEH, MCYCLEH, McyclehRead, McycleWrite)].

Definition csr_fn (addr : Z) : csr_read_fn * csr_write_fn :=
  foldl (λ fn '(first, last, r, w), if (first <=? addr) && (addr <=? last) then (r, w) else fn)
    (SystemRead, SystemWrite) CSR_FN.

Definition csr_read (priv_mode : RvPrivMode.t) (addr : Z) (f : CsrFile) (w : Shared) :
    result RvException.t Z :=
  if CSR_COUNT - 1 <? addr then Err RvException.illegal_register
  else
    match (csr_fn addr).1 with
    | SystemRead => system_read priv_mode f addr
    | MipRead => mip_read priv_mode f w
    | MitcntRead => machine_read priv_mode (mitcnt_read f w addr)
    | MitbRead => machine_read priv_mode (mitb_read f addr)
    | MitctlRead => machine_read priv_mode (mitctl_read f addr)
    | MeihapRead => meihap_read priv_mode f w
    | McycleRead => machine_read priv_mode (Ok (u32w (now (clock w))))
    | McyclehRead => machine_read priv_mode (Ok (u32w (Z.shiftr (now (clock w)) 32)))
    end.

Definition csr_write (priv_mode : RvPrivMode.t) (addr val : Z) : CsrM unit :=
  if CSR_COUNT - 1 <? addr then fail RvException.illegal_register
  else
    match (csr_fn addr).2 with
    | SystemWrite => system_write priv_mode addr val
    | MstatusWrite => mstatus_write priv_mode addr val
    | MipWrite => mip_write priv_mode
    | MieWrite => mie_write priv_mode addr val
    | MracWrite => mrac_write priv_mode addr val
    | MpmcWrite => mpmc_write priv_mode addr val
    | MseccfgWrite => mseccfg_write priv_mode addr val
    | MeivtWrite => meivt_write priv_mode addr val
    | PmpcfgWrite => pmpcfg_write priv_mode addr val
    | PmpaddrWrite => pmpaddr_write priv_mode addr val
    | MitcntWrite => machine_only priv_mode;; mitcnt_write addr val
    | MitbWrite => machine_only priv_mode;; mitb_write addr val
    | MitctlWrite => machine_only priv_mode;; mitctl_write addr val
    | McycleWrite => mret tt
    end.

Definition set_mtip (asserted : bool) : CsrM unit :=
  modify (λ '(f, w),
    let c := csr f MIP in
    let bit := Z.shiftl 1 Mtip in
    let v := if asserted then Z.lor (csr_val c) bit else Z.land (csr_val c) (not_u32 bit) in
    (set_csrs (<[MIP := mkCsr v (default_val c) (csr_mask c)]> (csrs f)) f, w));;
  schedule 0 TimerAction.Poll.
