(* ===== verification/RvCpu.v ===== *)
(** The emulated RISC-V processor (sw-emulator/lib/cpu/src/cpu.rs and
    sw-emulator/lib/cpu/src/instr): its state, the checks on memory accesses, the
    execution of instructions, traps, interrupts and one step of the
    processor. *)

From stdpp Require Import gmap.
From S2P Require Import Prelude Bits Memory RvTypes RvDecompress RvAlu Clock Pic RvCsr.

(** * The bus *)

(** The trait [Bus] (sw-emulator/lib/bus/src/bus.rs). Devices on the bus share
    clock, interrupt controller and region control with the processor. *)
Class Bus (B Event : Type) := {
  bus_read : RvSize → Z → MM BusError (B * Shared) Z;
  bus_write : RvSize → Z → Z → MM BusError (B * Shared) unit;
  bus_poll : B * Shared → B * Shared;
  bus_warm_reset : B * Shared → B * Shared;
  bus_update_reset : B * Shared → B * Shared;
  bus_incoming_event : Event → B * Shared → B * Shared
}.

(** * Monitoring *)

Record CpuOrgArgs := mkOrg {
  org_rom : Z; rom_size : Z; org_iccm : Z; iccm_size : Z; org_dccm : Z; dccm_size : Z;
  reset_vector : Z
}.

Record ImageInfo := mkImageInfo {
  stack_range : Z * Z;
  code_range : Z * Z;
  stack_watermark : Z
}.

(** [StackRange::new], [CodeRange::new] and [ImageInfo::new]; the name of an
    image is used for printing only. *)
Definition stack_range_new (stack_start stack_end : Z) : result RvException.t (Z * Z) :=
  if stack_start <? stack_end then Abort Panic else Ok (stack_start, stack_end).
Definition code_range_new (code_start code_end : Z) : result RvException.t (Z * Z) :=
  if code_end <? code_start then Abort Panic else Ok (code_start, code_end).
Definition image_info_new (stack code : Z * Z) : ImageInfo := mkImageInfo stack code stack.1.

Definition contains_pc (i : ImageInfo) (pc : Z) : bool :=
  ((code_range i).1 <=? pc) && (pc <=? (code_range i).2).

Definition image_check_overflow (sp : Z) (i : ImageInfo) : option Z * ImageInfo :=
  let i := mkImageInfo (stack_range i) (code_range i) (Z.min (stack_watermark i) sp) in
  let stack_end := (stack_range i).2 in
  (if sp <? stack_end then Some (stack_end - sp) else None, i).

Record StackInfo := mkStackInfo {
  images : list ImageInfo;
  max_stack_overflow : Z;
  has_overflowed : bool
}.

Definition stack_info_new (images : list ImageInfo) : StackInfo := mkStackInfo images 0 false.

(** The loop over the images: those up to the first that overflowed are
    updated. *)
Fixpoint check_images (pc stack_address : Z) (l : list ImageInfo) : option Z * list ImageInfo :=
  match l with
  | [] => (None, [])
  | i :: l =>
      if contains_pc i pc then
        match image_check_overflow stack_address i with
        | (Some amount, i) => (Some amount, i :: l)
        | (None, i) => let '(r, l) := check_images pc stack_address l in (r, i :: l)
        end
      else let '(r, l) := check_images pc stack_address l in (r, i :: l)
  end.

Definition check_overflow (pc stack_address : Z) (s : StackInfo) : option Z * StackInfo :=
  if stack_address =? 0 then (None, s)
  else
    match check_images pc stack_address (images s) with
    | (Some amount, l) => (Some amount, mkStackInfo l (Z.max (max_stack_overflow s) amount) true)
    | (None, l) => (None, mkStackInfo l (max_stack_overflow s) (has_overflowed s))
    end.

Inductive Instr := Compressed (instr : Z) | General (instr : Z).

Record CodeCoverage := mkCoverage { rom_bit_vec : list bool; iccm_bit_vec : list bool }.

Definition code_coverage_new (org : CpuOrgArgs) : CodeCoverage :=
  mkCoverage (replicate (Z.to_nat (rom_size org)) false) (replicate (Z.to_nat (iccm_size org)) false).

(** Marks the bytes of an instruction that lie inside the bit vector. *)
Definition mark_bytes (offset : Z) (num_bytes : nat) (v : list bool) : list bool :=
  foldl (λ v i, <[Z.to_nat (offset + Z.of_nat i) := true]> v) v (seq 0 num_bytes).

Definition log_execution (org : CpuOrgArgs) (pc : Z) (instr : Instr) (c : CodeCoverage) :
    result RvException.t CodeCoverage :=
  let num_bytes := match instr with Compressed _ => 2%nat | General _ => 4%nat end in
  rom_end ← unwrap (checked_add_u32 (org_rom org) (rom_size org));
  if (org_rom org <=? pc) && (pc <? rom_end) then
    Ok (mkCoverage (mark_bytes (pc - org_rom org) num_bytes (rom_bit_vec c)) (iccm_bit_vec c))
  else
    iccm_end ← unwrap (checked_add_u32 (org_iccm org) (iccm_size org));
    if (org_iccm org <=? pc) && (pc <? iccm_end) then
      Ok (mkCoverage (rom_bit_vec c) (mark_bytes (pc - org_iccm org) num_bytes (iccm_bit_vec c)))
    else Ok c.

Inductive WatchPtrKind := WatchRead | WatchWrite.
Record WatchPtrHit := mkHit { hit_addr : Z; hit_kind : WatchPtrKind }.
Record WatchPtrCfg := mkWatch { watch_write : list Z; watch_read : list Z; hit : option WatchPtrHit }.

Definition watch_new : WatchPtrCfg := mkWatch [] [] None.

(** * The processor *)

Section Cpu.
Context {B Event : Type}.

Record Cpu := mkCpu {
  xregs : XRegFile.t;
  cpu_csrs : CsrFile;
  pc : Z;
  next_pc : Z;
  nmivec : Z;
  ext_int_vec : Z;
  global_int_en : bool;
  ext_int_en : bool;
  deferred_ext_int : list bool;
  halted : bool;
  cpu_bus : B;
  shared : Shared;
  priv_mode : RvPrivMode.t;
  is_execute_instr : bool;
  watch_ptr_cfg : WatchPtrCfg;
  code_coverage : CodeCoverage;
  stack_info : option StackInfo;
  cpu_args : CpuOrgArgs;
  incoming_events : option (list Event)
}.

Definition set_xregs (v : XRegFile.t) (s : Cpu) : Cpu :=
  mkCpu v (cpu_csrs s) (pc s) (next_pc s) (nmivec s) (ext_int_vec s) (global_int_en s)
    (ext_int_en s) (deferred_ext_int s) (halted s) (cpu_bus s) (shared s) (priv_mode s)
    (is_execute_instr s) (watch_ptr_cfg s) (code_coverage s) (stack_info s) (cpu_args s)
    (incoming_events s).
Definition set_cpu_csrs (v : CsrFile) (s : Cpu) : Cpu :=
  mkCpu (xregs s) v (pc s) (next_pc s) (nmivec s) (ext_int_vec s) (global_int_en s) (ext_int_en s)
    (deferred_ext_int s) (halted s) (cpu_bus s) (shared s) (priv_mode s) (is_execute_instr s)
    (watch_ptr_cfg s) (code_coverage s) (stack_info s) (cpu_args s) (incoming_events s).
Definition set_pc (v : Z) (s : Cpu) : Cpu :=
  mkCpu (xregs s) (cpu_csrs s) v (next_pc s) (nmivec s) (ext_int_vec s) (global_int_en s)
    (ext_int_en s) (deferred_ext_int s) (halted s) (cpu_bus s) (shared s) (priv_mode s)
    (is_execute_instr s) (watch_ptr_cfg s) (code_coverage s) (stack_info s) (cpu_args s)
    (incoming_events s).
Definition set_next_pc (v : Z) (s : Cpu) : Cpu :=
  mkCpu (xregs s) (cpu_csrs s) (pc s) v (nmivec s) (ext_int_vec s) (global_int_en s)
    (ext_int_en s) (deferred_ext_int s) (halted s) (cpu_bus s) (shared s) (priv_mode s)
    (is_execute_instr s) (watch_ptr_cfg s) (code_coverage s) (stack_info s) (cpu_args s)
    (incoming_events s).
Definition set_nmivec (v : Z) (s : Cpu) : Cpu :=
  mkCpu (xregs s) (cpu_csrs s) (pc s) (next_pc s) v (ext_int_vec s) (global_int_en s)
    (ext_int_en s) (deferred_ext_int s) (halted s) (cpu_bus s) (shared s) (priv_mode s)
    (is_execute_instr s) (watch_ptr_cfg s) (code_coverage s) (stack_info s) (cpu_args s)
    (incoming_events s).
Definition set_ext_int_vec (v : Z) (s : Cpu) : Cpu :=
  mkCpu (xregs s) (cpu_csrs s) (pc s) (next_pc s) (nmivec s) v (global_int_en s) (ext_int_en s)
    (deferred_ext_int s) (halted s) (cpu_bus s) (shared s) (priv_mode s) (is_execute_instr s)
    (watch_ptr_cfg s) (code_coverage s) (stack_info s) (cpu_args s) (incoming_events s).
Definition set_global_int_en (v : bool) (s : Cpu) : Cpu :=
  mkCpu (xregs s) (cpu_csrs s) (pc s) (next_pc s) (nmivec s) (ext_int_vec s) v (ext_int_en s)
    (deferred_ext_int s) (halted s) (cpu_bus s) (shared s) (priv_mode s) (is_execute_instr s)
    (watch_ptr_cfg s) (code_coverage s) (stack_info s) (cpu_args s) (incoming_events s).
Definition set_ext_int_en (v : bool) (s : Cpu) : Cpu :=
  mkCpu (xregs s) (cpu_csrs s) (pc s) (next_pc s) (nmivec s) (ext_int_vec s) (global_int_en s) v
    (deferred_ext_int s) (halted s) (cpu_bus s) (shared s) (priv_mode s) (is_execute_instr s)
    (watch_ptr_cfg s) (code_coverage s) (stack_info s) (cpu_args s) (incoming_events s).
Definition set_deferred_ext_int (v : list bool) (s : Cpu) : Cpu :=
  mkCpu (xregs s) (cpu_csrs s) (pc s) (next_pc s) (nmivec s) (ext_int_vec s) (global_int_en s)
    (ext_int_en s) v (halted s) (cpu_bus s) (shared s) (priv_mode s) (is_execute_instr s)
    (watch_ptr_cfg s) (code_coverage s) (stack_info s) (cpu_args s) (incoming_events s).
Definition set_halted (v : bool) (s : Cpu) : Cpu :=
  mkCpu (xregs s) (cpu_csrs s) (pc s) (next_pc s) (nmivec s) (ext_int_vec s) (global_int_en s)
    (ext_int_en s) (deferred_ext_int s) v (cpu_bus s) (shared s) (priv_mode s)
    (is_execute_instr s) (watch_ptr_cfg s) (code_coverage s) (stack_info s) (cpu_args s)
    (incoming_events s).
Definition set_cpu_bus (v : B) (s : Cpu) : Cpu :=
  mkCpu (xregs s) (cpu_csrs s) (pc s) (next_pc s) (nmivec s) (ext_int_vec s) (global_int_en s)
    (ext_int_en s) (deferred_ext_int s) (halted s) v (shared s) (priv_mode s) (is_execute_instr s)
    (watch_ptr_cfg s) (code_coverage s) (stack_info s) (cpu_args s) (incoming_events s).
Definition set_shared (v : Shared) (s : Cpu) : Cpu :=
  mkCpu (xregs s) (cpu_csrs s) (pc s) (next_pc s) (nmivec s) (ext_int_vec s) (global_int_en s)
    (ext_int_en s) (deferred_ext_int s) (halted s) (cpu_bus s) v (priv_mode s)
    (is_execute_instr s) (watch_ptr_cfg s) (code_coverage s) (stack_info s) (cpu_args s)
    (incoming_events s).
Definition set_priv_mode (v : RvPrivMode.t) (s : Cpu) : Cpu :=
  mkCpu (xregs s) (cpu_csrs s) (pc s) (next_pc s) (nmivec s) (ext_int_vec s) (global_int_en s)
    (ext_int_en s) (deferred_ext_int s) (halted s) (cpu_bus s) (shared s) v (is_execute_instr s)
    (watch_ptr_cfg s) (code_coverage s) (stack_info s) (cpu_args s) (incoming_events s).
Definition set_is_execute_instr (v : bool) (s : Cpu) : Cpu :=
  mkCpu (xregs s) (cpu_csrs s) (pc s) (next_pc s) (nmivec s) (ext_int_vec s) (global_int_en s)
    (ext_int_en s) (deferred_ext_int s) (halted s) (cpu_bus s) (shared s) (priv_mode s) v
    (watch_ptr_cfg s) (code_coverage s) (stack_info s) (cpu_args s) (incoming_events s).
Definition set_watch_ptr_cfg (v : WatchPtrCfg) (s : Cpu) : Cpu :=
  mkCpu (xregs s) (cpu_csrs s) (pc s) (next_pc s) (nmivec s) (ext_int_vec s) (global_int_en s)
    (ext_int_en s) (deferred_ext_int s) (halted s) (cpu_bus s) (shared s) (priv_mode s)
    (is_execute_instr s) v (code_coverage s) (stack_info s) (cpu_args s) (incoming_events s).
Definition set_code_coverage (v : CodeCoverage) (s : Cpu) : Cpu :=
  mkCpu (xregs s) (cpu_csrs s) (pc s) (next_pc s) (nmivec s) (ext_int_vec s) (global_int_en s)
    (ext_int_en s) (deferred_ext_int s) (halted s) (cpu_bus s) (shared s) (priv_mode s)
    (is_execute_instr s) (watch_ptr_cfg s) v (stack_info s) (cpu_args s) (incoming_events s).
Definition set_stack_info (v : option StackInfo) (s : Cpu) : Cpu :=
  mkCpu (xregs s) (cpu_csrs s) (pc s) (next_pc s) (nmivec s) (ext_int_vec s) (global_int_en s)
    (ext_int_en s) (deferred_ext_int s) (halted s) (cpu_bus s) (shared s) (priv_mode s)
    (is_execute_instr s) (watch_ptr_cfg s) (code_coverage s) v (cpu_args s) (incoming_events s).
Definition set_incoming_events (v : option (list Event)) (s : Cpu) : Cpu :=
  mkCpu (xregs s) (cpu_csrs s) (pc s) (next_pc s) (nmivec s) (ext_int_vec s) (global_int_en s)
    (ext_int_en s) (deferred_ext_int s) (halted s) (cpu_bus s) (shared s) (priv_mode s)
    (is_execute_instr s) (watch_ptr_cfg s) (code_coverage s) (stack_info s) (cpu_args s) v.

Abbreviation CpuM := (MM RvException.t Cpu).

Definition set_hit (h : option WatchPtrHit) (s : Cpu) : Cpu :=
  set_watch_ptr_cfg (mkWatch (watch_write (watch_ptr_cfg s)) (watch_read (watch_ptr_cfg s)) h) s.

Definition cpu_new (bus : B) (w : Shared) (args : CpuOrgArgs) : Cpu :=
  mkCpu XRegFile.new csr_file_new (reset_vector args) (reset_vector args) 0 0 false false
    (replicate 256 false) false bus w RvPrivMode.M false watch_new (code_coverage_new args) None args None.

Definition with_stack_info (i : StackInfo) (s : Cpu) : Cpu := set_stack_info (Some i) s.

(** ** Registers *)

Definition read_pc : CpuM Z := get pc.
Definition write_pc (v : Z) : CpuM unit := modify (set_pc v).
Definition reset_pc : CpuM unit := modify (λ s, set_pc (reset_vector (cpu_args s)) s).
Definition read_next_pc : CpuM Z := get next_pc.
Definition write_next_pc (v : Z) : CpuM unit := modify (set_next_pc v).

Definition read_xreg (r : XReg.t) : CpuM Z := λ s, (XRegFile.read r (xregs s), s).

Definition check_stack (val : Z) (s : Cpu) : Cpu :=
  match stack_info s with
  | Some i => set_stack_info (Some (check_overflow (pc s) val i).2) s
  | None => s
  end.

Definition write_xreg (r : XReg.t) (val : Z) : CpuM unit :=
  (if decide (r = XReg.X2) then modify (check_stack val) else mret tt);;
  x ← get xregs;
  x' ← lift (XRegFile.write r val x);
  modify (set_xregs x').

(** Code that runs on the status registers and the shared devices. *)
Definition on_csrs {A} (m : CsrM A) : CpuM A := λ s,
  let '(r, (f, w)) := m (cpu_csrs s, shared s) in (r, set_cpu_csrs f (set_shared w s)).

Definition read_csr_as (mode : RvPrivMode.t) (addr : Z) : CpuM Z := λ s,
  (csr_read mode addr (cpu_csrs s) (shared s), s).
Definition read_csr (addr : Z) : CpuM Z := mode ← get priv_mode; read_csr_as mode addr.
Definition read_csr_machine (addr : Z) : CpuM Z := read_csr_as RvPrivMode.M addr.
Definition write_csr (addr val : Z) : CpuM unit :=
  mode ← get priv_mode; on_csrs (csr_write mode addr val).
Definition write_csr_machine (addr val : Z) : CpuM unit := on_csrs (csr_write RvPrivMode.M addr val).

Definition read_halted : CpuM bool := get halted.

(** ** Memory protection *)

Definition access_fault (access : RvMemAccessType.t) (addr : Z) : result RvException.t RvException.t :=
  match access with
  | RvMemAccessType.Read => Ok (RvException.load_access_fault addr)
  | RvMemAccessType.Write => Ok (RvException.store_access_fault addr)
  | RvMemAccessType.Execute => Ok (RvException.instr_access_fault addr)
  | RvMemAccessType.Invalid => Abort Panic
  end.

Definition deny_if (access : RvMemAccessType.t) (addr : Z) (b : bool) : CpuM unit :=
  if b then e ← lift (access_fault access addr); fail e else mret tt.

(** The accesses that the enhanced protection allows, by the bits
    lock, read, write and execute of the entry. *)
Definition allowed_mask (mode : RvPrivMode.t) (check_mask : Z) : result RvException.t Z :=
  let R := RvMemAccessType.into RvMemAccessType.Read in
  let W := RvMemAccessType.into RvMemAccessType.Write in
  let X := RvMemAccessType.into RvMemAccessType.Execute in
  match mode with
  | RvPrivMode.M =>
      match check_mask with
      | 0 | 1 | 4 | 5 | 6 | 7 | 8 => Ok 0
      | 2 | 3 | 14 => Ok (Z.lor R W)
      | 9 | 10 => Ok X
      | 11 | 13 => Ok (Z.lor R X)
      | 12 | 15 => Ok R
      | _ => Abort Panic
      end
  | RvPrivMode.U =>
      match check_mask with
      | 0 | 8 | 9 | 12 | 13 | 14 => Ok 0
      | 1 | 10 | 11 => Ok X
      | 2 | 4 | 15 => Ok R
      | 3 | 6 => Ok (Z.lor R W)
      | 5 => Ok (Z.lor R X)
      | 7 => Ok (Z.lor (Z.lor R W) X)
      | _ => Abort Panic
      end
  | RvPrivMode.Invalid => Abort Panic
  end.

Definition access_bit (access : RvMemAccessType.t) (cfg : Z) : result RvException.t Z :=
  match access with
  | RvMemAccessType.Read => Ok (RvPmpiCfg.read cfg)
  | RvMemAccessType.Write => Ok (RvPmpiCfg.write cfg)
  | RvMemAccessType.Execute => Ok (RvPmpiCfg.execute cfg)
  | RvMemAccessType.Invalid => Abort Panic
  end.

(** The mode that counts for an access: loads and stores use the previous mode
    while [mprv] is set. *)
Definition effective_mode (mstatus : Z) (access : RvMemAccessType.t) (mode : RvPrivMode.t) :
    RvPrivMode.t :=
  if negb (RvMStatus.mprv mstatus =? 0)
     && bool_decide (access = RvMemAccessType.Read ∨ access = RvMemAccessType.Write)
  then RvMStatus.mpp mstatus else mode.

Definition check_mem_priv_addr (addr : Z) (access : RvMemAccessType.t) : CpuM unit :=
  mstatus ← read_csr_machine MSTATUS;
  mode ← get priv_mode;
  let mode := effective_mode mstatus access mode in
  mseccfg ← read_csr_machine MSECCFG;
  f ← get cpu_csrs;
  entry ← lift (pmp_match_addr f addr);
  match entry with
  | Some cfg =>
      if negb (RvMsecCfg.mml mseccfg =? 0) then
        let check_mask :=
          Z.lor (Z.lor (Z.lor (Z.land (RvPmpiCfg.execute cfg) 1)
                          (Z.shiftl (Z.land (RvPmpiCfg.write cfg) 1) 1))
                   (Z.shiftl (Z.land (RvPmpiCfg.read cfg) 1) 2))
            (Z.shiftl (Z.land (RvPmpiCfg.lock cfg) 1) 3) in
        allowed ← lift (allowed_mask mode check_mask);
        deny_if access addr
          (negb (Z.land (RvMemAccessType.into access) allowed =? RvMemAccessType.into access))
      else
        check_bit ← lift (access_bit access cfg);
        deny_if access addr
          ((check_bit =? 0) && (bool_decide (mode ≠ RvPrivMode.M) || negb (RvPmpiCfg.lock cfg =? 0)))
  | None =>
      deny_if access addr (bool_decide (mode = RvPrivMode.M) && negb (RvMsecCfg.mmwp mseccfg =? 0))
  end.

(** [for i in 1..4]: the addition of the address is checked. *)
Fixpoint check_mem_priv_bytes (addr : Z) (access : RvMemAccessType.t) (offsets : list Z) : CpuM unit :=
  match offsets with
  | [] => mret tt
  | i :: offsets =>
      a ← lift (unwrap (checked_add_u32 addr i));
      check_mem_priv_addr a access;;
      check_mem_priv_bytes addr access offsets
  end.

Definition check_mem_priv (addr : Z) (size : RvSize) (access : RvMemAccessType.t) : CpuM unit :=
  check_mem_priv_addr addr access;;
  match size with
  | Word =>
      if Z.land addr 3 =? 0 then mret tt else check_mem_priv_bytes addr access [1; 2; 3]
  | _ => mret tt
  end.

(** ** Bus accesses *)

Context `{!Bus B Event}.

Definition bus_exception (addr : Z) (e : BusError) : RvException.t :=
  match e with
  | InstrAccessFault => RvException.instr_access_fault addr
  | LoadAccessFault => RvException.load_access_fault addr
  | LoadAddrMisaligned => RvException.load_addr_misaligned addr
  | StoreAccessFault => RvException.store_access_fault addr
  | StoreAddrMisaligned => RvException.store_addr_misaligned addr
  end.

Definition map_ifu_error (addr : Z) (e : BusError) : RvException.t :=
  match e with
  | InstrAccessFault => RvException.instr_access_fault addr
  | LoadAccessFault => RvException.instr_access_fault addr
  | LoadAddrMisaligned => RvException.instr_addr_misaligned addr
  | StoreAccessFault => RvException.store_access_fault addr
  | StoreAddrMisaligned => RvException.store_addr_misaligned addr
  end.

(** Runs a bus operation, with its errors turned into exceptions. *)
Definition on_bus {A} (exc : BusError → RvException.t) (m : MM BusError (B * Shared) A) : CpuM A := λ s,
  let '(r, (b, w)) := m (cpu_bus s, shared s) in
  (match r with Ok a => Ok a | Err e => Err (exc e) | Abort why => Abort why end,
   set_cpu_bus b (set_shared w s)).

Definition run_bus (f : B * Shared → B * Shared) (s : Cpu) : Cpu :=
  let '(b, w) := f (cpu_bus s, shared s) in set_cpu_bus b (set_shared w s).

(** Watchpoints are looked up while an instruction executes. *)
Definition watch (kind : WatchPtrKind) (addr : Z) (s : Cpu) : Cpu :=
  if is_execute_instr s then
    let ptrs := match kind with
                | WatchRead => watch_read (watch_ptr_cfg s)
                | WatchWrite => watch_write (watch_ptr_cfg s)
                end in
    set_hit (if bool_decide (addr ∈ ptrs) then Some (mkHit addr kind) else None) s
  else s.

Definition read_bus (size : RvSize) (addr : Z) : CpuM Z :=
  modify (watch WatchRead addr);;
  check_mem_priv addr size RvMemAccessType.Read;;
  on_bus (bus_exception addr) (bus_read size addr).

Definition write_bus (size : RvSize) (addr val : Z) : CpuM unit :=
  modify (watch WatchWrite addr);;
  check_mem_priv addr size RvMemAccessType.Write;;
  on_bus (bus_exception addr) (bus_write size addr val).

(** Instructions are fetched by aligned words, and the requested bytes cut
    out. *)
Definition fetch_bytes (size : RvSize) (addr : Z) : CpuM Z :=
  match size with
  | HalfWord | Word =>
      let size_bytes := match size with HalfWord => 2 | _ => 4 end in
      let aligned := Z.ldiff addr 3 in
      let byte_off := addr - aligned in
      lo ← on_bus (map_ifu_error addr) (bus_read Word aligned);
      combined ←
        (if 4 <? byte_off + size_bytes then
           hi ← on_bus (map_ifu_error addr) (bus_read Word (u32w (aligned + 4)));
           mret (Z.lor lo (Z.shiftl hi 32))
         else mret lo);
      mret (Z.land (Z.shiftr combined (byte_off * 8))
              (match size with HalfWord => 0xFFFF | _ => 0xFFFFFFFF end))
  | Byte | Invalid => fail (RvException.instr_access_fault addr)
  end.

Definition read_instr (size : RvSize) (addr : Z) : CpuM Z :=
  check_mem_priv addr size RvMemAccessType.Execute;;
  fetch_bytes size addr.

(** ** Instructions *)

(** Each instruction asserts that it was dispatched on its opcode. *)
Definition assert_opcode (found expected : RvInstr32Opcode.t) : CpuM unit :=
  if decide (found = expected) then mret tt else stop Panic.

Definition exec_op_instr (instr : Z) : CpuM unit :=
  assert_opcode (RvInstr32R.opcode instr) RvInstr32Opcode.Op;;
  val1 ← read_xreg (RvInstr32R.rs1 instr);
  val2 ← read_xreg (RvInstr32R.rs2 instr);
  data ← lift (op_data instr val1 val2);
  write_xreg (RvInstr32R.rd instr) data.

Definition exec_op_imm_instr (instr : Z) : CpuM unit :=
  assert_opcode (RvInstr32I.opcode instr) RvInstr32Opcode.OpImm;;
  reg ← read_xreg (RvInstr32I.rs instr);
  data ← lift (op_imm_data instr reg);
  write_xreg (RvInstr32I.rd instr) data.

Definition exec_branch_instr (instr : Z) : CpuM unit :=
  assert_opcode (RvInstr32B.opcode instr) RvInstr32Opcode.Branch;;
  val1 ← read_xreg (RvInstr32B.rs1 instr);
  val2 ← read_xreg (RvInstr32B.rs2 instr);
  pc ← read_pc;
  let jump (b : bool) : CpuM unit :=
    if b then write_next_pc (u32w (pc + RvInstr32B.imm instr)) else mret tt in
  match RvInstr32BranchFunct3.from (RvInstr32B.funct3 instr) with
  | RvInstr32BranchFunct3.Beq => jump (val1 =? val2)
  | RvInstr32BranchFunct3.Bne => jump (negb (val1 =? val2))
  | RvInstr32BranchFunct3.Blt => jump (sx 32 val1 <? sx 32 val2)
  | RvInstr32BranchFunct3.Bge => jump (sx 32 val2 <=? sx 32 val1)
  | RvInstr32BranchFunct3.Bltu => jump (val1 <? val2)
  | RvInstr32BranchFunct3.Bgeu => jump (val2 <=? val1)
  | RvInstr32BranchFunct3.Invalid => fail (RvException.illegal_instr instr)
  end.

Definition exec_load_instr (instr : Z) : CpuM unit :=
  assert_opcode (RvInstr32I.opcode instr) RvInstr32Opcode.Load;;
  base ← read_xreg (RvInstr32I.rs instr);
  let addr := u32w (base + u32w (RvInstr32I.imm instr)) in
  data ←
    match RvInstr32LoadFunct3.from (RvInstr32I.funct3 instr) with
    | RvInstr32LoadFunct3.Lb => v ← read_bus Byte addr; mret (u32w (sx 8 v))
    | RvInstr32LoadFunct3.Lh => v ← read_bus HalfWord addr; mret (u32w (sx 16 v))
    | RvInstr32LoadFunct3.Lw => v ← read_bus Word addr; mret (u32w (sx 32 v))
    | RvInstr32LoadFunct3.Lbu => read_bus Byte addr
    | RvInstr32LoadFunct3.Lhu => read_bus HalfWord addr
    | RvInstr32LoadFunct3.Invalid => fail (RvException.illegal_instr instr)
    end;
  write_xreg (RvInstr32I.rd instr) data.

Definition exec_store_instr (instr : Z) : CpuM unit :=
  assert_opcode (RvInstr32S.opcode instr) RvInstr32Opcode.Store;;
  base ← read_xreg (RvInstr32S.rs1 instr);
  let addr := u32w (base + u32w (RvInstr32S.imm instr)) in
  val ← read_xreg (RvInstr32S.rs2 instr);
  match RvInstr32StoreFunct3.from (RvInstr32S.funct3 instr) with
  | RvInstr32StoreFunct3.Sb => write_bus Byte addr val
  | RvInstr32StoreFunct3.Sh => write_bus HalfWord addr val
  | RvInstr32StoreFunct3.Sw => write_bus Word addr val
  | RvInstr32StoreFunct3.Invalid => fail (RvException.illegal_instr instr)
  end.

Definition exec_lui_instr (instr : Z) : CpuM unit :=
  assert_opcode (RvInstr32U.opcode instr) RvInstr32Opcode.Lui;;
  let val := u32w (Z.shiftl (RvInstr32U.imm instr) 12) in
  write_xreg (RvInstr32U.rd instr) val.

Definition exec_auipc_instr (instr : Z) : CpuM unit :=
  assert_opcode (RvInstr32U.opcode instr) RvInstr32Opcode.Auipc;;
  let imm := u32w (Z.shiftl (RvInstr32U.imm instr) 12) in
  pc ← read_pc;
  write_xreg (RvInstr32U.rd instr) (u32w (pc + imm)).

Definition exec_jal_instr (instr : Z) : CpuM unit :=
  assert_opcode (RvInstr32J.opcode instr) RvInstr32Opcode.Jal;;
  pc ← read_pc;
  let next := u32w (pc + RvInstr32J.imm instr) in
  lr ← read_next_pc;
  write_next_pc next;;
  write_xreg (RvInstr32J.rd instr) lr.

Definition exec_jalr_instr (instr : Z) : CpuM unit :=
  assert_opcode (RvInstr32I.opcode instr) RvInstr32Opcode.Jalr;;
  base ← read_xreg (RvInstr32I.rs instr);
  let target := sx 32 (sx 32 base + RvInstr32I.imm instr) in
  let target := Z.land (u32w target) (not_u32 1) in
  lr ← read_next_pc;
  write_next_pc target;;
  write_xreg (RvInstr32I.rd instr) lr.

Definition exec_fence_instr (instr : Z) : CpuM unit :=
  assert_opcode (RvInstr32I.opcode instr) RvInstr32Opcode.Fence;;
  match RvInstr32FenceFunct3.from (RvInstr32I.funct3 instr) with
  | RvInstr32FenceFunct3.Fence | RvInstr32FenceFunct3.FenceI => mret tt
  | RvInstr32FenceFunct3.Invalid => fail (RvException.illegal_instr instr)
  end.

Definition exec_mret (instr : Z) : CpuM unit :=
  mode ← get priv_mode;
  fail_if (bool_decide (mode = RvPrivMode.U)) (RvException.illegal_instr instr);;
  status ← read_csr MSTATUS;
  let mpp := RvMStatus.mpp status in
  let status := RvMStatus.set_mie (RvMStatus.mpie status) status in
  let status := RvMStatus.set_mpie 1 status in
  let status := RvMStatus.set_mpp RvPrivMode.U status in
  write_csr MSTATUS status;;
  epc ← read_csr MEPC;
  write_next_pc epc;;
  modify (set_priv_mode mpp).

(** The read, the new value and the write of a CSR instruction, in the order of
    the code: the new value may read a register. *)
Definition exec_csr (instr csr : Z) (new_val : Z → CpuM Z) : CpuM unit :=
  old_val ← read_csr csr;
  v ← new_val old_val;
  write_csr csr v;;
  write_xreg (RvInstr32I.rd instr) old_val.

Definition exec_system_instr (instr : Z) : CpuM unit :=
  assert_opcode (RvInstr32I.opcode instr) RvInstr32Opcode.System;;
  let imm := RvInstr32I.uimm instr in
  let rs := RvInstr32I.rs instr in
  let zimm := XReg.into rs in
  match RvInstr32SystemFunct3.from (RvInstr32I.funct3 instr) with
  | RvInstr32SystemFunct3.Priv =>
      match RvInstr32SystemImm.from imm with
      | RvInstr32SystemImm.Wfi => mret tt
      | RvInstr32SystemImm.Ecall =>
          mode ← get priv_mode;
          match mode with
          | RvPrivMode.M => fail RvException.environment_call_machine
          | RvPrivMode.U => fail RvException.environment_call_user
          | RvPrivMode.Invalid => stop Panic
          end
      | RvInstr32SystemImm.Ebreak => pc ← read_pc; fail (RvException.breakpoint pc)
      | RvInstr32SystemImm.Mret => exec_mret instr
      | RvInstr32SystemImm.Invalid => fail (RvException.illegal_instr instr)
      end
  | RvInstr32SystemFunct3.Csrrw => exec_csr instr imm (λ _, read_xreg rs)
  | RvInstr32SystemFunct3.Csrrs => exec_csr instr imm (λ old, v ← read_xreg rs; mret (Z.lor old v))
  | RvInstr32SystemFunct3.Csrrc =>
      exec_csr instr imm (λ old, v ← read_xreg rs; mret (Z.land old (not_u32 v)))
  | RvInstr32SystemFunct3.Csrrwi => exec_csr instr imm (λ _, mret zimm)
  | RvInstr32SystemFunct3.Csrrsi => exec_csr instr imm (λ old, mret (Z.lor old zimm))
  | RvInstr32SystemFunct3.Csrrci => exec_csr instr imm (λ old, mret (Z.land old (not_u32 zimm)))
  | RvInstr32SystemFunct3.Invalid => fail (RvException.illegal_instr instr)
  end.

Definition exec_instr32 (instr : Z) : CpuM unit :=
  match RvInstr32.opcode instr with
  | RvInstr32Opcode.Load => exec_load_instr instr
  | RvInstr32Opcode.OpImm => exec_op_imm_instr instr
  | RvInstr32Opcode.Auipc => exec_auipc_instr instr
  | RvInstr32Opcode.Store => exec_store_instr instr
  | RvInstr32Opcode.Op => exec_op_instr instr
  | RvInstr32Opcode.Lui => exec_lui_instr instr
  | RvInstr32Opcode.Branch => exec_branch_instr instr
  | RvInstr32Opcode.Jalr => exec_jalr_instr instr
  | RvInstr32Opcode.Jal => exec_jal_instr instr
  | RvInstr32Opcode.System => exec_system_instr instr
  | RvInstr32Opcode.Fence => exec_fence_instr instr
  | RvInstr32Opcode.Invalid => fail (RvException.illegal_instr instr)
  end.

Definition exec_instr16 (instr : Z) : CpuM unit :=
  i ← lift (decompress_instr instr);
  exec_instr32 i.

Definition fetch : CpuM Instr :=
  pc ← read_pc;
  instr ← read_instr HalfWord pc;
  if Z.land instr 3 <=? 2 then mret (Compressed (u16w instr))
  else i ← read_instr Word pc; mret (General i).

Inductive StepAction := Continue | Break | Fatal.

Definition exec_instr : CpuM StepAction :=
  modify (λ s, set_hit None (set_is_execute_instr true s));;
  instr ← fetch;
  s ← get (λ s, s);
  coverage ← lift (log_execution (cpu_args s) (pc s) instr (code_coverage s));
  modify (set_code_coverage coverage);;
  match instr with
  | Compressed i => write_next_pc (u32w (pc s + 2));; exec_instr16 i
  | General i => write_next_pc (u32w (pc s + 4));; exec_instr32 i
  end;;
  next ← read_next_pc;
  write_pc next;;
  modify (set_is_execute_instr false);;
  h ← get (λ s, hit (watch_ptr_cfg s));
  mret (match h with Some _ => Break | None => Continue end).

(** ** Traps *)

Definition handle_trap (pc cause info next : Z) : CpuM unit :=
  write_csr_machine MEPC pc;;
  write_csr_machine MCAUSE cause;;
  write_csr_machine MTVAL info;;
  status ← read_csr_machine MSTATUS;
  mode ← get priv_mode;
  status ←
    match mode with
    | RvPrivMode.U =>
        modify (set_priv_mode RvPrivMode.M);;
        mret (RvMStatus.set_mpp RvPrivMode.U status)
    | RvPrivMode.M => mret (RvMStatus.set_mpp RvPrivMode.M status)
    | RvPrivMode.Invalid => stop Panic
    end;
  let status := RvMStatus.set_mpie (RvMStatus.mie status) status in
  let status := RvMStatus.set_mie 0 status in
  write_csr_machine MSTATUS status;;
  modify (set_global_int_en false);;
  write_pc next.

(** [match self.handle_trap(..) { Ok(_) => Continue, Err(_) => Fatal }]. *)
Definition trap_action (m : CpuM unit) : CpuM StepAction :=
  r ← catch m;
  mret (match r with Ok _ => Continue | _ => Fatal end).

(** [self.read_csr_machine(Csr::MTVEC).unwrap() & !0b11]. *)
Definition read_mtvec : CpuM Z :=
  r ← catch (read_csr_machine MTVEC);
  match r with Ok v => mret (Z.land v (not_u32 3)) | _ => stop Panic end.

Definition handle_exception (e : RvException.t) : CpuM StepAction :=
  pc ← read_pc;
  vec ← read_mtvec;
  trap_action (handle_trap pc (RvExceptionCause.into (RvException.cause e)) (RvException.info e) vec).

Definition handle_internal_timer_local_interrupt (timer_id : Z) : CpuM StepAction :=
  pc ← read_pc;
  vec ← read_mtvec;
  trap_action (handle_trap pc (0x8000001D - timer_id) 0 vec).

Definition handle_machine_timer_intteruppt : CpuM StepAction :=
  pc ← read_pc;
  vec ← read_mtvec;
  trap_action (handle_trap pc 0x80000007 0 vec).

Definition handle_nmi (cause info : Z) : CpuM StepAction :=
  pc ← read_pc;
  vec ← get nmivec;
  trap_action (handle_trap pc cause info vec).

Definition NON_DCCM_NMI : Z := 0xF0001002.
Definition MACHINE_EXTERNAL_INT : Z := 0x8000000B.

(** The value of [m], or [Fatal]. *)
Definition or_fatal {A} (m : CpuM A) (k : A → CpuM StepAction) : CpuM StepAction :=
  r ← catch m;
  match r with Ok a => k a | _ => mret Fatal end.

(** The status computed before the vector is read is not written back: the trap
    computes its own. *)
Definition handle_external_int (irq : Z) : CpuM StepAction :=
  let REDIRECT_ENTRY_SIZE := 4 in
  let MAX_IRQ := 32 in
  vec_table ← get ext_int_vec;
  org ← get cpu_args;
  outside ←
    (if vec_table <? org_dccm org then mret true
     else
       vec_end ← lift (unwrap (checked_add_u32 vec_table (MAX_IRQ * REDIRECT_ENTRY_SIZE)));
       dccm_end ← lift (unwrap (checked_add_u32 (org_dccm org) (dccm_size org)));
       mret (dccm_end <? vec_end));
  if (outside : bool) then handle_nmi NON_DCCM_NMI 0
  else
    or_fatal (read_csr_machine MSTATUS) (λ status,
      mode ← get priv_mode;
      match mode with
      | RvPrivMode.U => modify (set_priv_mode RvPrivMode.M)
      | RvPrivMode.M => mret tt
      | RvPrivMode.Invalid => stop Panic
      end;;
      next_pc_ptr ← lift (unwrap (checked_add_u32 vec_table (REDIRECT_ENTRY_SIZE * irq)));
      let meihap := RvMEIHAP.set_claimid irq vec_table in
      or_fatal (write_csr_machine MEIHAP meihap) (λ _,
        or_fatal (read_bus Word next_pc_ptr) (λ next,
          pc ← read_pc;
          trap_action (handle_trap pc MACHINE_EXTERNAL_INT 0 next)))).

(** ** Reset *)

Definition do_reset : CpuM unit :=
  modify (set_halted false);;
  modify (set_priv_mode RvPrivMode.M);;
  on_csrs csr_file_reset;;
  on_csrs (disarm 0);;
  on_csrs (disarm 1);;
  reset_pc.

Definition schedule_action (ticks : Z) (a : TimerAction.t) : CpuM unit := on_csrs (schedule ticks a).

Definition warm_reset : CpuM unit := schedule_action 0 TimerAction.WarmReset.

(** ** A step *)

(** [sort_by_key(|a| -a.priority())], stable; [pop] takes from the end. *)
Fixpoint insert_by_priority (a : TimerAction.t) (l : list TimerAction.t) : list TimerAction.t :=
  match l with
  | [] => [a]
  | b :: l' =>
      if TimerAction.priority b <=? TimerAction.priority a then a :: l else b :: insert_by_priority a l'
  end.
Definition sort_by_priority (l : list TimerAction.t) : list TimerAction.t :=
  foldr insert_by_priority [] l.

(** What the loop of [step] does with an action: whether it goes on, whether
    the action is to be scheduled again, and the action of the step if it is
    decided. *)
Inductive verdict := Go (save : bool) | Stop (action : option StepAction).

Definition set_deferred (irq : Z) (v : bool) (s : Cpu) : Cpu :=
  set_deferred_ext_int (<[Z.to_nat irq := v]> (deferred_ext_int s)) s.

Definition serve_irq (irq : Z) : CpuM verdict :=
  modify (set_halted false);;
  a ← handle_external_int irq;
  mret (Stop (Some a)).

Definition process_action (a : TimerAction.t) : CpuM verdict :=
  match a with
  | TimerAction.WarmReset | TimerAction.UpdateReset => do_reset;; mret (Stop None)
  | TimerAction.Nmi mcause =>
      modify (set_halted false);;
      r ← handle_nmi mcause 0;
      mret (Stop (Some r))
  | TimerAction.SetNmiVec addr => modify (set_nmivec addr);; mret (Go false)
  | TimerAction.ExtInt irq can_wake =>
      s ← get (λ s, s);
      if global_int_en s && ext_int_en s && (negb (halted s) || can_wake) then
        deferred ← lift (unwrap (deferred_ext_int s !! Z.to_nat irq));
        if (deferred : bool) then
          modify (set_deferred irq false);;
          irq ← lift (highest_priority_irq_total (pic (shared s)));
          match irq with
          | Some active_irq => serve_irq active_irq
          | None => mret (Go false)
          end
        else serve_irq irq
      else modify (set_deferred irq true);; mret (Go true)
  | TimerAction.SetExtIntVec addr => modify (set_ext_int_vec addr);; mret (Go false)
  | TimerAction.SetGlobalIntEn en => modify (set_global_int_en en);; mret (Go false)
  | TimerAction.SetExtIntEn en => modify (set_ext_int_en en);; mret (Go false)
  | TimerAction.InternalTimerLocalInterrupt timer_id =>
      on_csrs (write_mitcnt timer_id 0);;
      on_csrs (disarm timer_id);;
      s ← get (λ s, s);
      if global_int_en s && negb (halted s) then
        r ← handle_internal_timer_local_interrupt timer_id; mret (Stop (Some r))
      else mret (Go true)
  | TimerAction.MachineTimerInterrupt =>
      on_csrs (set_mtip true);;
      s ← get (λ s, s);
      if global_int_en s && negb (halted s) then
        r ← handle_machine_timer_intteruppt; mret (Stop (Some r))
      else mret (Go true)
  | TimerAction.Halt => modify (set_halted true);; mret (Go false)
  | TimerAction.Poll => mret (Go false)
  end.

(** The loop on the actions in the order they are popped; it returns the
    decided action, the saved actions and those not reached. *)
Fixpoint process_actions (queue saved : list TimerAction.t) :
    CpuM (option StepAction * list TimerAction.t * list TimerAction.t) :=
  match queue with
  | [] => mret (None, saved, [])
  | a :: queue =>
      v ← process_action a;
      match v with
      | Stop r => mret (r, saved, queue)
      | Go save => process_actions queue (if (save : bool) then saved ++ [a] else saved)
      end
  end.

Fixpoint schedule_all (l : list TimerAction.t) : CpuM unit :=
  match l with
  | [] => mret tt
  | a :: l => schedule_action 1 a;; schedule_all l
  end.

Definition handle_incoming_events : CpuM unit :=
  modify (λ s,
    match incoming_events s with
    | Some events =>
        set_incoming_events (Some []) (foldl (λ s e, run_bus (bus_incoming_event e) s) s events)
    | None => s
    end).

(** [Clock::increment_and_process_timer_actions]: the bus is told of polls and
    resets, up to the first reset. *)
Fixpoint notify_bus (l : list TimerAction.t) : CpuM unit :=
  match l with
  | [] => mret tt
  | TimerAction.Poll :: l => modify (run_bus bus_poll);; notify_bus l
  | TimerAction.WarmReset :: _ => modify (run_bus bus_warm_reset)
  | TimerAction.UpdateReset :: _ => modify (run_bus bus_update_reset)
  | _ :: l => notify_bus l
  end.

(** Fired actions come as a hash set, whose iteration order is an argument. *)
Definition increment_and_process_timer_actions (iter : list TimerAction.t → list TimerAction.t)
    (delta : Z) : CpuM (list TimerAction.t) :=
  w ← get shared;
  let '(r, c) := clock_increment delta (clock w) in
  modify (λ s, set_shared (set_clock c (shared s)) s);;
  fired ← lift r;
  notify_bus (iter fired);;
  mret (iter fired).

Definition step (iter : list TimerAction.t → list TimerAction.t) : CpuM StepAction :=
  fired ← increment_and_process_timer_actions iter 1;
  '(decided, saved, rest) ← process_actions (reverse (sort_by_priority fired)) [];
  schedule_all saved;;
  schedule_all (reverse rest);;
  match decided with
  | Some action => mret action
  | None =>
      handle_incoming_events;;
      s ← get (λ s, s);
      if halted s then write_next_pc (pc s);; mret Continue
      else
        r ← catch exec_instr;
        action ← match r with
                 | Ok a => mret a
                 | Err e => handle_exception e
                 | Abort w => stop w
                 end;
        handle_incoming_events;;
        mret action
  end.

(** ** Watchpoints *)

Definition add_watchptr (addr len : Z) (kind : WatchPtrKind) : CpuM unit :=
  last ← lift (unwrap (checked_add_u32 addr len));
  modify (λ s,
    let c := watch_ptr_cfg s in
    let ptrs := seqZ addr (last - addr) in
    match kind with
    | WatchRead => set_watch_ptr_cfg (mkWatch (watch_write c) (watch_read c ++ ptrs) (hit c)) s
    | WatchWrite => set_watch_ptr_cfg (mkWatch (watch_write c ++ ptrs) (watch_read c) (hit c)) s
    end).

Definition remove_watchptr (addr len : Z) (kind : WatchPtrKind) : CpuM unit :=
  last ← lift (unwrap (checked_add_u32 addr len));
  modify (λ s,
    let c := watch_ptr_cfg s in
    let retain := filter (λ x, x < addr ∨ last < x) in
    match kind with
    | WatchRead => set_watch_ptr_cfg (mkWatch (watch_write c) (retain (watch_read c)) (hit c)) s
    | WatchWrite => set_watch_ptr_cfg (mkWatch (retain (watch_write c)) (watch_read c) (hit c)) s
    end).

Definition raise_mtip : CpuM unit := on_csrs (set_mtip true).

End Cpu.
