(* ===== verification/Buses.v ===== *)
(** The buses of the emulator: the wrapper for region access control
    (sw-emulator/lib/bus/src/mrac_bus.rs), which allows only aligned accesses to
    regions with side effects and widens reads of cacheable regions to double
    words; the devices on a bus (sw-emulator/lib/bus/src/ram.rs and rom.rs, the
    registers of the interrupt controller in sw-emulator/lib/cpu/src/pic.rs); and
    the bus that dispatches to a list of devices by address
    (sw-emulator/lib/bus/src/dynamic_bus.rs). *)

From S2P Require Import Prelude Bits Memory RvTypes RvAlu Clock Pic RvCsr RvCpu.

Record MracBus (B : Type) := mkMracBus { inner : B; mrac_enabled : bool }.
Arguments mkMracBus {B}.
Arguments inner {B}.
Arguments mrac_enabled {B}.

Section MracBus.
Context {B Event : Type} `{!Bus B Event}.

Abbreviation MracM := (MM BusError (MracBus B * Shared)).

Definition region_bits (mrac addr : Z) : Z :=
  let region := Z.land (Z.shiftr addr 28) 0xF in
  Z.land (Z.shiftr mrac (region * 2)) 3.
Definition is_sideeffect (mrac addr : Z) : bool := negb (Z.land (region_bits mrac addr) 2 =? 0).
Definition is_cacheable (mrac addr : Z) : bool := negb (Z.land (region_bits mrac addr) 1 =? 0).

Definition on_inner {A} (m : MM BusError (B * Shared) A) : MracM A := λ '(b, w),
  let '(r, (i, w)) := m (inner b, w) in (r, (mkMracBus i (mrac_enabled b), w)).

Definition is_aligned (size : RvSize) (addr : Z) : bool :=
  match size with
  | Byte => true
  | HalfWord => Z.land addr 1 =? 0
  | Word => Z.land addr 3 =? 0
  | Invalid => false
  end.

Definition size_bytes (size : RvSize) : Z :=
  match size with Byte => 1 | HalfWord => 2 | Word => 4 | Invalid => 0 end.

Definition read_widened (size : RvSize) (addr : Z) : MracM Z :=
  match size with
  | Invalid => fail LoadAccessFault
  | _ =>
      let aligned_addr := Z.ldiff addr 7 in
      let byte_offset := addr - aligned_addr in
      lo0 ← on_inner (bus_read Word aligned_addr);
      hi0 ← on_inner (bus_read Word (u32w (aligned_addr + 4)));
      let dword0 := Z.lor lo0 (Z.shiftl hi0 32) in
      combined ←
        (if 8 <? byte_offset + size_bytes size then
           lo1 ← on_inner (bus_read Word (u32w (aligned_addr + 8)));
           hi1 ← on_inner (bus_read Word (u32w (aligned_addr + 12)));
           let dword1 := Z.lor lo1 (Z.shiftl hi1 32) in
           mret (Z.lor dword0 (Z.shiftl dword1 64))
         else mret dword0);
      let mask := match size with Byte => 0xFF | HalfWord => 0xFFFF | _ => 0xFFFFFFFF end in
      mret (Z.land (Z.shiftr combined (byte_offset * 8)) mask)
  end.

Definition mrac_bus_read (size : RvSize) (addr : Z) : MracM Z :=
  '(b, w) ← get (λ s, s);
  if negb (mrac_enabled b) then on_inner (bus_read size addr)
  else if is_sideeffect (mrac w) addr then
    fail_if (negb (is_aligned size addr)) LoadAddrMisaligned;;
    on_inner (bus_read size addr)
  else if is_cacheable (mrac w) addr then read_widened size addr
  else on_inner (bus_read size addr).

Definition mrac_bus_write (size : RvSize) (addr val : Z) : MracM unit :=
  '(b, w) ← get (λ s, s);
  if negb (mrac_enabled b) then on_inner (bus_write size addr val)
  else
    fail_if (is_sideeffect (mrac w) addr && negb (is_aligned size addr)) StoreAddrMisaligned;;
    on_inner (bus_write size addr val).

Definition through (f : B * Shared → B * Shared) (s : MracBus B * Shared) : MracBus B * Shared :=
  let '(b, w) := s in
  let '(i, w) := f (inner b, w) in (mkMracBus i (mrac_enabled b), w).

#[export] Instance mrac_bus : Bus (MracBus B) Event := {
  bus_read := mrac_bus_read;
  bus_write := mrac_bus_write;
  bus_poll := through bus_poll;
  bus_warm_reset := through bus_warm_reset;
  bus_update_reset := through bus_update_reset;
  bus_incoming_event e := through (bus_incoming_event e)
}.

End MracBus.

(** * Devices *)

Section Devices.
Context {Event : Type}.

(** An operation of a device that fails without effect. *)
Definition device_read {D} (r : D → bus Z) : MM BusError (D * Shared) Z := λ '(d, w), (r d, (d, w)).
Definition device_write {D} (m : D → bus D) : MM BusError (D * Shared) unit := λ '(d, w),
  match m d with
  | Ok d' => (Ok tt, (d', w))
  | Err e => (Err e, (d, w))
  | Abort a => (Abort a, (d, w))
  end.

(** [RamImpl] with the access behaviour of its parameter; the other methods
    of the trait do nothing by default. *)
Definition ram_bus `{MemAccess} : Bus Ram.RamImpl Event := {|
  bus_read size addr := device_read (λ r, Ram.read r size (Z.to_nat addr));
  bus_write size addr val := device_write (λ r, Ram.write r size (Z.to_nat addr) val);
  bus_poll s := s;
  bus_warm_reset s := s;
  bus_update_reset s := s;
  bus_incoming_event _ s := s
|}.

Definition mem_bus {A} (r : Mem.mem A) : bus A :=
  match r with Ok d => Ok d | Err e => Err (Mem.to_bus_error e) | Abort a => Abort a end.

Definition rom_bus : Bus Mem.t Event := {|
  bus_read size addr := device_read (λ m, mem_bus (Mem.read m size (Z.to_nat addr)));
  bus_write _ _ _ := fail StoreAccessFault;
  bus_poll s := s;
  bus_warm_reset s := s;
  bus_update_reset s := s;
  bus_incoming_event _ s := s
|}.

(** [PicMmioRegisters] has no state of its own: the controller is shared. *)
Definition pic_bus : Bus unit Event := {|
  bus_read size addr := λ '(d, w), (pic_read size addr (pic w), (d, w));
  bus_write size addr val := λ '(d, w),
    match pic_write size addr val (pic w) with
    | Ok p => (Ok tt, (d, set_pic p w))
    | Err e => (Err e, (d, w))
    | Abort a => (Abort a, (d, w))
    end;
  bus_poll s := let '(d, w) := s in (d, set_clock (pic_poll (E:=BusError) (pic w) (clock w)).2 w);
  bus_warm_reset s := s;
  bus_update_reset s := s;
  bus_incoming_event _ s := s
|}.

End Devices.

(** * Dispatch *)

(** The name of a device is used for printing only. *)
Record MappedDevice (D : Type) := mkDev { mmap_start : Z; mmap_end : Z; dev_bus : D }.
Arguments mkDev {D}.
Arguments mmap_start {D}.
Arguments mmap_end {D}.
Arguments dev_bus {D}.

(** The ranges are inclusive. *)
Definition contains {D} (addr : Z) (d : MappedDevice D) : bool := (mmap_start d <=? addr) && (addr <=? mmap_end d).
Definition overlaps {D} (d e : MappedDevice D) : bool := (mmap_start e <=? mmap_end d) && (mmap_start d <=? mmap_end e).

Inductive AttachError := AddrInUse.

Section DynamicBus.
Context {D Event : Type} `{!Bus D Event}.

Definition DynamicBus : Type := list (MappedDevice D).
Definition DynBus_new : DynamicBus := [].

(** The loop of [attach_dev]: the position in the list, or the collision. *)
Fixpoint attach_pos (dev : MappedDevice D) (devs : list (MappedDevice D)) (index : nat) : result AttachError nat :=
  match devs with
  | [] => Ok index
  | cur :: devs =>
      if overlaps dev cur then Err AddrInUse
      else if mmap_start dev <? mmap_start cur then Ok index
      else attach_pos dev devs (S index)
  end.

Definition attach_dev (dev : MappedDevice D) (b : DynamicBus) : result AttachError DynamicBus :=
  index ← attach_pos dev b 0;
  Ok (take index b ++ dev :: drop index b).

(** Runs an operation on the device at [i]. *)
Definition on_dev {A} (i : nat) (dev : MappedDevice D) (m : MM BusError (D * Shared) A) :
    MM BusError (DynamicBus * Shared) A := λ '(b, w),
  let '(r, (d, w)) := m (dev_bus dev, w) in
  (r, (<[i := mkDev (mmap_start dev) (mmap_end dev) d]> b, w)).

Definition dyn_read (size : RvSize) (addr : Z) : MM BusError (DynamicBus * Shared) Z :=
  b ← get fst;
  match list_find (λ d, contains addr d = true) b with
  | Some (i, dev) => on_dev i dev (bus_read size (addr - mmap_start dev))
  | None => fail LoadAccessFault
  end.

Definition dyn_write (size : RvSize) (addr val : Z) : MM BusError (DynamicBus * Shared) unit :=
  b ← get fst;
  match list_find (λ d, contains addr d = true) b with
  | Some (i, dev) => on_dev i dev (bus_write size (addr - mmap_start dev) val)
  | None => fail StoreAccessFault
  end.

Fixpoint poll_devs (b : list (MappedDevice D)) (w : Shared) : list (MappedDevice D) * Shared :=
  match b with
  | [] => ([], w)
  | dev :: b =>
      let '(d, w) := bus_poll (dev_bus dev, w) in
      let '(b, w) := poll_devs b w in
      (mkDev (mmap_start dev) (mmap_end dev) d :: b, w)
  end.

#[export] Instance dynamic_bus : Bus DynamicBus Event := {
  bus_read := dyn_read;
  bus_write := dyn_write;
  bus_poll s := poll_devs s.1 s.2;
  bus_warm_reset s := s;
  bus_update_reset s := s;
  bus_incoming_event _ s := s
}.

End DynamicBus.

Arguments DynamicBus : clear implicits.

(** * A choice of devices *)

(** [dyn Bus] over the devices above. *)
Inductive Device := DevRam (r : Ram.RamImpl) | DevRom (m : Mem.t) | DevPic.

Section Dispatch.
Context {Event : Type}.

(** Runs an operation on the contents of a device. *)
Definition as_device {D A} (mk : D → Device) (d : D) (m : MM BusError (D * Shared) A) :
    MM BusError (Device * Shared) A := λ '(_, w),
  let '(r, (d', w)) := m (d, w) in (r, (mk d', w)).

Abbreviation unaligned_ram := (ram_bus (Event:=Event) (H:=UnalignedAccess)).

Definition device_bus : Bus Device Event := {|
  bus_read size addr := λ '(d, w),
    match d with
    | DevRam r => as_device DevRam r (bus_read (Bus:=unaligned_ram) size addr) (d, w)
    | DevRom m => as_device DevRom m (bus_read (Bus:=rom_bus (Event:=Event)) size addr) (d, w)
    | DevPic => as_device (λ _, DevPic) tt (bus_read (Bus:=pic_bus (Event:=Event)) size addr) (d, w)
    end;
  bus_write size addr val := λ '(d, w),
    match d with
    | DevRam r => as_device DevRam r (bus_write (Bus:=unaligned_ram) size addr val) (d, w)
    | DevRom m => as_device DevRom m (bus_write (Bus:=rom_bus (Event:=Event)) size addr val) (d, w)
    | DevPic => as_device (λ _, DevPic) tt (bus_write (Bus:=pic_bus (Event:=Event)) size addr val) (d, w)
    end;
  bus_poll s :=
    match s.1 with
    | DevPic => let '(_, w) := bus_poll (Bus:=pic_bus (Event:=Event)) (tt, s.2) in (DevPic, w)
    | _ => s
    end;
  bus_warm_reset s := s;
  bus_update_reset s := s;
  bus_incoming_event _ s := s
|}.

End Dispatch.
