(* ===== verification/RvIsa.v ===== *)
(** The instruction set as a reference.

    Instructions as a data type, their decoding by the tables of the RISC-V
    manuals (RV32I with M, Zicsr, Zifencei, and the bit-manipulation extensions
    Zba, Zbb, Zbc and Zbs), and what each computes, by integer arithmetic. Loads,
    stores and the contents of status registers are the emulator's. At the end,
    what the emulator does where it deviates from the manuals. *)

From S2P Require Import Prelude Bits Memory RvTypes RvCsr RvCpu.

(** * Instructions *)

Inductive rop :=
  | ADD | SUB | SLL | SLT | SLTU | XOR | SRL | SRA | OR | AND
  | MUL | MULH | MULHSU | MULHU | DIV | DIVU | REM | REMU
  | SH1ADD | SH2ADD | SH3ADD | ANDN | ORN | XNOR | MAX | MAXU | MIN | MINU | ROL | ROR
  | CLMUL | CLMULH | CLMULR | BSET | BINV | BCLR | BEXT.
Inductive iop := ADDI | SLTI | SLTIU | XORI | ORI | ANDI.
Inductive shop := SLLI | SRLI | SRAI | RORI | BSETI | BINVI | BCLRI | BEXTI.
Inductive uop := CLZ | CTZ | CPOP | SEXTB | SEXTH | ZEXTH | ORCB | REV8.
Inductive bop := BEQ | BNE | BLT | BGE | BLTU | BGEU.
Inductive lop := LB | LH | LW | LBU | LHU.
Inductive sop := SB | SH | SW.
Inductive cop := CSRRW | CSRRS | CSRRC.

Inductive instr :=
  | LUI (rd imm : Z)
  | AUIPC (rd imm : Z)
  | JAL (rd off : Z)
  | JALR (rd rs1 off : Z)
  | BRANCH (op : bop) (rs1 rs2 off : Z)
  | LOAD (op : lop) (rd rs1 off : Z)
  | STORE (op : sop) (rs1 rs2 off : Z)
  | OPI (op : iop) (rd rs1 imm : Z)
  | SHI (op : shop) (rd rs1 shamt : Z)
  | UNARY (op : uop) (rd rs1 : Z)
  | OP (op : rop) (rd rs1 rs2 : Z)
  | FENCE
  | ECALL
  | EBREAK
  | MRET
  | WFI
  | CSR (op : cop) (rd rs1 csr : Z)
  | CSRI (op : cop) (rd zimm csr : Z).

(** * Decoding *)

Fixpoint assoc {A} (t : list (A * Z)) (x : Z) : option A :=
  match t with
  | [] => None
  | (a, k) :: t => if x =? k then Some a else assoc t x
  end.
Fixpoint assoc2 {A} (t : list (A * Z * Z)) (x y : Z) : option A :=
  match t with
  | [] => None
  | (a, k, l) :: t => if (x =? k) && (y =? l) then Some a else assoc2 t x y
  end.

(** Register operations by funct7 and funct3. *)
Definition rop_table : list (rop * Z * Z) :=
  [(ADD, 0x00, 0); (SUB, 0x20, 0); (SLL, 0x00, 1); (SLT, 0x00, 2); (SLTU, 0x00, 3); (XOR, 0x00, 4);
   (SRL, 0x00, 5); (SRA, 0x20, 5); (OR, 0x00, 6); (AND, 0x00, 7);
   (MUL, 0x01, 0); (MULH, 0x01, 1); (MULHSU, 0x01, 2); (MULHU, 0x01, 3);
   (DIV, 0x01, 4); (DIVU, 0x01, 5); (REM, 0x01, 6); (REMU, 0x01, 7);
   (SH1ADD, 0x10, 2); (SH2ADD, 0x10, 4); (SH3ADD, 0x10, 6);
   (ANDN, 0x20, 7); (ORN, 0x20, 6); (XNOR, 0x20, 4);
   (MIN, 0x05, 4); (MINU, 0x05, 5); (MAX, 0x05, 6); (MAXU, 0x05, 7); (ROL, 0x30, 1); (ROR, 0x30, 5);
   (CLMUL, 0x05, 1); (CLMULR, 0x05, 2); (CLMULH, 0x05, 3);
   (BSET, 0x14, 1); (BINV, 0x34, 1); (BCLR, 0x24, 1); (BEXT, 0x24, 5)].

(** Immediate operations by funct3; shifts by funct7 and funct3. *)
Definition iop_table : list (iop * Z) :=
  [(ADDI, 0); (SLTI, 2); (SLTIU, 3); (XORI, 4); (ORI, 6); (ANDI, 7)].
Definition shop_table : list (shop * Z * Z) :=
  [(SLLI, 0x00, 1); (SRLI, 0x00, 5); (SRAI, 0x20, 5); (RORI, 0x30, 5);
   (BSETI, 0x14, 1); (BINVI, 0x34, 1); (BCLRI, 0x24, 1); (BEXTI, 0x24, 5)].

(** Unary operations by the upper twelve bits and funct3. *)
Definition uop_table : list (uop * Z * Z) :=
  [(CLZ, 0x600, 1); (CTZ, 0x601, 1); (CPOP, 0x602, 1); (SEXTB, 0x604, 1); (SEXTH, 0x605, 1);
   (ORCB, 0x287, 5); (REV8, 0x698, 5)].

Definition bop_table : list (bop * Z) := [(BEQ, 0); (BNE, 1); (BLT, 4); (BGE, 5); (BLTU, 6); (BGEU, 7)].
Definition lop_table : list (lop * Z) := [(LB, 0); (LH, 1); (LW, 2); (LBU, 4); (LHU, 5)].
Definition sop_table : list (sop * Z) := [(SB, 0); (SH, 1); (SW, 2)].
Definition cop_table : list (cop * Z) := [(CSRRW, 1); (CSRRS, 2); (CSRRC, 3)].
Definition priv_table : list (instr * Z) := [(ECALL, 0x000); (EBREAK, 0x001); (MRET, 0x302); (WFI, 0x105)].

Section Decode.
Context (w : Z).

Let f3 := fget 12 3 w.
Let f7 := fget 25 7 w.
Let f12 := fget 20 12 w.
Let rd := fget 7 5 w.
Let rs1 := fget 15 5 w.
Let rs2 := fget 20 5 w.

(** The immediates, as signed numbers. *)
Definition imm_i : Z := sx 12 f12.
Definition imm_s : Z := sx 12 (f7 * 32 + rd).
Definition imm_b : Z := sx 13 (fget 31 1 w * 4096 + fget 7 1 w * 2048 + fget 25 6 w * 32 + fget 8 4 w * 2).
Definition imm_j : Z := sx 21 (fget 31 1 w * 1048576 + fget 12 8 w * 4096 + fget 20 1 w * 2048 + fget 21 10 w * 2).

Definition decode_op : option instr :=
  match assoc2 rop_table f7 f3 with
  | Some op => Some (OP op rd rs1 rs2)
  | None => if (f12 =? 0x080) && (f3 =? 4) then Some (UNARY ZEXTH rd rs1) else None
  end.

Definition decode_opi : option instr :=
  match assoc iop_table f3 with
  | Some op => Some (OPI op rd rs1 imm_i)
  | None =>
      match assoc2 uop_table f12 f3 with
      | Some op => Some (UNARY op rd rs1)
      | None => (λ op, SHI op rd rs1 rs2) <$> assoc2 shop_table f7 f3
      end
  end.

Definition decode_system : option instr :=
  if f3 =? 0 then assoc priv_table f12
  else if f3 <? 4 then (λ op, CSR op rd rs1 f12) <$> assoc cop_table f3
  else (λ op, CSRI op rd rs1 f12) <$> assoc cop_table (f3 - 4).

(** The instruction by its opcode and function fields. *)
Definition decode_fields : option instr :=
  let opcode := fget 0 7 w in
  if opcode =? 0x37 then Some (LUI rd (fget 12 20 w))
  else if opcode =? 0x17 then Some (AUIPC rd (fget 12 20 w))
  else if opcode =? 0x6f then Some (JAL rd imm_j)
  else if opcode =? 0x67 then Some (JALR rd rs1 imm_i)
  else if opcode =? 0x63 then (λ op, BRANCH op rs1 rs2 imm_b) <$> assoc bop_table f3
  else if opcode =? 0x03 then (λ op, LOAD op rd rs1 imm_i) <$> assoc lop_table f3
  else if opcode =? 0x23 then (λ op, STORE op rs1 rs2 imm_s) <$> assoc sop_table f3
  else if opcode =? 0x13 then decode_opi
  else if opcode =? 0x33 then decode_op
  else if opcode =? 0x0f then if (f3 =? 0) || (f3 =? 1) then Some FENCE else None
  else if opcode =? 0x73 then decode_system
  else None.

(** The fields that an instruction requires to be zero. *)
Definition fixed_fields (i : instr) : bool :=
  match i with
  | JALR _ _ _ => f3 =? 0
  | ECALL | EBREAK | MRET | WFI => (rd =? 0) && (rs1 =? 0)
  | _ => true
  end.

Definition decode : option instr :=
  match decode_fields with
  | Some i => if fixed_fields i then Some i else None
  | None => None
  end.

End Decode.

(** * Arithmetic *)

Abbreviation s32 := (sx 32).

(** The polynomial product over the field of two elements. *)
Definition carryless (a b : Z) : Z :=
  foldr (λ i p, Z.lxor (if Z.testbit b i then a * 2 ^ i else 0) p) 0 (seqZ 0 32).

Definition rol (a n : Z) : Z := (a * 2 ^ n) mod 2 ^ 32 + a / 2 ^ (32 - n).
Definition ror (a n : Z) : Z := a / 2 ^ n + (a * 2 ^ (32 - n)) mod 2 ^ 32.

Definition alu (op : rop) (a b : Z) : Z :=
  let n := b mod 32 in
  match op with
  | ADD => (a + b) mod 2 ^ 32
  | SUB => (a - b) mod 2 ^ 32
  | SLL => (a * 2 ^ n) mod 2 ^ 32
  | SLT => Z.b2z (s32 a <? s32 b)
  | SLTU => Z.b2z (a <? b)
  | XOR => Z.lxor a b
  | SRL => a / 2 ^ n
  | SRA => (s32 a / 2 ^ n) mod 2 ^ 32
  | OR => Z.lor a b
  | AND => Z.land a b
  | MUL => (a * b) mod 2 ^ 32
  | MULH => (s32 a * s32 b / 2 ^ 32) mod 2 ^ 32
  | MULHSU => (s32 a * b / 2 ^ 32) mod 2 ^ 32
  | MULHU => a * b / 2 ^ 32
  | DIV => if b =? 0 then 2 ^ 32 - 1 else (Z.quot (s32 a) (s32 b)) mod 2 ^ 32
  | DIVU => if b =? 0 then 2 ^ 32 - 1 else a / b
  | REM => if b =? 0 then a else (Z.rem (s32 a) (s32 b)) mod 2 ^ 32
  | REMU => if b =? 0 then a else a mod b
  | SH1ADD => (2 * a + b) mod 2 ^ 32
  | SH2ADD => (4 * a + b) mod 2 ^ 32
  | SH3ADD => (8 * a + b) mod 2 ^ 32
  | ANDN => Z.ldiff a b
  | ORN => Z.lor a (2 ^ 32 - 1 - b)
  | XNOR => 2 ^ 32 - 1 - Z.lxor a b
  | MAX => if s32 a <? s32 b then b else a
  | MAXU => if a <? b then b else a
  | MIN => if s32 a <? s32 b then a else b
  | MINU => if a <? b then a else b
  | ROL => rol a n
  | ROR => ror a n
  | CLMUL => carryless a b mod 2 ^ 32
  | CLMULH => carryless a b / 2 ^ 32
  | CLMULR => (carryless a b / 2 ^ 31) mod 2 ^ 32
  | BSET => Z.setbit a n
  | BINV => Z.lxor a (2 ^ n)
  | BCLR => Z.clearbit a n
  | BEXT => Z.b2z (Z.testbit a n)
  end.

Definition alu_imm (op : iop) (a imm : Z) : Z :=
  match op with
  | ADDI => (a + imm) mod 2 ^ 32
  | SLTI => Z.b2z (s32 a <? imm)
  | SLTIU => Z.b2z (a <? imm mod 2 ^ 32)
  | XORI => Z.lxor a (imm mod 2 ^ 32)
  | ORI => Z.lor a (imm mod 2 ^ 32)
  | ANDI => Z.land a (imm mod 2 ^ 32)
  end.

(** A shift by an immediate is the register operation on that number. *)
Definition alu_shift (op : shop) (a n : Z) : Z :=
  match op with
  | SLLI => alu SLL a n | SRLI => alu SRL a n | SRAI => alu SRA a n | RORI => alu ROR a n
  | BSETI => alu BSET a n | BINVI => alu BINV a n | BCLRI => alu BCLR a n | BEXTI => alu BEXT a n
  end.

(** The bits of a word, the lowest first. *)
Definition bits32 (a : Z) : list bool := Z.testbit a <$> seqZ 0 32.

Fixpoint leading_false (l : list bool) : Z :=
  match l with
  | false :: l => 1 + leading_false l
  | _ => 0
  end.

Definition alu_unary (op : uop) (a : Z) : Z :=
  match op with
  | CLZ => leading_false (reverse (bits32 a))
  | CTZ => leading_false (bits32 a)
  | CPOP => Z.of_nat (length (filter (λ b, b = true) (bits32 a)))
  | SEXTB => sx 8 a mod 2 ^ 32
  | SEXTH => sx 16 a mod 2 ^ 32
  | ZEXTH => a mod 2 ^ 16
  | ORCB => from_le ((λ b, if b =? 0 then 0 else 255) <$> to_le 4 a)
  | REV8 => from_le (reverse (to_le 4 a))
  end.

Definition branch_taken (op : bop) (a b : Z) : bool :=
  match op with
  | BEQ => a =? b
  | BNE => negb (a =? b)
  | BLT => s32 a <? s32 b
  | BGE => s32 b <=? s32 a
  | BLTU => a <? b
  | BGEU => b <=? a
  end.

Definition csr_op (op : cop) (old v : Z) : Z :=
  match op with
  | CSRRW => v
  | CSRRS => Z.lor old v
  | CSRRC => Z.land old (2 ^ 32 - 1 - v)
  end.

(** * Status registers *)

Definition cop_writes (op : cop) (rs1 : Z) : bool := match op with CSRRW => true | _ => negb (rs1 =? 0) end.
Definition cop_reads (op : cop) (rd : Z) : bool := match op with CSRRW => negb (rd =? 0) | _ => true end.

(** The registers that the processor has; the number of a register says whether
    it is read-only (bits 11 and 10) and the lowest mode that may use it (bits 9
    and 8). *)
Definition csr_listed (a : Z) : bool := existsb (λ '(first, last, _, _), (first <=? a) && (a <=? last)) csr_vals.
Definition csr_exists (a : Z) : bool := csr_listed a || (a =? MEIHAP).
Definition csr_read_only (a : Z) : bool := fget 10 2 a =? 3.
Definition csr_legal (mode : RvPrivMode.t) (writes : bool) (a : Z) : bool :=
  csr_exists a && (bool_decide (mode = RvPrivMode.M) || (fget 8 2 a =? 0)) && negb (writes && csr_read_only a).

(** The status register after the return from a trap: the interrupt enable is
    that before the trap, the previous mode becomes user mode, and loads and
    stores no longer take the previous mode when the return leaves machine
    mode. *)
Definition leave_mprv (st : Z) : Z := if fget 11 2 st =? 3 then st else fset 17 1 0 st.
Definition mret_status (st : Z) : Z := fset 11 2 0 (fset 7 1 1 (fset 3 1 (fget 7 1 st) st)).

(** * Execution *)

Section Exec.
Context {B Event : Type} `{!Bus B Event}.

Abbreviation CpuM := (MM RvException.t (@Cpu B Event)).

Definition load_size (op : lop) : RvSize :=
  match op with LB | LBU => Byte | LH | LHU => HalfWord | LW => Word end.
Definition load_extend (op : lop) (v : Z) : Z :=
  match op with
  | LB => sx 8 v mod 2 ^ 32
  | LH => sx 16 v mod 2 ^ 32
  | LW => v mod 2 ^ 32
  | LBU | LHU => v
  end.
Definition store_size (op : sop) : RvSize :=
  match op with SB => Byte | SH => HalfWord | SW => Word end.

Definition gpr (n : Z) : CpuM Z := read_xreg (XReg.from n).
Definition set_gpr (n v : Z) : CpuM unit := write_xreg (XReg.from n) v.

(** Zicsr: an instruction that is not to write leaves the register alone, one
    whose result is dropped does not read it. *)
Definition isa_csr (w : Z) (op : cop) (rd csr : Z) (writes : bool) (operand : CpuM Z) : CpuM unit :=
  mode ← get priv_mode;
  if csr_legal mode writes csr then
    old ← (if cop_reads op rd then read_csr csr else mret 0);
    v ← operand;
    (if writes then write_csr csr (csr_op op old v) else mret tt);;
    set_gpr rd old
  else fail (RvException.illegal_instr w).

Definition isa_mret (w : Z) (leave : Z → Z) : CpuM unit :=
  mode ← get priv_mode;
  if decide (mode = RvPrivMode.U) then fail (RvException.illegal_instr w)
  else
    st ← read_csr MSTATUS;
    write_csr MSTATUS (mret_status (leave st));;
    epc ← read_csr MEPC;
    write_next_pc epc;;
    modify (set_priv_mode (RvPrivMode.from (fget 11 2 st))).

Definition isa_exec (w : Z) (i : instr) : CpuM unit :=
  match i with
  | LUI rd imm => set_gpr rd (imm * 4096)
  | AUIPC rd imm => pc ← read_pc; set_gpr rd ((pc + imm * 4096) mod 2 ^ 32)
  | JAL rd off =>
      pc ← read_pc; link ← read_next_pc;
      write_next_pc ((pc + off) mod 2 ^ 32);; set_gpr rd link
  | JALR rd rs1 off =>
      a ← gpr rs1; link ← read_next_pc;
      write_next_pc (2 * ((a + off) mod 2 ^ 32 / 2));; set_gpr rd link
  | BRANCH op rs1 rs2 off =>
      a ← gpr rs1; b ← gpr rs2; pc ← read_pc;
      if branch_taken op a b then write_next_pc ((pc + off) mod 2 ^ 32) else mret tt
  | LOAD op rd rs1 off =>
      a ← gpr rs1;
      v ← read_bus (load_size op) ((a + off) mod 2 ^ 32);
      set_gpr rd (load_extend op v)
  | STORE op rs1 rs2 off =>
      a ← gpr rs1; v ← gpr rs2;
      write_bus (store_size op) ((a + off) mod 2 ^ 32) v
  | OPI op rd rs1 imm => a ← gpr rs1; set_gpr rd (alu_imm op a imm)
  | SHI op rd rs1 shamt => a ← gpr rs1; set_gpr rd (alu_shift op a shamt)
  | UNARY op rd rs1 => a ← gpr rs1; set_gpr rd (alu_unary op a)
  | OP op rd rs1 rs2 => a ← gpr rs1; b ← gpr rs2; set_gpr rd (alu op a b)
  | FENCE | WFI => mret tt
  | ECALL =>
      mode ← get priv_mode;
      match mode with
      | RvPrivMode.M => fail RvException.environment_call_machine
      | RvPrivMode.U => fail RvException.environment_call_user
      | RvPrivMode.Invalid => stop Panic
      end
  | EBREAK => pc ← read_pc; fail (RvException.breakpoint pc)
  | MRET => isa_mret w leave_mprv
  | CSR op rd rs1 csr => isa_csr w op rd csr (cop_writes op rs1) (gpr rs1)
  | CSRI op rd zimm csr => isa_csr w op rd csr (cop_writes op zimm) (mret zimm)
  end.

(** * Where the emulator differs *)

(** The handlers that do nothing when they write what was read. *)
Definition quiet_write (fn : csr_write_fn) : bool :=
  match fn with SystemWrite | MipWrite | MseccfgWrite | PmpaddrWrite | McycleWrite => true | _ => false end.

(** On status registers: another exception in user mode; a register that does
    not exist reads as zero and a write to a read-only one is ignored, both
    without exception; an instruction that only reads writes the value back. *)
Definition csr_deviation (op : cop) (rd csr : Z) (writes : bool) (s : @Cpu B Event) : option (CpuM unit) :=
  if decide (priv_mode s = RvPrivMode.U) then Some (fail RvException.illegal_register)
  else if negb (csr_exists csr) then Some (set_gpr rd 0)
  else if writes then
    if csr_read_only csr then Some (old ← read_csr csr; set_gpr rd old) else None
  else if quiet_write (csr_fn csr).2 then None
  else Some (old ← read_csr csr; write_csr csr old;; set_gpr rd old).

(** What the emulator does with a word where it does not follow the manuals: it
    ignores the fields that are to be zero, and the return to user mode keeps the
    bit for loads and stores. *)
Definition deviation (w : Z) (s : @Cpu B Event) : option (CpuM unit) :=
  match decode_fields w with
  | Some MRET =>
      let st := cval (cpu_csrs s) MSTATUS in
      if fixed_fields w MRET && ((fget 11 2 st =? 3) || (fget 17 1 st =? 0)) then None
      else Some (isa_mret w (λ st, st))
  | Some (CSR op rd rs1 csr) => csr_deviation op rd csr (cop_writes op rs1) s
  | Some (CSRI op rd zimm csr) => csr_deviation op rd csr (cop_writes op zimm) s
  | Some i => if fixed_fields w i then None else Some (isa_exec w i)
  | None => None
  end.

End Exec.
