(* ===== verification/RvAluProofs.v ===== *)
(** The arithmetic of the emulated processor is the one of the instruction
    set. *)

From S2P Require Import Prelude Bits Memory RvTypes RvAlu RvCsr RvCpu RvIsa.

(** * Signed values *)

Lemma wrap_sx w z : 0 < w → wrap w (sx w z) = wrap w z.
Proof.
  intros Hw. unfold sx. destruct (_ <? _); [by apply wrap_idem; lia|].
  unfold wrap. rewrite Zminus_mod, Z_mod_same_full, Z.sub_0_r, !Zmod_mod. done.
Qed.

Lemma sx_range w z : 0 < w → - 2 ^ (w - 1) ≤ sx w z < 2 ^ (w - 1).
Proof.
  intros Hw. assert (E : 2 ^ w = 2 * 2 ^ (w - 1)) by (rewrite <-Z.pow_succ_r by lia; f_equal; lia).
  pose proof (wrap_in_u w z ltac:(lia)) as Hz. unfold in_u in Hz. unfold sx.
  destruct (Z.ltb_spec (wrap w z) (2 ^ (w - 1))); lia.
Qed.

Lemma sx_small w z : 0 < w → - 2 ^ (w - 1) ≤ z < 2 ^ (w - 1) → sx w z = z.
Proof.
  intros Hw Hz. assert (E : 2 ^ w = 2 * 2 ^ (w - 1)) by (rewrite <-Z.pow_succ_r by lia; f_equal; lia).
  unfold sx, wrap. destruct (decide (0 ≤ z)).
  - rewrite Z.mod_small by lia. by rewrite (proj2 (Z.ltb_lt _ _)) by lia.
  - replace (z mod 2 ^ w) with (z + 2 ^ w) by (rewrite <-(Z_mod_plus_full z 1), Z.mod_small; lia).
    rewrite (proj2 (Z.ltb_ge _ _)) by lia. lia.
Qed.

(** Equality up to wrapping, in sums, differences and products. *)
Lemma wrap_congr w x y : 0 < w → wrap w x = wrap w y ↔ ∃ k, x = y + k * 2 ^ w.
Proof.
  intros Hw. assert (H0 : 0 < 2 ^ w) by (apply Z.pow_pos_nonneg; lia). unfold wrap. split.
  - intros E. exists (x / 2 ^ w - y / 2 ^ w). pose proof (Z.div_mod x (2 ^ w)). pose proof (Z.div_mod y (2 ^ w)). nia.
  - intros [k ->]. apply Z_mod_plus_full.
Qed.

Lemma sx_congr w z : 0 < w → ∃ k, sx w z = z + k * 2 ^ w.
Proof. intros Hw. apply wrap_congr, wrap_sx; done. Qed.

Lemma s32_cases a : is_u32 a → (s32 a = a ∧ a < 2 ^ 31) ∨ (s32 a = a - 2 ^ 32 ∧ 2 ^ 31 ≤ a).
Proof.
  intros Ha. unfold sx. rewrite wrap_small by done. change (2 ^ (32 - 1)) with (2 ^ 31).
  destruct (Z.ltb_spec a (2 ^ 31)); lia.
Qed.

(** * Masks *)

Lemma land_31 n : Z.land n 31 = n mod 32.
Proof. exact (Z.land_ones n 5 ltac:(lia)). Qed.

Lemma u32_high_bits a i : is_u32 a → 32 ≤ i → Z.testbit a i = false.
Proof.
  intros Ha Hi. rewrite <-(wrap_small 32 a) by done. unfold wrap. by rewrite Z.mod_pow2_bits_high by lia.
Qed.

Lemma wrap_bit w z i : 0 ≤ w → 0 ≤ i → Z.testbit (wrap w z) i = (i <? w) && Z.testbit z i.
Proof.
  intros Hw Hi. unfold wrap. destruct (Z.ltb_spec i w); [by rewrite Z.mod_pow2_bits_low by lia|].
  by rewrite Z.mod_pow2_bits_high by lia.
Qed.

Lemma not_u32_bit x i : 0 ≤ i → Z.testbit (not_u32 x) i = (i <? 32) && negb (Z.testbit x i).
Proof. intros Hi. unfold not_u32. rewrite wrap_bit by lia. by rewrite Z.lnot_spec by lia. Qed.

Lemma land_not_u32 a x : is_u32 a → Z.land a (not_u32 x) = Z.ldiff a x.
Proof.
  intros Ha. apply Z.bits_inj'. intros i Hi. rewrite Z.land_spec, Z.ldiff_spec, not_u32_bit by lia.
  destruct (Z.ltb_spec i 32); [done|]. by rewrite u32_high_bits by (done || lia).
Qed.

Lemma not_u32_eq x : is_u32 x → not_u32 x = 2 ^ 32 - 1 - x.
Proof.
  intros Hx. rewrite <-(wrap_small 32 (2 ^ 32 - 1 - x)) by ulia. unfold not_u32, Z.lnot.
  apply wrap_congr; [lia|]. exists (-1). lia.
Qed.

(** * One lemma per operation *)

Lemma shl_eq a n : wrapping_shl a n = (a * 2 ^ (n mod 32)) mod 2 ^ 32.
Proof. unfold wrapping_shl. rewrite land_31, Z.shiftl_mul_pow2 by dlia. done. Qed.

Lemma shr_eq a n : wrapping_shr a n = a / 2 ^ (n mod 32).
Proof. unfold wrapping_shr. rewrite land_31, Z.shiftr_div_pow2 by dlia. done. Qed.

Lemma mul_eq a b : u32w (sx 32 (s32 a * s32 b)) = (a * b) mod 2 ^ 32.
Proof.
  rewrite wrap_sx by lia. destruct (sx_congr 32 a) as [k ->]; [lia|].
  destruct (sx_congr 32 b) as [l ->]; [lia|]. apply (wrap_congr 32); [lia|].
  exists (a * l + k * b + k * l * 2 ^ 32). lia.
Qed.

Lemma mulh_eq a b : u32w (Z.shiftr (sx 64 (s32 a * s32 b)) 32) = (s32 a * s32 b / 2 ^ 32) mod 2 ^ 32.
Proof.
  pose proof (sx_range 32 a ltac:(lia)). pose proof (sx_range 32 b ltac:(lia)).
  change (2 ^ (32 - 1)) with 2147483648 in *.
  rewrite sx_small, Z.shiftr_div_pow2 by (change (2 ^ (64 - 1)) with 9223372036854775808; nia || lia).
  done.
Qed.

Lemma mulhsu_eq a b : u32w (Z.shiftr (u64w (u64w (s32 a) * b)) 32) = (s32 a * b / 2 ^ 32) mod 2 ^ 32.
Proof.
  replace (u64w (u64w (s32 a) * b)) with (u64w (s32 a * b)).
  2: { apply wrap_congr; [lia|]. destruct (proj1 (wrap_congr 64 (u64w (s32 a)) (s32 a) ltac:(lia))) as [k ->].
       { apply wrap_idem. lia. } exists (- k * b). lia. }
  rewrite Z.shiftr_div_pow2 by lia. generalize (s32 a * b) as p. intros p. unfold wrap.
  change (2 ^ 64) with (2 ^ 32 * 2 ^ 32). change (2 ^ 32) with 4294967296. dlia.
Qed.

Lemma mulhu_eq a b : is_u32 a → is_u32 b → u32w (Z.shiftr (u64w (a * b)) 32) = a * b / 2 ^ 32.
Proof.
  intros Ha Hb. assert (0 ≤ a * b < 2 ^ 64) by (unfold in_u in *; nia).
  rewrite (wrap_small 64), Z.shiftr_div_pow2 by (done || lia). apply wrap_small. unfold in_u in *.
  split; [apply Z.div_pos; lia|]. apply Z.div_lt_upper_bound; lia.
Qed.

Lemma s32_zero b : is_u32 b → (s32 b =? 0) = (b =? 0).
Proof. intros Hb. destruct (s32_cases b Hb) as [[-> ?]|[-> ?]], (Z.eqb_spec b 0); ulia. Qed.

Lemma wrap_s32 a : is_u32 a → u32w (s32 a) = a.
Proof. intros Ha. rewrite wrap_sx by lia. by apply wrap_small. Qed.

Lemma div_eq a b : is_u32 a → is_u32 b →
  (if s32 b =? 0 then Ok u32_max
   else if (s32 a =? i32_min) && (s32 b =? -1) then Ok (u32w (s32 a))
   else Ok (u32w (sx 32 (Z.quot (s32 a) (s32 b))))) = (Ok (alu DIV a b) : result RvException.t Z).
Proof.
  intros Ha Hb. rewrite s32_zero by done. simpl. destruct (b =? 0); [done|].
  rewrite (wrap_sx 32 (Z.quot _ _)) by lia. destruct (Z.eqb_spec (s32 a) i32_min) as [Ea|]; [|done].
  destruct (Z.eqb_spec (s32 b) (-1)) as [Eb|]; [|done]. rewrite Ea, Eb. reflexivity.
Qed.

Lemma rem_eq a b : is_u32 a → is_u32 b →
  (if s32 b =? 0 then Ok (u32w (s32 a))
   else if (s32 a =? i32_min) && (s32 b =? -1) then Ok 0
   else Ok (u32w (sx 32 (Z.rem (s32 a) (s32 b))))) = (Ok (alu REM a b) : result RvException.t Z).
Proof.
  intros Ha Hb. rewrite s32_zero by done. simpl. destruct (b =? 0); [by rewrite wrap_s32|].
  rewrite (wrap_sx 32 (Z.rem _ _)) by lia. destruct (Z.eqb_spec (s32 a) i32_min) as [Ea|]; [|done].
  destruct (Z.eqb_spec (s32 b) (-1)) as [Eb|]; [|done]. rewrite Ea, Eb. reflexivity.
Qed.

Lemma divu_eq a b : is_u32 a → is_u32 b →
  (if b =? 0 then Ok u32_max else Ok (Z.quot a b)) = (Ok (alu DIVU a b) : result RvException.t Z).
Proof.
  intros Ha Hb. simpl. destruct (Z.eqb_spec b 0); [done|]. rewrite Z.quot_div_nonneg by ulia. done.
Qed.

Lemma remu_eq a b : is_u32 a → is_u32 b →
  (if b =? 0 then Ok a else Ok (Z.rem a b)) = (Ok (alu REMU a b) : result RvException.t Z).
Proof.
  intros Ha Hb. simpl. destruct (Z.eqb_spec b 0); [done|]. rewrite Z.rem_mod_nonneg by ulia. done.
Qed.

Lemma wrap_shiftl a k : 0 ≤ k ≤ 32 → u32w (Z.shiftl a k) = Z.shiftl (a mod 2 ^ (32 - k)) k.
Proof.
  intros Hk. unfold wrap. rewrite !Z.shiftl_mul_pow2 by lia.
  replace (2 ^ 32) with (2 ^ (32 - k) * 2 ^ k) by (rewrite <-Z.pow_add_r by lia; f_equal; lia).
  apply Z.mul_mod_distr_r; apply Z.pow_nonzero; lia.
Qed.

Lemma rol_eq a n : is_u32 a → 0 ≤ n < 32 → rotate_left a n = rol a n.
Proof.
  intros Ha Hn. unfold rotate_left, rol. rewrite (Z.mod_small n 32) by lia.
  destruct (decide (n = 0)) as [->|Hn0].
  { change ((32 - 0) mod 32) with 0. rewrite Z.shiftl_0_r, Z.shiftr_0_r, wrap_small, Z.lor_diag by done.
    change (2 ^ 0) with 1. change (2 ^ (32 - 0)) with (2 ^ 32). rewrite Z.mul_1_r. unfold in_u in Ha.
    rewrite Z.mod_small, Z.div_small by lia. lia. }
  rewrite (Z.mod_small (32 - n)), Z.lor_comm, wrap_shiftl, Z.shiftr_div_pow2 by lia.
  rewrite lor_shiftl; [|lia|].
  - rewrite <-Z.shiftl_mul_pow2, <-wrap_shiftl, Z.shiftl_mul_pow2 by lia. unfold wrap. lia.
  - unfold in_u in Ha. split; [apply Z.div_pos; lia|].
    apply Z.div_lt_upper_bound; [lia|]. rewrite <-Z.pow_add_r by lia. replace (32 - n + n) with 32 by lia. lia.
Qed.

Lemma ror_eq a n : is_u32 a → 0 ≤ n < 32 → rotate_right a n = ror a n.
Proof.
  intros Ha Hn. unfold rotate_right, ror. rewrite (Z.mod_small n 32) by lia. unfold in_u in Ha.
  destruct (decide (n = 0)) as [->|Hn0].
  { change ((32 - 0) mod 32) with 0. rewrite Z.shiftl_0_r, Z.shiftr_0_r, wrap_small, Z.lor_diag by done.
    change (2 ^ 0) with 1. change (2 ^ (32 - 0)) with (2 ^ 32). rewrite Z.div_1_r, Z_mod_mult. lia. }
  rewrite (Z.mod_small (32 - n)), wrap_shiftl, Z.shiftr_div_pow2 by lia.
  rewrite lor_shiftl; [|lia|].
  - rewrite <-(Z.shiftl_mul_pow2 (a mod _)), <-wrap_shiftl, Z.shiftl_mul_pow2 by lia. done.
  - split; [apply Z.div_pos; lia|].
    apply Z.div_lt_upper_bound; [lia|]. rewrite <-Z.pow_add_r by lia. replace (n + (32 - n)) with 32 by lia. lia.
Qed.

Lemma bset_eq a n : Z.lor a (Z.shiftl 1 n) = Z.setbit a n.
Proof. done. Qed.
Lemma bclr_eq a n : is_u32 a → Z.land a (not_u32 (Z.shiftl 1 n)) = Z.clearbit a n.
Proof. intros. by rewrite land_not_u32. Qed.
Lemma binv_eq a n : 0 ≤ n → Z.lxor a (Z.shiftl 1 n) = Z.lxor a (2 ^ n).
Proof. intros. by rewrite Z.shiftl_1_l. Qed.
Lemma bext_eq a n : 0 ≤ n → Z.land (Z.shiftr a n) 1 = Z.b2z (Z.testbit a n).
Proof.
  intros. rewrite (Z.land_ones _ 1), Z.testbit_odd by lia. change (2 ^ 1) with 2.
  by rewrite Zmod_odd, <-Z.b2z_bit0, Z.bit0_odd || (rewrite Zmod_odd; by destruct (Z.odd _)).
Qed.

Lemma xnor_eq a b : is_u32 a → is_u32 b → not_u32 (Z.lxor a b) = 2 ^ 32 - 1 - Z.lxor a b.
Proof.
  intros Ha Hb. apply not_u32_eq. unfold in_u in *. split; [apply Z.lxor_nonneg; lia|].
  destruct (decide (Z.lxor a b = 0)) as [->|]; [lia|]. apply Z.log2_lt_pow2.
  { assert (0 ≤ Z.lxor a b) by (apply Z.lxor_nonneg; lia). lia. }
  eapply Z.le_lt_trans; [apply Z.log2_lxor; lia|].
  apply Z.max_lub_lt.
  - destruct (decide (a = 0)) as [->|]; [done|]. apply Z.log2_lt_pow2; lia.
  - destruct (decide (b = 0)) as [->|]; [done|]. apply Z.log2_lt_pow2; lia.
Qed.

Lemma max_eq a b : is_u32 a → is_u32 b →
  u32w (Z.max (s32 a) (s32 b)) = if s32 a <? s32 b then b else a.
Proof.
  intros Ha Hb. destruct (Z.ltb_spec (s32 a) (s32 b)); [rewrite Z.max_r by lia|rewrite Z.max_l by lia];
    by apply wrap_s32.
Qed.
Lemma min_eq a b : is_u32 a → is_u32 b →
  u32w (Z.min (s32 a) (s32 b)) = if s32 a <? s32 b then a else b.
Proof.
  intros Ha Hb. destruct (Z.ltb_spec (s32 a) (s32 b)); [rewrite Z.min_l by lia|rewrite Z.min_r by lia];
    by apply wrap_s32.
Qed.

(** ** Carry-less products *)

Definition xsum (f : Z → Z) (l : list Z) : Z := foldr (λ i p, Z.lxor (f i) p) 0 l.

Lemma xsum_cons f i l : xsum f (i :: l) = Z.lxor (f i) (xsum f l).
Proof. done. Qed.

Lemma xsum_ext f g l : (∀ i, i ∈ l → f i = g i) → xsum f l = xsum g l.
Proof.
  induction l as [|i l IH]; intros Hfg; [done|]. simpl. rewrite IH, Hfg by set_solver. done.
Qed.

Lemma clmul_loop_xsum term b l : Forall (λ i, 0 ≤ i) l →
  clmul_loop term b l = xsum (λ i, if Z.testbit b i then term i else 0) l.
Proof.
  intros Hl. unfold clmul_loop.
  assert (Hacc : ∀ acc, foldl (λ output i,
      if Z.land (Z.shiftr b i) 1 =? 1 then Z.lxor output (term i) else output) acc l =
    Z.lxor acc (xsum (λ i, if Z.testbit b i then term i else 0) l)).
  { induction Hl as [|i l Hi Hl IH]; intros acc; simpl; [by rewrite Z.lxor_0_r|].
    rewrite IH, bext_eq by done. destruct (Z.testbit b i); simpl; by rewrite ?Z.lxor_assoc, ?Z.lxor_0_l. }
  rewrite Hacc. apply Z.lxor_0_l.
Qed.

Lemma xsum_map (h : Z → Z) f l :
  h 0 = 0 → (∀ x y, h (Z.lxor x y) = Z.lxor (h x) (h y)) → h (xsum f l) = xsum (λ i, h (f i)) l.
Proof. intros H0 Hh. induction l as [|i l IH]; [done|]. simpl. by rewrite Hh, IH. Qed.

Lemma wrap_lxor w x y : 0 ≤ w → wrap w (Z.lxor x y) = Z.lxor (wrap w x) (wrap w y).
Proof.
  intros Hw. apply Z.bits_inj'. intros i Hi. rewrite Z.lxor_spec, !wrap_bit, Z.lxor_spec by lia.
  by destruct (i <? w).
Qed.

Lemma seqZ_range m n : Forall (λ i, m ≤ i < m + n) (seqZ m n).
Proof. apply Forall_forall. intros i Hi%elem_of_seqZ. lia. Qed.

Lemma clmul_eq a b : clmul a b = carryless a b mod 2 ^ 32.
Proof.
  unfold clmul, carryless. fold (xsum (λ i, if Z.testbit b i then a * 2 ^ i else 0) (seqZ 0 32)).
  rewrite clmul_loop_xsum by (eapply Forall_impl; [apply seqZ_range|]; simpl; lia).
  change (?x mod 2 ^ 32) with (u32w x).
  rewrite (xsum_map u32w) by (done || intros; apply wrap_lxor; lia). apply xsum_ext.
  intros i Hi%elem_of_seqZ. destruct (Z.testbit b i); [|done]. by rewrite Z.shiftl_mul_pow2 by lia.
Qed.

Lemma div_lxor k x y : 0 ≤ k → Z.lxor x y / 2 ^ k = Z.lxor (x / 2 ^ k) (y / 2 ^ k).
Proof. intros. by rewrite <-!Z.shiftr_div_pow2, Z.shiftr_lxor by lia. Qed.

Lemma div_term a i k : 0 ≤ i ≤ k → a * 2 ^ i / 2 ^ k = Z.shiftr a (k - i).
Proof.
  intros. rewrite Z.shiftr_div_pow2 by lia. replace (2 ^ k) with (2 ^ (k - i) * 2 ^ i).
  - apply Z.div_mul_cancel_r; apply Z.pow_nonzero; lia.
  - rewrite <-Z.pow_add_r by lia. f_equal. lia.
Qed.

Lemma clmulh_eq a b : is_u32 a → clmulh a b = carryless a b / 2 ^ 32.
Proof.
  intros Ha. unfold clmulh, carryless.
  fold (xsum (λ i, if Z.testbit b i then a * 2 ^ i else 0) (seqZ 0 32)).
  rewrite clmul_loop_xsum by (eapply Forall_impl; [apply seqZ_range|]; simpl; lia).
  rewrite (xsum_map (λ x, x / 2 ^ 32)) by (done || intros; apply div_lxor; lia).
  rewrite (seqZ_cons 0), xsum_cons by lia. change (Z.succ 0) with 1. change (Z.pred 32) with 31.
  replace ((if Z.testbit b 0 then a * 2 ^ 0 else 0) / 2 ^ 32) with 0.
  2: { unfold in_u in Ha. rewrite Z.mul_1_r. destruct (Z.testbit b 0); rewrite Z.div_small; lia. }
  rewrite Z.lxor_0_l. apply xsum_ext.
  intros i Hi%elem_of_seqZ. destruct (Z.testbit b i); [|done]. by rewrite div_term by lia.
Qed.

Lemma clmulr_eq a b : is_u32 a → clmulr a b = (carryless a b / 2 ^ 31) mod 2 ^ 32.
Proof.
  intros Ha. unfold clmulr, carryless.
  fold (xsum (λ i, if Z.testbit b i then a * 2 ^ i else 0) (seqZ 0 32)).
  rewrite clmul_loop_xsum by (eapply Forall_impl; [apply seqZ_range|]; simpl; lia).
  change (?x mod 2 ^ 32) with (u32w x).
  rewrite (xsum_map (λ x, u32w (x / 2 ^ 31))); [|done|].
  - apply xsum_ext. intros i Hi%elem_of_seqZ. destruct (Z.testbit b i); [|done].
    rewrite div_term by lia. replace (32 - i - 1) with (31 - i) by lia. symmetry. apply wrap_small.
    unfold in_u in *. rewrite Z.shiftr_div_pow2 by lia. split; [apply Z.div_pos; lia|].
    apply Z.le_lt_trans with a; [|lia]. apply Z.div_le_upper_bound; [lia|].
    assert (0 < 2 ^ (31 - i)) by (apply Z.pow_pos_nonneg; lia). nia.
  - intros x y. rewrite div_lxor, wrap_lxor by lia. done.
Qed.

(** ** Unary operations *)

Definition bitsn (n : nat) (x : Z) : list bool := Z.testbit x <$> seqZ 0 (Z.of_nat n).

Lemma bitsn_S n x : bitsn (S n) x = Z.odd x :: bitsn n (Z.div2 x).
Proof.
  unfold bitsn. rewrite seqZ_cons by lia. rewrite fmap_cons. change (Z.succ 0) with 1.
  f_equal.
  replace (Z.pred (Z.of_nat (S n))) with (Z.of_nat n) by lia.
  rewrite <-(fmap_add_seqZ 1 0), <-list_fmap_compose. apply list_fmap_ext.
  intros i j Hj%list_elem_of_lookup_2%elem_of_seqZ. simpl. rewrite Z.div2_div, Z.div2_bits by lia.
  f_equal. lia.
Qed.

Lemma bitsn_snoc n x : bitsn (S n) x = bitsn n x ++ [Z.testbit x (Z.of_nat n)].
Proof. unfold bitsn. rewrite seqZ_S, fmap_app. done. Qed.

Lemma trailing_zeros_eq n x : trailing_zeros_n n x = leading_false (bitsn n x).
Proof.
  revert x. induction n as [|n IH]; intros x; [done|]. rewrite bitsn_S. simpl.
  destruct (Z.odd x); [done|]. by rewrite IH.
Qed.

Lemma count_ones_eq n x : count_ones_n n x = Z.of_nat (length (filter (λ b, b = true) (bitsn n x))).
Proof.
  revert x. induction n as [|n IH]; intros x; [done|]. rewrite bitsn_S, filter_cons. simpl. rewrite IH.
  destruct (Z.odd x); simpl; lia.
Qed.

Lemma leading_zeros_eq n x : 0 < x < 2 ^ Z.of_nat n →
  leading_false (reverse (bitsn n x)) = Z.of_nat n - 1 - Z.log2 x.
Proof.
  induction n as [|n IH]; intros Hx; [simpl in Hx; lia|].
  rewrite bitsn_snoc, reverse_snoc. simpl. destruct (Z.testbit x (Z.of_nat n)) eqn:Hbit.
  - rewrite (Z.log2_unique x (Z.of_nat n)); [lia|lia|]. split; [|lia].
    apply Z.nlt_ge. intros Hlt. rewrite Z.bits_above_log2 in Hbit; [done|lia|]. apply Z.log2_lt_pow2; lia.
  - rewrite IH; [lia|]. split; [lia|]. apply Z.nle_gt. intros Hge.
    assert (Hlog : Z.log2 x = Z.of_nat n) by (apply Z.log2_unique; lia).
    rewrite <-Hlog, Z.bit_log2 in Hbit by lia. done.
Qed.

Lemma clz_eq x : is_u32 x → leading_zeros x = leading_false (reverse (bits32 x)).
Proof.
  intros Hx. unfold leading_zeros. destruct (Z.eqb_spec x 0) as [->|]; [reflexivity|].
  change (bits32 x) with (bitsn 32 x). rewrite leading_zeros_eq; [lia|]. unfold in_u in Hx.
  change (Z.of_nat 32) with 32. lia.
Qed.

Lemma rev8_eq x : swap_bytes_u32 x = from_le (reverse (to_le 4 x)).
Proof. unfold swap_bytes_u32. by rewrite from_le_rev, reverse_involutive. Qed.

(** * Decoding *)

Lemma fget_range o n r : 0 ≤ n → 0 ≤ fget o n r < 2 ^ n.
Proof. intros Hn. unfold fget. rewrite Z.land_ones by lia. apply Z.mod_pos_bound, Z.pow_pos_nonneg; lia. Qed.

Lemma fget_split o n m r : 0 ≤ o → 0 ≤ n → 0 ≤ m →
  fget o (n + m) r = fget (o + n) m r * 2 ^ n + fget o n r.
Proof.
  intros. unfold fget. rewrite !Z.land_ones, !Z.shiftr_div_pow2, !Z.pow_add_r by lia.
  rewrite <-Z.div_div, Z.rem_mul_r by (try apply Z.pow_nonzero; lia). lia.
Qed.

Lemma f12_split w : fget 20 12 w = fget 25 7 w * 32 + fget 20 5 w.
Proof. apply (fget_split 20 5 7); lia. Qed.

Lemma assoc_none {A} (t : list (A * Z)) x : Forall (λ p, x ≠ p.2) t → assoc t x = None.
Proof.
  induction 1 as [|[a k] t Hk Ht IH]; [done|]. simpl in *. by rewrite (proj2 (Z.eqb_neq x k)).
Qed.

Lemma assoc2_none {A} (t : list (A * Z * Z)) x y : Forall (λ p, x ≠ p.1.2) t → assoc2 t x y = None.
Proof.
  induction 1 as [|[[a k] l] t Hk Ht IH]; [done|]. simpl in *. by rewrite (proj2 (Z.eqb_neq x k)).
Qed.

(** The eight values of a three-bit field. *)
Lemma three_bits z : 0 ≤ z < 2 ^ 3 → z = 0 ∨ z = 1 ∨ z = 2 ∨ z = 3 ∨ z = 4 ∨ z = 5 ∨ z = 6 ∨ z = 7.
Proof. change (2 ^ 3) with 8. lia. Qed.

Ltac cases8 H := destruct H as [H|[H|[H|[H|[H|[H|[H|H]]]]]]].

(** Case analysis on membership in a table. *)
Ltac in_table H :=
  repeat (apply elem_of_cons in H as [H|H]); [injection H as ? ?..|by apply elem_of_nil in H].

Lemma xreg_from_x0 n : 0 ≤ n < 32 → XReg.from n = XReg.X0 ↔ n = 0.
Proof.
  intros Hn. split; [|by intros ->]. intros E.
  destruct (emu_from_cases XReg.variants XReg.Invalid n) as [Hin|[Hinv _]];
    [|unfold XReg.from in E; congruence].
  unfold XReg.from in E. rewrite E in Hin.
  repeat (apply elem_of_cons in Hin as [Hin|Hin]; [by simplify_eq|]). by apply elem_of_nil in Hin.
Qed.

(** Evaluation of table lookups on literals. *)
Ltac numeral x :=
  match x with Z0 => x | Zpos _ => x | Zneg _ => x end.
Ltac eval_head :=
  repeat match goal with
  | |- context [RvInstr32OpFunct3.from ?k] =>
      let t := constr:(RvInstr32OpFunct3.from k) in let r := eval vm_compute in t in change t with r
  | |- context [RvInstr32OpImmFunct3.from ?k] =>
      let t := constr:(RvInstr32OpImmFunct3.from k) in let r := eval vm_compute in t in change t with r
  | |- context [assoc2 ?tbl ?x ?y] =>
      let t := constr:(assoc2 tbl x y) in let r := eval vm_compute in t in change t with r
  | |- context [assoc ?tbl ?x] =>
      let t := constr:(assoc tbl x) in let r := eval vm_compute in t in change t with r
  | |- context [?x / 32] =>
      let _ := numeral x in let r := eval vm_compute in (x / 32) in change (x / 32) with r
  | |- context [?x mod 32] =>
      let _ := numeral x in let r := eval vm_compute in (x mod 32) in change (x mod 32) with r
  | |- context [?x =? ?y] =>
      let _ := numeral x in let _ := numeral y in
      let r := eval vm_compute in (x =? y) in change (x =? y) with r
  end; cbn [andb fmap option_fmap option_map ok_or].

Lemma sra_eq a b : wrapping_shr_i32 a b = a / 2 ^ (b mod 32).
Proof. unfold wrapping_shr_i32. rewrite land_31, Z.shiftr_div_pow2 by dlia. done. Qed.

Lemma shadd_eq k a b : 0 ≤ k < 32 → u32w (wrapping_shl a k + b) = (2 ^ k * a + b) mod 2 ^ 32.
Proof.
  intros Hk. rewrite shl_eq, (Z.mod_small k 32) by lia. unfold wrap. rewrite Zplus_mod_idemp_l. f_equal. lia.
Qed.

Lemma sh1add_eq a b : u32w (wrapping_shl a 1 + b) = alu SH1ADD a b.
Proof. apply (shadd_eq 1). lia. Qed.
Lemma sh2add_eq a b : u32w (wrapping_shl a 2 + b) = alu SH2ADD a b.
Proof. apply (shadd_eq 2). lia. Qed.
Lemma sh3add_eq a b : u32w (wrapping_shl a 3 + b) = alu SH3ADD a b.
Proof. apply (shadd_eq 3). lia. Qed.

Lemma maxu_eq a b : Z.max a b = if a <? b then b else a.
Proof. destruct (Z.ltb_spec a b); lia. Qed.
Lemma minu_eq a b : Z.min a b = if a <? b then a else b.
Proof. destruct (Z.ltb_spec a b); lia. Qed.

Lemma mod32_range b : 0 ≤ b mod 32 < 32.
Proof. apply Z.mod_pos_bound. lia. Qed.

Create Rewrite HintDb alu_eqs.
#[export] Hint Rewrite land_31 shl_eq shr_eq sra_eq mul_eq mulh_eq mulhsu_eq mulhu_eq land_not_u32
  xnor_eq max_eq min_eq rol_eq ror_eq clmul_eq clmulh_eq clmulr_eq bset_eq
  bclr_eq binv_eq bext_eq using first [done | apply mod32_range | lia] : alu_eqs.

Ltac same := match goal with |- ?x = ?x => reflexivity end.

Ltac alu_case :=
  first [ same | rewrite sh1add_eq; same | rewrite sh2add_eq; same | rewrite sh3add_eq; same
        | by apply div_eq | by apply rem_eq | by apply divu_eq | by apply remu_eq
        | cbn [alu alu_unary]; autorewrite with alu_eqs; unfold wrap, Z.b2z; same
        | cbn [alu]; first [rewrite not_u32_eq by done | rewrite maxu_eq | rewrite minu_eq]; same ].

Lemma zexth_test w : (fget 20 12 w =? 0x080) = (fget 25 7 w =? 4) && (fget 20 5 w =? 0).
Proof.
  rewrite f12_split. pose proof (fget_range 20 5 w ltac:(lia)).
  destruct (Z.eqb_spec (fget 25 7 w * 32 + fget 20 5 w) 0x080), (Z.eqb_spec (fget 25 7 w) 4),
    (Z.eqb_spec (fget 20 5 w) 0); simpl; lia.
Qed.

Lemma rs2_x0 w : RvInstr32R.rs2 w = XReg.X0 ↔ fget 20 5 w = 0.
Proof. apply xreg_from_x0, (fget_range 20 5 w). lia. Qed.

Lemma op_data_spec w a b : is_u32 a → is_u32 b →
  op_data w a b =
  match decode_op w with
  | Some (OP op _ _ _) => Ok (alu op a b)
  | Some (UNARY op _ _) => Ok (alu_unary op a)
  | _ => Err (RvException.illegal_instr w)
  end.
Proof.
  intros Ha Hb. unfold op_data, exec_bit_instr_op, decode_op, RvInstr32R.funct3, RvInstr32R.funct7.
  rewrite zexth_test. pose proof (three_bits _ (fget_range 12 3 w ltac:(lia))) as H3.
  pose proof (emu_from_cases RvInstr32OpFunct7.variants RvInstr32OpFunct7.Invalid (fget 25 7 w)) as H7.
  fold RvInstr32OpFunct7.from in H7. destruct H7 as [Hin|[Hinv Hne]].
  - in_table Hin.
    all: match goal with H : RvInstr32OpFunct7.from _ = _, E : fget 25 7 _ = _ |- _ =>
           rewrite ?H, ?E; clear H E end.
    all: cases8 H3; rewrite !H3; clear H3; eval_head; rewrite ?andb_false_r, ?andb_true_r; try alu_case.
    case_decide as E; rewrite rs2_x0 in E.
    + rewrite E. cbn [Z.eqb andb alu_unary ok_or]. f_equal. exact (Z.land_ones a 16 ltac:(lia)).
    + by rewrite (proj2 (Z.eqb_neq _ 0)).
  - rewrite Hinv. rewrite assoc2_none by (repeat (apply Forall_cons in Hne as [? Hne]); by repeat constructor).
    pose proof (Forall_lookup_1 _ _ 4 _ Hne eq_refl) as H4.
    rewrite (proj2 (Z.eqb_neq (fget 25 7 w) 4)) by exact H4.
    cases8 H3; rewrite !H3; eval_head; same.
Qed.

(** ** Immediates *)

Lemma f12_test w k : (fget 20 12 w =? k) = (fget 25 7 w =? k / 32) && (fget 20 5 w =? k mod 32).
Proof.
  rewrite f12_split. pose proof (fget_range 20 5 w ltac:(lia)). pose proof (Z.div_mod k 32 ltac:(lia)).
  pose proof (Z.mod_pos_bound k 32 ltac:(lia)).
  destruct (Z.eqb_spec (fget 25 7 w * 32 + fget 20 5 w) k), (Z.eqb_spec (fget 25 7 w) (k / 32)),
    (Z.eqb_spec (fget 20 5 w) (k mod 32)); simpl; lia.
Qed.

Lemma imm_low w : Z.land (RvInstr32I.imm w) 0x1f = fget 20 5 w.
Proof.
  unfold RvInstr32I.imm, sget. rewrite land_31. destruct (sx_congr 12 (fget 20 12 w)) as [k ->]; [lia|].
  rewrite f12_split. pose proof (fget_range 20 5 w ltac:(lia)). change (2 ^ 12) with (128 * 32). dlia.
Qed.

Definition opi_result (i : option instr) (w a : Z) : result RvException.t Z :=
  match i with
  | Some (OPI op _ _ imm) => Ok (alu_imm op a imm)
  | Some (SHI op _ _ n) => Ok (alu_shift op a n)
  | Some (UNARY op _ _) => Ok (alu_unary op a)
  | _ => Err (RvException.illegal_instr w)
  end.

(** The operations that funct3 alone determines. *)
Lemma iop_spec w a op : assoc iop_table (fget 12 3 w) = Some op →
  op_imm_data w a = Ok (alu_imm op a (imm_i w)).
Proof.
  intros Hop. pose proof (three_bits _ (fget_range 12 3 w ltac:(lia))) as H3.
  assert (Hbit : exec_bit_instr_op_imm w a = None).
  { unfold exec_bit_instr_op_imm, RvInstr32I.funct3.
    cases8 H3; rewrite H3 in *; try discriminate; by destruct (RvInstr32OpImmFunct7.from _). }
  unfold op_imm_data. rewrite Hbit. change (imm_i w) with (RvInstr32I.imm w). unfold RvInstr32I.funct3.
  generalize (RvInstr32I.imm w) as imm. intros imm.
  cases8 H3; rewrite H3 in *; try discriminate; injection Hop as <-; eval_head; cbn [alu_imm];
    unfold wrap, Z.b2z; try same.
  by rewrite Zplus_mod_idemp_r.
Qed.

(** The unary operations and the shifts, by the upper bits. *)
Lemma shift_spec w a : is_u32 a → assoc iop_table (fget 12 3 w) = None →
  op_imm_data w a = opi_result (decode_opi w) w a.
Proof.
  intros Ha Hop. unfold decode_opi. rewrite Hop.
  pose proof (three_bits _ (fget_range 12 3 w ltac:(lia))) as H3.
  pose proof (emu_from_cases RvInstr32OpImmFunct7.variants RvInstr32OpImmFunct7.Invalid (fget 25 7 w)) as H7.
  fold RvInstr32OpImmFunct7.from in H7.
  unfold op_imm_data, exec_bit_instr_op_imm. rewrite imm_low.
  unfold RvInstr32I.funct3, RvInstr32I.funct7, RvInstr32I.funct5, RvInstr32I.shamt.
  pose proof (fget_range 20 5 w ltac:(lia)) as Hsh.
  assert (H3' : fget 12 3 w = 1 ∨ fget 12 3 w = 5).
  { cases8 H3; rewrite H3 in *; try discriminate; [by left|by right]. }
  clear H3 Hop. unfold uop_table. cbn [assoc2]. rewrite !f12_test.
  destruct H7 as [Hin|[Hinv Hne]].
  - in_table Hin.
    all: match goal with H : RvInstr32OpImmFunct7.from _ = _, E : fget 25 7 _ = _ |- _ =>
           rewrite ?H, ?E; clear H E end.
    all: destruct H3' as [H3|H3]; rewrite !H3; clear H3.
    all: eval_head; rewrite ?andb_true_r, ?andb_false_r.
    all: repeat match goal with |- context [if ?x =? ?k then _ else _] => destruct (x =? k) end.
    all: cbn [opi_result alu_shift alu alu_unary]; rewrite ?(Z.mod_small (fget _ _ _)) by exact Hsh.
    all: try alu_case.
    all: try (rewrite ?shl_eq, ?shr_eq, ?sra_eq, (Z.mod_small (fget _ _ _)) by exact Hsh; unfold wrap; same).
    + f_equal. by apply clz_eq.
    + f_equal. apply (trailing_zeros_eq 32).
    + f_equal. apply (count_ones_eq 32).
    + unfold orc_b. same.
    + by rewrite rev8_eq.
  - rewrite Hinv. rewrite assoc2_none by (repeat (apply Forall_cons in Hne as [? Hne]); by repeat constructor).
    pose proof (Forall_lookup_1 _ _ 2 _ Hne eq_refl) as Hn1.
    pose proof (Forall_lookup_1 _ _ 3 _ Hne eq_refl) as Hn2.
    pose proof (Forall_lookup_1 _ _ 5 _ Hne eq_refl) as Hn3. cbn [snd] in Hn1, Hn2, Hn3.
    apply Z.eqb_neq in Hn1, Hn2, Hn3. destruct H3' as [H3|H3]; rewrite !H3; eval_head;
      rewrite !Hn1, !Hn2, !Hn3; cbn [andb opi_result]; same.
Qed.

Lemma op_imm_data_spec w a : is_u32 a → op_imm_data w a = opi_result (decode_opi w) w a.
Proof.
  intros Ha. destruct (assoc iop_table (fget 12 3 w)) as [op|] eqn:Hop; [|by apply shift_spec].
  rewrite (iop_spec _ _ _ Hop). unfold decode_opi. rewrite Hop. done.
Qed.
