(* ===== verification/RvIsaProofs.v ===== *)
(** The instructions of the emulated processor against the reference: on every
    word, [exec_instr32] does what the instruction means that its opcode and
    function fields name, up to the accesses to status registers and the return
    from traps, or raises an illegal-instruction exception. *)

From S2P Require Import Prelude Bits Memory RvTypes RvAlu RvCsr RvCpu RvIsa RvAluProofs.

(** * Immediates *)

Lemma fget_mod o n r : 0 ≤ o → 0 ≤ n → fget o n r = (r / 2 ^ o) mod 2 ^ n.
Proof. intros. unfold fget. by rewrite Z.land_ones, Z.shiftr_div_pow2 by lia. Qed.

Lemma field_zero_bit o n r i : 0 ≤ o → fget o n r = 0 → o ≤ i < o + n → Z.testbit r i = false.
Proof.
  intros Ho Hz Hi. assert (Hb : Z.testbit (fget o n r) (i - o) = false) by (rewrite Hz; apply Z.bits_0).
  rewrite fget_bit, (proj2 (Z.ltb_lt _ _)) in Hb by lia. by replace (i - o + o) with i in Hb by lia.
Qed.

(** Setting a field that is zero adds to the word. *)
Lemma fset_add o n v r : 0 ≤ o → 0 ≤ n → fget o n r = 0 → fset o n v r = r + v mod 2 ^ n * 2 ^ o.
Proof.
  intros Ho Hn Hz. unfold fset.
  assert (Hl : Z.ldiff r (Z.shiftl (Z.ones n) o) = r).
  { apply Z.bits_inj'. intros i Hi. rewrite Z.ldiff_spec, Z.shiftl_spec by lia.
    destruct (decide (o ≤ i < o + n)) as [Hin|Hout]; [by rewrite (field_zero_bit o n)|].
    destruct (decide (i < o)); [rewrite (Z.testbit_neg_r _ (i - o)) by lia; apply andb_true_r|].
    rewrite ones_bit, (proj2 (Z.ltb_ge _ _)) by lia. apply andb_true_r. }
  rewrite Hl, Z.land_ones, <-Z.shiftl_mul_pow2 by lia.
  assert (Hd : Z.land r (Z.shiftl (v mod 2 ^ n) o) = 0).
  { apply Z.bits_inj'. intros i Hi. rewrite Z.land_spec, Z.shiftl_spec, Z.bits_0 by lia.
    destruct (decide (i < o)); [rewrite (Z.testbit_neg_r _ (i - o)) by lia; apply andb_false_r|].
    destruct (decide (i < o + n)); [rewrite (field_zero_bit o n r i) by (done || lia); done|].
    rewrite Z.mod_pow2_bits_high by lia. apply andb_false_r. }
  by rewrite Z.add_nocarry_lxor, Z.lxor_lor by done.
Qed.

Lemma fget_zero o n : fget o n 0 = 0.
Proof. unfold fget. by rewrite Z.shiftr_0_l, Z.land_0_l. Qed.

Lemma sget1 o r : 0 ≤ o → sget o 1 r = - fget o 1 r.
Proof.
  intros Ho. unfold sget. pose proof (fget_range o 1 r ltac:(lia)) as Hr. change (2 ^ 1) with 2 in Hr.
  assert (E : fget o 1 r = 0 ∨ fget o 1 r = 1) by lia. destruct E as [-> | ->]; reflexivity.
Qed.

Lemma fget_fget o n r : 0 ≤ n → fget o n r mod 2 ^ n = fget o n r.
Proof. intros. apply Z.mod_small, fget_range. lia. Qed.

Ltac clear_fields := rewrite ?fget_fset_other, ?fget_zero by lia; try reflexivity.

Lemma b_imm_eq w : RvInstr32B.imm w = imm_b w mod 2 ^ 32.
Proof.
  unfold RvInstr32B.imm. rewrite !fset_add by (clear_fields || lia).
  unfold RvInstr32B.imm31, RvInstr32B.imm7, RvInstr32B.imm30_25, RvInstr32B.imm11_8.
  rewrite sget1, !fget_fget by lia. unfold imm_b, sx.
  pose proof (fget_range 31 1 w ltac:(lia)). pose proof (fget_range 7 1 w ltac:(lia)).
  pose proof (fget_range 25 6 w ltac:(lia)). pose proof (fget_range 8 4 w ltac:(lia)).
  rewrite wrap_small by (unfold in_u; lia).
  assert (E : fget 31 1 w = 0 ∨ fget 31 1 w = 1) by lia.
  destruct E as [-> | ->]; (rewrite (proj2 (Z.ltb_lt _ _)) by lia) || (rewrite (proj2 (Z.ltb_ge _ _)) by lia).
  - rewrite (Z.mod_small _ (2 ^ 32)) by lia. change (- 0 mod 2 ^ 20) with 0. change (0 mod 2 ^ 1) with 0. lia.
  - rewrite <-(Z_mod_plus_full _ 1 (2 ^ 32)), (Z.mod_small _ (2 ^ 32)) by lia.
    change (- (1) mod 2 ^ 20) with (2 ^ 20 - 1). change (0 mod 2 ^ 1) with 0. lia.
Qed.

Lemma j_imm_eq w : RvInstr32J.imm w = imm_j w mod 2 ^ 32.
Proof.
  unfold RvInstr32J.imm. rewrite !fset_add by (clear_fields || lia).
  unfold RvInstr32J.imm31, RvInstr32J.imm19_12, RvInstr32J.imm20, RvInstr32J.imm30_21.
  rewrite sget1, !fget_fget by lia. unfold imm_j, sx.
  pose proof (fget_range 31 1 w ltac:(lia)). pose proof (fget_range 12 8 w ltac:(lia)).
  pose proof (fget_range 20 1 w ltac:(lia)). pose proof (fget_range 21 10 w ltac:(lia)).
  rewrite wrap_small by (unfold in_u; lia).
  assert (E : fget 31 1 w = 0 ∨ fget 31 1 w = 1) by lia.
  destruct E as [-> | ->]; (rewrite (proj2 (Z.ltb_lt _ _)) by lia) || (rewrite (proj2 (Z.ltb_ge _ _)) by lia).
  - rewrite (Z.mod_small _ (2 ^ 32)) by lia. change (- 0 mod 2 ^ 12) with 0. lia.
  - rewrite <-(Z_mod_plus_full _ 1 (2 ^ 32)), (Z.mod_small _ (2 ^ 32)) by lia.
    change (- (1) mod 2 ^ 12) with (2 ^ 12 - 1). lia.
Qed.

Lemma s_imm_eq w : RvInstr32S.imm w = imm_s w.
Proof.
  unfold RvInstr32S.imm, RvInstr32S.imm31_25, RvInstr32S.imm11_7, imm_s, sget.
  pose proof (fget_range 25 7 w ltac:(lia)). pose proof (fget_range 7 5 w ltac:(lia)).
  rewrite Z.lor_comm, lor_shiftl by lia. unfold sx. rewrite !wrap_small by (unfold in_u; lia).
  destruct (Z.ltb_spec (fget 25 7 w) (2 ^ (7 - 1))), (Z.ltb_spec (fget 25 7 w * 32 + fget 7 5 w) (2 ^ (12 - 1))); lia.
Qed.

Lemma u_imm_eq w : u32w (Z.shiftl (RvInstr32U.imm w) 12) = fget 12 20 w * 4096.
Proof.
  unfold RvInstr32U.imm, sget. rewrite Z.shiftl_mul_pow2 by lia.
  pose proof (fget_range 12 20 w ltac:(lia)). rewrite <-(wrap_small 32 (fget 12 20 w * 4096)) by (unfold in_u; lia).
  apply wrap_congr; [lia|]. destruct (sx_congr 20 (fget 12 20 w)) as [k ->]; [lia|]. exists k. lia.
Qed.

Lemma jalr_target a off : Z.land (u32w (sx 32 (s32 a + off))) (not_u32 1) = 2 * ((a + off) mod 2 ^ 32 / 2).
Proof.
  rewrite wrap_sx by lia. assert (E : u32w (s32 a + off) = (a + off) mod 2 ^ 32).
  { apply (wrap_congr 32); [lia|]. destruct (sx_congr 32 a) as [k ->]; [lia|]. exists k. lia. }
  rewrite E, land_not_u32 by (apply (wrap_in_u 32); lia). generalize ((a + off) mod 2 ^ 32) as x. intros x.
  apply Z.bits_inj'. intros i Hi. rewrite Z.ldiff_spec. change 1 with (2 ^ 0) at 1.
  destruct (decide (i = 0)) as [->|].
  - rewrite Z.pow2_bits_true, andb_false_r, Z.testbit_even_0 by lia. done.
  - rewrite Z.pow2_bits_false, andb_true_r by lia. replace i with (Z.succ (i - 1)) by lia.
    rewrite Z.testbit_even_succ by lia. rewrite <-(Z.div2_bits x (i - 1)) by lia. done.
Qed.

(** * Registers *)

Definition xregs_ok (f : XRegFile.t) : Prop :=
  length (XRegFile.reg f) = XRegFile.REG_COUNT ∧ Forall is_u32 (XRegFile.reg f).

Section Machine.
Context {B Event : Type} `{!Bus B Event}.
Implicit Types s : @Cpu B Event.

Lemma xreg_from n : 0 ≤ n < 32 → XReg.from n ≠ XReg.Invalid ∧ XReg.into (XReg.from n) = n.
Proof.
  intros Hn. destruct (emu_from_cases XReg.variants XReg.Invalid n) as [Hin|[_ Hne]].
  - fold (XReg.from n) in Hin. in_table Hin.
    all: match goal with H : XReg.from _ = _, E : _ = _ |- _ => rewrite H, E; done end.
  - exfalso. repeat (apply Forall_cons in Hne as [? Hne]). simpl in *. lia.
Qed.

Lemma gpr_ok n s : 0 ≤ n < 32 → xregs_ok (xregs s) → ∃ v, is_u32 v ∧ read_xreg (XReg.from n) s = (Ok v, s).
Proof.
  intros Hn [Hl Hf]. destruct (xreg_from n Hn) as [Hi Hv].
  destruct (lookup_lt_is_Some_2 (XRegFile.reg (xregs s)) (Z.to_nat n)) as [v Hl'];
    [rewrite Hl; unfold XRegFile.REG_COUNT; lia|].
  destruct (decide (XReg.from n = XReg.X0)) as [E|E].
  - exists 0. split; [done|]. unfold read_xreg. by rewrite E.
  - exists v. split; [by eapply Forall_lookup_1|]. unfold read_xreg, XRegFile.read. rewrite <-Hv in Hl'.
    destruct (XReg.from n); try done; by rewrite Hl'.
Qed.

(** * Instructions *)

Lemma opcode_from w k : fget 0 7 w = k → RvInstr32Opcode.from (fget 0 7 w) = RvInstr32Opcode.from k.
Proof. by intros ->. Qed.

Lemma assert_ok found expected s : found = expected → assert_opcode found expected s = (Ok tt, s).
Proof. intros ->. unfold assert_opcode. by rewrite decide_True. Qed.

(** What the reference does with a word. *)
Definition reference (i : option instr) (w : Z) s : result RvException.t unit * Cpu :=
  match i with
  | Some i => isa_exec w i s
  | None => (Err (RvException.illegal_instr w), s)
  end.

(** What the emulator does: status registers are always read and written, and
    the return from a trap is the emulator's. *)
Definition access_csr (op : cop) (rd csr : Z) (operand : MM RvException.t (@Cpu B Event) Z) : MM RvException.t (@Cpu B Event) unit :=
  old ← read_csr csr;
  v ← operand;
  write_csr csr (csr_op op old v);;
  set_gpr rd old.

Definition emulated (i : option instr) (w : Z) s : result RvException.t unit * Cpu :=
  match i with
  | Some MRET => exec_mret w s
  | Some (CSR op rd rs1 csr) => access_csr op rd csr (gpr rs1) s
  | Some (CSRI op rd zimm csr) => access_csr op rd csr (mret zimm) s
  | Some i => isa_exec w i s
  | None => (Err (RvException.illegal_instr w), s)
  end.

Ltac reg_field v Hv E :=
  match goal with
  | |- context [read_xreg (XReg.from (fget ?o 5 ?w))] =>
      match goal with
      | Hx : xregs_ok (xregs ?s) |- _ =>
          destruct (gpr_ok (fget o 5 w) s (fget_range o 5 w ltac:(lia)) Hx) as (v & Hv & E)
      end
  end.

Lemma exec_lui_ref w s : fget 0 7 w = 0x37 → exec_lui_instr w s = emulated (decode_fields w) w s.
Proof.
  intros E. unfold exec_lui_instr, RvInstr32U.opcode, decode_fields. rewrite E. cbn [Z.eqb Pos.eqb].
  rewrite (bind_ok _ _ _ tt s) by by apply assert_ok. by rewrite u_imm_eq.
Qed.

Lemma exec_auipc_ref w s : fget 0 7 w = 0x17 → exec_auipc_instr w s = emulated (decode_fields w) w s.
Proof.
  intros E. unfold exec_auipc_instr, RvInstr32U.opcode, decode_fields. rewrite E. cbn [Z.eqb Pos.eqb].
  rewrite (bind_ok _ _ _ tt s) by by apply assert_ok. by rewrite u_imm_eq.
Qed.

Lemma exec_jal_ref w s : fget 0 7 w = 0x6f → exec_jal_instr w s = emulated (decode_fields w) w s.
Proof.
  intros E. unfold exec_jal_instr, RvInstr32J.opcode, decode_fields. rewrite E. cbn [Z.eqb Pos.eqb].
  rewrite (bind_ok _ _ _ tt s) by by apply assert_ok. rewrite j_imm_eq. cbn [emulated isa_exec].
  apply bind_ext. intros pc s'. unfold wrap. by rewrite Zplus_mod_idemp_r.
Qed.

Lemma exec_jalr_ref w s : fget 0 7 w = 0x67 → exec_jalr_instr w s = emulated (decode_fields w) w s.
Proof.
  intros E. unfold exec_jalr_instr, RvInstr32I.opcode, decode_fields. rewrite E. cbn [Z.eqb Pos.eqb].
  rewrite (bind_ok _ _ _ tt s) by by apply assert_ok. cbn [emulated isa_exec].
  apply bind_ext. intros a s'. rewrite jalr_target. done.
Qed.

Lemma exec_op_ref w s : xregs_ok (xregs s) → fget 0 7 w = 0x33 → exec_op_instr w s = emulated (decode_fields w) w s.
Proof.
  intros Hx E. unfold exec_op_instr, RvInstr32R.opcode, decode_fields. rewrite E. cbn [Z.eqb Pos.eqb].
  rewrite (bind_ok _ _ _ tt s) by by apply assert_ok. unfold RvInstr32R.rs1, RvInstr32R.rs2, RvInstr32R.rd.
  destruct (gpr_ok (fget 15 5 w) s (fget_range 15 5 w ltac:(lia)) Hx) as (a & Ha & E1).
  destruct (gpr_ok (fget 20 5 w) s (fget_range 20 5 w ltac:(lia)) Hx) as (b & Hb & E2).
  rewrite (bind_ok _ _ _ _ _ E1), (bind_ok _ _ _ _ _ E2), (op_data_spec w a b Ha Hb). unfold decode_op.
  destruct (assoc2 rop_table _ _) as [op|]; cbn [emulated isa_exec]; unfold gpr.
  - rewrite (bind_ok _ _ _ _ _ E1), (bind_ok _ _ _ _ _ E2). done.
  - destruct (_ && _); cbn [emulated isa_exec]; unfold gpr; [by rewrite (bind_ok _ _ _ _ _ E1)|done].
Qed.

Lemma exec_op_imm_ref w s :
  xregs_ok (xregs s) → fget 0 7 w = 0x13 → exec_op_imm_instr w s = emulated (decode_fields w) w s.
Proof.
  intros Hx E. unfold exec_op_imm_instr, RvInstr32I.opcode, decode_fields. rewrite E. cbn [Z.eqb Pos.eqb].
  rewrite (bind_ok _ _ _ tt s) by by apply assert_ok. unfold RvInstr32I.rs, RvInstr32I.rd.
  destruct (gpr_ok (fget 15 5 w) s (fget_range 15 5 w ltac:(lia)) Hx) as (a & Ha & E1).
  rewrite (bind_ok _ _ _ _ _ E1), (op_imm_data_spec w a Ha). unfold decode_opi.
  destruct (assoc iop_table _) as [op|]; cbn [emulated isa_exec opi_result]; unfold gpr;
    [by rewrite (bind_ok _ _ _ _ _ E1)|].
  destruct (assoc2 uop_table _ _) as [op|]; cbn [emulated isa_exec opi_result]; unfold gpr;
    [by rewrite (bind_ok _ _ _ _ _ E1)|].
  destruct (assoc2 shop_table _ _) as [op|]; cbn [emulated isa_exec opi_result fmap option_fmap option_map];
    unfold gpr; [by rewrite (bind_ok _ _ _ _ _ E1)|done].
Qed.

Ltac eval_from from :=
  match goal with
  | |- context [from ?k] => let t := constr:(from k) in let r := eval vm_compute in t in change t with r
  end.

Lemma exec_branch_ref w s :
  xregs_ok (xregs s) → fget 0 7 w = 0x63 → exec_branch_instr w s = emulated (decode_fields w) w s.
Proof.
  intros Hx E. unfold exec_branch_instr, RvInstr32B.opcode, decode_fields. rewrite E. cbn [Z.eqb Pos.eqb].
  rewrite (bind_ok _ _ _ tt s) by by apply assert_ok. unfold RvInstr32B.rs1, RvInstr32B.rs2, RvInstr32B.funct3.
  destruct (gpr_ok (fget 15 5 w) s (fget_range 15 5 w ltac:(lia)) Hx) as (a & Ha & E1).
  destruct (gpr_ok (fget 20 5 w) s (fget_range 20 5 w ltac:(lia)) Hx) as (b & Hb & E2).
  rewrite (bind_ok _ _ _ _ _ E1), (bind_ok _ _ _ _ _ E2), b_imm_eq. unfold read_pc. rewrite bind_get.
  pose proof (three_bits _ (fget_range 12 3 w ltac:(lia))) as H3.
  cases8 H3; rewrite H3; eval_head; eval_from RvInstr32BranchFunct3.from;
    cbn [fmap option_fmap option_map emulated isa_exec branch_taken]; try (unfold fail; same); unfold gpr;
    rewrite (bind_ok _ _ _ _ _ E1), (bind_ok _ _ _ _ _ E2); unfold read_pc; rewrite bind_get;
    destruct (_ : bool); unfold wrap; rewrite ?Zplus_mod_idemp_r; same.
Qed.

Lemma exec_load_ref w s :
  xregs_ok (xregs s) → fget 0 7 w = 0x03 → exec_load_instr w s = emulated (decode_fields w) w s.
Proof.
  intros Hx E. unfold exec_load_instr, RvInstr32I.opcode, decode_fields. rewrite E. cbn [Z.eqb Pos.eqb].
  rewrite (bind_ok _ _ _ tt s) by by apply assert_ok. unfold RvInstr32I.rs, RvInstr32I.rd, RvInstr32I.funct3.
  destruct (gpr_ok (fget 15 5 w) s (fget_range 15 5 w ltac:(lia)) Hx) as (a & Ha & E1).
  rewrite (bind_ok _ _ _ _ _ E1). change (RvInstr32I.imm w) with (imm_i w).
  assert (EA : u32w (a + u32w (imm_i w)) = (a + imm_i w) mod 2 ^ 32) by (unfold wrap; by rewrite Zplus_mod_idemp_r).
  rewrite EA. pose proof (three_bits _ (fget_range 12 3 w ltac:(lia))) as H3.
  cases8 H3; rewrite H3; eval_head; eval_from RvInstr32LoadFunct3.from;
    cbn [fmap option_fmap option_map emulated isa_exec load_size]; try (erewrite bind_err by (unfold fail; reflexivity); same); unfold gpr;
    rewrite (bind_ok _ _ _ _ _ E1); rewrite ?bind_assoc; apply bind_ext; intros v s'; unfold set_gpr; cbn [load_extend]; try same;
    rewrite bind_mret, ?wrap_sx by lia; unfold wrap; same.
Qed.

Lemma exec_store_ref w s :
  xregs_ok (xregs s) → fget 0 7 w = 0x23 → exec_store_instr w s = emulated (decode_fields w) w s.
Proof.
  intros Hx E. unfold exec_store_instr, RvInstr32S.opcode, decode_fields. rewrite E. cbn [Z.eqb Pos.eqb].
  rewrite (bind_ok _ _ _ tt s) by by apply assert_ok. unfold RvInstr32S.rs1, RvInstr32S.rs2, RvInstr32S.funct3.
  destruct (gpr_ok (fget 15 5 w) s (fget_range 15 5 w ltac:(lia)) Hx) as (a & Ha & E1).
  destruct (gpr_ok (fget 20 5 w) s (fget_range 20 5 w ltac:(lia)) Hx) as (b & Hb & E2).
  rewrite (bind_ok _ _ _ _ _ E1), (bind_ok _ _ _ _ _ E2), s_imm_eq.
  assert (EA : u32w (a + u32w (imm_s w)) = (a + imm_s w) mod 2 ^ 32) by (unfold wrap; by rewrite Zplus_mod_idemp_r).
  rewrite EA. pose proof (three_bits _ (fget_range 12 3 w ltac:(lia))) as H3.
  cases8 H3; rewrite H3; eval_head; eval_from RvInstr32StoreFunct3.from;
    cbn [fmap option_fmap option_map emulated isa_exec store_size]; try (unfold fail; same); unfold gpr;
    rewrite (bind_ok _ _ _ _ _ E1), (bind_ok _ _ _ _ _ E2); same.
Qed.

Lemma exec_fence_ref w s : fget 0 7 w = 0x0f → exec_fence_instr w s = emulated (decode_fields w) w s.
Proof.
  intros E. unfold exec_fence_instr, RvInstr32I.opcode, decode_fields. rewrite E. cbn [Z.eqb Pos.eqb].
  rewrite (bind_ok _ _ _ tt s) by by apply assert_ok. unfold RvInstr32I.funct3.
  pose proof (three_bits _ (fget_range 12 3 w ltac:(lia))) as H3.
  cases8 H3; rewrite H3; eval_from RvInstr32FenceFunct3.from; done.
Qed.

(** A CSR instruction on an operand that is there: the update of the code is
    that of the reference. *)
Lemma exec_csr_ref op w csr new (operand : MM RvException.t (@Cpu B Event) Z) v s : is_u32 v → operand s = (Ok v, s) →
  (∀ old, new old s = (Ok (csr_op op old v), s)) →
  exec_csr w csr new s = access_csr op (fget 7 5 w) csr operand s.
Proof.
  intros Hv Ho Hn. unfold exec_csr, access_csr, read_csr. rewrite !bind_assoc, !bind_get.
  unfold read_csr_as, mbind, M_bind. destruct (csr_read _ _ _ _) as [old| |]; [|done..]. by rewrite Hn, Ho.
Qed.

Lemma exec_priv_ref w s :
  match RvInstr32SystemImm.from (fget 20 12 w) with
  | RvInstr32SystemImm.Wfi => mret tt
  | RvInstr32SystemImm.Ecall =>
      mode ← get priv_mode;
      match mode with
      | RvPrivMode.M => fail RvException.environment_call_machine
      | RvPrivMode.U => fail RvException.environment_call_user
      | RvPrivMode.Invalid => stop Panic
      end
  | RvInstr32SystemImm.Ebreak => pc ← read_pc; fail (RvException.breakpoint pc)
  | RvInstr32SystemImm.Mret => exec_mret w
  | RvInstr32SystemImm.Invalid => fail (RvException.illegal_instr w)
  end s = emulated (assoc priv_table (fget 20 12 w)) w s.
Proof.
  destruct (emu_from_cases RvInstr32SystemImm.variants RvInstr32SystemImm.Invalid (fget 20 12 w)) as [Hin|[Hinv Hne]];
    fold (RvInstr32SystemImm.from (fget 20 12 w)) in *.
  - in_table Hin. all: match goal with H : RvInstr32SystemImm.from _ = _, E : fget _ _ _ = _ |- _ => rewrite H, E end.
    all: eval_head; done.
  - rewrite Hinv, assoc_none; [done|]. repeat (apply Forall_cons in Hne as [? Hne]). by repeat constructor.
Qed.

Lemma exec_system_ref w s :
  xregs_ok (xregs s) → fget 0 7 w = 0x73 → exec_system_instr w s = emulated (decode_fields w) w s.
Proof.
  intros Hx E. unfold exec_system_instr, RvInstr32I.opcode, decode_fields. rewrite E. cbn [Z.eqb Pos.eqb].
  rewrite (bind_ok _ _ _ tt s) by by apply assert_ok. unfold RvInstr32I.rs, RvInstr32I.funct3, RvInstr32I.uimm.
  pose proof (fget_range 15 5 w ltac:(lia)) as Hr. destruct (xreg_from _ Hr) as [_ ->].
  assert (Hz : is_u32 (fget 15 5 w)) by ulia.
  destruct (gpr_ok (fget 15 5 w) s Hr Hx) as (a & Ha & E1). unfold decode_system.
  pose proof (three_bits _ (fget_range 12 3 w ltac:(lia))) as H3.
  cases8 H3; rewrite H3; eval_from RvInstr32SystemFunct3.from; cbn [Z.eqb Z.ltb Z.compare Pos.compare Pos.compare_cont];
    eval_head; [by apply exec_priv_ref|..]; cbn [fmap option_fmap option_map emulated isa_exec];
    try (unfold fail; same);
    match goal with
    | |- _ = access_csr _ _ _ (gpr _) _ => apply (exec_csr_ref _ _ _ _ (gpr _) a _ Ha E1)
    | _ => apply (exec_csr_ref _ _ _ _ (mret _) (fget 15 5 w) _ Hz eq_refl)
    end; intros old; cbn [csr_op]; try exact E1;
    rewrite ?(bind_ok _ _ _ _ _ E1), ?not_u32_eq by assumption; exact eq_refl.
Qed.

Lemma exec_instr32_emulated w s : xregs_ok (xregs s) → exec_instr32 w s = emulated (decode_fields w) w s.
Proof.
  intros Hx. unfold exec_instr32, RvInstr32.opcode.
  destruct (emu_from_cases RvInstr32Opcode.variants RvInstr32Opcode.Invalid (fget 0 7 w)) as [Hin|[Hinv Hne]];
    fold (RvInstr32Opcode.from (fget 0 7 w)) in *.
  - in_table Hin. all: match goal with H : RvInstr32Opcode.from _ = _ |- _ => rewrite H end.
    all: auto using exec_lui_ref, exec_auipc_ref, exec_jal_ref, exec_jalr_ref, exec_op_ref, exec_op_imm_ref,
      exec_branch_ref, exec_load_ref, exec_store_ref, exec_fence_ref, exec_system_ref.
  - rewrite Hinv. unfold decode_fields. repeat (apply Forall_cons in Hne as [? Hne]). cbn [snd] in *.
    by rewrite !(proj2 (Z.eqb_neq _ _)).
Qed.

End Machine.
