(* ===== verification/RvCompressed.v ===== *)
(** Compressed instructions as a reference: the three quadrants of the C
    extension for RV32, each 16-bit word with the instruction it abbreviates,
    and the agreement of the emulator's expansion with it. *)

From S2P Require Import Prelude Bits Memory RvTypes RvDecompress RvCsr RvCpu RvIsa RvAluProofs RvIsaProofs.

#[global] Instance rop_eq_dec : EqDecision rop.
Proof. solve_decision. Defined.
#[global] Instance iop_eq_dec : EqDecision iop.
Proof. solve_decision. Defined.
#[global] Instance shop_eq_dec : EqDecision shop.
Proof. solve_decision. Defined.
#[global] Instance uop_eq_dec : EqDecision uop.
Proof. solve_decision. Defined.
#[global] Instance bop_eq_dec : EqDecision bop.
Proof. solve_decision. Defined.
#[global] Instance lop_eq_dec : EqDecision lop.
Proof. solve_decision. Defined.
#[global] Instance sop_eq_dec : EqDecision sop.
Proof. solve_decision. Defined.
#[global] Instance cop_eq_dec : EqDecision cop.
Proof. solve_decision. Defined.
#[global] Instance instr_eq_dec : EqDecision instr.
Proof. solve_decision. Defined.

(** * The C extension *)

Section Quadrants.
Context (h : Z).

(** An immediate is given by the places of its bits in the instruction, the
    lowest first, as pairs of a place and a weight. *)
Definition gather (l : list (Z * Z)) : Z := foldr (λ p z, fget p.1 1 h * 2 ^ p.2 + z) 0 l.

Let rd := fget 7 5 h.
Let rs2 := fget 2 5 h.
Let rd' := fget 2 3 h + 8.
Let rs1' := fget 7 3 h + 8.

(** The six-bit immediate of most instructions, and a shift amount. *)
Let imm6 := fget 12 1 h * 32 + fget 2 5 h.
Let jump := sx 12 (gather [(3, 1); (4, 2); (5, 3); (11, 4); (2, 5); (7, 6); (6, 7); (9, 8); (10, 9); (8, 10); (12, 11)]).
Let branch := sx 9 (gather [(3, 1); (4, 2); (10, 3); (11, 4); (2, 5); (5, 6); (6, 7); (12, 8)]).
Let word_off := gather [(6, 2); (10, 3); (11, 4); (12, 5); (5, 6)].

Definition quadrant0 : option instr :=
  match fget 13 3 h with
  | 0 =>
      let imm := gather [(6, 2); (5, 3); (11, 4); (12, 5); (7, 6); (8, 7); (9, 8); (10, 9)] in
      if imm =? 0 then None else Some (OPI ADDI rd' 2 imm)
  | 2 => Some (LOAD LW rd' rs1' word_off)
  | 6 => Some (STORE SW rs1' rd' word_off)
  | _ => None
  end.

Definition quadrant1 : option instr :=
  match fget 13 3 h with
  | 0 => Some (OPI ADDI rd rd (sx 6 imm6))
  | 1 => Some (JAL 1 jump)
  | 2 => Some (OPI ADDI rd 0 (sx 6 imm6))
  | 3 =>
      if rd =? 2 then
        let imm := sx 10 (gather [(6, 4); (2, 5); (5, 6); (3, 7); (4, 8); (12, 9)]) in
        if imm =? 0 then None else Some (OPI ADDI 2 2 imm)
      else if imm6 =? 0 then None else Some (LUI rd (sx 6 imm6 mod 2 ^ 20))
  | 4 =>
      match fget 10 2 h with
      | 0 => if imm6 <? 32 then Some (SHI SRLI rs1' rs1' imm6) else None
      | 1 => if imm6 <? 32 then Some (SHI SRAI rs1' rs1' imm6) else None
      | 2 => Some (OPI ANDI rs1' rs1' (sx 6 imm6))
      | _ =>
          if fget 12 1 h =? 0 then
            Some (OP (match fget 5 2 h with 0 => SUB | 1 => XOR | 2 => OR | _ => AND end) rs1' rs1' rd')
          else None
      end
  | 5 => Some (JAL 0 jump)
  | 6 => Some (BRANCH BEQ rs1' 0 branch)
  | _ => Some (BRANCH BNE rs1' 0 branch)
  end.

Definition quadrant2 : option instr :=
  match fget 13 3 h with
  | 0 => if imm6 <? 32 then Some (SHI SLLI rd rd imm6) else None
  | 2 =>
      if rd =? 0 then None
      else Some (LOAD LW rd 2 (gather [(4, 2); (5, 3); (6, 4); (12, 5); (2, 6); (3, 7)]))
  | 4 =>
      if fget 12 1 h =? 0 then
        if rs2 =? 0 then if rd =? 0 then None else Some (JALR 0 rd 0)
        else Some (OP ADD rd 0 rs2)
      else
        if rs2 =? 0 then if rd =? 0 then Some EBREAK else Some (JALR 1 rd 0)
        else Some (OP ADD rd rd rs2)
  | 6 => Some (STORE SW 2 rs2 (gather [(9, 2); (10, 3); (11, 4); (12, 5); (7, 6); (8, 7)]))
  | _ => None
  end.

Definition decode_c : option instr :=
  match fget 0 2 h with
  | 0 => quadrant0
  | 1 => quadrant1
  | 2 => quadrant2
  | _ => None
  end.

End Quadrants.

(** * The emulator's expansion *)

(** The expansion of a halfword is the instruction it abbreviates, or an
    illegal-instruction exception when it abbreviates none. *)
Definition agrees (h : Z) : bool :=
  match decompress_instr h, decode_c h with
  | Ok w, Some i => bool_decide (decode w = Some i)
  | Err e, None => bool_decide (e = RvException.illegal_instr h)
  | _, _ => false
  end.

(** The one halfword on which they differ: the jump to register zero, which is
    reserved. *)
Definition C_JR_X0 : Z := 0x8002.

(** All words of [n] bits, as a tree of decisions. *)
Fixpoint all_words (n : nat) (f : Z → bool) : bool :=
  match n with
  | O => f 0
  | S n => all_words n (λ z, f (2 * z)) && all_words n (λ z, f (2 * z + 1))
  end.

Lemma all_words_spec n f : all_words n f = true → ∀ z, 0 ≤ z < 2 ^ Z.of_nat n → f z = true.
Proof.
  revert f. induction n as [|n IH]; intros f H z Hz; [by replace z with 0 by lia|].
  simpl in H. apply andb_prop in H as [H0 H1].
  replace (2 ^ Z.of_nat (S n)) with (2 * 2 ^ Z.of_nat n) in Hz
    by (rewrite Nat2Z.inj_succ, Z.pow_succ_r by lia; done).
  pose proof (Z.div_mod z 2 ltac:(lia)) as E. pose proof (Z.mod_pos_bound z 2 ltac:(lia)).
  destruct (decide (z mod 2 = 0)) as [E0|].
  - specialize (IH _ H0 (z / 2) ltac:(lia)). simpl in IH. by replace (2 * (z / 2)) with z in IH by lia.
  - specialize (IH _ H1 (z / 2) ltac:(lia)). simpl in IH. by replace (2 * (z / 2) + 1) with z in IH by lia.
Qed.

Lemma agrees_all h : 0 ≤ h < 2 ^ 16 → h ≠ C_JR_X0 → agrees h = true.
Proof.
  intros Hh Hne. assert (H : (h =? C_JR_X0) || agrees h = true).
  { refine (all_words_spec 16 (λ h, (h =? C_JR_X0) || agrees h) _ h Hh). vm_compute. reflexivity. }
  by rewrite (proj2 (Z.eqb_neq _ _) Hne) in H.
Qed.

(** The instructions that are the same in the emulator and in the reference, and
    whose encoding does not show in an exception. *)
Definition plain (i : instr) : bool :=
  match i with MRET | CSR _ _ _ _ | CSRI _ _ _ _ => false | _ => true end.

Lemma decode_c_plain h i : decode_c h = Some i → plain i = true.
Proof.
  unfold decode_c, quadrant0, quadrant1, quadrant2. intros E.
  repeat (case_match; try discriminate); by simplify_eq.
Qed.

Lemma decode_Some w i : decode w = Some i → decode_fields w = Some i.
Proof. unfold decode. destruct (decode_fields w) as [j|]; [|done]. by destruct (fixed_fields w j). Qed.

Section Machine.
Context {B Event : Type} `{!Bus B Event}.
Implicit Types s : @Cpu B Event.

Lemma emulated_plain w w' i s : plain i = true → emulated (Some i) w s = isa_exec w' i s.
Proof. by destruct i. Qed.

Lemma exec_instr16_ref h s : 0 ≤ h < 2 ^ 16 → h ≠ C_JR_X0 → xregs_ok (xregs s) →
  exec_instr16 h s = reference (decode_c h) h s.
Proof.
  intros Hh Hne Hx. pose proof (agrees_all h Hh Hne) as Ha. pose proof (decode_c_plain h) as Hp.
  unfold agrees in Ha. unfold exec_instr16.
  destruct (decompress_instr h) as [w|e|] eqn:Ed, (decode_c h) as [i|]; try discriminate;
    apply bool_decide_eq_true in Ha.
  - rewrite (bind_lift_ok _ w) by done. rewrite exec_instr32_emulated, (decode_Some _ _ Ha) by done. by apply emulated_plain, Hp.
  - by subst e.
Qed.

End Machine.
