(* ===== verification/RvInvariants.v ===== *)
(** The status registers stay well typed: a program logic for stateful code, the
    invariant of registers, timers and scheduled actions, and that every access
    to a register preserves it. *)

From stdpp Require Import gmap.
From S2P Require Import Prelude Bits Memory RvTypes RvAlu Clock Pic RvCsr RvCpu RvIsa RvAluProofs RvIsaProofs.

(** * Triples *)

(** From a state with [P] the computation ends, with whatever outcome, in a
    state with [P], and a result has [Q]. *)
Definition triple {E S A} (P : S → Prop) (m : MM E S A) (Q : A → Prop) : Prop :=
  ∀ s, P s → P (m s).2 ∧ ∀ a, (m s).1 = Ok a → Q a.

Definition anything {A} (_ : A) : Prop := True.

Section Rules.
Context {E S : Type} (P : S → Prop).

Lemma triple_bind {A B} (m : MM E S A) (f : A → MM E S B) Q R :
  triple P m Q → (∀ a, Q a → triple P (f a) R) → triple P (m ≫= f) R.
Proof.
  intros Hm Hf s Hs. unfold mbind, M_bind. destruct (Hm s Hs) as [H1 H2].
  destruct (m s) as [[a|e|w] s1]; simpl in *; [apply Hf; auto|split; [done|discriminate]..].
Qed.

Lemma triple_ret {A} (a : A) (Q : A → Prop) : Q a → triple P (mret a : MM E S A) Q.
Proof. intros Ha s Hs. split; [done|]. intros ? [= <-]. done. Qed.

Lemma triple_lift {A} (r : result E A) (Q : A → Prop) : (∀ a, r = Ok a → Q a) → triple P (lift r : MM E S A) Q.
Proof. intros Ha s Hs. split; [done|]. exact Ha. Qed.

Lemma triple_fail {A} e (Q : A → Prop) : triple P (fail e : MM E S A) Q.
Proof. intros s Hs. split; [done|discriminate]. Qed.

Lemma triple_stop {A} w (Q : A → Prop) : triple P (stop w : MM E S A) Q.
Proof. intros s Hs. split; [done|discriminate]. Qed.

Lemma triple_fail_if b e : triple P (fail_if b e : MM E S unit) anything.
Proof. destruct b; [apply triple_fail|by apply triple_ret]. Qed.

Lemma triple_get {A} (f : S → A) (Q : A → Prop) : (∀ s, P s → Q (f s)) → triple P (get f : MM E S A) Q.
Proof. intros H s Hs. split; [done|]. intros ? [= <-]. auto. Qed.

Lemma triple_modify f : (∀ s, P s → P (f s)) → triple P (modify f : MM E S unit) anything.
Proof. intros H s Hs. split; [by apply H|done]. Qed.

Lemma triple_catch {A} (m : MM E S A) (Q : A → Prop) :
  triple P m Q → triple P (catch m) (λ r, ∀ a, r = Ok a → Q a).
Proof.
  intros Hm s Hs. destruct (Hm s Hs) as [H1 H2]. unfold catch. destruct (m s) as [[a|e|w] s1]; simpl in *.
  all: split; [done|]. all: intros ? [= <-]; try discriminate. exact H2.
Qed.

Lemma triple_weaken {A} (m : MM E S A) (Q R : A → Prop) : triple P m Q → (∀ a, Q a → R a) → triple P m R.
Proof. intros Hm HQR s Hs. destruct (Hm s Hs). eauto. Qed.

Lemma triple_any {A} (m : MM E S A) (Q : A → Prop) : triple P m Q → triple P m anything.
Proof. intros Hm. by eapply triple_weaken. Qed.

Lemma triple_get_any {A} (f : S → A) : triple P (get f : MM E S A) anything.
Proof. by apply triple_get. Qed.

Lemma triple_lift_any {A} (r : result E A) : triple P (lift r : MM E S A) anything.
Proof. by apply triple_lift. Qed.

Lemma triple_state {A} (m : MM E S A) (Q : A → Prop) : (∀ s, P s → triple (λ t, P t) (λ _, m s) Q) → triple P m Q.
Proof. intros H s Hs. exact (H s Hs s Hs). Qed.

End Rules.

Create HintDb rv_triple.
#[export] Hint Extern 1 (anything _) => exact I : rv_triple.

(** Follows the structure of the code. *)
Ltac tri_step :=
  lazymatch goal with
  | |- triple _ (_ ≫= _) _ => eapply triple_bind; [|intros ? ?]
  | |- triple _ (mret _) _ => apply triple_ret
  | |- triple _ (fail _) _ => apply triple_fail
  | |- triple _ (stop _) _ => apply triple_stop
  | |- triple _ (fail_if _ _) _ => apply triple_fail_if
  | |- triple _ (if _ then _ else _) _ => case_match
  | |- triple _ (match _ with _ => _ end) _ => case_match
  end.
Ltac tri :=
  repeat first [ tri_step | solve [eauto 3 with rv_triple] | apply triple_get_any | apply triple_lift_any ].

(** * The invariant *)

(** The arguments of actions have the width that the source gives them. *)
Definition action_ok (a : TimerAction.t) : Prop :=
  match a with
  | TimerAction.SetNmiVec addr | TimerAction.SetExtIntVec addr => is_u32 addr
  | TimerAction.ExtInt irq _ => is_u8 irq
  | _ => True
  end.

Record pic_typed (p : Pic) : Prop := {
  pt_order : Forall (λ q, is_u8 (irq_id q)) (priority_order p);
  pt_meipl : Forall is_u32 (meipl (regs p));
  pt_meip : Forall is_u32 (meip (regs p));
  pt_meie : Forall is_u32 (meie (regs p));
  pt_mpiccfg : is_u32 (mpiccfg (regs p));
  pt_meigwctrl : Forall is_u32 (meigwctrl (regs p))
}.

Record shared_ok (w : Shared) : Prop := {
  sh_clock : clock_ok (clock w);
  sh_actions : Forall (λ h, action_ok (action h)) (action_handles (clock w));
  sh_pic : pic_typed (pic w)
}.

Definition csr_typed (c : Csr) : Prop := is_u32 (csr_val c) ∧ is_u32 (default_val c) ∧ is_u32 (csr_mask c).

#[export] Instance csr_typed_dec c : Decision (csr_typed c).
Proof. unfold csr_typed, in_u. apply _. Defined.

(** Which registers there are, with their reset values and masks, is fixed. *)
Definition shape (f : CsrFile) (a : Z) : option (Z * Z) := (λ c, (default_val c, csr_mask c)) <$> csrs f !! a.

Record csrs_ok (f : CsrFile) : Prop := {
  ok_typed : map_Forall (λ _ c, csr_typed c) (csrs f);
  ok_mstatus : csr_mask (csr f MSTATUS) = 0x00021888;
  ok_mstatus_default : default_val (csr f MSTATUS) = 0x18001800;
  ok_mpp : RvMStatus.mpp (cval f MSTATUS) ≠ RvPrivMode.Invalid;
  ok_bound0 : is_u32 (InternalTimer.bound (timer0 f));
  ok_bound1 : is_u32 (InternalTimer.bound (timer1 f));
  ok_shape a : shape f a = shape csr_file_new a;
  ok_max : match max_pmpcfgi f with None => True | Some m => 0 ≤ m < 16 end
}.

Definition csr_state_ok (s : CsrFile * Shared) : Prop := csrs_ok s.1 ∧ shared_ok s.2.

(** ** Status registers *)

Lemma csr_typed_at f addr : csrs_ok f → csr_typed (csr f addr).
Proof.
  intros Hf. unfold csr. destruct (csrs f !! addr) as [c|] eqn:E; simpl; [|done].
  exact (ok_typed _ Hf _ _ E).
Qed.

Lemma cval_u32 f addr : csrs_ok f → is_u32 (cval f addr).
Proof. intros Hf. apply (csr_typed_at f addr Hf). Qed.

Lemma u32_by_bits z : (∀ i, 32 ≤ i → Z.testbit z i = false) → is_u32 z.
Proof.
  intros H. assert (E : u32w z = z).
  { apply Z.bits_inj'. intros i Hi. rewrite wrap_bit by lia.
    destruct (Z.ltb_spec i 32); [done|]. by rewrite H by lia. }
  rewrite <-E. by apply wrap_in_u.
Qed.

(** The value that a masked write leaves, bit by bit. *)
Definition merge (mask old val : Z) : Z := Z.lor (Z.land old (not_u32 mask)) (Z.land val mask).

Lemma merge_bit mask old val i : is_u32 old → 0 ≤ i →
  Z.testbit (merge mask old val) i = if Z.testbit mask i then Z.testbit val i else Z.testbit old i.
Proof.
  intros Ho Hi. unfold merge. rewrite land_not_u32 by done. rewrite Z.lor_spec, Z.ldiff_spec, Z.land_spec.
  destruct (Z.testbit mask i), (Z.testbit old i), (Z.testbit val i); done.
Qed.

Lemma merge_u32 mask old val : is_u32 mask → is_u32 old → is_u32 (merge mask old val).
Proof.
  intros Hm Ho. apply u32_by_bits. intros i Hi. rewrite merge_bit by (done || lia).
  by rewrite !u32_high_bits by done.
Qed.

(** A field that the mask covers is written, one that it misses is kept. *)
Lemma merge_field mask old val o n : is_u32 old → 0 ≤ o → 0 ≤ n → fget o n mask = Z.ones n →
  fget o n (merge mask old val) = fget o n val.
Proof.
  intros Hold Ho Hn Hm. apply Z.bits_inj'. intros i Hi. rewrite !fget_bit by lia.
  destruct (Z.ltb_spec i n); [|done]. simpl. rewrite merge_bit by (done || lia).
  assert (Hb : Z.testbit (fget o n mask) i = true) by (rewrite Hm, ones_bit by lia; by apply Z.ltb_lt).
  rewrite fget_bit in Hb by lia. destruct (i <? n); [|done]. simpl in Hb. by rewrite Hb.
Qed.

Lemma masked_write_lookup addr val f a :
  csr (masked_write addr val f) a =
  if decide (a = addr) then
    mkCsr (merge (csr_mask (csr f addr)) (cval f addr) val) (default_val (csr f addr)) (csr_mask (csr f addr))
  else csr f a.
Proof.
  unfold masked_write, csr, cval, csr at 1. simpl. case_decide as E.
  - subst a. rewrite lookup_alter_eq. destruct (csrs f !! addr) as [c|]; simpl; [done|].
    unfold merge. by rewrite Z.land_0_l, Z.land_0_r.
  - by rewrite lookup_alter_ne by congruence.
Qed.

Lemma csr_mask_fixed f a : csrs_ok f → csr_mask (csr f a) = csr_mask (csr csr_file_new a).
Proof.
  intros Hf. pose proof (ok_shape _ Hf a) as H. unfold shape, csr in *.
  destruct (csrs f !! a), (csrs csr_file_new !! a); simplify_eq/=; congruence.
Qed.

Lemma ok_trap_masks f a : csrs_ok f → a = MEPC ∨ a = MCAUSE ∨ a = MTVAL → csr_mask (csr f a) = 0xFFFFFFFF.
Proof. intros Hf Ha. rewrite csr_mask_fixed by done. destruct Ha as [->|[->| ->]]; vm_compute; reflexivity. Qed.

Lemma masked_write_ok addr val f : csrs_ok f →
  (addr = MSTATUS → RvMStatus.mpp val ≠ RvPrivMode.Invalid) → csrs_ok (masked_write addr val f).
Proof.
  intros Hf Hmpp. destruct (csr_typed_at f addr Hf) as (Hv & Hd & Hm). pose proof Hf as [Ht Hs Hsd Hp Hb0 Hb1 Htm Hmax].
  constructor; [|rewrite masked_write_lookup; case_decide as E; [by rewrite <-E|done]..| |done|done| |done].
  - intros a c. unfold masked_write. simpl. intros [(-> & c' & Hc & ->)|[_ Hc]]%lookup_alter_Some; [|exact (Ht a c Hc)].
    destruct (Ht _ _ Hc) as (? & ? & ?). split_and!; simpl; [by apply merge_u32|done|done].
  - unfold cval. rewrite masked_write_lookup. case_decide as E; [|done]. simpl. unfold RvMStatus.mpp.
    rewrite <-E, Hs in *. rewrite merge_field by (done || lia). by apply Hmpp.
  - intros a. rewrite <-Htm. unfold shape, masked_write. simpl. destruct (decide (a = addr)) as [->|Hne].
    + rewrite lookup_alter_eq. by destruct (csrs f !! addr).
    + by rewrite lookup_alter_ne by congruence.
Qed.

Lemma any_write_ok addr val : addr ≠ MSTATUS → triple csr_state_ok (any_write addr val) anything.
Proof. intros Ha. apply triple_modify. intros [f w] [Hf Hw]. split; [|done]. by apply masked_write_ok. Qed.
#[export] Hint Resolve any_write_ok : rv_triple.

(** ** The clock *)

Lemma schedule_in_ok {E} ticks a w : shared_ok w → action_ok a →
  shared_ok (set_clock (schedule_action_in (E:=E) ticks a (clock w)).2 w).
Proof.
  intros Hw Hact. unfold schedule_action_in, schedule_action_at.
  set (t := u64w (now (clock w) + ticks)). assert (Ht : in_u 64 t) by (apply wrap_in_u; lia).
  destruct (Z.ltb_spec (u64w (t - now (clock w))) HALF); [|by destruct w]. destruct Hw as [[Hn Hs Hah _] Ha Hp].
  constructor; simpl; [|apply Forall_forall; intros h [->|Hh]%set_insert_elem; [done|]|done].
  - apply recompute_ok; simpl; [done|by apply set_insert_sorted|].
    apply Forall_forall. intros h [->|Hh]%set_insert_elem; [done|]. rewrite Forall_forall in Hah. auto.
  - rewrite Forall_forall in Ha. auto.
Qed.

Lemma cancel_shared_ok h w : shared_ok w → shared_ok (set_clock (cancel h (clock w)) w).
Proof.
  intros [Hc Ha Hp]. constructor; simpl; [by apply cancel_ok| |done]. by apply forall_filter.
Qed.

Lemma schedule_ok ticks a : action_ok a → triple csr_state_ok (schedule ticks a) anything.
Proof.
  intros Ha [f w] [Hf Hw]. pose proof (schedule_in_ok (E:=RvException.t) ticks a w Hw Ha) as H.
  unfold schedule. destruct (schedule_action_in ticks a (clock w)) as [r c]. done.
Qed.
#[export] Hint Resolve schedule_ok : rv_triple.
#[export] Hint Extern 1 (action_ok _) => exact I : rv_triple.

(** ** Writes *)

Lemma mpp_set m r : m ≠ RvPrivMode.Invalid → RvMStatus.mpp (RvMStatus.set_mpp m r) = m.
Proof. intros Hm. unfold RvMStatus.mpp, RvMStatus.set_mpp. rewrite fget_fset_same by lia. by destruct m. Qed.

Lemma set_mie_mpp v r : RvMStatus.mpp (RvMStatus.set_mie v r) = RvMStatus.mpp r.
Proof. unfold RvMStatus.mpp, RvMStatus.set_mie. by rewrite fget_fset_other by lia. Qed.

Lemma set_mpie_mpp v r : RvMStatus.mpp (RvMStatus.set_mpie v r) = RvMStatus.mpp r.
Proof. unfold RvMStatus.mpp, RvMStatus.set_mpie. by rewrite fget_fset_other by lia. Qed.

Lemma system_write_ok mode addr val :
  (addr = MSTATUS → RvMStatus.mpp val ≠ RvPrivMode.Invalid) →
  triple csr_state_ok (system_write mode addr val) anything.
Proof.
  intros Ha. unfold system_write. tri. apply triple_modify. intros [f w] [Hf Hw]. split; [|done].
  by apply masked_write_ok.
Qed.

Lemma system_write_ok' mode addr val : addr ≠ MSTATUS → triple csr_state_ok (system_write mode addr val) anything.
Proof. intros Ha. by apply system_write_ok. Qed.
#[export] Hint Resolve system_write_ok' : rv_triple.

Lemma read_csr_val_ok addr : triple csr_state_ok (read_csr_val addr)
  (λ v, is_u32 v ∧ (addr = MSTATUS → RvMStatus.mpp v ≠ RvPrivMode.Invalid)).
Proof.
  apply triple_get. intros [f w] [Hf _]. split; [by apply cval_u32|]. intros ->. apply Hf.
Qed.

Lemma read_csr_val_u32 addr : triple csr_state_ok (read_csr_val addr) is_u32.
Proof. eapply triple_weaken; [apply read_csr_val_ok|by intros v [Hv _]]. Qed.
#[export] Hint Resolve read_csr_val_u32 : rv_triple.

Lemma mstatus_write_ok mode addr val : triple csr_state_ok (mstatus_write mode addr val) anything.
Proof.
  unfold mstatus_write. eapply triple_bind; [apply read_csr_val_ok|]. intros old [_ Hold].
  eapply triple_bind; [apply system_write_ok; intros ->|intros _ _; tri].
  case_decide; [|done]. rewrite mpp_set; auto.
Qed.

Lemma mie_write_ok mode addr val : addr ≠ MSTATUS → triple csr_state_ok (mie_write mode addr val) anything.
Proof. intros Ha. unfold mie_write. tri. Qed.

Lemma mrac_write_ok mode addr val : addr ≠ MSTATUS → triple csr_state_ok (mrac_write mode addr val) anything.
Proof.
  intros Ha. unfold mrac_write. tri. apply triple_modify. intros [f w] [Hf [Hc Hh Hp]]. split; [done|by constructor].
Qed.

Lemma meivt_write_ok mode addr val : addr ≠ MSTATUS → triple csr_state_ok (meivt_write mode addr val) anything.
Proof. intros Ha. unfold meivt_write. tri. Qed.

Lemma mpmc_write_ok mode addr val : addr ≠ MSTATUS → triple csr_state_ok (mpmc_write mode addr val) anything.
Proof.
  intros Ha. unfold mpmc_write. tri; try done.
  - apply mstatus_write_ok.
  - done.
Qed.

Lemma mseccfg_write_ok mode addr val : addr ≠ MSTATUS → triple csr_state_ok (mseccfg_write mode addr val) anything.
Proof. intros Ha. unfold mseccfg_write, machine_only. tri. Qed.

Lemma set_max_ok m f : csrs_ok f → match m with None => True | Some m => 0 ≤ m < 16 end →
  csrs_ok (set_max_pmpcfgi m f).
Proof. intros [] Hm. by constructor. Qed.

Lemma highest_nonzero_range f n : match highest_nonzero f n with None => True | Some m => 0 ≤ m < Z.of_nat n end.
Proof.
  induction n as [|n IH]; simpl; [done|]. destruct (_ <? _); [lia|]. destruct (highest_nonzero f n); [lia|done].
Qed.

Lemma new_max_range f j b : csrs_ok f → 0 ≤ j < 16 →
  match new_max_pmpcfgi f j b with None => True | Some m => 0 ≤ m < 16 end.
Proof.
  intros Hf Hj. pose proof (ok_max _ Hf) as Hm. unfold new_max_pmpcfgi. destruct b.
  - destruct (max_pmpcfgi f) as [m|]; [|done]. by destruct (_ <? _).
  - case_decide; [|done]. pose proof (highest_nonzero_range f (Z.to_nat j)). destruct (highest_nonzero _ _); [lia|done].
Qed.

Lemma csr_fn_in addr : csr_fn addr = (SystemRead, SystemWrite) ∨
  ∃ first last r w, (first, last, r, w) ∈ CSR_FN ∧ first ≤ addr ≤ last ∧ csr_fn addr = (r, w).
Proof.
  unfold csr_fn. generalize (SystemRead, SystemWrite) as fn. induction CSR_FN as [|[[[a b] r] w] l IH]; intros fn; [by left|].
  cbn [foldl]. destruct ((a <=? addr) && (addr <=? b)) eqn:E.
  - destruct (IH (r, w)) as [->|(a' & b' & r' & w' & H & H')]; right; [|by exists a', b', r', w'; split; [right|]].
    apply andb_prop in E as [E1 E2]. apply Z.leb_le in E1, E2. exists a, b, r, w. by split; [left|].
  - destruct (IH fn) as [->|(a' & b' & r' & w' & H & H')]; [by left|]. right. by exists a', b', r', w'; split; [right|].
Qed.

Lemma pmpcfg_range addr : (csr_fn addr).2 = PmpcfgWrite → PMPCFG_START ≤ addr ≤ PMPCFG_END.
Proof.
  intros E. destruct (csr_fn_in addr) as [H|(a & b & r & w & Hin & Hr & H)]; rewrite H in E; [done|]. simpl in E. subst w.
  unfold CSR_FN in Hin. repeat (apply elem_of_cons in Hin as [Hin|Hin]; [try discriminate; by injection Hin as -> -> _|]).
  by apply elem_of_nil in Hin.
Qed.

Lemma pmpcfg_write_ok mode addr val : PMPCFG_START ≤ addr ≤ PMPCFG_END → triple csr_state_ok (pmpcfg_write mode addr val) anything.
Proof.
  intros Ha. unfold pmpcfg_write, machine_only. tri_step; [tri|]. tri_step; [apply triple_get_any|].
  tri_step; [apply triple_lift_any|]. cbv zeta. destruct (pmpcfg_entry RvPmpCfgi.r4 _ _ _) as [r [b|]]; [|by apply triple_ret].
  tri_step; [|apply any_write_ok; unfold PMPCFG_START, MSTATUS in *; lia]. apply triple_modify. intros [f w] [Hf Hw]. split; [|done].
  apply set_max_ok; [done|]. apply new_max_range; [done|]. unfold PMPCFG_START, PMPCFG_END in *. lia.
Qed.

Lemma pmpaddr_write_ok mode addr val : addr ≠ MSTATUS → triple csr_state_ok (pmpaddr_write mode addr val) anything.
Proof.
  intros Ha. unfold pmpaddr_write, machine_only. tri; done.
Qed.

(** ** Timers *)

(** The invariant of a timer with the clock it schedules on. *)
Definition timer_state_ok (w : Shared) (s : InternalTimer.t * Clock) : Prop :=
  is_u32 (InternalTimer.bound s.1) ∧ shared_ok (set_clock s.2 w).

Section Timer.
Context {E : Type} (w : Shared).
Abbreviation TimerM := (MM E (InternalTimer.t * Clock)).

Lemma timer_disarm_ok : triple (timer_state_ok w) (InternalTimer.disarm : TimerM unit) anything.
Proof.
  intros [t c] [Ht Hc]. unfold InternalTimer.disarm. rewrite bind_get. simpl in *.
  destruct (InternalTimer.timer_action t) as [a|]; [|done]. split; [|done]. split; [done|].
  exact (cancel_shared_ok a _ Hc).
Qed.

Lemma arm_ok : triple (timer_state_ok w) (InternalTimer.arm : TimerM unit) anything.
Proof.
  unfold InternalTimer.arm. eapply triple_bind; [apply timer_disarm_ok|]. intros _ _ [t c] [Ht Hc].
  rewrite bind_get. simpl in *. destruct (negb _); [done|].
  pose proof (schedule_in_ok (E:=E) (InternalTimer.ticks_to_interrupt (now c) t)
    (TimerAction.InternalTimerLocalInterrupt (InternalTimer.timer_id t)) _ Hc I) as Hs. simpl in Hs.
  destruct (schedule_action_in _ _ _) as [r c']. unfold mbind, M_bind, modify, lift. destruct r; done.
Qed.

Lemma write_control_ok val : triple (timer_state_ok w) (InternalTimer.write_control val : TimerM unit) anything.
Proof.
  unfold InternalTimer.write_control. tri_step; [|apply arm_ok]. by apply triple_modify; intros [t c] [Ht Hc].
Qed.
Lemma write_time_ok val : triple (timer_state_ok w) (InternalTimer.write_time val : TimerM unit) anything.
Proof.
  unfold InternalTimer.write_time. tri_step; [|apply arm_ok]. by apply triple_modify; intros [t c] [Ht Hc].
Qed.
Lemma write_bound_ok val : is_u32 val →
  triple (timer_state_ok w) (InternalTimer.write_bound val : TimerM unit) anything.
Proof.
  intros Hv. unfold InternalTimer.write_bound. tri_step; [|apply arm_ok].
  by apply triple_modify; intros [t c] [Ht Hc].
Qed.

End Timer.

Lemma on_timer0_ok m : (∀ w, triple (timer_state_ok w) m anything) → triple csr_state_ok (on_timer0 m) anything.
Proof.
  intros Hm [f w] [Hf Hw]. destruct (Hm w (timer0 f, clock w)) as [[H1 H2] _].
  { split; [apply Hf|]. by destruct w. }
  unfold on_timer0. destruct (m _) as [r [t c]]. split; [|done]. split; [|done]. by destruct Hf; constructor.
Qed.
Lemma on_timer1_ok m : (∀ w, triple (timer_state_ok w) m anything) → triple csr_state_ok (on_timer1 m) anything.
Proof.
  intros Hm [f w] [Hf Hw]. destruct (Hm w (timer1 f, clock w)) as [[H1 H2] _].
  { split; [apply Hf|]. by destruct w. }
  unfold on_timer1. destruct (m _) as [r [t c]]. split; [|done]. split; [|done]. by destruct Hf; constructor.
Qed.
#[export] Hint Resolve on_timer0_ok on_timer1_ok timer_disarm_ok write_control_ok write_time_ok write_bound_ok : rv_triple.

Lemma write_mitcnt_ok id val : triple csr_state_ok (write_mitcnt id val) anything.
Proof. unfold write_mitcnt. tri. Qed.
Lemma disarm_ok id : triple csr_state_ok (disarm id) anything.
Proof. unfold disarm. tri. Qed.
#[export] Hint Resolve write_mitcnt_ok disarm_ok : rv_triple.

(** ** Access *)

(** Only the bounds of the timers are stored as they come. *)
Lemma csr_write_ok' mode addr val : (addr = MITB0 ∨ addr = MITB1 → is_u32 val) →
  triple csr_state_ok (csr_write mode addr val) anything.
Proof.
  intros Hv. unfold csr_write, machine_only, mip_write, mitcnt_write, mitb_write, mitctl_write.
  destruct (decide (addr = MSTATUS)) as [->|Ha].
  { change (csr_fn MSTATUS).2 with MstatusWrite. change (CSR_COUNT - 1 <? MSTATUS) with false.
    apply mstatus_write_ok. }
  pose proof (pmpcfg_range addr) as Hrange. destruct (Z.eqb_spec addr MITB0), (Z.eqb_spec addr MITB1).
  all: tri; auto using mstatus_write_ok, mie_write_ok, mrac_write_ok, mpmc_write_ok, mseccfg_write_ok, meivt_write_ok,
    pmpcfg_write_ok, pmpaddr_write_ok, on_timer0_ok, on_timer1_ok, write_bound_ok.
Qed.

Lemma csr_write_ok mode addr val : is_u32 val → triple csr_state_ok (csr_write mode addr val) anything.
Proof. intros Hv. by apply csr_write_ok'. Qed.

Lemma lor_u32w x y : is_u32 x → is_u32 y → is_u32 (Z.lor x y).
Proof. intros Hx Hy. apply u32_by_bits. intros i Hi. by rewrite Z.lor_spec, !u32_high_bits by done. Qed.

Lemma land_u32 x y : is_u32 x → is_u32 (Z.land x y).
Proof. intros Hx. apply u32_by_bits. intros i Hi. by rewrite Z.land_spec, u32_high_bits by done. Qed.

Lemma checked_add_u32_ok {E} a b v : 0 ≤ a → 0 ≤ b → unwrap (E:=E) (checked_add_u32 a b) = Ok v → is_u32 v.
Proof.
  intros Ha Hb. unfold checked_add_u32. destruct (Z.ltb_spec (a + b) (2 ^ 32)); [|done]. intros [= <-]. ulia.
Qed.

Lemma irq_typed {E} t p irq : pic_typed p → highest_priority_irq (E:=E) t p = Ok (Some irq) → is_u8 irq.
Proof.
  intros Hp. unfold highest_priority_irq. destruct (t <=? _); [|done].
  destruct (Bits256.first_set_index _) as [k|]; [|done].
  destruct (_ <? _); [|done]. intros [= <-]. destruct (priority_order p !! Z.to_nat k) as [q|] eqn:E'; simpl; [|done].
  exact (Forall_lookup_1 _ _ _ _ (pt_order _ Hp) E').
Qed.

Lemma irq_total_typed {E} p irq : pic_typed p → highest_priority_irq_total (E:=E) p = Ok (Some irq) → is_u8 irq.
Proof.
  intros Hp. unfold highest_priority_irq_total. induction (reverse _) as [|t ts IH]; simpl; [done|].
  destruct (highest_priority_irq t p) as [[i|]|e|w] eqn:E'; simpl; try done. intros [= <-]. by eapply irq_typed.
Qed.

Lemma mip_read_u32 mode f w v : csrs_ok f → mip_read mode f w = Ok v → is_u32 v.
Proof.
  intros Hf. unfold mip_read, system_read. case_decide; [done|]. simpl. intros [= <-].
  apply lor_u32w; [apply land_u32, cval_u32; done|]. do 2 apply land_u32. by apply cval_u32.
Qed.

Lemma csr_read_u32 mode addr f w v : csrs_ok f → shared_ok w → csr_read mode addr f w = Ok v → is_u32 v.
Proof.
  intros Hf Hw. unfold csr_read. destruct (_ <? _); [done|]. unfold machine_read, mitcnt_read, mitb_read, mitctl_read.
  destruct (csr_fn addr).1; repeat case_match; try discriminate; try (intros [= <-]; by apply wrap_in_u).
  - unfold system_read. case_decide; [done|]. intros [= <-]. by apply cval_u32.
  - by apply mip_read_u32.
  - intros [= <-]. apply Hf.
  - intros [= <-]. apply Hf.
  - intros [= <-]. unfold InternalTimer.read_control. by repeat case_match.
  - intros [= <-]. unfold InternalTimer.read_control. by repeat case_match.
  - unfold meihap_read. case_decide; [done|]. simpl.
    destruct (highest_priority_irq_total _) as [irq|e|why] eqn:E; simpl; [|done..]. apply checked_add_u32_ok.
    + apply (cval_u32 f MEIVT Hf).
    + apply Z.shiftl_nonneg. destruct irq as [irq|]; simpl; [|lia].
      pose proof (irq_total_typed _ _ (sh_pic _ Hw) E). ulia.
Qed.

Lemma csr_file_reset_ok : triple csr_state_ok csr_file_reset anything.
Proof.
  apply triple_modify. intros [f w] [Hf [Hc Hh Hp]]. split; [|by constructor]. change (csrs_ok f) in Hf.
  assert (Hl : ∀ a, csr (mkCsrFile (csr_reset <$> csrs f) None (timer0 f) (timer1 f)) a = csr_reset (csr f a)).
  { intros a. unfold csr. simpl. rewrite lookup_fmap. by destruct (csrs f !! a). }
  destruct Hf as [Ht Hs Hd Hm H0 H1 Htm _]. constructor; simpl; [|by rewrite Hl..| |done|done| |done].
  - apply map_Forall_fmap. intros a c Hc'. destruct (Ht a c Hc') as (? & ? & ?). done.
  - unfold cval. rewrite Hl. simpl. by rewrite Hd.
  - intros a. rewrite <-Htm. unfold shape. simpl. rewrite lookup_fmap. by destruct (csrs f !! a).
Qed.

Lemma set_mtip_ok b : triple csr_state_ok (set_mtip b) anything.
Proof.
  unfold set_mtip. tri. apply triple_modify. intros [f w] [Hf Hw]. split; [|done]. change (csrs_ok f) in Hf. simpl.
  destruct (csr_typed_at f MIP Hf) as (Hv & Hd & Hm). destruct Hf as [Ht Hs Hsd Hp H0 H1 Htm Hmax].
  assert (Hl : ∀ a, a ≠ MIP → csr (set_csrs (<[MIP := mkCsr (if b then Z.lor (csr_val (csr f MIP)) (Z.shiftl 1 Mtip)
      else Z.land (csr_val (csr f MIP)) (not_u32 (Z.shiftl 1 Mtip))) (default_val (csr f MIP)) (csr_mask (csr f MIP))]>
      (csrs f)) f) a = csr f a).
  { intros a Ha. unfold csr at 1. simpl. by rewrite lookup_insert_ne. }
  constructor; [|by rewrite Hl..| |done|done| |done]; [|unfold cval; by rewrite Hl|].
  2: { intros a. rewrite <-Htm. unfold shape, csr. simpl. destruct (decide (a = MIP)) as [->|Hne].
       - rewrite lookup_insert_eq. pose proof (Htm MIP) as Hshape. unfold shape in Hshape.
         destruct (csrs f !! MIP); [done|]. vm_compute in Hshape. done.
       - by rewrite lookup_insert_ne. }
  intros a c. simpl. intros [[<- <-]|[_ Hc]]%lookup_insert_Some; [|exact (Ht a c Hc)].
  split_and!; simpl; [|done|done]. destruct b; [by apply lor_u32w|by apply land_u32].
Qed.
#[export] Hint Resolve csr_write_ok csr_file_reset_ok set_mtip_ok : rv_triple.
