(* ===== verification/RvMachine.v ===== *)
(** The processor stays well typed: the invariant of the machine (registers of 32
    bits, sound status registers, no reserved privilege mode, scheduled actions
    with arguments of their width), and that every step preserves it. *)

From stdpp Require Import gmap.
From S2P Require Import Prelude Bits Memory RvTypes RvDecompress RvAlu Clock Pic RvCsr RvCpu.
From S2P Require Import RvIsa RvAluProofs RvIsaProofs RvInvariants.

(** * Widths *)

Create HintDb rv_width.

Lemma lxor_u32w x y : is_u32 x → is_u32 y → is_u32 (Z.lxor x y).
Proof. intros Hx Hy. apply u32_by_bits. intros i Hi. by rewrite Z.lxor_spec, !u32_high_bits by done. Qed.

Lemma shiftr_u32w x n : is_u32 x → 0 ≤ n → is_u32 (Z.shiftr x n).
Proof. intros Hx Hn. apply u32_by_bits. intros i Hi. by rewrite Z.shiftr_spec, u32_high_bits by (done || lia). Qed.

Lemma land_u32_r x y : is_u32 y → is_u32 (Z.land x y).
Proof. rewrite Z.land_comm. apply land_u32. Qed.

Lemma bit_u32 n : is_u32 (Z.shiftl 1 (Z.land n 0x1f)).
Proof.
  rewrite land_31, Z.shiftl_mul_pow2, Z.mul_1_l by (apply Z.mod_pos_bound; lia). pose proof (mod32_range n) as Hn.
  split; [by apply Z.pow_nonneg|]. apply Z.pow_lt_mono_r; lia.
Qed.

Lemma quot_u32 x y : is_u32 x → is_u32 y → is_u32 (Z.quot x y).
Proof.
  intros Hx Hy. destruct (decide (y = 0)) as [->|]; [by rewrite Z.quot_0_r_ext|].
  unfold in_u in *. rewrite Z.quot_div_nonneg by lia. split; [apply Z.div_pos; lia|].
  apply Z.div_lt_upper_bound; nia.
Qed.

Lemma rem_u32 x y : is_u32 x → is_u32 y → is_u32 (Z.rem x y).
Proof.
  intros Hx Hy. destruct (decide (y = 0)) as [->|]; [by rewrite Z.rem_0_r_ext|].
  unfold in_u in *. rewrite Z.rem_mod_nonneg by lia. pose proof (Z.mod_pos_bound x y). lia.
Qed.

Lemma clmul_loop_u32 term b l : (∀ i, i ∈ l → is_u32 (term i)) → is_u32 (clmul_loop term b l).
Proof.
  intros Ht. unfold clmul_loop. assert (H0 : is_u32 0) by done. revert Ht H0. generalize 0 as z.
  induction l as [|i l IH]; intros z Ht Hz; simpl; [done|]. apply IH; [set_solver|].
  destruct (_ =? 1); [|done]. apply lxor_u32w; [done|]. apply Ht. left.
Qed.

Lemma clmul_u32 a b : is_u32 (clmul a b).
Proof. apply clmul_loop_u32. intros i _. by apply wrap_in_u. Qed.
Lemma clmulh_u32 a b : is_u32 a → is_u32 (clmulh a b).
Proof. intros Ha. apply clmul_loop_u32. intros i Hi%elem_of_seqZ. apply shiftr_u32w; [done|lia]. Qed.
Lemma clmulr_u32 a b : is_u32 a → is_u32 (clmulr a b).
Proof. intros Ha. apply clmul_loop_u32. intros i Hi%elem_of_seqZ. apply shiftr_u32w; [done|lia]. Qed.

Lemma rotate_left_u32 x n : is_u32 x → is_u32 (rotate_left x n).
Proof. intros Hx. apply lor_u32w; [by apply wrap_in_u|]. apply shiftr_u32w; [done|]. apply Z.mod_pos_bound. lia. Qed.
Lemma rotate_right_u32 x n : is_u32 x → is_u32 (rotate_right x n).
Proof. intros Hx. apply lor_u32w; [|by apply wrap_in_u]. apply shiftr_u32w; [done|]. apply Z.mod_pos_bound. lia. Qed.

Lemma max_u32 x y : is_u32 x → is_u32 y → is_u32 (Z.max x y).
Proof. unfold in_u. lia. Qed.
Lemma min_u32 x y : is_u32 x → is_u32 y → is_u32 (Z.min x y).
Proof. unfold in_u. lia. Qed.

Lemma count_ones_u32 n x : 0 ≤ count_ones_n n x ≤ Z.of_nat n.
Proof. revert x. induction n as [|n IH]; intros x; simpl count_ones_n; [lia|]. specialize (IH (Z.div2 x)). destruct (Z.odd x); simpl Z.b2z; lia. Qed.
Lemma trailing_zeros_u32 n x : 0 ≤ trailing_zeros_n n x ≤ Z.of_nat n.
Proof. revert x. induction n as [|n IH]; intros x; simpl trailing_zeros_n; [lia|]. specialize (IH (Z.div2 x)). destruct (Z.odd x); lia. Qed.
Lemma leading_zeros_u32 x : is_u32 x → is_u32 (leading_zeros x).
Proof.
  intros Hx. unfold leading_zeros. destruct (Z.eqb_spec x 0); [done|]. unfold in_u in *.
  pose proof (Z.log2_nonneg x). assert (Z.log2 x < 32) by (apply Z.log2_lt_pow2; lia). lia.
Qed.

Lemma from_le4_u32 l : is_bytes l → length l = 4%nat → is_u32 (from_le l).
Proof. intros Hb Hl. pose proof (from_le_bound l Hb) as H. by rewrite Hl in H. Qed.

Lemma orc_b_u32 x : is_u32 (orc_b x).
Proof.
  apply from_le4_u32; [|by rewrite length_fmap, length_to_le].
  apply Forall_fmap, Forall_forall. intros b _. simpl. by destruct (b =? 0).
Qed.
Lemma rev8_u32 x : is_u32 (swap_bytes_u32 x).
Proof.
  rewrite rev8_eq. apply from_le4_u32; [|by rewrite length_reverse, length_to_le].
  rewrite Forall_reverse. apply to_le_bytes.
Qed.

#[export] Hint Resolve lor_u32w lxor_u32w land_u32 shiftr_u32w bit_u32 quot_u32 rem_u32 clmul_u32 clmulh_u32 clmulr_u32
  rotate_left_u32 rotate_right_u32 max_u32 min_u32 leading_zeros_u32 orc_b_u32 rev8_u32 : rv_width.
#[export] Hint Extern 1 (in_u 32 (wrap 32 _)) => apply wrap_in_u; lia : rv_width.
#[export] Hint Extern 1 (in_u 32 (not_u32 _)) => apply wrap_in_u; lia : rv_width.
#[export] Hint Extern 1 (in_u 32 (wrapping_shl _ _)) => apply wrap_in_u; lia : rv_width.
#[export] Hint Extern 1 (in_u 32 (if _ then 1 else 0)) => case_match; done : rv_width.
#[export] Hint Extern 3 (0 ≤ Z.land _ 31) => rewrite land_31; apply Z.mod_pos_bound; lia : rv_width.

Lemma op_data_u32 w a b v : is_u32 a → is_u32 b → op_data w a b = Ok v → is_u32 v.
Proof.
  intros Ha Hb. unfold op_data, exec_bit_instr_op, wrapping_shr.
  repeat case_match; simpl; intros H'; try discriminate; injection H' as <-; try done; eauto 4 with rv_width.
Qed.

Lemma op_imm_data_u32 w a v : is_u32 a → op_imm_data w a = Ok v → is_u32 v.
Proof.
  intros Ha. assert (Hb : ∀ v, exec_bit_instr_op_imm w a = Some v → is_u32 v).
  { unfold exec_bit_instr_op_imm. intros v'.
    repeat case_match; intros H'; try discriminate; injection H' as <-; eauto 4 with rv_width.
    - pose proof (trailing_zeros_u32 32 a). unfold trailing_zeros. ulia.
    - pose proof (count_ones_u32 32 a). unfold count_ones. ulia. }
  unfold op_imm_data, wrapping_shr. destruct (exec_bit_instr_op_imm w a); [intros [= <-]; by apply Hb|].
  repeat case_match; intros H'; try discriminate; injection H' as <-; try done; eauto 4 with rv_width.
Qed.

(** * The machine *)

(** What a bus promises to the processor: it answers words, and keeps itself and
    the shared devices well typed. *)
Class BusTyped {B Event} `{!Bus B Event} (okb : B → Prop) : Prop := {
  read_typed size addr : triple (λ s : B * Shared, okb s.1 ∧ shared_ok s.2) (bus_read size addr) is_u32;
  write_typed size addr val : is_u32 val →
    triple (λ s : B * Shared, okb s.1 ∧ shared_ok s.2) (bus_write size addr val) anything;
  poll_typed (s : B * Shared) : okb s.1 → shared_ok s.2 → okb (bus_poll s).1 ∧ shared_ok (bus_poll s).2;
  warm_typed (s : B * Shared) :
    okb s.1 → shared_ok s.2 → okb (bus_warm_reset s).1 ∧ shared_ok (bus_warm_reset s).2;
  update_typed (s : B * Shared) :
    okb s.1 → shared_ok s.2 → okb (bus_update_reset s).1 ∧ shared_ok (bus_update_reset s).2;
  event_typed e (s : B * Shared) :
    okb s.1 → shared_ok s.2 → okb (bus_incoming_event e s).1 ∧ shared_ok (bus_incoming_event e s).2
}.

Section Machine.
Context {B Event : Type} `{!Bus B Event} (okb : B → Prop) `{!BusTyped okb}.
Implicit Types s : @Cpu B Event.

Record cpu_ok (s : @Cpu B Event) : Prop := {
  cpu_xregs : xregs_ok (xregs s);
  cpu_csrs_ok : csrs_ok (cpu_csrs s);
  cpu_pc : is_u32 (pc s);
  cpu_next_pc : is_u32 (next_pc s);
  cpu_nmivec : is_u32 (nmivec s);
  cpu_ext_int_vec : is_u32 (ext_int_vec s);
  cpu_deferred : length (deferred_ext_int s) = 256%nat;
  cpu_bus_ok : okb (cpu_bus s);
  cpu_shared : shared_ok (shared s);
  cpu_mode : priv_mode s ≠ RvPrivMode.Invalid;
  cpu_reset : is_u32 (reset_vector (cpu_args s))
}.

Ltac upd := let s := fresh "s" in let H := fresh "H" in
  apply triple_modify; intros s H; destruct H; by constructor.

(** ** Registers *)

Lemma set_hit_ok h s : cpu_ok s → cpu_ok (set_hit h s).
Proof. intros []. by constructor. Qed.

Lemma read_pc_ok : triple cpu_ok read_pc is_u32.
Proof. apply triple_get, cpu_pc. Qed.
Lemma read_next_pc_ok : triple cpu_ok read_next_pc is_u32.
Proof. apply triple_get, cpu_next_pc. Qed.
Lemma write_pc_ok v : is_u32 v → triple cpu_ok (write_pc v) anything.
Proof. intros Hv. upd. Qed.
Lemma write_next_pc_ok v : is_u32 v → triple cpu_ok (write_next_pc v) anything.
Proof. intros Hv. upd. Qed.

Lemma read_xreg_ok r : triple cpu_ok (read_xreg r) is_u32.
Proof.
  intros s Hs. split; [done|]. simpl. intros v. destruct (cpu_xregs s Hs) as [_ Hf].
  unfold XRegFile.read. destruct r; try discriminate; [by intros [= <-]|..].
  all: match goal with |- context [XRegFile.reg ?f !! ?k] => destruct (XRegFile.reg f !! k) eqn:E end; [|discriminate].
  all: intros [= <-]; exact (Forall_lookup_1 _ _ _ _ Hf E).
Qed.

Lemma xregs_write r v f f' : xregs_ok f → is_u32 v → XRegFile.write r v f = Ok f' → xregs_ok f'.
Proof.
  intros [Hl Hf] Hv. assert (Hi : ∀ k, xregs_ok (XRegFile.mk (<[k := v]> (XRegFile.reg f)))).
  { intros k. split; cbn [XRegFile.reg]; [by rewrite length_insert|]. by apply Forall_insert. }
  unfold XRegFile.write. destruct r; intros H; simplify_eq; try done.
  all: apply res_bind_ok_inv in H as ([] & _ & [= <-]); apply Hi.
Qed.

Lemma write_xreg_ok r v : is_u32 v → triple cpu_ok (write_xreg r v) anything.
Proof.
  intros Hv. unfold write_xreg. eapply (triple_bind _ _ _ anything); [|intros _ _].
  { case_decide; [|by apply triple_ret]. apply triple_modify. intros s Hs. unfold check_stack.
    destruct (stack_info s); [|done]. destruct Hs. by constructor. }
  tri_step; [apply (triple_get _ _ xregs_ok), cpu_xregs|]. tri_step; [|upd].
  apply (triple_lift _ _ xregs_ok). intros f'. by apply xregs_write.
Qed.

Lemma on_csrs_ok {A} (m : CsrM A) Q : triple csr_state_ok m Q → triple cpu_ok (on_csrs m) Q.
Proof.
  intros Hm s Hs. destruct (Hm (cpu_csrs s, shared s)) as [[H1 H2] H3].
  { destruct Hs. done. }
  unfold on_csrs. destruct (m _) as [r [f w]]. split; [|done]. destruct Hs. by constructor.
Qed.

Lemma read_csr_as_ok mode addr : triple cpu_ok (read_csr_as mode addr) is_u32.
Proof. intros s []. split; [by constructor|]. intros v. by apply csr_read_u32. Qed.

#[local] Hint Extern 1 (in_u 32 (wrap 32 _)) => apply wrap_in_u; lia : rv_triple.
#[local] Hint Resolve read_pc_ok read_next_pc_ok write_pc_ok write_next_pc_ok read_xreg_ok write_xreg_ok on_csrs_ok
  read_csr_as_ok : rv_triple.

Lemma read_csr_ok addr : triple cpu_ok (read_csr addr) is_u32.
Proof. unfold read_csr. tri. Qed.
Lemma write_csr_ok addr v : is_u32 v → triple cpu_ok (write_csr addr v) anything.
Proof. intros Hv. unfold write_csr. tri. Qed.
Lemma write_csr_machine_ok addr v : is_u32 v → triple cpu_ok (write_csr_machine addr v) anything.
Proof. intros Hv. unfold write_csr_machine. tri. Qed.
#[local] Hint Resolve read_csr_ok write_csr_ok write_csr_machine_ok : rv_triple.

(** ** Memory *)

Lemma deny_if_ok access addr b : triple cpu_ok (deny_if access addr b) anything.
Proof. unfold deny_if. tri. Qed.
#[local] Hint Resolve deny_if_ok : rv_triple.

Lemma check_mem_priv_addr_ok addr access : triple cpu_ok (check_mem_priv_addr addr access) anything.
Proof. unfold check_mem_priv_addr, read_csr_machine. tri. Qed.
#[local] Hint Resolve check_mem_priv_addr_ok : rv_triple.

Lemma check_mem_priv_ok addr size access : triple cpu_ok (check_mem_priv addr size access) anything.
Proof.
  assert (Hb : ∀ l, triple cpu_ok (check_mem_priv_bytes addr access l) anything).
  { induction l as [|i l IH]; simpl; tri. }
  unfold check_mem_priv. tri.
Qed.
#[local] Hint Resolve check_mem_priv_ok : rv_triple.

Lemma on_bus_ok {A} exc (m : MM BusError (B * Shared) A) Q :
  triple (λ s : B * Shared, okb s.1 ∧ shared_ok s.2) m Q → triple cpu_ok (on_bus exc m) Q.
Proof.
  intros Hm s Hs. destruct (Hm (cpu_bus s, shared s)) as [[H1 H2] H3].
  { destruct Hs. done. }
  unfold on_bus. destruct (m _) as [r [b w]]. split; [by destruct Hs; constructor|].
  destruct r; try discriminate. intros x [= <-]. by apply H3.
Qed.

Lemma watch_ok kind addr s : cpu_ok s → cpu_ok (watch kind addr s).
Proof. intros Hs. unfold watch. destruct (is_execute_instr s); [|done]. by apply set_hit_ok. Qed.
#[local] Hint Resolve on_bus_ok read_typed write_typed triple_modify watch_ok : rv_triple.

Lemma read_bus_ok size addr : triple cpu_ok (read_bus size addr) is_u32.
Proof. unfold read_bus. tri. Qed.
Lemma write_bus_ok size addr val : is_u32 val → triple cpu_ok (write_bus size addr val) anything.
Proof. intros Hv. unfold write_bus. tri. Qed.
Lemma read_instr_ok size addr : triple cpu_ok (read_instr size addr) is_u32.
Proof.
  unfold read_instr, fetch_bytes. tri_step; [tri|]. destruct size; try apply triple_fail; cbv zeta.
  all: tri_step; [tri|]; eapply (triple_bind _ _ _ anything); [tri|intros c _].
  all: apply triple_ret; rewrite Z.land_comm; by apply land_u32.
Qed.
#[local] Hint Resolve read_bus_ok write_bus_ok read_instr_ok : rv_triple.

(** ** Instructions *)

#[local] Hint Extern 1 (in_u 32 _) => solve [eauto 4 with rv_width] : rv_triple.

Lemma assert_opcode_ok found expected : triple cpu_ok (assert_opcode found expected) anything.
Proof. unfold assert_opcode. tri. Qed.

Lemma op_data_ok w a b : is_u32 a → is_u32 b → triple cpu_ok (lift (op_data w a b)) is_u32.
Proof. intros Ha Hb. apply triple_lift. intros v. by apply op_data_u32. Qed.
Lemma op_imm_data_ok w a : is_u32 a → triple cpu_ok (lift (op_imm_data w a)) is_u32.
Proof. intros Ha. apply triple_lift. intros v. by apply op_imm_data_u32. Qed.
#[local] Hint Resolve assert_opcode_ok op_data_ok op_imm_data_ok : rv_triple.

Lemma exec_op_ok w : triple cpu_ok (exec_op_instr w) anything.
Proof. unfold exec_op_instr. tri. Qed.
Lemma exec_op_imm_ok w : triple cpu_ok (exec_op_imm_instr w) anything.
Proof. unfold exec_op_imm_instr. tri. Qed.
Lemma exec_branch_ok w : triple cpu_ok (exec_branch_instr w) anything.
Proof. unfold exec_branch_instr. tri. Qed.
Lemma exec_load_ok w : triple cpu_ok (exec_load_instr w) anything.
Proof. unfold exec_load_instr. tri_step; [tri|]. tri_step; [tri|]. eapply (triple_bind _ _ _ is_u32); [|intros; tri]. tri. Qed.
Lemma exec_store_ok w : triple cpu_ok (exec_store_instr w) anything.
Proof. unfold exec_store_instr. tri. Qed.
Lemma exec_upper_ok w : triple cpu_ok (exec_lui_instr w) anything ∧ triple cpu_ok (exec_auipc_instr w) anything.
Proof. split; [unfold exec_lui_instr|unfold exec_auipc_instr]; tri. Qed.
Lemma exec_jal_ok w : triple cpu_ok (exec_jal_instr w) anything.
Proof. unfold exec_jal_instr. tri. Qed.
Lemma exec_jalr_ok w : triple cpu_ok (exec_jalr_instr w) anything.
Proof. unfold exec_jalr_instr. tri. Qed.
Lemma exec_fence_ok w : triple cpu_ok (exec_fence_instr w) anything.
Proof. unfold exec_fence_instr. tri. Qed.

Lemma read_status_ok mode : triple cpu_ok (read_csr_as mode MSTATUS)
  (λ v, is_u32 v ∧ RvMStatus.mpp v ≠ RvPrivMode.Invalid).
Proof.
  intros s Hs. split; [done|]. intros v Hv. destruct Hs as [_ Hf _ _ _ _ _ _ Hw _ _].
  change (csr_read mode MSTATUS (cpu_csrs s) (shared s) = Ok v) in Hv. split; [by eapply csr_read_u32|].
  change (system_read mode (cpu_csrs s) MSTATUS = Ok v) in Hv. unfold system_read in Hv.
  case_decide; [done|]. injection Hv as <-. apply Hf.
Qed.

Lemma write_csr_any_ok addr val : addr ≠ MITB0 → addr ≠ MITB1 →
  triple cpu_ok (write_csr addr val) anything ∧ triple cpu_ok (write_csr_machine addr val) anything.
Proof.
  intros H0 H1. assert (Hw : ∀ mode, triple cpu_ok (on_csrs (csr_write mode addr val)) anything).
  { intros mode. apply on_csrs_ok, csr_write_ok'. tauto. }
  split; [|apply Hw]. unfold write_csr. tri.
Qed.

Lemma set_priv_mode_ok m : m ≠ RvPrivMode.Invalid → triple cpu_ok (modify (set_priv_mode m) : MM RvException.t Cpu unit) anything.
Proof. intros Hm. upd. Qed.
#[local] Hint Resolve set_priv_mode_ok : rv_triple.

Lemma exec_mret_ok w : triple cpu_ok (exec_mret w) anything.
Proof.
  unfold exec_mret. tri_step; [tri|]. tri_step; [tri|].
  eapply (triple_bind _ _ _ (λ v, is_u32 v ∧ RvMStatus.mpp v ≠ RvPrivMode.Invalid)).
  { unfold read_csr. tri. apply read_status_ok. }
  intros v [_ Hv]. cbv zeta. tri_step; [by apply write_csr_any_ok|]. tri.
Qed.
#[local] Hint Resolve exec_mret_ok : rv_triple.

Lemma exec_csr_ok w csr new : (∀ old, is_u32 old → triple cpu_ok (new old) is_u32) →
  triple cpu_ok (exec_csr w csr new) anything.
Proof. intros Hn. unfold exec_csr. tri. Qed.

Lemma exec_system_ok w : triple cpu_ok (exec_system_instr w) anything.
Proof.
  assert (Hz : is_u32 (XReg.into (RvInstr32I.rs w))).
  { unfold RvInstr32I.rs. pose proof (fget_range 15 5 w ltac:(lia)) as Hr. destruct (xreg_from _ Hr) as [_ ->]. ulia. }
  unfold exec_system_instr. tri_step; [tri|]. cbv zeta.
  destruct (RvInstr32SystemFunct3.from _); [tri|apply exec_csr_ok; intros old Hold; tri..|tri].
Qed.

Lemma exec_instr32_ok w : triple cpu_ok (exec_instr32 w) anything.
Proof.
  unfold exec_instr32. destruct (RvInstr32.opcode w); try apply exec_upper_ok; try apply triple_fail;
    auto using exec_op_ok, exec_op_imm_ok, exec_branch_ok, exec_load_ok, exec_store_ok, exec_jal_ok, exec_jalr_ok,
      exec_fence_ok, exec_system_ok.
Qed.
#[local] Hint Resolve exec_instr32_ok : rv_triple.

Lemma exec_instr16_ok w : triple cpu_ok (exec_instr16 w) anything.
Proof. unfold exec_instr16. tri. Qed.
#[local] Hint Resolve exec_instr16_ok : rv_triple.

Lemma fetch_ok : triple cpu_ok fetch anything.
Proof. unfold fetch. tri. Qed.

Lemma exec_instr_ok : triple cpu_ok exec_instr anything.
Proof.
  unfold exec_instr. tri_step; [apply triple_modify; intros s []; by constructor|].
  tri_step; [apply fetch_ok|]. tri_step; [apply (triple_get _ _ cpu_ok); done|].
  tri_step; [tri|]. tri_step; [upd|]. tri_step; [case_match; tri|]. tri_step; [tri|]. tri_step; [tri|].
  tri_step; [upd|]. tri.
Qed.

(** ** Traps *)

Lemma handle_trap_ok epc cause info next : is_u32 next → triple cpu_ok (handle_trap epc cause info next) anything.
Proof.
  intros Hn. unfold handle_trap. do 3 (tri_step; [by apply write_csr_any_ok|]).
  tri_step; [apply read_csr_as_ok|]. tri_step; [apply triple_get_any|].
  eapply (triple_bind _ _ _ anything); [|intros st _].
  { case_match; [|by apply triple_ret|apply triple_stop]. tri_step; [by apply set_priv_mode_ok|by apply triple_ret]. }
  cbv zeta. tri_step; [by apply write_csr_any_ok|]. tri_step; [upd|]. tri.
Qed.

Lemma trap_action_ok m : triple cpu_ok m anything → triple cpu_ok (trap_action m) anything.
Proof. intros Hm. unfold trap_action. tri_step; [by apply triple_catch|]. tri. Qed.

Lemma read_mtvec_ok : triple cpu_ok read_mtvec is_u32.
Proof.
  unfold read_mtvec. tri_step; [apply triple_catch, read_csr_as_ok|]. case_match; try apply triple_stop.
  apply triple_ret. apply land_u32. auto.
Qed.
#[local] Hint Resolve handle_trap_ok trap_action_ok read_mtvec_ok : rv_triple.

Lemma handle_exception_ok e : triple cpu_ok (handle_exception e) anything.
Proof. unfold handle_exception. tri. Qed.
Lemma handle_timer_ok id : triple cpu_ok (handle_internal_timer_local_interrupt id) anything.
Proof. unfold handle_internal_timer_local_interrupt. tri. Qed.
Lemma handle_machine_timer_ok : triple cpu_ok handle_machine_timer_intteruppt anything.
Proof. unfold handle_machine_timer_intteruppt. tri. Qed.
Lemma handle_nmi_ok cause info : triple cpu_ok (handle_nmi cause info) anything.
Proof. unfold handle_nmi. tri_step; [tri|]. tri_step; [apply (triple_get _ _ is_u32), cpu_nmivec|]. tri. Qed.
#[local] Hint Resolve handle_exception_ok handle_timer_ok handle_machine_timer_ok handle_nmi_ok : rv_triple.

Lemma or_fatal_ok {A} (m : MM RvException.t Cpu A) k Q :
  triple cpu_ok m Q → (∀ a, Q a → triple cpu_ok (k a) anything) → triple cpu_ok (or_fatal m k) anything.
Proof.
  intros Hm Hk. unfold or_fatal. tri_step; [by apply triple_catch|]. case_match; subst; tri.
Qed.

Lemma handle_external_int_ok irq : triple cpu_ok (handle_external_int irq) anything.
Proof.
  unfold handle_external_int. tri_step; [tri|]. tri_step; [tri|].
  eapply (triple_bind _ _ _ anything); [tri|intros [] _; [tri|]].
  eapply or_fatal_ok; [apply read_csr_as_ok|]. intros st _. tri_step; [tri|].
  eapply (triple_bind _ _ _ anything); [case_match; tri; done|intros _ _]. tri_step; [tri|]. cbv zeta.
  eapply or_fatal_ok; [by apply write_csr_any_ok|]. intros _ _.
  eapply or_fatal_ok; [apply read_bus_ok|]. intros next Hnext. tri.
Qed.
#[local] Hint Resolve handle_external_int_ok : rv_triple.

(** ** A step *)

Lemma do_reset_ok : triple cpu_ok do_reset anything.
Proof.
  unfold do_reset, reset_pc. tri_step; [upd|]. tri_step; [by apply set_priv_mode_ok|].
  do 3 (tri_step; [apply on_csrs_ok; eauto with rv_triple|]). upd.
Qed.

Lemma schedule_action_ok ticks a : action_ok a → triple cpu_ok (schedule_action ticks a) anything.
Proof. intros Ha. by apply on_csrs_ok, schedule_ok. Qed.

Lemma schedule_all_ok l : Forall action_ok l → triple cpu_ok (schedule_all l) anything.
Proof. induction 1; simpl; [by apply triple_ret|]. tri_step; [by apply schedule_action_ok|done]. Qed.

Lemma set_halted_ok b : triple cpu_ok (modify (set_halted b) : MM RvException.t Cpu unit) anything.
Proof. upd. Qed.
Lemma set_deferred_ok irq b : triple cpu_ok (modify (set_deferred irq b) : MM RvException.t Cpu unit) anything.
Proof. apply triple_modify. intros s []. constructor; try done. simpl. by rewrite length_insert. Qed.
#[local] Hint Resolve do_reset_ok set_halted_ok set_deferred_ok : rv_triple.

Lemma serve_irq_ok irq : triple cpu_ok (serve_irq irq) anything.
Proof. unfold serve_irq. tri. Qed.
#[local] Hint Resolve serve_irq_ok : rv_triple.

Lemma process_action_ok a : action_ok a → triple cpu_ok (process_action a) anything.
Proof. intros Ha. unfold process_action. destruct a; tri; upd. Qed.

Lemma process_actions_ok queue saved : Forall action_ok queue → Forall action_ok saved →
  triple cpu_ok (process_actions queue saved) (λ '(_, saved, rest), Forall action_ok saved ∧ Forall action_ok rest).
Proof.
  intros Hq. revert saved. induction Hq as [|a queue Ha Hq IH]; intros saved Hs; simpl; [by apply triple_ret|].
  tri_step; [by apply process_action_ok|]. case_match; [|by apply triple_ret].
  apply IH. case_match; [|done]. apply Forall_app. auto.
Qed.

Lemma run_bus_ok f s : (∀ b : B * Shared, okb b.1 → shared_ok b.2 → okb (f b).1 ∧ shared_ok (f b).2) →
  cpu_ok s → cpu_ok (run_bus f s).
Proof.
  intros Hf Hs. destruct (Hf (cpu_bus s, shared s)) as [H1 H2]; [by destruct Hs..|].
  unfold run_bus. destruct (f _) as [b w]. destruct Hs. by constructor.
Qed.

Lemma handle_incoming_events_ok : triple cpu_ok handle_incoming_events anything.
Proof.
  apply triple_modify. intros s Hs. destruct (incoming_events s) as [es|]; [|done].
  assert (H : cpu_ok (foldl (λ s e, run_bus (bus_incoming_event e) s) s es)).
  { revert s Hs. induction es as [|e es IH]; intros s Hs; simpl; [done|].
    apply IH, run_bus_ok; [|done]. apply event_typed. }
  destruct H. by constructor.
Qed.

Lemma notify_bus_ok l : triple cpu_ok (notify_bus l) anything.
Proof.
  induction l as [|a l IH]; simpl; [by apply triple_ret|]. destruct a; try done; [tri_step; [|done]|..].
  all: apply triple_modify; intros s; apply run_bus_ok; auto using poll_typed, warm_typed, update_typed.
Qed.

Lemma fired_actions_ok iter : (∀ l, iter l ≡ₚ l) →
  triple cpu_ok (increment_and_process_timer_actions iter 1) (Forall action_ok).
Proof.
  intros Hiter s Hs. unfold increment_and_process_timer_actions. rewrite bind_get.
  destruct (cpu_shared s Hs) as [Hc Ha Hp].
  destruct (clock_increment_spec (E:=RvException.t) 1 (clock (shared s)) Hc) as (fs & c & -> & Hc' & _ & _ & Hh & Hf).
  { done. }
  rewrite bind_modify, (bind_lift_ok _ fs) by done.
  assert (Hfs : Forall action_ok fs).
  { apply Forall_forall. intros a (h & Hin & _ & <-)%Hf. rewrite Forall_forall in Ha. auto. }
  assert (Ht : triple cpu_ok (notify_bus (iter fs);; mret (iter fs)) (Forall action_ok)).
  { tri_step; [apply notify_bus_ok|]. apply triple_ret. by rewrite Hiter. }
  apply Ht. destruct Hs. constructor; try done. constructor; [done| |done]. simpl. rewrite Hh. by apply forall_filter.
Qed.

Lemma sort_by_priority_perm l : sort_by_priority l ≡ₚ l.
Proof.
  assert (Hi : ∀ a k, insert_by_priority a k ≡ₚ a :: k).
  { intros a k. induction k as [|b k IH]; simpl; [done|]. destruct (_ <=? _); [done|]. rewrite IH. by constructor. }
  induction l as [|a l IH]; simpl; [done|]. by rewrite Hi, IH.
Qed.

Lemma step_ok iter : (∀ l, iter l ≡ₚ l) → triple cpu_ok (step iter) anything.
Proof.
  intros Hiter. unfold step. tri_step; [by apply fired_actions_ok|].
  tri_step; [apply process_actions_ok; [by rewrite reverse_Permutation, sort_by_priority_perm|done]|].
  destruct a0 as [[decided saved] rest]. destruct H0 as [Hsv Hr].
  tri_step; [by apply schedule_all_ok|]. tri_step; [apply schedule_all_ok; by rewrite reverse_Permutation|].
  destruct decided; [by apply triple_ret|]. tri_step; [apply handle_incoming_events_ok|].
  tri_step; [apply (triple_get _ _ cpu_ok); done|]. destruct (halted _).
  { tri_step; [|by apply triple_ret]. apply write_next_pc_ok. by destruct H3. }
  tri_step; [apply triple_catch, exec_instr_ok|].
  eapply (triple_bind _ _ _ anything); [|intros act _; tri_step; [apply handle_incoming_events_ok|tri]].
  case_match; [by apply triple_ret|apply handle_exception_ok|apply triple_stop].
Qed.

(** ** Histories *)

Lemma csr_file_new_ok : csrs_ok csr_file_new.
Proof.
  constructor; [|vm_compute; reflexivity..|vm_compute; discriminate|done|done|done|done].
  refine (bool_decide_eq_true_1 (map_Forall (λ _ c, csr_typed c) (csrs csr_file_new)) _). vm_compute. reflexivity.
Qed.

Lemma cpu_new_ok b w args : okb b → shared_ok w → is_u32 (reset_vector args) → cpu_ok (cpu_new b w args).
Proof.
  intros Hb Hw Hr. constructor; [|apply csr_file_new_ok|done..]. split; [done|]. by apply Forall_replicate.
Qed.

(** The machine after a number of steps, each with its order of actions. *)
Definition run (iters : list (list TimerAction.t → list TimerAction.t)) s : @Cpu B Event :=
  foldl (λ s iter, (step iter s).2) s iters.

Lemma run_ok iters s : Forall (λ iter, ∀ l, iter l ≡ₚ l) iters → cpu_ok s → cpu_ok (run iters s).
Proof.
  intros Hi. revert s. induction Hi as [|iter iters Hiter Hi IH]; intros s Hs; simpl; [done|].
  apply IH. by apply step_ok.
Qed.

End Machine.
