(* ===== verification/RvSystem.v ===== *)
(** A processor on a bus of devices: memories, the interrupt controller, the
    dispatching bus and the region access control keep what the processor
    relies on, so that every program on such a system executes the instruction
    set. *)

From stdpp Require Import sorting.
From S2P Require Import Prelude Bits Memory RvTypes RvDecompress RvAlu Clock Pic RvCsr RvCpu.
From S2P Require Import Buses RvIsa RvAluProofs RvIsaProofs RvCompressed.
From S2P Require Import RvInvariants RvMachine.

(** * The interrupt controller *)

Lemma set_level_typed id b p : pic_typed p → pic_typed (set_ordered_irq_pending id b p).
Proof. intros []. by constructor. Qed.

Lemma bits32_set_u32 i b w : 0 ≤ i < 32 → is_u32 w → is_u32 (Bits32.set i b w).
Proof.
  intros Hi Hw. assert (Hbit : is_u32 (Z.shiftl 1 i)).
  { rewrite Z.shiftl_mul_pow2, Z.mul_1_l by lia. split; [by apply Z.pow_nonneg|]. apply Z.pow_lt_mono_r; lia. }
  unfold Bits32.set. destruct b; [by apply lor_u32w|]. apply u32_by_bits. intros j Hj.
  by rewrite Z.ldiff_spec, u32_high_bits by done.
Qed.

Lemma nth_reg_u32 l i : Forall is_u32 l → is_u32 (nth_reg l i).
Proof. intros Hl. unfold nth_reg. destruct (l !! _) eqn:E; [|done]. exact (Forall_lookup_1 _ _ _ _ Hl E). Qed.

Lemma irq_set_level_typed id b p : pic_typed p → pic_typed (irq_set_level id b p).
Proof.
  intros Hp. unfold irq_set_level. cbv zeta. apply set_level_typed.
  assert (Hi : 0 ≤ id mod 32 < 32) by (apply Z.mod_pos_bound; lia).
  destruct (xorb _ _); destruct Hp; constructor; try done; simpl; apply Forall_insert; try done.
  all: apply bits32_set_u32; [done|]; by apply nth_reg_u32.
Qed.

Lemma refresh_all_typed l p : pic_typed p → pic_typed (foldl (λ p i, refresh_enabled i p) p l).
Proof. revert p. induction l as [|i l IH]; intros p Hp; simpl; [done|]. apply IH. by apply set_level_typed. Qed.

Lemma refresh_order_typed p : pic_typed p → pic_typed (refresh_order p).
Proof.
  intros []. unfold refresh_order. cbv zeta. apply refresh_all_typed. constructor; try done.
  cbn [priority_order set_order]. rewrite merge_sort_Permutation.
  apply Forall_fmap, Forall_forall. intros i Hi%elem_of_seqZ. cbn [compose]. unfold irq_priority.
  destruct (i =? 0); [done|]. cbn [irq_id]. ulia.
Qed.

Lemma array_write_typed l size addr v l' :
  Forall is_u32 l → is_u32 v → array_write l size addr v = Ok l' → Forall is_u32 l'.
Proof.
  intros Hl Hv. unfold array_write. repeat case_match; try discriminate. intros [= <-]. by apply Forall_insert.
Qed.

Lemma regs_write_typed size addr v r p : pic_typed p → is_u32 v →
  regs_write size addr v (regs p) = Ok r → pic_typed (set_regs r p).
Proof.
  intros [] Hv. unfold regs_write. repeat case_match; try discriminate.
  all: intros H'; first [injection H' as <- | apply res_bind_ok_inv in H' as (l & Hl & [= <-])].
  all: constructor; try done; simpl;
    first [by apply Forall_insert | eapply array_write_typed; [| |eassumption]; done].
Qed.

Lemma pic_write_typed size addr v p p' : pic_typed p → is_u32 v → pic_write size addr v p = Ok p' → pic_typed p'.
Proof.
  intros Hp Hv. unfold pic_write. destruct (reserved_addr addr); [discriminate|]. destruct (between _ _ _).
  { intros H. apply res_bind_ok_inv in H as (r & Hr & [= <-]). eapply irq_set_level_typed, regs_write_typed; done. }
  destruct (between _ _ _).
  { intros [= <-]. apply irq_set_level_typed. destruct Hp. by constructor. }
  destruct (_ || _).
  { intros H. apply res_bind_ok_inv in H as (r & Hr & [= <-]). eapply refresh_order_typed, regs_write_typed; done. }
  destruct (between _ _ _).
  { intros H. apply res_bind_ok_inv in H as (r & Hr & [= <-]). eapply set_level_typed, regs_write_typed; done. }
  intros H. apply res_bind_ok_inv in H as (r & Hr & [= <-]). by eapply regs_write_typed.
Qed.

Lemma pic_read_typed size addr p v : pic_typed p → pic_read size addr p = Ok v → is_u32 v.
Proof.
  assert (Ha : ∀ l a v, Forall is_u32 l → array_read l a = Ok v → is_u32 v).
  { intros l a v' Hl. unfold array_read. case_match; [|discriminate]. destruct (l !! _) eqn:E; [|discriminate].
    intros [= <-]. exact (Forall_lookup_1 _ _ _ _ Hl E). }
  intros []. unfold pic_read, regs_read. repeat case_match; try discriminate; try (intros [= <-]); try done.
  all: try by apply nth_reg_u32. all: by eapply Ha.
Qed.

Lemma set_pic_ok p w : pic_typed p → shared_ok w → shared_ok (set_pic p w).
Proof. intros Hp []. by constructor. Qed.

Lemma pic_poll_typed w : shared_ok w → shared_ok (set_clock (pic_poll (E:=BusError) (pic w) (clock w)).2 w).
Proof.
  intros Hw. assert (Hs : ∀ irq, is_u8 irq →
    shared_ok (set_clock (schedule_action_in (E:=BusError) 2 (TimerAction.ExtInt irq true) (clock w)).2 w)).
  { intros irq Hirq. by apply schedule_in_ok. }
  assert (Hn : shared_ok (set_clock (clock w) w)) by (by destruct w).
  unfold pic_poll. destruct (highest_priority_irq (MAX_PRIORITY - 1) (pic w)) as [[irq|]|e|why] eqn:E1; [| |exact Hn..];
    [|destruct (highest_priority_irq 0 (pic w)) as [[irq|]|e|why] eqn:E2; [|exact Hn..]].
  all: assert (Hirq : is_u8 irq) by (eapply irq_typed; [apply Hw|done]); specialize (Hs irq Hirq).
  all: destruct (schedule_action_in _ _ _) as [r c]; exact Hs.
Qed.

(** * Memories *)

Lemma mem_read_typed m size addr v : is_bytes m → Mem.read m size addr = Ok v → is_u32 v.
Proof.
  intros Hm. assert (Hb : ∀ i b, m !! i = Some b → is_u8 b) by (intros i b; by apply Forall_lookup_1).
  unfold Mem.read, Mem.read_byte, Mem.read_half_word, Mem.read_word.
  destruct size; [| | |discriminate]; (case_match; [|discriminate]).
  - destruct (m !! addr) eqn:E; intros [= <-]. apply Hb in E. ulia.
  - destruct (m !! addr) as [b0|] eqn:E0; [|discriminate]. simpl.
    destruct (m !! (addr + 1)%nat) as [b1|] eqn:E1; [|discriminate]. simpl. intros [= <-].
    apply Hb in E0, E1. rewrite lor_shiftl by ulia. ulia.
  - destruct (m !! addr) as [b0|] eqn:E0; [|discriminate]. simpl.
    destruct (m !! (addr + 1)%nat) as [b1|] eqn:E1; [|discriminate]. simpl.
    destruct (m !! (addr + 2)%nat) as [b2|] eqn:E2; [|discriminate]. simpl.
    destruct (m !! (addr + 3)%nat) as [b3|] eqn:E3; [|discriminate]. simpl. intros [= <-].
    apply Hb in E0, E1, E2, E3. rewrite (lor_shiftl b0 b1 8), (lor_shiftl _ b2 16), (lor_shiftl _ b3 24) by ulia. ulia.
Qed.

Lemma mem_write_typed m size addr v m' : is_bytes m → Mem.write m size addr v = Ok m' → is_bytes m'.
Proof.
  intros Hm. assert (H8 : ∀ z, is_u8 (Z.land z 0xff)).
  { intros z. rewrite land_255. unfold in_u. apply Z.mod_pos_bound. lia. }
  assert (Hw : ∀ z, is_u8 (u8w z)) by (intros; apply wrap_in_u; lia).
  unfold Mem.write, Mem.write_byte, Mem.write_half_word, Mem.write_word. intros H.
  repeat case_match; simplify_eq; auto 6 using Forall_insert.
Qed.

(** * Devices *)

Definition device_ok (d : Device) : Prop :=
  match d with
  | DevRam r => is_bytes (Ram.data r)
  | DevRom m => is_bytes m
  | DevPic => True
  end.

Section Typed.
Context {Event : Type}.

#[export] Instance device_typed : BusTyped (Bus0:=device_bus (Event:=Event)) device_ok.
Proof.
  split.
  - intros size addr [[r|m|] w] [Hd Hw]; (split; [done|]); intros v; simpl.
    + unfold Ram.read. do 2 (case_match; [discriminate|]). destruct (read_mem _ _ _) eqn:E; intros [= <-].
      exact (mem_read_typed _ _ _ _ Hd E).
    + unfold mem_bus. destruct (Mem.read _ _ _) eqn:E; intros [= <-]. exact (mem_read_typed _ _ _ _ Hd E).
    + apply pic_read_typed, Hw.
  - intros size addr val Hv [[r|m|] w] [Hd Hw]; (split; [|done]); simpl.
    + unfold Ram.write. destruct (write_mem _ _ _ _) eqn:E; try done. split; [|done].
      exact (mem_write_typed _ _ _ _ _ Hd E).
    + done.
    + destruct (pic_write _ _ _ _) as [p| |] eqn:E; try done. split; [done|]. apply set_pic_ok; [|done].
      eapply pic_write_typed; [apply Hw|done|done].
  - intros [[r|m|] w] Hd Hw; try done. split; [done|]. by apply pic_poll_typed.
  - done.
  - done.
  - done.
Qed.

(** * Dispatch *)

Section Dispatch.
Context {D : Type} `{!Bus D Event} (okd : D → Prop) `{!BusTyped okd}.

Definition bus_ok : DynamicBus D → Prop := Forall (λ d, okd (dev_bus d)).

Lemma on_dev_typed {A} i dev (m : MM BusError (D * Shared) A) Q b w :
  triple (λ s : D * Shared, okd s.1 ∧ shared_ok s.2) m Q → bus_ok b → shared_ok w → b !! i = Some dev →
  (bus_ok (on_dev i dev m (b, w)).2.1 ∧ shared_ok (on_dev i dev m (b, w)).2.2) ∧
  ∀ a, (on_dev i dev m (b, w)).1 = Ok a → Q a.
Proof.
  intros Hm Hb Hw Hi. destruct (Hm (dev_bus dev, w)) as [[H1 H2] H3].
  { split; [|done]. exact (Forall_lookup_1 _ _ _ _ Hb Hi). }
  unfold on_dev. destruct (m _) as [r [d w']]. split; [|done]. split; [|done]. by apply Forall_insert.
Qed.

#[export] Instance dynamic_typed : BusTyped bus_ok.
Proof.
  split.
  - intros size addr [b w] [Hb Hw]. simpl. unfold dyn_read. rewrite bind_get. simpl.
    destruct (list_find _ _) as [[i dev]|] eqn:E; [|done]. apply list_find_Some in E as (Hi & _).
    by apply on_dev_typed; [apply read_typed|..].
  - intros size addr val Hv [b w] [Hb Hw]. simpl. unfold dyn_write. rewrite bind_get. simpl.
    destruct (list_find _ _) as [[i dev]|] eqn:E; [|done]. apply list_find_Some in E as (Hi & _).
    by apply on_dev_typed; [apply write_typed|..].
  - intros [b w]. simpl. revert w. induction b as [|dev b IH]; intros w Hb Hw; simpl; [done|].
    apply Forall_cons in Hb as [Hd Hb]. destruct (poll_typed (dev_bus dev, w) Hd Hw) as [Hd' Hw'].
    destruct (bus_poll _) as [d w']. destruct (IH w' Hb Hw') as [Hb'' Hw'']. destruct (poll_devs b w') as [b' w''].
    split; [by constructor|done].
  - done.
  - done.
  - done.
Qed.

(** ** Attaching devices *)

(** Non-empty ranges in increasing order: no two devices share an address. *)
Definition devs_ok (b : DynamicBus D) : Prop :=
  Forall (λ d, mmap_start d ≤ mmap_end d) b ∧ StronglySorted (λ d e, mmap_end d < mmap_start e) b.

Lemma attach_pos_spec (dev : MappedDevice D) b n : devs_ok b → mmap_start dev ≤ mmap_end dev →
  match attach_pos dev b n with
  | Ok i => ∃ l1 l2, b = l1 ++ l2 ∧ i = (n + length l1)%nat ∧
      Forall (λ d, mmap_end d < mmap_start dev) l1 ∧ Forall (λ d, mmap_end dev < mmap_start d) l2
  | Err _ => ∃ d, d ∈ b ∧ overlaps dev d = true
  | Abort _ => False
  end.
Proof.
  intros [Hne Hs] Hdev. revert n Hne. induction Hs as [|cur b Hs IH Hall]; intros n Hne; simpl.
  { exists [], []. split_and!; [done|simpl; lia|constructor|constructor]. }
  apply Forall_cons in Hne as [Hc Hne]. destruct (overlaps dev cur) eqn:Ho; [exists cur; split; [left|done]|].
  unfold overlaps in Ho. apply andb_false_iff in Ho. rewrite !Z.leb_gt in Ho.
  destruct (Z.ltb_spec (mmap_start dev) (mmap_start cur)).
  - exists [], (cur :: b). split_and!; [done|simpl; lia|constructor|]. constructor; [lia|].
    rewrite Forall_forall in Hall. apply Forall_forall. intros d Hd. pose proof (Hall d Hd). lia.
  - specialize (IH (S n) Hne). destruct (attach_pos dev b (S n)) as [i| |]; [|destruct IH as (d & ? & ?); exists d; split; [by right|done]|done].
    destruct IH as (l1 & l2 & -> & -> & H1 & H2). exists (cur :: l1), l2. split_and!; [done|simpl; lia| |done].
    constructor; [lia|done].
Qed.

(** A device is attached where its range is free, and the ranges stay in order;
    otherwise it collides with a device that is there. *)
Lemma attach_dev_spec (dev : MappedDevice D) b : devs_ok b → mmap_start dev ≤ mmap_end dev →
  match attach_dev dev b with
  | Ok b' => devs_ok b' ∧ b' ≡ₚ dev :: b
  | Err _ => ∃ d, d ∈ b ∧ overlaps dev d = true
  | Abort _ => False
  end.
Proof.
  intros Hb Hdev. pose proof (attach_pos_spec dev b 0 Hb Hdev) as H. unfold attach_dev.
  destruct (attach_pos dev b 0) as [i| |]; [|done..]. destruct H as (l1 & l2 & -> & -> & H1 & H2). simpl.
  rewrite take_app_length, drop_app_length. destruct Hb as [Hne Hs]. split; [|by rewrite Permutation_middle].
  apply Forall_app in Hne as [Hn1 Hn2]. apply StronglySorted_app in Hs as (Hx & Hs1 & Hs2).
  split; [apply Forall_app; split; [done|by constructor]|]. apply StronglySorted_app. split_and!; [|done|by constructor].
  rewrite Forall_forall in H1. intros d e Hd [->|He]%elem_of_cons; [by apply H1|by apply Hx].
Qed.

End Dispatch.

(** * Region access control *)

Section Mrac.
Context {B : Type} `{!Bus B Event} (okb : B → Prop) `{!BusTyped okb}.

Lemma on_inner_typed {A} (m : MM BusError (B * Shared) A) Q :
  triple (λ s : B * Shared, okb s.1 ∧ shared_ok s.2) m Q →
  triple (λ s : MracBus B * Shared, okb (inner s.1) ∧ shared_ok s.2) (on_inner m) Q.
Proof.
  intros Hm [b w] [Hb Hw]. destruct (Hm (inner b, w)) as [[H1 H2] H3]; [done|].
  unfold on_inner. destruct (m _) as [r [i w']]. done.
Qed.

#[export] Instance mrac_typed : BusTyped (B:=MracBus B) (λ b, okb (inner b)).
Proof.
  assert (Hr : ∀ size addr, triple (λ s : MracBus B * Shared, okb (inner s.1) ∧ shared_ok s.2)
    (on_inner (bus_read size addr)) is_u32) by (intros; apply on_inner_typed, read_typed).
  assert (Ht : ∀ f : B * Shared → B * Shared, (∀ s, okb s.1 → shared_ok s.2 → okb (f s).1 ∧ shared_ok (f s).2) →
    ∀ s : MracBus B * Shared, okb (inner s.1) → shared_ok s.2 → okb (inner (through f s).1) ∧ shared_ok (through f s).2).
  { intros f Hf [b w] Hb Hw. specialize (Hf (inner b, w) Hb Hw). unfold through. by destruct (f _) as [i w']. }
  split; [| |apply Ht, poll_typed|apply Ht, warm_typed|apply Ht, update_typed|intros e; apply Ht, event_typed].
  - intros size addr. simpl. unfold mrac_bus_read. eapply triple_bind; [apply triple_get_any|]. intros [b w] _.
    case_match; [apply Hr|]. case_match; [eapply triple_bind; [apply triple_fail_if|intros; apply Hr]|].
    case_match; [|apply Hr]. unfold read_widened. destruct size; [..|apply triple_fail].
    all: cbv zeta; do 2 (eapply triple_bind; [apply Hr|intros ? _]).
    all: eapply (triple_bind _ _ _ anything); [case_match; tri|intros c _].
    all: apply triple_ret; by apply land_u32_r.
  - intros size addr val Hv. simpl. unfold mrac_bus_write. eapply triple_bind; [apply triple_get_any|].
    intros [b w] _. tri; by apply on_inner_typed, write_typed.
Qed.
End Mrac.
End Typed.
