(* ===== verification/RvPmp.v ===== *)
(** Physical memory protection: the entries as a reference (the address range of
    each, the first entry that matches, what it permits), and that the
    emulator's matching and checking decide as the reference does. *)

From stdpp Require Import gmap.
From S2P Require Import Prelude Bits Memory RvTypes RvDecompress RvAlu Clock Pic RvCsr RvCpu.
From S2P Require Import RvIsa RvAluProofs RvIsaProofs RvInvariants RvMachine.

(** * Entries *)

(** The configuration byte and the address register of an entry. *)
Definition entry_cfg (f : CsrFile) (i : Z) : Z := fget (8 * (i mod 4)) 8 (cval f (PMPCFG_START + i / 4)).
Definition entry_addr (f : CsrFile) (i : Z) : Z := cval f (PMPADDR_START + i).

(** The range of a naturally aligned region: [k] trailing ones stand for
    [2 ^ (k + 3)] bytes. *)
Definition napot_range (a : Z) : Z * Z :=
  let k := leading_false (negb <$> bits32 a) in
  let size := 2 ^ (k + 3) in
  (a / 2 ^ (k + 1) * size, a / 2 ^ (k + 1) * size + size).

(** First and last (exclusive) byte that an entry is about. *)
Definition entry_range (f : CsrFile) (i : Z) : Z * Z :=
  let a := entry_addr f i in
  match fget 3 2 (entry_cfg f i) with
  | 0 => (0, 0)
  | 1 => (if i =? 0 then 0 else 4 * entry_addr f (i - 1), 4 * a)
  | 2 => (4 * a, 4 * a + 4)
  | _ => napot_range a
  end.

Definition entry_matches (f : CsrFile) (addr i : Z) : bool :=
  ((entry_range f i).1 <=? addr) && (addr <? (entry_range f i).2).

(** The configuration of the first entry that matches. *)
Fixpoint first_match (f : CsrFile) (addr : Z) (l : list Z) : option Z :=
  match l with
  | [] => None
  | i :: l => if entry_matches f addr i then Some (entry_cfg f i) else first_match f addr l
  end.
Definition pmp_lookup (f : CsrFile) (addr : Z) : option Z := first_match f addr (seqZ 0 PMPCOUNT).

(** The entries of the registers up to the one that the emulator takes for the
    highest in use, and the first of these that matches. *)
Definition consulted (f : CsrFile) : list Z :=
  match max_pmpcfgi f with None => [] | Some m => seqZ 0 (4 * (m + 1)) end.
Definition pmp_entry (f : CsrFile) (addr : Z) : option Z := first_match f addr (consulted f).

(** The registers above the one that the emulator takes for the highest in use
    are not in use. *)
Record pmp_ok (f : CsrFile) : Prop := {
  pmp_max : match max_pmpcfgi f with None => True | Some m => 0 ≤ m < 16 end;
  pmp_unused i : 0 ≤ i < 16 → match max_pmpcfgi f with None => True | Some m => m < i end →
    cval f (PMPCFG_START + i) = 0
}.

(** * Matching *)

Lemma shiftl_pow a n : 0 ≤ n → Z.shiftl a n = a * 2 ^ n.
Proof. intros. by apply Z.shiftl_mul_pow2. Qed.

Lemma trailing_ones_eq a : trailing_ones a = leading_false (negb <$> bits32 a).
Proof.
  unfold trailing_ones, trailing_zeros. rewrite (trailing_zeros_eq 32). f_equal. unfold bits32. rewrite <-list_fmap_compose.
  apply list_fmap_ext. intros j i Hi. apply lookup_seqZ in Hi as [-> Hi]. simpl.
  rewrite not_u32_bit by lia. destruct (Z.ltb_spec (0 + Z.of_nat j) 32); [done|lia].
Qed.

Lemma leading_false_spec l : 0 ≤ leading_false l ≤ Z.of_nat (length l) ∧
  (l !! Z.to_nat (leading_false l) = Some true ∨ leading_false l = Z.of_nat (length l)).
Proof.
  induction l as [|b l [IH1 IH2]]; [split; [done|by right]|].
  destruct b; simpl leading_false; [split; [simpl; lia|by left]|].
  split; [simpl length; lia|]. destruct IH2 as [IH2|IH2]; [left|right; simpl length; lia].
  by replace (Z.to_nat (1 + leading_false l)) with (S (Z.to_nat (leading_false l))) by lia.
Qed.

Lemma trailing_ones_bit a : is_u32 a → let k := leading_false (negb <$> bits32 a) in
  0 ≤ k ≤ 32 ∧ Z.testbit a k = false.
Proof.
  intros Ha. pose proof (leading_false_spec (negb <$> bits32 a)) as [Hk Hb]. set (k := leading_false _) in *.
  assert (Hl : length (negb <$> bits32 a) = 32%nat) by (unfold bits32; by rewrite !length_fmap, length_seqZ).
  rewrite Hl in *. split; [lia|]. destruct Hb as [Hb|Hb]; [|apply u32_high_bits; [done|lia]].
  rewrite list_lookup_fmap in Hb. destruct (bits32 a !! Z.to_nat k) as [b|] eqn:E; [|done].
  unfold bits32 in E. rewrite list_lookup_fmap in E. destruct (seqZ 0 32 !! Z.to_nat k) eqn:E'; [|done].
  apply lookup_seqZ in E' as [-> _]. simpl in E, Hb. injection E as <-. injection Hb as Hb.
  replace (0 + Z.of_nat (Z.to_nat k)) with k in Hb by lia. by destruct (Z.testbit a k).
Qed.

Lemma decode_napot_eq a : is_u32 a → decode_napot_pmpaddr a = napot_range a.
Proof.
  intros Ha. unfold decode_napot_pmpaddr, napot_range. rewrite trailing_ones_eq.
  destruct (trailing_ones_bit a Ha) as [Hk Hb]. set (k := leading_false _) in *.
  rewrite !shiftl_pow, !Z.mul_1_l by lia.
  assert (E : Z.ldiff a (2 ^ k - 1) = a / 2 ^ (k + 1) * 2 ^ (k + 1)).
  { replace (2 ^ k - 1) with (Z.ones k) by (rewrite Z.ones_equiv; lia). apply Z.bits_inj'. intros i Hi.
    rewrite Z.ldiff_spec, ones_bit, Z.mul_pow2_bits by lia. destruct (Z.ltb_spec i k).
    - rewrite andb_false_r, Z.testbit_neg_r by lia. done.
    - rewrite andb_true_r. destruct (decide (i = k)) as [->|]; [by rewrite Hb, Z.testbit_neg_r by lia|].
      rewrite Z.div_pow2_bits by lia. f_equal. lia. }
  rewrite E. replace (k + 3) with (k + 1 + 2) by lia. rewrite (Z.pow_add_r 2 (k + 1) 2) by lia.
  f_equal; lia.
Qed.

Lemma addr_mode_cases cfg :
  RvPmpiCfg.addr_mode cfg = match fget 3 2 cfg with
                            | 0 => RvPmpAddrMode.Off | 1 => RvPmpAddrMode.Tor | 2 => RvPmpAddrMode.Na4
                            | _ => RvPmpAddrMode.Napot end.
Proof.
  unfold RvPmpiCfg.addr_mode. pose proof (fget_range 3 2 cfg ltac:(lia)) as H.
  assert (E : fget 3 2 cfg = 0 ∨ fget 3 2 cfg = 1 ∨ fget 3 2 cfg = 2 ∨ fget 3 2 cfg = 3) by lia.
  by destruct E as [->|[->|[->| ->]]].
Qed.

Section Match.
Context (f : CsrFile) (Hf : csrs_ok f) (addr : Z).

Lemma pmp_match_one_eq i : 0 ≤ i → pmp_match_one_addr f (entry_cfg f i) i addr = Ok (entry_matches f addr i).
Proof.
  intros Hi. unfold pmp_match_one_addr, entry_matches, entry_range. rewrite addr_mode_cases. unfold entry_addr.
  pose proof (fget_range 3 2 (entry_cfg f i) ltac:(lia)) as H.
  assert (E : fget 3 2 (entry_cfg f i) = 0 ∨ fget 3 2 (entry_cfg f i) = 1 ∨ fget 3 2 (entry_cfg f i) = 2 ∨
    fget 3 2 (entry_cfg f i) = 3) by lia.
  destruct E as [->|[->|[->| ->]]]; cbv beta iota; rewrite ?shiftl_pow by lia; cbn [fst snd].
  - f_equal. symmetry. apply andb_false_iff. destruct (Z.leb_spec 0 addr); [right; apply Z.ltb_ge; lia|by left].
  - do 2 f_equal; [|f_equal; lia]. destruct (Z.ltb_spec 0 i), (Z.eqb_spec i 0); try lia; f_equal; lia.
  - do 3 f_equal; lia.
  - rewrite decode_napot_eq by (by apply cval_u32). by destruct (napot_range _).
Qed.

Lemma entry_cfg_packed i k : 0 ≤ k < 4 → entry_cfg f (i * 4 + k) = fget (8 * k) 8 (cval f (PMPCFG_START + i)).
Proof.
  intros Hk. unfold entry_cfg. rewrite Z.add_comm, Z_mod_plus_full, Z.mod_small by lia.
  by rewrite Z.div_add, (Z.div_small k 4), Z.add_0_l by lia.
Qed.

Definition entries (i : Z) : list Z := [i * 4; i * 4 + 1; i * 4 + 2; i * 4 + 3].

Lemma pmp_match_packed_eq i : 0 ≤ i → pmp_match_packed f addr i = Ok (first_match f addr (entries i)).
Proof.
  intros Hi. unfold pmp_match_packed, RvPmpCfgi.r1, RvPmpCfgi.r2, RvPmpCfgi.r3, RvPmpCfgi.r4. cbv zeta.
  pose proof (entry_cfg_packed i 0 ltac:(lia)) as E0. pose proof (entry_cfg_packed i 1 ltac:(lia)) as E1.
  pose proof (entry_cfg_packed i 2 ltac:(lia)) as E2. pose proof (entry_cfg_packed i 3 ltac:(lia)) as E3.
  change (8 * 0) with 0 in E0. change (8 * 1) with 8 in E1. change (8 * 2) with 16 in E2. change (8 * 3) with 24 in E3.
  rewrite <-E0, <-E1, <-E2, <-E3.
  rewrite (Z.add_0_r (i * 4)), !pmp_match_one_eq by lia. unfold entries. simpl.
  destruct (entry_matches f addr (i * 4)); [done|]. simpl. destruct (entry_matches f addr (i * 4 + 1)); [done|].
  simpl. destruct (entry_matches f addr (i * 4 + 2)); [done|]. simpl. by destruct (entry_matches f addr (i * 4 + 3)).
Qed.

Lemma first_match_app l1 l2 :
  first_match f addr (l1 ++ l2) =
  match first_match f addr l1 with Some c => Some c | None => first_match f addr l2 end.
Proof. induction l1 as [|i l1 IH]; simpl; [done|]. by destruct (entry_matches f addr i). Qed.

Lemma pmp_match_loop_eq regs : Forall (λ i, 0 ≤ i) regs →
  pmp_match_loop f addr regs = Ok (first_match f addr (flat_map entries regs)).
Proof.
  induction 1 as [|i regs Hi Hr IH]; [done|]. cbn [pmp_match_loop flat_map].
  rewrite pmp_match_packed_eq, first_match_app by done.
  destruct (first_match f addr (entries i)); [done|exact IH].
Qed.

Lemma unused_no_match regs : Forall (λ i, cval f (PMPCFG_START + i) = 0) regs →
  first_match f addr (flat_map entries regs) = None.
Proof.
  induction 1 as [|i regs Hi Hr IH]; [done|]. cbn [flat_map]. rewrite first_match_app, IH.
  assert (Hz : ∀ k, 0 ≤ k < 4 → entry_matches f addr (i * 4 + k) = false).
  { intros k Hk. unfold entry_matches, entry_range. rewrite entry_cfg_packed, Hi by done.
    rewrite !fget_zero by lia. cbn [fst snd]. apply andb_false_iff.
    destruct (Z.leb_spec 0 addr); [right; apply Z.ltb_ge; lia|by left]. }
  pose proof (Hz 0 ltac:(lia)) as H0. rewrite Z.add_0_r in H0. unfold entries. simpl.
  by rewrite H0, !Hz by lia.
Qed.

Lemma entries_upto n : 0 ≤ n → flat_map entries (seqZ 0 n) = seqZ 0 (4 * n).
Proof.
  intros Hn. rewrite <-(Z2Nat.id n) by done. induction (Z.to_nat n) as [|k IH]; [done|].
  rewrite Nat2Z.inj_succ, <-Z.add_1_r, (seqZ_app 0 (Z.of_nat k) 1), flat_map_app, IH by lia.
  rewrite Z.mul_add_distr_l, (seqZ_app 0 (4 * Z.of_nat k) (4 * 1)) by lia. f_equal.
  unfold seqZ, entries. change (Z.to_nat 1) with 1%nat. change (Z.to_nat (4 * 1)) with 4%nat. cbn [seq fmap list_fmap flat_map app].
  repeat (apply f_equal2; [lia|]). done.
Qed.

(** The emulator finds the first entry of the registers it consults. *)
Lemma pmp_match_addr_eq : pmp_match_addr f addr = Ok (pmp_entry f addr).
Proof.
  unfold pmp_match_addr, pmp_entry, consulted. pose proof (ok_max _ Hf) as Hm. destruct (max_pmpcfgi f) as [m|]; [|done].
  rewrite pmp_match_loop_eq by (apply Forall_forall; intros i Hi%elem_of_seqZ; lia). by rewrite entries_upto by lia.
Qed.

(** These are all of them while the bookkeeping is right. *)
Lemma first_match_unused a b : 0 ≤ a ≤ b → (∀ i, a ≤ i < b → cval f (PMPCFG_START + i) = 0) →
  first_match f addr (seqZ 0 (4 * b)) = first_match f addr (seqZ 0 (4 * a)).
Proof.
  intros Hab Hu. replace b with (a + (b - a)) by lia. rewrite <-!entries_upto, seqZ_app, flat_map_app, first_match_app by lia.
  rewrite (unused_no_match (seqZ (0 + a) _)); [by destruct (first_match _ _ _)|].
  apply Forall_forall. intros i Hi%elem_of_seqZ. apply Hu. lia.
Qed.

Lemma pmp_entry_lookup : pmp_ok f → pmp_entry f addr = pmp_lookup f addr.
Proof.
  intros [Hm Hu]. unfold pmp_entry, consulted, pmp_lookup. destruct (max_pmpcfgi f) as [m|]; symmetry.
  - apply (first_match_unused (m + 1) 16); [lia|]. intros i Hi. apply Hu; lia.
  - apply (first_match_unused 0 16); [lia|]. intros i Hi. by apply Hu.
Qed.

End Match.

(** * Permissions *)

Definition permits (access : RvMemAccessType.t) (r w x : bool) : bool :=
  match access with
  | RvMemAccessType.Read => r
  | RvMemAccessType.Write => w
  | RvMemAccessType.Execute => x
  | RvMemAccessType.Invalid => false
  end.

(** The standard rules: machine mode is bound by locked entries only. *)
Definition classic_permits (machine l r w x : bool) (access : RvMemAccessType.t) : bool :=
  permits access r w x || (machine && negb l).

(** The enhanced rules (Smepmp): an entry is for machine mode or for user mode by
    its lock bit, except for the regions that both share: writable but not
    readable, or locked with all permissions. *)
Definition enhanced_permits (machine l r w x : bool) (access : RvMemAccessType.t) : bool :=
  if negb r && w then
    if l then permits access (machine && x) false true else permits access true (machine || x) false
  else if l && r && w && x then permits access true false false
  else eqb l machine && permits access r w x.

(** The decision on an access: without an entry machine mode is denied under the
    allow-list policy, and user mode is not denied. *)
Definition pmp_permits (machine mml mmwp : bool) (entry : option Z) (access : RvMemAccessType.t) : bool :=
  match entry with
  | Some cfg =>
      (if mml then enhanced_permits else classic_permits)
        machine (Z.testbit cfg 7) (Z.testbit cfg 0) (Z.testbit cfg 1) (Z.testbit cfg 2) access
  | None => negb (machine && mmwp)
  end.

Definition fault (access : RvMemAccessType.t) (addr : Z) : RvException.t :=
  match access with
  | RvMemAccessType.Write => RvException.store_access_fault addr
  | RvMemAccessType.Execute => RvException.instr_access_fault addr
  | _ => RvException.load_access_fault addr
  end.

Lemma fget_one o r : 0 ≤ o → fget o 1 r = Z.b2z (Z.testbit r o).
Proof.
  intros Ho. apply Z.bits_inj'. intros i Hi. rewrite fget_bit by lia.
  destruct (decide (i = 0)) as [->|]; [by rewrite Z.b2z_bit0|].
  destruct (Z.ltb_spec i 1); [lia|]. symmetry. simpl. destruct (Z.testbit r o); [|apply Z.bits_0].
  apply (Z.bits_above_log2 1 i); simpl; lia.
Qed.

Lemma allowed_mask_eq (mode : RvPrivMode.t) (l r w x : bool) access : mode ≠ RvPrivMode.Invalid → access ≠ RvMemAccessType.Invalid →
  ∃ allowed, allowed_mask mode (Z.lor (Z.lor (Z.lor (Z.land (Z.b2z x) 1) (Z.shiftl (Z.land (Z.b2z w) 1) 1))
      (Z.shiftl (Z.land (Z.b2z r) 1) 2)) (Z.shiftl (Z.land (Z.b2z l) 1) 3)) = Ok allowed ∧
    negb (Z.land (RvMemAccessType.into access) allowed =? RvMemAccessType.into access) =
    negb (enhanced_permits (bool_decide (mode = RvPrivMode.M)) l r w x access).
Proof.
  intros Hm Ha. destruct mode; [| |done]; destruct access; try done; destruct l, r, w, x; eexists;
    (split; [vm_compute; reflexivity|vm_compute; reflexivity]).
Qed.

Section Check.
Context {B Event : Type}.
Implicit Types s : @Cpu B Event.

(** Whether an access runs with machine privileges: loads and stores take those
    of the previous mode while the status register says so. *)
Definition as_machine s (access : RvMemAccessType.t) : bool :=
  let st := cval (cpu_csrs s) MSTATUS in
  if Z.testbit st 17 && negb (bool_decide (access = RvMemAccessType.Execute))
  then fget 11 2 st =? 3 else bool_decide (priv_mode s = RvPrivMode.M).

Definition access_permitted s (access : RvMemAccessType.t) (addr : Z) : bool :=
  let cfg := cval (cpu_csrs s) MSECCFG in
  pmp_permits (as_machine s access) (Z.testbit cfg 0) (Z.testbit cfg 1) (pmp_entry (cpu_csrs s) addr) access.

Record pmp_state_ok s : Prop := {
  ps_csrs : csrs_ok (cpu_csrs s);
  ps_mode : priv_mode s ≠ RvPrivMode.Invalid
}.

Lemma effective_mode_eq s access : pmp_state_ok s → access ≠ RvMemAccessType.Invalid →
  effective_mode (cval (cpu_csrs s) MSTATUS) access (priv_mode s) ≠ RvPrivMode.Invalid ∧
  bool_decide (effective_mode (cval (cpu_csrs s) MSTATUS) access (priv_mode s) = RvPrivMode.M) = as_machine s access.
Proof.
  intros [Hf Hm] Ha. unfold effective_mode, as_machine, RvMStatus.mprv. rewrite fget_one by lia.
  pose proof (ok_mpp _ Hf) as Hp. unfold RvMStatus.mpp in *. set (st := cval _ _) in *.
  destruct (Z.testbit st 17); [|done]. simpl negb. rewrite andb_true_l.
  destruct access; try done; simpl; (split; [done|]).
  all: pose proof (fget_range 11 2 st ltac:(lia)) as Hr.
  all: assert (E : fget 11 2 st = 0 ∨ fget 11 2 st = 1 ∨ fget 11 2 st = 2 ∨ fget 11 2 st = 3) by lia.
  all: by destruct E as [->|[->|[->| ->]]].
Qed.

Lemma machine_read_status s addr : addr = MSTATUS ∨ addr = MSECCFG →
  csr_read RvPrivMode.M addr (cpu_csrs s) (shared s) = Ok (cval (cpu_csrs s) addr).
Proof. by intros [-> | ->]. Qed.

Lemma deny_if_eq access addr b s : access ≠ RvMemAccessType.Invalid →
  deny_if access addr b s = (if b then Err (fault access addr) else Ok tt, s).
Proof. intros Ha. by destruct b, access. Qed.

Lemma check_mem_priv_addr_eq s access addr : pmp_state_ok s → access ≠ RvMemAccessType.Invalid →
  check_mem_priv_addr addr access s =
  (if access_permitted s access addr then Ok tt else Err (fault access addr), s).
Proof.
  intros Hs Ha. pose proof (effective_mode_eq s access Hs Ha) as [Hm Hmach]. destruct Hs as [Hf _].
  unfold check_mem_priv_addr, read_csr_machine, read_csr_as.
  rewrite (bind_ok _ _ _ (cval (cpu_csrs s) MSTATUS) s) by (by rewrite machine_read_status by auto).
  rewrite bind_get. rewrite (bind_ok _ _ _ (cval (cpu_csrs s) MSECCFG) s) by (by rewrite machine_read_status by auto).
  rewrite bind_get, (pmp_match_addr_eq _ Hf addr), (bind_lift_ok _ (pmp_entry (cpu_csrs s) addr)) by done.
  unfold access_permitted, pmp_permits. rewrite <-Hmach. set (mode := effective_mode _ _ _) in *.
  unfold RvMsecCfg.mml, RvMsecCfg.mmwp, RvPmpiCfg.execute, RvPmpiCfg.write, RvPmpiCfg.read, RvPmpiCfg.lock.
  destruct (pmp_entry (cpu_csrs s) addr) as [cfg|].
  - rewrite !fget_one by lia. destruct (Z.testbit (cval _ MSECCFG) 0); cbn [Z.b2z Z.eqb negb]; cbv iota zeta.
    + destruct (allowed_mask_eq mode (Z.testbit cfg 7) (Z.testbit cfg 0) (Z.testbit cfg 1) (Z.testbit cfg 2) access Hm Ha)
        as (allowed & E & E').
      rewrite E, (bind_lift_ok _ allowed) by done. rewrite E', deny_if_eq by done. by destruct (enhanced_permits _ _ _ _ _ _).
    + unfold access_bit, RvPmpiCfg.execute, RvPmpiCfg.write, RvPmpiCfg.read. rewrite !fget_one by lia.
      destruct access; try done; rewrite (bind_lift_ok _ _) by done; rewrite deny_if_eq by done; unfold classic_permits;
        destruct mode, (Z.testbit cfg 7), (Z.testbit cfg 0), (Z.testbit cfg 1), (Z.testbit cfg 2); done.
  - rewrite deny_if_eq, fget_one by (done || lia). destruct (Z.testbit _ 1); by destruct mode.
Qed.

(** The bytes of an access that are checked: the first, and all of a word that is
    not aligned. *)
Definition checked_bytes (size : RvSize) (addr : Z) : list Z :=
  match size with
  | Word => if addr mod 4 =? 0 then [addr] else [addr; addr + 1; addr + 2; addr + 3]
  | _ => [addr]
  end.

Fixpoint first_denied s (access : RvMemAccessType.t) (l : list Z) : option Z :=
  match l with
  | [] => None
  | a :: l => if access_permitted s access a then first_denied s access l else Some a
  end.

Definition verdict_of s (access : RvMemAccessType.t) (size : RvSize) (addr : Z) : result RvException.t unit :=
  match first_denied s access (checked_bytes size addr) with
  | None => Ok tt
  | Some a => Err (fault access a)
  end.

Lemma check_bytes_eq s access addr l : pmp_state_ok s → access ≠ RvMemAccessType.Invalid →
  Forall (λ i, addr + i < 2 ^ 32) l →
  check_mem_priv_bytes addr access l s =
  (match first_denied s access (Z.add addr <$> l) with None => Ok tt | Some a => Err (fault access a) end, s).
Proof.
  intros Hs Ha. induction 1 as [|i l Hi Hl IH]; [done|]. cbn [check_mem_priv_bytes fmap list_fmap first_denied].
  rewrite (bind_lift_ok _ (addr + i)).
  2: { unfold checked_add_u32. by rewrite (proj2 (Z.ltb_lt _ _)). }
  unfold mbind, M_bind. rewrite check_mem_priv_addr_eq by done.
  destruct (access_permitted s access (addr + i)); [exact IH|done].
Qed.

Lemma check_mem_priv_eq s access size addr : pmp_state_ok s → access ≠ RvMemAccessType.Invalid → 0 ≤ addr →
  Forall (λ a, a < 2 ^ 32) (checked_bytes size addr) →
  check_mem_priv addr size access s = (verdict_of s access size addr, s).
Proof.
  intros Hs Ha Hz Hb. unfold check_mem_priv, mbind, M_bind, verdict_of. rewrite check_mem_priv_addr_eq by done.
  assert (E3 : Z.land addr 3 = addr mod 4) by (apply (Z.land_ones addr 2); lia). rewrite E3.
  destruct size; cbn [checked_bytes first_denied] in *; try by destruct (access_permitted s access addr).
  destruct (addr mod 4 =? 0); cbn [first_denied] in *; [by destruct (access_permitted s access addr)|].
  destruct (access_permitted s access addr); [|done].
  rewrite check_bytes_eq; [done..|]. repeat (apply Forall_cons in Hb as [? Hb]). by repeat constructor.
Qed.

Lemma watch_permitted kind addr s access size a :
  pmp_state_ok s → pmp_state_ok (watch kind addr s) ∧ verdict_of (watch kind addr s) access size a = verdict_of s access size a.
Proof.
  intros [Hf Hm]. unfold watch. destruct (is_execute_instr s); [|done]. split; [by constructor|].
  unfold verdict_of. assert (E : ∀ h l, first_denied (set_hit h s) access l = first_denied s access l); [|by rewrite E].
  intros h l. induction l as [|b l IH]; [done|]. cbn [first_denied]. by rewrite IH.
Qed.

Context `{!Bus B Event}.

(** An access that is not denied goes to the bus; one that is denied does not. *)
Definition guarded {A} s s1 (access : RvMemAccessType.t) (size : RvSize) (addr : Z)
    (m : MM RvException.t (@Cpu B Event) A) : result RvException.t A * @Cpu B Event :=
  match verdict_of s access size addr with
  | Ok _ => m s1
  | Err e => (Err e, s1)
  | Abort w => (Abort w, s1)
  end.

Lemma read_bus_eq s size addr : pmp_state_ok s → 0 ≤ addr → Forall (λ a, a < 2 ^ 32) (checked_bytes size addr) →
  read_bus size addr s =
  guarded s (watch WatchRead addr s) RvMemAccessType.Read size addr (on_bus (bus_exception addr) (bus_read size addr)).
Proof.
  intros Hs Hz Hb. unfold read_bus. rewrite bind_modify.
  destruct (watch_permitted WatchRead addr s RvMemAccessType.Read size addr Hs) as [Hs' E].
  unfold mbind, M_bind, guarded. rewrite check_mem_priv_eq, E by done. by destruct (verdict_of _ _ _ _).
Qed.

Lemma write_bus_eq s size addr v : pmp_state_ok s → 0 ≤ addr → Forall (λ a, a < 2 ^ 32) (checked_bytes size addr) →
  write_bus size addr v s =
  guarded s (watch WatchWrite addr s) RvMemAccessType.Write size addr
    (on_bus (bus_exception addr) (bus_write size addr v)).
Proof.
  intros Hs Hz Hb. unfold write_bus. rewrite bind_modify.
  destruct (watch_permitted WatchWrite addr s RvMemAccessType.Write size addr Hs) as [Hs' E].
  unfold mbind, M_bind, guarded. rewrite check_mem_priv_eq, E by done. by destruct (verdict_of _ _ _ _).
Qed.

Lemma read_instr_eq s size addr : pmp_state_ok s → 0 ≤ addr → Forall (λ a, a < 2 ^ 32) (checked_bytes size addr) →
  read_instr size addr s = guarded s s RvMemAccessType.Execute size addr (fetch_bytes size addr).
Proof.
  intros Hs Hz Hb. unfold read_instr, mbind, M_bind, guarded. rewrite check_mem_priv_eq by done.
  by destruct (verdict_of _ _ _ _).
Qed.

End Check.
