(* ===== verification/RvLocks.v ===== *)
(** Locked protection entries: no write to a status register, in any mode,
    changes the configuration or the addresses of a locked entry; and how the
    emulator's bookkeeping of the registers in use goes wrong when a register
    holds a locked entry. *)

From stdpp Require Import gmap.
From S2P Require Import Prelude Bits Memory RvTypes RvAlu Clock Pic RvCsr RvCpu RvIsa.
From S2P Require Import RvAluProofs RvIsaProofs RvInvariants RvMachine RvPmp.

(** * What a write changes *)

Section Frame.
Context (addr : Z) (f0 : CsrFile).

(** All registers but [addr] and the status register are as in [f0], and so is
    the mark of the protection registers in use. *)
Definition framed (s : CsrFile * Shared) : Prop :=
  (∀ a, a ≠ addr → a ≠ MSTATUS → csr s.1 a = csr f0 a) ∧
  ((csr_fn addr).2 ≠ PmpcfgWrite → max_pmpcfgi s.1 = max_pmpcfgi f0).

Lemma any_write_framed a v : a = addr ∨ a = MSTATUS → triple framed (any_write a v) anything.
Proof.
  intros Ha. apply triple_modify. intros [f w] [Hc Hm]. split; [|done]. intros b Hb1 Hb2. simpl.
  rewrite masked_write_lookup, decide_False by (by destruct Ha as [-> | ->]). by apply Hc.
Qed.

Lemma schedule_framed ticks a : triple framed (schedule ticks a) anything.
Proof. intros [f w] Hs. unfold schedule. by destruct (schedule_action_in _ _ _). Qed.

Lemma on_timer_framed m : triple framed (on_timer0 m) anything ∧ triple framed (on_timer1 m) anything.
Proof. split; intros [f w] Hs; unfold on_timer0, on_timer1; destruct (m _) as [r [t c]]; done. Qed.

Lemma system_write_framed mode a v : a = addr ∨ a = MSTATUS → triple framed (system_write mode a v) anything.
Proof. intros Ha. unfold system_write. tri. by apply any_write_framed. Qed.

Lemma read_framed a : triple framed (read_csr_val a) anything.
Proof. apply triple_get_any. Qed.

Lemma mstatus_write_framed mode a v : a = addr ∨ a = MSTATUS → triple framed (mstatus_write mode a v) anything.
Proof.
  intros Ha. unfold mstatus_write. tri_step; [apply read_framed|]. tri_step; [by apply system_write_framed|].
  tri_step; [apply read_framed|]. tri_step; apply schedule_framed.
Qed.

#[local] Hint Resolve any_write_framed schedule_framed system_write_framed read_framed mstatus_write_framed : rv_triple.
#[local] Hint Extern 1 (_ = _ ∨ _ = MSTATUS) => (by left) || (by right) : rv_triple.

Lemma mpmc_write_framed mode v : triple framed (mpmc_write mode addr v) anything.
Proof. unfold mpmc_write. tri. Qed.

Lemma pmpcfg_write_framed mode v : (csr_fn addr).2 = PmpcfgWrite → triple framed (pmpcfg_write mode addr v) anything.
Proof.
  intros Hfn. unfold pmpcfg_write, machine_only. tri_step; [tri|]. tri_step; [apply triple_get_any|].
  tri_step; [apply triple_lift_any|]. cbv zeta. destruct (pmpcfg_entry RvPmpCfgi.r4 _ _ _) as [r [b|]]; [|by apply triple_ret].
  tri_step; [|tri]. apply triple_modify. intros [f w] [Hc Hm]. by split.
Qed.

Lemma csr_write_framed mode v : triple framed (csr_write mode addr v) anything.
Proof.
  unfold csr_write. case_match; [apply triple_fail|].
  destruct (csr_fn addr).2 eqn:E; unfold mie_write, mrac_write, mseccfg_write, meivt_write, mip_write, machine_only,
    mitcnt_write, mitb_write, mitctl_write, pmpaddr_write, machine_only; auto using mpmc_write_framed, pmpcfg_write_framed;
    tri; try done; try apply on_timer_framed.
  apply triple_modify. by intros [f w] Hs.
Qed.

End Frame.

(** * Locked entries *)

Definition locked (f : CsrFile) (i : Z) : Prop := Z.testbit (entry_cfg f i) 7 = true.
Definition top_of_range (f : CsrFile) (i : Z) : Prop := fget 3 2 (entry_cfg f i) = 1.

#[export] Instance csr_write_fn_eq_dec : EqDecision csr_write_fn.
Proof. solve_decision. Defined.

(** All registers of a block have the handler [w]. *)
Lemma csr_fn_block first n w : forallb (λ j, bool_decide ((csr_fn (first + j)).2 = w)) (seqZ 0 n) = true →
  ∀ j, 0 ≤ j < n → (csr_fn (first + j)).2 = w.
Proof.
  intros H j Hj. rewrite forallb_forall in H. eapply bool_decide_eq_true_1, H, list_elem_of_In, elem_of_seqZ. lia.
Qed.

Lemma csr_fn_pmpcfg j : 0 ≤ j < 16 → (csr_fn (PMPCFG_START + j)).2 = PmpcfgWrite.
Proof. apply csr_fn_block. vm_compute. reflexivity. Qed.

Lemma csr_fn_pmpaddr i : 0 ≤ i < 64 → (csr_fn (PMPADDR_START + i)).2 = PmpaddrWrite.
Proof. apply csr_fn_block. vm_compute. reflexivity. Qed.

Lemma read_pmpicfg_eq f i : read_pmpicfg f i = entry_cfg f i.
Proof.
  unfold read_pmpicfg, entry_cfg, pmp_packed, RvPmpCfgi.r1, RvPmpCfgi.r2, RvPmpCfgi.r3, RvPmpCfgi.r4.
  rewrite (Z.add_comm (i / 4)). pose proof (Z.mod_pos_bound i 4 ltac:(lia)) as H.
  assert (E : i mod 4 = 0 ∨ i mod 4 = 1 ∨ i mod 4 = 2 ∨ i mod 4 = 3) by lia.
  by destruct E as [->|[->|[->| ->]]].
Qed.

Lemma lock_eq cfg : negb (RvPmpiCfg.lock cfg =? 0) = Z.testbit cfg 7.
Proof. unfold RvPmpiCfg.lock. rewrite fget_one by lia. by destruct (Z.testbit cfg 7). Qed.

(** ** Configuration *)

(** What the write of one entry leaves of byte [k]. *)
Lemma pmpcfg_entry_byte j k v r b : 0 ≤ j < 4 → 0 ≤ k < 4 →
  fget (8 * k) 8 (pmpcfg_entry (fget (8 * j) 8) (fset (8 * j) 8) v (r, b)).1 =
  if (j =? k) && negb (Z.testbit (fget (8 * k) 8 r) 7) then Z.land v 255 else fget (8 * k) 8 r.
Proof.
  intros Hj Hk. unfold pmpcfg_entry. rewrite <-(lock_eq (fget (8 * k) 8 r)).
  destruct (Z.eqb_spec j k) as [->|Hne].
  - destruct (RvPmpiCfg.lock _ =? 0); [|done]. simpl. by rewrite fget_fset_same by lia.
  - destruct (RvPmpiCfg.lock _ =? 0); simpl; [|done]. rewrite fget_fset_other by lia. done.
Qed.

(** The register after the four entries, before the mask. *)
Definition pmpcfg_merged (val r : Z) : Z * option bool :=
  let acc := (r, None) in
  let acc := pmpcfg_entry RvPmpCfgi.r1 RvPmpCfgi.set_r1 (Z.land val 0xFF) acc in
  let acc := pmpcfg_entry RvPmpCfgi.r2 RvPmpCfgi.set_r2 (Z.land (Z.shiftr val 8) 0xFF) acc in
  let acc := pmpcfg_entry RvPmpCfgi.r3 RvPmpCfgi.set_r3 (Z.land (Z.shiftr val 16) 0xFF) acc in
  pmpcfg_entry RvPmpCfgi.r4 RvPmpCfgi.set_r4 (Z.land (Z.shiftr val 24) 0xFF) acc.

Definition merge_entry (val : Z) (acc : Z * option bool) (j : Z) : Z * option bool :=
  pmpcfg_entry (fget (8 * j) 8) (fset (8 * j) 8) (fget (8 * j) 8 val) acc.

Lemma pmpcfg_merged_fold val r : pmpcfg_merged val r = foldl (merge_entry val) (r, None) [0; 1; 2; 3].
Proof. reflexivity. Qed.

Lemma merge_entry_byte val l r b k : NoDup l → Forall (λ j, 0 ≤ j < 4) l → 0 ≤ k < 4 →
  fget (8 * k) 8 (foldl (merge_entry val) (r, b) l).1 =
  if bool_decide (k ∈ l) && negb (Z.testbit (fget (8 * k) 8 r) 7) then fget (8 * k) 8 val else fget (8 * k) 8 r.
Proof.
  intros Hnd Hl Hk. revert r b. induction Hl as [|j l Hj Hl IH]; intros r b; [done|].
  apply NoDup_cons in Hnd as [Hnotin Hnd]. cbn [foldl]. pose proof (pmpcfg_entry_byte j k (fget (8 * j) 8 val) r b Hj Hk) as E.
  fold (merge_entry val (r, b) j) in E. destruct (merge_entry val (r, b) j) as [r1 b1]. simpl in E.
  rewrite (IH Hnd r1 b1), E. destruct (Z.eqb_spec j k) as [->|Hne].
  - rewrite bool_decide_false by done. rewrite bool_decide_true by left. simpl.
    destruct (negb _); [|done]. pose proof (fget_range (8 * k) 8 val ltac:(lia)).
    change 255 with (Z.ones 8). rewrite Z.land_ones, Z.mod_small by lia. done.
  - simpl. rewrite (bool_decide_ext (k ∈ j :: l) (k ∈ l)); [done|]. rewrite elem_of_cons. naive_solver.
Qed.

Lemma pmpcfg_merged_byte val r k : 0 ≤ k < 4 →
  fget (8 * k) 8 (pmpcfg_merged val r).1 =
  if Z.testbit (fget (8 * k) 8 r) 7 then fget (8 * k) 8 r else fget (8 * k) 8 val.
Proof.
  intros Hk. assert (Hnd : NoDup [0; 1; 2; 3]) by (repeat constructor; set_solver).
  rewrite pmpcfg_merged_fold, merge_entry_byte; [|done|repeat constructor; lia|done].
  rewrite bool_decide_true by (assert (E : k = 0 ∨ k = 1 ∨ k = 2 ∨ k = 3) by lia; set_solver).
  by destruct (Z.testbit _ 7).
Qed.

(** A byte that the write keeps stays under any mask. *)
Lemma merge_byte_kept mask old new k : is_u32 old → 0 ≤ k → fget (8 * k) 8 new = fget (8 * k) 8 old →
  fget (8 * k) 8 (merge mask old new) = fget (8 * k) 8 old.
Proof.
  intros Ho Hk E. apply Z.bits_inj'. intros i Hi. rewrite !fget_bit by lia. destruct (Z.ltb_spec i 8); [|done]. simpl.
  assert (Eb : Z.testbit new (i + 8 * k) = Z.testbit old (i + 8 * k)).
  { assert (Hb : Z.testbit (fget (8 * k) 8 new) i = Z.testbit (fget (8 * k) 8 old) i) by (by rewrite E).
    rewrite !fget_bit in Hb by lia. destruct (Z.ltb_spec i 8); [done|lia]. }
  rewrite merge_bit, Eb by (done || lia). by destruct (Z.testbit mask _).
Qed.

(** The write of a configuration register. *)
Lemma pmpcfg_write_cases f mode addr val w r f' w' : pmpcfg_write mode addr val (f, w) = (r, (f', w')) →
  f' = f ∨ ∃ b, (pmpcfg_merged val (cval f addr)).2 = Some b ∧
    f' = masked_write addr (pmpcfg_merged val (cval f addr)).1
           (set_max_pmpcfgi (new_max_pmpcfgi f (addr - PMPCFG_START) b) f).
Proof.
  unfold pmpcfg_write, machine_only. intros H. unfold mbind, M_bind, fail_if in H.
  destruct (bool_decide (mode ≠ RvPrivMode.M)); [left; unfold fail in H; congruence|].
  unfold mret, M_ret, get, lift, system_read, any_read in H. cbn [fst] in H.
  destruct (decide (mode = RvPrivMode.U)); [left; congruence|]. cbv zeta in H.
  change (pmpcfg_entry RvPmpCfgi.r4 RvPmpCfgi.set_r4 _ _) with (pmpcfg_merged val (cval f addr)) in H.
  destruct (pmpcfg_merged val (cval f addr)) as [r' [b|]]; [right|left; congruence].
  exists b. unfold any_write, modify in H. cbn [fst] in *. split; [done|congruence].
Qed.

Section Locked.
Context (f : CsrFile) (Hf : csrs_ok f) (i : Z) (Hi : 0 ≤ i < 64) (Hl : locked f i).

Lemma entry_reg : 0 ≤ i / 4 < 16 ∧ 0 ≤ i mod 4 < 4.
Proof. dlia. Qed.

Lemma locked_cfg_kept mode addr val w r f' w' :
  csr_write mode addr val (f, w) = (r, (f', w')) → entry_cfg f' i = entry_cfg f i.
Proof.
  intros H. destruct entry_reg as [Hr Hk]. pose proof (csr_write_framed addr f mode val (f, w)) as [[Hfr _] _]; [done|].
  rewrite H in Hfr. simpl in Hfr. unfold entry_cfg, cval.
  destruct (decide (addr = PMPCFG_START + i / 4)) as [Ea|Ea].
  - unfold csr_write in H. rewrite Ea, csr_fn_pmpcfg in H by done.
    destruct (_ <? _); [unfold fail in H; congruence|]. apply pmpcfg_write_cases in H as [->|(b & _ & ->)]; [done|].
    rewrite masked_write_lookup, decide_True by done. simpl.
    apply merge_byte_kept; [by apply cval_u32|lia|]. rewrite pmpcfg_merged_byte by done.
    unfold locked, entry_cfg in Hl. by rewrite Hl.
  - rewrite Hfr; [done| |]; [congruence|]. unfold PMPCFG_START, MSTATUS. lia.
Qed.

Lemma locked_addr_kept mode addr val w r f' w' : csr_write mode addr val (f, w) = (r, (f', w')) →
  entry_addr f' i = entry_addr f i ∧ (top_of_range f i → 0 < i → entry_addr f' (i - 1) = entry_addr f (i - 1)).
Proof.
  intros H. pose proof (csr_write_framed addr f mode val (f, w)) as [[Hfr _] _]; [done|].
  rewrite H in Hfr. simpl in Hfr. unfold entry_addr, cval.
  assert (Hne : ∀ j, 0 ≤ j → addr ≠ PMPADDR_START + j → csr f' (PMPADDR_START + j) = csr f (PMPADDR_START + j)).
  { intros j Hj Hne. apply Hfr; [congruence|]. unfold PMPADDR_START, MSTATUS. lia. }
  assert (Hsame : ∀ j, 0 ≤ j < 64 → addr = PMPADDR_START + j →
    (j = i ∨ j + 1 = i ∧ top_of_range f i) → f' = f).
  { intros j Hj Ea Hji. unfold csr_write in H. rewrite Ea, csr_fn_pmpaddr in H by done.
    destruct (_ <? _); [unfold fail in H; congruence|]. unfold pmpaddr_write, machine_only, mbind, M_bind, fail_if in H.
    destruct (bool_decide (mode ≠ _)); [unfold fail in H; congruence|]. unfold mret, M_ret, get in H. cbn [fst] in H.
    rewrite !read_pmpicfg_eq, !lock_eq in H. replace (PMPADDR_START + j - PMPADDR_START) with j in H by lia.
    destruct Hji as [->|[<- Ht]]; [rewrite Hl in H; congruence|].
    destruct (Z.testbit (entry_cfg f j) 7); [congruence|].
    rewrite Hl, addr_mode_cases, Ht, (proj2 (Z.ltb_lt j (PMPCOUNT - 1))) in H by (unfold PMPCOUNT; lia).
    rewrite bool_decide_true in H by done. cbn [andb] in H. congruence. }
  split.
  - destruct (decide (addr = PMPADDR_START + i)) as [Ea|Ea]; [|by rewrite Hne by lia].
    by rewrite (Hsame i Hi Ea ltac:(by left)).
  - intros Ht Hpos. destruct (decide (addr = PMPADDR_START + (i - 1))) as [Ea|Ea]; [|by rewrite Hne by lia].
    by rewrite (Hsame (i - 1) ltac:(lia) Ea ltac:(right; split; [lia|done])).
Qed.

End Locked.

(** A history of accesses, each in its mode. *)
Definition csr_history (s : CsrFile * Shared) (ops : list (RvPrivMode.t * Z * Z)) : CsrFile * Shared :=
  foldl (λ s '(mode, addr, val), (csr_write mode addr val s).2) s ops.

(** What a locked entry is made of. *)
Definition entry_kept (f f' : CsrFile) (i : Z) : Prop :=
  entry_cfg f' i = entry_cfg f i ∧ entry_addr f' i = entry_addr f i ∧
  (top_of_range f i → 0 < i → entry_addr f' (i - 1) = entry_addr f (i - 1)).

Lemma locked_history ops f w i : csrs_ok f → shared_ok w → Forall (λ o, is_u32 o.2) ops → 0 ≤ i < 64 → locked f i →
  entry_kept f (csr_history (f, w) ops).1 i.
Proof.
  intros Hf Hw Hops Hi. revert f w Hf Hw. induction Hops as [|[[mode addr] val] ops Hv Hops IH]; intros f w Hf Hw Hl; [done|].
  cbn [csr_history foldl]. pose proof (csr_write_ok mode addr val Hv (f, w) (conj Hf Hw)) as [[Hf1 Hw1] _].
  destruct (csr_write mode addr val (f, w)) as [r [f1 w1]] eqn:E. cbn [fst snd] in *.
  pose proof (locked_cfg_kept f Hf i Hi Hl mode addr val w r f1 w1 E) as Ec.
  destruct (locked_addr_kept f i Hi Hl mode addr val w r f1 w1 E) as [Ea Et].
  destruct (IH f1 w1 Hf1 Hw1) as (H1 & H2 & H3); [by unfold locked; rewrite Ec|].
  unfold csr_history in H1, H2, H3. split; [congruence|]. split; [congruence|]. intros Ht Hpos.
  rewrite H3; [by apply Et| |done]. unfold top_of_range. by rewrite Ec.
Qed.

(** * The registers in use *)

Definition PMPCFG_MASK : Z := 0x9F9F9F9F.

(** The invariant of the bookkeeping, with what it needs of the registers: their
    mask, reset value, and no bits outside the mask. *)
Record pmp_inv (f : CsrFile) : Prop := {
  pi_ok : pmp_ok f;
  pi_mask j : 0 ≤ j < 16 → csr_mask (csr f (PMPCFG_START + j)) = PMPCFG_MASK;
  pi_default j : 0 ≤ j < 16 → default_val (csr f (PMPCFG_START + j)) = 0;
  pi_bits j : 0 ≤ j < 16 → Z.ldiff (cval f (PMPCFG_START + j)) PMPCFG_MASK = 0
}.

Definition unlocked_reg (r : Z) : Prop := ∀ k, 0 ≤ k < 4 → Z.testbit (fget (8 * k) 8 r) 7 = false.

Lemma highest_nonzero_spec f n : csrs_ok f →
  match highest_nonzero f n with
  | Some m => 0 ≤ m < Z.of_nat n ∧ ∀ i, m < i < Z.of_nat n → cval f (PMPCFG_START + i) = 0
  | None => ∀ i, 0 ≤ i < Z.of_nat n → cval f (PMPCFG_START + i) = 0
  end.
Proof.
  intros Hf. induction n as [|n IH]; simpl highest_nonzero; [intros i Hi; lia|].
  destruct (Z.ltb_spec 0 (cval f (PMPCFG_START + Z.of_nat n))) as [|Hz]; [split; [lia|intros i Hi; lia]|].
  pose proof (cval_u32 f (PMPCFG_START + Z.of_nat n) Hf) as Hu.
  assert (Hn : cval f (PMPCFG_START + Z.of_nat n) = 0) by ulia.
  destruct (highest_nonzero f n) as [m|]; [destruct IH as [Hm IH]; split; [lia|]|];
    intros i Hi; (destruct (decide (i = Z.of_nat n)) as [->|]; [done|apply IH; lia]).
Qed.

(** Without locks, whether a write sets an entry. *)
Lemma merge_entry_set val l r b : NoDup l → Forall (λ j, 0 ≤ j < 4) l →
  (∀ j, j ∈ l → Z.testbit (fget (8 * j) 8 r) 7 = false) → l ≠ [] →
  (foldl (merge_entry val) (r, b) l).2 = Some (default false b || existsb (λ j, 0 <? fget (8 * j) 8 val) l).
Proof.
  intros Hnd Hl. revert r b. induction Hl as [|j l Hj Hl IH]; intros r b Hu Hne; [done|].
  apply NoDup_cons in Hnd as [Hnotin Hnd]. cbn [foldl existsb].
  assert (E : merge_entry val (r, b) j = (fset (8 * j) 8 (fget (8 * j) 8 val) r, Some (default false b || (0 <? fget (8 * j) 8 val)))).
  { unfold merge_entry, pmpcfg_entry. pose proof (lock_eq (fget (8 * j) 8 r)) as Hk. rewrite Hu in Hk by left.
    apply negb_false_iff in Hk. rewrite Hk. by destruct b as [[]|]. }
  rewrite E. destruct l as [|j' l']; [simpl; by rewrite !orb_false_r|].
  rewrite IH; [f_equal; symmetry; apply orb_assoc|done| |done].
  intros k Hk. assert (j ≠ k) by (intros ->; done). rewrite Forall_forall in Hl. pose proof (Hl k Hk).
  rewrite fget_fset_other by lia. apply Hu. by right.
Qed.

Lemma pmpcfg_new_value f j val : csrs_ok f → pmp_inv f → 0 ≤ j < 16 → unlocked_reg (cval f (PMPCFG_START + j)) →
  (∀ k, 0 ≤ k < 4 → fget (8 * k) 8 val = 0) →
  merge PMPCFG_MASK (cval f (PMPCFG_START + j)) (pmpcfg_merged val (cval f (PMPCFG_START + j))).1 = 0.
Proof.
  intros Hf Hp Hj Hu Hz. pose proof (pi_bits _ Hp j Hj) as Hb. pose proof (cval_u32 f (PMPCFG_START + j) Hf) as H32.
  set (r := cval f _) in *. apply Z.bits_inj'. intros i Hi. rewrite merge_bit, Z.bits_0 by done.
  destruct (Z.testbit PMPCFG_MASK i) eqn:Em.
  - assert (Hi32 : i < 32).
    { destruct (decide (i < 32)); [done|]. by rewrite (u32_high_bits PMPCFG_MASK i) in Em by (done || lia). }
    pose proof (pmpcfg_merged_byte val r (i / 8) ltac:(dlia)) as E. rewrite Hu, Hz in E by dlia.
    assert (Hbit : Z.testbit (fget (8 * (i / 8)) 8 (pmpcfg_merged val r).1) (i mod 8) = false) by (by rewrite E, Z.bits_0).
    rewrite fget_bit in Hbit by dlia. rewrite (proj2 (Z.ltb_lt _ _)) in Hbit by dlia.
    by replace (i mod 8 + 8 * (i / 8)) with i in Hbit by dlia.
  - assert (Hbit : Z.testbit (Z.ldiff r PMPCFG_MASK) i = false) by (by rewrite Hb, Z.bits_0).
    rewrite Z.ldiff_spec, Em, andb_true_r in Hbit. exact Hbit.
Qed.

Lemma ldiff_merge mask old v : is_u32 old → Z.ldiff old mask = 0 → Z.ldiff (merge mask old v) mask = 0.
Proof.
  intros Ho Hd. apply Z.bits_inj'. intros i Hi. rewrite Z.ldiff_spec, merge_bit, Z.bits_0 by done.
  destruct (Z.testbit mask i) eqn:E; [by rewrite andb_false_r|].
  assert (Hb : Z.testbit (Z.ldiff old mask) i = false) by (by rewrite Hd, Z.bits_0).
  by rewrite Z.ldiff_spec, E in Hb.
Qed.

Lemma pmpcfg_merged_zero val r : unlocked_reg r → (pmpcfg_merged val r).2 = Some false →
  ∀ k, 0 ≤ k < 4 → fget (8 * k) 8 val = 0.
Proof.
  intros Hu Hb k Hk. assert (Hnd : NoDup [0; 1; 2; 3]) by (repeat constructor; set_solver).
  assert (Hl : Forall (λ j, 0 ≤ j < 4) [0; 1; 2; 3]) by (repeat constructor; lia).
  rewrite pmpcfg_merged_fold, merge_entry_set in Hb; [|done|done| |done].
  2: { intros j Hj. apply Hu. rewrite Forall_forall in Hl. by apply Hl. }
  assert (Hx : existsb (λ j, 0 <? fget (8 * j) 8 val) [0; 1; 2; 3] = false).
  { exact (Some_inj _ _ Hb). }
  assert (Hz : (0 <? fget (8 * k) 8 val) = false).
  { apply not_true_is_false. intros Ht. apply not_true_iff_false in Hx. apply Hx, existsb_exists.
    exists k. split; [simpl; lia|done]. }
  pose proof (fget_range (8 * k) 8 val ltac:(lia)). apply Z.ltb_ge in Hz. lia.
Qed.

(** The mark of the registers in use after a write to register [j]. *)
Lemma new_max_ok f j b : csrs_ok f → pmp_ok f → 0 ≤ j < 16 →
  match new_max_pmpcfgi f j b with None => True | Some m => 0 ≤ m < 16 end ∧
  (b = true → ∃ m, new_max_pmpcfgi f j b = Some m ∧ j ≤ m) ∧
  ∀ i, 0 ≤ i < 16 → i ≠ j → match new_max_pmpcfgi f j b with None => True | Some m => m < i end →
    cval f (PMPCFG_START + i) = 0.
Proof.
  intros Hf [Hm Hu] Hj. unfold new_max_pmpcfgi. destruct b.
  - destruct (max_pmpcfgi f) as [m|]; [destruct (Z.ltb_spec m j)|]; (split; [done|]); split; eauto with lia.
    all: intros i Hi Hne Hlt; apply Hu; [done|]; try done; lia.
  - case_decide as E; [|split; [done|]; split; [done|]; intros i Hi _; by apply Hu].
    rewrite E in *. pose proof (highest_nonzero_spec f (Z.to_nat j) Hf) as Hh.
    destruct (highest_nonzero f (Z.to_nat j)) as [m|]; rewrite Z2Nat.id in Hh by lia.
    + split; [lia|]. split; [done|]. intros i Hi Hne Hlt. destruct (decide (i < j)); [apply Hh; lia|apply Hu; lia].
    + split; [done|]. split; [done|]. intros i Hi Hne _. destruct (decide (i < j)); [apply Hh; lia|apply Hu; lia].
Qed.

Lemma pmpcfg_write_inv f mode j val w r f' w' : csrs_ok f → pmp_inv f → 0 ≤ j < 16 →
  unlocked_reg (cval f (PMPCFG_START + j)) →
  pmpcfg_write mode (PMPCFG_START + j) val (f, w) = (r, (f', w')) → pmp_inv f'.
Proof.
  intros Hf Hp Hj Hu H. apply pmpcfg_write_cases in H as [->|(b & Hb & ->)]; [done|].
  replace (PMPCFG_START + j - PMPCFG_START) with j by lia.
  destruct (new_max_ok f j b Hf (pi_ok _ Hp) Hj) as (Hm & Hset & Hun).
  set (g := masked_write _ _ _).
  assert (Hg : ∀ a, csr g a = if decide (a = PMPCFG_START + j) then
      mkCsr (merge (csr_mask (csr f (PMPCFG_START + j))) (cval f (PMPCFG_START + j))
        (pmpcfg_merged val (cval f (PMPCFG_START + j))).1) (default_val (csr f (PMPCFG_START + j)))
        (csr_mask (csr f (PMPCFG_START + j))) else csr f a)
    by (intros a; exact (masked_write_lookup _ _ (set_max_pmpcfgi (new_max_pmpcfgi f j b) f) a)).
  assert (Hmax : max_pmpcfgi g = new_max_pmpcfgi f j b) by done.
  constructor; [constructor|..].
  - by rewrite Hmax.
  - intros i Hi Hlt. rewrite Hmax in Hlt. unfold cval. rewrite Hg. case_decide as E; [|apply Hun; [done|congruence|done]].
    assert (i = j) by lia. subst i. cbn [csr_val]. rewrite (pi_mask _ Hp) by done.
    destruct b; [destruct (Hset eq_refl) as (m & Em & Hle); rewrite Em in Hlt; lia|].
    apply pmpcfg_new_value; try done. by apply (pmpcfg_merged_zero val (cval f (PMPCFG_START + j))).
  - intros i Hi. rewrite Hg. case_decide as E; [by apply (pi_mask _ Hp)|by apply (pi_mask _ Hp)].
  - intros i Hi. rewrite Hg. case_decide as E; [by apply (pi_default _ Hp)|by apply (pi_default _ Hp)].
  - intros i Hi. unfold cval. rewrite Hg. case_decide as E; [|by apply (pi_bits _ Hp)]. cbn [csr_val].
    rewrite (pi_mask _ Hp) by done. apply ldiff_merge; [by apply cval_u32|by apply (pi_bits _ Hp)].
Qed.

(** Writes to registers keep the bookkeeping, except for the write of a
    configuration register that holds a locked entry. *)
Lemma csr_write_pmp_inv f mode addr val w r f' w' : csrs_ok f → pmp_inv f →
  (∀ j, 0 ≤ j < 16 → addr = PMPCFG_START + j → unlocked_reg (cval f addr)) →
  csr_write mode addr val (f, w) = (r, (f', w')) → pmp_inv f'.
Proof.
  intros Hf Hp Hu H. destruct (decide (PMPCFG_START ≤ addr ≤ PMPCFG_END)) as [Ha|Ha].
  - set (j := addr - PMPCFG_START). assert (Hj : 0 ≤ j < 16) by (unfold j, PMPCFG_START, PMPCFG_END in *; lia).
    assert (Ea : addr = PMPCFG_START + j) by (unfold j; lia). rewrite Ea in *.
    unfold csr_write in H. rewrite csr_fn_pmpcfg in H by done.
    destruct (_ <? _); [unfold fail in H; by replace f' with f by congruence|].
    exact (pmpcfg_write_inv _ _ _ _ _ _ _ _ Hf Hp Hj (Hu j Hj eq_refl) H).
  - pose proof (csr_write_framed addr f mode val (f, w)) as [[Hc Hm] _]; [done|]. rewrite H in Hc, Hm. simpl in Hc, Hm.
    assert (Hmax : max_pmpcfgi f' = max_pmpcfgi f) by (apply Hm; intros E; by apply pmpcfg_range in E).
    assert (Hsame : ∀ j, 0 ≤ j < 16 → csr f' (PMPCFG_START + j) = csr f (PMPCFG_START + j)).
    { intros j Hj. unfold PMPCFG_START, PMPCFG_END, MSTATUS in *. apply Hc; lia. }
    destruct Hp as [[Hx Hun] Hmask Hdef Hbits].
    constructor; [constructor; rewrite Hmax; [done|]|..]; intros j Hj; unfold cval; rewrite Hsame by done;
      [by apply Hun|by apply Hmask|by apply Hdef|by apply Hbits].
Qed.

Lemma pmp_inv_new : pmp_inv csr_file_new.
Proof.
  assert (Hnew : ∀ j, 0 ≤ j < 16 → csr csr_file_new (PMPCFG_START + j) = mkCsr 0 0 PMPCFG_MASK).
  { intros j Hj. assert (Hin : j ∈ seqZ 0 16) by (apply elem_of_seqZ; lia). revert j Hin Hj.
    change (∀ j, j ∈ [0; 1; 2; 3; 4; 5; 6; 7; 8; 9; 10; 11; 12; 13; 14; 15] → 0 ≤ j < 16 →
      csr csr_file_new (PMPCFG_START + j) = mkCsr 0 0 PMPCFG_MASK).
    intros j Hin _. repeat (apply elem_of_cons in Hin as [->|Hin]; [vm_compute; reflexivity|]). by apply elem_of_nil in Hin. }
  constructor; [constructor; [done|]|..]; intros j Hj; unfold cval; by rewrite Hnew.
Qed.

Lemma not_locked f i : ¬ locked f i → Z.testbit (entry_cfg f i) 7 = false.
Proof. unfold locked. by destruct (Z.testbit _ 7). Qed.

#[export] Instance locked_dec f i : Decision (locked f i).
Proof. unfold locked. apply _. Defined.

(** While no entry is locked, the bookkeeping is right after any history. *)
Lemma history_tracked ops f w : csrs_ok f → shared_ok w → Forall (λ o, is_u32 o.2) ops →
  pmp_inv f ∨ (∃ i, 0 ≤ i < 64 ∧ locked f i) →
  let f' := (csr_history (f, w) ops).1 in pmp_inv f' ∨ ∃ i, 0 ≤ i < 64 ∧ locked f' i.
Proof.
  intros Hf Hw Hops. revert f w Hf Hw. induction Hops as [|[[mode addr] val] ops Hv Hops IH]; intros f w Hf Hw Hp; [done|].
  cbn [csr_history foldl]. pose proof (csr_write_ok mode addr val Hv (f, w) (conj Hf Hw)) as [[Hf1 Hw1] _].
  destruct (csr_write mode addr val (f, w)) as [r [f1 w1]] eqn:E. cbn [fst snd] in *. apply (IH f1 w1 Hf1 Hw1).
  assert (Hlock : ∀ i, 0 ≤ i < 64 → locked f i → locked f1 i).
  { intros i Hi Hl. unfold locked. by rewrite (locked_cfg_kept f Hf i Hi Hl mode addr val w r f1 w1 E). }
  destruct (decide (Exists (locked f) (seqZ 0 64))) as [Hx|Hx].
  { apply Exists_exists in Hx as (i & Hi%elem_of_seqZ & Hl). right. exists i. split; [lia|]. apply Hlock; [lia|done]. }
  assert (Hno : ∀ i, 0 ≤ i < 64 → ¬ locked f i).
  { intros i Hi Hl. apply Hx, Exists_exists. exists i. split; [apply elem_of_seqZ; lia|done]. }
  destruct Hp as [Hp|(i & Hi & Hl)]; [left|by destruct (Hno i Hi)].
  refine (csr_write_pmp_inv f mode addr val w r f1 w1 Hf Hp _ E). intros j Hj -> k Hk.
  rewrite <-entry_cfg_packed by done. apply not_locked, Hno. lia.
Qed.

(** * The lock sidestepped *)

(** Zeroes at the entries that are not locked leave nothing set. *)
Lemma merge_entry_zero val l r b : NoDup l → Forall (λ j, 0 ≤ j < 4) l →
  (∀ j, j ∈ l → Z.testbit (fget (8 * j) 8 r) 7 = false → fget (8 * j) 8 val = 0) →
  b = Some false ∨ (b = None ∧ ∃ j, j ∈ l ∧ Z.testbit (fget (8 * j) 8 r) 7 = false) →
  (foldl (merge_entry val) (r, b) l).2 = Some false.
Proof.
  intros Hnd Hl. revert r b. induction Hl as [|j l Hj Hl IH]; intros r b Hz Hb.
  { destruct Hb as [->|(_ & j & Hj & _)]; [done|by apply elem_of_nil in Hj]. }
  apply NoDup_cons in Hnd as [Hnotin Hnd]. cbn [foldl]. unfold merge_entry at 2, pmpcfg_entry.
  pose proof (lock_eq (fget (8 * j) 8 r)) as Hk.
  destruct (RvPmpiCfg.lock (fget (8 * j) 8 r) =? 0); cbn [negb] in Hk.
  - rewrite (Hz j ltac:(left) (eq_sym Hk)). apply IH; [done| |left; by destruct Hb as [->|[-> _]]].
    intros k Hin. assert (j ≠ k) by (intros ->; done). rewrite Forall_forall in Hl. pose proof (Hl k Hin).
    rewrite fget_fset_other by lia. apply Hz. by right.
  - apply IH; [done| |].
    + intros k Hin. apply Hz. by right.
    + destruct Hb as [->|[-> (k & Hin & Hu)]]; [by left|right]. split; [done|]. exists k.
      apply elem_of_cons in Hin as [->|Hin]; [congruence|done].
Qed.

Lemma pmpcfg_write_machine f w addr val r b : pmpcfg_merged val (cval f addr) = (r, Some b) →
  pmpcfg_write RvPrivMode.M addr val (f, w) =
  (Ok tt, (masked_write addr r (set_max_pmpcfgi (new_max_pmpcfgi f (addr - PMPCFG_START) b) f), w)).
Proof.
  intros E. unfold pmpcfg_write, machine_only. rewrite bind_fail_if by done. rewrite bind_get.
  rewrite (bind_lift_ok _ (cval f addr)) by done. cbv zeta.
  change (pmpcfg_entry RvPmpCfgi.r4 RvPmpCfgi.set_r4 _ _) with (pmpcfg_merged val (cval f addr)). by rewrite E.
Qed.

Lemma kept_matches f f' i addr : 0 ≤ i → entry_kept f f' i →
  entry_cfg f' i = entry_cfg f i ∧ entry_matches f' addr i = entry_matches f addr i.
Proof.
  intros Hi (Hc & Ha & Hp). split; [done|]. unfold entry_matches. enough (entry_range f' i = entry_range f i) as -> by done.
  unfold entry_range. rewrite Hc, Ha. destruct (decide (fget 3 2 (entry_cfg f i) = 1)) as [E|E].
  - unfold top_of_range in Hp. rewrite E. destruct (Z.eqb_spec i 0); [done|]. by rewrite Hp by (done || lia).
  - pose proof (fget_range 3 2 (entry_cfg f i) ltac:(lia)) as Hr.
    assert (Ec : fget 3 2 (entry_cfg f i) = 0 ∨ fget 3 2 (entry_cfg f i) = 2 ∨ fget 3 2 (entry_cfg f i) = 3) by lia.
    by destruct Ec as [->|[->| ->]].
Qed.

Lemma first_match_ext f f' addr l :
  (∀ i, i ∈ l → entry_cfg f' i = entry_cfg f i ∧ entry_matches f' addr i = entry_matches f addr i) →
  first_match f' addr l = first_match f addr l.
Proof.
  induction l as [|i l IH]; intros H; [done|]. cbn [first_match]. destruct (H i ltac:(left)) as [-> ->].
  rewrite IH; [done|]. intros k Hk. apply H. by right.
Qed.

Section Sidestep.
Context (f : CsrFile) (w : Shared) (Hf : csrs_ok f) (Hw : shared_ok w) (j val : Z) (Hval : is_u32 val).
Context (Hmax : max_pmpcfgi f = Some j).
Context (Hfree : ∃ k, 0 ≤ k < 4 ∧ ¬ locked f (j * 4 + k)).
Context (Hzero : ∀ k, 0 ≤ k < 4 → ¬ locked f (j * 4 + k) → fget (8 * k) 8 val = 0).
Local Abbreviation f' := ((csr_write RvPrivMode.M (PMPCFG_START + j) val (f, w)).2.1).

Lemma sidestep_reg : 0 ≤ j < 16.
Proof. pose proof (ok_max _ Hf) as H. by rewrite Hmax in H. Qed.

Lemma sidestep_file : ∃ r, f' = masked_write (PMPCFG_START + j) r (set_max_pmpcfgi (highest_nonzero f (Z.to_nat j)) f).
Proof.
  pose proof sidestep_reg as Hj. destruct (pmpcfg_merged val (cval f (PMPCFG_START + j))) as [r b] eqn:E. exists r.
  assert (Hb : b = Some false).
  { change b with (r, b).2. rewrite <-E, pmpcfg_merged_fold. apply merge_entry_zero.
    - repeat constructor; set_solver.
    - repeat constructor; lia.
    - intros k Hk Hu. assert (0 ≤ k < 4) by (repeat (apply elem_of_cons in Hk as [->|Hk]; [lia|]); by apply elem_of_nil in Hk). apply Hzero; [done|].
      unfold locked. rewrite entry_cfg_packed by done. congruence.
    - right. split; [done|]. destruct Hfree as (k & Hk & Hu). exists k.
      split; [rewrite !elem_of_cons; lia|].
      rewrite <-entry_cfg_packed by done. by apply not_locked. }
  subst b. unfold csr_write. rewrite csr_fn_pmpcfg by done.
  rewrite (proj2 (Z.ltb_ge _ _)) by (unfold CSR_COUNT, PMPCFG_START; lia).
  rewrite (pmpcfg_write_machine f w _ val r false E). replace (PMPCFG_START + j - PMPCFG_START) with j by lia.
  unfold new_max_pmpcfgi. by rewrite decide_True.
Qed.

Lemma sidestep_other a : a ≠ PMPCFG_START + j → cval f' a = cval f a.
Proof.
  intros Ha. destruct sidestep_file as [r ->]. unfold cval. by rewrite masked_write_lookup, decide_False.
Qed.

Lemma sidestep_match addr : pmp_match_addr f' addr = Ok (first_match f addr (seqZ 0 (4 * j))).
Proof.
  pose proof sidestep_reg as Hj. assert (Hf' : csrs_ok f').
  { apply (csr_write_ok RvPrivMode.M (PMPCFG_START + j) val Hval (f, w)). by split. }
  rewrite (pmp_match_addr_eq _ Hf' addr). f_equal. transitivity (first_match f' addr (seqZ 0 (4 * j))).
  - assert (Hm : max_pmpcfgi f' = highest_nonzero f (Z.to_nat j)) by (destruct sidestep_file as [r ->]; done).
    pose proof (highest_nonzero_spec f (Z.to_nat j) Hf) as Hh. rewrite Z2Nat.id in Hh by lia.
    unfold pmp_entry, consulted. rewrite Hm. destruct (highest_nonzero f (Z.to_nat j)) as [m|]; symmetry.
    + destruct Hh as [Hm' Hh]. apply first_match_unused; [lia|]. intros i Hi. rewrite sidestep_other by lia. apply Hh. lia.
    + apply (first_match_unused f' addr 0 j); [lia|]. intros i Hi. rewrite sidestep_other by lia. apply Hh. lia.
  - apply first_match_ext. intros i Hi%elem_of_seqZ. apply kept_matches; [lia|]. unfold entry_kept, entry_cfg, entry_addr.
    split_and!; [| |intros _ Hpos]; rewrite sidestep_other by (unfold PMPADDR_START, PMPCFG_START; dlia); done.
Qed.

End Sidestep.
