(* ===== verification/RvProtection.v ===== *)
(** Instructions that touch the control state: accesses to status registers and
    the return from traps against the reference, with the places where the
    emulator differs; and user mode, in which code reaches no status register and
    leaves the control state of the processor alone. *)

From stdpp Require Import gmap.
From S2P Require Import Prelude Bits Memory RvTypes RvDecompress RvAlu Clock Pic RvCsr RvCpu.
From S2P Require Import RvIsa RvAluProofs RvIsaProofs RvInvariants RvMachine RvPmp RvLocks.

(** * Status registers *)

#[export] Instance csr_read_fn_eq_dec : EqDecision csr_read_fn.
Proof. solve_decision. Defined.

Lemma csr_numbers (P : Z → bool) : forallb P (seqZ 0 4096) = true → ∀ a, 0 ≤ a < 4096 → P a = true.
Proof. intros H a Ha. rewrite forallb_forall in H. apply H, list_elem_of_In, elem_of_seqZ. lia. Qed.

(** What the tables of the registers say of each number. *)
Definition csr_facts (a : Z) : bool :=
  let '(r, w) := csr_fn a in
  let plain := bool_decide (r = SystemRead) && bool_decide (w = SystemWrite) in
  (csr_exists a || plain && bool_decide (csrs csr_file_new !! a = None)) &&
  (negb (csr_read_only a) || bool_decide (w = SystemWrite) && (csr_mask (csr csr_file_new a) =? 0)) &&
  match r with
  | MitcntRead => (a =? MITCNT0) || (a =? MITCNT1)
  | MitbRead => (a =? MITB0) || (a =? MITB1)
  | MitctlRead => (a =? MITCTL0) || (a =? MITCTL1)
  | MeihapRead => a =? MEIHAP
  | _ => true
  end &&
  match w with
  | SystemWrite => bool_decide (r = SystemRead) || (a =? MEIHAP)
  | MseccfgWrite | PmpaddrWrite => bool_decide (r = SystemRead)
  | _ => true
  end.

Lemma csr_facts_all a : 0 ≤ a < 4096 → csr_facts a = true.
Proof. apply csr_numbers. vm_compute. reflexivity. Qed.

Lemma merge_same mask x : is_u32 x → merge mask x x = x.
Proof. intros Hx. apply Z.bits_inj'. intros i Hi. rewrite merge_bit by done. by destruct (Z.testbit mask i). Qed.
Lemma merge_none x v : is_u32 x → merge 0 x v = x.
Proof. intros Hx. apply Z.bits_inj'. intros i Hi. rewrite merge_bit by done. by rewrite Z.bits_0. Qed.

(** Writing what a register holds changes nothing. *)
Lemma masked_write_id a v f : merge (csr_mask (csr f a)) (cval f a) v = cval f a → masked_write a v f = f.
Proof.
  intros H. unfold masked_write, set_csrs. destruct f as [m mx t0 t1]. cbn [csrs max_pmpcfgi timer0 timer1] in *. f_equal.
  apply map_eq. intros b. destruct (decide (b = a)) as [->|Hne]; [|by rewrite lookup_alter_ne by congruence].
  rewrite lookup_alter_eq. unfold cval, csr in H. cbn [csrs] in H. destruct (m !! a) as [[v0 d k]|]; [|done].
  simpl in *. unfold merge in H. by rewrite H.
Qed.

Section Csrs.
Context (f : CsrFile) (w : Shared) (Hf : csrs_ok f) (a : Z) (Ha : 0 ≤ a < 4096).

Lemma csr_in_range : (CSR_COUNT - 1 <? a) = false.
Proof. apply Z.ltb_ge. unfold CSR_COUNT. lia. Qed.

Lemma ignored_write v : (csr_fn a).2 = SystemWrite → csr_mask (csr csr_file_new a) = 0 →
  csr_write RvPrivMode.M a v (f, w) = (Ok tt, (f, w)).
Proof.
  intros Hfn Hm. unfold csr_write. rewrite csr_in_range, Hfn. unfold system_write. rewrite bind_fail_if by done.
  unfold any_write, modify. rewrite masked_write_id; [done|].
  rewrite csr_mask_fixed, Hm by done. by apply merge_none, cval_u32.
Qed.

Lemma missing_csr : csr_exists a = false →
  csr_read RvPrivMode.M a f w = Ok 0 ∧ ∀ v, csr_write RvPrivMode.M a v (f, w) = (Ok tt, (f, w)).
Proof.
  intros He. pose proof (csr_facts_all a Ha) as H. unfold csr_facts in H. rewrite He in H.
  destruct (csr_fn a) as [r k] eqn:E. do 3 (apply andb_true_iff in H as [H _]). cbn [orb] in H.
  rewrite !andb_true_iff, !bool_decide_eq_true in H. destruct H as [[-> ->] Hn].
  assert (Hnone : csrs f !! a = None).
  { pose proof (ok_shape _ Hf a) as Hs. unfold shape in Hs. rewrite Hn in Hs. by destruct (csrs f !! a). }
  split; [|intros v; apply ignored_write; [by rewrite E|unfold csr; by rewrite Hn]].
  unfold csr_read. rewrite csr_in_range, E. cbn [fst]. unfold system_read. rewrite decide_False by done.
  unfold any_read, cval, csr. by rewrite Hnone.
Qed.

Lemma read_only_write v : csr_read_only a = true → csr_write RvPrivMode.M a v (f, w) = (Ok tt, (f, w)).
Proof.
  intros Hr. pose proof (csr_facts_all a Ha) as H. unfold csr_facts in H. rewrite Hr in H.
  destruct (csr_fn a) as [r k] eqn:E. do 2 (apply andb_true_iff in H as [H _]). apply andb_true_iff in H as [_ H].
  cbn [negb orb] in H. apply andb_true_iff in H as [->%bool_decide_eq_true Hm%Z.eqb_eq].
  apply ignored_write; [by rewrite E|done].
Qed.

Lemma machine_read_total : a ≠ MEIHAP → ∃ v, csr_read RvPrivMode.M a f w = Ok v.
Proof.
  intros Hne. pose proof (csr_facts_all a Ha) as H. unfold csr_facts in H. unfold csr_read. rewrite csr_in_range.
  destruct (csr_fn a) as [r k]. apply andb_true_iff in H as [H _]. apply andb_true_iff in H as [_ H]. cbn [fst].
  destruct r; try (eexists; reflexivity).
  1-3: unfold machine_read; rewrite decide_True by done; unfold mitcnt_read, mitb_read, mitctl_read;
    apply orb_true_iff in H as [H|H]; rewrite H;
    [|match goal with |- context [if ?b then _ else _] => destruct b end]; eexists; reflexivity.
  by apply Z.eqb_eq in H.
Qed.

Lemma plain_read v : (csr_fn a).1 = SystemRead → csr_read RvPrivMode.M a f w = Ok v → v = cval f a.
Proof.
  intros Hr. unfold csr_read. rewrite csr_in_range, Hr. unfold system_read. rewrite decide_False by done. by intros [= <-].
Qed.

Lemma write_back v : quiet_write (csr_fn a).2 = true → csr_read RvPrivMode.M a f w = Ok v →
  csr_write RvPrivMode.M a v (f, w) = (Ok tt, (f, w)).
Proof.
  intros Hq Hv. pose proof (csr_facts_all a Ha) as H. unfold csr_facts in H. pose proof (plain_read v) as Hp.
  destruct (csr_fn a) as [r k] eqn:E. apply andb_true_iff in H as [_ H]. cbn [fst snd] in *.
  assert (Hsame : r = SystemRead → v = cval f a ∧ masked_write a v f = f).
  { intros Hr. specialize (Hp Hr Hv). split; [done|]. apply masked_write_id. rewrite Hp. by apply merge_same, cval_u32. }
  destruct (decide (a = MEIHAP)) as [Em|Hne].
  { apply ignored_write; rewrite Em; vm_compute; reflexivity. }
  unfold csr_write. rewrite csr_in_range, E. cbn [snd]. destruct k; try done.
  - apply orb_true_iff in H as [Hr%bool_decide_eq_true|?%Z.eqb_eq]; [|done]. destruct (Hsame Hr) as [_ Hs].
    unfold system_write. rewrite bind_fail_if by done. unfold any_write, modify. by rewrite Hs.
  - apply bool_decide_eq_true in H. destruct (Hsame H) as [Hc Hs]. unfold mseccfg_write, machine_only.
    rewrite bind_fail_if by done. unfold read_csr_val. rewrite bind_get, <-Hc, Z.lor_diag. unfold any_write, modify. by rewrite Hs.
  - apply bool_decide_eq_true in H. destruct (Hsame H) as [Hc Hs]. unfold pmpaddr_write, machine_only.
    rewrite bind_fail_if by done. rewrite bind_get. repeat case_match; try done. unfold any_write, modify. by rewrite Hs.
Qed.

End Csrs.

(** ** Instructions on them *)

Section Instructions.
Context {B Event : Type} `{!Bus B Event}.
Context (s : @Cpu B Event) (Hf : csrs_ok (cpu_csrs s)) (Hw : shared_ok (shared s)).

Lemma read_csr_eq mode a : priv_mode s = mode → read_csr a s = (csr_read mode a (cpu_csrs s) (shared s), s).
Proof. intros Hm. unfold read_csr. by rewrite bind_get, Hm. Qed.

Lemma write_csr_ignored a v : priv_mode s = RvPrivMode.M →
  csr_write RvPrivMode.M a v (cpu_csrs s, shared s) = (Ok tt, (cpu_csrs s, shared s)) → write_csr a v s = (Ok tt, s).
Proof. intros Hm H. unfold write_csr. rewrite bind_get, Hm. unfold on_csrs. rewrite H. by destruct s. Qed.

Lemma set_gpr_zero v v' : set_gpr 0 v s = set_gpr 0 v' s.
Proof. done. Qed.

Lemma csr_op_none op old : is_u32 old → op ≠ CSRRW → csr_op op old 0 = old.
Proof.
  intros Ho Hop. destruct op; [done|apply Z.lor_0_r|]. simpl. change (2 ^ 32 - 1 - 0) with (Z.ones 32).
  rewrite Z.land_ones by lia. by apply Z.mod_small.
Qed.

(** An access of the emulator: read, then write, then the destination. *)
Lemma access_csr_eq op rd a operand v : operand s = (Ok v, s) →
  access_csr op rd a operand s = (old ← read_csr a; write_csr a (csr_op op old v);; set_gpr rd old) s.
Proof.
  intros Ho. unfold access_csr, mbind, M_bind. rewrite (read_csr_eq _ a eq_refl).
  destruct (csr_read _ _ _ _); [|done..]. by rewrite Ho.
Qed.

Lemma access_csr_isa op rd a r operand v wd : 0 ≤ a < 4096 → priv_mode s ≠ RvPrivMode.Invalid →
  operand s = (Ok v, s) → (r = 0 → v = 0) →
  access_csr op rd a operand s =
  match csr_deviation op rd a (cop_writes op r) s with
  | Some m => m s
  | None => isa_csr wd op rd a (cop_writes op r) operand s
  end.
Proof.
  intros Ha Hm Ho Hr. rewrite (access_csr_eq op rd a operand v Ho). unfold csr_deviation.
  case_decide as Hu.
  { unfold mbind at 1, M_bind. rewrite (read_csr_eq _ a Hu). unfold csr_read.
    by rewrite csr_in_range by done; destruct (csr_fn a) as [[] ?]. }
  assert (HM : priv_mode s = RvPrivMode.M) by (by destruct (priv_mode s)). clear Hm Hu.
  destruct (csr_exists a) eqn:He; cbn [negb].
  2: { destruct (missing_csr _ (shared s) Hf a Ha He) as [Hrd Hwr]. unfold mbind, M_bind.
       rewrite (read_csr_eq _ a HM), Hrd. by rewrite write_csr_ignored by auto. }
  unfold isa_csr. rewrite bind_get, HM. unfold csr_legal. rewrite He, bool_decide_true by done. cbn [andb orb].
  destruct (cop_writes op r) eqn:Hc; cbn [andb].
  - destruct (csr_read_only a) eqn:Hro; cbn [negb].
    { unfold mbind, M_bind. rewrite (read_csr_eq _ a HM). destruct (csr_read _ _ _ _); [|done..].
      by rewrite write_csr_ignored by (done || by apply read_only_write). }
    unfold mbind, M_bind. rewrite (read_csr_eq _ a HM). destruct (cop_reads op rd) eqn:Hrd.
    + rewrite (read_csr_eq _ a HM). destruct (csr_read _ _ _ _); [|done..]. by rewrite Ho.
    + destruct (machine_read_total (cpu_csrs s) (shared s) a Ha) as [old ->]; [by intros ->|].
      destruct op; try done. apply negb_false_iff, Z.eqb_eq in Hrd. subst rd. cbn [csr_op]. unfold mret, M_ret. rewrite Ho.
      by destruct (write_csr a v s) as [[]].
  - assert (Hop : op ≠ CSRRW) by (by intros ->). assert (Hreads : cop_reads op rd = true) by (by destruct op).
    assert (Hv : v = 0) by (destruct op; [done|apply Hr; by apply negb_false_iff, Z.eqb_eq in Hc..]). subst v.
    assert (Hold : ∀ old, csr_read RvPrivMode.M a (cpu_csrs s) (shared s) = Ok old → csr_op op old 0 = old).
    { intros old E. apply csr_op_none; [by eapply csr_read_u32|done]. }
    cbn [negb]. rewrite Hreads. unfold mbind, M_bind. rewrite (read_csr_eq _ a HM).
    destruct (quiet_write (csr_fn a).2) eqn:Hq; cbv beta iota; rewrite ?(read_csr_eq _ a HM);
      (destruct (csr_read RvPrivMode.M a _ _) as [old| |] eqn:E; [rewrite Hold by done|done..]); [|done].
    by rewrite write_csr_ignored, Ho by (done || by apply write_back).
Qed.

(** The return from a trap. *)
Lemma exec_mret_keeps wd : exec_mret wd s = isa_mret wd (λ st, st) s.
Proof.
  unfold exec_mret, isa_mret. rewrite !bind_get. case_decide as Hu.
  - rewrite bool_decide_true by done. done.
  - rewrite bool_decide_false, bind_fail_if by done. done.
Qed.

Lemma leave_mprv_same st : (fget 11 2 st =? 3) || (fget 17 1 st =? 0) = true → leave_mprv st = st.
Proof.
  unfold leave_mprv. destruct (fget 11 2 st =? 3); [done|]. cbn [orb]. intros H%Z.eqb_eq. rewrite fset_add by (done || lia). apply Z.add_0_r.
Qed.

Lemma isa_mret_same wd : priv_mode s ≠ RvPrivMode.Invalid →
  leave_mprv (cval (cpu_csrs s) MSTATUS) = cval (cpu_csrs s) MSTATUS → isa_mret wd leave_mprv s = isa_mret wd (λ st, st) s.
Proof.
  intros Hm Hl. unfold isa_mret. rewrite !bind_get. case_decide; [done|].
  assert (HM : priv_mode s = RvPrivMode.M) by (by destruct (priv_mode s)).
  assert (E : read_csr MSTATUS s = (Ok (cval (cpu_csrs s) MSTATUS), s)) by (rewrite (read_csr_eq _ _ HM); done).
  by rewrite !(bind_ok _ _ _ _ _ E), Hl.
Qed.

(** ** All instructions *)

Lemma decode_csr_fields wd i : decode_fields wd = Some i →
  match i with
  | CSR _ _ r a | CSRI _ _ r a => r = fget 15 5 wd ∧ a = fget 20 12 wd
  | _ => True
  end.
Proof.
  assert (Hmap : ∀ {A} (g : A → instr) (o : option A), g <$> o = Some i → ∃ x, i = g x).
  { intros A g [x|] E; simplify_eq/=. by exists x. }
  unfold decode_fields. intros E. set (o := fget 0 7 wd) in E. clearbody o.
  repeat (destruct (o =? _) in E;
    [first [injection E as <-; exact I|apply Hmap in E as [? ->]; exact I|idtac]|]); [| | | |done].
  - unfold decode_opi in E. destruct (assoc iop_table _); [injection E as <-; exact I|].
    destruct (assoc2 uop_table _ _); [injection E as <-; exact I|]. by apply Hmap in E as [? ->].
  - unfold decode_op in E. destruct (assoc2 rop_table _ _); [injection E as <-; exact I|].
    destruct (_ && _); [by injection E as <-|done].
  - destruct (_ || _); [by injection E as <-|done].
  - unfold decode_system in E. destruct (fget 12 3 wd =? 0).
    { unfold priv_table in E. cbn [assoc] in E. set (k := fget 20 12 wd) in E. clearbody k.
      repeat (destruct (k =? _) in E; [injection E as <-; exact I|]). discriminate. }
    destruct (fget 12 3 wd <? 4); apply Hmap in E as [? ->]; split; reflexivity.
Qed.

Lemma exec_instr32_isa wd : xregs_ok (xregs s) → priv_mode s ≠ RvPrivMode.Invalid →
  exec_instr32 wd s = match deviation wd s with Some m => m s | None => reference (decode wd) wd s end.
Proof.
  intros Hx Hm. rewrite exec_instr32_emulated by done. unfold deviation, decode.
  destruct (decode_fields wd) as [i|] eqn:Hd; [|done]. pose proof (decode_csr_fields wd i Hd) as Hc.
  pose proof (fget_range 20 12 wd ltac:(lia)) as Ha.
  destruct i; cbn [fixed_fields emulated]; try done; try (by destruct (_ : bool)).
  - rewrite exec_mret_keeps. destruct (_ && _) eqn:E1; [|done]. apply andb_true_iff in E1 as [-> E2].
    cbn [reference isa_exec]. symmetry. apply isa_mret_same; [done|]. by apply leave_mprv_same.
  - destruct Hc as [-> ->]. destruct (gpr_ok (fget 15 5 wd) s (fget_range 15 5 wd ltac:(lia)) Hx) as (v & Hv & E).
    apply (access_csr_isa _ _ _ _ _ v); [done|done|exact E|].
    intros Hz. rewrite Hz in E. unfold read_xreg in E. cbn in E. congruence.
  - destruct Hc as [-> ->]. by apply (access_csr_isa _ _ _ _ _ (fget 15 5 wd)).
Qed.

End Instructions.

(** * User mode *)

Lemma user_csr_read addr f w : csr_read RvPrivMode.U addr f w = Err RvException.illegal_register.
Proof.
  unfold csr_read, system_read, mip_read, machine_read, meihap_read, system_read.
  destruct (_ <? _); [done|]. by destruct (csr_fn addr).1.
Qed.

Lemma mcycle_range addr : (csr_fn addr).2 = McycleWrite → addr = MCYCLE ∨ addr = MCYCLEH.
Proof.
  intros E. destruct (csr_fn_in addr) as [H|(a & b & r & w & Hin & Hr & H)]; rewrite H in E; [done|]. simpl in E. subst w.
  unfold CSR_FN in Hin.
  repeat (apply elem_of_cons in Hin as [Hin|Hin]; [try discriminate; injection Hin as -> -> _; lia|]).
  by apply elem_of_nil in Hin.
Qed.

(** A write is refused, or it is one to the cycle counter, which nothing
    writes. *)
Lemma user_csr_write addr val f w :
  csr_write RvPrivMode.U addr val (f, w) = (Err RvException.illegal_register, (f, w)) ∨
  ((addr = MCYCLE ∨ addr = MCYCLEH) ∧ csr_write RvPrivMode.U addr val (f, w) = (Ok tt, (f, w))).
Proof.
  unfold csr_write. destruct (_ <? _); [by left|]. destruct (csr_fn addr).2 eqn:E; try (by left).
  right. split; [by apply mcycle_range|done].
Qed.

(** The instructions on status registers. *)
Definition is_csr_instr (i : Z) : bool :=
  bool_decide (RvInstr32.opcode i = RvInstr32Opcode.System) &&
  match RvInstr32SystemFunct3.from (RvInstr32I.funct3 i) with
  | RvInstr32SystemFunct3.Priv | RvInstr32SystemFunct3.Invalid => false
  | _ => true
  end.

Section User.
Context {B Event : Type} `{!Bus B Event}.

(** What user code must not touch: status registers, interrupt configuration,
    privilege mode. *)
Definition control (s : @Cpu B Event) :=
  (cpu_csrs s, (nmivec s, ext_int_vec s, global_int_en s, ext_int_en s), deferred_ext_int s, halted s,
   priv_mode s, cpu_args s).

(** Devices on the bus that leave clock, interrupt controller and region
    control alone. *)
Definition bus_quiet : Prop :=
  (∀ size addr (b : B) (w : Shared), (bus_read size addr (b, w)).2.2 = w) ∧
  (∀ size addr val (b : B) (w : Shared), (bus_write size addr val (b, w)).2.2 = w).

(** Reads, writes and instructions that name a status register are refused. *)
Lemma user_access_refused (s : @Cpu B Event) : priv_mode s = RvPrivMode.U →
  (∀ csr, read_csr csr s = (Err RvException.illegal_register, s)) ∧
  (∀ csr val, write_csr csr val s = (Err RvException.illegal_register, s) ∨
    ((csr = MCYCLE ∨ csr = MCYCLEH) ∧ write_csr csr val s = (Ok tt, s))) ∧
  ∀ i, is_csr_instr i = true → exec_instr32 i s = (Err RvException.illegal_register, s).
Proof.
  intros Hu. assert (Hr : ∀ csr, read_csr csr s = (Err RvException.illegal_register, s)).
  { intros csr. unfold read_csr. rewrite bind_get, Hu. unfold read_csr_as. by rewrite user_csr_read. }
  split; [exact Hr|]. split.
  - intros csr val. unfold write_csr. rewrite bind_get, Hu. unfold on_csrs.
    destruct (user_csr_write csr val (cpu_csrs s) (shared s)) as [->|[Hc ->]]; [left|right; split; [done|]]; by destruct s.
  - intros i [Ho Hi]%andb_true_iff. apply bool_decide_eq_true_1 in Ho. unfold exec_instr32, exec_system_instr, exec_csr.
    rewrite Ho. change (RvInstr32I.opcode i) with (RvInstr32.opcode i). unfold assert_opcode.
    rewrite decide_True, bind_mret by done. cbv zeta.
    destruct (RvInstr32SystemFunct3.from _); try done; unfold mbind at 1, M_bind; by rewrite Hr.
Qed.

Context (s0 : @Cpu B Event) (Hu : priv_mode s0 = RvPrivMode.U).

Definition confined (s : @Cpu B Event) : Prop := control s = control s0 ∧ (bus_quiet → shared s = shared s0).

Lemma confined_mode s : confined s → priv_mode s = RvPrivMode.U.
Proof. intros [E _]. unfold control in E. congruence. Qed.

Ltac keep := apply triple_modify; intros s Hs; exact Hs.

Lemma user_read_csr addr : triple confined (read_csr addr) (λ _, False).
Proof.
  intros s Hs. unfold read_csr. rewrite bind_get. split; [done|]. unfold read_csr_as. simpl.
  by rewrite (confined_mode s Hs), user_csr_read.
Qed.

Lemma user_pure {A} (m : MM RvException.t (@Cpu B Event) A) : (∀ s, (m s).2 = s) → triple confined m anything.
Proof. intros H s Hs. by rewrite H. Qed.

Lemma user_write_xreg r v : triple confined (write_xreg r v) anything.
Proof.
  unfold write_xreg. eapply (triple_bind _ _ _ anything); [|intros _ _].
  { case_decide; [|by apply triple_ret]. apply triple_modify. intros s Hs. unfold check_stack.
    by destruct (stack_info s). }
  tri_step; [apply triple_get_any|]. tri_step; [apply triple_lift_any|]. keep.
Qed.

Lemma user_write_next_pc v : triple confined (write_next_pc v) anything.
Proof. keep. Qed.
Lemma user_write_pc v : triple confined (write_pc v) anything.
Proof. keep. Qed.
Lemma user_read_xreg r : triple confined (read_xreg r) anything.
Proof. by apply user_pure. Qed.
Lemma user_assert x y : triple confined (assert_opcode x y) anything.
Proof. unfold assert_opcode. tri. Qed.

Lemma deny_if_pure access addr b (s : @Cpu B Event) : (deny_if access addr b s).2 = s.
Proof. unfold deny_if. destruct b; [|done]. unfold mbind, M_bind, lift. by destruct (access_fault _ _). Qed.

Lemma user_check addr size access : triple confined (check_mem_priv addr size access) anything.
Proof.
  assert (Ha : ∀ addr, triple confined (check_mem_priv_addr addr access) anything).
  { intros a. unfold check_mem_priv_addr, read_csr_machine, read_csr_as.
    assert (Hr : ∀ x, triple confined (λ s, (csr_read RvPrivMode.M x (cpu_csrs s) (shared s), s)) anything)
      by (intros; by apply user_pure).
    tri; try apply Hr; by apply user_pure, deny_if_pure. }
  assert (Hb : ∀ l, triple confined (check_mem_priv_bytes addr access l) anything).
  { induction l as [|i l IH]; simpl; tri; done. }
  unfold check_mem_priv. tri; done.
Qed.

Lemma user_on_bus {A} exc (m : MM BusError (B * Shared) A) :
  (bus_quiet → ∀ b w, (m (b, w)).2.2 = w) → triple confined (on_bus exc m) anything.
Proof.
  intros Hm s [Hc Hw]. unfold on_bus. specialize (λ H, Hm H (cpu_bus s) (shared s)).
  destruct (m _) as [r [b w]]. split; [|done]. split; [exact Hc|]. intros Hq. specialize (Hm Hq). simpl in *. subst w. auto.
Qed.

Lemma user_watch kind addr : triple confined (modify (watch kind addr) : MM RvException.t Cpu unit) anything.
Proof. apply triple_modify. intros s Hs. unfold watch. by destruct (is_execute_instr s). Qed.

Lemma user_read_word exc size addr : triple confined (on_bus exc (bus_read size addr)) anything.
Proof. apply user_on_bus. intros [Hr _]. auto. Qed.

Lemma user_read_bus size addr : triple confined (read_bus size addr) anything.
Proof. unfold read_bus. tri_step; [apply user_watch|]. tri_step; [apply user_check|]. apply user_read_word. Qed.
Lemma user_write_bus size addr v : triple confined (write_bus size addr v) anything.
Proof.
  unfold write_bus. tri_step; [apply user_watch|]. tri_step; [apply user_check|].
  apply user_on_bus. intros [_ Hw]. auto.
Qed.
Lemma user_read_instr size addr : triple confined (read_instr size addr) anything.
Proof.
  unfold read_instr, fetch_bytes. tri_step; [apply user_check|]. destruct size; try apply triple_fail; cbv zeta.
  all: tri_step; [apply user_read_word|]. all: eapply (triple_bind _ _ _ anything); [|intros; by apply triple_ret].
  all: case_match; [tri_step; [apply user_read_word|]|]; by apply triple_ret.
Qed.

#[local] Hint Resolve user_write_xreg user_write_next_pc user_write_pc user_read_xreg user_assert user_read_bus
  user_write_bus user_read_instr : rv_triple.

Lemma user_exec_csr w csr new : triple confined (exec_csr w csr new) anything.
Proof. unfold exec_csr. tri_step; [apply user_read_csr|done]. Qed.

Lemma user_exec_mret w : triple confined (exec_mret w) anything.
Proof.
  intros s Hs. unfold exec_mret. rewrite bind_get, (confined_mode s Hs). split; [done|]. discriminate.
Qed.
#[local] Hint Resolve user_exec_csr user_exec_mret : rv_triple.

Lemma user_exec_instr32 w : triple confined (exec_instr32 w) anything.
Proof.
  unfold exec_instr32, exec_load_instr, exec_op_imm_instr, exec_auipc_instr, exec_store_instr, exec_op_instr,
    exec_lui_instr, exec_branch_instr, exec_jalr_instr, exec_jal_instr, exec_system_instr, exec_fence_instr.
  destruct (RvInstr32.opcode w); tri; done.
Qed.
#[local] Hint Resolve user_exec_instr32 : rv_triple.

Lemma user_exec_instr : triple confined exec_instr anything.
Proof.
  unfold exec_instr, fetch, exec_instr16. tri_step; [keep|].
  eapply (triple_bind _ _ _ anything); [tri; done|intros i _]. do 2 (tri_step; [tri|]). tri_step; [keep|]. tri_step; [case_match; tri|]. do 2 (tri_step; [tri|]).
  tri_step; [keep|]. tri.
Qed.

End User.
