(* ===== verification/RvTraps.v ===== *)
(** Traps: entering one saves program counter, cause, mode and interrupt enable
    and disables interrupts; the return instruction restores them. External
    interrupts record machine mode whatever the mode was. *)

From stdpp Require Import gmap.
From S2P Require Import Prelude Bits Memory RvTypes RvAlu Clock Pic RvCsr RvCpu RvIsa.
From S2P Require Import RvAluProofs RvIsaProofs RvInvariants RvMachine.

Section Traps.
Context {B Event : Type} `{!Bus B Event}.
Implicit Types s : @Cpu B Event.

Definition full_mask : Z := 0xFFFFFFFF.

(** What a trap needs of the machine. *)
Record trap_ready s : Prop := {
  tr_csrs : csrs_ok (cpu_csrs s);
  tr_shared : shared_ok (shared s);
  tr_mode : priv_mode s ≠ RvPrivMode.Invalid
}.

Definition status s : Z := cval (cpu_csrs s) MSTATUS.

Lemma merge_full old v : is_u32 old → is_u32 v → merge full_mask old v = v.
Proof.
  intros Ho Hv. apply Z.bits_inj'. intros i Hi. rewrite merge_bit by done.
  destruct (decide (i < 32)).
  - change full_mask with (Z.ones 32). rewrite ones_bit, (proj2 (Z.ltb_lt i 32)) by lia. done.
  - rewrite (u32_high_bits full_mask), (u32_high_bits old), (u32_high_bits v) by (done || lia). done.
Qed.

(** Registers without a handler of their own. *)
Lemma write_plain a v s : a = MEPC ∨ a = MCAUSE ∨ a = MTVAL →
  write_csr_machine a v s = (Ok tt, set_cpu_csrs (masked_write a v (cpu_csrs s)) s).
Proof. intros [->|[->| ->]]; by destruct s. Qed.

Lemma schedule_runs ticks a f w : shared_ok w → action_ok a → 0 ≤ ticks < HALF →
  ∃ w', schedule ticks a (f, w) = (Ok tt, (f, w')) ∧ shared_ok w'.
Proof.
  intros Hw Ha Ht. pose proof (schedule_in_ok (E:=RvException.t) ticks a w Hw Ha) as Hs.
  destruct (schedule_action_in_ok (E:=RvException.t) ticks a (clock w) (sh_clock _ Hw) Ht) as (h & c' & E & _).
  exists (set_clock c' w). unfold schedule. rewrite E in *. done.
Qed.

Lemma write_status v s : shared_ok (shared s) → RvMStatus.mpp v ≠ RvPrivMode.Invalid →
  ∃ w, on_csrs (csr_write RvPrivMode.M MSTATUS v) s = (Ok tt, set_cpu_csrs (masked_write MSTATUS v (cpu_csrs s)) (set_shared w s)) ∧
    shared_ok w.
Proof.
  intros Hw Hv. unfold on_csrs.
  change (csr_write RvPrivMode.M MSTATUS v (cpu_csrs s, shared s)) with (mstatus_write RvPrivMode.M MSTATUS v (cpu_csrs s, shared s)).
  unfold mstatus_write, read_csr_val. rewrite bind_get, decide_False by done. unfold system_write.
  rewrite bind_assoc, bind_fail_if by done. unfold any_write. rewrite bind_modify, bind_get.
  set (f := masked_write MSTATUS v (cpu_csrs s)).
  destruct (schedule_runs 0 (TimerAction.SetGlobalIntEn (RvMStatus.mie (cval f MSTATUS) =? 1)) f (shared s) Hw I ltac:(done))
    as (w1 & E1 & Hw1).
  destruct (schedule_runs 2 TimerAction.Poll f w1 Hw1 I ltac:(done)) as (w2 & E2 & Hw2).
  exists w2. rewrite (bind_ok _ _ _ tt (f, w1)) by exact E1. by rewrite E2.
Qed.

(** The fields of the status register are writable. *)
Lemma status_field v s o n : csrs_ok (cpu_csrs s) → 0 ≤ o → 0 ≤ n → fget o n 0x00021888 = Z.ones n →
  fget o n (cval (masked_write MSTATUS v (cpu_csrs s)) MSTATUS) = fget o n v.
Proof.
  intros Hf Ho Hn Hm. unfold cval. rewrite masked_write_lookup, decide_True by done. cbn [csr_val].
  rewrite (ok_mstatus _ Hf). apply merge_field; try done. by apply cval_u32.
Qed.

(** ** Entry *)

Record trapped (s0 s : @Cpu B Event) (epc cause info next : Z) : Prop := {
  td_pc : pc s = next;
  td_mode : priv_mode s = RvPrivMode.M;
  td_off : global_int_en s = false ∧ RvMStatus.mie (status s) = 0;
  td_saved : RvMStatus.mpp (status s) = priv_mode s0 ∧ RvMStatus.mpie (status s) = RvMStatus.mie (status s0);
  td_regs : cval (cpu_csrs s) MEPC = epc ∧ cval (cpu_csrs s) MCAUSE = cause ∧ cval (cpu_csrs s) MTVAL = info;
  td_xregs : xregs s = xregs s0;
  td_shared : shared_ok (shared s);
  td_csrs : csrs_ok (cpu_csrs s)
}.

(** The registers after cause and address have been recorded. *)
Definition recorded (epc cause info : Z) (f : CsrFile) : CsrFile :=
  masked_write MTVAL info (masked_write MCAUSE cause (masked_write MEPC epc f)).

Lemma recorded_ok epc cause info f : csrs_ok f → csrs_ok (recorded epc cause info f).
Proof. intros Hf. unfold recorded. by repeat (apply masked_write_ok; [|done]). Qed.

Lemma recorded_csr epc cause info f a : a ≠ MEPC → a ≠ MCAUSE → a ≠ MTVAL → csr (recorded epc cause info f) a = csr f a.
Proof. intros. unfold recorded. by rewrite !masked_write_lookup, !decide_False. Qed.

Lemma recorded_vals epc cause info s : trap_ready s → is_u32 epc → is_u32 cause → is_u32 info →
  let f := recorded epc cause info (cpu_csrs s) in
  cval f MEPC = epc ∧ cval f MCAUSE = cause ∧ cval f MTVAL = info.
Proof.
  intros [Hf _ _] H1 H2 H3. pose proof (λ a, ok_trap_masks _ a Hf) as Hm. pose proof (cval_u32 _ MEPC Hf). pose proof (cval_u32 _ MCAUSE Hf).
  pose proof (cval_u32 _ MTVAL Hf). unfold recorded, cval in *. split_and!.
  - rewrite masked_write_lookup, decide_False, masked_write_lookup, decide_False, masked_write_lookup, decide_True by done.
    cbn [csr_val]. rewrite Hm by auto. by apply merge_full.
  - rewrite masked_write_lookup, decide_False, masked_write_lookup, decide_True by done. cbn [csr_val].
    unfold cval. rewrite masked_write_lookup, decide_False by done. rewrite Hm by auto. by apply merge_full.
  - rewrite masked_write_lookup, decide_True by done. cbn [csr_val]. unfold cval.
    rewrite masked_write_lookup, decide_False, masked_write_lookup, decide_False by done. rewrite Hm by auto.
    by apply merge_full.
Qed.

(** The status word that is written on entry. *)
Definition entry_status (mode : RvPrivMode.t) (st : Z) : Z :=
  let st := RvMStatus.set_mpp mode st in RvMStatus.set_mie 0 (RvMStatus.set_mpie (RvMStatus.mie st) st).

Lemma entry_status_fields mode st : mode ≠ RvPrivMode.Invalid →
  RvMStatus.mpp (entry_status mode st) = mode ∧ RvMStatus.mie (entry_status mode st) = 0 ∧
  RvMStatus.mpie (entry_status mode st) = RvMStatus.mie st.
Proof.
  intros Hm. unfold entry_status. rewrite set_mie_mpp, set_mpie_mpp, mpp_set by done. split; [done|].
  unfold RvMStatus.mie, RvMStatus.mpie, RvMStatus.set_mie, RvMStatus.set_mpie, RvMStatus.set_mpp.
  rewrite fget_fset_same by lia. split; [done|].
  rewrite fget_fset_other, fget_fset_same, fget_fset_other by lia. rewrite Z.land_ones by lia.
  apply Z.mod_small, fget_range. lia.
Qed.

Lemma handle_trap_runs epc cause info next s : trap_ready s →
  ∃ w, shared_ok w ∧
    handle_trap epc cause info next s =
    (Ok tt, set_pc next (set_global_int_en false
      (set_cpu_csrs (masked_write MSTATUS (entry_status (priv_mode s) (status s)) (recorded epc cause info (cpu_csrs s)))
        (set_shared w (set_priv_mode RvPrivMode.M s))))).
Proof.
  intros [Hf Hw Hm]. unfold handle_trap.
  rewrite (bind_ok _ _ _ _ _ (write_plain MEPC epc s ltac:(auto))).
  rewrite (bind_ok _ _ _ _ _ (write_plain MCAUSE cause _ ltac:(auto))).
  rewrite (bind_ok _ _ _ _ _ (write_plain MTVAL info _ ltac:(auto))).
  set (s3 := set_cpu_csrs _ _).
  assert (Est : cval (cpu_csrs s3) MSTATUS = status s) by (unfold cval; exact (f_equal csr_val (recorded_csr epc cause info (cpu_csrs s) MSTATUS ltac:(done) ltac:(done) ltac:(done)))).
  rewrite (bind_ok _ _ _ (status s) s3) by (rewrite <-Est; done).
  rewrite bind_get. change (priv_mode s3) with (priv_mode s).
  pose proof (entry_status_fields (priv_mode s) (status s) Hm) as [Hmpp _].
  destruct (write_status (entry_status (priv_mode s) (status s)) (set_priv_mode RvPrivMode.M s3) Hw) as (w & E & Hw');
    [by rewrite Hmpp|].
  exists w. split; [done|].
  destruct (priv_mode s) eqn:Em; [| |done].
  - rewrite bind_assoc, bind_modify, bind_mret. rewrite (bind_ok _ _ _ _ _ E). done.
  - rewrite bind_mret. assert (Es3 : set_priv_mode RvPrivMode.M s3 = s3) by (unfold s3; destruct s; simpl in *; by subst).
    rewrite Es3 in E. rewrite (bind_ok _ _ _ _ _ E). unfold write_pc. rewrite bind_modify.
    assert (Es : set_priv_mode RvPrivMode.M s = s) by (destruct s; simpl in *; by subst). by rewrite Es.
Qed.


Lemma handle_trap_entry epc cause info next s : trap_ready s → is_u32 epc → is_u32 cause → is_u32 info →
  ∃ s1, handle_trap epc cause info next s = (Ok tt, s1) ∧ trapped s s1 epc cause info next.
Proof.
  intros Hs H1 H2 H3. destruct (handle_trap_runs epc cause info next s Hs) as (w & Hw & E). eexists. split; [exact E|].
  pose proof (recorded_vals epc cause info s Hs H1 H2 H3) as (V1 & V2 & V3). destruct Hs as [Hf _ Hm].
  pose proof (recorded_ok epc cause info (cpu_csrs s) Hf) as Hr.
  pose proof (entry_status_fields (priv_mode s) (status s) Hm) as (F1 & F2 & F3).
  pose proof (status_field (entry_status (priv_mode s) (status s)) (set_cpu_csrs (recorded epc cause info (cpu_csrs s)) s)) as Fld.
  change (cpu_csrs (set_cpu_csrs ?f s)) with f in Fld. specialize (λ o n, Fld o n Hr).
  constructor; try done.
  - split; [done|]. unfold RvMStatus.mie, status in *. simpl. by rewrite Fld by (done || lia).
  - unfold RvMStatus.mpp, RvMStatus.mpie, status in *. simpl. by rewrite !Fld by (done || lia).
  - unfold cval in *. simpl. by rewrite !masked_write_lookup, !decide_False by done.
  - simpl. apply masked_write_ok; [done|]. intros _. by rewrite F1.
Qed.

(** ** Return *)

Lemma mret_runs w s : csrs_ok (cpu_csrs s) → shared_ok (shared s) → priv_mode s = RvPrivMode.M →
  ∃ s', exec_mret w s = (Ok tt, s') ∧ priv_mode s' = RvMStatus.mpp (status s) ∧
    next_pc s' = cval (cpu_csrs s) MEPC ∧ RvMStatus.mie (status s') = RvMStatus.mpie (status s) ∧
    RvMStatus.mpp (status s') = RvPrivMode.U ∧ xregs s' = xregs s ∧ pc s' = pc s.
Proof.
  intros Hf Hw Hm. unfold exec_mret. rewrite bind_get, Hm, bind_fail_if by done.
  unfold read_csr. rewrite bind_assoc, bind_get, Hm.
  rewrite (bind_ok _ _ _ (status s) s) by done. cbv zeta.
  set (st := RvMStatus.set_mpp RvPrivMode.U _). unfold write_csr. rewrite bind_assoc, bind_get, Hm.
  assert (Hst : RvMStatus.mpp st = RvPrivMode.U) by (by apply mpp_set).
  destruct (write_status st s Hw) as (w' & E & Hw'); [by rewrite Hst|]. rewrite (bind_ok _ _ _ _ _ E).
  rewrite bind_assoc, bind_get. set (s1 := set_cpu_csrs _ _).
  change (priv_mode s1) with (priv_mode s). rewrite Hm.
  assert (Ee : cval (cpu_csrs s1) MEPC = cval (cpu_csrs s) MEPC).
  { unfold cval, s1. simpl. by rewrite masked_write_lookup, decide_False. }
  rewrite (bind_ok _ _ _ (cval (cpu_csrs s) MEPC) s1) by (rewrite <-Ee; done).
  eexists. split; [reflexivity|]. split; [done|]. split; [done|]. split; [|split; [|done]].
  - unfold status. simpl. unfold RvMStatus.mie. rewrite status_field by (done || lia). unfold st.
    unfold RvMStatus.set_mpp, RvMStatus.set_mpie, RvMStatus.set_mie.
    rewrite !fget_fset_other, fget_fset_same, Z.land_ones by lia. apply Z.mod_small, fget_range. lia.
  - unfold status. simpl. unfold RvMStatus.mpp. rewrite status_field by (done || lia). exact Hst.
Qed.

(** Mode, program counter and interrupt enable survive a trap and its return. *)
Lemma trap_mret_restores w epc cause info next s : trap_ready s → is_u32 epc → is_u32 cause → is_u32 info →
  ∃ s1 s2, handle_trap epc cause info next s = (Ok tt, s1) ∧ trapped s s1 epc cause info next ∧
    exec_mret w s1 = (Ok tt, s2) ∧ priv_mode s2 = priv_mode s ∧ next_pc s2 = epc ∧
    RvMStatus.mie (status s2) = RvMStatus.mie (status s) ∧ xregs s2 = xregs s.
Proof.
  intros Hs H1 H2 H3. destruct (handle_trap_entry epc cause info next s Hs H1 H2 H3) as (s1 & E1 & T).
  destruct (mret_runs w s1 (td_csrs _ _ _ _ _ _ T) (td_shared _ _ _ _ _ _ T) (td_mode _ _ _ _ _ _ T))
    as (s2 & E2 & R1 & R2 & R3 & _ & R4 & _).
  exists s1, s2. pose proof T as [T1 T2 T3 [T4 T5] [T6 _] T7 T8 T9]. split_and!; try done; congruence.
Qed.

(** ** Sources *)

(** What makes the processor trap, besides external interrupts. *)
Inductive trap_source :=
  | SrcException (e : RvException.t)
  | SrcLocalTimer (timer_id : Z)
  | SrcMachineTimer
  | SrcNmi (cause info : Z).

Definition take_trap (src : trap_source) : MM RvException.t (@Cpu B Event) StepAction :=
  match src with
  | SrcException e => handle_exception e
  | SrcLocalTimer timer_id => handle_internal_timer_local_interrupt timer_id
  | SrcMachineTimer => handle_machine_timer_intteruppt
  | SrcNmi cause info => handle_nmi cause info
  end.

(** Cause and value that each records, and where it goes. *)
Definition source_cause (src : trap_source) : Z :=
  match src with
  | SrcException e => RvExceptionCause.into (RvException.cause e)
  | SrcLocalTimer timer_id => 0x8000001D - timer_id
  | SrcMachineTimer => 0x80000007
  | SrcNmi cause _ => cause
  end.
Definition source_info (src : trap_source) : Z :=
  match src with
  | SrcException e => RvException.info e
  | SrcLocalTimer _ | SrcMachineTimer => 0
  | SrcNmi _ info => info
  end.
Definition source_vector s (src : trap_source) : Z :=
  match src with
  | SrcNmi _ _ => nmivec s
  | _ => 4 * (cval (cpu_csrs s) MTVEC / 4)
  end.

Definition source_ok (src : trap_source) : Prop :=
  match src with
  | SrcException e => is_u32 (RvException.info e)
  | SrcLocalTimer timer_id => timer_id = 0 ∨ timer_id = 1
  | SrcMachineTimer => True
  | SrcNmi cause info => is_u32 cause ∧ is_u32 info
  end.

Lemma source_cause_u32 src : source_ok src → is_u32 (source_cause src) ∧ is_u32 (source_info src).
Proof.
  destruct src as [[c i]|t| |c i]; simpl; [|intros [-> | ->]|..]; try done. intros Hi. split; [|done].
  destruct c; split; vm_compute; congruence.
Qed.

Lemma trap_action_ok_run (m : MM RvException.t (@Cpu B Event) unit) s s1 : m s = (Ok tt, s1) → trap_action m s = (Ok Continue, s1).
Proof. intros H. unfold trap_action. by rewrite (bind_ok _ _ _ _ _ (catch_ok _ _ _ _ H)). Qed.

Lemma mask_vector v : is_u32 v → Z.land v (not_u32 3) = 4 * (v / 4).
Proof.
  intros Hv. rewrite land_not_u32 by done. change 3 with (Z.ones 2). rewrite Z.ldiff_ones_r by lia.
  rewrite Z.shiftr_div_pow2, Z.shiftl_mul_pow2 by lia. change (2 ^ 2) with 4. lia.
Qed.

Lemma take_trap_eq src s : csrs_ok (cpu_csrs s) →
  take_trap src s = trap_action (handle_trap (pc s) (source_cause src) (source_info src) (source_vector s src)) s.
Proof.
  intros Hf. assert (Hv : read_mtvec s = (Ok (4 * (cval (cpu_csrs s) MTVEC / 4)), s)).
  { rewrite <-mask_vector by (by apply cval_u32). done. }
  destruct src; cbn [take_trap]; unfold handle_exception, handle_internal_timer_local_interrupt,
    handle_machine_timer_intteruppt, handle_nmi, read_pc; rewrite bind_get; [by rewrite (bind_ok _ _ _ _ _ Hv)..|done].
Qed.

Lemma source_mret_restores w src s : trap_ready s → is_u32 (pc s) → source_ok src →
  ∃ s1 s2, take_trap src s = (Ok Continue, s1) ∧
    trapped s s1 (pc s) (source_cause src) (source_info src) (source_vector s src) ∧
    exec_mret w s1 = (Ok tt, s2) ∧ priv_mode s2 = priv_mode s ∧ next_pc s2 = pc s ∧
    RvMStatus.mie (status s2) = RvMStatus.mie (status s) ∧ xregs s2 = xregs s.
Proof.
  intros Hs Hpc Hsrc. destruct (source_cause_u32 src Hsrc) as [Hc Hi].
  destruct (trap_mret_restores w (pc s) _ _ (source_vector s src) s Hs Hpc Hc Hi) as (s1 & s2 & E & H).
  exists s1, s2. split; [|done]. rewrite take_trap_eq by apply Hs. by apply trap_action_ok_run.
Qed.

(** ** External interrupts *)

(** The vector table is inside the data memory, and the entry inside the address
    space. *)
Definition vector_inside s (irq : Z) : Prop :=
  let v := ext_int_vec s in let org := cpu_args s in
  org_dccm org ≤ v ∧ v + 128 ≤ org_dccm org + dccm_size org < 2 ^ 32 ∧ v + 4 * irq < 2 ^ 32.

(** The processor when it reads the vector: already in machine mode. *)
Definition claimed (irq : Z) s : @Cpu B Event :=
  set_cpu_csrs (masked_write MEIHAP (RvMEIHAP.set_claimid irq (ext_int_vec s)) (cpu_csrs s)) (set_priv_mode RvPrivMode.M s).

Lemma write_claim v s : write_csr_machine MEIHAP v s = (Ok tt, set_cpu_csrs (masked_write MEIHAP v (cpu_csrs s)) s).
Proof. by destruct s. Qed.

Lemma read_bus_frame size addr s r s' : read_bus size addr s = (r, s') →
  cpu_csrs s' = cpu_csrs s ∧ priv_mode s' = priv_mode s ∧ pc s' = pc s ∧ xregs s' = xregs s.
Proof.
  set (P := λ t : @Cpu B Event, cpu_csrs t = cpu_csrs s ∧ priv_mode t = priv_mode s ∧ pc t = pc s ∧ xregs t = xregs s).
  assert (Hpure : ∀ {A} (m : MM RvException.t (@Cpu B Event) A), (∀ t, (m t).2 = t) → triple P m anything).
  { intros A m Hm t Ht. by rewrite Hm. }
  assert (Ha : ∀ a access, triple P (check_mem_priv_addr a access) anything).
  { intros a access. unfold check_mem_priv_addr, read_csr_machine, read_csr_as.
    assert (Hr : ∀ x, triple P (λ s, (csr_read RvPrivMode.M x (cpu_csrs s) (shared s), s)) anything)
      by (intros; by apply Hpure).
    tri; try apply Hr; apply Hpure; intros t; unfold deny_if; case_match; try done; by destruct access. }
  assert (Hb : ∀ l access, triple P (check_mem_priv_bytes addr access l) anything).
  { intros l access. induction l as [|i l IH]; simpl; tri; done. }
  intros H. enough (Ht : triple P (read_bus size addr) anything) by (destruct (Ht s) as [Hp _]; [done|by rewrite H in Hp]).
  unfold read_bus. tri_step; [apply triple_modify; intros t Ht; unfold watch; by destruct (is_execute_instr t)|].
  tri_step; [unfold check_mem_priv; tri; done|]. intros t Ht. unfold on_bus. by destruct (bus_read _ _ _) as [[] []].
Qed.

Lemma external_int_eq irq s : priv_mode s ≠ RvPrivMode.Invalid → 0 ≤ irq → vector_inside s irq →
  handle_external_int irq s =
  or_fatal (read_bus Word (ext_int_vec s + 4 * irq)) (λ next,
    pc ← read_pc; trap_action (handle_trap pc MACHINE_EXTERNAL_INT 0 next)) (claimed irq s).
Proof.
  intros Hm Hirq (Hlo & Hhi & Hptr). unfold handle_external_int. cbv zeta. rewrite !bind_get.
  rewrite (proj2 (Z.ltb_ge _ _)) by lia. rewrite bind_assoc, (bind_lift_ok _ (ext_int_vec s + 128)).
  2: { unfold checked_add_u32. by rewrite (proj2 (Z.ltb_lt _ _)) by lia. }
  rewrite bind_assoc, (bind_lift_ok _ (org_dccm (cpu_args s) + dccm_size (cpu_args s))).
  2: { unfold checked_add_u32. by rewrite (proj2 (Z.ltb_lt _ _)) by lia. }
  rewrite bind_mret, (proj2 (Z.ltb_ge _ _)) by lia. unfold or_fatal at 1.
  rewrite (bind_ok _ _ _ _ _ (catch_ok (read_csr_machine MSTATUS) s (status s) s eq_refl)). cbv iota. rewrite bind_get.
  assert (Emode : match priv_mode s with
    | RvPrivMode.U => modify (set_priv_mode RvPrivMode.M) | RvPrivMode.M => mret tt
    | RvPrivMode.Invalid => stop Panic end s = (Ok (E:=RvException.t) tt, set_priv_mode RvPrivMode.M s)).
  { destruct (priv_mode s) eqn:E; [done| |done]. destruct s; simpl in *; by subst. }
  rewrite (bind_ok _ _ _ _ _ Emode), (bind_lift_ok _ (ext_int_vec s + 4 * irq)).
  2: { unfold checked_add_u32. by rewrite (proj2 (Z.ltb_lt _ _)) by lia. }
  unfold or_fatal at 1. by rewrite (bind_ok _ _ _ _ _ (catch_ok _ _ _ _ (write_claim _ _))).
Qed.

Lemma claimed_status irq s : status (claimed irq s) = status s.
Proof. unfold status, claimed, cval. simpl. by rewrite masked_write_lookup, decide_False. Qed.

Context (okb : B → Prop) `{!BusTyped okb}.

Lemma claimed_ok irq s : cpu_ok okb s → cpu_ok okb (claimed irq s).
Proof.
  intros []. constructor; try done. simpl. by apply masked_write_ok.
Qed.

(** The trap is entered as from machine mode, whatever the mode was. *)
Lemma external_int_mret irq w s next s' : cpu_ok okb s → 0 ≤ irq → vector_inside s irq →
  read_bus Word (ext_int_vec s + 4 * irq) (claimed irq s) = (Ok next, s') →
  ∃ s1 s2, handle_external_int irq s = (Ok Continue, s1) ∧
    trapped (claimed irq s) s1 (pc s) MACHINE_EXTERNAL_INT 0 next ∧
    exec_mret w s1 = (Ok tt, s2) ∧ priv_mode s2 = RvPrivMode.M ∧ next_pc s2 = pc s ∧
    RvMStatus.mie (status s2) = RvMStatus.mie (status s) ∧ xregs s2 = xregs s.
Proof.
  intros Hs Hirq Hv Hrd. destruct (read_bus_ok okb Word (ext_int_vec s + 4 * irq) (claimed irq s)) as [Hs' _];
    [by apply claimed_ok|]. rewrite Hrd in Hs'.
  destruct (read_bus_frame _ _ _ _ _ Hrd) as (Ec & Em & Ep & Ex).
  assert (Est : status s' = status (claimed irq s)) by (unfold status; by rewrite Ec).
  destruct (trap_mret_restores w (pc s) MACHINE_EXTERNAL_INT 0 next s')
    as (s1 & s2 & E1 & [T1 T2 T3 T4 T5 T6 T7 T8] & E2 & R1 & R2 & R3 & R4); [by destruct Hs'|apply Hs|done|done|].
  exists s1, s2. rewrite Est, Em in T4. rewrite Em in R1. rewrite Est, claimed_status in R3. rewrite Ex in T6, R4.
  split; [|split; [by constructor|done]].
  rewrite external_int_eq by (done || apply Hs). unfold or_fatal. rewrite (bind_ok _ _ _ _ _ (catch_ok _ _ _ _ Hrd)).
  unfold read_pc. rewrite bind_get, Ep. by apply trap_action_ok_run.
Qed.

End Traps.
