(* ===== verification/RvTheorems.v ===== *)
(** The emulated processor: the properties of the whole, with concrete systems on
    which they are exercised. *)

From stdpp Require Import gmap.
From S2P Require Import Prelude Bits Memory RvTypes RvDecompress RvAlu Clock Pic PicProofs.
From S2P Require Import RvCsr RvCpu Buses RvIsa RvAluProofs RvIsaProofs.
From S2P Require Import RvCompressed RvInvariants RvMachine RvSystem RvPmp RvLocks.
From S2P Require Import RvProtection RvTraps.

(** * A small system *)

(** A program in ROM, a RAM and the interrupt controller, behind region access
    control. *)
Definition le16 (z : Z) : list Z := to_le 2 z.
Definition le32 (z : Z) : list Z := to_le 4 z.

(** [addi x1, x0, 5; c.addi x1, 2; lui x2, 1; sw x1, 4(x2); lw x3, 4(x2)]. *)
Definition demo_program : list Z :=
  le32 0x00500093 ++ le16 0x0089 ++ le32 0x00001137 ++ le32 0x00112223 ++ le32 0x00412183.

Definition demo_bus : MracBus (DynamicBus Device) :=
  mkMracBus [mkDev 0 0xFFF (DevRom (demo_program ++ replicate 8 0));
             mkDev 0x1000 0x10FF (DevRam (Ram.new (replicate 16 0)));
             mkDev 0x60000000 0x60004FFF DevPic] true.

Definition demo_args : CpuOrgArgs := mkOrg 0 0x1000 0x40000000 0x1000 0x1000 0x100 0.
Definition demo_shared : Shared := mkShared clock_new pic_new 0.

#[local] Existing Instance device_bus.

Definition demo_cpu (n : nat) : @Cpu (MracBus (DynamicBus Device)) unit :=
  run (replicate n (λ l, l)) (cpu_new demo_bus demo_shared demo_args).

Lemma demo_shared_ok : shared_ok demo_shared.
Proof.
  constructor; [apply clock_new_ok|constructor|]. apply refresh_order_typed.
  constructor; cbn [regs priority_order meipl meip meie mpiccfg meigwctrl regs_new]; try done; by apply Forall_replicate.
Qed.

Lemma demo_bus_ok : bus_ok device_ok (inner demo_bus).
Proof. repeat constructor; done. Qed.

(** * Instructions *)

(** C13. The emulator executes the instruction set: whatever well-typed devices
    are on the bus and however many steps the processor has made since it was
    created, with any order of the actions that fire together, its state is
    well typed, and executing any 32-bit word does exactly what the word means
    as an RV32IM instruction with the Zicsr, Zifencei and bit-manipulation
    extensions, or raises an illegal-instruction exception without effect when
    it means nothing, except for the listed deviations. These are: fields that
    are to be zero are ignored in JALR, ECALL, EBREAK, WFI and MRET; a return to
    user mode keeps MPRV; and on status registers user mode raises another
    exception, a missing register reads as zero, a write to a read-only register
    is ignored, and an instruction that only reads writes the value back, which
    shows in the registers whose handler does more than store. *)
Theorem cpu_executes_isa {B Event : Type} `{!Bus B Event} (okb : B → Prop) `{!BusTyped okb} b w args iters :
  okb b → shared_ok w → is_u32 (reset_vector args) → Forall (λ iter, ∀ l, iter l ≡ₚ l) iters →
  let s := run iters (cpu_new b w args) in
  cpu_ok okb s ∧
  ∀ i, exec_instr32 i s = match deviation i s with Some m => m s | None => reference (decode i) i s end.
Proof.
  intros Hb Hw Hr Hi s. assert (Hs : cpu_ok okb s) by (apply (run_ok okb); [done|by apply cpu_new_ok]).
  split; [done|]. intros i. by apply exec_instr32_isa; destruct Hs.
Qed.

(** On the small system: the program has run, and the next instruction that is
    given to the processor is executed as such. *)
Lemma cpu_executes_isa_witness :
  XRegFile.reg (xregs (demo_cpu 5)) !! 3%nat = Some 7 ∧
  exec_instr32 0x403080B3 (demo_cpu 5) = isa_exec 0x403080B3 (OP SUB 1 1 3) (demo_cpu 5).
Proof.
  split; [vm_compute; reflexivity|].
  destruct (cpu_executes_isa (Event:=unit) (λ b, bus_ok device_ok (inner b)) demo_bus demo_shared demo_args (replicate 5 (λ l, l)))
    as [_ H].
  - exact demo_bus_ok.
  - exact demo_shared_ok.
  - split; [done|]. vm_compute. reflexivity.
  - by apply Forall_replicate.
  - unfold demo_cpu. rewrite H. change (decode 0x403080B3) with (Some (OP SUB 1 1 3)).
    unfold deviation. change (decode_fields 0x403080B3) with (Some (OP SUB 1 1 3)). cbn [fixed_fields reference]. same.
Defined.

(** C20. Compressed instructions: executing a 16-bit word does what the
    instruction means that the C extension abbreviates by it, and a reserved word
    raises an illegal-instruction exception with the word. The one exception is
    the reserved encoding of a jump to register zero, which is executed. *)
Theorem cpu_compressed_isa {B Event : Type} `{!Bus B Event} (s : @Cpu B Event) : xregs_ok (xregs s) →
  (∀ h, 0 ≤ h < 2 ^ 16 → h ≠ C_JR_X0 → exec_instr16 h s = reference (decode_c h) h s) ∧
  decode_c C_JR_X0 = None ∧ exec_instr16 C_JR_X0 s = isa_exec C_JR_X0 (JALR 0 0 0) s.
Proof.
  intros Hs. split; [intros h Hh Hne; by apply exec_instr16_ref|]. split; [vm_compute; reflexivity|].
  unfold exec_instr16. change (decompress_instr C_JR_X0) with (Ok (E:=RvException.t) 0x67).
  rewrite (bind_lift_ok _ 0x67), exec_instr32_emulated by done. done.
Qed.

Lemma cpu_compressed_isa_witness :
  exec_instr16 0x0089 (demo_cpu 1) = isa_exec 0x0089 (OPI ADDI 1 1 2) (demo_cpu 1).
Proof.
  assert (Hx : xregs_ok (xregs (demo_cpu 1))).
  { split; [vm_compute; reflexivity|]. apply (bool_decide_eq_true_1 _). vm_compute. reflexivity. }
  destruct (cpu_compressed_isa (demo_cpu 1) Hx) as [H _].
  rewrite (H 0x0089 ltac:(done) ltac:(done)). change (decode_c 0x0089) with (Some (OPI ADDI 1 1 2)).
  cbn [reference]. same.
Defined.

(** * Protection *)

(** C15. User mode is confined: fetching and executing one instruction in user
    mode, whatever it is and however it ends, leaves the status registers, the
    interrupt configuration and the privilege mode as they were, and clock,
    interrupt controller and region control too unless a device on the bus
    changes them. Every instruction on a status register raises an exception
    and changes nothing; every read is refused, and so is every write but the
    one to the cycle counter, which has no effect in any mode. *)
Theorem cpu_user_confined {B Event : Type} `{!Bus B Event} (s : @Cpu B Event) :
  priv_mode s = RvPrivMode.U →
  (∀ r s', exec_instr s = (r, s') →
    control s' = control s ∧ (bus_quiet (B:=B) (Event:=Event) → shared s' = shared s)) ∧
  (∀ i, is_csr_instr i = true → exec_instr32 i s = (Err RvException.illegal_register, s)) ∧
  (∀ csr, read_csr csr s = (Err RvException.illegal_register, s)) ∧
  ∀ csr val, write_csr csr val s = (Err RvException.illegal_register, s) ∨
    ((csr = MCYCLE ∨ csr = MCYCLEH) ∧ write_csr csr val s = (Ok tt, s)).
Proof.
  intros Hu. destruct (user_access_refused s Hu) as (Hr & Hw & Hi). split; [|done]. intros r s' H.
  destruct (user_exec_instr s Hu s) as [Hc _]; [done|]. by rewrite H in Hc.
Qed.

Lemma cpu_user_confined_witness :
  control (exec_instr (set_priv_mode RvPrivMode.U (demo_cpu 3))).2 = control (set_priv_mode RvPrivMode.U (demo_cpu 3)).
Proof.
  destruct (exec_instr (set_priv_mode RvPrivMode.U (demo_cpu 3))) as [r s'] eqn:E.
  destruct (cpu_user_confined (set_priv_mode RvPrivMode.U (demo_cpu 3))) as [H _]; [reflexivity|exact (proj1 (H r s' E))].
Defined.

(** C14. Memory protection: a load, a store or an instruction fetch reaches the bus
    exactly when for each checked byte the first matching protection entry, of
    the registers that the emulator consults, permits the access to the effective
    mode, by the standard rules or by the enhanced ones when these are enabled; a
    denied access raises the fault for the first denied byte and does not reach
    the bus. An access that no entry matches is denied only to machine mode under
    the allow-list policy. After any history of writes to status registers from
    reset that leaves no entry locked, the first match among the consulted
    entries is the first match among all 64. *)
Theorem cpu_memory_guarded {B Event : Type} `{!Bus B Event} (s : @Cpu B Event) size addr v :
  pmp_state_ok s → 0 ≤ addr → Forall (λ a, a < 2 ^ 32) (checked_bytes size addr) →
  read_bus size addr s =
    guarded s (watch WatchRead addr s) RvMemAccessType.Read size addr (on_bus (bus_exception addr) (bus_read size addr)) ∧
  write_bus size addr v s =
    guarded s (watch WatchWrite addr s) RvMemAccessType.Write size addr
      (on_bus (bus_exception addr) (bus_write size addr v)) ∧
  read_instr size addr s = guarded s s RvMemAccessType.Execute size addr (fetch_bytes size addr) ∧
  ∀ w ops, shared_ok w → Forall (λ o, is_u32 o.2) ops → let f := (csr_history (csr_file_new, w) ops).1 in
    (∀ i, 0 ≤ i < 64 → ¬ locked f i) → ∀ a, pmp_entry f a = pmp_lookup f a.
Proof.
  intros Hs Hz Hb. split; [by apply read_bus_eq|]. split; [by apply write_bus_eq|]. split; [by apply read_instr_eq|].
  intros w ops Hw Hops f Hno a.
  destruct (history_tracked ops csr_file_new w csr_file_new_ok Hw Hops ltac:(left; exact pmp_inv_new)) as [Hp|(i & Hi & Hl)].
  - apply pmp_entry_lookup, Hp.
  - by destruct (Hno i Hi).
Qed.

(** A locked entry without permissions over the first 64 KiB. *)
Definition write_machine (addr val : Z) (f : CsrFile) : CsrFile :=
  (csr_write RvPrivMode.M addr val (f, demo_shared)).2.1.
Definition guarded_csrs : CsrFile := write_machine PMPCFG_START 0x98 (write_machine PMPADDR_START 0x1FFF csr_file_new).

Definition guarded_cpu : @Cpu (MracBus (DynamicBus Device)) unit :=
  set_cpu_csrs guarded_csrs (cpu_new demo_bus demo_shared demo_args).

Lemma write_machine_ok addr val f : csrs_ok f → is_u32 val → csrs_ok (write_machine addr val f).
Proof.
  intros Hf Hv. apply (csr_write_ok _ addr val Hv (f, demo_shared)). split; [done|apply demo_shared_ok].
Qed.

Lemma guarded_cpu_ok : pmp_state_ok guarded_cpu.
Proof. constructor; [|done]. by apply write_machine_ok; [apply write_machine_ok; [apply csr_file_new_ok|]|]. Qed.

(** The load of a word of the program is denied, even to machine mode. *)
Lemma cpu_memory_guarded_witness :
  read_bus Word 4 guarded_cpu = (Err (RvException.load_access_fault 4), guarded_cpu).
Proof.
  destruct (cpu_memory_guarded guarded_cpu Word 4 0 guarded_cpu_ok) as [H _].
  - done.
  - repeat constructor.
  - rewrite H. vm_compute. reflexivity.
Defined.

(** C21. Locked protection entries: whatever is written to whatever status
    registers, in whatever modes, the configuration of a locked entry, its
    address and, when its range starts at the address of the entry before it,
    that address stay as they are. *)
Theorem cpu_pmp_locks f w ops i :
  csrs_ok f → shared_ok w → Forall (λ o, is_u32 o.2) ops → 0 ≤ i < 64 → locked f i →
  entry_kept f (csr_history (f, w) ops).1 i.
Proof. apply locked_history. Qed.

Lemma cpu_pmp_locks_witness :
  entry_kept guarded_csrs
    (csr_history (guarded_csrs, demo_shared) [(RvPrivMode.M, PMPCFG_START, 0x1F); (RvPrivMode.M, PMPADDR_START, 0)]).1 0.
Proof.
  apply cpu_pmp_locks; [apply guarded_cpu_ok|apply demo_shared_ok|by repeat constructor|done|vm_compute; reflexivity].
Defined.

(** C35. The lock can be sidestepped: let the highest configuration register that the
    emulator counts as used hold a locked entry and one that is not locked. A
    write by machine mode to this register with zeroes for the entries that are
    not locked leaves the locked entries in the register, with their
    configuration and ranges, but the emulator no longer counts the register as
    used: matching finds what the entries of the lower registers give, and no
    entry of this register applies to any address. *)
Theorem cpu_pmp_lock_sidestepped f w j val :
  csrs_ok f → shared_ok w → is_u32 val → max_pmpcfgi f = Some j →
  (∃ k, 0 ≤ k < 4 ∧ locked f (j * 4 + k)) → (∃ k, 0 ≤ k < 4 ∧ ¬ locked f (j * 4 + k)) →
  (∀ k, 0 ≤ k < 4 → ¬ locked f (j * 4 + k) → fget (8 * k) 8 val = 0) →
  let f' := (csr_write RvPrivMode.M (PMPCFG_START + j) val (f, w)).2.1 in
  (∀ i, 0 ≤ i < 64 → locked f i →
    locked f' i ∧ entry_kept f f' i ∧ ∀ addr, entry_matches f' addr i = entry_matches f addr i) ∧
  ∀ addr, pmp_match_addr f' addr = Ok (first_match f addr (seqZ 0 (4 * j))).
Proof.
  intros Hf Hw Hv Hm _ Hfree Hzero f'. split; [|intros addr; by apply sidestep_match].
  intros i Hi Hl. assert (Hk : entry_kept f f' i).
  { apply (locked_history [(RvPrivMode.M, PMPCFG_START + j, val)] f w i); [done|done|by apply Forall_singleton|done|done]. }
  split; [unfold locked; by rewrite (proj1 Hk)|]. split; [done|]. intros addr. apply kept_matches; [lia|done].
Qed.

(** The locked entry over the first 64 KiB no longer protects them. *)
Lemma cpu_pmp_lock_sidestepped_witness :
  pmp_match_addr guarded_csrs 4 = Ok (Some 0x98) ∧
  ∀ addr, pmp_match_addr (csr_write RvPrivMode.M (PMPCFG_START + 0) 0 (guarded_csrs, demo_shared)).2.1 addr =
    Ok (first_match guarded_csrs addr (seqZ 0 (4 * 0))).
Proof.
  split; [vm_compute; reflexivity|].
  apply (cpu_pmp_lock_sidestepped guarded_csrs demo_shared 0 0).
  - exact (ps_csrs _ guarded_cpu_ok).
  - exact demo_shared_ok.
  - done.
  - vm_compute. reflexivity.
  - exists 0. split; [lia|vm_compute; reflexivity].
  - exists 1. split; [lia|vm_compute; discriminate].
  - intros k Hk _. by rewrite fget_zero by lia.
Defined.

(** * Traps *)

(** C22. Traps and the return from them. An exception, an interrupt of either timer
    and a non-maskable interrupt end in machine mode at the vector with
    interrupts off, program counter, cause, value, mode and interrupt enable
    recorded; the return instruction then restores the privilege mode, the
    interrupt enable and the program counter. An external interrupt whose vector
    is read is entered in the same way, except that the mode recorded is always
    machine mode, because the code has switched modes before it records: after the
    return a user program that was interrupted runs in machine mode. *)
Theorem cpu_trap_roundtrip {B Event : Type} `{!Bus B Event} (okb : B → Prop) `{!BusTyped okb} (s : @Cpu B Event) w :
  cpu_ok okb s →
  (∀ src, source_ok src → ∃ s1 s2, take_trap src s = (Ok Continue, s1) ∧
    trapped s s1 (pc s) (source_cause src) (source_info src) (source_vector s src) ∧
    exec_mret w s1 = (Ok tt, s2) ∧ priv_mode s2 = priv_mode s ∧ next_pc s2 = pc s ∧
    RvMStatus.mie (status s2) = RvMStatus.mie (status s) ∧ xregs s2 = xregs s) ∧
  (∀ irq next s', 0 ≤ irq → vector_inside s irq →
    read_bus Word (ext_int_vec s + 4 * irq) (claimed irq s) = (Ok next, s') →
    ∃ s1 s2, handle_external_int irq s = (Ok Continue, s1) ∧
      trapped (claimed irq s) s1 (pc s) MACHINE_EXTERNAL_INT 0 next ∧
      exec_mret w s1 = (Ok tt, s2) ∧ priv_mode s2 = RvPrivMode.M ∧ next_pc s2 = pc s ∧
      RvMStatus.mie (status s2) = RvMStatus.mie (status s) ∧ xregs s2 = xregs s).
Proof.
  intros Hs. split.
  - intros src. by apply source_mret_restores; destruct Hs.
  - intros irq next s'. by apply (external_int_mret okb).
Qed.

Definition user_cpu : @Cpu (MracBus (DynamicBus Device)) unit :=
  set_ext_int_vec 0x1000 (set_priv_mode RvPrivMode.U (cpu_new demo_bus demo_shared demo_args)).

(** A user program gets its mode back after an environment call, but not after an
    external interrupt. *)
Lemma cpu_trap_roundtrip_witness :
  priv_mode user_cpu = RvPrivMode.U ∧
  (∃ s1 s2 : Cpu, take_trap (SrcException RvException.environment_call_user) user_cpu = (Ok Continue, s1) ∧
    priv_mode s1 = RvPrivMode.M ∧ exec_mret 0x30200073 s1 = (Ok tt, s2) ∧ priv_mode s2 = RvPrivMode.U) ∧
  ∃ s1 s2 : Cpu, handle_external_int 1 user_cpu = (Ok Continue, s1) ∧
    exec_mret 0x30200073 s1 = (Ok tt, s2) ∧ priv_mode s2 = RvPrivMode.M ∧ next_pc s2 = pc user_cpu.
Proof.
  assert (Hok : cpu_ok (λ b, bus_ok device_ok (inner b)) user_cpu).
  { pose proof (cpu_new_ok (Event:=unit) (λ b, bus_ok device_ok (inner b)) demo_bus demo_shared demo_args
      demo_bus_ok demo_shared_ok ltac:(done)) as []. by constructor. }
  split; [done|]. destruct (cpu_trap_roundtrip (λ b, bus_ok device_ok (inner b)) user_cpu 0x30200073 Hok) as [H1 H2]. split.
  - destruct (H1 (SrcException RvException.environment_call_user)) as (s1 & s2 & E1 & [_ T _ _ _ _ _ _] & E2 & M & _);
      [split; done|].
    exists s1, s2. split; [exact E1|]. split; [exact T|]. split; [exact E2|exact M].
  - destruct (read_bus Word (ext_int_vec user_cpu + 4 * 1) (claimed 1 user_cpu)) as [r s'] eqn:E.
    assert (Hr : r = Ok 0) by (apply (f_equal fst) in E; revert E; vm_compute; congruence). subst r.
    destruct (H2 1 0 s') as (s1 & s2 & E1 & _ & E2 & M & N & _); [lia|repeat split; vm_compute; congruence|exact E|].
    exists s1, s2. split; [exact E1|]. split; [exact E2|]. split; [exact M|exact N].
Defined.

(** * Time and interrupts *)

(** C34. The clock refines a timer of unbounded time: for every program of up to
    2^64 operations that schedule actions, cancel scheduled ones and advance the
    clock, each operation fires exactly the actions that the timer fires: every
    action whose deadline lies in the interval, that was not cancelled and has
    not fired before, and no others, also across wraps of the 64-bit counter;
    an interval of half the range of the counter or more panics. *)
Theorem clock_refines_timer {E : Type} ops :
  Forall clock_op_ok ops → Z.of_nat (length ops) ≤ 2 ^ 64 →
  match timer_run ops timer_new with
  | Some outs => ∃ outs', clock_run (E:=E) ops [] clock_new = Ok outs' ∧ Forall2 (λ fs fs', ∀ a, a ∈ fs ↔ a ∈ fs') outs' outs
  | None => clock_run (E:=E) ops [] clock_new = Abort Panic
  end.
Proof. intros Hops Hlen. by apply clock_run_refines; [|exact clock_new_sim|]. Qed.

(** Three advances pass the end of the counter; the cancelled action does not
    fire, the other one does when its time has come. *)
Definition demo_timers : list clock_op :=
  [Advance (HALF - 1); Advance (HALF - 1); Schedule 10 TimerAction.Halt; Schedule 7 TimerAction.Poll; Cancel 1;
   Advance 9; Advance 1].

Lemma clock_refines_timer_witness : ∃ outs,
  clock_run (E:=unit) demo_timers [] clock_new = Ok outs ∧
  Forall2 (λ fs fs', ∀ a, a ∈ fs ↔ a ∈ fs') outs [[]; []; []; []; []; []; [TimerAction.Halt]].
Proof.
  apply (clock_refines_timer (E:=unit) demo_timers); [|done].
  repeat (apply Forall_cons; split; [first [exact I|split; [by apply Z.leb_le|by apply Z.ltb_lt]]|]). constructor.
Defined.

(** C33. The interrupt controller: after any history of line changes and register
    writes, other than writes to the pending words themselves, the interrupt
    that it reports above a threshold of at most 15 is the one to serve: it is
    pending and enabled, its priority level is above the threshold, and every
    other such interrupt has a less urgent level, or the same level and a
    larger number, where larger levels are more urgent unless the configuration
    reverses the order. It reports none exactly when there is no such
    interrupt. A threshold above 15 fails the assertion of the code. *)
Theorem pic_reports_most_urgent {E} es t :
  Forall pic_event_ok es → 0 ≤ t →
  let p := foldl pic_handle pic_new es in
  (t ≤ 15 → ∃ o, highest_priority_irq (E:=E) t p = Ok o ∧ ∀ irq, o = Some irq ↔ irq_to_serve (regs p) t irq) ∧
  (15 < t → highest_priority_irq (E:=E) t p = Abort Panic).
Proof.
  intros Hes Ht p. split.
  - intros Hle. destruct (highest_priority_irq_spec (E:=E) t p (pic_history_ok es Hes) Hle) as (o & Ho & Hirq).
    exists o. split; [done|]. intros irq. rewrite Hirq. apply irq_to_serve_iff; [by apply pic_history_reserved|done].
  - intros Hlt. unfold highest_priority_irq. by rewrite (proj2 (Z.leb_gt t MAX_PRIORITY) Hlt).
Qed.

Definition demo_events : list pic_event :=
  [WriteReg Word 20 7; WriteReg Word 24 9; WriteReg Word 0x2014 1; WriteReg Word 0x2018 1; SetLevel 5 true;
   SetLevel 6 true].

Lemma pic_reports_most_urgent_witness : ∃ o,
  highest_priority_irq (E:=unit) 8 (foldl pic_handle pic_new demo_events) = Ok o ∧
  ∀ irq, o = Some irq ↔ irq_to_serve (regs (foldl pic_handle pic_new demo_events)) 8 irq.
Proof. apply (pic_reports_most_urgent demo_events 8); [repeat constructor; done|done|done]. Defined.
